(* ===== verification/_CoqProject ===== *)
-Q . S2P
Prelude.v
Mmu.v
Mem.v
Bootloader.v
BootloaderSpec.v
CString.v
Printfmt.v
PrintSpec.v
Pages.v
PageTable.v
AddrSpace.v
UserMem.v
Console.v
KState.v
Lapic.v
EntryPgdir.v
Mpconfig.v
Boot.v
BootCheck.v
Env.v
Kdebug.v
EnvVm.v
EnvSpec.v
Spinlock.v
Syscall.v
SyscallSpec.v
KSpace.v
BootSpec.v
BootInv.v
SelfTest.v
MemInit.v
SyscallInv.v
Trap.v
Typing.v
Steady.v
Init.v
TrapSpec.v
Isolation.v
Fatal.v
LoadSpec.v
LapicSpec.v
InitSpec.v
StartSpec.v
Monitor.v
MonitorSpec.v
UserLib.v
UserCalls.v
UserSpec.v
PgfaultSpec.v
UserStack.v
Duppage.v
ForkLoop.v
ForkSpec.v
Dumbfork.v
