(* ===== verification/Prelude.v ===== *)
(** * Verification of the JOS kernel, its boot loader and its user library

    The program is the MIT JOS teaching kernel (lab 4, symmetric
    multiprocessing and preemptive multitasking) with an extension of its own,
    "challenge 1": user handlers for every processor exception, a queue of
    senders that wait for a receiver, colours on the console and commands of
    the monitor that show and change page permissions.  This library is a
    shallow embedding of its C code.  C functions are Rocq functions of the same
    name, written over explicit state; loops are structural or carry fuel.

    ** How code is modelled

    A piece of code is a computation of the monad [M S A] of this file: from a
    state it either returns ([Ret]) or never does ([Stop], with a reason of type
    [stop]: a panic, the switch to user mode of an environment, the halt of the
    CPU, a wait that cannot end, or behaviour that C leaves undefined).  So "the
    code does not panic and is defined" is part of every theorem that says an
    operation is [Ret].  Integers of the code are [Z] in the range of
    their type; arithmetic that can leave the range is wrapped where C wraps it
    ([w32], [w16], [s32]).  A [lens] runs an operation on a component of the
    state in the whole.

    Memory is a map from physical addresses to bytes, read and written in
    little-endian words.  A kernel pointer is a virtual address from KERNBASE
    on, and is translated by subtraction, as mem_init maps it.  User memory is
    reached through the page directory in %cr3, by the translation of
    [KState.v].  Environments, pages and CPUs are named by their index in
    their array; the free lists are the linked lists of the code.

    ** The parts, from the bottom up (each in its source's terms)

    - [Mmu.v], [Mem.v], [CString.v]: inc/mmu.h, inc/memlayout.h, inc/types.h,
      inc/error.h; lib/string.c.
    - [Bootloader.v]: boot/main.c.  [BootloaderSpec.v] shows that bootmain puts
      the image of the disk where its program headers say.
    - [Printfmt.v]: lib/printfmt.c and the three putch functions; [PrintSpec.v]
      bounds snprintf and reads numbers back with strtol.
    - [Pages.v], [PageTable.v]: kern/pmap.c, the page allocator and two-level
      page tables.  [AddrSpace.v] is their specification: an address space is
      a partial map from page numbers to entries ([pte_of]), [vm_inv] is the
      invariant of all address spaces together (tables are not shared, the free
      list holds unused pages, counts cover mappings), and page_insert,
      page_remove and page_lookup implement insertion, deletion and lookup in
      one of the maps.  [UserMem.v]: user_mem_check.
    - [Console.v]: kern/console.c, kern/picirq.c.  The devices are part of the
      state: bytes that wait to be read, and a log of port writes.
    - [KState.v]: the state [ks] of the kernel: page tables, environments, CPUs,
      the big kernel lock, the console, the descriptor tables.  [Lapic.v]:
      kern/lapic.c.  [EntryPgdir.v]: kern/entrypgdir.c.  [Mpconfig.v]:
      kern/mpconfig.c.
    - [Boot.v], [BootCheck.v], [SelfTest.v], [BootSpec.v], [BootInv.v],
      [MemInit.v]: mem_init of kern/pmap.c, with all its self tests (which are
      shown to pass), the address space it builds, and the invariant it
      establishes.
    - [Env.v]: kern/env.c and kern/sched.c.  [EnvVm.v] and [EnvSpec.v] prove
      creation, destruction and scheduling; [LoadSpec.v] the loading of
      programs.
    - [Spinlock.v]: kern/spinlock.c with all CPUs interleaved at each access to
      the lock, as a step relation; the atomic lock of [KState.v] is refined by
      it.  Everything else runs under that lock, one CPU at a time.
    - [Syscall.v]: kern/syscall.c.  [SyscallSpec.v] gives each system call its
      effect; [KSpace.v] states the invariant of the kernel between two entries
      and [SyscallInv.v] shows that every system call keeps it.
    - [Trap.v]: kern/trap.c; [TrapSpec.v] the delivery of exceptions and the
      results of system calls; [Typing.v] the types of all fields as an
      invariant of traps; [Steady.v] what no trap changes.  [Isolation.v] puts
      them together: a CPU that runs programs is a step relation (a program
      stores a byte through its page tables, or traps with any registers), and
      the invariant of the kernel holds in every state it reaches.  [Fatal.v]
      says which traps destroy the program, and that the others do not notice.
    - [Init.v], [LapicSpec.v], [InitSpec.v], [StartSpec.v]: kern/init.c, from
      reset of the bss to the first instruction in user mode.
    - [Kdebug.v]: kern/kdebug.c.  [Monitor.v], [MonitorSpec.v]: kern/monitor.c
      and lib/readline.c, against an interface ([LineIO]) of the console.
    - [UserLib.v]: lib/syscall.c, lib/fork.c, lib/ipc.c, lib/exit.c and the
      handler registrations.  Its system call stub runs the model of the
      kernel's trap on the frame the int instruction pushes, so what follows
      composes user and kernel code: [UserCalls.v] (each stub), [UserSpec.v]
      (registration of handlers), [PgfaultSpec.v] (the copy-on-write fault
      handler), [UserStack.v] (the stores of a program on its stack, and the
      fault of such a store from the instruction through the kernel and
      lib/pfentry.S back to it), [Duppage.v], [ForkLoop.v] and [ForkSpec.v]
      (fork).  [Dumbfork.v]: user/dumbfork.c, a program on top of the library
      that copies its pages into a child.

    Two programs are modelled with the stores of the compiled code on its stack,
    fork and dumbfork, because such a store faults once fork has made the page
    of the stack copy-on-write: [push] of [UserLib.v] stands before each call.
    Which bytes it stores is a parameter, of which the theorems only ask that
    they lie between two offsets [lo] and [hi] of the stack's page ([stack_use]).
    The theorems say nothing of those bytes, and everything of the others.

    ** What the theorems show

    - The kernel is isolated from the programs: [Isolation.kernel_isolated].
      Its guards ([civil]) are the ones the code lacks: reference counts have to
      stay below 65535, the permission bits of two system calls below the frame
      number, and the table of environments must not have been run through; and
      two panics remain possible, that of sys_page_alloc and a page fault of the
      kernel itself (in writing the frame of an exception, or in reading the
      string of sys_cputs, of which the kernel reads one character more than it
      has checked, and which it does not check at all if its end wraps round).
      It is about one CPU; the others are kept out by the lock.
    - A program that traps for a reason the kernel does not accept is destroyed
      and nothing else is: [Fatal.fatal_trap_destroys].
    - Invariants and types: [SyscallInv.syscall_preserves_kernel],
      [MemInit.boot_establishes_kernel], [EnvSpec.env_alloc_creates],
      [Typing.traps_keep_types].
    - Refinement of abstract specifications: [AddrSpace.page_insert_refines],
      [AddrSpace.page_remove_refines], [EnvSpec.env_free_releases],
      [SyscallSpec.sys_page_map_shares], [BootloaderSpec.bootmain_loads],
      [Spinlock.lock_kernel_atomic], [MonitorSpec.readline_edits] (a line
      editor).
    - Composition of user and kernel code: [TrapSpec.trap_delivers],
      [TrapSpec.trap_syscall_returns], [UserSpec.set_handler_registers],
      [PgfaultSpec.pgfault_copies], [ForkSpec.fork_copies_on_write],
      [Dumbfork.dumbfork_copies_eagerly].
    - Functional behaviour, bounds, round trips and errors of the rest:
      [UserMem.user_mem_check_decides], [PrintSpec.print_scan_roundtrip],
      [PrintSpec.vsnprintf_bounded], [Console.cputchar_on_screen] and others.
    - Termination and liveness: [StartSpec.i386_init_runs] (the kernel comes
      up), [EnvSpec.sched_yield_picks], [Kdebug.stab_binsearch_finds],
      [Spinlock.spin_lock_live].
    - Behaviour that is not what the comments promise is proved as it is, for
      example [SyscallInv.sys_page_alloc_forges] (permission bits outside
      PTE_SYSCALL reach the page number), [UserMem.user_mem_check_decides]
      (ranges that wrap round are not checked), [SyscallSpec.sys_page_alloc_spec]
      (a positive error, and a panic), [Kdebug.stab_binsearch_finds] (the stab
      of a higher address), [TrapSpec.self_runnable_runs_twice]
      (one environment on two CPUs), [SyscallSpec.ipc_send_queues] (a failed
      send queues the sender) and [Pages.page_free_tail_undetected].

    ** Fuel

    Loops over a range run with the number of their iterations, computed as the
    code's bounds give it.  The fuel of the string routines, of vprintfmt, of
    the search loops of kern/kdebug.c and of the monitor's loops is an argument
    or a bound on the data; running out of it is [Stop SLoop], and the theorems
    say how much is enough: their result is [Ret] from that amount on.  A wait
    for another party (a device, another CPU, the scheduler when all
    environments are blocked) stops with [SLoop] or [SHalt] when what it waits
    for cannot happen in the state it is in.

    ** Parameters

    What the kernel finds in devices and in assembly is a parameter of the
    definitions that use it: the IDE disk (with the laws of the ATA protocol the
    loader needs), the CMOS, the registers that the local interrupt controllers
    answer with, the number of polls until another CPU has started, the
    addresses of the entry points of kern/trapentry.S, lib/pfentry.S and the
    other wrappers, the addresses the linker gives to kernel and programs, the
    bytes that compiled user code keeps on its stack.

    ** Not modelled

    - Assembly: boot/boot.S, kern/entry.S, kern/mpentry.S, kern/trapentry.S, the
      entry and return sequences of the user handlers other than lib/pfentry.S
      ([pgfault_upcall] of [UserLib.v]).  Where they hand over to C code, the
      model starts with the frame they built.
    - The memory of the user library's own variables: the handler pointers and
      thisenv are components of the state [us] of [UserLib.v], not bytes of a
      page, so that what is said of the bytes of pages is not said of theirs.
      Nor are the stores of the page fault handler on the exception stack
      modelled, other than the frame; no theorem states the contents of that
      page after a fault.
    - The addresses kernel code uses before mem_init loads kern_pgdir are those
      of entry_pgdir, which covers the first 4MB; [EntryPgdir.v] proves that
      the two agree there, and the checks of the free list that reorder it so
      that only this part is touched are in [BootCheck.v].  Kernel
      pointers in between are not checked one by one.
    - Each CPU has a page directory register of its own only while the boot CPU
      waits for it ([on_cpu] of [Init.v]); everywhere else the state has one
      %cr3, that of the CPU which holds the lock.
    - TLBs: invlpg is a log.  The programs run at user addresses through the
      page tables as they are.
    - kern/cpu.h's and inc/x86.h's inline assembly appears as the effect it has
      (ltr, lidt, lcr3, in and out); the boot CPU is number 0.
    - The programs of user/ other than the fork of user/dumbfork.c: they print
      between calls of the library, or consist of one faulting instruction,
      which is a trap of [Fatal.v] or of [TrapSpec.v].  Also the build and
      grading scripts. *)
From Stdlib Require Export ZArith Lia.
From stdpp Require Export base strings numbers gmap list.

#[global] Open Scope Z_scope.

(** * Outcomes of kernel code

    A piece of kernel code run from state [s] either returns to its caller
    ([Ret a s']) or never does ([Stop w s']): it panics, leaves the kernel
    for an environment, halts the CPU, drops into the monitor, or does
    something C gives no meaning to. *)

Inductive stop : Type :=
| SPanic (msg : string)      (* panic(msg), kern/init.c:_panic *)
| SUndef (what : string)     (* the C program has no defined behaviour here *)
| SRun (e : Z)               (* env_pop_tf: user code of envs[e] runs *)
| SHalt                      (* sched_halt: this CPU executes hlt *)
| SMonitor                   (* the kernel monitor loop *)
| SFault (va : Z)            (* user code touches an address that is not mapped for it *)
| SLoop.                     (* a wait loop whose condition cannot change *)

#[export] Instance stop_eq_dec : EqDecision stop.
Proof. solve_decision. Defined.

Inductive outcome (S A : Type) : Type :=
| Ret (a : A) (s : S)
| Stop (w : stop) (s : S).
Arguments Ret {S A} a s.
Arguments Stop {S A} w s.

Definition M (S A : Type) : Type := S → outcome S A.

#[export] Instance M_ret S : MRet (M S) := λ A a s, Ret a s.
#[export] Instance M_bind S : MBind (M S) := λ A B k m s,
  match m s with
  | Ret a s' => k a s'
  | Stop w s' => Stop w s'
  end.

Definition get {S} : M S S := λ s, Ret s s.
Definition gets {S A} (f : S → A) : M S A := λ s, Ret (f s) s.
Definition modify {S} (f : S → S) : M S unit := λ s, Ret tt (f s).
Definition stop_with {S A} (w : stop) : M S A := λ s, Stop w s.
Definition panic {S A} (msg : string) : M S A := stop_with (SPanic msg).
Definition undef {S A} (what : string) : M S A := stop_with (SUndef what).

(** [if (b) m;] *)
Definition when {S} (b : bool) (m : M S unit) : M S unit := if b then m else mret tt.

(** [for (i = a; n iterations; i += step) body(i)] *)
Fixpoint for_range {S} (n : nat) (a step : Z) (body : Z → M S unit) : M S unit :=
  match n with
  | O => mret tt
  | Datatypes.S n => body a ;; for_range n (a + step) step body
  end.

(** A component of a larger state, and the lifting of an operation on the
    component to the whole. *)
Record lens (S T : Type) : Type := Lens { view : S → T; update : T → S → S }.
Arguments Lens {S T} view update.
Arguments view {S T} l s.
Arguments update {S T} l t s.

Definition lift {S T A} (l : lens S T) (m : M T A) : M S A := λ s,
  match m (view l s) with
  | Ret a t => Ret a (update l t s)
  | Stop w t => Stop w (update l t s)
  end.

(** C truth of an integer expression. *)
Definition ctrue (z : Z) : bool := negb (z =? 0).

Lemma ctrue_spec z : ctrue z = true ↔ z ≠ 0.
Proof. unfold ctrue. rewrite negb_true_iff, Z.eqb_neq. reflexivity. Qed.
Lemma ctrue_false z : ctrue z = false ↔ z = 0.
Proof. unfold ctrue. rewrite negb_false_iff, Z.eqb_eq. reflexivity. Qed.

(** ** Reasoning rules *)

(** [wp m Q E s]: run from [s], [m] either returns with [Q] or stops with [E]. *)
Definition wp {S A} (m : M S A) (Q : A → S → Prop) (E : stop → S → Prop) (s : S) : Prop :=
  match m s with
  | Ret a s' => Q a s'
  | Stop w s' => E w s'
  end.

Section wp_rules.
Context {S : Type}.

Lemma bind_unfold {A B} (m : M S A) (k : A → M S B) s :
  (m ≫= k) s = match m s with Ret a s' => k a s' | Stop w s' => Stop w s' end.
Proof. reflexivity. Qed.

Lemma bind_Ret {A B} (m : M S A) (k : A → M S B) s a s' :
  m s = Ret a s' → (m ≫= k) s = k a s'.
Proof. intros H. rewrite bind_unfold, H. reflexivity. Qed.

Lemma bind_Stop {A B} (m : M S A) (k : A → M S B) s w s' :
  m s = Stop w s' → (m ≫= k) s = Stop w s'.
Proof. intros H. rewrite bind_unfold, H. reflexivity. Qed.

Lemma bind_Ret_inv {A B} (m : M S A) (k : A → M S B) s b s' :
  (m ≫= k) s = Ret b s' → ∃ a s1, m s = Ret a s1 ∧ k a s1 = Ret b s'.
Proof. rewrite bind_unfold. destruct (m s); [eauto | discriminate]. Qed.

(** The value returned, when the states are large. *)
Lemma Ret_value {A} (a b : A) (s t : S) : Ret a s = Ret b t → a = b.
Proof. intros [= E _]. exact E. Qed.

Lemma bind_gets {A B} (f : S → A) (k : A → M S B) s : (gets f ≫= k) s = k (f s) s.
Proof. reflexivity. Qed.
Lemma bind_get {B} (k : S → M S B) s : (get ≫= k) s = k s s.
Proof. reflexivity. Qed.
Lemma bind_modify {B} (f : S → S) (k : unit → M S B) s : (modify f ≫= k) s = k tt (f s).
Proof. reflexivity. Qed.
Lemma bind_mret {A B} (a : A) (k : A → M S B) s : (mret a ≫= k) s = k a s.
Proof. reflexivity. Qed.
Lemma bind_stop {A B} w (k : A → M S B) s : (stop_with w ≫= k) s = Stop w s.
Proof. reflexivity. Qed.
Lemma bind_assoc {A B C} (m : M S A) (k : A → M S B) (k' : B → M S C) s :
  ((m ≫= k) ≫= k') s = (m ≫= (λ a, k a ≫= k')) s.
Proof. rewrite !bind_unfold. destruct (m s); reflexivity. Qed.
Lemma mret_run {A} (a : A) (s : S) : mret (M := M S) a s = Ret a s.
Proof. reflexivity. Qed.

Lemma wp_bind {A B} (m : M S A) (k : A → M S B) Q E s :
  wp (m ≫= k) Q E s ↔ wp m (λ a s', wp (k a) Q E s') E s.
Proof. unfold wp. rewrite bind_unfold. destruct (m s); reflexivity. Qed.

Lemma wp_Ret {A} (m : M S A) Q E s a s' : m s = Ret a s' → Q a s' → wp m Q E s.
Proof. unfold wp. intros ->. auto. Qed.

(** A loop whose body always returns and preserves an indexed invariant. *)
Lemma for_range_inv (I : Z → S → Prop) body step n a s :
  I a s →
  (∀ k s, 0 ≤ k < Z.of_nat n → I (a + k * step) s →
    ∃ s', body (a + k * step) s = Ret tt s' ∧ I (a + (k + 1) * step) s') →
  ∃ s', for_range n a step body s = Ret tt s' ∧ I (a + Z.of_nat n * step) s'.
Proof.
  revert a s. induction n as [|n IH]; intros a s HI Hb.
  - exists s. split; [reflexivity|]. replace (a + Z.of_nat 0 * step) with a by lia. exact HI.
  - destruct (Hb 0 s) as (s1 & E & HI1);
      [lia|replace (a + 0 * step) with a by lia; exact HI|].
    replace (a + 0 * step) with a in E by lia.
    destruct (IH (a + step) s1) as (s' & E' & HI').
    + replace (a + step) with (a + (0 + 1) * step) by lia. exact HI1.
    + intros k s2 Hk. replace (a + step + k * step) with (a + (k + 1) * step) by lia.
      replace (a + step + (k + 1) * step) with (a + (k + 1 + 1) * step) by lia.
      apply Hb. lia.
    + exists s'. cbn [for_range]. rewrite (bind_Ret _ _ _ _ _ E). split; [exact E'|].
      replace (a + Z.of_nat (Datatypes.S n) * step) with (a + step + Z.of_nat n * step) by lia.
      exact HI'.
Qed.

(** A loop that runs past idle iterations into one that does not return. *)
Lemma for_range_first (body : Z → M S unit) a step n s w s' m : 0 ≤ m < Z.of_nat n →
  (∀ k, 0 ≤ k < m → body (a + k * step) s = Ret (S := S) tt s) →
  body (a + m * step) s = Stop w s' → for_range n a step body s = Stop w s'.
Proof.
  revert a m. induction n as [|n IH]; intros a m Hm Hi Hs; [lia|]. cbn [for_range].
  destruct (Z.eq_dec m 0) as [->|].
  - replace (a + 0 * step) with a in Hs by lia. rewrite (bind_Stop _ _ _ _ _ Hs). reflexivity.
  - pose proof (Hi 0 ltac:(lia)) as E0. replace (a + 0 * step) with a in E0 by lia.
    rewrite (bind_Ret _ _ _ _ _ E0). apply (IH (a + step) (m - 1)); [lia| |].
    + intros k Hk. replace (a + step + k * step) with (a + (k + 1) * step) by lia. apply Hi. lia.
    + replace (a + step + (m - 1) * step) with (a + m * step) by lia. exact Hs.
Qed.

Lemma for_range_idle (body : Z → M S unit) a step n s :
  (∀ k, 0 ≤ k < Z.of_nat n → body (a + k * step) s = Ret tt s) →
  for_range n a step body s = Ret tt s.
Proof.
  intros H. destruct (for_range_inv (λ _ s', s' = s) body step n a s eq_refl) as (s' & E & ->); [|exact E].
  intros k s1 Hk ->. exists s. auto.
Qed.

Lemma wp_ret {A} (a : A) Q E (s : S) : wp (mret a) Q E s ↔ Q a s.
Proof. reflexivity. Qed.

Lemma wp_mono {A} (m : M S A) (Q Q' : A → S → Prop) (E E' : stop → S → Prop) s :
  wp m Q E s → (∀ a s', Q a s' → Q' a s') → (∀ w s', E w s' → E' w s') → wp m Q' E' s.
Proof. unfold wp. destruct (m s); eauto. Qed.
Lemma wp_conseq {A} (m : M S A) (Q Q' : A → S → Prop) (E : stop → S → Prop) s :
  wp m Q E s → (∀ a s', Q a s' → Q' a s') → wp m Q' E s.
Proof. intros H HQ. eapply wp_mono; [exact H|exact HQ|tauto]. Qed.
End wp_rules.

Create Rewrite HintDb mrun.
#[export] Hint Rewrite @bind_gets @bind_get @bind_modify @bind_mret @bind_stop @bind_assoc
  @mret_run : mrun.

(** [mrun] executes the administrative steps of a monadic program;
    [mstep H] executes its first call with the equation [H]; [minv H]
    inverts a successful run of a sequence. *)
Ltac mrun := repeat first [progress autorewrite with mrun | progress cbn [when ctrue Z.eqb negb]].
Tactic Notation "mstep" uconstr(H) :=
  first [erewrite bind_Ret by (eapply H; eauto) | erewrite bind_Stop by (eapply H; eauto)];
  cbv beta iota.
Ltac minv H :=
  let a := fresh "a" in let s := fresh "s" in let H1 := fresh H in
  apply bind_Ret_inv in H as (a & s & H1 & H).

(** * Machine integers *)

Definition w32 (z : Z) : Z := z mod 2 ^ 32.          (* uint32_t, uintptr_t, size_t *)
Definition w16 (z : Z) : Z := z mod 2 ^ 16.          (* uint16_t *)
Definition w8 (z : Z) : Z := z mod 2 ^ 8.            (* uint8_t *)
Definition w64 (z : Z) : Z := z mod 2 ^ 64.          (* unsigned long long *)

(** Conversion to a signed type, in two's complement. *)
Definition s32 (z : Z) : Z := let u := z mod 2 ^ 32 in if u <? 2 ^ 31 then u else u - 2 ^ 32.
Definition s64 (z : Z) : Z := let u := z mod 2 ^ 64 in if u <? 2 ^ 63 then u else u - 2 ^ 64.

Definition u32_range (z : Z) : Prop := 0 ≤ z < 2 ^ 32.

Lemma w32_id z : u32_range z → w32 z = z.
Proof. intros. apply Z.mod_small. assumption. Qed.
Lemma w32_range z : u32_range (w32 z).
Proof. apply Z.mod_pos_bound. lia. Qed.
Lemma w16_id z : 0 ≤ z < 2 ^ 16 → w16 z = z.
Proof. intros. apply Z.mod_small. assumption. Qed.
Lemma w16_range z : 0 ≤ w16 z < 2 ^ 16.
Proof. apply Z.mod_pos_bound. lia. Qed.
Lemma w8_range z : 0 ≤ w8 z < 2 ^ 8.
Proof. apply Z.mod_pos_bound. lia. Qed.
Lemma w8_id z : 0 ≤ z < 2 ^ 8 → w8 z = z.
Proof. intros. apply Z.mod_small. assumption. Qed.
Lemma s32_id z : - 2 ^ 31 ≤ z < 2 ^ 31 → s32 z = z.
Proof.
  intros. unfold s32. destruct (Z_lt_le_dec z 0).
  - replace (z mod 2 ^ 32) with (z + 2 ^ 32)
      by (rewrite <- (Z.mod_add z 1) by lia; rewrite Z.mod_small; lia).
    destruct (Z.ltb_spec (z + 2 ^ 32) (2 ^ 31)); lia.
  - rewrite Z.mod_small by lia. destruct (Z.ltb_spec z (2 ^ 31)); lia.
Qed.
Lemma s32_w32 z : - 2 ^ 31 ≤ z < 2 ^ 31 → s32 (w32 z) = z.
Proof. intros Hz. rewrite <- (s32_id z Hz) at 2. unfold s32, w32. rewrite Z.mod_mod by discriminate. reflexivity. Qed.
Lemma s32_range z : - 2 ^ 31 ≤ s32 z < 2 ^ 31.
Proof.
  unfold s32. pose proof (Z.mod_pos_bound z (2 ^ 32)).
  destruct (Z.ltb_spec (z mod 2 ^ 32) (2 ^ 31)); lia.
Qed.

(** A shifted value combined with one that fits below it is their sum. *)
Lemma shiftl_lor_low hi x k : 0 ≤ k → 0 ≤ x < 2 ^ k →
  Z.lor (Z.shiftl hi k) x = Z.shiftl hi k + x.
Proof.
  intros Hk Hx. enough (Z.land (Z.shiftl hi k) x = 0)
    by (pose proof (Z.add_lor_land (Z.shiftl hi k) x); lia).
  apply Z.bits_inj'. intros i Hi. rewrite Z.land_spec, Z.bits_0.
  destruct (Z_lt_le_dec i k); [rewrite Z.shiftl_spec_low by lia; reflexivity|].
  rewrite andb_comm. destruct (Z.eq_dec x 0) as [->|]; [rewrite Z.bits_0; reflexivity|].
  rewrite Z.bits_above_log2; [reflexivity|lia|].
  apply Z.log2_lt_pow2; [lia|]. pose proof (Z.pow_le_mono_r 2 k i). lia.
Qed.

(** A decidable proposition, by computation. *)
Ltac decided := refine (bool_decide_unpack _ _); vm_compute; exact I.

Create HintDb jos.
#[export] Hint Resolve w32_range w16_range w8_range s32_range : jos.

(** Splits the booleans of the goal and of the hypotheses that are
    comparisons of integers. *)
Ltac zcases :=
  repeat match goal with
  | |- context [?a =? ?b] => destruct (Z.eqb_spec a b)
  | |- context [?a <? ?b] => destruct (Z.ltb_spec a b)
  | |- context [?a <=? ?b] => destruct (Z.leb_spec a b)
  | |- context [?a >? ?b] => destruct (Z.gtb_spec a b)
  | |- context [?a >=? ?b] => destruct (Z.geb_spec a b)
  end.

(** [bsplit] turns boolean hypotheses into propositions. *)
Ltac bsplit :=
  repeat match goal with
  | H : andb _ _ = true |- _ => apply andb_true_iff in H as [? ?]
  | H : orb _ _ = false |- _ => apply orb_false_iff in H as [? ?]
  | H : negb _ = true |- _ => apply negb_true_iff in H
  | H : negb _ = false |- _ => apply negb_false_iff in H
  | H : (_ =? _) = true |- _ => apply Z.eqb_eq in H
  | H : (_ =? _) = false |- _ => apply Z.eqb_neq in H
  | H : (_ <? _) = true |- _ => apply Z.ltb_lt in H
  | H : (_ <? _) = false |- _ => apply Z.ltb_ge in H
  | H : (_ <=? _) = true |- _ => apply Z.leb_le in H
  | H : (_ <=? _) = false |- _ => apply Z.leb_gt in H
  end.

(** The first index with a decidable property. *)
Lemma first_such (P : Z → Prop) `{∀ i, Decision (P i)} (n : nat) :
  (∃ m, 0 ≤ m < Z.of_nat n ∧ P m ∧ ∀ j, 0 ≤ j < m → ¬ P j) ∨ (∀ j, 0 ≤ j < Z.of_nat n → ¬ P j).
Proof.
  induction n as [|n [(m & ? & ? & ?)|IH]]; [right; lia|left; exists m; split; [lia|auto]|].
  destruct (decide (P (Z.of_nat n))) as [Hp|Hp].
  - left. exists (Z.of_nat n). split; [lia|auto].
  - right. intros j Hj. destruct (Z.eq_dec j (Z.of_nat n)) as [->|]; [assumption|apply IH; lia].
Qed.

(** * Counting *)

Section count.
Context {A : Type}.
Implicit Types (f g : A → bool) (l : list A).

(** How many elements of [l] satisfy [f]. *)
Fixpoint countb f l : Z :=
  match l with
  | [] => 0
  | x :: l => Z.b2z (f x) + countb f l
  end.

Lemma countb_nonneg f l : 0 ≤ countb f l.
Proof. induction l as [|x l IH]; simpl; [lia|]. destruct (f x); simpl; lia. Qed.

Lemma countb_length f l : countb f l ≤ Z.of_nat (length l).
Proof. induction l as [|x l IH]; simpl; [lia|]. destruct (f x); simpl; lia. Qed.

Lemma countb_ext f g l : (∀ x, x ∈ l → f x = g x) → countb f l = countb g l.
Proof.
  induction l as [|x l IH]; intros H; simpl; [reflexivity|].
  rewrite (H x (list_elem_of_here _ _)), IH; [reflexivity|].
  intros y Hy. apply H. apply list_elem_of_further. assumption.
Qed.

Lemma countb_zero f l : (∀ x, x ∈ l → f x = false) → countb f l = 0.
Proof.
  intros H. rewrite (countb_ext f (λ _, false)) by assumption.
  induction l as [|x l IH]; simpl; [reflexivity|].
  apply IH. intros y Hy. apply H, list_elem_of_further, Hy.
Qed.

Lemma countb_zero_inv f l x : countb f l = 0 → x ∈ l → f x = false.
Proof.
  induction l as [|y l IH]; intros E Hx; [inversion Hx|]. simpl in E.
  pose proof (countb_nonneg f l). apply elem_of_cons in Hx as [->|Hx].
  - destruct (f y); simpl in *; lia.
  - apply IH; [destruct (f y); simpl in *; lia|assumption].
Qed.

Lemma countb_pos f l x : x ∈ l → f x = true → 1 ≤ countb f l.
Proof.
  intros Hx Hf. pose proof (countb_nonneg f l).
  destruct (Z.eq_dec (countb f l) 0) as [E|]; [|lia].
  rewrite (countb_zero_inv _ _ _ E Hx) in Hf. discriminate.
Qed.

(** Changing the predicate at one element changes the count there only. *)
Lemma countb_update f g l x : NoDup l → x ∈ l → (∀ y, y ∈ l → y ≠ x → f y = g y) →
  countb g l = countb f l - Z.b2z (f x) + Z.b2z (g x).
Proof.
  induction 1 as [|y l Hy Hnd IH]; intros Hx H; [inversion Hx|]. simpl.
  apply elem_of_cons in Hx as [->|Hx].
  - rewrite (countb_ext g f l); [lia|].
    intros z Hz. symmetry. apply H; [apply list_elem_of_further; assumption|congruence].
  - rewrite IH by first [assumption | intros; apply H; [apply list_elem_of_further|]; assumption].
    rewrite (H y (list_elem_of_here _ _)) by congruence. lia.
Qed.

Lemma countb_app f l1 l2 : countb f (l1 ++ l2) = countb f l1 + countb f l2.
Proof. induction l1 as [|x l IH]; simpl; [reflexivity|]. rewrite IH. lia. Qed.

Lemma countb_le f g l : (∀ x, x ∈ l → f x = true → g x = true) → countb f l ≤ countb g l.
Proof.
  induction l as [|x l IH]; intros H; simpl; [lia|].
  assert (countb f l ≤ countb g l) by (apply IH; intros y Hy; apply H, list_elem_of_further, Hy).
  pose proof (H x (list_elem_of_here _ _)). destruct (f x), (g x); simpl; lia.
Qed.

(** One element fewer. *)
Lemma countb_drop `{EqDecision A} f g l a : NoDup l → a ∈ l → g a = false →
  (∀ x, x ∈ l → g x = true → f x = true) → countb g l ≤ countb f l - Z.b2z (f a).
Proof.
  intros Hl Ha Hg H. set (h := λ x, if decide (x = a) then false else f x).
  assert (countb h l = countb f l - Z.b2z (f a)) as <-.
  { rewrite (countb_update f h l a Hl Ha); [unfold h; rewrite decide_True by reflexivity; simpl; lia|].
    intros y _ Hy. unfold h. rewrite decide_False by exact Hy. reflexivity. }
  apply countb_le. intros x Hx Hgx. unfold h. case_decide as D; [congruence|]. auto.
Qed.

End count.

Lemma countb_fmap {A B} (h : B → A) (f : A → bool) (l : list B) : countb f (h <$> l) = countb (λ x, f (h x)) l.
Proof. induction l as [|x l IH]; simpl; [reflexivity|]. f_equal. exact IH. Qed.

(** The product of two duplicate-free lists. *)
Lemma elem_of_list_prod {A B} (l : list A) (k : list B) x y :
  (x, y) ∈ list_prod l k ↔ x ∈ l ∧ y ∈ k.
Proof. rewrite !list_elem_of_In. apply List.in_prod_iff. Qed.
Lemma NoDup_list_prod {A B} (l : list A) (k : list B) :
  NoDup l → NoDup k → NoDup (list_prod l k).
Proof.
  intros Hl Hk. induction Hl as [|x l Hx Hl IH]; simpl; [constructor|].
  apply NoDup_app. split; [|split; [|assumption]].
  - change (NoDup (pair x <$> k)). apply NoDup_fmap; [intros ?? [=]; assumption|assumption].
  - intros [y z] Hy Hz. apply elem_of_list_prod in Hz as [Hz _].
    apply list_elem_of_fmap in Hy as (? & [= -> ->] & _). contradiction.
Qed.

(** An array given by a function of the index. *)
Lemma lookup_seqZ_map {A} (f : Z → A) n i :
  (list_to_map ((λ i, (i, f i)) <$> seqZ 0 n) : gmap Z A) !! i = if decide (0 ≤ i < n) then Some (f i) else None.
Proof.
  assert (((λ i, (i, f i)) <$> seqZ 0 n).*1 = seqZ 0 n) as E.
  { rewrite <- list_fmap_compose. cbn. rewrite (list_fmap_ext _ id); [apply list_fmap_id|reflexivity]. }
  case_decide as D.
  - apply elem_of_list_to_map_1; [rewrite E; apply NoDup_seqZ|].
    apply list_elem_of_fmap. exists i. split; [reflexivity|]. apply elem_of_seqZ. lia.
  - apply not_elem_of_list_to_map_1. rewrite E, elem_of_seqZ. lia.
Qed.
