(* ===== verification/Mmu.v ===== *)
(** The x86 paging constants and address macros of inc/mmu.h, the memory
    layout of inc/memlayout.h, the rounding macros of inc/types.h and the
    error codes of inc/error.h.  The lemmas relate the shift-and-mask forms
    of the source to division and modulo, and compute the fields of the
    page table entries the kernel builds. *)
From S2P Require Import Prelude.

(** * inc/mmu.h *)

Definition PGSIZE : Z := 4096.
Definition PGSHIFT : Z := 12.
Definition NPDENTRIES : Z := 1024.
Definition NPTENTRIES : Z := 1024.
Definition PTSIZE : Z := PGSIZE * NPTENTRIES.
Definition PTXSHIFT : Z := 12.
Definition PDXSHIFT : Z := 22.

Definition PGNUM (la : Z) : Z := Z.shiftr (w32 la) PTXSHIFT.
Definition PDX (la : Z) : Z := Z.land (Z.shiftr (w32 la) PDXSHIFT) 0x3FF.
Definition PTX (la : Z) : Z := Z.land (Z.shiftr (w32 la) PTXSHIFT) 0x3FF.
Definition PGOFF (la : Z) : Z := Z.land (w32 la) 0xFFF.
Definition PGADDR (d t o : Z) : Z :=
  Z.lor (Z.lor (w32 (Z.shiftl d PDXSHIFT)) (Z.shiftl t PTXSHIFT)) o.

Definition PTE_P : Z := 0x001.
Definition PTE_W : Z := 0x002.
Definition PTE_U : Z := 0x004.
Definition PTE_PWT : Z := 0x008.
Definition PTE_PCD : Z := 0x010.
Definition PTE_AVAIL : Z := 0xE00.
Definition PTE_SYSCALL : Z := Z.lor (Z.lor (Z.lor PTE_AVAIL PTE_P) PTE_W) PTE_U.

Definition PTE_ADDR (pte : Z) : Z := Z.land (w32 pte) (Z.lnot 0xFFF).

Definition FL_IF : Z := 0x200.
Definition FEC_PR : Z := 1.
Definition FEC_WR : Z := 2.
Definition FEC_U : Z := 4.

(** * inc/types.h *)

Definition ROUNDDOWN (a n : Z) : Z := let a' := w32 a in a' - a' mod n.
Definition ROUNDUP (a n : Z) : Z := ROUNDDOWN (w32 (w32 a + n - 1)) n.

(** * inc/memlayout.h *)

Definition GD_KT : Z := 0x08.
Definition GD_KD : Z := 0x10.
Definition GD_UT : Z := 0x18.
Definition GD_UD : Z := 0x20.
Definition GD_TSS0 : Z := 0x28.

Definition KERNBASE : Z := 0xF0000000.
Definition IOPHYSMEM : Z := 0x0A0000.
Definition EXTPHYSMEM : Z := 0x100000.
Definition KSTACKTOP : Z := KERNBASE.
Definition KSTKSIZE : Z := 8 * PGSIZE.
Definition KSTKGAP : Z := 8 * PGSIZE.
Definition MMIOLIM : Z := KSTACKTOP - PTSIZE.
Definition MMIOBASE : Z := MMIOLIM - PTSIZE.
Definition ULIM : Z := MMIOBASE.
Definition UVPT : Z := ULIM - PTSIZE.
Definition UPAGES : Z := UVPT - PTSIZE.
Definition UENVS : Z := UPAGES - PTSIZE.
Definition UTOP : Z := UENVS.
Definition UXSTACKTOP : Z := UTOP.
Definition USTACKTOP : Z := UTOP - 2 * PGSIZE.
Definition UTEXT : Z := 2 * PTSIZE.
Definition UTEMP : Z := PTSIZE.
Definition PFTEMP : Z := UTEMP + PTSIZE - PGSIZE.
Definition USTABDATA : Z := PTSIZE / 2.
Definition MPENTRY_PADDR : Z := 0x7000.

(** * inc/error.h *)

Definition E_UNSPECIFIED : Z := 1.
Definition E_BAD_ENV : Z := 2.
Definition E_INVAL : Z := 3.
Definition E_NO_MEM : Z := 4.
Definition E_NO_FREE_ENV : Z := 5.
Definition E_FAULT : Z := 6.
Definition E_NO_SYS : Z := 7.
Definition E_IPC_NOT_RECV : Z := 8.
Definition E_EOF : Z := 9.
Definition MAXERROR : Z := 10.

(** * inc/elf.h *)

Definition ELF_MAGIC : Z := 0x464C457F.
Definition sizeof_Proghdr : Z := 32.

(** * Arithmetic of addresses *)

Lemma PGNUM_div la : u32_range la → PGNUM la = la / PGSIZE.
Proof.
  intros. unfold PGNUM, PTXSHIFT. rewrite w32_id by assumption.
  rewrite Z.shiftr_div_pow2 by lia. reflexivity.
Qed.

Lemma land_3FF z : Z.land z 0x3FF = z mod 1024.
Proof. change 0x3FF with (Z.ones 10). rewrite Z.land_ones by lia. reflexivity. Qed.

Lemma PDX_div la : u32_range la → PDX la = la / PTSIZE.
Proof.
  intros Hla. unfold PDX, PDXSHIFT. rewrite w32_id by assumption.
  rewrite land_3FF, Z.shiftr_div_pow2 by lia.
  change (2 ^ 22) with PTSIZE. unfold u32_range in Hla.
  apply Z.mod_small. split; [apply Z.div_pos; unfold PTSIZE, PGSIZE, NPTENTRIES; lia|].
  apply Z.div_lt_upper_bound; unfold PTSIZE, PGSIZE, NPTENTRIES; lia.
Qed.

Lemma PTX_div la : u32_range la → PTX la = (la / PGSIZE) mod NPTENTRIES.
Proof.
  intros Hla. unfold PTX, PTXSHIFT. rewrite w32_id by assumption.
  rewrite land_3FF, Z.shiftr_div_pow2 by lia. reflexivity.
Qed.

Lemma PDX_range la : 0 ≤ PDX la < 1024.
Proof. unfold PDX. rewrite land_3FF. apply Z.mod_pos_bound. lia. Qed.

Lemma PTX_range la : 0 ≤ PTX la < 1024.
Proof. unfold PTX. rewrite land_3FF. apply Z.mod_pos_bound. lia. Qed.

Lemma PTE_ADDR_mod pte : PTE_ADDR pte = w32 pte - w32 pte mod PGSIZE.
Proof.
  unfold PTE_ADDR. change 0xFFF with (Z.ones 12).
  rewrite <- Z.ldiff_land, Z.ldiff_ones_r by lia.
  rewrite Z.shiftl_mul_pow2, Z.shiftr_div_pow2 by lia.
  change (2 ^ 12) with PGSIZE. unfold PGSIZE. pose proof (Z.div_mod (w32 pte) 4096). lia.
Qed.

Lemma PTE_ADDR_aligned pte : PTE_ADDR pte mod PGSIZE = 0.
Proof.
  rewrite PTE_ADDR_mod. unfold PGSIZE. rewrite Zminus_mod_idemp_r, Z.sub_diag. reflexivity.
Qed.

Lemma PTE_ADDR_range pte : u32_range (PTE_ADDR pte).
Proof.
  rewrite PTE_ADDR_mod. pose proof (w32_range pte) as H. unfold u32_range, PGSIZE in *.
  pose proof (Z.mod_pos_bound (w32 pte) 4096). pose proof (Z.mod_le (w32 pte) 4096). lia.
Qed.

(** Disjoint bits: an aligned address combined with flags is their sum. *)
Lemma lor_aligned a f : a mod PGSIZE = 0 → 0 ≤ f < PGSIZE → Z.lor a f = a + f.
Proof.
  intros Ha Hf. unfold PGSIZE in *.
  replace a with (Z.shiftl (a / 4096) 12).
  2: { rewrite Z.shiftl_mul_pow2 by lia. change (2 ^ 12) with 4096.
       pose proof (Z.div_mod a 4096). lia. }
  apply shiftl_lor_low; lia.
Qed.

(** Page table entries the kernel builds: an aligned frame address with
    low-order permission bits. *)
Definition pa_ok (pa : Z) : Prop := u32_range pa ∧ pa mod PGSIZE = 0.
Definition perm_ok (perm : Z) : Prop := 0 ≤ perm < PGSIZE.

Lemma lor_perm_range p q : perm_ok p → perm_ok q → perm_ok (Z.lor p q).
Proof.
  unfold perm_ok, PGSIZE. intros Hp Hq. split; [apply Z.lor_nonneg; lia|].
  destruct (Z.eq_dec (Z.lor p q) 0) as [->|]; [lia|].
  assert (0 < Z.lor p q) by (assert (0 ≤ Z.lor p q) by (apply Z.lor_nonneg; lia); lia).
  change 4096 with (2 ^ 12). apply Z.log2_lt_pow2; [assumption|].
  rewrite Z.log2_lor by lia. apply Z.max_lub_lt.
  - destruct (Z.eq_dec p 0) as [->|]; [simpl; lia|apply Z.log2_lt_pow2; lia].
  - destruct (Z.eq_dec q 0) as [->|]; [simpl; lia|apply Z.log2_lt_pow2; lia].
Qed.

(** The low bits of an entry. *)
Lemma land_page p f g : perm_ok f → perm_ok g → Z.land (Z.lor (p * PGSIZE) f) g = Z.land f g.
Proof.
  unfold perm_ok. intros Hf Hg. assert (Z.land (Z.ones 12) g = g) as E.
  { rewrite Z.land_comm, Z.land_ones by lia. apply Z.mod_small. exact Hg. }
  rewrite <- E, !Z.land_assoc. f_equal. rewrite !Z.land_ones by lia. change (2 ^ 12) with PGSIZE.
  rewrite lor_aligned by (assumption || apply Z_mod_mult). rewrite Z.add_comm, Z_mod_plus_full. reflexivity.
Qed.

Lemma pte_range pa f : pa_ok pa → perm_ok f → u32_range (Z.lor pa f).
Proof.
  intros [[? ?] Ha] Hf. rewrite lor_aligned by assumption.
  unfold perm_ok, u32_range, PGSIZE in *.
  pose proof (Z.div_mod pa 4096). lia.
Qed.

Lemma PTE_ADDR_lor pa f : pa_ok pa → perm_ok f → PTE_ADDR (Z.lor pa f) = pa.
Proof.
  intros Hpa Hf. rewrite PTE_ADDR_mod, w32_id by (apply pte_range; assumption).
  destruct Hpa as [? Ha]. rewrite lor_aligned by assumption.
  unfold perm_ok, PGSIZE in *. rewrite Z.add_mod, Ha by lia.
  rewrite Z.add_0_l, Z.mod_mod, Z.mod_small by lia. lia.
Qed.

Lemma PTE_ADDR_id pa : pa_ok pa → PTE_ADDR pa = pa.
Proof.
  intros [? Ha]. rewrite PTE_ADDR_mod, w32_id by assumption. rewrite Ha. lia.
Qed.

Lemma land_lor_P x : Z.land (Z.lor x PTE_P) PTE_P = PTE_P.
Proof.
  unfold PTE_P. rewrite Z.land_lor_distr_l, Z.land_diag.
  change 1 with (Z.ones 1). rewrite Z.land_ones by lia.
  change (2 ^ 1) with 2. pose proof (Z.mod_pos_bound x 2).
  assert (x mod 2 = 0 ∨ x mod 2 = 1) as [-> | ->] by lia; reflexivity.
Qed.

Lemma ROUNDDOWN_le a n : 0 < n → u32_range a → ROUNDDOWN a n ≤ a < ROUNDDOWN a n + n.
Proof.
  intros Hn Ha. unfold ROUNDDOWN. rewrite w32_id by assumption.
  pose proof (Z.mod_pos_bound a n). lia.
Qed.

Lemma ROUNDDOWN_aligned a n : 0 < n → ROUNDDOWN a n mod n = 0.
Proof.
  intros Hn. unfold ROUNDDOWN. rewrite Zminus_mod_idemp_r, Z.sub_diag. apply Z.mod_0_l. lia.
Qed.

Lemma ROUNDDOWN_range a n : 0 < n → u32_range (ROUNDDOWN a n).
Proof.
  intros Hn. unfold ROUNDDOWN. pose proof (w32_range a). unfold u32_range in *.
  pose proof (Z.mod_pos_bound (w32 a) n). pose proof (Z.mod_le (w32 a) n). lia.
Qed.

Lemma ROUNDUP_aligned a n : 0 < n → ROUNDUP a n mod n = 0.
Proof. intros. apply ROUNDDOWN_aligned. assumption. Qed.

Lemma ROUNDUP_ge a n : 0 < n → u32_range a → a + n - 1 < 2 ^ 32 →
  a ≤ ROUNDUP a n < a + n.
Proof.
  intros Hn Ha Hov. unfold ROUNDUP. unfold u32_range in Ha.
  rewrite (w32_id a), (w32_id (a + n - 1)) by (unfold u32_range; lia).
  pose proof (ROUNDDOWN_le (a + n - 1) n Hn). unfold u32_range in *. lia.
Qed.

Lemma ROUNDDOWN_id a n : 0 < n → u32_range a → a mod n = 0 → ROUNDDOWN a n = a.
Proof. intros Hn Ha Hm. unfold ROUNDDOWN. rewrite w32_id, Hm by assumption. lia. Qed.

(** The alignment test of the system calls, [ROUNDUP(va, PGSIZE) != va]. *)
Lemma ROUNDUP_id_iff a : u32_range a → a < 2 ^ 32 - PGSIZE →
  ROUNDUP a PGSIZE = a ↔ a mod PGSIZE = 0.
Proof.
  intros Ha Hlt. unfold PGSIZE in *. split.
  - intros <-. apply ROUNDUP_aligned. lia.
  - intros Hm. assert (a ≤ ROUNDUP a 4096 < a + 4096)
      by (apply ROUNDUP_ge; unfold u32_range in *; lia).
    assert (ROUNDUP a 4096 mod 4096 = 0) by (apply ROUNDUP_aligned; lia).
    pose proof (Z.div_mod a 4096). pose proof (Z.div_mod (ROUNDUP a 4096) 4096). lia.
Qed.

(** An address is determined by its two indexes and its offset. *)
Lemma page_addr_eq va va' : u32_range va → u32_range va' →
  PDX va = PDX va' → PTX va = PTX va' → va / PGSIZE = va' / PGSIZE.
Proof.
  intros Hv Hv'. rewrite !PDX_div, !PTX_div by assumption.
  unfold PTSIZE, NPTENTRIES. rewrite <- !Z.div_div by (unfold PGSIZE; lia).
  pose proof (Z.div_mod (va / PGSIZE) 1024). pose proof (Z.div_mod (va' / PGSIZE) 1024).
  lia.
Qed.

Lemma PDX_page va va' : u32_range va → u32_range va' →
  va / PGSIZE = va' / PGSIZE → PDX va = PDX va' ∧ PTX va = PTX va'.
Proof.
  intros Hv Hv' E. rewrite !PDX_div, !PTX_div by assumption.
  unfold PTSIZE. rewrite <- !Z.div_div by (unfold PGSIZE, NPTENTRIES; lia).
  rewrite E. auto.
Qed.
