(* ===== verification/Mem.v ===== *)
(** Byte-addressed memory: sized loads and stores in little-endian order, the
    x86 string instructions the library routines are written with, and
    lib/string.c's memset, memmove, memcpy, memcmp and memfind. *)
From S2P Require Import Prelude.

(** * Memory *)

Abbreviation mem := (gmap Z Z).

(** A byte that was never written reads as zero; a stored value is truncated
    to its byte. *)
Definition ld8 (m : mem) (a : Z) : Z := w8 (default 0 (m !! a)).
Definition st8 (m : mem) (a v : Z) : mem := <[a := w8 v]> m.

Definition ld16 (m : mem) (a : Z) : Z := ld8 m a + 2 ^ 8 * ld8 m (a + 1).
Definition ld32 (m : mem) (a : Z) : Z := ld16 m a + 2 ^ 16 * ld16 m (a + 2).
Definition st16 (m : mem) (a v : Z) : mem := st8 (st8 m a v) (a + 1) (v / 2 ^ 8).
Definition st32 (m : mem) (a v : Z) : mem := st16 (st16 m a v) (a + 2) (v / 2 ^ 16).

(** Two memories that read the same everywhere. *)
Definition mem_eq (m m' : mem) : Prop := ∀ a, ld8 m a = ld8 m' a.

#[export] Instance mem_eq_equiv : Equivalence mem_eq.
Proof.
  split; repeat intro; [reflexivity|congruence|etransitivity; eauto].
Qed.

Lemma ld8_range m a : 0 ≤ ld8 m a < 2 ^ 8.
Proof. apply w8_range. Qed.
#[export] Hint Resolve ld8_range : jos.

Lemma ld8_st8 m a v b : ld8 (st8 m a v) b = if decide (a = b) then w8 v else ld8 m b.
Proof.
  unfold ld8, st8. destruct (decide (a = b)) as [->|].
  - rewrite lookup_insert_eq. simpl. apply w8_id, w8_range.
  - rewrite lookup_insert_ne by assumption. reflexivity.
Qed.

Lemma ld8_st8_eq m a v : ld8 (st8 m a v) a = w8 v.
Proof. rewrite ld8_st8, decide_True by reflexivity. reflexivity. Qed.
Lemma ld8_st8_ne m a v b : a ≠ b → ld8 (st8 m a v) b = ld8 m b.
Proof. intros. rewrite ld8_st8, decide_False by assumption. reflexivity. Qed.

#[export] Instance ld8_proper : Proper (mem_eq ==> eq ==> eq) ld8.
Proof. intros m m' E a a' <-. apply E. Qed.
#[export] Instance ld32_proper : Proper (mem_eq ==> eq ==> eq) ld32.
Proof. intros m m' E a a' <-. unfold ld32, ld16. rewrite !E. reflexivity. Qed.
#[export] Instance st8_proper : Proper (mem_eq ==> eq ==> eq ==> mem_eq) st8.
Proof. intros m m' E a a' <- v v' <- b. rewrite !ld8_st8, E. reflexivity. Qed.
#[export] Instance st32_proper : Proper (mem_eq ==> eq ==> eq ==> mem_eq) st32.
Proof. intros m m' E a a' <- v v' <-. unfold st32, st16. rewrite E. reflexivity. Qed.

Lemma ld32_range m a : u32_range (ld32 m a).
Proof.
  unfold ld32, ld16, u32_range. pose proof (ld8_range m a). pose proof (ld8_range m (a + 1)).
  pose proof (ld8_range m (a + 2)). pose proof (ld8_range m (a + 2 + 1)). lia.
Qed.
#[export] Hint Resolve ld32_range : jos.

Lemma ld32_ext m m' a :
  (∀ i, 0 ≤ i < 4 → ld8 m (a + i) = ld8 m' (a + i)) → ld32 m a = ld32 m' a.
Proof.
  intros H. unfold ld32, ld16. replace (a + 2 + 1) with (a + 3) by lia.
  rewrite (H 1), (H 2), (H 3) by lia. specialize (H 0 ltac:(lia)).
  rewrite Z.add_0_r in H. rewrite H. reflexivity.
Qed.

Lemma ld32_bytes m m' a i : ld32 m' a = ld32 m a → 0 ≤ i < 4 → ld8 m' (a + i) = ld8 m (a + i).
Proof.
  unfold ld32, ld16. replace (a + 2 + 1) with (a + 3) by lia. intros E Hi.
  pose proof (ld8_range m a). pose proof (ld8_range m (a + 1)). pose proof (ld8_range m (a + 2)). pose proof (ld8_range m (a + 3)).
  pose proof (ld8_range m' a). pose proof (ld8_range m' (a + 1)). pose proof (ld8_range m' (a + 2)). pose proof (ld8_range m' (a + 3)).
  assert (i = 0 ∨ i = 1 ∨ i = 2 ∨ i = 3) as [-> |[-> |[-> | ->]]] by lia; rewrite ?Z.add_0_r; lia.
Qed.

Lemma ld8_st32_out m a v b : b < a ∨ a + 4 ≤ b → ld8 (st32 m a v) b = ld8 m b.
Proof. intros. unfold st32, st16. rewrite !ld8_st8_ne by lia. reflexivity. Qed.

Lemma ld32_st32_eq m a v : u32_range v → ld32 (st32 m a v) a = v.
Proof.
  intros Hv. unfold ld32, ld16, st32, st16.
  repeat first [rewrite ld8_st8_eq | rewrite ld8_st8_ne by lia].
  unfold w8, u32_range in *. Z.div_mod_to_equations. lia.
Qed.

Lemma ld32_st32_ne m a v b : b + 4 ≤ a ∨ a + 4 ≤ b → ld32 (st32 m a v) b = ld32 m b.
Proof. intros. apply ld32_ext. intros i Hi. apply ld8_st32_out. lia. Qed.

(** * The x86 string instructions

    [rep stosb], [rep stosl], [rep movsb] and [rep movsl] with %edi, %esi and
    %ecx as given; [dir] is +1 after [cld] and -1 after [std]. *)

Fixpoint rep_stosb (n : nat) (m : mem) (edi al : Z) : mem :=
  match n with
  | O => m
  | S n => rep_stosb n (st8 m edi al) (edi + 1) al
  end.

Fixpoint rep_stosl (n : nat) (m : mem) (edi eax : Z) : mem :=
  match n with
  | O => m
  | S n => rep_stosl n (st32 m edi eax) (edi + 4) eax
  end.

Fixpoint rep_movsb (n : nat) (dir : Z) (m : mem) (edi esi : Z) : mem :=
  match n with
  | O => m
  | S n => rep_movsb n dir (st8 m edi (ld8 m esi)) (edi + dir) (esi + dir)
  end.

Fixpoint rep_movsl (n : nat) (dir : Z) (m : mem) (edi esi : Z) : mem :=
  match n with
  | O => m
  | S n => rep_movsl n dir (st32 m edi (ld32 m esi)) (edi + 4 * dir) (esi + 4 * dir)
  end.

(** * lib/string.c *)

(** [memset]: the word-aligned case stores words of four copies of the byte. *)
Definition memset (m : mem) (v c n : Z) : mem :=
  if n =? 0 then m
  else if (v mod 4 =? 0) && (n mod 4 =? 0) then
    let c := Z.land c 0xFF in
    let c := w32 (Z.lor (Z.lor (Z.lor (Z.shiftl c 24) (Z.shiftl c 16)) (Z.shiftl c 8)) c) in
    rep_stosl (Z.to_nat (n / 4)) m v c
  else rep_stosb (Z.to_nat n) m v c.

Definition memmove (m : mem) (dst src n : Z) : mem :=
  let s := src in
  let d := dst in
  if (s <? d) && (s + n >? d) then
    let s := s + n in
    let d := d + n in
    if (s mod 4 =? 0) && (d mod 4 =? 0) && (n mod 4 =? 0)
    then rep_movsl (Z.to_nat (n / 4)) (-1) m (d - 4) (s - 4)
    else rep_movsb (Z.to_nat n) (-1) m (d - 1) (s - 1)
  else
    if (s mod 4 =? 0) && (d mod 4 =? 0) && (n mod 4 =? 0)
    then rep_movsl (Z.to_nat (n / 4)) 1 m d s
    else rep_movsb (Z.to_nat n) 1 m d s.

Definition memcpy (m : mem) (dst src n : Z) : mem := memmove m dst src n.

Fixpoint memcmp (n : nat) (m : mem) (s1 s2 : Z) : Z :=
  match n with
  | O => 0
  | S n => if ld8 m s1 =? ld8 m s2 then memcmp n m (s1 + 1) (s2 + 1)
           else ld8 m s1 - ld8 m s2
  end.

Fixpoint memfind (n : nat) (m : mem) (s c : Z) : Z :=
  match n with
  | O => s
  | S n => if ld8 m s =? w8 c then s else memfind n m (s + 1) c
  end.

(** * Correctness of the block routines *)

Lemma rep_stosb_spec n m a c b :
  ld8 (rep_stosb n m a c) b = if decide (a ≤ b < a + Z.of_nat n) then w8 c else ld8 m b.
Proof.
  revert m a. induction n as [|n IH]; intros m a; cbn [rep_stosb].
  - rewrite decide_False by lia. reflexivity.
  - rewrite IH, ld8_st8. repeat case_decide; first [reflexivity | lia].
Qed.

(** The word whose four bytes are the byte [c]. *)
Lemma bytes4_spec c :
  let c' := Z.land c 0xFF in
  w32 (Z.lor (Z.lor (Z.lor (Z.shiftl c' 24) (Z.shiftl c' 16)) (Z.shiftl c' 8)) c')
  = w8 c * (2 ^ 24 + 2 ^ 16 + 2 ^ 8 + 1).
Proof.
  cbv zeta. change 0xFF with (Z.ones 8). rewrite Z.land_ones by lia.
  change (c mod 2 ^ 8) with (w8 c). pose proof (w8_range c) as Hr.
  set (x := w8 c) in *. clearbody x.
  assert (∀ hi, Z.lor (Z.shiftl hi 8) x = Z.shiftl hi 8 + x) as L
    by (intros; apply shiftl_lor_low; lia).
  replace (Z.shiftl x 24) with (Z.shiftl (Z.shiftl (Z.shiftl x 8) 8) 8)
    by (rewrite !Z.shiftl_shiftl by lia; reflexivity).
  replace (Z.shiftl x 16) with (Z.shiftl (Z.shiftl x 8) 8)
    by (rewrite !Z.shiftl_shiftl by lia; reflexivity).
  rewrite <- !Z.shiftl_lor, L, L, L by lia.
  rewrite !Z.shiftl_mul_pow2 by lia. rewrite w32_id; unfold u32_range; lia.
Qed.

Lemma st32_bytes m a c b :
  ld8 (st32 m a (w8 c * (2 ^ 24 + 2 ^ 16 + 2 ^ 8 + 1))) b
  = if decide (a ≤ b < a + 4) then w8 c else ld8 m b.
Proof.
  pose proof (w8_range c). unfold st32, st16. rewrite !ld8_st8.
  repeat case_decide; try lia; unfold w8 in *; Z.div_mod_to_equations; lia.
Qed.

Lemma rep_stosl_spec n m a c b :
  ld8 (rep_stosl n m a (w8 c * (2 ^ 24 + 2 ^ 16 + 2 ^ 8 + 1))) b
  = if decide (a ≤ b < a + 4 * Z.of_nat n) then w8 c else ld8 m b.
Proof.
  revert m a. induction n as [|n IH]; intros m a; cbn [rep_stosl].
  - rewrite decide_False by lia. reflexivity.
  - rewrite IH, st32_bytes. repeat case_decide; first [reflexivity | lia].
Qed.

Lemma memset_spec m v c n b : 0 ≤ n →
  ld8 (memset m v c n) b = if decide (v ≤ b < v + n) then w8 c else ld8 m b.
Proof.
  intros Hn. unfold memset. destruct (Z.eqb_spec n 0) as [->|].
  { rewrite decide_False by lia. reflexivity. }
  destruct ((v mod 4 =? 0) && (n mod 4 =? 0)) eqn:E; bsplit.
  - cbv zeta. rewrite bytes4_spec, rep_stosl_spec, Z2Nat.id by (apply Z.div_pos; lia).
    pose proof (Z.div_mod n 4). replace (4 * (n / 4)) with n by lia. reflexivity.
  - rewrite rep_stosb_spec, Z2Nat.id by lia. reflexivity.
Qed.

(** A store of a loaded word copies its four bytes. *)
Lemma st32_ld32 m m0 d s b :
  ld8 (st32 m d (ld32 m0 s)) b = if decide (d ≤ b < d + 4) then ld8 m0 (b - d + s) else ld8 m b.
Proof.
  pose proof (ld8_range m0 s). pose proof (ld8_range m0 (s + 1)).
  pose proof (ld8_range m0 (s + 2)). pose proof (ld8_range m0 (s + 2 + 1)).
  case_decide as Hb; [|apply ld8_st32_out; lia].
  assert (b = d ∨ b = d + 1 ∨ b = d + 2 ∨ b = d + 2 + 1) as Hc by lia.
  unfold st32, st16, ld32, ld16. rewrite !ld8_st8.
  destruct Hc as [->|[->|[->| ->]]]; repeat (case_decide; try lia);
    [replace (d - d + s) with s by lia | replace (d + 1 - d + s) with (s + 1) by lia
    |replace (d + 2 - d + s) with (s + 2) by lia
    |replace (d + 2 + 1 - d + s) with (s + 2 + 1) by lia];
    unfold w8; Z.div_mod_to_equations; lia.
Qed.

(** Copying forwards is right when the destination does not lie above the
    source inside the block; backwards when it does not lie below. *)
Lemma rep_movsb_fwd n m d s b : d ≤ s ∨ s + Z.of_nat n ≤ d →
  ld8 (rep_movsb n 1 m d s) b
  = if decide (d ≤ b < d + Z.of_nat n) then ld8 m (b - d + s) else ld8 m b.
Proof.
  revert m d s. induction n as [|n IH]; intros m d s H; cbn [rep_movsb].
  - rewrite decide_False by lia. reflexivity.
  - rewrite IH by lia. rewrite !ld8_st8. 
    repeat case_decide; try lia; try reflexivity.
    + f_equal. lia.
    + rewrite w8_id by apply ld8_range. f_equal. lia.
Qed.

Lemma rep_movsb_bwd n m d s b : s ≤ d ∨ d + Z.of_nat n ≤ s →
  ld8 (rep_movsb n (-1) m (d + Z.of_nat n - 1) (s + Z.of_nat n - 1)) b
  = if decide (d ≤ b < d + Z.of_nat n) then ld8 m (b - d + s) else ld8 m b.
Proof.
  revert m. induction n as [|n IH]; intros m H; cbn [rep_movsb].
  - rewrite decide_False by lia. reflexivity.
  - replace (d + Z.of_nat (S n) - 1 + -1) with (d + Z.of_nat n - 1) by lia.
    replace (s + Z.of_nat (S n) - 1 + -1) with (s + Z.of_nat n - 1) by lia.
    rewrite IH by lia. rewrite !ld8_st8.
    repeat case_decide; try lia; try reflexivity.
    rewrite w8_id by apply ld8_range. f_equal. lia.
Qed.

Lemma rep_movsl_fwd n m d s b : d ≤ s ∨ s + 4 * Z.of_nat n ≤ d → (s - d) mod 4 = 0 →
  ld8 (rep_movsl n 1 m d s) b
  = if decide (d ≤ b < d + 4 * Z.of_nat n) then ld8 m (b - d + s) else ld8 m b.
Proof.
  revert m d s. induction n as [|n IH]; intros m d s H Hm; cbn [rep_movsl].
  - rewrite decide_False by lia. reflexivity.
  - rewrite Z.mul_1_r, IH by (Z.div_mod_to_equations; lia). rewrite !st32_ld32.
    pose proof (Z.div_mod (s - d) 4).
    repeat case_decide; try lia; try reflexivity; f_equal; lia.
Qed.

Lemma rep_movsl_bwd n m d s b : s ≤ d ∨ d + 4 * Z.of_nat n ≤ s → (s - d) mod 4 = 0 →
  ld8 (rep_movsl n (-1) m (d + 4 * Z.of_nat n - 4) (s + 4 * Z.of_nat n - 4)) b
  = if decide (d ≤ b < d + 4 * Z.of_nat n) then ld8 m (b - d + s) else ld8 m b.
Proof.
  revert m. induction n as [|n IH]; intros m H Hm; cbn [rep_movsl].
  - rewrite decide_False by lia. reflexivity.
  - replace (d + 4 * Z.of_nat (S n) - 4 + 4 * -1) with (d + 4 * Z.of_nat n - 4) by lia.
    replace (s + 4 * Z.of_nat (S n) - 4 + 4 * -1) with (s + 4 * Z.of_nat n - 4) by lia.
    rewrite IH by (try assumption; lia). rewrite !st32_ld32.
    pose proof (Z.div_mod (s - d) 4).
    repeat case_decide; try lia; try reflexivity; f_equal; lia.
Qed.

Lemma memmove_spec m d s n b : 0 ≤ n →
  ld8 (memmove m d s n) b = if decide (d ≤ b < d + n) then ld8 m (b - d + s) else ld8 m b.
Proof.
  intros Hn. unfold memmove. rewrite Z.gtb_ltb.
  assert (Z.of_nat (Z.to_nat n) = n) as En by lia.
  assert (n mod 4 = 0 → 4 * Z.of_nat (Z.to_nat (n / 4)) = n) as E4.
  { intros E. rewrite Z2Nat.id by (apply Z.div_pos; lia). pose proof (Z.div_mod n 4). lia. }
  destruct ((s <? d) && (d <? s + n)) eqn:Eo.
  - bsplit. destruct (((s + n) mod 4 =? 0) && ((d + n) mod 4 =? 0) && (n mod 4 =? 0)) eqn:E; bsplit.
    + pose proof (rep_movsl_bwd (Z.to_nat (n / 4)) m d s b) as L.
      rewrite E4 in L by assumption. apply L; [lia|Z.div_mod_to_equations; lia].
    + pose proof (rep_movsb_bwd (Z.to_nat n) m d s b) as L.
      rewrite En in L. apply L. lia.
  - assert (d ≤ s ∨ s + n ≤ d) by (apply andb_false_iff in Eo as [E|E]; bsplit; lia).
    destruct ((s mod 4 =? 0) && (d mod 4 =? 0) && (n mod 4 =? 0)) eqn:E; bsplit.
    + pose proof (rep_movsl_fwd (Z.to_nat (n / 4)) m d s b) as L.
      rewrite E4 in L by assumption. apply L; [lia|Z.div_mod_to_equations; lia].
    + pose proof (rep_movsb_fwd (Z.to_nat n) m d s b) as L.
      rewrite En in L. apply L. lia.
Qed.

(** The words [l] from address [a] on. *)
Fixpoint st_words (m : mem) (a : Z) (l : list Z) : mem :=
  match l with
  | [] => m
  | w :: l => st_words (st32 m a w) (a + 4) l
  end.

Lemma ld8_st_words l : ∀ m a b, b < a ∨ a + 4 * Z.of_nat (length l) ≤ b →
  ld8 (st_words m a l) b = ld8 m b.
Proof.
  induction l as [|w l IH]; intros m a b Hb; cbn [st_words length] in *; [reflexivity|].
  rewrite IH by lia. apply ld8_st32_out. lia.
Qed.

Lemma ld32_st_words l : ∀ m a i w, (∀ w, w ∈ l → u32_range w) → l !! i = Some w →
  ld32 (st_words m a l) (a + 4 * Z.of_nat i) = w.
Proof.
  induction l as [|w0 l IH]; intros m a i w Hr Hi; [discriminate|]. cbn [st_words].
  destruct i as [|i]; cbn in Hi.
  - injection Hi as ->. replace (a + 4 * Z.of_nat 0) with a by lia.
    transitivity (ld32 (st32 m a w) a); [|apply ld32_st32_eq, Hr, list_elem_of_here].
    apply ld32_ext. intros j Hj. apply ld8_st_words. lia.
  - replace (a + 4 * Z.of_nat (S i)) with (a + 4 + 4 * Z.of_nat i) by lia. apply IH; [|assumption].
    intros u Hu. apply Hr, list_elem_of_further, Hu.
Qed.
