(* ===== verification/Bootloader.v ===== *)
(** The boot loader, boot/main.c: it reads the kernel's ELF image from the IDE
    disk and calls its entry point.  It runs before paging is on, so a pointer
    is a physical address; the disk is a device behind I/O ports, whose
    behaviour is a parameter. *)
From S2P Require Import Prelude Mmu Mem.

(** * The instructions that access a device (inc/x86.h)

    A device answers [in] and [out] with its own state. *)
Class PortIO (D : Type) := {
  dev_inb : Z → D → Z * D;
  dev_inl : Z → D → Z * D;
  dev_outb : Z → Z → D → D;
  dev_outw : Z → Z → D → D
}.

(** struct Elf and struct Proghdr of inc/elf.h, by the offsets of their
    fields. *)
Definition ELFHDR : Z := 0x10000.
Definition SECTSIZE : Z := 512.
Definition e_magic (m : mem) (elf : Z) : Z := ld32 m elf.
Definition e_entry (m : mem) (elf : Z) : Z := ld32 m (elf + 24).
Definition e_phoff (m : mem) (elf : Z) : Z := ld32 m (elf + 28).
Definition e_phnum (m : mem) (elf : Z) : Z := ld16 m (elf + 44).
Definition p_offset (m : mem) (ph : Z) : Z := ld32 m (ph + 4).
Definition p_pa (m : mem) (ph : Z) : Z := ld32 m (ph + 12).
Definition p_memsz (m : mem) (ph : Z) : Z := ld32 m (ph + 20).

Section loader.
Context {D : Type} `{PortIO D}.

(** Physical memory and the devices. *)
Record bst : Type := MkBst { b_mem : mem; b_dev : D }.

Definition inb (port : Z) : M bst Z := λ s, let '(v, d) := dev_inb port (b_dev s) in Ret v (MkBst (b_mem s) d).
Definition outb (port data : Z) : M bst unit := modify (λ s, MkBst (b_mem s) (dev_outb port (w8 data) (b_dev s))).
Definition outw (port data : Z) : M bst unit := modify (λ s, MkBst (b_mem s) (dev_outw port (w16 data) (b_dev s))).

(** [cld; repne insl] *)
Fixpoint insl (port addr : Z) (cnt : nat) : M bst unit :=
  match cnt with
  | O => mret tt
  | S cnt =>
      λ s, let '(v, d) := dev_inl port (b_dev s) in
           insl port (w32 (addr + 4)) cnt (MkBst (st32 (b_mem s) addr v) d)
  end.

(** One look at the status per unit of fuel. *)
Fixpoint waitdisk (polls : nat) : M bst unit :=
  match polls with
  | O => stop_with SLoop
  | S polls => c ← inb 0x1F7; if negb (Z.land c 0xC0 =? 0x40) then waitdisk polls else mret tt
  end.

Definition readsect (polls : nat) (dst offset : Z) : M bst unit :=
  waitdisk polls ;;
  outb 0x1F2 1 ;;
  outb 0x1F3 offset ;;
  outb 0x1F4 (Z.shiftr offset 8) ;;
  outb 0x1F5 (Z.shiftr offset 16) ;;
  outb 0x1F6 (Z.lor (Z.shiftr offset 24) 0xE0) ;;
  outb 0x1F7 0x20 ;;
  waitdisk polls ;;
  insl 0x1F0 dst (Z.to_nat (SECTSIZE / 4)).

(** One sector per unit of fuel. *)
Fixpoint readseg_loop (polls fuel : nat) (pa end_pa offset : Z) : M bst unit :=
  if pa <? end_pa then
    match fuel with
    | O => stop_with SLoop
    | S fuel => readsect polls pa offset ;; readseg_loop polls fuel (w32 (pa + SECTSIZE)) end_pa (w32 (offset + 1))
    end
  else mret tt.

Definition readseg (polls fuel : nat) (pa count offset : Z) : M bst unit :=
  let end_pa := w32 (pa + count) in
  let pa := Z.land pa (Z.lnot (SECTSIZE - 1)) in
  let offset := offset / SECTSIZE + 1 in
  readseg_loop polls fuel pa end_pa offset.

(** [for (; ph < eph; ph++)], with [n] headers left *)
Fixpoint read_segments (polls fuel n : nat) (ph : Z) : M bst unit :=
  match n with
  | O => mret tt
  | S n =>
      m ← gets b_mem;
      readseg polls fuel (p_pa m ph) (p_memsz m ph) (p_offset m ph) ;;
      read_segments polls fuel n (ph + sizeof_Proghdr)
  end.

(** Returns the address that is called: the kernel never comes back. *)
Definition bootmain (polls fuel : nat) : M bst Z :=
  readseg polls fuel ELFHDR (SECTSIZE * 8) 0 ;;
  m ← gets b_mem;
  if negb (e_magic m ELFHDR =? ELF_MAGIC) then
    outw 0x8A00 0x8A00 ;; outw 0x8A00 0x8E00 ;; stop_with SLoop
  else
    read_segments polls fuel (Z.to_nat (e_phnum m ELFHDR)) (w32 (ELFHDR + e_phoff m ELFHDR)) ;;
    m ← gets b_mem;
    mret (e_entry m ELFHDR).
End loader.
Arguments bst D : clear implicits.
