(* ===== verification/BootloaderSpec.v ===== *)
(** What the boot loader promises: on a disk that follows the ATA protocol,
    [bootmain] puts every segment of a valid kernel image where its program
    header says and calls the entry point. *)
From S2P Require Import Prelude Mmu Mem Bootloader.

(** * The disk *)

(** What the protocol lets a driver know about the disk: how often it will
    still answer busy, the registers of the task file, and the words that
    wait to be read. *)
Record ide := MkIde {
  i_busy : nat;
  i_count : Z;
  i_lba0 : Z;
  i_lba1 : Z;
  i_lba2 : Z;
  i_drive : Z;
  i_data : list Z
}.

Definition with_busy n v := MkIde n (i_count v) (i_lba0 v) (i_lba1 v) (i_lba2 v) (i_drive v) (i_data v).
Definition with_reg port x v :=
  MkIde (i_busy v) (if port =? 0x1F2 then x else i_count v) (if port =? 0x1F3 then x else i_lba0 v)
    (if port =? 0x1F4 then x else i_lba1 v) (if port =? 0x1F5 then x else i_lba2 v)
    (if port =? 0x1F6 then x else i_drive v) (i_data v).
Definition lba v : Z := i_lba0 v + 2 ^ 8 * i_lba1 v + 2 ^ 16 * i_lba2 v + 2 ^ 24 * (i_drive v mod 16).

(** The words of the disk from byte [a] on. *)
Fixpoint words_from (disk : mem) (a : Z) (n : nat) : list Z :=
  match n with O => [] | S n => ld32 disk a :: words_from disk (a + 4) n end.

(** Reading sectors by logical block address (ATA, PIO): the status is busy
    for a bounded number of polls; when it is ready the registers can be
    written; the read command makes the sector available word by word. *)
Class IdeLaws (D : Type) `{PortIO D} (view : D → ide) (disk : mem) (latency : nat) : Prop := {
  ide_latency d : (i_busy (view d) ≤ latency)%nat;
  ide_status d : let '(c, d') := dev_inb 0x1F7 d in
    match i_busy (view d) with
    | O => Z.land c 0xC0 = 0x40 ∧ view d' = view d
    | S n => Z.land c 0xC0 ≠ 0x40 ∧ view d' = with_busy n (view d)
    end;
  ide_reg d port x : i_busy (view d) = O → i_data (view d) = [] → 0x1F2 ≤ port ≤ 0x1F6 → 0 ≤ x < 2 ^ 8 →
    view (dev_outb port x d) = with_reg port x (view d);
  ide_read d : i_busy (view d) = O → i_data (view d) = [] → i_count (view d) = 1 → Z.land (i_drive (view d)) 0xE0 = 0xE0 →
    i_data (view (dev_outb 0x1F7 0x20 d)) = words_from disk (512 * lba (view d)) 128;
  ide_data d w ws : i_busy (view d) = O → i_data (view d) = w :: ws →
    let '(x, d') := dev_inl 0x1F0 d in x = w ∧ i_data (view d') = ws ∧ (ws ≠ [] → i_busy (view d') = O)
}.

Section loader.
Context {D : Type} {io : PortIO D} (view : D → ide) (disk : mem) (latency : nat) {laws : IdeLaws D view disk latency}.
Notation bst := (bst D).
Implicit Types (s : bst).

Lemma waitdisk_run polls s : (i_busy (view (b_dev s)) < polls)%nat →
  ∃ d, waitdisk polls s = Ret tt (MkBst (b_mem s) d) ∧ view d = with_busy 0 (view (b_dev s)).
Proof.
  revert s. induction polls as [|polls IH]; intros [m d] Hb; [lia|]. cbn [b_dev b_mem] in *. cbn [waitdisk].
  rewrite bind_unfold. unfold inb. cbn [b_dev b_mem]. pose proof (ide_status d) as Hs. destruct (dev_inb 0x1F7 d) as [c d'].
  destruct (i_busy (view d)) as [|n] eqn:En; destruct Hs as [Hc Hv].
  - rewrite (proj2 (Z.eqb_eq _ _) Hc). exists d'. split; [reflexivity|]. rewrite Hv. destruct (view d); cbn in *. subst. reflexivity.
  - rewrite (proj2 (Z.eqb_neq _ _) Hc). cbn [negb]. destruct (IH (MkBst m d')) as (d2 & E & Hv2).
    { cbn [b_dev]. rewrite Hv. cbn. lia. }
    exists d2. split; [exact E|]. rewrite Hv2. cbn [b_dev]. rewrite Hv. reflexivity.
Qed.

(** [copied m m' dst src n]: the [n] bytes at [dst] come from the disk, the
    rest of the memory is as it was. *)
Definition copied (m m' : mem) (dst src n : Z) : Prop :=
  ∀ b, ld8 m' b = if decide (dst ≤ b < dst + n) then ld8 disk (b - dst + src) else ld8 m b.

Lemma copied_trans m m1 m2 dst src n k : 0 ≤ n → 0 ≤ k → copied m m1 dst src n → copied m1 m2 (dst + n) (src + n) k →
  copied m m2 dst src (n + k).
Proof.
  intros Hn Hk H1 H2 b. rewrite H2, H1. repeat case_decide; try reflexivity; try lia. f_equal. lia.
Qed.

Lemma insl_run n : ∀ s a src, i_busy (view (b_dev s)) = O ∨ n = O → i_data (view (b_dev s)) = words_from disk src n →
  0 ≤ a → a + 4 * Z.of_nat n ≤ 2 ^ 32 →
  ∃ s', insl 0x1F0 a n s = Ret tt s' ∧ i_data (view (b_dev s')) = [] ∧ copied (b_mem s) (b_mem s') a src (4 * Z.of_nat n).
Proof.
  induction n as [|n IH]; intros [m d] a src Hb Hd Ha Hn; cbn [b_dev b_mem insl words_from] in *.
  - exists (MkBst m d). split; [reflexivity|]. split; [exact Hd|]. intros b. rewrite decide_False by lia. reflexivity.
  - destruct Hb as [Hb|]; [|discriminate]. pose proof (ide_data d _ _ Hb Hd) as H. destruct (dev_inl 0x1F0 d) as [x d'].
    destruct H as (-> & Hd' & Hb').
    destruct n as [|n'].
    { eexists. split; [reflexivity|]. split; [exact Hd'|]. intros b. cbn [b_mem]. rewrite st32_ld32. repeat case_decide; lia || reflexivity. }
    rewrite w32_id by (unfold u32_range; lia).
    destruct (IH (MkBst (st32 m a (ld32 disk src)) d') (a + 4) (src + 4)) as (s' & E & Hd2 & Hc).
    + left. apply Hb'. discriminate.
    + exact Hd'.
    + lia.
    + lia.
    + exists s'. split; [exact E|]. split; [exact Hd2|].
      replace (4 * Z.of_nat (S (S n'))) with (4 + 4 * Z.of_nat (S n')) by lia.
      eapply copied_trans; [lia|lia| |exact Hc]. intros b. apply st32_ld32.
Qed.

Notation idle s := (i_data (view (b_dev s)) = []).

Lemma sector_shift n : 0 ≤ n < 2 ^ 28 →
  w8 n + 2 ^ 8 * w8 (Z.shiftr n 8) + 2 ^ 16 * w8 (Z.shiftr n 16) + 2 ^ 24 * (w8 (Z.lor (Z.shiftr n 24) 0xE0) mod 16) = n ∧
  Z.land (w8 (Z.lor (Z.shiftr n 24) 0xE0)) 0xE0 = 0xE0.
Proof.
  intros Hn. assert (0 ≤ Z.shiftr n 24 < 16) as Hs by (rewrite Z.shiftr_div_pow2 by lia; Z.div_mod_to_equations; lia).
  assert (∀ k, 0 ≤ k < 16 → w8 (Z.lor k 0xE0) mod 16 = k ∧ Z.land (w8 (Z.lor k 0xE0)) 0xE0 = 0xE0) as A.
  { intros k Hk. assert (k ∈ seqZ 0 16) as Hin by (apply elem_of_seqZ; lia). clear Hk. revert k Hin.
    apply Forall_forall. vm_compute. repeat constructor. }
  destruct (A _ Hs) as [-> ->]. split; [|reflexivity]. unfold w8. rewrite !Z.shiftr_div_pow2 by lia.
  Z.div_mod_to_equations. lia.
Qed.

Lemma task_file d a b c e g : i_busy (view d) = O → i_data (view d) = [] →
  0 ≤ a < 2 ^ 8 → 0 ≤ b < 2 ^ 8 → 0 ≤ c < 2 ^ 8 → 0 ≤ e < 2 ^ 8 → 0 ≤ g < 2 ^ 8 →
  view (dev_outb 0x1F6 g (dev_outb 0x1F5 e (dev_outb 0x1F4 c (dev_outb 0x1F3 b (dev_outb 0x1F2 a d)))))
  = MkIde 0 a b c e g [].
Proof.
  intros Hb Hd. intros.
  assert (∀ d v port x, view d = v → i_busy v = O → i_data v = [] → 0x1F2 ≤ port ≤ 0x1F6 → 0 ≤ x < 2 ^ 8 →
    view (dev_outb port x d) = with_reg port x v) as St by (intros ? ? ? ? <-; apply ide_reg).
  assert (view d = MkIde 0 (i_count (view d)) (i_lba0 (view d)) (i_lba1 (view d)) (i_lba2 (view d)) (i_drive (view d)) []) as Ed
    by (destruct (view d); cbn in *; congruence).
  pose proof (St d _ 0x1F2 a Ed eq_refl eq_refl ltac:(lia) ltac:(assumption)) as E1. cbn in E1.
  pose proof (St _ _ 0x1F3 b E1 eq_refl eq_refl ltac:(lia) ltac:(assumption)) as E2. cbn in E2.
  pose proof (St _ _ 0x1F4 c E2 eq_refl eq_refl ltac:(lia) ltac:(assumption)) as E3. cbn in E3.
  pose proof (St _ _ 0x1F5 e E3 eq_refl eq_refl ltac:(lia) ltac:(assumption)) as E4. cbn in E4.
  exact (St _ _ 0x1F6 g E4 eq_refl eq_refl ltac:(lia) ltac:(assumption)).
Qed.

Lemma readsect_run polls dst n s : idle s → (latency < polls)%nat → 0 ≤ n < 2 ^ 28 → 0 ≤ dst → dst + 512 ≤ 2 ^ 32 →
  ∃ s', readsect polls dst n s = Ret tt s' ∧ idle s' ∧ copied (b_mem s) (b_mem s') dst (512 * n) 512.
Proof.
  intros Hi Hp Hn Hd Hd'. unfold readsect. destruct (waitdisk_run polls s) as (d & E & Hv); [pose proof (ide_latency (b_dev s)); lia|].
  rewrite (bind_Ret _ _ _ _ _ E). unfold outb at 1 2 3 4 5 6. rewrite !bind_modify. cbn [b_mem b_dev].
  set (d6 := dev_outb 0x1F7 _ _). assert (i_data (view d6) = words_from disk (512 * n) 128) as Hw.
  { destruct (sector_shift n Hn) as [E1 E2].
    assert (∀ x, 0 ≤ w8 x < 2 ^ 8) as R by apply w8_range.
    subst d6. change (w8 0x20) with 0x20. change (w8 1) with 1.
    assert (i_data (view d) = []) as Hi0 by (rewrite Hv; exact Hi).
    assert (i_busy (view d) = O) as Hb0 by (rewrite Hv; reflexivity).
    assert (view (dev_outb 0x1F6 (w8 (Z.lor (Z.shiftr n 24) 0xE0)) (dev_outb 0x1F5 (w8 (Z.shiftr n 16))
      (dev_outb 0x1F4 (w8 (Z.shiftr n 8)) (dev_outb 0x1F3 (w8 n) (dev_outb 0x1F2 1 d)))))
      = MkIde 0 1 (w8 n) (w8 (Z.shiftr n 8)) (w8 (Z.shiftr n 16)) (w8 (Z.lor (Z.shiftr n 24) 0xE0)) []) as Ev
      by (apply task_file; first [assumption|apply R|lia]).
    rewrite ide_read; rewrite Ev; try reflexivity; [|exact E2]. unfold lba. cbn [i_lba0 i_lba1 i_lba2 i_drive]. rewrite E1. reflexivity. }
  destruct (waitdisk_run polls (MkBst (b_mem s) d6)) as (d7 & E7 & Hv7); [pose proof (ide_latency d6); cbn; lia|].
  rewrite (bind_Ret _ _ _ _ _ E7). cbn [b_mem b_dev] in *.
  destruct (insl_run 128 (MkBst (b_mem s) d7) dst (512 * n)) as (s' & E8 & Hi' & Hc).
  - left. cbn. rewrite Hv7. reflexivity.
  - cbn [b_dev]. rewrite Hv7. exact Hw.
  - exact Hd.
  - exact Hd'.
  - exists s'. split; [exact E8|]. split; [exact Hi'|exact Hc].
Qed.

(** The bytes from [pa] up to the end of the sector that holds the last one. *)
Definition sectors (pa end_pa : Z) : Z := 512 * ((end_pa - pa + 511) / 512).

Lemma readseg_loop_run polls fuel : ∀ pa end_pa n s, idle s → (latency < polls)%nat → 0 ≤ pa ≤ end_pa → end_pa ≤ 2 ^ 32 - 512 →
  end_pa - pa ≤ 512 * Z.of_nat fuel → 0 ≤ n → n + (end_pa - pa) / 512 < 2 ^ 28 - 1 →
  ∃ s', readseg_loop polls fuel pa end_pa n s = Ret tt s' ∧ idle s' ∧ copied (b_mem s) (b_mem s') pa (512 * n) (sectors pa end_pa).
Proof.
  induction fuel as [|fuel IH]; intros pa end_pa n s Hi Hp Hpa He Hf Hn Hs; cbn [readseg_loop].
  1: replace end_pa with pa by lia.
  2: destruct (Z.eq_dec end_pa pa) as [->|].
  1,2: rewrite Z.ltb_irrefl; exists s; split; [reflexivity|]; split; [exact Hi|];
    intros b; unfold sectors; replace (pa - pa + 511) with 511 by lia; rewrite decide_False by (change (511 / 512) with 0; lia); reflexivity.
  destruct (Z.ltb_spec pa end_pa); [|lia].
  destruct (readsect_run polls pa n s) as (s1 & E1 & Hi1 & Hc1); [assumption|assumption|Z.div_mod_to_equations; lia|lia|lia|].
  rewrite (bind_Ret _ _ _ _ _ E1). unfold SECTSIZE. rewrite !w32_id by (unfold u32_range; Z.div_mod_to_equations; lia).
  destruct (Z_lt_le_dec end_pa (pa + 512)) as [Hl|Hl].
  - exists s1. replace (readseg_loop polls fuel (pa + 512) end_pa (n + 1)) with (mret tt : M bst unit)
      by (destruct fuel; cbn [readseg_loop]; destruct (Z.ltb_spec (pa + 512) end_pa); lia || reflexivity).
    split; [reflexivity|]. split; [exact Hi1|].
    replace (sectors pa end_pa) with 512 by (unfold sectors; Z.div_mod_to_equations; lia). exact Hc1.
  - destruct (IH (pa + 512) end_pa (n + 1) s1) as (s' & E & Hi' & Hc); try assumption; try (Z.div_mod_to_equations; lia).
    exists s'. split; [exact E|]. split; [exact Hi'|].
    replace (sectors pa end_pa) with (512 + sectors (pa + 512) end_pa) by (unfold sectors; Z.div_mod_to_equations; lia).
    apply copied_trans with (m1 := b_mem s1); [lia|unfold sectors; Z.div_mod_to_equations; lia|exact Hc1|].
    replace (512 * n + 512) with (512 * (n + 1)) by lia. exact Hc.
Qed.

(** ** readseg *)

Definition seg_start (pa : Z) : Z := pa - pa mod 512.

Lemma land_sector pa : Z.land pa (Z.lnot (SECTSIZE - 1)) = seg_start pa.
Proof.
  change (Z.lnot (SECTSIZE - 1)) with (Z.lnot (Z.ones 9)). rewrite <- Z.ldiff_land, Z.ldiff_ones_r, Z.shiftl_mul_pow2, Z.shiftr_div_pow2 by lia.
  unfold seg_start. change (2 ^ 9) with 512. Z.div_mod_to_equations. lia.
Qed.

Lemma readseg_run polls fuel pa count offset s : idle s → (latency < polls)%nat → 0 ≤ pa → 0 ≤ count → pa + count ≤ 2 ^ 32 - 512 →
  u32_range offset → count + 512 ≤ 512 * Z.of_nat fuel →
  ∃ s', readseg polls fuel pa count offset s = Ret tt s' ∧ idle s' ∧
    copied (b_mem s) (b_mem s') (seg_start pa) (512 + seg_start offset) (sectors (seg_start pa) (pa + count)).
Proof.
  intros Hi Hp Hpa Hc He Ho Hf. unfold readseg. cbv zeta. rewrite land_sector, w32_id by (unfold u32_range; lia). unfold SECTSIZE.
  unfold u32_range in Ho. assert (0 ≤ pa mod 512 < 512) by (apply Z.mod_pos_bound; lia).
  assert (0 ≤ seg_start pa) by (unfold seg_start; Z.div_mod_to_equations; lia).
  replace (512 + seg_start offset) with (512 * (offset / 512 + 1)) by (unfold seg_start; Z.div_mod_to_equations; lia).
  apply readseg_loop_run; try assumption; try lia; unfold seg_start in *; Z.div_mod_to_equations; lia.
Qed.

(** ** The segments of the kernel *)

(** What a program header says about its segment. *)
Record segment := Seg { g_pa : Z; g_memsz : Z; g_offset : Z }.

(** Where [readseg] stores for a segment, and what memory is afterwards. *)
Definition seg_area (g : segment) (b : Z) : Prop :=
  seg_start (g_pa g) ≤ b < seg_start (g_pa g) + sectors (seg_start (g_pa g)) (g_pa g + g_memsz g).
#[export] Instance seg_area_dec g b : Decision (seg_area g b) := _.
Definition load (f : Z → Z) (g : segment) : Z → Z := λ b,
  if decide (seg_area g b) then ld8 disk (b - seg_start (g_pa g) + (512 + seg_start (g_offset g))) else f b.

(** The headers of [segs] are in memory [m] from [ph] on. *)
Definition headers (m : mem) (ph : Z) (segs : list segment) : Prop :=
  ∀ i g, segs !! i = Some g →
    g = Seg (p_pa m (ph + 32 * Z.of_nat i)) (p_memsz m (ph + 32 * Z.of_nat i)) (p_offset m (ph + 32 * Z.of_nat i)).

Definition scratch (b : Z) : Prop := ELFHDR ≤ b < ELFHDR + 4096.
Definition seg_ok (fuel : nat) (g : segment) : Prop :=
  g_pa g + g_memsz g ≤ 2 ^ 32 - 512 ∧ g_memsz g + 512 ≤ 512 * Z.of_nat fuel ∧ ∀ b, seg_area g b → ¬ scratch b.

Lemma headers_ext m m' ph segs : (∀ b, scratch b → ld8 m' b = ld8 m b) → ELFHDR ≤ ph →
  ph + 32 * Z.of_nat (length segs) ≤ ELFHDR + 4096 → headers m ph segs → headers m' ph segs.
Proof.
  intros He Hl Hu H i g Hg. pose proof (lookup_lt_Some _ _ _ Hg) as Hi. rewrite (H i g Hg).
  unfold p_pa, p_memsz, p_offset. f_equal; apply ld32_ext; intros k Hk; symmetry; apply He; unfold scratch; lia.
Qed.

Lemma read_segments_run polls fuel segs : ∀ ph s, idle s → (latency < polls)%nat → headers (b_mem s) ph segs →
  ELFHDR ≤ ph → ph + 32 * Z.of_nat (length segs) ≤ ELFHDR + 4096 → Forall (seg_ok fuel) segs →
  ∃ s', read_segments polls fuel (length segs) ph s = Ret tt s' ∧ ∀ b, ld8 (b_mem s') b = foldl load (ld8 (b_mem s)) segs b.
Proof.
  induction segs as [|g segs IH]; intros ph s Hi Hp Hh Hl Hu Hok; cbn [read_segments length foldl].
  { exists s. auto. }
  rewrite bind_gets. apply Forall_cons in Hok as [(Hf & Hn & Hs) Hok].
  pose proof (Hh 0%nat g eq_refl) as Eg. replace (ph + 32 * Z.of_nat 0) with ph in Eg by lia.
  set (m := b_mem s) in *.
  pose proof (ld32_range m (ph + 12)). pose proof (ld32_range m (ph + 20)). pose proof (ld32_range m (ph + 4)). unfold u32_range in *.
  destruct (readseg_run polls fuel (p_pa m ph) (p_memsz m ph) (p_offset m ph) s) as (s1 & E1 & Hi1 & Hc1);
    try (rewrite Eg in Hf, Hn; cbn in Hf, Hn); try assumption; try (unfold p_pa, p_memsz, p_offset in *; lia).
  rewrite (bind_Ret _ _ _ _ _ E1).
  assert (∀ b, ld8 (b_mem s1) b = load (ld8 m) g b) as Hm1 by (intros b; rewrite Hc1, Eg; reflexivity).
  cbn [length] in Hu.
  destruct (IH (ph + sizeof_Proghdr) s1) as (s' & E & Hm); unfold sizeof_Proghdr; try assumption; try lia.
  - apply headers_ext with m; [|lia|lia|].
    + intros b Hb. rewrite Hm1. unfold load. rewrite decide_False; [reflexivity|]. intros Ha. apply (Hs b Ha Hb).
    + intros i h Hh'. rewrite (Hh (S i) h Hh'). replace (ph + 32 * Z.of_nat (S i)) with (ph + 32 + 32 * Z.of_nat i) by lia. reflexivity.
  - exists s'. split; [exact E|]. intros b. rewrite Hm. clear - Hm1. revert b.
    assert (∀ f f' : Z → Z, (∀ b, f b = f' b) → ∀ b, foldl load f segs b = foldl load f' segs b) as X.
    { clear. induction segs as [|g segs IH]; intros f f' E; cbn; [exact E|]. apply IH. intros b. unfold load. case_decide; auto. }
    intros b. apply X. exact Hm1.
Qed.

(** The last segment that covers an address decides what is there. *)
Lemma foldl_load segs : ∀ f b, (∀ g, g ∈ segs → ¬ seg_area g b) → foldl load f segs b = f b.
Proof.
  induction segs as [|g segs IH]; intros f b H; cbn; [reflexivity|].
  rewrite IH by (intros h Hh; apply H; right; exact Hh). unfold load. apply decide_False, H. left.
Qed.

Lemma foldl_load_at segs i g f b : segs !! i = Some g → seg_area g b → (∀ j h, (i < j)%nat → segs !! j = Some h → ¬ seg_area h b) →
  foldl load f segs b = ld8 disk (b - seg_start (g_pa g) + (512 + seg_start (g_offset g))).
Proof.
  intros Hi Ha Hl. rewrite <- (take_drop_middle segs i g Hi), foldl_app. cbn [foldl].
  rewrite foldl_load; [unfold load; apply decide_True, Ha|].
  intros h Hh. apply list_elem_of_lookup in Hh as [j Hj]. rewrite lookup_drop in Hj. apply (Hl (S i + j)%nat); [lia|exact Hj].
Qed.

(** A kernel image: byte [a] of the file is byte [512 + a] of the disk. *)
Record image (fuel : nat) (segs : list segment) : Prop := {
  im_magic : e_magic disk 512 = ELF_MAGIC;
  im_phnum : e_phnum disk 512 = Z.of_nat (length segs);
  im_phoff : e_phoff disk 512 + 32 * Z.of_nat (length segs) ≤ 4096;
  im_headers : headers disk (512 + e_phoff disk 512) segs;
  im_segments : Forall (seg_ok fuel) segs
}.

Lemma first_page polls fuel s : idle s → (latency < polls)%nat → (9 ≤ fuel)%nat →
  ∃ s', readseg polls fuel ELFHDR (SECTSIZE * 8) 0 s = Ret tt s' ∧ idle s' ∧ copied (b_mem s) (b_mem s') ELFHDR 512 4096.
Proof.
  intros Hi Hp Hf. destruct (readseg_run polls fuel ELFHDR (SECTSIZE * 8) 0 s) as (s' & E & Hi' & Hc);
    try assumption; unfold ELFHDR, SECTSIZE, u32_range in *; try lia.
  exists s'. split; [exact E|]. split; [exact Hi'|exact Hc].
Qed.

Lemma scratch_word m m' a : copied m m' ELFHDR 512 4096 → 0 ≤ a → a + 4 ≤ 4096 → ld32 m' (ELFHDR + a) = ld32 disk (512 + a).
Proof.
  intros Hc Ha Hb. replace (ld32 disk (512 + a)) with (ld32 (st32 m (ELFHDR + a) (ld32 disk (512 + a))) (ELFHDR + a))
    by (apply ld32_st32_eq, ld32_range).
  apply ld32_ext. intros i Hi. rewrite Hc, st32_ld32. rewrite !decide_True by lia. f_equal. lia.
Qed.

Lemma scratch_half m m' a : copied m m' ELFHDR 512 4096 → 0 ≤ a → a + 4 ≤ 4096 → ld16 m' (ELFHDR + a) = ld16 disk (512 + a).
Proof.
  intros Hc Ha Hb. pose proof (scratch_word m m' a Hc Ha Hb) as E. unfold ld32 in E.
  assert (∀ m b, 0 ≤ ld16 m b < 2 ^ 16) as R
    by (intros ? b; unfold ld16; pose proof (ld8_range m0 b); pose proof (ld8_range m0 (b + 1)); lia).
  pose proof (R m' (ELFHDR + a)). pose proof (R m' (ELFHDR + a + 2)). pose proof (R disk (512 + a)). pose proof (R disk (512 + a + 2)). lia.
Qed.

Lemma scratch_headers m m' segs : copied m m' ELFHDR 512 4096 → 0 ≤ e_phoff disk 512 →
  e_phoff disk 512 + 32 * Z.of_nat (length segs) ≤ 4096 → headers disk (512 + e_phoff disk 512) segs →
  headers m' (ELFHDR + e_phoff disk 512) segs.
Proof.
  intros Hc H0 Hl Hh i g Hg. pose proof (lookup_lt_Some _ _ _ Hg) as Hi. rewrite (Hh i g Hg). unfold p_pa, p_memsz, p_offset.
  f_equal; match goal with |- _ = ld32 m' (?x + ?y + ?k) => replace (x + y + k) with (ELFHDR + (e_phoff disk 512 + 32 * Z.of_nat i + k)) by lia end;
    rewrite (scratch_word _ _ _ Hc) by lia; f_equal; lia.
Qed.
End loader.

(** * Properties *)

(** C19. [bootmain], on a disk that follows the ATA protocol, loads the kernel:
    every byte of every segment of a valid image is put at the physical
    address of its program header, when that address and the offset in the
    file agree modulo the sector size and no later segment is read over it;
    outside the scratch page and the sectors of the segments memory is as it
    was; and the entry point of the ELF header is called.  An image with
    another magic number is not run. *)
Theorem bootmain_loads {D : Type} `{PortIO D} (view : D → ide) (disk : mem) (latency polls fuel : nat) (s : bst D)
    (segs : list segment) :
  IdeLaws D view disk latency → i_data (view (b_dev s)) = [] → (latency < polls)%nat → (9 ≤ fuel)%nat →
  (e_magic disk 512 ≠ ELF_MAGIC → ∃ s', bootmain polls fuel s = Stop SLoop s') ∧
  (image disk fuel segs →
    ∃ s', bootmain polls fuel s = Ret (e_entry disk 512) s' ∧
      (∀ b, (∀ g, g ∈ segs → ¬ seg_area g b) → ¬ scratch b → ld8 (b_mem s') b = ld8 (b_mem s) b) ∧
      (∀ i g k, segs !! i = Some g → g_pa g mod 512 = g_offset g mod 512 → 0 ≤ k < g_memsz g →
        (∀ j h, (i < j)%nat → segs !! j = Some h → ¬ seg_area h (g_pa g + k)) →
        ld8 (b_mem s') (g_pa g + k) = ld8 disk (512 + (g_offset g + k)))).
Proof.
  intros laws Hi Hp Hf. unfold bootmain.
  destruct (first_page view disk latency polls fuel s Hi Hp Hf) as (s1 & E1 & Hi1 & Hc1).
  rewrite (bind_Ret _ _ _ _ _ E1), bind_gets.
  pose proof (ld32_range disk (512 + 28)) as R28. unfold u32_range in R28.
  assert (∀ a m, copied disk (b_mem s) m ELFHDR 512 4096 → 0 ≤ a ≤ 60 → ld32 m (ELFHDR + a) = ld32 disk (512 + a)) as W
    by (intros; eapply scratch_word; eauto; lia).
  assert (e_magic (b_mem s1) ELFHDR = e_magic disk 512) as Em by exact (W 0 _ Hc1 ltac:(lia)).
  rewrite Em. split.
  { intros Hm. rewrite (proj2 (Z.eqb_neq _ _) Hm). cbn [negb]. unfold outw. rewrite !bind_modify. eexists. reflexivity. }
  intros [Hm Hn Ho Hh Hok]. rewrite Hm, Z.eqb_refl. cbn [negb].
  change (e_phoff disk 512) with (ld32 disk (512 + 28)) in *.
  replace (e_phnum (b_mem s1) ELFHDR) with (Z.of_nat (length segs)) by (rewrite <- Hn; symmetry; apply (scratch_half _ _ _ 44 Hc1); lia).
  rewrite Nat2Z.id. replace (e_phoff (b_mem s1) ELFHDR) with (ld32 disk (512 + 28)) by (symmetry; apply (W 28 _ Hc1); lia).
  rewrite w32_id by (unfold u32_range, ELFHDR; lia).
  destruct (read_segments_run view disk latency polls fuel segs (ELFHDR + ld32 disk (512 + 28)) s1) as (s2 & E2 & Hm2); try assumption; try lia.
  { apply (scratch_headers disk (b_mem s)); [exact Hc1|apply R28|exact Ho|exact Hh]. }
  rewrite (bind_Ret _ _ _ _ _ E2), bind_gets. exists s2.
  assert (∀ b, scratch b → ld8 (b_mem s2) b = ld8 (b_mem s1) b) as Hs2.
  { intros b Hb. rewrite Hm2. apply foldl_load. intros g Hg Ha.
    rewrite Forall_forall in Hok. destruct (Hok g Hg) as (_ & _ & Hd). apply (Hd b Ha Hb). }
  split; [|split].
  - unfold e_entry. f_equal. rewrite <- (W 24 _ Hc1) by lia.
    apply ld32_ext. intros k Hk. apply Hs2. unfold scratch. lia.
  - intros b Hb Hs. rewrite Hm2, foldl_load by exact Hb. rewrite Hc1. apply decide_False. exact Hs.
  - intros i g k Hg Hmod Hk Hl. rewrite Hm2. rewrite (foldl_load_at disk segs i g); [|exact Hg| |exact Hl].
    + f_equal. unfold seg_start. lia.
    + unfold seg_area, seg_start, sectors. Z.div_mod_to_equations. lia.
Qed.

(** ** A disk with a kernel of one segment *)

(** A disk that is busy for one poll after each command. *)
Record sim_disk := SimDisk { sd_busy : bool; sd_regs : ide }.
Definition sim_view (d : sim_disk) : ide := with_busy (Nat.b2n (sd_busy d)) (sd_regs d).
Definition with_data ws v := MkIde (i_busy v) (i_count v) (i_lba0 v) (i_lba1 v) (i_lba2 v) (i_drive v) ws.

#[local] Instance sim_io (disk : mem) : PortIO sim_disk := {
  dev_inb port d := if sd_busy d then (0x80, SimDisk false (sd_regs d)) else (0x40, d);
  dev_inl port d := match i_data (sd_regs d) with
    | [] => (0, d)
    | w :: ws => (w, SimDisk (sd_busy d) (with_data ws (sd_regs d)))
    end;
  dev_outb port x d :=
    if port =? 0x1F7 then SimDisk true (with_data (words_from disk (512 * lba (sd_regs d)) 128) (sd_regs d))
    else SimDisk (sd_busy d) (with_reg port x (sd_regs d));
  dev_outw _ _ d := d
}.

#[local] Instance sim_laws (disk : mem) : @IdeLaws sim_disk (sim_io disk) sim_view disk 1.
Proof.
  split.
  - intros [[] v]; cbn; lia.
  - intros [[] v]; cbn; (split; [discriminate || reflexivity|reflexivity]).
  - intros [[] v] port x; cbn; [discriminate|]. intros _ _ Hp _. destruct (Z.eqb_spec port 0x1F7); [lia|]. reflexivity.
  - intros [[] v]; cbn; [discriminate|]. intros _ _ _ _. reflexivity.
  - intros [[] v] w ws; cbn; [discriminate|]. intros _ ->. auto.
Qed.

Definition demo_disk : mem :=
  foldr (λ '(a, v) m, st32 m a v) ∅
    [(512, ELF_MAGIC); (512 + 24, 0x10000C); (512 + 28, 52); (512 + 44, 1);
     (564 + 4, 0x1000); (564 + 12, 0x100000); (564 + 20, 8); (512 + 0x1000, 0x1000B812); (512 + 0x1004, 0xE0220F00)].

Lemma demo_image : image demo_disk 9 [Seg 0x100000 8 0x1000].
Proof.
  split.
  - vm_compute. reflexivity.
  - vm_compute. reflexivity.
  - vm_compute. discriminate.
  - intros [|i] g Hg; [|discriminate Hg]. injection Hg as <-. vm_compute. reflexivity.
  - constructor; [|constructor]. split; [discriminate|]. split; [discriminate|]. intros b [Ha Hb] [Hc Hd]. clear Hb Hc. revert Ha Hd.
    change (seg_start (g_pa (Seg 0x100000 8 0x1000))) with 0x100000. unfold ELFHDR. lia.
Qed.

Lemma bootmain_loads_witness : ∃ s' : bst sim_disk,
  @bootmain _ (sim_io demo_disk) 2 9 (MkBst ∅ (SimDisk true (MkIde 0 0 0 0 0 0 []))) = Ret 0x10000C s' ∧
  ld8 (b_mem s') 0x100007 = 0xE0.
Proof.
  destruct (@bootmain_loads _ (sim_io demo_disk) sim_view demo_disk 1 2 9 (MkBst ∅ (SimDisk true (MkIde 0 0 0 0 0 0 [])))
    [Seg 0x100000 8 0x1000] (sim_laws demo_disk)) as [_ H]; [reflexivity|lia|lia|].
  destruct (H demo_image) as (s' & E & _ & Hl). exists s'. split; [exact E|].
  specialize (Hl 0%nat (Seg 0x100000 8 0x1000) 7 eq_refl eq_refl ltac:(cbn; lia)). cbn [g_pa g_offset] in Hl.
  change (0x100000 + 7) with 0x100007 in Hl. rewrite Hl; [vm_compute; reflexivity|].
  intros [|[|j]] h Hj Hh; [lia|discriminate Hh|discriminate Hh].
Defined.
