(* ===== verification/CString.v ===== *)
(** The routines of lib/string.c on null-terminated strings.  (memset, memmove
    and the others that take a length are in [Mem].)  Loops up to a null byte
    carry fuel; [SLoop] is its end, and the theorems give fuel that is enough. *)
From S2P Require Import Prelude Mem.

(** * The routines *)

Definition ldb (a : Z) : M mem Z := gets (λ m, ld8 m a).
Definition stb (a v : Z) : M mem unit := modify (λ m, st8 m a v).

(** The loops take a fuel, and read through [rd], so that they also run on
    states other than a memory. *)
Section read.
Context {S : Type} (rd : Z → M S Z).

Fixpoint strlen_loop (fuel : nat) (s n : Z) : M S Z :=
  match fuel with
  | O => stop_with SLoop
  | Datatypes.S fuel => c ← rd s; if c =? 0 then mret n else strlen_loop fuel (s + 1) (n + 1)
  end.
Definition strlen (fuel : nat) (s : Z) : M S Z := strlen_loop fuel s 0.

(** [size] is a size_t: -1 is 2^32 - 1. *)
Fixpoint strnlen_loop (fuel : nat) (s size n : Z) : M S Z :=
  match fuel with
  | O => stop_with SLoop
  | Datatypes.S fuel =>
      if size =? 0 then mret n
      else c ← rd s; if c =? 0 then mret n else strnlen_loop fuel (s + 1) (size - 1) (n + 1)
  end.
Definition strnlen (fuel : nat) (s size : Z) : M S Z := strnlen_loop fuel s (w32 size) 0.

Fixpoint strcmp (fuel : nat) (p q : Z) : M S Z :=
  match fuel with
  | O => stop_with SLoop
  | Datatypes.S fuel =>
      c ← rd p; d ← rd q;
      if negb (c =? 0) && (c =? d) then strcmp fuel (p + 1) (q + 1) else mret (c - d)
  end.

Fixpoint strncmp (n : nat) (p q : Z) : M S Z :=
  match n with
  | O => mret 0
  | Datatypes.S n =>
      c ← rd p; d ← rd q;
      if negb (c =? 0) && (c =? d) then strncmp n (p + 1) (q + 1) else mret (c - d)
  end.

(** 0 is the null pointer. *)
Fixpoint strchr (fuel : nat) (s c : Z) : M S Z :=
  match fuel with
  | O => stop_with SLoop
  | Datatypes.S fuel =>
      x ← rd s; if x =? 0 then mret 0 else if x =? w8 c then mret s else strchr fuel (s + 1) c
  end.

Fixpoint strfind (fuel : nat) (s c : Z) : M S Z :=
  match fuel with
  | O => stop_with SLoop
  | Datatypes.S fuel =>
      x ← rd s; if x =? 0 then mret s else if x =? w8 c then mret s else strfind fuel (s + 1) c
  end.

(** ** strtol: the value and the end pointer *)

Fixpoint gobble (fuel : nat) (s : Z) : M S Z :=
  match fuel with
  | O => stop_with SLoop
  | Datatypes.S fuel => c ← rd s; if (c =? 32) || (c =? 9) then gobble fuel (s + 1) else mret s
  end.

Definition digit (c : Z) : option Z :=
  if (48 <=? c) && (c <=? 57) then Some (c - 48)
  else if (97 <=? c) && (c <=? 122) then Some (c - 97 + 10)
  else if (65 <=? c) && (c <=? 90) then Some (c - 65 + 10)
  else None.

(** The accumulator is a long, which wraps around. *)
Fixpoint digits (fuel : nat) (s base val : Z) : M S (Z * Z) :=
  match fuel with
  | O => stop_with SLoop
  | Datatypes.S fuel =>
      c ← rd s;
      match digit c with
      | None => mret (val, s)
      | Some dig => if dig >=? base then mret (val, s) else digits fuel (s + 1) base (s32 (val * base + dig))
      end
  end.

Definition strtol (fuel : nat) (s base : Z) : M S (Z * Z) :=
  s ← gobble fuel s;
  c ← rd s;
  '(s, neg) ← (if c =? 43 then mret (s + 1, false)
               else c ← rd s; if c =? 45 then mret (s + 1, true) else mret (s, false));
  '(s, base) ← (c0 ← rd s;
                hex ← (if ((base =? 0) || (base =? 16)) && (c0 =? 48)
                       then c1 ← rd (s + 1); mret (c1 =? 120) else mret false);
                if (hex : bool) then mret (s + 2, 16)
                else if (base =? 0) && (c0 =? 48) then mret (s + 1, 8)
                else if base =? 0 then mret (s, 10) else mret (s, base));
  '(val, s) ← digits fuel s base 0;
  mret (if (neg : bool) then s32 (- val) else val, s).
End read.

(** The routines that write take the memory itself. *)
Fixpoint strcpy_loop (fuel : nat) (dst src : Z) : M mem unit :=
  match fuel with
  | O => stop_with SLoop
  | S fuel => c ← ldb src; stb dst c ;; if c =? 0 then mret tt else strcpy_loop fuel (dst + 1) (src + 1)
  end.
Definition strcpy (fuel : nat) (dst src : Z) : M mem Z := strcpy_loop fuel dst src ;; mret dst.

Definition strcat (fuel : nat) (dst src : Z) : M mem Z :=
  len ← strlen ldb fuel dst; strcpy fuel (dst + len) src ;; mret dst.

Fixpoint strncpy_loop (n : nat) (dst src : Z) : M mem unit :=
  match n with
  | O => mret tt
  | S n =>
      c ← ldb src; stb dst c ;;
      c ← ldb src; strncpy_loop n (dst + 1) (if c =? 0 then src else src + 1)
  end.
Definition strncpy (dst src : Z) (size : nat) : M mem Z := strncpy_loop size dst src ;; mret dst.

(** [while (--size > 0 && *src != '\0')] *)
Fixpoint strlcpy_loop (size : nat) (dst src : Z) : M mem Z :=
  match size with
  | O => mret dst
  | S size =>
      c ← ldb src;
      if c =? 0 then mret dst else stb dst c ;; strlcpy_loop size (dst + 1) (src + 1)
  end.
Definition strlcpy (dst src : Z) (size : nat) : M mem Z :=
  match size with
  | O => mret 0
  | S size => e ← strlcpy_loop size dst src; stb e 0 ;; mret (e - dst)
  end.

(** * Strings in memory *)

(** The bytes [cs] are at [s]. *)
Definition bytes_at (f : Z → Z) (s : Z) (cs : list Z) : Prop :=
  ∀ i c, cs !! i = Some c → f (s + Z.of_nat i) = c.

(** [cs] with its null byte is at [s]. *)
Record cstr (f : Z → Z) (s : Z) (cs : list Z) : Prop := {
  cs_bytes : bytes_at f s cs;
  cs_nul : f (s + Z.of_nat (length cs)) = 0;
  cs_nonzero : Forall (λ c, 0 < c < 256) cs
}.

Lemma bytes_at_cons f s c cs : bytes_at f s (c :: cs) ↔ f s = c ∧ bytes_at f (s + 1) cs.
Proof.
  split.
  - intros H. split; [rewrite <- (H 0%nat c eq_refl); f_equal; lia|].
    intros i x Hx. rewrite <- (H (S i) x Hx). f_equal. lia.
  - intros [Hc H] [|i] x Hx; [injection Hx as <-; rewrite <- Hc; f_equal; lia|].
    rewrite <- (H i x Hx). f_equal. lia.
Qed.

Lemma cstr_cons f s c cs : cstr f s (c :: cs) ↔ f s = c ∧ 0 < c < 256 ∧ cstr f (s + 1) cs.
Proof.
  split.
  - intros [Hb Hn Hz]. apply bytes_at_cons in Hb as [Hc Hb]. inversion Hz; subst. split; [reflexivity|]. split; [assumption|].
    split; [assumption| |assumption]. rewrite <- Hn. f_equal. cbn [length]. lia.
  - intros (Hc & Hr & [Hb Hn Hz]). split; [apply bytes_at_cons; auto| |constructor; auto].
    rewrite <- Hn. f_equal. cbn [length]. lia.
Qed.

Lemma cstr_nil f s : cstr f s [] → f s = 0.
Proof. intros [_ Hn _]. rewrite <- Hn. f_equal. cbn. lia. Qed.

(** * What the routines compute

    In a state [st] where reading address [a] gives [f a]. *)
Section spec.
Context {S : Type} (rd : Z → M S Z) (f : Z → Z) (st : S) (Hrd : ∀ a, rd a st = Ret (f a) st).

Ltac rds := rewrite (bind_Ret _ _ _ _ _ (Hrd _)).

Lemma strlen_run fuel s cs : cstr f s cs → (length cs < fuel)%nat → strlen rd fuel s st = Ret (Z.of_nat (length cs)) st.
Proof.
  intros H Hf. unfold strlen. rewrite <- (Z.add_0_l (Z.of_nat (length cs))). generalize 0 as n. revert s fuel H Hf.
  induction cs as [|c cs IH]; intros s fuel H Hf n; (destruct fuel as [|fuel]; [cbn in Hf; lia|]); cbn [strlen_loop]; rds.
  - rewrite (cstr_nil _ _ H). cbn. f_equal. lia.
  - apply cstr_cons in H as (-> & Hc & H). destruct (Z.eqb_spec c 0); [lia|].
    rewrite IH; [f_equal; cbn [length]; lia|assumption|cbn in Hf; lia].
Qed.

Lemma strnlen_run fuel s size cs : cstr f s cs → (length cs < fuel)%nat →
  strnlen rd fuel s size st = Ret (Z.min (w32 size) (Z.of_nat (length cs))) st.
Proof.
  intros H Hf. unfold strnlen. rewrite <- (Z.add_0_l (Z.min _ _)). pose proof (w32_range size) as Hs. unfold u32_range in Hs.
  generalize dependent (w32 size). intros z Hs. generalize 0 as n. revert s z fuel H Hf Hs.
  induction cs as [|c cs IH]; intros s z fuel H Hf Hs n; (destruct fuel as [|fuel]; [cbn in Hf; lia|]); cbn [strnlen_loop];
    (destruct (Z.eqb_spec z 0) as [->|]; [rewrite Z.min_l by lia; f_equal; lia|]); rds.
  - rewrite (cstr_nil _ _ H). cbn. f_equal. lia.
  - apply cstr_cons in H as (-> & Hc & H). destruct (Z.eqb_spec c 0); [lia|].
    rewrite IH; [f_equal; cbn [length]; lia|assumption|cbn in Hf; lia|lia].
Qed.

(** Strings in the order of their first different bytes, the null byte
    included. *)
Fixpoint str_diff (x y : list Z) : Z :=
  match x, y with
  | c :: x, d :: y => if c =? d then str_diff x y else c - d
  | c :: _, [] => c
  | [], d :: _ => - d
  | [], [] => 0
  end.

Lemma strcmp_run fuel p q x y : cstr f p x → cstr f q y → (length x < fuel)%nat →
  strcmp rd fuel p q st = Ret (str_diff x y) st.
Proof.
  revert p q y fuel. induction x as [|c x IH]; intros p q y fuel Hp Hq Hf;
    (destruct fuel as [|fuel]; [cbn in Hf; lia|]); cbn [strcmp]; rds; rds.
  - rewrite (cstr_nil _ _ Hp). cbn. destruct y as [|d y]; [rewrite (cstr_nil _ _ Hq); reflexivity|].
    apply cstr_cons in Hq as (-> & _ & _). reflexivity.
  - apply cstr_cons in Hp as (-> & Hc & Hp). destruct (Z.eqb_spec c 0); [lia|]. cbn [negb andb].
    destruct y as [|d y].
    + rewrite (cstr_nil _ _ Hq). destruct (Z.eqb_spec c 0); [lia|]. rewrite Z.sub_0_r. reflexivity.
    + apply cstr_cons in Hq as (-> & Hd & Hq). cbn. destruct (Z.eqb_spec c d); [|reflexivity].
      apply IH; [assumption..|cbn in Hf; lia].
Qed.

Lemma str_diff_eq x y : Forall (λ c, 0 < c < 256) x → Forall (λ c, 0 < c < 256) y → str_diff x y = 0 ↔ x = y.
Proof.
  intros Hx. revert y. induction Hx as [|c x Hc Hx IH]; intros [|d y] Hy; inversion Hy; subst; cbn.
  - split; reflexivity.
  - split; [lia|discriminate].
  - split; [lia|discriminate].
  - destruct (Z.eqb_spec c d) as [->|D]; [rewrite IH by assumption|]; split; intros; try congruence; lia.
Qed.

Lemma digits_run fuel s base cs ds c v : Forall2 (λ c d, digit c = Some d ∧ d < base) cs ds → bytes_at f s cs →
  f (s + Z.of_nat (length cs)) = c → (∀ d, digit c = Some d → base ≤ d) → (length cs < fuel)%nat →
  digits rd fuel s base v st = Ret (foldl (λ v d, s32 (v * base + d)) v ds, s + Z.of_nat (length cs)) st.
Proof.
  intros H. revert s v fuel. induction H as [|x d cs ds [Hx Hd] _ IH]; intros s v fuel Hb Hc Hn Hf;
    (destruct fuel as [|fuel]; [cbn in Hf; lia|]); cbn [digits]; rds.
  - cbn [length Z.of_nat foldl] in *. rewrite Z.add_0_r in *. rewrite Hc. destruct (digit c) as [d|]; [|reflexivity].
    specialize (Hn d eq_refl). destruct (Z.geb_spec d base); [reflexivity|lia].
  - apply bytes_at_cons in Hb as [-> Hb]. rewrite Hx. destruct (Z.geb_spec d base); [lia|].
    rewrite IH; [|assumption| |assumption|cbn in Hf; lia].
    { replace (s + Z.of_nat (length (x :: cs))) with (s + 1 + Z.of_nat (length cs)) by (cbn [length]; lia). reflexivity. }
    rewrite <- Hc. f_equal. cbn [length]. lia.
Qed.

Lemma gobble_run fuel s n c : bytes_at f s (replicate n 32) → f (s + Z.of_nat n) = c → c ≠ 32 → c ≠ 9 → (n < fuel)%nat →
  gobble rd fuel s st = Ret (s + Z.of_nat n) st.
Proof.
  revert s fuel. induction n as [|n IH]; intros s fuel Hb Hc H1 H2 Hf; (destruct fuel as [|fuel]; [lia|]); cbn [gobble]; rds.
  - rewrite Z.add_0_r in *. rewrite Hc. destruct (Z.eqb_spec c 32); [lia|]. destruct (Z.eqb_spec c 9); [lia|]. reflexivity.
  - apply bytes_at_cons in Hb as [-> Hb]. change ((32 =? 32) || (32 =? 9)) with true. cbv iota. rewrite IH; [f_equal; lia|assumption| |lia..].
    rewrite <- Hc. f_equal. lia.
Qed.

Lemma digit_low c d : digit c = Some d → 48 ≤ c ≤ 122 ∧ 0 ≤ d ∧ (c = 120 → d = 33).
Proof.
  unfold digit. destruct (Z.leb_spec 48 c), (Z.leb_spec c 57), (Z.leb_spec 97 c), (Z.leb_spec c 122),
    (Z.leb_spec 65 c), (Z.leb_spec c 90); cbn; intros [= <-]; lia.
Qed.

(** A numeral with an optional minus sign; a second digit is never an x. *)
Lemma strtol_run fuel s base (neg : bool) cs ds : base ∈ [8; 10; 16] → cs ≠ [] →
  Forall2 (λ c d, digit c = Some d ∧ d < base) cs ds → bytes_at f s ((if neg then [45] else []) ++ cs ++ [0]) →
  (length cs < fuel)%nat →
  let v := foldl (λ v d, s32 (v * base + d)) 0 ds in
  strtol rd fuel s base st = Ret (if neg then s32 (- v) else v, s + Z.b2z neg + Z.of_nat (length cs)) st.
Proof.
  intros Hb Hne Hall Hat Hf. pose proof Hall as Hd. destruct Hd as [|c0 d0 cs ds [Hc0 Hd0] Hd]; [contradiction|].
  destruct (digit_low _ _ Hc0) as (Hr0 & _).
  assert (∃ c1, f (s + Z.b2z neg) = c0 ∧ f (s + Z.b2z neg + 1) = c1 ∧ c1 ≠ 120 ∧ bytes_at f (s + Z.b2z neg) ((c0 :: cs) ++ [0])
    ∧ f s = if neg then 45 else c0) as (c1 & E0 & E1 & N1 & Hat' & Es).
  { assert (bytes_at f (s + Z.b2z neg) (c0 :: cs ++ [0]) ∧ f s = if neg then 45 else c0) as [G Es].
    { destruct neg; cbn [app Z.b2z] in *; [apply bytes_at_cons in Hat as [-> Hat]; auto|].
      rewrite Z.add_0_r. split; [exact Hat|]. apply bytes_at_cons in Hat as [-> _]. reflexivity. }
    pose proof G as G'. apply bytes_at_cons in G as [G0 G]. exists (f (s + Z.b2z neg + 1)). split; [exact G0|].
    split; [reflexivity|]. split; [|split; assumption].
    inversion Hd as [|c1 d1 cs' ds' [Hc1 Hd1]]; subst; apply bytes_at_cons in G as [-> _]; [discriminate|].
    intros ->. destruct (digit_low _ _ Hc1) as (_ & _ & F). specialize (F eq_refl).
    rewrite !elem_of_cons, elem_of_nil in Hb. lia. }
  unfold strtol. assert (gobble rd fuel s st = Ret s st) as Eg.
  { pose proof (gobble_run fuel s 0 (f s)) as G. cbn [Z.of_nat] in G. rewrite Z.add_0_r in G.
    apply G; [intros i x Hx; discriminate Hx|reflexivity| | |cbn in Hf; lia]; rewrite Es; destruct neg; lia. }
  rewrite (bind_Ret _ _ _ _ _ Eg). rds. rewrite Es.
  rewrite (bind_Ret _ _ _ (s + Z.b2z neg, neg) st).
  2: { destruct neg; cbn [Z.eqb Pos.eqb Z.b2z].
    - rds. rewrite Es. reflexivity.
    - destruct (Z.eqb_spec c0 43); [lia|]. rds. rewrite Es. destruct (Z.eqb_spec c0 45); [lia|]. rewrite Z.add_0_r. reflexivity. }
  cbv beta iota. rewrite (bind_Ret _ _ _ (s + Z.b2z neg, base) st).
  2: { rds. assert (base =? 0 = false) as -> by (rewrite !elem_of_cons, elem_of_nil in Hb; lia). cbn [orb andb].
    rewrite (bind_Ret _ _ _ false st); [reflexivity|]. destruct (_ && _); [|reflexivity]. rds. rewrite E1.
    destruct (Z.eqb_spec c1 120); [contradiction|]. reflexivity. }
  cbv beta iota. rewrite (bind_Ret _ _ _ _ _ (digits_run fuel _ base (c0 :: cs) (d0 :: ds) 0 0
    Hall ltac:(intros i x Hx; apply Hat', lookup_app_l_Some, Hx)
    ltac:(apply (Hat' (length (c0 :: cs))); rewrite lookup_app_r, Nat.sub_diag by lia; reflexivity)
    ltac:(discriminate) Hf)).
  reflexivity.
Qed.
End spec.

(** The wrapped accumulator is the wrapped value. *)
Lemma s32_mod a b : a mod 2 ^ 32 = b mod 2 ^ 32 → s32 a = s32 b.
Proof. unfold s32. intros ->. reflexivity. Qed.

Lemma s32_eqm a : (s32 a) mod 2 ^ 32 = a mod 2 ^ 32.
Proof.
  unfold s32. cbv zeta. destruct (Z.ltb_spec (a mod 2 ^ 32) (2 ^ 31)); [apply Zmod_mod|].
  rewrite <- (Zmod_mod a). Z.div_mod_to_equations. lia.
Qed.

Lemma s32_opp a : s32 (- s32 a) = s32 (- a).
Proof. apply s32_mod. rewrite <- !(Z.sub_0_l), <- Zminus_mod_idemp_r, s32_eqm, Zminus_mod_idemp_r. reflexivity. Qed.

Lemma foldl_s32 base a ds :
  foldl (λ v d, s32 (v * base + d)) (s32 a) ds = s32 (foldl (λ v d, v * base + d) a ds).
Proof.
  revert a. induction ds as [|d ds IH]; intros a; cbn [foldl]; [reflexivity|]. rewrite <- IH. f_equal.
  apply s32_mod. rewrite <- Zplus_mod_idemp_l, <- Zmult_mod_idemp_l, s32_eqm, Zmult_mod_idemp_l, Zplus_mod_idemp_l. reflexivity.
Qed.
