(* ===== verification/Printfmt.v ===== *)
(** Formatted output (lib/printfmt.c, kern/printf.c, lib/printf.c): the
    interpreter of format strings, run with the three putch functions of the
    repository. *)
From Stdlib Require Import Ascii.
From S2P Require Import Prelude Mmu Mem CString.

(** Characters and literals as numbers. *)
Definition chr (c : Ascii.ascii) : Z := Z.of_N (Ascii.N_of_ascii c).
Arguments chr c%_char.
Fixpoint bytes (s : string) : list Z :=
  match s with EmptyString => [] | String c s => chr c :: bytes s end.

(** [*p] for a [const char *]: chars are signed. *)
Definition s8 (z : Z) : Z := if z <? 128 then z else z - 256.
Definition s64 (z : Z) : Z := let u := w64 z in if u <? 2 ^ 63 then u else u - 2 ^ 64.

Definition error_string (err : Z) : option string :=
  if err =? E_UNSPECIFIED then Some "unspecified error"
  else if err =? E_BAD_ENV then Some "bad environment"
  else if err =? E_INVAL then Some "invalid parameter"
  else if err =? E_NO_MEM then Some "out of memory"
  else if err =? E_NO_FREE_ENV then Some "out of environments"
  else if err =? E_FAULT then Some "segmentation fault"
  else if err =? E_IPC_NOT_RECV then Some "env is not recving"
  else if err =? E_EOF then Some "unexpected end of file"
  else None.

(** The local variables of vprintfmt while it reads an escape sequence. *)
Record spec := MkSpec { padc : Z; width : Z; precision : Z; lflag : Z; altflag : bool }.
Definition spec0 : spec := MkSpec 32 (-1) (-1) 0 false.
Definition set_padc v o := MkSpec v (width o) (precision o) (lflag o) (altflag o).
Definition set_width v o := MkSpec (padc o) v (precision o) (lflag o) (altflag o).
Definition set_precision v o := MkSpec (padc o) (width o) v (lflag o) (altflag o).
Definition set_lflag v o := MkSpec (padc o) (width o) (precision o) v (altflag o).
Definition set_altflag v o := MkSpec (padc o) (width o) (precision o) (lflag o) v.

(** The label [process_precision]. *)
Definition process_precision (o : spec) : spec :=
  if width o <? 0 then set_precision (-1) (set_width (precision o) o) else o.

Section printfmt.
(** The state that putch works on, how a byte is read in it, where the string
    literals are, the function putch, and the variable [console_color]. *)
Context {S : Type} (rd : Z → M S Z) (lit : string → Z) (putch : Z → M S unit) (set_color : Z → M S unit).

(** [printnum]: the digits of [num] from the most significant one, after
    padding to [width].  The fuel bounds the number of digits; 64 is enough for
    any [unsigned long long]. *)
Fixpoint printnum (fuel : nat) (num base width padc : Z) : M S unit :=
  match fuel with
  | O => stop_with SLoop
  | Datatypes.S fuel =>
      (if num >=? base then printnum fuel (num / base) base (width - 1) padc
       else for_range (Z.to_nat (width - 1)) 0 1 (λ _, putch padc)) ;;
      putch (nth (Z.to_nat (num mod base)) (bytes "0123456789abcdef") 0)
  end.

(** [va_arg]: the arguments are 32-bit words on the stack, a long long two. *)
Definition va_arg (ap : list Z) : M S (Z * list Z) :=
  match ap with x :: ap => mret (w32 x, ap) | [] => undef "va_arg" end.
Definition getuint (ap : list Z) (lflag : Z) : M S (Z * list Z) :=
  '(lo, ap) ← va_arg ap;
  if lflag >=? 2 then '(hi, ap) ← va_arg ap; mret (lo + 2 ^ 32 * hi, ap) else mret (lo, ap).
Definition getint (ap : list Z) (lflag : Z) : M S (Z * list Z) :=
  '(lo, ap) ← va_arg ap;
  if lflag >=? 2 then '(hi, ap) ← va_arg ap; mret (s64 (lo + 2 ^ 32 * hi), ap) else mret (s32 lo, ap).

(** The width and precision digits: the loop of case '1' to '9', with [ch] the
    last digit read.  It leaves [fmt] at the first character that is none. *)
Fixpoint field (fuel : nat) (ch precision fmt : Z) : M S (Z * Z) :=
  match fuel with
  | O => stop_with SLoop
  | Datatypes.S fuel =>
      let precision := precision * 10 + ch - 48 in
      if precision >=? 2 ^ 31 then undef "signed overflow"
      else
        c ← rd fmt;
        let ch := s8 c in
        if (ch <? 48) || (ch >? 57) then mret (precision, fmt) else field fuel ch precision (fmt + 1)
  end.

(** The middle loop of case 's'; it returns the new width. *)
Fixpoint put_chars (fuel : nat) (p width precision : Z) (altflag : bool) : M S Z :=
  match fuel with
  | O => stop_with SLoop
  | Datatypes.S fuel =>
      c ← rd p;
      let ch := s8 c in
      if (ch =? 0) || ((precision >=? 0) && (precision - 1 <? 0)) then mret width
      else
        (if altflag && ((ch <? 32) || (ch >? 126)) then putch (chr "?") else putch ch) ;;
        put_chars fuel (p + 1) (width - 1) (if precision <? 0 then precision else precision - 1) altflag
  end.

Definition put_string (fuel : nat) (p : Z) (o : spec) : M S unit :=
  let p := if p =? 0 then lit "(null)" else p in
  width ← (if (width o >? 0) && negb (padc o =? chr "-")
           then n ← strnlen rd fuel p (precision o);
                for_range (Z.to_nat (width o - n)) 0 1 (λ _, putch (padc o)) ;;
                mret (Z.min (width o - n) 0)
           else mret (width o));
  width ← put_chars fuel p width (precision o) (altflag o);
  for_range (Z.to_nat width) 0 1 (λ _, putch (chr " ")).

(** Case default: [fmt] goes back to just after the last percent sign. *)
Fixpoint back_up (fuel : nat) (fmt : Z) : M S Z :=
  match fuel with
  | O => stop_with SLoop
  | Datatypes.S fuel => c ← rd (fmt - 1); if c =? chr "%" then mret fmt else back_up fuel (fmt - 1)
  end.

(** The label [number], with the sign printed. *)
Definition number (neg : bool) (num base : Z) (o : spec) : M S unit :=
  when neg (putch (chr "-")) ;; printnum 64 num base (width o) (padc o).

(** The switch on the character [ch] of an escape sequence; [fmt] is after it.
    The result is where the code goes on, with the format and the arguments
    that are left: [Some o] is goto reswitch with the variables [o], [None]
    is break.  [printfmt] is the function of that name. *)
Definition escape (printfmt : Z → list Z → M S unit) (fuel : nat) (o : spec) (ch fmt : Z) (ap : list Z) :
    M S (option spec * Z * list Z) :=
  let reswitch o fmt ap := mret (M := M S) (Some o, fmt, ap) in
  let break fmt ap := mret (M := M S) (@None spec, fmt, ap) in
  if ch =? chr "-" then reswitch (set_padc (chr "-") o) fmt ap
  else if ch =? chr "0" then reswitch (set_padc (chr "0") o) fmt ap
  else if (chr "1" <=? ch) && (ch <=? chr "9") then
    '(n, fmt) ← field fuel ch 0 fmt;
    reswitch (process_precision (set_precision n o)) fmt ap
  else if ch =? chr "*" then
    '(n, ap) ← va_arg ap;
    reswitch (process_precision (set_precision (s32 n) o)) fmt ap
  else if ch =? chr "." then reswitch (if width o <? 0 then set_width 0 o else o) fmt ap
  else if ch =? chr "#" then reswitch (set_altflag true o) fmt ap
  else if ch =? chr "l" then reswitch (set_lflag (lflag o + 1) o) fmt ap
  else if ch =? chr "c" then '(c, ap) ← va_arg ap; putch (s32 c) ;; break fmt ap
  else if ch =? chr "e" then
    '(err, ap) ← va_arg ap;
    let err := s32 err in
    let err := if err <? 0 then s32 (- err) else err in
    match (if err >=? MAXERROR then None else error_string err) with
    | None => printfmt (lit "error %d") [err]
    | Some p => printfmt (lit "%s") [lit p]
    end ;;
    break fmt ap
  else if ch =? chr "s" then '(p, ap) ← va_arg ap; put_string fuel p o ;; break fmt ap
  else if ch =? chr "d" then
    '(n, ap) ← getint ap (lflag o);
    number (n <? 0) (if n <? 0 then w64 (- n) else n) 10 o ;; break fmt ap
  else if ch =? chr "u" then '(n, ap) ← getuint ap (lflag o); number false n 10 o ;; break fmt ap
  else if ch =? chr "o" then '(n, ap) ← getuint ap (lflag o); number false n 8 o ;; break fmt ap
  else if ch =? chr "p" then
    putch (chr "0") ;; putch (chr "x") ;;
    '(n, ap) ← va_arg ap; number false n 16 o ;; break fmt ap
  else if ch =? chr "x" then '(n, ap) ← getuint ap (lflag o); number false n 16 o ;; break fmt ap
  else if ch =? chr "r" then '(n, ap) ← getint ap (lflag o); set_color (w32 n) ;; break fmt ap
  else if ch =? chr "%" then putch ch ;; break fmt ap
  else putch (chr "%") ;; fmt ← back_up fuel (fmt - 1); break fmt ap.

(** [vprintfmt]: the outer loop when [mode] is [None], else the escape
    sequence at [fmt]. *)
Fixpoint vprintfmt_loop (fuel : nat) (mode : option spec) (fmt : Z) (ap : list Z) : M S unit :=
  match fuel with
  | O => stop_with SLoop
  | Datatypes.S fuel =>
      ch ← rd fmt;
      match mode with
      | None =>
          if ch =? chr "%" then vprintfmt_loop fuel (Some spec0) (fmt + 1) ap
          else if ch =? 0 then mret tt
          else putch ch ;; vprintfmt_loop fuel None (fmt + 1) ap
      | Some o =>
          '(mode, fmt, ap) ← escape (vprintfmt_loop fuel None) fuel o ch (fmt + 1) ap;
          vprintfmt_loop fuel mode fmt ap
      end
  end.

Definition vprintfmt (fuel : nat) (fmt : Z) (ap : list Z) : M S unit := vprintfmt_loop fuel None fmt ap.
End printfmt.

(** * snprintf *)

Record sprintbuf := MkSprintbuf { b_buf : Z; b_ebuf : Z; b_cnt : Z }.

(** The memory and the variables [b] of vsnprintf and [console_color]. *)
Record spst := MkSpst { sp_mem : mem; sp_b : sprintbuf; sp_color : Z }.

Definition sp_rd (a : Z) : M spst Z := gets (λ s, ld8 (sp_mem s) a).
Definition sp_set_color (c : Z) : M spst unit := modify (λ s, MkSpst (sp_mem s) (sp_b s) c).

Definition sprintputch (ch : Z) : M spst unit := modify (λ s,
  let b := sp_b s in
  let b := MkSprintbuf (b_buf b) (b_ebuf b) (b_cnt b + 1) in
  if b_buf b <? b_ebuf b
  then MkSpst (st8 (sp_mem s) (b_buf b) ch) (MkSprintbuf (b_buf b + 1) (b_ebuf b) (b_cnt b)) (sp_color s)
  else MkSpst (sp_mem s) b (sp_color s)).

Definition vsnprintf (lit : string → Z) (fuel : nat) (buf n fmt : Z) (ap : list Z) : M spst Z :=
  modify (λ s, MkSpst (sp_mem s) (MkSprintbuf buf (buf + n - 1) 0) (sp_color s)) ;;
  if (buf =? 0) || (n <? 1) then mret (- E_INVAL)
  else
    vprintfmt sp_rd lit sprintputch sp_set_color fuel fmt ap ;;
    modify (λ s, MkSpst (st8 (sp_mem s) (b_buf (sp_b s)) 0) (sp_b s) (sp_color s)) ;;
    gets (λ s, b_cnt (sp_b s)).

(** * cprintf in the kernel

    [*cnt++] moves the pointer and leaves the count as it is. *)
Section kernel.
Context {S : Type} (rd : Z → M S Z) (lit : string → Z) (cputchar : Z → M S unit) (set_color : Z → M S unit).

Definition kern_putch (ch : Z) : M S unit := cputchar ch.
Definition kern_vcprintf (fuel : nat) (fmt : Z) (ap : list Z) : M S Z :=
  let cnt := 0 in vprintfmt rd lit kern_putch set_color fuel fmt ap ;; mret cnt.
End kernel.

(** * cprintf in user programs

    [printbuf] with the memory that the program reads; [sys_cputs] takes the
    bytes of the buffer that it prints. *)
Section user.
Context {S : Type} (rd : Z → M S Z) (lit : string → Z) (sys_cputs : list Z → M S unit) (set_color : Z → M S unit).

Record printbuf := MkPrintbuf { pb_s : S; pb_idx : Z; pb_cnt : Z; pb_buf : list Z }.
Definition pb_lens : lens printbuf S :=
  Lens pb_s (λ v b, MkPrintbuf v (pb_idx b) (pb_cnt b) (pb_buf b)).
Definition pb_flush : M printbuf unit := λ b,
  lift pb_lens (sys_cputs (take (Z.to_nat (pb_idx b)) (pb_buf b))) b.

Definition user_putch (ch : Z) : M printbuf unit :=
  b ← get;
  (if pb_idx b <? 256 then mret tt else undef "b->buf[b->idx++]") ;;
  modify (λ b, MkPrintbuf (pb_s b) (pb_idx b + 1) (pb_cnt b) (<[Z.to_nat (pb_idx b) := w8 ch]> (pb_buf b))) ;;
  b ← get;
  when (pb_idx b =? 256 - 1)
    (pb_flush ;; modify (λ b, MkPrintbuf (pb_s b) 0 (pb_cnt b) (pb_buf b))) ;;
  modify (λ b, MkPrintbuf (pb_s b) (pb_idx b) (pb_cnt b + 1) (pb_buf b)).

(** [junk] is what the uninitialised buffer holds. *)
Definition user_vcprintf (junk : list Z) (fuel : nat) (fmt : Z) (ap : list Z) : M S Z := λ s,
  match (vprintfmt (λ a, lift pb_lens (rd a)) lit user_putch (λ c, lift pb_lens (set_color c)) fuel fmt ap ;;
         pb_flush ;; gets pb_cnt) (MkPrintbuf s 0 0 junk) with
  | Ret n b => Ret n (pb_s b)
  | Stop w b => Stop w (pb_s b)
  end.
End user.
