(* ===== verification/PrintSpec.v ===== *)
(** What the formatted output functions print: snprintf stays in its buffer,
    cprintf of user programs loses nothing, and strtol reads back what the
    numeric formats print. *)
From Stdlib Require Import Ascii.
From S2P Require Import Prelude Mmu Mem CString Printfmt.

(** * Simulation

    The interpreter on two states related by [R]: when the second one returns,
    so does the first one, with the same value and related states. *)
Definition sim {S T A} (R : S → T → Prop) (m : M S A) (m' : M T A) : Prop :=
  ∀ s t a t', R s t → m' t = Ret a t' → ∃ s', m s = Ret a s' ∧ R s' t'.

Create HintDb sim discriminated.

Section sim.
Context {S T : Type} (R : S → T → Prop).

Lemma sim_ret {A} (a : A) : sim R (mret a) (mret a).
Proof. intros s t b t' H E. injection E as <- <-. exists s. auto. Qed.

Lemma sim_bind {A B} m m' (k : A → M S B) k' :
  sim R m m' → (∀ a, sim R (k a) (k' a)) → sim R (m ≫= k) (m' ≫= k').
Proof.
  intros Hm Hk s t b t' H E. apply bind_Ret_inv in E as (a & t1 & E1 & E2).
  destruct (Hm s t a t1 H E1) as (s1 & Es & H1). destruct (Hk a s1 t1 b t' H1 E2) as (s' & Es' & H').
  exists s'. rewrite (bind_Ret _ _ _ _ _ Es). auto.
Qed.

Lemma sim_stop {A} (m : M S A) w : sim R m (stop_with w).
Proof. intros s t a t' _ E. discriminate E. Qed.

Lemma sim_if {A} (b : bool) m1 m2 (m1' m2' : M T A) :
  sim R m1 m1' → sim R m2 m2' → sim R (if b then m1 else m2) (if b then m1' else m2').
Proof. destruct b; auto. Qed.

Lemma sim_when b m m' : sim R m m' → sim R (when b m) (when b m').
Proof. destruct b; [auto|intros _; apply sim_ret]. Qed.

Lemma sim_for_range n a d body body' : (∀ i, sim R (body i) (body' i)) → sim R (for_range n a d body) (for_range n a d body').
Proof.
  intros H. revert a. induction n as [|n IH]; intros a; cbn [for_range]; [apply sim_ret|]. apply sim_bind; auto.
Qed.

Lemma sim_pair {A B C} (p : A * B) m (m' : A → B → M T C) :
  (∀ a b, sim R (m a b) (m' a b)) → sim R (let '(a, b) := p in m a b) (let '(a, b) := p in m' a b).
Proof. destruct p. auto. Qed.
End sim.

#[export] Hint Resolve sim_ret sim_stop sim_when sim_for_range : sim.

(** Both programs have the same shape: go down it. *)
Ltac sim := repeat first
  [ solve [auto with sim]
  | progress (cbv zeta)
  | apply sim_bind; [|intros ?]
  | apply sim_if
  | apply sim_when
  | apply sim_for_range; intros ?
  | apply sim_ret
  | apply sim_stop
  | match goal with |- sim _ (match ?x with _ => _ end) (match ?x with _ => _ end) => destruct x end ].

Section interpreter.
Context {S T : Type} (R : S → T → Prop) (lit : string → Z).
Context (rd : Z → M S Z) (putch set_color : Z → M S unit) (rd' : Z → M T Z) (putch' set_color' : Z → M T unit).
Context (Hrd : ∀ a, sim R (rd a) (rd' a)) (Hput : ∀ c, sim R (putch c) (putch' c))
  (Hcol : ∀ c, sim R (set_color c) (set_color' c)).

#[local] Hint Resolve Hrd Hput Hcol : sim.

Lemma strnlen_sim fuel s size : sim R (strnlen rd fuel s size) (strnlen rd' fuel s size).
Proof.
  unfold strnlen. generalize 0 as n. generalize (w32 size) as z. revert s.
  induction fuel as [|fuel IH]; intros s z n; cbn [strnlen_loop]; sim; apply IH.
Qed.

Lemma printnum_sim fuel num base width padc :
  sim R (printnum putch fuel num base width padc) (printnum putch' fuel num base width padc).
Proof. revert num width. induction fuel as [|fuel IH]; intros num width; cbn [printnum]; sim; apply IH. Qed.

Lemma va_arg_sim ap : sim R (va_arg ap) (va_arg ap).
Proof. destruct ap; cbn [va_arg]; sim. Qed.
#[local] Hint Resolve va_arg_sim printnum_sim strnlen_sim : sim.

Lemma getuint_sim ap l : sim R (getuint ap l) (getuint ap l).
Proof. unfold getuint. sim. Qed.
Lemma getint_sim ap l : sim R (getint ap l) (getint ap l).
Proof. unfold getint. sim. Qed.

Lemma field_sim fuel ch n fmt : sim R (field rd fuel ch n fmt) (field rd' fuel ch n fmt).
Proof. revert ch n fmt. induction fuel as [|fuel IH]; intros ch n fmt; cbn [field]; sim; apply IH. Qed.

Lemma put_chars_sim fuel p w n alt : sim R (put_chars rd putch fuel p w n alt) (put_chars rd' putch' fuel p w n alt).
Proof. revert p w n. induction fuel as [|fuel IH]; intros p w n; cbn [put_chars]; sim; apply IH. Qed.
#[local] Hint Resolve getuint_sim getint_sim field_sim put_chars_sim : sim.

Lemma put_string_sim fuel p o : sim R (put_string rd lit putch fuel p o) (put_string rd' lit putch' fuel p o).
Proof. unfold put_string. sim. Qed.

Lemma back_up_sim fuel fmt : sim R (back_up rd fuel fmt) (back_up rd' fuel fmt).
Proof. revert fmt. induction fuel as [|fuel IH]; intros fmt; cbn [back_up]; sim; apply IH. Qed.
#[local] Hint Resolve put_string_sim back_up_sim : sim.

Lemma escape_sim pf pf' fuel o ch fmt ap : (∀ fmt ap, sim R (pf fmt ap) (pf' fmt ap)) →
  sim R (escape rd lit putch set_color pf fuel o ch fmt ap) (escape rd' lit putch' set_color' pf' fuel o ch fmt ap).
Proof. intros Hpf. unfold escape, number. sim. Qed.
#[local] Hint Resolve escape_sim : sim.

Lemma vprintfmt_sim fuel fmt ap :
  sim R (vprintfmt rd lit putch set_color fuel fmt ap) (vprintfmt rd' lit putch' set_color' fuel fmt ap).
Proof.
  unfold vprintfmt. generalize (@None spec) as mode. revert fmt ap.
  induction fuel as [|fuel IH]; intros fmt ap mode; cbn [vprintfmt_loop]; sim.
Qed.
End interpreter.

(** * The reference: what a format prints

    The same interpreter with a putch that only collects the bytes, and with
    reads from a memory [f] that output does not change; it gives no result
    when it would read at an address that is not [ok]. *)
Record outp := MkOutp { o_out : list Z; o_color : Z }.

Definition out_rd (f : Z → Z) (ok : Z → bool) (a : Z) : M outp Z :=
  if ok a then gets (λ _, f a) else undef "reads where it writes".
Definition out_putch (ch : Z) : M outp unit := modify (λ s, MkOutp (o_out s ++ [w8 ch]) (o_color s)).
Definition out_color (c : Z) : M outp unit := modify (λ s, MkOutp (o_out s) c).

(** The format at [fmt] with the arguments [ap] prints [out] and leaves
    [console_color] at [col']. *)
Definition prints (f : Z → Z) (ok : Z → bool) (lit : string → Z) (fuel : nat) (fmt : Z) (ap : list Z)
    (col : Z) (out : list Z) (col' : Z) : Prop :=
  vprintfmt (out_rd f ok) lit out_putch out_color fuel fmt ap (MkOutp [] col) = Ret tt (MkOutp out col').

(** * snprintf *)

(** The bytes of the buffer: all but one hold output. *)
Definition outside (buf n a : Z) : bool := negb ((buf <=? a) && (a <? buf + n)).

Record sp_rel (m : mem) (buf n : Z) (s : spst) (t : outp) : Prop := {
  sr_cnt : b_cnt (sp_b s) = Z.of_nat (length (o_out t));
  sr_buf : b_buf (sp_b s) = buf + Z.min (n - 1) (Z.of_nat (length (o_out t)));
  sr_ebuf : b_ebuf (sp_b s) = buf + n - 1;
  sr_bytes : ∀ i c, o_out t !! i = Some c → Z.of_nat i < n - 1 → ld8 (sp_mem s) (buf + Z.of_nat i) = c;
  sr_out : ∀ a, outside buf n a = true → ld8 (sp_mem s) a = ld8 m a;
  sr_color : sp_color s = o_color t
}.

Lemma sp_rd_sim m buf n a : sim (sp_rel m buf n) (sp_rd a) (out_rd (ld8 m) (outside buf n) a).
Proof.
  intros s t x t' H E. unfold out_rd in E. destruct (outside buf n a) eqn:Ea; [|discriminate E].
  injection E as <- <-. exists s. unfold sp_rd, gets. rewrite (sr_out _ _ _ _ _ H a Ea). auto.
Qed.

Lemma sp_putch_sim m buf n c : 1 ≤ n → sim (sp_rel m buf n) (sprintputch c) (out_putch c).
Proof.
  intros Hn s t x t' [Hc Hb He Hi Ho Hl] E. injection E as <- <-. unfold sprintputch, modify. eexists. split; [reflexivity|].
  cbn [b_buf b_ebuf b_cnt]. rewrite Hb, He, Hc.
  destruct (Z.ltb_spec (buf + Z.min (n - 1) (Z.of_nat (length (o_out t)))) (buf + n - 1)) as [L|L];
    (split; cbn [sp_mem sp_b sp_color b_buf b_ebuf b_cnt o_out o_color]; rewrite ?length_app; cbn [length]; try lia; try assumption).
  - intros i y Hy Hin. apply lookup_app_Some in Hy as [Hy|[Hlen Hy]].
    + rewrite ld8_st8_ne by (apply lookup_lt_Some in Hy; lia). auto.
    + apply list_lookup_singleton_Some in Hy as [Hi0 <-]. assert (i = length (o_out t)) as -> by lia.
      rewrite Z.min_r by lia. apply ld8_st8_eq.
  - intros a Ha. rewrite ld8_st8_ne; [auto|]. unfold outside in Ha. lia.
  - intros i y Hy Hin. apply lookup_app_Some in Hy as [Hy|[Hlen Hy]]; [auto|]. lia.
Qed.

Lemma sp_color_sim m buf n c : sim (sp_rel m buf n) (sp_set_color c) (out_color c).
Proof. intros s t x t' [] E. injection E as <- <-. eexists. split; [reflexivity|]. split; auto. Qed.

Lemma vsnprintf_run lit fuel buf n fmt ap m b col out col' :
  prints (ld8 m) (outside buf n) lit fuel fmt ap col out col' → buf ≠ 0 → 1 ≤ n →
  ∃ m' b', vsnprintf lit fuel buf n fmt ap (MkSpst m b col) = Ret (Z.of_nat (length out)) (MkSpst m' b' col') ∧
    bytes_at (ld8 m') buf (take (Z.to_nat (n - 1)) out ++ [0]) ∧
    ∀ a, outside buf n a = true → ld8 m' a = ld8 m a.
Proof.
  intros H Hb Hn. unfold vsnprintf. rewrite bind_modify. destruct (Z.eqb_spec buf 0); [contradiction|].
  destruct (Z.ltb_spec n 1); [lia|]. cbn [orb].
  destruct (vprintfmt_sim (sp_rel m buf n) lit sp_rd sprintputch sp_set_color _ out_putch out_color
    (sp_rd_sim m buf n) (λ c, sp_putch_sim m buf n c Hn) (sp_color_sim m buf n) fuel fmt ap
    (MkSpst m (MkSprintbuf buf (buf + n - 1) 0) col) (MkOutp [] col) tt (MkOutp out col')) as (s & E & []); [|exact H|].
  { split; cbn; try lia; auto. intros i c Hi. discriminate Hi. }
  cbn [sp_mem sp_color]. rewrite (bind_Ret _ _ _ _ _ E), bind_modify. unfold gets.
  cbn [o_out o_color sp_b sp_mem sp_color b_cnt] in *. rewrite sr_cnt0, sr_buf0, sr_color0.
  do 2 eexists. split; [reflexivity|]. split.
  - intros i c Hi. apply lookup_app_Some in Hi as [Hi|[Hlen Hi]].
    + apply lookup_take_Some in Hi as [Hi Hlt]. pose proof (lookup_lt_Some _ _ _ Hi).
      rewrite ld8_st8_ne by lia. apply sr_bytes0; [assumption|lia].
    + apply list_lookup_singleton_Some in Hi as [Hi0 <-]. rewrite length_take in Hlen, Hi0.
      replace (buf + Z.of_nat i) with (buf + Z.min (n - 1) (Z.of_nat (length out))) by lia. apply ld8_st8_eq.
  - intros a Ha. rewrite ld8_st8_ne; [auto|]. unfold outside in Ha. lia.
Qed.

(** C26. snprintf never leaves its buffer.  Where the format and its arguments
    print [out], and reading them does not need the buffer itself: a call with
    a buffer of [n] bytes returns the number of bytes of the whole output, the
    buffer holds as much of the output as fits and a null byte after it, and
    no byte outside the buffer changes.  Without a buffer, or with a size
    below 1, the result is -E_INVAL and nothing is written. *)
Theorem vsnprintf_bounded (lit : string → Z) (fuel : nat) (buf n fmt : Z) (ap : list Z) (m : mem) (b : sprintbuf)
    (col : Z) (out : list Z) (col' : Z) :
  prints (ld8 m) (outside buf n) lit fuel fmt ap col out col' →
  (buf = 0 ∨ n < 1 → ∃ b', vsnprintf lit fuel buf n fmt ap (MkSpst m b col) = Ret (- E_INVAL) (MkSpst m b' col)) ∧
  (buf ≠ 0 ∧ 1 ≤ n → ∃ m' b',
     vsnprintf lit fuel buf n fmt ap (MkSpst m b col) = Ret (Z.of_nat (length out)) (MkSpst m' b' col') ∧
     bytes_at (ld8 m') buf (take (Z.to_nat (n - 1)) out ++ [0]) ∧
     ∀ a, ¬ buf ≤ a < buf + n → ld8 m' a = ld8 m a).
Proof.
  intros H. split.
  - intros Hi. unfold vsnprintf. rewrite bind_modify. destruct (Z.eqb_spec buf 0); [eexists; reflexivity|].
    destruct (Z.ltb_spec n 1); [eexists; reflexivity|]. lia.
  - intros [Hb Hn]. destruct (vsnprintf_run lit fuel buf n fmt ap m b col out col' H Hb Hn) as (m' & b' & E & Hby & Ho).
    exists m', b'. split; [exact E|]. split; [exact Hby|]. intros a Ha. apply Ho. unfold outside. lia.
Qed.

(** * Numbers *)

Definition hexdigit (d : Z) : Z := nth (Z.to_nat d) (bytes "0123456789abcdef") 0.

Lemma hexdigit_digit d : 0 ≤ d < 16 → digit (hexdigit d) = Some d ∧ w8 (hexdigit d) = hexdigit d.
Proof.
  intros Hd. assert (forallb (λ i, bool_decide (digit (hexdigit (Z.of_nat i)) = Some (Z.of_nat i) ∧
    w8 (hexdigit (Z.of_nat i)) = hexdigit (Z.of_nat i))) (seq 0 16) = true) as H by (vm_compute; reflexivity).
  rewrite forallb_forall in H. specialize (H (Z.to_nat d)). rewrite Z2Nat.id in H by lia.
  apply bool_decide_eq_true in H; [exact H|]. apply in_seq. lia.
Qed.

Lemma digit_range c d : digit c = Some d → 48 ≤ c ≤ 122 ∧ 0 ≤ d.
Proof.
  unfold digit. destruct (Z.leb_spec 48 c), (Z.leb_spec c 57), (Z.leb_spec 97 c), (Z.leb_spec c 122),
    (Z.leb_spec 65 c), (Z.leb_spec c 90); cbn; intros [= <-]; lia.
Qed.

Lemma out_put_n n a c t : for_range n a 1 (λ _, out_putch c) t = Ret tt (MkOutp (o_out t ++ replicate n (w8 c)) (o_color t)).
Proof.
  revert a t. induction n as [|n IH]; intros a [o l]; cbn [for_range]; [rewrite app_nil_r; reflexivity|].
  rewrite (bind_Ret _ _ _ tt (MkOutp (o ++ [w8 c]) l)) by reflexivity. rewrite IH. cbn [o_out o_color]. rewrite <- app_assoc. reflexivity.
Qed.

(** The digits of [num], [ds] their values: leading padding, then digits. *)
Record digits_of (num base : Z) (cs ds : list Z) : Prop := {
  do_digits : Forall2 (λ c d, digit c = Some d ∧ d < base) cs ds;
  do_value : foldl (λ v d, v * base + d) 0 ds = num;
  do_some : cs ≠ [];
  do_byte : Forall (λ c, w8 c = c) cs;
  do_length : ∀ k, 0 < k → num < base ^ k → Z.of_nat (length cs) ≤ k
}.

Lemma digits_one num base : 2 ≤ base ≤ 16 → 0 ≤ num < base → digits_of num base [hexdigit num] [num].
Proof.
  intros Hb Hn. destruct (hexdigit_digit num) as [Hd Hw]; [lia|]. split.
  - constructor; [split; [exact Hd|lia]|constructor].
  - cbn. lia.
  - discriminate.
  - constructor; [exact Hw|constructor].
  - intros k Hk _. cbn. lia.
Qed.

Lemma digits_snoc num base cs ds : 2 ≤ base ≤ 16 → base ≤ num → digits_of (num / base) base cs ds →
  digits_of num base (cs ++ [hexdigit (num mod base)]) (ds ++ [num mod base]).
Proof.
  intros Hb Hn [Hd Hv _ Hw Hl]. pose proof (Z.mod_pos_bound num base ltac:(lia)) as Hm.
  destruct (hexdigit_digit (num mod base)) as [Hd1 Hw1]; [lia|]. split.
  - apply Forall2_app; [exact Hd|]. constructor; [split; [exact Hd1|lia]|constructor].
  - rewrite foldl_app, Hv. cbn. rewrite (Z.div_mod num base) at 3 by lia. lia.
  - intros F. apply app_eq_nil in F as [_ F]. discriminate F.
  - apply Forall_app. split; [exact Hw|]. constructor; [exact Hw1|constructor].
  - intros k Hk Hlt. rewrite length_app. cbn [length]. destruct (decide (k = 1)) as [->|Hk1]; [lia|].
    specialize (Hl (k - 1) ltac:(lia)). enough (num / base < base ^ (k - 1)) by lia.
    apply Z.div_lt_upper_bound; [lia|]. replace k with (Z.succ (k - 1)) in Hlt by lia. rewrite Z.pow_succ_r in Hlt by lia. exact Hlt.
Qed.

Lemma printnum_out fuel num base width padc t : 2 ≤ base ≤ 16 → 0 ≤ num < base ^ Z.of_nat fuel → (fuel ≠ 0)%nat →
  ∃ cs ds, digits_of num base cs ds ∧
    printnum out_putch fuel num base width padc t
    = Ret tt (MkOutp (o_out t ++ replicate (Z.to_nat (width - Z.of_nat (length cs))) (w8 padc) ++ cs) (o_color t)).
Proof.
  intros Hb. revert num width t. induction fuel as [|fuel IH]; intros num width t Hn Hf; [contradiction|].
  cbn [printnum]. destruct (Z.geb_spec num base) as [L|L].
  - destruct (IH (num / base) (width - 1) t) as (cs & ds & Hd & E).
    { split; [apply Z.div_pos; lia|]. apply Z.div_lt_upper_bound; [lia|]. rewrite Nat2Z.inj_succ, Z.pow_succ_r in Hn by lia. lia. }
    { intros ->. change (base ^ Z.of_nat 1) with (base ^ 1) in Hn. rewrite Z.pow_1_r in Hn. lia. }
    exists (cs ++ [hexdigit (num mod base)]), (ds ++ [num mod base]). split; [apply digits_snoc; auto; lia|].
    rewrite (bind_Ret _ _ _ _ _ E). unfold out_putch, modify. fold (hexdigit (num mod base)). cbn [o_out o_color].
    rewrite (proj2 (hexdigit_digit (num mod base) ltac:(pose proof (Z.mod_pos_bound num base); lia))).
    rewrite length_app, <- !app_assoc. cbn [length]. do 5 f_equal. f_equal. lia.
  - exists [hexdigit num], [num]. split; [apply digits_one; lia|].
    rewrite (bind_Ret _ _ _ _ _ (out_put_n _ _ _ _)). rewrite Z.mod_small by lia. unfold out_putch, modify.
    fold (hexdigit num). rewrite (proj2 (hexdigit_digit num ltac:(lia))). cbn [o_out o_color length]. rewrite <- app_assoc. reflexivity.
Qed.

(** ** The numeric formats *)

Definition conversions : list (Z * Z) := [(chr "d", 10); (chr "u", 10); (chr "o", 8); (chr "x", 16)].

Lemma conversions_base c base : (c, base) ∈ conversions → 8 ≤ base ≤ 16 ∧ base ∈ [8; 10; 16].
Proof.
  unfold conversions. rewrite !elem_of_cons, !elem_of_nil. intros [H|[H|[H|[H|[]]]]]; injection H as _ ->; lia.
Qed.

Lemma escape_number f ok lit pf fuel c base fmt v t : (c, base) ∈ conversions →
  ∃ (neg : bool) num, 0 ≤ num < 2 ^ 32 ∧ s32 v = (if neg then s32 (- num) else s32 num) ∧
  escape (out_rd f ok) lit out_putch out_color pf fuel spec0 c fmt [v] t
  = (number out_putch neg num base spec0 ;; mret (None, fmt, [])) t.
Proof.
  intros H. pose proof (w32_range v) as Hw. unfold u32_range in Hw.
  assert (s32 (w32 v) = s32 v) as Es by (apply s32_mod; unfold w32; apply Zmod_mod).
  unfold conversions in H. rewrite !elem_of_cons, elem_of_nil in H. destruct H as [H|[H|[H|[H|[]]]]]; injection H as -> ->.
  - pose proof (s32_range (w32 v)) as Hs.
    exists (s32 (w32 v) <? 0), (if s32 (w32 v) <? 0 then w64 (- s32 (w32 v)) else s32 (w32 v)).
    split; [|split; [|reflexivity]]; destruct (Z.ltb_spec (s32 (w32 v)) 0).
    + unfold w64. rewrite Z.mod_small by lia. lia.
    + lia.
    + unfold w64. rewrite Z.mod_small by lia. rewrite Z.opp_involutive, !Es. symmetry. apply s32_mod, s32_eqm.
    + rewrite !Es. symmetry. apply s32_mod, s32_eqm.
  - exists false, (w32 v). split; [exact Hw|]. split; [symmetry; exact Es|reflexivity].
  - exists false, (w32 v). split; [exact Hw|]. split; [symmetry; exact Es|reflexivity].
  - exists false, (w32 v). split; [exact Hw|]. split; [symmetry; exact Es|reflexivity].
Qed.

(** One round of the interpreter. *)
Lemma loop_plain {S} rd lit putch col fuel fmt ap (s s' : S) c : rd fmt s = Ret c s' →
  vprintfmt_loop rd lit putch col (Datatypes.S fuel) None fmt ap s
  = (if c =? chr "%" then vprintfmt_loop rd lit putch col fuel (Some spec0) (fmt + 1) ap
     else if c =? 0 then mret tt else putch c ;; vprintfmt_loop rd lit putch col fuel None (fmt + 1) ap) s'.
Proof. intros H. cbn [vprintfmt_loop]. rewrite (bind_Ret _ _ _ _ _ H). reflexivity. Qed.

Lemma loop_escape {S} rd lit putch col fuel o fmt ap (s s' s1 : S) c mode fmt' ap' : rd fmt s = Ret c s' →
  escape rd lit putch col (vprintfmt_loop rd lit putch col fuel None) fuel o c (fmt + 1) ap s' = Ret (mode, fmt', ap') s1 →
  vprintfmt_loop rd lit putch col (Datatypes.S fuel) (Some o) fmt ap s = vprintfmt_loop rd lit putch col fuel mode fmt' ap' s1.
Proof.
  intros H E. cbn [vprintfmt_loop]. rewrite (bind_Ret _ _ _ _ _ H), (bind_Ret _ _ _ _ _ E). reflexivity.
Qed.

(** A format that is one conversion. *)
Lemma prints_number f ok lit fuel fmt c base v col : (c, base) ∈ conversions →
  cstr f fmt [chr "%"; c] → (∀ i, fmt ≤ i ≤ fmt + 2 → ok i = true) → (4 ≤ fuel)%nat →
  ∃ (neg : bool) num cs ds, 0 ≤ num < 2 ^ 32 ∧ digits_of num base cs ds ∧
    s32 v = (if neg then s32 (- num) else s32 num) ∧
    prints f ok lit fuel fmt [v] col ((if neg then [45] else []) ++ cs) col.
Proof.
  intros Hc Hs Hok Hf. destruct fuel as [|[|[|fuel]]]; [lia..|].
  assert (2 ≤ base ≤ 16) as Hb by (pose proof (conversions_base c base Hc); lia).
  apply cstr_cons in Hs as (H0 & _ & Hs). apply cstr_cons in Hs as (H1 & _ & Hs). apply cstr_nil in Hs as H2.
  assert (∀ i t, fmt ≤ i ≤ fmt + 2 → out_rd f ok i t = Ret (f i) t) as Hrd by (intros i t Hi; unfold out_rd; rewrite Hok by lia; reflexivity).
  destruct (escape_number f ok lit (vprintfmt_loop (out_rd f ok) lit out_putch out_color (S fuel) None) (S fuel) c base
    (fmt + 1 + 1) v (MkOutp [] col) Hc) as (neg & num & Hn & Ev & Ee).
  destruct (printnum_out 64 num base (-1) 32 (MkOutp (if neg then [45] else []) col) Hb) as (cs & ds & Hd & Ep); [|lia|].
  { split; [lia|]. apply Z.lt_le_trans with (2 ^ 64); [lia|]. apply (Z.pow_le_mono_l 2 base 64); lia. }
  replace (Z.to_nat (-1 - Z.of_nat (length cs))) with 0%nat in Ep by lia. cbn [replicate app o_out o_color] in Ep.
  exists neg, num, cs, ds. split; [exact Hn|]. split; [exact Hd|]. split; [exact Ev|].
  unfold prints, vprintfmt. rewrite (loop_plain _ _ _ _ _ _ _ _ _ _ (Hrd fmt _ ltac:(lia))), H0.
  change (chr "%" =? chr "%") with true. cbv iota.
  rewrite (loop_escape _ _ _ _ _ _ _ _ _ _ (MkOutp ((if neg then [45] else []) ++ cs) col) _ None (fmt + 1 + 1) []
    (Hrd (fmt + 1) _ ltac:(lia))).
  - rewrite (loop_plain _ _ _ _ _ _ _ _ _ _ (Hrd (fmt + 1 + 1) _ ltac:(lia))), H2. reflexivity.
  - rewrite H1, Ee. unfold number. rewrite bind_assoc.
    rewrite (bind_Ret _ _ _ tt (MkOutp (if neg then [45] else []) col)) by (destruct neg; reflexivity).
    cbn [width padc spec0]. rewrite (bind_Ret _ _ _ _ _ Ep). reflexivity.
Qed.

(** C27. Printing and reading back.  For each numeric format of one conversion,
    %d, %u, %o and %x, and every 32-bit argument: snprintf into a buffer of at
    least 13 bytes that is not the format's own memory prints all the digits
    with a null byte after them, and strtol, given the base of the format,
    reads the argument back from the buffer (as a long) and stops at that null
    byte. *)
Theorem print_scan_roundtrip (lit : string → Z) (fuel : nat) (buf n fmt c base v : Z) (m : mem) (b : sprintbuf) (col : Z) :
  (c, base) ∈ conversions → cstr (ld8 m) fmt [chr "%"; c] → buf ≠ 0 → 13 ≤ n →
  fmt + 3 ≤ buf ∨ buf + n ≤ fmt → (13 ≤ fuel)%nat →
  ∃ cnt s, vsnprintf lit fuel buf n fmt [v] (MkSpst m b col) = Ret cnt s ∧
    strtol ldb fuel buf base (sp_mem s) = Ret (s32 v, buf + cnt) (sp_mem s).
Proof.
  intros Hc Hs Hbuf Hn Hdis Hf.
  destruct (prints_number (ld8 m) (outside buf n) lit fuel fmt c base v col Hc Hs) as (neg & num & cs & ds & Hr & [Hd Hv Hne Hw Hl] & Ev & P).
  { intros i Hi. unfold outside. lia. }
  { lia. }
  destruct (conversions_base c base Hc) as [Hb8 Hb].
  assert (Z.of_nat (length cs) ≤ 11) as Hlen.
  { apply Hl; [lia|]. apply Z.lt_le_trans with (8 ^ 11); [lia|]. apply Z.pow_le_mono_l; lia. }
  destruct (vsnprintf_run lit fuel buf n fmt [v] m b col _ col P Hbuf ltac:(lia)) as (m' & b' & E & Hby & _).
  eexists _, _. split; [exact E|]. cbn [sp_mem].
  rewrite take_ge, <- app_assoc in Hby by (rewrite length_app; destruct neg; cbn [length]; lia).
  pose proof (strtol_run ldb (ld8 m') m' (λ a, eq_refl) fuel buf base neg cs ds Hb Hne Hd Hby ltac:(lia)) as R.
  cbv zeta in R. pose proof (foldl_s32 base 0 ds) as G. change (s32 0) with 0 in G. rewrite R, G, Hv, s32_opp.
  rewrite length_app. f_equal. f_equal; [destruct neg; auto|destruct neg; cbn [length Z.b2z]; lia].
Qed.

(** The format "%x" at address 100, the buffer at 200. *)
Definition demo_mem : mem := st8 (st8 ∅ 100 (chr "%")) 101 (chr "x").

Lemma print_scan_roundtrip_witness : ∃ cnt s,
  vsnprintf (λ _, 0) 16 200 16 100 [0xdead] (MkSpst demo_mem (MkSprintbuf 0 0 0) 7) = Ret cnt s ∧
  strtol ldb 16 200 16 (sp_mem s) = Ret (0xdead, 200 + cnt) (sp_mem s).
Proof.
  apply (print_scan_roundtrip (λ _, 0) 16 200 16 100 (chr "x") 16 0xdead demo_mem (MkSprintbuf 0 0 0) 7).
  - right. right. right. left.
  - split; [intros [|[|i]] c Hc; [injection Hc as <-; reflexivity..|discriminate Hc]|reflexivity|].
    repeat constructor; vm_compute; reflexivity.
  - discriminate.
  - lia.
  - left. lia.
  - lia.
Defined.

Lemma vsnprintf_bounded_witness : ∃ m' b',
  vsnprintf (λ _, 0) 16 200 3 100 [0xdead] (MkSpst demo_mem (MkSprintbuf 0 0 0) 7) = Ret 4 (MkSpst m' b' 7) ∧
  bytes_at (ld8 m') 200 [100; 101; 0].
Proof.
  destruct (vsnprintf_bounded (λ _, 0) 16 200 3 100 [0xdead] demo_mem (MkSprintbuf 0 0 0) 7 [100; 101; 97; 100] 7) as [_ H].
  - vm_compute. reflexivity.
  - destruct H as (m' & b' & E & Hb & _); [lia|]. exists m', b'. split; [exact E|exact Hb].
Defined.
