(* ===== verification/Pages.v ===== *)
(** The physical page allocator of kern/pmap.c: the pages array, the free
    list threaded through it, boot_alloc, page_init, page_alloc, page_free
    and page_decref, with the address conversions of kern/pmap.h.  The
    section on correctness shows that the linked list is a stack of page
    numbers and that the operations are its push and pop. *)
From S2P Require Import Prelude Mmu Mem.

(** * State *)

(** A [struct PageInfo *] is an index into [pages]; NULL is [None]. *)
Record PageInfo := MkPageInfo { pp_link : option Z; pp_ref : Z }.

#[export] Instance PageInfo_eq_dec : EqDecision PageInfo.
Proof. solve_decision. Defined.

(** The globals and statics of kern/pmap.c, physical memory, and the
    processor state its functions touch. *)
Record pm := MkPm {
  npages : Z;
  npages_basemem : Z;
  pages : gmap Z PageInfo;
  page_free_list : option Z;
  nextfree : Z;                  (* static in boot_alloc; 0 before the first call *)
  kern_pgdir : Z;                (* kernel virtual address *)
  pages_kva : Z;                 (* where the pages array lives *)
  envs_kva : Z;                  (* where the envs array lives *)
  mmio_base : Z;                 (* static in mmio_map_region *)
  phys : mem;                    (* physical memory *)
  cr3 : Z;                       (* the page directory in force *)
  invlpgs : list Z;              (* addresses given to invlpg, latest first *)
  user_mem_check_addr : Z        (* the address user_mem_check last complained of *)
}.

Definition with_pages P s := MkPm (npages s) (npages_basemem s) P (page_free_list s)
  (nextfree s) (kern_pgdir s) (pages_kva s) (envs_kva s) (mmio_base s) (phys s) (cr3 s) (invlpgs s) (user_mem_check_addr s).
Definition with_free_list h s := MkPm (npages s) (npages_basemem s) (pages s) h
  (nextfree s) (kern_pgdir s) (pages_kva s) (envs_kva s) (mmio_base s) (phys s) (cr3 s) (invlpgs s) (user_mem_check_addr s).
Definition with_nextfree a s := MkPm (npages s) (npages_basemem s) (pages s) (page_free_list s)
  a (kern_pgdir s) (pages_kva s) (envs_kva s) (mmio_base s) (phys s) (cr3 s) (invlpgs s) (user_mem_check_addr s).
Definition with_phys m s := MkPm (npages s) (npages_basemem s) (pages s) (page_free_list s)
  (nextfree s) (kern_pgdir s) (pages_kva s) (envs_kva s) (mmio_base s) m (cr3 s) (invlpgs s) (user_mem_check_addr s).
Definition with_invlpgs t s := MkPm (npages s) (npages_basemem s) (pages s) (page_free_list s)
  (nextfree s) (kern_pgdir s) (pages_kva s) (envs_kva s) (mmio_base s) (phys s) (cr3 s) t (user_mem_check_addr s).
Definition with_mmio_base b s := MkPm (npages s) (npages_basemem s) (pages s) (page_free_list s)
  (nextfree s) (kern_pgdir s) (pages_kva s) (envs_kva s) b (phys s) (cr3 s) (invlpgs s) (user_mem_check_addr s).
Definition with_cr3 c s := MkPm (npages s) (npages_basemem s) (pages s) (page_free_list s)
  (nextfree s) (kern_pgdir s) (pages_kva s) (envs_kva s) (mmio_base s) (phys s) c (invlpgs s) (user_mem_check_addr s).
Definition with_npages b n s := MkPm n b (pages s) (page_free_list s)
  (nextfree s) (kern_pgdir s) (pages_kva s) (envs_kva s) (mmio_base s) (phys s) (cr3 s) (invlpgs s) (user_mem_check_addr s).
Definition with_check_addr a s := MkPm (npages s) (npages_basemem s) (pages s)
  (page_free_list s) (nextfree s) (kern_pgdir s) (pages_kva s) (envs_kva s) (mmio_base s)
  (phys s) (cr3 s) (invlpgs s) a.
Definition with_roots kp pk ek s := MkPm (npages s) (npages_basemem s) (pages s) (page_free_list s)
  (nextfree s) kp pk ek (mmio_base s) (phys s) (cr3 s) (invlpgs s) (user_mem_check_addr s).

(** Field accesses of updated states. *)
Ltac psimpl :=
  cbn [npages npages_basemem pages page_free_list nextfree kern_pgdir pages_kva envs_kva mmio_base
       phys cr3 invlpgs user_mem_check_addr with_check_addr pp_link pp_ref with_pages with_free_list with_nextfree with_phys
       with_invlpgs with_mmio_base with_cr3 with_npages with_roots] in *.

(** Updates of the same field and of different ones. *)
Lemma with_phys_phys m n s : with_phys m (with_phys n s) = with_phys m s.
Proof. reflexivity. Qed.
Lemma with_pages_pages P Q s : with_pages P (with_pages Q s) = with_pages P s.
Proof. reflexivity. Qed.
Lemma with_pages_phys P m s : with_pages P (with_phys m s) = with_phys m (with_pages P s).
Proof. reflexivity. Qed.
Lemma with_free_list_phys h m s : with_free_list h (with_phys m s) = with_phys m (with_free_list h s).
Proof. reflexivity. Qed.
#[export] Hint Rewrite with_phys_phys with_pages_pages with_pages_phys with_free_list_phys : pm.

(** * kern/pmap.h *)

Definition PADDR (kva : Z) : M pm Z :=
  if w32 kva <? KERNBASE then panic "PADDR called with invalid kva"
  else mret (w32 kva - KERNBASE).

Definition KADDR (pa : Z) : M pm Z := λ s,
  if PGNUM pa >=? npages s then Stop (SPanic "KADDR called with invalid pa") s
  else Ret (w32 (pa + KERNBASE)) s.

Definition page2pa (pp : Z) : Z := w32 (Z.shiftl pp PGSHIFT).

Definition pa2page (pa : Z) : M pm Z := λ s,
  if PGNUM pa >=? npages s then Stop (SPanic "pa2page called with invalid pa") s
  else Ret (PGNUM pa) s.

Definition page2kva (pp : Z) : M pm Z := KADDR (page2pa pp).

Definition ALLOC_ZERO : Z := 1.

(** Reading and writing [pages[i]], and kernel memory at a kernel virtual
    address, which the kernel's mapping places at [kva - KERNBASE]. *)
Definition page_get (i : Z) : M pm PageInfo := λ s,
  match pages s !! i with
  | Some p => Ret p s
  | None => Stop (SUndef "pages[i] out of range") s
  end.
Definition page_set (i : Z) (p : PageInfo) : M pm unit := λ s,
  match pages s !! i with
  | Some _ => Ret tt (with_pages (<[i := p]> (pages s)) s)
  | None => Stop (SUndef "pages[i] out of range") s
  end.
Definition set_pp_ref (i r : Z) : M pm unit :=
  p ← page_get i; page_set i (MkPageInfo (pp_link p) r).
Definition set_pp_link (i : Z) (l : option Z) : M pm unit :=
  p ← page_get i; page_set i (MkPageInfo l (pp_ref p)).

Definition kld32 (kva : Z) : M pm Z := gets (λ s, ld32 (phys s) (kva - KERNBASE)).
Definition kst32 (kva v : Z) : M pm unit :=
  modify (λ s, with_phys (st32 (phys s) (kva - KERNBASE) v) s).
Definition kmemset (kva c n : Z) : M pm unit :=
  modify (λ s, with_phys (memset (phys s) (kva - KERNBASE) c n) s).
Definition kmemcpy (dst src n : Z) : M pm unit :=
  modify (λ s, with_phys (memcpy (phys s) (dst - KERNBASE) (src - KERNBASE) n) s).

(** * Memory detection *)

Section detect.
(** What the CMOS answers on port 0x71 for the register selected on 0x70. *)
Context (cmos : Z → Z).

Definition mc146818_read (reg : Z) : Z := w8 (cmos (w8 reg)).

Definition nvram_read (r : Z) : Z :=
  Z.lor (mc146818_read r) (Z.shiftl (mc146818_read (r + 1)) 8).

Definition NVRAM_BASELO : Z := 0x15.
Definition NVRAM_EXTLO : Z := 0x17.

(** The local variable of i386_detect_memory, and what it stores; Boot.v has
    the function, which prints them. *)
Definition npages_extmem : Z := w32 (nvram_read NVRAM_EXTLO * 1024) / PGSIZE.
Definition detect_memory : M pm unit :=
  let basemem := w32 (nvram_read NVRAM_BASELO * 1024) / PGSIZE in
  let n := if ctrue npages_extmem then EXTPHYSMEM / PGSIZE + npages_extmem else basemem in
  modify (with_npages basemem n).
End detect.

(** * Allocation *)

(** The bodies of the two loops of [page_init]. *)
Definition page_init_link (i : Z) : M pm unit :=
  set_pp_ref i 0 ;;
  h ← gets page_free_list;
  set_pp_link i h ;;
  modify (with_free_list (Some i)).
Definition page_init_used (i : Z) : M pm unit :=
  set_pp_ref i 1 ;;
  set_pp_link i None.

Section alloc.
(** The linker's [end] symbol. *)
Context (kend : Z).

Definition boot_alloc (n : Z) : M pm Z :=
  s ← get;
  when (nextfree s =? 0) (modify (with_nextfree (ROUNDUP kend PGSIZE))) ;;
  nf ← gets nextfree;
  if ctrue n then
    let result := ROUNDUP nf PGSIZE in
    modify (with_nextfree (ROUNDUP (w32 (nf + n)) PGSIZE)) ;;
    mret result
  else mret nf.

Definition page_init : M pm unit :=
  np ← gets npages;
  for_range (Z.to_nat np) 0 1 page_init_link ;;
  let index := MPENTRY_PADDR / PGSIZE in
  set_pp_ref index 1 ;;
  set_pp_link index None ;;
  set_pp_link (index + 1) (Some (index - 1)) ;;
  set_pp_ref 0 1 ;;
  set_pp_link 0 None ;;
  set_pp_link 1 None ;;
  first_free_page ← boot_alloc 0;
  iop ← page_get (PGNUM IOPHYSMEM);
  pa ← PADDR first_free_page;
  for_range (Z.to_nat (PGNUM pa - PGNUM IOPHYSMEM)) (PGNUM IOPHYSMEM) 1
    page_init_used ;;
  set_pp_link (Z.max (PGNUM IOPHYSMEM) (PGNUM pa)) (pp_link iop).
End alloc.

Definition page_alloc (alloc_flags : Z) : M pm (option Z) :=
  h ← gets page_free_list;
  match h with
  | None => mret None
  | Some result =>
      p ← page_get result;
      modify (with_free_list (pp_link p)) ;;
      set_pp_link result None ;;
      when (ctrue (Z.land alloc_flags ALLOC_ZERO))
        (kva ← page2kva result; kmemset kva 0 PGSIZE) ;;
      mret (Some result)
  end.

Definition page_free (pp : Z) : M pm unit :=
  p ← page_get pp;
  if ctrue (pp_ref p) then panic "page_free: pp->pp_ref is nonzero!"
  else if bool_decide (pp_link p ≠ None) then panic "page_free: pp->pp_link is not NULL!"
  else
    h ← gets page_free_list;
    set_pp_link pp h ;;
    modify (with_free_list (Some pp)).

(** [--pp->pp_ref] is an update of a uint16_t. *)
Definition page_decref (pp : Z) : M pm unit :=
  p ← page_get pp;
  let r := w16 (pp_ref p - 1) in
  set_pp_ref pp r ;;
  when (r =? 0) (page_free pp).

(** [pp->pp_ref++] *)
Definition incr_ref (pp : Z) : M pm unit :=
  p ← page_get pp; set_pp_ref pp (w16 (pp_ref p + 1)).

(** * The free list as a sequence of pages *)

(** [chain P h l]: following [pp_link] from [h] visits exactly [l] and ends
    at NULL. *)
Inductive chain (P : gmap Z PageInfo) : option Z → list Z → Prop :=
| chain_nil : chain P None []
| chain_cons i p l : P !! i = Some p → chain P (pp_link p) l → chain P (Some i) (i :: l).
#[export] Hint Constructors chain : jos.

Section chain.
Implicit Types P : gmap Z PageInfo.

Lemma chain_inv_nil P h : chain P h [] → h = None.
Proof. inversion 1. reflexivity. Qed.

Lemma chain_inv_cons P h i l :
  chain P h (i :: l) → h = Some i ∧ ∃ p, P !! i = Some p ∧ chain P (pp_link p) l.
Proof. inversion 1; subst. eauto. Qed.

Lemma chain_det P h l l' : chain P h l → chain P h l' → l = l'.
Proof.
  intros H. revert l'. induction H as [|i p l Hi Hc IH]; intros l' H'; inversion H'; subst.
  - reflexivity.
  - f_equal. apply IH. congruence.
Qed.

Lemma chain_suffix P h l1 i l2 : chain P h (l1 ++ i :: l2) → chain P (Some i) (i :: l2).
Proof.
  revert h. induction l1 as [|j l1 IH]; intros h H; simpl in H.
  - apply chain_inv_cons in H as [-> (p & ? & ?)]. eauto with jos.
  - apply chain_inv_cons in H as [_ (p & _ & H)]. eauto.
Qed.

Lemma chain_length_eq P i l1 l2 : chain P (Some i) (i :: l1) → chain P (Some i) (i :: l2) →
  length l1 = length l2.
Proof. intros H1 H2. pose proof (chain_det _ _ _ _ H1 H2). congruence. Qed.

(** A list that ends cannot meet itself. *)
Lemma chain_NoDup P h l : chain P h l → NoDup l.
Proof.
  induction 1 as [|i p l Hi Hc IH]; constructor; [|assumption].
  intros Hin. apply list_elem_of_split in Hin as (l1 & l2 & ->).
  assert (chain P (Some i) (i :: l1 ++ i :: l2)) as H1 by eauto with jos.
  pose proof (chain_suffix _ _ _ _ _ Hc) as H2.
  pose proof (chain_length_eq _ _ _ _ H1 H2) as E.
  rewrite length_app in E. simpl in E. lia.
Qed.

Lemma chain_lookup P h l i : chain P h l → i ∈ l → is_Some (P !! i).
Proof.
  induction 1 as [|j p l Hj Hc IH]; intros Hi; [inversion Hi|].
  apply elem_of_cons in Hi as [->|]; eauto.
Qed.

Lemma chain_insert P h l i p : i ∉ l → chain P h l → chain (<[i := p]> P) h l.
Proof.
  intros Hi H. induction H as [|j q l Hj Hc IH]; [constructor|].
  apply not_elem_of_cons in Hi as [Hne Hi].
  apply chain_cons with q; [rewrite lookup_insert_ne; assumption|auto].
Qed.

Lemma chain_ext P P' h l :
  (∀ i p, i ∈ l → P !! i = Some p → ∃ p', P' !! i = Some p' ∧ pp_link p' = pp_link p) →
  chain P h l → chain P' h l.
Proof.
  intros He H. induction H as [|j q l Hj Hc IH]; [constructor|].
  destruct (He j q (list_elem_of_here _ _) Hj) as (q' & Hq' & El).
  apply chain_cons with q'; [assumption|]. rewrite El. apply IH.
  intros i p Hi. apply He. apply list_elem_of_further. assumption.
Qed.
End chain.

(** [down a n] is [a+n-1; ...; a+1; a]. *)
Fixpoint down (a : Z) (n : nat) : list Z :=
  match n with
  | O => []
  | S n => (a + Z.of_nat n) :: down a n
  end.

Lemma elem_of_down a n i : i ∈ down a n ↔ a ≤ i < a + Z.of_nat n.
Proof.
  induction n as [|n IH]; cbn [down].
  - split; [intros H; inversion H|lia].
  - rewrite elem_of_cons, IH. lia.
Qed.

Lemma chain_down P a n h l :
  (∀ k p, 0 < k < Z.of_nat n → P !! (a + k) = Some p → pp_link p = Some (a + k - 1)) →
  (∀ k, 0 ≤ k < Z.of_nat n → is_Some (P !! (a + k))) →
  (∀ p, P !! a = Some p → pp_link p = h) →
  chain P h l → (0 < n)%nat →
  chain P (Some (a + Z.of_nat n - 1)) (down a n ++ l).
Proof.
  intros Hl Hs H0 Hc Hn. induction n as [|n IH]; [lia|]. cbn [down app].
  replace (a + Z.of_nat (S n) - 1) with (a + Z.of_nat n) by lia.
  destruct (Hs (Z.of_nat n) ltac:(lia)) as [p Hp].
  apply chain_cons with p; [assumption|].
  destruct n as [|n].
  - cbn [down app]. rewrite (H0 p); [assumption|]. rewrite <- Hp. f_equal. lia.
  - rewrite (Hl (Z.of_nat (S n)) p ltac:(lia) Hp). apply IH; [| |lia].
    + intros k q Hk. apply Hl. lia.
    + intros k Hk. apply Hs. lia.
Qed.

(** * The allocator invariant *)

(** [page_inv s l]: physical memory has at most 256MB (what the kernel maps
    at KERNBASE), [pages] has one entry per page, the free list is [l], free
    pages have no references, and a page outside the free list has a NULL
    link. *)
Record page_inv (s : pm) (l : list Z) : Prop := {
  pi_npages : 0 < npages s ≤ 65536;
  pi_dom : ∀ i, is_Some (pages s !! i) ↔ 0 ≤ i < npages s;
  pi_chain : chain (pages s) (page_free_list s) l;
  pi_free : ∀ i p, i ∈ l → pages s !! i = Some p → pp_ref p = 0;
  pi_used : ∀ i p, i ∉ l → pages s !! i = Some p → pp_link p = None;
  pi_ref : ∀ i p, pages s !! i = Some p → 0 ≤ pp_ref p < 2 ^ 16
}.

(** What an operation on the page array leaves alone. *)
Record same_env (s s' : pm) : Prop := {
  se_npages : npages s' = npages s;
  se_kern : kern_pgdir s' = kern_pgdir s;
  se_cr3 : cr3 s' = cr3 s;
  se_mmio : mmio_base s' = mmio_base s;
  se_next : nextfree s' = nextfree s;
  se_base : npages_basemem s' = npages_basemem s
}.
#[export] Instance same_env_preorder : PreOrder same_env.
Proof. split; [split; reflexivity|intros ??? [] []; split; congruence]. Qed.

Lemma page2pa_eq pp : 0 ≤ pp < 65536 → page2pa pp = pp * PGSIZE.
Proof.
  intros. unfold page2pa, PGSHIFT. rewrite Z.shiftl_mul_pow2 by lia.
  apply w32_id. unfold u32_range, PGSIZE. lia.
Qed.

Lemma page2pa_ok pp : 0 ≤ pp < 65536 → pa_ok (page2pa pp).
Proof.
  intros. rewrite page2pa_eq by assumption. unfold pa_ok, u32_range, PGSIZE.
  split; [lia|]. apply Z.mod_mul. lia.
Qed.

Lemma PGNUM_page pp : 0 ≤ pp < 65536 → PGNUM (pp * PGSIZE) = pp.
Proof.
  intros. rewrite PGNUM_div by (unfold u32_range, PGSIZE; lia).
  unfold PGSIZE. apply Z.div_mul. lia.
Qed.

Lemma KADDR_page s pp : 0 < npages s ≤ 65536 → 0 ≤ pp < npages s →
  KADDR (pp * PGSIZE) s = Ret (pp * PGSIZE + KERNBASE) s.
Proof.
  intros Hn Hp. unfold KADDR. rewrite PGNUM_page by lia.
  destruct (Z.geb_spec pp (npages s)); [lia|].
  rewrite w32_id; [reflexivity|]. unfold u32_range, PGSIZE, KERNBASE. lia.
Qed.

Lemma page2kva_page s pp : 0 < npages s ≤ 65536 → 0 ≤ pp < npages s →
  page2kva pp s = Ret (pp * PGSIZE + KERNBASE) s.
Proof. intros. unfold page2kva. rewrite page2pa_eq by lia. apply KADDR_page; assumption. Qed.

Lemma pa2page_page s pp : npages s ≤ 65536 → 0 ≤ pp < npages s →
  pa2page (pp * PGSIZE) s = Ret pp s.
Proof.
  intros. unfold pa2page. rewrite PGNUM_page by lia.
  destruct (Z.geb_spec pp (npages s)); [lia|reflexivity].
Qed.

Lemma page_get_eq s i p : pages s !! i = Some p → page_get i s = Ret p s.
Proof. unfold page_get. intros ->. reflexivity. Qed.
Lemma page_set_eq s i p q : pages s !! i = Some p →
  page_set i q s = Ret tt (with_pages (<[i := q]> (pages s)) s).
Proof. unfold page_set. intros ->. reflexivity. Qed.
Lemma set_pp_ref_eq s i p r : pages s !! i = Some p →
  set_pp_ref i r s = Ret tt (with_pages (<[i := MkPageInfo (pp_link p) r]> (pages s)) s).
Proof.
  intros H. unfold set_pp_ref. rewrite (bind_Ret _ _ _ _ _ (page_get_eq _ _ _ H)).
  apply page_set_eq with p. assumption.
Qed.
Lemma set_pp_link_eq s i p h : pages s !! i = Some p →
  set_pp_link i h s = Ret tt (with_pages (<[i := MkPageInfo h (pp_ref p)]> (pages s)) s).
Proof.
  intros H. unfold set_pp_link. rewrite (bind_Ret _ _ _ _ _ (page_get_eq _ _ _ H)).
  apply page_set_eq with p. assumption.
Qed.
Lemma incr_ref_eq s i p : pages s !! i = Some p →
  incr_ref i s
  = Ret tt (with_pages (<[i := MkPageInfo (pp_link p) (w16 (pp_ref p + 1))]> (pages s)) s).
Proof.
  intros H. unfold incr_ref. rewrite (bind_Ret _ _ _ _ _ (page_get_eq _ _ _ H)).
  apply set_pp_ref_eq. assumption.
Qed.

Section page_ops.
Implicit Types (s : pm) (l : list Z).

Lemma page_inv_lookup s l i : page_inv s l → 0 ≤ i < npages s → ∃ p, pages s !! i = Some p.
Proof. intros H Hi. apply (pi_dom _ _ H) in Hi as [p Hp]. eauto. Qed.

Lemma page_inv_free_bound s l i : page_inv s l → i ∈ l → 0 ≤ i < npages s.
Proof.
  intros H Hi. apply (pi_dom _ _ H). eapply chain_lookup; [apply (pi_chain _ _ H)|assumption].
Qed.

Lemma page_inv_NoDup s l : page_inv s l → NoDup l.
Proof. intros H. eapply chain_NoDup, pi_chain. eassumption. Qed.

(** The allocator does not depend on memory contents or on the fields
    outside it. *)
Lemma page_inv_ext s s' l : page_inv s l →
  npages s' = npages s → pages s' = pages s → page_free_list s' = page_free_list s →
  page_inv s' l.
Proof. intros [] E1 E2 E3. split; rewrite ?E1, ?E2, ?E3; assumption. Qed.

(** Changing the reference count of a page that is not free. *)
Lemma page_inv_set_ref s l i p r : page_inv s l → i ∉ l → pages s !! i = Some p →
  0 ≤ r < 2 ^ 16 →
  page_inv (with_pages (<[i := MkPageInfo (pp_link p) r]> (pages s)) s) l.
Proof.
  intros H Hi Hp Hr. destruct H as [Hn Hd Hc Hf Hu Href]. split; cbn; auto.
  - intros j. rewrite lookup_insert. case_decide; subst; [|apply Hd].
    rewrite <- Hd. split; eauto.
  - apply chain_insert; assumption.
  - intros j q Hj Hq. rewrite lookup_insert_ne in Hq by congruence. eauto.
  - intros j q Hj. rewrite lookup_insert. case_decide; subst; [|apply Hu; assumption].
    intros [= <-]. cbn. eapply Hu; eassumption.
  - intros j q. rewrite lookup_insert. case_decide; subst; [|apply Href].
    intros [= <-]. assumption.
Qed.

(** The state after page i is taken off the free list. *)
Definition alloc_state (zero : bool) (i : Z) (h : option Z) s : pm :=
  let s1 := with_pages (<[i := MkPageInfo None 0]> (pages s)) (with_free_list h s) in
  if zero then with_phys (memset (phys s) (i * PGSIZE) 0 PGSIZE) s1 else s1.

Lemma page_inv_alloc_state zero s i l h : page_inv s (i :: l) → 
  (∃ p, pages s !! i = Some p ∧ pp_link p = h) →
  page_inv (alloc_state zero i h s) l.
Proof.
  intros H (p & Hp & Eh).
  assert (page_inv (with_pages (<[i := MkPageInfo None 0]> (pages s)) (with_free_list h s)) l)
    as H'.
  { pose proof (page_inv_NoDup _ _ H) as Hnd. apply NoDup_cons in Hnd as [Hni Hnd].
    destruct H as [Hn Hd Hc Hf Hu Href]. split; cbn; auto.
    - intros j. rewrite lookup_insert. case_decide; subst; [|apply Hd].
      rewrite <- Hd. split; eauto.
    - apply chain_inv_cons in Hc as [_ (q & Hq & Hc)].
      apply chain_insert; [assumption|]. congruence.
    - intros j q Hj Hq. rewrite lookup_insert_ne in Hq by congruence.
      apply (Hf j); [apply list_elem_of_further|]; assumption.
    - intros j q Hj. rewrite lookup_insert. case_decide; subst.
      + intros [= <-]. reflexivity.
      + apply Hu. rewrite not_elem_of_cons. auto.
    - intros j q. rewrite lookup_insert. case_decide; subst; [|apply Href].
      intros [= <-]. cbn. lia. }
  unfold alloc_state. destruct zero; [|assumption].
  eapply page_inv_ext; [exact H'|reflexivity..].
Qed.

(** The free page [i] taken with one reference. *)
Lemma page_inv_take s i l p : page_inv s (i :: l) → pages s !! i = Some p →
  page_inv (with_pages (<[i := MkPageInfo None 1]> (pages s)) (with_free_list (pp_link p) s)) l.
Proof.
  intros H Hp. pose proof (page_inv_NoDup _ _ H) as Hnd. apply NoDup_cons in Hnd as [Hni _].
  pose proof (page_inv_alloc_state false s i l (pp_link p) H ltac:(eauto)) as G.
  eapply (page_inv_set_ref _ _ i (MkPageInfo None 0) 1) in G; [|assumption|apply lookup_insert_eq|lia].
  eapply page_inv_ext; [exact G|reflexivity| |reflexivity].
  unfold alloc_state. psimpl. rewrite insert_insert_eq. reflexivity.
Qed.

Lemma page_alloc_none f s : page_inv s [] → page_alloc f s = Ret None s.
Proof.
  intros H. apply pi_chain, chain_inv_nil in H. unfold page_alloc.
  mrun. rewrite H. reflexivity.
Qed.

Lemma page_alloc_head f s i lk : page_free_list s = Some i → pages s !! i = Some (MkPageInfo lk 0) →
  0 ≤ i < npages s → npages s ≤ 65536 →
  page_alloc f s = Ret (Some i) (alloc_state (ctrue (Z.land f ALLOC_ZERO)) i lk s).
Proof.
  intros Eh Hp Hi Hn. unfold page_alloc. mrun. rewrite Eh. mstep page_get_eq. mrun.
  mstep (set_pp_link_eq _ i (MkPageInfo lk 0) None). cbn [pp_ref pp_link].
  unfold alloc_state. destruct (ctrue (Z.land f ALLOC_ZERO)); mrun; [|reflexivity].
  rewrite (bind_Ret _ _ _ _ _ (page2kva_page (with_pages _ (with_free_list _ s)) i ltac:(cbn; lia) Hi)).
  unfold kmemset. mrun. rewrite Z.add_simpl_r. reflexivity.
Qed.

Lemma page_alloc_some f s i l : page_inv s (i :: l) →
  ∃ p, pages s !! i = Some p ∧
  page_alloc f s
  = Ret (Some i) (alloc_state (ctrue (Z.land f ALLOC_ZERO)) i (pp_link p) s).
Proof.
  intros H. pose proof (page_inv_free_bound _ _ i H (list_elem_of_here _ _)) as Hi.
  destruct (page_inv_lookup _ _ _ H Hi) as [p Hp]. exists p. split; [assumption|].
  pose proof (pi_chain _ _ H) as Hc. apply chain_inv_cons in Hc as [Eh _].
  apply page_alloc_head; [assumption| |assumption|apply (pi_npages _ _ H)].
  rewrite <- (pi_free _ _ H i p (list_elem_of_here _ _) Hp). destruct p. assumption.
Qed.

Lemma page_free_run s pp : pages s !! pp = Some (MkPageInfo None 0) →
  page_free pp s = Ret tt (with_free_list (Some pp)
    (with_pages (<[pp := MkPageInfo (page_free_list s) 0]> (pages s)) s)).
Proof.
  intros Hp. unfold page_free. mstep page_get_eq. cbn [pp_ref pp_link].
  rewrite bool_decide_eq_false_2 by (intros []; reflexivity). mrun.
  mstep set_pp_link_eq. reflexivity.
Qed.

Lemma page_free_ok s l pp : page_inv s l → pages s !! pp = Some (MkPageInfo None 0) → pp ∉ l →
  let s' := with_free_list (Some pp)
    (with_pages (<[pp := MkPageInfo (page_free_list s) 0]> (pages s)) s) in
  page_free pp s = Ret tt s' ∧ page_inv s' (pp :: l).
Proof.
  intros H Hp Hl s'. split; [apply page_free_run; assumption|].
  destruct H as [Hn Hd Hc Hf Hu Href]. split; cbn; auto.
    + intros j. rewrite lookup_insert. case_decide; subst; [|apply Hd].
      rewrite <- Hd. split; eauto.
    + apply chain_cons with (MkPageInfo (page_free_list s) 0); [apply lookup_insert_eq|].
      apply chain_insert; assumption.
    + intros j q Hj. rewrite lookup_insert. case_decide; subst.
      * intros [= <-]. reflexivity.
      * intros Hq. apply (Hf j); [|assumption].
        apply elem_of_cons in Hj as [->|]; [congruence|assumption].
    + intros j q Hj. apply not_elem_of_cons in Hj as [Hne Hj].
      rewrite lookup_insert_ne by congruence. apply Hu. assumption.
    + intros j q. rewrite lookup_insert. case_decide; subst; [|apply Href].
      intros [= <-]. cbn. lia.
Qed.

(** The state after [page_decref] of a page whose entry is [p], and the free
    list it leaves. *)
Definition decref_state i p s : pm :=
  if pp_ref p =? 1
  then with_free_list (Some i)
         (with_pages (<[i := MkPageInfo (page_free_list s) 0]> (pages s)) s)
  else with_pages (<[i := MkPageInfo (pp_link p) (w16 (pp_ref p - 1))]> (pages s)) s.
Definition decref_list i p l : list Z := if pp_ref p =? 1 then i :: l else l.

Lemma page_decref_run s i r : pages s !! i = Some (MkPageInfo None r) → 1 ≤ r < 2 ^ 16 →
  page_decref i s = Ret tt (decref_state i (MkPageInfo None r) s).
Proof.
  intros Hp Hr. unfold page_decref, decref_state. mstep page_get_eq. mstep set_pp_ref_eq. cbn [pp_ref pp_link].
  destruct (Z.eqb_spec r 1) as [->|Hne].
  - change (w16 (1 - 1)) with 0. mrun. unfold when. change (0 =? 0) with true.
    rewrite page_free_run by apply lookup_insert_eq. cbn. rewrite insert_insert_eq. reflexivity.
  - assert (w16 (r - 1) = r - 1) as -> by (unfold w16; apply Z.mod_small; lia).
    rewrite (proj2 (Z.eqb_neq _ _)) by lia. reflexivity.
Qed.

Lemma page_decref_ok s l i p : page_inv s l → i ∉ l → pages s !! i = Some p →
  page_decref i s = Ret tt (decref_state i p s) ∧
  page_inv (decref_state i p s) (decref_list i p l).
Proof.
  intros H Hi Hp. pose proof (pi_ref _ _ H _ _ Hp) as Hr.
  pose proof (pi_used _ _ H _ _ Hi Hp) as Hl.
  assert (w16 (pp_ref p - 1) = 0 ↔ pp_ref p = 1) as Hw.
  { unfold w16. Z.div_mod_to_equations. lia. }
  unfold page_decref, decref_state, decref_list. mstep page_get_eq. mstep set_pp_ref_eq.
  destruct (Z.eqb_spec (pp_ref p) 1) as [E1|E1].
  - rewrite (proj2 Hw E1). mrun. rewrite Hl.
    set (s1 := with_pages _ s).
    assert (page_inv s1 l) as H1.
    { pose proof (page_inv_set_ref s l i p 0 H Hi Hp) as G. rewrite Hl in G. apply G. lia. }
    destruct (page_free_ok s1 l i H1 (lookup_insert_eq _ _ _) Hi) as [E G].
    cbn in E, G. rewrite insert_insert_eq in E, G. split; [exact E|exact G].
  - destruct (Z.eqb_spec (w16 (pp_ref p - 1)) 0); [tauto|]. mrun. split; [reflexivity|].
    apply page_inv_set_ref; auto. apply w16_range.
Qed.
End page_ops.

(** * page_init *)

Section page_init.
(** The state [mem_init] calls [page_init] in: [pages] has been allocated
    and zeroed, the free list is still NULL, and [boot_alloc] has handed
    out memory up to physical page [ff], which lies above the I/O hole. *)
Context (kend : Z) (s : pm).
Let np := npages s.
Let ff := PGNUM (nextfree s - KERNBASE).
Context (Hnp : np ≤ 65536)
  (Hdom : ∀ i, is_Some (pages s !! i) ↔ 0 ≤ i < np)
  (Hfree : page_free_list s = None)
  (Hnf : KERNBASE ≤ nextfree s < 2 ^ 32)
  (Hff : 160 < ff < np).

(** Entry [i] after the first loop has linked the pages below [k]. *)
Definition linked (i : Z) : PageInfo :=
  MkPageInfo (if i =? 0 then None else Some (i - 1)) 0.

Lemma page_init_loop1 : ∃ P,
  for_range (Z.to_nat np) 0 1 page_init_link s
  = Ret tt (with_free_list (Some (np - 1)) (with_pages P s)) ∧
  ∀ i, P !! i = if decide (0 ≤ i < np) then Some (linked i) else None.
Proof.
  set (I := λ (k : Z) (t : pm), ∃ P,
    t = with_free_list (if k =? 0 then None else Some (k - 1)) (with_pages P s) ∧
    ∀ i, P !! i = if decide (0 ≤ i < k) then Some (linked i) else pages s !! i).
  destruct (for_range_inv I page_init_link 1 (Z.to_nat np) 0 s) as (s' & E & P & -> & HP).
  - exists (pages s). split.
    + unfold with_free_list, with_pages. cbn. rewrite <- Hfree. destruct s; reflexivity.
    + intros i. rewrite decide_False by lia. reflexivity.
  - intros k t Hk (P & -> & HP). rewrite !Z.mul_1_r, !Z.add_0_l in *.
    assert (0 ≤ k < np) as Hk' by lia.
    destruct (proj2 (Hdom k) Hk') as [p Hp].
    assert (P !! k = Some p) as Hpk by (rewrite HP, decide_False by lia; assumption).
    eexists. split.
    { unfold page_init_link. mstep set_pp_ref_eq. mrun.
      erewrite bind_Ret by (apply set_pp_link_eq; cbn; apply lookup_insert_eq). reflexivity. }
    exists (<[k := linked k]> P). split.
    + unfold with_free_list, with_pages. cbn. rewrite insert_insert_eq.
      destruct (Z.eqb_spec (k + 1) 0); [lia|]. rewrite Z.add_simpl_r.
      unfold linked. destruct (k =? 0); reflexivity.
    + intros i. rewrite lookup_insert. repeat case_decide; subst; try lia; try reflexivity;
        rewrite HP; case_decide; try lia; reflexivity.
  - rewrite Z2Nat.id, Z.mul_1_r, Z.add_0_l in * by lia. exists P. split.
    + rewrite E. destruct (Z.eqb_spec np 0); [lia|reflexivity].
    + intros i. rewrite HP. case_decide; [reflexivity|].
      destruct (pages s !! i) eqn:Ei; [|reflexivity].
      exfalso. assert (is_Some (pages s !! i)) as G by eauto. apply Hdom in G. lia.
Qed.

Lemma page_init_loop2 n t : (∀ i, 160 ≤ i < 160 + Z.of_nat n → is_Some (pages t !! i)) →
  ∃ P, for_range n 160 1 page_init_used t = Ret tt (with_pages P t) ∧
  ∀ i, P !! i = if decide (160 ≤ i < 160 + Z.of_nat n)
                then Some (MkPageInfo None 1) else pages t !! i.
Proof.
  intros Ht.
  set (I := λ (k : Z) (t' : pm), ∃ P, t' = with_pages P t ∧
    ∀ i, P !! i = if decide (160 ≤ i < k) then Some (MkPageInfo None 1) else pages t !! i).
  destruct (for_range_inv I page_init_used 1 n 160 t) as (s' & E & P & -> & HP).
  - exists (pages t). split; [destruct t; reflexivity|].
    intros i. rewrite decide_False by lia. reflexivity.
  - intros k t' Hk (P & -> & HP). rewrite !Z.mul_1_r in *.
    destruct (Ht (160 + k)) as [p Hp]; [lia|].
    assert (P !! (160 + k) = Some p) as Hpk by (rewrite HP, decide_False by lia; assumption).
    eexists. split.
    { unfold page_init_used. mstep set_pp_ref_eq.
      apply set_pp_link_eq. cbn. apply lookup_insert_eq. }
    exists (<[160 + k := MkPageInfo None 1]> P). split.
    + unfold with_pages. cbn. rewrite insert_insert_eq. reflexivity.
    + intros i. rewrite lookup_insert. repeat case_decide; subst; try lia; try reflexivity;
        rewrite HP; case_decide; try lia; reflexivity.
  - rewrite Z.mul_1_r in *. eauto.
Qed.

(** Entry [i] after [page_init]. *)
Definition inited (i : Z) : PageInfo :=
  if i =? 0 then MkPageInfo None 1
  else if i =? 1 then MkPageInfo None 0
  else if i =? 7 then MkPageInfo None 1
  else if i =? 8 then MkPageInfo (Some 6) 0
  else if (160 <=? i) && (i <? ff) then MkPageInfo None 1
  else if i =? ff then MkPageInfo (Some 159) 0
  else MkPageInfo (Some (i - 1)) 0.

Lemma page_init_run : ∃ P,
  page_init kend s = Ret tt (with_free_list (Some (np - 1)) (with_pages P s)) ∧
  ∀ i, P !! i = if decide (0 ≤ i < np) then Some (inited i) else None.
Proof.
  destruct page_init_loop1 as (P1 & E1 & HP1).
  assert (∀ i, 0 ≤ i < np → P1 !! i = Some (linked i)) as L1.
  { intros i Hi. rewrite HP1, decide_True by assumption. reflexivity. }
  unfold page_init. mrun. fold np. rewrite (bind_Ret _ _ _ _ _ E1). mrun.
  change (MPENTRY_PADDR / PGSIZE) with 7. change (PGNUM IOPHYSMEM) with 160.
  change (7 + 1) with 8. change (7 - 1) with 6.
  do 6 (erewrite bind_Ret
    by (first [eapply set_pp_ref_eq | eapply set_pp_link_eq]; cbn [pages with_pages];
        rewrite ?lookup_insert; repeat case_decide; try lia;
        first [reflexivity | apply L1; lia])).
  unfold boot_alloc. mrun.
  cbn [nextfree with_pages with_free_list].
  destruct (Z.eqb_spec (nextfree s) 0) as [En|_]; [unfold KERNBASE in *; lia|]. mrun.
  erewrite bind_Ret by (apply page_get_eq; cbn [pages with_pages]; rewrite ?lookup_insert;
    repeat case_decide; try lia; apply L1; lia).
  unfold PADDR. cbn [nextfree with_pages with_free_list].
  rewrite w32_id by (unfold u32_range, KERNBASE in *; lia).
  destruct (Z.ltb_spec (nextfree s) KERNBASE); [lia|]. mrun. fold ff.
  set (t := with_pages _ _).
  assert (∀ i, 0 ≤ i < np → is_Some (pages t !! i)) as Ht.
  { intros i Hi. subst t. cbn [pages with_pages]. rewrite ?lookup_insert.
    repeat case_decide; eauto. }
  destruct (page_init_loop2 (Z.to_nat (ff - 160)) t) as (P2 & E2 & HP2).
  { intros i Hi. apply Ht. lia. }
  rewrite (bind_Ret _ _ _ _ _ E2), Z.max_r by lia.
  destruct (Ht ff) as [p Hp]; [lia|].
  erewrite set_pp_link_eq by (cbn; rewrite HP2, decide_False by lia; exact Hp).
  eexists (<[ff := _]> P2). split; [reflexivity|].
  subst t. cbn [pages with_pages with_free_list] in *. intros i. rewrite lookup_insert.
  rewrite ?lookup_insert in Hp. repeat (rewrite decide_False in Hp by lia).
  rewrite L1 in Hp by lia. injection Hp as <-.
  case_decide as D; [subst i; rewrite decide_True by lia|].
  - unfold inited, linked. zcases; cbn [andb pp_ref pp_link]; try lia; reflexivity.
  - rewrite HP2, ?lookup_insert, HP1.
    unfold inited, linked. repeat case_decide; try lia; zcases;
      cbn [andb pp_ref pp_link]; try lia; try reflexivity; f_equal; f_equal; f_equal; lia.
Qed.

Definition page_init_list : list Z :=
  down ff (Z.to_nat (np - ff)) ++ down 8 152 ++ down 1 6.

Lemma elem_of_page_init_list i : i ∈ page_init_list ↔
  ff ≤ i < np ∨ 8 ≤ i < 160 ∨ 1 ≤ i < 7.
Proof. unfold page_init_list. rewrite !elem_of_app, !elem_of_down. lia. Qed.

Lemma page_init_inv : ∃ s',
  page_init kend s = Ret tt s' ∧ page_inv s' page_init_list ∧ npages s' = np ∧
  (∀ i, 0 ≤ i < np → pages s' !! i = Some (inited i)) ∧
  ∃ h P, s' = with_free_list h (with_pages P s).
Proof.
  destruct page_init_run as (P & E & HP). eexists. split; [exact E|].
  assert (∀ i, 0 ≤ i < np → P !! i = Some (inited i)) as L.
  { intros i Hi. rewrite HP, decide_True by assumption. reflexivity. }
  assert (∀ i p, P !! i = Some p → 0 ≤ i < np ∧ p = inited i) as L'.
  { intros i p. rewrite HP. case_decide; [|discriminate]. intros [= <-]. auto. }
  split; [|split; [reflexivity|split; [exact L|eauto]]].
  split; cbn [npages pages page_free_list with_pages with_free_list].
  - fold np. lia.
  - intros i. rewrite HP. case_decide; split; intros; try lia; eauto.
    destruct H0 as [? [=]].
  - fold np. unfold page_init_list.
    replace (Some (np - 1)) with (Some (ff + Z.of_nat (Z.to_nat (np - ff)) - 1))
      by (f_equal; lia).
    assert (∀ a n h, (0 < n)%nat → 0 ≤ a → a + Z.of_nat n ≤ np →
      (∀ k, 0 < k < Z.of_nat n → pp_link (inited (a + k)) = Some (a + k - 1)) →
      pp_link (inited a) = h → ∀ l, chain P h l →
      chain P (Some (a + Z.of_nat n - 1)) (down a n ++ l)) as Cd.
    { intros a n h Hn Ha Hlen Hk Hh l Hl. apply chain_down with h; auto.
      - intros k p Hk' Hp. apply L' in Hp as [_ ->]. auto.
      - intros k Hk'. rewrite L by lia. eauto.
      - intros p Hp. apply L' in Hp as [_ ->]. assumption. }
    apply Cd with (Some (8 + Z.of_nat 152 - 1)); try lia.
    { intros k Hk. unfold inited. zcases; cbn [andb pp_link]; try lia; reflexivity. }
    { unfold inited. zcases; cbn [andb pp_link]; try lia; reflexivity. }
    apply Cd with (Some (1 + Z.of_nat 6 - 1)); try lia.
    { intros k Hk. unfold inited. zcases; cbn [andb pp_link]; try lia; reflexivity. }
    { reflexivity. }
    rewrite <- (app_nil_r (down 1 6)).
    apply Cd with None; try lia; [|reflexivity|constructor].
    intros k Hk. unfold inited. zcases; cbn [andb pp_link]; try lia; reflexivity.
  - intros i p Hi Hp. apply L' in Hp as [Hb ->]. apply elem_of_page_init_list in Hi.
    unfold inited. zcases; cbn [andb pp_ref]; try lia; reflexivity.
  - intros i p Hi Hp. apply L' in Hp as [Hb ->]. rewrite elem_of_page_init_list in Hi.
    unfold inited. zcases; cbn [andb pp_link]; try lia; reflexivity.
  - intros i p Hp. apply L' in Hp as [_ ->]. unfold inited. zcases; cbn [andb pp_ref]; lia.
Qed.
End page_init.

(** * Deciding the invariant on concrete states *)

Fixpoint chainb (P : gmap Z PageInfo) (h : option Z) (l : list Z) {struct l} : bool :=
  match l with
  | [] => bool_decide (h = None)
  | i :: l =>
      bool_decide (h = Some i) &&
      match P !! i with Some p => chainb P (pp_link p) l | None => false end
  end.

Lemma chainb_sound P h l : chainb P h l = true → chain P h l.
Proof.
  revert h. induction l as [|i l IH]; intros h; cbn [chainb].
  - intros H. apply bool_decide_eq_true in H as ->. constructor.
  - intros H. apply andb_true_iff in H as [E H]. apply bool_decide_eq_true in E as ->.
    destruct (P !! i) eqn:Ei; [|discriminate]. eauto with jos.
Qed.

Definition page_invb (s : pm) (l : list Z) : bool :=
  (0 <? npages s) && (npages s <=? 65536) &&
  chainb (pages s) (page_free_list s) l &&
  forallb (λ i, bool_decide (is_Some (pages s !! i))) (seqZ 0 (npages s)) &&
  bool_decide (map_Forall (λ i p,
    0 ≤ i < npages s ∧ 0 ≤ pp_ref p < 2 ^ 16 ∧
    (i ∈ l → pp_ref p = 0) ∧ (i ∉ l → pp_link p = None)) (pages s)).

Lemma page_invb_sound s l : page_invb s l = true → page_inv s l.
Proof.
  unfold page_invb. rewrite !andb_true_iff, bool_decide_eq_true.
  intros [[[[H1 H2] H3] H4] H5]. bsplit. apply chainb_sound in H3.
  rewrite List.forallb_forall in H4.
  split; auto; try (intros i p; intros; edestruct (H5 i p) as (? & ? & ? & ?); eauto; fail).
  intros i. split.
  - intros [p Hp]. apply H5 in Hp. tauto.
  - intros Hi. specialize (H4 i). rewrite bool_decide_eq_true in H4. apply H4.
    apply list_elem_of_In, elem_of_seqZ. lia.
Qed.

(** What [mem_init] hands to [page_init]: [n] zeroed [struct PageInfo]s. *)
Definition zero_pages (n : Z) : gmap Z PageInfo :=
  list_to_map ((λ i, (i, MkPageInfo None 0)) <$> seqZ 0 n).

Lemma zero_pages_dom n i : is_Some (zero_pages n !! i) ↔ 0 ≤ i < n.
Proof.
  unfold zero_pages. rewrite <- elem_of_dom, dom_list_to_map_L, elem_of_list_to_set.
  rewrite <- list_fmap_compose. rewrite list_elem_of_fmap. split.
  - intros (j & -> & Hj). apply elem_of_seqZ in Hj. simpl. lia.
  - intros Hi. exists i. split; [reflexivity|]. apply elem_of_seqZ. lia.
Qed.

(** A machine with [n] pages whose boot allocations end at page [ff]. *)
Definition boot_pm (n ff : Z) : pm :=
  MkPm n 160 (zero_pages n) None (KERNBASE + ff * PGSIZE) 0 0 0 MMIOBASE ∅ 0 [] 0.

(** * Properties *)

(** [page_init] returns, leaves the allocator invariant holding, and puts
    on the free list exactly the pages from the end of the boot allocations
    to the end of memory, pages 8 to 159 and pages 1 to 6: never page 0, the
    page holding the AP boot code at MPENTRY_PADDR, the I/O hole, or the
    kernel and its boot allocations. Those get one reference, free pages none. *)
Theorem page_init_free_list (kend : Z) (s : pm) :
  npages s ≤ 65536 →
  (∀ i, is_Some (pages s !! i) ↔ 0 ≤ i < npages s) →
  page_free_list s = None →
  KERNBASE ≤ nextfree s < 2 ^ 32 →
  160 < PGNUM (nextfree s - KERNBASE) < npages s →
  ∃ s' l, page_init kend s = Ret tt s' ∧ page_inv s' l ∧
    (∀ i, i ∈ l ↔
      (0 ≤ i < npages s ∧ i ≠ 0 ∧ i ≠ PGNUM MPENTRY_PADDR ∧
       ¬ (PGNUM IOPHYSMEM ≤ i < PGNUM (nextfree s - KERNBASE)))) ∧
    (∀ i p, pages s' !! i = Some p → pp_ref p = if decide (i ∈ l) then 0 else 1).
Proof.
  intros Hn Hd Hf Hnf Hff.
  destruct (page_init_inv kend s Hn Hd Hf Hnf Hff) as (s' & E & Hi & En & HP & _).
  exists s', (page_init_list s). split; [assumption|]. split; [assumption|]. split.
  - intros i. rewrite elem_of_page_init_list by assumption.
    change (PGNUM MPENTRY_PADDR) with 7. change (PGNUM IOPHYSMEM) with 160. lia.
  - intros i p Hp. assert (0 ≤ i < npages s) as Hb.
    { rewrite <- En. apply (pi_dom _ _ Hi). eauto. }
    rewrite HP in Hp by assumption. injection Hp as <-.
    case_decide as Hl; rewrite elem_of_page_init_list in Hl by assumption;
      unfold inited; zcases; cbn [andb pp_ref]; try lia; reflexivity.
Qed.

Lemma page_init_free_list_witness :
  ∃ s' l, page_init 0 (boot_pm 200 170) = Ret tt s' ∧ page_inv s' l ∧
    (∀ i, i ∈ l ↔
      (0 ≤ i < 200 ∧ i ≠ 0 ∧ i ≠ PGNUM MPENTRY_PADDR ∧
       ¬ (PGNUM IOPHYSMEM ≤ i < PGNUM (nextfree (boot_pm 200 170) - KERNBASE)))) ∧
    (∀ i p, pages s' !! i = Some p → pp_ref p = if decide (i ∈ l) then 0 else 1).
Proof.
  apply (page_init_free_list 0 (boot_pm 200 170)).
  - cbn. lia.
  - apply zero_pages_dom.
  - reflexivity.
  - vm_compute. split; [discriminate|reflexivity].
  - vm_compute. split; reflexivity.
Defined.

(** A machine of four pages with pages 3, 2 and 1 free. *)
Definition demo_pm : pm :=
  MkPm 4 4 (list_to_map [(0, MkPageInfo None 1); (1, MkPageInfo None 0);
    (2, MkPageInfo (Some 1) 0); (3, MkPageInfo (Some 2) 0)])
    (Some 3) (KERNBASE + 4 * PGSIZE) 0 0 0 MMIOBASE ∅ 0 [] 0.

(** [page_alloc] is the pop of the free list: with no free page it returns
    NULL and changes nothing; otherwise it returns the first one, with no
    references and a NULL link, and with ALLOC_ZERO every byte of that page
    and of no other is cleared. *)
Theorem page_alloc_pops (f : Z) (s : pm) (l : list Z) :
  page_inv s l →
  match l with
  | [] => page_alloc f s = Ret None s
  | i :: l' =>
      ∃ s', page_alloc f s = Ret (Some i) s' ∧ page_inv s' l' ∧
        pages s' !! i = Some (MkPageInfo None 0) ∧
        (∀ j, j ≠ i → pages s' !! j = pages s !! j) ∧
        (∀ a, ld8 (phys s') a
          = if decide (Z.land f ALLOC_ZERO ≠ 0 ∧ i * PGSIZE ≤ a < i * PGSIZE + PGSIZE)
            then 0 else ld8 (phys s) a)
  end.
Proof.
  intros H. destruct l as [|i l']; [apply page_alloc_none; assumption|].
  destruct (page_alloc_some f s i l' H) as (p & Hp & E).
  eexists. split; [exact E|]. split; [eapply page_inv_alloc_state; eauto|].
  unfold alloc_state. destruct (ctrue (Z.land f ALLOC_ZERO)) eqn:Ez;
    [apply ctrue_spec in Ez|apply ctrue_false in Ez];
    psimpl.
  all: split; [apply lookup_insert_eq|]; split; [intros; apply lookup_insert_ne; congruence|].
  - intros a. rewrite memset_spec by (unfold PGSIZE; lia). 
    repeat case_decide; try tauto; reflexivity.
  - intros a. rewrite decide_False by tauto. reflexivity.
Qed.

Lemma page_alloc_pops_witness :
  ∃ s', page_alloc ALLOC_ZERO demo_pm = Ret (Some 3) s' ∧ page_inv s' [2; 1] ∧
    pages s' !! 3 = Some (MkPageInfo None 0) ∧
    (∀ j, j ≠ 3 → pages s' !! j = pages demo_pm !! j) ∧
    (∀ a, ld8 (phys s') a
      = if decide (Z.land ALLOC_ZERO ALLOC_ZERO ≠ 0 ∧ 3 * PGSIZE ≤ a < 3 * PGSIZE + PGSIZE)
        then 0 else ld8 (phys demo_pm) a).
Proof.
  apply (page_alloc_pops ALLOC_ZERO demo_pm [3; 2; 1]). apply page_invb_sound.
  vm_compute. reflexivity.
Defined.

(** [page_free] on every branch: it panics when the page still has
    references, and when its link is not NULL; otherwise the page goes to the
    front of the free list, and the next [page_alloc] returns it and restores
    the list. *)
Theorem page_free_pushes (s : pm) (l : list Z) (pp : Z) (p : PageInfo) :
  page_inv s l → pages s !! pp = Some p →
  (pp_ref p ≠ 0 → page_free pp s = Stop (SPanic "page_free: pp->pp_ref is nonzero!") s) ∧
  (pp_ref p = 0 → pp_link p ≠ None →
    page_free pp s = Stop (SPanic "page_free: pp->pp_link is not NULL!") s) ∧
  (pp_ref p = 0 → pp ∉ l →
    ∃ s', page_free pp s = Ret tt s' ∧ page_inv s' (pp :: l) ∧
      ∃ s'', page_alloc 0 s' = Ret (Some pp) s'' ∧ page_inv s'' l ∧
        pages s'' = pages s ∧ page_free_list s'' = page_free_list s ∧ phys s'' = phys s).
Proof.
  intros H Hp. split; [|split].
  - intros Hr. unfold page_free. mstep page_get_eq.
    rewrite (proj2 (ctrue_spec _) Hr). reflexivity.
  - intros Hr Hl. unfold page_free. mstep page_get_eq. rewrite Hr. mrun.
    rewrite bool_decide_eq_true_2 by assumption. reflexivity.
  - intros Hr Hl. pose proof (pi_used _ _ H _ _ Hl Hp) as Ek.
    assert (p = MkPageInfo None 0) as -> by (destruct p; cbn in *; congruence).
    destruct (page_free_ok s l pp H Hp Hl) as [E H'].
    eexists. split; [exact E|]. split; [exact H'|].
    destruct (page_alloc_some 0 _ _ _ H') as (q & Hq & E'). cbn in Hq.
    rewrite lookup_insert_eq in Hq. injection Hq as <-.
    eexists. split; [exact E'|]. split.
    + eapply page_inv_alloc_state; [exact H'|]. eexists.
      split; [apply lookup_insert_eq|reflexivity].
    + unfold alloc_state; psimpl. split; [|auto]. rewrite insert_insert_eq. apply insert_id. assumption.
Qed.

Lemma page_free_pushes_witness :
  let s := alloc_state false 3 (Some 2) demo_pm in
  (∃ s', page_free 3 s = Ret tt s' ∧ page_inv s' [3; 2; 1]) ∧
  page_free 0 s = Stop (SPanic "page_free: pp->pp_ref is nonzero!") s ∧
  page_free 2 s = Stop (SPanic "page_free: pp->pp_link is not NULL!") s.
Proof.
  intros s. assert (page_inv s [2; 1]) as H by (apply page_invb_sound; vm_compute; reflexivity).
  split; [|split].
  - destruct (page_free_pushes s [2; 1] 3 (MkPageInfo None 0) H eq_refl) as (_ & _ & G).
    destruct G as (s' & E & H' & _); [reflexivity|decided|]. eauto.
  - apply (page_free_pushes s [2; 1] 0 (MkPageInfo None 1) H eq_refl). discriminate.
  - apply (page_free_pushes s [2; 1] 2 (MkPageInfo (Some 1) 0) H eq_refl); [reflexivity|discriminate].
Defined.

(** [page_decref] drops one reference of a page in use; dropping the last
    one frees the page. A page whose count is already 0 is not noticed: its
    uint16_t count wraps to 65535 and the page stays off the free list. *)
Theorem page_decref_spec (s : pm) (l : list Z) (pp : Z) (p : PageInfo) :
  page_inv s l → pp ∉ l → pages s !! pp = Some p →
  ∃ s' l', page_decref pp s = Ret tt s' ∧ page_inv s' l' ∧
    (pp_ref p = 1 → l' = pp :: l) ∧
    (pp_ref p ≠ 1 → l' = l) ∧
    (∃ p', pages s' !! pp = Some p' ∧
      pp_ref p' = if decide (pp_ref p = 0) then 65535 else pp_ref p - 1).
Proof.
  intros H Hl Hp. destruct (page_decref_ok s l pp p H Hl Hp) as [E H'].
  pose proof (pi_ref _ _ H _ _ Hp) as Hr.
  eexists _, _. split; [exact E|]. split; [exact H'|].
  unfold decref_list, decref_state. destruct (Z.eqb_spec (pp_ref p) 1) as [E1|E1];
    (split; [tauto|split; [tauto|]]); cbn; eexists; (split; [apply lookup_insert_eq|]); cbn.
  - rewrite E1. reflexivity.
  - case_decide as E0; [rewrite E0; reflexivity|]. apply w16_id. lia.
Qed.

Lemma page_decref_spec_witness :
  ∃ s' l', page_decref 0 demo_pm = Ret tt s' ∧ page_inv s' l' ∧ (1 = 1 → l' = [0; 3; 2; 1]) ∧
    (1 ≠ 1 → l' = [3; 2; 1]) ∧
    (∃ p', pages s' !! 0 = Some p' ∧ pp_ref p' = if decide (1 = 0) then 65535 else 1 - 1).
Proof.
  apply (page_decref_spec demo_pm [3; 2; 1] 0 (MkPageInfo None 1)).
  - apply page_invb_sound. vm_compute. reflexivity.
  - decided.
  - reflexivity.
Defined.

(** Whatever the CMOS reports, memory detection finds at most 16639 pages
    (65MB), so every page lies in the 256MB that KADDR can address; base
    memory is used alone exactly when no full page of extended memory is
    reported. *)
Theorem detect_memory_bounds (cmos : Z → Z) (s : pm) :
  ∃ s', detect_memory cmos s = Ret tt s' ∧
    0 ≤ npages_basemem s' ≤ 16383 ∧ 0 ≤ npages s' ≤ 16639 ∧
    (nvram_read cmos NVRAM_EXTLO < 4 → npages s' = npages_basemem s') ∧
    (4 ≤ nvram_read cmos NVRAM_EXTLO →
      npages s' = 256 + nvram_read cmos NVRAM_EXTLO / 4).
Proof.
  assert (∀ r, 0 ≤ nvram_read cmos r < 2 ^ 16) as Hr.
  { intros r. unfold nvram_read, mc146818_read. rewrite Z.lor_comm.
    pose proof (w8_range (cmos (w8 r))). pose proof (w8_range (cmos (w8 (r + 1)))).
    rewrite shiftl_lor_low by lia. rewrite Z.shiftl_mul_pow2 by lia. lia. }
  pose proof (Hr NVRAM_BASELO) as Hb. pose proof (Hr NVRAM_EXTLO) as He.
  eexists. split; [reflexivity|]. psimpl. unfold npages_extmem.
  rewrite !w32_id by (unfold u32_range; lia). unfold PGSIZE.
  change (EXTPHYSMEM / 4096) with 256.
  destruct (ctrue _) eqn:E; [apply ctrue_spec in E|apply ctrue_false in E];
    repeat split; intros; Z.div_mod_to_equations; lia.
Qed.

(** A double free of the page at the end of the free list is not detected
    (its link is NULL, like that of a page in use): the call returns, and the
    list becomes a cycle from which the same page is allocated for ever. *)
Theorem page_free_tail_undetected (s : pm) (l : list Z) (pp : Z) :
  page_inv s (l ++ [pp]) →
  ∃ s', page_free pp s = Ret tt s' ∧
    page_free_list s' = Some pp ∧ ∀ l', ¬ chain (pages s') (page_free_list s') l'.
Proof.
  intros H. assert (pp ∈ l ++ [pp]) as Hin by (apply elem_of_app; right; apply list_elem_of_here).
  destruct (page_inv_lookup _ _ pp H (page_inv_free_bound _ _ _ H Hin)) as [p Hp].
  pose proof (pi_free _ _ H _ _ Hin Hp) as Hr.
  pose proof (chain_suffix _ _ _ _ _ (pi_chain _ _ H)) as Hc.
  apply chain_inv_cons in Hc as [_ (q & Hq & Hc)]. apply chain_inv_nil in Hc.
  assert (q = p) as -> by congruence.
  unfold page_free. mstep page_get_eq. rewrite Hr. mrun.
  rewrite bool_decide_eq_false_2 by (rewrite Hc; intros []; reflexivity).
  mrun. mstep set_pp_link_eq. eexists. split; [reflexivity|]. split; [reflexivity|].
  cbn. intros l' Hl'. pose proof (chain_NoDup _ _ _ Hl') as Hnd.
  destruct l' as [|i l']; [apply chain_inv_nil in Hl'; discriminate|].
  (* a chain that starts at pp and comes back to pp *)
  assert (∀ h k, chain (pages s) h (k ++ [pp]) → ∀ k',
    chain (<[pp := MkPageInfo (page_free_list s) (pp_ref p)]> (pages s)) h k' → pp ∈ k') as G.
  { intros h k. revert h. induction k as [|j k IH]; intros h Hk k' Hk'.
    - apply chain_inv_cons in Hk as [-> _]. inversion Hk'; subst. apply list_elem_of_here.
    - apply chain_inv_cons in Hk as [-> (r & Hr' & Hk)]. inversion Hk' as [|i' r' k'' Hi' Hc']; subst.
      destruct (decide (j = pp)) as [->|Hne]; [apply list_elem_of_here|].
      apply list_elem_of_further. rewrite lookup_insert_ne in Hi' by congruence.
      replace r with r' in Hk by congruence. eapply IH; eassumption. }
  apply chain_inv_cons in Hl' as [Ei (r & Hr' & Hl')]. injection Ei as <-.
  rewrite lookup_insert_eq in Hr'. injection Hr' as <-. cbn in Hl'.
  apply NoDup_cons in Hnd as [Hni _]. apply Hni. eapply G; [apply (pi_chain _ _ H)|exact Hl'].
Qed.

Lemma page_free_tail_undetected_witness :
  ∃ s', page_free 1 demo_pm = Ret tt s' ∧
    page_free_list s' = Some 1 ∧ ∀ l', ¬ chain (pages s') (page_free_list s') l'.
Proof.
  apply (page_free_tail_undetected demo_pm [3; 2]). apply page_invb_sound. vm_compute. reflexivity.
Defined.
