(* ===== verification/PageTable.v ===== *)
(** Two-level page tables: pgdir_walk, boot_map_region, page_insert,
    page_lookup, page_remove, tlb_invalidate, mmio_map_region, check_va2pa and
    user_mem_check of kern/pmap.c.  What they promise is in [AddrSpace]. *)
From S2P Require Import Prelude Mmu Mem Pages.

(** * kern/pmap.c *)

Section pmap.
(** [cur] is what tlb_invalidate reads of the current environment: None when
    there is none, otherwise its env_pgdir. *)
Context (cur : option Z).

Definition is_present (pte : Z) : bool := ctrue (Z.land pte PTE_P).

Definition pgdir_walk (pgdir va : Z) (create : bool) : M pm (option Z) :=
  pde ← kld32 (pgdir + 4 * PDX va);
  found ← (if is_present pde then mret true
           else if negb create then mret false
           else
             pp ← page_alloc 1;
             match pp with
             | None => mret false
             | Some pp =>
                 incr_ref pp ;;
                 kst32 (pgdir + 4 * PDX va)
                   (Z.lor (Z.lor (Z.lor (page2pa pp) PTE_P) PTE_W) PTE_U) ;;
                 mret true
             end);
  if (found : bool) then
    pde ← kld32 (pgdir + 4 * PDX va);
    pt ← KADDR (PTE_ADDR pde);
    mret (Some (pt + 4 * PTX va))
  else mret None.

(** The loop of [boot_map_region] runs until [va_ptr] meets [vend_ptr]; both
    advance by pages in 32-bit arithmetic, so 2^20 iterations go all the way
    round. *)
Fixpoint boot_map_loop (fuel : nat) (pgdir va_ptr vend_ptr pa_ptr perm : Z) : M pm unit :=
  if va_ptr =? vend_ptr then mret tt
  else
    match fuel with
    | O => stop_with SLoop
    | S fuel =>
        ppte ← pgdir_walk pgdir va_ptr true;
        match ppte with
        | None => panic "boot_map_region: cannot find valid page!"
        | Some ppte =>
            kst32 ppte (Z.lor (Z.lor (PTE_ADDR pa_ptr) perm) PTE_P) ;;
            boot_map_loop fuel pgdir (w32 (va_ptr + PGSIZE)) vend_ptr (w32 (pa_ptr + PGSIZE)) perm
        end
    end.

Definition boot_map_region (pgdir va size pa perm : Z) : M pm unit :=
  let vend_ptr := w32 (va + size) in
  let vend_ptr := if size >? w32 (0xffffffff - vend_ptr + 1)
                  then ROUNDUP 0xfffff000 PGSIZE else vend_ptr in
  boot_map_loop (Z.to_nat 0x100000) pgdir va vend_ptr pa perm.

Definition tlb_invalidate (pgdir va : Z) : M pm unit :=
  when (match cur with None => true | Some p => p =? pgdir end)
    (modify (λ s, with_invlpgs (va :: invlpgs s) s)).

(** The page mapped at [va], and what is stored through [pte_store]. *)
Definition page_lookup (pgdir va : Z) : M pm (option Z * option Z) :=
  ppte ← pgdir_walk pgdir va false;
  match ppte with
  | None => mret (None, None)
  | Some p =>
      pte ← kld32 p;
      if is_present pte then pp ← pa2page (PTE_ADDR pte); mret (Some pp, ppte)
      else mret (None, ppte)
  end.

Definition page_remove (pgdir va : Z) : M pm unit :=
  r ← page_lookup pgdir va;
  match r with
  | (Some pp, Some ppte) =>
      pte ← kld32 ppte;
      if is_present pte then
        page_decref pp ;;
        kst32 ppte 0 ;;
        tlb_invalidate pgdir va
      else mret tt
  | _ => mret tt
  end.

Definition page_insert (pgdir pp va perm : Z) : M pm Z :=
  ppte ← pgdir_walk pgdir va true;
  match ppte with
  | None => mret (- E_NO_MEM)
  | Some ppte =>
      incr_ref pp ;;
      pte ← kld32 ppte;
      when (is_present pte) (page_remove pgdir va) ;;
      kst32 ppte (w32 (Z.lor (Z.lor (PTE_ADDR (page2pa pp)) perm) PTE_P)) ;;
      mret 0
  end.

Definition mmio_map_region (pa size : Z) : M pm Z :=
  s ← get;
  let base := mmio_base s in
  if w32 (base + size) >? MMIOLIM then panic "mmio_map_region: too big for MMIOLIM!"
  else
    boot_map_region (kern_pgdir s) base (ROUNDUP size PGSIZE) pa
      (Z.lor (Z.lor PTE_PCD PTE_PWT) PTE_W) ;;
    modify (λ s, with_mmio_base (w32 (mmio_base s + ROUNDUP size PGSIZE)) s) ;;
    base' ← gets mmio_base;
    mret (w32 (base' - ROUNDUP size PGSIZE)).

Fixpoint user_mem_check_loop (fuel : nat) (pgdir va_ptr vend va perm : Z) : M pm Z :=
  if va_ptr <? vend then
    match fuel with
    | O => stop_with SLoop
    | S fuel =>
        ppte ← pgdir_walk pgdir va_ptr false;
        pte ← match ppte with Some p => kld32 p | None => mret 0 end;
        if (va_ptr >=? ULIM) || bool_decide (ppte = None) || negb (is_present pte)
           || negb (Z.land pte perm =? perm)
        then
          modify (with_check_addr (if va_ptr <? va then va else va_ptr)) ;;
          mret (- E_FAULT)
        else user_mem_check_loop fuel pgdir (w32 (va_ptr + PGSIZE)) vend va perm
    end
  else mret 0.

(** [pgdir] is env->env_pgdir, the only part of the environment it reads. *)
Definition user_mem_check (pgdir va len perm : Z) : M pm Z :=
  user_mem_check_loop (Z.to_nat 0x100000) pgdir (ROUNDDOWN va PGSIZE)
    (ROUNDUP (w32 (va + len)) PGSIZE) va perm.

(** [~0] stands for "not mapped". *)
Definition check_va2pa (pgdir va : Z) : M pm Z :=
  pde ← kld32 (pgdir + 4 * PDX va);
  if negb (is_present pde) then mret (w32 (-1))
  else
    p ← KADDR (PTE_ADDR pde);
    pte ← kld32 (p + 4 * PTX va);
    if negb (is_present pte) then mret (w32 (-1)) else mret (PTE_ADDR pte).
End pmap.
