(* ===== verification/AddrSpace.v ===== *)
(** What the page tables mean: address spaces as partial maps from page
    numbers to page table entries, the invariant over all address spaces, and
    the proofs that the operations of PageTable implement lookup, insertion
    and deletion in one of those maps. *)
From S2P Require Import Prelude Mmu Mem Pages PageTable.

(** * Memory as page-table words *)

(** Word [j] of page [p]. *)
Definition wd (m : mem) (p j : Z) : Z := ld32 m (p * PGSIZE + 4 * j).

(** A page is the same by words when it is by bytes, and the other way. *)
Lemma page_bytes m m' q : (∀ j, 0 ≤ j < 1024 → wd m' q j = wd m q j) →
  ∀ b, 0 ≤ b < PGSIZE → ld8 m' (q * PGSIZE + b) = ld8 m (q * PGSIZE + b).
Proof.
  intros H b Hb. unfold PGSIZE in *. assert (0 ≤ b / 4 < 1024) as Hj by (Z.div_mod_to_equations; lia).
  replace (q * 4096 + b) with (q * 4096 + 4 * (b / 4) + b mod 4) by (pose proof (Z.div_mod b 4); lia).
  apply ld32_bytes; [exact (H _ Hj)|apply Z.mod_pos_bound; lia].
Qed.

Lemma page_ld8 m m' b : (∀ j, 0 ≤ j < 1024 → wd m' (b / PGSIZE) j = wd m (b / PGSIZE) j) → ld8 m' b = ld8 m b.
Proof.
  intros H. rewrite (Z.div_mod b PGSIZE) by discriminate. rewrite (Z.mul_comm PGSIZE).
  apply page_bytes; [exact H|apply Z.mod_pos_bound; reflexivity].
Qed.

Lemma wd_st32 m q k v p j : u32_range v → 0 ≤ j < 1024 → 0 ≤ k < 1024 →
  wd (st32 m (q * PGSIZE + 4 * k) v) p j = if decide (p = q ∧ j = k) then v else wd m p j.
Proof.
  intros Hv Hj Hk. unfold wd, PGSIZE. case_decide as D.
  - destruct D as [-> ->]. apply ld32_st32_eq. assumption.
  - apply ld32_st32_ne. lia.
Qed.

Lemma wd_memset m q p j : 0 ≤ j < 1024 →
  wd (memset m (q * PGSIZE) 0 PGSIZE) p j = if decide (p = q) then 0 else wd m p j.
Proof.
  intros Hj. unfold wd. case_decide as D.
  - subst. unfold ld32, ld16. rewrite !memset_spec by (unfold PGSIZE; lia).
    unfold PGSIZE. repeat case_decide; try lia; reflexivity.
  - apply ld32_ext. intros i Hi. rewrite memset_spec by (unfold PGSIZE; lia).
    rewrite decide_False; [reflexivity|]. unfold PGSIZE. lia.
Qed.

Lemma wd_range m p j : u32_range (wd m p j).
Proof. apply ld32_range. Qed.

(** * Address spaces *)

(** The user part of an address space is below UTOP: [UPDX] directory entries
    and [UVPN] pages. *)
Definition UPDX : Z := 955.
Definition UVPN : Z := UPDX * 1024.

Lemma UPDX_eq : UPDX = PDX UTOP.
Proof. reflexivity. Qed.
Lemma UVPN_eq : UVPN = UTOP / PGSIZE.
Proof. reflexivity. Qed.

Definition frame_of (pte : Z) : Z := PGNUM (PTE_ADDR pte).

(** The page-table page of directory slot [i] of directory page [pd], the
    entry of virtual page [v], and the physical page it names. *)
Definition pt_of (m : mem) (pd i : Z) : option Z :=
  let pde := wd m pd i in if is_present pde then Some (frame_of pde) else None.
Definition pte_of (m : mem) (pd v : Z) : option Z :=
  match pt_of m pd (v / 1024) with
  | Some t => let pte := wd m t (v mod 1024) in if is_present pte then Some pte else None
  | None => None
  end.
Definition page_of (m : mem) (pd v : Z) : option Z := frame_of <$> pte_of m pd v.

Lemma pt_of_ext m m' pd i : wd m' pd i = wd m pd i → pt_of m' pd i = pt_of m pd i.
Proof. unfold pt_of. intros ->. reflexivity. Qed.

Definition user_va (va : Z) : Prop := 0 ≤ va < UTOP.
Definition kva_of (pd : Z) : Z := pd * PGSIZE + KERNBASE.

Lemma user_va_u32 va : user_va va → u32_range va.
Proof. unfold user_va, u32_range. intros H. assert (UTOP < 2 ^ 32) by reflexivity. lia. Qed.

Lemma user_va_idx va : user_va va →
  PDX va = va / PGSIZE / 1024 ∧ PTX va = (va / PGSIZE) mod 1024 ∧
  0 ≤ PDX va < UPDX ∧ 0 ≤ PTX va < 1024 ∧ 0 ≤ va / PGSIZE < UVPN.
Proof.
  intros H. pose proof (user_va_u32 _ H) as Hu. pose proof (PTX_range va).
  rewrite PDX_div, PTX_div in * by assumption. unfold user_va in H.
  change UTOP with (UVPN * 4096) in H. unfold PTSIZE, PGSIZE, NPTENTRIES, UVPN in *.
  rewrite <- Z.div_div by lia. Z.div_mod_to_equations. lia.
Qed.

Lemma frame_of_page p f : 0 ≤ p < 65536 → perm_ok f → frame_of (Z.lor (p * PGSIZE) f) = p.
Proof.
  intros Hp Hf. unfold frame_of. rewrite PTE_ADDR_lor; [apply PGNUM_page; assumption| |assumption].
  rewrite <- page2pa_eq by assumption. apply page2pa_ok. assumption.
Qed.

Lemma frame_of_addr pte : PTE_ADDR pte = frame_of pte * PGSIZE.
Proof.
  unfold frame_of. pose proof (PTE_ADDR_range pte) as Hr. pose proof (PTE_ADDR_aligned pte).
  rewrite PGNUM_div by assumption. unfold PGSIZE in *. pose proof (Z.div_mod (PTE_ADDR pte) 4096).
  lia.
Qed.

Lemma is_present_lor x : is_present (Z.lor x PTE_P) = true.
Proof. unfold is_present. rewrite land_lor_P. reflexivity. Qed.

Lemma pt_of_range m pd i t : pt_of m pd i = Some t → 0 ≤ t.
Proof.
  unfold pt_of. destruct (is_present _); [|discriminate]. intros [= <-].
  unfold frame_of. rewrite PGNUM_div by apply PTE_ADDR_range.
  pose proof (PTE_ADDR_range (wd m pd i)) as [? _]. apply Z.div_pos; unfold PGSIZE; lia.
Qed.

(** * Well-formed page tables *)

(** [pt_wf m R n]: the directories in [R] and their user page tables are
    distinct pages of memory, each page table belonging to one slot. *)
Record pt_wf (m : mem) (R : list Z) (n : Z) : Prop := {
  pw_root : ∀ pd, pd ∈ R → 0 ≤ pd < n;
  pw_pt : ∀ pd i t, pd ∈ R → 0 ≤ i < UPDX → pt_of m pd i = Some t → 0 ≤ t < n ∧ t ∉ R;
  pw_inj : ∀ pd i pd' i' t, pd ∈ R → pd' ∈ R → 0 ≤ i < UPDX → 0 ≤ i' < UPDX →
    pt_of m pd i = Some t → pt_of m pd' i' = Some t → pd = pd' ∧ i = i'
}.

(** [p] is a page table of some address space. *)
Definition is_pt (m : mem) (R : list Z) (p : Z) : Prop :=
  ∃ pd i, pd ∈ R ∧ 0 ≤ i < UPDX ∧ pt_of m pd i = Some p.

Lemma vpn_split v v' : v / 1024 = v' / 1024 → v mod 1024 = v' mod 1024 → v = v'.
Proof. intros. pose proof (Z.div_mod v 1024). pose proof (Z.div_mod v' 1024). lia. Qed.

Lemma vpn_idx v : 0 ≤ v < UVPN → 0 ≤ v / 1024 < UPDX ∧ 0 ≤ v mod 1024 < 1024.
Proof. unfold UVPN. intros. Z.div_mod_to_equations. lia. Qed.

Section store.
(** Storing one entry of the page table that serves virtual page [v]. *)
Context (m : mem) (R : list Z) (n : Z) (W : pt_wf m R n).
Context (pd v t e : Z) (Hpd : pd ∈ R) (Hv : 0 ≤ v < UVPN)
  (Ht : pt_of m pd (v / 1024) = Some t) (He : u32_range e).
Let m' := st32 m (t * PGSIZE + 4 * (v mod 1024)) e.

Lemma store_pt_of pd' i : pd' ∈ R → 0 ≤ i < UPDX → pt_of m' pd' i = pt_of m pd' i.
Proof.
  intros Hpd' Hi. pose proof (vpn_idx v Hv) as [? ?].
  destruct (pw_pt _ _ _ W pd (v / 1024) t) as [_ HtR]; auto.
  unfold pt_of, m'. rewrite wd_st32 by (unfold UPDX in *; auto; lia).
  rewrite decide_False; [reflexivity|]. intros [-> _]. contradiction.
Qed.

Lemma store_pte_of pd' v' : pd' ∈ R → 0 ≤ v' < UVPN →
  pte_of m' pd' v'
  = if decide (pd' = pd ∧ v' = v) then (if is_present e then Some e else None)
    else pte_of m pd' v'.
Proof.
  intros Hpd' Hv'. pose proof (vpn_idx v Hv) as [Hi Hj]. pose proof (vpn_idx v' Hv') as [Hi' Hj'].
  unfold pte_of. rewrite store_pt_of by assumption.
  destruct (pt_of m pd' (v' / 1024)) as [t'|] eqn:Et'.
  - unfold m'. rewrite wd_st32 by auto. case_decide as D.
    + destruct D as [-> Ej].
      destruct (pw_inj _ _ _ W pd' (v' / 1024) pd (v / 1024) t) as [-> Ei]; auto.
      rewrite decide_True by (split; [reflexivity|apply vpn_split; assumption]). reflexivity.
    + rewrite decide_False; [reflexivity|]. intros [-> ->]. apply D. split; congruence.
  - rewrite decide_False; [reflexivity|]. intros [-> ->]. congruence.
Qed.

Lemma store_pt_wf : pt_wf m' R n.
Proof.
  split.
  - apply (pw_root _ _ _ W).
  - intros pd' i t' Hp Hi. rewrite store_pt_of by assumption. apply (pw_pt _ _ _ W); assumption.
  - intros pd1 i1 pd2 i2 t' H1 H2 Hi1 Hi2. rewrite !store_pt_of by assumption.
    apply (pw_inj _ _ _ W); assumption.
Qed.
End store.

(** The directory entry for a new page table [t]. *)
Definition pde_for (t : Z) : Z := Z.lor (Z.lor (Z.lor (page2pa t) PTE_P) PTE_W) PTE_U.

Lemma pde_for_ok t : 0 ≤ t < 65536 →
  u32_range (pde_for t) ∧ is_present (pde_for t) = true ∧ frame_of (pde_for t) = t.
Proof.
  intros Ht. assert (pde_for t = Z.lor (t * PGSIZE) 7) as ->.
  { unfold pde_for. rewrite page2pa_eq by lia. rewrite <- !Z.lor_assoc. reflexivity. }
  assert (perm_ok 7) by (unfold perm_ok, PGSIZE; lia).
  split; [|split].
  - apply pte_range; [|assumption]. rewrite <- page2pa_eq by lia. apply page2pa_ok. lia.
  - change 7 with (Z.lor 6 PTE_P). rewrite Z.lor_assoc. apply is_present_lor.
  - apply frame_of_page; [lia|assumption].
Qed.

Section new_pt.
(** A fresh page [t] becomes the page table of an empty slot. *)
Context (m : mem) (R : list Z) (n : Z) (W : pt_wf m R n).
Context (pd i t : Z) (Hpd : pd ∈ R) (Hi : 0 ≤ i < UPDX) (Hnone : pt_of m pd i = None)
  (Ht : 0 ≤ t < n) (Hn : n ≤ 65536) (HtR : t ∉ R) (Htpt : ¬ is_pt m R t).
Let e := pde_for t.
Let m' := st32 (memset m (t * PGSIZE) 0 PGSIZE) (pd * PGSIZE + 4 * i) e.

Lemma new_pt_wd p j : 0 ≤ j < 1024 → 
  wd m' p j = if decide (p = pd ∧ j = i) then e else if decide (p = t) then 0 else wd m p j.
Proof.
  intros Hj. unfold m'. destruct (pde_for_ok t ltac:(lia)) as (? & _ & _).
  rewrite wd_st32 by (unfold UPDX in *; auto; lia). rewrite wd_memset by assumption.
  repeat case_decide; reflexivity.
Qed.

Lemma new_pt_of pd' i' : pd' ∈ R → 0 ≤ i' < UPDX →
  pt_of m' pd' i' = if decide (pd' = pd ∧ i' = i) then Some t else pt_of m pd' i'.
Proof.
  intros Hpd' Hi'. destruct (pde_for_ok t ltac:(lia)) as (_ & Ep & Ef). unfold pt_of.
  rewrite new_pt_wd by (unfold UPDX in *; lia). case_decide.
  - unfold e. rewrite Ep, Ef. reflexivity.
  - rewrite decide_False; [reflexivity|]. intros ->. contradiction.
Qed.

Lemma new_pte_of pd' v : pd' ∈ R → 0 ≤ v < UVPN → pte_of m' pd' v = pte_of m pd' v.
Proof.
  intros Hpd' Hv. pose proof (vpn_idx v Hv) as [Hi' Hj]. unfold pte_of.
  rewrite new_pt_of by assumption. case_decide as D.
  - destruct D as [-> ->]. rewrite Hnone. rewrite new_pt_wd by assumption.
    rewrite decide_False by (intros [-> _]; contradiction). rewrite decide_True by reflexivity.
    reflexivity.
  - destruct (pt_of m pd' (v / 1024)) as [t'|] eqn:Et; [|reflexivity].
    destruct (pw_pt _ _ _ W _ _ _ Hpd' Hi' Et) as [_ HR].
    rewrite new_pt_wd by assumption. rewrite decide_False by (intros [-> _]; contradiction).
    rewrite decide_False; [reflexivity|]. intros ->. apply Htpt. exists pd', (v / 1024). auto.
Qed.

Lemma new_pt_wf : pt_wf m' R n.
Proof.
  split.
  - apply (pw_root _ _ _ W).
  - intros pd' i' t' Hp Hi'. rewrite new_pt_of by assumption. case_decide.
    + intros [= <-]. auto.
    + apply (pw_pt _ _ _ W); assumption.
  - intros pd1 i1 pd2 i2 t' H1 H2 Hi1 Hi2. rewrite !new_pt_of by assumption.
    case_decide as D1; case_decide as D2; intros E1 E2.
    + destruct D1 as [-> ->], D2 as [-> ->]. auto.
    + exfalso. apply Htpt. exists pd2, i2. injection E1 as <-. auto.
    + exfalso. apply Htpt. exists pd1, i1. injection E2 as <-. auto.
    + eapply (pw_inj _ _ _ W); eassumption.
Qed.
End new_pt.

(** * Reference counts *)

Definition mapcount (m : mem) (R : list Z) (p : Z) : Z :=
  countb (λ c, bool_decide (page_of m c.1 c.2 = Some p)) (list_prod R (seqZ 0 UVPN)).
Definition ptcount (m : mem) (R : list Z) (p : Z) : Z :=
  countb (λ c, bool_decide (pt_of m c.1 c.2 = Some p)) (list_prod R (seqZ 0 UPDX)).
Definition rootcount (R : list Z) (p : Z) : Z := countb (λ q, bool_decide (q = p)) R.

(** How often page [p] is referred to: by user mappings, as a page table and
    as a page directory. *)
Definition refs (m : mem) (R : list Z) (p : Z) : Z :=
  mapcount m R p + ptcount m R p + rootcount R p.

Lemma elem_of_slots (R : list Z) n (c : Z * Z) : c ∈ list_prod R (seqZ 0 n) ↔ c.1 ∈ R ∧ 0 ≤ c.2 < n.
Proof. destruct c as [pd v]. rewrite elem_of_list_prod, elem_of_seqZ. simpl. intuition lia. Qed.

Lemma NoDup_slots (R : list Z) n : NoDup R → NoDup (list_prod R (seqZ 0 n)).
Proof. intros. apply NoDup_list_prod; [assumption|apply NoDup_seqZ]. Qed.

Lemma refs_nonneg m R p : 0 ≤ refs m R p.
Proof.
  unfold refs, mapcount, ptcount, rootcount.
  repeat match goal with |- context [countb ?f ?l] => 
    lazymatch goal with H : 0 ≤ countb f l |- _ => fail | _ => pose proof (countb_nonneg f l) end
  end. lia.
Qed.

Lemma refs_ext m m' R p :
  (∀ pd v, pd ∈ R → 0 ≤ v < UVPN → pte_of m' pd v = pte_of m pd v) →
  (∀ pd i, pd ∈ R → 0 ≤ i < UPDX → pt_of m' pd i = pt_of m pd i) →
  refs m' R p = refs m R p.
Proof.
  intros Hm Hp. unfold refs, mapcount, ptcount. f_equal. f_equal; apply countb_ext.
  - intros c Hc. apply elem_of_slots in Hc as [? ?]. unfold page_of. rewrite Hm by assumption.
    reflexivity.
  - intros c Hc. apply elem_of_slots in Hc as [? ?]. rewrite Hp by assumption. reflexivity.
Qed.

(** [refs_pos]: whatever is in use has a positive count. *)
Lemma mapcount_pos m R pd v p : pd ∈ R → 0 ≤ v < UVPN → page_of m pd v = Some p →
  1 ≤ mapcount m R p.
Proof.
  intros. apply countb_pos with (pd, v); [apply elem_of_slots; auto|].
  apply bool_decide_eq_true. assumption.
Qed.
Lemma ptcount_pos m R p : is_pt m R p → 1 ≤ ptcount m R p.
Proof.
  intros (pd & i & ? & ? & ?). apply countb_pos with (pd, i); [apply elem_of_slots; auto|].
  apply bool_decide_eq_true. assumption.
Qed.
Lemma rootcount_pos R p : p ∈ R → 1 ≤ rootcount R p.
Proof. intros. apply countb_pos with p; [assumption|]. apply bool_decide_eq_true. reflexivity. Qed.

(** The mappings of one address space are among those of all. *)
Lemma mapcount_one m R pd q : pd ∈ R → countb (λ v, bool_decide (page_of m pd v = Some q)) (seqZ 0 UVPN) ≤ mapcount m R q.
Proof.
  unfold mapcount. generalize (seqZ 0 UVPN). intros vs Hpd. induction R as [|a R IH]; [inversion Hpd|].
  cbn [list_prod]. rewrite countb_app. change (map (λ y, (a, y)) vs) with (pair a <$> vs). rewrite countb_fmap. cbn [fst snd].
  apply elem_of_cons in Hpd as [->|Hpd].
  - pose proof (countb_nonneg (λ c, bool_decide (page_of m c.1 c.2 = Some q)) (list_prod R vs)). lia.
  - pose proof (countb_nonneg (λ v, bool_decide (page_of m a v = Some q)) vs). specialize (IH Hpd). lia.
Qed.

Lemma refs_parts m R p :
  0 ≤ mapcount m R p ∧ 0 ≤ ptcount m R p ∧ 0 ≤ rootcount R p.
Proof. split; [|split]; apply countb_nonneg. Qed.

(** [b2z P]: one when [P] holds. *)
Abbreviation ind P := (Z.b2z (bool_decide P)).

Lemma refs_store m m' R pd v e p : NoDup R → pd ∈ R → 0 ≤ v < UVPN →
  (∀ pd' v', pd' ∈ R → 0 ≤ v' < UVPN →
    pte_of m' pd' v' = if decide (pd' = pd ∧ v' = v) then e else pte_of m pd' v') →
  (∀ pd' i, pd' ∈ R → 0 ≤ i < UPDX → pt_of m' pd' i = pt_of m pd' i) →
  refs m' R p = refs m R p - ind (page_of m pd v = Some p) + ind (frame_of <$> e = Some p).
Proof.
  intros HR Hpd Hv Hm Hp. unfold refs.
  replace (ptcount m' R p) with (ptcount m R p).
  2: { unfold ptcount. apply countb_ext. intros c Hc. apply elem_of_slots in Hc as [? ?].
       rewrite Hp by assumption. reflexivity. }
  assert (page_of m' pd v = frame_of <$> e) as Ee.
  { unfold page_of. rewrite Hm, decide_True by auto. reflexivity. }
  unfold mapcount.
  rewrite (countb_update (λ c, bool_decide (page_of m c.1 c.2 = Some p)) _ _ (pd, v)).
  - cbn [fst snd]. rewrite Ee. lia.
  - apply NoDup_slots. assumption.
  - apply elem_of_slots. auto.
  - intros [pd' v'] Hc Hne. apply elem_of_slots in Hc as [? ?]. cbn [fst snd] in *.
    unfold page_of. rewrite Hm by assumption. rewrite decide_False; [reflexivity|].
    intros [-> ->]. auto.
Qed.

Lemma refs_new_pt m m' R pd i t p : NoDup R → pd ∈ R → 0 ≤ i < UPDX → pt_of m pd i = None →
  (∀ pd' v', pd' ∈ R → 0 ≤ v' < UVPN → pte_of m' pd' v' = pte_of m pd' v') →
  (∀ pd' i', pd' ∈ R → 0 ≤ i' < UPDX →
    pt_of m' pd' i' = if decide (pd' = pd ∧ i' = i) then Some t else pt_of m pd' i') →
  refs m' R p = refs m R p + ind (p = t).
Proof.
  intros HR Hpd Hi Hn Hm Hp. unfold refs.
  replace (mapcount m' R p) with (mapcount m R p).
  2: { unfold mapcount, page_of. apply countb_ext. intros c Hc. apply elem_of_slots in Hc as [? ?].
       rewrite Hm by assumption. reflexivity. }
  unfold ptcount.
  rewrite (countb_update (λ c, bool_decide (pt_of m c.1 c.2 = Some p)) _ _ (pd, i)).
  - cbn [fst snd]. rewrite Hp, Hn, decide_True by auto.
    rewrite (bool_decide_eq_false_2 (None = Some p)) by discriminate. cbn [Z.b2z].
    rewrite (bool_decide_ext (Some t = Some p) (p = t)) by (split; congruence). lia.
  - apply NoDup_slots. assumption.
  - apply elem_of_slots. auto.
  - intros [pd' i'] Hc Hne. apply elem_of_slots in Hc as [? ?]. cbn [fst snd] in *.
    rewrite Hp by assumption. rewrite decide_False; [reflexivity|]. intros [-> ->]. auto.
Qed.

(** * The invariant of virtual memory *)

(** [vm_inv s l R x]: the free list is [l], the address spaces are those of
    the page directories in [R], their page tables are well formed, user
    mappings name pages of memory that are neither page tables nor
    directories, and every reference count covers the references there are:
    mappings, page tables, directories, and [x p] references to [p] held by
    other kernel code. *)
Record vm_inv (s : pm) (l R : list Z) (x : Z → Z) : Prop := {
  vm_pages : page_inv s l;
  vm_NoDup : NoDup R;
  vm_x : ∀ p, 0 ≤ x p;
  vm_wf : pt_wf (phys s) R (npages s);
  vm_data : ∀ pd v p, pd ∈ R → 0 ≤ v < UVPN → page_of (phys s) pd v = Some p →
    0 ≤ p < npages s ∧ p ∉ R ∧ ¬ is_pt (phys s) R p;
  vm_ref : ∀ p i, pages s !! p = Some i → refs (phys s) R p + x p ≤ pp_ref i
}.

Definition held (p : Z) (x : Z → Z) : Z → Z := λ q, x q + ind (q = p).

Section inv.
Implicit Types (s : pm) (l R : list Z) (x : Z → Z).

(** Free pages are not referred to: no use after free. *)
Lemma vm_free s l R x p : vm_inv s l R x → p ∈ l →
  refs (phys s) R p = 0 ∧ x p = 0.
Proof.
  intros H Hp. pose proof (vm_pages _ _ _ _ H) as Hi.
  destruct (page_inv_lookup _ _ p Hi (page_inv_free_bound _ _ _ Hi Hp)) as [i Ei].
  pose proof (pi_free _ _ Hi _ _ Hp Ei). pose proof (vm_ref _ _ _ _ H _ _ Ei).
  pose proof (refs_nonneg (phys s) R p). pose proof (vm_x _ _ _ _ H p). lia.
Qed.

Lemma vm_free_unused s l R x p : vm_inv s l R x → p ∈ l →
  p ∉ R ∧ ¬ is_pt (phys s) R p ∧
  ∀ pd v, pd ∈ R → 0 ≤ v < UVPN → page_of (phys s) pd v ≠ Some p.
Proof.
  intros H Hp. destruct (vm_free _ _ _ _ _ H Hp) as [E _]. unfold refs in E.
  pose proof (refs_parts (phys s) R p). split; [|split].
  - intros G. pose proof (rootcount_pos _ _ G). lia.
  - intros G. pose proof (ptcount_pos _ _ _ G). lia.
  - intros pd v Hpd Hv G. pose proof (mapcount_pos _ _ _ _ _ Hpd Hv G). lia.
Qed.

Lemma vm_npages s l R x : vm_inv s l R x → 0 < npages s ≤ 65536.
Proof. intros H. apply (pi_npages _ _ (vm_pages _ _ _ _ H)). Qed.

Lemma vm_pt_bound s l R x pd i t : vm_inv s l R x → pd ∈ R → 0 ≤ i < UPDX →
  pt_of (phys s) pd i = Some t → 0 ≤ t < npages s ∧ t ∉ R ∧ t ∉ l.
Proof.
  intros H Hpd Hi Ht. destruct (pw_pt _ _ _ (vm_wf _ _ _ _ H) _ _ _ Hpd Hi Ht).
  split; [assumption|]. split; [assumption|]. intros G.
  destruct (vm_free_unused _ _ _ _ _ H G) as (_ & F & _). apply F. exists pd, i. auto.
Qed.

Lemma vm_root_used s l R x pd : vm_inv s l R x → pd ∈ R → 0 ≤ pd < npages s ∧ pd ∉ l.
Proof.
  intros H Hpd. split; [apply (pw_root _ _ _ (vm_wf _ _ _ _ H)); assumption|].
  intros G. destruct (vm_free_unused _ _ _ _ _ H G) as (F & _). auto.
Qed.

Lemma vm_inv_ext s s' l R x : vm_inv s l R x → npages s' = npages s → pages s' = pages s →
  page_free_list s' = page_free_list s → phys s' = phys s → vm_inv s' l R x.
Proof.
  intros [] E1 E2 E3 E4. split; rewrite ?E1, ?E2, ?E4; auto.
  eapply page_inv_ext; eassumption.
Qed.

(** A caller takes a reference to a page in use. *)
Lemma vm_incr s l R x p i : vm_inv s l R x → p ∉ l → pages s !! p = Some i →
  pp_ref i < 65535 →
  vm_inv (with_pages (<[p := MkPageInfo (pp_link i) (w16 (pp_ref i + 1))]> (pages s)) s)
    l R (held p x).
Proof.
  intros H Hp Hi Hlt. pose proof (vm_pages _ _ _ _ H) as Hpi.
  pose proof (pi_ref _ _ Hpi _ _ Hi). destruct H as [_ ? Hx ? ? Hr].
  split; psimpl; auto.
  - apply page_inv_set_ref; auto. apply w16_range.
  - intros q. unfold held. specialize (Hx q). case_bool_decide; simpl; lia.
  - intros q j. rewrite lookup_insert. unfold held. case_decide as D.
    + subst q. intros [= <-]. psimpl. rewrite bool_decide_eq_true_2 by reflexivity.
      rewrite w16_id by lia. specialize (Hr _ _ Hi). simpl. lia.
    + intros Hj. rewrite bool_decide_eq_false_2 by congruence. specialize (Hr _ _ Hj). simpl. lia.
Qed.
End inv.

(** * pgdir_walk *)

Lemma kld32_wd p j s : kld32 (kva_of p + 4 * j) s = Ret (wd (phys s) p j) s.
Proof. unfold kld32, gets, wd, kva_of. do 2 f_equal. lia. Qed.
Lemma kst32_wd p j v s :
  kst32 (kva_of p + 4 * j) v s
  = Ret tt (with_phys (st32 (phys s) (p * PGSIZE + 4 * j) v) s).
Proof. unfold kst32, modify, kva_of. do 3 f_equal. lia. Qed.

Lemma KADDR_frame s e : 0 < npages s ≤ 65536 → 0 ≤ frame_of e < npages s →
  KADDR (PTE_ADDR e) s = Ret (kva_of (frame_of e)) s.
Proof. intros. rewrite frame_of_addr. apply KADDR_page; assumption. Qed.

Lemma walk_found s pd va c t : pt_of (phys s) pd (PDX va) = Some t →
  0 < npages s ≤ 65536 → 0 ≤ t < npages s →
  pgdir_walk (kva_of pd) va c s = Ret (Some (kva_of t + 4 * PTX va)) s.
Proof.
  unfold pt_of. intros Ht Hn Hb. unfold pgdir_walk. mstep kld32_wd.
  destruct (is_present (wd (phys s) pd (PDX va))); [|discriminate]. injection Ht as <-.
  mrun. mstep kld32_wd. mstep KADDR_frame. reflexivity.
Qed.

Lemma walk_missing s pd va : pt_of (phys s) pd (PDX va) = None →
  pgdir_walk (kva_of pd) va false s = Ret None s.
Proof.
  unfold pt_of. intros Ht. unfold pgdir_walk. mstep kld32_wd.
  destruct (is_present (wd (phys s) pd (PDX va))); [discriminate|]. reflexivity.
Qed.

Lemma walk_nomem s pd va : pt_of (phys s) pd (PDX va) = None → page_inv s [] →
  pgdir_walk (kva_of pd) va true s = Ret None s.
Proof.
  unfold pt_of. intros Ht Hi. unfold pgdir_walk. mstep kld32_wd.
  destruct (is_present (wd (phys s) pd (PDX va))); [discriminate|]. cbn [negb].
  mrun. mstep page_alloc_none. reflexivity.
Qed.

(** The state in which the fresh page table [t] serves slot [i] of [pd]. *)
Definition walk_state (pd i t : Z) (h : option Z) (s : pm) : pm :=
  with_phys (st32 (memset (phys s) (t * PGSIZE) 0 PGSIZE) (pd * PGSIZE + 4 * i) (pde_for t))
    (with_pages (<[t := MkPageInfo None 1]> (pages s)) (with_free_list h s)).

Lemma walk_head s pd va t lk : pt_of (phys s) pd (PDX va) = None → page_free_list s = Some t →
  pages s !! t = Some (MkPageInfo lk 0) → 0 ≤ t < npages s → npages s ≤ 65536 →
  pgdir_walk (kva_of pd) va true s
  = Ret (Some (kva_of t + 4 * PTX va)) (walk_state pd (PDX va) t lk s).
Proof.
  intros Ht Eh Hp Hb Hn. unfold pt_of in Ht. unfold pgdir_walk. mstep kld32_wd.
  destruct (is_present (wd (phys s) pd (PDX va))); [discriminate|]. cbn [negb].
  mrun. rewrite (bind_Ret _ _ _ _ _ (page_alloc_head 1 s t lk Eh Hp Hb Hn)).
  change (ctrue (Z.land 1 ALLOC_ZERO)) with true.
  erewrite bind_unfold. mrun. unfold alloc_state.
  erewrite bind_Ret by (apply incr_ref_eq; apply lookup_insert_eq). mrun.
  mstep kst32_wd. mrun. mstep kld32_wd.
  assert (wd (st32 (memset (phys s) (t * PGSIZE) 0 PGSIZE) (pd * PGSIZE + 4 * PDX va) (pde_for t))
    pd (PDX va) = pde_for t) as Ew.
  { unfold wd. apply ld32_st32_eq. apply (pde_for_ok t). lia. }
  psimpl. fold (pde_for t). rewrite Ew.
  assert (frame_of (pde_for t) = t) as Ef by (apply (pde_for_ok t); lia).
  erewrite bind_Ret by (apply KADDR_frame; psimpl; rewrite ?Ef; lia).
  mrun. rewrite Ef. unfold walk_state, mret, M_ret. f_equal.
  unfold with_phys, with_pages, with_free_list. psimpl. rewrite insert_insert_eq. reflexivity.
Qed.

Lemma walk_new s l pd va t : pt_of (phys s) pd (PDX va) = None → page_inv s (t :: l) →
  ∃ p, pages s !! t = Some p ∧
  pgdir_walk (kva_of pd) va true s
  = Ret (Some (kva_of t + 4 * PTX va)) (walk_state pd (PDX va) t (pp_link p) s).
Proof.
  intros Ht Hi. pose proof (page_inv_free_bound _ _ t Hi (list_elem_of_here _ _)) as Hb.
  destruct (page_inv_lookup _ _ _ Hi Hb) as [p Hp]. exists p. split; [assumption|].
  pose proof (pi_chain _ _ Hi) as Hc. apply chain_inv_cons in Hc as [Eh _].
  apply walk_head; [assumption|assumption| |assumption|apply (pi_npages _ _ Hi)].
  rewrite <- (pi_free _ _ Hi t p (list_elem_of_here _ _) Hp). destruct p. assumption.
Qed.

Section walk_inv.
Implicit Types (s : pm) (l R : list Z) (x : Z → Z).
Context s l R x t (H : vm_inv s (t :: l) R x) (pd va : Z) (Hpd : pd ∈ R) (Hva : user_va va)
  (Ht : pt_of (phys s) pd (PDX va) = None).

Lemma walk_new_facts : 0 ≤ PDX va < UPDX ∧ 0 ≤ t < npages s ∧ npages s ≤ 65536 ∧ t ∉ R ∧
  ¬ is_pt (phys s) R t.
Proof.
  destruct (user_va_idx va Hva) as (_ & _ & Hi & _).
  pose proof (vm_pages _ _ _ _ H) as Hp.
  pose proof (page_inv_free_bound _ _ t Hp (list_elem_of_here _ _)).
  pose proof (pi_npages _ _ Hp).
  destruct (vm_free_unused _ _ _ _ t H (list_elem_of_here _ _)) as (? & ? & _). 
  repeat split; try assumption; lia.
Qed.

Lemma walk_pt_of h pd' i : pd' ∈ R → 0 ≤ i < UPDX →
  pt_of (phys (walk_state pd (PDX va) t h s)) pd' i
  = if decide (pd' = pd ∧ i = PDX va) then Some t else pt_of (phys s) pd' i.
Proof. destruct walk_new_facts as (? & ? & ? & ? & ?). eapply new_pt_of; eauto. Qed.

Lemma walk_pte_of h pd' v : pd' ∈ R → 0 ≤ v < UVPN →
  pte_of (phys (walk_state pd (PDX va) t h s)) pd' v = pte_of (phys s) pd' v.
Proof.
  destruct walk_new_facts as (? & ? & ? & ? & ?).
  eapply new_pte_of; eauto. apply (vm_wf _ _ _ _ H).
Qed.

Lemma walk_is_pt h q : is_pt (phys (walk_state pd (PDX va) t h s)) R q ↔
  q = t ∨ is_pt (phys s) R q.
Proof.
  destruct walk_new_facts as (? & _). split.
  - intros (pd' & i & ? & ? & E). rewrite walk_pt_of in E by assumption.
    case_decide; [injection E as <-; auto|right; exists pd', i; auto].
  - intros [->|(pd' & i & ? & ? & E)].
    + exists pd, (PDX va). rewrite walk_pt_of, decide_True by auto. auto.
    + exists pd', i. rewrite walk_pt_of by assumption. rewrite decide_False; auto.
      intros [-> ->]. congruence.
Qed.

Lemma vm_walk_new p : pages s !! t = Some p →
  vm_inv (walk_state pd (PDX va) t (pp_link p) s) l R x.
Proof.
  intros Hp. destruct walk_new_facts as (Hi & Hb & Hn & HtR & Htp).
  pose proof (vm_pages _ _ _ _ H) as Hpi.
  split.
  - eapply page_inv_ext; [exact (page_inv_take s t l p Hpi Hp)|reflexivity..].
  - apply (vm_NoDup _ _ _ _ H).
  - apply (vm_x _ _ _ _ H).
  - unfold walk_state. psimpl. apply new_pt_wf; try assumption. apply (vm_wf _ _ _ _ H).
  - intros pd' v q Hpd' Hv. unfold page_of. rewrite walk_pte_of by assumption. intros E.
    destruct (vm_data _ _ _ _ H _ _ _ Hpd' Hv E) as (? & ? & ?).
    split; [assumption|]. split; [assumption|]. rewrite walk_is_pt. intros [->|]; [|contradiction].
    destruct (vm_free_unused _ _ _ _ t H (list_elem_of_here _ _)) as (_ & _ & F).
    eapply F; eassumption.
  - intros q j. unfold walk_state at 1. psimpl.
    rewrite (refs_new_pt (phys s) _ R pd (PDX va) t); try assumption;
      [|apply (vm_NoDup _ _ _ _ H)|apply walk_pte_of|apply walk_pt_of].
    rewrite lookup_insert. case_decide as D.
    + subst q. intros [= <-]. psimpl. rewrite bool_decide_eq_true_2 by reflexivity.
      destruct (vm_free _ _ _ _ _ H (list_elem_of_here _ _)) as [-> ->]. simpl. lia.
    + intros Hj. rewrite bool_decide_eq_false_2 by congruence.
      pose proof (vm_ref _ _ _ _ H _ _ Hj). simpl. lia.
Qed.
End walk_inv.

(** * page_lookup and page_remove *)

Lemma pte_of_va s pd va : user_va va →
  pte_of (phys s) pd (va / PGSIZE)
  = match pt_of (phys s) pd (PDX va) with
    | Some t => let pte := wd (phys s) t (PTX va) in if is_present pte then Some pte else None
    | None => None
    end.
Proof. intros H. destruct (user_va_idx va H) as (-> & -> & _). reflexivity. Qed.

Section remove.
Context (cur : option Z).
Implicit Types (s : pm) (l R : list Z) (x : Z → Z).

(** [page_lookup] reads the map. *)
Lemma vm_lookup s l R x pd va : vm_inv s l R x → pd ∈ R → user_va va →
  ∃ ppte, page_lookup (kva_of pd) va s = Ret (page_of (phys s) pd (va / PGSIZE), ppte) s ∧
    ppte = (λ t, kva_of t + 4 * PTX va) <$> pt_of (phys s) pd (PDX va).
Proof.
  intros H Hpd Hva. destruct (user_va_idx va Hva) as (_ & _ & Hi & Hj & Hv).
  pose proof (vm_npages _ _ _ _ H) as Hn. eexists. split; [|reflexivity].
  unfold page_lookup. pose proof (pte_of_va s pd va Hva) as Ep.
  destruct (pt_of (phys s) pd (PDX va)) as [t|] eqn:Et.
  - destruct (vm_pt_bound _ _ _ _ _ _ _ H Hpd Hi Et) as (Hb & _).
    mstep walk_found. mstep kld32_wd. cbv zeta in Ep.
    destruct (is_present (wd (phys s) t (PTX va))) eqn:Epr.
    + assert (page_of (phys s) pd (va / PGSIZE) = Some (frame_of (wd (phys s) t (PTX va)))) as Eg
        by (unfold page_of; rewrite Ep; reflexivity).
      destruct (vm_data _ _ _ _ H _ _ _ Hpd Hv Eg) as (Hg & _). rewrite Eg.
      rewrite frame_of_addr. erewrite bind_Ret by (apply pa2page_page; [lia|exact Hg]).
      reflexivity.
    + unfold page_of. rewrite Ep. reflexivity.
  - rewrite (bind_Ret _ _ _ _ _ (walk_missing _ _ _ Et)). unfold page_of. rewrite Ep. reflexivity.
Qed.

Definition tlb_state (pd va : Z) s : pm :=
  if match cur with None => true | Some q => q =? kva_of pd end
  then with_invlpgs (va :: invlpgs s) s else s.

(** The state after the mapping of [p] at [va], in page table [t], is undone. *)
Definition remove_state (pd va t p : Z) (i : PageInfo) s : pm :=
  tlb_state pd va
    (with_phys (st32 (phys s) (t * PGSIZE + 4 * PTX va) 0) (decref_state p i s)).

Lemma tlb_same pd va s : npages (tlb_state pd va s) = npages s ∧
  pages (tlb_state pd va s) = pages s ∧ page_free_list (tlb_state pd va s) = page_free_list s ∧
  phys (tlb_state pd va s) = phys s.
Proof. unfold tlb_state. destruct (match cur with None => _ | _ => _ end); auto. Qed.

Lemma tlb_invalidate_run pd va s : tlb_invalidate cur (kva_of pd) va s = Ret tt (tlb_state pd va s).
Proof. unfold tlb_invalidate, tlb_state. destruct cur as [q|]; [destruct (q =? kva_of pd)|]; reflexivity. Qed.

Lemma decref_phys p i s : phys (decref_state p i s) = phys s.
Proof. unfold decref_state. destruct (pp_ref i =? 1); reflexivity. Qed.
Lemma decref_npages p i s : npages (decref_state p i s) = npages s.
Proof. unfold decref_state. destruct (pp_ref i =? 1); reflexivity. Qed.

Lemma remove_phys pd va t p i s :
  phys (remove_state pd va t p i s) = st32 (phys s) (t * PGSIZE + 4 * PTX va) 0.
Proof. unfold remove_state. rewrite (proj2 (proj2 (proj2 (tlb_same _ _ _)))). reflexivity. Qed.
Lemma remove_pages pd va t p i s :
  pages (remove_state pd va t p i s) = pages (decref_state p i s) ∧
  page_free_list (remove_state pd va t p i s) = page_free_list (decref_state p i s) ∧
  npages (remove_state pd va t p i s) = npages s.
Proof.
  unfold remove_state. destruct (tlb_same pd va
    (with_phys (st32 (phys s) (t * PGSIZE + 4 * PTX va) 0) (decref_state p i s))) as (-> & -> & -> & _).
  psimpl. rewrite decref_npages. auto.
Qed.

Lemma decref_lookup p i s q j : pages s !! p = Some i → 1 ≤ pp_ref i < 2 ^ 16 →
  pages (decref_state p i s) !! q = Some j →
  ∃ j0, pages s !! q = Some j0 ∧ pp_ref j = pp_ref j0 - ind (p = q).
Proof.
  intros Hp Hr. unfold decref_state. destruct (Z.eqb_spec (pp_ref i) 1) as [E|E]; psimpl;
    rewrite lookup_insert; case_decide as D.
  1, 3: subst q; intros [= <-]; exists i; split; [assumption|];
    rewrite bool_decide_eq_true_2 by reflexivity; cbn [pp_ref Z.b2z]; first [lia | apply w16_id; lia].
  all: intros Hj; exists j; split; [assumption|]; rewrite bool_decide_eq_false_2 by assumption;
    simpl; lia.
Qed.

Context s l R x (H : vm_inv s l R x) (pd va : Z) (Hpd : pd ∈ R) (Hva : user_va va).

Lemma remove_none : page_of (phys s) pd (va / PGSIZE) = None →
  page_remove cur (kva_of pd) va s = Ret tt s.
Proof.
  intros Hn. destruct (vm_lookup s l R x pd va H Hpd Hva) as (ppte & E & _).
  rewrite Hn in E. unfold page_remove. rewrite (bind_Ret _ _ _ _ _ E). reflexivity.
Qed.

Context (p : Z) (Hp : page_of (phys s) pd (va / PGSIZE) = Some p).

Lemma remove_facts : ∃ t i e, pt_of (phys s) pd (PDX va) = Some t ∧ pages s !! p = Some i ∧
  pte_of (phys s) pd (va / PGSIZE) = Some e ∧ wd (phys s) t (PTX va) = e ∧ is_present e = true ∧
  0 ≤ p < npages s ∧ p ∉ l ∧ 1 ≤ pp_ref i < 2 ^ 16.
Proof.
  destruct (user_va_idx va Hva) as (_ & _ & Hi & Hj & Hv).
  destruct (vm_data _ _ _ _ H _ _ _ Hpd Hv Hp) as (Hb & _).
  destruct (page_inv_lookup _ _ p (vm_pages _ _ _ _ H) Hb) as [i Ei].
  pose proof Hp as G. unfold page_of in G. rewrite pte_of_va in * by assumption.
  destruct (pt_of (phys s) pd (PDX va)) as [t|]; [|discriminate]. cbv zeta in *.
  destruct (is_present (wd (phys s) t (PTX va))) eqn:Epr; [|discriminate].
  exists t, i, (wd (phys s) t (PTX va)).
  do 5 (split; [first [assumption|reflexivity]|]). split; [assumption|]. split.
  - intros F. destruct (vm_free_unused _ _ _ _ _ H F) as (_ & _ & F'). eapply F'; eassumption.
  - pose proof (mapcount_pos _ _ _ _ _ Hpd Hv Hp). pose proof (vm_ref _ _ _ _ H _ _ Ei).
    pose proof (vm_x _ _ _ _ H p). pose proof (refs_parts (phys s) R p). unfold refs in *.
    pose proof (pi_ref _ _ (vm_pages _ _ _ _ H) _ _ Ei). lia.
Qed.

Lemma remove_some t i : pt_of (phys s) pd (PDX va) = Some t → pages s !! p = Some i →
  page_remove cur (kva_of pd) va s = Ret tt (remove_state pd va t p i s).
Proof.
  intros Et Ei. destruct remove_facts as (t' & i' & e & Et' & Ei' & Ee & Ew & Epr & Hb & Hl & Hr).
  replace t' with t in * by congruence. replace i' with i in * by congruence.
  destruct (vm_lookup s l R x pd va H Hpd Hva) as (ppte & E & ->).
  rewrite Hp, Et in E. unfold page_remove. rewrite (bind_Ret _ _ _ _ _ E). cbn [fmap option_fmap option_map].
  mstep kld32_wd. rewrite Ew, Epr.
  destruct (page_decref_ok s l p i (vm_pages _ _ _ _ H) Hl Ei) as [Ed _].
  rewrite (bind_Ret _ _ _ _ _ Ed). mstep kst32_wd. rewrite tlb_invalidate_run, decref_phys.
  reflexivity.
Qed.

Lemma remove_pte_of t i pd' v : pt_of (phys s) pd (PDX va) = Some t → pd' ∈ R → 0 ≤ v < UVPN →
  pte_of (phys (remove_state pd va t p i s)) pd' v
  = if decide (pd' = pd ∧ v = va / PGSIZE) then None else pte_of (phys s) pd' v.
Proof.
  intros Et Hpd' Hv. destruct (user_va_idx va Hva) as (Ei & Ej & _ & _ & Hv0).
  rewrite remove_phys, Ej. rewrite Ei in Et.
  rewrite (store_pte_of (phys s) R (npages s) (vm_wf _ _ _ _ H) pd (va / PGSIZE)); auto.
  unfold u32_range. lia.
Qed.

Lemma remove_pt_of t i pd' k : pt_of (phys s) pd (PDX va) = Some t → pd' ∈ R → 0 ≤ k < UPDX →
  pt_of (phys (remove_state pd va t p i s)) pd' k = pt_of (phys s) pd' k.
Proof.
  intros Et Hpd' Hk. destruct (user_va_idx va Hva) as (Ei & Ej & _ & _ & Hv0).
  rewrite remove_phys, Ej. rewrite Ei in Et.
  apply (store_pt_of (phys s) R (npages s) (vm_wf _ _ _ _ H) pd (va / PGSIZE)); auto.
  unfold u32_range. lia.
Qed.

Lemma vm_remove t i : pt_of (phys s) pd (PDX va) = Some t → pages s !! p = Some i →
  vm_inv (remove_state pd va t p i s) (decref_list p i l) R x.
Proof.
  intros Et Ei. destruct remove_facts as (t' & i' & e & Et' & Ei' & Ee & Ew & Epr & Hb & Hl & Hr).
  replace i' with i in * by congruence. clear t' Et' Ew.
  destruct (user_va_idx va Hva) as (EI & Ej & HI & _ & Hv).
  destruct (page_decref_ok s l p i (vm_pages _ _ _ _ H) Hl Ei) as [_ Hd].
  destruct (remove_pages pd va t p i s) as (E1 & E2 & E3).
  assert (∀ q, is_pt (phys (remove_state pd va t p i s)) R q ↔ is_pt (phys s) R q) as Hpt.
  { intros q. unfold is_pt. split; intros (pd' & k & ? & ? & G); exists pd', k;
      rewrite remove_pt_of in * by assumption; auto. }
  split.
  - eapply page_inv_ext; [exact Hd|rewrite E3, decref_npages; reflexivity|assumption..].
  - apply (vm_NoDup _ _ _ _ H).
  - apply (vm_x _ _ _ _ H).
  - rewrite remove_phys, E3, Ej. rewrite EI in Et.
    apply (store_pt_wf (phys s) R (npages s) (vm_wf _ _ _ _ H) pd (va / PGSIZE)); auto.
    unfold u32_range. lia.
  - intros pd' v q Hpd' Hv'. unfold page_of. rewrite remove_pte_of by assumption.
    case_decide; [discriminate|]. rewrite E3, Hpt. apply (vm_data _ _ _ _ H); assumption.
  - intros q j Hj. rewrite E1 in Hj. destruct (decref_lookup p i s q j Ei Hr Hj) as (j0 & Hj0 & ->).
    rewrite (refs_store (phys s) _ R pd (va / PGSIZE) None); auto.
    + rewrite Hp. pose proof (vm_ref _ _ _ _ H _ _ Hj0).
      rewrite (bool_decide_ext (Some p = Some q) (p = q)) by (split; congruence).
      cbn [fmap option_fmap option_map].
      rewrite (bool_decide_eq_false_2 (None = Some q)) by discriminate. simpl. lia.
    + apply (vm_NoDup _ _ _ _ H).
    + intros. apply remove_pte_of; assumption.
    + intros. apply remove_pt_of; assumption.
Qed.
End remove.

(** * page_insert *)

(** [data_same m m' R l]: pages that are neither free nor page tables keep
    their contents; so do the kernel's entries of the directories, from slot
    [UPDX] on. *)
Definition data_same (m m' : mem) (R l : list Z) : Prop :=
  ∀ q j, 0 ≤ j < 1024 → q ∉ l → (q ∈ R → UPDX ≤ j) → ¬ is_pt m R q → wd m' q j = wd m q j.

(** The number of page tables, 1 or 0, that slot [i] of [pd] still needs. *)
Definition new_table (m : mem) (pd i : Z) : nat := if decide (pt_of m pd i = None) then 1 else 0.

Lemma new_table_le m pd i : (new_table m pd i ≤ 1)%nat.
Proof. unfold new_table. case_decide; lia. Qed.

(** [walked s l R x pd va t s1 l1]: a walk that creates the page table has
    left [s1] and the free list [l1], with [t] serving [va]; no mapping has
    changed. *)
Record walked (s : pm) (l R : list Z) (x : Z → Z) (pd va t : Z) (s1 : pm) (l1 : list Z) : Prop := {
  wk_inv : vm_inv s1 l1 R x;
  wk_npages : npages s1 = npages s;
  wk_pt : pt_of (phys s1) pd (PDX va) = Some t;
  wk_pte : ∀ pd' v, pd' ∈ R → 0 ≤ v < UVPN → pte_of (phys s1) pd' v = pte_of (phys s) pd' v;
  wk_is_pt : ∀ q, is_pt (phys s1) R q → q ∈ l ∨ is_pt (phys s) R q;
  wk_free : l1 ⊆ l;
  wk_pages : ∀ q, q ∉ l → pages s1 !! q = pages s !! q;
  wk_data : data_same (phys s) (phys s1) R l;
  wk_pde : ∀ pd' i, pd' ∈ R → 0 ≤ i < UPDX → wd (phys s1) pd' i
    = if decide (pd' = pd ∧ i = PDX va ∧ pt_of (phys s) pd i = None) then pde_for t else wd (phys s) pd' i;
  wk_room : (length l ≤ length l1 + new_table (phys s) pd (PDX va))%nat;
  wk_kern : kern_pgdir s1 = kern_pgdir s ∧ cr3 s1 = cr3 s
}.

Lemma data_same_free m m' R l : data_same m m' R [] → data_same m m' R l.
Proof. intros H q j Hj _. apply H; [assumption|]. apply not_elem_of_nil. Qed.

Section insert.
Context (cur : option Z).
Implicit Types (s : pm) (l R : list Z) (x : Z → Z).

Lemma walk_create s l R x pd va : vm_inv s l R x → pd ∈ R → user_va va →
  (pt_of (phys s) pd (PDX va) = None ∧ l = [] ∧ pgdir_walk (kva_of pd) va true s = Ret None s) ∨
  ∃ t s1 l1, pgdir_walk (kva_of pd) va true s = Ret (Some (kva_of t + 4 * PTX va)) s1 ∧
    walked s l R x pd va t s1 l1.
Proof.
  intros H Hpd Hva. destruct (user_va_idx va Hva) as (_ & _ & Hi & _).
  destruct (pt_of (phys s) pd (PDX va)) as [t|] eqn:Et.
  - right. exists t, s, l. destruct (vm_pt_bound _ _ _ _ _ _ _ H Hpd Hi Et) as (? & _).
    pose proof (vm_npages _ _ _ _ H). split; [apply walk_found; assumption|].
    split; auto.
    + intros q j _ _ _ _. reflexivity.
    + intros pd' i _ _. rewrite decide_False; [reflexivity|]. intros (_ & -> & F). congruence.
    + lia.
  - destruct l as [|t l].
    + left. split; [reflexivity|]. split; [reflexivity|].
      apply walk_nomem; [assumption|apply (vm_pages _ _ _ _ H)].
    + right. destruct (walk_new s l pd va t Et (vm_pages _ _ _ _ H)) as (p & Hp & E).
      exists t, (walk_state pd (PDX va) t (pp_link p) s), l. split; [assumption|].
      destruct (walk_new_facts s l R x t H va Hva) as (_ & Hb & Hn & _).
      split.
      * apply (vm_walk_new s l R x t H pd va Hpd Hva Et). assumption.
      * reflexivity.
      * rewrite (walk_pt_of s l R x t H pd va Hva) by assumption.
        apply decide_True. auto.
      * apply (walk_pte_of s l R x t H pd va Hpd Hva Et).
      * intros q. rewrite (walk_is_pt s l R x t H pd va Hpd Hva Et).
        intros [->|]; [left; apply list_elem_of_here|auto].
      * set_solver.
      * intros q Hq. apply lookup_insert_ne. intros ->. apply Hq, list_elem_of_here.
      * intros q j Hj Hq HR _. unfold walk_state. psimpl. rewrite (new_pt_wd _ (npages s)) by (assumption || lia).
        rewrite decide_False by (intros [-> ->]; specialize (HR Hpd); lia).
        rewrite decide_False; [reflexivity|]. intros ->. apply Hq, list_elem_of_here.
      * intros pd' i Hpd' Hi'. unfold walk_state. psimpl. rewrite (new_pt_wd _ (npages s)) by (assumption || unfold UPDX in *; lia).
        destruct (decide (pd' = pd ∧ i = PDX va)) as [[-> ->]|D]; [rewrite decide_True by auto; reflexivity|].
        rewrite !decide_False; [reflexivity|tauto|]. intros ->.
        apply (proj1 (vm_free_unused _ _ _ _ t H (list_elem_of_here _ _))), Hpd'.
      * unfold new_table. rewrite decide_True by exact Et. cbn. lia.
      * split; reflexivity.
Qed.

(** Storing an entry for a page the caller holds turns the held reference
    into the mapping. *)
Lemma vm_store s l R x pd va t pp e : vm_inv s l R (held pp x) → pd ∈ R → user_va va →
  (∀ p, 0 ≤ x p) → pt_of (phys s) pd (PDX va) = Some t →
  pte_of (phys s) pd (va / PGSIZE) = None →
  u32_range e → is_present e = true → frame_of e = pp →
  0 ≤ pp < npages s → pp ∉ R → ¬ is_pt (phys s) R pp →
  let s' := with_phys (st32 (phys s) (t * PGSIZE + 4 * PTX va) e) s in
  vm_inv s' l R x ∧
  ∀ pd' v, pd' ∈ R → 0 ≤ v < UVPN → pte_of (phys s') pd' v
    = if decide (pd' = pd ∧ v = va / PGSIZE) then Some e else pte_of (phys s) pd' v.
Proof.
  intros H Hpd Hva Hx Et Hnone He Hpr Hf Hb HpR Hpt s'.
  destruct (user_va_idx va Hva) as (EI & Ej & HI & _ & Hv). rewrite EI in Et.
  pose proof (vm_wf _ _ _ _ H) as W.
  assert (phys s' = st32 (phys s) (t * PGSIZE + 4 * ((va / PGSIZE) mod 1024)) e) as Em
    by (unfold s'; psimpl; rewrite Ej; reflexivity).
  assert (∀ pd' i, pd' ∈ R → 0 ≤ i < UPDX → pt_of (phys s') pd' i = pt_of (phys s) pd' i) as Hpts.
  { intros. rewrite Em. apply (store_pt_of _ R (npages s) W pd (va / PGSIZE)); auto. }
  assert (∀ pd' v, pd' ∈ R → 0 ≤ v < UVPN → pte_of (phys s') pd' v
    = if decide (pd' = pd ∧ v = va / PGSIZE) then Some e else pte_of (phys s) pd' v) as Hpte.
  { intros. rewrite Em. rewrite (store_pte_of _ R (npages s) W pd (va / PGSIZE)), Hpr; auto. }
  assert (∀ q, is_pt (phys s') R q ↔ is_pt (phys s) R q) as Hip.
  { intros q. unfold is_pt. split; intros (pd' & k & ? & ? & G); exists pd', k;
      rewrite Hpts in * by assumption; auto. }
  split; [|assumption]. split.
  - eapply page_inv_ext; [apply (vm_pages _ _ _ _ H)|reflexivity..].
  - apply (vm_NoDup _ _ _ _ H).
  - assumption.
  - rewrite Em. apply (store_pt_wf _ R (npages s) W pd (va / PGSIZE)); auto.
  - intros pd' v q Hpd' Hv'. unfold page_of. rewrite Hpte, Hip by assumption. case_decide.
    + cbn [fmap option_fmap option_map]. intros [= <-]. rewrite Hf. auto.
    + apply (vm_data _ _ _ _ H); assumption.
  - intros q j Hj. change (pages s') with (pages s) in Hj. pose proof (vm_ref _ _ _ _ H _ _ Hj) as G.
    rewrite (refs_store (phys s) _ R pd (va / PGSIZE) (Some e)); auto; [|apply (vm_NoDup _ _ _ _ H)].
    rewrite (bool_decide_eq_false_2 (page_of _ _ _ = Some q))
      by (unfold page_of; rewrite Hnone; discriminate).
    cbn [fmap option_fmap option_map]. rewrite Hf.
    unfold held in G. rewrite (bool_decide_ext (Some pp = Some q) (q = pp)) by (split; congruence).
    simpl. lia.
Qed.
End insert.

(** [cleared s l R x pd v s' l']: the mapping of page number [v] of [pd], if
    there was one, is gone, and nothing else has changed. *)
Record cleared (s : pm) (l R : list Z) (x : Z → Z) (pd v : Z) (s' : pm) (l' : list Z) : Prop := {
  cl_inv : vm_inv s' l' R x;
  cl_npages : npages s' = npages s;
  cl_pt : ∀ pd' i, pd' ∈ R → 0 ≤ i < UPDX → pt_of (phys s') pd' i = pt_of (phys s) pd' i;
  cl_pte : ∀ pd' v', pd' ∈ R → 0 ≤ v' < UVPN → pte_of (phys s') pd' v'
    = if decide (pd' = pd ∧ v' = v) then None else pte_of (phys s) pd' v';
  cl_free : l ⊆ l';
  cl_ref : ∀ q j', pages s' !! q = Some j' → ∃ j, pages s !! q = Some j ∧
    pp_ref j' = pp_ref j - ind (page_of (phys s) pd v = Some q);
  cl_zero : ∀ q j j', pages s !! q = Some j → pages s' !! q = Some j' →
    pp_ref j ≠ 0 → pp_ref j' = 0 → q ∈ l';
  cl_kern : kern_pgdir s' = kern_pgdir s ∧ cr3 s' = cr3 s;
  cl_data : data_same (phys s) (phys s') R [];
  cl_pde : ∀ pd' i, pd' ∈ R → 0 ≤ i < UPDX → wd (phys s') pd' i = wd (phys s) pd' i
}.

Lemma is_pt_ext m m' R q :
  (∀ pd i, pd ∈ R → 0 ≤ i < UPDX → pt_of m' pd i = pt_of m pd i) → is_pt m' R q ↔ is_pt m R q.
Proof.
  intros He. unfold is_pt. split; intros (pd & k & ? & ? & G); exists pd, k;
    rewrite He in * by assumption; auto.
Qed.

Lemma decref_list_sub p i l : l ⊆ decref_list p i l.
Proof. unfold decref_list. destruct (pp_ref i =? 1); set_solver. Qed.

Section insert_ops.
Context (cur : option Z).
Implicit Types (s : pm) (l R : list Z) (x : Z → Z).

Lemma remove_cleared s l R x pd va : vm_inv s l R x → pd ∈ R → user_va va →
  ∃ s' l', page_remove cur (kva_of pd) va s = Ret tt s' ∧ cleared s l R x pd (va / PGSIZE) s' l'.
Proof.
  intros H Hpd Hva. destruct (page_of (phys s) pd (va / PGSIZE)) as [p|] eqn:Hp.
  - destruct (remove_facts s l R x H pd va Hpd Hva p Hp) as (t & i & e & Et & Ei & Ee & Ew & Epr & Hb & Hl & Hr).
    exists (remove_state cur pd va t p i s), (decref_list p i l).
    split; [apply (remove_some cur s l R x H pd va Hpd Hva p Hp t i Et Ei)|].
    destruct (user_va_idx va Hva) as (EI & Ej & HI & HJ & Hv).
    destruct (remove_pages cur pd va t p i s) as (E1 & E2 & E3). split.
    + apply vm_remove; assumption.
    + assumption.
    + intros. eapply remove_pt_of; eassumption.
    + intros. eapply remove_pte_of; eassumption.
    + apply decref_list_sub.
    + intros q j'. rewrite E1. intros G.
      destruct (decref_lookup p i s q j' Ei Hr G) as (j & ? & ?). exists j. split; [assumption|].
      rewrite Hp, (bool_decide_ext (Some p = Some q) (p = q)) by (split; congruence). assumption.
    + intros q j j'. rewrite E1. unfold decref_state, decref_list.
      destruct (Z.eqb_spec (pp_ref i) 1) as [D|D]; psimpl; rewrite lookup_insert;
        case_decide as D'; intros Hj Hj' H1 H2; try (subst q; apply list_elem_of_here); try congruence.
      injection Hj' as <-. psimpl. rewrite w16_id in H2 by lia. lia.
    + unfold remove_state, tlb_state, decref_state.
      destruct (match cur with None => _ | _ => _ end), (pp_ref i =? 1); split; reflexivity.
    + intros q j Hj Hq HR Hpt. rewrite remove_phys, wd_st32 by (unfold u32_range; lia).
      rewrite decide_False; [reflexivity|]. intros [-> _]. apply Hpt. exists pd, (PDX va). auto.
    + intros pd' k Hpd' Hk. rewrite remove_phys, wd_st32 by (unfold u32_range, UPDX in *; lia).
      rewrite decide_False; [reflexivity|]. intros [-> _]. apply (pw_pt _ _ _ (vm_wf _ _ _ _ H) pd _ _ Hpd HI Et). assumption.
  - exists s, l. split; [eapply remove_none; eassumption|]. split; auto.
    + intros pd' v' Hpd' Hv'. case_decide as D; [|reflexivity]. destruct D as [-> ->].
      unfold page_of in Hp. destruct (pte_of _ _ _); [discriminate|reflexivity].
    + intros q j' G. exists j'. split; [assumption|]. rewrite Hp.
      rewrite bool_decide_eq_false_2 by discriminate. simpl. lia.
    + congruence.
    + intros q j _ _ _ _. reflexivity.
Qed.

(** The conditional removal inside [page_insert]. *)
Lemma remove_present s l R x pd va t : vm_inv s l R x → pd ∈ R → user_va va →
  pt_of (phys s) pd (PDX va) = Some t →
  ∃ s' l', when (is_present (wd (phys s) t (PTX va))) (page_remove cur (kva_of pd) va) s = Ret tt s'
    ∧ cleared s l R x pd (va / PGSIZE) s' l'.
Proof.
  intros H Hpd Hva Et. destruct (remove_cleared s l R x pd va H Hpd Hva) as (s' & l' & E & C).
  destruct (is_present (wd (phys s) t (PTX va))) eqn:Ep; [eauto|].
  assert (page_of (phys s) pd (va / PGSIZE) = None) as Hn.
  { unfold page_of. rewrite pte_of_va, Et by assumption. cbv zeta. rewrite Ep. reflexivity. }
  rewrite (remove_none cur s l R x H pd va Hpd Hva Hn) in E. injection E as <-. eauto.
Qed.

(** [inserted s l R pd v pp e s' l']: page number [v] of [pd] is now entry
    [e], naming [pp], every other user mapping of every address space is as it
    was, and the reference counts have moved by the mapping gained and the one
    lost. *)
Record inserted (s : pm) (l R : list Z) (x : Z → Z) (pd v pp e : Z) (s' : pm) (l' : list Z) : Prop := {
  in_inv : vm_inv s' l' R x;
  in_pte : ∀ pd' v', pd' ∈ R → 0 ≤ v' < UVPN → pte_of (phys s') pd' v'
    = if decide (pd' = pd ∧ v' = v) then Some e else pte_of (phys s) pd' v';
  in_ref : ∀ q j', q ∉ l → pages s' !! q = Some j' → ∃ j, pages s !! q = Some j ∧
    pp_ref j' = pp_ref j + ind (q = pp) - ind (page_of (phys s) pd v = Some q);
  in_data : data_same (phys s) (phys s') R l;
  in_is_pt : ∀ q, is_pt (phys s') R q → q ∈ l ∨ is_pt (phys s) R q;
  in_npages : npages s' = npages s;
  in_kern : kern_pgdir s' = kern_pgdir s ∧ cr3 s' = cr3 s;
  in_pde : ∀ pd' i, pd' ∈ R → 0 ≤ i < UPDX → wd (phys s') pd' i = wd (phys s) pd' i ∨
    pd' = pd ∧ i = v / 1024 ∧ pt_of (phys s) pd i = None ∧ ∃ t, 0 ≤ t < npages s ∧ wd (phys s') pd' i = pde_for t;
  in_room : (length l ≤ length l' + new_table (phys s) pd (v / 1024))%nat
}.

Lemma in_len s l R x pd v pp e s' l' : inserted s l R x pd v pp e s' l' → (length l ≤ S (length l'))%nat.
Proof. intros H. pose proof (in_room _ _ _ _ _ _ _ _ _ _ H). pose proof (new_table_le (phys s) pd (v / 1024)). lia. Qed.

(** A page that is neither free nor a page table nor a directory keeps its
    bytes. *)
Lemma data_kept m m' R l q : data_same m m' R l → q ∉ l → q ∉ R → ¬ is_pt m R q → ∀ b, b / PGSIZE = q → ld8 m' b = ld8 m b.
Proof. intros H Hl HR Hpt b <-. apply page_ld8. intros j Hj. apply H; [exact Hj|exact Hl| |exact Hpt]. intros F. contradiction. Qed.

Lemma mapped_data s l R x pd v q : vm_inv s l R x → pd ∈ R → 0 ≤ v < UVPN → page_of (phys s) pd v = Some q →
  q ∉ l ∧ q ∉ R ∧ ¬ is_pt (phys s) R q.
Proof.
  intros H Hpd Hv Hq. destruct (vm_data _ _ _ _ H pd v q Hpd Hv Hq) as (_ & ? & ?). split; [|auto].
  intros F. destruct (vm_free_unused _ _ _ _ q H F) as (_ & _ & N). exact (N pd v Hpd Hv Hq).
Qed.

Lemma inserted_page s l R x pd v pp e s' l' pd' v' q : vm_inv s l R x → inserted s l R x pd v pp e s' l' →
  pd' ∈ R → 0 ≤ v' < UVPN → page_of (phys s) pd' v' = Some q → (pd', v') ≠ (pd, v) ∨ frame_of e = q →
  page_of (phys s') pd' v' = Some q ∧ (∀ b, b / PGSIZE = q → ld8 (phys s') b = ld8 (phys s) b) ∧
  (∀ j', pages s' !! q = Some j' → ∃ j, pages s !! q = Some j ∧
    pp_ref j' = pp_ref j + ind (q = pp) - ind (page_of (phys s) pd v = Some q)).
Proof.
  intros H I Hpd' Hv' Hq Hor. destruct (mapped_data _ _ _ _ pd' v' q H Hpd' Hv' Hq) as (Hl & HR & Hpt). split; [|split].
  - unfold page_of in *. rewrite (in_pte _ _ _ _ _ _ _ _ _ _ I) by assumption. case_decide as D; [|exact Hq].
    destruct D as [-> ->]. destruct Hor as [F|<-]; [congruence|reflexivity].
  - apply (data_kept _ _ _ _ q (in_data _ _ _ _ _ _ _ _ _ _ I)); assumption.
  - intros j'. apply (in_ref _ _ _ _ _ _ _ _ _ _ I); assumption.
Qed.

Lemma held_in_use s l R x p : (∀ q, 0 ≤ x q) → vm_inv s l R (held p x) → p ∉ l.
Proof.
  intros Hx H F. destruct (vm_free _ _ _ _ _ H F) as [_ E]. specialize (Hx p).
  unfold held in E. rewrite bool_decide_eq_true_2 in E by reflexivity. simpl in E. lia.
Qed.

Lemma pte_entry pp perm : 0 ≤ pp < 65536 → perm_ok perm →
  let e := w32 (Z.lor (Z.lor (PTE_ADDR (page2pa pp)) perm) PTE_P) in
  e = Z.lor (pp * PGSIZE) (Z.lor perm PTE_P) ∧
  u32_range e ∧ is_present e = true ∧ frame_of e = pp.
Proof.
  intros Hpp Hperm e. assert (perm_ok PTE_P) by (unfold perm_ok, PTE_P, PGSIZE; lia).
  pose proof (page2pa_ok pp ltac:(lia)) as Hok. pose proof (lor_perm_range _ _ Hperm H).
  assert (e = Z.lor (pp * PGSIZE) (Z.lor perm PTE_P)) as ->.
  { unfold e. rewrite PTE_ADDR_id by assumption. rewrite <- Z.lor_assoc, w32_id by auto using pte_range.
    rewrite page2pa_eq by lia. reflexivity. }
  split; [reflexivity|]. split; [|split].
  - apply pte_range; [|assumption]. rewrite <- page2pa_eq by lia. assumption.
  - rewrite Z.lor_assoc. apply is_present_lor.
  - apply frame_of_page; assumption.
Qed.

(** What storing an entry in a page table leaves alone. *)
Lemma store_frame s l R x pd va t e : vm_inv s l R x → pd ∈ R → user_va va → pt_of (phys s) pd (PDX va) = Some t →
  u32_range e →
  let s' := with_phys (st32 (phys s) (t * PGSIZE + 4 * PTX va) e) s in
  (∀ q, is_pt (phys s') R q → is_pt (phys s) R q) ∧ data_same (phys s) (phys s') R [] ∧
  (∀ pd' k, pd' ∈ R → 0 ≤ k < UPDX → wd (phys s') pd' k = wd (phys s) pd' k).
Proof.
  intros H Hpd Hva Ht He s'. destruct (user_va_idx va Hva) as (EI & Ej & HI & _ & Hv).
  pose proof (PTX_range va) as Hx. destruct (vm_pt_bound _ _ _ _ _ _ _ H Hpd HI Ht) as (_ & HtR & _).
  unfold s'. split; [|split]; psimpl.
  - intros q (pd' & k & ? & ? & G). exists pd', k. split; [assumption|]. split; [assumption|].
    rewrite <- G. symmetry. rewrite Ej. rewrite EI in Ht.
    apply (store_pt_of _ R (npages s) (vm_wf _ _ _ _ H) pd (va / PGSIZE)); auto.
  - intros q j Hj _ _ Hq. rewrite wd_st32 by assumption. rewrite decide_False; [reflexivity|].
    intros [-> _]. apply Hq. exists pd, (PDX va). auto.
  - intros pd' k Hpd' Hk. rewrite wd_st32 by (assumption || (unfold UPDX in *; lia)).
    rewrite decide_False; [reflexivity|]. intros [-> _]. contradiction.
Qed.

Section inserting.
Context (s : pm) (l R : list Z) (x : Z → Z) (pd pp va e t : Z) (i : PageInfo) (s1 s3 : pm) (l1 l3 : list Z).
Let s2 := with_pages (<[pp := MkPageInfo (pp_link i) (w16 (pp_ref i + 1))]> (pages s1)) s1.
Let s4 := with_phys (st32 (phys s3) (t * PGSIZE + 4 * PTX va) e) s3.
Context (H : vm_inv s l R x) (Hpd : pd ∈ R) (Hva : user_va va) (Hi : pages s !! pp = Some i) (Hl : pp ∉ l)
  (HR : pp ∉ R) (Hpt : ¬ is_pt (phys s) R pp) (Href : pp_ref i < 65535)
  (He : u32_range e) (Hpr : is_present e = true) (Hf : frame_of e = pp)
  (W : walked s l R x pd va t s1 l1) (C : cleared s2 l1 R (held pp x) pd (va / PGSIZE) s3 l3).

Lemma inserting_pt : pt_of (phys s3) pd (PDX va) = Some t.
Proof using Hpd Hva C W.
  destruct (user_va_idx va Hva) as (_ & _ & HI & _). rewrite (cl_pt _ _ _ _ _ _ _ _ C) by assumption. exact (wk_pt _ _ _ _ _ _ _ _ _ W).
Qed.

Lemma inserting_inv : vm_inv s4 l3 R x ∧ ∀ pd' v, pd' ∈ R → 0 ≤ v < UVPN → pte_of (phys s4) pd' v
    = if decide (pd' = pd ∧ v = va / PGSIZE) then Some e else pte_of (phys s3) pd' v.
Proof using H Hpd Hva Hi HR Hpt Hl He Hpr Hf C W.
  destruct (user_va_idx va Hva) as (_ & _ & _ & _ & Hv).
  apply (vm_store s3 l3 R x pd va t pp e (cl_inv _ _ _ _ _ _ _ _ C) Hpd Hva (vm_x _ _ _ _ H) inserting_pt); try assumption.
  - rewrite (cl_pte _ _ _ _ _ _ _ _ C), decide_True by auto. reflexivity.
  - rewrite (cl_npages _ _ _ _ _ _ _ _ C). change (npages s2) with (npages s1). rewrite (wk_npages _ _ _ _ _ _ _ _ _ W).
    apply (pi_dom _ _ (vm_pages _ _ _ _ H)). eauto.
  - rewrite (is_pt_ext (phys s2) (phys s3) R pp (cl_pt _ _ _ _ _ _ _ _ C)). intros F.
    destruct (wk_is_pt _ _ _ _ _ _ _ _ _ W _ F); contradiction.
Qed.

Lemma inserting_ref q j' : q ∉ l → pages s3 !! q = Some j' → ∃ j, pages s !! q = Some j ∧
  pp_ref j' = pp_ref j + ind (q = pp) - ind (page_of (phys s) pd (va / PGSIZE) = Some q).
Proof using H Hpd Hva Hi Href C W.
  intros Hq Hj'. destruct (user_va_idx va Hva) as (_ & _ & _ & _ & Hv).
  destruct (cl_ref _ _ _ _ _ _ _ _ C q j' Hj') as (j2 & Hj2 & ->).
  unfold page_of in *. change (phys s2) with (phys s1). rewrite (wk_pte _ _ _ _ _ _ _ _ _ W) by assumption.
  unfold s2 in Hj2. psimpl. rewrite lookup_insert in Hj2. case_decide as D.
  - subst q. injection Hj2 as <-. exists i. split; [assumption|]. psimpl.
    pose proof (pi_ref _ _ (vm_pages _ _ _ _ H) _ _ Hi). rewrite w16_id, (bool_decide_eq_true_2 (pp = pp)) by (reflexivity || lia). simpl. lia.
  - exists j2. rewrite <- (wk_pages _ _ _ _ _ _ _ _ _ W) by assumption. split; [assumption|].
    rewrite (bool_decide_eq_false_2 (q = pp)) by congruence. simpl. lia.
Qed.

Lemma inserting_done : inserted s l R x pd (va / PGSIZE) pp e s4 l3.
Proof using H Hpd Hva Hi HR Hpt Hl Href He Hpr Hf C W.
  destruct (user_va_idx va Hva) as (EI0 & _ & HI & _ & Hv). destruct inserting_inv as [Hinv Hpte].
  destruct (store_frame s3 l3 R _ pd va t e (cl_inv _ _ _ _ _ _ _ _ C) Hpd Hva inserting_pt He) as (Sp & Sd & Sw). fold s4 in Sp, Sd, Sw.
  destruct W as [Hinv1 Hn1 Ht Hpte1 Hpt1 Hf1 Hpg1 Hd1 Hw1 Hlen1 [Hk1 Hc1]]. destruct C as [Hinv3 Hn3 Hpt3 Hpte3 Hf3 Hr3 _ [Hk3 Hc3] Hd3 Hw3].
  assert (∀ q, is_pt (phys s3) R q → is_pt (phys s1) R q) as Hp13 by (intros q; apply (is_pt_ext (phys s1) (phys s3) R q Hpt3)).
  split.
  - exact Hinv.
  - intros pd' v' ? ?. rewrite Hpte, Hpte3 by assumption. case_decide; [reflexivity|]. apply Hpte1; assumption.
  - exact inserting_ref.
  - intros q j Hj Hq HqR Hqpt. assert (¬ is_pt (phys s1) R q) as Hq1 by (intros F; destruct (Hpt1 _ F); contradiction).
    rewrite Sd by (auto using not_elem_of_nil). rewrite Hd3 by (assumption || apply not_elem_of_nil). apply Hd1; assumption.
  - intros q Hq. auto.
  - exact (eq_trans Hn3 Hn1).
  - split; [exact (eq_trans Hk3 Hk1)|exact (eq_trans Hc3 Hc1)].
  - intros pd' k Hpd' Hk. rewrite Sw, Hw3 by assumption. change (phys s2) with (phys s1). rewrite Hw1 by assumption.
    case_decide as D; [|left; reflexivity]. destruct D as (-> & -> & Dn).
    right. split; [reflexivity|]. split; [exact EI0|]. split; [assumption|]. exists t. split; [|reflexivity].
    rewrite <- Hn1. apply (vm_pt_bound _ _ _ _ _ _ _ Hinv1 Hpd HI Ht).
  - rewrite <- EI0. etransitivity; [exact Hlen1|]. apply Nat.add_le_mono_r.
    apply NoDup_incl_length; [apply NoDup_ListNoDup, (page_inv_NoDup _ _ (vm_pages _ _ _ _ Hinv1))|].
    intros q Hq. apply list_elem_of_In, Hf3, list_elem_of_In, Hq.
Qed.
End inserting.

Lemma insert_run s l R x pd pp va perm i : vm_inv s l R x → pd ∈ R → user_va va →
  pages s !! pp = Some i → pp ∉ l → pp ∉ R → ¬ is_pt (phys s) R pp → pp_ref i < 65535 →
  perm_ok perm →
  let e := Z.lor (pp * PGSIZE) (Z.lor perm PTE_P) in
  (pt_of (phys s) pd (PDX va) = None ∧ l = [] ∧
     page_insert cur (kva_of pd) pp va perm s = Ret (- E_NO_MEM) s) ∨
  ∃ s' l', page_insert cur (kva_of pd) pp va perm s = Ret 0 s' ∧
    inserted s l R x pd (va / PGSIZE) pp e s' l'.
Proof.
  intros H Hpd Hva Hi Hl HR Hpt Href Hperm e.
  assert (0 ≤ pp < npages s) as Hb by (apply (pi_dom _ _ (vm_pages _ _ _ _ H)); eauto).
  pose proof (vm_npages _ _ _ _ H) as Hn.
  destruct (pte_entry pp perm ltac:(lia) Hperm) as (Ee & He & Hpr & Hf). fold e in Ee. cbv zeta in *.
  destruct (walk_create s l R x pd va H Hpd Hva) as [(Et & -> & E)|(t & s1 & l1 & E & W)].
  { left. split; [assumption|]. split; [reflexivity|].
    unfold page_insert. rewrite (bind_Ret _ _ _ _ _ E). reflexivity. }
  right. assert (pp ∉ l1) as Hl1 by (pose proof (wk_free _ _ _ _ _ _ _ _ _ W); set_solver).
  assert (pages s1 !! pp = Some i) as Hi1 by (rewrite (wk_pages _ _ _ _ _ _ _ _ _ W); assumption).
  pose proof (vm_incr s1 l1 R x pp i (wk_inv _ _ _ _ _ _ _ _ _ W) Hl1 Hi1 Href) as Hinv2.
  destruct (remove_present _ l1 R _ pd va t Hinv2 Hpd Hva (wk_pt _ _ _ _ _ _ _ _ _ W)) as (s3 & l3 & E3 & C).
  rewrite Ee in *. exists (with_phys (st32 (phys s3) (t * PGSIZE + 4 * PTX va) e) s3), l3. split.
  - unfold page_insert. rewrite (bind_Ret _ _ _ _ _ E). cbv beta iota.
    rewrite (bind_Ret _ _ _ _ _ (incr_ref_eq _ _ _ Hi1)). mstep kld32_wd. psimpl. rewrite (bind_Ret _ _ _ _ _ E3).
    mstep kst32_wd. rewrite Ee. reflexivity.
  - apply (inserting_done s l R x pd pp va e t i s1 s3 l1 l3); assumption.
Qed.

(** What [page_insert] stores for any [perm]: nothing keeps its high bits out
    of the frame number. *)
Lemma insert_entry s l R x pd pp va perm i : vm_inv s l R x → pd ∈ R → user_va va →
  pages s !! pp = Some i → pp ∉ l → pp_ref i < 65535 → pt_of (phys s) pd (PDX va) ≠ None ∨ l ≠ [] →
  let e := w32 (Z.lor (Z.lor (PTE_ADDR (page2pa pp)) perm) PTE_P) in
  is_present e = true →
  ∃ s', page_insert cur (kva_of pd) pp va perm s = Ret 0 s' ∧ pte_of (phys s') pd (va / PGSIZE) = Some e.
Proof.
  intros H Hpd Hva Hi Hl Href Hroom e Hpr.
  destruct (user_va_idx va Hva) as (EI & EJ & HI & _ & Hv).
  destruct (walk_create s l R x pd va H Hpd Hva) as [(Et & -> & _)|(t & s1 & l1 & E & W)]; [tauto|].
  assert (pages s1 !! pp = Some i) as Hi1 by (rewrite (wk_pages _ _ _ _ _ _ _ _ _ W); assumption).
  pose proof (vm_incr s1 l1 R x pp i (wk_inv _ _ _ _ _ _ _ _ _ W)) as Hinv2.
  specialize (Hinv2 ltac:(pose proof (wk_free _ _ _ _ _ _ _ _ _ W); set_solver) Hi1 Href).
  set (s2 := with_pages _ s1) in Hinv2. pose proof (wk_pt _ _ _ _ _ _ _ _ _ W) as Ht.
  destruct (remove_present s2 l1 R _ pd va t Hinv2 Hpd Hva Ht) as (s3 & l3 & E3 & C).
  assert (pt_of (phys s3) pd (PDX va) = Some t) as Ht3 by (rewrite (cl_pt _ _ _ _ _ _ _ _ C); assumption).
  exists (with_phys (st32 (phys s3) (t * PGSIZE + 4 * PTX va) e) s3). split.
  - unfold page_insert. rewrite (bind_Ret _ _ _ _ _ E). cbv beta iota.
    rewrite (bind_Ret _ _ _ _ _ (incr_ref_eq _ _ _ Hi1)). fold s2.
    mstep kld32_wd. change (phys s2) with (phys s1) in *. rewrite (bind_Ret _ _ _ _ _ E3).
    mstep kst32_wd. reflexivity.
  - psimpl. rewrite EI in Ht3. rewrite EJ.
    rewrite (store_pte_of _ R (npages s3) (vm_wf _ _ _ _ (cl_inv _ _ _ _ _ _ _ _ C)) pd (va / PGSIZE));
      try assumption; [|apply w32_range].
    rewrite decide_True, Hpr by auto. reflexivity.
Qed.
End insert_ops.

(** * New address spaces *)

Section root.
Implicit Types (s : pm) (l R : list Z) (x : Z → Z).

Lemma empty_pte_of m pd v : (∀ i, 0 ≤ i < UPDX → pt_of m pd i = None) → 0 ≤ v < UVPN →
  pte_of m pd v = None.
Proof. intros He Hv. unfold pte_of. rewrite He by (apply vpn_idx; assumption). reflexivity. Qed.

Lemma countb_slots_cons (f : Z * Z → bool) pd R n : (∀ i, 0 ≤ i < n → f (pd, i) = false) →
  countb f (list_prod (pd :: R) (seqZ 0 n)) = countb f (list_prod R (seqZ 0 n)).
Proof.
  intros Hf. cbn [list_prod]. rewrite countb_app. rewrite (countb_zero f); [reflexivity|].
  intros c Hc. apply list_elem_of_fmap in Hc as (i & -> & Hi). apply elem_of_seqZ in Hi.
  apply Hf. lia.
Qed.

Lemma refs_cons m pd R p : (∀ i, 0 ≤ i < UPDX → pt_of m pd i = None) →
  refs m (pd :: R) p = refs m R p + ind (p = pd).
Proof.
  intros He. unfold refs, mapcount, ptcount. rewrite !countb_slots_cons.
  - unfold rootcount. cbn [countb]. rewrite (bool_decide_ext (pd = p) (p = pd)) by (split; congruence). lia.
  - intros i Hi. cbn [fst snd]. rewrite He by assumption. reflexivity.
  - intros v Hv. cbn [fst snd]. unfold page_of. rewrite empty_pte_of by assumption. reflexivity.
Qed.

(** A page directory without user page tables is a new, empty address space. *)
Lemma vm_add_root s l R x pd : vm_inv s l R (held pd x) → (∀ p, 0 ≤ x p) →
  0 ≤ pd < npages s → pd ∉ R → ¬ is_pt (phys s) R pd →
  (∀ pd' v, pd' ∈ R → 0 ≤ v < UVPN → page_of (phys s) pd' v ≠ Some pd) →
  (∀ i, 0 ≤ i < UPDX → pt_of (phys s) pd i = None) →
  vm_inv s l (pd :: R) x.
Proof.
  intros H Hx Hb HR Hpt Hmap He.
  assert (∀ q, is_pt (phys s) (pd :: R) q → is_pt (phys s) R q) as Hip.
  { intros q (pd' & i & Hin & Hi & E). apply elem_of_cons in Hin as [->|Hin].
    - rewrite He in E by assumption. discriminate.
    - exists pd', i. auto. }
  pose proof (vm_wf _ _ _ _ H) as W. split.
  - apply (vm_pages _ _ _ _ H).
  - constructor; [assumption|apply (vm_NoDup _ _ _ _ H)].
  - assumption.
  - split.
    + intros q Hq. apply elem_of_cons in Hq as [->|Hq]; [assumption|]. apply (pw_root _ _ _ W _ Hq).
    + intros pd' i t Hq Hi E. apply elem_of_cons in Hq as [->|Hq]; [rewrite He in E by assumption; discriminate|].
      destruct (pw_pt _ _ _ W _ _ _ Hq Hi E). split; [assumption|].
      apply not_elem_of_cons. split; [|assumption]. intros ->. apply Hpt. exists pd', i. auto.
    + intros p1 i1 p2 i2 t H1 H2 Hi1 Hi2 E1 E2.
      apply elem_of_cons in H1 as [->|H1]; [rewrite He in E1 by assumption; discriminate|].
      apply elem_of_cons in H2 as [->|H2]; [rewrite He in E2 by assumption; discriminate|].
      eapply (pw_inj _ _ _ W); eassumption.
  - intros pd' v p Hq Hv E. apply elem_of_cons in Hq as [->|Hq].
    + unfold page_of in E. rewrite empty_pte_of in E by assumption. discriminate.
    + destruct (vm_data _ _ _ _ H _ _ _ Hq Hv E) as (? & ? & G). split; [assumption|]. split.
      * apply not_elem_of_cons. split; [|assumption]. intros ->. eapply Hmap; eassumption.
      * intros F. apply G, Hip, F.
  - intros p i Hi. rewrite refs_cons by assumption. pose proof (vm_ref _ _ _ _ H _ _ Hi) as G.
    unfold held in G. lia.
Qed.

(** With no address space at all, the counts need only cover what is held. *)
Lemma vm_inv_start s l x : page_inv s l → (∀ p, 0 ≤ x p) →
  (∀ p i, pages s !! p = Some i → x p ≤ pp_ref i) → vm_inv s l [] x.
Proof.
  intros Hp Hx Hr. split; auto.
  - constructor.
  - split; intros *; intros H; inversion H.
  - intros * H. inversion H.
Qed.

Definition none_held : Z → Z := λ _, 0.
End root.

(** A machine of four pages: page 0 an empty directory, page 1 in use, pages
    3 and 2 free; and the state after page 1 is mapped at 0x802000. *)
Definition demo_vm : pm :=
  MkPm 4 4 (list_to_map [(0, MkPageInfo None 1); (1, MkPageInfo None 0);
    (2, MkPageInfo None 0); (3, MkPageInfo (Some 2) 0)])
    (Some 3) (KERNBASE + 4 * PGSIZE) 0 0 0 MMIOBASE ∅ 0 [] 0.
Definition demo_mapped : pm :=
  match page_insert None (kva_of 0) 1 0x802000 6 demo_vm with
  | Ret _ s => s
  | Stop _ s => s
  end.

Lemma demo_pt_of i : pt_of (phys demo_vm) 0 i = None.
Proof. reflexivity. Qed.

Lemma demo_vm_inv : vm_inv demo_vm [3; 2] [0] none_held.
Proof.
  apply vm_add_root.
  - apply vm_inv_start.
    + apply page_invb_sound. vm_compute. reflexivity.
    + intros p. unfold held, none_held. case_bool_decide; simpl; lia.
    + intros p i Hi. unfold held, none_held. case_bool_decide as D; simpl.
      * subst p. vm_compute in Hi. injection Hi as <-. simpl. lia.
      * assert (page_inv demo_vm [3; 2]) as Hp by (apply page_invb_sound; vm_compute; reflexivity).
        pose proof (pi_ref _ _ Hp _ _ Hi). lia.
  - intros p. unfold none_held. lia.
  - split; reflexivity || discriminate.
  - apply not_elem_of_nil.
  - intros (? & ? & F & _). inversion F.
  - intros ? ? F. inversion F.
  - intros. apply demo_pt_of.
Qed.

Lemma demo_not_pt q : ¬ is_pt (phys demo_vm) [0] q.
Proof.
  intros (pd & i & Hpd & _ & E). apply list_elem_of_singleton in Hpd as ->.
  rewrite demo_pt_of in E. discriminate.
Qed.

Lemma demo_in : (0 : Z) ∈ [0 : Z].
Proof. apply list_elem_of_here. Qed.
Lemma demo_page : pages demo_vm !! 1 = Some (MkPageInfo None 0).
Proof. vm_compute. reflexivity. Qed.
Lemma demo_not_free : (1 : Z) ∉ [3; 2] ∧ (1 : Z) ∉ [0 : Z].
Proof. split; decided. Qed.
Lemma demo_va : user_va 0x802000 ∧ user_va 0x803000 ∧ perm_ok 6 ∧ 0 < 65535.
Proof. repeat split; reflexivity || discriminate. Qed.

Lemma demo_mapped_inserted : page_insert None (kva_of 0) 1 0x802000 6 demo_vm = Ret 0 demo_mapped ∧
  ∃ l', inserted demo_vm [3; 2] [0] none_held 0 (0x802000 / PGSIZE) 1
  (Z.lor (1 * PGSIZE) (Z.lor 6 PTE_P)) demo_mapped l'.
Proof.
  destruct demo_not_free as [H1 H2], demo_va as (V & _ & Hp & Hr).
  destruct (insert_run None _ _ _ _ _ _ _ 6 _ demo_vm_inv demo_in V demo_page H1 H2
    (demo_not_pt 1) Hr Hp) as [(_ & F & _)|(s' & l' & E & I)].
  - discriminate F.
  - unfold demo_mapped. rewrite E. split; [reflexivity|]. exists l'. exact I.
Qed.

Lemma demo_mapped_inv : ∃ l', vm_inv demo_mapped l' [0] none_held.
Proof. destruct demo_mapped_inserted as [_ [l' I]]. exists l'. apply I. Qed.

(** * Properties *)

(** C4. [page_insert] is the update of one entry of one address space.  For a
    page that is in use, is not a page table or a directory, and has fewer
    than 65535 references, it either fails with E_NO_MEM because the slot has
    no page table and no page is free, changing nothing; or returns 0 in a
    state in which page number [va/PGSIZE] of [pd] has the new entry, every
    other user mapping of every address space is the old one, the counts have
    moved by exactly the reference gained and the one lost, data pages keep
    their contents, and the invariant holds again (so no mapped page is
    free). *)
Theorem page_insert_refines (cur : option Z) (s : pm) (l R : list Z) (x : Z → Z)
    (pd pp va perm : Z) (i : PageInfo) :
  vm_inv s l R x → pd ∈ R → user_va va → pages s !! pp = Some i → pp ∉ l → pp ∉ R →
  ¬ is_pt (phys s) R pp → pp_ref i < 65535 → perm_ok perm →
  let e := Z.lor (pp * PGSIZE) (Z.lor perm PTE_P) in
  (pt_of (phys s) pd (PDX va) = None ∧ l = [] ∧
     page_insert cur (kva_of pd) pp va perm s = Ret (- E_NO_MEM) s) ∨
  ∃ s' l', page_insert cur (kva_of pd) pp va perm s = Ret 0 s' ∧
    vm_inv s' l' R x ∧
    (∀ pd' v, pd' ∈ R → 0 ≤ v < UVPN → pte_of (phys s') pd' v
       = if decide (pd' = pd ∧ v = va / PGSIZE) then Some e else pte_of (phys s) pd' v) ∧
    (∀ q j', q ∉ l → pages s' !! q = Some j' → ∃ j, pages s !! q = Some j ∧
       pp_ref j' = pp_ref j + Z.b2z (bool_decide (q = pp))
         - Z.b2z (bool_decide (page_of (phys s) pd (va / PGSIZE) = Some q))) ∧
    data_same (phys s) (phys s') R l.
Proof.
  intros. destruct (insert_run cur s l R x pd pp va perm i) as [F|(s' & l' & E & [])];
    try assumption; [left; assumption|]. right. exists s', l'. auto.
Qed.

Lemma page_insert_refines_witness : ∃ s' l',
  page_insert None (kva_of 0) 1 0x803000 6 demo_vm = Ret 0 s' ∧ vm_inv s' l' [0] none_held.
Proof.
  destruct demo_not_free as [H1 H2], demo_va as (_ & V & Hp & Hr).
  destruct (page_insert_refines None _ _ _ _ _ _ _ 6 _ demo_vm_inv demo_in V demo_page H1 H2
    (demo_not_pt 1) Hr Hp) as [(_ & F & _)|(s' & l' & E & I & _)].
  - discriminate F.
  - exists s', l'. split; assumption.
Defined.

(** C5. [page_remove] is the deletion of one entry: it always returns, the
    invariant holds again, page number [va/PGSIZE] of [pd] is unmapped, every
    other user mapping of every address space is the old one, the page that
    was mapped loses one reference and no other page does, no free page
    ceases to be free, and data pages keep their contents. *)
Theorem page_remove_refines (cur : option Z) (s : pm) (l R : list Z) (x : Z → Z) (pd va : Z) :
  vm_inv s l R x → pd ∈ R → user_va va →
  ∃ s' l', page_remove cur (kva_of pd) va s = Ret tt s' ∧
    vm_inv s' l' R x ∧ l ⊆ l' ∧
    (∀ pd' v, pd' ∈ R → 0 ≤ v < UVPN → pte_of (phys s') pd' v
       = if decide (pd' = pd ∧ v = va / PGSIZE) then None else pte_of (phys s) pd' v) ∧
    (∀ q j', pages s' !! q = Some j' → ∃ j, pages s !! q = Some j ∧
       pp_ref j' = pp_ref j
         - Z.b2z (bool_decide (page_of (phys s) pd (va / PGSIZE) = Some q))) ∧
    data_same (phys s) (phys s') R l.
Proof.
  intros H Hpd Hva. destruct (remove_cleared cur s l R x pd va H Hpd Hva) as (s' & l' & E & []).
  exists s', l'. do 5 (split; [assumption|]). apply data_same_free. assumption.
Qed.

Lemma page_remove_refines_witness : ∃ s' l',
  page_remove None (kva_of 0) 0x802000 demo_mapped = Ret tt s' ∧ vm_inv s' l' [0] none_held ∧
  page_of (phys demo_mapped) 0 (0x802000 / PGSIZE) = Some 1 ∧
  pte_of (phys s') 0 (0x802000 / PGSIZE) = None.
Proof.
  destruct demo_mapped_inv as [l0 H].
  destruct (page_remove_refines None demo_mapped l0 [0] none_held 0 0x802000 H)
    as (s' & l' & E & I & _ & Hp & _).
  - apply list_elem_of_here.
  - split; [discriminate|reflexivity].
  - exists s', l'. split; [assumption|]. split; [assumption|]. split; [vm_compute; reflexivity|].
    rewrite Hp; [reflexivity|apply list_elem_of_here|split; [discriminate|reflexivity]].
Defined.

(** [page_lookup] reads what [page_insert] wrote: after a successful
    insertion, looking [va'] up in [pd'] returns the inserted page when it is
    the same page of the same address space, and what it returned before
    otherwise; and after [page_remove] it returns NULL there. *)
Theorem page_lookup_insert_remove (cur : option Z) (s s1 s2 : pm) (l R : list Z) (x : Z → Z)
    (pd pp va perm pd' va' : Z) (i : PageInfo) :
  vm_inv s l R x → pd ∈ R → user_va va → pages s !! pp = Some i → pp ∉ l → pp ∉ R →
  ¬ is_pt (phys s) R pp → pp_ref i < 65535 → perm_ok perm →
  pd' ∈ R → user_va va' →
  page_insert cur (kva_of pd) pp va perm s = Ret 0 s1 →
  page_remove cur (kva_of pd) va s1 = Ret tt s2 →
  let same := bool_decide (pd' = pd ∧ va' / PGSIZE = va / PGSIZE) in
  ∃ r r0 r1 r2,
    page_lookup (kva_of pd') va' s = Ret (r, r0) s ∧
    page_lookup (kva_of pd') va' s1 = Ret (if same then Some pp else r, r1) s1 ∧
    page_lookup (kva_of pd') va' s2 = Ret (if same then None else r, r2) s2.
Proof.
  intros H Hpd Hva Hi Hl HR Hpt Href Hperm Hpd' Hva' E1 E2 same.
  destruct (insert_run cur s l R x pd pp va perm i) as [(_ & _ & F)|(s' & l1 & E & I)];
    try assumption; [rewrite F in E1; discriminate|]. cbv zeta in *.
  rewrite E in E1. injection E1 as ->.
  destruct (remove_cleared cur s1 l1 R x pd va (in_inv _ _ _ _ _ _ _ _ _ _ I) Hpd Hva)
    as (s' & l2 & E' & C). rewrite E' in E2. injection E2 as ->.
  destruct (user_va_idx va' Hva') as (_ & _ & _ & _ & Hv').
  destruct (vm_lookup s l R x pd' va' H Hpd' Hva') as (r0 & L0 & _).
  destruct (vm_lookup s1 l1 R x pd' va' (in_inv _ _ _ _ _ _ _ _ _ _ I) Hpd' Hva') as (r1 & L1 & _).
  destruct (vm_lookup s2 l2 R x pd' va' (cl_inv _ _ _ _ _ _ _ _ C) Hpd' Hva') as (r2 & L2 & _).
  eexists _, r0, r1, r2. split; [exact L0|]. rewrite L1, L2. unfold same, page_of.
  rewrite (cl_pte _ _ _ _ _ _ _ _ C), (in_pte _ _ _ _ _ _ _ _ _ _ I) by assumption.
  assert (0 ≤ pp < npages s) as Hb by (apply (pi_dom _ _ (vm_pages _ _ _ _ H)); eauto).
  pose proof (vm_npages _ _ _ _ H).
  destruct (pte_entry pp perm ltac:(lia) Hperm) as (Ee & _ & _ & Ef). cbv zeta in *.
  rewrite Ee in Ef. case_decide as D.
  - rewrite bool_decide_eq_true_2 by assumption. cbn [fmap option_fmap option_map]. rewrite Ef. auto.
  - rewrite bool_decide_eq_false_2 by assumption. auto.
Qed.

Lemma page_lookup_insert_remove_witness :
  ∃ s2 r r0 r1 r2, page_remove None (kva_of 0) 0x802000 demo_mapped = Ret tt s2 ∧
    page_lookup (kva_of 0) 0x802fff demo_vm = Ret (r, r0) demo_vm ∧
    page_lookup (kva_of 0) 0x802fff demo_mapped = Ret (Some 1, r1) demo_mapped ∧
    page_lookup (kva_of 0) 0x802fff s2 = Ret (None, r2) s2.
Proof.
  destruct demo_not_free as [H1 H2], demo_va as (V & _ & Hp & Hr).
  assert (user_va 0x802fff) as V' by (split; reflexivity || discriminate).
  destruct demo_mapped_inserted as [E1 [l1 I]].
  destruct (remove_cleared None demo_mapped l1 [0] none_held 0 0x802000
    (in_inv _ _ _ _ _ _ _ _ _ _ I) demo_in V) as (s2 & l2 & E2 & _).
  destruct (page_lookup_insert_remove None demo_vm demo_mapped s2 [3; 2] [0] none_held 0 1
    0x802000 6 0 0x802fff _ demo_vm_inv demo_in V demo_page H1 H2 (demo_not_pt 1) Hr Hp
    demo_in V' E1 E2) as (r & r0 & r1 & r2 & L0 & L1 & L2).
  exists s2, r, r0, r1, r2. split; [exact E2|]. split; [exact L0|]. split; [exact L1|exact L2].
Defined.
