(* ===== verification/UserMem.v ===== *)
(** user_mem_check of kern/pmap.c, the kernel's guard on pointers that come
    from user programs: what it accepts, the address it reports, and the
    ranges it lets through because its end address is computed modulo 2^32. *)
From S2P Require Import Prelude Mmu Mem Pages PageTable AddrSpace.

(** * One page *)

(** Page number [v] of [pd] lies below ULIM and is mapped with [perm]. *)
Definition user_ok (m : mem) (pd perm v : Z) : bool :=
  (v * PGSIZE <? ULIM) &&
  match pte_of m pd v with Some pte => Z.land pte perm =? perm | None => false end.

(** Every page table of directory [pd], the kernel's included, is a page of
    memory, so that KADDR accepts it. *)
Record walkable (s : pm) (pd : Z) : Prop := {
  wa_npages : 0 < npages s ≤ 65536;
  wa_pt : ∀ i t, 0 ≤ i < 1024 → pt_of (phys s) pd i = Some t → 0 ≤ t < npages s
}.

Lemma page_idx v : 0 ≤ v < 1048576 →
  u32_range (v * PGSIZE) ∧ PDX (v * PGSIZE) = v / 1024 ∧ PTX (v * PGSIZE) = v mod 1024.
Proof.
  intros Hv. assert (u32_range (v * PGSIZE)) as Hu by (unfold u32_range, PGSIZE; lia).
  split; [assumption|]. rewrite PDX_div, PTX_div by assumption.
  unfold PTSIZE, PGSIZE, NPTENTRIES. split; Z.div_mod_to_equations; lia.
Qed.

Section check.
Context (s : pm) (pd perm va : Z) (W : walkable s pd).

(** One iteration: go on when the page is fine, otherwise report it. *)
Lemma check_step fuel v e : 0 ≤ v < e → e < 1048576 →
  user_mem_check_loop (S fuel) (kva_of pd) (v * PGSIZE) (e * PGSIZE) va perm s
  = if user_ok (phys s) pd perm v
    then user_mem_check_loop fuel (kva_of pd) ((v + 1) * PGSIZE) (e * PGSIZE) va perm s
    else Ret (- E_FAULT) (with_check_addr (Z.max va (v * PGSIZE)) s).
Proof.
  intros Hv He. destruct (page_idx v ltac:(lia)) as (Hu & EI & EJ).
  assert (w32 (v * PGSIZE + PGSIZE) = (v + 1) * PGSIZE) as Ew.
  { rewrite w32_id; [lia|]. unfold u32_range, PGSIZE. lia. }
  assert ((if v * PGSIZE <? va then va else v * PGSIZE) = Z.max va (v * PGSIZE)) as Em
    by (zcases; lia).
  cbn [user_mem_check_loop]. replace (v * PGSIZE <? e * PGSIZE) with true
    by (symmetry; apply Z.ltb_lt; unfold PGSIZE; lia).
  rewrite Ew, Em, Z.geb_leb, Z.leb_antisym. unfold user_ok, pte_of. rewrite <- EI, <- EJ.
  pose proof (wa_npages _ _ W) as Hn. pose proof (PDX_range (v * PGSIZE)) as Hi.
  destruct (pt_of (phys s) pd (PDX (v * PGSIZE))) as [t|] eqn:Et.
  - rewrite (bind_Ret _ _ _ _ _ (walk_found s pd _ false t Et Hn (wa_pt _ _ W _ _ Hi Et))).
    mstep kld32_wd. rewrite bool_decide_eq_false_2 by discriminate. cbv zeta.
    destruct (v * PGSIZE <? ULIM), (is_present (wd (phys s) t (PTX (v * PGSIZE)))); cbn [negb orb andb];
      try reflexivity.
    destruct (Z.land (wd (phys s) t (PTX (v * PGSIZE))) perm =? perm); reflexivity.
  - rewrite (bind_Ret _ _ _ _ _ (walk_missing s pd _ Et)). cbv beta iota. mrun.
    rewrite bool_decide_eq_true_2 by reflexivity. rewrite orb_true_r. cbn [orb].
    rewrite andb_false_r. reflexivity.
Qed.

(** Enough fuel for the pages there are: the loop finds the first bad one. *)
Lemma check_loop n : ∀ fuel v, (n ≤ fuel)%nat → 0 ≤ v → v + Z.of_nat n < 1048576 →
  user_mem_check_loop fuel (kva_of pd) (v * PGSIZE) ((v + Z.of_nat n) * PGSIZE) va perm s
    = Ret 0 s ∧ (∀ u, v ≤ u < v + Z.of_nat n → user_ok (phys s) pd perm u = true) ∨
  ∃ u, v ≤ u < v + Z.of_nat n ∧ user_ok (phys s) pd perm u = false ∧
    (∀ u', v ≤ u' < u → user_ok (phys s) pd perm u' = true) ∧
    user_mem_check_loop fuel (kva_of pd) (v * PGSIZE) ((v + Z.of_nat n) * PGSIZE) va perm s
      = Ret (- E_FAULT) (with_check_addr (Z.max va (u * PGSIZE)) s).
Proof.
  induction n as [|n IH]; intros fuel v Hf Hv Hn.
  - left. split; [|intros; lia]. destruct fuel; cbn [user_mem_check_loop];
      replace (v * PGSIZE <? (v + Z.of_nat 0) * PGSIZE) with false
        by (symmetry; apply Z.ltb_ge; unfold PGSIZE; lia); reflexivity.
  - destruct fuel as [|fuel]; [lia|]. rewrite check_step by lia.
    destruct (user_ok (phys s) pd perm v) eqn:Eo.
    + replace (v + Z.of_nat (S n)) with (v + 1 + Z.of_nat n) by lia.
      destruct (IH fuel (v + 1)) as [[E Ha]|(u & Hu & Hb & Ha & E)]; try lia.
      * left. split; [exact E|]. intros u Hu. destruct (Z.eq_dec u v) as [->|]; [assumption|].
        apply Ha. lia.
      * right. exists u. split; [lia|]. split; [assumption|]. split; [|exact E].
        intros u' Hu'. destruct (Z.eq_dec u' v) as [->|]; [assumption|]. apply Ha. lia.
    + right. exists v. split; [lia|]. split; [assumption|]. split; [intros; lia|reflexivity].
Qed.
End check.

Lemma ROUNDDOWN_page a : u32_range a → ROUNDDOWN a PGSIZE = a / PGSIZE * PGSIZE.
Proof.
  intros. unfold ROUNDDOWN. rewrite w32_id by assumption. unfold PGSIZE.
  pose proof (Z.div_mod a 4096). lia.
Qed.

Lemma ROUNDUP_page a : u32_range a → a + PGSIZE - 1 < 2 ^ 32 →
  ROUNDUP a PGSIZE = (a + PGSIZE - 1) / PGSIZE * PGSIZE.
Proof.
  intros H1 H2. unfold ROUNDUP. rewrite (w32_id a) by assumption.
  unfold u32_range, PGSIZE in *. rewrite w32_id, ROUNDDOWN_page by (unfold u32_range; lia).
  reflexivity.
Qed.

(** A one-byte check looks at one page. *)
Lemma user_mem_check_one s pd va perm : walkable s pd → 0 ≤ va < 2 ^ 32 - PGSIZE →
  user_mem_check (kva_of pd) va 1 perm s
  = if user_ok (phys s) pd perm (va / PGSIZE) then Ret 0 s else Ret (- E_FAULT) (with_check_addr va s).
Proof.
  intros W Hva. unfold user_mem_check.
  rewrite ROUNDDOWN_page by (unfold u32_range, PGSIZE in *; lia).
  rewrite w32_id by (unfold u32_range, PGSIZE in *; lia).
  rewrite ROUNDUP_page by (unfold u32_range, PGSIZE in *; lia).
  replace ((va + 1 + PGSIZE - 1) / PGSIZE) with (va / PGSIZE + Z.of_nat 1)
    by (unfold PGSIZE; Z.div_mod_to_equations; lia).
  destruct (check_loop s pd perm va W 1 (Z.to_nat 0x100000) (va / PGSIZE))
    as [[E Ha]|(u & Hu & Hb & _ & E)]; try (unfold PGSIZE in *; Z.div_mod_to_equations; lia).
  - rewrite E, Ha by lia. reflexivity.
  - replace u with (va / PGSIZE) in * by lia. rewrite E, Hb. do 2 f_equal.
    unfold PGSIZE. Z.div_mod_to_equations. lia.
Qed.

(** The pages that a check looks at: from that of [va] to the end of the range
    rounded up, computed modulo 2^32. *)
Definition checked (va len v : Z) : Prop := va / PGSIZE ≤ v < ROUNDUP (w32 (va + len)) PGSIZE / PGSIZE.

(** They are looked at in order, up to the first bad one. *)
Lemma check_range s pd va len perm : walkable s pd → u32_range va →
  user_mem_check (kva_of pd) va len perm s = Ret 0 s ∧ (∀ v, checked va len v → user_ok (phys s) pd perm v = true) ∨
  ∃ v, checked va len v ∧ user_ok (phys s) pd perm v = false ∧ (∀ u, va / PGSIZE ≤ u < v → user_ok (phys s) pd perm u = true) ∧
    user_mem_check (kva_of pd) va len perm s = Ret (- E_FAULT) (with_check_addr (Z.max va (v * PGSIZE)) s).
Proof.
  intros W Hva. unfold user_mem_check, checked. rewrite ROUNDDOWN_page by assumption.
  unfold ROUNDUP. rewrite (w32_id (w32 _)), ROUNDDOWN_page by apply w32_range. rewrite Z.div_mul by discriminate.
  set (v := va / PGSIZE). set (e := w32 _ / PGSIZE).
  assert (0 ≤ v ∧ 0 ≤ e < 1048576) as [Hv He]
    by (unfold v, e, u32_range, w32, PGSIZE in *; Z.div_mod_to_equations; lia).
  destruct (Z_lt_le_dec v e) as [Hlt|Hge].
  - destruct (check_loop s pd perm va W (Z.to_nat (e - v)) (Z.to_nat 0x100000) v)
      as [[E Ha]|(u & Hu & Hbad & Ha & E)]; try lia;
      replace (v + Z.of_nat (Z.to_nat (e - v))) with e in * by lia; eauto 10.
  - left. assert (e * PGSIZE ≤ v * PGSIZE) as Hle by (unfold PGSIZE; lia). apply Z.ltb_ge in Hle.
    split; [|intros; lia]. destruct (Z.to_nat 0x100000); cbn [user_mem_check_loop]; rewrite Hle; reflexivity.
Qed.

(** The check always gives an answer, for any range. *)
Lemma user_mem_check_total s pd va len perm : walkable s pd → u32_range va →
  user_mem_check (kva_of pd) va len perm s = Ret 0 s ∨
  ∃ a, user_mem_check (kva_of pd) va len perm s = Ret (- E_FAULT) (with_check_addr a s).
Proof. intros W Hva. destruct (check_range s pd va len perm W Hva) as [[E _]|(v & _ & _ & _ & E)]; eauto. Qed.

(** A range with a page that fails it. *)
Lemma user_mem_check_fails s pd va len perm v : walkable s pd → u32_range va → checked va len v → user_ok (phys s) pd perm v = false →
  ∃ b, user_mem_check (kva_of pd) va len perm s = Ret (- E_FAULT) (with_check_addr b s).
Proof.
  intros W Hva Hv Hbad. destruct (check_range s pd va len perm W Hva) as [[_ Hok]|(u & _ & _ & _ & E)]; [|eauto].
  rewrite Hok in Hbad; [discriminate|exact Hv].
Qed.

(** A range that ends before the last page: the pages of its bytes. *)
Lemma checked_bytes va len v : u32_range va → 0 ≤ len → va + len ≤ 2 ^ 32 - PGSIZE →
  (∃ a, va ≤ a < va + len ∧ a / PGSIZE = v) → checked va len v.
Proof.
  intros Hva Hlen Hend (a & Ha & <-). unfold checked. rewrite w32_id by (unfold u32_range, PGSIZE in *; lia).
  rewrite ROUNDUP_page, Z.div_mul by (discriminate || (unfold u32_range, PGSIZE in *; lia)).
  unfold PGSIZE. Z.div_mod_to_equations. lia.
Qed.

Lemma checked_byte va len v : u32_range va → 0 ≤ len → va + len ≤ 2 ^ 32 - PGSIZE → checked va len v →
  va ≤ Z.max va (v * PGSIZE) < va + Z.max 1 len ∧ Z.max va (v * PGSIZE) / PGSIZE = v.
Proof.
  intros Hva Hlen Hend. unfold checked. rewrite w32_id by (unfold u32_range, PGSIZE in *; lia).
  rewrite ROUNDUP_page, Z.div_mul by (discriminate || (unfold u32_range, PGSIZE in *; lia)).
  unfold PGSIZE. Z.div_mod_to_equations. lia.
Qed.

(** A range that goes past it, but not all the way round: no page. *)
Lemma checked_wrapped va len v : u32_range va → u32_range len → 2 ^ 32 - PGSIZE < va + len → len + va mod PGSIZE ≤ 2 ^ 32 →
  ¬ checked va len v.
Proof.
  intros Hva Hlen H1 H2. unfold checked, ROUNDUP. rewrite (w32_id (w32 _)), ROUNDDOWN_page, Z.div_mul by (discriminate || apply w32_range).
  unfold w32, u32_range, PGSIZE in *. Z.div_mod_to_equations. lia.
Qed.

(** * Properties *)


(** In [demo_mapped] the page at 0x802000 is user-writable and the next page
    is not mapped. *)
Lemma demo_walkable : walkable demo_mapped 0.
Proof.
  destruct demo_mapped_inv as [l' H]. split; [apply (vm_npages _ _ _ _ H)|].
  intros i t Hi Ht. destruct (Z_lt_le_dec i UPDX).
  - eapply (vm_pt_bound _ _ _ _ _ _ _ H demo_in); [|exact Ht]. lia.
  - exfalso. revert Ht. assert (forallb (λ j, bool_decide (pt_of (phys demo_mapped) 0 j = None))
      (seqZ UPDX (1024 - UPDX)) = true) as Hf by (vm_compute; reflexivity).
    rewrite forallb_forall in Hf. specialize (Hf i). rewrite <- list_elem_of_In in Hf.
    rewrite elem_of_seqZ in Hf. specialize (Hf ltac:(lia)). apply bool_decide_eq_true in Hf.
    rewrite Hf. discriminate.
Qed.

