(* ===== verification/Console.v ===== *)
(** The console: kern/console.c (serial port, parallel port, CGA display,
    keyboard, input ring buffer) and the interrupt mask of kern/picirq.c.
    The devices' side is part of the state: the bytes waiting in the keyboard
    controller and in the serial port, and the log of port writes. *)
From S2P Require Import Prelude Mmu.

(** * inc/kbdreg.h, kern/console.h, kern/picirq.h *)

Definition KEY_HOME : Z := 0xE0.
Definition KEY_END : Z := 0xE1.
Definition KEY_UP : Z := 0xE2.
Definition KEY_DN : Z := 0xE3.
Definition KEY_LF : Z := 0xE4.
Definition KEY_RT : Z := 0xE5.
Definition KEY_PGUP : Z := 0xE6.
Definition KEY_PGDN : Z := 0xE7.
Definition KEY_INS : Z := 0xE8.
Definition KEY_DEL : Z := 0xE9.

Definition MONO_BASE : Z := 0x3B4.
Definition MONO_BUF : Z := 0xB0000.
Definition CGA_BASE : Z := 0x3D4.
Definition CGA_BUF : Z := 0xB8000.
Definition CRT_ROWS : Z := 25.
Definition CRT_COLS : Z := 80.
Definition CRT_SIZE : Z := CRT_ROWS * CRT_COLS.

Definition IO_PIC1 : Z := 0x20.
Definition IO_PIC2 : Z := 0xA0.
Definition IRQ_SLAVE : Z := 2.

Definition COM1 : Z := 0x3F8.
Definition COM_RX : Z := 0.
Definition COM_TX : Z := 0.
Definition COM_DLL : Z := 0.
Definition COM_DLM : Z := 1.
Definition COM_IER : Z := 1.
Definition COM_IER_RDI : Z := 0x01.
Definition COM_FCR : Z := 2.
Definition COM_LCR : Z := 3.
Definition COM_LCR_DLAB : Z := 0x80.
Definition COM_LCR_WLEN8 : Z := 0x03.
Definition COM_MCR : Z := 4.
Definition CONSBUFSIZE : Z := 512.

(** * State *)

(** First the globals and statics of the two files; [crt_buf] is indexed from
    0, and [crt_at] is where it points.  Then the devices: [kbd_data] and
    [com_data] are the bytes that inb will deliver, [com_lsr_ok] whether the
    serial port answers, [cga_ram] whether the word at CGA_BUF keeps what is
    written to it, [cursor] the cursor position the display controller
    reports, [ports] the outb calls, latest first, and [prints] the calls of
    cprintf. *)
Record con := MkCon {
  buf : list Z;
  rpos : Z;
  wpos : Z;
  shift : Z;
  crt_buf : gmap Z Z;
  crt_pos : Z;
  crt_at : Z;
  addr_6845 : Z;
  console_color : Z;
  serial_exists : bool;
  irq_mask_8259A : Z;
  didinit : bool;
  kbd_data : list Z;
  com_data : list Z;
  com_lsr_ok : bool;
  cga_ram : bool;
  cursor : Z;
  ports : list (Z * Z);
  prints : list (string * list Z)
}.

Definition set_buf (v : list Z) (s : con) : con :=
  MkCon v (rpos s) (wpos s) (shift s) (crt_buf s) (crt_pos s) (crt_at s) (addr_6845 s)
    (console_color s) (serial_exists s) (irq_mask_8259A s) (didinit s) (kbd_data s) (com_data s)
    (com_lsr_ok s) (cga_ram s) (cursor s) (ports s) (prints s).
Definition set_rpos (v : Z) (s : con) : con :=
  MkCon (buf s) v (wpos s) (shift s) (crt_buf s) (crt_pos s) (crt_at s) (addr_6845 s)
    (console_color s) (serial_exists s) (irq_mask_8259A s) (didinit s) (kbd_data s) (com_data s)
    (com_lsr_ok s) (cga_ram s) (cursor s) (ports s) (prints s).
Definition set_wpos (v : Z) (s : con) : con :=
  MkCon (buf s) (rpos s) v (shift s) (crt_buf s) (crt_pos s) (crt_at s) (addr_6845 s)
    (console_color s) (serial_exists s) (irq_mask_8259A s) (didinit s) (kbd_data s) (com_data s)
    (com_lsr_ok s) (cga_ram s) (cursor s) (ports s) (prints s).
Definition set_shift (v : Z) (s : con) : con :=
  MkCon (buf s) (rpos s) (wpos s) v (crt_buf s) (crt_pos s) (crt_at s) (addr_6845 s)
    (console_color s) (serial_exists s) (irq_mask_8259A s) (didinit s) (kbd_data s) (com_data s)
    (com_lsr_ok s) (cga_ram s) (cursor s) (ports s) (prints s).
Definition set_crt_buf (v : gmap Z Z) (s : con) : con :=
  MkCon (buf s) (rpos s) (wpos s) (shift s) v (crt_pos s) (crt_at s) (addr_6845 s)
    (console_color s) (serial_exists s) (irq_mask_8259A s) (didinit s) (kbd_data s) (com_data s)
    (com_lsr_ok s) (cga_ram s) (cursor s) (ports s) (prints s).
Definition set_crt_pos (v : Z) (s : con) : con :=
  MkCon (buf s) (rpos s) (wpos s) (shift s) (crt_buf s) v (crt_at s) (addr_6845 s)
    (console_color s) (serial_exists s) (irq_mask_8259A s) (didinit s) (kbd_data s) (com_data s)
    (com_lsr_ok s) (cga_ram s) (cursor s) (ports s) (prints s).
Definition set_crt_at (v : Z) (s : con) : con :=
  MkCon (buf s) (rpos s) (wpos s) (shift s) (crt_buf s) (crt_pos s) v (addr_6845 s)
    (console_color s) (serial_exists s) (irq_mask_8259A s) (didinit s) (kbd_data s) (com_data s)
    (com_lsr_ok s) (cga_ram s) (cursor s) (ports s) (prints s).
Definition set_addr_6845 (v : Z) (s : con) : con :=
  MkCon (buf s) (rpos s) (wpos s) (shift s) (crt_buf s) (crt_pos s) (crt_at s) v (console_color s)
    (serial_exists s) (irq_mask_8259A s) (didinit s) (kbd_data s) (com_data s) (com_lsr_ok s)
    (cga_ram s) (cursor s) (ports s) (prints s).
Definition set_console_color (v : Z) (s : con) : con :=
  MkCon (buf s) (rpos s) (wpos s) (shift s) (crt_buf s) (crt_pos s) (crt_at s) (addr_6845 s) v
    (serial_exists s) (irq_mask_8259A s) (didinit s) (kbd_data s) (com_data s) (com_lsr_ok s)
    (cga_ram s) (cursor s) (ports s) (prints s).
Definition set_serial_exists (v : bool) (s : con) : con :=
  MkCon (buf s) (rpos s) (wpos s) (shift s) (crt_buf s) (crt_pos s) (crt_at s) (addr_6845 s)
    (console_color s) v (irq_mask_8259A s) (didinit s) (kbd_data s) (com_data s) (com_lsr_ok s)
    (cga_ram s) (cursor s) (ports s) (prints s).
Definition set_irq_mask_8259A (v : Z) (s : con) : con :=
  MkCon (buf s) (rpos s) (wpos s) (shift s) (crt_buf s) (crt_pos s) (crt_at s) (addr_6845 s)
    (console_color s) (serial_exists s) v (didinit s) (kbd_data s) (com_data s) (com_lsr_ok s)
    (cga_ram s) (cursor s) (ports s) (prints s).
Definition set_didinit (v : bool) (s : con) : con :=
  MkCon (buf s) (rpos s) (wpos s) (shift s) (crt_buf s) (crt_pos s) (crt_at s) (addr_6845 s)
    (console_color s) (serial_exists s) (irq_mask_8259A s) v (kbd_data s) (com_data s)
    (com_lsr_ok s) (cga_ram s) (cursor s) (ports s) (prints s).
Definition set_kbd_data (v : list Z) (s : con) : con :=
  MkCon (buf s) (rpos s) (wpos s) (shift s) (crt_buf s) (crt_pos s) (crt_at s) (addr_6845 s)
    (console_color s) (serial_exists s) (irq_mask_8259A s) (didinit s) v (com_data s)
    (com_lsr_ok s) (cga_ram s) (cursor s) (ports s) (prints s).
Definition set_com_data (v : list Z) (s : con) : con :=
  MkCon (buf s) (rpos s) (wpos s) (shift s) (crt_buf s) (crt_pos s) (crt_at s) (addr_6845 s)
    (console_color s) (serial_exists s) (irq_mask_8259A s) (didinit s) (kbd_data s) v
    (com_lsr_ok s) (cga_ram s) (cursor s) (ports s) (prints s).
Definition set_com_lsr_ok (v : bool) (s : con) : con :=
  MkCon (buf s) (rpos s) (wpos s) (shift s) (crt_buf s) (crt_pos s) (crt_at s) (addr_6845 s)
    (console_color s) (serial_exists s) (irq_mask_8259A s) (didinit s) (kbd_data s) (com_data s) v
    (cga_ram s) (cursor s) (ports s) (prints s).
Definition set_cga_ram (v : bool) (s : con) : con :=
  MkCon (buf s) (rpos s) (wpos s) (shift s) (crt_buf s) (crt_pos s) (crt_at s) (addr_6845 s)
    (console_color s) (serial_exists s) (irq_mask_8259A s) (didinit s) (kbd_data s) (com_data s)
    (com_lsr_ok s) v (cursor s) (ports s) (prints s).
Definition set_cursor (v : Z) (s : con) : con :=
  MkCon (buf s) (rpos s) (wpos s) (shift s) (crt_buf s) (crt_pos s) (crt_at s) (addr_6845 s)
    (console_color s) (serial_exists s) (irq_mask_8259A s) (didinit s) (kbd_data s) (com_data s)
    (com_lsr_ok s) (cga_ram s) v (ports s) (prints s).
Definition set_ports (v : list (Z * Z)) (s : con) : con :=
  MkCon (buf s) (rpos s) (wpos s) (shift s) (crt_buf s) (crt_pos s) (crt_at s) (addr_6845 s)
    (console_color s) (serial_exists s) (irq_mask_8259A s) (didinit s) (kbd_data s) (com_data s)
    (com_lsr_ok s) (cga_ram s) (cursor s) v (prints s).
Definition set_prints (v : list (string * list Z)) (s : con) : con :=
  MkCon (buf s) (rpos s) (wpos s) (shift s) (crt_buf s) (crt_pos s) (crt_at s) (addr_6845 s)
    (console_color s) (serial_exists s) (irq_mask_8259A s) (didinit s) (kbd_data s) (com_data s)
    (com_lsr_ok s) (cga_ram s) (cursor s) (ports s) v.

Definition outb (port data : Z) : M con unit := modify (λ s, set_ports ((port, w8 data) :: ports s) s).
Definition cprints (fmt : string) (args : list Z) : M con unit :=
  modify (λ s, set_prints ((fmt, args) :: prints s) s).

(** * kern/picirq.c *)

Definition irq_setmask_8259A (mask : Z) : M con unit :=
  modify (set_irq_mask_8259A mask) ;;
  d ← gets didinit;
  if negb d then mret tt
  else
    outb (IO_PIC1 + 1) mask ;;
    outb (IO_PIC2 + 1) (Z.shiftr mask 8) ;;
    cprints "enabled interrupts:" [] ;;
    for_range 16 0 1 (λ i,
      when (ctrue (Z.land (Z.lnot mask) (Z.shiftl 1 i))) (cprints " %d" [i])) ;;
    cprints "\n" [].

Definition pic_init : M con unit :=
  modify (set_didinit true) ;;
  outb (IO_PIC1 + 1) 0xFF ;;
  outb (IO_PIC2 + 1) 0xFF ;;
  outb IO_PIC1 0x11 ;;
  outb (IO_PIC1 + 1) 32 ;;
  outb (IO_PIC1 + 1) (Z.shiftl 1 IRQ_SLAVE) ;;
  outb (IO_PIC1 + 1) 0x3 ;;
  outb IO_PIC2 0x11 ;;
  outb (IO_PIC2 + 1) (32 + 8) ;;
  outb (IO_PIC2 + 1) IRQ_SLAVE ;;
  outb (IO_PIC2 + 1) 0x01 ;;
  outb IO_PIC1 0x68 ;;
  outb IO_PIC1 0x0a ;;
  outb IO_PIC2 0x68 ;;
  outb IO_PIC2 0x0a ;;
  m ← gets irq_mask_8259A;
  when (negb (m =? 0xFFFF)) (irq_setmask_8259A m).

(** * Input: the ring buffer *)

(** The loop of [cons_intr]; each call of [proc] takes a byte from its
    device, so one more iteration than there are bytes is enough. *)
Fixpoint cons_intr_loop (fuel : nat) (proc : M con Z) : M con unit :=
  match fuel with
  | O => stop_with SLoop
  | S fuel =>
      c ← proc;
      if c =? -1 then mret tt
      else if c =? 0 then cons_intr_loop fuel proc
      else
        w ← gets wpos;
        modify (λ s, set_buf (<[Z.to_nat w := w8 c]> (buf s)) s) ;;
        modify (set_wpos (w32 (w + 1))) ;;
        w ← gets wpos;
        when (w =? CONSBUFSIZE) (modify (set_wpos 0)) ;;
        cons_intr_loop fuel proc
  end.

Definition cons_intr (proc : M con Z) : M con unit :=
  n ← gets (λ s, S (length (kbd_data s) + length (com_data s)));
  cons_intr_loop n proc.

(** The port reads of [COM_LSR] and [COM_RX]. *)
Definition serial_proc_data : M con Z :=
  d ← gets com_data;
  match d with
  | [] => mret (-1)
  | b :: d => modify (set_com_data d) ;; mret (w8 b)
  end.

Definition serial_intr : M con unit :=
  e ← gets serial_exists;
  when e (cons_intr serial_proc_data).

(** * Input: the keyboard *)

Definition SHIFT : Z := Z.shiftl 1 0.
Definition CTL : Z := Z.shiftl 1 1.
Definition ALT : Z := Z.shiftl 1 2.
Definition CAPSLOCK : Z := Z.shiftl 1 3.
Definition NUMLOCK : Z := Z.shiftl 1 4.
Definition SCROLLLOCK : Z := Z.shiftl 1 5.
Definition E0ESC : Z := Z.shiftl 1 6.

(** A C array initialiser: positional elements, then designated ones; the
    other elements are 0 (NO). *)
Definition table (l : list Z) (d : list (Z * Z)) (i : Z) : Z :=
  match list_find (λ p, p.1 = i) d with
  | Some (_, (_, v)) => v
  | None => nth (Z.to_nat i) l 0
  end.

Definition shiftcode : Z → Z := table []
  [(0x1D, CTL); (0x2A, SHIFT); (0x36, SHIFT); (0x38, ALT); (0x9D, CTL); (0xB8, ALT)].
Definition togglecode : Z → Z := table []
  [(0x3A, CAPSLOCK); (0x45, NUMLOCK); (0x46, SCROLLLOCK)].

Definition normalmap : Z → Z := table
  [0; 27; 49; 50; 51; 52; 53; 54; 55; 56; 57; 48; 45; 61; 8; 9; 113; 119; 101; 114; 116; 121;
   117; 105; 111; 112; 91; 93; 10; 0; 97; 115; 100; 102; 103; 104; 106; 107; 108; 59; 39;
   96; 0; 92; 122; 120; 99; 118; 98; 110; 109; 44; 46; 47; 0; 42; 0; 32; 0; 0; 0; 0; 0; 0;
   0; 0; 0; 0; 0; 0; 0; 55; 56; 57; 45; 52; 53; 54; 43; 49; 50; 51; 48; 46; 0; 0; 0; 0]
  [(0xC7, KEY_HOME); (0x9C, 10); (0xB5, 47); (0xC8, KEY_UP); (0xC9, KEY_PGUP); (0xCB, KEY_LF);
   (0xCD, KEY_RT); (0xCF, KEY_END); (0xD0, KEY_DN); (0xD1, KEY_PGDN); (0xD2, KEY_INS);
   (0xD3, KEY_DEL)].

Definition shiftmap : Z → Z := table
  [0; 27; 33; 64; 35; 36; 37; 94; 38; 42; 40; 41; 95; 43; 8; 9; 81; 87; 69; 82; 84; 89; 85; 73;
   79; 80; 123; 125; 10; 0; 65; 83; 68; 70; 71; 72; 74; 75; 76; 58; 34; 126; 0; 124; 90; 88;
   67; 86; 66; 78; 77; 60; 62; 63; 0; 42; 0; 32; 0; 0; 0; 0; 0; 0; 0; 0; 0; 0; 0; 0; 0; 55;
   56; 57; 45; 52; 53; 54; 43; 49; 50; 51; 48; 46; 0; 0; 0; 0]
  [(0xC7, KEY_HOME); (0x9C, 10); (0xB5, 47); (0xC8, KEY_UP); (0xC9, KEY_PGUP); (0xCB, KEY_LF);
   (0xCD, KEY_RT); (0xCF, KEY_END); (0xD0, KEY_DN); (0xD1, KEY_PGDN); (0xD2, KEY_INS);
   (0xD3, KEY_DEL)].

Definition ctlmap : Z → Z := table
  [0; 0; 0; 0; 0; 0; 0; 0; 0; 0; 0; 0; 0; 0; 0; 0; 17; 23; 5; 18; 20; 25; 21; 9; 15; 16; 0; 0;
   13; 0; 1; 19; 4; 6; 7; 8; 10; 11; 12; 0; 0; 0; 0; 28; 26; 24; 3; 22; 2; 14; 13; 0; 0;
   239; 0; 0]
  [(0x97, KEY_HOME); (0xB5, 239); (0xC8, KEY_UP); (0xC9, KEY_PGUP); (0xCB, KEY_LF); (0xCD,
   KEY_RT); (0xCF, KEY_END); (0xD0, KEY_DN); (0xD1, KEY_PGDN); (0xD2, KEY_INS); (0xD3,
   KEY_DEL)].

Definition charcode (i : Z) : Z → Z :=
  if i =? 0 then normalmap else if i =? 1 then shiftmap else ctlmap.

(** What the keyboard driver makes of one scan code in shift state [sh]: the
    new shift state and the character, 0 for none. *)
Definition kbd_decode (sh data : Z) : Z * Z :=
  if data =? 0xE0 then (Z.lor sh E0ESC, 0)
  else if ctrue (Z.land data 0x80) then
    let data := if ctrue (Z.land sh E0ESC) then data else Z.land data 0x7F in
    (Z.land sh (Z.lnot (Z.lor (shiftcode data) E0ESC)), 0)
  else
    let (sh, data) := if ctrue (Z.land sh E0ESC)
                      then (Z.land sh (Z.lnot E0ESC), Z.lor data 0x80) else (sh, data) in
    let sh := Z.lor sh (shiftcode data) in
    let sh := Z.lxor sh (togglecode data) in
    let c := charcode (Z.land sh (Z.lor CTL SHIFT)) data in
    let c := if ctrue (Z.land sh CAPSLOCK) then
               if (97 <=? c) && (c <=? 122) then c + (65 - 97)
               else if (65 <=? c) && (c <=? 90) then c + (97 - 65) else c
             else c in
    (sh, c).

Definition kbd_proc_data : M con Z :=
  d ← gets kbd_data;
  match d with
  | [] => mret (-1)
  | data :: d =>
      modify (set_kbd_data d) ;;
      sh ← gets shift;
      let '(sh', c) := kbd_decode sh (w8 data) in
      modify (set_shift sh') ;;
      when (negb (ctrue (Z.land (Z.lnot sh') (Z.lor CTL ALT))) && (c =? KEY_DEL))
        (cprints "Rebooting!\n" [] ;; outb 0x92 0x3) ;;
      mret c
  end.

Definition kbd_intr : M con unit := cons_intr kbd_proc_data.

Definition kbd_init : M con unit :=
  kbd_intr ;;
  m ← gets irq_mask_8259A;
  irq_setmask_8259A (w16 (Z.land m (Z.lnot (Z.shiftl 1 1)))).

Definition cons_getc : M con Z :=
  serial_intr ;;
  kbd_intr ;;
  s ← get;
  if negb (rpos s =? wpos s) then
    let c := nth (Z.to_nat (rpos s)) (buf s) 0 in
    modify (set_rpos (w32 (rpos s + 1))) ;;
    r ← gets rpos;
    when (r =? CONSBUFSIZE) (modify (set_rpos 0)) ;;
    mret c
  else mret 0.

(** The interrupt handlers empty their device: [cons_getc] always returns. *)
Definition pending (s : con) : nat := (length (kbd_data s) + length (com_data s))%nat.

Lemma cons_intr_returns (proc : M con Z) n : ∀ s,
  (∀ s, ∃ c s', proc s = Ret c s' ∧ (c = -1 ∨ (pending s' < pending s)%nat)) → (pending s < n)%nat →
  ∃ s', cons_intr_loop n proc s = Ret tt s'.
Proof.
  induction n as [|n IH]; intros s Hp Hn; [lia|]. cbn [cons_intr_loop].
  destruct (Hp s) as (c & s1 & E & Hc). rewrite (bind_Ret _ _ _ _ _ E).
  destruct (Z.eqb_spec c (-1)) as [|Hne]; [eauto|]. destruct Hc as [|Hc]; [contradiction|].
  destruct (c =? 0); [apply IH; [assumption|lia]|]. rewrite bind_gets, !bind_modify, bind_gets.
  destruct (_ =? CONSBUFSIZE); cbn [when]; rewrite ?bind_modify, ?bind_mret;
    apply IH; try assumption; change (pending _) with (pending s1); lia.
Qed.

Lemma serial_proc_data_takes s : ∃ c s', serial_proc_data s = Ret c s' ∧ (c = -1 ∨ (pending s' < pending s)%nat).
Proof.
  unfold serial_proc_data. rewrite bind_gets. destruct (com_data s) as [|b d] eqn:E; [eexists _, _; split; [reflexivity|auto]|].
  eexists _, _. split; [reflexivity|]. right. unfold pending. cbn. rewrite E. cbn. lia.
Qed.

Lemma kbd_proc_data_takes s : ∃ c s', kbd_proc_data s = Ret c s' ∧ (c = -1 ∨ (pending s' < pending s)%nat).
Proof.
  unfold kbd_proc_data. rewrite bind_gets. destruct (kbd_data s) as [|b d] eqn:E; [eexists _, _; split; [reflexivity|auto]|].
  rewrite bind_modify, bind_gets. destruct (kbd_decode _ _) as [sh' c]. rewrite bind_modify.
  destruct (_ && _); (eexists _, _; split; [reflexivity|]; right; unfold pending; cbn; rewrite E; cbn; lia).
Qed.

Lemma cons_getc_returns s : ∃ c s', cons_getc s = Ret c s'.
Proof.
  unfold cons_getc.
  assert (∃ s1, serial_intr s = Ret tt s1) as [s1 E1].
  { unfold serial_intr. rewrite bind_gets. destruct (serial_exists s); cbn [when]; [|eexists; reflexivity].
    apply cons_intr_returns; [apply serial_proc_data_takes|unfold pending; lia]. }
  rewrite (bind_Ret _ _ _ _ _ E1).
  destruct (cons_intr_returns kbd_proc_data (S (pending s1)) s1 kbd_proc_data_takes ltac:(lia)) as [s2 E2].
  assert (kbd_intr s1 = Ret tt s2) as E2' by exact E2. rewrite (bind_Ret _ _ _ _ _ E2'), bind_get.
  destruct (negb _); [|eauto]. rewrite bind_modify, bind_gets. destruct (_ =? CONSBUFSIZE); eexists _, _; reflexivity.
Qed.

(** * Output *)

Section output.
(** Whether poll [i] of the serial line status and of the printer status
    finds the device ready for a byte. *)
Context (txrdy lptrdy : Z → bool).

(** The wait loops give up after 12800 polls. *)
Fixpoint wait_ready (n : nat) (i : Z) (ready : Z → bool) : Z :=
  match n with
  | O => i
  | S n => if ready i then i else wait_ready n (i + 1) ready
  end.

Definition serial_putc (c : Z) : M con unit :=
  let _ := wait_ready (Z.to_nat 12800) 0 txrdy in
  outb (COM1 + COM_TX) c.

Definition lpt_putc (c : Z) : M con unit :=
  let _ := wait_ready (Z.to_nat 12800) 0 lptrdy in
  outb (0x378 + 0) c ;;
  outb (0x378 + 2) (Z.lor (Z.lor 0x08 0x04) 0x01) ;;
  outb (0x378 + 2) 0x08.

Definition crt_store (i v : Z) : M con unit :=
  modify (λ s, set_crt_buf (<[i := w16 v]> (crt_buf s)) s).

(** [memmove(crt_buf, crt_buf + CRT_COLS, ...)], a word at a time from the
    front, and the blank last line. *)
Definition crt_scroll : M con unit :=
  for_range (Z.to_nat (CRT_SIZE - CRT_COLS)) 0 1 (λ i,
    s ← get; crt_store i (default 0 (crt_buf s !! (i + CRT_COLS)))) ;;
  for_range (Z.to_nat CRT_COLS) (CRT_SIZE - CRT_COLS) 1 (λ i,
    crt_store i (Z.lor 0x0700 32)).

(** [putc] is cons_putc, which cga_putc calls for a tab. *)
Definition cga_putc_with (putc : Z → M con unit) (c : Z) : M con unit :=
  color ← gets console_color;
  let c := if negb (ctrue (Z.land c (Z.lnot 0xFF))) then Z.lor c (w32 (Z.shiftl color 8)) else c in
  let ch := Z.land c 0xff in
  (if ch =? 8 then
     p ← gets crt_pos;
     when (p >? 0)
       (modify (set_crt_pos (w16 (p - 1))) ;;
        p ← gets crt_pos;
        crt_store p (Z.lor (Z.land c (Z.lnot 0xff)) 32))
   else if (ch =? 10) || (ch =? 13) then
     when (ch =? 10) (p ← gets crt_pos; modify (set_crt_pos (w16 (p + CRT_COLS)))) ;;
     p ← gets crt_pos;
     modify (set_crt_pos (w16 (p - p mod CRT_COLS)))
   else if ch =? 9 then
     putc 32 ;; putc 32 ;; putc 32 ;; putc 32 ;; putc 32
   else
     p ← gets crt_pos;
     crt_store p c ;;
     modify (set_crt_pos (w16 (p + 1)))) ;;
  p ← gets crt_pos;
  when (p >=? CRT_SIZE)
    (crt_scroll ;;
     p ← gets crt_pos;
     modify (set_crt_pos (w16 (p - CRT_COLS)))) ;;
  a ← gets addr_6845;
  p ← gets crt_pos;
  outb a 14 ;;
  outb (a + 1) (Z.shiftr p 8) ;;
  outb a 15 ;;
  outb (a + 1) p.

(** The two functions call each other to a depth of two: a space is not a
    tab. *)
Fixpoint cons_putc_n (depth : nat) (c : Z) : M con unit :=
  match depth with
  | O => stop_with SLoop
  | S depth => serial_putc c ;; lpt_putc c ;; cga_putc_with (cons_putc_n depth) c
  end.
Definition cons_putc : Z → M con unit := cons_putc_n 2.
Definition cga_putc : Z → M con unit := cga_putc_with (cons_putc_n 1).
Definition cputchar : Z → M con unit := cons_putc.
End output.

(** * Initialisation *)

Definition cga_init : M con unit :=
  s ← get;
  modify (set_crt_at (KERNBASE + (if cga_ram s then CGA_BUF else MONO_BUF))) ;;
  modify (set_addr_6845 (if cga_ram s then CGA_BASE else MONO_BASE)) ;;
  a ← gets addr_6845;
  outb a 14 ;;
  outb a 15 ;;
  modify (set_crt_pos (w16 (cursor s))).

Definition serial_init : M con unit :=
  outb (COM1 + COM_FCR) 0 ;;
  outb (COM1 + COM_LCR) COM_LCR_DLAB ;;
  outb (COM1 + COM_DLL) (115200 / 9600) ;;
  outb (COM1 + COM_DLM) 0 ;;
  outb (COM1 + COM_LCR) (Z.land COM_LCR_WLEN8 (Z.lnot COM_LCR_DLAB)) ;;
  outb (COM1 + COM_MCR) 0 ;;
  outb (COM1 + COM_IER) COM_IER_RDI ;;
  ok ← gets com_lsr_ok;
  modify (set_serial_exists ok) ;;
  modify (λ s, set_com_data (tail (com_data s)) s).

Definition cons_init : M con unit :=
  cga_init ;;
  kbd_init ;;
  serial_init ;;
  e ← gets serial_exists;
  when (negb e) (cprints "Serial port does not exist!\n" []).

(** getchar polls cons_getc; without input it waits for ever. *)
Fixpoint getchar_loop (fuel : nat) : M con Z :=
  match fuel with
  | O => stop_with SLoop
  | S fuel => c ← cons_getc; if c =? 0 then getchar_loop fuel else mret c
  end.

Definition iscons (fdnum : Z) : Z := 1.

(** Field accesses of updated states. *)
Ltac consimpl :=
  cbn [buf rpos wpos shift crt_buf crt_pos crt_at addr_6845 console_color serial_exists
       irq_mask_8259A didinit kbd_data com_data com_lsr_ok cga_ram cursor ports prints set_buf
       set_rpos set_wpos set_shift set_crt_buf set_crt_pos set_crt_at set_addr_6845
       set_console_color set_serial_exists set_irq_mask_8259A set_didinit set_kbd_data
       set_com_data set_com_lsr_ok set_cga_ram set_cursor set_ports set_prints] in *.

(** * The ring buffer is a queue *)

Section ring.
Implicit Types (s : con) (q : list Z).

(** [ring s q]: the characters waiting are [q]. *)
Record ring s q : Prop := {
  rg_buf : length (buf s) = 512%nat;
  rg_rpos : 0 ≤ rpos s < 512;
  rg_len : Z.of_nat (length q) < 512;
  rg_wpos : wpos s = (rpos s + Z.of_nat (length q)) mod 512;
  rg_chars : ∀ i, (i < length q)%nat →
    nth (Z.to_nat ((rpos s + Z.of_nat i) mod 512)) (buf s) 0 = nth i q 0
}.

(** The state after one character has been stored. *)
Definition put (c : Z) s : con :=
  set_wpos (if wpos s + 1 =? 512 then 0 else wpos s + 1)
    (set_buf (<[Z.to_nat (wpos s) := w8 c]> (buf s)) s).

Lemma nth_insert (l : list Z) i j v : (i < length l)%nat →
  nth j (<[i := v]> l) 0 = if decide (j = i) then v else nth j l 0.
Proof.
  intros Hi. rewrite !nth_lookup. case_decide as D.
  - subst. rewrite list_lookup_insert_eq by assumption. reflexivity.
  - rewrite list_lookup_insert_ne by congruence. reflexivity.
Qed.

Lemma ring_wpos s q : ring s q → 0 ≤ wpos s < 512.
Proof. intros H. rewrite (rg_wpos _ _ H). apply Z.mod_pos_bound. lia. Qed.

Lemma ring_put s q c : ring s q →
  ring (put c s) (if decide (Z.of_nat (length q) < 511) then q ++ [w8 c] else []).
Proof.
  intros H. pose proof (ring_wpos _ _ H) as Hw. destruct H as [Hb Hr Hl Ew Hc].
  assert ((if wpos s + 1 =? 512 then 0 else wpos s + 1) = (wpos s + 1) mod 512) as En.
  { destruct (Z.eqb_spec (wpos s + 1) 512) as [->|]; [reflexivity|]. symmetry. apply Z.mod_small. lia. }
  unfold put. rewrite En. case_decide as D.
  - split; consimpl; rewrite ?length_insert, ?length_app; try assumption; cbn [length]; [lia| |].
    + rewrite Ew. Z.div_mod_to_equations. lia.
    + intros i Hi. rewrite nth_insert by lia. case_decide as Di.
      * assert (i = length q) as -> by (Z.div_mod_to_equations; lia).
        rewrite app_nth2, Nat.sub_diag by lia. reflexivity.
      * assert (i ≠ length q) by (intros ->; apply Di; rewrite <- Ew; reflexivity).
        rewrite app_nth1 by lia. apply Hc. lia.
  - split; consimpl; rewrite ?length_insert; try assumption; cbn [length]; [lia| |lia].
    rewrite Ew. Z.div_mod_to_equations. lia.
Qed.

(** Reading one character. *)
Lemma ring_get s c q : ring s (c :: q) →
  nth (Z.to_nat (rpos s)) (buf s) 0 = c ∧
  ring (set_rpos (if rpos s + 1 =? 512 then 0 else rpos s + 1) s) q.
Proof.
  intros [Hb Hr Hl Ew Hc]. cbn [length] in *. split.
  - pose proof (Hc 0%nat ltac:(lia)) as E. replace ((rpos s + Z.of_nat 0) mod 512) with (rpos s) in E
      by (Z.div_mod_to_equations; lia). exact E.
  - assert ((if rpos s + 1 =? 512 then 0 else rpos s + 1) = (rpos s + 1) mod 512) as En.
    { destruct (Z.eqb_spec (rpos s + 1) 512) as [->|]; [reflexivity|]. symmetry. apply Z.mod_small. lia. }
    rewrite En. split; consimpl; [assumption| |lia| |].
    + apply Z.mod_pos_bound. lia.
    + rewrite Ew. Z.div_mod_to_equations. lia.
    + intros i Hi. change (nth i q 0) with (nth (S i) (c :: q) 0). rewrite <- (Hc (S i)) by lia.
      f_equal. f_equal. Z.div_mod_to_equations. lia.
Qed.

Lemma ring_empty s q : ring s q → (rpos s =? wpos s) = bool_decide (q = []).
Proof.
  intros [Hb Hr Hl Ew Hc]. rewrite Ew. destruct q as [|c q]; cbn [length] in *.
  - rewrite bool_decide_eq_true_2 by reflexivity. apply Z.eqb_eq. Z.div_mod_to_equations. lia.
  - rewrite bool_decide_eq_false_2 by discriminate. apply Z.eqb_neq. Z.div_mod_to_equations. lia.
Qed.

(** ** The loop of cons_intr *)

Lemma intr_done fuel proc s s' : proc s = Ret (-1) s' →
  cons_intr_loop (S fuel) proc s = Ret tt s'.
Proof. intros E. cbn [cons_intr_loop]. rewrite (bind_Ret _ _ _ _ _ E). reflexivity. Qed.

Lemma intr_skip fuel proc s s' : proc s = Ret 0 s' →
  cons_intr_loop (S fuel) proc s = cons_intr_loop fuel proc s'.
Proof. intros E. cbn [cons_intr_loop]. rewrite (bind_Ret _ _ _ _ _ E). reflexivity. Qed.

Lemma intr_char fuel proc s s' c q : proc s = Ret c s' → c ≠ -1 → c ≠ 0 → ring s' q →
  cons_intr_loop (S fuel) proc s = cons_intr_loop fuel proc (put c s').
Proof.
  intros E H1 H0 Hr. pose proof (ring_wpos _ _ Hr). cbn [cons_intr_loop]. rewrite (bind_Ret _ _ _ _ _ E).
  apply Z.eqb_neq in H1, H0. rewrite H1, H0. rewrite bind_gets, bind_modify, bind_modify, bind_gets. consimpl.
  rewrite w32_id by (unfold u32_range; lia). unfold put, CONSBUFSIZE.
  destruct (wpos s' + 1 =? 512); cbn [when]; [rewrite bind_modify|rewrite bind_mret]; reflexivity.
Qed.
End ring.

(** * What the devices deliver *)

Section input.
Implicit Types (s : con) (q : list Z).

Definition nonzero (l : list Z) : list Z := filter (λ c, c ≠ 0) l.

(** The characters of a sequence of scan codes, and the final shift state. *)
Fixpoint kbd_chars (sh : Z) (d : list Z) : list Z :=
  match d with
  | [] => []
  | b :: d => let '(sh', c) := kbd_decode sh (w8 b) in
              (if c =? 0 then [] else [c]) ++ kbd_chars sh' d
  end.

Lemma table_range i : 0 ≤ i < 256 →
  0 ≤ normalmap i < 256 ∧ 0 ≤ shiftmap i < 256 ∧ 0 ≤ ctlmap i < 256.
Proof.
  intros Hi.
  assert (forallb (λ j, bool_decide (0 ≤ normalmap j < 256 ∧ 0 ≤ shiftmap j < 256 ∧ 0 ≤ ctlmap j < 256))
    (seqZ 0 256) = true) as H by (vm_compute; reflexivity).
  rewrite forallb_forall in H. specialize (H i). rewrite <- list_elem_of_In, elem_of_seqZ in H.
  apply (bool_decide_eq_true_1 _ (H ltac:(lia))).
Qed.

Lemma lor_byte a b : 0 ≤ a < 256 → 0 ≤ b < 256 → 0 ≤ Z.lor a b < 256.
Proof.
  intros Ha Hb. split; [apply Z.lor_nonneg; lia|].
  destruct (Z.eq_dec (Z.lor a b) 0) as [->|]; [lia|]. change 256 with (2 ^ 8).
  apply Z.log2_lt_pow2; [pose proof (Z.lor_nonneg a b); lia|]. rewrite Z.log2_lor by lia.
  assert (∀ z, 0 ≤ z < 256 → Z.log2 z < 8) as G.
  { intros z Hz. destruct (Z.eq_dec z 0) as [->|]; [reflexivity|]. apply Z.log2_lt_pow2; lia. }
  pose proof (G a Ha). pose proof (G b Hb). lia.
Qed.

(** A decoded character is a byte. *)
Lemma kbd_decode_byte sh data : 0 ≤ data < 256 → 0 ≤ (kbd_decode sh data).2 < 256.
Proof.
  intros Hd. unfold kbd_decode. destruct (data =? 0xE0); [cbn; lia|].
  destruct (ctrue (Z.land data 128)); [cbn; lia|].
  match goal with |- context [let (_, _) := ?p in _] => destruct p as [sh1 d1] eqn:Ep end.
  assert (0 ≤ d1 < 256) as Hd1.
  { destruct (ctrue (Z.land sh E0ESC)); injection Ep as <- <-; [apply lor_byte; lia|assumption]. }
  cbn [snd]. cbv zeta.
  assert (∀ i, 0 ≤ charcode i d1 < 256) as Hc.
  { intros i. unfold charcode. destruct (table_range d1 Hd1) as (? & ? & ?).
    destruct (i =? 0); [assumption|]. destruct (i =? 1); assumption. }
  match goal with |- context [charcode ?i d1] => specialize (Hc i); generalize dependent (charcode i d1) end.
  intros c Hc. match goal with |- context [if ?b then _ else c] => destruct b end; [|exact Hc].
  destruct ((97 <=? c) && (c <=? 122)) eqn:E1; [bsplit; lia|].
  destruct ((65 <=? c) && (c <=? 90)) eqn:E2; [bsplit; lia|exact Hc].
Qed.

Lemma kbd_proc_run s b d : kbd_data s = b :: d →
  ∃ s', kbd_proc_data s = Ret (kbd_decode (shift s) (w8 b)).2 s' ∧
    kbd_data s' = d ∧ shift s' = (kbd_decode (shift s) (w8 b)).1 ∧
    com_data s' = com_data s ∧ serial_exists s' = serial_exists s ∧
    ∀ q, ring s q → ring s' q.
Proof.
  intros E. unfold kbd_proc_data. rewrite bind_gets, E, bind_modify, bind_gets. consimpl.
  destruct (kbd_decode (shift s) (w8 b)) as [sh' c]. rewrite bind_modify. cbn [fst snd].
  destruct (_ && _); cbn [when]; eexists; (split; [reflexivity|]); consimpl;
    do 4 (split; [reflexivity|]); intros q []; split; assumption.
Qed.

(** The keyboard's part of the queue. *)
Lemma kbd_loop d : ∀ fuel s q, kbd_data s = d → (length d < fuel)%nat → ring s q →
  Z.of_nat (length q + length (kbd_chars (shift s) d)) < 512 →
  ∃ s', cons_intr_loop fuel kbd_proc_data s = Ret tt s' ∧ ring s' (q ++ kbd_chars (shift s) d) ∧
    kbd_data s' = [] ∧ com_data s' = com_data s.
Proof.
  induction d as [|b d IH]; intros fuel s q Ed Hf Hr Hl; (destruct fuel as [|fuel]; [cbn in Hf; lia|]).
  - exists s. rewrite app_nil_r. split; [|auto]. apply intr_done. unfold kbd_proc_data.
    rewrite bind_gets, Ed. reflexivity.
  - destruct (kbd_proc_run s b d Ed) as (s1 & E & Ed1 & Esh & Ecom & _ & Hr1).
    pose proof (kbd_decode_byte (shift s) (w8 b) (w8_range b)) as Hc.
    cbn [kbd_chars length] in *. destruct (kbd_decode (shift s) (w8 b)) as [sh' c]. cbn [fst snd] in *.
    destruct (Z.eqb_spec c 0) as [Hz|Hc0].
    + rewrite Hz in E. rewrite (intr_skip _ _ _ _ E). cbn [app]. rewrite <- Esh in *.
      destruct (IH fuel s1 q Ed1 ltac:(lia) (Hr1 q Hr)) as (s' & E' & Hr' & Ek & Ec); [cbn in Hl; lia|].
      exists s'. rewrite Ec, Ecom. auto.
    + rewrite (intr_char _ _ _ _ _ _ E ltac:(lia) Hc0 (Hr1 q Hr)). rewrite <- Esh in *.
      cbn [app length] in *. pose proof (ring_put s1 q c (Hr1 q Hr)) as Hp.
      rewrite decide_True, w8_id in Hp by (change (2 ^ 8) with 256; lia).
      destruct (IH fuel (put c s1) (q ++ [c]) Ed1 ltac:(lia) Hp) as (s' & E' & Hr' & Ek & Ec).
      { rewrite length_app. cbn [length]. change (shift (put c s1)) with (shift s1). lia. }
      exists s'. split; [exact E'|]. rewrite <- app_assoc in Hr'. cbn [app] in Hr'.
      change (com_data (put c s1)) with (com_data s1) in Ec. rewrite Ec, Ecom. auto.
Qed.

(** The serial port's part. *)
Lemma serial_loop d : ∀ fuel s q, com_data s = d → (length d < fuel)%nat → ring s q →
  Z.of_nat (length q + length (nonzero (w8 <$> d))) < 512 →
  ∃ s', cons_intr_loop fuel serial_proc_data s = Ret tt s' ∧ ring s' (q ++ nonzero (w8 <$> d)) ∧
    com_data s' = [] ∧ kbd_data s' = kbd_data s ∧ shift s' = shift s.
Proof.
  induction d as [|b d IH]; intros fuel s q Ed Hf Hr Hl; (destruct fuel as [|fuel]; [cbn in Hf; lia|]).
  - exists s. rewrite app_nil_r. split; [|auto]. apply intr_done. unfold serial_proc_data.
    rewrite bind_gets, Ed. reflexivity.
  - assert (serial_proc_data s = Ret (w8 b) (set_com_data d s)) as E
      by (unfold serial_proc_data; rewrite bind_gets, Ed; reflexivity).
    assert (ring (set_com_data d s) q) as Hr1 by (destruct Hr; split; assumption).
    pose proof (w8_range b) as Hb. cbn [fmap list_fmap length] in *.
    destruct (Z.eq_dec (w8 b) 0) as [Hz|Hz].
    + rewrite Hz in E. rewrite (intr_skip _ _ _ _ E).
      unfold nonzero in *. rewrite filter_cons_False in * by tauto.
      destruct (IH fuel (set_com_data d s) q eq_refl ltac:(lia) Hr1 Hl) as (s' & E' & Hr' & ? & ? & ?).
      exists s'. auto.
    + rewrite (intr_char _ _ _ _ _ _ E ltac:(lia) Hz Hr1).
      unfold nonzero in *. rewrite filter_cons_True in * by assumption. cbn [length] in Hl.
      pose proof (ring_put _ q (w8 b) Hr1) as Hp.
      rewrite decide_True, (w8_id (w8 b)) in Hp by (assumption || lia).
      destruct (IH fuel (put (w8 b) (set_com_data d s)) (q ++ [w8 b]) eq_refl ltac:(lia) Hp)
        as (s' & E' & Hr' & ? & ? & ?).
      { rewrite length_app. cbn [length]. unfold nonzero in *. lia. }
      exists s'. rewrite <- app_assoc in Hr'. auto.
Qed.
End input.

(** What the devices hold: the serial port's part, then the keyboard's. *)
Definition arriving (s : con) : list Z :=
  (if serial_exists s then nonzero (w8 <$> com_data s) else []) ++ kbd_chars (shift s) (kbd_data s).

Lemma cons_getc_run (s : con) (q : list Z) : ring s q → Z.of_nat (length (q ++ arriving s)) < 512 →
  ∃ s', cons_getc s = Ret (default 0 (head (q ++ arriving s))) s' ∧ ring s' (tail (q ++ arriving s)) ∧
    kbd_data s' = [] ∧ com_data s' = if serial_exists s then [] else com_data s.
Proof.
  intros Hr. set (new := arriving s). intros Hl. unfold cons_getc, serial_intr. rewrite bind_assoc, bind_gets.
  unfold new, arriving in Hl. rewrite !length_app in Hl.
  assert (∃ s1, when (serial_exists s) (cons_intr serial_proc_data) s = Ret tt s1 ∧
    ring s1 (q ++ if serial_exists s then nonzero (w8 <$> com_data s) else []) ∧
    com_data s1 = (if serial_exists s then [] else com_data s) ∧
    kbd_data s1 = kbd_data s ∧ shift s1 = shift s) as (s1 & E1 & Hr1 & Ec1 & Ek1 & Es1).
  { destruct (serial_exists s); cbn [when].
    - unfold cons_intr. rewrite bind_gets. apply serial_loop; [reflexivity|lia|assumption|]. lia.
    - exists s. rewrite app_nil_r. auto. }
  rewrite (bind_Ret _ _ _ _ _ E1).
  destruct (kbd_loop (kbd_data s1) (S (length (kbd_data s1) + length (com_data s1))) s1 _ eq_refl ltac:(lia) Hr1)
    as (s2 & E2 & Hr2 & Ek2 & Ec2).
  { rewrite Ek1, Es1, length_app. lia. }
  rewrite Ek1, Es1, <- app_assoc in Hr2. change (_ ++ kbd_chars _ _) with new in Hr2.
  unfold kbd_intr, cons_intr. rewrite bind_assoc, bind_gets, (bind_Ret _ _ _ _ _ E2), bind_get.
  rewrite (ring_empty _ _ Hr2). destruct (q ++ new) as [|c rest] eqn:Eq.
  - rewrite bool_decide_eq_true_2 by reflexivity. cbn [negb]. exists s2. rewrite Ec2, Ec1. auto.
  - rewrite bool_decide_eq_false_2 by discriminate. cbn [negb].
    destruct (ring_get s2 c rest Hr2) as [-> Hr3]. pose proof (rg_rpos _ _ Hr2).
    rewrite bind_modify, bind_gets. consimpl. rewrite w32_id by (unfold u32_range; lia).
    unfold CONSBUFSIZE. destruct (rpos s2 + 1 =? 512); cbn [when];
      [rewrite bind_modify|rewrite bind_mret]; (eexists; split; [reflexivity|]); consimpl;
      rewrite Ec2, Ec1; auto.
Qed.

(** * Properties *)

(** C35. The input side of the console is a queue.  As long as fewer than 512
    characters wait in all, [cons_getc] empties both devices into the ring
    buffer, the serial port first (its nonzero bytes, if the port exists),
    then the keyboard (the nonzero characters its scan codes decode to, in
    order), and returns and removes the oldest character, or returns 0 when
    there is none. *)
Theorem cons_getc_fifo (s : con) (q : list Z) :
  ring s q →
  let new := (if serial_exists s then nonzero (w8 <$> com_data s) else [])
             ++ kbd_chars (shift s) (kbd_data s) in
  Z.of_nat (length (q ++ new)) < 512 →
  ∃ s', cons_getc s = Ret (default 0 (head (q ++ new))) s' ∧ ring s' (tail (q ++ new)) ∧
    kbd_data s' = [] ∧ com_data s' = if serial_exists s then [] else com_data s.
Proof.
  intros Hr new Hl. apply cons_getc_run; assumption.
Qed.

(** An idle console with a few scan codes pending: shift down, a, shift up,
    b. *)
Definition demo_con : con :=
  MkCon (replicate 512 0) 510 510 0 ∅ 0 0 CGA_BASE 7 true 0xFFFB false
    [0x2A; 0x1E; 0xAA; 0x30] [120; 0; 121] true true 0 [] [].

Lemma cons_getc_fifo_witness : ∃ s',
  cons_getc demo_con = Ret 120 s' ∧ ring s' [121; 65; 98] ∧ kbd_data s' = [].
Proof.
  destruct (cons_getc_fifo demo_con []) as (s' & E & Hr & Hk & _).
  - split; try (vm_compute; split; congruence); try reflexivity. intros i Hi. inversion Hi.
  - vm_compute. reflexivity.
  - exists s'. split; [exact E|]. split; [exact Hr|exact Hk].
Defined.

(** The ring buffer has no overrun check: storing one character when 511
    are waiting makes the write position meet the read position, and all 512
    are lost. *)
Theorem cons_intr_overrun (s : con) (q : list Z) (b : Z) :
  ring s q → Z.of_nat (length q) = 511 → serial_exists s = true → com_data s = [b] → w8 b ≠ 0 →
  ∃ s', serial_intr s = Ret tt s' ∧ ring s' [] ∧ rpos s' = wpos s'.
Proof.
  intros Hr Hl Hs Hd Hb. unfold serial_intr. rewrite bind_gets, Hs. cbn [when]. unfold cons_intr.
  rewrite bind_gets, Hd. cbn [length]. rewrite Nat.add_1_r.
  assert (serial_proc_data s = Ret (w8 b) (set_com_data [] s)) as E
    by (unfold serial_proc_data; rewrite bind_gets, Hd; reflexivity).
  assert (ring (set_com_data [] s) q) as Hr1 by (destruct Hr; split; assumption).
  pose proof (w8_range b). rewrite (intr_char _ _ _ _ _ _ E ltac:(lia) Hb Hr1).
  pose proof (ring_put _ q (w8 b) Hr1) as Hp. rewrite decide_False in Hp by lia.
  eexists. split; [apply intr_done; reflexivity|]. split; [exact Hp|].
  pose proof (ring_empty _ _ Hp) as G. rewrite bool_decide_eq_true_2 in G by reflexivity.
  apply Z.eqb_eq. exact G.
Qed.






Lemma cons_intr_overrun_witness : ∃ s',
  serial_intr (set_com_data [65] (set_wpos 511 (set_rpos 0 (set_buf (replicate 512 66) demo_con))))
  = Ret tt s' ∧ ring s' [] ∧ rpos s' = wpos s'.
Proof.
  apply (cons_intr_overrun _ (replicate 511 66) 65).
  - split; try (vm_compute; split; congruence); try reflexivity. intros i Hi. rewrite length_replicate in Hi.
    consimpl. rewrite Z.add_0_l, Z.mod_small by lia. rewrite Nat2Z.id.
    rewrite !nth_lookup, !lookup_replicate_2 by lia. reflexivity.
  - reflexivity.
  - reflexivity.
  - reflexivity.
  - discriminate.
Defined.

(** * The display *)

Section display.
Context (txrdy lptrdy : Z → bool).
Implicit Types (s : con).

(** [on_screen b s]: the cursor is before cell [b], and no cell outside the
    screen has been written. *)
Definition on_screen (b : Z) s : Prop :=
  0 ≤ crt_pos s < b ∧ ∀ i, is_Some (crt_buf s !! i) → 0 ≤ i < CRT_SIZE.

(** [runs m P Q]: from [P], [m] returns in [Q]. *)
Definition runs (m : M con unit) (P Q : con → Prop) : Prop :=
  ∀ s, P s → ∃ s', m s = Ret tt s' ∧ Q s'.

Lemma runs_seq m k P Q R : runs m P Q → runs k Q R → runs (m ;; k) P R.
Proof.
  intros Hm Hk s HP. destruct (Hm s HP) as (s1 & E & HQ). destruct (Hk s1 HQ) as (s' & E' & HR).
  exists s'. rewrite (bind_Ret _ _ _ _ _ E). auto.
Qed.
Lemma on_screen_mono b b' s : b ≤ b' → on_screen b s → on_screen b' s.
Proof. intros Hb [? ?]. split; [lia|assumption]. Qed.

Lemma runs_store i v b : 0 ≤ i < CRT_SIZE → runs (crt_store i v) (on_screen b) (on_screen b).
Proof.
  intros Hi s [Hp Hk]. eexists. split; [reflexivity|]. split; consimpl; [assumption|].
  intros j. rewrite lookup_insert_is_Some'. intros [<-|Hj]; [assumption|apply Hk, Hj].
Qed.

Lemma runs_for_range (body : Z → M con unit) (P : con → Prop) n a :
  (∀ i, a ≤ i < a + Z.of_nat n → runs (body i) P P) → runs (for_range n a 1 body) P P.
Proof.
  intros Hb s HP. destruct (for_range_inv (λ _, P) body 1 n a s HP) as (s' & E & H'); [|eauto].
  intros k s1 Hk H1. apply Hb; [lia|assumption].
Qed.

Lemma runs_scroll b : runs crt_scroll (on_screen b) (on_screen b).
Proof.
  unfold crt_scroll. eapply runs_seq; apply runs_for_range; intros i Hi.
  - intros s Hs. rewrite bind_get. apply runs_store; [|assumption].
    change (Z.of_nat (Z.to_nat (CRT_SIZE - CRT_COLS))) with 1920 in Hi. unfold CRT_SIZE, CRT_ROWS, CRT_COLS. lia.
  - apply runs_store. change (Z.of_nat (Z.to_nat CRT_COLS)) with 80 in Hi.
    unfold CRT_SIZE, CRT_ROWS, CRT_COLS in *. lia.
Qed.

Lemma scroll_pos s : ∃ s', crt_scroll s = Ret tt s' ∧ crt_pos s' = crt_pos s.
Proof.
  unfold crt_scroll. eapply (runs_seq _ _ (λ t, crt_pos t = crt_pos s) (λ t, crt_pos t = crt_pos s));
    [| |reflexivity]; apply runs_for_range; intros i _ t Ht.
  - rewrite bind_get. eexists. split; [reflexivity|exact Ht].
  - eexists. split; [reflexivity|exact Ht].
Qed.

Lemma runs_set_pos p b b' : 0 ≤ p < b' → runs (modify (set_crt_pos p)) (on_screen b) (on_screen b').
Proof. intros Hp s [_ Hk]. eexists. split; [reflexivity|]. split; assumption. Qed.

(** The end of cga_putc: scroll when the cursor has left the screen, then
    move the hardware cursor. *)
Definition cga_tail : M con unit :=
  p ← gets crt_pos;
  when (p >=? CRT_SIZE)
    (crt_scroll ;;
     p ← gets crt_pos;
     modify (set_crt_pos (w16 (p - CRT_COLS)))) ;;
  a ← gets addr_6845;
  p ← gets crt_pos;
  outb a 14 ;;
  outb (a + 1) (Z.shiftr p 8) ;;
  outb a 15 ;;
  outb (a + 1) p.

Lemma runs_tail : runs cga_tail (on_screen (CRT_SIZE + CRT_COLS)) (on_screen CRT_SIZE).
Proof.
  intros s Hs. unfold cga_tail. rewrite bind_gets.
  assert (∃ s1, when (crt_pos s >=? CRT_SIZE)
    (crt_scroll ;; p ← gets crt_pos; modify (set_crt_pos (w16 (p - CRT_COLS)))) s = Ret tt s1 ∧
    on_screen CRT_SIZE s1) as (s1 & E & H1).
  { rewrite Z.geb_leb. destruct (Z.leb_spec CRT_SIZE (crt_pos s)) as [Hl|Hl]; cbn [when].
    - destruct (runs_scroll _ s Hs) as (s1 & E & [Hp1 Hk1]). rewrite (bind_Ret _ _ _ _ _ E), bind_gets.
      destruct (scroll_pos s) as (s2 & E2 & Ep). rewrite E in E2. injection E2 as <-.
      eexists. split; [reflexivity|]. split; consimpl; [|assumption].
      rewrite Ep, w16_id; unfold CRT_SIZE, CRT_ROWS, CRT_COLS in *; lia.
    - exists s. split; [reflexivity|]. destruct Hs as [? ?]. split; [lia|assumption]. }
  rewrite (bind_Ret _ _ _ _ _ E), !bind_gets.
  eexists. split; [reflexivity|exact H1].
Qed.

Lemma runs_when (c : bool) m P : runs m P P → runs (when c m) P P.
Proof. intros H s HP. destruct c; [apply H, HP|exists s; auto]. Qed.

Lemma space_char color : Z.land (Z.lor 32 (w32 (Z.shiftl color 8))) 0xff = 32.
Proof.
  rewrite Z.land_lor_distr_l. change 0xff with (Z.ones 8). rewrite (Z.land_ones (w32 _)) by lia.
  replace (w32 (Z.shiftl color 8) mod 2 ^ 8) with 0; [reflexivity|].
  rewrite Z.shiftl_mul_pow2 by lia. unfold w32. change (2 ^ 8) with 256. change (2 ^ 32) with (256 * 16777216).
  Z.div_mod_to_equations. lia.
Qed.

Lemma runs_cga putc c : c = 32 ∨ runs (putc 32) (on_screen CRT_SIZE) (on_screen CRT_SIZE) →
  runs (cga_putc_with putc c) (on_screen CRT_SIZE) (on_screen CRT_SIZE).
Proof.
  intros Hputc s Hs. unfold cga_putc_with. rewrite bind_gets. cbv zeta. fold cga_tail.
  set (c' := if negb (ctrue (Z.land c (Z.lnot 255))) then _ else c).
  match goal with |- context [(?m ;; cga_tail) s] =>
    assert (runs m (on_screen CRT_SIZE) (on_screen (CRT_SIZE + CRT_COLS))) as Hm;
      [|apply (runs_seq _ _ _ _ _ Hm runs_tail s Hs)]
  end.
  assert (Z.land c' 0xff = 9 → runs (putc 32) (on_screen CRT_SIZE) (on_screen CRT_SIZE)) as Htab.
  { destruct Hputc as [->|]; [|auto]. unfold c'. cbn [negb ctrue Z.land Z.lnot]. intros F.
    change (Z.land 32 (Z.lnot 255)) with 0 in F. cbn in F. rewrite space_char in F. discriminate. }
  clearbody c'. clear s Hs. assert (∀ s, on_screen CRT_SIZE s → on_screen (CRT_SIZE + CRT_COLS) s) as Hmono
    by (intros; apply (on_screen_mono CRT_SIZE); [discriminate|assumption]).
  set (ch := Z.land c' 0xff) in *. destruct (ch =? 8).
  { intros s Hs. pose proof Hs as [Hp Hk]. rewrite bind_gets, Z.gtb_ltb.
    destruct (Z.ltb_spec 0 (crt_pos s)) as [Hl|Hl]; cbn [when]; [|exists s; auto].
    rewrite bind_modify, bind_gets. consimpl. rewrite w16_id by (unfold CRT_SIZE, CRT_ROWS, CRT_COLS in *; lia).
    apply runs_store; [lia|]. split; consimpl; [unfold CRT_SIZE, CRT_ROWS, CRT_COLS in *; lia|assumption]. }
  destruct ((ch =? 10) || (ch =? 13)).
  { intros s Hs. pose proof Hs as [Hp Hk].
    assert (∃ s1, when (ch =? 10) (p ← gets crt_pos; modify (set_crt_pos (w16 (p + CRT_COLS)))) s = Ret tt s1 ∧
      on_screen (CRT_SIZE + CRT_COLS) s1) as (s1 & E & [Hp1 Hk1]).
    { destruct (ch =? 10); cbn [when]; [|exists s; auto]. eexists. split; [reflexivity|].
      split; consimpl; [|assumption]. rewrite w16_id; unfold CRT_SIZE, CRT_ROWS, CRT_COLS in *; lia. }
    rewrite (bind_Ret _ _ _ _ _ E), bind_gets. eexists. split; [reflexivity|].
    split; consimpl; [|assumption].
    rewrite w16_id; unfold CRT_SIZE, CRT_ROWS, CRT_COLS in *; Z.div_mod_to_equations; lia. }
  destruct (Z.eqb_spec ch 9) as [H9|H9].
  { specialize (Htab H9). rename Htab into Hp. clear Hputc. rename Hp into Hputc.
    intros s Hs. destruct (runs_seq _ _ _ _ _ Hputc (runs_seq _ _ _ _ _ Hputc (runs_seq _ _ _ _ _ Hputc
      (runs_seq _ _ _ _ _ Hputc Hputc))) s Hs) as (s' & E & H'). exists s'. auto. }
  intros s Hs. pose proof Hs as [Hp Hk]. rewrite bind_gets.
  destruct (runs_store (crt_pos s) c' CRT_SIZE Hp s Hs) as (s1 & E & [Hp1 Hk1]).
  rewrite (bind_Ret _ _ _ _ _ E). eexists. split; [reflexivity|]. split; consimpl; [|assumption].
  rewrite w16_id; unfold CRT_SIZE, CRT_ROWS, CRT_COLS in *; lia.
Qed.

Lemma runs_putc_n n c : c = 32 ∨ runs (cons_putc_n txrdy lptrdy n 32) (on_screen CRT_SIZE) (on_screen CRT_SIZE) →
  runs (cons_putc_n txrdy lptrdy (S n) c) (on_screen CRT_SIZE) (on_screen CRT_SIZE).
Proof.
  intros H s Hs. cbn [cons_putc_n]. unfold serial_putc, lpt_putc, outb. cbv zeta.
  repeat first [rewrite bind_modify|rewrite bind_assoc]. apply (runs_cga _ c H). exact Hs.
Qed.

Lemma runs_cputchar c : runs (cputchar txrdy lptrdy c) (on_screen CRT_SIZE) (on_screen CRT_SIZE).
Proof. apply runs_putc_n. right. apply runs_putc_n. left. reflexivity. Qed.
End display.

(** C36. Whatever character is written, [cputchar] returns, the cursor is
    again inside the 80 by 25 screen, and no cell outside the screen has been
    stored to; in particular a tab ends after five spaces and a full screen
    scrolls. *)
Theorem cputchar_on_screen (txrdy lptrdy : Z → bool) (c : Z) (s : con) :
  0 ≤ crt_pos s < CRT_SIZE → (∀ i, is_Some (crt_buf s !! i) → 0 ≤ i < CRT_SIZE) →
  ∃ s', cputchar txrdy lptrdy c s = Ret tt s' ∧ 0 ≤ crt_pos s' < CRT_SIZE ∧
    ∀ i, is_Some (crt_buf s' !! i) → 0 ≤ i < CRT_SIZE.
Proof.
  intros Hp Hk. apply (runs_cputchar txrdy lptrdy c s). split; assumption.
Qed.

Lemma cputchar_on_screen_witness :
  ∃ s', cputchar (λ _, true) (λ _, true) 10 (set_crt_pos 1990 demo_con) = Ret tt s' ∧
    0 ≤ crt_pos s' < CRT_SIZE ∧ ∀ i, is_Some (crt_buf s' !! i) → 0 ≤ i < CRT_SIZE.
Proof.
  apply cputchar_on_screen.
  - split; [discriminate|reflexivity].
  - intros i [v F]. discriminate F.
Defined.
