(* ===== verification/KState.v ===== *)
(** The state of the kernel as a whole: environments, trap frames, CPUs and
    the big kernel lock (inc/env.h, inc/trap.h, kern/cpu.h), with the
    virtual-memory accesses the processor makes on the kernel's behalf. *)
From S2P Require Import Prelude Mmu Mem Pages PageTable Console.

(** * inc/trap.h *)

Definition T_DIVIDE : Z := 0.
Definition T_DEBUG : Z := 1.
Definition T_NMI : Z := 2.
Definition T_BRKPT : Z := 3.
Definition T_OFLOW : Z := 4.
Definition T_BOUND : Z := 5.
Definition T_ILLOP : Z := 6.
Definition T_DEVICE : Z := 7.
Definition T_DBLFLT : Z := 8.
Definition T_TSS : Z := 10.
Definition T_SEGNP : Z := 11.
Definition T_STACK : Z := 12.
Definition T_GPFLT : Z := 13.
Definition T_PGFLT : Z := 14.
Definition T_FPERR : Z := 16.
Definition T_ALIGN : Z := 17.
Definition T_MCHK : Z := 18.
Definition T_SIMDERR : Z := 19.
Definition T_SYSCALL : Z := 48.
Definition IRQ_OFFSET : Z := 32.
Definition IRQ_TIMER : Z := 0.
Definition IRQ_SPURIOUS : Z := 7.

(** The padding fields of the hardware frames are left out: nothing reads
    them. *)
Record PushRegs := MkPushRegs {
  reg_edi : Z;
  reg_esi : Z;
  reg_ebp : Z;
  reg_oesp : Z;
  reg_ebx : Z;
  reg_edx : Z;
  reg_ecx : Z;
  reg_eax : Z
}.

Definition set_reg_edi (v : Z) (r : PushRegs) : PushRegs :=
  MkPushRegs v (reg_esi r) (reg_ebp r) (reg_oesp r) (reg_ebx r) (reg_edx r) (reg_ecx r)
    (reg_eax r).
Definition set_reg_esi (v : Z) (r : PushRegs) : PushRegs :=
  MkPushRegs (reg_edi r) v (reg_ebp r) (reg_oesp r) (reg_ebx r) (reg_edx r) (reg_ecx r)
    (reg_eax r).
Definition set_reg_ebp (v : Z) (r : PushRegs) : PushRegs :=
  MkPushRegs (reg_edi r) (reg_esi r) v (reg_oesp r) (reg_ebx r) (reg_edx r) (reg_ecx r)
    (reg_eax r).
Definition set_reg_oesp (v : Z) (r : PushRegs) : PushRegs :=
  MkPushRegs (reg_edi r) (reg_esi r) (reg_ebp r) v (reg_ebx r) (reg_edx r) (reg_ecx r) (reg_eax r).
Definition set_reg_ebx (v : Z) (r : PushRegs) : PushRegs :=
  MkPushRegs (reg_edi r) (reg_esi r) (reg_ebp r) (reg_oesp r) v (reg_edx r) (reg_ecx r)
    (reg_eax r).
Definition set_reg_edx (v : Z) (r : PushRegs) : PushRegs :=
  MkPushRegs (reg_edi r) (reg_esi r) (reg_ebp r) (reg_oesp r) (reg_ebx r) v (reg_ecx r)
    (reg_eax r).
Definition set_reg_ecx (v : Z) (r : PushRegs) : PushRegs :=
  MkPushRegs (reg_edi r) (reg_esi r) (reg_ebp r) (reg_oesp r) (reg_ebx r) (reg_edx r) v
    (reg_eax r).
Definition set_reg_eax (v : Z) (r : PushRegs) : PushRegs :=
  MkPushRegs (reg_edi r) (reg_esi r) (reg_ebp r) (reg_oesp r) (reg_ebx r) (reg_edx r) (reg_ecx r)
    v.

Record Trapframe := MkTrapframe {
  tf_regs : PushRegs;
  tf_es : Z;
  tf_ds : Z;
  tf_trapno : Z;
  tf_err : Z;
  tf_eip : Z;
  tf_cs : Z;
  tf_eflags : Z;
  tf_esp : Z;
  tf_ss : Z
}.

Definition set_tf_regs (v : PushRegs) (t : Trapframe) : Trapframe :=
  MkTrapframe v (tf_es t) (tf_ds t) (tf_trapno t) (tf_err t) (tf_eip t) (tf_cs t) (tf_eflags t)
    (tf_esp t) (tf_ss t).
Definition set_tf_es (v : Z) (t : Trapframe) : Trapframe :=
  MkTrapframe (tf_regs t) v (tf_ds t) (tf_trapno t) (tf_err t) (tf_eip t) (tf_cs t) (tf_eflags t)
    (tf_esp t) (tf_ss t).
Definition set_tf_ds (v : Z) (t : Trapframe) : Trapframe :=
  MkTrapframe (tf_regs t) (tf_es t) v (tf_trapno t) (tf_err t) (tf_eip t) (tf_cs t) (tf_eflags t)
    (tf_esp t) (tf_ss t).
Definition set_tf_trapno (v : Z) (t : Trapframe) : Trapframe :=
  MkTrapframe (tf_regs t) (tf_es t) (tf_ds t) v (tf_err t) (tf_eip t) (tf_cs t) (tf_eflags t)
    (tf_esp t) (tf_ss t).
Definition set_tf_err (v : Z) (t : Trapframe) : Trapframe :=
  MkTrapframe (tf_regs t) (tf_es t) (tf_ds t) (tf_trapno t) v (tf_eip t) (tf_cs t) (tf_eflags t)
    (tf_esp t) (tf_ss t).
Definition set_tf_eip (v : Z) (t : Trapframe) : Trapframe :=
  MkTrapframe (tf_regs t) (tf_es t) (tf_ds t) (tf_trapno t) (tf_err t) v (tf_cs t) (tf_eflags t)
    (tf_esp t) (tf_ss t).
Definition set_tf_cs (v : Z) (t : Trapframe) : Trapframe :=
  MkTrapframe (tf_regs t) (tf_es t) (tf_ds t) (tf_trapno t) (tf_err t) (tf_eip t) v (tf_eflags t)
    (tf_esp t) (tf_ss t).
Definition set_tf_eflags (v : Z) (t : Trapframe) : Trapframe :=
  MkTrapframe (tf_regs t) (tf_es t) (tf_ds t) (tf_trapno t) (tf_err t) (tf_eip t) (tf_cs t) v
    (tf_esp t) (tf_ss t).
Definition set_tf_esp (v : Z) (t : Trapframe) : Trapframe :=
  MkTrapframe (tf_regs t) (tf_es t) (tf_ds t) (tf_trapno t) (tf_err t) (tf_eip t) (tf_cs t)
    (tf_eflags t) v (tf_ss t).
Definition set_tf_ss (v : Z) (t : Trapframe) : Trapframe :=
  MkTrapframe (tf_regs t) (tf_es t) (tf_ds t) (tf_trapno t) (tf_err t) (tf_eip t) (tf_cs t)
    (tf_eflags t) (tf_esp t) v.

(** [memset(&tf, 0, sizeof(tf))] *)
Definition zero_regs : PushRegs := MkPushRegs 0 0 0 0 0 0 0 0.
Definition zero_tf : Trapframe := MkTrapframe zero_regs 0 0 0 0 0 0 0 0 0.

(** * inc/env.h *)

Definition LOG2NENV : Z := 10.
Definition NENV : Z := Z.shiftl 1 LOG2NENV.
Definition ENVX (envid : Z) : Z := Z.land envid (NENV - 1).
Definition MAXIPCWAITING : Z := 10.

Definition ENV_FREE : Z := 0.
Definition ENV_DYING : Z := 1.
Definition ENV_RUNNABLE : Z := 2.
Definition ENV_RUNNING : Z := 3.
Definition ENV_NOT_RUNNABLE : Z := 4.
Definition ENV_TYPE_USER : Z := 0.

(** The names of the handler fields [env_pgfault_upcall] ... of [struct Env]. *)
Inductive upcall :=
| env_pgfault_upcall
| env_divzero_upcall
| env_debug_upcall
| env_nmskint_upcall
| env_bpoint_upcall
| env_oflow_upcall
| env_bdschk_upcall
| env_illopcd_upcall
| env_dvcntavl_upcall
| env_dbfault_upcall
| env_ivldtss_upcall
| env_segntprst_upcall
| env_stkexception_upcall
| env_gpfault_upcall
| env_fperror_upcall
| env_algchk_upcall
| env_mchchk_upcall
| env_SIMDfperror_upcall.

#[export] Instance upcall_eq_dec : EqDecision upcall.
Proof. solve_decision. Defined.

(** [env_upcalls e f] is the field [e->f]; pointers to environments are
    indices of [envs]. *)
Record Env := MkEnv {
  env_tf : Trapframe;
  env_link : option Z;
  env_id : Z;
  env_parent_id : Z;
  env_type : Z;
  env_status : Z;
  env_runs : Z;
  env_cpunum : Z;
  env_pgdir : Z;
  env_upcalls : upcall → Z;
  env_ipc_recving : bool;
  env_ipc_dstva : Z;
  env_ipc_value : Z;
  env_ipc_from : Z;
  env_ipc_perm : Z;
  env_ipc_waiting_head : Z;
  env_ipc_waiting_tail : Z;
  env_ipc_waiting : list Z
}.

Definition sizeof_Env : Z := 240.

Definition set_env_tf (v : Trapframe) (e : Env) : Env :=
  MkEnv v (env_link e) (env_id e) (env_parent_id e) (env_type e) (env_status e) (env_runs e)
    (env_cpunum e) (env_pgdir e) (env_upcalls e) (env_ipc_recving e) (env_ipc_dstva e)
    (env_ipc_value e) (env_ipc_from e) (env_ipc_perm e) (env_ipc_waiting_head e)
    (env_ipc_waiting_tail e) (env_ipc_waiting e).
Definition set_env_link (v : option Z) (e : Env) : Env :=
  MkEnv (env_tf e) v (env_id e) (env_parent_id e) (env_type e) (env_status e) (env_runs e)
    (env_cpunum e) (env_pgdir e) (env_upcalls e) (env_ipc_recving e) (env_ipc_dstva e)
    (env_ipc_value e) (env_ipc_from e) (env_ipc_perm e) (env_ipc_waiting_head e)
    (env_ipc_waiting_tail e) (env_ipc_waiting e).
Definition set_env_id (v : Z) (e : Env) : Env :=
  MkEnv (env_tf e) (env_link e) v (env_parent_id e) (env_type e) (env_status e) (env_runs e)
    (env_cpunum e) (env_pgdir e) (env_upcalls e) (env_ipc_recving e) (env_ipc_dstva e)
    (env_ipc_value e) (env_ipc_from e) (env_ipc_perm e) (env_ipc_waiting_head e)
    (env_ipc_waiting_tail e) (env_ipc_waiting e).
Definition set_env_parent_id (v : Z) (e : Env) : Env :=
  MkEnv (env_tf e) (env_link e) (env_id e) v (env_type e) (env_status e) (env_runs e)
    (env_cpunum e) (env_pgdir e) (env_upcalls e) (env_ipc_recving e) (env_ipc_dstva e)
    (env_ipc_value e) (env_ipc_from e) (env_ipc_perm e) (env_ipc_waiting_head e)
    (env_ipc_waiting_tail e) (env_ipc_waiting e).
Definition set_env_type (v : Z) (e : Env) : Env :=
  MkEnv (env_tf e) (env_link e) (env_id e) (env_parent_id e) v (env_status e) (env_runs e)
    (env_cpunum e) (env_pgdir e) (env_upcalls e) (env_ipc_recving e) (env_ipc_dstva e)
    (env_ipc_value e) (env_ipc_from e) (env_ipc_perm e) (env_ipc_waiting_head e)
    (env_ipc_waiting_tail e) (env_ipc_waiting e).
Definition set_env_status (v : Z) (e : Env) : Env :=
  MkEnv (env_tf e) (env_link e) (env_id e) (env_parent_id e) (env_type e) v (env_runs e)
    (env_cpunum e) (env_pgdir e) (env_upcalls e) (env_ipc_recving e) (env_ipc_dstva e)
    (env_ipc_value e) (env_ipc_from e) (env_ipc_perm e) (env_ipc_waiting_head e)
    (env_ipc_waiting_tail e) (env_ipc_waiting e).
Definition set_env_runs (v : Z) (e : Env) : Env :=
  MkEnv (env_tf e) (env_link e) (env_id e) (env_parent_id e) (env_type e) (env_status e) v
    (env_cpunum e) (env_pgdir e) (env_upcalls e) (env_ipc_recving e) (env_ipc_dstva e)
    (env_ipc_value e) (env_ipc_from e) (env_ipc_perm e) (env_ipc_waiting_head e)
    (env_ipc_waiting_tail e) (env_ipc_waiting e).
Definition set_env_cpunum (v : Z) (e : Env) : Env :=
  MkEnv (env_tf e) (env_link e) (env_id e) (env_parent_id e) (env_type e) (env_status e)
    (env_runs e) v (env_pgdir e) (env_upcalls e) (env_ipc_recving e) (env_ipc_dstva e)
    (env_ipc_value e) (env_ipc_from e) (env_ipc_perm e) (env_ipc_waiting_head e)
    (env_ipc_waiting_tail e) (env_ipc_waiting e).
Definition set_env_pgdir (v : Z) (e : Env) : Env :=
  MkEnv (env_tf e) (env_link e) (env_id e) (env_parent_id e) (env_type e) (env_status e)
    (env_runs e) (env_cpunum e) v (env_upcalls e) (env_ipc_recving e) (env_ipc_dstva e)
    (env_ipc_value e) (env_ipc_from e) (env_ipc_perm e) (env_ipc_waiting_head e)
    (env_ipc_waiting_tail e) (env_ipc_waiting e).
Definition set_env_upcalls (v : upcall → Z) (e : Env) : Env :=
  MkEnv (env_tf e) (env_link e) (env_id e) (env_parent_id e) (env_type e) (env_status e)
    (env_runs e) (env_cpunum e) (env_pgdir e) v (env_ipc_recving e) (env_ipc_dstva e)
    (env_ipc_value e) (env_ipc_from e) (env_ipc_perm e) (env_ipc_waiting_head e)
    (env_ipc_waiting_tail e) (env_ipc_waiting e).
Definition set_env_ipc_recving (v : bool) (e : Env) : Env :=
  MkEnv (env_tf e) (env_link e) (env_id e) (env_parent_id e) (env_type e) (env_status e)
    (env_runs e) (env_cpunum e) (env_pgdir e) (env_upcalls e) v (env_ipc_dstva e)
    (env_ipc_value e) (env_ipc_from e) (env_ipc_perm e) (env_ipc_waiting_head e)
    (env_ipc_waiting_tail e) (env_ipc_waiting e).
Definition set_env_ipc_dstva (v : Z) (e : Env) : Env :=
  MkEnv (env_tf e) (env_link e) (env_id e) (env_parent_id e) (env_type e) (env_status e)
    (env_runs e) (env_cpunum e) (env_pgdir e) (env_upcalls e) (env_ipc_recving e) v
    (env_ipc_value e) (env_ipc_from e) (env_ipc_perm e) (env_ipc_waiting_head e)
    (env_ipc_waiting_tail e) (env_ipc_waiting e).
Definition set_env_ipc_value (v : Z) (e : Env) : Env :=
  MkEnv (env_tf e) (env_link e) (env_id e) (env_parent_id e) (env_type e) (env_status e)
    (env_runs e) (env_cpunum e) (env_pgdir e) (env_upcalls e) (env_ipc_recving e)
    (env_ipc_dstva e) v (env_ipc_from e) (env_ipc_perm e) (env_ipc_waiting_head e)
    (env_ipc_waiting_tail e) (env_ipc_waiting e).
Definition set_env_ipc_from (v : Z) (e : Env) : Env :=
  MkEnv (env_tf e) (env_link e) (env_id e) (env_parent_id e) (env_type e) (env_status e)
    (env_runs e) (env_cpunum e) (env_pgdir e) (env_upcalls e) (env_ipc_recving e)
    (env_ipc_dstva e) (env_ipc_value e) v (env_ipc_perm e) (env_ipc_waiting_head e)
    (env_ipc_waiting_tail e) (env_ipc_waiting e).
Definition set_env_ipc_perm (v : Z) (e : Env) : Env :=
  MkEnv (env_tf e) (env_link e) (env_id e) (env_parent_id e) (env_type e) (env_status e)
    (env_runs e) (env_cpunum e) (env_pgdir e) (env_upcalls e) (env_ipc_recving e)
    (env_ipc_dstva e) (env_ipc_value e) (env_ipc_from e) v (env_ipc_waiting_head e)
    (env_ipc_waiting_tail e) (env_ipc_waiting e).
Definition set_env_ipc_waiting_head (v : Z) (e : Env) : Env :=
  MkEnv (env_tf e) (env_link e) (env_id e) (env_parent_id e) (env_type e) (env_status e)
    (env_runs e) (env_cpunum e) (env_pgdir e) (env_upcalls e) (env_ipc_recving e)
    (env_ipc_dstva e) (env_ipc_value e) (env_ipc_from e) (env_ipc_perm e) v
    (env_ipc_waiting_tail e) (env_ipc_waiting e).
Definition set_env_ipc_waiting_tail (v : Z) (e : Env) : Env :=
  MkEnv (env_tf e) (env_link e) (env_id e) (env_parent_id e) (env_type e) (env_status e)
    (env_runs e) (env_cpunum e) (env_pgdir e) (env_upcalls e) (env_ipc_recving e)
    (env_ipc_dstva e) (env_ipc_value e) (env_ipc_from e) (env_ipc_perm e) (env_ipc_waiting_head e)
    v (env_ipc_waiting e).
Definition set_env_ipc_waiting (v : list Z) (e : Env) : Env :=
  MkEnv (env_tf e) (env_link e) (env_id e) (env_parent_id e) (env_type e) (env_status e)
    (env_runs e) (env_cpunum e) (env_pgdir e) (env_upcalls e) (env_ipc_recving e)
    (env_ipc_dstva e) (env_ipc_value e) (env_ipc_from e) (env_ipc_perm e) (env_ipc_waiting_head e)
    (env_ipc_waiting_tail e) v.

Definition set_upcall (f : upcall) (v : Z) (e : Env) : Env :=
  set_env_upcalls (λ g, if decide (g = f) then v else env_upcalls e g) e.

(** * kern/cpu.h *)

Definition NCPU : Z := 8.
Definition CPU_UNUSED : Z := 0.
Definition CPU_STARTED : Z := 1.
Definition CPU_HALTED : Z := 2.

Record CpuInfo := MkCpuInfo {
  cpu_id : Z;
  cpu_status : Z;
  cpu_env : option Z;
  ts_esp0 : Z;
  ts_ss0 : Z
}.

Definition set_cpu_id (v : Z) (c : CpuInfo) : CpuInfo :=
  MkCpuInfo v (cpu_status c) (cpu_env c) (ts_esp0 c) (ts_ss0 c).
Definition set_cpu_status (v : Z) (c : CpuInfo) : CpuInfo :=
  MkCpuInfo (cpu_id c) v (cpu_env c) (ts_esp0 c) (ts_ss0 c).
Definition set_cpu_env (v : option Z) (c : CpuInfo) : CpuInfo :=
  MkCpuInfo (cpu_id c) (cpu_status c) v (ts_esp0 c) (ts_ss0 c).
Definition set_ts_esp0 (v : Z) (c : CpuInfo) : CpuInfo :=
  MkCpuInfo (cpu_id c) (cpu_status c) (cpu_env c) v (ts_ss0 c).
Definition set_ts_ss0 (v : Z) (c : CpuInfo) : CpuInfo :=
  MkCpuInfo (cpu_id c) (cpu_status c) (cpu_env c) (ts_esp0 c) v.

(** * The kernel *)

(** The gates of the interrupt descriptor table and the segments of the
    global one (inc/mmu.h), field by field. *)
Record Gatedesc := MkGate { gd_off_15_0 : Z; gd_sel : Z; gd_args : Z; gd_rsv1 : Z; gd_type : Z;
  gd_s : Z; gd_dpl : Z; gd_p : Z; gd_off_31_16 : Z }.
Record Segdesc := MkSeg { sd_lim_15_0 : Z; sd_base_15_0 : Z; sd_base_23_16 : Z; sd_type : Z;
  sd_s : Z; sd_dpl : Z; sd_p : Z; sd_lim_19_16 : Z; sd_avl : Z; sd_rsv1 : Z; sd_db : Z; sd_g : Z;
  sd_base_31_24 : Z }.

(** A trap frame pointer: a frame on the kernel stack with its address, or the
    [env_tf] of an environment. *)
Inductive tfref := TfStack (at_ : Z) (t : Trapframe) | TfEnv (e : Z).

(** The globals of kern/trap.c, the panic message of kern/init.c, the task
    register of each CPU, and the pointer [lapic] of kern/lapic.c with what is
    stored through it, latest first: the CPU, the physical address and the
    value. *)
Record trapst := MkTrapst {
  idt : gmap Z Gatedesc;
  gdt : gmap Z Segdesc;
  last_tf : option tfref;
  panicstr : bool;
  task_reg : gmap Z Z;
  lapic : Z;
  lapic_writes : list (Z * Z * Z)
}.

Definition set_idt (v : gmap Z Gatedesc) (t : trapst) : trapst :=
  MkTrapst v (gdt t) (last_tf t) (panicstr t) (task_reg t) (lapic t) (lapic_writes t).
Definition set_gdt (v : gmap Z Segdesc) (t : trapst) : trapst :=
  MkTrapst (idt t) v (last_tf t) (panicstr t) (task_reg t) (lapic t) (lapic_writes t).
Definition set_last_tf (v : option tfref) (t : trapst) : trapst :=
  MkTrapst (idt t) (gdt t) v (panicstr t) (task_reg t) (lapic t) (lapic_writes t).
Definition set_panicstr (v : bool) (t : trapst) : trapst :=
  MkTrapst (idt t) (gdt t) (last_tf t) v (task_reg t) (lapic t) (lapic_writes t).
Definition set_task_reg (v : gmap Z Z) (t : trapst) : trapst :=
  MkTrapst (idt t) (gdt t) (last_tf t) (panicstr t) v (lapic t) (lapic_writes t).
Definition set_lapic (v : Z) (t : trapst) : trapst :=
  MkTrapst (idt t) (gdt t) (last_tf t) (panicstr t) (task_reg t) v (lapic_writes t).
Definition set_lapic_writes (v : list (Z * Z * Z)) (t : trapst) : trapst :=
  MkTrapst (idt t) (gdt t) (last_tf t) (panicstr t) (task_reg t) (lapic t) v.

(** [cpunum] is the CPU whose execution is described, [klock] the CPU that
    holds kernel_lock, [klog] the calls of cprintf, latest first, each with its
    format and its integer arguments, [kcons] the console's state and [ktrap] that of the trap
    code. *)
Record ks := MkKs {
  kpm : pm;
  envs : gmap Z Env;
  env_free_list : option Z;
  cpus : gmap Z CpuInfo;
  cpunum : Z;
  klock : option Z;
  klog : list (string * list Z);
  kcons : con;
  ktrap : trapst
}.

Definition set_kpm (v : pm) (s : ks) : ks :=
  MkKs v (envs s) (env_free_list s) (cpus s) (cpunum s) (klock s) (klog s) (kcons s) (ktrap s).
Definition set_envs (v : gmap Z Env) (s : ks) : ks :=
  MkKs (kpm s) v (env_free_list s) (cpus s) (cpunum s) (klock s) (klog s) (kcons s) (ktrap s).
Definition set_env_free_list (v : option Z) (s : ks) : ks :=
  MkKs (kpm s) (envs s) v (cpus s) (cpunum s) (klock s) (klog s) (kcons s) (ktrap s).
Definition set_cpus (v : gmap Z CpuInfo) (s : ks) : ks :=
  MkKs (kpm s) (envs s) (env_free_list s) v (cpunum s) (klock s) (klog s) (kcons s) (ktrap s).
Definition set_cpunum (v : Z) (s : ks) : ks :=
  MkKs (kpm s) (envs s) (env_free_list s) (cpus s) v (klock s) (klog s) (kcons s) (ktrap s).
Definition set_klock (v : option Z) (s : ks) : ks :=
  MkKs (kpm s) (envs s) (env_free_list s) (cpus s) (cpunum s) v (klog s) (kcons s) (ktrap s).
Definition set_klog (v : list (string * list Z)) (s : ks) : ks :=
  MkKs (kpm s) (envs s) (env_free_list s) (cpus s) (cpunum s) (klock s) v (kcons s) (ktrap s).
Definition set_kcons (v : con) (s : ks) : ks :=
  MkKs (kpm s) (envs s) (env_free_list s) (cpus s) (cpunum s) (klock s) (klog s) v (ktrap s).
Definition set_ktrap (v : trapst) (s : ks) : ks :=
  MkKs (kpm s) (envs s) (env_free_list s) (cpus s) (cpunum s) (klock s) (klog s) (kcons s) v.

Definition cprintf (fmt : string) (args : list Z) : M ks unit :=
  modify (λ s, set_klog ((fmt, args) :: klog s) s).

(** [envs[i].field] reads and updates; [&envs[NENV]] and beyond are not
    environments. *)
Definition env_get (i : Z) : M ks Env := λ s,
  match envs s !! i with
  | Some e => Ret e s
  | None => Stop (SUndef "not an environment") s
  end.
Definition env_upd (i : Z) (f : Env → Env) : M ks unit := λ s,
  match envs s !! i with
  | Some e => Ret tt (set_envs (<[i := f e]> (envs s)) s)
  | None => Stop (SUndef "not an environment") s
  end.

Definition thiscpu : M ks CpuInfo := λ s,
  match cpus s !! cpunum s with
  | Some c => Ret c s
  | None => Stop (SUndef "not a CPU") s
  end.
Definition thiscpu_upd (f : CpuInfo → CpuInfo) : M ks unit := λ s,
  match cpus s !! cpunum s with
  | Some c => Ret tt (set_cpus (<[cpunum s := f c]> (cpus s)) s)
  | None => Stop (SUndef "not a CPU") s
  end.

Definition curenv : M ks (option Z) := c ← thiscpu; mret (cpu_env c).
Definition set_curenv (e : option Z) : M ks unit := thiscpu_upd (set_cpu_env e).
(** [curenv->...], where curenv must not be NULL. *)
Definition curenv_deref : M ks Z :=
  c ← curenv;
  match c with Some e => mret e | None => undef "NULL curenv" end.

(** What tlb_invalidate compares with: [curenv->env_pgdir], if there is a
    current environment. *)
Definition cur_pgdir (s : ks) : option Z :=
  c ← cpus s !! cpunum s; e ← cpu_env c; env_pgdir <$> (envs s !! e).

Definition kpm_lens : lens ks pm := Lens kpm set_kpm.
Definition intrap (f : trapst → trapst) : M ks unit := modify (λ s, set_ktrap (f (ktrap s)) s).
Definition kcons_lens : lens ks con := Lens kcons set_kcons.
Definition incon {A} (m : M con A) : M ks A := lift kcons_lens m.
Definition inpm {A} (m : M pm A) : M ks A := lift kpm_lens m.
Definition inpm_cur {A} (m : option Z → M pm A) : M ks A := λ s, inpm (m (cur_pgdir s)) s.

Definition lcr3 (pa : Z) : M ks unit := inpm (modify (with_cr3 pa)).

(** * kern/spinlock.h: the big kernel lock

    DEBUG_SPINLOCK is defined.  A CPU that waits for another one to release
    the lock does not get further by itself: the interleavings of CPUs are
    the subject of Spinlock. *)
Definition lock_kernel : M ks unit := λ s,
  match klock s with
  | None => Ret tt (set_klock (Some (cpunum s)) s)
  | Some c => if c =? cpunum s
              then Stop (SPanic "CPU %d cannot acquire %s: already holding") s
              else Stop SLoop s
  end.
Definition unlock_kernel : M ks unit := λ s,
  match klock s with
  | Some c => if c =? cpunum s then Ret tt (set_klock None s) else Stop (SPanic "spin_unlock") s
  | None => Stop (SUndef "lk->cpu is NULL") s
  end.

Lemma unlock_run s : klock s = Some (cpunum s) → unlock_kernel s = Ret tt (set_klock None s).
Proof. intros H. unfold unlock_kernel. rewrite H, Z.eqb_refl. reflexivity. Qed.

(** * Virtual memory as the processor sees it

    A kernel access to an address below KERNBASE goes through the page tables
    of the directory in %cr3, with CR0_WP set; above it the kernel's mapping
    of physical memory applies.  A kernel access that faults ends in
    page_fault_handler, which panics. *)
Definition translate (s : pm) (write user : bool) (va : Z) : option Z :=
  let pde := ld32 (phys s) (cr3 s + 4 * PDX va) in
  if negb (is_present pde) then None
  else
    let pte := ld32 (phys s) (PTE_ADDR pde + 4 * PTX va) in
    if negb (is_present pte) then None
    else if write && negb (ctrue (Z.land (Z.land pde pte) PTE_W)) then None
    else if user && negb (ctrue (Z.land (Z.land pde pte) PTE_U)) then None
    else Some (PTE_ADDR pte + PGOFF va).

Definition kaddr (s : pm) (write : bool) (va : Z) : option Z :=
  if va >=? KERNBASE then Some (va - KERNBASE) else translate s write false va.

Definition vld8 (va : Z) : M pm Z := λ s,
  match kaddr s false va with
  | Some pa => Ret (ld8 (phys s) pa) s
  | None => Stop (SPanic "page fault in kernel mode!") s
  end.
Definition vst8 (va v : Z) : M pm unit := λ s,
  match kaddr s true va with
  | Some pa => Ret tt (with_phys (st8 (phys s) pa v) s)
  | None => Stop (SPanic "page fault in kernel mode!") s
  end.
Definition vld16 (va : Z) : M pm Z :=
  b0 ← vld8 va; b1 ← vld8 (va + 1); mret (b0 + 2 ^ 8 * b1).
Definition vld32 (va : Z) : M pm Z :=
  h0 ← vld16 va; h1 ← vld16 (va + 2); mret (h0 + 2 ^ 16 * h1).
Definition vst32 (va v : Z) : M pm unit :=
  vst8 va v ;; vst8 (va + 1) (v / 2 ^ 8) ;; vst8 (va + 2) (v / 2 ^ 16) ;;
  vst8 (va + 3) (v / 2 ^ 24).

(** memset and memcpy on virtual addresses. *)
Fixpoint vmemset (n : nat) (va c : Z) : M pm unit :=
  match n with
  | O => mret tt
  | S n => vst8 va c ;; vmemset n (w32 (va + 1)) c
  end.
Fixpoint vmemcpy (n : nat) (dst src : Z) : M pm unit :=
  match n with
  | O => mret tt
  | S n => b ← vld8 src; vst8 dst b ;; vmemcpy n (w32 (dst + 1)) (w32 (src + 1))
  end.

(** * Equations *)

(** Field accesses of updated states. *)
Ltac ksimpl :=
  cbn [reg_edi reg_esi reg_ebp reg_oesp reg_ebx reg_edx reg_ecx reg_eax tf_regs tf_es tf_ds
       tf_trapno tf_err tf_eip tf_cs tf_eflags tf_esp tf_ss env_tf env_link env_id
       env_parent_id env_type env_status env_runs env_cpunum env_pgdir env_upcalls
       env_ipc_recving env_ipc_dstva env_ipc_value env_ipc_from env_ipc_perm
       env_ipc_waiting_head env_ipc_waiting_tail env_ipc_waiting cpu_id cpu_status cpu_env
       ts_esp0 ts_ss0 idt gdt last_tf panicstr task_reg lapic lapic_writes kpm envs
       env_free_list cpus cpunum klock klog kcons ktrap set_reg_edi set_reg_esi set_reg_ebp
       set_reg_oesp set_reg_ebx set_reg_edx set_reg_ecx set_reg_eax set_tf_regs set_tf_es
       set_tf_ds set_tf_trapno set_tf_err set_tf_eip set_tf_cs set_tf_eflags set_tf_esp
       set_tf_ss set_env_tf set_env_link set_env_id set_env_parent_id set_env_type
       set_env_status set_env_runs set_env_cpunum set_env_pgdir set_env_upcalls
       set_env_ipc_recving set_env_ipc_dstva set_env_ipc_value set_env_ipc_from
       set_env_ipc_perm set_env_ipc_waiting_head set_env_ipc_waiting_tail set_env_ipc_waiting
       set_cpu_id set_cpu_status set_cpu_env set_ts_esp0 set_ts_ss0 set_idt set_gdt set_last_tf
       set_panicstr set_task_reg set_lapic set_lapic_writes set_kpm set_envs set_env_free_list
       set_cpus set_cpunum set_klock set_klog set_kcons set_ktrap] in *.

Section equations.
Implicit Types (s : ks) (i : Z).

Lemma env_get_eq s i e : envs s !! i = Some e → env_get i s = Ret e s.
Proof. unfold env_get. intros ->. reflexivity. Qed.
Lemma env_upd_eq s i e f : envs s !! i = Some e →
  env_upd i f s = Ret tt (set_envs (<[i := f e]> (envs s)) s).
Proof. unfold env_upd. intros ->. reflexivity. Qed.
Lemma thiscpu_eq s c : cpus s !! cpunum s = Some c → thiscpu s = Ret c s.
Proof. unfold thiscpu. intros ->. reflexivity. Qed.
Lemma thiscpu_upd_eq s c f : cpus s !! cpunum s = Some c →
  thiscpu_upd f s = Ret tt (set_cpus (<[cpunum s := f c]> (cpus s)) s).
Proof. unfold thiscpu_upd. intros ->. reflexivity. Qed.
Lemma curenv_eq s c : cpus s !! cpunum s = Some c → curenv s = Ret (cpu_env c) s.
Proof. intros H. unfold curenv. rewrite (bind_Ret _ _ _ _ _ (thiscpu_eq s c H)). reflexivity. Qed.
Lemma set_curenv_eq s c e : cpus s !! cpunum s = Some c →
  set_curenv e s = Ret tt (set_cpus (<[cpunum s := set_cpu_env e c]> (cpus s)) s).
Proof. apply thiscpu_upd_eq. Qed.
Lemma inpm_Ret {A} (m : M pm A) s a t : m (kpm s) = Ret a t → inpm m s = Ret a (set_kpm t s).
Proof. unfold inpm, lift. cbn [view update kpm_lens]. intros ->. reflexivity. Qed.
Lemma inpm_Stop {A} (m : M pm A) s w t : m (kpm s) = Stop w t → inpm m s = Stop w (set_kpm t s).
Proof. unfold inpm, lift. cbn [view update kpm_lens]. intros ->. reflexivity. Qed.
Lemma set_kpm_same s : set_kpm (kpm s) s = s.
Proof. destruct s. reflexivity. Qed.
End equations.

(** Updates of the kernel state: the later of two updates of a field counts,
    and updates of different fields commute.  The rewrite database [ks] moves
    updates of earlier fields outwards. *)
Section updates.
Implicit Types (s : ks).
Lemma set_kpm_set_kpm s v w : set_kpm v (set_kpm w s) = set_kpm v s.
Proof. reflexivity. Qed.
Lemma set_envs_set_envs s v w : set_envs v (set_envs w s) = set_envs v s.
Proof. reflexivity. Qed.
Lemma set_envs_set_kpm s v w : set_envs v (set_kpm w s) = set_kpm w (set_envs v s).
Proof. reflexivity. Qed.
Lemma set_env_free_list_set_env_free_list s v w : set_env_free_list v (set_env_free_list w s) = set_env_free_list v s.
Proof. reflexivity. Qed.
Lemma set_env_free_list_set_kpm s v w : set_env_free_list v (set_kpm w s) = set_kpm w (set_env_free_list v s).
Proof. reflexivity. Qed.
Lemma set_env_free_list_set_envs s v w : set_env_free_list v (set_envs w s) = set_envs w (set_env_free_list v s).
Proof. reflexivity. Qed.
Lemma set_cpus_set_cpus s v w : set_cpus v (set_cpus w s) = set_cpus v s.
Proof. reflexivity. Qed.
Lemma set_cpus_set_kpm s v w : set_cpus v (set_kpm w s) = set_kpm w (set_cpus v s).
Proof. reflexivity. Qed.
Lemma set_cpus_set_envs s v w : set_cpus v (set_envs w s) = set_envs w (set_cpus v s).
Proof. reflexivity. Qed.
Lemma set_cpus_set_env_free_list s v w : set_cpus v (set_env_free_list w s) = set_env_free_list w (set_cpus v s).
Proof. reflexivity. Qed.
Lemma set_cpunum_set_cpunum s v w : set_cpunum v (set_cpunum w s) = set_cpunum v s.
Proof. reflexivity. Qed.
Lemma set_cpunum_set_kpm s v w : set_cpunum v (set_kpm w s) = set_kpm w (set_cpunum v s).
Proof. reflexivity. Qed.
Lemma set_cpunum_set_envs s v w : set_cpunum v (set_envs w s) = set_envs w (set_cpunum v s).
Proof. reflexivity. Qed.
Lemma set_cpunum_set_env_free_list s v w : set_cpunum v (set_env_free_list w s) = set_env_free_list w (set_cpunum v s).
Proof. reflexivity. Qed.
Lemma set_cpunum_set_cpus s v w : set_cpunum v (set_cpus w s) = set_cpus w (set_cpunum v s).
Proof. reflexivity. Qed.
Lemma set_klock_set_klock s v w : set_klock v (set_klock w s) = set_klock v s.
Proof. reflexivity. Qed.
Lemma set_klock_set_kpm s v w : set_klock v (set_kpm w s) = set_kpm w (set_klock v s).
Proof. reflexivity. Qed.
Lemma set_klock_set_envs s v w : set_klock v (set_envs w s) = set_envs w (set_klock v s).
Proof. reflexivity. Qed.
Lemma set_klock_set_env_free_list s v w : set_klock v (set_env_free_list w s) = set_env_free_list w (set_klock v s).
Proof. reflexivity. Qed.
Lemma set_klock_set_cpus s v w : set_klock v (set_cpus w s) = set_cpus w (set_klock v s).
Proof. reflexivity. Qed.
Lemma set_klock_set_cpunum s v w : set_klock v (set_cpunum w s) = set_cpunum w (set_klock v s).
Proof. reflexivity. Qed.
Lemma set_klog_set_klog s v w : set_klog v (set_klog w s) = set_klog v s.
Proof. reflexivity. Qed.
Lemma set_klog_set_kpm s v w : set_klog v (set_kpm w s) = set_kpm w (set_klog v s).
Proof. reflexivity. Qed.
Lemma set_klog_set_envs s v w : set_klog v (set_envs w s) = set_envs w (set_klog v s).
Proof. reflexivity. Qed.
Lemma set_klog_set_env_free_list s v w : set_klog v (set_env_free_list w s) = set_env_free_list w (set_klog v s).
Proof. reflexivity. Qed.
Lemma set_klog_set_cpus s v w : set_klog v (set_cpus w s) = set_cpus w (set_klog v s).
Proof. reflexivity. Qed.
Lemma set_klog_set_cpunum s v w : set_klog v (set_cpunum w s) = set_cpunum w (set_klog v s).
Proof. reflexivity. Qed.
Lemma set_klog_set_klock s v w : set_klog v (set_klock w s) = set_klock w (set_klog v s).
Proof. reflexivity. Qed.
Lemma set_kcons_set_kcons s v w : set_kcons v (set_kcons w s) = set_kcons v s.
Proof. reflexivity. Qed.
Lemma set_kcons_set_kpm s v w : set_kcons v (set_kpm w s) = set_kpm w (set_kcons v s).
Proof. reflexivity. Qed.
Lemma set_kcons_set_envs s v w : set_kcons v (set_envs w s) = set_envs w (set_kcons v s).
Proof. reflexivity. Qed.
Lemma set_kcons_set_env_free_list s v w : set_kcons v (set_env_free_list w s) = set_env_free_list w (set_kcons v s).
Proof. reflexivity. Qed.
Lemma set_kcons_set_cpus s v w : set_kcons v (set_cpus w s) = set_cpus w (set_kcons v s).
Proof. reflexivity. Qed.
Lemma set_kcons_set_cpunum s v w : set_kcons v (set_cpunum w s) = set_cpunum w (set_kcons v s).
Proof. reflexivity. Qed.
Lemma set_kcons_set_klock s v w : set_kcons v (set_klock w s) = set_klock w (set_kcons v s).
Proof. reflexivity. Qed.
Lemma set_kcons_set_klog s v w : set_kcons v (set_klog w s) = set_klog w (set_kcons v s).
Proof. reflexivity. Qed.
Lemma set_ktrap_set_ktrap s v w : set_ktrap v (set_ktrap w s) = set_ktrap v s.
Proof. reflexivity. Qed.
Lemma set_ktrap_set_kpm s v w : set_ktrap v (set_kpm w s) = set_kpm w (set_ktrap v s).
Proof. reflexivity. Qed.
Lemma set_ktrap_set_envs s v w : set_ktrap v (set_envs w s) = set_envs w (set_ktrap v s).
Proof. reflexivity. Qed.
Lemma set_ktrap_set_env_free_list s v w : set_ktrap v (set_env_free_list w s) = set_env_free_list w (set_ktrap v s).
Proof. reflexivity. Qed.
Lemma set_ktrap_set_cpus s v w : set_ktrap v (set_cpus w s) = set_cpus w (set_ktrap v s).
Proof. reflexivity. Qed.
Lemma set_ktrap_set_cpunum s v w : set_ktrap v (set_cpunum w s) = set_cpunum w (set_ktrap v s).
Proof. reflexivity. Qed.
Lemma set_ktrap_set_klock s v w : set_ktrap v (set_klock w s) = set_klock w (set_ktrap v s).
Proof. reflexivity. Qed.
Lemma set_ktrap_set_klog s v w : set_ktrap v (set_klog w s) = set_klog w (set_ktrap v s).
Proof. reflexivity. Qed.
Lemma set_ktrap_set_kcons s v w : set_ktrap v (set_kcons w s) = set_kcons w (set_ktrap v s).
Proof. reflexivity. Qed.
End updates.

#[export] Hint Rewrite set_kpm_set_kpm set_envs_set_envs set_envs_set_kpm set_env_free_list_set_env_free_list
  set_env_free_list_set_kpm set_env_free_list_set_envs set_cpus_set_cpus
  set_cpus_set_kpm set_cpus_set_envs set_cpus_set_env_free_list set_cpunum_set_cpunum
  set_cpunum_set_kpm set_cpunum_set_envs set_cpunum_set_env_free_list
  set_cpunum_set_cpus set_klock_set_klock set_klock_set_kpm set_klock_set_envs
  set_klock_set_env_free_list set_klock_set_cpus set_klock_set_cpunum set_klog_set_klog
  set_klog_set_kpm set_klog_set_envs set_klog_set_env_free_list set_klog_set_cpus
  set_klog_set_cpunum set_klog_set_klock set_kcons_set_kcons set_kcons_set_kpm
  set_kcons_set_envs set_kcons_set_env_free_list set_kcons_set_cpus set_kcons_set_cpunum
  set_kcons_set_klock set_kcons_set_klog set_ktrap_set_ktrap set_ktrap_set_kpm
  set_ktrap_set_envs set_ktrap_set_env_free_list set_ktrap_set_cpus set_ktrap_set_cpunum
  set_ktrap_set_klock set_ktrap_set_klog set_ktrap_set_kcons : ks.

Lemma vld32_kaddr s va a : (∀ j, 0 ≤ j < 4 → kaddr s false (va + j) = Some (a + j)) →
  vld32 va s = Ret (ld32 (phys s) a) s.
Proof.
  intros H. assert (∀ j, 0 ≤ j < 4 → vld8 (va + j) s = Ret (ld8 (phys s) (a + j)) s) as L
    by (intros j Hj; unfold vld8; rewrite H by assumption; reflexivity).
  pose proof (L 0 ltac:(lia)) as L0. rewrite !Z.add_0_r in L0.
  unfold vld32, vld16. rewrite bind_assoc, (bind_Ret _ _ _ _ _ L0), bind_assoc.
  rewrite (bind_Ret _ _ _ _ _ (L 1 ltac:(lia))), bind_mret, bind_assoc, (bind_Ret _ _ _ _ _ (L 2 ltac:(lia))), bind_assoc.
  pose proof (L 3 ltac:(lia)) as L3. replace (va + 3) with (va + 2 + 1) in L3 by lia.
  rewrite (bind_Ret _ _ _ _ _ L3). mrun. unfold ld32, ld16. replace (a + 2 + 1) with (a + 3) by lia. reflexivity.
Qed.
