(* ===== verification/Lapic.v ===== *)
(** The local interrupt controllers (kern/lapic.c).  Each CPU reaches its own
    through the same physical addresses, which mmio_map_region makes
    accessible; what a controller answers to reads is a parameter. *)
From S2P Require Import Prelude Mmu Mem Pages PageTable Console KState.

(** * Registers, as indices of an array of words *)

Definition ID : Z := 0x0020 / 4.
Definition VER : Z := 0x0030 / 4.
Definition TPR : Z := 0x0080 / 4.
Definition EOI : Z := 0x00B0 / 4.
Definition SVR : Z := 0x00F0 / 4.
Definition ENABLE : Z := 0x00000100.
Definition ESR : Z := 0x0280 / 4.
Definition ICRLO : Z := 0x0300 / 4.
Definition INIT : Z := 0x00000500.
Definition STARTUP : Z := 0x00000600.
Definition DELIVS : Z := 0x00001000.
Definition ASSERT : Z := 0x00004000.
Definition LEVEL : Z := 0x00008000.
Definition BCAST : Z := 0x00080000.
Definition OTHERS : Z := 0x000C0000.
Definition FIXED : Z := 0x00000000.
Definition ICRHI : Z := 0x0310 / 4.
Definition TIMER : Z := 0x0320 / 4.
Definition X1 : Z := 0x0000000B.
Definition PERIODIC : Z := 0x00020000.
Definition PCINT : Z := 0x0340 / 4.
Definition LINT0 : Z := 0x0350 / 4.
Definition LINT1 : Z := 0x0360 / 4.
Definition ERROR : Z := 0x0370 / 4.
Definition MASKED : Z := 0x00010000.
Definition TICR : Z := 0x0380 / 4.
Definition TDCR : Z := 0x03E0 / 4.

(** * Access *)

(** The physical address the processor accesses for [lapic[index]]. *)
Definition lapic_reg (write : bool) (index : Z) : M ks Z := λ s,
  match kaddr (kpm s) write (w32 (lapic (ktrap s) + 4 * index)) with
  | Some pa => Ret pa s
  | None => Stop (SPanic "page fault in kernel mode!") s
  end.

(** The value read back is not used. *)
Definition lapicw (index value : Z) : M ks unit :=
  a ← lapic_reg true index;
  n ← gets cpunum;
  intrap (λ t, set_lapic_writes ((n, a, w32 value) :: lapic_writes t) t) ;;
  lapic_reg false ID ;;
  mret tt.

Definition lapic_eoi : M ks unit :=
  p ← gets (λ s, lapic (ktrap s)); when (negb (p =? 0)) (lapicw EOI 0).

Section lapic.
(** [lapic_rd n writes t a]: what CPU [n] reads at physical address [a] when the
    controllers have been sent [writes], at the [t]-th look at the register
    since then; they keep the promise of [lapic_ok] in LapicSpec. *)
Context (lapic_rd : Z → list (Z * Z * Z) → nat → Z → Z).

(** [lapic[index]] *)
Definition lapicr (t : nat) (index : Z) : M ks Z :=
  a ← lapic_reg false index;
  s ← get;
  mret (lapic_rd (cpunum s) (lapic_writes (ktrap s)) t a).

(** The function cpunum.  The rest of the kernel's model has the number of the
    running CPU in the field [cpunum] of its state. *)
Definition cpunum_read : M ks Z :=
  p ← gets (λ s, lapic (ktrap s));
  if negb (p =? 0) then v ← lapicr 0 ID; mret (Z.shiftr v 24) else mret 0.

(** [while (lapic[ICRLO] & DELIVS);], one look per unit of fuel. *)
Fixpoint wait_delivs (polls t : nat) : M ks unit :=
  match polls with
  | O => stop_with SLoop
  | S polls => v ← lapicr t ICRLO; if ctrue (Z.land v DELIVS) then wait_delivs polls (S t) else mret tt
  end.

Definition IRQ_ERROR : Z := 19.

(** [lapicaddr] and [bootcpu] (an index of [cpus]) are the variables of
    kern/mpconfig.c. *)
Definition lapic_init (polls : nat) (lapicaddr bootcpu : Z) : M ks unit :=
  if lapicaddr =? 0 then mret tt
  else
    p ← inpm (mmio_map_region lapicaddr 4096);
    intrap (set_lapic p) ;;
    lapicw SVR (Z.lor ENABLE (IRQ_OFFSET + IRQ_SPURIOUS)) ;;
    lapicw TDCR X1 ;;
    lapicw TIMER (Z.lor PERIODIC (IRQ_OFFSET + IRQ_TIMER)) ;;
    lapicw TICR 10000000 ;;
    n ← cpunum_read;
    when (negb (n =? bootcpu)) (lapicw LINT0 MASKED) ;;
    lapicw LINT1 MASKED ;;
    v ← lapicr 0 VER;
    when (Z.land (Z.shiftr v 16) 0xFF >=? 4) (lapicw PCINT MASKED) ;;
    lapicw ERROR (IRQ_OFFSET + IRQ_ERROR) ;;
    lapicw ESR 0 ;;
    lapicw ESR 0 ;;
    lapicw EOI 0 ;;
    lapicw ICRHI 0 ;;
    lapicw ICRLO (Z.lor (Z.lor BCAST INIT) LEVEL) ;;
    wait_delivs polls 0 ;;
    lapicw TPR 0.

Definition IO_RTC : Z := 0x70.

(** kern/kclock.c: what is written is a port write like the others; its reads
    are in Pages. *)
Definition mc146818_write (reg datum : Z) : M con unit :=
  outb IO_RTC reg ;;
  outb (IO_RTC + 1) datum.

(** [wrv[0] = v] for an address the kernel maps at KERNBASE *)
Definition kst16 (va v : Z) : M pm unit := modify (λ s, with_phys (st16 (phys s) (va - KERNBASE) v) s).

Definition lapic_startap (apicid addr : Z) : M ks unit :=
  incon (outb IO_RTC 0xF) ;;
  incon (outb (IO_RTC + 1) 0x0A) ;;
  wrv ← inpm (KADDR (Z.lor (Z.shiftl 0x40 4) 0x67));
  inpm (kst16 wrv 0) ;;
  inpm (kst16 (wrv + 2) (Z.shiftr addr 4)) ;;
  lapicw ICRHI (Z.shiftl apicid 24) ;;
  lapicw ICRLO (Z.lor (Z.lor INIT LEVEL) ASSERT) ;;
  lapicw ICRLO (Z.lor INIT LEVEL) ;;
  for_range 2 0 1 (λ _,
    lapicw ICRHI (Z.shiftl apicid 24) ;;
    lapicw ICRLO (Z.lor STARTUP (Z.shiftr addr 12))).

Definition lapic_ipi (polls : nat) (vector : Z) : M ks unit :=
  lapicw ICRLO (Z.lor (Z.lor OTHERS FIXED) vector) ;;
  wait_delivs polls 0.
End lapic.
