(* ===== verification/EntryPgdir.v ===== *)
(** The page directory and the page table the kernel runs on until mem_init
    has built its own (kern/entrypgdir.c), and what the processor makes of
    them. *)
From S2P Require Import Prelude Mmu Mem Pages PageTable AddrSpace UserMem KState.

(** * The tables *)

(** [pa | PTE_P | PTE_W], the form of every initialiser of the page table. *)
Definition pte_pw (pa : Z) : Z := Z.lor (Z.lor pa PTE_P) PTE_W.

(** The 1024 initialisers of entry_pgtable, 128 at a time. *)
Definition entry_pgtable_0 : list Z := pte_pw <$>
  [0x000000; 0x001000; 0x002000; 0x003000; 0x004000; 0x005000; 0x006000; 0x007000;
   0x008000; 0x009000; 0x00a000; 0x00b000; 0x00c000; 0x00d000; 0x00e000; 0x00f000;
   0x010000; 0x011000; 0x012000; 0x013000; 0x014000; 0x015000; 0x016000; 0x017000;
   0x018000; 0x019000; 0x01a000; 0x01b000; 0x01c000; 0x01d000; 0x01e000; 0x01f000;
   0x020000; 0x021000; 0x022000; 0x023000; 0x024000; 0x025000; 0x026000; 0x027000;
   0x028000; 0x029000; 0x02a000; 0x02b000; 0x02c000; 0x02d000; 0x02e000; 0x02f000;
   0x030000; 0x031000; 0x032000; 0x033000; 0x034000; 0x035000; 0x036000; 0x037000;
   0x038000; 0x039000; 0x03a000; 0x03b000; 0x03c000; 0x03d000; 0x03e000; 0x03f000;
   0x040000; 0x041000; 0x042000; 0x043000; 0x044000; 0x045000; 0x046000; 0x047000;
   0x048000; 0x049000; 0x04a000; 0x04b000; 0x04c000; 0x04d000; 0x04e000; 0x04f000;
   0x050000; 0x051000; 0x052000; 0x053000; 0x054000; 0x055000; 0x056000; 0x057000;
   0x058000; 0x059000; 0x05a000; 0x05b000; 0x05c000; 0x05d000; 0x05e000; 0x05f000;
   0x060000; 0x061000; 0x062000; 0x063000; 0x064000; 0x065000; 0x066000; 0x067000;
   0x068000; 0x069000; 0x06a000; 0x06b000; 0x06c000; 0x06d000; 0x06e000; 0x06f000;
   0x070000; 0x071000; 0x072000; 0x073000; 0x074000; 0x075000; 0x076000; 0x077000;
   0x078000; 0x079000; 0x07a000; 0x07b000; 0x07c000; 0x07d000; 0x07e000; 0x07f000].
Definition entry_pgtable_1 : list Z := pte_pw <$>
  [0x080000; 0x081000; 0x082000; 0x083000; 0x084000; 0x085000; 0x086000; 0x087000;
   0x088000; 0x089000; 0x08a000; 0x08b000; 0x08c000; 0x08d000; 0x08e000; 0x08f000;
   0x090000; 0x091000; 0x092000; 0x093000; 0x094000; 0x095000; 0x096000; 0x097000;
   0x098000; 0x099000; 0x09a000; 0x09b000; 0x09c000; 0x09d000; 0x09e000; 0x09f000;
   0x0a0000; 0x0a1000; 0x0a2000; 0x0a3000; 0x0a4000; 0x0a5000; 0x0a6000; 0x0a7000;
   0x0a8000; 0x0a9000; 0x0aa000; 0x0ab000; 0x0ac000; 0x0ad000; 0x0ae000; 0x0af000;
   0x0b0000; 0x0b1000; 0x0b2000; 0x0b3000; 0x0b4000; 0x0b5000; 0x0b6000; 0x0b7000;
   0x0b8000; 0x0b9000; 0x0ba000; 0x0bb000; 0x0bc000; 0x0bd000; 0x0be000; 0x0bf000;
   0x0c0000; 0x0c1000; 0x0c2000; 0x0c3000; 0x0c4000; 0x0c5000; 0x0c6000; 0x0c7000;
   0x0c8000; 0x0c9000; 0x0ca000; 0x0cb000; 0x0cc000; 0x0cd000; 0x0ce000; 0x0cf000;
   0x0d0000; 0x0d1000; 0x0d2000; 0x0d3000; 0x0d4000; 0x0d5000; 0x0d6000; 0x0d7000;
   0x0d8000; 0x0d9000; 0x0da000; 0x0db000; 0x0dc000; 0x0dd000; 0x0de000; 0x0df000;
   0x0e0000; 0x0e1000; 0x0e2000; 0x0e3000; 0x0e4000; 0x0e5000; 0x0e6000; 0x0e7000;
   0x0e8000; 0x0e9000; 0x0ea000; 0x0eb000; 0x0ec000; 0x0ed000; 0x0ee000; 0x0ef000;
   0x0f0000; 0x0f1000; 0x0f2000; 0x0f3000; 0x0f4000; 0x0f5000; 0x0f6000; 0x0f7000;
   0x0f8000; 0x0f9000; 0x0fa000; 0x0fb000; 0x0fc000; 0x0fd000; 0x0fe000; 0x0ff000].
Definition entry_pgtable_2 : list Z := pte_pw <$>
  [0x100000; 0x101000; 0x102000; 0x103000; 0x104000; 0x105000; 0x106000; 0x107000;
   0x108000; 0x109000; 0x10a000; 0x10b000; 0x10c000; 0x10d000; 0x10e000; 0x10f000;
   0x110000; 0x111000; 0x112000; 0x113000; 0x114000; 0x115000; 0x116000; 0x117000;
   0x118000; 0x119000; 0x11a000; 0x11b000; 0x11c000; 0x11d000; 0x11e000; 0x11f000;
   0x120000; 0x121000; 0x122000; 0x123000; 0x124000; 0x125000; 0x126000; 0x127000;
   0x128000; 0x129000; 0x12a000; 0x12b000; 0x12c000; 0x12d000; 0x12e000; 0x12f000;
   0x130000; 0x131000; 0x132000; 0x133000; 0x134000; 0x135000; 0x136000; 0x137000;
   0x138000; 0x139000; 0x13a000; 0x13b000; 0x13c000; 0x13d000; 0x13e000; 0x13f000;
   0x140000; 0x141000; 0x142000; 0x143000; 0x144000; 0x145000; 0x146000; 0x147000;
   0x148000; 0x149000; 0x14a000; 0x14b000; 0x14c000; 0x14d000; 0x14e000; 0x14f000;
   0x150000; 0x151000; 0x152000; 0x153000; 0x154000; 0x155000; 0x156000; 0x157000;
   0x158000; 0x159000; 0x15a000; 0x15b000; 0x15c000; 0x15d000; 0x15e000; 0x15f000;
   0x160000; 0x161000; 0x162000; 0x163000; 0x164000; 0x165000; 0x166000; 0x167000;
   0x168000; 0x169000; 0x16a000; 0x16b000; 0x16c000; 0x16d000; 0x16e000; 0x16f000;
   0x170000; 0x171000; 0x172000; 0x173000; 0x174000; 0x175000; 0x176000; 0x177000;
   0x178000; 0x179000; 0x17a000; 0x17b000; 0x17c000; 0x17d000; 0x17e000; 0x17f000].
Definition entry_pgtable_3 : list Z := pte_pw <$>
  [0x180000; 0x181000; 0x182000; 0x183000; 0x184000; 0x185000; 0x186000; 0x187000;
   0x188000; 0x189000; 0x18a000; 0x18b000; 0x18c000; 0x18d000; 0x18e000; 0x18f000;
   0x190000; 0x191000; 0x192000; 0x193000; 0x194000; 0x195000; 0x196000; 0x197000;
   0x198000; 0x199000; 0x19a000; 0x19b000; 0x19c000; 0x19d000; 0x19e000; 0x19f000;
   0x1a0000; 0x1a1000; 0x1a2000; 0x1a3000; 0x1a4000; 0x1a5000; 0x1a6000; 0x1a7000;
   0x1a8000; 0x1a9000; 0x1aa000; 0x1ab000; 0x1ac000; 0x1ad000; 0x1ae000; 0x1af000;
   0x1b0000; 0x1b1000; 0x1b2000; 0x1b3000; 0x1b4000; 0x1b5000; 0x1b6000; 0x1b7000;
   0x1b8000; 0x1b9000; 0x1ba000; 0x1bb000; 0x1bc000; 0x1bd000; 0x1be000; 0x1bf000;
   0x1c0000; 0x1c1000; 0x1c2000; 0x1c3000; 0x1c4000; 0x1c5000; 0x1c6000; 0x1c7000;
   0x1c8000; 0x1c9000; 0x1ca000; 0x1cb000; 0x1cc000; 0x1cd000; 0x1ce000; 0x1cf000;
   0x1d0000; 0x1d1000; 0x1d2000; 0x1d3000; 0x1d4000; 0x1d5000; 0x1d6000; 0x1d7000;
   0x1d8000; 0x1d9000; 0x1da000; 0x1db000; 0x1dc000; 0x1dd000; 0x1de000; 0x1df000;
   0x1e0000; 0x1e1000; 0x1e2000; 0x1e3000; 0x1e4000; 0x1e5000; 0x1e6000; 0x1e7000;
   0x1e8000; 0x1e9000; 0x1ea000; 0x1eb000; 0x1ec000; 0x1ed000; 0x1ee000; 0x1ef000;
   0x1f0000; 0x1f1000; 0x1f2000; 0x1f3000; 0x1f4000; 0x1f5000; 0x1f6000; 0x1f7000;
   0x1f8000; 0x1f9000; 0x1fa000; 0x1fb000; 0x1fc000; 0x1fd000; 0x1fe000; 0x1ff000].
Definition entry_pgtable_4 : list Z := pte_pw <$>
  [0x200000; 0x201000; 0x202000; 0x203000; 0x204000; 0x205000; 0x206000; 0x207000;
   0x208000; 0x209000; 0x20a000; 0x20b000; 0x20c000; 0x20d000; 0x20e000; 0x20f000;
   0x210000; 0x211000; 0x212000; 0x213000; 0x214000; 0x215000; 0x216000; 0x217000;
   0x218000; 0x219000; 0x21a000; 0x21b000; 0x21c000; 0x21d000; 0x21e000; 0x21f000;
   0x220000; 0x221000; 0x222000; 0x223000; 0x224000; 0x225000; 0x226000; 0x227000;
   0x228000; 0x229000; 0x22a000; 0x22b000; 0x22c000; 0x22d000; 0x22e000; 0x22f000;
   0x230000; 0x231000; 0x232000; 0x233000; 0x234000; 0x235000; 0x236000; 0x237000;
   0x238000; 0x239000; 0x23a000; 0x23b000; 0x23c000; 0x23d000; 0x23e000; 0x23f000;
   0x240000; 0x241000; 0x242000; 0x243000; 0x244000; 0x245000; 0x246000; 0x247000;
   0x248000; 0x249000; 0x24a000; 0x24b000; 0x24c000; 0x24d000; 0x24e000; 0x24f000;
   0x250000; 0x251000; 0x252000; 0x253000; 0x254000; 0x255000; 0x256000; 0x257000;
   0x258000; 0x259000; 0x25a000; 0x25b000; 0x25c000; 0x25d000; 0x25e000; 0x25f000;
   0x260000; 0x261000; 0x262000; 0x263000; 0x264000; 0x265000; 0x266000; 0x267000;
   0x268000; 0x269000; 0x26a000; 0x26b000; 0x26c000; 0x26d000; 0x26e000; 0x26f000;
   0x270000; 0x271000; 0x272000; 0x273000; 0x274000; 0x275000; 0x276000; 0x277000;
   0x278000; 0x279000; 0x27a000; 0x27b000; 0x27c000; 0x27d000; 0x27e000; 0x27f000].
Definition entry_pgtable_5 : list Z := pte_pw <$>
  [0x280000; 0x281000; 0x282000; 0x283000; 0x284000; 0x285000; 0x286000; 0x287000;
   0x288000; 0x289000; 0x28a000; 0x28b000; 0x28c000; 0x28d000; 0x28e000; 0x28f000;
   0x290000; 0x291000; 0x292000; 0x293000; 0x294000; 0x295000; 0x296000; 0x297000;
   0x298000; 0x299000; 0x29a000; 0x29b000; 0x29c000; 0x29d000; 0x29e000; 0x29f000;
   0x2a0000; 0x2a1000; 0x2a2000; 0x2a3000; 0x2a4000; 0x2a5000; 0x2a6000; 0x2a7000;
   0x2a8000; 0x2a9000; 0x2aa000; 0x2ab000; 0x2ac000; 0x2ad000; 0x2ae000; 0x2af000;
   0x2b0000; 0x2b1000; 0x2b2000; 0x2b3000; 0x2b4000; 0x2b5000; 0x2b6000; 0x2b7000;
   0x2b8000; 0x2b9000; 0x2ba000; 0x2bb000; 0x2bc000; 0x2bd000; 0x2be000; 0x2bf000;
   0x2c0000; 0x2c1000; 0x2c2000; 0x2c3000; 0x2c4000; 0x2c5000; 0x2c6000; 0x2c7000;
   0x2c8000; 0x2c9000; 0x2ca000; 0x2cb000; 0x2cc000; 0x2cd000; 0x2ce000; 0x2cf000;
   0x2d0000; 0x2d1000; 0x2d2000; 0x2d3000; 0x2d4000; 0x2d5000; 0x2d6000; 0x2d7000;
   0x2d8000; 0x2d9000; 0x2da000; 0x2db000; 0x2dc000; 0x2dd000; 0x2de000; 0x2df000;
   0x2e0000; 0x2e1000; 0x2e2000; 0x2e3000; 0x2e4000; 0x2e5000; 0x2e6000; 0x2e7000;
   0x2e8000; 0x2e9000; 0x2ea000; 0x2eb000; 0x2ec000; 0x2ed000; 0x2ee000; 0x2ef000;
   0x2f0000; 0x2f1000; 0x2f2000; 0x2f3000; 0x2f4000; 0x2f5000; 0x2f6000; 0x2f7000;
   0x2f8000; 0x2f9000; 0x2fa000; 0x2fb000; 0x2fc000; 0x2fd000; 0x2fe000; 0x2ff000].
Definition entry_pgtable_6 : list Z := pte_pw <$>
  [0x300000; 0x301000; 0x302000; 0x303000; 0x304000; 0x305000; 0x306000; 0x307000;
   0x308000; 0x309000; 0x30a000; 0x30b000; 0x30c000; 0x30d000; 0x30e000; 0x30f000;
   0x310000; 0x311000; 0x312000; 0x313000; 0x314000; 0x315000; 0x316000; 0x317000;
   0x318000; 0x319000; 0x31a000; 0x31b000; 0x31c000; 0x31d000; 0x31e000; 0x31f000;
   0x320000; 0x321000; 0x322000; 0x323000; 0x324000; 0x325000; 0x326000; 0x327000;
   0x328000; 0x329000; 0x32a000; 0x32b000; 0x32c000; 0x32d000; 0x32e000; 0x32f000;
   0x330000; 0x331000; 0x332000; 0x333000; 0x334000; 0x335000; 0x336000; 0x337000;
   0x338000; 0x339000; 0x33a000; 0x33b000; 0x33c000; 0x33d000; 0x33e000; 0x33f000;
   0x340000; 0x341000; 0x342000; 0x343000; 0x344000; 0x345000; 0x346000; 0x347000;
   0x348000; 0x349000; 0x34a000; 0x34b000; 0x34c000; 0x34d000; 0x34e000; 0x34f000;
   0x350000; 0x351000; 0x352000; 0x353000; 0x354000; 0x355000; 0x356000; 0x357000;
   0x358000; 0x359000; 0x35a000; 0x35b000; 0x35c000; 0x35d000; 0x35e000; 0x35f000;
   0x360000; 0x361000; 0x362000; 0x363000; 0x364000; 0x365000; 0x366000; 0x367000;
   0x368000; 0x369000; 0x36a000; 0x36b000; 0x36c000; 0x36d000; 0x36e000; 0x36f000;
   0x370000; 0x371000; 0x372000; 0x373000; 0x374000; 0x375000; 0x376000; 0x377000;
   0x378000; 0x379000; 0x37a000; 0x37b000; 0x37c000; 0x37d000; 0x37e000; 0x37f000].
Definition entry_pgtable_7 : list Z := pte_pw <$>
  [0x380000; 0x381000; 0x382000; 0x383000; 0x384000; 0x385000; 0x386000; 0x387000;
   0x388000; 0x389000; 0x38a000; 0x38b000; 0x38c000; 0x38d000; 0x38e000; 0x38f000;
   0x390000; 0x391000; 0x392000; 0x393000; 0x394000; 0x395000; 0x396000; 0x397000;
   0x398000; 0x399000; 0x39a000; 0x39b000; 0x39c000; 0x39d000; 0x39e000; 0x39f000;
   0x3a0000; 0x3a1000; 0x3a2000; 0x3a3000; 0x3a4000; 0x3a5000; 0x3a6000; 0x3a7000;
   0x3a8000; 0x3a9000; 0x3aa000; 0x3ab000; 0x3ac000; 0x3ad000; 0x3ae000; 0x3af000;
   0x3b0000; 0x3b1000; 0x3b2000; 0x3b3000; 0x3b4000; 0x3b5000; 0x3b6000; 0x3b7000;
   0x3b8000; 0x3b9000; 0x3ba000; 0x3bb000; 0x3bc000; 0x3bd000; 0x3be000; 0x3bf000;
   0x3c0000; 0x3c1000; 0x3c2000; 0x3c3000; 0x3c4000; 0x3c5000; 0x3c6000; 0x3c7000;
   0x3c8000; 0x3c9000; 0x3ca000; 0x3cb000; 0x3cc000; 0x3cd000; 0x3ce000; 0x3cf000;
   0x3d0000; 0x3d1000; 0x3d2000; 0x3d3000; 0x3d4000; 0x3d5000; 0x3d6000; 0x3d7000;
   0x3d8000; 0x3d9000; 0x3da000; 0x3db000; 0x3dc000; 0x3dd000; 0x3de000; 0x3df000;
   0x3e0000; 0x3e1000; 0x3e2000; 0x3e3000; 0x3e4000; 0x3e5000; 0x3e6000; 0x3e7000;
   0x3e8000; 0x3e9000; 0x3ea000; 0x3eb000; 0x3ec000; 0x3ed000; 0x3ee000; 0x3ef000;
   0x3f0000; 0x3f1000; 0x3f2000; 0x3f3000; 0x3f4000; 0x3f5000; 0x3f6000; 0x3f7000;
   0x3f8000; 0x3f9000; 0x3fa000; 0x3fb000; 0x3fc000; 0x3fd000; 0x3fe000; 0x3ff000].

Definition entry_pgtable : list Z :=
  entry_pgtable_0 ++ entry_pgtable_1 ++ entry_pgtable_2 ++ entry_pgtable_3 ++
  entry_pgtable_4 ++ entry_pgtable_5 ++ entry_pgtable_6 ++ entry_pgtable_7.

(** The page directory, given the address of the page table: two designated
    initialisers, the other elements are zero. *)
Definition entry_pgdir (pgtable : Z) : list Z :=
  <[Z.to_nat (Z.shiftr KERNBASE PDXSHIFT) := w32 (w32 (w32 (pgtable - KERNBASE) + PTE_P) + PTE_W)]>
    (<[0%nat := w32 (w32 (pgtable - KERNBASE) + PTE_P)]> (replicate (Z.to_nat NPDENTRIES) 0)).

(** * The tables in memory *)

(** Page [q] of [m] begins with the words of [l]. *)
Definition words_at (m : mem) (q : Z) (l : list Z) : Prop :=
  ∀ i w, l !! Z.to_nat i = Some w → 0 ≤ i → wd m q i = w.

Lemma entry_pgtable_lookup i : 0 ≤ i < 1024 → entry_pgtable !! Z.to_nat i = Some (Z.lor (i * PGSIZE) 3).
Proof.
  intros Hi.
  assert (entry_pgtable = (λ i, Z.lor (i * PGSIZE) 3) <$> seqZ 0 1024) as -> by (vm_compute; reflexivity).
  rewrite list_lookup_fmap, lookup_seqZ_lt by lia. cbn. f_equal. rewrite Z2Nat.id by lia. reflexivity.
Qed.

Lemma entry_pgdir_lookup pgtable i : 0 ≤ i < 1024 →
  entry_pgdir pgtable !! Z.to_nat i = Some (let pa := w32 (pgtable - KERNBASE) in
    if decide (i = 960) then w32 (w32 (pa + PTE_P) + PTE_W) else if decide (i = 0) then w32 (pa + PTE_P) else 0).
Proof.
  intros Hi. unfold entry_pgdir. change (Z.to_nat (Z.shiftr KERNBASE PDXSHIFT)) with 960%nat.
  change (Z.to_nat NPDENTRIES) with 1024%nat.
  destruct (decide (i = 960)) as [->|H960]; [reflexivity|].
  rewrite list_lookup_insert_ne by lia.
  destruct (decide (i = 0)) as [->|H0]; [reflexivity|].
  rewrite list_lookup_insert_ne by lia. apply lookup_replicate_2. lia.
Qed.

(** What the two directory entries are worth. *)
Lemma entry_pde pt c : 0 ≤ pt < 65536 → 0 ≤ c ≤ 3 →
  w32 (w32 (kva_of pt - KERNBASE) + c) = Z.lor (pt * PGSIZE) c.
Proof.
  intros Hp Hc. unfold kva_of. rewrite Z.add_simpl_r, lor_aligned by (apply Z_mod_mult || (unfold PGSIZE; lia)).
  unfold PGSIZE. rewrite !w32_id by (unfold u32_range; lia || (rewrite w32_id by (unfold u32_range; lia); unfold u32_range; lia)).
  reflexivity.
Qed.

Lemma entry_pgdir_word pt i : 0 ≤ pt < 65536 → 0 ≤ i < 1024 →
  entry_pgdir (kva_of pt) !! Z.to_nat i
  = Some (if decide (i = 960) then Z.lor (pt * PGSIZE) 3 else if decide (i = 0) then Z.lor (pt * PGSIZE) 1 else 0).
Proof.
  intros Hp Hi. rewrite entry_pgdir_lookup by assumption. cbv zeta. f_equal.
  rewrite <- !entry_pde by lia. unfold PTE_P, PTE_W. destruct (decide (i = 960)); [|reflexivity].
  rewrite entry_pde by lia. unfold kva_of. rewrite Z.add_simpl_r, !lor_aligned by (apply Z_mod_mult || (unfold PGSIZE; lia)).
  unfold PGSIZE. rewrite (w32_id (pt * 4096)) by (unfold u32_range; lia). rewrite !w32_id by (unfold u32_range; lia). lia.
Qed.

(** * The processor on these tables *)

(** The kernel runs on entry_pgdir, in page [pd], with entry_pgtable in page
    [pt]. *)
Record on_entry_pgdir (s : pm) (pd pt : Z) : Prop := {
  on_cr3 : cr3 s = pd * PGSIZE;
  on_pt : 0 ≤ pt < 65536;
  on_dir : words_at (phys s) pd (entry_pgdir (kva_of pt));
  on_table : words_at (phys s) pt entry_pgtable
}.

Lemma table_offset va : u32_range va → PTX va * PGSIZE + PGOFF va = va mod PTSIZE.
Proof.
  intros Hva. rewrite PTX_div by assumption. unfold PGOFF, NPTENTRIES. rewrite w32_id by assumption.
  change 0xFFF with (Z.ones 12). rewrite Z.land_ones by lia. change (2 ^ 12) with PGSIZE.
  change PTSIZE with (PGSIZE * 1024). rewrite Z.rem_mul_r by (unfold PGSIZE; lia). lia.
Qed.

Lemma walk_entry s pd pt c write user va : on_entry_pgdir s pd pt → u32_range va → c = 1 ∨ c = 3 →
  wd (phys s) pd (PDX va) = Z.lor (pt * PGSIZE) c →
  translate s write user va = if user || write && (c =? 1) then None else Some (va mod PTSIZE).
Proof.
  intros [Hc Hp _ Ht] Hva Hcc E. unfold translate. rewrite Hc.
  change (ld32 (phys s) (pd * PGSIZE + 4 * PDX va)) with (wd (phys s) pd (PDX va)).
  pose proof (PTX_range va) as Hj.
  assert (∀ p c, 0 ≤ p < 65536 → c = 1 ∨ c = 3 → PTE_ADDR (Z.lor (p * PGSIZE) c) = p * PGSIZE ∧
    is_present (Z.lor (p * PGSIZE) c) = true) as Ep.
  { intros p d Hpp Hd. assert (perm_ok d) by (unfold perm_ok, PGSIZE; lia). split.
    - apply PTE_ADDR_lor; [|assumption]. split; [unfold u32_range, PGSIZE; lia|apply Z_mod_mult].
    - unfold is_present. rewrite land_page by (assumption || (split; reflexivity || discriminate)).
      destruct Hd as [-> | ->]; reflexivity. }
  rewrite E. destruct (Ep pt c Hp Hcc) as [-> ->]. cbn [negb].
  change (ld32 (phys s) (pt * PGSIZE + 4 * PTX va)) with (wd (phys s) pt (PTX va)).
  rewrite (Ht _ _ (entry_pgtable_lookup _ Hj)) by lia.
  destruct (Ep (PTX va) 3) as [-> ->]; [lia|lia|]. cbn [negb].
  rewrite <- table_offset by assumption. rewrite <- !Z.land_assoc.
  assert (perm_ok c) by (unfold perm_ok, PGSIZE; lia).
  assert (∀ b, b = PTE_W ∨ b = PTE_U → Z.land (Z.lor (pt * PGSIZE) c) (Z.land (Z.lor (PTX va * PGSIZE) 3) b) = Z.land c (Z.land 3 b)) as Eb.
  { intros b Hb. rewrite (land_page (PTX va) 3 b) by (split; destruct Hb as [-> | ->]; reflexivity || discriminate).
    apply land_page; [assumption|]. split; destruct Hb as [-> | ->]; reflexivity || discriminate. }
  rewrite !Eb by auto. destruct Hcc as [-> | ->], write, user; reflexivity.
Qed.

(** C21. The translation in force while the kernel boots.  User mode has no access
    at all.  For the kernel, the four megabytes from KERNBASE lead to the first
    four of physical memory, for reading and writing, which is where the rest of
    the kernel takes kernel pointers to lead ([kaddr]); the first four megabytes
    of addresses lead there too, but for reading only, since their directory
    entry has no PTE_W and CR0_WP is set; everything else faults. *)
Theorem entry_pgdir_maps (s : pm) (pd pt : Z) (write user : bool) (va : Z) :
  on_entry_pgdir s pd pt → u32_range va →
  translate s write user va =
    (if user then None
     else if decide (KERNBASE ≤ va < KERNBASE + PTSIZE) then kaddr s write va
     else if decide (va < PTSIZE ∧ write = false) then Some va
     else None).
Proof.
  intros On Hva. pose proof On as [_ Hp Hd _]. pose proof (PDX_range va) as Hi.
  pose proof (Hd _ _ (entry_pgdir_word pt _ Hp Hi) ltac:(lia)) as E.
  pose proof (PDX_div va Hva) as Ei. unfold u32_range in *. change PTSIZE with 4194304 in *.
  change KERNBASE with 4026531840 in *.
  destruct (decide (PDX va = 960)) as [H|H]; [|destruct (decide (PDX va = 0)) as [H0|H0]].
  - rewrite (walk_entry s pd pt 3 write user va On Hva) by auto.
    rewrite (decide_True (P := _ ≤ _ < _)) by (Z.div_mod_to_equations; lia).
    unfold kaddr. change KERNBASE with 4026531840. destruct (Z.geb_spec va 4026531840); [|Z.div_mod_to_equations; lia].
    change PTSIZE with 4194304. replace (va mod 4194304) with (va - 4026531840) by (Z.div_mod_to_equations; lia).
    rewrite andb_false_r, orb_false_r. reflexivity.
  - rewrite (walk_entry s pd pt 1 write user va On Hva) by auto.
    rewrite (decide_False (P := _ ≤ _ < _)) by (Z.div_mod_to_equations; lia).
    change PTSIZE with 4194304. replace (va mod 4194304) with va by (Z.div_mod_to_equations; lia).
    destruct user; [reflexivity|]. destruct write; cbn.
    + rewrite decide_False; [reflexivity|]. intros [_ F]. discriminate.
    + rewrite decide_True; [reflexivity|]. split; [Z.div_mod_to_equations; lia|reflexivity].
  - unfold translate. rewrite (on_cr3 _ _ _ On).
    change (ld32 (phys s) (pd * PGSIZE + 4 * PDX va)) with (wd (phys s) pd (PDX va)).
    rewrite E. cbn. rewrite !decide_False; [destruct user; reflexivity| |]; Z.div_mod_to_equations; lia.
Qed.

(** The linker has put the table in page 1 and the directory in page 2. *)
Definition entry_pm : pm :=
  MkPm 0 0 ∅ None 0 0 0 0 MMIOBASE (st_words (st_words ∅ 4096 entry_pgtable) 8192 (entry_pgdir (kva_of 1))) 8192 [] 0.

Lemma words_at_st m q l : (∀ w, w ∈ l → u32_range w) → words_at (st_words m (q * PGSIZE) l) q l.
Proof. intros Hr i w Hi H0. unfold wd. rewrite <- (Z2Nat.id i) by assumption. apply ld32_st_words; assumption. Qed.

Lemma words_range l : forallb (λ w, (0 <=? w) && (w <? 2 ^ 32)) l = true → ∀ w, w ∈ l → u32_range w.
Proof. intros H w Hw. rewrite forallb_forall in H. specialize (H w (proj1 (list_elem_of_In _ _) Hw)). unfold u32_range. bsplit. lia. Qed.

Lemma on_entry_pm : on_entry_pgdir entry_pm 2 1.
Proof.
  split; [reflexivity|lia|apply (words_at_st _ 2), words_range; vm_compute; reflexivity|].
  intros i w Hi H0. change (phys entry_pm) with (st_words (st_words ∅ 4096 entry_pgtable) 8192 (entry_pgdir (kva_of 1))).
  pose proof (lookup_lt_Some _ _ _ Hi) as Hl. change (length entry_pgtable) with 1024%nat in Hl.
  rewrite <- (words_at_st ∅ 1 entry_pgtable ltac:(apply words_range; vm_compute; reflexivity) i w Hi H0).
  apply ld32_ext. intros j Hj. apply ld8_st_words. unfold PGSIZE. lia.
Qed.

Lemma entry_pgdir_maps_witness :
  translate entry_pm true false (KERNBASE + 0x123456) = Some 0x123456 ∧ translate entry_pm true false 0x123456 = None.
Proof.
  split.
  - rewrite (entry_pgdir_maps entry_pm 2 1) by (exact on_entry_pm || (split; [discriminate|reflexivity])). vm_compute. reflexivity.
  - rewrite (entry_pgdir_maps entry_pm 2 1) by (exact on_entry_pm || (split; [discriminate|reflexivity])). vm_compute. reflexivity.
Defined.
