(* ===== verification/Mpconfig.v ===== *)
(** The search for the multiprocessor tables and the CPUs that they list
    (kern/mpconfig.c). *)
From Stdlib Require Import Ascii.
From S2P Require Import Prelude Mmu Mem CString Printfmt Pages KState.

(** The variables of the file, with the memory; [mp_log] holds the calls of
    cprintf and [mp_ports] those of outb, latest first; [imcr] is what inb
    reads at port 0x23. *)
Record mpst := MkMpst {
  mp_pm : pm;
  mp_cpus : gmap Z CpuInfo;
  bootcpu : Z;
  ismp : bool;
  ncpu : Z;
  lapicaddr : Z;
  imcr : Z;
  mp_log : list (string * list Z);
  mp_ports : list (Z * Z)
}.
Definition set_mp_pm v s := MkMpst v (mp_cpus s) (bootcpu s) (ismp s) (ncpu s) (lapicaddr s) (imcr s) (mp_log s) (mp_ports s).
Definition set_mp_cpus v s := MkMpst (mp_pm s) v (bootcpu s) (ismp s) (ncpu s) (lapicaddr s) (imcr s) (mp_log s) (mp_ports s).
Definition set_bootcpu v s := MkMpst (mp_pm s) (mp_cpus s) v (ismp s) (ncpu s) (lapicaddr s) (imcr s) (mp_log s) (mp_ports s).
Definition set_ismp v s := MkMpst (mp_pm s) (mp_cpus s) (bootcpu s) v (ncpu s) (lapicaddr s) (imcr s) (mp_log s) (mp_ports s).
Definition set_ncpu v s := MkMpst (mp_pm s) (mp_cpus s) (bootcpu s) (ismp s) v (lapicaddr s) (imcr s) (mp_log s) (mp_ports s).
Definition set_lapicaddr v s := MkMpst (mp_pm s) (mp_cpus s) (bootcpu s) (ismp s) (ncpu s) v (imcr s) (mp_log s) (mp_ports s).
Definition set_mp_log v s := MkMpst (mp_pm s) (mp_cpus s) (bootcpu s) (ismp s) (ncpu s) (lapicaddr s) (imcr s) v (mp_ports s).
Definition set_mp_ports v s := MkMpst (mp_pm s) (mp_cpus s) (bootcpu s) (ismp s) (ncpu s) (lapicaddr s) (imcr s) (mp_log s) v.

Definition mp_lens : lens mpst pm := Lens mp_pm set_mp_pm.
Definition kaddr_of (pa : Z) : M mpst Z := lift mp_lens (KADDR pa).

(** Kernel memory through the mapping at KERNBASE. *)
Definition rd8 (va : Z) : M mpst Z := gets (λ s, ld8 (phys (mp_pm s)) (va - KERNBASE)).
Definition rd16 (va : Z) : M mpst Z := gets (λ s, ld16 (phys (mp_pm s)) (va - KERNBASE)).
Definition rd32 (va : Z) : M mpst Z := gets (λ s, ld32 (phys (mp_pm s)) (va - KERNBASE)).
Definition mp_cprintf (fmt : string) (args : list Z) : M mpst unit := modify (λ s, set_mp_log ((fmt, args) :: mp_log s) s).
Definition mp_outb (port v : Z) : M mpst unit := modify (λ s, set_mp_ports ((port, v) :: mp_ports s) s).

(** [memcmp(p, "...", n) == 0] *)
Fixpoint is_sig (p : Z) (sig : list Z) : M mpst bool :=
  match sig with
  | [] => mret true
  | c :: sig => x ← rd8 p; if x =? c then is_sig (p + 1) sig else mret false
  end.

(** Field offsets: struct mp, struct mpconf, struct mpproc. *)
Definition mp_physaddr (p : Z) : Z := p + 4.
Definition mp_type (p : Z) : Z := p + 11.
Definition mp_imcrp (p : Z) : Z := p + 12.
Definition sizeof_mp : Z := 16.
Definition conf_length (p : Z) : Z := p + 4.
Definition conf_version (p : Z) : Z := p + 6.
Definition conf_entry (p : Z) : Z := p + 34.
Definition conf_lapicaddr (p : Z) : Z := p + 36.
Definition conf_xlength (p : Z) : Z := p + 40.
Definition conf_xchecksum (p : Z) : Z := p + 42.
Definition conf_entries (p : Z) : Z := p + 44.
Definition proc_apicid (p : Z) : Z := p + 1.
Definition proc_flags (p : Z) : Z := p + 3.
Definition sizeof_mpproc : Z := 20.

Definition MPPROC_BOOT : Z := 0x02.
Definition MPPROC : Z := 0x00.
Definition MPBUS : Z := 0x01.
Definition MPIOAPIC : Z := 0x02.
Definition MPIOINTR : Z := 0x03.
Definition MPLINTR : Z := 0x04.

(** [sum]: the int is returned as a uint8_t. *)
Fixpoint sum_loop (n : nat) (addr acc : Z) : M mpst Z :=
  match n with
  | O => mret (w8 acc)
  | S n => b ← rd8 addr; sum_loop n (addr + 1) (acc + b)
  end.
Definition sum (addr len : Z) : M mpst Z := sum_loop (Z.to_nat len) addr 0.

Fixpoint mpsearch_loop (n : nat) (mp end_ : Z) : M mpst Z :=
  match n with
  | O => mret 0
  | S n =>
      if negb (mp <? end_) then mret 0
      else
        ok ← is_sig mp (bytes "_MP_");
        ok ← (if (ok : bool) then c ← sum mp sizeof_mp; mret (c =? 0) else mret false);
        if (ok : bool) then mret mp else mpsearch_loop n (mp + sizeof_mp) end_
  end.
Definition mpsearch1 (a len : Z) : M mpst Z :=
  mp ← kaddr_of a;
  end_ ← kaddr_of (w32 (a + len));
  mpsearch_loop (Z.to_nat (len / sizeof_mp + 1)) mp end_.

Definition mpsearch : M mpst Z :=
  bda ← kaddr_of (Z.shiftl 0x40 4);
  p ← rd16 (bda + 0x0E);
  mp ← (if ctrue p then mpsearch1 (Z.shiftl p 4) 1024
        else p ← rd16 (bda + 0x13); mpsearch1 (w32 (p * 1024 - 1024)) 1024);
  if ctrue mp then mret mp else mpsearch1 0xF0000 0x10000.

(** The configuration table and the floating pointer, if they are good. *)
Definition mpconfig : M mpst (option (Z * Z)) :=
  mp ← mpsearch;
  if mp =? 0 then mret None
  else
    pa ← rd32 (mp_physaddr mp);
    ty ← rd8 (mp_type mp);
    if (pa =? 0) || negb (ty =? 0) then
      mp_cprintf "SMP: Default configurations not implemented\n" [] ;; mret None
    else
      conf ← kaddr_of pa;
      ok ← is_sig conf (bytes "PCMP");
      if negb ok then mp_cprintf "SMP: Incorrect MP configuration table signature\n" [] ;; mret None
      else
        len ← rd16 (conf_length conf);
        c ← sum conf len;
        if negb (c =? 0) then mp_cprintf "SMP: Bad MP configuration checksum\n" [] ;; mret None
        else
          v ← rd8 (conf_version conf);
          if negb (v =? 1) && negb (v =? 4) then
            mp_cprintf "SMP: Unsupported MP version %d\n" [v] ;; mret None
          else
            xlen ← rd16 (conf_xlength conf);
            x ← sum (conf + len) xlen;
            xc ← rd8 (conf_xchecksum conf);
            if ctrue (Z.land (x + xc) 0xff) then
              mp_cprintf "SMP: Bad MP configuration extended checksum\n" [] ;; mret None
            else mret (Some (conf, mp)).

(** The loop over the entries; [bootcpu] is an index in [cpus]. *)
Fixpoint mp_entries (n : nat) (p : Z) : M mpst unit :=
  match n with
  | O => mret tt
  | S n =>
      ty ← rd8 p;
      if ty =? MPPROC then
        flags ← rd8 (proc_flags p);
        when (ctrue (Z.land flags MPPROC_BOOT)) (modify (λ s, set_bootcpu (ncpu s) s)) ;;
        c ← gets ncpu;
        (if c <? NCPU then
           modify (λ s, set_mp_cpus (alter (set_cpu_id (w8 c)) c (mp_cpus s)) s) ;;
           modify (λ s, set_ncpu (ncpu s + 1) s)
         else
           id ← rd8 (proc_apicid p);
           mp_cprintf "SMP: too many CPUs, CPU %d disabled\n" [id]) ;;
        mp_entries n (p + sizeof_mpproc)
      else if (ty =? MPBUS) || (ty =? MPIOAPIC) || (ty =? MPIOINTR) || (ty =? MPLINTR) then
        mp_entries n (p + 8)
      else
        mp_cprintf "mpinit: unknown config type %x\n" [ty] ;;
        modify (set_ismp false)
  end.

(** [bootcpu->cpu_status = CPU_STARTED] *)
Definition boot_started : M mpst unit := λ s,
  match mp_cpus s !! bootcpu s with
  | Some c => Ret tt (set_mp_cpus (<[bootcpu s := set_cpu_status CPU_STARTED c]> (mp_cpus s)) s)
  | None => Stop (SUndef "bootcpu is past the end of cpus") s
  end.

Definition mp_init : M mpst unit :=
  modify (set_bootcpu 0) ;;
  found ← mpconfig;
  match found with
  | None => mret tt
  | Some (conf, mp) =>
      modify (set_ismp true) ;;
      a ← rd32 (conf_lapicaddr conf);
      modify (set_lapicaddr a) ;;
      n ← rd16 (conf_entry conf);
      mp_entries (Z.to_nat n) (conf_entries conf) ;;
      boot_started ;;
      ok ← gets ismp;
      if negb ok then
        modify (set_ncpu 1) ;;
        modify (set_lapicaddr 0) ;;
        mp_cprintf "SMP: configuration not found, SMP disabled\n" []
      else
        s ← get;
        mp_cprintf "SMP: CPU %d found %d CPU(s)\n" [match mp_cpus s !! bootcpu s with Some c => cpu_id c | None => 0 end; ncpu s] ;;
        x ← rd8 (mp_imcrp mp);
        when (ctrue x)
          (mp_cprintf "SMP: Setting IMCR to switch from PIC mode to symmetric I/O mode\n" [] ;;
           mp_outb 0x22 0x70 ;;
           v ← gets imcr;
           mp_outb 0x23 (Z.lor v 1))
  end.

(** * The CPUs of a table *)

(** A processor, with its boot flag, or an entry of another known type. *)
Inductive mp_entry := Processor (boot : bool) | OtherEntry.

Fixpoint entries_at (m : mem) (p : Z) (es : list mp_entry) : Prop :=
  match es with
  | [] => True
  | Processor boot :: es =>
      ld8 m p = MPPROC ∧ ctrue (Z.land (ld8 m (p + 3)) MPPROC_BOOT) = boot ∧ entries_at m (p + 20) es
  | OtherEntry :: es => (1 ≤ ld8 m p ≤ 4) ∧ entries_at m (p + 8) es
  end.

Definition is_processor (e : mp_entry) : Z := match e with Processor _ => 1 | OtherEntry => 0 end.
Definition processors (es : list mp_entry) : Z := foldr (λ e n, is_processor e + n) 0 es.

(** The index of the last processor with the boot flag, when [k] processors
    come before: it is 8 for all after the eighth. *)
Fixpoint boot_index (k boot : Z) (es : list mp_entry) : Z :=
  match es with
  | [] => boot
  | Processor b :: es => boot_index (Z.min 8 (k + 1)) (if b then k else boot) es
  | OtherEntry :: es => boot_index k boot es
  end.

(** The CPUs below [k] have their index as their id. *)
Record cpus_ok (cs : gmap Z CpuInfo) (k : Z) : Prop := {
  co_dom : ∀ i, is_Some (cs !! i) ↔ 0 ≤ i < NCPU;
  co_id : ∀ i c, 0 ≤ i < k → cs !! i = Some c → cpu_id c = i
}.

Lemma processors_nonneg es : 0 ≤ processors es.
Proof. unfold processors. induction es as [|[b|] es IH]; cbn [foldr is_processor]; lia. Qed.

Lemma cpus_ok_next cs k : cpus_ok cs k → 0 ≤ k < 8 → cpus_ok (alter (set_cpu_id (w8 k)) k cs) (k + 1).
Proof.
  intros [Hd Hi] Hk. split.
  - intros i. rewrite lookup_alter_is_Some. apply Hd.
  - intros i c Hik Hc. destruct (decide (i = k)) as [->|D].
    + rewrite lookup_alter_eq in Hc. destruct (cs !! k); [|discriminate]. injection Hc as <-. cbn.
      apply w8_id. lia.
    + rewrite lookup_alter_ne in Hc by congruence. apply (Hi i c); [lia|exact Hc].
Qed.

(** The environments the CPUs run are left alone. *)
Definition same_cpu_envs (cs cs' : gmap Z CpuInfo) : Prop := ∀ i, cpu_env <$> cs' !! i = cpu_env <$> cs !! i.

#[export] Instance same_cpu_envs_preorder : PreOrder same_cpu_envs.
Proof. split; [intros cs i; reflexivity|]. intros c1 c2 c3 H1 H2 i. rewrite H2. apply H1. Qed.

Lemma same_cpu_envs_alter g k cs : (∀ c, cpu_env (g c) = cpu_env c) → same_cpu_envs cs (alter g k cs).
Proof.
  intros Hg i. destruct (decide (i = k)) as [->|D]; [|rewrite lookup_alter_ne by congruence; reflexivity].
  rewrite lookup_alter_eq. destruct (cs !! k); [|reflexivity]. cbn. rewrite Hg. reflexivity.
Qed.

Lemma rd8_run va s : rd8 va s = Ret (ld8 (phys (mp_pm s)) (va - KERNBASE)) s.
Proof. reflexivity. Qed.

Lemma mp_entries_run es p s : entries_at (phys (mp_pm s)) (p - KERNBASE) es → 0 ≤ ncpu s ≤ 8 → cpus_ok (mp_cpus s) (ncpu s) →
  ∃ s', mp_entries (length es) p s = Ret tt s' ∧ ncpu s' = Z.min 8 (ncpu s + processors es) ∧
    cpus_ok (mp_cpus s') (ncpu s') ∧ bootcpu s' = boot_index (ncpu s) (bootcpu s) es ∧ ismp s' = ismp s ∧
    mp_pm s' = mp_pm s ∧ lapicaddr s' = lapicaddr s ∧ same_cpu_envs (mp_cpus s) (mp_cpus s').
Proof.
  revert p s. induction es as [|[b|] es IH]; intros p s He Hn Hc; cbn [length mp_entries].
  - exists s. cbn. split; [reflexivity|]. split; [lia|]. split; [exact Hc|]. do 4 (split; [reflexivity|]). reflexivity.
  - destruct He as (Ht & Hb & He). rewrite (bind_Ret _ _ _ _ _ (rd8_run _ _)), Ht. change (MPPROC =? MPPROC) with true. cbv iota.
    rewrite (bind_Ret _ _ _ _ _ (rd8_run _ _)). unfold proc_flags. replace (p + 3 - KERNBASE) with (p - KERNBASE + 3) by lia. rewrite Hb.
    set (s1 := if b then set_bootcpu (ncpu s) s else s).
    rewrite (bind_Ret _ _ _ tt s1) by (unfold s1; destruct b; reflexivity). rewrite bind_gets.
    assert (ncpu s1 = ncpu s ∧ mp_cpus s1 = mp_cpus s ∧ mp_pm s1 = mp_pm s ∧ ismp s1 = ismp s ∧
            bootcpu s1 = (if b then ncpu s else bootcpu s) ∧ lapicaddr s1 = lapicaddr s) as (E1 & E2 & E3 & E4 & E5 & E6) by (unfold s1; destruct b; auto 10).
    rewrite E1. cbn [boot_index processors foldr is_processor]. pose proof (processors_nonneg es) as Hp.
    fold (processors es). replace (p - KERNBASE + 20) with (p + sizeof_mpproc - KERNBASE) in He by (unfold sizeof_mpproc; lia).
    destruct (Z.ltb_spec (ncpu s) NCPU) as [L|L]; unfold NCPU in L.
    + rewrite (bind_Ret _ _ _ tt (set_ncpu (ncpu s + 1) (set_mp_cpus (alter (set_cpu_id (w8 (ncpu s))) (ncpu s) (mp_cpus s)) s1)))
        by (rewrite bind_modify; unfold modify; cbn; rewrite E1, E2; reflexivity).
      destruct (IH (p + sizeof_mpproc) (set_ncpu (ncpu s + 1) (set_mp_cpus (alter (set_cpu_id (w8 (ncpu s))) (ncpu s) (mp_cpus s)) s1)))
        as (s' & E & H1 & H2 & H3 & H4 & H5 & H6 & H7); cbn; [rewrite E3; exact He|lia|apply cpus_ok_next; auto; lia|].
      exists s'. split; [exact E|]. cbn in H1, H3, H4, H5, H6, H7. rewrite E6 in H6. rewrite (Z.min_r 8 (ncpu s + 1)) by lia. rewrite E4 in H4. rewrite E3 in H5. rewrite E5 in H3.
      split; [lia|]. do 5 (split; [assumption|]). etransitivity; [|exact H7]. apply same_cpu_envs_alter. reflexivity.
    + rewrite bind_assoc. rewrite (bind_Ret _ _ _ _ _ (rd8_run _ _)). unfold mp_cprintf at 1. rewrite bind_modify.
      match goal with |- context [mp_entries _ _ ?t] =>
        destruct (IH (p + sizeof_mpproc) t) as (s' & E & H1 & H2 & H3 & H4 & H5 & H6 & H7) end;
        cbn; [rewrite E3; exact He|rewrite E1; lia|rewrite E1, E2; exact Hc|].
      exists s'. split; [exact E|]. cbn in H1, H3, H4, H5, H6, H7. rewrite E2 in H7. rewrite E6 in H6. rewrite E1 in H1, H3. assert (ncpu s = 8) as E8 by lia.
      rewrite E8 in *. change (Z.min 8 (8 + 1)) with 8. rewrite E4 in H4. rewrite E3 in H5. rewrite E5 in H3.
      split; [lia|]. auto 10.
  - destruct He as (Ht & He). rewrite (bind_Ret _ _ _ _ _ (rd8_run _ _)).
    replace (p - KERNBASE + 8) with (p + 8 - KERNBASE) in He by lia.
    destruct (Z.eqb_spec (ld8 (phys (mp_pm s)) (p - KERNBASE)) MPPROC) as [F|_]; [unfold MPPROC in F; lia|].
    assert (let t := ld8 (phys (mp_pm s)) (p - KERNBASE) in (t =? MPBUS) || (t =? MPIOAPIC) || (t =? MPIOINTR) || (t =? MPLINTR) = true) as ->
      by (cbv zeta; unfold MPBUS, MPIOAPIC, MPIOINTR, MPLINTR; lia).
    destruct (IH (p + 8) s He Hn Hc) as (s' & E & R). exists s'. split; [exact E|]. cbn [processors foldr is_processor boot_index].
    fold (processors es). rewrite Z.add_0_l. exact R.
Qed.

Lemma boot_index_nonneg es k b : 0 ≤ k ≤ 8 → 0 ≤ b → 0 ≤ boot_index k b es.
Proof.
  revert k b. induction es as [|[b|] es IH]; intros k b' Hk Hb; cbn; [exact Hb| |auto]. apply IH; [lia|]. destruct b; lia.
Qed.

(** ** Tables that mpconfig accepts

    The search and the tests of mpconfig, on the bytes of memory. *)

Fixpoint sig_at (m : mem) (a : Z) (sig : list Z) : bool :=
  match sig with [] => true | c :: sig => (ld8 m a =? c) && sig_at m (a + 1) sig end.
Fixpoint msum (m : mem) (a : Z) (n : nat) : Z :=
  match n with O => 0 | S n => ld8 m a + msum m (a + 1) n end.

(** A floating pointer structure; the first one of an area. *)
Definition candidate (m : mem) (a : Z) : bool := sig_at m a (bytes "_MP_") && (w8 (msum m a 16) =? 0).
Fixpoint scan (m : mem) (n : nat) (a e : Z) : Z :=
  match n with
  | O => 0
  | S n => if negb (a <? e) then 0 else if candidate m (a - KERNBASE) then a else scan m n (a + sizeof_mp) e
  end.
Definition area (m : mem) (a len : Z) : Z :=
  scan m (Z.to_nat (len / sizeof_mp + 1)) (w32 (a + KERNBASE)) (w32 (w32 (a + len) + KERNBASE)).

(** The EBDA, or else the last kilobyte of base memory; then the BIOS. *)
Definition ebda (m : mem) : Z := ld16 m 0x40E.
Definition base_end (m : mem) : Z := w32 (ld16 m 0x413 * 1024 - 1024).
Definition mp_pointer (m : mem) : Z :=
  let p := if ctrue (ebda m) then area m (Z.shiftl (ebda m) 4) 1024 else area m (base_end m) 1024 in
  if ctrue p then p else area m 0xF0000 0x10000.

Record good_tables (m : mem) (np conf mp : Z) : Prop := {
  gt_np : 256 < np;
  gt_base : ebda m = 0 → PGNUM (base_end m) < np ∧ PGNUM (w32 (base_end m + 1024)) < np;
  gt_pointer : mp_pointer m = mp ∧ mp ≠ 0;
  gt_default : ld8 m (mp - KERNBASE + 11) = 0;
  gt_conf : let pa := ld32 m (mp - KERNBASE + 4) in pa ≠ 0 ∧ PGNUM pa < np ∧ conf = w32 (pa + KERNBASE);
  gt_sig : sig_at m (conf - KERNBASE) (bytes "PCMP") = true;
  gt_sum : w8 (msum m (conf - KERNBASE) (Z.to_nat (ld16 m (conf - KERNBASE + 4)))) = 0;
  gt_version : ld8 m (conf - KERNBASE + 6) = 1 ∨ ld8 m (conf - KERNBASE + 6) = 4;
  gt_xsum : let len := ld16 m (conf - KERNBASE + 4) in
    Z.land (w8 (msum m (conf - KERNBASE + len) (Z.to_nat (ld16 m (conf - KERNBASE + 40)))) + ld8 m (conf - KERNBASE + 42)) 0xff = 0
}.

Lemma is_sig_run sig p s : is_sig p sig s = Ret (sig_at (phys (mp_pm s)) (p - KERNBASE) sig) s.
Proof.
  revert p. induction sig as [|c sig IH]; intros p; [reflexivity|]. cbn [is_sig sig_at]. rewrite (bind_Ret _ _ _ _ _ (rd8_run _ _)).
  destruct (_ =? c); [|reflexivity]. rewrite IH. cbn [andb]. do 2 f_equal. lia.
Qed.

Lemma sum_loop_run n p acc s : sum_loop n p acc s = Ret (w8 (acc + msum (phys (mp_pm s)) (p - KERNBASE) n)) s.
Proof.
  revert p acc. induction n as [|n IH]; intros p acc; cbn [sum_loop msum]; [rewrite Z.add_0_r; reflexivity|].
  rewrite (bind_Ret _ _ _ _ _ (rd8_run _ _)), IH. do 2 f_equal. replace (p + 1 - KERNBASE) with (p - KERNBASE + 1) by lia. lia.
Qed.
Lemma sum_run p len s : sum p len s = Ret (w8 (msum (phys (mp_pm s)) (p - KERNBASE) (Z.to_nat len))) s.
Proof. apply sum_loop_run. Qed.

Lemma mpsearch_loop_run n a e s : mpsearch_loop n a e s = Ret (scan (phys (mp_pm s)) n a e) s.
Proof.
  revert a. induction n as [|n IH]; intros a; [reflexivity|]. cbn [mpsearch_loop scan]. destruct (a <? e); [|reflexivity]. cbn [negb].
  rewrite (bind_Ret _ _ _ _ _ (is_sig_run _ _ _)). unfold candidate. destruct (sig_at _ _ _); [|apply IH].
  rewrite bind_assoc, (bind_Ret _ _ _ _ _ (sum_run _ _ _)). change (Z.to_nat sizeof_mp) with 16%nat. cbn [andb].
  erewrite bind_Ret by reflexivity. destruct (_ =? 0); [reflexivity|apply IH].
Qed.

Lemma kaddr_of_run a s : PGNUM a < npages (mp_pm s) → kaddr_of a s = Ret (w32 (a + KERNBASE)) s.
Proof.
  intros H. unfold kaddr_of, lift, KADDR. cbn. rewrite Z.geb_leb, (proj2 (Z.leb_gt _ _)) by exact H. destruct s; reflexivity.
Qed.

Lemma mpsearch1_run a len s : PGNUM a < npages (mp_pm s) → PGNUM (w32 (a + len)) < npages (mp_pm s) →
  mpsearch1 a len s = Ret (area (phys (mp_pm s)) a len) s.
Proof.
  intros H1 H2. unfold mpsearch1. rewrite (bind_Ret _ _ _ _ _ (kaddr_of_run a s H1)), (bind_Ret _ _ _ _ _ (kaddr_of_run _ s H2)).
  apply mpsearch_loop_run.
Qed.

Lemma ebda_page m : PGNUM (Z.shiftl (ebda m) 4) ≤ 256 ∧ PGNUM (w32 (Z.shiftl (ebda m) 4 + 1024)) ≤ 256.
Proof.
  assert (0 ≤ ebda m < 65536) as H by (unfold ebda, ld16; pose proof (ld8_range m 0x40E); pose proof (ld8_range m (0x40E + 1)); lia).
  rewrite Z.shiftl_mul_pow2 by lia. change (2 ^ 4) with 16. revert H. generalize (ebda m). intros x H.
  assert (∀ y, 0 ≤ y < 2 ^ 21 → PGNUM y = y / 4096) as E.
  { intros y Hy. unfold PGNUM, PTXSHIFT. rewrite w32_id by (unfold u32_range; lia). apply Z.shiftr_div_pow2. lia. }
  rewrite w32_id by (unfold u32_range; lia). rewrite !E by lia. split; Z.div_mod_to_equations; lia.
Qed.

Lemma mpconfig_run conf mp s : good_tables (phys (mp_pm s)) (npages (mp_pm s)) conf mp → mpconfig s = Ret (Some (conf, mp)) s.
Proof.
  intros [Hn Hb [Hp Hp0] Ht (Ha & Hpa & Hc) Hs Hsum Hv Hx]. set (m := phys (mp_pm s)) in *.
  assert (mpsearch s = Ret mp s) as E.
  { unfold mpsearch. rewrite (bind_Ret _ _ _ (KERNBASE + 0x400) s) by (rewrite kaddr_of_run; [reflexivity|change (PGNUM (Z.shiftl 64 4)) with 0; lia]).
    unfold rd16. rewrite bind_gets. change (KERNBASE + 1024 + 14 - KERNBASE) with 0x40E. fold m (ebda m).
    unfold mp_pointer in Hp. destruct (ebda_page m) as [He1 He2].
    assert (mpsearch1 0xF0000 0x10000 s = Ret (area m 0xF0000 0x10000) s) as E3 by (apply mpsearch1_run; [change (PGNUM 0xF0000) with 240|change (PGNUM (w32 (0xF0000 + 0x10000))) with 256]; lia).
    destruct (ctrue (ebda m)) eqn:Ee.
    - erewrite bind_Ret by (apply mpsearch1_run; lia). fold m. destruct (ctrue (area m _ 1024)); [rewrite <- Hp; reflexivity|rewrite <- Hp; exact E3].
    - assert (ebda m = 0) as E0 by (destruct (Z.eqb_spec (ebda m) 0); [assumption|unfold ctrue in Ee; lia]). destruct (Hb E0) as [Hb1 Hb2].
      rewrite bind_assoc, bind_gets. change (KERNBASE + 1024 + 19 - KERNBASE) with 0x413. fold m (base_end m).
      erewrite bind_Ret by (apply mpsearch1_run; assumption). fold m. destruct (ctrue (area m _ 1024)); [rewrite <- Hp; reflexivity|rewrite <- Hp; exact E3]. }
  unfold mpconfig. rewrite (bind_Ret _ _ _ _ _ E), (proj2 (Z.eqb_neq _ _) Hp0). unfold rd32. rewrite bind_gets. unfold mp_physaddr, mp_type.
  replace (mp + 4 - KERNBASE) with (mp - KERNBASE + 4) by lia. rewrite (bind_Ret _ _ _ _ _ (rd8_run _ _)).
  replace (mp + 11 - KERNBASE) with (mp - KERNBASE + 11) by lia. fold m. rewrite Ht, (proj2 (Z.eqb_neq _ _) Ha). cbn [negb orb Z.eqb].
  rewrite (bind_Ret _ _ _ _ _ (kaddr_of_run _ s Hpa)), <- Hc. rewrite (bind_Ret _ _ _ _ _ (is_sig_run _ _ _)). fold m. rewrite Hs. cbn [negb].
  unfold rd16. rewrite bind_gets. unfold conf_length. replace (conf + 4 - KERNBASE) with (conf - KERNBASE + 4) by lia. fold m.
  rewrite (bind_Ret _ _ _ _ _ (sum_run _ _ _)). fold m. rewrite Hsum. cbn [negb Z.eqb]. rewrite (bind_Ret _ _ _ _ _ (rd8_run _ _)).
  unfold conf_version, conf_xlength, conf_xchecksum. replace (conf + 6 - KERNBASE) with (conf - KERNBASE + 6) by lia. fold m.
  replace (negb (ld8 m (conf - KERNBASE + 6) =? 1) && negb (ld8 m (conf - KERNBASE + 6) =? 4)) with false by (destruct Hv as [-> | ->]; reflexivity).
  rewrite bind_gets. replace (conf + 40 - KERNBASE) with (conf - KERNBASE + 40) by lia. fold m.
  rewrite (bind_Ret _ _ _ _ _ (sum_run _ _ _)), (bind_Ret _ _ _ _ _ (rd8_run _ _)). fold m.
  replace (conf + ld16 m (conf - KERNBASE + 4) - KERNBASE) with (conf - KERNBASE + ld16 m (conf - KERNBASE + 4)) by lia.
  replace (conf + 42 - KERNBASE) with (conf - KERNBASE + 42) by lia. cbv zeta in Hx. rewrite Hx. reflexivity.
Qed.

(** mp_init with good tables, at [conf] and [mp], whose boot processor is one of
    the first eight. *)
Lemma mp_init_run es conf mp s : ncpu s = 0 → cpus_ok (mp_cpus s) 0 → good_tables (phys (mp_pm s)) (npages (mp_pm s)) conf mp →
  entries_at (phys (mp_pm s)) (conf_entries conf - KERNBASE) es →
  ld16 (phys (mp_pm s)) (conf_entry conf - KERNBASE) = Z.of_nat (length es) → boot_index 0 0 es < NCPU →
  ∃ s' c, mp_init s = Ret tt s' ∧ mp_pm s' = mp_pm s ∧ ncpu s' = Z.min 8 (processors es) ∧ bootcpu s' = boot_index 0 0 es ∧
    lapicaddr s' = ld32 (phys (mp_pm s)) (conf_lapicaddr conf - KERNBASE) ∧ cpus_ok (mp_cpus s') (ncpu s') ∧
    same_cpu_envs (mp_cpus s) (mp_cpus s') ∧ mp_cpus s' !! bootcpu s' = Some c ∧ cpu_status c = CPU_STARTED.
Proof.
  intros Hn Hc Em He Hl Hb. unfold mp_init. rewrite bind_modify, (bind_Ret _ _ _ _ _ (mpconfig_run conf mp (set_bootcpu 0 s) Em)). cbv iota beta.
  rewrite bind_modify. unfold rd32, rd16. rewrite bind_gets, bind_modify, bind_gets.
  match goal with |- context [mp_entries _ _ ≫= _] => idtac end.
  set (s1 := set_lapicaddr _ _). change (phys (mp_pm s1)) with (phys (mp_pm s)). rewrite Hl, Nat2Z.id.
  destruct (mp_entries_run es (conf_entries conf) s1) as (s2 & E & H1 & H2 & H3 & H4 & H5 & H6 & H7);
    [exact He|change (ncpu s1) with (ncpu s); lia|change (ncpu s1) with (ncpu s); rewrite Hn; exact Hc|].
  rewrite (bind_Ret _ _ _ _ _ E). change (ncpu s1) with (ncpu s) in H1, H3. change (bootcpu s1) with 0 in H3. rewrite Hn in H1, H3.
  destruct (proj2 (co_dom _ _ H2 (bootcpu s2))) as [c Ec]; [rewrite H3; split; [apply boot_index_nonneg; lia|exact Hb]|].
  erewrite bind_Ret by (unfold boot_started; rewrite Ec; reflexivity). rewrite bind_gets.
  match goal with |- context [ismp ?t] => change (ismp t) with (ismp s2) end. rewrite H4. change (ismp s1) with true. cbn [negb].
  rewrite bind_get. set (s3 := set_mp_cpus _ s2).
  assert (∃ s4, (mp_cprintf "SMP: CPU %d found %d CPU(s)\n" [match mp_cpus s3 !! bootcpu s3 with Some c => cpu_id c | None => 0 end; ncpu s3] ;;
      x ← rd8 (mp_imcrp mp);
      when (ctrue x)
        (mp_cprintf "SMP: Setting IMCR to switch from PIC mode to symmetric I/O mode\n" [] ;;
         mp_outb 0x22 0x70 ;; v ← gets imcr; mp_outb 0x23 (Z.lor v 1))) s3 = Ret tt s4 ∧
    mp_pm s4 = mp_pm s3 ∧ ncpu s4 = ncpu s3 ∧ bootcpu s4 = bootcpu s3 ∧ lapicaddr s4 = lapicaddr s3 ∧ mp_cpus s4 = mp_cpus s3)
    as (s4 & E4 & F1 & F2 & F3 & F4 & F5).
  { erewrite bind_Ret by reflexivity. erewrite bind_Ret by reflexivity. destruct (ctrue _); eexists; (split; [reflexivity|]); auto 10. }
  exists s4, (set_cpu_status CPU_STARTED c). split; [exact E4|]. rewrite F1, F2, F3, F4, F5.
  change (mp_cpus s3) with (<[bootcpu s2 := set_cpu_status CPU_STARTED c]> (mp_cpus s2)). change (bootcpu s3) with (bootcpu s2).
  split; [exact H5|]. split; [exact H1|]. split; [exact H3|]. split; [exact H6|]. split; [|split; [|split; [apply lookup_insert_eq|reflexivity]]].
  - destruct H2 as [Hd Hi]. split.
    + intros i. rewrite lookup_insert_is_Some', <- Hd. split; [intros [<-|]; eauto|auto].
    + intros i x Hi' Hx. destruct (decide (i = bootcpu s2)) as [->|D].
      * rewrite lookup_insert_eq in Hx. injection Hx as <-. apply (Hi _ c Hi' Ec).
      * rewrite lookup_insert_ne in Hx by congruence. apply (Hi i x Hi' Hx).
  - etransitivity; [exact H7|]. intros i. destruct (decide (i = bootcpu s2)) as [->|D].
    + rewrite lookup_insert_eq, Ec. reflexivity.
    + rewrite lookup_insert_ne by congruence. reflexivity.
Qed.

(** The CPUs of a configuration table.  For a table whose entries are
    [es], mp_init counts the processors, but at most 8; gives CPU number i the
    id i; and takes as boot CPU the last processor with the boot flag, or CPU 0.
    It then marks the boot CPU as started; if that processor comes after eight
    others, the store is past the end of the array. *)
Theorem mp_init_counts (es : list mp_entry) (p : Z) (s : mpst) :
  entries_at (phys (mp_pm s)) (p - KERNBASE) es → ncpu s = 0 → bootcpu s = 0 → cpus_ok (mp_cpus s) 0 →
  ∃ s', mp_entries (length es) p s = Ret tt s' ∧ ncpu s' = Z.min 8 (processors es) ∧
    (∀ i c, 0 ≤ i < ncpu s' → mp_cpus s' !! i = Some c → cpu_id c = i) ∧
    bootcpu s' = boot_index 0 0 es ∧
    if boot_index 0 0 es <? NCPU
    then ∃ c, mp_cpus s' !! bootcpu s' = Some c ∧
      boot_started s' = Ret tt (set_mp_cpus (<[bootcpu s' := set_cpu_status CPU_STARTED c]> (mp_cpus s')) s')
    else boot_started s' = Stop (SUndef "bootcpu is past the end of cpus") s'.
Proof.
  intros He Hn Hb Hc. destruct (mp_entries_run es p s He) as (s' & E & H1 & [Hd Hi] & H3 & _); [lia|rewrite Hn; exact Hc|].
  rewrite Hn, Hb in H3. rewrite Hn, Z.add_0_l in H1. exists s'. split; [exact E|]. split; [exact H1|]. split; [exact Hi|].
  split; [exact H3|].
  unfold boot_started. destruct (Z.ltb_spec (boot_index 0 0 es) NCPU) as [L|L].
  - destruct (proj2 (Hd (bootcpu s'))) as [c Ec]; [rewrite H3; split; [apply boot_index_nonneg; lia|exact L]|].
    exists c. rewrite Ec. auto.
  - destruct (mp_cpus s' !! bootcpu s') as [c|] eqn:Ec; [|reflexivity].
    destruct (proj1 (Hd (bootcpu s')) (mk_is_Some _ _ Ec)). lia.
Qed.

(** Nine processors, of which the last one booted. *)
Definition demo_procs : list mp_entry := replicate 8 (Processor false) ++ [Processor true].
Definition demo_mpst : mpst :=
  MkMpst (MkPm 1 1 ∅ None 0 0 0 0 0 (st8 ∅ 163 MPPROC_BOOT) 0 [] 0)
    (list_to_map ((λ i, (i, MkCpuInfo 0 0 None 0 0)) <$> seqZ 0 8)) 0 true 0 0 0 [] [].

Lemma mp_init_counts_witness : ∃ s', mp_entries 9 KERNBASE demo_mpst = Ret tt s' ∧ ncpu s' = 8 ∧ bootcpu s' = 8 ∧
  boot_started s' = Stop (SUndef "bootcpu is past the end of cpus") s'.
Proof.
  destruct (mp_init_counts demo_procs KERNBASE demo_mpst) as (s' & E & H1 & _ & H3 & H4).
  - vm_compute. repeat split.
  - reflexivity.
  - reflexivity.
  - split; [|intros i c Hi; lia]. intros i. cbn [demo_mpst mp_cpus]. rewrite lookup_seqZ_map. unfold NCPU.
    case_decide; split; intros; [lia|eauto|destruct H0; discriminate|lia].
  - exists s'. split; [exact E|]. split; [exact H1|]. split; [exact H3|]. exact H4.
Defined.
