(* ===== verification/Boot.v ===== *)
(** mem_init of kern/pmap.c: the kernel's page directory, and the checking
    functions that it calls. *)
From S2P Require Import Prelude Mmu Mem Pages PageTable Console KState.

(** A failed [assert] panics. *)
Definition kassert (b : bool) (what : string) : M pm unit :=
  if b then mret tt else panic ("assertion failed: " +:+ what).

(** [assert((pp = page_alloc(flags)))] *)
Definition assert_alloc (flags : Z) (what : string) : M pm Z :=
  pp ← page_alloc flags;
  match pp with Some pp => mret pp | None => panic ("assertion failed: " +:+ what) end.

(** [assert(!page_alloc(0))] *)
Definition assert_no_page : M pm unit :=
  pp ← page_alloc 0; kassert (bool_decide (pp = None)) "!page_alloc(0)".

Definition page_ref (pp : Z) : M pm Z := p ← page_get pp; mret (pp_ref p).

(** [for (; pp; pp = pp->pp_link) body(pp)]; a list without repetition has at
    most [npages] elements. *)
Fixpoint for_links (fuel : nat) (pp : option Z) (body : Z → M pm unit) : M pm unit :=
  match pp with
  | None => mret tt
  | Some i =>
      match fuel with
      | O => stop_with SLoop
      | S fuel => body i ;; p ← page_get i; for_links fuel (pp_link p) body
      end
  end.

Fixpoint count_links (fuel : nat) (pp : option Z) (n step : Z) : M pm Z :=
  match pp with
  | None => mret n
  | Some i =>
      match fuel with
      | O => stop_with SLoop
      | S fuel => p ← page_get i; count_links fuel (pp_link p) (n + step) step
      end
  end.

(** * check_page_free_list *)

(** The pointers [tp[0]] and [tp[1]]: to the local variable [pp1] or [pp2]
    ([None]), or to the link of a page.  [store_tp tp v pp] is [*tp = v] where
    the variable's value is [pp]; it returns the variable's new value. *)
Definition store_tp (tp v pp : option Z) : M pm (option Z) :=
  match tp with
  | None => mret v
  | Some j => set_pp_link j v ;; mret pp
  end.

Record split := MkSplit { sp_pp1 : option Z; sp_pp2 : option Z; sp_tp0 : option Z; sp_tp1 : option Z }.

Fixpoint split_free (fuel : nat) (pdx_limit : Z) (pp : option Z) (v : split) : M pm split :=
  match pp with
  | None => mret v
  | Some i =>
      match fuel with
      | O => stop_with SLoop
      | S fuel =>
          v ← (if PDX (page2pa i) >=? pdx_limit
               then pp2 ← store_tp (sp_tp1 v) (Some i) (sp_pp2 v);
                    mret (MkSplit (sp_pp1 v) pp2 (sp_tp0 v) (Some i))
               else pp1 ← store_tp (sp_tp0 v) (Some i) (sp_pp1 v);
                    mret (MkSplit pp1 (sp_pp2 v) (Some i) (sp_tp1 v)));
          p ← page_get i;
          split_free fuel pdx_limit (pp_link p) v
      end
  end.

(** The last loop: the numbers of free pages below and above EXTPHYSMEM. *)
Fixpoint check_free (fuel : nat) (first_free_page : Z) (pp : option Z) (base ext : Z) : M pm (Z * Z) :=
  match pp with
  | None => mret (base, ext)
  | Some i =>
      match fuel with
      | O => stop_with SLoop
      | S fuel =>
          n ← gets npages;
          let pa := page2pa i in
          kassert (0 <=? i) "pp >= pages" ;;
          kassert (i <? n) "pp < pages + npages" ;;
          kassert (negb (pa =? 0)) "page2pa(pp) != 0" ;;
          kassert (negb (pa =? IOPHYSMEM)) "page2pa(pp) != IOPHYSMEM" ;;
          kassert (negb (pa =? EXTPHYSMEM - PGSIZE)) "page2pa(pp) != EXTPHYSMEM - PGSIZE" ;;
          kassert (negb (pa =? EXTPHYSMEM)) "page2pa(pp) != EXTPHYSMEM" ;;
          (if pa <? EXTPHYSMEM then mret tt
           else kva ← page2kva i;
                kassert (kva >=? first_free_page)
                  "page2pa(pp) < EXTPHYSMEM || (char *) page2kva(pp) >= first_free_page") ;;
          kassert (negb (pa =? MPENTRY_PADDR)) "page2pa(pp) != MPENTRY_PADDR" ;;
          p ← page_get i;
          if pa <? EXTPHYSMEM then check_free fuel first_free_page (pp_link p) (base + 1) ext
          else check_free fuel first_free_page (pp_link p) base (ext + 1)
      end
  end.

Section boot.
(** What the CMOS answers, the linker's [end], [bootstack] of kern/entry.S and
    [percpu_kstacks] of kern/mpconfig.c. *)
Context (cmos : Z → Z) (kend bootstack percpu_kstacks : Z).

Definition check_page_free_list (only_low_memory : bool) : M pm unit :=
  let pdx_limit := if only_low_memory then 1 else NPDENTRIES in
  h ← gets page_free_list;
  fuel ← gets (λ s, Z.to_nat (npages s));
  if bool_decide (h = None) then panic "'page_free_list' is a null pointer!"
  else
    when only_low_memory
      (v ← split_free fuel pdx_limit h (MkSplit None None None None);
       pp2 ← store_tp (sp_tp1 v) None (sp_pp2 v);
       pp1 ← store_tp (sp_tp0 v) pp2 (sp_pp1 v);
       modify (with_free_list pp1)) ;;
    h ← gets page_free_list;
    for_links fuel h (λ pp,
      when (PDX (page2pa pp) <? pdx_limit) (kva ← page2kva pp; kmemset kva 0x97 128)) ;;
    first_free_page ← boot_alloc kend 0;
    '(nfree_basemem, nfree_extmem) ← check_free fuel first_free_page h 0 0;
    kassert (nfree_basemem >? 0) "nfree_basemem > 0" ;;
    kassert (nfree_extmem >? 0) "nfree_extmem > 0".

(** * check_page_alloc *)

(** [c[i] == 0] for the [n] bytes from [c]. *)
Fixpoint assert_zero (n : nat) (c : Z) : M pm unit :=
  match n with
  | O => mret tt
  | S n => m ← gets phys; kassert (ld8 m (c - KERNBASE) =? 0) "c[i] == 0" ;; assert_zero n (c + 1)
  end.

Definition distinct_pages (pp0 pp1 pp2 : Z) : M pm unit :=
  kassert (negb (pp1 =? pp0)) "pp1 && pp1 != pp0" ;;
  kassert (negb (pp2 =? pp1) && negb (pp2 =? pp0)) "pp2 && pp2 != pp1 && pp2 != pp0".

Definition check_page_alloc_pm : M pm unit :=
  fuel ← gets (λ s, Z.to_nat (npages s));
  np ← gets npages;
  pk ← gets pages_kva;
  if pk =? 0 then panic "'pages' is a null pointer!" else
  h ← gets page_free_list;
  nfree ← count_links fuel h 0 1;
  pp0 ← assert_alloc 0 "(pp0 = page_alloc(0))";
  pp1 ← assert_alloc 0 "(pp1 = page_alloc(0))";
  pp2 ← assert_alloc 0 "(pp2 = page_alloc(0))";
  distinct_pages pp0 pp1 pp2 ;;
  kassert (page2pa pp0 <? w32 (np * PGSIZE)) "page2pa(pp0) < npages*PGSIZE" ;;
  kassert (page2pa pp1 <? w32 (np * PGSIZE)) "page2pa(pp1) < npages*PGSIZE" ;;
  kassert (page2pa pp2 <? w32 (np * PGSIZE)) "page2pa(pp2) < npages*PGSIZE" ;;
  fl ← gets page_free_list;
  modify (with_free_list None) ;;
  assert_no_page ;;
  page_free pp0 ;; page_free pp1 ;; page_free pp2 ;;
  pp0 ← assert_alloc 0 "(pp0 = page_alloc(0))";
  pp1 ← assert_alloc 0 "(pp1 = page_alloc(0))";
  pp2 ← assert_alloc 0 "(pp2 = page_alloc(0))";
  distinct_pages pp0 pp1 pp2 ;;
  assert_no_page ;;
  kva ← page2kva pp0;
  kmemset kva 1 PGSIZE ;;
  page_free pp0 ;;
  pp ← assert_alloc ALLOC_ZERO "(pp = page_alloc(ALLOC_ZERO))";
  kassert (pp0 =? pp) "pp && pp0 == pp" ;;
  c ← page2kva pp;
  assert_zero (Z.to_nat PGSIZE) c ;;
  modify (with_free_list fl) ;;
  page_free pp0 ;; page_free pp1 ;; page_free pp2 ;;
  h ← gets page_free_list;
  nfree ← count_links fuel h nfree (-1);
  kassert (nfree =? 0) "nfree == 0".

Definition check_page_alloc : M ks unit :=
  inpm check_page_alloc_pm ;; cprintf "check_page_alloc() succeeded!\n" [].

(** * check_kern_pgdir *)

(** [for (i = 0; i < n; i += PGSIZE) assert(check_va2pa(pgdir, va + i) == pa + i);] *)
Definition assert_maps (pgdir va n : Z) (pa : M pm Z) (what : string) : M pm unit :=
  for_range (Z.to_nat (n / PGSIZE)) 0 PGSIZE (λ i,
    r ← check_va2pa pgdir (w32 (va + i));
    b ← pa;
    kassert (r =? w32 (b + i)) what).

Definition sizeof_PageInfo : Z := 8.

Definition check_kern_pgdir_pm : M pm unit :=
  pgdir ← gets kern_pgdir;
  np ← gets npages;
  pk ← gets pages_kva;
  ek ← gets envs_kva;
  assert_maps pgdir UPAGES (ROUNDUP (np * sizeof_PageInfo) PGSIZE) (PADDR pk)
    "check_va2pa(pgdir, UPAGES + i) == PADDR(pages) + i" ;;
  assert_maps pgdir UENVS (ROUNDUP (NENV * sizeof_Env) PGSIZE) (PADDR ek)
    "check_va2pa(pgdir, UENVS + i) == PADDR(envs) + i" ;;
  assert_maps pgdir KERNBASE (w32 (np * PGSIZE)) (mret 0) "check_va2pa(pgdir, KERNBASE + i) == i" ;;
  for_range (Z.to_nat NCPU) 0 1 (λ n,
    let base := w32 (KSTACKTOP - (KSTKSIZE + KSTKGAP) * (n + 1)) in
    assert_maps pgdir (base + KSTKGAP) KSTKSIZE (PADDR (percpu_kstacks + n * KSTKSIZE))
      "check_va2pa(pgdir, base + KSTKGAP + i) == PADDR(percpu_kstacks[n]) + i" ;;
    for_range (Z.to_nat (KSTKGAP / PGSIZE)) 0 PGSIZE (λ i,
      r ← check_va2pa pgdir (w32 (base + i));
      kassert (r =? w32 (-1)) "check_va2pa(pgdir, base + i) == ~0")) ;;
  for_range (Z.to_nat NPDENTRIES) 0 1 (λ i,
    pde ← kld32 (pgdir + 4 * i);
    if (i =? PDX UVPT) || (i =? PDX (KSTACKTOP - 1)) || (i =? PDX UPAGES) || (i =? PDX UENVS)
       || (i =? PDX MMIOBASE)
    then kassert (is_present pde) "pgdir[i] & PTE_P"
    else if i >=? PDX KERNBASE then
      kassert (is_present pde) "pgdir[i] & PTE_P" ;;
      kassert (ctrue (Z.land pde PTE_W)) "pgdir[i] & PTE_W"
    else kassert (pde =? 0) "pgdir[i] == 0").

Definition check_kern_pgdir : M ks unit :=
  inpm check_kern_pgdir_pm ;; cprintf "check_kern_pgdir() succeeded!\n" [].

(** * check_page *)

(** [*pgdir_walk(kern_pgdir, va, 0)], which must not be NULL *)
Definition walk_pte (va : Z) : M pm Z :=
  kp ← gets kern_pgdir;
  p ← pgdir_walk kp va false;
  match p with Some p => kld32 p | None => undef "NULL page table entry" end.

(** There is no current environment yet, so tlb_invalidate always flushes. *)
Definition kinsert (pp va perm : Z) : M pm Z := kp ← gets kern_pgdir; page_insert None kp pp va perm.
Definition kremove (va : Z) : M pm unit := kp ← gets kern_pgdir; page_remove None kp va.

Definition assert_va2pa (va pa : Z) : M pm unit :=
  kp ← gets kern_pgdir; r ← check_va2pa kp va; kassert (r =? pa) "check_va2pa(kern_pgdir, va) == pa".
Definition assert_ref (pp n : Z) : M pm unit := r ← page_ref pp; kassert (r =? n) "pp->pp_ref == n".
Definition assert_insert (pp va perm : Z) : M pm unit :=
  r ← kinsert pp va perm; kassert (r =? 0) "page_insert(kern_pgdir, pp, va, perm) == 0".
Definition assert_insert_fails (pp va perm : Z) : M pm unit :=
  r ← kinsert pp va perm; kassert (r <? 0) "page_insert(kern_pgdir, pp, va, perm) < 0".
(** [kern_pgdir[i] = 0] *)
Definition clear_pde (i : Z) : M pm unit := kp ← gets kern_pgdir; kst32 (kp + 4 * i) 0.
Definition pde_page_is (i pp : Z) : M pm unit :=
  kp ← gets kern_pgdir; pde ← kld32 (kp + 4 * i);
  kassert (PTE_ADDR pde =? page2pa pp) "PTE_ADDR(kern_pgdir[0]) == page2pa(pp0)".

(** The pages pp0, pp1 and pp2 are all the memory there is while this part
    runs. *)
Definition check_page_insert (pp0 pp1 pp2 : Z) : M pm unit :=
  kp ← gets kern_pgdir;
  assert_no_page ;;
  r ← page_lookup kp 0;
  kassert (bool_decide (r.1 = None)) "page_lookup(kern_pgdir, (void *) 0x0, &ptep) == NULL" ;;
  assert_insert_fails pp1 0 PTE_W ;;
  page_free pp0 ;;
  assert_insert pp1 0 PTE_W ;;
  pde_page_is 0 pp0 ;;
  assert_va2pa 0 (page2pa pp1) ;;
  assert_ref pp1 1 ;;
  assert_ref pp0 1 ;;
  assert_insert pp2 PGSIZE PTE_W ;;
  assert_va2pa PGSIZE (page2pa pp2) ;;
  assert_ref pp2 1 ;;
  assert_no_page ;;
  assert_insert pp2 PGSIZE PTE_W ;;
  assert_va2pa PGSIZE (page2pa pp2) ;;
  assert_ref pp2 1 ;;
  assert_no_page ;;
  pde ← kld32 (kp + 4 * PDX PGSIZE);
  ptep ← KADDR (PTE_ADDR pde);
  p ← pgdir_walk kp PGSIZE false;
  kassert (bool_decide (p = Some (ptep + 4 * PTX PGSIZE))) "pgdir_walk(kern_pgdir, (void*)PGSIZE, 0) == ptep+PTX(PGSIZE)" ;;
  assert_insert pp2 PGSIZE (Z.lor PTE_W PTE_U) ;;
  assert_va2pa PGSIZE (page2pa pp2) ;;
  assert_ref pp2 1 ;;
  pte ← walk_pte PGSIZE;
  kassert (ctrue (Z.land pte PTE_U)) "*pgdir_walk(kern_pgdir, (void*) PGSIZE, 0) & PTE_U" ;;
  pde ← kld32 kp;
  kassert (ctrue (Z.land pde PTE_U)) "kern_pgdir[0] & PTE_U" ;;
  assert_insert pp2 PGSIZE PTE_W ;;
  pte ← walk_pte PGSIZE;
  kassert (ctrue (Z.land pte PTE_W)) "*pgdir_walk(kern_pgdir, (void*) PGSIZE, 0) & PTE_W" ;;
  kassert (negb (ctrue (Z.land pte PTE_U))) "!(*pgdir_walk(kern_pgdir, (void*) PGSIZE, 0) & PTE_U)" ;;
  assert_insert_fails pp0 PTSIZE PTE_W ;;
  assert_insert pp1 PGSIZE PTE_W ;;
  pte ← walk_pte PGSIZE;
  kassert (negb (ctrue (Z.land pte PTE_U))) "!(*pgdir_walk(kern_pgdir, (void*) PGSIZE, 0) & PTE_U)".

(** References are given up, and a page without references is free again. *)
Definition check_page_remove (pp0 pp1 pp2 : Z) : M pm unit :=
  assert_va2pa 0 (page2pa pp1) ;;
  assert_va2pa PGSIZE (page2pa pp1) ;;
  assert_ref pp1 2 ;;
  assert_ref pp2 0 ;;
  pp ← assert_alloc 0 "(pp = page_alloc(0))";
  kassert (pp =? pp2) "pp == pp2" ;;
  kremove 0 ;;
  assert_va2pa 0 (w32 (-1)) ;;
  assert_va2pa PGSIZE (page2pa pp1) ;;
  assert_ref pp1 1 ;;
  assert_ref pp2 0 ;;
  assert_insert pp1 PGSIZE 0 ;;
  r ← page_ref pp1;
  kassert (ctrue r) "pp1->pp_ref" ;;
  i ← page_get pp1;
  kassert (bool_decide (pp_link i = None)) "pp1->pp_link == NULL" ;;
  kremove PGSIZE ;;
  assert_va2pa 0 (w32 (-1)) ;;
  assert_va2pa PGSIZE (w32 (-1)) ;;
  assert_ref pp1 0 ;;
  assert_ref pp2 0 ;;
  pp ← assert_alloc 0 "(pp = page_alloc(0))";
  kassert (pp =? pp1) "pp == pp1" ;;
  assert_no_page ;;
  pde_page_is 0 pp0 ;;
  clear_pde 0 ;;
  assert_ref pp0 1 ;;
  set_pp_ref pp0 0.

(** Page tables: the address pgdir_walk computes, and that new ones are
    clear. *)
Definition check_page_walk (pp0 : Z) : M pm unit :=
  kp ← gets kern_pgdir;
  page_free pp0 ;;
  let va := PGSIZE * NPDENTRIES + PGSIZE in
  ptep ← pgdir_walk kp va true;
  pde ← kld32 (kp + 4 * PDX va);
  ptep1 ← KADDR (PTE_ADDR pde);
  kassert (bool_decide (ptep = Some (ptep1 + 4 * PTX va))) "ptep == ptep1 + PTX(va)" ;;
  clear_pde (PDX va) ;;
  set_pp_ref pp0 0 ;;
  kva ← page2kva pp0;
  kmemset kva 0xFF PGSIZE ;;
  page_free pp0 ;;
  pgdir_walk kp 0 true ;;
  ptep ← page2kva pp0;
  for_range (Z.to_nat NPTENTRIES) 0 1 (λ i,
    pte ← kld32 (ptep + 4 * i); kassert (negb (is_present pte)) "(ptep[i] & PTE_P) == 0") ;;
  clear_pde 0 ;;
  set_pp_ref pp0 0.

Definition in_mmio (mm : Z) : bool := (mm >=? MMIOBASE) && (w32 (mm + 8096) <? MMIOLIM).
Definition set_walk_pte (va v : Z) : M pm unit :=
  kp ← gets kern_pgdir;
  p ← pgdir_walk kp va false;
  match p with Some p => kst32 p v | None => undef "NULL page table entry" end.

Definition check_page_mmio : M pm unit :=
  mm1 ← mmio_map_region 0 4097;
  mm2 ← mmio_map_region 0 4096;
  kassert (in_mmio mm1) "mm1 >= MMIOBASE && mm1 + 8096 < MMIOLIM" ;;
  kassert (in_mmio mm2) "mm2 >= MMIOBASE && mm2 + 8096 < MMIOLIM" ;;
  kassert ((mm1 mod PGSIZE =? 0) && (mm2 mod PGSIZE =? 0)) "mm1 % PGSIZE == 0 && mm2 % PGSIZE == 0" ;;
  kassert (w32 (mm1 + 8096) <=? mm2) "mm1 + 8096 <= mm2" ;;
  assert_va2pa mm1 0 ;;
  assert_va2pa (w32 (mm1 + PGSIZE)) PGSIZE ;;
  assert_va2pa mm2 0 ;;
  assert_va2pa (w32 (mm2 + PGSIZE)) (w32 (-1)) ;;
  pte ← walk_pte mm1;
  kassert (ctrue (Z.land pte (Z.lor (Z.lor PTE_W PTE_PWT) PTE_PCD))) "*pgdir_walk(kern_pgdir, (void*) mm1, 0) & (PTE_W|PTE_PWT|PTE_PCD)" ;;
  kassert (negb (ctrue (Z.land pte PTE_U))) "!(*pgdir_walk(kern_pgdir, (void*) mm1, 0) & PTE_U)" ;;
  set_walk_pte mm1 0 ;;
  set_walk_pte (w32 (mm1 + PGSIZE)) 0 ;;
  set_walk_pte mm2 0.

Definition check_page_pm : M pm unit :=
  pp0 ← assert_alloc 0 "(pp0 = page_alloc(0))";
  pp1 ← assert_alloc 0 "(pp1 = page_alloc(0))";
  pp2 ← assert_alloc 0 "(pp2 = page_alloc(0))";
  distinct_pages pp0 pp1 pp2 ;;
  fl ← gets page_free_list;
  modify (with_free_list None) ;;
  check_page_insert pp0 pp1 pp2 ;;
  check_page_remove pp0 pp1 pp2 ;;
  check_page_walk pp0 ;;
  modify (with_free_list fl) ;;
  page_free pp0 ;; page_free pp1 ;; page_free pp2 ;;
  check_page_mmio.

Definition check_page : M ks unit := inpm check_page_pm ;; cprintf "check_page() succeeded!\n" [].

(** * check_page_installed_pgdir *)

Definition assert_word (va v : Z) (what : string) : M pm unit := x ← vld32 va; kassert (x =? v) what.

Definition check_page_installed_pgdir_pm : M pm unit :=
  pp0 ← assert_alloc 0 "(pp0 = page_alloc(0))";
  pp1 ← assert_alloc 0 "(pp1 = page_alloc(0))";
  pp2 ← assert_alloc 0 "(pp2 = page_alloc(0))";
  page_free pp0 ;;
  k1 ← page2kva pp1;
  kmemset k1 1 PGSIZE ;;
  k2 ← page2kva pp2;
  kmemset k2 2 PGSIZE ;;
  kinsert pp1 PGSIZE PTE_W ;;
  assert_ref pp1 1 ;;
  assert_word PGSIZE 0x01010101 "*(uint32_t *)PGSIZE == 0x01010101U" ;;
  kinsert pp2 PGSIZE PTE_W ;;
  assert_word PGSIZE 0x02020202 "*(uint32_t *)PGSIZE == 0x02020202U" ;;
  assert_ref pp2 1 ;;
  assert_ref pp1 0 ;;
  vst32 PGSIZE 0x03030303 ;;
  k2 ← page2kva pp2;
  assert_word k2 0x03030303 "*(uint32_t *)page2kva(pp2) == 0x03030303U" ;;
  kremove PGSIZE ;;
  assert_ref pp2 0 ;;
  pde_page_is 0 pp0 ;;
  clear_pde 0 ;;
  assert_ref pp0 1 ;;
  set_pp_ref pp0 0 ;;
  page_free pp0.

Definition check_page_installed_pgdir : M ks unit :=
  inpm check_page_installed_pgdir_pm ;; cprintf "check_page_installed_pgdir() succeeded!\n" [].

(** * mem_init *)

(** [pages = boot_alloc(sizeof(struct PageInfo) * npages); memset(pages, 0, ...)] *)
Definition clear_pages : M pm unit := modify (λ s, with_pages (zero_pages (npages s)) s).

Definition i386_detect_memory : M ks unit :=
  inpm (detect_memory cmos) ;;
  n ← gets (λ s, npages (kpm s));
  b ← gets (λ s, npages_basemem (kpm s));
  cprintf "Physical memory: %uK available, base = %uK, extended = %uK\n"
    [w32 (n * PGSIZE) / 1024; w32 (b * PGSIZE) / 1024; w32 (npages_extmem cmos * PGSIZE) / 1024].

(** From there to the free list. *)
Definition mem_init_alloc : M pm unit :=
  kp ← boot_alloc kend PGSIZE;
  modify (λ s, with_roots kp (pages_kva s) (envs_kva s) s) ;;
  kmemset kp 0 PGSIZE ;;
  pa ← PADDR kp;
  kst32 (kp + 4 * PDX UVPT) (Z.lor (Z.lor pa PTE_U) PTE_P) ;;
  np ← gets npages;
  pk ← boot_alloc kend (w32 (sizeof_PageInfo * np));
  modify (λ s, with_roots (kern_pgdir s) pk (envs_kva s) s) ;;
  clear_pages ;;
  ek ← boot_alloc kend (sizeof_Env * NENV);
  modify (λ s, with_roots (kern_pgdir s) (pages_kva s) ek s) ;;
  page_init kend.

Definition mem_init_mp : M pm unit :=
  kp ← gets kern_pgdir;
  for_range (Z.to_nat NCPU) 0 1 (λ i,
    pa ← PADDR (percpu_kstacks + i * KSTKSIZE);
    boot_map_region kp (w32 (KSTACKTOP - i * (KSTKSIZE + KSTKGAP) - KSTKSIZE)) KSTKSIZE pa PTE_W).

(** The kernel's part of the address space. *)
Definition mem_init_map : M pm unit :=
  kp ← gets kern_pgdir;
  np ← gets npages;
  pk ← gets pages_kva;
  pa ← PADDR pk;
  boot_map_region kp UPAGES (ROUNDUP (np * sizeof_PageInfo) PGSIZE) pa PTE_U ;;
  ek ← gets envs_kva;
  pa ← PADDR ek;
  boot_map_region kp UENVS PTSIZE pa PTE_U ;;
  pa ← PADDR bootstack;
  boot_map_region kp (KSTACKTOP - KSTKSIZE) KSTKSIZE pa PTE_W ;;
  boot_map_region kp KERNBASE (w32 (0xffffffff - KERNBASE + 1)) 0 PTE_W ;;
  mem_init_mp.

(** The bits of %cr0 that the rest of the model takes as set are set here. *)
Definition mem_init : M ks unit :=
  i386_detect_memory ;;
  inpm mem_init_alloc ;;
  inpm (check_page_free_list true) ;;
  check_page_alloc ;;
  check_page ;;
  inpm mem_init_map ;;
  check_kern_pgdir ;;
  kp ← gets (λ s, kern_pgdir (kpm s));
  pa ← inpm (PADDR kp);
  lcr3 pa ;;
  inpm (check_page_free_list false) ;;
  check_page_installed_pgdir.
End boot.
