(* ===== verification/BootCheck.v ===== *)
(** The checks of the free list in kern/pmap.c: check_page_free_list puts the
    free pages below 4MB, which the entry page directory maps, in front of the
    others, and its assertions hold of what page_init leaves. *)
From S2P Require Import Prelude Mmu Mem Pages PageTable AddrSpace UserMem Console KState Boot.

Lemma kassert_true s b what : b = true → kassert b what s = Ret tt s.
Proof. intros ->. reflexivity. Qed.

(** * List segments *)

(** Following [pp_link] from [h] visits [l] and arrives at [t]. *)
Fixpoint seg (P : gmap Z PageInfo) (h : option Z) (l : list Z) (t : option Z) : Prop :=
  match l with
  | [] => h = t
  | i :: l => h = Some i ∧ ∃ p, P !! i = Some p ∧ seg P (pp_link p) l t
  end.

Lemma seg_app P h l1 l2 t : seg P h (l1 ++ l2) t ↔ ∃ m, seg P h l1 m ∧ seg P m l2 t.
Proof.
  revert h. induction l1 as [|i l1 IH]; intros h; cbn [app seg].
  - split; [eauto|intros (m & -> & H); exact H].
  - split.
    + intros (-> & p & Hp & H). apply IH in H as (m & H1 & H2). exists m. split; [|exact H2]. eauto.
    + intros (m & (-> & p & Hp & H1) & H2). split; [reflexivity|]. exists p. split; [exact Hp|]. apply IH. eauto.
Qed.

Lemma seg_chain P h l : chain P h l ↔ seg P h l None.
Proof.
  revert h. induction l as [|i l IH]; intros h; cbn [seg].
  - split; [apply chain_inv_nil|intros ->; constructor].
  - split.
    + intros H. apply chain_inv_cons in H as (-> & p & Hp & H). split; [reflexivity|]. exists p. split; [exact Hp|]. apply IH, H.
    + intros (-> & p & Hp & H). econstructor; [exact Hp|]. apply IH, H.
Qed.

Lemma seg_ext P P' h l t : (∀ i, i ∈ l → P' !! i = P !! i) → seg P h l t → seg P' h l t.
Proof.
  revert h. induction l as [|i l IH]; intros h HP; cbn [seg]; [auto|]. intros (-> & p & Hp & H).
  split; [reflexivity|]. exists p. split; [rewrite HP; [exact Hp|apply list_elem_of_here]|].
  apply IH; [|exact H]. intros j Hj. apply HP, list_elem_of_further, Hj.
Qed.

(** * The two lists under construction *)

(** [lane P pp tp l]: the list [l] starts at the local variable's value [pp], and
    [tp] points to its last link, or to the variable when it is empty. *)
Definition lane (P : gmap Z PageInfo) (pp tp : option Z) (l : list Z) : Prop :=
  (l = [] ∧ tp = None) ∨ ∃ l0 j, l = l0 ++ [j] ∧ tp = Some j ∧ seg P pp l0 (Some j) ∧ is_Some (P !! j).

Lemma lane_ext P P' pp tp l : (∀ i, i ∈ l → P' !! i = P !! i) → lane P pp tp l → lane P' pp tp l.
Proof.
  intros HP [H|(l0 & j & -> & -> & Hs & Hj)]; [left; exact H|right]. exists l0, j.
  split; [reflexivity|]. split; [reflexivity|]. split.
  - eapply seg_ext; [|exact Hs]. intros i Hi. apply HP, elem_of_app. auto.
  - rewrite HP; [exact Hj|]. apply elem_of_app. right. apply list_elem_of_here.
Qed.

(** Only links change, and only those of the pages in [l]. *)
Definition relinked (l : list Z) (P P' : gmap Z PageInfo) : Prop :=
  (∀ i, i ∉ l → P' !! i = P !! i) ∧ ∀ i, pp_ref <$> P' !! i = pp_ref <$> P !! i.

Lemma relinked_refl l P : relinked l P P.
Proof. split; reflexivity. Qed.
Lemma relinked_trans l P1 P2 P3 : relinked l P1 P2 → relinked l P2 P3 → relinked l P1 P3.
Proof. intros [H1 R1] [H2 R2]. split; intros i; [intros Hi; rewrite H2, H1 by exact Hi; reflexivity|]. rewrite R2. apply R1. Qed.
Lemma relinked_sub l l' P P' : l ⊆ l' → relinked l P P' → relinked l' P P'.
Proof. intros Hs [H R]. split; [|exact R]. intros i Hi. apply H. intros F. apply Hi, Hs, F. Qed.
Lemma relinked_dom l P P' i : relinked l P P' → is_Some (P !! i) → is_Some (P' !! i).
Proof. intros [_ R] [p Hp]. specialize (R i). rewrite Hp in R. destruct (P' !! i); [eauto|discriminate R]. Qed.

(** Storing through [tp] completes the list with what is stored. *)
Lemma store_lane s pp tp l v : lane (pages s) pp tp l → NoDup l →
  ∃ pp' P', store_tp tp v pp s = Ret pp' (with_pages P' s) ∧ seg P' pp' l v ∧ relinked l (pages s) P'.
Proof.
  intros [(-> & ->)|(l0 & j & -> & -> & Hs & p & Hp)] Hnd.
  - exists v, (pages s). split; [destruct s; reflexivity|]. split; [reflexivity|apply relinked_refl].
  - exists pp, (<[j := MkPageInfo v (pp_ref p)]> (pages s)). apply NoDup_app in Hnd as (_ & Hnd & _).
    split; [unfold store_tp; rewrite (bind_Ret _ _ _ _ _ (set_pp_link_eq s j p v Hp)); reflexivity|]. split.
    + apply seg_app. exists (Some j). split.
      * eapply seg_ext; [|exact Hs]. intros i Hi. apply lookup_insert_ne. intros <-. apply (Hnd j Hi), list_elem_of_here.
      * split; [reflexivity|]. eexists. split; [apply lookup_insert_eq|]. reflexivity.
    + split.
      * intros i Hi. apply lookup_insert_ne. intros <-. apply Hi, elem_of_app. right. apply list_elem_of_here.
      * intros i. destruct (decide (i = j)) as [->|]; [rewrite lookup_insert_eq, Hp; reflexivity|].
        rewrite lookup_insert_ne by congruence. reflexivity.
Qed.

Lemma lane_snoc P pp l i : seg P pp l (Some i) → is_Some (P !! i) → lane P pp (Some i) (l ++ [i]).
Proof. intros Hs Hi. right. exists l, i. auto. Qed.

(** * The split *)

Section split.
Context (pdx_limit : Z).
Definition is_high (i : Z) : Prop := PDX (page2pa i) >=? pdx_limit = true.
#[export] Instance is_high_dec i : Decision (is_high i) := decide (_ = _).

Lemma chain_frame P P' h l l0 : relinked l0 P P' → l ## l0 → chain P h l → chain P' h l.
Proof.
  intros [HP _] Hd Hc. apply seg_chain. apply seg_chain in Hc. eapply seg_ext; [|exact Hc].
  intros i Hi. apply HP. intros F. exact (Hd i Hi F).
Qed.

Lemma lane_frame P P' pp tp l l0 : relinked l0 P P' → l ## l0 → lane P pp tp l → lane P' pp tp l.
Proof. intros [HP _] Hd. apply lane_ext. intros i Hi. apply HP. intros F. exact (Hd i Hi F). Qed.

Lemma split_run r : ∀ lo hi v s fuel pp, (length r ≤ fuel)%nat → NoDup (lo ++ hi ++ r) →
  lane (pages s) (sp_pp1 v) (sp_tp0 v) lo → lane (pages s) (sp_pp2 v) (sp_tp1 v) hi → chain (pages s) pp r →
  ∃ v' P', split_free fuel pdx_limit pp v s = Ret v' (with_pages P' s) ∧
    lane P' (sp_pp1 v') (sp_tp0 v') (lo ++ filter (λ i, ¬ is_high i) r) ∧
    lane P' (sp_pp2 v') (sp_tp1 v') (hi ++ filter is_high r) ∧
    relinked (lo ++ hi ++ r) (pages s) P'.
Proof.
  induction r as [|i r IH]; intros lo hi v s fuel pp Hf Hnd Hlo Hhi Hc.
  - apply chain_inv_nil in Hc as ->. exists v, (pages s). split; [destruct fuel, s; reflexivity|]. rewrite !app_nil_r.
    split; [exact Hlo|]. split; [exact Hhi|apply relinked_refl].
  - apply chain_inv_cons in Hc as (-> & p & Hp & Hc). destruct fuel as [|fuel]; [simpl in Hf; lia|].
    assert (lo ## hi ∧ lo ## i :: r ∧ hi ## i :: r ∧ NoDup lo ∧ NoDup hi) as (D1 & D2 & D3 & N1 & N2).
    { apply NoDup_app in Hnd as (N1 & D & Hnd). apply NoDup_app in Hnd as (N2 & D' & _).
      split; [intros j Hj F; apply (D j Hj), elem_of_app; auto|].
      split; [intros j Hj F; apply (D j Hj), elem_of_app; auto|]. auto. }
    cbn [split_free]. rewrite !filter_cons.
    assert (i ∉ lo ∧ i ∉ hi) as [Hil Hih] by (split; intros F; [apply (D2 i F)|apply (D3 i F)]; apply list_elem_of_here).
    assert (r ## lo ∧ r ## hi) as [Hrl Hrh] by (split; intros j Hj F; [apply (D2 j F)|apply (D3 j F)]; apply list_elem_of_further, Hj).
    destruct (decide (is_high i)) as [Hh|Hh].
    + rewrite (decide_False (P := ¬ _)) by tauto. unfold is_high in Hh. rewrite Hh.
      destruct (store_lane s _ _ hi (Some i) Hhi N2) as (pp2 & P1 & E & Hs & Hr).
      rewrite bind_assoc, (bind_Ret _ _ _ _ _ E), bind_mret.
      rewrite (bind_Ret _ _ _ _ _ (page_get_eq (with_pages P1 s) i p ltac:(psimpl; rewrite (proj1 Hr) by exact Hih; exact Hp))).
      assert (is_Some (P1 !! i)) as Hi1 by (rewrite (proj1 Hr) by exact Hih; eauto).
      destruct (IH lo (hi ++ [i]) (MkSplit (sp_pp1 v) pp2 (sp_tp0 v) (Some i)) (with_pages P1 s) fuel (pp_link p)) as (v' & P' & E' & L1 & L2 & Hr');
        [simpl in Hf; lia|rewrite <- !app_assoc; exact Hnd
        |eapply lane_frame; [exact Hr|exact D1|exact Hlo]|apply lane_snoc; assumption|eapply chain_frame; [exact Hr|exact Hrh|exact Hc]|].
      rewrite <- !app_assoc in *. exists v', P'. split; [exact E'|]. split; [exact L1|]. split; [exact L2|].
      eapply relinked_trans; [|exact Hr']. eapply relinked_sub; [|exact Hr]. intros j Hj. rewrite !elem_of_app. tauto.
    + rewrite (decide_True (P := ¬ _)) by tauto. apply not_true_iff_false in Hh. rewrite Hh.
      destruct (store_lane s _ _ lo (Some i) Hlo N1) as (pp1 & P1 & E & Hs & Hr).
      rewrite bind_assoc, (bind_Ret _ _ _ _ _ E), bind_mret.
      rewrite (bind_Ret _ _ _ _ _ (page_get_eq (with_pages P1 s) i p ltac:(psimpl; rewrite (proj1 Hr) by exact Hil; exact Hp))).
      assert (is_Some (P1 !! i)) as Hi1 by (rewrite (proj1 Hr) by exact Hil; eauto).
      destruct (IH (lo ++ [i]) hi (MkSplit pp1 (sp_pp2 v) (Some i) (sp_tp1 v)) (with_pages P1 s) fuel (pp_link p)) as (v' & P' & E' & L1 & L2 & Hr');
        [simpl in Hf; lia|rewrite <- app_assoc; cbn [app]; rewrite (Permutation_middle hi r i); exact Hnd
        |apply lane_snoc; assumption|eapply lane_frame; [exact Hr|intros j Hj F; exact (D1 j F Hj)|exact Hhi]|eapply chain_frame; [exact Hr|exact Hrl|exact Hc]|].
      rewrite <- !app_assoc in *. exists v', P'. split; [exact E'|]. split; [exact L1|]. split; [exact L2|].
      eapply relinked_trans; [|eapply relinked_sub; [|exact Hr']; intros j; rewrite !elem_of_app, list_elem_of_singleton, elem_of_cons; tauto].
      eapply relinked_sub; [|exact Hr]. intros j Hj. rewrite !elem_of_app. tauto.
Qed.
End split.

(** Another order of the same free pages. *)
Lemma page_inv_relink s l l' h P : page_inv s l → relinked l (pages s) P → l' ≡ₚ l → chain P h l' →
  page_inv (with_free_list h (with_pages P s)) l'.
Proof.
  intros H [HP HR] Hl Hc. split; psimpl.
  - apply H.
  - intros i. rewrite <- (pi_dom _ _ H i). specialize (HR i). split; intros [p Hp]; rewrite Hp in HR.
    + destruct (pages s !! i); [eauto|discriminate HR].
    + destruct (P !! i); [eauto|discriminate HR].
  - exact Hc.
  - intros i p Hi Hp. rewrite Hl in Hi. specialize (HR i). rewrite Hp in HR.
    destruct (pages s !! i) as [q|] eqn:E; [|discriminate HR]. injection HR as ->. exact (pi_free _ _ H _ _ Hi E).
  - intros i p Hi Hp. rewrite Hl in Hi. rewrite HP in Hp by exact Hi. exact (pi_used _ _ H _ _ Hi Hp).
  - intros i p Hp. specialize (HR i). rewrite Hp in HR.
    destruct (pages s !! i) as [q|] eqn:E; [|discriminate HR]. injection HR as ->. exact (pi_ref _ _ H _ _ E).
Qed.

(** The split as check_page_free_list does it: the links that complete the two
    lists are written and the free list starts at the first. *)
Definition split_links (fuel : nat) (pdx_limit : Z) (h : option Z) : M pm unit :=
  v ← split_free fuel pdx_limit h (MkSplit None None None None);
  pp2 ← store_tp (sp_tp1 v) None (sp_pp2 v);
  pp1 ← store_tp (sp_tp0 v) pp2 (sp_pp1 v);
  modify (with_free_list pp1).

Lemma filter_parts (lim : Z) l : filter (λ i, ¬ is_high lim i) l ++ filter (is_high lim) l ≡ₚ l.
Proof.
  induction l as [|i l IH]; [reflexivity|]. rewrite !filter_cons. destruct (decide (is_high lim i)) as [D|D].
  - rewrite decide_False by tauto. rewrite <- Permutation_middle, IH. reflexivity.
  - rewrite decide_True by tauto. cbn [app]. rewrite IH. reflexivity.
Qed.

Lemma page_inv_length s l : page_inv s l → (length l ≤ Z.to_nat (npages s))%nat.
Proof.
  intros H. pose proof (page_inv_NoDup _ _ H) as Hnd.
  pose proof (pi_npages _ _ H) as Hn. rewrite <- (length_seqZ 0 (npages s)).
  apply submseteq_length, NoDup_submseteq; [exact Hnd|]. intros i Hi. apply elem_of_seqZ.
  pose proof (page_inv_free_bound _ _ _ H Hi). lia.
Qed.

Lemma split_links_run s l lim : page_inv s l → ∃ h P,
  split_links (Z.to_nat (npages s)) lim (page_free_list s) s = Ret tt (with_free_list h (with_pages P s)) ∧
  page_inv (with_free_list h (with_pages P s)) (filter (λ i, ¬ is_high lim i) l ++ filter (is_high lim) l) ∧
  relinked l (pages s) P.
Proof.
  intros H. pose proof (page_inv_NoDup _ _ H) as Hnd. unfold split_links.
  destruct (split_run lim l [] [] (MkSplit None None None None) s (Z.to_nat (npages s)) (page_free_list s))
    as (v & P1 & E1 & L1 & L2 & R1); [apply page_inv_length, H|exact Hnd|left; auto|left; auto|apply H|].
  cbn [app] in *. rewrite (bind_Ret _ _ _ _ _ E1).
  pose proof (filter_parts lim l) as Hp. pose proof Hnd as Hnd2. rewrite <- Hp in Hnd2. apply NoDup_app in Hnd2 as (N1 & D & N2).
  set (lo := filter (λ i, ¬ is_high lim i) l) in *. set (hi := filter (is_high lim) l) in *.
  destruct (store_lane (with_pages P1 s) _ _ hi None L2 N2) as (pp2 & P2 & E2 & S2 & R2).
  rewrite (bind_Ret _ _ _ _ _ E2). 
  destruct (store_lane (with_pages P2 (with_pages P1 s)) (sp_pp1 v) (sp_tp0 v) lo pp2) as (pp1 & P3 & E3 & S3 & R3);
    [eapply lane_frame; [exact R2|exact D|exact L1]|exact N1|].
  rewrite (bind_Ret _ _ _ _ _ E3). exists pp1, P3. split; [reflexivity|].
  assert (lo ⊆ l ∧ hi ⊆ l) as [Hlo Hhi] by (split; intros i Hi; rewrite <- Hp; apply elem_of_app; auto).
  assert (relinked l (pages s) P3) as R.
  { eapply relinked_trans; [exact R1|]. eapply relinked_trans; [exact (relinked_sub _ _ _ _ Hhi R2)|exact (relinked_sub _ _ _ _ Hlo R3)]. }
  split; [|exact R]. eapply page_inv_relink; [exact H|exact R|exact Hp|].
  apply seg_chain, seg_app. exists pp2. split; [exact S3|]. eapply seg_ext; [|exact S2].
  intros i Hi. apply (proj1 R3). intros F. exact (D i F Hi).
Qed.

(** * The other loops *)

(** A walk whose body writes memory only. *)
Lemma for_links_mem (I : mem → Prop) body l : ∀ fuel pp s, (length l ≤ fuel)%nat → chain (pages s) pp l → I (phys s) →
  (∀ i t, i ∈ l → pages t = pages s → npages t = npages s → I (phys t) → ∃ m, body i t = Ret tt (with_phys m t) ∧ I m) →
  ∃ m, for_links fuel pp body s = Ret tt (with_phys m s) ∧ I m.
Proof.
  induction l as [|i l IH]; intros fuel pp s Hf Hc HI Hb.
  - apply chain_inv_nil in Hc as ->. exists (phys s). split; [destruct fuel, s; reflexivity|exact HI].
  - apply chain_inv_cons in Hc as (-> & p & Hp & Hc). destruct fuel as [|fuel]; [simpl in Hf; lia|]. cbn [for_links].
    destruct (Hb i s (list_elem_of_here _ _) eq_refl eq_refl HI) as (m1 & E & HI1).
    rewrite (bind_Ret _ _ _ _ _ E), (bind_Ret _ _ _ _ _ (page_get_eq (with_phys m1 s) i p Hp)).
    destruct (IH fuel (pp_link p) (with_phys m1 s)) as (m & E' & HI'); [simpl in Hf; lia|exact Hc|exact HI1| |].
    + intros j t Hj Et En. apply Hb; [apply list_elem_of_further, Hj|exact Et|exact En].
    + exists m. split; [exact E'|exact HI'].
Qed.

(** What the assertions of the last loop ask of a free page, when the kernel's
    boot allocations end at page [ff]. *)
Definition may_be_free (ff i : Z) : Prop := i ≠ 0 ∧ i ≠ 7 ∧ ¬ (160 ≤ i < ff).

Lemma check_free_run l ff s : 256 < ff → npages s ≤ 65536 → ∀ fuel pp b e, (length l ≤ fuel)%nat → chain (pages s) pp l →
  (∀ i, i ∈ l → 0 ≤ i < npages s ∧ may_be_free ff i) → 
  check_free fuel (ff * PGSIZE + KERNBASE) pp b e s
  = Ret (b + countb (λ i, i <? 256) l, e + countb (λ i, 256 <=? i) l) s.
Proof.
  intros Hff Hn. induction l as [|i l IH]; intros fuel pp b e Hf Hc Hl.
  - apply chain_inv_nil in Hc as ->. cbn [countb]. rewrite !Z.add_0_r. destruct fuel; reflexivity.
  - apply chain_inv_cons in Hc as (-> & p & Hp & Hc). destruct fuel as [|fuel]; [simpl in Hf; lia|].
    destruct (Hl i (list_elem_of_here _ _)) as (Hi & F0 & F7 & Fr). cbn [check_free countb].
    rewrite bind_gets, page2pa_eq by lia. cbv zeta.
    change IOPHYSMEM with (160 * PGSIZE). change (EXTPHYSMEM - PGSIZE) with (255 * PGSIZE). change EXTPHYSMEM with (256 * PGSIZE).
    change MPENTRY_PADDR with (7 * PGSIZE).
    assert (∀ j, i ≠ j → negb (i * PGSIZE =? j * PGSIZE) = true) as Hne
      by (intros j Hj; apply negb_true_iff, Z.eqb_neq; unfold PGSIZE; lia).
    assert ((i * PGSIZE <? 256 * PGSIZE) = (i <? 256)) as Elt by (unfold PGSIZE; zcases; lia || reflexivity).
    assert ((256 <=? i) = negb (i <? 256)) as Eb by (zcases; lia || reflexivity).
    repeat (erewrite bind_Ret by (apply kassert_true; first [apply Hne; lia | apply Z.leb_le; lia | apply Z.ltb_lt; lia
      | apply (Hne 0); exact F0])).
    rewrite Elt, Eb.
    assert ((if i <? 256 then mret tt else kva ← page2kva i; kassert (kva >=? ff * PGSIZE + KERNBASE)
      "page2pa(pp) < EXTPHYSMEM || (char *) page2kva(pp) >= first_free_page") s = Ret tt s) as Ek.
    { destruct (Z.ltb_spec i 256); [reflexivity|]. rewrite (bind_Ret _ _ _ _ _ (page2kva_page s i ltac:(lia) Hi)).
      apply kassert_true. apply Z.geb_le. unfold PGSIZE. lia. }
    rewrite (bind_Ret _ _ _ _ _ Ek).
    erewrite bind_Ret by (apply kassert_true, Hne; exact F7).
    rewrite (bind_Ret _ _ _ _ _ (page_get_eq s i p Hp)).
    assert (∀ j, j ∈ l → 0 ≤ j < npages s ∧ may_be_free ff j) as Hl' by (intros j Hj; apply Hl, list_elem_of_further, Hj).
    destruct (i <? 256); cbn [negb Z.b2z]; rewrite (IH fuel (pp_link p)) by (assumption || (simpl in Hf; lia));
      f_equal; f_equal; lia.
Qed.

Lemma filter_ext_in (P Q : Z → Prop) `{!∀ i, Decision (P i), !∀ i, Decision (Q i)} (l : list Z) :
  (∀ i, i ∈ l → P i ↔ Q i) → filter P l = filter Q l.
Proof.
  induction l as [|i l IH]; intros HPQ; [reflexivity|]. rewrite !filter_cons.
  rewrite IH by (intros j Hj; apply HPQ, list_elem_of_further, Hj). pose proof (HPQ i (list_elem_of_here _ _)).
  repeat case_decide; tauto.
Qed.

Lemma is_high_1 i : 0 ≤ i < 65536 → is_high 1 i ↔ 1024 ≤ i.
Proof.
  intros Hi. unfold is_high. rewrite page2pa_eq by exact Hi. destruct (page_idx i ltac:(lia)) as (_ & -> & _).
  rewrite Z.geb_leb, Z.leb_le. Z.div_mod_to_equations. lia.
Qed.

(** It returns, whatever the order it leaves. *)
Lemma check_page_free_list_run (kend : Z) (low : bool) (s : pm) (l : list Z) (ff : Z) :
  page_inv s l → 256 < ff < 65536 → nextfree s = kva_of ff → (∀ i, i ∈ l → may_be_free ff i) →
  (∃ i, i ∈ l ∧ i < 256) → (∃ i, i ∈ l ∧ 256 ≤ i) →
  let l' := if low then filter (λ i, i < 1024) l ++ filter (λ i, 1024 ≤ i) l else l in
  ∃ h P m, check_page_free_list kend low s = Ret tt (with_phys m (with_free_list h (with_pages P s))) ∧
    page_inv (with_phys m (with_free_list h (with_pages P s))) l' ∧ relinked l (pages s) P ∧ l' ≡ₚ l ∧
    ∀ a, (∀ i, i ∈ l → ¬ (i * PGSIZE ≤ a < i * PGSIZE + 128)) → ld8 m a = ld8 (phys s) a.
Proof.
  intros H Hff Hnf Hl (i1 & Hi1 & Hlow) (i2 & Hi2 & Hhigh). pose proof (pi_npages _ _ H) as Hn.
  set (lim := if low then 1 else NPDENTRIES). set (fuel := Z.to_nat (npages s)).
  intros l'.
  assert (∃ h P, (if low then split_links fuel lim (page_free_list s) else mret tt) s = Ret tt (with_free_list h (with_pages P s)) ∧
    page_inv (with_free_list h (with_pages P s)) l' ∧ relinked l (pages s) P ∧ l' ≡ₚ l) as (h & P & E1 & H1 & R1 & Hp).
  { unfold l', lim. destruct low.
    - destruct (split_links_run s l 1 H) as (h & P & E & H1 & R1). exists h, P. split; [exact E|].
      assert (filter (λ i, i < 1024) l = filter (λ i, ¬ is_high 1 i) l ∧ filter (λ i, 1024 ≤ i) l = filter (is_high 1) l) as [-> ->].
      { split; apply filter_ext_in; intros i Hi; pose proof (page_inv_free_bound _ _ _ H Hi); rewrite is_high_1 by lia; lia. }
      split; [exact H1|]. split; [exact R1|apply filter_parts].
    - exists (page_free_list s), (pages s). split; [destruct s; reflexivity|]. destruct s; psimpl. auto using relinked_refl. }
  assert (∀ i, i ∈ l' ↔ i ∈ l) as Hin by (intros i; rewrite Hp; reflexivity).
  set (s1 := with_free_list h (with_pages P s)) in *.
  set (I m := ∀ a, (∀ i, i ∈ l → ¬ (i * PGSIZE ≤ a < i * PGSIZE + 128)) → ld8 m a = ld8 (phys s) a).
  destruct (for_links_mem I (λ pp, when (PDX (page2pa pp) <? lim) (kva ← page2kva pp; kmemset kva 0x97 128)) l' fuel h s1)
    as (m & E2 & Hm); [exact (page_inv_length _ _ H1)|exact (pi_chain _ _ H1)|intros a _; reflexivity| |].
  { intros i t Hi Et En HI. assert (0 ≤ i < npages s) as Hib by (apply (page_inv_free_bound _ l); [exact H|apply Hin, Hi]).
    assert (npages t = npages s) as En' by exact En. destruct (_ <? _); [|exists (phys t); split; [destruct t; reflexivity|exact HI]].
    unfold when. rewrite (bind_Ret _ _ _ _ _ (page2kva_page t i ltac:(lia) ltac:(lia))).
    eexists. split; [reflexivity|]. intros a Ha. rewrite Z.add_simpl_r, memset_spec by lia.
    rewrite decide_False by (apply Ha, Hin, Hi). apply HI, Ha. }
  exists h, P, m. split; [|split; [eapply page_inv_ext; [exact H1|reflexivity..]|auto]]. fold s1.
  unfold check_page_free_list. rewrite !bind_gets.
  assert (page_free_list s ≠ None) as Hh.
  { intros F. pose proof (pi_chain _ _ H) as Hc. rewrite F in Hc. destruct l; [inversion Hi1|]. apply chain_inv_cons in Hc as [G _]. discriminate. }
  rewrite bool_decide_eq_false_2 by exact Hh.
  change (if low then 1 else NPDENTRIES) with lim.
  assert ((when low (split_links fuel lim (page_free_list s))) s = Ret tt s1) as E1' by exact E1.
  erewrite bind_Ret by exact E1'. rewrite bind_gets. change (page_free_list s1) with h.
  erewrite bind_Ret by exact E2.
  assert (boot_alloc kend 0 (with_phys m s1) = Ret (kva_of ff) (with_phys m s1)) as Ea.
  { unfold boot_alloc. rewrite bind_get. change (nextfree (with_phys m s1)) with (nextfree s). rewrite Hnf.
    rewrite (proj2 (Z.eqb_neq _ _)) by (unfold kva_of, KERNBASE, PGSIZE; lia). unfold when. rewrite bind_mret, bind_gets.
    change (nextfree (with_phys m s1)) with (nextfree s). rewrite Hnf. reflexivity. }
  rewrite (bind_Ret _ _ _ _ _ Ea).
  erewrite bind_Ret.
  2: { apply (check_free_run l' ff (with_phys m s1)); [lia|exact (proj2 Hn)|exact (page_inv_length _ _ H1)|exact (pi_chain _ _ H1)|].
       intros i Hi. apply Hin in Hi. split; [exact (page_inv_free_bound _ _ _ H Hi)|apply Hl, Hi]. }
  assert (1 ≤ countb (λ i, i <? 256) l' ∧ 1 ≤ countb (λ i, 256 <=? i) l') as [C1 C2].
  { split; eapply countb_pos; [apply Hin, Hi1|apply Z.ltb_lt, Hlow|apply Hin, Hi2|apply Z.leb_le, Hhigh]. }
  erewrite bind_Ret by (apply kassert_true, Z.gtb_lt; lia). apply kassert_true, Z.gtb_lt. lia.
Qed.

(** * Properties *)

(** [check_page_free_list] never fails on what page_init leaves, and it is
    not only a check: with [only_low_memory] it moves the free pages below 4MB
    in front of the others, each group in the order it had, through the
    pointers to links tp[]; the allocator's invariant holds again, no
    reference count changes, and the only memory it writes is the first 128
    bytes of free pages. *)
Theorem check_page_free_list_sorts (kend : Z) (low : bool) (s : pm) (l : list Z) (ff : Z) :
  page_inv s l → 256 < ff < 65536 → nextfree s = kva_of ff → (∀ i, i ∈ l → may_be_free ff i) →
  (∃ i, i ∈ l ∧ i < 256) → (∃ i, i ∈ l ∧ 256 ≤ i) →
  ∃ s', check_page_free_list kend low s = Ret tt s' ∧
    page_inv s' (if low then filter (λ i, i < 1024) l ++ filter (λ i, 1024 ≤ i) l else l) ∧
    (∀ i, pp_ref <$> pages s' !! i = pp_ref <$> pages s !! i) ∧
    ∀ a, (∀ i, i ∈ l → ¬ (i * PGSIZE ≤ a < i * PGSIZE + 128)) → ld8 (phys s') a = ld8 (phys s) a.
Proof.
  intros H Hff Hnf Hl H1 H2. destruct (check_page_free_list_run kend low s l ff H Hff Hnf Hl H1 H2) as (h & P & m & E & Hi & R & _ & Hm).
  eexists. split; [exact E|]. split; [exact Hi|]. split; [intros i; apply R|exact Hm].
Qed.

(** The machine [boot_pm 300 270] after page_init. *)
Lemma check_page_free_list_sorts_witness : ∃ s s' l', page_init 0 (boot_pm 300 270) = Ret tt s ∧
  check_page_free_list 0 true s = Ret tt s' ∧ page_inv s' l'.
Proof.
  destruct (page_init_inv 0 (boot_pm 300 270)) as (s & E & Hi & _ & _ & h & P & Es);
    [cbn; lia|apply zero_pages_dom|reflexivity|cbn; unfold KERNBASE, PGSIZE; lia|vm_compute; split; reflexivity|].
  assert (∀ i, i ∈ page_init_list (boot_pm 300 270) ↔ 270 ≤ i < 300 ∨ 8 ≤ i < 160 ∨ 1 ≤ i < 7) as Hl
    by (intros i; rewrite elem_of_page_init_list by (vm_compute; split; reflexivity); reflexivity).
  destruct (check_page_free_list_sorts 0 true s _ 270 Hi ltac:(lia)) as (s' & E' & H' & _).
  - rewrite Es. reflexivity.
  - intros i. rewrite Hl. unfold may_be_free. lia.
  - exists 8. rewrite Hl. lia.
  - exists 280. rewrite Hl. lia.
  - exists s, s'; eexists. split; [exact E|]. split; [exact E'|exact H'].
Defined.
