(* ===== verification/Env.v ===== *)
(** Environments and the scheduler: kern/env.c, kern/sched.c and
    user_mem_assert of kern/pmap.c.  An environment pointer is an index of
    [envs]; a function that does not return is a computation that stops. *)
From S2P Require Import Prelude Mmu Mem Pages PageTable AddrSpace KState.

Definition ENVGENSHIFT : Z := 12.

(** * kern/env.c *)

(** The result is the return value and what is stored through [env_store]. *)
Definition envid2env (envid : Z) (checkperm : bool) : M ks (Z * option Z) :=
  if envid =? 0 then c ← curenv; mret (0, c)
  else
    let i := ENVX envid in
    e ← env_get i;
    if (env_status e =? ENV_FREE) || negb (env_id e =? envid) then mret (- E_BAD_ENV, None)
    else
      cur ← curenv;
      denied ← (if checkperm && bool_decide (cur ≠ Some i) then
                  c ← curenv_deref; ce ← env_get c;
                  mret (negb (env_parent_id e =? env_id ce))
                else mret false);
      if (denied : bool) then mret (- E_BAD_ENV, None) else mret (0, Some i).

(** The segment registers of env_init_percpu, and lgdt, are not state that
    this model keeps. *)
Definition env_init : M ks unit :=
  for_range (Z.to_nat NENV) 0 1 (λ i,
    env_upd i (set_env_id 0) ;; env_upd i (set_env_link (Some (i + 1)))) ;;
  modify (set_env_free_list (Some 0)).

Definition env_setup_vm (e : Z) : M ks Z :=
  p ← inpm (page_alloc ALLOC_ZERO);
  match p with
  | None => mret (- E_NO_MEM)
  | Some p =>
      kva ← inpm (page2kva p);
      env_upd e (set_env_pgdir kva) ;;
      inpm (incr_ref p) ;;
      kp ← gets (λ s, kern_pgdir (kpm s));
      inpm (kmemcpy kva kp PGSIZE) ;;
      pa ← inpm (PADDR kva);
      inpm (kst32 (kva + 4 * PDX UVPT) (Z.lor (Z.lor pa PTE_P) PTE_U)) ;;
      mret 0
  end.

(** int32_t arithmetic wraps round, as the test for a negative result
    expects. *)
Definition new_generation (id : Z) : Z :=
  let generation := Z.land (s32 (id + Z.shiftl 1 ENVGENSHIFT)) (Z.lnot (NENV - 1)) in
  if generation <=? 0 then Z.shiftl 1 ENVGENSHIFT else generation.

(** [curenv ? curenv->env_id : 0] *)
Definition curenv_id : M ks Z :=
  c ← curenv;
  match c with
  | Some i => e ← env_get i; mret (env_id e)
  | None => mret 0
  end.

Definition user_tf : Trapframe :=
  let t := set_tf_es (Z.lor GD_UD 3) (set_tf_ds (Z.lor GD_UD 3) zero_tf) in
  let t := set_tf_cs (Z.lor GD_UT 3) (set_tf_esp USTACKTOP (set_tf_ss (Z.lor GD_UD 3) t)) in
  set_tf_eflags (Z.lor (tf_eflags t) FL_IF) t.

(** The result is the return value and what is stored through
    [newenv_store]. *)
Definition env_alloc (parent_id : Z) : M ks (Z * option Z) :=
  h ← gets env_free_list;
  match h with
  | None => mret (- E_NO_FREE_ENV, None)
  | Some i =>
      r ← env_setup_vm i;
      if r <? 0 then mret (r, None)
      else
        e ← env_get i;
        env_upd i (set_env_id (Z.lor (new_generation (env_id e)) i)) ;;
        env_upd i (set_env_parent_id parent_id) ;;
        env_upd i (set_env_type ENV_TYPE_USER) ;;
        env_upd i (set_env_status ENV_RUNNABLE) ;;
        env_upd i (set_env_runs 0) ;;
        env_upd i (set_env_tf user_tf) ;;
        env_upd i (set_env_upcalls (λ _, 0)) ;;
        env_upd i (set_env_ipc_recving false) ;;
        e ← env_get i;
        modify (set_env_free_list (env_link e)) ;;
        c ← curenv_id;
        cprintf "[%08x] new env %08x\n" [c; env_id e] ;;
        mret (0, Some i)
  end.

Fixpoint region_alloc_loop (fuel : nat) (pgdir va_ptr vend : Z) : M ks unit :=
  if va_ptr <? vend then
    match fuel with
    | O => stop_with SLoop
    | S fuel =>
        pp ← inpm (page_alloc 0);
        match pp with
        | None => panic "region_alloc: page alloc failed!"
        | Some pp =>
            inpm_cur (λ cur, page_insert cur pgdir pp va_ptr (Z.lor PTE_W PTE_U)) ;;
            region_alloc_loop fuel pgdir (w32 (va_ptr + PGSIZE)) vend
        end
    end
  else mret tt.

Definition region_alloc (e va len : Z) : M ks unit :=
  x ← env_get e;
  region_alloc_loop (Z.to_nat 0x100000) (env_pgdir x) (ROUNDDOWN va PGSIZE)
    (ROUNDUP (w32 (va + len)) PGSIZE).

(** inc/elf.h, by the offsets of the fields of struct Elf and struct
    Proghdr. *)
Definition ELF_PROG_LOAD : Z := 1.
Definition e_magic (elf : Z) : M pm Z := vld32 elf.
Definition e_entry (elf : Z) : M pm Z := vld32 (elf + 24).
Definition e_phoff (elf : Z) : M pm Z := vld32 (elf + 28).
Definition e_phnum (elf : Z) : M pm Z := vld16 (elf + 44).
Definition p_type (ph : Z) : M pm Z := vld32 ph.
Definition p_offset (ph : Z) : M pm Z := vld32 (ph + 4).
Definition p_va (ph : Z) : M pm Z := vld32 (ph + 8).
Definition p_filesz (ph : Z) : M pm Z := vld32 (ph + 16).
Definition p_memsz (ph : Z) : M pm Z := vld32 (ph + 20).

Definition load_segment (e binary ph : Z) : M ks unit :=
  filesz ← inpm (p_filesz ph);
  memsz ← inpm (p_memsz ph);
  if filesz >? memsz then panic "load_icode: ph->p_filesz is larger than ph->p_memsz!"
  else
    t ← inpm (p_type ph);
    when (t =? ELF_PROG_LOAD)
      (va ← inpm (p_va ph);
       region_alloc e va memsz ;;
       inpm (vmemset (Z.to_nat memsz) va 0) ;;
       off ← inpm (p_offset ph);
       inpm (vmemcpy (Z.to_nat filesz) va (w32 (binary + off)))).

Definition load_icode (e binary : Z) : M ks unit :=
  magic ← inpm (e_magic binary);
  if negb (magic =? ELF_MAGIC) then panic "load_icode: invalid ELF file!"
  else
    phoff ← inpm (e_phoff binary);
    phnum ← inpm (e_phnum binary);
    x ← env_get e;
    pa ← inpm (PADDR (env_pgdir x));
    lcr3 pa ;;
    for_range (Z.to_nat phnum) (w32 (binary + phoff)) sizeof_Proghdr (load_segment e binary) ;;
    kp ← gets (λ s, kern_pgdir (kpm s));
    kpa ← inpm (PADDR kp);
    lcr3 kpa ;;
    entry ← inpm (e_entry binary);
    env_upd e (λ x, set_env_tf (set_tf_eip entry (env_tf x)) x) ;;
    region_alloc e (USTACKTOP - PGSIZE) PGSIZE.

(** [penv] is uninitialised when env_alloc fails, and is used all the same. *)
Definition env_create (binary type : Z) : M ks unit :=
  r ← env_alloc 0;
  match r.2 with
  | Some penv => load_icode penv binary
  | None => undef "env_create: penv is uninitialised"
  end.

(** The body of the loop of env_free over the page tables. *)
Definition env_free_pt (pgdir pdeno : Z) : M ks unit :=
  pde ← inpm (kld32 (pgdir + 4 * pdeno));
  if negb (is_present pde) then mret tt
  else
    let pa := PTE_ADDR pde in
    pt ← inpm (KADDR pa);
    for_range (Z.to_nat NPTENTRIES) 0 1 (λ pteno,
      pte ← inpm (kld32 (pt + 4 * pteno));
      when (is_present pte)
        (inpm_cur (λ cur, page_remove cur pgdir (PGADDR pdeno pteno 0)))) ;;
    inpm (kst32 (pgdir + 4 * pdeno) 0) ;;
    pp ← inpm (pa2page pa);
    inpm (page_decref pp).

Definition env_free (e : Z) : M ks unit :=
  c ← curenv;
  when (bool_decide (c = Some e))
    (kp ← gets (λ s, kern_pgdir (kpm s)); pa ← inpm (PADDR kp); lcr3 pa) ;;
  cid ← curenv_id;
  x ← env_get e;
  cprintf "[%08x] free env %08x\n" [cid; env_id x] ;;
  for_range (Z.to_nat (PDX UTOP)) 0 1 (env_free_pt (env_pgdir x)) ;;
  pa ← inpm (PADDR (env_pgdir x));
  env_upd e (set_env_pgdir 0) ;;
  pp ← inpm (pa2page pa);
  inpm (page_decref pp) ;;
  env_upd e (set_env_status ENV_FREE) ;;
  h ← gets env_free_list;
  env_upd e (set_env_link h) ;;
  modify (set_env_free_list (Some e)).

(** The registers that iret restores are those of [envs[e].env_tf]. *)
Definition env_pop_tf (e : Z) : M ks unit :=
  c ← curenv_deref;
  n ← gets cpunum;
  env_upd c (set_env_cpunum n) ;;
  stop_with (SRun e).

Definition env_run (e : Z) : M ks unit :=
  c ← curenv;
  when (bool_decide (c ≠ Some e))
    (match c with
     | Some i =>
         x ← env_get i;
         when (env_status x =? ENV_RUNNING) (env_upd i (set_env_status ENV_RUNNABLE))
     | None => mret tt
     end ;;
     set_curenv (Some e) ;;
     env_upd e (set_env_status ENV_RUNNING) ;;
     env_upd e (λ x, set_env_runs (w32 (env_runs x + 1)) x) ;;
     x ← env_get e;
     pa ← inpm (PADDR (env_pgdir x));
     lcr3 pa) ;;
  unlock_kernel ;;
  env_pop_tf e.

(** * kern/sched.c *)

(** The loop of sched_halt: the index at which it breaks, or NENV. *)
Fixpoint sched_scan (n : nat) (i : Z) : M ks Z :=
  match n with
  | O => mret i
  | S n =>
      e ← env_get i;
      if (env_status e =? ENV_RUNNABLE) || (env_status e =? ENV_RUNNING)
         || (env_status e =? ENV_DYING)
      then mret i else sched_scan n (i + 1)
  end.

Definition sched_halt : M ks unit :=
  i ← sched_scan (Z.to_nat NENV) 0;
  if i =? NENV then
    cprintf "No runnable environments in the system!\n" [] ;;
    stop_with SMonitor
  else
    set_curenv None ;;
    kp ← gets (λ s, kern_pgdir (kpm s));
    pa ← inpm (PADDR kp);
    lcr3 pa ;;
    thiscpu_upd (set_cpu_status CPU_HALTED) ;;
    unlock_kernel ;;
    stop_with SHalt.

(** The body of the loop of sched_yield. *)
Definition sched_try (offset i : Z) : M ks unit :=
  let id := (i + offset) mod NENV in
  e ← env_get id;
  when (env_status e =? ENV_RUNNABLE) (env_run id).

Definition sched_yield : M ks unit :=
  c ← curenv;
  offset ← match c with
           | Some i => e ← env_get i; mret (ENVX (env_id e))
           | None => mret 0
           end;
  for_range (Z.to_nat NENV) 0 1 (sched_try offset) ;;
  match c with
  | Some i => e ← env_get i; when (env_status e =? ENV_RUNNING) (env_run i)
  | None => mret tt
  end ;;
  sched_halt.

(** * env_destroy and user_mem_assert *)

Definition env_destroy (e : Z) : M ks unit :=
  x ← env_get e;
  c ← curenv;
  if (env_status x =? ENV_RUNNING) && bool_decide (c ≠ Some e) then
    env_upd e (set_env_status ENV_DYING)
  else
    env_free e ;;
    c ← curenv;
    when (bool_decide (c = Some e)) (set_curenv None ;; sched_yield).

Definition user_mem_assert (env va len perm : Z) : M ks unit :=
  x ← env_get env;
  r ← inpm (user_mem_check (env_pgdir x) va len (Z.lor perm PTE_U));
  when (r <? 0)
    (a ← gets (λ s, user_mem_check_addr (kpm s));
     cprintf "[%08x] user_mem_check assertion failure for va %08x\n" [env_id x; a] ;;
     env_destroy env).
