(* ===== verification/Kdebug.v ===== *)
(** The debugging information of kern/kdebug.c: the binary search in the stabs
    table, what it finds, and [debuginfo_eip]. *)
From Stdlib Require Import Ascii.
From S2P Require Import Prelude Mmu Mem CString Printfmt Pages PageTable KState Env.

Definition N_FUN : Z := 0x24.
Definition N_SLINE : Z := 0x44.
Definition N_SO : Z := 0x64.
Definition N_SOL : Z := 0x84.
Definition N_PSYM : Z := 0xa0.

(** * The search *)

Section binsearch.
(** The fields n_type and n_value of the stab with a given index. *)
Context {S : Type} (n_type n_value : Z → M S Z).

(** [while (m >= l && stabs[m].n_type != type) m--;] *)
Fixpoint scan_left (n : nat) (m l type : Z) : M S Z :=
  match n with
  | O => mret m
  | Datatypes.S n =>
      if m >=? l then t ← n_type m; if negb (t =? type) then scan_left n (m - 1) l type else mret m
      else mret m
  end.
Definition scan (m l type : Z) : M S Z := scan_left (Z.to_nat (m - l + 1)) m l type.

(** The loop; the result is [*region_left], [*region_right] and [any_matches]. *)
Fixpoint search (fuel : nat) (l r region_left region_right : Z) (any_matches : bool) (type addr : Z) :
    M S (Z * Z * bool) :=
  match fuel with
  | O => stop_with SLoop
  | Datatypes.S fuel =>
      if negb (l <=? r) then mret (region_left, region_right, any_matches)
      else
        let true_m := Z.quot (l + r) 2 in
        m ← scan true_m l type;
        if m <? l then search fuel (true_m + 1) r region_left region_right any_matches type addr
        else
          v ← n_value m;
          if v <? addr then search fuel (true_m + 1) r m region_right true type addr
          else
            v ← n_value m;
            if v >? addr then search fuel l (m - 1) region_left (m - 1) true type addr
            else search fuel m r m region_right true type (w32 (addr + 1))
  end.

Definition stab_binsearch (fuel : nat) (region_left region_right type addr : Z) : M S (Z * Z) :=
  '(region_left, region_right, any_matches) ← search fuel region_left region_right region_left region_right false type addr;
  if negb any_matches then mret (region_left, region_left - 1)
  else
    l ← scan region_right (region_left + 1) type;
    mret (l, region_right).
End binsearch.

(** * debuginfo_eip *)

Record Eipdebuginfo := MkEipdebuginfo {
  eip_file : Z;
  eip_line : Z;
  eip_fn_name : Z;
  eip_fn_namelen : Z;
  eip_fn_addr : Z;
  eip_fn_narg : Z
}.

Section debuginfo.
(** Where the kernel's stabs are, and the string literals. *)
Context (STAB_BEGIN STAB_END STABSTR_BEGIN STABSTR_END : Z) (lit : string → Z).

(** struct Stab has 12 bytes. *)
Definition stab_type (stabs i : Z) : M ks Z := inpm (vld8 (w32 (stabs + 12 * i + 4))).
Definition stab_strx (stabs i : Z) : M ks Z := inpm (vld32 (w32 (stabs + 12 * i))).
Definition stab_desc (stabs i : Z) : M ks Z := inpm (vld16 (w32 (stabs + 12 * i + 6))).
Definition stab_value (stabs i : Z) : M ks Z := inpm (vld32 (w32 (stabs + 12 * i + 8))).

(** The stabs and the string table for [addr]; [None] is [return -1]. *)
Definition find_stabs (addr : Z) : M ks (option (Z * Z * Z * Z)) :=
  if addr >=? ULIM then mret (Some (STAB_BEGIN, STAB_END, STABSTR_BEGIN, STABSTR_END))
  else
    let usd := USTABDATA in
    e ← curenv_deref;
    x ← env_get e;
    r ← inpm (user_mem_check (env_pgdir x) usd 16 PTE_U);
    if ctrue r then mret None
    else
      stabs ← inpm (vld32 usd);
      stab_end ← inpm (vld32 (usd + 4));
      stabstr ← inpm (vld32 (usd + 8));
      stabstr_end ← inpm (vld32 (usd + 12));
      r ← inpm (user_mem_check (env_pgdir x) stabs 12 PTE_U);
      if ctrue r then mret None
      else
        r ← inpm (user_mem_check (env_pgdir x) stabstr (w32 (stabstr_end - stabstr)) PTE_U);
        if ctrue r then mret None else mret (Some (stabs, stab_end, stabstr, stabstr_end)).

(** [while (lline >= lfile && ...) lline--;] *)
Fixpoint file_stab (n : nat) (stabs lline lfile : Z) : M ks Z :=
  match n with
  | O => mret lline
  | S n =>
      if negb (lline >=? lfile) then mret lline
      else
        t ← stab_type stabs lline;
        go_on ← (if t =? N_SOL then mret false
                 else t ← stab_type stabs lline;
                      if negb (t =? N_SO) then mret true
                      else v ← stab_value stabs lline; mret (v =? 0));
        if (go_on : bool) then file_stab n stabs (lline - 1) lfile else mret lline
  end.

(** The parameters after the function's stab. *)
Fixpoint count_args (n : nat) (stabs lline rfun narg : Z) : M ks Z :=
  match n with
  | O => mret narg
  | S n =>
      if negb (lline <? rfun) then mret narg
      else t ← stab_type stabs lline;
           if t =? N_PSYM then count_args n stabs (lline + 1) rfun (narg + 1) else mret narg
  end.

Definition debuginfo_eip (fuel : nat) (addr : Z) : M ks (Z * Eipdebuginfo) :=
  let info0 := MkEipdebuginfo (lit "<unknown>") 0 (lit "<unknown>") 9 addr 0 in
  found ← find_stabs addr;
  match found with
  | None => mret (-1, info0)
  | Some (stabs, stab_end, stabstr, stabstr_end) =>
      let str_size := w32 (stabstr_end - stabstr) in
      bad ← (if stabstr_end <=? stabstr then mret true
             else c ← inpm (vld8 (w32 (stabstr_end - 1))); mret (negb (c =? 0)));
      if (bad : bool) then mret (-1, info0)
      else
        '(lfile, rfile) ← stab_binsearch (stab_type stabs) (stab_value stabs) fuel
                            0 (Z.quot (s32 (stab_end - stabs)) 12 - 1) N_SO addr;
        if lfile =? 0 then mret (-1, info0)
        else
          '(lfun, rfun) ← stab_binsearch (stab_type stabs) (stab_value stabs) fuel lfile rfile N_FUN addr;
          '(name, fn_addr, addr, lline, rline) ←
            (if lfun <=? rfun then
               x ← stab_strx stabs lfun;
               name ← (if x <? str_size then x ← stab_strx stabs lfun; mret (w32 (stabstr + x))
                       else mret (lit "<unknown>"));
               a ← stab_value stabs lfun;
               mret (name, a, w32 (addr - a), lfun, rfun)
             else mret (lit "<unknown>", addr, addr, lfile, rfile));
          colon ← strfind (λ a, inpm (vld8 (w32 a))) fuel name (chr ":");
          '(lline, rline) ← stab_binsearch (stab_type stabs) (stab_value stabs) fuel lline rline N_SLINE addr;
          line ← (if lline <=? rline then stab_desc stabs rline else mret (-1));
          lline ← file_stab (Z.to_nat (lline - lfile + 1)) stabs lline lfile;
          file ← (if lline >=? lfile then
                    x ← stab_strx stabs lline;
                    if x <? str_size then x ← stab_strx stabs lline; mret (w32 (stabstr + x))
                    else mret (lit "<unknown>")
                  else mret (lit "<unknown>"));
          narg ← (if lfun <? rfun then count_args (Z.to_nat (rfun - lfun)) stabs (lfun + 1) rfun 0 else mret 0);
          mret (0, MkEipdebuginfo file line name (colon - name) fn_addr narg)
  end.
End debuginfo.

(** * What the search finds *)

Section search.
Context {S : Type} (n_type n_value : Z → M S Z) (st : S) (ty val : Z → Z) (l0 r0 type addr : Z).
Context (Hty : ∀ i, l0 ≤ i ≤ r0 → n_type i st = Ret (ty i) st) (Hval : ∀ i, l0 ≤ i ≤ r0 → n_value i st = Ret (val i) st).

(** Stab [i] of the range has the type. *)
Definition typed (i : Z) : Prop := l0 ≤ i ≤ r0 ∧ ty i = type.

(** The stabs of the type are in the order of their addresses. *)
Definition sorted : Prop := ∀ i j, typed i → typed j → i < j → val i ≤ val j.

(** There is one of them at each address from [addr] to [b]. *)
Definition run_to (b : Z) : Prop := ∀ c, addr ≤ c ≤ b → ∃ i, typed i ∧ val i = c.

Lemma scan_run m l : l0 ≤ l → m ≤ r0 → ∃ m', scan n_type m l type st = Ret m' st ∧ m' ≤ m ∧
  (∀ i, m' < i ≤ m → l ≤ i → ¬ typed i) ∧ (m' = m ∧ m < l ∨ m' = l - 1 ∧ l ≤ m ∨ l ≤ m' ∧ typed m').
Proof.
  intros Hl Hm. unfold scan. remember (Z.to_nat (m - l + 1)) as n eqn:En. revert m Hm En.
  induction n as [|n IH]; intros m Hm En; cbn [scan_left].
  { exists m. split; [reflexivity|]. split; [lia|]. split; [intros i Hi; lia|lia]. }
  destruct (Z.geb_spec m l) as [L|L]; [|lia]. rewrite (bind_Ret _ _ _ _ _ (Hty m ltac:(lia))).
  destruct (Z.eqb_spec (ty m) type) as [E|E]; cbn [negb].
  { exists m. split; [reflexivity|]. split; [lia|]. split; [intros i Hi; lia|]. right. right. split; [lia|]. split; [lia|exact E]. }
  destruct (IH (m - 1) ltac:(lia) ltac:(lia)) as (m' & R & H1 & H2 & H3). exists m'. split; [exact R|]. split; [lia|]. split.
  - intros i Hi Hli. destruct (decide (i = m)) as [->|D]; [intros [_ F]; contradiction|]. apply H2; lia.
  - destruct H3 as [H3|[H3|H3]]; [right; left; lia..|auto].
Qed.

(** What the search knows after some rounds. *)
Record bracket (l r rl rr : Z) (any : bool) (a : Z) : Prop := {
  br_l : l0 ≤ l; br_r : r ≤ r0; br_lr : l ≤ r + 1; br_rr : rr = r;
  br_a : addr ≤ a ∧ run_to (a - 1);
  br_below : ∀ i, typed i → i < l → val i < a;
  br_above : ∀ i, typed i → r < i → val i > addr ∧ a - 1 ≤ val i;
  br_none : any = false → rl = l0 ∧ r = r0 ∧ (∀ i, typed i → l ≤ i) ∧ a = addr;
  br_some : any = true → ∃ i, typed i;
  br_left : rl = l0 ∨ typed rl ∧ rl ≤ r ∧ val rl < a;
  br_right : r = r0 ∨ typed (r + 1)
}.

(** Twice the size of the range, and one more while its first stab is not
    known to be below [a]. *)
Definition measure (l r a : Z) : Z :=
  2 * (r - l + 1) + (if (ty l =? type) && (val l <? a) then 0 else 1).

Lemma measure_bounds l r a : 2 * (r - l + 1) ≤ measure l r a ≤ 2 * (r - l + 1) + 1.
Proof. unfold measure. destruct (_ && _); lia. Qed.

Lemma search_run fuel l r rl rr any a : sorted → (∀ i, typed i → val i + 1 < 2 ^ 32) → 0 ≤ l0 → 0 ≤ addr →
  bracket l r rl rr any a → measure l r a < Z.of_nat fuel →
  ∃ l' rl' rr' any' a', search n_type n_value fuel l r rl rr any type a st = Ret (rl', rr', any') st ∧
    bracket l' (l' - 1) rl' rr' any' a'.
Proof.
  intros Hs Hw H0 Ha0. revert l r rl rr any a. induction fuel as [|fuel IH]; intros l r rl rr any a B Hf.
  { pose proof (measure_bounds l r a). pose proof (br_lr _ _ _ _ _ _ B). lia. }
  pose proof (measure_bounds l r a) as Hmu. cbn [search]. destruct (Z.leb_spec l r) as [L|L]; cbn [negb].
  2: { exists l, rl, rr, any, a. split; [reflexivity|]. replace (l - 1) with r; [exact B|]. destruct B. lia. }
  pose proof B as [Hl Hr Hlr Hrr Hae Hbel Habo Hnone Hsome Hleft Hright]. subst rr.
  rewrite Z.quot_div_nonneg by lia. set (true_m := (l + r) / 2).
  assert (l ≤ true_m ≤ r) as Htm by (unfold true_m; Z.div_mod_to_equations; lia).
  destruct (scan_run true_m l) as (m & E & Hm & Hnm & Hcase); [lia..|]. rewrite (bind_Ret _ _ _ _ _ E).
  destruct (Z.ltb_spec m l) as [Lm|Lm].
  { apply IH; [|pose proof (measure_bounds (true_m + 1) r a); lia]. split; auto; try lia.
    - intros i Hi Hlt. destruct (Z.lt_ge_cases i l); [auto|]. exfalso. apply (Hnm i); [lia|lia|exact Hi].
    - intros Hany. destruct (Hnone Hany) as (N1 & N2 & N3 & N4). split; [exact N1|]. split; [exact N2|]. split; [|exact N4].
      intros i Hi. specialize (N3 i Hi). destruct (Z.lt_ge_cases true_m i); [lia|]. exfalso. apply (Hnm i); [lia|lia|exact Hi]. }
  assert (typed m) as Tm by (destruct Hcase as [F|[F|[_ Tm]]]; [lia|lia|exact Tm]).
  assert (l0 ≤ m ≤ r0) as Hm0 by lia. rewrite (bind_Ret _ _ _ _ _ (Hval m Hm0)).
  destruct (Z.ltb_spec (val m) a) as [Lv|Lv].
  { apply IH; [|pose proof (measure_bounds (true_m + 1) r a); lia]. split; auto; try lia; try discriminate; [| |].
    - intros i Hi Hlt. destruct (Z.lt_ge_cases m i) as [Q|Q]; [exfalso; apply (Hnm i); [lia|lia|exact Hi]|].
      destruct (decide (i = m)) as [->|D]; [lia|]. specialize (Hs i m Hi Tm). lia.
    - intros _. exists m. exact Tm.
    - right. split; [exact Tm|]. lia. }
  rewrite (bind_Ret _ _ _ _ _ (Hval m Hm0)). rewrite Z.gtb_ltb. destruct Hae as [Hae Hrun]. destruct (Z.ltb_spec a (val m)) as [Gv|Gv].
  { apply IH; [|unfold measure in *; destruct (_ && _); lia]. split; auto; try lia; try discriminate; [| | |].
    - intros i Hi Hlt. destruct (decide (i = m)) as [->|D]; [lia|]. specialize (Hs m i Tm Hi). lia.
    - intros _. exists m. exact Tm.
    - destruct Hleft as [->|(Tl & Hrl & Hvl)]; [auto|]. right. split; [exact Tl|]. split; [|exact Hvl].
      destruct (Z.lt_ge_cases rl m); [lia|]. destruct (decide (rl = m)) as [->|D]; [lia|]. specialize (Hs m rl Tm Tl). lia.
    - right. replace (m - 1 + 1) with m by lia. exact Tm. }
  assert (val m = a) as Ev by lia. rewrite w32_id by (unfold u32_range; specialize (Hw m Tm); lia). apply IH.
  - split; auto; try lia; try discriminate; [| | | |].
    + split; [lia|]. intros c Hc. destruct (Z.eq_dec c a) as [->|]; [exists m; auto|apply Hrun; lia].
    + intros i Hi Hlt. specialize (Hs i m Hi Tm Hlt). lia.
    + intros i Hi Hlt. specialize (Habo i Hi Hlt). specialize (Hs m i Tm Hi ltac:(lia)). lia.
    + intros _. exists m. exact Tm.
    + right. split; [exact Tm|]. lia.
  - unfold measure in *. destruct Tm as [_ Em]. rewrite Em, Z.eqb_refl. cbn [andb].
    destruct (Z.ltb_spec (val m) (a + 1)); [|lia]. destruct (decide (m = l)) as [->|D]; [|destruct (_ && _); lia].
    rewrite Em, Z.eqb_refl in Hf. cbn [andb] in Hf. destruct (Z.ltb_spec (val l) a); lia.
Qed.

(** The answer: there is no stab of the type; or [left] is the last one at or
    below [addr], and [right] is before the first one above it; or [left] is
    past [addr], at the end of a run of stabs at [addr] and each address from
    there; or they are all above [addr]. *)
Inductive region : Z * Z → Prop :=
| region_none : (∀ i, ¬ typed i) → region (l0, l0 - 1)
| region_found left right :
    typed left → val left ≤ addr → (∀ i, typed i → left < i → val i > addr) →
    left ≤ right ≤ r0 → (∀ i, typed i → left < i → right < i) → (right = r0 ∨ typed (right + 1)) →
    region (left, right)
| region_run left right :
    typed left → val left > addr → run_to (val left) →
    left ≤ right ≤ r0 → (∀ i, typed i → left < i → right < i) → (right = r0 ∨ typed (right + 1)) →
    region (left, right)
| region_before right :
    typed (right + 1) → (∀ i, typed i → right < i ∧ val i > addr) → region (Z.min l0 right, right).

Lemma search_region rl rr any l a : bracket l (l - 1) rl rr any a →
  ∃ lr, (if negb any then mret (rl, rl - 1) else m ← scan n_type rr (rl + 1) type; mret (m, rr)) st = Ret lr st ∧ region lr.
Proof.
  intros [Hl Hr Hlr Hrr [Hae Hrun] Hbel Habo Hnone Hsome Hleft Hright]. subst rr. destruct any; cbn [negb].
  2: { destruct (Hnone eq_refl) as (-> & <- & N & _). eexists. split; [reflexivity|]. apply region_none.
       intros i Hi. specialize (N i Hi). destruct Hi. lia. }
  assert (∀ i, typed i → l ≤ i → val i > addr) as Hgt by (intros i Hi Hlt; apply (Habo i Hi ltac:(lia))).
  replace (l - 1 + 1) with l in Hright by lia.
  assert (l0 ≤ rl) as Hrl by (destruct Hleft as [->|([? _] & _)]; lia).
  destruct (scan_run (l - 1) (rl + 1)) as (m & E & Hm & Hno & Hc); [lia..|]. rewrite (bind_Ret _ _ _ _ _ E).
  exists (m, l - 1). split; [reflexivity|].
  assert (typed m ∧ m < l ∧ (∀ i, typed i → m < i → l ≤ i) → region (m, l - 1)) as Hf.
  { intros (Tm & Hml & Hl'). assert (l - 1 = r0 ∨ typed (l - 1 + 1)) as Hr' by (replace (l - 1 + 1) with l by lia; exact Hright).
    assert (∀ i, typed i → m < i → l - 1 < i) as Hlast by (intros i Ti Hi; specialize (Hl' i Ti Hi); lia).
    destruct (Z.le_gt_cases (val m) addr); [apply region_found|apply region_run]; try assumption; try lia.
    - intros i Ti Hi. apply Hgt; auto.
    - intros b Hb. specialize (Hbel m Tm Hml). apply Hrun. lia. }
  assert (∀ i, typed i → i < l → rl < i → i ≤ m) as K.
  { intros i Ti Hi Hr'. destruct (Z.lt_ge_cases m i); [|lia]. exfalso. apply (Hno i); [lia|lia|exact Ti]. }
  destruct (decide (rl + 1 ≤ m)) as [Hm'|Hm'].
  { apply Hf. split; [destruct Hc as [F|[F|[_ Tm]]]; [lia|lia|exact Tm]|]. split; [lia|]. intros i Ti Hi.
    destruct (Z.lt_ge_cases i l); [|lia]. specialize (K i Ti ltac:(lia) ltac:(lia)). lia. }
  assert (m = Z.min rl (l - 1)) as Em by lia.
  destruct (decide (ty rl = type ∧ rl < l)) as [[Et Hrll]|Hnt].
  { apply Hf. replace m with rl by lia. split; [split; [lia|exact Et]|]. split; [lia|]. intros i Ti Hi.
    destruct (Z.lt_ge_cases i l); [|lia]. specialize (K i Ti ltac:(lia) ltac:(lia)). lia. }
  assert (rl = l0) as -> by (destruct Hleft as [->|([_ Et] & Hll & _)]; [reflexivity|exfalso; apply Hnt; split; [exact Et|lia]]).
  assert (∀ i, typed i → l ≤ i) as Hall.
  { intros i Ti. destruct (Z.lt_ge_cases i l) as [Hi|]; [|lia]. exfalso. destruct (Z.eq_dec i l0) as [->|D].
    - apply Hnt. split; [apply Ti|exact Hi].
    - pose proof Ti as [Hi0 _]. specialize (K i Ti Hi ltac:(lia)). lia. }
  destruct (Hsome eq_refl) as [i Ti]. rewrite Em. apply region_before.
  - replace (l - 1 + 1) with l by lia. destruct Hright as [Hright|Hright]; [|exact Hright].
    exfalso. specialize (Hall i Ti). destruct Ti. lia.
  - intros j Tj. specialize (Hall j Tj). split; [lia|]. apply Hgt; assumption.
Qed.
End search.


(** Stabs given by a list of types and addresses. *)
Definition demo_stabs (l : list (Z * Z)) : (Z → M unit Z) * (Z → M unit Z) :=
  (λ i, mret (fst (nth (Z.to_nat i) l (0, 0))), λ i, mret (snd (nth (Z.to_nat i) l (0, 0)))).

(** The N_SO stabs of the comment in kern/kdebug.c (those up to 118). *)
Definition demo_so : list (Z * Z) := [(N_SO, 0x100); (0, 0); (N_SO, 0x140); (N_FUN, 0x150); (N_SO, 0x176); (N_SO, 0x178); (0, 0)].

(** Case analysis on the elements of a list. *)
Ltac each H := repeat (apply elem_of_cons in H as [->|H]; [|]); [..|inversion H].

Lemma demo_so_typed i : typed (λ i, fst (nth (Z.to_nat i) demo_so (0, 0))) 0 6 N_SO i → i ∈ [0; 2; 4; 5].
Proof.
  intros [Hi Ht]. assert (i ∈ seqZ 0 7) as He by (apply elem_of_seqZ; lia). change (seqZ 0 7) with [0; 1; 2; 3; 4; 5; 6] in He.
  repeat (apply elem_of_cons in He as [->|He]; [first [discriminate Ht|decided]|]). inversion He.
Qed.


(** Two lines of code one byte apart: the search for the address of the first
    finds the second. *)
Example stab_binsearch_adjacent :
  stab_binsearch (demo_stabs [(N_SLINE, 0); (N_SLINE, 1)]).1
    (demo_stabs [(N_SLINE, 0); (N_SLINE, 1)]).2 16 0 1 N_SLINE 0 tt = Ret (1, 1) tt.
Proof. vm_compute. reflexivity. Qed.
