(* ===== verification/EnvVm.v ===== *)
(** The address spaces of environments: what env_setup_vm and env_free of
    kern/env.c do to the invariant of virtual memory. *)
From S2P Require Import Prelude Mmu Mem Pages PageTable AddrSpace KState Env.

(** * Giving up references *)

(** [released s l R s' l' R']: from [s] to [s'] every page has lost exactly
    the references that the address spaces have lost, and the pages that have
    lost their last reference are on the free list. *)
Record released (s : pm) (l R : list Z) (s' : pm) (l' R' : list Z) : Prop := {
  rl_npages : npages s' = npages s;
  rl_kern : kern_pgdir s' = kern_pgdir s ∧ cr3 s' = cr3 s;
  rl_free : l ⊆ l';
  rl_ref : ∀ q j', pages s' !! q = Some j' → ∃ j, pages s !! q = Some j ∧
    pp_ref j' - refs (phys s') R' q = pp_ref j - refs (phys s) R q;
  rl_zero : ∀ q j j', pages s !! q = Some j → pages s' !! q = Some j' →
    pp_ref j ≠ 0 → pp_ref j' = 0 → q ∈ l'
}.

Section release.
Implicit Types (s : pm) (l R : list Z) (x : Z → Z).

Lemma released_refl s l R : released s l R s l R.
Proof. split; auto; [eauto|congruence]. Qed.

Lemma released_trans s l R s1 l1 R1 s2 l2 R2 : 
  released s l R s1 l1 R1 → released s1 l1 R1 s2 l2 R2 → released s l R s2 l2 R2.
Proof.
  intros [] []. split; try congruence; [intuition congruence|set_solver| |].
  - intros q j2 H2. destruct (rl_ref1 q j2 H2) as (j1 & H1 & E1).
    destruct (rl_ref0 q j1 H1) as (j & H & E). exists j. split; [assumption|lia].
  - intros q j j2 H H2 Hn Hz. destruct (rl_ref1 q j2 H2) as (j1 & H1 & E1).
    destruct (Z.eq_dec (pp_ref j1) 0); [|eauto]. eauto.
Qed.

(** Dropping the reference that a caller holds. *)
Lemma vm_decref s l R x p i : vm_inv s l R (held p x) → (∀ q, 0 ≤ x q) →
  pages s !! p = Some i →
  page_decref p s = Ret tt (decref_state p i s) ∧
  vm_inv (decref_state p i s) (decref_list p i l) R x.
Proof.
  intros H Hx Hi. pose proof (held_in_use _ _ _ _ _ Hx H) as Hl.
  pose proof (vm_pages _ _ _ _ H) as Hp. pose proof (pi_ref _ _ Hp _ _ Hi) as Hr.
  destruct (page_decref_ok s l p i Hp Hl Hi) as [E Hinv]. split; [exact E|].
  assert (1 ≤ pp_ref i < 2 ^ 16) as Hr1.
  { pose proof (vm_ref _ _ _ _ H _ _ Hi) as G. pose proof (refs_nonneg (phys s) R p).
    specialize (Hx p). unfold held in G. rewrite bool_decide_eq_true_2 in G by reflexivity.
    simpl in G. lia. }
  split.
  - exact Hinv.
  - apply (vm_NoDup _ _ _ _ H).
  - assumption.
  - rewrite decref_phys, decref_npages. apply (vm_wf _ _ _ _ H).
  - rewrite decref_phys, decref_npages. apply (vm_data _ _ _ _ H).
  - intros q j Hj. destruct (decref_lookup p i s q j Hi Hr1 Hj) as (j0 & Hj0 & ->).
    rewrite decref_phys. pose proof (vm_ref _ _ _ _ H _ _ Hj0) as G. unfold held in G.
    rewrite (bool_decide_ext (q = p) (p = q)) in G by (split; congruence). lia.
Qed.

Lemma decref_same_env p i s : kern_pgdir (decref_state p i s) = kern_pgdir s ∧ cr3 (decref_state p i s) = cr3 s.
Proof. unfold decref_state. destruct (pp_ref i =? 1); auto. Qed.

Lemma decref_zero p i s l q j j' : pages s !! p = Some i → 1 ≤ pp_ref i < 2 ^ 16 →
  pages s !! q = Some j → pages (decref_state p i s) !! q = Some j' →
  pp_ref j ≠ 0 → pp_ref j' = 0 → q ∈ decref_list p i l.
Proof.
  intros Hi Hr. unfold decref_state, decref_list. destruct (Z.eqb_spec (pp_ref i) 1) as [D|D];
    psimpl; rewrite lookup_insert; case_decide as D'; intros Hj Hj' H1 H2;
    try (subst q; apply list_elem_of_here); try congruence.
  injection Hj' as <-. psimpl. rewrite w16_id in H2 by lia. lia.
Qed.

(** A mapping removed. *)
Lemma cleared_released s l R x pd v s' l' : vm_inv s l R x → pd ∈ R → 0 ≤ v < UVPN →
  cleared s l R x pd v s' l' → released s l R s' l' R.
Proof.
  intros H Hpd Hv []. split; auto. intros q j' Hj'. destruct (cl_ref q j' Hj') as (j & Hj & ->).
  exists j. split; [assumption|].
  rewrite (refs_store (phys s) (phys s') R pd v None q); auto; [|apply (vm_NoDup _ _ _ _ H)].
  cbn [fmap option_fmap option_map]. rewrite (bool_decide_eq_false_2 (None = Some q)) by discriminate.
  simpl. lia.
Qed.

(** An empty page table is unlinked from its directory. *)
Lemma vm_unlink s l R x pd i t : vm_inv s l R x → pd ∈ R → 0 ≤ i < UPDX →
  pt_of (phys s) pd i = Some t →
  (∀ v, 0 ≤ v < UVPN → v / 1024 = i → pte_of (phys s) pd v = None) →
  let s' := with_phys (st32 (phys s) (pd * PGSIZE + 4 * i) 0) s in
  vm_inv s' l R (held t x) ∧
  (∀ pd' i', pd' ∈ R → 0 ≤ i' < UPDX → pt_of (phys s') pd' i'
     = if decide (pd' = pd ∧ i' = i) then None else pt_of (phys s) pd' i') ∧
  (∀ pd' v, pd' ∈ R → 0 ≤ v < UVPN → pte_of (phys s') pd' v = pte_of (phys s) pd' v) ∧
  (∀ q, refs (phys s') R q = refs (phys s) R q - Z.b2z (bool_decide (q = t))).
Proof.
  intros H Hpd Hi Ht Hempty s'. pose proof (vm_wf _ _ _ _ H) as W.
  pose proof (vm_NoDup _ _ _ _ H) as HR.
  assert (∀ q j, 0 ≤ j < 1024 → wd (phys s') q j = if decide (q = pd ∧ j = i) then 0 else wd (phys s) q j)
    as Hw by (intros; unfold s'; psimpl; apply wd_st32; unfold u32_range, UPDX in *; lia).
  assert (∀ pd' i', pd' ∈ R → 0 ≤ i' < UPDX → pt_of (phys s') pd' i'
    = if decide (pd' = pd ∧ i' = i) then None else pt_of (phys s) pd' i') as Hpts.
  { intros pd' i' _ Hi'. unfold pt_of. rewrite Hw by (unfold UPDX in *; lia).
    case_decide; reflexivity. }
  assert (∀ pd' v, pd' ∈ R → 0 ≤ v < UVPN → pte_of (phys s') pd' v = pte_of (phys s) pd' v) as Hptes.
  { intros pd' v Hpd' Hv. destruct (vpn_idx v Hv) as [Hvi Hvj]. 
    destruct (decide (pd' = pd ∧ v / 1024 = i)) as [[-> E]|D].
    - rewrite (Hempty v Hv E). unfold pte_of. rewrite Hpts, decide_True by auto. reflexivity.
    - unfold pte_of. rewrite Hpts, decide_False by assumption.
      destruct (pt_of (phys s) pd' (v / 1024)) as [t'|] eqn:Et; [|reflexivity].
      rewrite Hw, decide_False; auto. intros [-> _].
      destruct (pw_pt _ _ _ W _ _ _ Hpd' Hvi Et). contradiction. }
  assert (∀ q, refs (phys s') R q = refs (phys s) R q - Z.b2z (bool_decide (q = t))) as Hrefs.
  { intros q. rewrite (refs_new_pt (phys s') (phys s) R pd i t q); try assumption; [lia| | |].
    - rewrite Hpts, decide_True by auto. reflexivity.
    - intros. symmetry. apply Hptes; assumption.
    - intros pd' i' Hp' Hi'. rewrite Hpts by assumption. case_decide as D; [|reflexivity].
      destruct D as [-> ->]. assumption. }
  split; [|auto]. split.
  - eapply page_inv_ext; [apply (vm_pages _ _ _ _ H)|reflexivity..].
  - assumption.
  - intros q. unfold held. pose proof (vm_x _ _ _ _ H q). case_bool_decide; simpl; lia.
  - split.
    + apply (pw_root _ _ _ W).
    + intros pd' i' t' Hp' Hi'. rewrite Hpts by assumption. case_decide; [discriminate|].
      apply (pw_pt _ _ _ W); assumption.
    + intros pd1 i1 pd2 i2 t' H1 H2 Hi1 Hi2. rewrite !Hpts by assumption.
      repeat case_decide; try discriminate. apply (pw_inj _ _ _ W); assumption.
  - intros pd' v p Hp' Hv. unfold page_of. rewrite Hptes by assumption. intros E.
    destruct (vm_data _ _ _ _ H _ _ _ Hp' Hv E) as (? & ? & G). split; [assumption|].
    split; [assumption|]. intros (pd2 & i2 & Hp2 & Hi2 & E2). apply G. exists pd2, i2.
    rewrite Hpts in E2 by assumption. case_decide; [discriminate|]. auto.
  - intros q j Hj. rewrite Hrefs. pose proof (vm_ref _ _ _ _ H _ _ Hj). unfold held. lia.
Qed.
End release.

(** * Taking an address space away *)

Section drop.
Implicit Types (s : pm) (l R : list Z) (x : Z → Z).

Lemma list_prod_app {A B} (l1 l2 : list A) (k : list B) :
  list_prod (l1 ++ l2) k = list_prod l1 k ++ list_prod l2 k.
Proof. induction l1 as [|a l1 IH]; [reflexivity|]. cbn. rewrite IH, app_assoc. reflexivity. Qed.

Lemma refs_app m R1 R2 p : refs m (R1 ++ R2) p = refs m R1 p + refs m R2 p.
Proof.
  unfold refs, mapcount, ptcount, rootcount. rewrite !list_prod_app, !countb_app. lia.
Qed.

Lemma elem_of_mid (R1 R2 : list Z) pd q : q ∈ R1 ++ R2 → q ∈ R1 ++ pd :: R2.
Proof. rewrite !elem_of_app, elem_of_cons. tauto. Qed.

Lemma NoDup_mid (R1 R2 : list Z) pd : NoDup (R1 ++ pd :: R2) → NoDup (R1 ++ R2) ∧ pd ∉ R1 ++ R2.
Proof.
  intros H. apply NoDup_app in H as (H1 & H2 & H3). apply NoDup_cons in H3 as [H3 H4].
  split.
  - apply NoDup_app. split; [assumption|]. split; [|assumption]. intros q Hq F.
    apply (H2 q Hq). apply elem_of_cons. auto.
  - rewrite elem_of_app. intros [F|F]; [|contradiction]. apply (H2 pd F), list_elem_of_here.
Qed.

(** A directory without user page tables stops being an address space; its
    page is then held by the caller. *)
Lemma vm_drop_root s l R1 R2 x pd : vm_inv s l (R1 ++ pd :: R2) x →
  (∀ i, 0 ≤ i < UPDX → pt_of (phys s) pd i = None) →
  vm_inv s l (R1 ++ R2) (held pd x) ∧
  ∀ q, refs (phys s) (R1 ++ R2) q = refs (phys s) (R1 ++ pd :: R2) q - Z.b2z (bool_decide (q = pd)).
Proof.
  intros H He. pose proof (vm_wf _ _ _ _ H) as W.
  destruct (NoDup_mid _ _ _ (vm_NoDup _ _ _ _ H)) as [Hnd Hpd].
  assert (∀ q, refs (phys s) (R1 ++ R2) q
    = refs (phys s) (R1 ++ pd :: R2) q - Z.b2z (bool_decide (q = pd))) as Hrefs.
  { intros q. rewrite !refs_app, refs_cons by assumption. lia. }
  assert (∀ q, is_pt (phys s) (R1 ++ R2) q → is_pt (phys s) (R1 ++ pd :: R2) q) as Hip.
  { intros q (pd' & i & ? & ? & E). exists pd', i. split; [apply elem_of_mid; assumption|auto]. }
  split; [|assumption]. split.
  - apply (vm_pages _ _ _ _ H).
  - assumption.
  - intros q. unfold held. pose proof (vm_x _ _ _ _ H q). case_bool_decide; simpl; lia.
  - split.
    + intros q Hq. apply (pw_root _ _ _ W), elem_of_mid, Hq.
    + intros q i t Hq Hi E. destruct (pw_pt _ _ _ W q i t (elem_of_mid _ _ pd _ Hq) Hi E) as [? G].
      split; [assumption|]. intros F. apply G, elem_of_mid, F.
    + intros *. intros Hq1 Hq2. apply (pw_inj _ _ _ W); apply elem_of_mid; assumption.
  - intros q v p Hq Hv E. destruct (vm_data _ _ _ _ H q v p (elem_of_mid _ _ pd _ Hq) Hv E) as (? & G & G').
    split; [assumption|]. split; [intros F; apply G, elem_of_mid, F|intros F; apply G', Hip, F].
  - intros q j Hj. rewrite Hrefs. pose proof (vm_ref _ _ _ _ H _ _ Hj). unfold held. lia.
Qed.
End drop.

(** * env_free's loops *)

Lemma PGADDR_page i j : 0 ≤ i < 1024 → 0 ≤ j < 1024 → PGADDR i j 0 = (i * 1024 + j) * PGSIZE.
Proof.
  intros Hi Hj. unfold PGADDR, PDXSHIFT, PTXSHIFT. rewrite Z.lor_0_r.
  rewrite (w32_id (Z.shiftl i 22)) by (rewrite Z.shiftl_mul_pow2; unfold u32_range; lia).
  rewrite shiftl_lor_low by (rewrite ?Z.shiftl_mul_pow2; lia).
  rewrite !Z.shiftl_mul_pow2 by lia. unfold PGSIZE. lia.
Qed.

Section free.
Context (k : ks) (l0 R : list Z) (x : Z → Z) (pd : Z) (Hpd : pd ∈ R).
Let s0 := kpm k.
Context (H0 : vm_inv s0 l0 R x).

(** [freeing D s l]: from [s0], the mappings of [pd] in [D] are gone. *)
Record freeing (D : Z → bool) (s : pm) (l : list Z) : Prop := {
  fr_inv : vm_inv s l R x;
  fr_rel : released s0 l0 R s l R;
  fr_pte : ∀ pd' v, pd' ∈ R → 0 ≤ v < UVPN → pte_of (phys s) pd' v
    = if bool_decide (pd' = pd) && D v then None else pte_of (phys s0) pd' v;
  fr_pt : ∀ pd' i t, pd' ∈ R → 0 ≤ i < UPDX → pt_of (phys s) pd' i = Some t →
    pt_of (phys s0) pd' i = Some t;
  fr_pt_other : ∀ pd' i, pd' ∈ R → 0 ≤ i < UPDX → pd' ≠ pd →
    pt_of (phys s) pd' i = pt_of (phys s0) pd' i;
  fr_data : data_same (phys s0) (phys s) R []
}.

Lemma freeing_is_pt D s l q : freeing D s l → is_pt (phys s) R q → is_pt (phys s0) R q.
Proof.
  intros F (pd' & i & ? & ? & E). exists pd', i. split; [assumption|]. split; [assumption|].
  eapply fr_pt; eassumption.
Qed.

(** One entry of a page table. *)
Lemma free_entry D s l i j t : freeing D s l → 0 ≤ i < UPDX → 0 ≤ j < 1024 →
  pt_of (phys s) pd i = Some t →
  ∃ s' l', (pte ← inpm (kld32 (kva_of t + 4 * j));
     when (is_present pte)
       (inpm_cur (λ cur, page_remove cur (kva_of pd) (PGADDR i j 0)))) (set_kpm s k)
     = Ret tt (set_kpm s' k) ∧
    freeing (λ v, D v || (v =? i * 1024 + j)) s' l' ∧
    (∀ i', 0 ≤ i' < UPDX → pt_of (phys s') pd i' = pt_of (phys s) pd i').
Proof.
  intros F Hi Hj Ht. rewrite (bind_Ret _ _ _ _ _ (inpm_Ret _ _ _ _ (kld32_wd _ _ _))).
  set (va := PGADDR i j 0). assert (va = (i * 1024 + j) * PGSIZE) as Eva
    by (unfold UPDX in *; apply PGADDR_page; lia).
  assert (va / PGSIZE = i * 1024 + j) as Ev by (rewrite Eva; apply Z.div_mul; discriminate).
  assert (user_va va) as Hva.
  { unfold user_va. change UTOP with (UVPN * PGSIZE). unfold UVPN, PGSIZE, UPDX in *. lia. }
  destruct (user_va_idx va Hva) as (EI & EJ & _ & _ & Hv).
  assert (PDX va = i ∧ PTX va = j) as [EI' EJ']
    by (rewrite EI, EJ, Ev; split; Z.div_mod_to_equations; lia).
  destruct (remove_present (cur_pgdir (set_kpm s k)) s l R x pd va t) as (s' & l' & E & C);
    [apply F|assumption|assumption|congruence|].
  exists s', l'. split; [|split].
  - cbn [kpm set_kpm]. rewrite EJ' in E. destruct (is_present _); cbn [when] in *.
    + unfold inpm_cur. erewrite inpm_Ret by (cbn [kpm set_kpm]; exact E). reflexivity.
    + injection E as <-. reflexivity.
  - pose proof (cleared_released s l R x pd (va / PGSIZE) s' l' (fr_inv _ _ _ F) Hpd Hv C)
      as Hr.
    split.
    + apply C.
    + eapply released_trans; [apply F|exact Hr].
    + intros pd' v Hp' Hv'. rewrite (cl_pte _ _ _ _ _ _ _ _ C), (fr_pte _ _ _ F) by assumption.
      rewrite Ev. case_decide as Dd.
      * destruct Dd as [-> ->]. rewrite bool_decide_eq_true_2, Z.eqb_refl, orb_true_r by reflexivity.
        reflexivity.
      * case_bool_decide as B; [subst pd'|reflexivity]. cbn [andb].
        replace (v =? i * 1024 + j) with false; [rewrite orb_false_r; reflexivity|].
        symmetry. apply Z.eqb_neq. intros ->. apply Dd. auto.
    + intros pd' i' t'. intros ? ?. rewrite (cl_pt _ _ _ _ _ _ _ _ C) by assumption.
      apply (fr_pt _ _ _ F); assumption.
    + intros. rewrite (cl_pt _ _ _ _ _ _ _ _ C) by assumption. apply (fr_pt_other _ _ _ F); assumption.
    + intros q jj Hjj Hq HR Hpt. rewrite (cl_data _ _ _ _ _ _ _ _ C); auto.
      * apply (fr_data _ _ _ F); assumption.
      * intros G. apply Hpt, (freeing_is_pt _ _ _ _ F G).
  - intros. apply (cl_pt _ _ _ _ _ _ _ _ C); assumption.
Qed.

Lemma freeing_ext D D' s l : (∀ v, 0 ≤ v < UVPN → D v = D' v) → freeing D s l → freeing D' s l.
Proof.
  intros E F. split; [apply F..| |apply F|apply F|apply F].
  intros pd' v Hp Hv. rewrite <- E by assumption. apply (fr_pte _ _ _ F); assumption.
Qed.

(** The inner loop. *)
Lemma free_entries D s l i t : freeing D s l → 0 ≤ i < UPDX → pt_of (phys s) pd i = Some t →
  ∃ s' l', for_range (Z.to_nat NPTENTRIES) 0 1 (λ pteno,
      pte ← inpm (kld32 (kva_of t + 4 * pteno));
      when (is_present pte)
        (inpm_cur (λ cur, page_remove cur (kva_of pd) (PGADDR i pteno 0)))) (set_kpm s k)
    = Ret tt (set_kpm s' k) ∧
    freeing (λ v, D v || (v / 1024 =? i)) s' l' ∧
    (∀ i', 0 ≤ i' < UPDX → pt_of (phys s') pd i' = pt_of (phys s) pd i').
Proof.
  intros F Hi Ht.
  destruct (for_range_inv (λ n st, ∃ s' l', st = set_kpm s' k ∧
      freeing (λ v, D v || ((v / 1024 =? i) && (v mod 1024 <? n))) s' l' ∧
      (∀ i', 0 ≤ i' < UPDX → pt_of (phys s') pd i' = pt_of (phys s) pd i'))
    (λ pteno, pte ← inpm (kld32 (kva_of t + 4 * pteno));
      when (is_present pte)
        (inpm_cur (λ cur, page_remove cur (kva_of pd) (PGADDR i pteno 0))))
    1 (Z.to_nat NPTENTRIES) 0 (set_kpm s k)) as (st & E & s' & l' & -> & F' & Hpt).
  - exists s, l. split; [reflexivity|]. split; [|reflexivity].
    eapply freeing_ext; [|exact F]. intros v _. cbv beta.
    pose proof (Z.mod_pos_bound v 1024). replace (v mod 1024 <? 0) with false by (symmetry; apply Z.ltb_ge; lia).
    rewrite andb_false_r, orb_false_r. reflexivity.
  - intros n st Hn (s1 & l1 & -> & F1 & Hpt1). change (Z.of_nat (Z.to_nat NPTENTRIES)) with 1024 in Hn.
    replace (0 + n * 1) with n in * by lia. replace (0 + (n + 1) * 1) with (n + 1) by lia.
    destruct (free_entry _ s1 l1 i n t F1 Hi Hn) as (s2 & l2 & E2 & F2 & Hpt2);
      [rewrite Hpt1; assumption|].
    exists (set_kpm s2 k). split; [exact E2|]. exists s2, l2. split; [reflexivity|]. split.
    + eapply freeing_ext; [|exact F2]. intros v Hv. cbv beta. rewrite <- orb_assoc. f_equal.
      destruct (Z.eqb_spec (v / 1024) i), (Z.ltb_spec (v mod 1024) n),
        (Z.ltb_spec (v mod 1024) (n + 1)), (Z.eqb_spec v (i * 1024 + n)); try reflexivity;
        exfalso; Z.div_mod_to_equations; lia.
    + intros. rewrite Hpt2, Hpt1 by assumption. reflexivity.
  - exists s', l'. split; [exact E|]. split; [|assumption].
    eapply freeing_ext; [|exact F']. intros v _. cbv beta.
    change (0 + Z.of_nat (Z.to_nat NPTENTRIES) * 1) with 1024.
    pose proof (Z.mod_pos_bound v 1024 ltac:(lia)).
    replace (v mod 1024 <? 1024) with true by (symmetry; apply Z.ltb_lt; lia).
    rewrite andb_true_r. reflexivity.
Qed.

(** A slot of the directory that names no table maps nothing. *)
Lemma freeing_absent D s l i : freeing D s l → pt_of (phys s) pd i = None → freeing (λ v, D v || (v / 1024 =? i)) s l.
Proof.
  intros F Hn. split; [apply F..| |apply F|apply F|apply F].
  intros pd' v Hp' Hv. rewrite (fr_pte _ _ _ F) by assumption. case_bool_decide; [|reflexivity].
  subst pd'. cbn [andb]. destruct (D v) eqn:Ed; [reflexivity|]. cbn [orb].
  destruct (Z.eqb_spec (v / 1024) i) as [Ev|]; [|reflexivity].
  pose proof (fr_pte _ _ _ F pd v Hpd Hv) as G. rewrite bool_decide_eq_true_2, Ed in G by reflexivity.
  cbn [andb] in G. rewrite <- G. unfold pte_of. rewrite Ev, Hn. reflexivity.
Qed.

(** An emptied table is unlinked and dereferenced. *)
Section drop_table.
Context (D : Z → bool) (s : pm) (l : list Z) (i t : Z).
Context (F : freeing (λ v, D v || (v / 1024 =? i)) s l) (Hi : 0 ≤ i < UPDX) (Ht : pt_of (phys s) pd i = Some t).
Let s2 := with_phys (st32 (phys s) (pd * PGSIZE + 4 * i) 0) s.

Lemma unlinked : vm_inv s2 l R (held t x) ∧
  (∀ pd' i', pd' ∈ R → 0 ≤ i' < UPDX → pt_of (phys s2) pd' i' = if decide (pd' = pd ∧ i' = i) then None else pt_of (phys s) pd' i') ∧
  (∀ pd' v, pd' ∈ R → 0 ≤ v < UVPN → pte_of (phys s2) pd' v = pte_of (phys s) pd' v) ∧
  (∀ q, refs (phys s2) R q = refs (phys s) R q - ind (q = t)).
Proof using Hpd F Hi Ht.
  apply (vm_unlink s l R x pd i t (fr_inv _ _ _ F) Hpd Hi Ht).
  intros v Hv Ev. rewrite (fr_pte _ _ _ F) by assumption.
  rewrite bool_decide_eq_true_2, Ev, Z.eqb_refl, orb_true_r by reflexivity. reflexivity.
Qed.

Lemma dropped : ∃ j, page_decref t s2 = Ret tt (decref_state t j s2) ∧
  freeing (λ v, D v || (v / 1024 =? i)) (decref_state t j s2) (decref_list t j l) ∧
  (∀ i', 0 ≤ i' < UPDX → pt_of (phys (decref_state t j s2)) pd i' = if decide (i' = i) then None else pt_of (phys s) pd i').
Proof using Hpd H0 F Hi Ht.
  destruct unlinked as (H2 & Hpt2 & Hpte2 & Href2).
  destruct (vm_pt_bound _ _ _ _ _ _ _ (fr_inv _ _ _ F) Hpd Hi Ht) as (Hb & _).
  destruct (page_inv_lookup _ _ t (vm_pages _ _ _ _ H2)) as [j Hj]; [change (npages s2) with (npages s); lia|].
  destruct (vm_decref s2 l R x t j H2 (vm_x _ _ _ _ H0) Hj) as [E3 H3].
  assert (1 ≤ pp_ref j < 2 ^ 16) as Hrj.
  { pose proof (vm_ref _ _ _ _ H2 _ _ Hj) as G. pose proof (refs_nonneg (phys s2) R t).
    pose proof (vm_x _ _ _ _ H0 t). unfold held in G. rewrite bool_decide_eq_true_2 in G by reflexivity.
    pose proof (pi_ref _ _ (vm_pages _ _ _ _ H2) _ _ Hj). cbn [Z.b2z] in G. lia. }
  exists j. split; [exact E3|]. split.
  - split.
    + exact H3.
    + eapply released_trans; [apply F|]. split.
      * rewrite decref_npages. reflexivity.
      * apply (decref_same_env t j s2).
      * apply decref_list_sub.
      * intros q j' Hj'. destruct (decref_lookup t j s2 q j' Hj Hrj Hj') as (jq & Hjq & ->).
        exists jq. split; [assumption|]. rewrite decref_phys, Href2.
        rewrite (bool_decide_ext (q = t) (t = q)) by (split; congruence). lia.
      * intros q jq j' Hjq. apply (decref_zero t j s2 l q jq j' Hj Hrj Hjq).
    + intros. rewrite decref_phys, Hpte2 by assumption. apply (fr_pte _ _ _ F); assumption.
    + intros pd' i' t' Hp' Hi'. rewrite decref_phys, Hpt2 by assumption.
      case_decide; [discriminate|]. apply (fr_pt _ _ _ F); assumption.
    + intros pd' i' Hp' Hi' Hne. rewrite decref_phys, Hpt2 by assumption.
      rewrite decide_False by (intros [-> _]; contradiction). apply (fr_pt_other _ _ _ F); assumption.
    + intros q jj Hjj Hq HR Hpt. rewrite decref_phys. unfold s2. psimpl.
      rewrite wd_st32 by (unfold u32_range, UPDX in *; lia).
      rewrite decide_False by (intros [-> ->]; specialize (HR Hpd); lia).
      apply (fr_data _ _ _ F); assumption.
  - intros i' Hi'. rewrite decref_phys, Hpt2 by assumption. repeat case_decide; reflexivity || intuition.
Qed.
End drop_table.

(** One page table: its mappings are removed, then it is unlinked and
    dereferenced. *)
Lemma free_table D s l i : freeing D s l → 0 ≤ i < UPDX →
  ∃ s' l', env_free_pt (kva_of pd) i (set_kpm s k) = Ret tt (set_kpm s' k) ∧
    freeing (λ v, D v || (v / 1024 =? i)) s' l' ∧ pt_of (phys s') pd i = None ∧
    (∀ i', 0 ≤ i' < UPDX → i' ≠ i → pt_of (phys s') pd i' = pt_of (phys s) pd i').
Proof.
  intros F Hi. unfold env_free_pt.
  rewrite (bind_Ret _ _ _ _ _ (inpm_Ret _ _ _ _ (kld32_wd _ _ _))).
  destruct (is_present (wd (phys (kpm (set_kpm s k))) pd i)) eqn:Epr; cbn [kpm set_kpm] in Epr.
  2: { exists s, l. split; [reflexivity|]. assert (pt_of (phys s) pd i = None) as Hn by (unfold pt_of; rewrite Epr; reflexivity).
    split; [apply freeing_absent; assumption|auto]. }
  set (t := frame_of (wd (phys s) pd i)).
  assert (pt_of (phys s) pd i = Some t) as Ht by (unfold pt_of; rewrite Epr; reflexivity).
  destruct (vm_pt_bound _ _ _ _ _ _ _ (fr_inv _ _ _ F) Hpd Hi Ht) as (Hb & _).
  pose proof (vm_npages _ _ _ _ (fr_inv _ _ _ F)) as Hn.
  destruct (free_entries D s l i t F Hi Ht) as (s1 & l1 & E1 & F1 & Hpt1).
  destruct (dropped D s1 l1 i t F1 Hi) as (j & E3 & F3 & Hpt3); [rewrite Hpt1; assumption|].
  pose proof (rl_npages _ _ _ _ _ _ (fr_rel _ _ _ F1)) as Hn1. pose proof (rl_npages _ _ _ _ _ _ (fr_rel _ _ _ F)) as Hn2.
  set (s2 := with_phys _ s1) in *. eexists _, _. split; [|split; [exact F3|split]].
  - cbn [kpm set_kpm negb]. erewrite bind_Ret by (eapply inpm_Ret, KADDR_frame; [exact Hn|exact Hb]).
    fold t. rewrite set_kpm_same. rewrite (bind_Ret _ _ _ _ _ E1).
    erewrite bind_Ret by (eapply inpm_Ret, kst32_wd). cbn [kpm set_kpm]. fold s2. rewrite frame_of_addr. fold t.
    erewrite bind_Ret by (eapply inpm_Ret, pa2page_page; cbn [kpm set_kpm]; change (npages s2) with (npages s1); lia).
    erewrite inpm_Ret by (cbn [kpm set_kpm]; exact E3). reflexivity.
  - rewrite Hpt3, decide_True by auto. reflexivity.
  - intros i' Hi' Hne. rewrite Hpt3, decide_False by assumption. apply Hpt1. assumption.
Qed.
End free.

(** * New pages and new address spaces *)

Section take.
Implicit Types (s : pm) (l R : list Z) (x : Z → Z).

(** A page taken off the free list, with one reference held by the caller. *)
Definition take_state (p : Z) (h : option Z) s : pm :=
  with_pages (<[p := MkPageInfo None 1]> (pages s)) (with_free_list h s).

Lemma vm_take s l R x p i : vm_inv s (p :: l) R x → pages s !! p = Some i →
  vm_inv (take_state p (pp_link i) s) l R (held p x).
Proof.
  intros H Hi. pose proof (vm_pages _ _ _ _ H) as Hp.
  destruct (vm_free _ _ _ _ _ H (list_elem_of_here _ _)) as [Hr Hx].
  split.
  - exact (page_inv_take s p l i Hp Hi).
  - apply (vm_NoDup _ _ _ _ H).
  - intros q. unfold held. pose proof (vm_x _ _ _ _ H q). case_bool_decide; cbn [Z.b2z]; lia.
  - apply (vm_wf _ _ _ _ H).
  - apply (vm_data _ _ _ _ H).
  - intros q j. unfold take_state. psimpl. rewrite lookup_insert. unfold held. case_decide as D.
    + subst q. intros [= <-]. psimpl. rewrite bool_decide_eq_true_2 by reflexivity.
      rewrite Hr, Hx. cbn [Z.b2z]. lia.
    + intros Hj. rewrite bool_decide_eq_false_2 by congruence. pose proof (vm_ref _ _ _ _ H _ _ Hj).
      cbn [Z.b2z]. lia.
Qed.

Lemma same_pt_of m m' R p pd i : (∀ q j, 0 ≤ j < 1024 → q ≠ p → wd m' q j = wd m q j) → p ∉ R →
  pd ∈ R → 0 ≤ i < UPDX → pt_of m' pd i = pt_of m pd i.
Proof.
  intros He HR Hpd Hi. unfold pt_of. rewrite He; [reflexivity|unfold UPDX in *; lia|].
  intros ->. contradiction.
Qed.

Lemma same_pte_of m m' R p pd v : (∀ q j, 0 ≤ j < 1024 → q ≠ p → wd m' q j = wd m q j) → p ∉ R →
  ¬ is_pt m R p → pd ∈ R → 0 ≤ v < UVPN → pte_of m' pd v = pte_of m pd v.
Proof.
  intros He HR Hpt Hpd Hv. destruct (vpn_idx v Hv) as [Hi Hj]. unfold pte_of.
  rewrite (same_pt_of m m' R p) by assumption.
  destruct (pt_of m pd (v / 1024)) as [t|] eqn:Et; [|reflexivity].
  rewrite He; [reflexivity|assumption|]. intros ->. apply Hpt. exists pd, (v / 1024). auto.
Qed.

(** Writing to a page that is neither a directory nor a page table. *)
Lemma vm_write_data s l R x p m' : vm_inv s l R x → p ∉ R → ¬ is_pt (phys s) R p →
  (∀ q j, 0 ≤ j < 1024 → q ≠ p → wd m' q j = wd (phys s) q j) →
  vm_inv (with_phys m' s) l R x.
Proof.
  intros H HR Hpt He. pose proof (vm_wf _ _ _ _ H) as W.
  pose proof (λ pd i, same_pt_of (phys s) m' R p pd i He HR) as E1.
  pose proof (λ pd v, same_pte_of (phys s) m' R p pd v He HR Hpt) as E2.
  split; psimpl.
  - eapply page_inv_ext; [apply (vm_pages _ _ _ _ H)|reflexivity..].
  - apply (vm_NoDup _ _ _ _ H).
  - apply (vm_x _ _ _ _ H).
  - split.
    + apply (pw_root _ _ _ W).
    + intros pd i t Hpd Hi. rewrite E1 by assumption. apply (pw_pt _ _ _ W); assumption.
    + intros pd1 i1 pd2 i2 t H1 H2 Hi1 Hi2. rewrite !E1 by assumption. apply (pw_inj _ _ _ W); assumption.
  - intros pd v q Hpd Hv. unfold page_of. rewrite E2 by assumption. rewrite (is_pt_ext (phys s) m' R q) by assumption.
    apply (vm_data _ _ _ _ H); assumption.
  - intros q j Hj. rewrite (refs_ext (phys s) m' R q) by assumption. apply (vm_ref _ _ _ _ H _ _ Hj).
Qed.

Lemma wd_memcpy m p kp q j : 0 ≤ j < 1024 →
  wd (memcpy m (p * PGSIZE) (kp * PGSIZE) PGSIZE) q j
  = if decide (q = p) then wd m kp j else wd m q j.
Proof.
  intros Hj. unfold wd, memcpy.
  assert (∀ b, ld8 (memmove m (p * PGSIZE) (kp * PGSIZE) PGSIZE) b
    = if decide (p * PGSIZE ≤ b < p * PGSIZE + PGSIZE) then ld8 m (b - p * PGSIZE + kp * PGSIZE)
      else ld8 m b) as Hb by (intros; apply memmove_spec; discriminate).
  unfold PGSIZE in *. case_decide as D.
  - subst q. unfold ld32, ld16. rewrite !Hb. rewrite !decide_True by lia.
    f_equal; [f_equal; [|f_equal]|f_equal; f_equal; [|f_equal]]; f_equal; lia.
  - unfold ld32, ld16. rewrite !Hb. rewrite !decide_False by lia. reflexivity.
Qed.
End take.

(** * Properties *)

Lemma PADDR_kva s pd : 0 ≤ pd < 65536 → PADDR (kva_of pd) s = Ret (pd * PGSIZE) s.
Proof.
  intros Hpd. unfold PADDR, kva_of, KERNBASE, PGSIZE. rewrite w32_id by (unfold u32_range; lia).
  zcases; [lia|]. unfold mret, M_ret. f_equal. lia.
Qed.

Section env_free.
Implicit Types (k : ks) (l R : list Z) (x : Z → Z).

(** All page tables. *)
Lemma free_tables k l R x pd : vm_inv (kpm k) l R x → pd ∈ R →
  ∃ s' l', for_range (Z.to_nat (PDX UTOP)) 0 1 (env_free_pt (kva_of pd)) k = Ret tt (set_kpm s' k) ∧
    freeing k l R x pd (λ _, true) s' l' ∧ (∀ i, 0 ≤ i < UPDX → pt_of (phys s') pd i = None).
Proof.
  intros H Hpd. 
  destruct (for_range_inv (λ n st, ∃ s' l', st = set_kpm s' k ∧
      freeing k l R x pd (λ v, v / 1024 <? n) s' l' ∧
      (∀ i, 0 ≤ i < UPDX → i < n → pt_of (phys s') pd i = None))
    (env_free_pt (kva_of pd)) 1 (Z.to_nat (PDX UTOP)) 0 k) as (st & E & s' & l' & -> & F & He).
  - exists (kpm k), l. split; [symmetry; apply set_kpm_same|]. split; [|intros; lia]. split; auto.
    + apply released_refl.
    + intros pd' v _ Hv. replace (v / 1024 <? 0) with false; [rewrite andb_false_r; reflexivity|].
      symmetry. apply Z.ltb_ge. pose proof (vpn_idx v Hv). lia.
    + intros q j _ _ _ _. reflexivity.
  - intros n st Hn (s1 & l1 & -> & F1 & He1). change (Z.of_nat (Z.to_nat (PDX UTOP))) with UPDX in Hn.
    replace (0 + n * 1) with n in * by lia. replace (0 + (n + 1) * 1) with (n + 1) by lia.
    destruct (free_table k l R x pd Hpd H _ s1 l1 n F1 Hn) as (s2 & l2 & E2 & F2 & Hn2 & Ho2).
    exists (set_kpm s2 k). split; [exact E2|]. exists s2, l2. split; [reflexivity|]. split.
    + eapply freeing_ext; [|exact F2]. intros v _. cbv beta.
      destruct (Z.ltb_spec (v / 1024) n), (Z.eqb_spec (v / 1024) n), (Z.ltb_spec (v / 1024) (n + 1));
        reflexivity || lia.
    + intros i Hi Hlt. destruct (Z.eq_dec i n) as [->|]; [assumption|].
      rewrite Ho2 by assumption. apply He1; [assumption|lia].
  - exists s', l'. split; [exact E|]. change (0 + Z.of_nat (Z.to_nat (PDX UTOP)) * 1) with UPDX in *.
    split; [|intros i Hi; apply He; [assumption|lia]].
    eapply freeing_ext; [|exact F]. intros v Hv. apply Z.ltb_lt. pose proof (vpn_idx v Hv). lia.
Qed.

Lemma curenv_id_run k c : cpus k !! cpunum k = Some c →
  (∀ i, cpu_env c = Some i → is_Some (envs k !! i)) → ∃ id, curenv_id k = Ret id k.
Proof.
  intros Hc He. unfold curenv_id. rewrite (bind_Ret _ _ _ _ _ (curenv_eq k c Hc)).
  destruct (cpu_env c) as [i|]; [|eexists; reflexivity].
  destruct (He i eq_refl) as [e Ee]. rewrite (bind_Ret _ _ _ _ _ (env_get_eq k i e Ee)).
  eexists. reflexivity.
Qed.

(** The state in which env_free starts its loops. *)
Definition free_start (e : Z) (c : CpuInfo) (msg : string * list Z) k : ks :=
  let k := if bool_decide (cpu_env c = Some e)
           then set_kpm (with_cr3 (kern_pgdir (kpm k) - KERNBASE) (kpm k)) k else k in
  set_klog (msg :: klog k) k.

Lemma free_start_vm e c msg k l R x : vm_inv (kpm k) l R x → vm_inv (kpm (free_start e c msg k)) l R x.
Proof. intros H. unfold free_start. case_bool_decide; [eapply vm_inv_ext; eauto|exact H]. Qed.

(** [env_free] before its loop: the kernel's directory is loaded when the
    environment is this CPU's own, and the message is printed. *)
Lemma env_free_head k e E c : cpus k !! cpunum k = Some c →
  (∀ i, cpu_env c = Some i → is_Some (envs k !! i)) → envs k !! e = Some E →
  KERNBASE ≤ kern_pgdir (kpm k) < 2 ^ 32 →
  ∃ msg, ∀ K : Env → M ks unit,
    (c' ← curenv;
     when (bool_decide (c' = Some e)) (kp ← gets (λ s, kern_pgdir (kpm s)); pa ← inpm (PADDR kp); lcr3 pa) ;;
     cid ← curenv_id; x ← env_get e; cprintf "[%08x] free env %08x\n" [cid; env_id x] ;; K x) k = K E (free_start e c msg k).
Proof.
  intros Hc Hcur He Hkp.
  set (k0 := if bool_decide (cpu_env c = Some e)
             then set_kpm (with_cr3 (kern_pgdir (kpm k) - KERNBASE) (kpm k)) k else k).
  assert (when (bool_decide (cpu_env c = Some e))
    (kp ← gets (λ s, kern_pgdir (kpm s)); pa ← inpm (PADDR kp); lcr3 pa) k = Ret tt k0) as E0.
  { unfold k0. case_bool_decide; [|reflexivity]. cbn [when]. mrun.
    erewrite bind_Ret.
    2: { apply inpm_Ret. unfold PADDR. rewrite w32_id by (unfold u32_range; unfold KERNBASE in *; lia).
         replace (kern_pgdir (kpm k) <? KERNBASE) with false by (symmetry; apply Z.ltb_ge; lia).
         reflexivity. }
    rewrite set_kpm_same. reflexivity. }
  assert (cpus k0 = cpus k ∧ cpunum k0 = cpunum k ∧ envs k0 = envs k)
    as (Ec & En & Ee) by (unfold k0; case_bool_decide; auto).
  destruct (curenv_id_run k0 c) as [cid Ecid]; [congruence|rewrite Ee; assumption|].
  exists ("[%08x] free env %08x\n"%string, [cid; env_id E]). intros K.
  rewrite (bind_Ret _ _ _ _ _ (curenv_eq k c Hc)), (bind_Ret _ _ _ _ _ E0), (bind_Ret _ _ _ _ _ Ecid).
  rewrite (bind_Ret _ _ _ _ _ (env_get_eq k0 e E ltac:(rewrite Ee; exact He))).
  unfold cprintf. rewrite bind_modify. reflexivity.
Qed.

Lemma free_start_fields e c msg k : npages (kpm (free_start e c msg k)) = npages (kpm k) ∧
  envs (free_start e c msg k) = envs k ∧ env_free_list (free_start e c msg k) = env_free_list k.
Proof. unfold free_start. case_bool_decide; auto. Qed.

Lemma env_free_run k l R1 R2 x e E pd c : cpus k !! cpunum k = Some c →
  (∀ i, cpu_env c = Some i → is_Some (envs k !! i)) →
  envs k !! e = Some E → env_pgdir E = kva_of pd →
  KERNBASE ≤ kern_pgdir (kpm k) < 2 ^ 32 → vm_inv (kpm k) l (R1 ++ pd :: R2) x →
  ∃ msg s1 l1 j, 
    let k1 := free_start e c msg k in
    freeing k1 l (R1 ++ pd :: R2) x pd (λ _, true) s1 l1 ∧
    (∀ i, 0 ≤ i < UPDX → pt_of (phys s1) pd i = None) ∧ pages s1 !! pd = Some j ∧
    page_decref pd s1 = Ret tt (decref_state pd j s1) ∧
    vm_inv (decref_state pd j s1) (decref_list pd j l1) (R1 ++ R2) x ∧
    env_free e k = Ret tt (set_env_free_list (Some e)
      (set_envs (<[e := set_env_link (env_free_list k) (set_env_status ENV_FREE (set_env_pgdir 0 E))]>
        (envs k)) (set_kpm (decref_state pd j s1) k1))).
Proof.
  intros Hc Hcur He Hpg Hkp H. set (R := R1 ++ pd :: R2) in *.
  assert (pd ∈ R) as Hpd by (apply elem_of_app; right; apply list_elem_of_here).
  destruct (vm_root_used _ _ _ _ _ H Hpd) as [Hb Hl]. pose proof (vm_npages _ _ _ _ H) as Hn.
  destruct (env_free_head k e E c Hc Hcur He Hkp) as [msg E0].
  destruct (free_start_fields e c msg k) as (Hn2 & Ee1 & Ef1). set (k1 := free_start e c msg k) in *.
  assert (vm_inv (kpm k1) l R x) as H1 by (apply free_start_vm; assumption).
  destruct (free_tables k1 l R x pd H1 Hpd) as (s1 & l1 & E1 & F & Hempty).
  destruct (vm_drop_root s1 l1 R1 R2 x pd (fr_inv _ _ _ _ _ _ _ _ F) Hempty) as [H2 _].
  assert (npages s1 = npages (kpm k1)) as Hn1 by apply F.
  destruct (page_inv_lookup _ _ pd (vm_pages _ _ _ _ H2)) as [j Hj]; [lia|].
  destruct (vm_decref s1 l1 (R1 ++ R2) x pd j H2 (vm_x _ _ _ _ H) Hj) as [E3 H3].
  exists msg, s1, l1, j. split; [exact F|]. split; [assumption|]. split; [assumption|].
  split; [assumption|]. split; [assumption|].
  unfold env_free. rewrite E0, Hpg. fold k1. rewrite (bind_Ret _ _ _ _ _ E1).
  erewrite bind_Ret by (apply inpm_Ret, PADDR_kva; lia). ksimpl.
  erewrite bind_Ret by (apply env_upd_eq; ksimpl; rewrite Ee1; exact He). ksimpl.
  erewrite bind_Ret by (apply inpm_Ret, pa2page_page; ksimpl; lia). ksimpl.
  erewrite bind_Ret by (apply inpm_Ret; ksimpl; exact E3). ksimpl.
  erewrite bind_Ret by (apply env_upd_eq; ksimpl; apply lookup_insert_eq). ksimpl.
  mrun. ksimpl.
  erewrite bind_Ret by (apply env_upd_eq; ksimpl; apply lookup_insert_eq). ksimpl.
  unfold modify. f_equal. cbv zeta. change (free_start e c msg k) with k1. clearbody k1.
  clear - Ee1 Ef1. rewrite Ee1, Ef1.
  autorewrite with ks. rewrite !insert_insert_eq. reflexivity.
Qed.
End env_free.

(** env_setup_vm *)
Section setup.
Implicit Types (k : ks) (l R : list Z) (x : Z → Z).

Definition uvpt_entry (p : Z) : Z := Z.lor (Z.lor (p * PGSIZE) PTE_P) PTE_U.

(** The memory and page array after env_setup_vm has made directory [p] from
    [kp]. *)
Definition setup_pm (p kp : Z) (h : option Z) (s : pm) : pm :=
  with_phys (st32 (memcpy (memset (phys s) (p * PGSIZE) 0 PGSIZE) (p * PGSIZE) (kp * PGSIZE) PGSIZE)
    (p * PGSIZE + 4 * PDX UVPT) (uvpt_entry p)) (take_state p h s).

Lemma uvpt_entry_range p : 0 ≤ p < 65536 → u32_range (uvpt_entry p).
Proof.
  intros Hp. unfold uvpt_entry. rewrite <- Z.lor_assoc.
  apply pte_range; [|split; reflexivity || discriminate].
  rewrite <- page2pa_eq by lia. apply page2pa_ok. lia.
Qed.

Lemma setup_wd p kp h s q j : 0 ≤ p < 65536 → kp ≠ p → 0 ≤ j < 1024 →
  wd (phys (setup_pm p kp h s)) q j
  = if decide (q = p) then (if decide (j = PDX UVPT) then uvpt_entry p else wd (phys s) kp j)
    else wd (phys s) q j.
Proof.
  intros Hp Hne Hj. unfold setup_pm. psimpl.
  assert (0 ≤ PDX UVPT < 1024) by (split; [discriminate|reflexivity]).
  rewrite wd_st32 by auto using uvpt_entry_range. rewrite wd_memcpy by assumption.
  rewrite !wd_memset by assumption. rewrite (decide_False (P := kp = p)) by assumption.
  destruct (decide (q = p)) as [->|]; [|rewrite decide_False by tauto; reflexivity].
  destruct (decide (j = PDX UVPT)); [rewrite decide_True by auto|rewrite decide_False by tauto]; reflexivity.
Qed.

Lemma setup_run k i e l R x p kp : vm_inv (kpm k) (p :: l) R x → envs k !! i = Some e →
  kern_pgdir (kpm k) = kva_of kp → 0 ≤ kp < npages (kpm k) →
  ∃ h, pages (kpm k) !! p = Some h ∧
  env_setup_vm i k = Ret 0 (set_envs (<[i := set_env_pgdir (kva_of p) e]> (envs k))
    (set_kpm (setup_pm p kp (pp_link h) (kpm k)) k)).
Proof.
  intros H He Hk Hkp. pose proof (vm_pages _ _ _ _ H) as Hp.
  destruct (page_alloc_some ALLOC_ZERO (kpm k) p l Hp) as (h & Hh & E).
  change (ctrue (Z.land ALLOC_ZERO ALLOC_ZERO)) with true in E.
  pose proof (page_inv_free_bound _ _ p Hp (list_elem_of_here _ _)) as Hb.
  pose proof (pi_npages _ _ Hp) as Hn. exists h. split; [assumption|].
  unfold env_setup_vm. rewrite (bind_Ret _ _ _ _ _ (inpm_Ret _ _ _ _ E)). cbv beta iota.
  erewrite bind_Ret by (apply inpm_Ret, page2kva_page; ksimpl; [exact Hn|exact Hb]).
  fold (kva_of p). ksimpl.
  erewrite bind_Ret by (apply env_upd_eq; ksimpl; exact He). ksimpl.
  erewrite bind_Ret by (apply inpm_Ret, incr_ref_eq; ksimpl; apply lookup_insert_eq). ksimpl.
  mrun. ksimpl. unfold kmemcpy.
  erewrite bind_Ret by (apply inpm_Ret; reflexivity). ksimpl.
  erewrite bind_Ret by (apply inpm_Ret, PADDR_kva; lia). ksimpl.
  erewrite bind_Ret by (apply inpm_Ret, kst32_wd). ksimpl.
  unfold mret, M_ret. f_equal. autorewrite with ks. f_equal. unfold setup_pm, take_state, alloc_state.
  autorewrite with pm. psimpl. rewrite Hk, insert_insert_eq. unfold kva_of. rewrite !Z.add_simpl_r.
  reflexivity.
Qed.

(** The new directory is an empty address space. *)
Lemma setup_vm s l R x p kp h : vm_inv s (p :: l) R x → 0 ≤ kp < npages s → kp ∉ p :: l →
  (∀ i, 0 ≤ i < UPDX → pt_of (phys s) kp i = None) → pages s !! p = Some h →
  let s' := setup_pm p kp (pp_link h) s in
  vm_inv s' l (p :: R) x ∧
  (∀ v, 0 ≤ v < UVPN → pte_of (phys s') p v = None) ∧
  (∀ pd v, pd ∈ R → 0 ≤ v < UVPN → pte_of (phys s') pd v = pte_of (phys s) pd v) ∧
  (∀ q j, 0 ≤ j < 1024 → q ≠ p → wd (phys s') q j = wd (phys s) q j).
Proof.
  intros H Hkp Hne Hke Hh s'. apply not_elem_of_cons in Hne as [Hne Hnl].
  pose proof (page_inv_free_bound _ _ p (vm_pages _ _ _ _ H) (list_elem_of_here _ _)) as Hb.
  pose proof (vm_npages _ _ _ _ H) as Hn.
  destruct (vm_free_unused _ _ _ _ p H (list_elem_of_here _ _)) as (HR & Hpt & Hmap).
  pose proof (λ q j Hj, setup_wd p kp (pp_link h) s q j ltac:(lia) Hne Hj) as Hw. fold s' in Hw.
  assert (∀ q j, 0 ≤ j < 1024 → q ≠ p → wd (phys s') q j = wd (phys s) q j) as Hother.
  { intros q j Hj Hq. rewrite Hw, decide_False by assumption. reflexivity. }
  assert (∀ i, 0 ≤ i < UPDX → pt_of (phys s') p i = None) as Hempty.
  { intros i Hi. pose proof (Hke i Hi) as G. unfold pt_of in *.
    rewrite Hw, decide_True, decide_False by (reflexivity || (unfold UPDX in *; lia) ||
      (intros ->; change (PDX UVPT) with 957 in *; unfold UPDX in *; lia)). exact G. }
  pose proof (vm_write_data _ _ _ _ p (phys s') (vm_take s l R x p h H Hh) HR Hpt Hother) as H'.
  assert (∀ q, is_pt (phys s') R q ↔ is_pt (phys s) R q) as Hip.
  { intros q. apply is_pt_ext. intros. eapply same_pt_of; eassumption. }
  assert (∀ pd v, pd ∈ R → 0 ≤ v < UVPN → pte_of (phys s') pd v = pte_of (phys s) pd v) as Hptes.
  { intros. eapply same_pte_of; eassumption. }
  split; [|split; [|split]]; auto.
  - apply vm_add_root; auto.
    + apply (vm_x _ _ _ _ H).
    + rewrite Hip. assumption.
    + intros. unfold page_of. rewrite Hptes by assumption. apply Hmap; assumption.
  - intros. apply empty_pte_of; assumption.
Qed.
End setup.

(** * Environment identifiers *)

Lemma NENV_val : NENV = 1024.
Proof. reflexivity. Qed.

Lemma land_not_1023 z : Z.land z (Z.lnot 1023) = z - z mod 1024.
Proof.
  change 1023 with (Z.ones 10). rewrite <- Z.ldiff_land, Z.ldiff_ones_r by lia.
  rewrite Z.shiftl_mul_pow2, Z.shiftr_div_pow2 by lia. pose proof (Z.div_mod z (2 ^ 10)).
  change (2 ^ 10) with 1024 in *. lia.
Qed.

Lemma new_generation_spec id : 0 ≤ id < 2 ^ 31 →
  let g := new_generation id in 0 < g < 2 ^ 31 ∧ g mod 1024 = 0 ∧ g ≠ id - id mod 1024.
Proof.
  intros Hid. unfold new_generation. change (Z.shiftl 1 ENVGENSHIFT) with 4096.
  change (NENV - 1) with 1023. rewrite land_not_1023.
  assert ((id + 4096 < 2 ^ 31 ∧ s32 (id + 4096) = id + 4096) ∨
    (2 ^ 31 ≤ id + 4096 ∧ s32 (id + 4096) = id + 4096 - 2 ^ 32)) as [[? ->]|[? ->]].
  - destruct (Z_lt_le_dec (id + 4096) (2 ^ 31)).
    + left. split; [assumption|]. apply s32_id. lia.
    + right. split; [assumption|]. unfold s32. rewrite Z.mod_small by lia.
      replace (id + 4096 <? 2 ^ 31) with false by (symmetry; apply Z.ltb_ge; lia). reflexivity.
  - cbv zeta. zcases; Z.div_mod_to_equations; lia.
  - cbv zeta. zcases; Z.div_mod_to_equations; lia.
Qed.

Lemma ENVX_mod id : ENVX id = id mod 1024.
Proof. unfold ENVX. change (NENV - 1) with (Z.ones 10). apply Z.land_ones. lia. Qed.

Lemma lor_low g i : g mod 1024 = 0 → 0 ≤ i < 1024 → Z.lor g i = g + i.
Proof.
  intros Hg Hi. pose proof (shiftl_lor_low (g / 1024) i 10 ltac:(lia) ltac:(lia)) as E.
  rewrite Z.shiftl_mul_pow2 in E by lia. change (2 ^ 10) with 1024 in E.
  replace (g / 1024 * 1024) with g in E by (Z.div_mod_to_equations; lia). exact E.
Qed.
