(* ===== verification/EnvSpec.v ===== *)
(** Properties of kern/env.c and kern/sched.c: identifiers, creation and
    destruction of environments, and the scheduler's choice. *)
From S2P Require Import Prelude Mmu Mem Pages PageTable AddrSpace Console KState Env EnvVm.

(** * A kernel with one environment *)

(** Environment 0 runs on CPU 0 in the address space of [demo_mapped]; the
    other slots are free, linked in order.  The kernel's page directory is
    elsewhere. *)
Definition demo_env (i : Z) : Env :=
  MkEnv zero_tf (Some (i + 1)) (if i =? 0 then 4096 else 0) 0 ENV_TYPE_USER
    (if i =? 0 then ENV_RUNNING else ENV_FREE) 1 0 (if i =? 0 then kva_of 0 else 0) (λ _, 0)
    false 0 0 0 0 0 0 (replicate 10 0).
Definition demo_envs : gmap Z Env := list_to_map ((λ i, (i, demo_env i)) <$> seqZ 0 NENV).
Definition demo_cpu : CpuInfo := MkCpuInfo 0 CPU_STARTED (Some 0) KSTACKTOP GD_KD.
Definition demo_trapst : trapst := MkTrapst ∅ ∅ None false ∅ MMIOBASE [].
Definition demo_ks (s : pm) : ks :=
  MkKs (with_roots (kva_of 1) 0 0 s) demo_envs (Some 1) {[0 := demo_cpu]} 0 (Some 0) [] demo_con demo_trapst.

Lemma demo_envs_lookup i : 0 ≤ i < NENV → demo_envs !! i = Some (demo_env i).
Proof. intros Hi. unfold demo_envs. rewrite lookup_seqZ_map, decide_True by exact Hi. reflexivity. Qed.

Lemma demo_envs_inv i e : demo_envs !! i = Some e → 0 ≤ i < NENV ∧ e = demo_env i.
Proof. unfold demo_envs. rewrite lookup_seqZ_map. case_decide; [|discriminate]. intros [= <-]. auto. Qed.

(** * envid2env *)

Lemma envid2env_run (k : ks) (c : CpuInfo) (cur : Z) (ce : Env) (envid : Z) (checkperm : bool) :
  cpus k !! cpunum k = Some c → cpu_env c = Some cur → envs k !! cur = Some ce →
  (∀ i, 0 ≤ i < NENV → is_Some (envs k !! i)) →
  (envid = 0 → envid2env envid checkperm k = Ret (0, Some cur) k) ∧
  (envid ≠ 0 → ∃ e, envs k !! ENVX envid = Some e ∧
    envid2env envid checkperm k
    = Ret (if decide (env_status e ≠ ENV_FREE ∧ env_id e = envid ∧
                (checkperm = true → ENVX envid = cur ∨ env_parent_id e = env_id ce))
           then (0, Some (ENVX envid)) else (- E_BAD_ENV, None)) k).
Proof.
  intros Hc Hcur Hce Hall. unfold envid2env. split; intros He.
  - subst envid. cbn [Z.eqb]. rewrite (bind_Ret _ _ _ _ _ (curenv_eq k c Hc)), Hcur. reflexivity.
  - apply Z.eqb_neq in He. rewrite He. destruct (Hall (ENVX envid)) as [e Ee].
    { rewrite ENVX_mod. apply Z.mod_pos_bound. reflexivity. }
    exists e. split; [exact Ee|]. rewrite (bind_Ret _ _ _ _ _ (env_get_eq k _ e Ee)).
    destruct (Z.eqb_spec (env_status e) ENV_FREE) as [Hs|Hs]; cbn [orb].
    { rewrite decide_False by tauto. reflexivity. }
    destruct (Z.eqb_spec (env_id e) envid) as [Hi|Hi]; cbn [negb].
    2: { rewrite decide_False by tauto. reflexivity. }
    rewrite (bind_Ret _ _ _ _ _ (curenv_eq k c Hc)), Hcur.
    destruct checkperm; cbn [andb].
    2: { mrun. rewrite decide_True; [reflexivity|]. split; [assumption|]. split; [assumption|discriminate]. }
    case_bool_decide as D.
    + unfold curenv_deref. rewrite !bind_assoc, (bind_Ret _ _ _ _ _ (curenv_eq k c Hc)), Hcur. mrun.
      rewrite (bind_Ret _ _ _ _ _ (env_get_eq k _ ce Hce)). mrun.
      destruct (Z.eqb_spec (env_parent_id e) (env_id ce)) as [Hp|Hp]; cbn [negb].
      * rewrite decide_True by tauto. reflexivity.
      * rewrite decide_False; [reflexivity|]. intros (_ & _ & [F| F]); [reflexivity| |contradiction].
        apply D. congruence.
    + mrun. rewrite decide_True; [reflexivity|]. split; [assumption|]. split; [assumption|].
      intros _. left. injection D as E. auto.
Qed.

(** C34. [envid2env] on every branch, leaving the state alone: 0 names the
    current environment; any other id is looked up in the slot its low ten
    bits give, and is refused when that slot is free, belongs to another
    generation, or, if [checkperm] is set, is neither the current environment
    nor a child of it.  So no two ids other than 0 name the same environment:
    an id that was ever given up stays dead. *)
Theorem envid2env_spec (k : ks) (c : CpuInfo) (cur : Z) (ce : Env) (envid : Z) (checkperm : bool) :
  cpus k !! cpunum k = Some c → cpu_env c = Some cur → envs k !! cur = Some ce →
  (∀ i, 0 ≤ i < NENV → is_Some (envs k !! i)) →
  (envid = 0 → envid2env envid checkperm k = Ret (0, Some cur) k) ∧
  (envid ≠ 0 → ∃ e, envs k !! ENVX envid = Some e ∧
    envid2env envid checkperm k
    = Ret (if decide (env_status e ≠ ENV_FREE ∧ env_id e = envid ∧
                (checkperm = true → ENVX envid = cur ∨ env_parent_id e = env_id ce))
           then (0, Some (ENVX envid)) else (- E_BAD_ENV, None)) k) ∧
  (∀ id' chk' i, envid ≠ 0 → id' ≠ 0 → envid2env envid checkperm k = Ret (0, Some i) k →
     envid2env id' chk' k = Ret (0, Some i) k → envid = id').
Proof.
  intros Hc Hcur Hce Hall. destruct (envid2env_run k c cur ce envid checkperm Hc Hcur Hce Hall) as [H0 Hn].
  split; [exact H0|]. split; [exact Hn|]. intros id' chk' i H1 H2 E1 E2.
  destruct (envid2env_run k c cur ce id' chk' Hc Hcur Hce Hall) as [_ Hn'].
  destruct (Hn H1) as (e & He & F1), (Hn' H2) as (e' & He' & F2). rewrite E1 in F1. rewrite E2 in F2.
  apply Ret_value in F1. apply Ret_value in F2.
  case_decide as D1; [|discriminate]. case_decide as D2; [|discriminate].
  destruct D1 as (_ & <- & _), D2 as (_ & <- & _). congruence.
Qed.

Lemma envid2env_spec_witness :
  envid2env 5000 true (demo_ks demo_vm) = Ret (- E_BAD_ENV, None) (demo_ks demo_vm).
Proof.
  destruct (envid2env_spec (demo_ks demo_vm) demo_cpu 0 (demo_env 0) 5000 true) as (_ & H & _).
  - reflexivity.
  - reflexivity.
  - apply (demo_envs_lookup 0). split; reflexivity || discriminate.
  - intros i Hi. exists (demo_env i). apply (demo_envs_lookup i Hi).
  - destruct (H ltac:(discriminate)) as (e & Ee & ->). rewrite decide_False; [reflexivity|].
    pose proof (demo_envs_lookup (ENVX 5000)) as G. change (envs (demo_ks demo_vm)) with demo_envs in Ee. rewrite G in Ee
      by (split; reflexivity || discriminate). injection Ee as <-.
    intros [F _]. apply F. reflexivity.
Defined.

(** * env_alloc *)

(** What env_alloc makes of the slot [i], with directory page [p]. *)
Definition new_env (parent i p : Z) (e : Env) : Env :=
  set_env_ipc_recving false (set_env_upcalls (λ _, 0) (set_env_tf user_tf (set_env_runs 0
    (set_env_status ENV_RUNNABLE (set_env_type ENV_TYPE_USER (set_env_parent_id parent
      (set_env_id (Z.lor (new_generation (env_id e)) i) (set_env_pgdir (kva_of p) e)))))))).

Lemma env_alloc_nomem (k : ks) R x i parent : vm_inv (kpm k) [] R x → env_free_list k = Some i →
  env_alloc parent k = Ret (- E_NO_MEM, None) k.
Proof.
  intros H Hfl. unfold env_alloc. rewrite bind_gets, Hfl. unfold env_setup_vm. rewrite bind_assoc.
  rewrite (bind_Ret _ _ _ _ _ (inpm_Ret _ _ _ _ (page_alloc_none _ _ (vm_pages _ _ _ _ H)))).
  rewrite set_kpm_same. reflexivity.
Qed.

Lemma env_alloc_run (k : ks) (l R : list Z) (x : Z → Z) (i kp parent p : Z) (e : Env) (c : CpuInfo) :
  vm_inv (kpm k) (p :: l) R x → env_free_list k = Some i → envs k !! i = Some e →
  cpus k !! cpunum k = Some c → (∀ j, cpu_env c = Some j → is_Some (envs k !! j)) →
  kern_pgdir (kpm k) = kva_of kp → 0 ≤ kp < npages (kpm k) →
  ∃ h log, pages (kpm k) !! p = Some h ∧
  env_alloc parent k = Ret (0, Some i) (set_klog log (set_env_free_list (env_link e)
    (set_envs (<[i := new_env parent i p e]> (envs k)) (set_kpm (setup_pm p kp (pp_link h) (kpm k)) k)))).
Proof.
  intros H Hfl He Hc Hcur Hkpg Hkp. unfold env_alloc. rewrite bind_gets, Hfl.
  destruct (setup_run k i e l R x p kp H He Hkpg Hkp) as (h & Hh & E).
  rewrite (bind_Ret _ _ _ _ _ E). cbn [Z.ltb Z.compare].
  set (k1 := set_envs _ _) in *.
  assert (envs k1 !! i = Some (set_env_pgdir (kva_of p) e)) as He1 by apply lookup_insert_eq.
  rewrite (bind_Ret _ _ _ _ _ (env_get_eq k1 i _ He1)).
  repeat (erewrite bind_Ret by (apply env_upd_eq; ksimpl; first [exact He1|apply lookup_insert_eq])).
  erewrite bind_Ret by (apply env_get_eq; ksimpl; apply lookup_insert_eq).
  rewrite bind_modify. ksimpl. change (set_env_ipc_recving false _) with (new_env parent i p e).
  match goal with |- context [(curenv_id ≫= _) ?st] => set (k2 := st) end.
  assert (k2 = set_env_free_list (env_link e) (set_envs (<[i := new_env parent i p e]> (envs k))
    (set_kpm (setup_pm p kp (pp_link h) (kpm k)) k))) as Ek2
    by (unfold k2; ksimpl; unfold k1; ksimpl; rewrite !insert_insert_eq; reflexivity).
  clearbody k2. subst k2.
  match goal with |- context [(curenv_id ≫= _) ?st] => destruct (curenv_id_run st c) as [cid Ecid]; [exact Hc| |] end.
  { intros j Hj. ksimpl. apply lookup_insert_is_Some'. auto. }
  rewrite (bind_Ret _ _ _ _ _ Ecid). eexists _, _. split; [exact Hh|reflexivity].
Qed.

(** The new id names the slot and is not the old one. *)
Lemma new_env_id parent i p e : 0 ≤ i < NENV → 0 ≤ env_id e < 2 ^ 31 →
  0 < env_id (new_env parent i p e) < 2 ^ 31 ∧ ENVX (env_id (new_env parent i p e)) = i ∧
  env_id (new_env parent i p e) ≠ env_id e.
Proof.
  intros Hi Hid. destruct (new_generation_spec (env_id e) Hid) as (Hg & Hgm & Hgne). cbv zeta in *.
  rewrite NENV_val in Hi.
  assert (env_id (new_env parent i p e) = new_generation (env_id e) + i) as Eid by (cbn; apply lor_low; assumption).
  assert (ENVX (env_id (new_env parent i p e)) = i) as HX
    by (rewrite ENVX_mod, Eid; Z.div_mod_to_equations; lia).
  split; [Z.div_mod_to_equations; lia|]. split; [exact HX|].
  intros F. apply Hgne. pose proof HX as G. rewrite F, ENVX_mod in G. lia.
Qed.

(** C14. [env_alloc], given a free slot.  Without a free page it returns
    -E_NO_MEM and changes nothing.  Otherwise it returns 0 and the slot of
    the free list: the new id is positive, names that slot and is not the
    slot's previous id, which [envid2env] now refuses; the environment is
    runnable with an initial user-mode trap frame and no handlers; its
    address space is a new page directory, empty below UTOP, equal to the
    kernel's above except at UVPT, where it maps itself for reading; and no
    other address space and no other page has changed. *)
Theorem env_alloc_creates (k : ks) (l R : list Z) (x : Z → Z) (i kp parent : Z) (e : Env) (c : CpuInfo) :
  vm_inv (kpm k) l R x → env_free_list k = Some i → 0 ≤ i < NENV → envs k !! i = Some e →
  0 ≤ env_id e < 2 ^ 31 → cpus k !! cpunum k = Some c →
  (∀ j, cpu_env c = Some j → is_Some (envs k !! j)) →
  kern_pgdir (kpm k) = kva_of kp → 0 ≤ kp < npages (kpm k) → kp ∉ l →
  (∀ j, 0 ≤ j < UPDX → pt_of (phys (kpm k)) kp j = None) →
  match l with
  | [] => env_alloc parent k = Ret (- E_NO_MEM, None) k
  | p :: l' => ∃ k' e', env_alloc parent k = Ret (0, Some i) k' ∧
      envs k' = <[i := e']> (envs k) ∧ env_free_list k' = env_link e ∧
      (0 < env_id e' < 2 ^ 31 ∧ ENVX (env_id e') = i ∧ env_id e' ≠ env_id e) ∧
      (ENVX (env_id e) = i → env_id e ≠ 0 → ∀ chk,
         envid2env (env_id e) chk k' = Ret (- E_BAD_ENV, None) k') ∧
      env_status e' = ENV_RUNNABLE ∧ env_parent_id e' = parent ∧ env_runs e' = 0 ∧
      env_tf e' = user_tf ∧ (∀ f, env_upcalls e' f = 0) ∧ env_ipc_recving e' = false ∧
      env_pgdir e' = kva_of p ∧
      vm_inv (kpm k') l' (p :: R) x ∧
      (∀ v, 0 ≤ v < UVPN → pte_of (phys (kpm k')) p v = None) ∧
      (∀ j, UPDX ≤ j < 1024 → wd (phys (kpm k')) p j
         = if decide (j = PDX UVPT) then Z.lor (Z.lor (p * PGSIZE) PTE_P) PTE_U
           else wd (phys (kpm k)) kp j) ∧
      (∀ pd v, pd ∈ R → 0 ≤ v < UVPN →
         pte_of (phys (kpm k')) pd v = pte_of (phys (kpm k)) pd v) ∧
      (∀ q j, 0 ≤ j < 1024 → q ≠ p → wd (phys (kpm k')) q j = wd (phys (kpm k)) q j)
  end.
Proof.
  intros H Hfl Hi He Hid Hc Hcur Hkpg Hkp Hkl Hke.
  destruct l as [|p l']; [apply (env_alloc_nomem k R x i); assumption|].
  destruct (env_alloc_run k l' R x i kp parent p e c H Hfl He Hc Hcur Hkpg Hkp) as (h & log & Hh & E).
  destruct (setup_vm (kpm k) l' R x p kp h H Hkp Hkl Hke Hh) as (Hvm & Hempty & Hsame & Hother).
  destruct (new_env_id parent i p e Hi Hid) as (Hpos & HX & Hne).
  eexists _, (new_env parent i p e). split; [exact E|].
  split; [reflexivity|]. split; [reflexivity|]. split; [auto|]. split.
  { intros HXe Hz chk. unfold envid2env. apply Z.eqb_neq in Hz. rewrite Hz, HXe.
    erewrite bind_Ret by (apply env_get_eq; ksimpl; apply lookup_insert_eq).
    apply Z.eqb_neq in Hne. rewrite Hne, orb_true_r. reflexivity. }
  repeat (split; [first [reflexivity|assumption]|]).
  split; [|split; assumption]. intros j Hj. ksimpl.
  pose proof (page_inv_free_bound _ _ p (vm_pages _ _ _ _ H) (list_elem_of_here _ _)).
  pose proof (vm_npages _ _ _ _ H). apply not_elem_of_cons in Hkl as [Hkl _].
  rewrite setup_wd by (unfold UPDX in *; assumption || lia). rewrite decide_True by reflexivity. reflexivity.
Qed.

Lemma demo_ks_vm s l R x : vm_inv s l R x → vm_inv (kpm (demo_ks s)) l R x.
Proof. intros H. eapply vm_inv_ext; [exact H|reflexivity..]. Qed.

Lemma demo_cur (s : pm) j : cpu_env demo_cpu = Some j → is_Some (envs (demo_ks s) !! j).
Proof.
  intros [= <-]. exists (demo_env 0). apply (demo_envs_lookup 0). split; reflexivity || discriminate.
Qed.

Lemma demo_slot1 : 0 ≤ 1 < NENV ∧ demo_envs !! 1 = Some (demo_env 1).
Proof.
  split; [split; reflexivity || discriminate|].
  apply (demo_envs_lookup 1). split; reflexivity || discriminate.
Qed.

Lemma env_alloc_creates_witness : ∃ k' e',
  env_alloc 4096 (demo_ks demo_vm) = Ret (0, Some 1) k' ∧ envs k' !! 1 = Some e' ∧
  env_pgdir e' = kva_of 3 ∧ vm_inv (kpm k') [2] [3; 0] none_held.
Proof.
  destruct demo_slot1 as [Hi He].
  destruct (env_alloc_creates (demo_ks demo_vm) [3; 2] [0] none_held 1 1 4096 (demo_env 1) demo_cpu
    (demo_ks_vm _ _ _ _ demo_vm_inv) eq_refl Hi He)
    as (k' & e' & E & Ee & _ & _ & _ & _ & _ & _ & _ & _ & _ & Hp & Hvm & _).
  - split; reflexivity || discriminate.
  - reflexivity.
  - apply demo_cur.
  - reflexivity.
  - split; reflexivity || discriminate.
  - decided.
  - intros j Hj. reflexivity.
  - exists k', e'. split; [exact E|]. split; [rewrite Ee; apply lookup_insert_eq|].
    split; [exact Hp|exact Hvm].
Defined.

(** * env_free *)

(** C15. [env_free] takes an address space away and nothing else.  It always
    returns; the slot is free and at the front of the free list; the
    invariant holds for the remaining address spaces, whose mappings are the
    old ones and whose data pages keep their contents; every page has lost
    exactly the references the dead address space had (mappings, page tables
    and directory), and a page whose last reference that was is free.  When
    the environment was the current one the processor is no longer using its
    page directory. *)
Theorem env_free_releases (k : ks) (l R1 R2 : list Z) (x : Z → Z) (e pd : Z) (E : Env) (c : CpuInfo) :
  cpus k !! cpunum k = Some c → (∀ i, cpu_env c = Some i → is_Some (envs k !! i)) →
  envs k !! e = Some E → env_pgdir E = kva_of pd →
  KERNBASE ≤ kern_pgdir (kpm k) < 2 ^ 32 → vm_inv (kpm k) l (R1 ++ pd :: R2) x →
  ∃ k' l', env_free e k = Ret tt k' ∧
    envs k' = <[e := set_env_link (env_free_list k) (set_env_status ENV_FREE (set_env_pgdir 0 E))]> (envs k) ∧
    env_free_list k' = Some e ∧
    vm_inv (kpm k') l' (R1 ++ R2) x ∧ l ⊆ l' ∧
    (∀ pd' v, pd' ∈ R1 ++ R2 → 0 ≤ v < UVPN →
       pte_of (phys (kpm k')) pd' v = pte_of (phys (kpm k)) pd' v) ∧
    data_same (phys (kpm k)) (phys (kpm k')) (R1 ++ pd :: R2) [] ∧
    (∀ q j', pages (kpm k') !! q = Some j' → ∃ j, pages (kpm k) !! q = Some j ∧
       pp_ref j' = pp_ref j - (refs (phys (kpm k)) (R1 ++ pd :: R2) q
                               - refs (phys (kpm k')) (R1 ++ R2) q) ∧
       (pp_ref j ≠ 0 → pp_ref j' = 0 → q ∈ l')) ∧
    (cpu_env c = Some e → cr3 (kpm k') = kern_pgdir (kpm k) - KERNBASE).
Proof.
  intros Hc Hcur He Hpg Hkp H.
  destruct (env_free_run k l R1 R2 x e E pd c Hc Hcur He Hpg Hkp H)
    as (msg & s1 & l1 & j & F & Hempty & Hj & Ed & Hvm & Erun).
  set (k1 := free_start e c msg k) in *. cbv zeta in *.
  assert (phys (kpm k1) = phys (kpm k) ∧ pages (kpm k1) = pages (kpm k)) as [Ep Eg]
    by (unfold k1, free_start; case_bool_decide; auto).
  destruct (NoDup_mid _ _ _ (vm_NoDup _ _ _ _ H)) as [_ Hnin].
  destruct (vm_drop_root s1 l1 R1 R2 x pd (fr_inv _ _ _ _ _ _ _ _ F) Hempty) as [Hheld Hrefs].
  assert (1 ≤ pp_ref j < 2 ^ 16) as Hrj.
  { pose proof (vm_ref _ _ _ _ Hheld _ _ Hj) as G. pose proof (refs_nonneg (phys s1) (R1 ++ R2) pd).
    pose proof (vm_x _ _ _ _ H pd). unfold held in G. rewrite bool_decide_eq_true_2 in G by reflexivity.
    pose proof (pi_ref _ _ (vm_pages _ _ _ _ Hheld) _ _ Hj). cbn [Z.b2z] in G. lia. }
  pose proof (fr_rel _ _ _ _ _ _ _ _ F) as Rl.
  eexists _, _. split; [exact Erun|]. ksimpl. split; [reflexivity|]. split; [reflexivity|].
  split; [exact Hvm|]. split; [pose proof (rl_free _ _ _ _ _ _ Rl); pose proof (decref_list_sub pd j l1); set_solver|].
  rewrite !decref_phys. split; [|split; [|split]].
  - intros pd' v Hp' Hv. rewrite (fr_pte _ _ _ _ _ _ _ _ F) by (auto using elem_of_mid).
    rewrite bool_decide_eq_false_2 by congruence. cbn [andb]. rewrite Ep. reflexivity.
  - rewrite <- Ep. apply (fr_data _ _ _ _ _ _ _ _ F).
  - intros q j' Hj'. destruct (decref_lookup pd j s1 q j' Hj Hrj Hj') as (j1 & Hj1 & E1).
    destruct (rl_ref _ _ _ _ _ _ Rl q j1 Hj1) as (j0 & Hj0 & E0). rewrite Eg in Hj0.
    exists j0. split; [assumption|]. split.
    + rewrite Hrefs, (bool_decide_ext (q = pd) (pd = q)) by (split; congruence). rewrite Ep in E0. lia.
    + intros Hn Hz. destruct (Z.eq_dec (pp_ref j1) 0) as [Z1|Z1].
      * pose proof (decref_list_sub pd j l1). rewrite <- Eg in Hj0.
        pose proof (rl_zero _ _ _ _ _ _ Rl q j0 j1 Hj0 Hj1 Hn Z1). set_solver.
      * apply (decref_zero pd j s1 l1 q j1 j' Hj Hrj Hj1 Hj' Z1 Hz).
  - intros Hce. rewrite (proj2 (decref_same_env pd j s1)).
    rewrite (proj2 (rl_kern _ _ _ _ _ _ Rl)). unfold k1, free_start.
    rewrite bool_decide_eq_true_2 by assumption. reflexivity.
Qed.

Lemma env_free_releases_witness : ∃ k' l',
  env_free 0 (demo_ks demo_mapped) = Ret tt k' ∧ vm_inv (kpm k') l' [] none_held ∧
  cr3 (kpm k') = 1 * PGSIZE.
Proof.
  destruct demo_mapped_inv as [l H].
  destruct (env_free_releases (demo_ks demo_mapped) l [] [] none_held 0 0 (demo_env 0) demo_cpu)
    as (k' & l' & E & _ & _ & Hvm & _ & _ & _ & _ & Hcr).
  - reflexivity.
  - apply demo_cur.
  - apply (demo_envs_lookup 0). split; reflexivity || discriminate.
  - reflexivity.
  - split; reflexivity || discriminate.
  - apply demo_ks_vm. exact H.
  - exists k', l'. split; [exact E|]. split; [exact Hvm|]. rewrite (Hcr eq_refl). reflexivity.
Defined.

(** * The scheduler *)

Section sched.
Implicit Types (k : ks).

(** What sched_yield relies on: this CPU exists and holds the lock, every
    slot exists, the current environment is one, and the page directories it
    may load are kernel addresses. *)
Record sched_ok k (c : CpuInfo) : Prop := {
  so_cpu : cpus k !! cpunum k = Some c;
  so_lock : klock k = Some (cpunum k);
  so_envs : ∀ i, 0 ≤ i < NENV → is_Some (envs k !! i);
  so_cur : ∀ i, cpu_env c = Some i → 0 ≤ i < NENV;
  so_pgdir : ∀ i e, 0 ≤ i < NENV → envs k !! i = Some e → env_status e = ENV_RUNNABLE →
    KERNBASE ≤ env_pgdir e < 2 ^ 32;
  so_kern : KERNBASE ≤ kern_pgdir (kpm k) < 2 ^ 32
}.

Definition runnable k (i : Z) : Prop := ∃ e, envs k !! i = Some e ∧ env_status e = ENV_RUNNABLE.

(** The parts of the environments that a context switch does not change. *)
Definition same_env (x y : Env) : Prop :=
  env_id x = env_id y ∧ env_pgdir x = env_pgdir y ∧ env_tf x = env_tf y.
Definition same_envs (m m' : gmap Z Env) : Prop := ∀ i, option_Forall2 same_env (m !! i) (m' !! i).

#[export] Instance same_env_equiv : Equivalence same_env.
Proof. unfold same_env. split; repeat intro; intuition congruence. Qed.

#[export] Instance same_envs_equiv : Equivalence same_envs.
Proof.
  split.
  - intros m i. reflexivity.
  - intros m m' H i. symmetry. apply H.
  - intros m m' m2 H1 H2 i. etransitivity; [apply H1|apply H2].
Qed.

Lemma same_envs_insert (m : gmap Z Env) i x y : m !! i = Some x → same_env x y → same_envs m (<[i := y]> m).
Proof.
  intros Hx Hs j. rewrite lookup_insert. case_decide as D; [|reflexivity].
  subst j. rewrite Hx. constructor. exact Hs.
Qed.

(** [switched k c e k']: the effects of running environment [e]. *)
Record switched k (c : CpuInfo) (e : Z) k' : Prop := {
  sw_cpu : cpus k' !! cpunum k = Some (set_cpu_env (Some e) c);
  sw_others : ∀ n, n ≠ cpunum k → cpus k' !! n = cpus k !! n;
  sw_lock : klock k' = None;
  sw_status : ∀ i x x', envs k !! i = Some x → envs k' !! i = Some x' →
    env_status x' = if decide (cpu_env c = Some e) then env_status x
      else if decide (i = e) then ENV_RUNNING
      else if decide (cpu_env c = Some i ∧ env_status x = ENV_RUNNING) then ENV_RUNNABLE
      else env_status x;
  sw_cr3 : cpu_env c ≠ Some e → ∀ x, envs k !! e = Some x → cr3 (kpm k') = env_pgdir x - KERNBASE;
  sw_same : same_envs (envs k) (envs k');
  sw_kern : kern_pgdir (kpm k') = kern_pgdir (kpm k) ∧ cpunum k' = cpunum k
}.

Lemma PADDR_kern (s : pm) (a : Z) : KERNBASE ≤ a < 2 ^ 32 → PADDR a s = Ret (a - KERNBASE) s.
Proof.
  intros H. unfold PADDR. rewrite w32_id by (unfold u32_range, KERNBASE in *; lia).
  destruct (Z.ltb_spec a KERNBASE); [lia|reflexivity].
Qed.

(** The end of env_run: drop the lock, return to user mode. *)
Lemma run_tail k x c e : klock k = Some (cpunum k) → cpus k !! cpunum k = Some c →
  cpu_env c = Some e → envs k !! e = Some x →
  (unlock_kernel ;; env_pop_tf e) k
  = Stop (SRun e) (set_envs (<[e := set_env_cpunum (cpunum k) x]> (envs k)) (set_klock None k)).
Proof.
  intros Hl Hc Hce Hx. rewrite (bind_Ret _ _ _ _ _ (unlock_run k Hl)). unfold env_pop_tf, curenv_deref.
  rewrite bind_assoc. erewrite bind_Ret by (apply curenv_eq; ksimpl; exact Hc). rewrite Hce.
  mrun. ksimpl. erewrite bind_Ret by (apply env_upd_eq; ksimpl; exact Hx). reflexivity.
Qed.

(** The beginning of a context switch: the old environment, if it is running,
    becomes runnable. *)
Definition preempted k (c : CpuInfo) : ks :=
  match cpu_env c with
  | Some i => match envs k !! i with
     | Some y => if env_status y =? ENV_RUNNING
                 then set_envs (<[i := set_env_status ENV_RUNNABLE y]> (envs k)) k else k
     | None => k end
  | None => k
  end.

Lemma preempt_run k c : (∀ i, cpu_env c = Some i → is_Some (envs k !! i)) →
  match cpu_env c with
  | Some i => x ← env_get i;
     when (env_status x =? ENV_RUNNING) (env_upd i (set_env_status ENV_RUNNABLE))
  | None => mret tt
  end k = Ret tt (preempted k c).
Proof.
  intros Hcur. unfold preempted. destruct (cpu_env c) as [i|] eqn:Ei; [|reflexivity].
  destruct (Hcur i eq_refl) as [y Hy]. rewrite (bind_Ret _ _ _ _ _ (env_get_eq k i y Hy)), Hy.
  destruct (env_status y =? ENV_RUNNING); [|reflexivity]. cbn [when].
  rewrite (env_upd_eq k i y _ Hy). reflexivity.
Qed.

Lemma preempted_other k c e x : cpu_env c ≠ Some e → envs k !! e = Some x →
  cpus (preempted k c) = cpus k ∧ cpunum (preempted k c) = cpunum k ∧
  klock (preempted k c) = klock k ∧ envs (preempted k c) !! e = Some x ∧ kpm (preempted k c) = kpm k.
Proof.
  intros D Hx. unfold preempted. destruct (cpu_env c) as [i|]; [|auto].
  destruct (envs k !! i); [|auto]. destruct (_ =? _); [|auto]. ksimpl.
  do 3 (split; [reflexivity|]). split; [|reflexivity].
  rewrite lookup_insert_ne by congruence. assumption.
Qed.

Lemma preempted_same k c : same_envs (envs k) (envs (preempted k c)).
Proof.
  unfold preempted. destruct (cpu_env c) as [i|]; [|reflexivity].
  destruct (envs k !! i) as [y|] eqn:Ey; [|reflexivity].
  destruct (_ =? _); [|reflexivity]. apply (same_envs_insert _ i y); [exact Ey|repeat split].
Qed.

Lemma preempted_status k c i y y' : envs k !! i = Some y → envs (preempted k c) !! i = Some y' →
  env_status y' = if decide (cpu_env c = Some i ∧ env_status y = ENV_RUNNING)
                  then ENV_RUNNABLE else env_status y.
Proof.
  intros Hy. unfold preempted.
  destruct (cpu_env c) as [j|]; [|rewrite decide_False by (intros [? _]; congruence); congruence].
  destruct (envs k !! j) as [z|] eqn:Ez.
  2: { rewrite decide_False by (intros [? _]; congruence). congruence. }
  destruct (Z.eqb_spec (env_status z) ENV_RUNNING) as [Er|Er].
  - ksimpl. rewrite lookup_insert. case_decide as Dj.
    + subst j. intros [= <-]. assert (z = y) as -> by congruence. rewrite decide_True by auto. reflexivity.
    + rewrite decide_False by (intros [? _]; congruence). congruence.
  - rewrite decide_False; [congruence|]. intros [[= ->] ?]. congruence.
Qed.

Lemma switched_env_run k c e x : cpus k !! cpunum k = Some c → klock k = Some (cpunum k) →
  (∀ i, cpu_env c = Some i → is_Some (envs k !! i)) →
  envs k !! e = Some x → (cpu_env c ≠ Some e → KERNBASE ≤ env_pgdir x < 2 ^ 32) →
  ∃ k', env_run e k = Stop (SRun e) k' ∧ switched k c e k'.
Proof.
  intros Hc Hl Hcur Hx Hpg. unfold env_run. rewrite (bind_Ret _ _ _ _ _ (curenv_eq k c Hc)).
  case_bool_decide as Hce; cbn [when]; [|].
  - (* a context switch *)
    specialize (Hpg Hce). destruct (preempted_other k c e x Hce Hx) as (Ec & En & El & Ex & Ekpm).
    pose proof (preempted_status k c) as Hst.
    rewrite !bind_assoc, (bind_Ret _ _ _ _ _ (preempt_run k c Hcur)).
    set (k0 := preempted k c) in *. assert (cpus k0 !! cpunum k0 = Some c) as Hc0 by congruence.
    rewrite !bind_assoc, (bind_Ret _ _ _ _ _ (set_curenv_eq k0 c (Some e) Hc0)).
    rewrite !bind_assoc. erewrite bind_Ret by (apply env_upd_eq; ksimpl; exact Ex). ksimpl.
    rewrite !bind_assoc. erewrite bind_Ret by (apply env_upd_eq; ksimpl; apply lookup_insert_eq). ksimpl.
    rewrite !bind_assoc. erewrite bind_Ret by (apply env_get_eq; ksimpl; apply lookup_insert_eq). ksimpl.
    rewrite !bind_assoc. erewrite bind_Ret by (apply inpm_Ret, PADDR_kern; ksimpl; exact Hpg). ksimpl.
    unfold lcr3. erewrite bind_Ret by (apply inpm_Ret; reflexivity). ksimpl.
    eexists. split.
    { eapply run_tail; ksimpl; [rewrite El, Hl, En; reflexivity|apply lookup_insert_eq|reflexivity|apply lookup_insert_eq]. }
    split; ksimpl.
    + rewrite En. apply lookup_insert_eq.
    + intros n Hn. rewrite Ec, En. apply lookup_insert_ne. congruence.
    + reflexivity.
    + intros i y y' Hy. rewrite !insert_insert_eq, lookup_insert.
      rewrite (decide_False (P := cpu_env c = Some e)) by assumption.
      case_decide as Di; [subst i; intros [= <-]; rewrite decide_True by reflexivity; reflexivity|].
      rewrite (decide_False (P := i = e)) by congruence. apply Hst. assumption.
    + intros _ y Hy. assert (y = x) as -> by congruence. reflexivity.
    + rewrite !insert_insert_eq. rewrite (preempted_same k c). apply (same_envs_insert _ e x); [exact Ex|repeat split].
    + rewrite Ekpm. auto.
  - (* the same environment goes on *)
    mrun. rewrite (run_tail k x c e Hl Hc Hce Hx). eexists. split; [reflexivity|]. split; ksimpl.
    + rewrite Hc. f_equal. destruct c. cbn in *. subst. reflexivity.
    + auto.
    + reflexivity.
    + intros i y y' Hy. rewrite lookup_insert, (decide_True (P := cpu_env c = Some e)) by assumption.
      case_decide as Di; [subst i; intros [= <-]; cbn; congruence|congruence].
    + contradiction.
    + apply (same_envs_insert _ e x); [exact Hx|repeat split].
    + auto.
Qed.
#[export] Instance runnable_dec k i : Decision (runnable k i).
Proof.
  unfold runnable. destruct (envs k !! i) as [e|]; [|right; intros (? & ? & _); discriminate].
  destruct (decide (env_status e = ENV_RUNNABLE)); [left; eauto|].
  right. intros (? & [= <-] & ?). contradiction.
Qed.

(** Where sched_yield starts its search. *)
Definition sched_offset k (c : CpuInfo) : Z :=
  match cpu_env c with
  | Some i => match envs k !! i with Some e => ENVX (env_id e) | None => 0 end
  | None => 0
  end.

Lemma sched_try_idle k c off i : sched_ok k c → ¬ runnable k ((i + off) mod NENV) →
  sched_try off i k = Ret tt k.
Proof.
  intros H Hn. unfold sched_try.
  destruct (so_envs _ _ H ((i + off) mod NENV)) as [e He]; [apply Z.mod_pos_bound; reflexivity|].
  rewrite (bind_Ret _ _ _ _ _ (env_get_eq k _ e He)).
  destruct (Z.eqb_spec (env_status e) ENV_RUNNABLE); [|reflexivity].
  exfalso. apply Hn. exists e. auto.
Qed.

Lemma sched_try_run k c off i : sched_ok k c → runnable k ((i + off) mod NENV) →
  let id := (i + off) mod NENV in
  ∃ k', sched_try off i k = Stop (SRun id) k' ∧ switched k c id k'.
Proof.
  intros H (e & He & Hs) id. unfold sched_try. fold id in He. fold id.
  rewrite (bind_Ret _ _ _ _ _ (env_get_eq k _ e He)).
  rewrite (proj2 (Z.eqb_eq _ _) Hs). cbn [when].
  apply (switched_env_run k c id e); try apply H; try assumption.
  - intros j Hj. apply (so_envs _ _ H), (so_cur _ _ H), Hj.
  - intros _. apply (so_pgdir _ _ H id); auto. apply Z.mod_pos_bound. reflexivity.
Qed.

Lemma sched_scan_some k n : ∀ i, (∀ j, i ≤ j < i + Z.of_nat n → is_Some (envs k !! j)) →
  ∃ r, sched_scan n i k = Ret r k ∧ i ≤ r ≤ i + Z.of_nat n.
Proof.
  induction n as [|n IH]; intros i H; cbn [sched_scan].
  - exists i. split; [reflexivity|lia].
  - destruct (H i ltac:(lia)) as [e He]. rewrite (bind_Ret _ _ _ _ _ (env_get_eq k _ e He)).
    destruct (_ || _); [exists i; split; [reflexivity|lia]|].
    destruct (IH (i + 1)) as (r & E & Hr); [intros; apply H; lia|]. exists r. split; [exact E|lia].
Qed.

(** sched_halt halts or enters the monitor; it does not run anything. *)
Lemma sched_halt_stops k c : sched_ok k c → ∃ w k', sched_halt k = Stop w k' ∧
  (w = SMonitor ∨ w = SHalt ∧ klock k' = None ∧
    cpus k' !! cpunum k = Some (set_cpu_status CPU_HALTED (set_cpu_env None c)) ∧
    envs k' = envs k ∧ cr3 (kpm k') = kern_pgdir (kpm k) - KERNBASE).
Proof.
  intros H. unfold sched_halt.
  destruct (sched_scan_some k (Z.to_nat NENV) 0) as (r & E & _).
  { intros j Hj. apply (so_envs _ _ H). rewrite Z2Nat.id in Hj by discriminate. lia. }
  rewrite (bind_Ret _ _ _ _ _ E). destruct (r =? NENV).
  - unfold cprintf. mrun. eexists _, _. split; [reflexivity|auto].
  - rewrite (bind_Ret _ _ _ _ _ (set_curenv_eq k c None (so_cpu _ _ H))). mrun.
    erewrite bind_Ret by (apply inpm_Ret, PADDR_kern; ksimpl; apply (so_kern _ _ H)). ksimpl.
    unfold lcr3. erewrite bind_Ret by (apply inpm_Ret; reflexivity). ksimpl.
    erewrite bind_Ret by (apply thiscpu_upd_eq; ksimpl; apply lookup_insert_eq). ksimpl.
    erewrite bind_Ret.
    2: { apply unlock_run. ksimpl. apply (so_lock _ _ H). }
    eexists _, _. split; [reflexivity|]. right. ksimpl. split; [reflexivity|]. split; [reflexivity|].
    rewrite insert_insert_eq. split; [apply lookup_insert_eq|]. auto.
Qed.
(** The part of sched_yield before its search. *)
Lemma sched_offset_run k c : sched_ok k c →
  match cpu_env c with
  | Some i => e ← env_get i; mret (ENVX (env_id e)) | None => mret 0 end k
  = Ret (sched_offset k c) k.
Proof.
  intros H. unfold sched_offset. destruct (cpu_env c) as [i|] eqn:Ei; [|reflexivity].
  destruct (so_envs _ _ H i (so_cur _ _ H i Ei)) as [e He].
  rewrite (bind_Ret _ _ _ _ _ (env_get_eq k i e He)), He. reflexivity.
Qed.

(** The first runnable environment of the search is run. *)
Lemma sched_first k c m : sched_ok k c → 0 ≤ m < NENV →
  let slot n := (n + sched_offset k c) mod NENV in
  runnable k (slot m) → (∀ j, 0 ≤ j < m → ¬ runnable k (slot j)) →
  ∃ k', sched_yield k = Stop (SRun (slot m)) k' ∧ switched k c (slot m) k'.
Proof.
  intros H Hm slot Hr Hb. unfold sched_yield.
  rewrite (bind_Ret _ _ _ _ _ (curenv_eq k c (so_cpu _ _ H))), (bind_Ret _ _ _ _ _ (sched_offset_run k c H)).
  destruct (sched_try_run k c (sched_offset k c) m H Hr) as (k' & E & Hsw).
  exists k'. split; [|exact Hsw].
  rewrite (bind_Stop _ _ _ (SRun (slot m)) k'); [reflexivity|].
  apply (for_range_first _ _ _ (Z.to_nat NENV) _ _ _ m).
  - rewrite Z2Nat.id by discriminate. exact Hm.
  - intros j Hj. replace (0 + j * 1) with j by lia. apply (sched_try_idle k c _ _ H), (Hb j Hj).
  - replace (0 + m * 1) with m by lia. exact E.
Qed.
(** An environment that is the first of the search or the only runnable one
    is run. *)
Lemma sched_pick k c i : sched_ok k c → 0 ≤ i < NENV → runnable k i →
  sched_offset k c = i ∨ (∀ j, j ≠ i → ¬ runnable k j) →
  ∃ k', sched_yield k = Stop (SRun i) k' ∧ switched k c i k'.
Proof.
  intros So Hi Hr Hoff. set (m := (i - sched_offset k c) mod NENV).
  assert ((m + sched_offset k c) mod NENV = i) as Em.
  { unfold m. rewrite NENV_val in *. rewrite Z.add_mod_idemp_l, Z.sub_add by lia. apply Z.mod_small. lia. }
  pose proof (Z.mod_pos_bound (i - sched_offset k c) NENV ltac:(reflexivity)) as Hm. fold m in Hm.
  destruct (sched_first k c m So Hm) as (k' & E & Sw).
  - rewrite Em. exact Hr.
  - intros j Hj. destruct Hoff as [Hoff|Hoff].
    + exfalso. unfold m in Hj. rewrite Hoff, Z.sub_diag, Z.mod_0_l in Hj by discriminate. lia.
    + apply Hoff. intros Eq. rewrite <- Em in Eq. rewrite NENV_val in *.
      assert (j mod 1024 = m mod 1024) as Ej.
      { replace j with (j + sched_offset k c - sched_offset k c) by lia.
        rewrite Zminus_mod, Eq, <- Zminus_mod. f_equal. lia. }
      rewrite !Z.mod_small in Ej by lia. lia.
  - rewrite Em in E, Sw. eauto.
Qed.

(** Running the current environment again changes no status. *)
Lemma switched_self k c i k' : switched k c i k' → cpu_env c = Some i → ∀ j,
  option_Forall2 (λ x y, env_status x = env_status y ∧ env_pgdir x = env_pgdir y) (envs k !! j) (envs k' !! j).
Proof.
  intros Sw Hc j. pose proof (sw_same _ _ _ _ Sw j) as F.
  destruct (envs k !! j) as [x|] eqn:Ex, (envs k' !! j) as [y|] eqn:Ey; inversion F as [? ? (_ & Ep & _)|]; subst; [|constructor].
  constructor. rewrite (sw_status _ _ _ _ Sw j x y Ex Ey), decide_True by assumption. auto.
Qed.
End sched.

(** C17. [sched_yield] never returns, and what it runs is the first runnable
    environment in circular order of slots from the current environment's
    own slot; if there is none, the current environment if it is still
    running; and if not even that, the CPU drops its environment, loads the
    kernel's page directory and the kernel lock, and halts, or the monitor
    starts.  So an environment whose status is ENV_RUNNING and that is not
    the current one (it runs on another CPU) is never chosen. *)
Theorem sched_yield_picks (k : ks) (c : CpuInfo) :
  sched_ok k c →
  let slot n := (n + sched_offset k c) mod NENV in
  (∃ n k', 0 ≤ n < NENV ∧ runnable k (slot n) ∧ (∀ m, 0 ≤ m < n → ¬ runnable k (slot m)) ∧
     sched_yield k = Stop (SRun (slot n)) k' ∧ switched k c (slot n) k') ∨
  ((∀ i, 0 ≤ i < NENV → ¬ runnable k i) ∧
   ((∃ i e k', cpu_env c = Some i ∧ envs k !! i = Some e ∧ env_status e = ENV_RUNNING ∧
       sched_yield k = Stop (SRun i) k' ∧ switched k c i k') ∨
    ∃ w k', sched_yield k = Stop w k' ∧
      (w = SMonitor ∨ w = SHalt ∧ klock k' = None ∧
        cpus k' !! cpunum k = Some (set_cpu_status CPU_HALTED (set_cpu_env None c)) ∧
        envs k' = envs k ∧ cr3 (kpm k') = kern_pgdir (kpm k) - KERNBASE))).
Proof.
  intros H slot.
  destruct (@first_such (λ n, runnable k (slot n)) (λ n, runnable_dec k (slot n)) (Z.to_nat NENV)) as [(m & Hm & Hr & Hb)|Hn].
  - left. destruct (sched_first k c m H Hm Hr Hb) as (k' & E & Hsw). exists m, k'. auto.
  - right. assert (∀ i, 0 ≤ i < NENV → ¬ runnable k i) as Hnone.
    { intros i Hi. rewrite NENV_val in *. change (Z.of_nat (Z.to_nat 1024)) with 1024 in Hn.
      pose proof (Z.mod_pos_bound (i - sched_offset k c) 1024 ltac:(lia)) as Hj.
      specialize (Hn _ Hj). unfold slot in Hn. rewrite NENV_val in Hn.
      replace (((i - sched_offset k c) mod 1024 + sched_offset k c) mod 1024) with i in Hn; [exact Hn|].
      rewrite Z.add_mod_idemp_l by lia. rewrite Z.sub_add. symmetry. apply Z.mod_small. lia. }
    split; [exact Hnone|]. unfold sched_yield.
    rewrite (bind_Ret _ _ _ _ _ (curenv_eq k c (so_cpu _ _ H))), (bind_Ret _ _ _ _ _ (sched_offset_run k c H)).
    rewrite (bind_Ret _ _ _ tt k).
    2: { apply for_range_idle. intros j Hj. replace (0 + j * 1) with j by lia.
         apply (sched_try_idle k c _ _ H), (Hn j Hj). }
    destruct (sched_halt_stops k c H) as (w & kh & Eh & Hh).
    destruct (cpu_env c) as [i|] eqn:Ei; [|right; exists w, kh; mrun; auto].
    destruct (so_envs _ _ H i (so_cur _ _ H i Ei)) as [e He].
    rewrite bind_assoc, (bind_Ret _ _ _ _ _ (env_get_eq k i e He)).
    destruct (Z.eqb_spec (env_status e) ENV_RUNNING) as [Es|Es].
    + left. destruct (switched_env_run k c i e (so_cpu _ _ H) (so_lock _ _ H)) as (k' & E & Hsw);
        [intros j Hj; apply (so_envs _ _ H), (so_cur _ _ H), Hj|exact He|congruence|].
      exists i, e, k'. split; [reflexivity|]. split; [exact He|]. split; [exact Es|].
      split; [|exact Hsw]. cbn [when]. rewrite (bind_Stop _ _ _ _ _ E). reflexivity.
    + right. exists w, kh. mrun. auto.
Qed.

(** Environment 5 is runnable. *)
Definition demo_ready : ks :=
  set_envs (<[5 := set_env_status ENV_RUNNABLE (set_env_pgdir (kva_of 0) (demo_env 5))]> demo_envs)
    (demo_ks demo_mapped).

Lemma demo_ready_lookup i e : 0 ≤ i < NENV → envs demo_ready !! i = Some e →
  (i = 5 ∧ env_pgdir e = kva_of 0) ∨ env_status e ≠ ENV_RUNNABLE.
Proof.
  intros Hi. unfold demo_ready. ksimpl. rewrite lookup_insert. case_decide.
  - intros [= <-]. left. auto.
  - rewrite (demo_envs_lookup i Hi). intros [= <-]. right. cbn. destruct (Z.eqb_spec i 0); discriminate.
Qed.

Lemma demo_sched_ok : sched_ok demo_ready demo_cpu.
Proof.
  split.
  - reflexivity.
  - reflexivity.
  - intros i Hi. unfold demo_ready. ksimpl. apply lookup_insert_is_Some'. right.
    exists (demo_env i). apply (demo_envs_lookup i Hi).
  - intros i [= <-]. split; reflexivity || discriminate.
  - intros i e Hi He Hs. destruct (demo_ready_lookup i e Hi He) as [[_ ->]|]; [|contradiction].
    split; reflexivity || discriminate.
  - split; reflexivity || discriminate.
Qed.

Lemma sched_yield_picks_witness : ∃ k', sched_yield demo_ready = Stop (SRun 5) k'.
Proof.
  destruct (sched_yield_picks demo_ready demo_cpu demo_sched_ok)
    as [(n & k' & _ & (e & He & Hs) & _ & E & _)|[Hn _]].
  - exists k'. destruct (demo_ready_lookup _ e ltac:(apply Z.mod_pos_bound; reflexivity) He)
      as [[H5 _]|]; [|contradiction]. rewrite H5 in E. exact E.
  - exfalso. apply (Hn 5); [split; reflexivity || discriminate|].
    eexists. split; [apply lookup_insert_eq|reflexivity].
Defined.
