(* ===== verification/Spinlock.v ===== *)
(** The spin lock (kern/spinlock.c) with every CPU interleaved at each access
    to the lock: mutual exclusion, agreement with the atomic lock of [KState],
    and freedom from deadlock. *)
From stdpp Require Import functions.
From S2P Require Import Prelude Mmu Pages AddrSpace KState EnvSpec.

(** * The lock and the CPUs *)

Record spinlock := MkSpinlock {
  locked : Z;
  lk_name : string;
  lk_cpu : option Z;          (* index in cpus[]; None is the null pointer *)
  lk_pcs : list Z
}.
Definition set_locked v l := MkSpinlock v (lk_name l) (lk_cpu l) (lk_pcs l).
Definition set_lk_cpu v l := MkSpinlock (locked l) (lk_name l) v (lk_pcs l).
Definition set_lk_pcs v l := MkSpinlock (locked l) (lk_name l) (lk_cpu l) v.

Definition spin_initlock (name : string) (l : spinlock) : spinlock :=
  MkSpinlock 0 name None (lk_pcs l).

(** The static initialiser of [kernel_lock]. *)
Definition kernel_lock : spinlock := MkSpinlock 0 "kernel_lock" None (replicate 10 0).

(** Where a CPU is in the code of the lock.  Each constructor stands before
    one access to the lock's memory. *)
Inductive place :=
| Outside                     (* not in spin_lock or spin_unlock *)
| LHoldingLocked              (* spin_lock, holding: lock->locked *)
| LHoldingCpu                 (* spin_lock, holding: lock->cpu == thiscpu *)
| LXchg                       (* spin_lock: xchg(&lk->locked, 1) *)
| LSetCpu                     (* spin_lock: lk->cpu = thiscpu *)
| LSetPcs                     (* spin_lock: get_caller_pcs(lk->pcs) *)
| UHoldingLocked              (* spin_unlock, holding: lock->locked *)
| UHoldingCpu                 (* spin_unlock, holding: lock->cpu == thiscpu *)
| UReport                     (* spin_unlock: the message with lk->cpu->cpu_id *)
| UClearPcs                   (* spin_unlock: lk->pcs[0] = 0 *)
| UClearCpu                   (* spin_unlock: lk->cpu = 0 *)
| UXchg                       (* spin_unlock: xchg(&lk->locked, 0) *)
| Dead (w : stop).            (* it has panicked *)

#[export] Instance place_eq_dec : EqDecision place.
Proof. solve_decision. Defined.

Record smp := MkSmp { lk : spinlock; at_ : Z → place }.

(** [get_caller_pcs]: at most ten frames of the chain of saved %ebp, read
    with [rd], up to the first one that is not in kernel space. *)
Fixpoint get_caller_pcs (n : nat) (rd : Z → Z) (ebp : Z) : list Z :=
  match n with
  | O => []
  | S n' => if (ebp =? 0) || (ebp <? ULIM) then replicate n 0
            else rd (w32 (ebp + 4)) :: get_caller_pcs n' rd (rd ebp)
  end.

Section lock.
(** The kernel memory that each CPU reads through its frame pointer, and that
    pointer's value in spin_lock. *)
Context (frames : Z → Z → Z) (ebp : Z → Z).

Definition goto (c : Z) (p : place) (s : smp) : smp := MkSmp (lk s) (<[c := p]> (at_ s)).
Definition store (f : spinlock → spinlock) (s : smp) : smp := MkSmp (f (lk s)) (at_ s).

(** The next access of CPU [c]. *)
Definition go (c : Z) (s : smp) : smp :=
  match at_ s c with
  | Outside | Dead _ => s
  | LHoldingLocked => goto c (if ctrue (locked (lk s)) then LHoldingCpu else LXchg) s
  | LHoldingCpu =>
      goto c (if bool_decide (lk_cpu (lk s) = Some c)
              then Dead (SPanic "CPU %d cannot acquire %s: already holding") else LXchg) s
  | LXchg =>
      let old := locked (lk s) in
      goto c (if negb (old =? 0) then LXchg else LSetCpu) (store (set_locked 1) s)
  | LSetCpu => goto c LSetPcs (store (set_lk_cpu (Some c)) s)
  | LSetPcs => goto c Outside (store (set_lk_pcs (get_caller_pcs 10 (frames c) (ebp c))) s)
  | UHoldingLocked => goto c (if ctrue (locked (lk s)) then UHoldingCpu else UReport) s
  | UHoldingCpu => goto c (if bool_decide (lk_cpu (lk s) = Some c) then UClearPcs else UReport) s
  | UReport =>
      goto c (Dead (match lk_cpu (lk s) with
                    | Some _ => SPanic "spin_unlock"
                    | None => SUndef "lk->cpu is NULL"
                    end)) s
  | UClearPcs => goto c UClearCpu (store (λ l, set_lk_pcs (<[0%nat := 0]> (lk_pcs l)) l) s)
  | UClearCpu => goto c UXchg (store (set_lk_cpu None) s)
  | UXchg => goto c Outside (store (set_locked 0) s)
  end.

(** What a CPU does next: call one of the two functions, when it is in
    neither, or go on in the one it is in. *)
Inductive event := CallLock (c : Z) | CallUnlock (c : Z) | Go (c : Z).

#[export] Instance event_eq_dec : EqDecision event.
Proof. solve_decision. Defined.

Definition call (c : Z) (p : place) (s : smp) : smp :=
  match at_ s c with Outside => goto c p s | _ => s end.
Definition step (e : event) (s : smp) : smp :=
  match e with
  | CallLock c => call c LHoldingLocked s
  | CallUnlock c => call c UHoldingLocked s
  | Go c => go c s
  end.
Definition run (tr : list event) (s : smp) : smp := foldl (λ s e, step e s) s tr.

Definition smp_init : smp := MkSmp kernel_lock (λ _, Outside).

(** CPU [c] has the lock: it is between its successful xchg and its release. *)
Definition owns (s : smp) (c : Z) : Prop :=
  match at_ s c with
  | LSetCpu | UXchg => True
  | _ => lk_cpu (lk s) = Some c
  end.

(** * The invariant *)

(** What the place of CPU [c] says about the owner [o] and the field lk->cpu. *)
Definition place_ok (o cpu : option Z) (c : Z) (p : place) : Prop :=
  match p with
  | LSetCpu | UXchg => o = Some c ∧ cpu = None
  | LSetPcs | UClearPcs | UClearCpu => o = Some c ∧ cpu = Some c
  | LXchg | UReport => o ≠ Some c
  | Dead w =>
      (w = SPanic "CPU %d cannot acquire %s: already holding" ∧ o = Some c ∧ cpu = Some c) ∨
      ((w = SPanic "spin_unlock" ∨ w = SUndef "lk->cpu is NULL") ∧ o ≠ Some c)
  | _ => o = Some c → cpu = Some c
  end.

Record lock_inv (o : option Z) (s : smp) : Prop := {
  li_locked : locked (lk s) = match o with Some _ => 1 | None => 0 end;
  li_cpu : ∀ c, lk_cpu (lk s) = Some c → o = Some c;
  li_place : ∀ c, place_ok o (lk_cpu (lk s)) c (at_ s c)
}.

Lemma init_inv : lock_inv None smp_init.
Proof. split; [reflexivity|discriminate|discriminate]. Qed.

Lemma owns_owner o s c : lock_inv o s → owns s c ↔ o = Some c.
Proof.
  intros [_ Hc Hp]. specialize (Hc c). specialize (Hp c). unfold owns.
  destruct (at_ s c); cbn in Hp; intuition congruence.
Qed.

(** A change of one CPU's place, and perhaps of the lock. *)
Lemma inv_move o o' s l c p : lock_inv o s →
  locked l = match o' with Some _ => 1 | None => 0 end →
  (∀ d, lk_cpu l = Some d → o' = Some d) →
  place_ok o' (lk_cpu l) c p →
  (∀ d, d ≠ c → place_ok o (lk_cpu (lk s)) d (at_ s d) → place_ok o' (lk_cpu l) d (at_ s d)) →
  lock_inv o' (goto c p (MkSmp l (at_ s))).
Proof.
  intros H Hl Hc Hp Hd. split; cbn [lk at_ goto]; [assumption..|]. intros d.
  destruct (decide (d = c)) as [->|D]; [rewrite fn_lookup_insert; assumption|].
  rewrite fn_lookup_insert_ne by congruence. apply Hd, H. assumption.
Qed.

(** The other CPUs do not see that [c] takes, keeps or gives up the lock. *)
Lemma place_ok_other o o' cpu cpu' c d p : d ≠ c → (o = None ∨ o = Some c) → (o' = None ∨ o' = Some c) →
  place_ok o cpu d p → place_ok o' cpu' d p.
Proof. intros D [->| ->] [->| ->]; destruct p; cbn; intuition congruence. Qed.

Lemma inv_move_owner o o' s l c p : lock_inv o s → (o = None ∨ o = Some c) → (o' = None ∨ o' = Some c) →
  locked l = match o' with Some _ => 1 | None => 0 end →
  (lk_cpu l = None ∨ (o' = Some c ∧ lk_cpu l = Some c)) →
  place_ok o' (lk_cpu l) c p → lock_inv o' (goto c p (MkSmp l (at_ s))).
Proof.
  intros H Ho Ho' Hl Hc Hp. apply (inv_move o); auto.
  - intros d Hd. destruct Hc as [Hc|[? Hc]]; congruence.
  - intros d D. apply (place_ok_other o o' _ _ c); assumption.
Qed.

Lemma inv_goto o s c p : lock_inv o s → place_ok o (lk_cpu (lk s)) c p → lock_inv o (goto c p s).
Proof. intros H Hp. apply (inv_move o o s (lk s)); auto; apply H. Qed.

(** The new owner after an event. *)
Definition owner_after (e : event) (s : smp) (o : option Z) : option Z :=
  match e with
  | Go c => match at_ s c, o with
            | LXchg, None => Some c
            | UXchg, _ => None
            | _, _ => o
            end
  | _ => o
  end.

Lemma go_inv c o s : lock_inv o s → lock_inv (owner_after (Go c) s o) (go c s).
Proof.
  intros H. pose proof (li_locked _ _ H) as Hl. pose proof (li_place _ _ H c) as Hp.
  pose proof (li_cpu _ _ H c) as Hc. unfold owner_after, go.
  destruct (at_ s c) eqn:E; cbn in Hp; try assumption.
  - rewrite Hl. apply inv_goto; [assumption|]. destruct o as [d|]; cbn; [exact Hp|discriminate].
  - case_bool_decide; (apply inv_goto; [assumption|]); cbn; [auto|intuition].
  - destruct o as [d|].
    + rewrite Hl. apply (inv_move (Some d) _ s (set_locked 1 (lk s))); auto; apply H.
    + rewrite Hl. apply (inv_move_owner None _ s (set_locked 1 (lk s))); cbn; auto.
      * left. destruct (lk_cpu (lk s)) as [d|] eqn:Ed; [|reflexivity]. pose proof (li_cpu _ _ H d Ed). discriminate.
      * split; [reflexivity|]. destruct (lk_cpu (lk s)) as [d|] eqn:Ed; [|reflexivity].
        pose proof (li_cpu _ _ H d Ed). discriminate.
  - destruct Hp as [-> Hn]. apply (inv_move_owner (Some c) _ s (set_lk_cpu (Some c) (lk s))); cbn; auto.
  - destruct Hp as [-> Hn]. apply (inv_move_owner (Some c) _ s (set_lk_pcs _ (lk s))); cbn; auto.
  - rewrite Hl. apply inv_goto; [assumption|]. destruct o as [d|]; cbn; [exact Hp|discriminate].
  - case_bool_decide as D; (apply inv_goto; [assumption|]); cbn; [auto|intuition].
  - apply inv_goto; [assumption|]. cbn. right. split; [|assumption]. destruct (lk_cpu (lk s)); auto.
  - destruct Hp as [-> Hn]. apply (inv_move_owner (Some c) _ s (set_lk_pcs _ (lk s))); cbn; auto.
  - destruct Hp as [-> Hn]. apply (inv_move_owner (Some c) _ s (set_lk_cpu None (lk s))); cbn; auto.
  - destruct Hp as [-> Hn]. apply (inv_move_owner (Some c) _ s (set_locked 0 (lk s))); cbn; auto. discriminate.
Qed.

Lemma step_inv e o s : lock_inv o s → lock_inv (owner_after e s o) (step e s).
Proof.
  intros H. destruct e as [c|c|c]; [| |apply go_inv, H]; cbn; unfold call;
    pose proof (li_place _ _ H c) as Hp; destruct (at_ s c); try assumption;
    (apply inv_goto; [assumption|]); exact Hp.
Qed.

Lemma run_inv tr s o : lock_inv o s → ∃ o', lock_inv o' (run tr s).
Proof.
  revert o s. induction tr as [|e tr IH]; intros o s H; [exists o; exact H|].
  apply (IH (owner_after e s o)), step_inv, H.
Qed.

Lemma init_run tr : ∃ o, lock_inv o (run tr smp_init).
Proof. apply (run_inv tr smp_init None), init_inv. Qed.

Lemma run_app tr tr' s : run (tr ++ tr') s = run tr' (run tr s).
Proof. apply foldl_app. Qed.

Lemma go_at c s : at_ (go c s) c = match at_ s c with
  | Outside => Outside
  | Dead w => Dead w
  | LHoldingLocked => if ctrue (locked (lk s)) then LHoldingCpu else LXchg
  | LHoldingCpu => if bool_decide (lk_cpu (lk s) = Some c)
                   then Dead (SPanic "CPU %d cannot acquire %s: already holding") else LXchg
  | LXchg => if negb (locked (lk s) =? 0) then LXchg else LSetCpu
  | LSetCpu => LSetPcs
  | LSetPcs => Outside
  | UHoldingLocked => if ctrue (locked (lk s)) then UHoldingCpu else UReport
  | UHoldingCpu => if bool_decide (lk_cpu (lk s) = Some c) then UClearPcs else UReport
  | UReport => Dead (match lk_cpu (lk s) with
                     | Some _ => SPanic "spin_unlock"
                     | None => SUndef "lk->cpu is NULL"
                     end)
  | UClearPcs => UClearCpu
  | UClearCpu => UXchg
  | UXchg => Outside
  end.
Proof. unfold go. destruct (at_ s c) eqn:E; cbn [goto at_ store]; rewrite ?fn_lookup_insert; auto. Qed.

Lemma go_other c d s : d ≠ c → at_ (go c s) d = at_ s d.
Proof.
  intros D. unfold go. destruct (at_ s c); cbn [goto at_ store]; rewrite ?fn_lookup_insert_ne by congruence; reflexivity.
Qed.

Lemma call_at c p s : at_ s c = Outside → at_ (call c p s) c = p.
Proof. intros E. unfold call. rewrite E. apply fn_lookup_insert. Qed.

(** CPU [c] alone: [n] of its accesses. *)
Definition alone (n : nat) (c : Z) : list event := replicate n (Go c).

Lemma alone_S n c s : run (alone (S n) c) s = run (alone n c) (go c s).
Proof. reflexivity. Qed.

(** The field of [KState] as the abstraction of the lock. *)
Definition abstracts (s : smp) (o : option Z) : Prop := ∀ c, owns s c ↔ o = Some c.

Lemma inv_abstracts o s : lock_inv o s → abstracts s o.
Proof. intros H c. apply owns_owner, H. Qed.

Lemma abstracts_inv o o' s : lock_inv o s → abstracts s o' → o' = o.
Proof.
  intros H Ha. destruct o as [c|], o' as [d|]; try reflexivity.
  - apply (Ha c), (inv_abstracts _ _ H c). reflexivity.
  - apply (Ha c), (inv_abstracts _ _ H c). reflexivity.
  - pose proof (proj1 (inv_abstracts _ _ H d) (proj2 (Ha d) eq_refl)). discriminate.
Qed.

Lemma free_cpu s : lock_inv None s → lk_cpu (lk s) = None.
Proof. intros H. destruct (lk_cpu (lk s)) as [d|] eqn:E; [|reflexivity]. discriminate (li_cpu _ _ H d E). Qed.

Lemma lock_call o s c : lock_inv o s → at_ s c = Outside → let s1 := step (CallLock c) s in
  lock_inv o s1 ∧ at_ s1 c = LHoldingLocked ∧ lk s1 = lk s.
Proof.
  intros H E. split; [apply (step_inv (CallLock c) o s H)|]. split; [apply call_at, E|].
  cbn. unfold call. rewrite E. reflexivity.
Qed.

Lemma unlock_call o s c : lock_inv o s → at_ s c = Outside → let s1 := step (CallUnlock c) s in
  lock_inv o s1 ∧ at_ s1 c = UHoldingLocked ∧ lk s1 = lk s.
Proof.
  intros H E. split; [apply (step_inv (CallUnlock c) o s H)|]. split; [apply call_at, E|].
  cbn. unfold call. rewrite E. reflexivity.
Qed.

(** One access of [c], with the place and the owner after it. *)
Lemma go_next o s c p p' o' : lock_inv o s → at_ s c = p → at_ (go c s) c = p' →
  owner_after (Go c) s o = o' → lock_inv o' (go c s) ∧ at_ (go c s) c = p'.
Proof. intros H _ Hp <-. split; [apply go_inv, H|exact Hp]. Qed.

(** A CPU that spins while another one has the lock. *)
Lemma spins d c n s : d ≠ c → lock_inv (Some d) s → at_ s c = LXchg →
  lock_inv (Some d) (run (alone n c) s) ∧ at_ (run (alone n c) s) c = LXchg.
Proof.
  intros D. revert s. induction n as [|n IH]; intros s H E; [auto|]. rewrite alone_S. apply IH.
  - replace (Some d) with (owner_after (Go c) s (Some d)); [apply go_inv, H|]. cbn. rewrite E. reflexivity.
  - rewrite go_at, E, (li_locked _ _ H). reflexivity.
Qed.

(** * Mutual exclusion *)

(** C18. Whatever the CPUs do, in whatever order their accesses happen: at
    most one of them has the lock; the word [locked] is 1 exactly when one has
    it; a CPU comes to have it only by its xchg that found 0 and stops having
    it only by its xchg in spin_unlock; a CPU that spin_lock stops has the
    lock already; and a CPU that spin_unlock stops does not have it. *)
Theorem spin_mutual_exclusion (tr : list event) (e : event) (c d : Z) :
  let s := run tr smp_init in
  (owns s c ∧ owns s d → c = d) ∧
  (locked (lk s) = 0 ∨ locked (lk s) = 1) ∧
  (locked (lk s) = 0 ↔ ¬ ∃ c, owns s c) ∧
  (¬ owns s c ∧ owns (step e s) c → e = Go c ∧ at_ s c = LXchg ∧ locked (lk s) = 0) ∧
  (owns s c ∧ ¬ owns (step e s) c → e = Go c ∧ at_ s c = UXchg) ∧
  (at_ s c = Dead (SPanic "CPU %d cannot acquire %s: already holding") → owns s c) ∧
  (at_ s c = Dead (SPanic "spin_unlock") ∨ at_ s c = Dead (SUndef "lk->cpu is NULL") → ¬ owns s c).
Proof.
  intros s. destruct (init_run tr) as [o H]. fold s in H.
  pose proof (inv_abstracts _ _ H) as A. pose proof (inv_abstracts _ _ (step_inv e o s H)) as A'.
  pose proof (li_locked _ _ H) as Hl. pose proof (li_place _ _ H c) as Hp.
  rewrite (A' c), (A c), (A d). split; [intros [-> E]; congruence|].
  split; [rewrite Hl; destruct o; auto|].
  split. { rewrite Hl. destruct o as [x|]; split; [discriminate|intros F; destruct F; exists x; apply A; reflexivity|
    intros _ [x F]; apply A in F; discriminate|reflexivity]. }
  split; [|split; [|split]].
  - intros [N Y]. destruct e as [x|x|x]; cbn in Y; try contradiction.
    destruct (at_ s x) eqn:E, o; try contradiction; try discriminate. injection Y as ->. rewrite Hl. auto.
  - intros [Y N]. destruct e as [x|x|x]; cbn in N; try contradiction.
    destruct (at_ s x) eqn:E, o; try contradiction; try discriminate; injection Y as ->;
      pose proof (li_place _ _ H x) as Hx; rewrite E in Hx; destruct Hx as [[= ->] _]; auto.
  - intros E. rewrite E in Hp. destruct Hp as [(_ & Ho & _)|([F|F] & _)]; [exact Ho|discriminate F..].
  - intros E. destruct E as [E|E]; rewrite E in Hp; (destruct Hp as [(F & _)|(_ & Ho)]; [discriminate F|exact Ho]).
Qed.

(** * Agreement with the atomic lock *)

(** The accesses of [c] when the lock is free: three, and two after its xchg. *)
Lemma acquire_alone s c : lock_inv None s → at_ s c = LHoldingLocked →
  let s' := run (alone 4 c) s in lock_inv (Some c) s' ∧ at_ s' c = Outside.
Proof.
  intros H E. cbv zeta. rewrite alone_S.
  destruct (go_next None s c _ LXchg None H E) as [H1 E1];
    [rewrite go_at, E, (li_locked _ _ H); reflexivity|cbn; rewrite E; reflexivity|]. rewrite alone_S.
  destruct (go_next None _ c _ LSetCpu (Some c) H1 E1) as [H2 E2];
    [rewrite go_at, E1, (li_locked _ _ H1); reflexivity|cbn; rewrite E1; reflexivity|]. rewrite alone_S.
  destruct (go_next (Some c) _ c _ LSetPcs (Some c) H2 E2) as [H3 E3];
    [rewrite go_at, E2; reflexivity|cbn; rewrite E2; reflexivity|]. rewrite alone_S.
  apply (go_next (Some c) _ c _ Outside (Some c) H3 E3);
    [rewrite go_at, E3; reflexivity|cbn; rewrite E3; reflexivity].
Qed.

Lemma release_alone s c : lock_inv (Some c) s → lk_cpu (lk s) = Some c → at_ s c = UHoldingLocked →
  let s' := run (alone 5 c) s in lock_inv None s' ∧ at_ s' c = Outside.
Proof.
  intros H Hc E. cbv zeta. rewrite alone_S.
  destruct (go_next (Some c) s c _ UHoldingCpu (Some c) H E) as [H1 E1];
    [rewrite go_at, E, (li_locked _ _ H); reflexivity|cbn; rewrite E; reflexivity|]. rewrite alone_S.
  assert (lk_cpu (lk (go c s)) = Some c) as Hc1 by (unfold go; rewrite E; exact Hc).
  destruct (go_next (Some c) _ c _ UClearPcs (Some c) H1 E1) as [H2 E2];
    [rewrite go_at, E1, bool_decide_eq_true_2 by assumption; reflexivity|cbn; rewrite E1; reflexivity|]. rewrite alone_S.
  destruct (go_next (Some c) _ c _ UClearCpu (Some c) H2 E2) as [H3 E3];
    [rewrite go_at, E2; reflexivity|cbn; rewrite E2; reflexivity|]. rewrite alone_S.
  destruct (go_next (Some c) _ c _ UXchg (Some c) H3 E3) as [H4 E4];
    [rewrite go_at, E3; reflexivity|cbn; rewrite E3; reflexivity|]. rewrite alone_S.
  apply (go_next (Some c) _ c _ Outside None H4 E4);
    [rewrite go_at, E4; reflexivity|cbn; rewrite E4; reflexivity].
Qed.

(** A CPU that waits for [d]: it is at the xchg after at most two accesses. *)
Lemma wait_alone d s c n : d ≠ c → lock_inv (Some d) s → at_ s c = LHoldingLocked →
  let s' := run (alone n c) s in lock_inv (Some d) s' ∧ at_ s' c ∈ [LHoldingLocked; LHoldingCpu; LXchg].
Proof.
  intros D H E. destruct n as [|n]; [split; [exact H|cbn; rewrite E; left]|]. rewrite alone_S. cbv zeta.
  destruct (go_next (Some d) s c _ LHoldingCpu (Some d) H E) as [H1 E1];
    [rewrite go_at, E, (li_locked _ _ H); reflexivity|cbn; rewrite E; reflexivity|].
  destruct n as [|n]; [split; [exact H1|cbn; rewrite E1; right; left]|]. rewrite alone_S.
  destruct (go_next (Some d) _ c _ LXchg (Some d) H1 E1) as [H2 E2]; [|cbn; rewrite E1; reflexivity|].
  - rewrite go_at, E1, bool_decide_eq_false_2; [reflexivity|].
    intros F. pose proof (li_cpu _ _ H1 c F) as G. congruence.
  - destruct (spins d c n _ D H2 E2) as [H3 E3]. split; [exact H3|]. rewrite E3. right. right. left.
Qed.

(** A CPU that holds the lock and takes it again, and one that releases a lock
    it does not have, stop. *)
Lemma relock_alone s c : lock_inv (Some c) s → lk_cpu (lk s) = Some c → at_ s c = LHoldingLocked →
  at_ (run (alone 2 c) s) c = Dead (SPanic "CPU %d cannot acquire %s: already holding").
Proof.
  intros H Hc E. rewrite alone_S.
  assert (at_ (go c s) c = LHoldingCpu) as E1 by (rewrite go_at, E, (li_locked _ _ H); reflexivity).
  assert (lk_cpu (lk (go c s)) = Some c) as Hc1 by (unfold go; rewrite E; exact Hc).
  cbn. rewrite go_at, E1, bool_decide_eq_true_2 by assumption. reflexivity.
Qed.

Lemma report_alone s c : at_ s c = UReport → ∃ w, at_ (go c s) c = Dead w.
Proof. intros E. rewrite go_at, E. eauto. Qed.

Lemma misrelease_alone o s c : lock_inv o s → o ≠ Some c → at_ s c = UHoldingLocked →
  ∃ n w, at_ (run (alone n c) s) c = Dead w.
Proof.
  intros H D E. destruct o as [d|].
  - destruct (go_next (Some d) s c _ UHoldingCpu (Some d) H E) as [H1 E1];
      [rewrite go_at, E, (li_locked _ _ H); reflexivity|cbn; rewrite E; reflexivity|].
    destruct (report_alone (go c (go c s)) c) as [w Ew]; [|exists 3%nat, w; exact Ew].
    rewrite go_at, E1, bool_decide_eq_false_2; [reflexivity|].
    intros F. pose proof (li_cpu _ _ H1 c F). congruence.
  - destruct (report_alone (go c s) c) as [w Ew]; [|exists 2%nat, w; exact Ew].
    rewrite go_at, E, (li_locked _ _ H). reflexivity.
Qed.

Lemma run_cons e tr s : run (e :: tr) s = run tr (step e s).
Proof. reflexivity. Qed.

(** C29. The lock of [KState] describes the lock of the code.  Take any state
    the CPUs can reach, in which CPU [c] is outside the lock's code, and a
    kernel state of [c] with the same owner.  If lock_kernel returns, then [c]
    alone gets out of spin_lock with the lock; if lock_kernel panics, [c] stops
    with that panic; if lock_kernel waits, [c] alone never leaves spin_lock and
    the owner stays the same.  If unlock_kernel returns, [c] alone gets out of
    spin_unlock and nobody has the lock; if not, [c] stops in it. *)
Theorem lock_kernel_atomic (tr : list event) (c : Z) (k : ks) :
  let s := run tr smp_init in
  at_ s c = Outside → cpunum k = c → abstracts s (klock k) →
  match lock_kernel k with
  | Ret _ k' => ∃ n, let s' := run (CallLock c :: alone n c) s in at_ s' c = Outside ∧ abstracts s' (klock k')
  | Stop SLoop _ => ∀ n, let s' := run (CallLock c :: alone n c) s in
      at_ s' c ∈ [LHoldingLocked; LHoldingCpu; LXchg] ∧ abstracts s' (klock k)
  | Stop w _ => ∃ n, at_ (run (CallLock c :: alone n c) s) c = Dead w
  end ∧
  match unlock_kernel k with
  | Ret _ k' => ∃ n, let s' := run (CallUnlock c :: alone n c) s in at_ s' c = Outside ∧ abstracts s' (klock k')
  | Stop _ _ => ∃ n w, at_ (run (CallUnlock c :: alone n c) s) c = Dead w
  end.
Proof.
  intros s E <- A. destruct (init_run tr) as [o H]. fold s in H.
  pose proof (abstracts_inv _ _ _ H A) as Eo. set (c := cpunum k) in *.
  destruct (lock_call o s c H E) as (H1 & E1 & L1), (unlock_call o s c H E) as (H2 & E2 & L2).
  pose proof (li_place _ _ H c) as Hp. rewrite E in Hp. cbn in Hp.
  unfold lock_kernel, unlock_kernel. rewrite Eo. fold c. split.
  - destruct o as [d|]; [destruct (Z.eqb_spec d c) as [->|D]|].
    + exists 2%nat. rewrite run_cons. apply (relock_alone _ c H1); [rewrite L1; auto|exact E1].
    + intros n. rewrite run_cons. destruct (wait_alone d _ c n D H1 E1) as [H3 E3]. split; [exact E3|apply inv_abstracts, H3].
    + exists 4%nat. rewrite run_cons. destruct (acquire_alone _ c H1 E1) as [H3 E3]. split; [exact E3|apply inv_abstracts, H3].
  - destruct o as [d|]; [destruct (Z.eqb_spec d c) as [->|D]|].
    + exists 5%nat. rewrite run_cons. destruct (release_alone _ c H2 ltac:(rewrite L2; auto) E2) as [H3 E3].
      split; [exact E3|apply inv_abstracts, H3].
    + apply (misrelease_alone (Some d) _ c H2); [congruence|exact E2].
    + apply (misrelease_alone None _ c H2); [discriminate|exact E2].
Qed.

(** * Freedom from deadlock

    The CPUs run for ever: event number [n] is [sched n]. *)
Fixpoint trace (sched : nat → event) (n : nat) : smp :=
  match n with
  | O => smp_init
  | S n => step (sched n) (trace sched n)
  end.

Definition waits (s : smp) (c : Z) : Prop := at_ s c ∈ [LHoldingLocked; LHoldingCpu; LXchg].
Definition acquires (sched : nat → event) (n : nat) (c : Z) : Prop :=
  ¬ owns (trace sched n) c ∧ owns (trace sched (S n)) c.

(** A CPU in the code of the lock goes on, the code outside takes the lock
    only without having it and gives it up only when it has it, and a CPU
    that has the lock gives it up at some time. *)
Record fair (sched : nat → event) : Prop := {
  fair_go : ∀ n c, at_ (trace sched n) c ≠ Outside → ∃ m, (n ≤ m)%nat ∧ sched m = Go c;
  fair_lock : ∀ n c, sched n = CallLock c → ¬ owns (trace sched n) c;
  fair_unlock : ∀ n c, sched n = CallUnlock c → owns (trace sched n) c;
  fair_release : ∀ n c, owns (trace sched n) c → ∃ m, (n ≤ m)%nat ∧ sched m = CallUnlock c
}.

Section fair.
Context (sched : nat → event) (F : fair sched).
Notation st := (trace sched).

Fixpoint owner (n : nat) : option Z :=
  match n with O => None | S n => owner_after (sched n) (st n) (owner n) end.

Lemma st_inv n : lock_inv (owner n) (st n).
Proof. induction n; [apply init_inv|apply step_inv, IHn]. Qed.

Lemma owns_st n c : owns (st n) c ↔ owner n = Some c.
Proof. apply owns_owner, st_inv. Qed.

(** Where a CPU with the lock can be, and where one without it. *)
Definition disciplined (own : bool) (p : place) : Prop :=
  match p with
  | LHoldingLocked | LHoldingCpu | LXchg => own = false
  | LSetCpu | LSetPcs | UHoldingLocked | UHoldingCpu | UClearPcs | UClearCpu | UXchg => own = true
  | Outside => True
  | UReport | Dead _ => False
  end.
Definition has (n : nat) (c : Z) : bool := bool_decide (owner n = Some c).

Lemma step_other e c s : e ≠ Go c → e ≠ CallLock c → e ≠ CallUnlock c → at_ (step e s) c = at_ s c.
Proof.
  intros H1 H2 H3. destruct e as [x|x|x]; cbn.
  - unfold call. destruct (at_ s x); try reflexivity. apply fn_lookup_insert_ne. congruence.
  - unfold call. destruct (at_ s x); try reflexivity. apply fn_lookup_insert_ne. congruence.
  - apply go_other. congruence.
Qed.

Lemma has_S_other n c : sched n ≠ Go c → has (S n) c = has n c.
Proof.
  intros D. unfold has. apply bool_decide_ext. cbn [owner]. unfold owner_after.
  destruct (sched n) as [x|x|x]; try reflexivity. assert (x ≠ c) by congruence.
  pose proof (li_place _ _ (st_inv n) x) as Hp.
  destruct (at_ (st n) x), (owner n); cbn in Hp; try reflexivity; split; intros; intuition congruence.
Qed.

Lemma call_eq c p s : at_ (call c p s) c = match at_ s c with Outside => p | q => q end.
Proof. unfold call. destruct (at_ s c) eqn:E; cbn [goto at_]; rewrite ?fn_lookup_insert; auto. Qed.

Lemma st_disciplined n c : disciplined (has n c) (at_ (st n) c).
Proof.
  induction n as [|n IH]; [exact I|].
  destruct (sched n) as [x|x|x] eqn:E.
  1,2: rewrite has_S_other by (rewrite E; discriminate); cbn [trace]; rewrite E; cbn [step];
    (destruct (decide (x = c)) as [->|D]; [|unfold call; destruct (at_ (st n) x); try exact IH;
       cbn [goto at_]; rewrite fn_lookup_insert_ne by congruence; exact IH]);
    rewrite call_eq; destruct (at_ (st n) c) eqn:Ec; try exact IH; cbn; unfold has.
  - apply bool_decide_eq_false_2. intros G. apply owns_st in G. apply (fair_lock _ F n c E G).
  - apply bool_decide_eq_true_2, owns_st, (fair_unlock _ F n c E).
  - destruct (decide (x = c)) as [->|D]; [|rewrite has_S_other by congruence; cbn [trace]; rewrite E; cbn [step];
      rewrite go_other by congruence; exact IH].
    pose proof (li_place _ _ (st_inv n) c) as Hp. pose proof (li_locked _ _ (st_inv n)) as Hl.
    pose proof (li_cpu _ _ (st_inv n) c) as Hc. unfold has in *. cbn [trace owner]. rewrite E. cbn [step].
    rewrite go_at. unfold owner_after. destruct (at_ (st n) c) eqn:Ec; cbn in Hp, IH |- *; auto.
    + rewrite Hl. destruct (owner n); cbn; exact IH.
    + rewrite bool_decide_eq_false in IH. rewrite (bool_decide_eq_false_2 (lk_cpu _ = Some c)) by auto. cbn. apply bool_decide_eq_false_2, IH.
    + rewrite Hl. destruct (owner n); cbn; [exact IH|]. apply bool_decide_eq_true_2. reflexivity.
    + apply bool_decide_eq_true in IH. rewrite Hl, IH. cbn. apply bool_decide_eq_true_2. reflexivity.
    + pose proof IH as IH'. apply bool_decide_eq_true in IH. rewrite (bool_decide_eq_true_2 (lk_cpu _ = Some c)) by auto. exact IH'.
Qed.

Lemma le_offset (n m : nat) : (n ≤ m)%nat → ∃ j, m = (n + j)%nat.
Proof. exists (m - n)%nat. lia. Qed.

(** Until its next access a CPU stays where it is, with or without the lock. *)
Lemma next_go n c : at_ (st n) c ≠ Outside →
  ∃ m, (n ≤ m)%nat ∧ sched m = Go c ∧ at_ (st m) c = at_ (st n) c ∧ has m c = has n c.
Proof.
  intros Hn. destruct (fair_go _ F n c Hn) as (m & Hm & E).
  destruct (le_offset n m Hm) as [j ->]. clear Hm. revert n Hn E. induction j as [|j IH]; intros n Hn E.
  { exists n. rewrite Nat.add_0_r in E. auto. }
  destruct (decide (sched n = Go c)) as [Eg|D]; [exists n; auto|].
  assert (at_ (st (S n)) c = at_ (st n) c) as Es.
  { cbn [trace]. destruct (sched n) as [x|x|x] eqn:Ex; cbn [step]; [| |apply go_other; congruence];
      (destruct (decide (x = c)) as [->|Dx]; [rewrite call_eq; destruct (at_ (st n) c); congruence|]);
      unfold call; destruct (at_ (st n) x); try reflexivity; cbn [goto at_]; apply fn_lookup_insert_ne; congruence. }
  destruct (IH (S n)) as (m' & Hm' & E1 & E2 & E3); [rewrite Es; exact Hn|rewrite <- E; f_equal; lia|].
  exists m'. rewrite E2, E3, Es, has_S_other by exact D. split; [lia|auto].
Qed.

Lemma acquired_between n m d : (n ≤ m)%nat → owner n = None → owner m = Some d →
  ∃ k c, (n ≤ k)%nat ∧ acquires sched k c.
Proof.
  intros Hm. destruct (le_offset n m Hm) as [j ->]. clear Hm. revert n. induction j as [|j IH]; intros n En Em.
  { rewrite Nat.add_0_r in Em. congruence. }
  destruct (owner (S n)) as [c|] eqn:E.
  - exists n, c. split; [lia|]. split; rewrite owns_st; congruence.
  - destruct (IH (S n) E) as (k & c & Hk & A); [rewrite <- Em; f_equal; lia|]. exists k, c. split; [lia|exact A].
Qed.

(** A CPU that wants the lock while it is free. *)
Definition want (p : place) : nat :=
  match p with LHoldingLocked | LHoldingCpu => 2 | LXchg => 1 | _ => 0 end%nat.

Lemma waits_want s c : waits s c ↔ (want (at_ s c) ≠ 0)%nat.
Proof.
  unfold waits. rewrite !elem_of_cons, elem_of_nil. destruct (at_ s c); cbn; split; intros; try congruence; auto;
    repeat (destruct H as [H|H]; try discriminate); contradiction.
Qed.

Lemma free_taken n c : waits (st n) c → owner n = None → ∃ m d, (n ≤ m)%nat ∧ acquires sched m d.
Proof.
  rewrite waits_want. remember (want (at_ (st n) c)) as r eqn:Er. revert n Er.
  induction r as [r IH] using lt_wf_ind. intros n -> Hw Ho.
  destruct (next_go n c) as (m & Hm & E & Ep & _); [intros G; rewrite G in Hw; apply Hw; reflexivity|].
  rewrite <- Ep in Hw, IH. destruct (owner m) as [d|] eqn:Eo.
  { destruct (acquired_between n m d Hm Ho Eo) as (k & e & Hk & A). eauto. }
  pose proof (st_inv m) as H. rewrite Eo in H. pose proof (free_cpu _ H) as Hc. pose proof (li_locked _ _ H) as Hl.
  assert (at_ (st (S m)) c = match at_ (st m) c with LXchg => LSetCpu | LHoldingLocked | LHoldingCpu => LXchg
            | _ => at_ (st (S m)) c end) as Es.
  { cbn [trace]. rewrite E. cbn [step]. rewrite go_at. destruct (at_ (st m) c); try reflexivity;
      rewrite ?Hl; [reflexivity|rewrite Hc; reflexivity|reflexivity]. }
  assert (owner (S m) = match at_ (st m) c with LXchg => Some c | _ => None end) as Eo'
    by (cbn [owner]; rewrite E, Eo; cbn; destruct (at_ (st m) c); reflexivity).
  destruct (at_ (st m) c) eqn:Ec; try (exfalso; apply Hw; reflexivity).
  1,2: destruct (IH 1%nat ltac:(cbn; lia) (S m)) as (k & d & Hk & A);
    [rewrite Es; reflexivity|discriminate|exact Eo'|exists k, d; split; [lia|exact A]].
  exists m, c. split; [exact Hm|]. split; rewrite owns_st; congruence.
Qed.

(** The way of a CPU with the lock to its release. *)
Definition ahead (p : place) : nat :=
  match p with
  | LSetCpu => 8 | LSetPcs => 7 | Outside => 6 | UHoldingLocked => 5 | UHoldingCpu => 4
  | UClearPcs => 3 | UClearCpu => 2 | _ => 1
  end%nat.

Lemma next_unlock n d : owner n = Some d → at_ (st n) d = Outside →
  ∃ m, (n ≤ m)%nat ∧ sched m = CallUnlock d ∧ at_ (st m) d = Outside ∧ owner m = Some d.
Proof.
  intros Ho Ep. destruct (fair_release _ F n d) as (m & Hm & E); [apply owns_st, Ho|].
  destruct (le_offset n m Hm) as [j ->]. clear Hm. revert n Ho Ep E. induction j as [|j IH]; intros n Ho Ep E.
  { exists n. rewrite Nat.add_0_r in E. auto. }
  destruct (decide (sched n = CallUnlock d)) as [Eu|D]; [exists n; auto|].
  assert (sched n ≠ CallLock d) as D2 by (intros G; apply (fair_lock _ F n d G), owns_st, Ho).
  assert (at_ (st (S n)) d = Outside ∧ owner (S n) = Some d) as [Es Eo].
  { destruct (decide (sched n = Go d)) as [Eg|D3].
    - cbn [trace owner]. rewrite Eg. cbn [step]. rewrite go_at. cbn. rewrite Ep, Ho. auto.
    - split; [cbn [trace]; rewrite step_other; auto|]. pose proof (has_S_other n d D3) as G. unfold has in G.
      rewrite (bool_decide_eq_true_2 (owner n = Some d)) in G by exact Ho. apply bool_decide_eq_true in G. exact G. }
  destruct (IH (S n) Eo Es) as (k & Hk & R); [rewrite <- E; f_equal; lia|]. exists k. split; [lia|exact R].
Qed.

Lemma owner_ahead n d : owner n = Some d → ∃ m, (n ≤ m)%nat ∧
  (owner m = None ∨ (owner m = Some d ∧ ahead (at_ (st m) d) < ahead (at_ (st n) d)))%nat.
Proof.
  intros Ho. destruct (decide (at_ (st n) d = Outside)) as [E|E].
  - destruct (next_unlock n d Ho E) as (m & Hm & Eu & Ep & Eo). exists (S m). split; [lia|]. right.
    cbn [trace owner]. rewrite Eu. cbn [step owner_after]. rewrite call_eq, Ep, E. split; [exact Eo|cbn; lia].
  - destruct (next_go n d E) as (m & Hm & Eg & Ep & Eh). exists (S m). split; [lia|]. rewrite <- Ep. rewrite <- Ep in E.
    pose proof (st_disciplined m d) as Hd. unfold has in *. rewrite (bool_decide_eq_true_2 (owner n = Some d)) in Eh by exact Ho.
    rewrite Eh in Hd. apply bool_decide_eq_true in Eh. pose proof (li_locked _ _ (st_inv m)) as Hl. rewrite Eh in Hl.
    pose proof (li_place _ _ (st_inv m) d) as Hp.
    cbn [trace owner]. rewrite Eg. cbn [step owner_after]. rewrite go_at, Eh, Hl.
    destruct (at_ (st m) d) eqn:Ed; cbn in Hd, Hp; try discriminate; try contradiction; cbn; auto.
    rewrite bool_decide_eq_true_2 by auto. cbn. auto.
Qed.

Lemma owner_releases n d : owner n = Some d → ∃ m, (n ≤ m)%nat ∧ owner m = None.
Proof.
  remember (ahead (at_ (st n) d)) as r eqn:Er. revert n Er. induction r as [r IH] using lt_wf_ind. intros n -> Ho.
  destruct (owner_ahead n d Ho) as (m & Hm & [E|[E Hr]]); [eauto|].
  destruct (IH _ Hr m eq_refl E) as (k & Hk & Ek). exists k. split; [lia|exact Ek].
Qed.

Lemma waits_on n m c : (n ≤ m)%nat → waits (st n) c →
  (∃ k, (n ≤ k)%nat ∧ acquires sched k c) ∨ waits (st m) c.
Proof.
  intros Hm. destruct (le_offset n m Hm) as [j ->]. clear Hm. revert n. induction j as [|j IH]; intros n W.
  { right. rewrite Nat.add_0_r. exact W. }
  assert (acquires sched n c ∨ waits (st (S n)) c) as [A|W'].
  { pose proof (st_disciplined n c) as Hd. pose proof (st_disciplined (S n) c) as Hd'. rewrite waits_want in W |- *.
    destruct (decide (owner (S n) = Some c)) as [Eo|No].
    - left. split; rewrite owns_st; [|exact Eo]. unfold has in Hd. intros G.
      rewrite (bool_decide_eq_true_2 (owner n = Some c)) in Hd by exact G.
      destruct (at_ (st n) c); cbn in Hd, W; first [contradiction|congruence].
    - right. unfold has in Hd'. rewrite (bool_decide_eq_false_2 (owner (S n) = Some c)) in Hd' by exact No.
      intros G. assert (at_ (st (S n)) c = Outside) as Eq by (destruct (at_ (st (S n)) c); cbn in Hd', G; first [contradiction|congruence]).
      cbn [trace] in Eq. destruct (sched n) as [x|x|x]; cbn [step] in Eq.
      1,2: destruct (decide (x = c)) as [->|D]; [rewrite call_eq in Eq; destruct (at_ (st n) c); cbn in W; congruence|];
        unfold call in Eq; destruct (at_ (st n) x); cbn [goto at_] in Eq; rewrite ?fn_lookup_insert_ne in Eq by congruence;
        rewrite Eq in W; apply W; reflexivity.
      destruct (decide (x = c)) as [->|D]; [|rewrite go_other in Eq by congruence; rewrite Eq in W; apply W; reflexivity].
      rewrite go_at in Eq. destruct (at_ (st n) c); cbn in W; try congruence.
      + destruct (ctrue _); discriminate.
      + case_bool_decide; discriminate.
      + destruct (negb _); discriminate. }
  - left. exists n. split; [lia|exact A].
  - destruct (IH (S n) W') as [(k & Hk & A)|W2]; [left; exists k; split; [lia|exact A]|].
    right. rewrite Nat.add_succ_r. exact W2.
Qed.
End fair.

(** C28. Freedom from deadlock.  In every infinite run in which each CPU goes
    on with its accesses, and the code around the lock takes it only without
    having it and releases it, only when it has it and at some time: no CPU
    panics in the lock, and whenever a CPU waits for the lock, some CPU
    acquires it later.  (Which one is not said: the code is not fair.) *)
Theorem spin_lock_live (sched : nat → event) (n : nat) (c : Z) :
  fair sched → (∀ w, at_ (trace sched n) c ≠ Dead w) ∧
  (waits (trace sched n) c → ∃ m d, (n ≤ m)%nat ∧ acquires sched m d).
Proof.
  intros F. split; [intros w E; pose proof (st_disciplined sched F n c) as Hd; rewrite E in Hd; exact Hd|].
  intros W. destruct (owner sched n) as [d|] eqn:Eo; [|apply (free_taken sched F n c W Eo)].
  destruct (owner_releases sched F n d Eo) as (m & Hm & Em).
  destruct (waits_on sched F n m c Hm W) as [(k & Hk & A)|W']; [eauto|].
  destruct (free_taken sched F m c W' Em) as (k & e & Hk & A). exists k, e. split; [lia|exact A].
Qed.
End lock.

(** * A run of two CPUs *)

Definition demo_frames : Z → Z → Z := λ _ _, 0.
Definition demo_ebp : Z → Z := λ _, 0.
Notation demo_run := (run demo_frames demo_ebp).
Notation demo_trace := (trace demo_frames demo_ebp).

(** CPU 1 waits while CPU 0 has the lock, and gets it then. *)
Definition demo_round : list event :=
  CallLock 0 :: alone 4 0 ++ CallLock 1 :: alone 2 1 ++ CallUnlock 0 :: alone 5 0 ++ alone 3 1 ++ CallUnlock 1 :: alone 5 1.
Definition demo_sched (n : nat) : event := nth (n mod 23) demo_round (Go 0).

Definition same_smp (s t : smp) : Prop := lk s = lk t ∧ ∀ c, at_ s c = at_ t c.

Lemma step_same frames ebp e s t : same_smp s t → same_smp (step frames ebp e s) (step frames ebp e t).
Proof.
  intros [Hl Ha]. assert (∀ c p s t, lk s = lk t → (∀ c, at_ s c = at_ t c) → same_smp (goto c p s) (goto c p t)) as Hg.
  { clear. intros c p s t Hl Ha. split; [exact Hl|]. intros d. cbn [goto at_].
    destruct (decide (d = c)) as [->|D]; [rewrite !fn_lookup_insert; reflexivity|].
    rewrite !fn_lookup_insert_ne by congruence. apply Ha. }
  destruct e as [c|c|c]; cbn [step]; unfold call, go; rewrite (Ha c); destruct (at_ t c); rewrite ?Hl;
    try (split; assumption); apply Hg; try exact Ha; cbn [store lk]; congruence.
Qed.

Lemma demo_sched_nth k i : (i < 23)%nat → demo_sched (23 * k + i) = nth i demo_round (Go 0).
Proof.
  intros Hi. unfold demo_sched. rewrite (Nat.mul_comm 23 k), Nat.add_comm, Nat.Div0.mod_add, Nat.mod_small by exact Hi. reflexivity.
Qed.

Lemma demo_nth i : (i < 23)%nat → demo_round !! i = Some (nth i demo_round (Go 0)).
Proof.
  intros Hi. destruct (nth_lookup_or_length demo_round i (Go 0)) as [E|E]; [exact E|]. cbn in E. lia.
Qed.

(** The places that differ from the initial ones. *)
Lemma run_other frames ebp tr c s : Forall (λ e, match e with CallLock d | CallUnlock d | Go d => d ≠ c end) tr →
  at_ (run frames ebp tr s) c = at_ s c.
Proof.
  intros H. revert s. induction H as [|e tr He _ IH]; intros s; [reflexivity|]. rewrite run_cons, IH.
  apply step_other; destruct e; congruence.
Qed.

Lemma demo_other i c : c ≠ 0 → c ≠ 1 → at_ (demo_run (take i demo_round) smp_init) c = Outside.
Proof.
  intros H0 H1. rewrite run_other; [reflexivity|]. apply Forall_take.
  repeat (apply Forall_cons; split; [congruence|]). apply Forall_nil. exact I.
Qed.

Lemma demo_trace_round k i : (i ≤ 23)%nat → same_smp (demo_trace demo_sched (23 * k + i)) (demo_run (take i demo_round) smp_init).
Proof.
  revert i. induction k as [|k IHk]; intros i; induction i as [|i IHi]; intros Hi.
  - split; reflexivity.
  - rewrite Nat.add_succ_r. cbn [trace]. rewrite demo_sched_nth by lia.
    rewrite (take_S_r _ _ (nth i demo_round (Go 0))) by (apply demo_nth; lia).
    rewrite run_app. apply step_same, IHi. lia.
  - destruct (IHk 23%nat ltac:(lia)) as [Hl Ha]. rewrite Nat.add_0_r, Nat.mul_succ_r. split; [rewrite Hl; reflexivity|].
    intros c. rewrite Ha. destruct (decide (c = 0)) as [->|H0]; [reflexivity|].
    destruct (decide (c = 1)) as [->|H1]; [reflexivity|]. rewrite demo_other by assumption. reflexivity.
  - rewrite Nat.add_succ_r. cbn [trace]. rewrite demo_sched_nth by lia.
    rewrite (take_S_r _ _ (nth i demo_round (Go 0))) by (apply demo_nth; lia).
    rewrite run_app. apply step_same, IHi. lia.
Qed.

(** Facts of one round, checked state by state. *)
Definition owns_b (s : smp) (c : Z) : bool :=
  match at_ s c with LSetCpu | UXchg => true | _ => bool_decide (lk_cpu (lk s) = Some c) end.

Lemma owns_b_spec s c : owns_b s c = true ↔ owns s c.
Proof. unfold owns_b, owns. destruct (at_ s c); rewrite ?bool_decide_eq_true; tauto. Qed.

Definition round_ok (i : nat) : bool :=
  let s := demo_run (take i demo_round) smp_init in
  match nth i demo_round (Go 0) with
  | CallLock c => negb (owns_b s c)
  | CallUnlock c => owns_b s c
  | Go _ => true
  end && bool_decide (lk_cpu (lk s) ∈ [None; Some 0; Some 1]).

Lemma demo_round_ok i : (i < 23)%nat → round_ok i = true.
Proof.
  intros Hi. assert (forallb round_ok (seq 0 23) = true) as H by (vm_compute; reflexivity).
  rewrite forallb_forall in H. apply H, in_seq. lia.
Qed.

Lemma same_owns s t c : same_smp s t → owns s c ↔ owns t c.
Proof. intros [Hl Ha]. unfold owns. rewrite Hl, Ha. reflexivity. Qed.

Lemma demo_phase n : ∃ k i, n = (23 * k + i)%nat ∧ (i < 23)%nat ∧
  same_smp (demo_trace demo_sched n) (demo_run (take i demo_round) smp_init) ∧ demo_sched n = nth i demo_round (Go 0).
Proof.
  exists (n / 23)%nat, (n mod 23)%nat. pose proof (Nat.div_mod_eq n 23) as E. pose proof (Nat.mod_upper_bound n 23 ltac:(lia)) as Hi.
  split; [exact E|]. split; [exact Hi|]. split; [|reflexivity]. rewrite E at 1. apply demo_trace_round. lia.
Qed.

Lemma demo_inside n c : at_ (demo_trace demo_sched n) c ≠ Outside ∨ owns (demo_trace demo_sched n) c → c = 0 ∨ c = 1.
Proof.
  destruct (demo_phase n) as (k & i & -> & Hi & Hs & _). rewrite (same_owns _ _ c Hs), (proj2 Hs c). intros H.
  destruct (decide (c = 0)) as [|H0]; [auto|]. destruct (decide (c = 1)) as [|H1]; [auto|]. exfalso.
  pose proof (demo_other i c H0 H1) as E. pose proof (demo_round_ok i Hi) as Hr.
  unfold round_ok in Hr. apply andb_prop in Hr as [_ Hr]. apply bool_decide_eq_true in Hr.
  destruct H as [H|H]; [contradiction|]. unfold owns in H. rewrite E in H. rewrite H in Hr.
  rewrite !elem_of_cons, elem_of_nil in Hr. intuition congruence.
Qed.

Lemma demo_fair : fair demo_frames demo_ebp demo_sched.
Proof.
  split.
  - intros n c H. destruct (demo_phase n) as (k & i & -> & Hi & _).
    destruct (demo_inside _ c (or_introl H)) as [->| ->]; [exists (23 * S k + 1)%nat|exists (23 * S k + 6)%nat];
      (split; [lia|rewrite demo_sched_nth by lia; reflexivity]).
  - intros n c E H. destruct (demo_phase n) as (k & i & -> & Hi & Hs & Es). rewrite E in Es. apply (same_owns _ _ c Hs) in H.
    pose proof (demo_round_ok i Hi) as Hr. unfold round_ok in Hr. rewrite <- Es in Hr.
    apply andb_prop in Hr as [Hr _]. apply negb_true_iff in Hr. apply owns_b_spec in H. congruence.
  - intros n c E. destruct (demo_phase n) as (k & i & -> & Hi & Hs & Es). rewrite E in Es. apply (same_owns _ _ c Hs).
    pose proof (demo_round_ok i Hi) as Hr. unfold round_ok in Hr. rewrite <- Es in Hr.
    apply andb_prop in Hr as [Hr _]. apply owns_b_spec, Hr.
  - intros n c H. destruct (demo_phase n) as (k & i & -> & Hi & _).
    destruct (demo_inside _ c (or_intror H)) as [->| ->]; [exists (23 * S k + 8)%nat|exists (23 * S k + 17)%nat];
      (split; [lia|rewrite demo_sched_nth by lia; reflexivity]).
Qed.

Lemma spin_lock_live_witness :
  waits (demo_trace demo_sched 6) 1 ∧ owns (demo_trace demo_sched 6) 0 ∧
  ∃ m d, (6 ≤ m)%nat ∧ acquires demo_frames demo_ebp demo_sched m d.
Proof.
  assert (waits (demo_trace demo_sched 6) 1) as W by (vm_compute; left).
  split; [exact W|]. split; [vm_compute; reflexivity|].
  apply (spin_lock_live demo_frames demo_ebp demo_sched 6 1 demo_fair), W.
Defined.

Definition demo_free_ks : ks := set_klock None (demo_ks demo_vm).

Lemma lock_kernel_atomic_witness : ∃ n,
  let s' := demo_run (CallLock 0 :: alone n 0) smp_init in at_ s' 0 = Outside ∧ abstracts s' (Some 0).
Proof.
  destruct (lock_kernel_atomic demo_frames demo_ebp [] 0 demo_free_ks) as [H _].
  - reflexivity.
  - reflexivity.
  - intros c. split; discriminate.
  - exact H.
Defined.
