(* ===== verification/Syscall.v ===== *)
(** System calls: kern/syscall.c.  Arguments arrive as 32-bit words and are
    converted as the C prototypes say; a pointer argument is an address.  The
    eighteen functions that install a handler differ in the field they set. *)
From S2P Require Import Prelude Mmu Mem Printfmt Pages PageTable Console KState Env.

(** * inc/syscall.h *)

Definition SYS_cputs : Z := 0.
Definition SYS_cgetc : Z := 1.
Definition SYS_getenvid : Z := 2.
Definition SYS_env_destroy : Z := 3.
Definition SYS_page_alloc : Z := 4.
Definition SYS_page_map : Z := 5.
Definition SYS_page_unmap : Z := 6.
Definition SYS_exofork : Z := 7.
Definition SYS_env_set_status : Z := 8.
Definition SYS_env_set_pgfault_upcall : Z := 9.
Definition SYS_yield : Z := 10.
Definition SYS_ipc_try_send : Z := 11.
Definition SYS_ipc_recv : Z := 12.
Definition SYS_env_set_divzero_upcall : Z := 13.
Definition SYS_env_set_debug_upcall : Z := 14.
Definition SYS_env_set_nmskint_upcall : Z := 15.
Definition SYS_env_set_bpoint_upcall : Z := 16.
Definition SYS_env_set_oflow_upcall : Z := 17.
Definition SYS_env_set_bdschk_upcall : Z := 18.
Definition SYS_env_set_illopcd_upcall : Z := 19.
Definition SYS_env_set_dvcntavl_upcall : Z := 20.
Definition SYS_env_set_dbfault_upcall : Z := 21.
Definition SYS_env_set_ivldtss_upcall : Z := 22.
Definition SYS_env_set_segntprst_upcall : Z := 23.
Definition SYS_env_set_stkexception_upcall : Z := 24.
Definition SYS_env_set_gpfault_upcall : Z := 25.
Definition SYS_env_set_fperror_upcall : Z := 26.
Definition SYS_env_set_algchk_upcall : Z := 27.
Definition SYS_env_set_mchchk_upcall : Z := 28.
Definition SYS_env_set_SIMDfperror_upcall : Z := 29.
Definition NSYSCALLS : Z := 30.

(** * The system calls *)

(** The loop of case 's' of vprintfmt (lib/printfmt.c) as cprintf runs it: the
    characters that it prints of the string at [p], read by the kernel one after
    the other up to a NUL or until [precision] is used up.  With a precision it
    reads one character more than it prints; a negative precision is none. *)
Fixpoint read_chars (fuel : nat) (p precision : Z) : M pm (list Z) :=
  match fuel with
  | O => stop_with SLoop
  | S fuel =>
      c ← vld8 p;
      let ch := s8 c in
      if (ch =? 0) || ((precision >=? 0) && (precision - 1 <? 0)) then mret []
      else
        l ← read_chars fuel (w32 (p + 1)) (if precision <? 0 then precision else precision - 1);
        mret (ch :: l)
  end.

(** As many turns as there are characters to print, or addresses. *)
Definition chars_fuel (precision : Z) : nat := Z.to_nat (if precision <? 0 then 2 ^ 32 else precision + 1).

(** [cprintf("%.*s", len, s)]: the log has the characters in place of the
    address of the string. *)
Definition cprintf_chars (len s : Z) : M ks unit :=
  let precision := s32 len in
  l ← (if s =? 0 then
         mret (if precision <? 0 then bytes "(null)" else take (Z.to_nat (Z.min precision 6)) (bytes "(null)"))
       else inpm (read_chars (chars_fuel precision) s precision));
  cprintf "%.*s" (len :: l).

Definition sys_cputs (s len : Z) : M ks unit :=
  c ← curenv_deref;
  user_mem_assert c s len 0 ;;
  cprintf_chars len s.

Definition sys_cgetc : M ks Z := incon cons_getc.

Definition sys_getenvid : M ks Z := c ← curenv_deref; e ← env_get c; mret (env_id e).

Definition sys_env_destroy (envid : Z) : M ks Z :=
  r ← envid2env envid true;
  if r.1 <? 0 then mret r.1
  else
    match r.2 with
    | None => undef "NULL environment"
    | Some e =>
        c ← curenv_deref;
        ce ← env_get c;
        x ← env_get e;
        (if e =? c then cprintf "[%08x] exiting gracefully\n" [env_id ce]
         else cprintf "[%08x] destroying %08x\n" [env_id ce; env_id x]) ;;
        env_destroy e ;;
        mret 0
    end.

Definition sys_yield : M ks unit := sched_yield.

Definition sys_exofork : M ks Z :=
  c ← curenv_deref;
  ce ← env_get c;
  r ← env_alloc (env_id ce);
  if r.1 <? 0 then mret r.1
  else
    match r.2 with
    | None => undef "NULL environment"
    | Some e =>
        env_upd e (set_env_status ENV_NOT_RUNNABLE) ;;
        ce ← env_get c;
        env_upd e (set_env_tf (env_tf ce)) ;;
        env_upd e (λ x, set_env_tf (set_tf_regs (set_reg_eax 0 (tf_regs (env_tf x))) (env_tf x)) x) ;;
        x ← env_get e;
        mret (env_id x)
    end.

(** [if ((r = envid2env(envid, &e, checkperm)) < 0) return r;] *)
Definition with_env (envid : Z) (checkperm : bool) (k : Z → M ks Z) : M ks Z :=
  r ← envid2env envid checkperm;
  if r.1 <? 0 then mret r.1
  else match r.2 with Some e => k e | None => undef "NULL environment" end.

Definition sys_env_set_status (envid status : Z) : M ks Z :=
  if negb ((status =? ENV_RUNNABLE) || (status =? ENV_NOT_RUNNABLE)) then mret (- E_INVAL)
  else with_env envid true (λ e, env_upd e (set_env_status status) ;; mret 0).

(** The body that the eighteen functions share. *)
Definition sys_env_set_upcall (f : upcall) (envid func : Z) : M ks Z :=
  with_env envid true (λ e, env_upd e (set_upcall f func) ;; mret 0).

Definition sys_env_set_pgfault_upcall := sys_env_set_upcall env_pgfault_upcall.
Definition sys_env_set_divzero_upcall := sys_env_set_upcall env_divzero_upcall.
Definition sys_env_set_debug_upcall := sys_env_set_upcall env_debug_upcall.
Definition sys_env_set_nmskint_upcall := sys_env_set_upcall env_nmskint_upcall.
Definition sys_env_set_bpoint_upcall := sys_env_set_upcall env_bpoint_upcall.
Definition sys_env_set_oflow_upcall := sys_env_set_upcall env_oflow_upcall.
Definition sys_env_set_bdschk_upcall := sys_env_set_upcall env_bdschk_upcall.
Definition sys_env_set_illopcd_upcall := sys_env_set_upcall env_illopcd_upcall.
Definition sys_env_set_dvcntavl_upcall := sys_env_set_upcall env_dvcntavl_upcall.
Definition sys_env_set_dbfault_upcall := sys_env_set_upcall env_dbfault_upcall.
Definition sys_env_set_ivldtss_upcall := sys_env_set_upcall env_ivldtss_upcall.
Definition sys_env_set_segntprst_upcall := sys_env_set_upcall env_segntprst_upcall.
Definition sys_env_set_stkexception_upcall := sys_env_set_upcall env_stkexception_upcall.
Definition sys_env_set_gpfault_upcall := sys_env_set_upcall env_gpfault_upcall.
Definition sys_env_set_fperror_upcall := sys_env_set_upcall env_fperror_upcall.
Definition sys_env_set_algchk_upcall := sys_env_set_upcall env_algchk_upcall.
Definition sys_env_set_mchchk_upcall := sys_env_set_upcall env_mchchk_upcall.
Definition sys_env_set_SIMDfperror_upcall := sys_env_set_upcall env_SIMDfperror_upcall.

(** [va >= UTOP || ROUNDUP(va, PGSIZE) != va] *)
Definition bad_va (va : Z) : bool := (va >=? UTOP) || negb (ROUNDUP va PGSIZE =? va).
(** [(perm & (PTE_U | PTE_P)) != (PTE_U | PTE_P)] *)
Definition bad_perm (perm : Z) : bool :=
  negb (Z.land perm (Z.lor PTE_U PTE_P) =? Z.lor PTE_U PTE_P).

Definition sys_page_alloc (envid va perm : Z) : M ks Z :=
  with_env envid true (λ e,
    if bad_va va then mret (- E_INVAL)
    else if bad_perm perm then mret (- E_INVAL)
    else
      pp ← inpm (page_alloc 1);
      match pp with
      | None => mret E_NO_MEM
      | Some pp =>
          inpm (incr_ref pp) ;;
          x ← env_get e;
          r ← inpm_cur (λ cur, page_insert cur (env_pgdir x) pp va perm);
          if r <? 0 then inpm (page_free pp) ;; mret r else mret 0
      end).

Definition sys_page_map (srcenvid srcva dstenvid dstva perm : Z) : M ks Z :=
  with_env srcenvid true (λ srce,
  with_env dstenvid true (λ dste,
    if bad_va srcva || bad_va dstva then mret (- E_INVAL)
    else
      xs ← env_get srce;
      r ← inpm (page_lookup (env_pgdir xs) srcva);
      match r with
      | (Some pp, Some ppte) =>
          if bad_perm perm then mret (- E_INVAL)
          else
            pte ← inpm (kld32 ppte);
            if ctrue (Z.land perm PTE_W) && negb (ctrue (Z.land pte PTE_W)) then mret (- E_INVAL)
            else
              xd ← env_get dste;
              inpm_cur (λ cur, page_insert cur (env_pgdir xd) pp dstva perm)
      | _ => mret (- E_INVAL)
      end)).

Definition sys_page_unmap (envid va : Z) : M ks Z :=
  with_env envid false (λ e,
    if bad_va va then mret (- E_INVAL)
    else
      x ← env_get e;
      inpm_cur (λ cur, page_remove cur (env_pgdir x) va) ;;
      mret 0).

(** The receiver is not receiving: the sender is blocked and queued if there
    is room, and the queue is printed. *)
Definition ipc_enqueue (e : Z) : M ks Z :=
  x ← env_get e;
  when (negb ((env_ipc_waiting_tail x + 1) mod MAXIPCWAITING =? env_ipc_waiting_head x))
    (c ← curenv_deref;
     env_upd c (set_env_status ENV_NOT_RUNNABLE) ;;
     ce ← env_get c;
     env_upd e (λ x, set_env_ipc_waiting
       (<[Z.to_nat (env_ipc_waiting_tail x) := env_id ce]> (env_ipc_waiting x)) x) ;;
     env_upd e (λ x, set_env_ipc_waiting_tail ((env_ipc_waiting_tail x + 1) mod MAXIPCWAITING) x)) ;;
  x ← env_get e;
  for_range (Z.to_nat MAXIPCWAITING) 0 1 (λ i,
    cprintf "%x " [nth (Z.to_nat ((i + env_ipc_waiting_head x) mod MAXIPCWAITING)) (env_ipc_waiting x) 0]) ;;
  cprintf "\n" [] ;;
  mret (- E_IPC_NOT_RECV).

(** The page transfer: 0, or the error to return. *)
Definition ipc_transfer (e srcva perm : Z) : M ks Z :=
  if srcva <? UTOP then
    if negb (ROUNDUP srcva PGSIZE =? srcva) then mret (- E_INVAL)
    else
      c ← curenv_deref;
      ce ← env_get c;
      r ← inpm (page_lookup (env_pgdir ce) srcva);
      match r with
      | (Some pp, Some ppte) =>
          pte ← inpm (kld32 ppte);
          if negb (Z.land perm pte =? perm) then mret (- E_INVAL)
          else if ctrue (Z.land perm PTE_W) && negb (ctrue (Z.land pte PTE_W)) then mret (- E_INVAL)
          else
            x ← env_get e;
            if env_ipc_dstva x <? UTOP then
              r ← inpm_cur (λ cur, page_insert cur (env_pgdir x) pp (env_ipc_dstva x) perm);
              if r <? 0 then mret r
              else env_upd e (set_env_ipc_perm (s32 perm)) ;; mret 0
            else mret 0
      | _ => mret (- E_INVAL)
      end
  else env_upd e (set_env_ipc_perm 0) ;; mret 0.

Definition sys_ipc_try_send (envid value srcva perm : Z) : M ks Z :=
  with_env envid false (λ e,
    x ← env_get e;
    if negb (env_ipc_recving x) then ipc_enqueue e
    else
      r ← ipc_transfer e srcva perm;
      if r <? 0 then mret r
      else
        c ← curenv_deref;
        ce ← env_get c;
        env_upd e (set_env_ipc_recving false) ;;
        env_upd e (set_env_ipc_from (env_id ce)) ;;
        env_upd e (set_env_ipc_value value) ;;
        env_upd e (set_env_status ENV_RUNNABLE) ;;
        env_upd e (λ x, set_env_tf (set_tf_regs (set_reg_eax 0 (tf_regs (env_tf x))) (env_tf x)) x) ;;
        mret 0).

Definition sys_ipc_recv (dstva : Z) : M ks Z :=
  if (dstva <? UTOP) && negb (ROUNDUP dstva PGSIZE =? dstva) then mret (- E_INVAL)
  else
    c ← curenv_deref;
    env_upd c (set_env_ipc_recving true) ;;
    env_upd c (set_env_ipc_dstva dstva) ;;
    env_upd c (set_env_status ENV_NOT_RUNNABLE) ;;
    x ← env_get c;
    r ← (if negb (env_ipc_waiting_head x =? env_ipc_waiting_tail x) then
           let envid := nth (Z.to_nat (env_ipc_waiting_head x)) (env_ipc_waiting x) 0 in
           env_upd c (set_env_ipc_waiting_head ((env_ipc_waiting_head x + 1) mod MAXIPCWAITING)) ;;
           with_env envid false (λ e, env_upd e (set_env_status ENV_RUNNABLE) ;; mret 0)
         else mret 0);
    if r <? 0 then mret r
    else sys_yield ;; mret 0.

(** * Dispatch *)

Definition syscall (syscallno a1 a2 a3 a4 a5 : Z) : M ks Z :=
  if syscallno =? SYS_cputs then sys_cputs a1 a2 ;; mret 0
  else if syscallno =? SYS_cgetc then sys_cgetc
  else if syscallno =? SYS_getenvid then sys_getenvid
  else if syscallno =? SYS_env_destroy then sys_env_destroy (s32 a1) ;; mret 0
  else if syscallno =? SYS_yield then sys_yield ;; mret 0
  else if syscallno =? SYS_exofork then sys_exofork
  else if syscallno =? SYS_env_set_status then sys_env_set_status (s32 a1) (s32 a2)
  else if syscallno =? SYS_page_alloc then sys_page_alloc (s32 a1) a2 (s32 a3)
  else if syscallno =? SYS_page_map then sys_page_map (s32 a1) a2 (s32 a3) a4 (s32 a5)
  else if syscallno =? SYS_page_unmap then sys_page_unmap (s32 a1) a2
  else if syscallno =? SYS_env_set_pgfault_upcall then sys_env_set_pgfault_upcall (s32 a1) a2
  else if syscallno =? SYS_ipc_recv then sys_ipc_recv a1
  else if syscallno =? SYS_ipc_try_send then sys_ipc_try_send (s32 a1) a2 a3 a4
  else if syscallno =? SYS_env_set_divzero_upcall then sys_env_set_divzero_upcall (s32 a1) a2
  else if syscallno =? SYS_env_set_debug_upcall then sys_env_set_debug_upcall (s32 a1) a2
  else if syscallno =? SYS_env_set_nmskint_upcall then sys_env_set_nmskint_upcall (s32 a1) a2
  else if syscallno =? SYS_env_set_bpoint_upcall then sys_env_set_bpoint_upcall (s32 a1) a2
  else if syscallno =? SYS_env_set_oflow_upcall then sys_env_set_oflow_upcall (s32 a1) a2
  else if syscallno =? SYS_env_set_bdschk_upcall then sys_env_set_bdschk_upcall (s32 a1) a2
  else if syscallno =? SYS_env_set_illopcd_upcall then sys_env_set_illopcd_upcall (s32 a1) a2
  else if syscallno =? SYS_env_set_dvcntavl_upcall then sys_env_set_dvcntavl_upcall (s32 a1) a2
  else if syscallno =? SYS_env_set_dbfault_upcall then sys_env_set_dbfault_upcall (s32 a1) a2
  else if syscallno =? SYS_env_set_ivldtss_upcall then sys_env_set_ivldtss_upcall (s32 a1) a2
  else if syscallno =? SYS_env_set_segntprst_upcall then sys_env_set_segntprst_upcall (s32 a1) a2
  else if syscallno =? SYS_env_set_stkexception_upcall then sys_env_set_stkexception_upcall (s32 a1) a2
  else if syscallno =? SYS_env_set_gpfault_upcall then sys_env_set_gpfault_upcall (s32 a1) a2
  else if syscallno =? SYS_env_set_fperror_upcall then sys_env_set_fperror_upcall (s32 a1) a2
  else if syscallno =? SYS_env_set_algchk_upcall then sys_env_set_algchk_upcall (s32 a1) a2
  else if syscallno =? SYS_env_set_mchchk_upcall then sys_env_set_mchchk_upcall (s32 a1) a2
  else if syscallno =? SYS_env_set_SIMDfperror_upcall then sys_env_set_SIMDfperror_upcall (s32 a1) a2
  else mret (- E_NO_SYS).
