(* ===== verification/SyscallSpec.v ===== *)
(** Properties of the system calls of kern/syscall.c: what they do to address
    spaces, to environments and to the queue of waiting senders. *)
From S2P Require Import Prelude Mmu Mem Pages PageTable AddrSpace Console KState Env EnvVm EnvSpec Syscall.

(** * The invariant of the kernel *)

Definition live (k : ks) (i : Z) (e : Env) : Prop :=
  envs k !! i = Some e ∧ env_status e ≠ ENV_FREE.

(** [kinv k l R x cur]: virtual memory is in order, there is a slot for every
    index, the environments in use own distinct address spaces, and the
    current environment is one of them. *)
Record kinv (k : ks) (l R : list Z) (x : Z → Z) (cur : Z) : Prop := {
  ki_vm : vm_inv (kpm k) l R x;
  ki_envs : ∀ i, is_Some (envs k !! i) ↔ 0 ≤ i < NENV;
  ki_live : ∀ i e, live k i e → ∃ pd, pd ∈ R ∧ env_pgdir e = kva_of pd;
  ki_inj : ∀ i j e f, live k i e → live k j f → env_pgdir e = env_pgdir f → i = j;
  ki_cur : ∃ c e, cpus k !! cpunum k = Some c ∧ cpu_env c = Some cur ∧ live k cur e
}.

Section kinv.
Implicit Types (k : ks) (l R : list Z) (x : Z → Z).

Lemma kinv_pm k l R x cur s l' x' : kinv k l R x cur → vm_inv s l' R x' →
  kinv (set_kpm s k) l' R x' cur.
Proof. intros [] Hs. split; auto. Qed.

Lemma curenv_deref_run k l R x cur : kinv k l R x cur → curenv_deref k = Ret cur k.
Proof.
  intros H. destruct (ki_cur _ _ _ _ _ H) as (c & e & Hc & Hcur & _). unfold curenv_deref.
  rewrite (bind_Ret _ _ _ _ _ (curenv_eq k c Hc)), Hcur. reflexivity.
Qed.

Lemma with_env_ok k envid chk i K : envid2env envid chk k = Ret (0, Some i) k →
  with_env envid chk K k = K i k.
Proof. intros E. unfold with_env. rewrite (bind_Ret _ _ _ _ _ E). reflexivity. Qed.

Lemma with_env_bad k envid chk K : envid2env envid chk k = Ret (- E_BAD_ENV, None) k →
  with_env envid chk K k = Ret (- E_BAD_ENV) k.
Proof. intros E. unfold with_env. rewrite (bind_Ret _ _ _ _ _ E). reflexivity. Qed.

(** What envid2env answers is a live environment. *)
Lemma envid2env_live k l R x cur envid chk i : kinv k l R x cur →
  envid2env envid chk k = Ret (0, Some i) k → ∃ e, live k i e.
Proof.
  intros H E. destruct (ki_cur _ _ _ _ _ H) as (c & ce & Hc & Hcur & Hl). unfold envid2env in E.
  destruct (envid =? 0).
  - rewrite (bind_Ret _ _ _ _ _ (curenv_eq k c Hc)), Hcur in E. injection E as <-. eauto.
  - assert (is_Some (envs k !! ENVX envid)) as [e He].
    { apply (ki_envs _ _ _ _ _ H). rewrite ENVX_mod. apply Z.mod_pos_bound. reflexivity. }
    rewrite (bind_Ret _ _ _ _ _ (env_get_eq k _ e He)) in E.
    destruct (Z.eqb_spec (env_status e) ENV_FREE) as [|Hs]; [discriminate|].
    destruct (_ || _); [discriminate|]. rewrite (bind_Ret _ _ _ _ _ (curenv_eq k c Hc)) in E.
    apply bind_Ret_inv in E as (d & s1 & _ & E). destruct d; [discriminate|].
    injection E as <- <-. exists e. split; assumption.
Qed.

(** Pages in use by an address space. *)
Lemma live_root k l R x cur i e : kinv k l R x cur → live k i e →
  ∃ pd, pd ∈ R ∧ env_pgdir e = kva_of pd ∧ 0 ≤ pd < npages (kpm k).
Proof.
  intros H Hl. destruct (ki_live _ _ _ _ _ H i e Hl) as (pd & Hpd & E). exists pd.
  split; [assumption|]. split; [assumption|]. apply (vm_root_used _ _ _ _ _ (ki_vm _ _ _ _ _ H) Hpd).
Qed.

Lemma inpm_cur_Ret {A} (m : option Z → M pm A) k a t :
  m (cur_pgdir k) (kpm k) = Ret a t → inpm_cur m k = Ret a (set_kpm t k).
Proof. intros E. unfold inpm_cur. apply inpm_Ret. exact E. Qed.

Lemma good_va va : bad_va va = false → u32_range va → user_va va ∧ va mod PGSIZE = 0.
Proof.
  unfold bad_va. intros H Hu. apply orb_false_iff in H as [H1 H2]. apply negb_false_iff, Z.eqb_eq in H2.
  rewrite Z.geb_leb in H1. apply Z.leb_gt in H1. split; [split; [apply Hu|assumption]|].
  rewrite <- H2. apply ROUNDUP_aligned. reflexivity.
Qed.
End kinv.

(** * sys_page_alloc *)

(** The memory after a page has been taken and cleared. *)
Lemma take_zero k l R x cur p h : kinv k (p :: l) R x cur → pages (kpm k) !! p = Some h →
  let s := with_phys (memset (phys (kpm k)) (p * PGSIZE) 0 PGSIZE) (take_state p (pp_link h) (kpm k)) in
  vm_inv s l R (held p x) ∧
  (∀ pd v, pd ∈ R → 0 ≤ v < UVPN → pte_of (phys s) pd v = pte_of (phys (kpm k)) pd v) ∧
  (∀ pd i, pd ∈ R → 0 ≤ i < UPDX → pt_of (phys s) pd i = pt_of (phys (kpm k)) pd i).
Proof.
  intros H Hh s. pose proof (ki_vm _ _ _ _ _ H) as Hvm.
  destruct (vm_free_unused _ _ _ _ p Hvm (list_elem_of_here _ _)) as (HR & Hpt & _).
  assert (∀ q j, 0 ≤ j < 1024 → q ≠ p → wd (phys s) q j = wd (phys (kpm k)) q j) as He.
  { intros q j Hj Hq. unfold s. psimpl. rewrite wd_memset, decide_False by assumption. reflexivity. }
  split; [|split].
  - apply (vm_write_data _ _ _ _ p _ (vm_take _ _ _ _ p h Hvm Hh) HR Hpt He).
  - intros. eapply same_pte_of; eassumption.
  - intros. eapply same_pt_of; eassumption.
Qed.

Lemma page_alloc_take k l R x p : vm_inv (kpm k) (p :: l) R x →
  ∃ h, pages (kpm k) !! p = Some h ∧
  inpm (page_alloc 1) k = Ret (Some p) (set_kpm (alloc_state true p (pp_link h) (kpm k)) k) ∧
  incr_ref p (alloc_state true p (pp_link h) (kpm k))
  = Ret tt (with_phys (memset (phys (kpm k)) (p * PGSIZE) 0 PGSIZE) (take_state p (pp_link h) (kpm k))).
Proof.
  intros H. destruct (page_alloc_some 1 (kpm k) p l (vm_pages _ _ _ _ H)) as (h & Hh & E).
  exists h. split; [assumption|]. split; [apply inpm_Ret; exact E|].
  rewrite (incr_ref_eq _ _ (MkPageInfo None 0)) by apply lookup_insert_eq.
  unfold alloc_state, take_state. unfold with_phys, with_pages, with_free_list. psimpl.
  rewrite insert_insert_eq. reflexivity.
Qed.

(** [page_new s l R x pd v p perm s' l2]: the page [p] at the head of the free
    list [p :: l] was cleared, counted and mapped as page number [v] of [pd]. *)
Record page_new (s : pm) (l R : list Z) (x : Z → Z) (pd v p perm : Z) (s' : pm) (l2 : list Z) : Prop := {
  nw_inv : vm_inv s' l2 R (held p x);
  nw_pte : ∀ pd' v', pd' ∈ R → 0 ≤ v' < UVPN → pte_of (phys s') pd' v'
    = if decide (pd' = pd ∧ v' = v)
      then Some (Z.lor (p * PGSIZE) (Z.lor perm PTE_P)) else pte_of (phys s) pd' v';
  nw_zero : ∀ j, 0 ≤ j < 1024 → wd (phys s') p j = 0;
  nw_ref : ∃ j, pages s' !! p = Some j ∧ pp_ref j = 2;
  nw_data : data_same (phys s) (phys s') R (p :: l);
  nw_is_pt : ∀ q, is_pt (phys s') R q → q ∈ p :: l ∨ is_pt (phys s) R q;
  nw_kern : kern_pgdir s' = kern_pgdir s ∧ cr3 s' = cr3 s;
  nw_pde : ∀ pd' i, pd' ∈ R → 0 ≤ i < UPDX → wd (phys s') pd' i = wd (phys s) pd' i ∨
    pd' = pd ∧ i = v / 1024 ∧ pt_of (phys s) pd i = None ∧ ∃ t, 0 ≤ t < npages s ∧ wd (phys s') pd' i = pde_for t;
  nw_room : (length l ≤ length l2 + new_table (phys s) pd (v / 1024))%nat;
  nw_npages : npages s' = npages s;
  nw_refs : ∀ q j', q ∉ p :: l → pages s' !! q = Some j' → ∃ j, pages s !! q = Some j ∧ pp_ref j' ≤ pp_ref j
}.

Record allocated k k' (l R : list Z) (x : Z → Z) (cur pd v p perm : Z) (l2 : list Z) : Prop := {
  al_kinv : kinv k' l2 R (held p x) cur;
  al_state : ∃ s, k' = set_kpm s k ∧ page_new (kpm k) l R x pd v p perm s l2
}.

(** The insertion of the cleared page [p] of state [s1], which holds one
    reference to it. *)
Lemma inserted_new k l R x cur pd va p perm h s1 s2 l2 : kinv k (p :: l) R x cur → pd ∈ R → user_va va →
  perm_ok perm → pages (kpm k) !! p = Some h →
  s1 = with_phys (memset (phys (kpm k)) (p * PGSIZE) 0 PGSIZE) (take_state p (pp_link h) (kpm k)) →
  inserted s1 l R (held p x) pd (va / PGSIZE) p (Z.lor (p * PGSIZE) (Z.lor perm PTE_P)) s2 l2 →
  page_new (kpm k) l R x pd (va / PGSIZE) p perm s2 l2.
Proof.
  intros H Hpd Huva Hperm Hh E1 I. pose proof (ki_vm _ _ _ _ _ H) as Hvm.
  destruct (take_zero k l R x cur p h H Hh) as (Hvm1 & Hpte1 & Hpt1). cbv zeta in *. rewrite <- E1 in *.
  destruct (vm_free_unused _ _ _ _ p Hvm (list_elem_of_here _ _)) as (HR & Hpt & Hmap).
  pose proof (held_in_use _ _ _ _ _ (vm_x _ _ _ _ Hvm) Hvm1) as Hpl.
  destruct (user_va_idx va Huva) as (_ & _ & _ & _ & Hv). destruct I as [Hvm2 Hpte2 Href2 Hdata2 Hisp2 Hnp2 Hkern2 Hpde2 Hroom].
  assert (pages s1 !! p = Some (MkPageInfo None 1)) as Hp1 by (rewrite E1; apply lookup_insert_eq).
  assert (∀ q j, 0 ≤ j < 1024 → q ≠ p → wd (phys s1) q j = wd (phys (kpm k)) q j) as Hw1.
  { intros q j Hj Hq. rewrite E1. psimpl. rewrite wd_memset, decide_False by assumption. reflexivity. }
  assert (∀ q, is_pt (phys s1) R q ↔ is_pt (phys (kpm k)) R q) as Hip by (intros q; apply is_pt_ext; assumption).
  split.
  - exact Hvm2.
  - intros pd' v Hpd' Hv'. rewrite Hpte2 by assumption. case_decide; [reflexivity|]. apply Hpte1; assumption.
  - intros j Hj. rewrite Hdata2; try assumption; try (intros; contradiction).
    + rewrite E1. psimpl. rewrite wd_memset, decide_True by auto. reflexivity.
    + rewrite Hip. exact Hpt.
  - assert (page_of (phys s2) pd (va / PGSIZE) = Some p) as G.
    { unfold page_of. rewrite Hpte2, decide_True by auto. cbn [fmap option_fmap option_map]. f_equal.
      apply frame_of_page; [|apply lor_perm_range; [assumption|split; reflexivity || discriminate]].
      pose proof (page_inv_free_bound _ _ p (vm_pages _ _ _ _ Hvm) (list_elem_of_here _ _)).
      pose proof (vm_npages _ _ _ _ Hvm). lia. }
    destruct (vm_data _ _ _ _ Hvm2 _ _ _ Hpd Hv G) as [Hb _].
    destruct (page_inv_lookup _ _ p (vm_pages _ _ _ _ Hvm2) Hb) as [j Hj]. exists j. split; [exact Hj|].
    destruct (Href2 p j Hpl Hj) as (j0 & Hj0 & ->).
    assert (j0 = MkPageInfo None 1) as -> by congruence.
    rewrite bool_decide_eq_true_2, bool_decide_eq_false_2 by (reflexivity ||
      (unfold page_of; rewrite Hpte1 by assumption; apply Hmap; assumption)).
    reflexivity.
  - intros q j Hj Hql HqR Hqpt. rewrite not_elem_of_cons in Hql. rewrite Hdata2; try tauto; [apply Hw1; tauto|].
    rewrite Hip. exact Hqpt.
  - intros q Hq. destruct (Hisp2 q Hq) as [F|F]; [left; apply list_elem_of_further, F|right; apply Hip, F].
  - destruct Hkern2 as [-> ->]. rewrite E1. split; reflexivity.
  - intros pd' i Hpd' Hi. assert (pd' ≠ p) as Hne by (intros ->; contradiction). assert (0 ≤ i < 1024) as Hi' by (unfold UPDX in Hi; lia).
    destruct (Hpde2 pd' i Hpd' Hi) as [E|(-> & Ei & Hn & t & Ht & E)]; [left; rewrite E; apply Hw1; assumption|].
    right. split; [reflexivity|]. split; [exact Ei|]. split; [rewrite <- Hpt1 by assumption; exact Hn|]. exists t. split; [rewrite E1 in Ht; exact Ht|exact E].
  - unfold new_table in *. rewrite Hpt1 in Hroom by (assumption || apply (vpn_idx _ Hv)). exact Hroom.
  - rewrite Hnp2, E1. reflexivity.
  - intros q j' Hq Hj'. apply not_elem_of_cons in Hq as [Hqp Hql]. destruct (Href2 q j' Hql Hj') as (j & Hj & ->). exists j.
    rewrite (bool_decide_eq_false_2 (q = p)) by assumption. split; [|unfold ind; case_bool_decide; cbn; lia].
    rewrite <- Hj, E1. symmetry. apply lookup_insert_ne. congruence.
Qed.

(** With no free page and no page table at its address an insertion fails. *)
Lemma insert_nomem cur s R x pd pp va perm : vm_inv s [] R x → pd ∈ R → user_va va → pt_of (phys s) pd (PDX va) = None →
  page_insert cur (kva_of pd) pp va perm s = Ret (- E_NO_MEM) s.
Proof.
  intros H Hpd Hva Hn. destruct (walk_create s [] R x pd va H Hpd Hva) as [(_ & _ & E)|(t & s1 & l1 & E & W)].
  - unfold page_insert. rewrite (bind_Ret _ _ _ _ _ E). reflexivity.
  - pose proof (walk_nomem s pd va Hn (vm_pages _ _ _ _ H)) as F. congruence.
Qed.

Lemma sys_page_alloc_empty k R x cur envid va perm i : kinv k [] R x cur →
  envid2env envid true k = Ret (0, Some i) k → bad_va va = false → bad_perm perm = false →
  sys_page_alloc envid va perm k = Ret E_NO_MEM k.
Proof.
  intros H Henv Hbva Hbperm.
  unfold sys_page_alloc. rewrite (with_env_ok _ _ _ _ _ Henv). cbv beta. rewrite Hbva, Hbperm.
  rewrite (bind_Ret _ _ _ _ _ (inpm_Ret _ _ _ _ (page_alloc_none 1 _ (vm_pages _ _ _ _ (ki_vm _ _ _ _ _ H))))).
  rewrite set_kpm_same. reflexivity.
Qed.

(** The state in which the insertion of page [p] has failed: the page has left
    the free list, is cleared and has the reference that sys_page_alloc took. *)
Definition alloc_failed (k : ks) (p : Z) (k' : ks) : Prop := ∃ h, pages (kpm k) !! p = Some h ∧
  k' = set_kpm (with_phys (memset (phys (kpm k)) (p * PGSIZE) 0 PGSIZE) (take_state p (pp_link h) (kpm k))) k.

(** The page at the head of the free list is mapped, unless the last free page
    would have to serve for the page table as well. *)
Lemma sys_page_alloc_cases k l R x cur envid va perm i e pd p :
  kinv k (p :: l) R x cur → envid2env envid true k = Ret (0, Some i) k → envs k !! i = Some e →
  env_pgdir e = kva_of pd → pd ∈ R → u32_range va → bad_va va = false →
  perm_ok perm → bad_perm perm = false →
  if decide (l = [] ∧ pt_of (phys (kpm k)) pd (PDX va) = None)
  then ∃ k', alloc_failed k p k' ∧ sys_page_alloc envid va perm k = Stop (SPanic "page_free: pp->pp_ref is nonzero!") k'
  else ∃ k' l2, sys_page_alloc envid va perm k = Ret 0 k' ∧ allocated k k' l R x cur pd (va / PGSIZE) p perm l2.
Proof.
  intros H Henv He Hpg Hpd Hva Hbva Hperm Hbperm. destruct (good_va va Hbva Hva) as [Huva _].
  unfold sys_page_alloc. rewrite (with_env_ok _ _ _ _ _ Henv). cbv beta. rewrite Hbva, Hbperm.
  pose proof (ki_vm _ _ _ _ _ H) as Hvm.
  destruct (page_alloc_take k l R x p Hvm) as (h & Hh & Ea & Ei).
  destruct (take_zero k l R x cur p h H Hh) as (Hvm1 & Hpte1 & Hpt1). cbv zeta in *.
  set (s1 := with_phys _ _) in *.
  rewrite (bind_Ret _ _ _ _ _ Ea). erewrite bind_Ret by (apply inpm_Ret; exact Ei). ksimpl.
  change (set_kpm s1 (set_kpm _ k)) with (set_kpm s1 k).
  rewrite (bind_Ret _ _ _ _ _ (env_get_eq (set_kpm s1 k) i e He)), Hpg.
  destruct (vm_free_unused _ _ _ _ p Hvm (list_elem_of_here _ _)) as (HR & Hpt & Hmap).
  pose proof (held_in_use _ _ _ _ _ (vm_x _ _ _ _ Hvm) Hvm1) as Hpl.
  assert (pages s1 !! p = Some (MkPageInfo None 1)) as Hp1 by apply lookup_insert_eq.
  assert (pt_of (phys s1) pd (PDX va) = pt_of (phys (kpm k)) pd (PDX va)) as Hpt0 by (apply Hpt1; [assumption|apply (user_va_idx va Huva)]).
  case_decide as D.
  - destruct D as [-> Hn]. rewrite <- Hpt0 in Hn. exists (set_kpm s1 k). split; [exists h; auto|].
    rewrite (bind_Ret _ _ _ _ _ (inpm_cur_Ret _ _ _ _ (insert_nomem (cur_pgdir (set_kpm s1 k)) s1 R (held p x) pd p va perm Hvm1 Hpd Huva Hn))).
    change (- E_NO_MEM <? 0) with true. cbv iota. apply bind_Stop. apply (inpm_Stop (page_free p) (set_kpm s1 k)). unfold page_free.
    erewrite bind_Ret by (apply page_get_eq; exact Hp1). reflexivity.
  - destruct (insert_run (cur_pgdir (set_kpm s1 k)) s1 l R (held p x) pd p va perm _ Hvm1 Hpd Huva Hp1)
      as [(Ept & El & _)|(s2 & l2 & E & I)]; try assumption; try reflexivity.
    { intros F. apply Hpt, (is_pt_ext (phys (kpm k)) (phys s1)); assumption. }
    { exfalso. apply D. rewrite <- Hpt0. auto. }
    exists (set_kpm s2 (set_kpm s1 k)), l2.
    rewrite (bind_Ret _ _ _ _ _ (inpm_cur_Ret _ _ _ _ E)). split; [reflexivity|].
    rewrite set_kpm_set_kpm. pose proof (inserted_new k l R x cur pd va p perm h s1 s2 l2 H Hpd Huva Hperm Hh eq_refl I) as Nw.
    split; [apply (kinv_pm k (p :: l) R x); [exact H|apply Nw]|exists s2; auto].
Qed.

Lemma sys_page_alloc_run k l R x cur envid va perm i e pd p :
  kinv k (p :: l) R x cur → envid2env envid true k = Ret (0, Some i) k → envs k !! i = Some e →
  env_pgdir e = kva_of pd → pd ∈ R → u32_range va → bad_va va = false →
  perm_ok perm → bad_perm perm = false →
  (l = [] ∧ pt_of (phys (kpm k)) pd (PDX va) = None ∧
     ∃ k', sys_page_alloc envid va perm k = Stop (SPanic "page_free: pp->pp_ref is nonzero!") k') ∨
  ∃ k' l2, sys_page_alloc envid va perm k = Ret 0 k' ∧ allocated k k' l R x cur pd (va / PGSIZE) p perm l2.
Proof.
  intros H Henv He Hpg Hpd Hva Hbva Hperm Hbperm.
  pose proof (sys_page_alloc_cases k l R x cur envid va perm i e pd p H Henv He Hpg Hpd Hva Hbva Hperm Hbperm) as G.
  case_decide as D; [left|right; exact G]. destruct D, G as (k' & _ & E). eauto.
Qed.

(** What envid2env answers: an error, or a live environment with its page
    directory. *)
Lemma envid2env_cases k l R x cur envid chk : kinv k l R x cur →
  envid2env envid chk k = Ret (- E_BAD_ENV, None) k ∨
  ∃ i e pd, envid2env envid chk k = Ret (0, Some i) k ∧ envs k !! i = Some e ∧ env_pgdir e = kva_of pd ∧ pd ∈ R.
Proof.
  intros H. destruct (ki_cur _ _ _ _ _ H) as (c & ce & Hc & Hcur & Hl & _).
  assert (∀ i, envid2env envid chk k = Ret (0, Some i) k → ∃ i e pd, envid2env envid chk k = Ret (0, Some i) k ∧
    envs k !! i = Some e ∧ env_pgdir e = kva_of pd ∧ pd ∈ R) as G.
  { intros i E. destruct (envid2env_live k l R x cur envid chk i H E) as [e He].
    destruct (live_root k l R x cur i e H He) as (pd & Hpd & Ep & _). exists i, e, pd. split; [exact E|]. split; [apply He|auto]. }
  destruct (envid2env_run k c cur ce envid chk Hc Hcur Hl) as [H0 Hn]; [intros i Hi; apply (ki_envs _ _ _ _ _ H), Hi|].
  destruct (Z.eq_dec envid 0) as [E0|E0]; [right; apply (G cur), H0, E0|].
  destruct (Hn E0) as (e & _ & E). case_decide; [right; apply (G _ E)|left; exact E].
Qed.

(** C24. [sys_page_alloc], on every branch.  An id that envid2env refuses is
    -E_BAD_ENV; an address that is not aligned or not below UTOP, or permission
    bits without PTE_U and PTE_P, are -E_INVAL; and without a free page the
    result is E_NO_MEM, positive where the comment on the function says that
    errors are negative.  All these leave the state as it was.  With a first
    free page [p]: if it is also the last and the address has no page table,
    the insertion fails and page_free panics, because sys_page_alloc has
    already counted a reference; [p] has then left the free list, cleared and
    with that reference, and nothing else has changed.  Otherwise the call
    returns 0: [va] is mapped to [p] with [perm] and no other mapping has
    changed, the page reads as zero, the invariant holds, and the page has two
    references, one more than the mapping accounts for. *)
Theorem sys_page_alloc_spec (k : ks) (l R : list Z) (x : Z → Z) (cur envid va perm : Z) :
  kinv k l R x cur → u32_range va → perm_ok perm →
  (envid2env envid true k = Ret (- E_BAD_ENV, None) k ∧ sys_page_alloc envid va perm k = Ret (- E_BAD_ENV) k) ∨
  ∃ i e pd, envid2env envid true k = Ret (0, Some i) k ∧ envs k !! i = Some e ∧ env_pgdir e = kva_of pd ∧ pd ∈ R ∧
    if bad_va va || bad_perm perm then sys_page_alloc envid va perm k = Ret (- E_INVAL) k else
    match l with
    | [] => sys_page_alloc envid va perm k = Ret E_NO_MEM k
    | p :: l' =>
        if decide (l' = [] ∧ pt_of (phys (kpm k)) pd (PDX va) = None)
        then ∃ k', alloc_failed k p k' ∧
          sys_page_alloc envid va perm k = Stop (SPanic "page_free: pp->pp_ref is nonzero!") k'
        else ∃ k' l2, sys_page_alloc envid va perm k = Ret 0 k' ∧ kinv k' l2 R (held p x) cur ∧ envs k' = envs k ∧
          (∀ pd' v, pd' ∈ R → 0 ≤ v < UVPN → pte_of (phys (kpm k')) pd' v
             = if decide (pd' = pd ∧ v = va / PGSIZE)
               then Some (Z.lor (p * PGSIZE) (Z.lor perm PTE_P)) else pte_of (phys (kpm k)) pd' v) ∧
          (∀ j, 0 ≤ j < 1024 → wd (phys (kpm k')) p j = 0) ∧
          (∃ j, pages (kpm k') !! p = Some j ∧ pp_ref j = 2)
    end.
Proof.
  intros H Hva Hperm. destruct (envid2env_cases k l R x cur envid true H) as [E|(i & e & pd & Henv & He & Hpg & Hpd)].
  { left. split; [exact E|apply with_env_bad, E]. }
  right. exists i, e, pd. do 4 (split; [assumption|]).
  destruct (bad_va va) eqn:Hbva; [|destruct (bad_perm perm) eqn:Hbperm]; cbn [orb].
  1, 2: unfold sys_page_alloc; rewrite (with_env_ok _ _ _ _ _ Henv); cbv beta; rewrite Hbva, ?Hbperm; reflexivity.
  destruct l as [|p l']; [apply (sys_page_alloc_empty k R x cur envid va perm i); assumption|].
  pose proof (sys_page_alloc_cases k l' R x cur envid va perm i e pd p H Henv He Hpg Hpd Hva Hbva Hperm Hbperm) as G.
  case_decide; [exact G|]. destruct G as (k' & l2 & E & [Hk (s & -> & Nw)]).
  exists (set_kpm s k), l2. split; [exact E|]. split; [exact Hk|]. split; [reflexivity|].
  split; [apply (nw_pte _ _ _ _ _ _ _ _ _ _ Nw)|]. split; [apply (nw_zero _ _ _ _ _ _ _ _ _ _ Nw)|apply (nw_ref _ _ _ _ _ _ _ _ _ _ Nw)].
Qed.

(** ** The example kernel *)

Lemma demo_live s i e : live (demo_ks s) i e → i = 0 ∧ e = demo_env 0.
Proof.
  intros [H Hs]. apply demo_envs_inv in H as [_ ->]. cbn in Hs.
  destruct (Z.eqb_spec i 0) as [Hi|Hi]; [subst i; auto|]. exfalso. apply Hs. reflexivity.
Qed.

Lemma demo_kinv s l x : vm_inv s l [0] x → kinv (demo_ks s) l [0] x 0.
Proof.
  intros H. split.
  - apply demo_ks_vm, H.
  - intros i. split.
    + intros [e He]. apply (demo_envs_inv i e He).
    + intros Hi. exists (demo_env i). apply (demo_envs_lookup i Hi).
  - intros i e Hl. destruct (demo_live s i e Hl) as [_ ->]. exists 0. split; [apply list_elem_of_here|reflexivity].
  - intros i j e f Hi Hj _. destruct (demo_live s i e Hi) as [-> _], (demo_live s j f Hj) as [-> _]. reflexivity.
  - exists demo_cpu, (demo_env 0). split; [reflexivity|]. split; [reflexivity|].
    split; [apply (demo_envs_lookup 0); split; reflexivity || discriminate|discriminate].
Qed.

Lemma demo_self s chk : envid2env 0 chk (demo_ks s) = Ret (0, Some 0) (demo_ks s).
Proof. reflexivity. Qed.

Lemma demo_env0 s : envs (demo_ks s) !! 0 = Some (demo_env 0).
Proof. apply (demo_envs_lookup 0). split; reflexivity || discriminate. Qed.

Lemma sys_page_alloc_spec_witness : ∃ k' l2,
  sys_page_alloc 0 0x802000 7 (demo_ks demo_vm) = Ret 0 k' ∧ kinv k' l2 [0] (held 3 none_held) 0 ∧
  pte_of (phys (kpm k')) 0 0x802 = Some 0x3007.
Proof.
  destruct (sys_page_alloc_spec (demo_ks demo_vm) [3; 2] [0] none_held 0 0 0x802000 7 (demo_kinv _ _ _ demo_vm_inv))
    as [(F & _)|(i & e & pd & _ & _ & _ & Hpd & G)].
  - split; reflexivity || discriminate.
  - split; reflexivity || discriminate.
  - rewrite demo_self in F. discriminate F.
  - apply list_elem_of_singleton in Hpd as ->. change (bad_va 0x802000 || bad_perm 7) with false in G. cbv iota in G.
    rewrite decide_False in G by (intros [F _]; discriminate F).
    destruct G as (k' & l2 & E & Hk & _ & Hpte & _). exists k', l2. split; [exact E|]. split; [exact Hk|].
    rewrite Hpte; [reflexivity|apply list_elem_of_here|split; reflexivity || discriminate].
Defined.

(** * sys_page_unmap *)

Lemma sys_page_unmap_run k l R x cur envid va i e pd : kinv k l R x cur → envid2env envid false k = Ret (0, Some i) k →
  envs k !! i = Some e → env_pgdir e = kva_of pd → pd ∈ R → u32_range va → bad_va va = false →
  ∃ s' l', sys_page_unmap envid va k = Ret 0 (set_kpm s' k) ∧ cleared (kpm k) l R x pd (va / PGSIZE) s' l'.
Proof.
  intros H Henv He Hpg Hpd Hva Hbva. destruct (good_va va Hbva Hva) as [Huva _].
  unfold sys_page_unmap. rewrite (with_env_ok _ _ _ _ _ Henv). cbv beta. rewrite Hbva.
  rewrite (bind_Ret _ _ _ _ _ (env_get_eq k i e He)), Hpg.
  destruct (remove_cleared (cur_pgdir k) (kpm k) l R x pd va (ki_vm _ _ _ _ _ H) Hpd Huva) as (s' & l' & E & C).
  rewrite (bind_Ret _ _ _ _ _ (inpm_cur_Ret _ _ _ _ E)). exists s', l'. split; [reflexivity|exact C].
Qed.

(** [sys_page_unmap] deletes one mapping of the address space of any
    environment in use, whoever asks: it passes 0 for envid2env's
    [checkperm], so the caller need be neither that environment nor its
    parent.  No other mapping changes, no environment changes, and the
    invariant is kept. *)
Theorem sys_page_unmap_any (k : ks) (l R : list Z) (x : Z → Z) (cur i va : Z) (e : Env) (pd : Z) :
  kinv k l R x cur → live k i e → ENVX (env_id e) = i → env_id e ≠ 0 → env_pgdir e = kva_of pd → pd ∈ R →
  u32_range va → bad_va va = false →
  ∃ k' l', sys_page_unmap (env_id e) va k = Ret 0 k' ∧ kinv k' l' R x cur ∧ envs k' = envs k ∧
    ∀ pd' v, pd' ∈ R → 0 ≤ v < UVPN → pte_of (phys (kpm k')) pd' v
      = if decide (pd' = pd ∧ v = va / PGSIZE) then None else pte_of (phys (kpm k)) pd' v.
Proof.
  intros H [He Hs] HX Hid Hpg Hpd Hva Hbva.
  destruct (ki_cur _ _ _ _ _ H) as (c & ce & Hc & Hcur & Hce & _).
  assert (envid2env (env_id e) false k = Ret (0, Some i) k) as Henv.
  { destruct (envid2env_run k c cur ce (env_id e) false Hc Hcur Hce) as [_ G].
    { intros j Hj. apply (ki_envs _ _ _ _ _ H), Hj. }
    destruct (G Hid) as (e' & He' & ->). rewrite HX in He'. assert (e' = e) as -> by congruence.
    rewrite decide_True, HX; [reflexivity|]. split; [assumption|]. split; [reflexivity|discriminate]. }
  destruct (sys_page_unmap_run k l R x cur (env_id e) va i e pd H Henv He Hpg Hpd Hva Hbva) as (s' & l' & E & C).
  exists (set_kpm s' k), l'. split; [exact E|]. split; [apply (kinv_pm k l R x); [assumption|apply C]|]. split; [reflexivity|].
  apply C.
Qed.

Lemma sys_page_unmap_any_witness : ∃ k',
  sys_page_unmap 4096 0x802000 (demo_ks demo_mapped) = Ret 0 k' ∧ pte_of (phys (kpm k')) 0 0x802 = None.
Proof.
  destruct demo_mapped_inv as [l H].
  destruct (sys_page_unmap_any (demo_ks demo_mapped) l [0] none_held 0 0 0x802000 (demo_env 0) 0
    (demo_kinv _ _ _ H)) as (k' & l' & E & _ & _ & Hpte).
  - split; [apply demo_env0|discriminate].
  - reflexivity.
  - discriminate.
  - reflexivity.
  - apply demo_in.
  - split; reflexivity || discriminate.
  - reflexivity.
  - exists k'. split; [exact E|].
    rewrite Hpte; [reflexivity|apply list_elem_of_here|split; reflexivity || discriminate].
Defined.

(** * sys_page_map *)

Section page_map.
Context (k : ks) (l R : list Z) (x : Z → Z) (cur srcenvid srcva dstenvid dstva perm i j : Z) (es ed : Env)
  (ps pd : Z).
Context (H : kinv k l R x cur) (Hes : envid2env srcenvid true k = Ret (0, Some i) k)
  (Hed : envid2env dstenvid true k = Ret (0, Some j) k)
  (Hi : envs k !! i = Some es) (Hj : envs k !! j = Some ed)
  (Hps : env_pgdir es = kva_of ps) (Hpsr : ps ∈ R) (Hpd : env_pgdir ed = kva_of pd) (Hpdr : pd ∈ R)
  (Hsu : u32_range srcva) (Hdu : u32_range dstva) (Hbs : bad_va srcva = false) (Hbd : bad_va dstva = false).

(** The call once environments and addresses are accepted, by what is mapped
    at the source. *)
Lemma sys_page_map_cases : sys_page_map srcenvid srcva dstenvid dstva perm k
  = match pte_of (phys (kpm k)) ps (srcva / PGSIZE) with
    | None => Ret (- E_INVAL) k
    | Some pte =>
        if bad_perm perm || (ctrue (Z.land perm PTE_W) && negb (ctrue (Z.land pte PTE_W))) then Ret (- E_INVAL) k
        else inpm_cur (λ cur, page_insert cur (kva_of pd) (frame_of pte) dstva perm) k
    end.
Proof.
  destruct (good_va srcva Hbs Hsu) as [Hus _].
  unfold sys_page_map. rewrite (with_env_ok _ _ _ _ _ Hes). cbv beta.
  rewrite (with_env_ok _ _ _ _ _ Hed). cbv beta. rewrite Hbs, Hbd. cbn [orb].
  rewrite (bind_Ret _ _ _ _ _ (env_get_eq k i es Hi)), Hps.
  destruct (vm_lookup (kpm k) l R x ps srcva (ki_vm _ _ _ _ _ H) Hpsr Hus) as (ppte & El & Eppte).
  rewrite (bind_Ret _ _ _ _ _ (inpm_Ret _ _ _ _ El)), set_kpm_same. unfold page_of in *.
  pose proof (pte_of_va (kpm k) ps srcva Hus) as Ep.
  destruct (pte_of (phys (kpm k)) ps (srcva / PGSIZE)) as [pte|] eqn:Epte; [|reflexivity].
  destruct (pt_of (phys (kpm k)) ps (PDX srcva)) as [t|] eqn:Et; [|discriminate].
  subst ppte. cbn [fmap option_fmap option_map].
  destruct (bad_perm perm); [reflexivity|]. cbn [orb].
  rewrite (bind_Ret _ _ _ _ _ (inpm_Ret _ _ _ _ (kld32_wd _ _ _))), set_kpm_same.
  assert (wd (phys (kpm k)) t (PTX srcva) = pte) as ->.
  { cbv zeta in Ep. destruct (is_present _); [congruence|discriminate]. }
  destruct (_ && _); [reflexivity|].
  rewrite (bind_Ret _ _ _ _ _ (env_get_eq k j ed Hj)), Hpd. reflexivity.
Qed.

Lemma sys_page_map_run pte : pte_of (phys (kpm k)) ps (srcva / PGSIZE) = Some pte → perm_ok perm →
  bad_perm perm = false → (ctrue (Z.land perm PTE_W) = true → ctrue (Z.land pte PTE_W) = true) →
  (∀ p f, page_of (phys (kpm k)) ps (srcva / PGSIZE) = Some p → pages (kpm k) !! p = Some f → pp_ref f < 65535) →
  (l = [] ∧ pt_of (phys (kpm k)) pd (PDX dstva) = None ∧
     sys_page_map srcenvid srcva dstenvid dstva perm k = Ret (- E_NO_MEM) k) ∨
  ∃ s l', sys_page_map srcenvid srcva dstenvid dstva perm k = Ret 0 (set_kpm s k) ∧
    inserted (kpm k) l R x pd (dstva / PGSIZE) (frame_of pte) (Z.lor (frame_of pte * PGSIZE) (Z.lor perm PTE_P)) s l'.
Proof.
  intros Epte Hperm Hbp Hw Href. destruct (good_va srcva Hbs Hsu) as [Hus _], (good_va dstva Hbd Hdu) as [Hud _].
  destruct (user_va_idx srcva Hus) as (_ & _ & HI & _ & Hv). pose proof (ki_vm _ _ _ _ _ H) as Hvm.
  assert (page_of (phys (kpm k)) ps (srcva / PGSIZE) = Some (frame_of pte)) as Hpo
    by (unfold page_of; rewrite Epte; reflexivity).
  destruct (vm_data _ _ _ _ Hvm _ _ _ Hpsr Hv Hpo) as (Hb & HpR & Hppt).
  destruct (page_inv_lookup _ _ _ (vm_pages _ _ _ _ Hvm) Hb) as [f Hf].
  assert (ctrue (Z.land perm PTE_W) && negb (ctrue (Z.land pte PTE_W)) = false) as Hw'
    by (destruct (ctrue (Z.land perm PTE_W)); [rewrite Hw by reflexivity|]; reflexivity).
  rewrite sys_page_map_cases, Epte, Hbp, Hw'. cbn [orb].
  destruct (insert_run (cur_pgdir k) (kpm k) l R x pd (frame_of pte) dstva perm f Hvm Hpdr Hud Hf)
    as [(Hn & El & E)|(s' & l' & E & I)]; try assumption.
  - intros F. destruct (vm_free_unused _ _ _ _ _ Hvm F) as (_ & _ & G). exact (G _ _ Hpsr Hv Hpo).
  - eapply Href; eassumption.
  - left. rewrite (inpm_cur_Ret _ _ _ _ E), set_kpm_same. auto.
  - right. exists s', l'. split; [apply (inpm_cur_Ret _ _ _ _ E)|exact I].
Qed.
End page_map.

(** C12. [sys_page_map], once both environments and both addresses are
    accepted.  It refuses a source page that is not mapped, permissions
    without PTE_U and PTE_P, and write permission to a page that is read-only
    at the source.  Otherwise it runs out of memory, changing nothing, exactly
    when the destination has no page table at [dstva] and no page is free; and
    in every other case it returns 0 with the source's page mapped at the
    destination with [perm], every other mapping of every address space as
    before, and the invariant kept: so the page is shared, and no right to
    write is gained that the source did not have. *)
Theorem sys_page_map_shares (k : ks) (l R : list Z) (x : Z → Z)
    (cur srcenvid srcva dstenvid dstva perm i j : Z) (es ed : Env) (ps pd : Z) :
  kinv k l R x cur → envid2env srcenvid true k = Ret (0, Some i) k →
  envid2env dstenvid true k = Ret (0, Some j) k →
  envs k !! i = Some es → envs k !! j = Some ed →
  env_pgdir es = kva_of ps → ps ∈ R → env_pgdir ed = kva_of pd → pd ∈ R →
  u32_range srcva → u32_range dstva → bad_va srcva = false → bad_va dstva = false → perm_ok perm →
  (∀ p f, page_of (phys (kpm k)) ps (srcva / PGSIZE) = Some p → pages (kpm k) !! p = Some f → pp_ref f < 65535) →
  match pte_of (phys (kpm k)) ps (srcva / PGSIZE) with
  | None => sys_page_map srcenvid srcva dstenvid dstva perm k = Ret (- E_INVAL) k
  | Some pte =>
      if bad_perm perm || (ctrue (Z.land perm PTE_W) && negb (ctrue (Z.land pte PTE_W)))
      then sys_page_map srcenvid srcva dstenvid dstva perm k = Ret (- E_INVAL) k
      else if decide (l = [] ∧ pt_of (phys (kpm k)) pd (PDX dstva) = None)
      then sys_page_map srcenvid srcva dstenvid dstva perm k = Ret (- E_NO_MEM) k
      else
        ∃ k' l', sys_page_map srcenvid srcva dstenvid dstva perm k = Ret 0 k' ∧
          kinv k' l' R x cur ∧ envs k' = envs k ∧
          ∀ pd' v, pd' ∈ R → 0 ≤ v < UVPN → pte_of (phys (kpm k')) pd' v
            = if decide (pd' = pd ∧ v = dstva / PGSIZE)
              then Some (Z.lor (frame_of pte * PGSIZE) (Z.lor perm PTE_P))
              else pte_of (phys (kpm k)) pd' v
  end.
Proof.
  intros H Hes Hed Hi Hj Hps Hpsr Hpd Hpdr Hsu Hdu Hbs Hbd Hperm Href.
  pose proof (sys_page_map_cases k l R x cur srcenvid srcva dstenvid dstva perm i j es ed ps pd H Hes Hed Hi Hj
    Hps Hpsr Hpd Hsu Hbs Hbd) as E.
  destruct (pte_of (phys (kpm k)) ps (srcva / PGSIZE)) as [pte|] eqn:Epte; [|exact E].
  destruct (bad_perm perm) eqn:Hbp; [exact E|].
  destruct (ctrue (Z.land perm PTE_W) && negb (ctrue (Z.land pte PTE_W))) eqn:Hw; [exact E|]. cbn [orb].
  case_decide as D.
  { destruct D as [-> Hn]. cbn [orb] in E. rewrite E. destruct (good_va dstva Hbd Hdu) as [Hud _].
    rewrite (inpm_cur_Ret _ _ _ _ (insert_nomem _ _ R x pd _ dstva perm (ki_vm _ _ _ _ _ H) Hpdr Hud Hn)), set_kpm_same. reflexivity. }
  destruct (sys_page_map_run k l R x cur srcenvid srcva dstenvid dstva perm i j es ed ps pd H Hes Hed Hi Hj
    Hps Hpsr Hpd Hpdr Hsu Hdu Hbs Hbd pte Epte Hperm Hbp) as [(Hl & Hn & _)|(s & l' & F & I)]; auto.
  - intros G. rewrite G in Hw. apply negb_false_iff, Hw.
  - exfalso. auto.
  - exists (set_kpm s k), l'. split; [exact F|].
    split; [apply (kinv_pm k l R x); [assumption|apply I]|]. split; [reflexivity|]. apply I.
Qed.

Lemma sys_page_map_shares_witness :
  ∃ k', sys_page_map 0 0x802000 0 0x803000 7 (demo_ks demo_mapped) = Ret 0 k' ∧
    pte_of (phys (kpm k')) 0 0x803 = Some 0x1007 ∧ pte_of (phys (kpm k')) 0 0x802 = Some 0x1007.
Proof.
  destruct demo_mapped_inv as [l H].
  pose proof (sys_page_map_shares (demo_ks demo_mapped) l [0] none_held 0 0 0x802000 0 0x803000 7 0 0
    (demo_env 0) (demo_env 0) 0 0 (demo_kinv _ _ _ H) (demo_self _ _) (demo_self _ _) (demo_env0 _)
    (demo_env0 _) eq_refl demo_in eq_refl demo_in) as G.
  assert (pte_of (phys (kpm (demo_ks demo_mapped))) 0 (0x802000 / PGSIZE) = Some 0x1007) as E
    by (vm_compute; reflexivity).
  assert (bad_perm 7 || (ctrue (Z.land 7 PTE_W) && negb (ctrue (Z.land 0x1007 PTE_W))) = false) as Eb by reflexivity.
  rewrite E, Eb, decide_False in G by (intros [_ F]; vm_compute in F; discriminate F). destruct G as (k' & l' & E' & _ & _ & Hpte).
  - split; reflexivity || discriminate.
  - split; reflexivity || discriminate.
  - reflexivity.
  - reflexivity.
  - split; reflexivity || discriminate.
  - intros p f Hp Hf. unfold page_of in Hp. rewrite E in Hp. injection Hp as <-. vm_compute in Hf.
    injection Hf as <-. reflexivity.
  - exists k'. split; [exact E'|]. split.
    + rewrite Hpte; [reflexivity|apply list_elem_of_here|split; reflexivity || discriminate].
    + rewrite Hpte; [|apply list_elem_of_here|split; reflexivity || discriminate].
      rewrite decide_False by (intros [_ F]; discriminate F). exact E.
Defined.

(** * Installing handlers *)

(** The eighteen calls that install a handler (page fault, divide error,
    and the others of the challenge) change one field of one environment: for
    a permitted environment the field becomes the given address and nothing
    else changes; for any other id the result is -E_BAD_ENV and the state is
    the old one. *)
Theorem sys_env_set_upcall_spec (k : ks) (f : upcall) (c : CpuInfo) (cur : Z) (ce : Env) (envid func : Z) :
  cpus k !! cpunum k = Some c → cpu_env c = Some cur → envs k !! cur = Some ce →
  (∀ i, 0 ≤ i < NENV → is_Some (envs k !! i)) →
  sys_env_set_upcall f envid func k = Ret (- E_BAD_ENV) k ∨
  ∃ i e, envs k !! i = Some e ∧ envid2env envid true k = Ret (0, Some i) k ∧
    (i = cur ∨ env_parent_id e = env_id ce) ∧
    sys_env_set_upcall f envid func k = Ret 0 (set_envs (<[i := set_upcall f func e]> (envs k)) k) ∧
    env_upcalls (set_upcall f func e) f = func ∧
    ∀ g, g ≠ f → env_upcalls (set_upcall f func e) g = env_upcalls e g.
Proof.
  intros Hc Hcur Hce Hall. destruct (envid2env_run k c cur ce envid true Hc Hcur Hce Hall) as [H0 Hn].
  assert (∀ e : Env, env_upcalls (set_upcall f func e) f = func ∧
    ∀ g, g ≠ f → env_upcalls (set_upcall f func e) g = env_upcalls e g) as Hf.
  { intros e. split; [|intros g Hg]; cbn; [rewrite decide_True by reflexivity|rewrite decide_False by assumption];
      reflexivity. }
  unfold sys_env_set_upcall. destruct (Z.eq_dec envid 0) as [He|He].
  - right. exists cur, ce. rewrite (with_env_ok _ _ _ _ _ (H0 He)). cbv beta.
    rewrite (bind_Ret _ _ _ _ _ (env_upd_eq k cur ce _ Hce)). auto 6.
  - destruct (Hn He) as (e & Ee & E). case_decide as D.
    + right. exists (ENVX envid), e. rewrite (with_env_ok _ _ _ _ _ E). cbv beta.
      rewrite (bind_Ret _ _ _ _ _ (env_upd_eq k _ e _ Ee)).
      split; [assumption|]. split; [assumption|]. split; [apply D; reflexivity|]. auto.
    + left. apply (with_env_bad _ _ _ _ E).
Qed.

Lemma sys_env_set_upcall_spec_witness : ∃ k',
  sys_env_set_divzero_upcall 0 0x800020 (demo_ks demo_vm) = Ret 0 k' ∧ envs k' !! 1 = Some (demo_env 1).
Proof.
  destruct (sys_env_set_upcall_spec (demo_ks demo_vm) env_divzero_upcall demo_cpu 0 (demo_env 0) 0 0x800020)
    as [F|(i & e & He & Hi & _ & E & _)].
  - reflexivity.
  - reflexivity.
  - apply demo_env0.
  - intros i Hi. exists (demo_env i). apply (demo_envs_lookup i Hi).
  - exfalso. unfold sys_env_set_upcall in F. rewrite (with_env_ok _ _ _ _ _ (demo_self _ _)) in F.
    cbv beta in F. rewrite (bind_Ret _ _ _ _ _ (env_upd_eq _ 0 _ _ (demo_env0 _))) in F.
    apply Ret_value in F. discriminate F.
  - rewrite demo_self in Hi. apply Ret_value in Hi. injection Hi as <-. eexists. split; [exact E|]. ksimpl.
    rewrite lookup_insert_ne by discriminate. apply demo_slot1.
Defined.

(** * The queue of waiting senders *)

(** [waiting e q]: the environments queued at [e] are [q], oldest first. *)
Record waiting (e : Env) (q : list Z) : Prop := {
  wt_buf : length (env_ipc_waiting e) = 10%nat;
  wt_head : 0 ≤ env_ipc_waiting_head e < MAXIPCWAITING;
  wt_len : Z.of_nat (length q) < MAXIPCWAITING;
  wt_tail : env_ipc_waiting_tail e = (env_ipc_waiting_head e + Z.of_nat (length q)) mod MAXIPCWAITING;
  wt_ids : ∀ i, (i < length q)%nat →
    nth (Z.to_nat ((env_ipc_waiting_head e + Z.of_nat i) mod MAXIPCWAITING)) (env_ipc_waiting e) 0 = nth i q 0
}.

Section queue.

Lemma waiting_full e q : waiting e q →
  ((env_ipc_waiting_tail e + 1) mod MAXIPCWAITING =? env_ipc_waiting_head e)
  = bool_decide (Z.of_nat (length q) = 9).
Proof.
  intros [Hb Hh Hl Ht Hi]. unfold MAXIPCWAITING in *. rewrite Ht. case_bool_decide as D.
  - apply Z.eqb_eq. Z.div_mod_to_equations. lia.
  - apply Z.eqb_neq. Z.div_mod_to_equations. lia.
Qed.

Lemma waiting_push e q id : waiting e q → Z.of_nat (length q) ≠ 9 →
  waiting (set_env_ipc_waiting_tail ((env_ipc_waiting_tail e + 1) mod MAXIPCWAITING)
    (set_env_ipc_waiting (<[Z.to_nat (env_ipc_waiting_tail e) := id]> (env_ipc_waiting e)) e)) (q ++ [id]).
Proof.
  intros [Hb Hh Hl Ht Hi] Hn. unfold MAXIPCWAITING in *.
  split; ksimpl; rewrite ?length_insert, ?length_app; try assumption; cbn [length]; unfold MAXIPCWAITING in *; [lia| |].
  - rewrite Ht. Z.div_mod_to_equations. lia.
  - intros i Hlt. rewrite nth_insert by (rewrite Ht; Z.div_mod_to_equations; lia). rewrite Ht. case_decide as D.
    + assert (i = length q) as -> by (Z.div_mod_to_equations; lia).
      rewrite app_nth2, Nat.sub_diag by lia. reflexivity.
    + assert (i ≠ length q) by (intros ->; apply D; reflexivity).
      rewrite app_nth1 by lia. apply Hi. lia.
Qed.

Lemma waiting_pop e id q : waiting e (id :: q) →
  nth (Z.to_nat (env_ipc_waiting_head e)) (env_ipc_waiting e) 0 = id ∧
  waiting (set_env_ipc_waiting_head ((env_ipc_waiting_head e + 1) mod MAXIPCWAITING) e) q.
Proof.
  intros [Hb Hh Hl Ht Hi]. unfold MAXIPCWAITING in *. cbn [length] in *. split.
  - pose proof (Hi 0%nat ltac:(lia)) as E.
    replace ((env_ipc_waiting_head e + Z.of_nat 0) mod 10) with (env_ipc_waiting_head e) in E
      by (Z.div_mod_to_equations; lia). exact E.
  - split; ksimpl; unfold MAXIPCWAITING; [assumption| |lia| |].
    + apply Z.mod_pos_bound. lia.
    + rewrite Ht. Z.div_mod_to_equations. lia.
    + intros i Hlt. change (nth i q 0) with (nth (S i) (id :: q) 0). rewrite <- (Hi (S i)) by lia.
      f_equal. f_equal. Z.div_mod_to_equations. lia.
Qed.

Lemma waiting_empty e q : waiting e q →
  (env_ipc_waiting_head e =? env_ipc_waiting_tail e) = bool_decide (q = []).
Proof.
  intros [Hb Hh Hl Ht Hi]. unfold MAXIPCWAITING in *. rewrite Ht. destruct q; cbn [length] in *.
  - rewrite bool_decide_eq_true_2 by reflexivity. apply Z.eqb_eq. Z.div_mod_to_equations. lia.
  - rewrite bool_decide_eq_false_2 by discriminate. apply Z.eqb_neq. Z.div_mod_to_equations. lia.
Qed.

(** Printing the queue only writes to the console. *)
Lemma prints_run k (n : nat) a (f : Z → string * list Z) :
  ∃ log, for_range n a 1 (λ i, cprintf (f i).1 (f i).2) k = Ret tt (set_klog log k).
Proof.
  revert k a. induction n as [|n IH]; intros k a.
  - exists (klog k). destruct k. reflexivity.
  - cbn [for_range].
    rewrite (bind_Ret _ _ _ tt (set_klog (((f a).1, (f a).2) :: klog k) k)) by reflexivity.
    destruct (IH (set_klog (((f a).1, (f a).2) :: klog k) k) (a + 1)) as [log E].
    exists log. exact E.
Qed.
End queue.

(** C32. A send to an environment that is not receiving blocks the sender: if
    fewer than nine senders wait, the sender is queued last and is no longer
    runnable; if nine do, nothing changes.  The call returns -E_IPC_NOT_RECV
    in both cases, and no page or memory is touched. *)
Theorem ipc_send_queues (k : ks) (l R : list Z) (x : Z → Z) (cur envid value srcva perm i : Z)
    (ce e : Env) (q : list Z) :
  kinv k l R x cur → envid2env envid false k = Ret (0, Some i) k → envs k !! i = Some e →
  envs k !! cur = Some ce → i ≠ cur → env_ipc_recving e = false → waiting e q →
  ∃ k', sys_ipc_try_send envid value srcva perm k = Ret (- E_IPC_NOT_RECV) k' ∧
    kpm k' = kpm k ∧ cpus k' = cpus k ∧
    (if decide (Z.of_nat (length q) = 9) then envs k' = envs k
     else ∃ e', envs k' = <[i := e']> (<[cur := set_env_status ENV_NOT_RUNNABLE ce]> (envs k)) ∧
       waiting e' (q ++ [env_id ce]) ∧ env_status e' = env_status e ∧ env_ipc_recving e' = false).
Proof.
  intros H Henv He Hce Hne Hr Hw. unfold sys_ipc_try_send.
  rewrite (with_env_ok _ _ _ _ _ Henv). cbv beta. rewrite (bind_Ret _ _ _ _ _ (env_get_eq k i e He)), Hr.
  cbn [negb]. unfold ipc_enqueue. rewrite (bind_Ret _ _ _ _ _ (env_get_eq k i e He)).
  rewrite (waiting_full e q Hw).
  assert (∀ k1 x1, envs k1 !! i = Some x1 → ∃ log, (x0 ← env_get i;
      for_range (Z.to_nat MAXIPCWAITING) 0 1 (λ j,
        cprintf "%x " [nth (Z.to_nat ((j + env_ipc_waiting_head x0) mod MAXIPCWAITING)) (env_ipc_waiting x0) 0]) ;;
      cprintf "\n" [] ;; mret (- E_IPC_NOT_RECV)) k1 = Ret (- E_IPC_NOT_RECV) (set_klog log k1)) as Htail.
  { intros k1 x1 Hx1. rewrite (bind_Ret _ _ _ _ _ (env_get_eq k1 i x1 Hx1)).
    destruct (prints_run k1 (Z.to_nat MAXIPCWAITING) 0 (λ j, ("%x "%string,
      [nth (Z.to_nat ((j + env_ipc_waiting_head x1) mod MAXIPCWAITING)) (env_ipc_waiting x1) 0]))) as [log E].
    rewrite (bind_Ret _ _ _ _ _ E). eexists. reflexivity. }
  case_bool_decide as D; cbn [negb when].
  - rewrite bind_mret. destruct (Htail k e He) as [log E]. rewrite E.
    eexists. split; [reflexivity|]. rewrite decide_True by assumption. auto.
  - rewrite !bind_assoc, (bind_Ret _ _ _ _ _ (curenv_deref_run _ _ _ _ _ H)).
    rewrite !bind_assoc, (bind_Ret _ _ _ _ _ (env_upd_eq k cur ce _ Hce)).
    rewrite !bind_assoc. erewrite bind_Ret by (apply env_get_eq; ksimpl; apply lookup_insert_eq).
    rewrite !bind_assoc. erewrite bind_Ret by (apply env_upd_eq; ksimpl; rewrite lookup_insert_ne by congruence; exact He).
    erewrite bind_Ret by (apply env_upd_eq; ksimpl; apply lookup_insert_eq). ksimpl.
    match goal with |- ∃ k', ?m ?st = _ ∧ _ => destruct (Htail st _ (lookup_insert_eq _ _ _)) as [log E]; rewrite E end.
    eexists. split; [reflexivity|]. ksimpl. rewrite decide_False by assumption.
    split; [reflexivity|]. split; [reflexivity|]. eexists. rewrite insert_insert_eq. split; [reflexivity|].
    split; [apply (waiting_push e q _ Hw D)|]. auto.
Qed.

(** C33. A receive wakes the sender that has waited longest: [sys_ipc_recv]
    with an aligned address below UTOP marks the caller as receiving at
    [dstva] and not runnable; when senders are queued, the id of the oldest is
    taken off the queue.  If the id names an environment (0 is the caller, any
    other id a slot in use that still has this id), that one becomes runnable
    and the scheduler is entered; exactly when the id is stale, the call
    returns -E_BAD_ENV while the caller stays marked as receiving and not
    runnable. *)
Theorem ipc_recv_wakes (k : ks) (l R : list Z) (x : Z → Z) (cur dstva : Z) (ce : Env) (id : Z) (q : list Z) :
  kinv k l R x cur → envs k !! cur = Some ce → waiting ce (id :: q) →
  dstva < UTOP → ROUNDUP dstva PGSIZE = dstva →
  ∃ ce' k1, envs k1 = <[cur := ce']> (envs k) ∧ kpm k1 = kpm k ∧ waiting ce' q ∧
    env_ipc_recving ce' = true ∧ env_ipc_dstva ce' = dstva ∧ env_status ce' = ENV_NOT_RUNNABLE ∧
    let i := if id =? 0 then cur else ENVX id in
    ∃ e, envs k1 !! i = Some e ∧
      if decide (id = 0 ∨ env_status e ≠ ENV_FREE ∧ env_id e = id)
      then sys_ipc_recv dstva k
        = (sched_yield ;; mret 0) (set_envs (<[i := set_env_status ENV_RUNNABLE e]> (envs k1)) k1)
      else sys_ipc_recv dstva k = Ret (- E_BAD_ENV) k1.
Proof.
  intros H Hce Hw Hlt Hal. unfold sys_ipc_recv. rewrite Hal, Z.eqb_refl, andb_false_r.
  rewrite (bind_Ret _ _ _ _ _ (curenv_deref_run _ _ _ _ _ H)).
  rewrite (bind_Ret _ _ _ _ _ (env_upd_eq k cur ce _ Hce)).
  erewrite bind_Ret by (apply env_upd_eq; ksimpl; apply lookup_insert_eq). ksimpl.
  erewrite bind_Ret by (apply env_upd_eq; ksimpl; apply lookup_insert_eq). ksimpl.
  erewrite bind_Ret by (apply env_get_eq; ksimpl; apply lookup_insert_eq). ksimpl.
  rewrite (waiting_empty ce _ Hw), bool_decide_eq_false_2 by discriminate. cbn [negb].
  rewrite !bind_assoc. erewrite bind_Ret by (apply env_upd_eq; ksimpl; apply lookup_insert_eq). ksimpl.
  destruct (waiting_pop ce id q Hw) as [-> Hpop].
  match goal with |- context [with_env _ _ _ ≫= _] => idtac end.
  set (ce' := set_env_ipc_waiting_head _ _).
  match goal with |- context [(with_env _ _ _ ≫= _) ?st] => set (k1 := st) end.
  assert (envs k1 = <[cur := ce']> (envs k)) as Ek1 by (unfold k1; ksimpl; rewrite !insert_insert_eq; reflexivity).
  exists ce', k1. split; [exact Ek1|]. split; [reflexivity|].
  split; [destruct Hpop; split; assumption|]. split; [reflexivity|]. split; [reflexivity|]. split; [reflexivity|].
  destruct (ki_cur _ _ _ _ _ H) as (c & e0 & Hc & Hcur & Hl0).
  assert (envs k1 !! cur = Some ce') as Hce1 by (rewrite Ek1; apply lookup_insert_eq).
  assert (∀ i, 0 ≤ i < NENV → is_Some (envs k1 !! i)) as Hall.
  { intros i Hi. rewrite Ek1. apply lookup_insert_is_Some'. right. apply (ki_envs _ _ _ _ _ H), Hi. }
  destruct (envid2env_run k1 c cur ce' id false Hc Hcur Hce1 Hall) as [H0 Hn].
  cbv zeta. destruct (Z.eqb_spec id 0) as [Hid|Hid].
  - exists ce'. split; [exact Hce1|]. rewrite decide_True by auto.
    rewrite bind_unfold, (with_env_ok _ _ _ _ _ (H0 Hid)). cbv beta.
    rewrite (bind_Ret _ _ _ _ _ (env_upd_eq k1 cur ce' _ Hce1)). reflexivity.
  - destruct (Hn Hid) as (e & He & E). exists e. split; [exact He|]. case_decide as D.
    + rewrite decide_True by tauto.
      rewrite bind_unfold, (with_env_ok _ _ _ _ _ E). cbv beta.
      rewrite (bind_Ret _ _ _ _ _ (env_upd_eq k1 _ e _ He)). reflexivity.
    + rewrite decide_False by (intros [?|[??]]; [contradiction|apply D; split; [assumption|split; [assumption|discriminate]]]).
      rewrite bind_unfold, (with_env_bad _ _ _ _ E). reflexivity.
Qed.

(** Two environments: 0, the current one, with directory page 0, and 5, a
    runnable child of it, with directory page 2. *)
Definition demo_vm2 : pm :=
  MkPm 4 4 (list_to_map [(0, MkPageInfo None 1); (1, MkPageInfo None 0);
    (2, MkPageInfo None 1); (3, MkPageInfo None 0)])
    (Some 3) (KERNBASE + 4 * PGSIZE) 0 0 0 MMIOBASE ∅ 0 [] 0.
Definition demo_env5 : Env :=
  set_env_pgdir (kva_of 2) (set_env_status ENV_RUNNABLE (set_env_parent_id 4096 (set_env_id 4101 (demo_env 5)))).
Definition demo_ks2_of (s : pm) (e0 e5 : Env) : ks :=
  MkKs (with_roots (kva_of 1) 0 0 s) (<[0 := e0]> (<[5 := e5]> demo_envs)) (Some 1)
    {[0 := demo_cpu]} 0 (Some 0) [] demo_con demo_trapst.
Definition demo_ks2 : Env → Env → ks := demo_ks2_of demo_vm2.

Lemma demo_vm2_inv : vm_inv demo_vm2 [3] [2; 0] none_held.
Proof.
  assert (page_inv demo_vm2 [3]) as Hp by (apply page_invb_sound; vm_compute; reflexivity).
  assert (∀ R q, ¬ is_pt (phys demo_vm2) R q) as Hpt by (intros R q (pd & i & _ & _ & E); discriminate E).
  assert (∀ (R : list Z) pd v q, pd ∈ R → 0 ≤ v < UVPN → page_of (phys demo_vm2) pd v ≠ Some q) as Hpg
    by (intros R pd v q _ _; change (page_of (phys demo_vm2) pd v) with (@None Z); discriminate).
  assert (∀ y p : Z, 0 ≤ held y none_held p) as Hh0
    by (intros y p; unfold held, none_held; case_bool_decide; cbn; lia).
  assert (∀ p, 0 ≤ held 0 (held 2 none_held) p) as Hh
    by (intros p; unfold held at 1; pose proof (Hh0 2 p); case_bool_decide; cbn [Z.b2z]; lia).
  apply vm_add_root; auto.
  2: { intros; unfold none_held; lia. }
  2: { split; reflexivity || discriminate. }
  2: { decided. }
  apply vm_add_root; auto.
  2: { split; reflexivity || discriminate. }
  2: { apply not_elem_of_nil. }
  apply vm_inv_start; auto. intros p i Hi.
  destruct (decide (p = 0 ∨ p = 2)) as [[->| ->]|D]; [vm_compute in Hi; injection Hi as <-; vm_compute; discriminate..|].
  unfold held, none_held. rewrite !bool_decide_eq_false_2 by tauto. cbn.
  apply (pi_ref _ _ Hp _ _ Hi).
Qed.

#[local] Opaque demo_envs demo_vm2.
Lemma demo_kinv2_of s l x e0 e5 : vm_inv s l [2; 0] x → env_pgdir e0 = kva_of 0 → env_pgdir e5 = kva_of 2 → env_status e0 = ENV_RUNNING →
  kinv (demo_ks2_of s e0 e5) l [2; 0] x 0.
Proof.
  intros Hvm E0 E5 Hs0.
  assert (∀ i e, live (demo_ks2_of s e0 e5) i e → (i = 0 ∧ e = e0) ∨ (i = 5 ∧ e = e5)) as Hl.
  { intros i e [H Hs]. unfold demo_ks2_of in H. ksimpl. rewrite lookup_insert in H. case_decide; [left; split; congruence|].
    rewrite lookup_insert in H. case_decide; [right; split; congruence|]. exfalso.
    apply demo_envs_inv in H as [_ ->]. cbn in Hs. destruct (Z.eqb_spec i 0); congruence. }
  split.
  - change (kpm (demo_ks2_of s e0 e5)) with (with_roots (kva_of 1) 0 0 s).
    apply (vm_inv_ext s); [exact Hvm|reflexivity..].
  - intros i. unfold demo_ks2_of. ksimpl. rewrite !lookup_insert_is_Some'. split.
    + intros [<-|[<-|[e He]]]; [split; reflexivity || discriminate..|apply (demo_envs_inv i e He)].
    + intros Hi. right. right. exists (demo_env i). apply (demo_envs_lookup i Hi).
  - intros i e He. destruct (Hl i e He) as [[_ ->]|[_ ->]]; [exists 0|exists 2]; split; auto; set_solver.
  - intros i j e f Hi Hj. destruct (Hl i e Hi) as [[-> ->]|[-> ->]], (Hl j f Hj) as [[-> ->]|[-> ->]];
      auto; rewrite E0, E5; discriminate.
  - exists demo_cpu, e0. split; [reflexivity|]. split; [reflexivity|]. split; [apply lookup_insert_eq|].
    rewrite Hs0. discriminate.
Qed.

Lemma demo_kinv2 e0 e5 : env_pgdir e0 = kva_of 0 → env_pgdir e5 = kva_of 2 → env_status e0 = ENV_RUNNING →
  kinv (demo_ks2 e0 e5) [3] [2; 0] none_held 0.
Proof. apply demo_kinv2_of, demo_vm2_inv. Qed.

#[local] Transparent demo_envs demo_vm2.

Lemma demo_waiting i : waiting (demo_env i) [].
Proof. split; try reflexivity; [split; reflexivity || discriminate|]. intros j Hj. inversion Hj. Qed.

Lemma ipc_send_queues_witness : ∃ k' e',
  sys_ipc_try_send 4101 7 UTOP 0 (demo_ks2 (demo_env 0) demo_env5) = Ret (- E_IPC_NOT_RECV) k' ∧
  envs k' !! 5 = Some e' ∧ waiting e' [4096].
Proof.
  destruct (ipc_send_queues (demo_ks2 (demo_env 0) demo_env5) [3] [2; 0] none_held 0 4101 7 UTOP 0 5
    (demo_env 0) demo_env5 [] (demo_kinv2 (demo_env 0) demo_env5 eq_refl eq_refl eq_refl))
    as (k' & E & _ & _ & Hq).
  - vm_compute. reflexivity.
  - vm_compute. reflexivity.
  - apply lookup_insert_eq.
  - discriminate.
  - reflexivity.
  - split; try reflexivity; [split; reflexivity || discriminate|]. intros j Hj. inversion Hj.
  - rewrite decide_False in Hq by discriminate. destruct Hq as (e' & Ee & Hw & _).
    exists k', e'. split; [exact E|]. split; [rewrite Ee; apply lookup_insert_eq|exact Hw].
Defined.

(** The current environment with environment 5 queued. *)
Definition demo_env0q : Env :=
  set_env_ipc_waiting (<[0%nat := 4101]> (replicate 10 0)) (set_env_ipc_waiting_tail 1 (demo_env 0)).

Definition demo_env5s : Env := set_env_status ENV_NOT_RUNNABLE demo_env5.

Lemma ipc_recv_wakes_witness : ∃ ce' k1,
  envs k1 = <[0 := ce']> (envs (demo_ks2 demo_env0q demo_env5s)) ∧ waiting ce' [] ∧
  env_ipc_recving ce' = true ∧ env_status ce' = ENV_NOT_RUNNABLE ∧
  sys_ipc_recv 0x802000 (demo_ks2 demo_env0q demo_env5s)
  = (sched_yield ;; mret 0) (set_envs (<[5 := demo_env5]> (envs k1)) k1).
Proof.
  destruct (ipc_recv_wakes (demo_ks2 demo_env0q demo_env5s) [3] [2; 0] none_held 0 0x802000 demo_env0q 4101 []
    (demo_kinv2 demo_env0q demo_env5s eq_refl eq_refl eq_refl)) as (ce' & k1 & E & _ & Hw & Hr & _ & Hs & e & He & G).
  - apply lookup_insert_eq.
  - split; try reflexivity; [split; reflexivity || discriminate|]. intros j Hj. cbn in Hj.
    assert (j = 0%nat) as -> by lia. reflexivity.
  - reflexivity.
  - reflexivity.
  - exists ce', k1. split; [exact E|]. split; [exact Hw|]. split; [exact Hr|]. split; [exact Hs|].
    change (if 4101 =? 0 then 0 else ENVX 4101) with 5 in He, G. rewrite E in He.
    rewrite lookup_insert_ne in He by discriminate. change (envs (demo_ks2 demo_env0q demo_env5s) !! 5) with (Some demo_env5s) in He.
    injection He as <-. rewrite decide_True in G by (right; split; [discriminate|reflexivity]). exact G.
Defined.
