(* ===== verification/KSpace.v ===== *)
(** The invariant of the kernel's state between two entries into the kernel:
    every address space shares the kernel's half and none of them reaches a
    kernel page, the environment table and the free list of environments agree
    with the address spaces there are, and the CPU runs in the address space
    of a live environment.  The lemmas say which elementary operations keep
    it. *)
From S2P Require Import Prelude Mmu Mem Pages PageTable AddrSpace UserMem Console KState Env EnvVm EnvSpec Syscall SyscallSpec.

(** * Memory *)

(** Page [q] serves a user address space: as its directory, as one of its
    page tables, or as a page mapped below UTOP. *)
Definition used (m : mem) (R : list Z) (q : Z) : Prop :=
  q ∈ R ∨ is_pt m R q ∨ ∃ pd v, pd ∈ R ∧ 0 ≤ v < UVPN ∧ page_of m pd v = Some q.

Section vspace.
(** The pages that hold the kernel's page directory, its page tables, and
    whatever else the kernel keeps for itself. *)
Context (K : Z → Prop).
Implicit Types (s : pm) (l R : list Z) (x : Z → Z) (kp : Z).

(** [vspace s l R x kp]: virtual memory is in order, the kernel's directory is
    page [kp], the kernel holds its pages and no address space uses one, and
    every directory has the kernel's entries above UTOP, except that UVPT maps
    the directory itself. *)
Record vspace s l R x kp : Prop := {
  vs_vm : vm_inv s l R x;
  vs_kp : kern_pgdir s = kva_of kp ∧ K kp;
  vs_kern : ∀ q, K q → 0 ≤ q < npages s ∧ 0 < x q ∧ ¬ used (phys s) R q;
  vs_low : ∀ i, 0 ≤ i < UPDX → pt_of (phys s) kp i = None;
  vs_high : ∀ i t, UPDX ≤ i < 1024 → pt_of (phys s) kp i = Some t → K t;
  vs_upper : ∀ pd i, pd ∈ R → UPDX ≤ i < 1024 →
    wd (phys s) pd i = if decide (i = PDX UVPT) then uvpt_entry pd else wd (phys s) kp i
}.

(** The kernel's pages keep their contents. *)
Definition kept (m m' : mem) : Prop := ∀ q j, K q → 0 ≤ j < 1024 → wd m' q j = wd m q j.

#[export] Instance kept_preorder : PreOrder kept.
Proof. split; [intros m q j; auto|]. intros m1 m2 m3 H1 H2 q j Hq Hj. rewrite H2, H1; auto. Qed.

Lemma kern_not_free s l R x kp q : vspace s l R x kp → K q → q ∉ l.
Proof.
  intros H Hq Hl. destruct (vs_kern _ _ _ _ _ H q Hq) as (_ & Hx & _).
  destruct (vm_free _ _ _ _ _ (vs_vm _ _ _ _ _ H) Hl). lia.
Qed.

Lemma data_same_kept s l R x kp m' : vspace s l R x kp → data_same (phys s) m' R l → kept (phys s) m'.
Proof.
  intros H D q j Hq Hj. destruct (vs_kern _ _ _ _ _ H q Hq) as (_ & _ & Hu). unfold used in Hu.
  apply D; [assumption|eapply kern_not_free; eassumption|tauto..].
Qed.

(** A step that leaves data and the kernel's half alone, and by which no
    kernel page comes into use. *)
Lemma vspace_step s l R x kp s' l' R' x' : vspace s l R x kp → vm_inv s' l' R' x' →
  npages s' = npages s → kern_pgdir s' = kern_pgdir s → data_same (phys s) (phys s') R l →
  R' ⊆ R → (∀ q, K q → x q ≤ x' q) →
  (∀ q, K q → used (phys s') R' q → used (phys s) R q) →
  vspace s' l' R' x' kp ∧ kept (phys s) (phys s').
Proof.
  intros H Hv Hn Hk D HR Hx Hu. pose proof (data_same_kept _ _ _ _ _ _ H D) as Hkept.
  pose proof (proj2 (vs_kp _ _ _ _ _ H)) as Kkp.
  split; [|assumption]. split.
  - assumption.
  - rewrite Hk. apply H.
  - intros q Hq. destruct (vs_kern _ _ _ _ _ H q Hq) as (Hb & Hx0 & Hn0). specialize (Hx q Hq).
    rewrite Hn. split; [assumption|]. split; [lia|]. intros F. apply Hn0, (Hu q Hq F).
  - intros i Hi. rewrite (pt_of_ext (phys s)) by (apply Hkept; unfold UPDX in *; assumption || lia).
    apply H. assumption.
  - intros i t Hi. rewrite (pt_of_ext (phys s)) by (apply Hkept; unfold UPDX in *; assumption || lia).
    apply H. assumption.
  - intros pd i Hpd Hi. rewrite (Hkept kp i) by (unfold UPDX in *; assumption || lia).
    pose proof (vm_root_used _ _ _ _ _ (vs_vm _ _ _ _ _ H) (HR _ Hpd)) as [_ Hl].
    rewrite D; [apply H; [apply HR|]; assumption|unfold UPDX in *; lia|assumption|intros; apply Hi|].
    intros (pd' & k & Hpd' & Hk' & E).
    destruct (pw_pt _ _ _ (vm_wf _ _ _ _ (vs_vm _ _ _ _ _ H)) _ _ _ Hpd' Hk' E) as [_ F]. apply F, HR, Hpd.
Qed.

Lemma vspace_inserted s l R x kp pd v pp e s' l' : vspace s l R x kp →
  inserted s l R x pd v pp e s' l' → frame_of e = pp → ¬ K pp →
  vspace s' l' R x kp ∧ kept (phys s) (phys s').
Proof.
  intros H I He Hpp. eapply vspace_step; [exact H|apply I..|reflexivity|reflexivity|].
  intros q Hq [?|[F|(pd' & v' & Hpd & Hv & E)]]; [left; assumption| |].
  - right. left. destruct (in_is_pt _ _ _ _ _ _ _ _ _ _ I q F) as [G|]; [|assumption].
    destruct (kern_not_free _ _ _ _ _ _ H Hq G).
  - right. right. exists pd', v'. split; [assumption|]. split; [assumption|]. revert E.
    unfold page_of. rewrite (in_pte _ _ _ _ _ _ _ _ _ _ I) by assumption. case_decide; [|auto].
    cbn. intros [= <-]. rewrite He in Hq. contradiction.
Qed.

Lemma vspace_cleared s l R x kp pd v s' l' : vspace s l R x kp → cleared s l R x pd v s' l' →
  vspace s' l' R x kp ∧ kept (phys s) (phys s').
Proof.
  intros H C. eapply vspace_step; [exact H|apply C|apply C|apply C|apply data_same_free, C|reflexivity|reflexivity|].
  intros q Hq [?|[F|(pd' & v' & Hpd & Hv & E)]]; [left; assumption| |].
  - right. left. apply (is_pt_ext (phys s) (phys s')); [apply C|assumption].
  - right. right. exists pd', v'. split; [assumption|]. split; [assumption|]. revert E.
    unfold page_of. rewrite (cl_pte _ _ _ _ _ _ _ _ C) by assumption. case_decide; [discriminate|auto].
Qed.

(** A page is taken off the free list and written. *)
Lemma vspace_take s l R x kp p h m' : vspace s (p :: l) R x kp → pages s !! p = Some h →
  (∀ q j, 0 ≤ j < 1024 → q ≠ p → wd m' q j = wd (phys s) q j) →
  vspace (with_phys m' (take_state p (pp_link h) s)) l R (held p x) kp ∧ kept (phys s) m'.
Proof.
  intros H Hh He. pose proof (vs_vm _ _ _ _ _ H) as Hvm.
  destruct (vm_free_unused _ _ _ _ p Hvm (list_elem_of_here _ _)) as (HR & Hpt & _).
  eapply vspace_step; [exact H| |reflexivity|reflexivity| |reflexivity| |].
  - apply (vm_write_data _ _ _ _ p _ (vm_take _ _ _ _ p h Hvm Hh) HR Hpt He).
  - intros q j Hj Hq _ _. apply He; [assumption|]. intros ->. apply Hq, list_elem_of_here.
  - intros q _. unfold held. case_bool_decide; simpl; lia.
  - intros q Hq [?|[F|(pd' & v' & Hpd & Hv & E)]]; [left; assumption| |].
    + right. left. apply (is_pt_ext (phys s) m'); [|assumption]. intros. eapply same_pt_of; eassumption.
    + right. right. exists pd', v'. split; [assumption|]. split; [assumption|]. rewrite <- E.
      unfold page_of. f_equal. symmetry. eapply same_pte_of; eassumption.
Qed.

(** A new address space. *)
Lemma vspace_setup s l R x kp p h : vspace s (p :: l) R x kp → pages s !! p = Some h →
  let s' := setup_pm p kp (pp_link h) s in
  vspace s' l (p :: R) x kp ∧ kept (phys s) (phys s').
Proof.
  intros H Hh s'. pose proof (vs_vm _ _ _ _ _ H) as Hvm. destruct (vs_kp _ _ _ _ _ H) as [Hk Kkp].
  destruct (vs_kern _ _ _ _ _ H kp Kkp) as (Hb & _). pose proof (kern_not_free _ _ _ _ _ _ H Kkp) as Hkl.
  destruct (setup_vm s l R x p kp h Hvm Hb Hkl (vs_low _ _ _ _ _ H) Hh) as (Hv & Hempty & Hsame & Hother).
  fold s' in Hv, Hempty, Hsame, Hother.
  destruct (vm_free_unused _ _ _ _ p Hvm (list_elem_of_here _ _)) as (HpR & Hpt & _).
  assert (kept (phys s) (phys s')) as Hkept.
  { intros q j Hq Hj. apply Hother; [assumption|]. intros ->.
    apply (kern_not_free _ _ _ _ _ _ H Hq), list_elem_of_here. }
  pose proof (page_inv_free_bound _ _ p (vm_pages _ _ _ _ Hvm) (list_elem_of_here _ _)) as Hpb.
  pose proof (vm_npages _ _ _ _ Hvm) as Hnp.
  assert (kp ≠ p) as Hne by (intros ->; apply Hkl, list_elem_of_here).
  assert (∀ i, 0 ≤ i < 1024 → wd (phys s') p i = if decide (i = PDX UVPT) then uvpt_entry p else wd (phys s) kp i) as Hwd.
  { intros i Hi. unfold s'. rewrite setup_wd by (assumption || lia). rewrite decide_True by reflexivity. reflexivity. }
  assert (∀ i, 0 ≤ i < UPDX → pt_of (phys s') p i = None) as Hlow.
  { intros i Hi. rewrite <- (vs_low _ _ _ _ _ H i Hi). unfold pt_of. rewrite Hwd by (unfold UPDX in *; lia).
    rewrite decide_False; [reflexivity|]. intros ->. revert Hi. vm_compute. intros [_ F]. discriminate. }
  split; [|assumption]. split.
  - assumption.
  - exact (vs_kp _ _ _ _ _ H).
  - intros q Hq. destruct (vs_kern _ _ _ _ _ H q Hq) as (Hqb & Hx & Hu).
    split; [exact Hqb|]. split; [assumption|]. intros F. apply Hu. destruct F as [F|[F|(pd & v & Hpd & Hv' & E)]].
    + apply elem_of_cons in F as [->|F]; [|left; assumption].
      destruct (kern_not_free _ _ _ _ _ _ H Hq (list_elem_of_here _ _)).
    + destruct F as (pd & i & Hpd & Hi & E). apply elem_of_cons in Hpd as [->|Hpd]; [rewrite Hlow in E by assumption; discriminate|].
      right. left. exists pd, i. split; [assumption|]. split; [assumption|]. rewrite <- E. symmetry.
      eapply same_pt_of; eassumption.
    + apply elem_of_cons in Hpd as [->|Hpd]; [unfold page_of in E; rewrite Hempty in E by assumption; discriminate|].
      right. right. exists pd, v. split; [assumption|]. split; [assumption|]. unfold page_of in *.
      rewrite <- E, Hsame by assumption. reflexivity.
  - intros i Hi. rewrite (pt_of_ext (phys s)) by (apply Hkept; unfold UPDX in *; assumption || lia).
    apply H. assumption.
  - intros i t Hi. rewrite (pt_of_ext (phys s)) by (apply Hkept; unfold UPDX in *; assumption || lia).
    apply H. assumption.
  - intros pd i Hpd Hi. assert (0 ≤ i < 1024) as Hi' by (unfold UPDX in *; lia).
    rewrite (Hkept kp i Kkp Hi'). apply elem_of_cons in Hpd as [->|Hpd]; [apply Hwd, Hi'|].
    rewrite Hother; [apply H; assumption|assumption|]. intros ->. contradiction.
Qed.
End vspace.

(** * Environments *)

(** The queue of waiting senders is a ring of ten ids, and the address to
    receive at is one. *)
Definition ipc_ok (e : Env) : Prop :=
  length (env_ipc_waiting e) = 10%nat ∧ 0 ≤ env_ipc_waiting_head e < MAXIPCWAITING ∧
  0 ≤ env_ipc_waiting_tail e < MAXIPCWAITING ∧ 0 ≤ env_ipc_dstva e.

(** [echain E h fl]: following [env_link] from [h] visits exactly [fl]; the
    last free slot links to NULL, or to [&envs[NENV]] as env_init left it. *)
Inductive echain (E : gmap Z Env) : option Z → list Z → Prop :=
| echain_nil h : h = None ∨ h = Some NENV → echain E h []
| echain_cons i e fl : E !! i = Some e → echain E (env_link e) fl → echain E (Some i) (i :: fl).

Definition used_slot (E : gmap Z Env) (i : Z) (e : Env) : Prop := E !! i = Some e ∧ env_status e ≠ ENV_FREE.

(** [espace E h R fl]: the table has a slot for every index; the environments
    in use own the address spaces, one each, and have valid ids that name
    their slots; the free list holds exactly the free slots. *)
Record espace (E : gmap Z Env) (h : option Z) (R fl : list Z) : Prop := {
  es_dom : ∀ i, is_Some (E !! i) ↔ 0 ≤ i < NENV;
  es_live : ∀ i e, used_slot E i e → ∃ pd, pd ∈ R ∧ env_pgdir e = kva_of pd;
  es_inj : ∀ i j e f, used_slot E i e → used_slot E j f → env_pgdir e = env_pgdir f → i = j;
  es_owner : ∀ pd, pd ∈ R → ∃ i e, used_slot E i e ∧ env_pgdir e = kva_of pd;
  es_id : ∀ i e, E !! i = Some e → 0 ≤ env_id e < 2 ^ 31;
  es_name : ∀ i e, used_slot E i e → ENVX (env_id e) = i ∧ env_id e ≠ 0;
  es_ipc : ∀ i e, E !! i = Some e → ipc_ok e;
  es_chain : echain E h fl;
  es_NoDup : NoDup fl;
  es_free : ∀ i e, E !! i = Some e → i ∈ fl ↔ env_status e = ENV_FREE
}.

(** Updates that do not concern this invariant. *)
Record keeps (e e' : Env) : Prop := {
  kp_id : env_id e' = env_id e;
  kp_pgdir : env_pgdir e' = env_pgdir e;
  kp_link : env_link e' = env_link e;
  kp_free : env_status e' = ENV_FREE ↔ env_status e = ENV_FREE;
  kp_ipc : ipc_ok e → ipc_ok e'
}.

#[export] Instance keeps_preorder : PreOrder keeps.
Proof.
  split; [intros e; split; tauto|]. intros e1 e2 e3 [] []. split; [congruence..|tauto|tauto].
Qed.

Lemma keeps_status e s : env_status e ≠ ENV_FREE → s ≠ ENV_FREE → keeps e (set_env_status s e).
Proof. split; [reflexivity..|tauto|auto]. Qed.
Lemma keeps_runs e n : keeps e (set_env_runs n e).
Proof. split; [reflexivity..|tauto]. Qed.
Lemma keeps_cpunum e n : keeps e (set_env_cpunum n e).
Proof. split; [reflexivity..|tauto]. Qed.
Lemma keeps_upcall e f a : keeps e (set_upcall f a e).
Proof. split; [reflexivity..|tauto]. Qed.
Lemma keeps_tf e t : keeps e (set_env_tf t e).
Proof. split; [reflexivity..|tauto]. Qed.
Lemma keeps_ipc_recving e b : keeps e (set_env_ipc_recving b e).
Proof. split; [reflexivity..|tauto]. Qed.
Lemma keeps_ipc_dstva e a : 0 ≤ a → keeps e (set_env_ipc_dstva a e).
Proof. split; [reflexivity..|]. unfold ipc_ok. cbn. tauto. Qed.
Lemma keeps_waiting_head e a : 0 ≤ a < MAXIPCWAITING → keeps e (set_env_ipc_waiting_head a e).
Proof. split; [reflexivity..|]. unfold ipc_ok. cbn. tauto. Qed.
Lemma keeps_waiting_tail e a : 0 ≤ a < MAXIPCWAITING → keeps e (set_env_ipc_waiting_tail a e).
Proof. split; [reflexivity..|]. unfold ipc_ok. cbn. tauto. Qed.
Lemma keeps_waiting e i id : keeps e (set_env_ipc_waiting (<[i := id]> (env_ipc_waiting e)) e).
Proof. split; [reflexivity..|]. unfold ipc_ok. cbn. rewrite length_insert. tauto. Qed.
Lemma keeps_ipc_perm e a : keeps e (set_env_ipc_perm a e).
Proof. split; [reflexivity..|tauto]. Qed.
Lemma keeps_ipc_from e a : keeps e (set_env_ipc_from a e).
Proof. split; [reflexivity..|tauto]. Qed.
Lemma keeps_ipc_value e a : keeps e (set_env_ipc_value a e).
Proof. split; [reflexivity..|tauto]. Qed.
Create HintDb keeps.
#[export] Hint Resolve keeps_runs keeps_cpunum keeps_upcall keeps_tf keeps_ipc_recving keeps_ipc_dstva keeps_status keeps_waiting
  keeps_waiting_head keeps_waiting_tail
  keeps_ipc_perm keeps_ipc_from keeps_ipc_value : keeps.

Section espace.
Implicit Types (E : gmap Z Env) (R fl : list Z).

Lemma echain_insert E h fl i e : i ∉ fl → echain E h fl → echain (<[i := e]> E) h fl.
Proof.
  intros Hi H. induction H as [h|j f fl Hj H IH]; [constructor; assumption|].
  apply not_elem_of_cons in Hi as [Hne Hi]. econstructor; [|apply IH, Hi].
  rewrite lookup_insert_ne by assumption. exact Hj.
Qed.

Lemma echain_keeps E h fl i e e' : E !! i = Some e → env_link e' = env_link e → echain E h fl →
  echain (<[i := e']> E) h fl.
Proof.
  intros He Hl H. induction H as [h|j f fl Hj H IH]; [constructor; assumption|].
  destruct (Z.eq_dec i j) as [<-|Hne].
  - econstructor; [apply lookup_insert_eq|]. assert (f = e) as -> by congruence. rewrite Hl. apply IH.
  - econstructor; [rewrite lookup_insert_ne by assumption; exact Hj|apply IH].
Qed.

Lemma used_insert E i e' j f : used_slot (<[i := e']> E) j f →
  j = i ∧ f = e' ∧ env_status e' ≠ ENV_FREE ∨ j ≠ i ∧ used_slot E j f.
Proof.
  intros [Hj Hs]. rewrite lookup_insert in Hj. case_decide as D; [|right; split; [congruence|split; assumption]].
  injection Hj as <-. left. auto.
Qed.
Lemma used_insert_ne E i e' j f : j ≠ i → used_slot E j f → used_slot (<[i := e']> E) j f.
Proof. intros Hne [Hj Hs]. split; [rewrite lookup_insert_ne by congruence|]; assumption. Qed.

Lemma espace_dom_insert E i e e' : E !! i = Some e → (∀ i, is_Some (E !! i) ↔ 0 ≤ i < NENV) →
  ∀ j, is_Some (<[i := e']> E !! j) ↔ 0 ≤ j < NENV.
Proof.
  intros He H j. rewrite <- H, lookup_insert_is_Some.
  split; [intros [<-|[_ ?]]; [eauto|assumption]|]. destruct (Z.eq_dec i j); auto.
Qed.

Lemma espace_keeps E h R fl i e e' : espace E h R fl → E !! i = Some e → keeps e e' →
  espace (<[i := e']> E) h R fl.
Proof.
  intros H He [Kid Kpg Klink Kfree Kq].
  assert (∀ j f, used_slot (<[i := e']> E) j f → ∃ f0, used_slot E j f0 ∧ env_pgdir f = env_pgdir f0 ∧ env_id f = env_id f0) as Hback.
  { intros j f [(-> & -> & Hs)|[_ Hu]]%used_insert; [|eauto]. exists e. split; [split; [assumption|tauto]|]. auto. }
  split.
  - eapply espace_dom_insert; [exact He|apply H].
  - intros j f Hu. destruct (Hback _ _ Hu) as (f0 & Hu0 & -> & _). apply (es_live _ _ _ _ H j f0 Hu0).
  - intros j1 j2 f1 f2 H1 H2. destruct (Hback _ _ H1) as (g1 & G1 & -> & _), (Hback _ _ H2) as (g2 & G2 & -> & _).
    apply (es_inj _ _ _ _ H _ _ _ _ G1 G2).
  - intros pd Hpd. destruct (es_owner _ _ _ _ H pd Hpd) as (j & f & Hu & Ep). exists j.
    destruct (Z.eq_dec j i) as [->|Hne]; [|exists f; split; [apply used_insert_ne; assumption|assumption]].
    destruct Hu as [Hj Hs]. assert (f = e) as -> by congruence. exists e'.
    split; [split; [apply lookup_insert_eq|tauto]|congruence].
  - intros j f. rewrite lookup_insert. case_decide as D; [intros [= <-]; rewrite Kid; apply (es_id _ _ _ _ H _ _ He)|apply (es_id _ _ _ _ H)].
  - intros j f Hu. destruct (Hback _ _ Hu) as (f0 & Hu0 & _ & ->). apply (es_name _ _ _ _ H j f0 Hu0).
  - intros j f. rewrite lookup_insert. case_decide as D; [intros [= <-]; apply Kq, (es_ipc _ _ _ _ H _ _ He)|apply (es_ipc _ _ _ _ H)].
  - eapply echain_keeps; [exact He|exact Klink|apply H].
  - apply H.
  - intros j f. rewrite lookup_insert. case_decide as D; [|apply (es_free _ _ _ _ H)].
    subst j. intros [= <-]. rewrite Kfree. apply (es_free _ _ _ _ H _ _ He).
Qed.

(** The first free slot comes into use. *)
Lemma espace_alloc E R fl i e e' p : espace E (Some i) R (i :: fl) → E !! i = Some e →
  env_link e' = env_link e → 0 < env_id e' < 2 ^ 31 → ENVX (env_id e') = i →
  env_status e' ≠ ENV_FREE → env_pgdir e' = kva_of p → p ∉ R → ipc_ok e' →
  espace (<[i := e']> E) (env_link e) (p :: R) fl.
Proof.
  intros H He Hl Hid Hx Hs Hp HpR Hq. pose proof (es_NoDup _ _ _ _ H) as Hnd. apply NoDup_cons in Hnd as [Hi Hnd].
  assert (∀ j f, used_slot E j f → j ≠ i) as Hne.
  { intros j f [Hj Hf] ->. apply Hf, (es_free _ _ _ _ H _ _ Hj), list_elem_of_here. }
  assert (∀ j f, used_slot E j f → env_pgdir f ≠ kva_of p) as Hnp.
  { intros j f Hu F. destruct (es_live _ _ _ _ H _ _ Hu) as (pd & Hpd & E'). apply HpR.
    replace p with pd; [assumption|]. unfold kva_of, PGSIZE in *. lia. }
  split.
  - eapply espace_dom_insert; [exact He|apply H].
  - intros j f [(-> & -> & _)|[_ Hu]]%used_insert.
    + exists p. split; [apply list_elem_of_here|assumption].
    + destruct (es_live _ _ _ _ H j f Hu) as (pd & ? & ?). exists pd. split; [apply list_elem_of_further|]; assumption.
  - intros j1 j2 f1 f2 [(-> & -> & _)|[_ H1]]%used_insert [(-> & -> & _)|[_ H2]]%used_insert G; [reflexivity| | |].
    + destruct (Hnp _ _ H2). congruence.
    + destruct (Hnp _ _ H1). congruence.
    + apply (es_inj _ _ _ _ H _ _ _ _ H1 H2 G).
  - intros pd [->|Hpd]%elem_of_cons.
    + exists i, e'. split; [split; [apply lookup_insert_eq|assumption]|assumption].
    + destruct (es_owner _ _ _ _ H pd Hpd) as (j & f & Hu & Ep). exists j, f.
      split; [apply used_insert_ne; [eapply Hne|]; eassumption|assumption].
  - intros j f. rewrite lookup_insert. case_decide; [intros [= <-]; lia|apply (es_id _ _ _ _ H)].
  - intros j f [(-> & -> & _)|[_ Hu]]%used_insert; [split; [assumption|lia]|apply (es_name _ _ _ _ H _ _ Hu)].
  - intros j f. rewrite lookup_insert. case_decide; [intros [= <-]; assumption|apply (es_ipc _ _ _ _ H)].
  - apply echain_insert; [assumption|]. pose proof (es_chain _ _ _ _ H) as C. inversion C; subst.
    assert (e0 = e) as -> by congruence. assumption.
  - assumption.
  - intros j f. rewrite lookup_insert. case_decide as D.
    + subst j. intros [= <-]. split; [contradiction|]. contradiction.
    + intros Hj. rewrite <- (es_free _ _ _ _ H _ _ Hj), elem_of_cons. split; [auto|intros [?|?]; [congruence|assumption]].
Qed.

(** A slot is given up. *)
Definition freed_env (h : option Z) (e : Env) : Env := set_env_link h (set_env_status ENV_FREE (set_env_pgdir 0 e)).

Lemma espace_free E h R1 R2 fl i e pd : espace E h (R1 ++ pd :: R2) fl → used_slot E i e →
  NoDup (R1 ++ pd :: R2) → env_pgdir e = kva_of pd →
  espace (<[i := freed_env h e]> E) (Some i) (R1 ++ R2) (i :: fl).
Proof.
  intros H [He Hs] Hnd Hp. destruct (NoDup_mid _ _ _ Hnd) as [_ Hpd].
  assert (i ∉ fl) as Hi by (intros F; apply Hs, (es_free _ _ _ _ H _ _ He), F).
  assert (∀ j f, used_slot (<[i := freed_env h e]> E) j f → j ≠ i ∧ used_slot E j f) as Hback
    by (intros j f [(_ & _ & F)|?]%used_insert; [destruct F; reflexivity|assumption]).
  split.
  - eapply espace_dom_insert; [exact He|apply H].
  - intros j f [Hne Hu]%Hback. destruct (es_live _ _ _ _ H j f Hu) as (pd' & Hpd' & Ep'). exists pd'.
    split; [|assumption]. apply elem_of_app in Hpd' as [|Hpd']; [apply elem_of_app; auto|].
    apply elem_of_cons in Hpd' as [->|]; [|apply elem_of_app; auto]. destruct Hne.
    eapply (es_inj _ _ _ _ H j i f e); [assumption|split; assumption|congruence].
  - intros j1 j2 f1 f2 [_ H1]%Hback [_ H2]%Hback. apply (es_inj _ _ _ _ H _ _ _ _ H1 H2).
  - intros pd' Hpd'. destruct (es_owner _ _ _ _ H pd' (elem_of_mid _ _ _ _ Hpd')) as (j & f & Hu & Ep). exists j, f.
    split; [|assumption]. apply used_insert_ne; [|assumption]. intros ->. destruct Hu as [Hj _].
    assert (f = e) as -> by congruence. apply Hpd. replace pd with pd'; [assumption|].
    unfold kva_of, PGSIZE in *. lia.
  - intros j f. rewrite lookup_insert. case_decide; [intros [= <-]; apply (es_id _ _ _ _ H _ _ He)|apply (es_id _ _ _ _ H)].
  - intros j f [_ Hu]%Hback. apply (es_name _ _ _ _ H _ _ Hu).
  - intros j f. rewrite lookup_insert. case_decide; [intros [= <-]; apply (es_ipc _ _ _ _ H _ _ He)|apply (es_ipc _ _ _ _ H)].
  - econstructor; [apply lookup_insert_eq|]. apply echain_insert; [assumption|apply H].
  - apply NoDup_cons. split; [assumption|apply H].
  - intros j f. rewrite lookup_insert, elem_of_cons. case_decide as D.
    + subst j. intros [= <-]. split; [reflexivity|auto].
    + intros Hj. rewrite <- (es_free _ _ _ _ H _ _ Hj). split; [intros [?|?]; [congruence|assumption]|auto].
Qed.
End espace.

(** * The kernel *)

(** [running k cur]: the current environment of this CPU is [cur], a live one,
    and the page directory in force is its own; without one it is the
    kernel's. *)
Definition running (k : ks) (cur : option Z) : Prop :=
  ∃ c, cpus k !! cpunum k = Some c ∧ cpu_env c = cur ∧
    match cur with
    | Some i => ∃ e, live k i e ∧ cr3 (kpm k) = env_pgdir e - KERNBASE
    | None => cr3 (kpm k) = kern_pgdir (kpm k) - KERNBASE
    end.

Section kernel.
Context (K : Z → Prop).
Implicit Types (k : ks).

Record kspace k (l R : list Z) (x : Z → Z) (kp : Z) (fl : list Z) : Prop := {
  ksp_vm : vspace K (kpm k) l R x kp;
  ksp_env : espace (envs k) (env_free_list k) R fl
}.

Definition kernel_ok k (cur : option Z) : Prop :=
  (∃ l R x kp fl, kspace k l R x kp fl) ∧ running k cur.

(** Inside the kernel, entered in state [k0]: the lock is held. *)
Record inside k0 k (cur : option Z) : Prop := {
  in_ok : kernel_ok k cur;
  in_lock : klock k = Some (cpunum k);
  in_kept : kept K (phys (kpm k0)) (phys (kpm k))
}.

(** The ways to leave it other than by returning. *)
Definition left_kernel k0 (w : stop) k : Prop :=
  kept K (phys (kpm k0)) (phys (kpm k)) ∧
  match w with
  | SRun e => kernel_ok k (Some e) ∧ klock k = None
  | SHalt => kernel_ok k None ∧ klock k = None
  | SMonitor => ∃ cur, kernel_ok k cur
  | _ => False
  end.

Lemma PADDR_kva_of (s : pm) a p : 0 ≤ p < 65536 → a = kva_of p → KERNBASE ≤ a < 2 ^ 32 ∧
  PADDR a s = Ret (a - KERNBASE) s.
Proof. intros Hp ->. unfold kva_of. split; [unfold KERNBASE, PGSIZE; lia|]. apply PADDR_kern. unfold KERNBASE, PGSIZE. lia. Qed.

Lemma kspace_root k l R x kp fl pd : kspace k l R x kp fl → pd ∈ R → 0 ≤ pd < 65536.
Proof.
  intros H Hpd. pose proof (vs_vm _ _ _ _ _ _ (ksp_vm _ _ _ _ _ _ H)) as Hv.
  pose proof (vm_root_used _ _ _ _ _ Hv Hpd). pose proof (vm_npages _ _ _ _ Hv). lia.
Qed.
Lemma kspace_kern k l R x kp fl : kspace k l R x kp fl → kern_pgdir (kpm k) = kva_of kp ∧ 0 ≤ kp < 65536.
Proof.
  intros [H _]. destruct (vs_kp _ _ _ _ _ _ H) as [E Hk]. split; [exact E|].
  destruct (vs_kern _ _ _ _ _ _ H kp Hk) as (Hb & _).
  pose proof (vm_npages _ _ _ _ (vs_vm _ _ _ _ _ _ H)). lia.
Qed.

(** The page directory of a live environment. *)
Lemma live_pgdir k l R x kp fl i e : kspace k l R x kp fl → live k i e →
  ∃ pd, pd ∈ R ∧ env_pgdir e = kva_of pd ∧ 0 ≤ pd < 65536.
Proof.
  intros H Hl. destruct (es_live _ _ _ _ (ksp_env _ _ _ _ _ _ H) i e Hl) as (pd & Hpd & E).
  exists pd. split; [assumption|]. split; [assumption|]. eapply kspace_root; eassumption.
Qed.

(** ** Weakest preconditions of the elementary operations *)

Lemma env_get_wp k i e Q E : envs k !! i = Some e → Q e k → wp (env_get i) Q E k.
Proof. intros H. apply wp_Ret, env_get_eq, H. Qed.
Lemma env_upd_wp k i e f Q E : envs k !! i = Some e → Q tt (set_envs (<[i := f e]> (envs k)) k) → wp (env_upd i f) Q E k.
Proof. intros H. apply wp_Ret, env_upd_eq, H. Qed.
Lemma curenv_wp k cur Q E : running k cur → Q cur k → wp curenv Q E k.
Proof. intros (c & Hc & Ec & _) H. eapply wp_Ret; [apply curenv_eq; exact Hc|]. rewrite Ec. exact H. Qed.
Lemma curenv_deref_wp k cur Q E : running k (Some cur) → Q cur k → wp curenv_deref Q E k.
Proof. intros H HQ. apply wp_bind. eapply curenv_wp; [exact H|]. exact HQ. Qed.
Lemma cprintf_wp k fmt args (Q : unit → ks → Prop) E : Q tt (set_klog ((fmt, args) :: klog k) k) → wp (cprintf fmt args) Q E k.
Proof. intros H. exact H. Qed.
Lemma inpm_wp {A} (m : M pm A) Q E k :
  wp m (λ a t, Q a (set_kpm t k)) (λ w t, E w (set_kpm t k)) (kpm k) → wp (inpm m) Q E k.
Proof.
  unfold wp. destruct (m (kpm k)) as [a t|w t] eqn:Em.
  - rewrite (inpm_Ret _ _ _ _ Em). auto.
  - rewrite (inpm_Stop _ _ _ _ Em). auto.
Qed.

(** A loop each of whose iterations keeps a property of the state. *)
Lemma for_range_wp (I : ks → Prop) E n body a step k : I k →
  (∀ i k, I k → wp (body i) (λ _ k', I k') E k) → wp (for_range n a step body) (λ _ k', I k') E k.
Proof.
  intros HI Hb. revert a k HI. induction n as [|n IH]; intros a k HI; [exact HI|].
  cbn [for_range]. apply wp_bind. eapply wp_conseq; [apply Hb, HI|]. intros ? k' HI'. apply IH, HI'.
Qed.

(** The state but for the log, the console and the trap code's globals. *)
Lemma inside_log k0 k cur g : inside k0 k cur → inside k0 (set_klog g k) cur.
Proof. intros [[(l & R & x & kp & fl & [? ?]) Hr] ? ?]. split; [split; [exists l, R, x, kp, fl; split; assumption|exact Hr]|assumption..]. Qed.
Lemma inside_cons k0 k cur g : inside k0 k cur → inside k0 (set_kcons g k) cur.
Proof. intros [[(l & R & x & kp & fl & [? ?]) Hr] ? ?]. split; [split; [exists l, R, x, kp, fl; split; assumption|exact Hr]|assumption..]. Qed.

Lemma running_upd k cur i e e' : running k cur → envs k !! i = Some e → keeps e e' →
  running (set_envs (<[i := e']> (envs k)) k) cur.
Proof.
  intros (c & Hc & Ec & Hr) He Hk. exists c. split; [exact Hc|]. split; [exact Ec|]. destruct cur as [j|]; [|exact Hr].
  destruct Hr as (f & [Hf Hs] & E). ksimpl. unfold live. ksimpl. destruct (Z.eq_dec i j) as [<-|Hne].
  - assert (f = e) as -> by congruence. exists e'. rewrite lookup_insert_eq, (kp_free _ _ Hk), (kp_pgdir _ _ Hk). auto.
  - exists f. rewrite lookup_insert_ne by assumption. auto.
Qed.

Lemma inside_upd k0 k cur i e e' : inside k0 k cur → envs k !! i = Some e → keeps e e' →
  inside k0 (set_envs (<[i := e']> (envs k)) k) cur.
Proof.
  intros [[(l & R & x & kp & fl & Hv & He) Hr] Hl Hk] Hi Hkeep. split; [split|assumption..].
  - exists l, R, x, kp, fl. split; [exact Hv|]. eapply espace_keeps; eassumption.
  - eapply running_upd; eassumption.
Qed.

(** An update that the invariant does not notice, of a slot known to exist. *)
Lemma env_upd_inside k0 k cur i e f (Q : unit → ks → Prop) E : inside k0 k cur → envs k !! i = Some e → keeps e (f e) →
  (∀ k', inside k0 k' cur → envs k' = <[i := f e]> (envs k) → cpus k' = cpus k → kpm k' = kpm k → Q tt k') →
  wp (env_upd i f) Q E k.
Proof.
  intros H He Hk HQ. eapply env_upd_wp; [exact He|]. apply HQ; try reflexivity. eapply inside_upd; eassumption.
Qed.

(** The same, of a live environment, without its fields. *)
Lemma env_upd_live k0 k cur i e f (Q : unit → ks → Prop) E : inside k0 k cur → live k i e → keeps e (f e) →
  (∀ k', inside k0 k' cur → live k' i (f e) → (∀ j g, live k j g → ∃ g', live k' j g') → Q tt k') →
  wp (env_upd i f) Q E k.
Proof.
  intros H [He Hs] Hk HQ. eapply env_upd_inside; [exact H|exact He|exact Hk|]. intros k' H' Ee _ _. apply HQ; [exact H'| |].
  - split; [rewrite Ee; apply lookup_insert_eq|rewrite (kp_free _ _ Hk); exact Hs].
  - intros j g [Hg Hsg]. destruct (Z.eq_dec i j) as [<-|Hne].
    + exists (f e). split; [rewrite Ee; apply lookup_insert_eq|rewrite (kp_free _ _ Hk); exact Hs].
    + exists g. split; [rewrite Ee, lookup_insert_ne by assumption|]; assumption.
Qed.

Lemma envs_total k l R x kp fl i : kspace k l R x kp fl → 0 ≤ i < NENV → ∃ e, envs k !! i = Some e.
Proof. intros [_ H] Hi. apply (es_dom _ _ _ _ H), Hi. Qed.

(** What [envid2env] answers is a live environment. *)
Lemma with_env_wp k cur envid chk F (Q : Z → ks → Prop) E : kernel_ok k (Some cur) → Q (- E_BAD_ENV) k →
  (∀ i e, live k i e → wp (F i) Q E k) → wp (with_env envid chk F) Q E k.
Proof.
  intros [(l & R & x & kp & fl & H) (c & Hc & Ec & ce & Hl & _)] Hbad Hok.
  destruct (envid2env_run k c cur ce envid chk Hc Ec (proj1 Hl)) as [H0 H1].
  { intros i Hi. apply (es_dom _ _ _ _ (ksp_env _ _ _ _ _ _ H)), Hi. }
  destruct (Z.eq_dec envid 0) as [->|Hne].
  - unfold wp. rewrite (with_env_ok _ _ _ _ F (H0 eq_refl)). apply (Hok cur ce Hl).
  - destruct (H1 Hne) as (e & He & Er). case_decide as D.
    + unfold wp. rewrite (with_env_ok _ _ _ _ F Er). apply (Hok _ e). split; [assumption|apply D].
    + unfold wp. rewrite (with_env_bad _ _ _ F Er). exact Hbad.
Qed.

(** ** Context switches *)

Lemma kspace_upd k l R x kp fl i e e' : kspace k l R x kp fl → envs k !! i = Some e → keeps e e' →
  kspace (set_envs (<[i := e']> (envs k)) k) l R x kp fl.
Proof. intros [Hv He] Hi Hk. split; [exact Hv|]. eapply espace_keeps; eassumption. Qed.

Lemma kspace_ext k k' l R x kp fl : kspace k l R x kp fl → kpm k' = kpm k → envs k' = envs k →
  env_free_list k' = env_free_list k → kspace k' l R x kp fl.
Proof. intros [? ?] E1 E2 E3. split; [rewrite E1|rewrite E2, E3]; assumption. Qed.

Lemma kspace_cr3 k l R x kp fl a : kspace k l R x kp fl →
  kspace (set_kpm (with_cr3 a (kpm k)) k) l R x kp fl.
Proof.
  intros [[H1 H2 H3 H4 H5 H6] He]. split; [|exact He]. split; [|assumption..].
  eapply vm_inv_ext; [exact H1|reflexivity..].
Qed.

(** The end of env_run, and what comes before it. *)
Lemma run_tail_wp k0 k e : inside k0 k (Some e) →
  wp (unlock_kernel ;; env_pop_tf e) (λ _ _, False) (left_kernel k0) k.
Proof.
  intros [[(l & R & x & kp & fl & H) Hr] Hl Hk]. destruct Hr as (c & Hc & Ec & y & [Hy Hs] & E).
  unfold wp. rewrite (run_tail k y c e Hl Hc Ec Hy). split; [exact Hk|]. split; [|reflexivity].
  split.
  - exists l, R, x, kp, fl. apply (kspace_ext (set_envs (<[e := set_env_cpunum (cpunum k) y]> (envs k)) k)); [|reflexivity..].
    eapply kspace_upd; [exact H|exact Hy|apply keeps_cpunum].
  - exists c. split; [exact Hc|]. split; [exact Ec|]. exists (set_env_cpunum (cpunum k) y).
    split; [|exact E]. split; [apply lookup_insert_eq|exact Hs].
Qed.

(** Preemption of the current environment. *)
Lemma preempt_wp k0 k cur e y : inside k0 k cur → live k e y → cur ≠ Some e →
  wp (match cur with
      | Some i => x ← env_get i; when (env_status x =? ENV_RUNNING) (env_upd i (set_env_status ENV_RUNNABLE))
      | None => mret tt
      end) (λ _ k', inside k0 k' cur ∧ live k' e y) (left_kernel k0) k.
Proof.
  intros H Hl Hne. destruct cur as [i|]; [|split; assumption].
  pose proof (in_ok _ _ _ H) as [_ (c & _ & _ & z & [Hz Hs] & _)].
  apply wp_bind. eapply env_get_wp; [exact Hz|]. destruct (Z.eqb_spec (env_status z) ENV_RUNNING); [|split; assumption].
  cbn [when]. eapply env_upd_inside; [exact H|exact Hz|apply keeps_status; [assumption|discriminate]|].
  intros k' H' Ee _ _. split; [exact H'|]. destruct Hl as [Hy Hsy]. split; [|assumption].
  rewrite Ee, lookup_insert_ne by congruence. assumption.
Qed.

(** The page directory of a live environment is loaded. *)
Lemma load_wp k0 k cur e y : inside k0 k cur → live k e y →
  wp (set_curenv (Some e) ;; env_upd e (set_env_status ENV_RUNNING) ;;
      env_upd e (λ x, set_env_runs (w32 (env_runs x + 1)) x) ;;
      x ← env_get e; pa ← inpm (PADDR (env_pgdir x)); lcr3 pa)
    (λ _ k', inside k0 k' (Some e)) (left_kernel k0) k.
Proof.
  intros [[(l & R & x & kp & fl & H) (c & Hc & _)] Hlk Hk] [Hy Hs].
  destruct (live_pgdir _ _ _ _ _ _ _ _ H (conj Hy Hs)) as (pd & _ & Ep & Hpd).
  destruct (PADDR_kva_of (kpm k) _ pd Hpd Ep) as [Hb _].
  apply wp_bind. eapply wp_Ret; [apply (set_curenv_eq k c (Some e) Hc)|].
  apply wp_bind. eapply env_upd_wp; [exact Hy|]. apply wp_bind. eapply env_upd_wp; [apply lookup_insert_eq|]. ksimpl.
  apply wp_bind. eapply env_get_wp; [apply lookup_insert_eq|]. ksimpl.
  apply wp_bind. eapply wp_Ret; [apply inpm_Ret, PADDR_kern; exact Hb|].
  eapply wp_Ret; [apply inpm_Ret; reflexivity|]. ksimpl. rewrite insert_insert_eq.
  set (y' := set_env_runs _ _). assert (keeps y y') as Hkeep
    by (etransitivity; [apply (keeps_status y ENV_RUNNING Hs); discriminate|apply keeps_runs]).
  pose proof (kspace_upd _ _ _ _ _ _ _ _ y' H Hy Hkeep) as H1.
  split; [split|exact Hlk|exact Hk].
  - exists l, R, x, kp, fl.
    eapply kspace_ext; [apply (kspace_cr3 _ _ _ _ _ _ (env_pgdir y - KERNBASE) H1)|reflexivity..].
  - exists (set_cpu_env (Some e) c). ksimpl. split; [apply lookup_insert_eq|]. split; [reflexivity|].
    exists y'. split; [split; [apply lookup_insert_eq|discriminate]|reflexivity].
Qed.

Lemma env_run_wp k0 k cur e y : inside k0 k cur → live k e y →
  wp (env_run e) (λ _ _, False) (left_kernel k0) k.
Proof.
  intros H Hl. unfold env_run. apply wp_bind. eapply curenv_wp; [apply H|]. apply wp_bind.
  eapply wp_conseq; [|intros ? k' H'; exact (run_tail_wp k0 k' e H')].
  case_bool_decide as Hc; cbn [when].
  - apply wp_bind. eapply wp_conseq; [apply (preempt_wp _ _ _ _ _ H Hl Hc)|].
    intros ? k' [H' Hl']. apply (load_wp _ _ _ _ _ H' Hl').
  - subst cur. exact H.
Qed.

(** ** The scheduler *)

Lemma sched_scan_wp k0 k cur l R x kp fl n : kspace k l R x kp fl → inside k0 k cur → ∀ i, 0 ≤ i → i + Z.of_nat n ≤ NENV →
  wp (sched_scan n i) (λ _ k', k' = k) (left_kernel k0) k.
Proof.
  intros H Hin. induction n as [|n IH]; intros i Hi Hn; [reflexivity|]. cbn [sched_scan].
  destruct (envs_total _ _ _ _ _ _ i H) as [e He]; [lia|]. apply wp_bind. eapply env_get_wp; [exact He|].
  destruct (_ || _ || _); [reflexivity|]. apply IH; lia.
Qed.

Lemma sched_halt_wp k0 k cur : inside k0 k cur → wp sched_halt (λ _ _, False) (left_kernel k0) k.
Proof.
  intros H. pose proof H as [[(l & R & x & kp & fl & Hs) Hr] Hl Hk]. unfold sched_halt. apply wp_bind.
  eapply wp_conseq; [apply (sched_scan_wp _ _ _ _ _ _ _ _ _ Hs H); vm_compute; discriminate|].
  intros i k' ->. destruct (i =? NENV).
  - apply wp_bind. apply cprintf_wp. pose proof (inside_log _ _ _ (("No runnable environments in the system!\n"%string, []) :: klog k) H) as [Hok _ Hk'].
    split; [exact Hk'|]. exists cur. exact Hok.
  - destruct Hr as (c & Hc & _). destruct (kspace_kern _ _ _ _ _ _ Hs) as [Ek Hkp].
    destruct (PADDR_kva_of (kpm k) _ kp Hkp Ek) as [Hb _].
    apply wp_bind. eapply wp_Ret; [apply (set_curenv_eq k c None Hc)|]. apply wp_bind.
    eapply wp_Ret; [reflexivity|]. apply wp_bind. eapply wp_Ret; [apply inpm_Ret, PADDR_kern; exact Hb|].
    apply wp_bind. eapply wp_Ret; [apply inpm_Ret; reflexivity|]. ksimpl.
    apply wp_bind. eapply wp_Ret; [apply thiscpu_upd_eq; ksimpl; apply lookup_insert_eq|]. ksimpl.
    apply wp_bind. eapply wp_Ret; [apply unlock_run; ksimpl; exact Hl|]. ksimpl.
    split; [exact Hk|]. split; [|reflexivity]. split.
    + exists l, R, x, kp, fl. eapply kspace_ext; [apply (kspace_cr3 _ _ _ _ _ _ (kern_pgdir (kpm k) - KERNBASE) Hs)|reflexivity..].
    + eexists. ksimpl. split; [apply lookup_insert_eq|]. split; reflexivity.
Qed.

(** [sched_yield] does not return. *)
Lemma sched_yield_wp k0 k cur : inside k0 k cur → wp sched_yield (λ _ _, False) (left_kernel k0) k.
Proof.
  intros H. pose proof H as [[(l & R & x & kp & fl & Hs) Hr] _ _]. pose proof Hr as (c & _ & _ & Hcur).
  unfold sched_yield. apply wp_bind. eapply curenv_wp; [exact Hr|]. apply wp_bind.
  apply wp_conseq with (Q := λ _ k', k' = k); [|intros off k' ->].
  { destruct cur as [i|]; [|reflexivity]. destruct Hcur as (e & [He _] & _).
    apply wp_bind. eapply env_get_wp; [exact He|reflexivity]. }
  apply wp_bind. apply wp_conseq with (Q := λ _ k', k' = k); [|intros ? k' ->].
  - apply (for_range_wp (λ k', k' = k)); [reflexivity|]. intros i k' ->. unfold sched_try. cbv zeta.
    destruct (envs_total _ _ _ _ _ _ ((i + off) mod NENV) Hs) as [e He]; [apply Z.mod_pos_bound; reflexivity|].
    apply wp_bind. eapply env_get_wp; [exact He|]. destruct (Z.eqb_spec (env_status e) ENV_RUNNABLE) as [Es|]; [|reflexivity].
    cbn [when]. eapply wp_conseq; [eapply (env_run_wp k0 k cur _ e H); split; [exact He|rewrite Es; discriminate]|intros ? ? []].
  - apply wp_bind. apply wp_conseq with (Q := λ _ k', k' = k); [|intros ? k' ->; apply (sched_halt_wp _ _ _ H)].
    destruct cur as [i|]; [|reflexivity]. destruct Hcur as (e & [He Hse] & _).
    apply wp_bind. eapply env_get_wp; [exact He|]. destruct (_ =? _); [|reflexivity]. cbn [when].
    eapply wp_conseq; [apply (env_run_wp k0 k _ i e H); split; assumption|intros ? ? []].
Qed.
End kernel.
