(* ===== verification/BootSpec.v ===== *)
(** What mem_init builds: boot_map_region maps exactly the region it is given,
    as far as its end is computed right, and the kernel's page directory maps
    what the comments of mem_init promise, but for the last page of memory. *)
From S2P Require Import Prelude Mmu Mem Pages PageTable AddrSpace UserMem Console KState Env EnvVm EnvSpec Syscall SyscallSpec KSpace Boot BootCheck.

(** * The kernel's page directory *)

(** [kdir s l kp]: page [kp] is a directory whose page tables, UVPT apart, are
    distinct pages in use. *)
Record kdir (s : pm) (l : list Z) (kp : Z) : Prop := {
  kd_pages : page_inv s l;
  kd_kp : 0 ≤ kp < npages s ∧ kp ∉ l;
  kd_pt : ∀ i t, 0 ≤ i < 1024 → i ≠ PDX UVPT → pt_of (phys s) kp i = Some t →
    0 ≤ t < npages s ∧ t ∉ l ∧ t ≠ kp ∧ ∃ p, pages s !! t = Some p ∧ 1 ≤ pp_ref p;
  kd_inj : ∀ i j t, 0 ≤ i < 1024 → 0 ≤ j < 1024 → i ≠ PDX UVPT → j ≠ PDX UVPT →
    pt_of (phys s) kp i = Some t → pt_of (phys s) kp j = Some t → i = j
}.

(** A virtual page outside the window at UVPT. *)
Definition kvpn (v : Z) : Prop := 0 ≤ v < 1048576 ∧ v / 1024 ≠ PDX UVPT.

Lemma kvpn_idx v : kvpn v → 0 ≤ v / 1024 < 1024 ∧ 0 ≤ v mod 1024 < 1024 ∧
  PDX (v * PGSIZE) = v / 1024 ∧ PTX (v * PGSIZE) = v mod 1024.
Proof.
  intros [Hv _]. destruct (page_idx v Hv) as (_ & E1 & E2). split; [Z.div_mod_to_equations; lia|].
  split; [apply Z.mod_pos_bound; lia|]. auto.
Qed.

(** What mapping pages into the kernel's half leaves alone. *)
Record kmapped (s : pm) (l : list Z) (kp : Z) (s' : pm) (l' : list Z) : Prop := {
  km_dir : kdir s' l' kp;
  km_same : npages s' = npages s ∧ kern_pgdir s' = kern_pgdir s ∧ cr3 s' = cr3 s ∧ mmio_base s' = mmio_base s
    ∧ pages_kva s' = pages_kva s ∧ envs_kva s' = envs_kva s ∧ nextfree s' = nextfree s;
  km_free : ∃ l0, l = l0 ++ l';
  km_pages : ∀ q, q ∉ l → pages s' !! q = pages s !! q;
  km_taken : ∀ q, q ∈ l → q ∉ l' → ∃ p, pages s' !! q = Some p ∧ 1 ≤ pp_ref p;
  km_self : wd (phys s') kp (PDX UVPT) = wd (phys s) kp (PDX UVPT);
  km_wd : ∀ i, 0 ≤ i < 1024 → wd (phys s') kp i = wd (phys s) kp i ∨
    pt_of (phys s) kp i = None ∧ ∃ t, t ∈ l ∧ 0 ≤ t < 65536 ∧ wd (phys s') kp i = pde_for t;
  km_mem : ∀ b, b / PGSIZE ≠ kp → b / PGSIZE ∉ l →
    (∀ i, 0 ≤ i < 1024 → i ≠ PDX UVPT → pt_of (phys s) kp i ≠ Some (b / PGSIZE)) → ld8 (phys s') b = ld8 (phys s) b
}.

Lemma div_page b q : ¬ (q * PGSIZE ≤ b < q * PGSIZE + PGSIZE) ↔ b / PGSIZE ≠ q.
Proof. unfold PGSIZE. Z.div_mod_to_equations. lia. Qed.

Section step.
Context (s : pm) (l : list Z) (kp : Z) (H : kdir s l kp) (v e : Z) (Hv : kvpn v) (He : u32_range e).

(** Storing an entry in a page table that is there. *)
Lemma store_any t : pt_of (phys s) kp (v / 1024) = Some t →
  let s' := with_phys (st32 (phys s) (t * PGSIZE + 4 * (v mod 1024)) e) s in
  kmapped s l kp s' l ∧
  (∀ i, 0 ≤ i < 1024 → wd (phys s') kp i = wd (phys s) kp i) ∧
  (∀ u, kvpn u → pte_of (phys s') kp u
    = if decide (u = v) then (if is_present e then Some e else None) else pte_of (phys s) kp u).
Proof using H Hv He.
  intros Ht s'. destruct (kvpn_idx v Hv) as (HI & HJ & _). destruct Hv as [Hvr Hvu].
  destruct (kd_pt _ _ _ H _ _ HI Hvu Ht) as (Hb & Hl & Hne & _).
  assert (∀ q j, 0 ≤ j < 1024 → wd (phys s') q j = if decide (q = t ∧ j = v mod 1024) then e else wd (phys s) q j) as Hwd
    by (intros q j Hj; unfold s'; psimpl; apply wd_st32; assumption).
  assert (∀ i, 0 ≤ i < 1024 → wd (phys s') kp i = wd (phys s) kp i) as Hrow.
  { intros i Hi. rewrite Hwd, decide_False by (assumption || intros [? _]; congruence). reflexivity. }
  assert (∀ i, 0 ≤ i < 1024 → pt_of (phys s') kp i = pt_of (phys s) kp i) as Hpt
    by (intros i Hi; unfold pt_of; rewrite Hrow by assumption; reflexivity).
  split; [|split; [exact Hrow|]].
  - split.
    + split.
      * eapply page_inv_ext; [apply H|reflexivity..].
      * apply H.
      * intros i t' Hi Hn. rewrite Hpt by assumption. apply (kd_pt _ _ _ H); assumption.
      * intros i j t' Hi Hj Hni Hnj. rewrite !Hpt by assumption. apply (kd_inj _ _ _ H); assumption.
    + repeat split.
    + exists []. reflexivity.
    + reflexivity.
    + tauto.
    + apply Hrow. split; reflexivity || discriminate.
    + intros i Hi. left. apply Hrow, Hi.
    + intros b Hb1 _ Hbt. apply ld8_st32_out. specialize (Hbt _ HI Hvu). rewrite Ht in Hbt.
      assert (b / PGSIZE ≠ t) as Hbn%div_page by congruence. unfold PGSIZE in *. lia.
  - intros u [Hu Huu]. destruct (kvpn_idx u (conj Hu Huu)) as (HIu & HJu & _). unfold pte_of. rewrite Hpt by assumption.
    case_decide as D; [subst u; rewrite Ht; cbv zeta; rewrite Hwd, decide_True by auto; reflexivity|].
    destruct (pt_of (phys s) kp (u / 1024)) as [t'|] eqn:Et; [|reflexivity]. cbv zeta.
    rewrite Hwd by assumption. rewrite decide_False; [reflexivity|]. intros [-> Ej]. apply D.
    apply vpn_split; [|exact Ej]. eapply (kd_inj _ _ _ H); eassumption.
Qed.

Context (Hpr : is_present e = true).

Lemma store_found t : pt_of (phys s) kp (v / 1024) = Some t →
  let s' := with_phys (st32 (phys s) (t * PGSIZE + 4 * (v mod 1024)) e) s in
  kmapped s l kp s' l ∧
  (∀ i, 0 ≤ i < 1024 → wd (phys s') kp i = wd (phys s) kp i) ∧
  (∀ u, kvpn u → pte_of (phys s') kp u = if decide (u = v) then Some e else pte_of (phys s) kp u).
Proof using H Hv He Hpr. intros Ht. pose proof (store_any t Ht) as G. rewrite Hpr in G. exact G. Qed.

(** A new page table for the slot. *)
Section new_table.
Context (t : Z) (p : PageInfo) (l' : list Z) (El : l = t :: l') (Hp : pages s !! t = Some p)
  (Hnone : pt_of (phys s) kp (v / 1024) = None).
Let s' := walk_state kp (v / 1024) t (pp_link p) s.

Lemma new_table_fresh : 0 ≤ t < npages s ∧ t ∉ l' ∧ t ≠ kp ∧
  ∀ i, 0 ≤ i < 1024 → i ≠ PDX UVPT → pt_of (phys s) kp i ≠ Some t.
Proof using H El.
  pose proof (kd_pages _ _ _ H) as Hpi. destruct (kd_kp _ _ _ H) as [_ Hkl]. rewrite El in Hpi, Hkl.
  split; [exact (page_inv_free_bound _ _ t Hpi (list_elem_of_here _ _))|].
  split; [exact (NoDup_cons_1_1 _ _ (page_inv_NoDup _ _ Hpi))|]. split; [intros F; apply Hkl; rewrite <- F; apply list_elem_of_here|].
  intros i Hi Hu F. destruct (kd_pt _ _ _ H _ _ Hi Hu F) as (_ & F' & _). apply F'. rewrite El. apply list_elem_of_here.
Qed.

Lemma new_table_wd q j : 0 ≤ j < 1024 → wd (phys s') q j
  = if decide (q = kp ∧ j = v / 1024) then pde_for t else if decide (q = t) then 0 else wd (phys s) q j.
Proof using H El Hv.
  intros Hj. destruct (kvpn_idx v Hv) as (HI & _). destruct new_table_fresh as (Htb & _).
  pose proof (pi_npages _ _ (kd_pages _ _ _ H)). destruct (pde_for_ok t ltac:(lia)) as (Hpu & _).
  unfold s', walk_state. psimpl. rewrite wd_st32, wd_memset by assumption. reflexivity.
Qed.

Lemma new_table_row i : 0 ≤ i < 1024 → wd (phys s') kp i = if decide (i = v / 1024) then pde_for t else wd (phys s) kp i.
Proof using H El Hv.
  intros Hi. destruct new_table_fresh as (_ & _ & Hkt & _). rewrite new_table_wd by assumption. repeat case_decide; reflexivity || naive_solver.
Qed.

Lemma new_table_pt i : 0 ≤ i < 1024 → pt_of (phys s') kp i = if decide (i = v / 1024) then Some t else pt_of (phys s) kp i.
Proof using H El Hv.
  intros Hi. destruct new_table_fresh as (Htb & _). pose proof (pi_npages _ _ (kd_pages _ _ _ H)).
  destruct (pde_for_ok t ltac:(lia)) as (_ & Hpp & Hpf).
  unfold pt_of. rewrite new_table_row by assumption. case_decide; [rewrite Hpp, Hpf; reflexivity|reflexivity].
Qed.

Lemma new_table_kdir : kdir s' l' kp.
Proof using H El Hp Hv.
  destruct new_table_fresh as (Htb & Htl & Htk & Hfresh).
  pose proof (kd_pages _ _ _ H) as Hpi. destruct (kd_kp _ _ _ H) as [Hkb Hkl]. rewrite El in Hpi, Hkl. apply not_elem_of_cons in Hkl as [_ Hkl].
  split.
  - eapply page_inv_ext; [exact (page_inv_take s t l' p Hpi Hp)|reflexivity..].
  - split; [exact Hkb|exact Hkl].
  - intros i t' Hi Hu. rewrite new_table_pt by assumption. case_decide as D.
    + intros [= <-]. split; [exact Htb|]. split; [exact Htl|]. split; [congruence|].
      exists (MkPageInfo None 1). split; [apply lookup_insert_eq|]. psimpl. lia.
    + intros Ht'. destruct (kd_pt _ _ _ H _ _ Hi Hu Ht') as (Hb & Hl' & Hne & Hr). rewrite El in Hl'.
      apply not_elem_of_cons in Hl' as [Hne' Hl']. split; [exact Hb|]. split; [exact Hl'|]. split; [exact Hne|].
      assert (pages s' !! t' = pages s !! t') as -> by (apply lookup_insert_ne; congruence). exact Hr.
  - intros i j t' Hi Hj Hui Huj. rewrite !new_table_pt by assumption.
    do 2 case_decide; subst; [congruence|intros [= <-] F; destruct (Hfresh _ Hj Huj F)
      |intros F [= <-]; destruct (Hfresh _ Hi Hui F)|apply (kd_inj _ _ _ H); assumption].
Qed.

Lemma new_table_mapped : kmapped s l kp s' l'.
Proof using H El Hp Hnone Hv.
  destruct new_table_fresh as (Htb & Htl & Htk & _). pose proof (pi_npages _ _ (kd_pages _ _ _ H)) as Hn.
  destruct (kvpn_idx v Hv) as (HI & _). split.
  - exact new_table_kdir.
  - repeat split.
  - exists [t]. exact El.
  - rewrite El. intros q Hq. apply lookup_insert_ne. intros ->. apply Hq, list_elem_of_here.
  - rewrite El. intros q Hq Hq'. apply elem_of_cons in Hq as [->|Hq]; [|contradiction].
    exists (MkPageInfo None 1). split; [apply lookup_insert_eq|]. psimpl. lia.
  - rewrite new_table_row by (split; reflexivity || discriminate). rewrite decide_False; [reflexivity|]. destruct Hv. congruence.
  - intros i Hi. rewrite new_table_row by assumption. case_decide; [subst i|auto]. right. split; [exact Hnone|].
    exists t. rewrite El. split; [apply list_elem_of_here|]. split; [lia|reflexivity].
  - rewrite El. intros b Hb1 Hb2 _. apply not_elem_of_cons in Hb2 as [Hb2 _]. apply div_page in Hb1, Hb2. unfold s', walk_state. psimpl.
    rewrite ld8_st32_out by (unfold PGSIZE in *; lia). rewrite memset_spec by discriminate. apply decide_False, Hb2.
Qed.

Lemma new_table_pte u : kvpn u → pte_of (phys s') kp u = pte_of (phys s) kp u.
Proof using H El Hnone Hv.
  destruct new_table_fresh as (Htb & Htl & Htk & _). intros Hu. destruct (kvpn_idx u Hu) as (HIu & HJu & _). destruct Hu as [Hu Huu].
  unfold pte_of. rewrite new_table_pt by assumption. case_decide as D.
  - rewrite D, Hnone. cbv zeta. rewrite new_table_wd by assumption. rewrite decide_False by (intros [F _]; congruence).
    rewrite decide_True by reflexivity. reflexivity.
  - destruct (pt_of (phys s) kp (u / 1024)) as [t'|] eqn:Et; [|reflexivity]. cbv zeta. rewrite new_table_wd by assumption.
    destruct (kd_pt _ _ _ H _ _ HIu Huu Et) as (_ & F & Hne & _). rewrite El in F. apply not_elem_of_cons in F as [F _].
    rewrite decide_False by (intros [G _]; congruence). rewrite decide_False by congruence. reflexivity.
Qed.
End new_table.

Lemma kdir_walk t p l' : l = t :: l' → pages s !! t = Some p → pt_of (phys s) kp (v / 1024) = None →
  let s' := walk_state kp (v / 1024) t (pp_link p) s in
  kmapped s l kp s' l' ∧
  (∀ i, 0 ≤ i < 1024 → wd (phys s') kp i = if decide (i = v / 1024) then pde_for t else wd (phys s) kp i) ∧
  (∀ u, kvpn u → pte_of (phys s') kp u = pte_of (phys s) kp u).
Proof.
  intros El Hp Hnone s'. split; [exact (new_table_mapped t p l' El Hp Hnone)|].
  split; [intros i; exact (new_table_row t p l' El i)|intros u; exact (new_table_pte t p l' El Hnone u)].
Qed.
End step.

Lemma kmapped_trans s l kp s1 l1 s2 l2 : kmapped s l kp s1 l1 → kmapped s1 l1 kp s2 l2 → kmapped s l kp s2 l2.
Proof.
  intros [D1 S1 [l01 F1] P1 G1 U1 T1 M1] [D2 S2 [l02 F2] P2 G2 U2 T2 M2]. split.
  - exact D2.
  - decompose [and] S1. decompose [and] S2. repeat split; congruence.
  - exists (l01 ++ l02). rewrite F1, F2, app_assoc. reflexivity.
  - intros q Hq. rewrite P2, P1; [reflexivity|exact Hq|]. intros F. apply Hq. rewrite F1. apply elem_of_app. auto.
  - intros q Hq Hq2. destruct (decide (q ∈ l1)) as [|Hq1]; [apply G2; assumption|].
    rewrite P2 by assumption. apply G1; assumption.
  - congruence.
  - intros i Hi. destruct (T2 i Hi) as [E2|(N2 & R2)], (T1 i Hi) as [E1|(N1 & t & Ht)].
    + left. congruence.
    + right. split; [exact N1|]. exists t. split; [apply Ht|]. split; [apply Ht|]. rewrite E2. apply Ht.
    + right. split; [unfold pt_of in *; rewrite <- E1; exact N2|]. destruct R2 as (t & Ht & R2). exists t. split; [|exact R2].
      rewrite F1. apply elem_of_app. auto.
    + right. split; [exact N1|]. destruct R2 as (t2 & Ht2 & R2). exists t2. split; [|exact R2]. rewrite F1. apply elem_of_app. auto.
  - intros b Hb Hbl Hbt. rewrite M2; [apply M1; assumption|exact Hb|intros F; apply Hbl; rewrite F1; apply elem_of_app; auto|].
    intros i Hi Hu F. destruct (T1 i Hi) as [E|(_ & t & Ht & Hr & E)].
    + apply (Hbt i Hi Hu). unfold pt_of in *. rewrite <- E. exact F.
    + unfold pt_of in F. rewrite E in F. destruct (pde_for_ok t Hr) as (_ & Ep & Ef). rewrite Ep, Ef in F.
      injection F as F. apply Hbl. rewrite <- F. exact Ht.
Qed.

Lemma kmapped_refl s l kp : kdir s l kp → kmapped s l kp s l.
Proof. intros H. split; [exact H|repeat split|exists []; reflexivity|reflexivity|tauto|reflexivity|auto|reflexivity]. Qed.

(** * boot_map_region *)

(** The entry that maps a virtual page to page [f]. *)
Definition entry (f perm : Z) : Z := Z.lor (f * PGSIZE) (Z.lor perm PTE_P).

Lemma entry_eq f perm : 0 ≤ f < 1048576 → perm_ok perm →
  Z.lor (Z.lor (PTE_ADDR (f * PGSIZE)) perm) PTE_P = entry f perm ∧
  u32_range (entry f perm) ∧ is_present (entry f perm) = true.
Proof.
  intros Hf Hp. assert (pa_ok (f * PGSIZE)) as Ha.
  { unfold pa_ok, u32_range, PGSIZE. split; [lia|apply Z.mod_mul; lia]. }
  rewrite PTE_ADDR_id by assumption. unfold entry. rewrite <- Z.lor_assoc. split; [reflexivity|]. split.
  - apply pte_range; [assumption|]. apply lor_perm_range; [assumption|]. unfold perm_ok, PTE_P, PGSIZE. lia.
  - rewrite Z.lor_assoc. apply is_present_lor.
Qed.

(** Access, for reading and writing, through a directory entry that pgdir_walk
    has made and an entry with PTE_W. *)
Lemma kaddr_entry s kp u t f perm write o : cr3 s = kp * PGSIZE → 0 ≤ u < KERNBASE / PGSIZE → 0 ≤ t < 65536 →
  wd (phys s) kp (u / 1024) = pde_for t → wd (phys s) t (u mod 1024) = entry f perm → perm_ok perm →
  Z.land perm PTE_W = PTE_W → 0 ≤ f < 1048576 → 0 ≤ o < PGSIZE → kaddr s write (u * PGSIZE + o) = Some (f * PGSIZE + o).
Proof.
  intros Hc Hu Ht Ed Ee Hp Hw Hf Ho. change (KERNBASE / PGSIZE) with 983040 in Hu. unfold kaddr.
  rewrite Z.geb_leb, (proj2 (Z.leb_gt _ _)) by (unfold KERNBASE, PGSIZE in *; lia).
  assert (u32_range (u * PGSIZE) ∧ u32_range (u * PGSIZE + o)) as [R1 R2] by (unfold u32_range, PGSIZE in *; lia).
  destruct (PDX_page (u * PGSIZE + o) (u * PGSIZE) R2 R1) as [E1 E2].
  { rewrite Z.div_add_l, Z.div_small, Z.add_0_r, Z.div_mul by (unfold PGSIZE in *; lia). reflexivity. }
  destruct (page_idx u ltac:(lia)) as (_ & F1 & F2). unfold translate. rewrite E1, E2, F1, F2, Hc.
  change (ld32 (phys s) (kp * PGSIZE + 4 * (u / 1024))) with (wd (phys s) kp (u / 1024)). rewrite Ed.
  destruct (pde_for_ok t Ht) as (_ & Ep & Ef). rewrite Ep, frame_of_addr, Ef. cbn [negb].
  change (ld32 (phys s) (t * PGSIZE + 4 * (u mod 1024))) with (wd (phys s) t (u mod 1024)). rewrite Ee.
  destruct (entry_eq f perm Hf Hp) as (_ & _ & ->). cbn [negb]. rewrite andb_false_l.
  assert (Z.land (Z.land (pde_for t) (entry f perm)) PTE_W = PTE_W) as ->.
  { rewrite <- Z.land_assoc. unfold entry. rewrite land_page by (apply lor_perm_range || idtac; try assumption; split; reflexivity || discriminate).
    rewrite Z.land_lor_distr_l, Hw. change (Z.lor PTE_W (Z.land PTE_P PTE_W)) with PTE_W. unfold pde_for.
    rewrite page2pa_eq, <- !Z.lor_assoc, land_page by (assumption || split; reflexivity || discriminate). reflexivity. }
  change (ctrue PTE_W) with true. cbn [negb]. rewrite andb_false_r.
  assert (pa_ok (f * PGSIZE)) as Ha by (unfold pa_ok, u32_range, PGSIZE; split; [lia|apply Z.mod_mul; lia]).
  unfold entry. rewrite PTE_ADDR_lor; [|exact Ha|apply lor_perm_range; [exact Hp|split; reflexivity || discriminate]].
  do 2 f_equal. unfold PGOFF. rewrite (w32_id _ R2). change 0xFFF with (Z.ones 12). rewrite Z.land_ones by lia. change (2 ^ 12) with PGSIZE.
  rewrite Z.add_comm, Z_mod_plus_full. apply Z.mod_small, Ho.
Qed.

(** How many of the page tables that serve the [n] virtual pages from [v] are
    missing. *)
Definition missing (m : mem) (kp v n : Z) : Z :=
  if n <=? 0 then 0 else countb (λ i, bool_decide (pt_of m kp i = None)) (seqZ (v / 1024) ((v + n - 1) / 1024 - v / 1024 + 1)).

Lemma missing_step m m' kp v n : 0 ≤ v → 0 ≤ n → v + n < 1048576 →
  is_Some (pt_of m' kp (v / 1024)) →
  (∀ i, 0 ≤ i < 1024 → i ≠ v / 1024 → wd m' kp i = wd m kp i) →
  missing m kp v (n + 1) = Z.b2z (bool_decide (pt_of m kp (v / 1024) = None)) + missing m' kp (v + 1) n.
Proof.
  intros Hv Hn Hb [t Ht] Hm. unfold missing. rewrite (proj2 (Z.leb_gt (n + 1) 0)) by lia. replace (v + (n + 1) - 1) with (v + n) by lia. replace (v + 1 + n - 1) with (v + n) by lia.
  set (a := v / 1024) in *. set (b := (v + n) / 1024).
  assert (a ≤ b < 1024) as Hab by (unfold a, b; Z.div_mod_to_equations; lia).
  assert (0 ≤ a) by (unfold a; apply Z.div_pos; lia).
  rewrite (seqZ_cons a) by lia. cbn [countb]. f_equal.
  assert (countb (λ i, bool_decide (pt_of m kp i = None)) (seqZ (Z.succ a) (Z.pred (b - a + 1)))
    = countb (λ i, bool_decide (pt_of m' kp i = None)) (seqZ (Z.succ a) (Z.pred (b - a + 1)))) as ->.
  { apply countb_ext. intros i Hi. apply elem_of_seqZ in Hi. unfold pt_of. rewrite Hm by lia. reflexivity. }
  destruct (Z.leb_spec n 0).
  { assert (b = a) as -> by (unfold a, b; f_equal; lia). replace (Z.pred (a - a + 1)) with 0 by lia. reflexivity. }
  assert ((v + 1) / 1024 = a ∨ (v + 1) / 1024 = Z.succ a) as [->| ->]
    by (unfold a, b; Z.div_mod_to_equations; lia).
  - rewrite (seqZ_cons a) by lia. cbn [countb]. rewrite Ht, bool_decide_eq_false_2 by discriminate. reflexivity.
  - do 2 f_equal; lia.
Qed.

Lemma missing_bound m kp v n : 0 ≤ v → 0 ≤ n →
  0 ≤ missing m kp v n ≤ (v + n - 1) / 1024 - v / 1024 + 1.
Proof.
  intros Hv Hn. unfold missing. destruct (Z.leb_spec n 0); [Z.div_mod_to_equations; lia|]. split; [apply countb_nonneg|].
  etransitivity; [apply countb_length|]. rewrite length_seqZ. Z.div_mod_to_equations. lia.
Qed.

(** One iteration: a page table that is missing takes the first free page. *)
Lemma map_page s l kp v e : kdir s l kp → kvpn v → u32_range e → is_present e = true →
  let need := Z.b2z (bool_decide (pt_of (phys s) kp (v / 1024) = None)) in
  need ≤ Z.of_nat (length l) →
  ∃ p s1 s' l', pgdir_walk (kva_of kp) (v * PGSIZE) true s = Ret (Some p) s1 ∧ kst32 p e s1 = Ret tt s' ∧
    kmapped s l kp s' l' ∧ Z.of_nat (length l) = Z.of_nat (length l') + need ∧
    is_Some (pt_of (phys s') kp (v / 1024)) ∧
    (∀ i, 0 ≤ i < 1024 → i ≠ v / 1024 → wd (phys s') kp i = wd (phys s) kp i) ∧
    (∀ u, kvpn u → pte_of (phys s') kp u = if decide (u = v) then Some e else pte_of (phys s) kp u).
Proof.
  intros H Hv He Hpr need Hroom. destruct (kvpn_idx v Hv) as (HI & HJ & EI & EJ).
  pose proof (kd_pages _ _ _ H) as Hpi. pose proof (pi_npages _ _ Hpi) as Hn. pose proof Hv as [Hvr Hvu].
  unfold need in *. clear need. destruct (pt_of (phys s) kp (v / 1024)) as [t|] eqn:Et.
  - destruct (kd_pt _ _ _ H _ _ HI Hvu Et) as (Hb & _).
    destruct (store_found s l kp H v e Hv He Hpr t Et) as (Hk & Hpt & Hpte).
    eexists _, s, _, l. split; [apply walk_found; [rewrite EI; exact Et|lia|lia]|]. rewrite EJ.
    split; [apply kst32_wd|]. split; [exact Hk|]. split; [rewrite bool_decide_eq_false_2 by discriminate; simpl; lia|].
    split; [unfold pt_of; rewrite Hpt by assumption; fold (pt_of (phys s) kp (v / 1024)); rewrite Et; eauto|].
    split; [auto|exact Hpte].
  - rewrite bool_decide_eq_true_2 in * by reflexivity. destruct l as [|t l']; [simpl in Hroom; lia|].
    destruct (walk_new s l' kp (v * PGSIZE) t ltac:(rewrite EI; exact Et) Hpi) as (p & Hp & E). rewrite EI, EJ in E.
    destruct (kdir_walk s _ kp H v Hv t p l' eq_refl Hp Et) as (Hk1 & Hpt1 & Hpte1).
    set (s1 := walk_state kp (v / 1024) t (pp_link p) s) in *.
    assert (pt_of (phys s1) kp (v / 1024) = Some t) as Et1.
    { unfold pt_of. rewrite Hpt1, decide_True by auto. destruct (pde_for_ok t) as (_ & -> & ->); [|reflexivity].
      pose proof (page_inv_free_bound _ _ t Hpi (list_elem_of_here _ _)). lia. }
    destruct (store_found s1 l' kp (km_dir _ _ _ _ _ Hk1) v e Hv He Hpr t Et1) as (Hk & Hpt & Hpte).
    eexists _, s1, _, l'. split; [exact E|]. split; [apply kst32_wd|].
    split; [eapply kmapped_trans; eassumption|]. split; [simpl; lia|].
    split; [unfold pt_of; rewrite Hpt by assumption; fold (pt_of (phys s1) kp (v / 1024)); rewrite Et1; eauto|]. split; [intros i Hi D; rewrite Hpt, Hpt1, decide_False by assumption; reflexivity|].
    intros u Hu. rewrite Hpte by assumption. case_decide; [reflexivity|]. apply Hpte1, Hu.
Qed.

(** [mapped s l kp v n f perm s' l']: the [n] virtual pages from [v] are mapped
    to the physical pages from [f], and nothing else has changed but for the
    page tables that were needed. *)
Record mapped (s : pm) (l : list Z) (kp v n f perm : Z) (s' : pm) (l' : list Z) : Prop := {
  mp_kmapped : kmapped s l kp s' l';
  mp_length : Z.of_nat (length l) = Z.of_nat (length l') + missing (phys s) kp v n;
  mp_pte : ∀ u, kvpn u → pte_of (phys s') kp u
    = if decide (v ≤ u < v + n) then Some (entry (f + (u - v)) perm) else pte_of (phys s) kp u;
  mp_slots : ∀ i, 0 ≤ i < 1024 → ¬ (v / 1024 ≤ i ≤ (v + n - 1) / 1024) → wd (phys s') kp i = wd (phys s) kp i
}.

Lemma mapped_nil s l kp v f perm : kdir s l kp → mapped s l kp v 0 f perm s l.
Proof.
  intros H. split; [apply kmapped_refl, H|unfold missing; simpl; lia| |auto].
  intros u _. rewrite decide_False by lia. reflexivity.
Qed.

Lemma mapped_step s l kp v n f perm s1 l1 s' l' : kdir s l kp → kvpn v → 0 ≤ n → v + n < 1048576 →
  kmapped s l kp s1 l1 →
  Z.of_nat (length l) = Z.of_nat (length l1) + Z.b2z (bool_decide (pt_of (phys s) kp (v / 1024) = None)) →
  is_Some (pt_of (phys s1) kp (v / 1024)) →
  (∀ i, 0 ≤ i < 1024 → i ≠ v / 1024 → wd (phys s1) kp i = wd (phys s) kp i) →
  (∀ u, kvpn u → pte_of (phys s1) kp u = if decide (u = v) then Some (entry f perm) else pte_of (phys s) kp u) →
  mapped s1 l1 kp (v + 1) n (f + 1) perm s' l' → mapped s l kp v (n + 1) f perm s' l'.
Proof.
  intros H Hv Hn Hb Hk Hl Ht Hpt Hpte [Mk Ml Mp Ms]. pose proof Hv as [Hvr _]. split.
  - eapply kmapped_trans; eassumption.
  - rewrite (missing_step _ (phys s1)) by (assumption || lia). lia.
  - intros u Hu. rewrite Mp, Hpte by assumption. destruct (decide (v + 1 ≤ u < v + 1 + n)).
    + rewrite decide_True by lia. do 2 f_equal. lia.
    + destruct (decide (u = v)) as [->|]; [rewrite decide_True by lia; do 2 f_equal; lia|].
      rewrite decide_False by lia. reflexivity.
  - intros i Hi D. rewrite Ms, Hpt; [reflexivity|assumption| |assumption|];
      intros F; apply D; Z.div_mod_to_equations; lia.
Qed.

(** The whole loop: it panics when the free pages do not suffice for the page
    tables. *)
Lemma map_loop perm (Hperm : perm_ok perm) kp n : ∀ fuel s l v f, (n ≤ fuel)%nat → kdir s l kp →
  0 ≤ v → v + Z.of_nat n ≤ 1048576 → Z.of_nat n < 1048576 → (∀ k, 0 ≤ k < Z.of_nat n → kvpn (v + k)) →
  0 ≤ f → f + Z.of_nat n ≤ 1048576 →
  let run := boot_map_loop fuel (kva_of kp) (w32 (v * PGSIZE)) (w32 ((v + Z.of_nat n) * PGSIZE))
    (w32 (f * PGSIZE)) perm s in
  if decide (missing (phys s) kp v (Z.of_nat n) ≤ Z.of_nat (length l))
  then ∃ s' l', run = Ret tt s' ∧ mapped s l kp v (Z.of_nat n) f perm s' l'
  else ∃ s', run = Stop (SPanic "boot_map_region: cannot find valid page!") s'.
Proof.
  induction n as [|n IH]; intros fuel s l v f Hfuel H Hv0 Hvn Hn Hkv Hf0 Hfn run.
  - rewrite decide_True by (unfold missing; simpl; lia).
    exists s, l. split; [|apply mapped_nil; assumption]. unfold run. destruct fuel; cbn [boot_map_loop];
      rewrite Z.add_0_r, Z.eqb_refl; reflexivity.
  - destruct fuel as [|fuel]; [lia|]. pose proof (Hkv 0 ltac:(lia)) as Hkv0. rewrite Z.add_0_r in Hkv0.
    pose proof Hkv0 as [Hvr _]. destruct (page_idx v Hvr) as (Hvu & _).
    destruct (entry_eq f perm ltac:(lia) Hperm) as (Ee & Hee & Hep).
    assert (run = (boot_map_loop (Datatypes.S fuel) (kva_of kp) (v * PGSIZE) (w32 ((v + Z.of_nat (S n)) * PGSIZE)) (f * PGSIZE) perm) s)
      as -> by (unfold run; rewrite !(w32_id _ Hvu), (w32_id (f * PGSIZE)) by (unfold u32_range, PGSIZE; lia); reflexivity).
    assert ((v * PGSIZE =? w32 ((v + Z.of_nat (S n)) * PGSIZE)) = false) as Hne.
    { apply Z.eqb_neq. unfold w32, PGSIZE. Z.div_mod_to_equations. lia. }
    cbn [boot_map_loop]. rewrite Hne, Ee.
    set (need := Z.b2z (bool_decide (pt_of (phys s) kp (v / 1024) = None))).
    destruct (Z_le_gt_dec need (Z.of_nat (length l))) as [Hroom|Hroom].
    + destruct (map_page s l kp v _ H Hkv0 Hee Hep Hroom) as (p & s1 & s2 & l2 & E1 & E2 & Hk & Hl & Ht & Hpt & Hpte).
      rewrite (bind_Ret _ _ _ _ _ E1), (bind_Ret _ _ _ _ _ E2).
      assert (missing (phys s) kp v (Z.of_nat (S n)) = need + missing (phys s2) kp (v + 1) (Z.of_nat n)) as Em.
      { replace (Z.of_nat (S n)) with (Z.of_nat n + 1) by lia. apply missing_step; assumption || lia. }
      assert (w32 (v * PGSIZE + PGSIZE) = w32 ((v + 1) * PGSIZE)) as -> by (f_equal; lia).
      assert (w32 (f * PGSIZE + PGSIZE) = w32 ((f + 1) * PGSIZE)) as -> by (f_equal; lia).
      specialize (IH fuel s2 l2 (v + 1) (f + 1) ltac:(lia) (km_dir _ _ _ _ _ Hk) ltac:(lia) ltac:(lia) ltac:(lia)
        ltac:(intros k Hk'; replace (v + 1 + k) with (v + (k + 1)) by lia; apply Hkv; lia) ltac:(lia) ltac:(lia)).
      replace (v + 1 + Z.of_nat n) with (v + Z.of_nat (S n)) in IH by lia.
      cbv zeta in IH. unfold need in Em. rewrite Em.
      destruct (decide (missing (phys s2) kp (v + 1) (Z.of_nat n) ≤ Z.of_nat (length l2))).
      * rewrite decide_True by lia. destruct IH as (s' & l' & E & M). exists s', l'. split; [exact E|].
        replace (Z.of_nat (S n)) with (Z.of_nat n + 1) by lia. eapply mapped_step; eauto; lia.
      * rewrite decide_False by lia. exact IH.
    + destruct (bool_decide (pt_of (phys s) kp (v / 1024) = None)) eqn:En; [|unfold need in Hroom; simpl in Hroom; lia].
      apply bool_decide_eq_true in En. assert (l = []) as -> by (destruct l; [reflexivity|unfold need in Hroom; simpl in Hroom; lia]).
      rewrite decide_False.
      * rewrite (bind_Ret _ _ _ _ _ (walk_nomem s kp (v * PGSIZE) ltac:(destruct (kvpn_idx v Hkv0) as (_ & _ & -> & _); exact En) (kd_pages _ _ _ H))).
        exists s. reflexivity.
      * unfold missing. simpl (_ <=? 0). cbv iota. intros F. assert (1 ≤ 0); [|lia]. etransitivity; [|exact F].
        apply (countb_pos _ _ (v / 1024)); [|apply bool_decide_eq_true; exact En]. apply elem_of_seqZ.
        Z.div_mod_to_equations; lia.
Qed.

(** The pages that [boot_map_region] maps when asked for [n] from [v].  The test
    that the end does not wrap round compares the size with the distance from
    the end, not from the beginning, to 2^32: a region in the upper half of the
    space that is left there is taken to reach the last page but one. *)
Definition region_pages (v n : Z) : Z := if decide (1048576 < v + 2 * n) then 1048575 - v else n.

Section region.
Context (s : pm) (l : list Z) (kp v n f perm : Z) (H : kdir s l kp) (Hperm : perm_ok perm)
  (Hv : 0 ≤ v < 1048576) (Hn : 0 ≤ n < 1048576) (Hvn : v + n ≤ 1048576) (Hf : 0 ≤ f < 1048576)
  (Hfn : f + region_pages v n ≤ 1048576)
  (Hk : ∀ u, v ≤ u < v + region_pages v n → u / 1024 ≠ PDX UVPT).

Lemma region_pages_range : 0 ≤ region_pages v n ∧ v + region_pages v n ≤ 1048576.
Proof. unfold region_pages. case_decide; lia. Qed.

Lemma region_end : boot_map_region (kva_of kp) (v * PGSIZE) (n * PGSIZE) (f * PGSIZE) perm
  = boot_map_loop (Z.to_nat 0x100000) (kva_of kp) (w32 (v * PGSIZE)) (w32 ((v + region_pages v n) * PGSIZE)) (w32 (f * PGSIZE)) perm.
Proof.
  unfold boot_map_region. rewrite (w32_id (v * PGSIZE)), (w32_id (f * PGSIZE)) by (unfold u32_range, PGSIZE; lia).
  set (e := if _ >? _ then _ else _). assert (e = w32 ((v + region_pages v n) * PGSIZE)) as ->; [|reflexivity].
  unfold e. rewrite <- Z.mul_add_distr_r. unfold region_pages. rewrite Z.gtb_ltb.
  destruct (Z.ltb_spec (w32 (0xffffffff - w32 ((v + n) * PGSIZE) + 1)) (n * PGSIZE)) as [Hlt|Hlt];
    unfold w32, PGSIZE in Hlt; case_decide as D; try (exfalso; Z.div_mod_to_equations; lia).
  - change (ROUNDUP 4294963200 PGSIZE) with 4294963200. rewrite w32_id; [|unfold u32_range]; unfold PGSIZE; lia.
  - reflexivity.
Qed.

Lemma region_run :
  let run := boot_map_region (kva_of kp) (v * PGSIZE) (n * PGSIZE) (f * PGSIZE) perm s in
  if decide (missing (phys s) kp v (region_pages v n) ≤ Z.of_nat (length l))
  then ∃ s' l', run = Ret tt s' ∧ mapped s l kp v (region_pages v n) f perm s' l'
  else ∃ s', run = Stop (SPanic "boot_map_region: cannot find valid page!") s'.
Proof.
  intros run. unfold run. rewrite region_end. pose proof region_pages_range as Hr.
  assert (region_pages v n < 1048576) as Hlt by (unfold region_pages; case_decide; lia).
  pose proof (map_loop perm Hperm kp (Z.to_nat (region_pages v n)) (Z.to_nat 0x100000) s l v f) as L.
  rewrite Z2Nat.id in L by lia. apply L; try lia; [assumption|].
  intros k Hk'. split; [lia|apply Hk; lia].
Qed.
End region.

(** * mmio_map_region *)

Definition mmio_perm : Z := Z.lor (Z.lor PTE_PCD PTE_PWT) PTE_W.
(** The page numbers of the window for devices. *)
Definition mmio_vpn (v n : Z) : Prop := MMIOBASE / PGSIZE ≤ v ∧ 0 < n ∧ v + n ≤ MMIOLIM / PGSIZE.

Lemma mmio_kvpn v n u : mmio_vpn v n → v ≤ u < v + n → kvpn u.
Proof.
  unfold mmio_vpn, kvpn. change (MMIOBASE / PGSIZE) with 980992. change (MMIOLIM / PGSIZE) with 982016. change (PDX UVPT) with 957.
  intros. split; [lia|]. Z.div_mod_to_equations. lia.
Qed.

Lemma mmio_run s l kp v n f size : kdir s l kp → kern_pgdir s = kva_of kp → mmio_base s = v * PGSIZE → mmio_vpn v n →
  ROUNDUP size PGSIZE = n * PGSIZE → 0 < size ≤ n * PGSIZE → 0 ≤ f → f + n ≤ 1048576 →
  missing (phys s) kp v n ≤ Z.of_nat (length l) →
  ∃ s' l', mmio_map_region (f * PGSIZE) size s = Ret (v * PGSIZE) (with_mmio_base ((v + n) * PGSIZE) s') ∧
    mapped s l kp v n f mmio_perm s' l'.
Proof.
  intros H Hkp Hb Hv Er Hs Hf Hfn Hroom. pose proof Hv as (V1 & V2 & V3).
  change (MMIOBASE / PGSIZE) with 980992 in V1. change (MMIOLIM / PGSIZE) with 982016 in V3.
  assert (region_pages v n = n) as En by (unfold region_pages; rewrite decide_False by lia; reflexivity).
  pose proof (region_run s l kp v n f mmio_perm H ltac:(split; reflexivity || discriminate) ltac:(lia) ltac:(lia) ltac:(lia) ltac:(lia)
    ltac:(rewrite En; lia)) as R. rewrite En in R. specialize (R ltac:(intros u Hu; apply (mmio_kvpn v n u Hv Hu))).
  cbv zeta in R. rewrite decide_True in R by exact Hroom. destruct R as (s' & l' & E & M). exists s', l'. split; [|exact M].
  unfold mmio_map_region. rewrite bind_get, Hb, Hkp, Er. change MMIOLIM with (982016 * PGSIZE).
  rewrite w32_id by (unfold u32_range, PGSIZE in *; lia). rewrite Z.gtb_ltb, (proj2 (Z.ltb_ge _ _)) by (unfold PGSIZE in *; lia).
  fold mmio_perm. rewrite (bind_Ret _ _ _ _ _ E), bind_modify, bind_gets. psimpl.
  destruct (km_same _ _ _ _ _ (mp_kmapped _ _ _ _ _ _ _ _ _ M)) as (_ & _ & _ & -> & _). rewrite Hb.
  replace (v * PGSIZE + n * PGSIZE) with ((v + n) * PGSIZE) by lia. rewrite (w32_id ((v + n) * PGSIZE)) by (unfold u32_range, PGSIZE in *; lia).
  replace ((v + n) * PGSIZE - n * PGSIZE) with (v * PGSIZE) by lia. rewrite w32_id by (unfold u32_range, PGSIZE in *; lia). reflexivity.
Qed.

(** * The kernel's part of the address space *)

(** [built s l kp g k s' l']: since [s], pages above UTOP have been mapped until
    the directory is [g]; [k] page tables at most were made. *)
Record built (s : pm) (l : list Z) (kp : Z) (g : Z → option Z) (k : Z) (s' : pm) (l' : list Z) : Prop := {
  bt_kmapped : kmapped s l kp s' l';
  bt_length : Z.of_nat (length l) ≤ Z.of_nat (length l') + k;
  bt_pte : ∀ u, kvpn u → pte_of (phys s') kp u = g u;
  bt_low : ∀ i, 0 ≤ i < UPDX → wd (phys s') kp i = wd (phys s) kp i
}.

Definition over (v n f perm : Z) (g : Z → option Z) (u : Z) : option Z :=
  if decide (v ≤ u < v + n) then Some (entry (f + (u - v)) perm) else g u.

Lemma slot_present m kp g v n u : (∀ u, kvpn u → pte_of m kp u = g u) → kvpn u → is_Some (g u) →
  v / 1024 = u / 1024 → (v + n - 1) / 1024 = u / 1024 → missing m kp v n = 0.
Proof.
  intros Hg Hu [e He] E1 E2. unfold missing. case_match; [reflexivity|]. rewrite E1, E2.
  replace (u / 1024 - u / 1024 + 1) with 1 by lia. rewrite seqZ_cons by lia. cbn [countb].
  rewrite <- Hg in He by assumption. unfold pte_of in He. destruct (pt_of m kp (u / 1024)); [|discriminate].
  rewrite bool_decide_eq_false_2 by discriminate. reflexivity.
Qed.

Lemma built_region s l kp g k s1 l1 v n f perm n' c : built s l kp g k s1 l1 → perm_ok perm →
  0 ≤ v < 1048576 → 0 ≤ n < 1048576 → v + n ≤ 1048576 → 0 ≤ f < 1048576 → region_pages v n = n' →
  f + n' ≤ 1048576 → (∀ u, v ≤ u < v + n' → u / 1024 ≠ PDX UVPT) → UPDX ≤ v / 1024 →
  missing (phys s1) kp v n' ≤ c → k + c ≤ Z.of_nat (length l) →
  ∃ s2 l2, boot_map_region (kva_of kp) (v * PGSIZE) (n * PGSIZE) (f * PGSIZE) perm s1 = Ret tt s2 ∧
    built s l kp (over v n' f perm g) (k + c) s2 l2.
Proof.
  intros [Bk Bl Bp Bw] Hp Hv Hn Hvn Hf <- Hfn Hu Hlow Hm Hroom.
  pose proof (region_run s1 l1 kp v n f perm (km_dir _ _ _ _ _ Bk) Hp Hv Hn Hvn Hf Hfn Hu) as R. cbv zeta in R.
  rewrite decide_True in R by lia. destruct R as (s2 & l2 & E & [Mk Ml Mp Ms]). exists s2, l2. split; [exact E|]. split.
  - eapply kmapped_trans; eassumption.
  - lia.
  - intros u Hu'. rewrite Mp by assumption. unfold over. case_decide; [reflexivity|]. apply Bp, Hu'.
  - intros i Hi. rewrite Ms; [apply Bw, Hi| |]; unfold UPDX in *; lia.
Qed.

Definition upages_len (np : Z) : Z := (np * sizeof_PageInfo + PGSIZE - 1) / PGSIZE.

(** What mem_init maps: [pkp] and [ekp] are the first pages of the arrays
    pages and envs, [kst] that of percpu_kstacks. *)
Definition KBASE : Z := KERNBASE / PGSIZE.
Definition stack_vpn (i : Z) : Z := KBASE - i * 16 - 8.
Definition kernel_map (np pkp ekp kst : Z) (g : Z → option Z) (u : Z) : option Z :=
  if decide (KBASE ≤ u < 1048575) then Some (entry (u - KBASE) PTE_W)
  else let i := (KBASE - 1 - u) / 16 in
  if decide (0 ≤ i < NCPU ∧ stack_vpn i ≤ u) then Some (entry (kst + 8 * i + (u - stack_vpn i)) PTE_W)
  else if decide (UENVS / PGSIZE ≤ u < UENVS / PGSIZE + 1024) then Some (entry (ekp + (u - UENVS / PGSIZE)) PTE_U)
  else if decide (UPAGES / PGSIZE ≤ u < UPAGES / PGSIZE + upages_len np)
  then Some (entry (pkp + (u - UPAGES / PGSIZE)) PTE_U)
  else g u.

Lemma built_ext s l kp g g' k k' s' l' : (∀ u, kvpn u → g u = g' u) → k ≤ k' → built s l kp g k s' l' → built s l kp g' k' s' l'.
Proof.
  intros E Hk [Bk Bl Bp Bw]. split; [exact Bk|lia| |exact Bw]. intros u Hu. rewrite <- E by exact Hu. apply Bp, Hu.
Qed.

Lemma built_refl s l kp : kdir s l kp → built s l kp (pte_of (phys s) kp) 0 s l.
Proof. intros H. split; [apply kmapped_refl, H|lia|reflexivity..]. Qed.

Lemma ROUNDUP_pages np : 0 < np ≤ 65536 →
  ROUNDUP (np * sizeof_PageInfo) PGSIZE = upages_len np * PGSIZE ∧ 0 < upages_len np ≤ 128.
Proof.
  intros Hn. unfold ROUNDUP, ROUNDDOWN, upages_len, sizeof_PageInfo, PGSIZE.
  cbv zeta. assert (∀ z, 0 ≤ z < 1000000 → w32 z = z) as Hw by (intros z Hz; apply w32_id; unfold u32_range; lia).
  rewrite (Hw (np * 8)) by lia. rewrite Hw by (rewrite Hw; lia). rewrite Hw by lia. Z.div_mod_to_equations; lia.
Qed.

Section kernel_map.
Context (bootstack percpu_kstacks : Z) (s : pm) (l : list Z) (kp pkp ekp bst kst : Z) (H : kdir s l kp).
Context (Hkp : kern_pgdir s = kva_of kp) (Hpk : pages_kva s = kva_of pkp) (Hek : envs_kva s = kva_of ekp)
  (Hbs : bootstack = kva_of bst) (Hks : percpu_kstacks = kva_of kst)
  (Rpk : 0 ≤ pkp < 65536) (Rek : 0 ≤ ekp < 65536) (Rbs : 0 ≤ bst < 65536) (Rks : 0 ≤ kst < 65536 - 64).

(** The stack of CPU [i] goes where the stacks before it leave a gap. *)
Definition stacks_map (n : Z) (g : Z → option Z) (u : Z) : option Z :=
  let i := (KBASE - 1 - u) / 16 in
  if decide (0 ≤ i < n ∧ stack_vpn i ≤ u) then Some (entry (kst + 8 * i + (u - stack_vpn i)) PTE_W) else g u.

Lemma mp_stacks g k s1 l1 : built s l kp g k s1 l1 → k ≤ Z.of_nat (length l) → is_Some (g (stack_vpn 0)) →
  ∃ s2 l2, mem_init_mp percpu_kstacks s1 = Ret tt s2 ∧ built s l kp (stacks_map NCPU g) k s2 l2.
Proof.
  intros B Hroom Hst. unfold mem_init_mp. destruct (km_same _ _ _ _ _ (bt_kmapped _ _ _ _ _ _ _ B)) as (_ & Ek & _).
  rewrite bind_gets, Ek, Hkp.
  set (I a s' := ∃ l', built s l kp (stacks_map a g) k s' l').
  destruct (for_range_inv I (λ i, pa ← PADDR (percpu_kstacks + i * KSTKSIZE);
    boot_map_region (kva_of kp) (w32 (KSTACKTOP - i * (KSTKSIZE + KSTKGAP) - KSTKSIZE)) KSTKSIZE pa PTE_W) 1 (Z.to_nat NCPU) 0 s1)
    as (s2 & E & l2 & B2).
  - exists l1. eapply built_ext; [|reflexivity|exact B]. intros u _. unfold stacks_map. rewrite decide_False by lia. reflexivity.
  - intros i s2 Hi (l2 & B2). change (Z.of_nat (Z.to_nat NCPU)) with 8 in Hi. rewrite Z.add_0_l, Z.mul_1_r in *.
    assert (percpu_kstacks + i * KSTKSIZE = kva_of (kst + 8 * i)) as -> by (rewrite Hks; unfold kva_of, KSTKSIZE, PGSIZE; lia).
    rewrite (bind_Ret _ _ _ _ _ (PADDR_kva s2 (kst + 8 * i) ltac:(lia))).
    assert (w32 (KSTACKTOP - i * (KSTKSIZE + KSTKGAP) - KSTKSIZE) = stack_vpn i * PGSIZE) as ->.
    { unfold stack_vpn. change KBASE with 983040. change (KSTACKTOP) with (983040 * 4096). change KSTKSIZE with (8 * 4096).
      change KSTKGAP with (8 * 4096). unfold PGSIZE. rewrite w32_id; unfold u32_range; lia. }
    change KSTKSIZE with (8 * PGSIZE).
    assert (stack_vpn i = 983032 - i * 16) as Ei by (unfold stack_vpn; change KBASE with 983040; lia).
    destruct (built_region s l kp (stacks_map i g) k s2 l2 (stack_vpn i) 8 (kst + 8 * i) PTE_W 8 0 B2)
      as (s3 & l3 & E & B3); try solve [rewrite ?Ei; unfold perm_ok, PTE_W, PGSIZE, UPDX, region_pages; try case_decide; Z.div_mod_to_equations; lia].
    + intros u Hu. change (PDX UVPT) with 957. rewrite Ei in Hu. Z.div_mod_to_equations; lia.
    + erewrite (slot_present _ _ (stacks_map i g) _ _ (stack_vpn 0)); [lia|apply B2| | |..].
      * split; [unfold stack_vpn; change KBASE with 983040; lia|discriminate].
      * unfold stacks_map. case_decide; [eauto|exact Hst].
      * change (stack_vpn 0 / 1024) with 959. Z.div_mod_to_equations; lia.
      * change (stack_vpn 0 / 1024) with 959. Z.div_mod_to_equations; lia.
    + exists s3. split; [exact E|]. exists l3. eapply (built_ext _ _ _ _ _ (k + 0)); [|lia|exact B3].
      intros u _. unfold over, stacks_map. change (KBASE - 1 - u) with (983040 - 1 - u). unfold stack_vpn. change KBASE with 983040.
      set (j := (983040 - 1 - u) / 16). assert (16 * j ≤ 983039 - u < 16 * j + 16) as Hj
        by (unfold j; Z.div_mod_to_equations; lia). clearbody j.
      repeat case_decide; try lia; try (assert (j = i) as -> by lia); reflexivity.
  - exists s2, l2. split; [exact E|]. exact B2.
Qed.

(** [boot_map_region] for a region within one page table's reach, in the first
    half of what remains of the address space. *)
Lemma map_simple g k s1 l1 va size pa v n f perm c : built s l kp g k s1 l1 →
  va = v * PGSIZE → size = n * PGSIZE → pa = f * PGSIZE → perm_ok perm → 0 < n → 977920 ≤ v → v + 2 * n ≤ 1048576 →
  0 ≤ f → f + n < 1048576 → (v + n - 1) / 1024 - v / 1024 + 1 ≤ c →
  (v + n - 1) / 1024 < 957 ∨ 957 < v / 1024 → k + c ≤ Z.of_nat (length l) →
  ∃ s2 l2, boot_map_region (kva_of kp) va size pa perm s1 = Ret tt s2 ∧ built s l kp (over v n f perm g) (k + c) s2 l2.
Proof.
  intros B -> -> -> Hp Hn Hv Hvn Hf Hfn Hc Hu Hroom.
  apply built_region with (s1 := s1) (l1 := l1); try assumption; try lia.
  - unfold region_pages. rewrite decide_False by lia. reflexivity.
  - intros u Hu'. change (PDX UVPT) with 957. Z.div_mod_to_equations; lia.
  - unfold UPDX. Z.div_mod_to_equations; lia.
  - etransitivity; [apply missing_bound; lia|exact Hc].
Qed.

Lemma mem_init_map_built : 67 ≤ Z.of_nat (length l) →
  ∃ s' l', mem_init_map bootstack percpu_kstacks s = Ret tt s' ∧
    built s l kp (kernel_map (npages s) pkp ekp kst (pte_of (phys s) kp)) 67 s' l'.
Proof.
  intros Hroom. pose proof (pi_npages _ _ (kd_pages _ _ _ H)) as Hn. destruct (ROUNDUP_pages _ Hn) as [Er Hlen].
  unfold mem_init_map. rewrite !bind_gets, Hkp, Hpk.
  erewrite bind_Ret by (apply PADDR_kva; exact Rpk).
  destruct (map_simple _ _ _ _ UPAGES (ROUNDUP (npages s * sizeof_PageInfo) PGSIZE) (pkp * PGSIZE) 978944 (upages_len (npages s)) pkp PTE_U 1
    (built_refl _ _ _ H)) as (s1 & l1 & E1 & B1); try reflexivity; try exact Er; try (unfold perm_ok, PTE_U, PGSIZE; Z.div_mod_to_equations; lia).
  rewrite (bind_Ret _ _ _ _ _ E1), bind_gets.
  destruct (km_same _ _ _ _ _ (bt_kmapped _ _ _ _ _ _ _ B1)) as (_ & _ & _ & _ & _ & -> & _). rewrite Hek.
  erewrite bind_Ret by (apply PADDR_kva; exact Rek).
  destruct (map_simple _ _ _ _ UENVS PTSIZE (ekp * PGSIZE) 977920 1024 ekp PTE_U 1 B1) as (s2 & l2 & E2 & B2);
    try reflexivity; try (unfold perm_ok, PTE_U, PGSIZE; Z.div_mod_to_equations; lia).
  rewrite (bind_Ret _ _ _ _ _ E2), Hbs. erewrite bind_Ret by (apply PADDR_kva; exact Rbs).
  destruct (map_simple _ _ _ _ (KSTACKTOP - KSTKSIZE) KSTKSIZE (bst * PGSIZE) 983032 8 bst PTE_W 1 B2) as (s3 & l3 & E3 & B3);
    try reflexivity; try (unfold perm_ok, PTE_W, PGSIZE; Z.div_mod_to_equations; lia).
  rewrite (bind_Ret _ _ _ _ _ E3).
  destruct (built_region _ _ _ _ _ _ _ 983040 65536 0 PTE_W 65535 64 B3) as (s4 & l4 & E4 & B4);
    try reflexivity; try lia; try (unfold perm_ok, PTE_W, PGSIZE; lia).
  - intros u Hu. change (PDX UVPT) with 957. Z.div_mod_to_equations; lia.
  - unfold UPDX. Z.div_mod_to_equations; lia.
  - etransitivity; [apply missing_bound; lia|]. reflexivity.
  - change (boot_map_region (kva_of kp) KERNBASE (w32 (4294967295 - KERNBASE + 1)) 0 PTE_W s3 = Ret tt s4) in E4.
    rewrite (bind_Ret _ _ _ _ _ E4).
    destruct (mp_stacks _ _ _ _ B4) as (s5 & l5 & E5 & B5); [lia| |].
    + unfold over. change (stack_vpn 0) with 983032. rewrite decide_False, decide_True by lia. eauto.
    + exists s5, l5. split; [exact E5|]. eapply built_ext; [|reflexivity|exact B5]. intros u _.
      unfold stacks_map, over, kernel_map. change KBASE with 983040. change (UENVS / PGSIZE) with 977920.
      change (UPAGES / PGSIZE) with 978944. change NCPU with 8. unfold stack_vpn. change KBASE with 983040.
      set (j := (983040 - 1 - u) / 16). assert (16 * j ≤ 983039 - u < 16 * j + 16) as Hj
        by (unfold j; Z.div_mod_to_equations; lia). clearbody j. cbv zeta.
      repeat case_decide; try lia; reflexivity.
Qed.
End kernel_map.

(** * check_kern_pgdir *)

Lemma check_va2pa_pte s l kp u : kdir s l kp → kvpn u →
  check_va2pa (kva_of kp) (u * PGSIZE) s
  = Ret (match pte_of (phys s) kp u with Some e => PTE_ADDR e | None => w32 (-1) end) s.
Proof.
  intros H Hu. destruct (kvpn_idx u Hu) as (HI & HJ & EI & EJ). pose proof (pi_npages _ _ (kd_pages _ _ _ H)) as Hn.
  destruct Hu as [_ Huu]. unfold check_va2pa. rewrite EI, EJ, (bind_Ret _ _ _ _ _ (kld32_wd _ _ _)). unfold pte_of, pt_of.
  destruct (is_present (wd (phys s) kp (u / 1024))) eqn:Ep; [|reflexivity].
  destruct (kd_pt _ _ _ H (u / 1024) (frame_of (wd (phys s) kp (u / 1024))) HI Huu) as (Hb & _);
    [unfold pt_of; rewrite Ep; reflexivity|].
  cbn [negb]. rewrite (bind_Ret _ _ _ _ _ (KADDR_frame s _ Hn Hb)), (bind_Ret _ _ _ _ _ (kld32_wd _ _ _)). cbv zeta.
  by destruct (is_present (wd (phys s) (frame_of _) _)).
Qed.

(** A loop that only asserts what is so. *)
Lemma assert_maps_ok s l kp v n f pa what : kdir s l kp → 0 ≤ v → 0 ≤ n → v + n ≤ 1048576 → 0 ≤ f → f + n ≤ 1048576 →
  (∀ k, 0 ≤ k < n → kvpn (v + k) ∧ ∃ p, perm_ok p ∧ pte_of (phys s) kp (v + k) = Some (entry (f + k) p)) →
  pa s = Ret (f * PGSIZE) s → assert_maps (kva_of kp) (v * PGSIZE) (n * PGSIZE) pa what s = Ret tt s.
Proof.
  intros H Hv Hn Hvn Hf Hfn Hm Hpa. unfold assert_maps. rewrite Z.div_mul by discriminate. apply for_range_idle.
  intros k Hk. rewrite Z2Nat.id in Hk by lia. destruct (Hm k Hk) as (Hkv & p & Hp & E).
  assert (w32 (v * PGSIZE + (0 + k * PGSIZE)) = (v + k) * PGSIZE) as -> by (rewrite w32_id; unfold u32_range, PGSIZE; lia).
  rewrite (bind_Ret _ _ _ _ _ (check_va2pa_pte _ _ _ _ H Hkv)), (bind_Ret _ _ _ _ _ Hpa), E. apply kassert_true, Z.eqb_eq.
  assert (pa_ok ((f + k) * PGSIZE)) as Ha by (unfold pa_ok, u32_range, PGSIZE; split; [lia|apply Z.mod_mul; lia]).
  unfold entry. rewrite PTE_ADDR_lor; [|exact Ha|apply lor_perm_range; [exact Hp|unfold perm_ok, PTE_P, PGSIZE; lia]].
  rewrite w32_id; unfold u32_range, PGSIZE; lia.
Qed.

(** The directory mem_init builds on: only UVPT and the slot of MMIOBASE, where
    check_page has tried mmio_map_region, are in use. *)
Definition fresh_dir (m : mem) (kp : Z) : Prop :=
  ∀ i, 0 ≤ i < 1024 → if decide (i = PDX UVPT ∨ i = PDX MMIOBASE) then is_present (wd m kp i) = true else wd m kp i = 0.

Lemma pde_for_W t : 0 ≤ t < 65536 → is_present (pde_for t) = true ∧ ctrue (Z.land (pde_for t) PTE_W) = true.
Proof.
  intros Ht. split; [apply pde_for_ok, Ht|]. unfold ctrue. apply negb_true_iff, Z.eqb_neq. intros F.
  assert (Z.testbit (Z.land (pde_for t) PTE_W) 1 = false) as G by (rewrite F; reflexivity).
  unfold pde_for in G. rewrite Z.land_spec, !Z.lor_spec in G. change (Z.testbit PTE_W 1) with true in G.
  destruct (Z.testbit (page2pa t) 1), (Z.testbit PTE_P 1); discriminate G.
Qed.

Section check.
Context (bootstack percpu_kstacks : Z) (s : pm) (l : list Z) (kp pkp ekp kst : Z) (Hf : fresh_dir (phys s) kp) (s' : pm) (l' : list Z)
  (B : built s l kp (kernel_map (npages s) pkp ekp kst (pte_of (phys s) kp)) 67 s' l').
Context (Hn : npages s < 65536) (Hkp : kern_pgdir s = kva_of kp) (Hpk : pages_kva s = kva_of pkp) (Hek : envs_kva s = kva_of ekp)
  (Hks : percpu_kstacks = kva_of kst)
  (Rpk : 0 ≤ pkp < 65536) (Rek : 0 ≤ ekp < 65536) (Rks : 0 ≤ kst < 65536 - 64).

Lemma fresh_unmapped u : kvpn u → u / 1024 ≠ PDX MMIOBASE → pte_of (phys s) kp u = None.
Proof using Hf.
  clear - Hf. intros Hu Hm. destruct (kvpn_idx u Hu) as (HI & _). destruct Hu as [_ Hu]. unfold pte_of, pt_of.
  specialize (Hf _ HI). rewrite decide_False in Hf by tauto. rewrite Hf. reflexivity.
Qed.

(** A slot of the directory in which some page is mapped. *)
Lemma slot_mapped i u : 0 ≤ i < 1024 → i ≠ PDX UVPT → kvpn u → u / 1024 = i →
  is_Some (kernel_map (npages s) pkp ekp kst (pte_of (phys s) kp) u) →
  is_present (wd (phys s') kp i) = true.
Proof.
  intros Hi Hiu Hu <- [e He]. rewrite <- (bt_pte _ _ _ _ _ _ _ B) in He by assumption. unfold pte_of, pt_of in He.
  destruct (is_present _); [reflexivity|discriminate He].
Qed.

Lemma slot_at i u :
  (0 <=? i) && (i <? 1024) && negb (i =? 957) && (0 <=? u) && (u <? 1048576) && (u / 1024 =? i) = true →
  is_Some (kernel_map (npages s) pkp ekp kst (pte_of (phys s) kp) u) → is_present (wd (phys s') kp i) = true.
Proof.
  rewrite !andb_true_iff, negb_true_iff, Z.eqb_neq, Z.eqb_eq, !Z.leb_le, !Z.ltb_lt. intros Hb.
  apply slot_mapped; change (PDX UVPT) with 957; try tauto. split; [tauto|]. change (PDX UVPT) with 957. lia.
Qed.

Lemma check_len : 0 < upages_len (npages s) ≤ 128.
Proof.
  apply ROUNDUP_pages. destruct (km_same _ _ _ _ _ (bt_kmapped _ _ _ _ _ _ _ B)) as [E _].
  pose proof (pi_npages _ _ (kd_pages _ _ _ (km_dir _ _ _ _ _ (bt_kmapped _ _ _ _ _ _ _ B)))). lia.
Qed.

Lemma dir_low i : 0 ≤ i < UPDX → wd (phys s') kp i = 0.
Proof.
  intros Hi. rewrite (bt_low _ _ _ _ _ _ _ B) by exact Hi. specialize (Hf i ltac:(unfold UPDX in Hi; lia)).
  rewrite decide_False in Hf; [exact Hf|]. change (PDX UVPT) with 957. change (PDX MMIOBASE) with 958. unfold UPDX in Hi. lia.
Qed.

Lemma dir_kept i : i = PDX UVPT ∨ i = PDX MMIOBASE → is_present (wd (phys s') kp i) = true.
Proof.
  intros Hi. assert (0 ≤ i < 1024) as Hr by (destruct Hi as [-> | ->]; split; reflexivity || discriminate).
  specialize (Hf i Hr). rewrite decide_True in Hf by exact Hi.
  destruct (km_wd _ _ _ _ _ (bt_kmapped _ _ _ _ _ _ _ B) i Hr) as [->|[F _]]; [exact Hf|].
  unfold pt_of in F. rewrite Hf in F. discriminate.
Qed.

Lemma dir_made i : PDX KERNBASE ≤ i < 1024 →
  is_present (wd (phys s') kp i) = true ∧ ctrue (Z.land (wd (phys s') kp i) PTE_W) = true.
Proof.
  change (PDX KERNBASE) with 960. intros Hi.
  assert (is_present (wd (phys s') kp i) = true) as Hp.
  { apply (slot_mapped i (i * 1024)); [lia|change (PDX UVPT) with 957; lia| |apply Z.div_mul; discriminate|].
    - split; [lia|]. rewrite Z.div_mul by discriminate. change (PDX UVPT) with 957. lia.
    - unfold kernel_map. change KBASE with 983040. rewrite decide_True by lia. eauto. }
  destruct (km_wd _ _ _ _ _ (bt_kmapped _ _ _ _ _ _ _ B) i ltac:(lia)) as [E|(_ & t & _ & Ht & E)].
  - exfalso. specialize (Hf i ltac:(lia)). rewrite decide_False in Hf by (change (PDX UVPT) with 957; change (PDX MMIOBASE) with 958; lia).
    rewrite E, Hf in Hp. discriminate.
  - rewrite E. apply pde_for_W, Ht.
Qed.

(** Decides which case of [kernel_map] a page number is in. *)
Ltac in_map := unfold kernel_map; change KBASE with 983040; change NCPU with 8; unfold stack_vpn; change KBASE with 983040;
  change (UENVS / PGSIZE) with 977920; change (UPAGES / PGSIZE) with 978944; cbv zeta;
  repeat first [rewrite decide_True by (Z.div_mod_to_equations; lia) | rewrite decide_False by (Z.div_mod_to_equations; lia)].

Lemma check_stacks n : 0 ≤ n < 8 →
  (let base := w32 (KSTACKTOP - (KSTKSIZE + KSTKGAP) * (n + 1)) in
    assert_maps (kva_of kp) (base + KSTKGAP) KSTKSIZE (PADDR (percpu_kstacks + n * KSTKSIZE))
      "check_va2pa(pgdir, base + KSTKGAP + i) == PADDR(percpu_kstacks[n]) + i" ;;
    for_range (Z.to_nat (KSTKGAP / PGSIZE)) 0 PGSIZE (λ i,
      r ← check_va2pa (kva_of kp) (w32 (base + i));
      kassert (r =? w32 (-1)) "check_va2pa(pgdir, base + i) == ~0")) s' = Ret tt s'.
Proof.
  intros Hn'. pose proof (km_dir _ _ _ _ _ (bt_kmapped _ _ _ _ _ _ _ B)) as Hd.
  assert (w32 (KSTACKTOP - (KSTKSIZE + KSTKGAP) * (n + 1)) = (983040 - 16 * (n + 1)) * PGSIZE) as ->.
  { change KSTACKTOP with (983040 * 4096). change KSTKSIZE with (8 * 4096). change KSTKGAP with (8 * 4096). unfold PGSIZE.
    rewrite w32_id; unfold u32_range; lia. }
  cbv zeta. rewrite Hks. change (KSTKGAP / PGSIZE) with 8. change KSTKGAP with (8 * PGSIZE). change KSTKSIZE with (8 * PGSIZE).
  rewrite <- Z.mul_add_distr_r.
  assert (kva_of kst + n * (8 * PGSIZE) = kva_of (kst + 8 * n)) as -> by (unfold kva_of; lia).
  assert (∀ k, 0 ≤ k < 16 → kvpn (983040 - 16 * (n + 1) + k)) as Hkv
    by (intros k Hk; split; [lia|change (PDX UVPT) with 957; Z.div_mod_to_equations; lia]).
  erewrite bind_Ret.
  2: { apply (assert_maps_ok _ l' kp _ 8 (kst + 8 * n)); [exact Hd|lia..| |apply PADDR_kva; lia]. intros k Hk.
       replace (983040 - 16 * (n + 1) + 8 + k) with (983040 - 16 * (n + 1) + (8 + k)) by lia. split; [apply Hkv; lia|].
       exists PTE_W. split; [unfold perm_ok, PTE_W, PGSIZE; lia|]. rewrite (bt_pte _ _ _ _ _ _ _ B) by (apply Hkv; lia).
       in_map. assert ((983040 - 1 - (983040 - 16 * (n + 1) + (8 + k))) / 16 = n) as -> by (Z.div_mod_to_equations; lia).
       do 2 f_equal. lia. }
  apply for_range_idle. intros k Hk. change (Z.of_nat (Z.to_nat 8)) with 8 in Hk.
  assert (w32 ((983040 - 16 * (n + 1)) * PGSIZE + (0 + k * PGSIZE)) = (983040 - 16 * (n + 1) + k) * PGSIZE) as ->
    by (rewrite w32_id; unfold u32_range, PGSIZE; lia).
  rewrite (bind_Ret _ _ _ _ _ (check_va2pa_pte _ _ _ _ Hd (Hkv k ltac:(lia)))), (bt_pte _ _ _ _ _ _ _ B) by (apply Hkv; lia).
  pose proof check_len. in_map. rewrite fresh_unmapped; [reflexivity|apply Hkv; lia|]. change (PDX MMIOBASE) with 958. Z.div_mod_to_equations; lia.
Qed.

Lemma check_dir i : 0 ≤ i < 1024 →
  (pde ← kld32 (kva_of kp + 4 * i);
    if (i =? PDX UVPT) || (i =? PDX (KSTACKTOP - 1)) || (i =? PDX UPAGES) || (i =? PDX UENVS)
       || (i =? PDX MMIOBASE)
    then kassert (is_present pde) "pgdir[i] & PTE_P"
    else if i >=? PDX KERNBASE then
      kassert (is_present pde) "pgdir[i] & PTE_P" ;;
      kassert (ctrue (Z.land pde PTE_W)) "pgdir[i] & PTE_W"
    else kassert (pde =? 0) "pgdir[i] == 0") s' = Ret tt s'.
Proof.
  intros Hi. rewrite (bind_Ret _ _ _ _ _ (kld32_wd _ _ _)). pose proof dir_kept as Hk. pose proof dir_made as Hm.
  change (PDX UVPT) with 957 in *. change (PDX (KSTACKTOP - 1)) with 959. change (PDX UPAGES) with 956. change (PDX UENVS) with 955.
  change (PDX MMIOBASE) with 958 in *. change (PDX KERNBASE) with 960 in *.
  case_match eqn:E.
  - apply kassert_true. rewrite !orb_true_iff, !Z.eqb_eq in E. destruct E as [[[[-> | ->]| ->]| ->]| ->].
    + apply Hk. auto.
    + apply (slot_at 959 983032 eq_refl). in_map. eauto.
    + apply (slot_at 956 978944 eq_refl).
pose proof check_len. in_map. eauto.
    + apply (slot_at 955 977920 eq_refl). in_map. eauto.
    + apply Hk. auto.
  - rewrite !orb_false_iff, !Z.eqb_neq in E. rewrite Z.geb_leb. destruct (Z.leb_spec 960 i).
    + destruct (Hm i ltac:(lia)) as [-> ->]. reflexivity.
    + apply kassert_true, Z.eqb_eq, dir_low. unfold UPDX. lia.
Qed.

Lemma check_passes : check_kern_pgdir_pm percpu_kstacks s' = Ret tt s'.
Proof.
  pose proof (km_dir _ _ _ _ _ (bt_kmapped _ _ _ _ _ _ _ B)) as Hd.
  destruct (km_same _ _ _ _ _ (bt_kmapped _ _ _ _ _ _ _ B)) as (N1 & N2 & _ & _ & N3 & N4 & _).
  pose proof check_len as Hlen. pose proof (pi_npages _ _ (kd_pages _ _ _ Hd)) as Hn0. rewrite N1 in Hn0.
  destruct (ROUNDUP_pages _ Hn0) as [Er _].
  unfold check_kern_pgdir_pm. rewrite !bind_gets, N1, N2, N3, N4, Hkp, Hpk, Hek, Er.
  assert (∀ v, 977920 ≤ v < 979073 ∨ 983040 ≤ v < 1048576 → kvpn v) as Hkv
    by (intros v Hv; split; [lia|change (PDX UVPT) with 957; Z.div_mod_to_equations; lia]).
  assert (∀ v f p, kernel_map (npages s) pkp ekp kst (pte_of (phys s) kp) v = Some (entry f p) → perm_ok p → kvpn v →
    kvpn v ∧ ∃ p, perm_ok p ∧ pte_of (phys s') kp v = Some (entry f p)) as Hm.
  { intros v f p E Hp Hv. split; [exact Hv|]. exists p. split; [exact Hp|]. rewrite (bt_pte _ _ _ _ _ _ _ B) by exact Hv. exact E. }
  erewrite bind_Ret.
  2: { apply (assert_maps_ok _ l' kp 978944 _ pkp); [exact Hd|lia..| |apply PADDR_kva; lia]. intros k Hk.
       apply Hm with PTE_U; [|unfold perm_ok, PTE_U, PGSIZE; lia|apply Hkv; lia]. in_map. do 2 f_equal. lia. }
  erewrite bind_Ret.
  2: { apply (assert_maps_ok _ l' kp 977920 60 ekp); [exact Hd|lia..| |apply PADDR_kva; lia]. intros k Hk.
       apply Hm with PTE_U; [|unfold perm_ok, PTE_U, PGSIZE; lia|apply Hkv; lia]. in_map. do 2 f_equal. lia. }
  rewrite (w32_id (npages s * PGSIZE)) by (unfold u32_range, PGSIZE; lia).
  erewrite bind_Ret.
  2: { apply (assert_maps_ok _ l' kp 983040 _ 0); [exact Hd|lia..| |reflexivity]. intros k Hk.
       apply Hm with PTE_W; [|unfold perm_ok, PTE_W, PGSIZE; lia|apply Hkv; lia]. in_map. do 2 f_equal. lia. }
  erewrite bind_Ret.
  2: { apply for_range_idle. change (Z.of_nat (Z.to_nat NCPU)) with 8. intros n Hr. rewrite Z.add_0_l, Z.mul_1_r. exact (check_stacks n Hr). }
  apply for_range_idle. change (Z.of_nat (Z.to_nat NPDENTRIES)) with 1024. intros i Hi. rewrite Z.add_0_l, Z.mul_1_r. exact (check_dir i Hi).
Qed.
End check.

(** * Properties *)

(** A machine of 100 pages of which pages 4 to 99 are free: page 1 is the
    kernel's directory, with UVPT and a page table (page 2) for MMIOBASE. *)
Definition boot_dir : mem :=
  st32 (st32 ∅ (1 * PGSIZE + 4 * PDX MMIOBASE) (pde_for 2)) (1 * PGSIZE + 4 * PDX UVPT) (uvpt_entry 1).
Definition boot_100 : pm :=
  MkPm 100 100 (list_to_map ((λ i, (i, if i <? 4 then MkPageInfo None 1 else MkPageInfo (if i =? 99 then None else Some (i + 1)) 0)) <$> seqZ 0 100))
    (Some 4) (KERNBASE + 4 * PGSIZE) (kva_of 1) (kva_of 3) (kva_of 3) MMIOBASE boot_dir 0 [] 0.

Lemma boot_dir_wd i : 0 ≤ i < 1024 → wd boot_dir 1 i
  = if decide (i = PDX UVPT) then uvpt_entry 1 else if decide (i = PDX MMIOBASE) then pde_for 2 else 0.
Proof.
  intros Hi. unfold boot_dir.
  rewrite !wd_st32 by (assumption || (split; vm_compute; congruence)).
  repeat case_decide; try tauto; reflexivity.
Qed.

#[local] Opaque boot_dir.
Lemma boot_100_dir : kdir boot_100 (seqZ 4 96) 1.
Proof.
  assert (∀ i t, 0 ≤ i < 1024 → i ≠ PDX UVPT → pt_of (phys boot_100) 1 i = Some t → i = PDX MMIOBASE ∧ t = 2) as H.
  { intros i t Hi Hu. unfold pt_of. change (phys boot_100) with boot_dir. rewrite boot_dir_wd by exact Hi. rewrite decide_False by exact Hu.
    case_decide; [|discriminate]. intros [= <-]. auto. }
  split.
  - apply page_invb_sound. vm_compute. reflexivity.
  - split; [split; [discriminate|reflexivity]|]. rewrite elem_of_seqZ. lia.
  - intros i t Hi Hu Ht. destruct (H i t Hi Hu Ht) as [_ ->]. split; [split; [discriminate|reflexivity]|].
    split; [rewrite elem_of_seqZ; lia|]. split; [discriminate|]. exists (MkPageInfo None 1). split; [vm_compute; reflexivity|discriminate].
  - intros i j t Hi Hj Hui Huj Ht Ht'. destruct (H i t Hi Hui Ht), (H j t Hj Huj Ht'). congruence.
Qed.

Lemma boot_100_fresh : fresh_dir (phys boot_100) 1.
Proof.
  intros i Hi. change (phys boot_100) with boot_dir. rewrite boot_dir_wd by exact Hi. repeat case_decide; try tauto; vm_compute; reflexivity.
Qed.

(** C37. [boot_map_region] for [n] pages from page [v]: it maps the pages it should,
    each to its physical page with the permissions given, takes one free page
    for every page table that is missing and for nothing else, leaves every
    other mapping and every used page's reference count alone; and it panics
    exactly when there are not enough free pages for the page tables.  The
    pages it should map are [n], unless the test for wrapping round, which
    compares the size with the distance from the end of the region to 2^32,
    takes the region to end at the last page but one: so the region from
    KERNBASE loses its last page, and a smaller one in the upper half of the
    last stretch would be extended. *)
Theorem boot_map_region_maps (s : pm) (l : list Z) (kp v n f perm : Z) :
  kdir s l kp → perm_ok perm → 0 ≤ v < 1048576 → 0 ≤ n < 1048576 → v + n ≤ 1048576 → 0 ≤ f < 1048576 →
  let n' := if decide (1048576 < v + 2 * n) then 1048575 - v else n in
  f + n' ≤ 1048576 → (∀ u, v ≤ u < v + n' → u / 1024 ≠ PDX UVPT) →
  let run := boot_map_region (kva_of kp) (v * PGSIZE) (n * PGSIZE) (f * PGSIZE) perm s in
  if decide (missing (phys s) kp v n' ≤ Z.of_nat (length l))
  then ∃ s' l0 l', run = Ret tt s' ∧ l = l0 ++ l' ∧ Z.of_nat (length l0) = missing (phys s) kp v n' ∧ kdir s' l' kp ∧
    (∀ u, kvpn u → pte_of (phys s') kp u
      = if decide (v ≤ u < v + n') then Some (entry (f + (u - v)) perm) else pte_of (phys s) kp u) ∧
    (∀ q, q ∉ l → pages s' !! q = pages s !! q)
  else ∃ s', run = Stop (SPanic "boot_map_region: cannot find valid page!") s'.
Proof.
  intros H Hp Hv Hn Hvn Hf n' Hfn Hu run. pose proof (region_run s l kp v n f perm H Hp Hv Hn Hvn Hf Hfn Hu) as R.
  cbv zeta in R. fold (region_pages v n) in n'. fold n' in R. fold run in R. case_decide; [|exact R].
  destruct R as (s' & l' & E & [Mk Ml Mp Ms]). destruct (km_free _ _ _ _ _ Mk) as [l0 El].
  exists s', l0, l'. split; [exact E|]. split; [exact El|]. split; [rewrite El, length_app in Ml; lia|].
  split; [apply Mk|]. split; [exact Mp|apply Mk].
Qed.

Lemma boot_map_region_maps_witness : ∃ s' l0 l',
  boot_map_region (kva_of 1) (978944 * PGSIZE) (3 * PGSIZE) (3 * PGSIZE) PTE_U boot_100 = Ret tt s' ∧
  seqZ 4 96 = l0 ++ l' ∧ length l0 = 1%nat ∧ pte_of (phys s') 1 978946 = Some (entry 5 PTE_U).
Proof.
  pose proof (boot_map_region_maps boot_100 (seqZ 4 96) 1 978944 3 3 PTE_U boot_100_dir
    ltac:(split; vm_compute; congruence) ltac:(lia) ltac:(lia) ltac:(lia) ltac:(lia)) as R.
  cbv zeta in R. rewrite (decide_False (P := 1048576 < _)) in R by lia.
  specialize (R ltac:(lia) ltac:(intros u Hu; change (PDX UVPT) with 957; Z.div_mod_to_equations; lia)).
  assert (missing (phys boot_100) 1 978944 3 = 1) as Em by (vm_compute; reflexivity).
  rewrite Em, decide_True in R by (vm_compute; congruence). destruct R as (s' & l0 & l' & E & El & Hl & _ & Hp & _).
  exists s', l0, l'. split; [exact E|]. split; [exact El|]. split; [lia|].
  rewrite Hp by (split; [lia|discriminate]). reflexivity.
Defined.

(** C20. What mem_init maps.  From a directory in which only UVPT and the slot of
    MMIOBASE are in use, with 67 free pages, the calls of boot_map_region in
    mem_init return, and map exactly this: the pages array at UPAGES and 4MB
    from the envs array at UENVS, readable by everyone; the stacks of the
    CPUs, each above a gap, and all physical memory from KERNBASE but for the
    last page of the address space, writable by the kernel only; and nothing
    else changes.  The kernel's own test of the result, check_kern_pgdir,
    passes. *)
Theorem mem_init_map_spec (bootstack percpu_kstacks : Z) (s : pm) (l : list Z) (kp pkp ekp bst kst : Z) :
  kdir s l kp → fresh_dir (phys s) kp → npages s < 65536 → 67 ≤ Z.of_nat (length l) →
  kern_pgdir s = kva_of kp → pages_kva s = kva_of pkp → envs_kva s = kva_of ekp →
  bootstack = kva_of bst → percpu_kstacks = kva_of kst →
  0 ≤ pkp < 65536 → 0 ≤ ekp < 65536 → 0 ≤ bst < 65536 → 0 ≤ kst < 65536 - 64 →
  ∃ s' l0 l', mem_init_map bootstack percpu_kstacks s = Ret tt s' ∧ l = l0 ++ l' ∧ Z.of_nat (length l0) ≤ 67 ∧ kdir s' l' kp ∧
    (∀ u, kvpn u → pte_of (phys s') kp u = kernel_map (npages s) pkp ekp kst (pte_of (phys s) kp) u) ∧
    pte_of (phys s') kp 1048575 = None ∧
    check_kern_pgdir_pm percpu_kstacks s' = Ret tt s'.
Proof.
  intros H Hf Hn Hl Hkp Hpk Hek Hbs Hks Rpk Rek Rbs Rks.
  destruct (mem_init_map_built bootstack percpu_kstacks s l kp pkp ekp bst kst H Hkp Hpk Hek Hbs Hks Rpk Rek Rbs Rks Hl)
    as (s' & l' & E & B).
  destruct (km_free _ _ _ _ _ (bt_kmapped _ _ _ _ _ _ _ B)) as [l0 El].
  exists s', l0, l'. split; [exact E|]. split; [exact El|].
  split; [pose proof (bt_length _ _ _ _ _ _ _ B) as HL; rewrite El, length_app in HL; lia|].
  split; [apply B|]. split; [apply B|]. split.
  - assert (kvpn 1048575) as Hk by (split; [lia|discriminate]). rewrite (bt_pte _ _ _ _ _ _ _ B) by exact Hk.
    pose proof (check_len _ _ _ _ _ _ _ _ B Hn). change (kernel_map (npages s) pkp ekp kst (pte_of (phys s) kp) 1048575 = None).
    unfold kernel_map. change KBASE with 983040. change (UENVS / PGSIZE) with 977920. change (UPAGES / PGSIZE) with 978944. cbv zeta.
    change ((983040 - 1 - 1048575) / 16) with (-4096). rewrite !decide_False by lia.
    eapply fresh_unmapped; [exact Hf|exact Hk|discriminate].
  - eapply check_passes; eassumption.
Qed.

Lemma mem_init_map_spec_witness : ∃ s' l0 l',
  mem_init_map (kva_of 3) (kva_of 3) boot_100 = Ret tt s' ∧ seqZ 4 96 = l0 ++ l' ∧
  pte_of (phys s') 1 983050 = Some (entry 10 PTE_W) ∧ check_kern_pgdir_pm (kva_of 3) s' = Ret tt s'.
Proof.
  destruct (mem_init_map_spec (kva_of 3) (kva_of 3) boot_100 (seqZ 4 96) 1 3 3 3 3 boot_100_dir boot_100_fresh
    eq_refl ltac:(discriminate) eq_refl eq_refl eq_refl eq_refl eq_refl ltac:(lia) ltac:(lia) ltac:(lia) ltac:(lia))
    as (s' & l0 & l' & E & El & _ & _ & Hm & _ & Hc).
  exists s', l0, l'. split; [exact E|]. split; [exact El|]. split; [|exact Hc].
  rewrite Hm by (split; [lia|discriminate]). reflexivity.
Defined.
