(* ===== verification/BootInv.v ===== *)
(** What mem_init leaves up to the free list, and what the kernel's invariant
    asks of a state in which there is no address space and no environment:
    every page off the free list belongs to the kernel, and every slot of the
    environment table is free. *)
From S2P Require Import Prelude Mmu Mem Pages PageTable AddrSpace UserMem Console KState Env EnvVm EnvSpec Syscall SyscallSpec KSpace Boot BootSpec.

(** * mem_init up to the free list *)

Lemma detect_run cmos s : ∃ b n, detect_memory cmos s = Ret tt (with_npages b n s) ∧ 0 ≤ n ≤ 16639.
Proof.
  assert (∀ r, 0 ≤ nvram_read cmos r < 2 ^ 16) as Hr.
  { intros r. unfold nvram_read, mc146818_read. rewrite Z.lor_comm.
    pose proof (w8_range (cmos (w8 r))). pose proof (w8_range (cmos (w8 (r + 1)))).
    rewrite shiftl_lor_low by lia. rewrite Z.shiftl_mul_pow2 by lia. lia. }
  eexists _, _. split; [reflexivity|]. pose proof (Hr NVRAM_BASELO). pose proof (Hr NVRAM_EXTLO). unfold npages_extmem.
  rewrite !w32_id by (unfold u32_range; lia). change (EXTPHYSMEM / PGSIZE) with 256. unfold PGSIZE.
  destruct (ctrue _); Z.div_mod_to_equations; lia.
Qed.

Lemma kva_of_aligned p : 0 ≤ p < 65535 → ROUNDUP (kva_of p) PGSIZE = kva_of p.
Proof.
  intros Hp. apply ROUNDUP_id_iff; [unfold u32_range| |]; unfold kva_of, KERNBASE, PGSIZE; try lia.
  change 0xF0000000 with (983040 * 4096). rewrite <- Z.mul_add_distr_r. apply Z.mod_mul. discriminate.
Qed.

(** The pages [n] bytes take. *)
Definition page_count (n : Z) : Z := (n + PGSIZE - 1) / PGSIZE.

Lemma ROUNDUP_kva p n : 0 ≤ p → 0 ≤ n → p + page_count n < 65535 →
  ROUNDUP (w32 (kva_of p + n)) PGSIZE = kva_of (p + page_count n).
Proof.
  unfold page_count, kva_of, KERNBASE, PGSIZE. intros Hp Hn Hb. unfold ROUNDUP, ROUNDDOWN.
  assert (∀ z, 0 ≤ z < 4294967296 → w32 z = z) as Hw by (intros z Hz; apply w32_id; exact Hz).
  assert (0 ≤ p * 4096 + 4026531840 + n + 4096 - 1 < 4294967296) as Hr by (Z.div_mod_to_equations; lia).
  cbv zeta. rewrite (Hw (_ + n)) by lia. rewrite (Hw (_ + n)) by lia. rewrite !(Hw (_ - 1)) by lia. Z.div_mod_to_equations. lia.
Qed.

(** boot_alloc hands out whole pages from where [next] says. *)
Lemma boot_alloc_run kend p n s : 0 < n → 0 ≤ p → p + page_count n < 65535 →
  (if nextfree s =? 0 then ROUNDUP kend PGSIZE else nextfree s) = kva_of p →
  boot_alloc kend n s = Ret (kva_of p) (with_nextfree (kva_of (p + page_count n)) s).
Proof.
  intros Hn Hp Hb Hnf. unfold boot_alloc. rewrite bind_get.
  assert ((when (nextfree s =? 0) (modify (with_nextfree (ROUNDUP kend PGSIZE)))) s = Ret tt (with_nextfree (kva_of p) s)) as E.
  { destruct (nextfree s =? 0); rewrite Hnf || rewrite <- Hnf; [reflexivity|]. destruct s; reflexivity. }
  rewrite (bind_Ret _ _ _ _ _ E), bind_gets. psimpl. 
  assert (ctrue n = true) as -> by (apply ctrue_spec; lia).
  assert (0 ≤ page_count n) by (unfold page_count, PGSIZE; apply Z.div_pos; lia).
  cbv zeta. rewrite bind_modify, kva_of_aligned, ROUNDUP_kva by lia. reflexivity.
Qed.

(** The state mem_init hands to page_init, and the pages it has used. *)
Definition boot_ff (kp np : Z) : Z := kp + 1 + upages_len np + 60.

Definition dir_mem (m : mem) (kp : Z) : mem :=
  st32 (memset m (kp * PGSIZE) 0 PGSIZE) (kp * PGSIZE + 4 * PDX UVPT) (Z.lor (Z.lor (kp * PGSIZE) PTE_U) PTE_P).

Lemma uvpt_entry_comm kp : Z.lor (Z.lor (kp * PGSIZE) PTE_U) PTE_P = uvpt_entry kp.
Proof. unfold uvpt_entry. rewrite <- !Z.lor_assoc. reflexivity. Qed.

Lemma dir_mem_wd m kp i : 0 ≤ kp < 65536 → 0 ≤ i < 1024 →
  wd (dir_mem m kp) kp i = if decide (i = PDX UVPT) then uvpt_entry kp else 0.
Proof.
  intros Hk Hi. unfold dir_mem. rewrite uvpt_entry_comm.
  rewrite wd_st32, wd_memset by (exact (uvpt_entry_range kp Hk) || assumption || (split; reflexivity || discriminate)).
  rewrite (decide_True (P := kp = kp)) by reflexivity. repeat case_decide; tauto.
Qed.

Lemma uvpt_present kp : is_present (uvpt_entry kp) = true.
Proof. unfold uvpt_entry. rewrite <- Z.lor_assoc, (Z.lor_comm PTE_P), Z.lor_assoc. apply is_present_lor. Qed.

Lemma uvpt_pt m kp : 0 ≤ kp < 65536 → wd m kp (PDX UVPT) = uvpt_entry kp → pt_of m kp (PDX UVPT) = Some kp.
Proof.
  intros Hk E. unfold pt_of. rewrite E, uvpt_present. unfold uvpt_entry. rewrite <- Z.lor_assoc.
  rewrite frame_of_page by (assumption || (split; vm_compute; congruence)). reflexivity.
Qed.

(** The pages page_init puts on the free list. *)
Definition free_at_boot (kp np i : Z) : Prop := boot_ff kp np ≤ i < np ∨ 8 ≤ i < 160 ∨ 1 ≤ i < 7.

(** What mem_init_alloc leaves. *)
Record allocated (kp : Z) (s : pm) (l : list Z) : Prop := {
  al_dir : kdir s l kp;
  al_roots : kern_pgdir s = kva_of kp ∧ pages_kva s = kva_of (kp + 1) ∧ envs_kva s = kva_of (kp + 1 + upages_len (npages s));
  al_row : ∀ i, 0 ≤ i < 1024 → wd (phys s) kp i = if decide (i = PDX UVPT) then uvpt_entry kp else 0;
  al_used : ∀ q p, q ∉ l → pages s !! q = Some p → 1 ≤ pp_ref p;
  al_free : ∀ i, i ∈ l ↔ free_at_boot kp (npages s) i;
  al_next : nextfree s = kva_of (boot_ff kp (npages s));
  al_bound : boot_ff kp (npages s) < npages s ≤ 16639
}.

(** The state at the call of page_init: the roots are the first pages after the
    kernel. *)
Record at_page_init (kp n : Z) (s s1 : pm) : Prop := {
  ai_npages : npages s1 = n;
  ai_pages : pages s1 = zero_pages n;
  ai_free : page_free_list s1 = page_free_list s;
  ai_next : nextfree s1 = kva_of (boot_ff kp n);
  ai_roots : kern_pgdir s1 = kva_of kp ∧ pages_kva s1 = kva_of (kp + 1) ∧ envs_kva s1 = kva_of (kp + 1 + upages_len n);
  ai_mmio : mmio_base s1 = mmio_base s;
  ai_phys : phys s1 = dir_mem (phys s) kp
}.

Lemma mem_init_alloc_head cmos kend s kp : nextfree s = 0 → 256 ≤ kp → ROUNDUP kend PGSIZE = kva_of kp →
  (∀ s', detect_memory cmos s = Ret tt s' → boot_ff kp (npages s') < npages s') →
  ∃ s0 s1, detect_memory cmos s = Ret tt s0 ∧ kp + 60 < boot_ff kp (npages s0) ∧ boot_ff kp (npages s0) < npages s0 ≤ 16639 ∧
    (detect_memory cmos ;; mem_init_alloc kend) s = page_init kend s1 ∧ at_page_init kp (npages s0) s s1.
Proof.
  intros Hnf Hkp Hkend Hsize. destruct (detect_run cmos s) as (b & n & Ed & Hn).
  pose proof (Hsize _ Ed) as Hff. unfold boot_ff in Hff. psimpl.
  assert (0 < n ≤ 65536) as Hn' by (assert (0 ≤ upages_len n) by (unfold upages_len, sizeof_PageInfo, PGSIZE; apply Z.div_pos; lia); lia).
  destruct (ROUNDUP_pages n Hn') as [_ Hlen].
  assert (page_count PGSIZE = 1 ∧ page_count (sizeof_PageInfo * n) = upages_len n ∧ page_count (sizeof_Env * NENV) = 60) as (C1 & C2 & C3).
  { split; [reflexivity|]. split; [|reflexivity]. unfold upages_len, page_count. do 2 f_equal. lia. }
  eexists _, _. split; [exact Ed|]. split; [unfold boot_ff; psimpl; lia|]. split; [unfold boot_ff; psimpl; lia|]. split.
  - unfold mem_init_alloc. rewrite (bind_Ret _ _ _ _ _ Ed).
    erewrite bind_Ret by (apply (boot_alloc_run _ kp); rewrite ?C1; [reflexivity|lia|lia|psimpl; rewrite Hnf; exact Hkend]).
    rewrite C1, bind_modify. unfold kmemset. rewrite bind_modify. erewrite bind_Ret by (apply PADDR_kva; lia).
    unfold kst32. rewrite bind_modify, bind_gets. psimpl.
    assert (w32 (sizeof_PageInfo * n) = sizeof_PageInfo * n) as -> by (apply w32_id; unfold u32_range, sizeof_PageInfo; lia).
    erewrite bind_Ret by (apply (boot_alloc_run _ (kp + 1)); rewrite ?C2; [unfold sizeof_PageInfo; lia|lia|lia|];
      psimpl; rewrite (proj2 (Z.eqb_neq _ _)); [reflexivity|unfold kva_of, KERNBASE, PGSIZE; lia]).
    rewrite C2, bind_modify. psimpl. unfold clear_pages. rewrite bind_modify.
    erewrite bind_Ret by (apply (boot_alloc_run _ (kp + 1 + upages_len n)); rewrite ?C3; [reflexivity|lia|lia|];
      psimpl; rewrite (proj2 (Z.eqb_neq _ _)); [reflexivity|unfold kva_of, KERNBASE, PGSIZE; lia]).
    rewrite C3, bind_modify. reflexivity.
  - split; [reflexivity..|repeat split|reflexivity|]. psimpl. unfold dir_mem, kva_of. do 2 f_equal; lia.
Qed.

Lemma at_page_init_ff kp n s s1 : 0 ≤ boot_ff kp n < 65536 → at_page_init kp n s s1 → PGNUM (nextfree s1 - KERNBASE) = boot_ff kp n.
Proof.
  intros Hb A. rewrite (ai_next _ _ _ _ A). unfold kva_of. rewrite Z.add_simpl_r. apply PGNUM_page. exact Hb.
Qed.

(** A directory with only the self mapping in it, outside the free list. *)
Lemma kdir_fresh s l kp : page_inv s l → 0 ≤ kp < npages s → kp ∉ l →
  (∀ i, 0 ≤ i < 1024 → wd (phys s) kp i = if decide (i = PDX UVPT) then uvpt_entry kp else 0) → kdir s l kp.
Proof.
  intros Hi Hb Hl Hrow. assert (∀ i, 0 ≤ i < 1024 → i ≠ PDX UVPT → pt_of (phys s) kp i = None) as Hnone.
  { intros i Hi' Hu. unfold pt_of. rewrite Hrow, decide_False by assumption. reflexivity. }
  split; [exact Hi|split; [exact Hb|exact Hl]| |].
  - intros i t Hi' Hu. rewrite Hnone by assumption. discriminate.
  - intros i j t Hi' _ Hu _. rewrite Hnone by assumption. discriminate.
Qed.

Lemma mem_init_alloc_run cmos kend s kp : nextfree s = 0 → page_free_list s = None →
  256 ≤ kp → ROUNDUP kend PGSIZE = kva_of kp →
  (∀ s', detect_memory cmos s = Ret tt s' → boot_ff kp (npages s') < npages s') →
  ∃ s' l, (detect_memory cmos ;; mem_init_alloc kend) s = Ret tt s' ∧ allocated kp s' l ∧ mmio_base s' = mmio_base s ∧
    (∃ s0, detect_memory cmos s = Ret tt s0 ∧ npages s' = npages s0) ∧
    ∀ b, b / PGSIZE ≠ kp → ld8 (phys s') b = ld8 (phys s) b.
Proof.
  intros Hnf Hfl Hkp Hkend Hsize.
  destruct (mem_init_alloc_head cmos kend s kp Hnf Hkp Hkend Hsize) as (s0 & s1 & Ed & Hlow & Hff & E1 & A). set (n := npages s0) in *.
  pose proof (at_page_init_ff kp n s s1 ltac:(lia) A) as Eff. destruct A as [An Ap Af Ax Ar Am Aphys].
  destruct (page_init_inv kend s1) as (s' & E & Hi & En & HP & h & P & Es').
  - lia.
  - rewrite Ap, An. apply zero_pages_dom.
  - rewrite Af. exact Hfl.
  - rewrite Ax. unfold kva_of, KERNBASE, PGSIZE. lia.
  - rewrite Eff, An. lia.
  - rewrite An in En. exists s', (page_init_list s1). split; [rewrite E1; exact E|].
    assert (∀ i, i ∈ page_init_list s1 ↔ free_at_boot kp n i) as Hl.
    { intros i. rewrite elem_of_page_init_list; rewrite ?Eff, ?An; [reflexivity|lia]. }
    assert (∀ i, 0 ≤ i < 1024 → wd (phys s') kp i = if decide (i = PDX UVPT) then uvpt_entry kp else 0) as Hrow.
    { intros i Hi'. rewrite Es'. psimpl. rewrite Aphys. apply dir_mem_wd; lia. }
    split; [split|split; [|split]].
    + apply kdir_fresh; [exact Hi|lia|rewrite Hl; unfold free_at_boot; lia|exact Hrow].
    + rewrite En, Es'. exact Ar.
    + exact Hrow.
    + intros q p Hq Hp. assert (0 ≤ q < n) as Hb by (rewrite <- En; apply (pi_dom _ _ Hi); eauto).
      rewrite HP in Hp by (rewrite An; exact Hb). injection Hp as <-. rewrite Hl in Hq.
      unfold inited. rewrite Eff. unfold free_at_boot in Hq. zcases; cbn [andb pp_ref]; lia.
    + intros i. rewrite En. apply Hl.
    + rewrite En, Es'. exact Ax.
    + rewrite En. lia.
    + rewrite Es'. exact Am.
    + exists s0. split; [exact Ed|exact En].
    + intros a Hb%div_page. rewrite Es'. psimpl. rewrite Aphys. unfold dir_mem.
      rewrite ld8_st32_out by (change (PDX UVPT) with 957; unfold PGSIZE in *; lia).
      rewrite memset_spec by (unfold PGSIZE; lia). apply decide_False, Hb.
Qed.

(** * The invariant *)

(** Every page that is not free is the kernel's. *)
Definition kernel_page (k : ks) (l : list Z) (q : Z) : Prop := 0 ≤ q < npages (kpm k) ∧ q ∉ l.

Definition all_refs (s : pm) (q : Z) : Z := match pages s !! q with Some p => pp_ref p | None => 0 end.

Lemma start_vspace (K : Z → Prop) s l kp : kdir s l kp → kern_pgdir s = kva_of kp →
  (∀ q, K q ↔ 0 ≤ q < npages s ∧ q ∉ l) →
  (∀ q p, q ∉ l → pages s !! q = Some p → 1 ≤ pp_ref p) →
  (∀ i, 0 ≤ i < UPDX → wd (phys s) kp i = 0) → wd (phys s) kp (PDX UVPT) = uvpt_entry kp →
  vspace K s l [] (all_refs s) kp.
Proof.
  intros H Hkp HK Hu Hlow Hself. pose proof (kd_pages _ _ _ H) as Hpi. destruct (kd_kp _ _ _ H) as [Hkb Hkl].
  pose proof (pi_npages _ _ Hpi) as Hn. split.
  - apply vm_inv_start; [exact Hpi| |].
    + intros q. unfold all_refs. destruct (pages s !! q) eqn:E; [|lia]. apply (pi_ref _ _ Hpi _ _ E).
    + intros q p E. unfold all_refs. rewrite E. lia.
  - split; [exact Hkp|]. apply HK. auto.
  - intros q [Hq Hql]%HK. split; [exact Hq|]. destruct (page_inv_lookup _ _ _ Hpi Hq) as [p Hp]. split.
    + unfold all_refs. rewrite Hp. specialize (Hu _ _ Hql Hp). lia.
    + intros [F|[(pd & i & F & _)|(pd & v & F & _)]]; inversion F.
  - intros i Hi. unfold pt_of. rewrite Hlow by assumption. reflexivity.
  - intros i t Hi Ht. apply HK. destruct (decide (i = PDX UVPT)) as [->|D].
    + rewrite uvpt_pt in Ht by (assumption || lia). injection Ht as <-. auto.
    + destruct (kd_pt _ _ _ H i t) as (Hb & Hl & _); [unfold UPDX in Hi; lia|assumption..|]. auto.
  - intros pd i F. inversion F.
Qed.

(** ** env_init *)

(** What the C runtime leaves in the table: zeros. *)
Definition table_clear (E : gmap Z Env) : Prop :=
  (∀ i, is_Some (E !! i) ↔ 0 ≤ i < NENV) ∧ ∀ i e, E !! i = Some e → env_status e = ENV_FREE ∧ ipc_ok e.

Definition env_inited (i : Z) (e : Env) : Env := set_env_link (Some (i + 1)) (set_env_id 0 e).

Lemma env_init_run k : (∀ i, is_Some (envs k !! i) ↔ 0 ≤ i < NENV) →
  ∃ E, env_init k = Ret tt (set_env_free_list (Some 0) (set_envs E k)) ∧
    ∀ i, E !! i = if decide (0 ≤ i < NENV) then env_inited i <$> envs k !! i else envs k !! i.
Proof.
  intros Hd. unfold env_init.
  set (I a k' := ∃ E, k' = set_envs E k ∧ ∀ i, E !! i = if decide (0 ≤ i < a) then env_inited i <$> envs k !! i else envs k !! i).
  destruct (for_range_inv I (λ i, env_upd i (set_env_id 0) ;; env_upd i (set_env_link (Some (i + 1)))) 1 (Z.to_nat NENV) 0 k)
    as (k' & E & En & -> & HE).
  - exists (envs k). split; [destruct k; reflexivity|]. intros i. rewrite decide_False by lia. reflexivity.
  - intros i k' Hi (En & -> & HE). change (Z.of_nat (Z.to_nat NENV)) with NENV in Hi. rewrite Z.add_0_l, !Z.mul_1_r in *.
    destruct (proj2 (Hd i) Hi) as [e He]. assert (En !! i = Some e) as Hei by (rewrite HE, decide_False by lia; exact He).
    erewrite bind_Ret by (apply env_upd_eq; exact Hei). erewrite env_upd_eq by apply lookup_insert_eq.
    eexists. split; [reflexivity|]. eexists. split; [reflexivity|]. ksimpl. intros j. rewrite insert_insert_eq.
    destruct (decide (j = i)) as [->|D].
    + rewrite lookup_insert_eq, decide_True, He by lia. reflexivity.
    + rewrite lookup_insert_ne, HE by congruence. repeat case_decide; try lia; reflexivity.
  - rewrite (bind_Ret _ _ _ _ _ E). eexists. split; [reflexivity|]. exact HE.
Qed.

Lemma start_espace E E' : table_clear E →
  (∀ i, E' !! i = if decide (0 ≤ i < NENV) then env_inited i <$> E !! i else E !! i) →
  espace E' (Some 0) [] (seqZ 0 NENV).
Proof.
  intros [Hd Hc] HE.
  assert (∀ i, 0 ≤ i < NENV → ∃ e, E' !! i = Some (env_inited i e) ∧ env_status e = ENV_FREE ∧ ipc_ok e) as Hin.
  { intros i Hi. destruct (proj2 (Hd i) Hi) as [e He]. exists e. rewrite HE, decide_True, He by exact Hi.
    split; [reflexivity|]. apply (Hc i e He). }
  assert (∀ i, is_Some (E' !! i) ↔ 0 ≤ i < NENV) as Hdom.
  { intros i. rewrite HE. case_decide as D; [rewrite fmap_is_Some|]; apply Hd. }
  assert (∀ i e, E' !! i = Some e → 0 ≤ i < NENV ∧ ∃ e0, e = env_inited i e0 ∧ env_status e0 = ENV_FREE ∧ ipc_ok e0) as Hinv.
  { intros i e He. assert (0 ≤ i < NENV) as Hi by (apply Hdom; eauto). destruct (Hin i Hi) as (e0 & He0 & Hs).
    rewrite He0 in He. injection He as <-. eauto. }
  assert (∀ i e, ¬ used_slot E' i e) as Hno.
  { intros i e [He Hs]. destruct (Hinv i e He) as (_ & e0 & -> & F & _). exact (Hs F). }
  split.
  - exact Hdom.
  - intros i e F. destruct (Hno _ _ F).
  - intros i j e f F. destruct (Hno _ _ F).
  - intros pd F. inversion F.
  - intros i e He. destruct (Hinv i e He) as (_ & e0 & -> & _). split; [reflexivity|]. cbn. lia.
  - intros i e F. destruct (Hno _ _ F).
  - intros i e He. destruct (Hinv i e He) as (_ & e0 & -> & _ & Hi). exact Hi.
  - assert (∀ n : nat, Z.of_nat n ≤ NENV → echain E' (Some (NENV - Z.of_nat n)) (seqZ (NENV - Z.of_nat n) (Z.of_nat n))) as L.
    { induction n as [|n IH]; intros Hn.
      - apply echain_nil. right. reflexivity.
      - rewrite seqZ_cons by lia. destruct (Hin (NENV - Z.of_nat (S n)) ltac:(lia)) as (e & He & _).
        eapply echain_cons; [exact He|]. cbn [env_inited env_link set_env_link].
        replace (NENV - Z.of_nat (S n) + 1) with (NENV - Z.of_nat n) by lia.
        replace (Z.succ (NENV - Z.of_nat (S n))) with (NENV - Z.of_nat n) by lia.
        replace (Z.pred (Z.of_nat (S n))) with (Z.of_nat n) by lia. apply IH. lia. }
    change NENV with 1024 in *. specialize (L 1024%nat ltac:(lia)). exact L.
  - apply NoDup_seqZ.
  - intros i e He. destruct (Hinv i e He) as (Hi & e0 & -> & Hs & _). split; [intros _; exact Hs|intros _; apply elem_of_seqZ; lia].
Qed.

(** A machine that reports 640KB of base and 2MB of extended memory, its
    kernel ending at 0xf0180000, before mem_init: everything is zero. *)
Definition cmos_768 (r : Z) : Z := if r =? 0x15 then 0x80 else if r =? 0x16 then 2 else if r =? 0x18 then 8 else 0.
Definition bss_pm : pm := MkPm 0 0 ∅ None 0 0 0 0 MMIOBASE ∅ 0 [] 0.
Definition bss_env : Env := MkEnv zero_tf None 0 0 0 ENV_FREE 0 0 0 (λ _, 0) false 0 0 0 0 0 0 (replicate 10 0).
Definition bss_ks : ks :=
  MkKs bss_pm (list_to_map ((λ i, (i, bss_env)) <$> seqZ 0 NENV)) None {[0 := demo_cpu]} 0 None [] demo_con demo_trapst.

Lemma bss_table : table_clear (envs bss_ks).
Proof.
  change (envs bss_ks) with (list_to_map ((λ i, (i, bss_env)) <$> seqZ 0 NENV) : gmap Z Env). split.
  - intros i. rewrite lookup_seqZ_map. case_decide; split; intros; try lia; eauto. destruct H0 as [? [=]].
  - intros i e. rewrite lookup_seqZ_map. case_decide; [|discriminate]. intros [= <-].
    split; [reflexivity|]. split; [reflexivity|]. repeat split; discriminate.
Qed.
