(* ===== verification/SelfTest.v ===== *)
(** The checks mem_init makes of the allocator and of the page tables
    (check_page_alloc, check_page and check_page_installed_pgdir of
    kern/pmap.c) all pass.  They work on three pages taken from the allocator,
    so the proof runs them on a machine of three pages, whose operations the
    real ones refine. *)
From S2P Require Import Prelude Mmu Mem Pages PageTable AddrSpace UserMem Console KState Env EnvVm EnvSpec Syscall SyscallSpec KSpace Boot BootCheck BootSpec BootInv.

(** * The machine *)

Inductive tp := P0 | P1 | P2.
#[export] Instance tp_eq_dec : EqDecision tp.
Proof. solve_decision. Defined.

Record tri (A : Type) := Tri { tri0 : A; tri1 : A; tri2 : A }.
Arguments Tri {A} tri0 tri1 tri2.
Arguments tri0 {A} t.
Arguments tri1 {A} t.
Arguments tri2 {A} t.
Definition tget {A} (t : tri A) (i : tp) : A := match i with P0 => tri0 t | P1 => tri1 t | P2 => tri2 t end.
Definition tset {A} (i : tp) (a : A) (t : tri A) : tri A :=
  match i with P0 => Tri a (tri1 t) (tri2 t) | P1 => Tri (tri0 t) a (tri2 t) | P2 => Tri (tri0 t) (tri1 t) a end.

Lemma tget_tset {A} i j (a : A) t : tget (tset i a t) j = if decide (j = i) then a else tget t j.
Proof. destruct i, j; reflexivity. Qed.

(** A link of the free list: NULL, one of the three pages, or whatever the
    list goes on with after them. *)
Inductive link := LNull | LRest | LPage (i : tp).
#[export] Instance link_eq_dec : EqDecision link.
Proof. solve_decision. Defined.

(** What is known of the contents of a page: nothing, every byte, or the first
    word. *)
Inductive fill := Unknown | Filled (b : Z) | Word (w : Z).

(** The three pages, the page tables of the first two slots of kern_pgdir
    ([false] and [true]), and the entries, page and permissions, of the virtual
    pages 0 and 1 ([false] and [true]). *)
Record tmach := TM {
  tm_free : link;
  tm_link : tri link;
  tm_ref : tri Z;
  tm_fill : tri fill;
  tm_pt0 : option tp;
  tm_pt1 : option tp;
  tm_e0 : option (tp * Z);
  tm_e1 : option (tp * Z)
}.

Definition a_pt (a : tmach) (slot : bool) : option tp := if slot then tm_pt1 a else tm_pt0 a.
Definition a_ent (a : tmach) (v : bool) : option (tp * Z) := if v then tm_e1 a else tm_e0 a.
Definition a_is_pt (a : tmach) (i : tp) : bool := bool_decide (tm_pt0 a = Some i ∨ tm_pt1 a = Some i).

Definition set_a_list (f : link) (l : tri link) (a : tmach) : tmach :=
  TM f l (tm_ref a) (tm_fill a) (tm_pt0 a) (tm_pt1 a) (tm_e0 a) (tm_e1 a).
Definition set_a_ref (i : tp) (r : Z) (a : tmach) : tmach :=
  TM (tm_free a) (tm_link a) (tset i r (tm_ref a)) (tm_fill a) (tm_pt0 a) (tm_pt1 a) (tm_e0 a) (tm_e1 a).
Definition set_a_fill (i : tp) (f : fill) (a : tmach) : tmach :=
  TM (tm_free a) (tm_link a) (tm_ref a) (tset i f (tm_fill a)) (tm_pt0 a) (tm_pt1 a) (tm_e0 a) (tm_e1 a).
(** A new table, or none, in a slot: its entries are not present. *)
Definition set_a_pt (slot : bool) (t : option tp) (a : tmach) : tmach :=
  if slot then TM (tm_free a) (tm_link a) (tm_ref a) (tm_fill a) (tm_pt0 a) t (tm_e0 a) (tm_e1 a)
  else TM (tm_free a) (tm_link a) (tm_ref a) (tm_fill a) t (tm_pt1 a) None None.
Definition set_a_ent (v : bool) (e : option (tp * Z)) (a : tmach) : tmach :=
  if v then TM (tm_free a) (tm_link a) (tm_ref a) (tm_fill a) (tm_pt0 a) (tm_pt1 a) (tm_e0 a) e
  else TM (tm_free a) (tm_link a) (tm_ref a) (tm_fill a) (tm_pt0 a) (tm_pt1 a) e (tm_e1 a).

(** The operations; [None] where the machine does not say what happens. *)
Definition a_alloc (zero : bool) (a : tmach) : option (option tp * tmach) :=
  match tm_free a with
  | LPage i =>
      if (tget (tm_ref a) i =? 0) && negb (a_is_pt a i) then
        let a := set_a_list (tget (tm_link a) i) (tset i LNull (tm_link a)) a in
        Some (Some i, if zero then set_a_fill i (Filled 0) a else a)
      else None
  | LRest => Some (None, a)
  | LNull => None
  end.
Definition a_free (i : tp) (a : tmach) : option tmach :=
  if (tget (tm_ref a) i =? 0) && bool_decide (tget (tm_link a) i = LNull)
  then Some (set_a_list (LPage i) (tset i (tm_free a) (tm_link a)) a) else None.
Definition a_decref (i : tp) (a : tmach) : option tmach :=
  let r := tget (tm_ref a) i in
  if (1 <=? r) && (r <? 10) && bool_decide (tget (tm_link a) i = LNull) then
    let a := set_a_ref i (r - 1) a in
    if r =? 1 then a_free i a else Some a
  else None.
Definition a_walk (slot create : bool) (a : tmach) : option (option tp * tmach) :=
  match a_pt a slot with
  | Some t => Some (Some t, a)
  | None =>
      if create then
        '(t, a) ← a_alloc true a;
        Some (match t with
              | Some t => (Some t, set_a_pt slot (Some t) (set_a_ref t 1 a))
              | None => (None, a)
              end)
      else Some (None, a)
  end.
Definition a_remove (v : bool) (a : tmach) : option tmach :=
  match tm_pt0 a, a_ent a v with
  | Some t, Some (q, _) => a ← a_decref q a; Some (set_a_ent v None (set_a_fill t Unknown a))
  | _, _ => Some a
  end.
Definition a_insert (i : tp) (v : bool) (perm : Z) (a : tmach) : option (Z * tmach) :=
  '(t, a) ← a_walk false true a;
  match t with
  | None => Some (- E_NO_MEM, a)
  | Some t =>
      let r := tget (tm_ref a) i in
      if (0 <=? r) && (r <? 10) && (0 <=? perm) && (perm <? PGSIZE) then
        a ← a_remove v (set_a_ref i (r + 1) a);
        Some (0, set_a_ent v (Some (i, perm)) (set_a_fill t Unknown a))
      else None
  end.
Definition a_memset (i : tp) (b : Z) (a : tmach) : option tmach :=
  if negb (a_is_pt a i) && (0 <=? b) && (b <? 256) then Some (set_a_fill i (Filled b) a) else None.

(** * The kernel's state as seen from the three pages *)

Definition filled (m : mem) (q : Z) (f : fill) : Prop :=
  match f with
  | Unknown => True
  | Filled b => ∀ o, 0 ≤ o < PGSIZE → ld8 m (q * PGSIZE + o) = b
  | Word w => wd m q 0 = w
  end.

(** The fields that no operation on pages changes. *)
Definition same_fields (s s' : pm) : Prop :=
  npages s' = npages s ∧ npages_basemem s' = npages_basemem s ∧ nextfree s' = nextfree s ∧
  kern_pgdir s' = kern_pgdir s ∧ pages_kva s' = pages_kva s ∧ envs_kva s' = envs_kva s ∧
  mmio_base s' = mmio_base s ∧ cr3 s' = cr3 s ∧ user_mem_check_addr s' = user_mem_check_addr s.

Definition page_entry (pg : tp → Z) (e : option (tp * Z)) (w : Z) : Prop :=
  match e with
  | Some (q, perm) => perm_ok perm ∧ w = entry (pg q) perm
  | None => is_present w = false
  end.

Section sim.
(** The state [s0] in which page [kp] is kern_pgdir, the three pages [pg], and
    what follows them in the free list. *)
Context (s0 : pm) (kp : Z) (pg : tp → Z) (h : option Z).
Context (Hn : npages s0 ≤ 65536) (Hpg : ∀ i, 0 ≤ pg i < npages s0) (Hinj : ∀ i j, pg i = pg j → i = j)
  (Hkp : 0 ≤ kp < npages s0) (Hne : ∀ i, pg i ≠ kp) (Hroot : kern_pgdir s0 = kva_of kp).

Definition clink (l : link) : option Z :=
  match l with LNull => None | LRest => h | LPage i => Some (pg i) end.
Definition cpde (t : option tp) : Z := match t with None => 0 | Some t => pde_for (pg t) end.
(** The two entries of the table the machine knows. *)
Definition cent (a : tmach) (j : Z) : option (tp * Z) :=
  if j =? 0 then tm_e0 a else if j =? 1 then tm_e1 a else None.

Record holds (a : tmach) (s : pm) : Prop := {
  h_same : same_fields s0 s;
  h_free : page_free_list s = clink (tm_free a);
  h_page : ∀ i, pages s !! pg i = Some (MkPageInfo (clink (tget (tm_link a) i)) (tget (tm_ref a) i));
  h_others : ∀ q, (∀ i, q ≠ pg i) → pages s !! q = pages s0 !! q;
  h_row : ∀ j, 0 ≤ j < 1024 → wd (phys s) kp j
    = if j =? 0 then cpde (tm_pt0 a) else if j =? 1 then cpde (tm_pt1 a) else wd (phys s0) kp j;
  h_ent : ∀ t j, tm_pt0 a = Some t → 0 ≤ j < 1024 → page_entry pg (cent a j) (wd (phys s) (pg t) j);
  h_fill : ∀ i, filled (phys s) (pg i) (tget (tm_fill a) i);
  h_mem : ∀ b, b / PGSIZE ≠ kp → (∀ i, b / PGSIZE ≠ pg i) → ld8 (phys s) b = ld8 (phys s0) b
}.

Lemma cpde_pt m slot t : wd m kp (if slot : bool then 1 else 0) = cpde t →
  pt_of m kp (if slot then 1 else 0) = pg <$> t.
Proof using Hn Hpg.
  intros E. unfold pt_of. rewrite E. destruct t as [t|]; [|reflexivity]. cbn.
  pose proof (Hpg t). destruct (pde_for_ok (pg t) ltac:(lia)) as (_ & -> & ->). reflexivity.
Qed.

Lemma h_pt a s slot : holds a s → pt_of (phys s) kp (if slot : bool then 1 else 0) = pg <$> a_pt a slot.
Proof using Hn Hpg.
  intros H. apply cpde_pt. rewrite (h_row _ _ H) by (destruct slot; lia). destruct slot; reflexivity.
Qed.

(** Operations on the list and the counts leave the rest as it is. *)
Lemma holds_pages a s f l r : holds a s →
  ∀ P, (∀ i, P !! pg i = Some (MkPageInfo (clink (tget l i)) (tget r i))) →
  (∀ q, (∀ i, q ≠ pg i) → P !! q = pages s !! q) →
  holds (TM f l r (tm_fill a) (tm_pt0 a) (tm_pt1 a) (tm_e0 a) (tm_e1 a))
    (with_pages P (with_free_list (clink f) s)).
Proof.
  intros [Hs _ _ Ho Hr He Hf Hm] P HP HP'. split; try assumption; [reflexivity|].
  intros q Hq. cbn. rewrite HP' by exact Hq. apply Ho, Hq.
Qed.

Lemma filled_ext m m' q f : (∀ o, 0 ≤ o < PGSIZE → ld8 m' (q * PGSIZE + o) = ld8 m (q * PGSIZE + o)) →
  filled m q f → filled m' q f.
Proof.
  intros E. destruct f as [|b|w]; cbn; [trivial|intros H o Ho; rewrite E by exact Ho; apply H, Ho|].
  intros <-. apply ld32_ext. intros j Hj. rewrite Z.mul_0_r, Z.add_0_r. apply E. unfold PGSIZE. lia.
Qed.

Lemma page_byte_out q q' o : q ≠ q' → 0 ≤ o < PGSIZE → ¬ (q' * PGSIZE ≤ q * PGSIZE + o < q' * PGSIZE + PGSIZE).
Proof. unfold PGSIZE. intros Hq Ho H. apply Hq. nia. Qed.

Lemma byte_page b q : b / PGSIZE ≠ q → ¬ (q * PGSIZE ≤ b < q * PGSIZE + PGSIZE).
Proof. unfold PGSIZE. intros Hq H. apply Hq. Z.div_mod_to_equations. lia. Qed.

Lemma wd_memset_ne m q c p j : p ≠ q → 0 ≤ j < 1024 → wd (memset m (q * PGSIZE) c PGSIZE) p j = wd m p j.
Proof.
  intros Hq Hj. apply ld32_ext. intros i Hi. rewrite memset_spec by (unfold PGSIZE; lia). rewrite decide_False; [reflexivity|].
  rewrite <- Z.add_assoc. apply page_byte_out; [exact Hq|unfold PGSIZE; lia].
Qed.

(** Clearing or filling one of the pages that is not a page table. *)
Lemma holds_memset a s i b : holds a s → a_is_pt a i = false → 0 ≤ b < 256 →
  holds (set_a_fill i (Filled b) a) (with_phys (memset (phys s) (pg i * PGSIZE) b PGSIZE) s).
Proof using Hn Hpg Hinj Hkp Hne.
  intros [Hs Hf Hp Ho Hr He Hfi Hm] Hpt Hb. apply bool_decide_eq_false in Hpt.
  pose proof (Hpg i) as Hi. split; try assumption; psimpl.
  - intros j Hj. rewrite wd_memset_ne by (assumption || apply not_eq_sym, Hne). exact (Hr j Hj).
  - intros t j Ht Hj. rewrite wd_memset_ne; [exact (He t j Ht Hj)| |exact Hj].
    intros F. apply Hpt. left. rewrite <- (Hinj _ _ F). exact Ht.
  - intros j. cbn [set_a_fill tm_fill]. rewrite tget_tset. destruct (decide (j = i)) as [->|Hji].
    + intros o Ho'. rewrite memset_spec by (unfold PGSIZE; lia). rewrite decide_True by lia. apply w8_id. exact Hb.
    + eapply filled_ext; [|exact (Hfi j)]. intros o Ho'. rewrite memset_spec by (unfold PGSIZE; lia).
      rewrite decide_False; [reflexivity|]. apply page_byte_out; [|exact Ho']. intros F. apply Hji, Hinj, F.
  - intros c Hc1 Hc2. rewrite memset_spec by (unfold PGSIZE; lia). rewrite decide_False; [exact (Hm c Hc1 Hc2)|].
    apply byte_page, Hc2.
Qed.

(** ** page_alloc and page_free *)

Lemma insert_page P i p j : (<[pg i := p]> P : gmap Z PageInfo) !! pg j = if decide (j = i) then Some p else P !! pg j.
Proof using Hinj.
  destruct (decide (j = i)) as [->|Hji]; [apply lookup_insert_eq|]. apply lookup_insert_ne. intros F. apply Hji. symmetry. apply Hinj, F.
Qed.

Lemma sim_alloc a s f r a' : holds a s → a_alloc (ctrue (Z.land f ALLOC_ZERO)) a = Some (r, a') →
  (r = None → h = None) → ∃ s', page_alloc f s = Ret (pg <$> r) s' ∧ holds a' s'.
Proof using Hn Hpg Hinj Hkp Hne.
  intros H E Hh. unfold a_alloc in E. destruct (tm_free a) as [| |i] eqn:Ef; [discriminate| |].
  - injection E as <- <-. exists s. split; [|exact H]. unfold page_alloc. mrun. rewrite (h_free _ _ H), Ef. cbn. rewrite Hh by reflexivity. reflexivity.
  - destruct (tget (tm_ref a) i =? 0) eqn:Er; [|discriminate]. destruct (a_is_pt a i) eqn:Ept; [discriminate|]. cbn [andb negb] in E.
    apply Z.eqb_eq in Er. injection E as <- <-. cbn [fmap option_fmap option_map].
    pose proof (h_page _ _ H i) as Hp. rewrite Er in Hp. destruct (h_same _ _ H) as (N1 & _).
    eexists. split. { apply page_alloc_head; [rewrite (h_free _ _ H), Ef; reflexivity|exact Hp|rewrite N1; apply Hpg|lia]. }
    assert (holds (set_a_list (tget (tm_link a) i) (tset i LNull (tm_link a)) a)
      (with_pages (<[pg i:=MkPageInfo None 0]> (pages s)) (with_free_list (clink (tget (tm_link a) i)) s))) as H1.
    { apply (holds_pages _ _ _ _ (tm_ref a) H).
      - intros j. rewrite insert_page, tget_tset. destruct (decide (j = i)) as [->|]; [rewrite Er; reflexivity|apply (h_page _ _ H)].
      - intros q Hq. apply lookup_insert_ne. intros <-. exact (Hq i eq_refl). }
    unfold alloc_state. destruct (ctrue _); [|exact H1]. apply (holds_memset _ _ i 0 H1); [exact Ept|lia].
Qed.

Lemma sim_free a s i a' : holds a s → a_free i a = Some a' → ∃ s', page_free (pg i) s = Ret tt s' ∧ holds a' s'.
Proof using Hinj.
  intros H E. unfold a_free in E. destruct (tget (tm_ref a) i =? 0) eqn:Er; [|discriminate]. apply Z.eqb_eq in Er.
  destruct (bool_decide _) eqn:El; [|discriminate]. apply bool_decide_eq_true in El. injection E as <-.
  pose proof (h_page _ _ H i) as Hp. rewrite Er, El in Hp. eexists. split; [apply page_free_run, Hp|].
  pose proof (holds_pages a s (LPage i) (tset i (tm_free a) (tm_link a)) (tm_ref a) H (<[pg i:=MkPageInfo (page_free_list s) 0]> (pages s))) as G.
  apply G.
  - intros j. rewrite insert_page, tget_tset. destruct (decide (j = i)) as [->|]; [|apply (h_page _ _ H)].
    rewrite Er, (h_free _ _ H). reflexivity.
  - intros q Hq. apply lookup_insert_ne. intros <-. exact (Hq i eq_refl).
Qed.

Lemma sim_set_ref a s i r : holds a s →
  holds (set_a_ref i r a) (with_pages (<[pg i := MkPageInfo (clink (tget (tm_link a) i)) r]> (pages s)) s).
Proof using Hinj.
  intros H. pose proof (holds_pages a s (tm_free a) (tm_link a) (tset i r (tm_ref a)) H (<[pg i := MkPageInfo (clink (tget (tm_link a) i)) r]> (pages s))) as G.
  rewrite <- (h_free _ _ H) in G. destruct s. apply G.
  - intros j. rewrite insert_page, tget_tset. destruct (decide (j = i)) as [->|]; [reflexivity|apply (h_page _ _ H)].
  - intros q Hq. apply lookup_insert_ne. intros <-. exact (Hq i eq_refl).
Qed.

Lemma sim_decref a s i a' : holds a s → a_decref i a = Some a' → ∃ s', page_decref (pg i) s = Ret tt s' ∧ holds a' s'.
Proof using Hinj.
  intros H E. unfold a_decref in E. set (r := tget (tm_ref a) i) in *.
  destruct ((1 <=? r) && (r <? 10) && bool_decide (tget (tm_link a) i = LNull)) eqn:G; [|discriminate]. bsplit.
  match goal with K : bool_decide _ = true |- _ => apply bool_decide_eq_true in K; rename K into El end.
  pose proof (h_page _ _ H i) as Hp. rewrite El in Hp. fold r in Hp. cbn [clink] in Hp.
  pose proof (sim_set_ref a s i (r - 1) H) as H1. rewrite El in H1. cbn [clink] in H1.
  unfold page_decref. mstep page_get_eq. mstep set_pp_ref_eq. cbn [pp_ref pp_link].
  assert (w16 (r - 1) = r - 1) as -> by (unfold w16; apply Z.mod_small; lia).
  destruct (Z.eqb_spec r 1) as [E1|E1].
  - rewrite E1 in *. cbn [Z.sub]. unfold when. change (1 - 1 =? 0) with true. cbv iota.
    destruct (sim_free _ _ _ _ H1 E) as (s' & E' & H'). exists s'. split; [exact E'|exact H'].
  - rewrite (proj2 (Z.eqb_neq (r - 1) 0)) by lia. injection E as <-. eexists. split; [reflexivity|exact H1].
Qed.

Lemma sim_incr a s i r : holds a s → tget (tm_ref a) i = r → 0 ≤ r < 10 →
  ∃ s', incr_ref (pg i) s = Ret tt s' ∧ holds (set_a_ref i (r + 1) a) s'.
Proof using Hinj.
  intros H <- Hr. pose proof (h_page _ _ H i) as Hp. eexists. split; [apply incr_ref_eq, Hp|]. cbn [pp_ref pp_link].
  assert (w16 (tget (tm_ref a) i + 1) = tget (tm_ref a) i + 1) as -> by (unfold w16; apply Z.mod_small; lia).
  apply sim_set_ref, H.
Qed.

(** ** The page directory *)

Definition slot_index (slot : bool) : Z := if slot then 1 else 0.

Lemma cpde_range t : u32_range (cpde t).
Proof using Hn Hpg.
  destruct t as [t|]; [|split; reflexivity || discriminate]. pose proof (Hpg t). apply (pde_for_ok (pg t)). lia.
Qed.

Lemma filled_0 m q j : filled m q (Filled 0) → 0 ≤ j < 1024 → wd m q j = 0.
Proof.
  intros H Hj. unfold wd, ld32, ld16.
  assert (∀ i, 0 ≤ i < 4 → ld8 m (q * PGSIZE + 4 * j + i) = 0) as E by (intros i Hi; rewrite <- Z.add_assoc; apply H; unfold PGSIZE; lia).
  pose proof (E 0 ltac:(lia)) as E0. rewrite Z.add_0_r in E0. rewrite <- !Z.add_assoc, !(Z.add_assoc _ (4 * j)).
  rewrite E0, (E 1), (E 2), (E (2 + 1)) by lia. reflexivity.
Qed.

Lemma holds_store_pde a s slot t : holds a s → (∀ t', t = Some t' → tget (tm_fill a) t' = Filled 0) →
  holds (set_a_pt slot t a) (with_phys (st32 (phys s) (kp * PGSIZE + 4 * slot_index slot) (cpde t)) s).
Proof using Hn Hpg Hinj Hkp Hne.
  intros [Hs Hf Hp Ho Hr He Hfi Hm] Hz. pose proof (cpde_range t) as Hu.
  assert (∀ q j, 0 ≤ j < 1024 → wd (st32 (phys s) (kp * PGSIZE + 4 * slot_index slot) (cpde t)) q j
    = if decide (q = kp ∧ j = slot_index slot) then cpde t else wd (phys s) q j) as Ew.
  { intros q j Hj. apply wd_st32; [exact Hu|exact Hj|destruct slot; cbn; lia]. }
  assert (∀ i j, 0 ≤ j < 1024 → wd (st32 (phys s) (kp * PGSIZE + 4 * slot_index slot) (cpde t)) (pg i) j = wd (phys s) (pg i) j) as Epg.
  { intros i j Hj. rewrite Ew by exact Hj. rewrite decide_False; [reflexivity|]. intros [F _]. exact (Hne i F). }
  assert (∀ b, b / PGSIZE ≠ kp → ld8 (st32 (phys s) (kp * PGSIZE + 4 * slot_index slot) (cpde t)) b = ld8 (phys s) b) as Eb.
  { intros b Hb. apply ld8_st32_out. apply byte_page in Hb. unfold PGSIZE in Hb. destruct slot; cbn; unfold PGSIZE; lia. }
  split; psimpl; try (destruct slot; assumption).
  - intros j Hj. rewrite Ew by exact Hj. pose proof (Hr j Hj) as R. revert R.
    destruct slot; cbn [slot_index set_a_pt tm_pt0 tm_pt1]; destruct (Z.eqb_spec j 0), (Z.eqb_spec j 1); intros R; try lia;
      (rewrite decide_True by (split; [reflexivity|lia]); reflexivity) || (rewrite decide_False by lia; exact R).
  - intros t' j Ht Hj. rewrite Epg by exact Hj. destruct slot; [exact (He t' j Ht Hj)|].
    cbn [set_a_pt tm_pt0] in Ht. pose proof (Hfi t') as F. rewrite (Hz _ Ht) in F. rewrite (filled_0 _ _ _ F Hj).
    unfold cent. cbn. destruct (j =? 0), (j =? 1); reflexivity.
  - intros i. eapply filled_ext; [|replace (tget (tm_fill (set_a_pt slot t a)) i) with (tget (tm_fill a) i) by (destruct slot; reflexivity); exact (Hfi i)].
    intros o Ho'. apply Eb. rewrite Z.div_add_l, Z.div_small by (unfold PGSIZE in *; lia). rewrite Z.add_0_r. apply Hne.
  - intros b Hb1 Hb2. rewrite Eb by exact Hb1. apply Hm; assumption.
Qed.

Lemma sim_clear_pde a s slot : holds a s →
  ∃ s', clear_pde (slot_index slot) s = Ret tt s' ∧ holds (set_a_pt slot None a) s'.
Proof using Hn Hpg Hinj Hkp Hne Hroot.
  intros H. unfold clear_pde. mrun. destruct (h_same _ _ H) as (_ & _ & _ & -> & _). rewrite Hroot, kst32_wd.
  eexists. split; [reflexivity|]. apply (holds_store_pde a s slot None H). discriminate.
Qed.

Lemma KADDR_pde s t : npages s = npages s0 → KADDR (PTE_ADDR (pde_for (pg t))) s = Ret (kva_of (pg t)) s.
Proof using Hn Hpg.
  intros En. pose proof (Hpg t). destruct (pde_for_ok (pg t) ltac:(lia)) as (_ & _ & Ef).
  rewrite KADDR_frame by (rewrite ?Ef; lia). rewrite Ef. reflexivity.
Qed.

Lemma sim_walk a s slot va create r a' : holds a s → PDX va = slot_index slot → a_walk slot create a = Some (r, a') →
  (create = true → r = None → h = None) →
  ∃ s', pgdir_walk (kva_of kp) va create s = Ret ((λ t, kva_of (pg t) + 4 * PTX va) <$> r) s' ∧ holds a' s'.
Proof using Hn Hpg Hinj Hkp Hne.
  intros H Hva E Hh. destruct (h_same _ _ H) as (N1 & _). pose proof (h_pt a s slot H) as Ep. fold (slot_index slot) in Ep.
  rewrite <- Hva in Ep. unfold a_walk in E. destruct (a_pt a slot) as [t|] eqn:Et.
  - injection E as <- <-. exists s. split; [|exact H]. pose proof (Hpg t). apply walk_found; [exact Ep|lia|lia].
  - destruct create; [|injection E as <- <-; exists s; split; [apply walk_missing; exact Ep|exact H]].
    destruct (a_alloc true a) as [[r1 a1]|] eqn:Ea; [|discriminate]. cbn in E.
    destruct (sim_alloc a s 1 r1 a1 H Ea) as (s1 & E1 & H1).
    { intros ->. injection E as <- <-. auto. }
    unfold pt_of in Ep. unfold pgdir_walk. mstep kld32_wd.
    destruct (is_present (wd (phys s) kp (PDX va))); [discriminate|]. cbn [negb]. mrun. rewrite (bind_Ret _ _ _ _ _ E1).
    destruct r1 as [t|]; injection E as <- <-; cbn [fmap option_fmap option_map]; [|exists s1; split; [reflexivity|exact H1]].
    destruct (h_same _ _ H1) as (N2 & _).
    assert (tget (tm_ref a1) t = 0 ∧ tget (tm_fill a1) t = Filled 0) as [Er Ef].
    { unfold a_alloc in Ea. destruct (tm_free a) as [| |i]; try discriminate. destruct (tget (tm_ref a) i =? 0) eqn:G; [|discriminate].
      destruct (negb _); [|discriminate]. injection Ea as <- <-. apply Z.eqb_eq in G. split; [exact G|]. cbn. rewrite tget_tset. apply decide_True. reflexivity. }
    destruct (sim_incr a1 s1 t 0 H1 Er ltac:(lia)) as (s2 & E2 & H2). change (0 + 1) with 1 in H2.
    pose proof (holds_store_pde _ s2 slot (Some t) H2) as H3. rewrite Hva.
    erewrite bind_unfold. mrun. rewrite (bind_Ret _ _ _ _ _ E2). mrun. mstep kst32_wd. mrun. mstep kld32_wd.
    fold (pde_for (pg t)). change (pde_for (pg t)) with (cpde (Some t)).
    assert (holds (set_a_pt slot (Some t) (set_a_ref t 1 a1)) (with_phys (st32 (phys s2) (kp * PGSIZE + 4 * slot_index slot) (cpde (Some t))) s2)) as H4.
    { apply H3. intros t' [= <-]. exact Ef. }
    pose proof (h_row _ _ H4 (slot_index slot) ltac:(destruct slot; cbn; lia)) as Er4. psimpl. rewrite Er4.
    replace (if slot_index slot =? 0 then _ else _) with (cpde (Some t)) by (destruct slot; reflexivity).
    eexists. split; [|exact H4]. cbn [cpde]. erewrite bind_Ret by (apply KADDR_pde; apply (h_same _ _ H4)). reflexivity.
Qed.

(** ** Entries of the page table of slot 0 *)

Definition va_of (v : bool) : Z := if v then PGSIZE else 0.
Definition ent_index (v : bool) : Z := if v then 1 else 0.

Lemma va_of_idx v : PDX (va_of v) = slot_index false ∧ PTX (va_of v) = ent_index v.
Proof. destruct v; split; reflexivity. Qed.

Lemma cent_index a v : cent a (ent_index v) = a_ent a v.
Proof. destruct v; reflexivity. Qed.

(** The entry for page [q]. *)
Lemma entry_facts q perm : perm_ok perm → u32_range (entry (pg q) perm) ∧ is_present (entry (pg q) perm) = true ∧
  PTE_ADDR (entry (pg q) perm) = pg q * PGSIZE ∧
  w32 (Z.lor (Z.lor (PTE_ADDR (page2pa (pg q))) perm) PTE_P) = entry (pg q) perm.
Proof using Hn Hpg.
  intros Hp. pose proof (Hpg q) as Hq. destruct (entry_eq (pg q) perm ltac:(lia) Hp) as (E & Hu & Hpr).
  assert (pa_ok (pg q * PGSIZE)) as Ha by (unfold pa_ok, u32_range, PGSIZE; split; [lia|apply Z.mod_mul; lia]).
  split; [exact Hu|]. split; [exact Hpr|]. split.
  - unfold entry. apply PTE_ADDR_lor; [exact Ha|]. apply lor_perm_range; [exact Hp|split; reflexivity || discriminate].
  - rewrite page2pa_eq, E by lia. apply w32_id, Hu.
Qed.

Lemma holds_store_pte a s t v e w : holds a s → tm_pt0 a = Some t → page_entry pg e w → u32_range w →
  holds (set_a_ent v e (set_a_fill t Unknown a)) (with_phys (st32 (phys s) (pg t * PGSIZE + 4 * ent_index v) w) s).
Proof using Hn Hpg Hinj Hkp Hne.
  intros [Hs Hf Hp Ho Hr He Hfi Hm] Ht Hpe Hu.
  assert (∀ q j, 0 ≤ j < 1024 → wd (st32 (phys s) (pg t * PGSIZE + 4 * ent_index v) w) q j
    = if decide (q = pg t ∧ j = ent_index v) then w else wd (phys s) q j) as Ew.
  { intros q j Hj. apply wd_st32; [exact Hu|exact Hj|destruct v; cbn; lia]. }
  assert (∀ b, b / PGSIZE ≠ pg t → ld8 (st32 (phys s) (pg t * PGSIZE + 4 * ent_index v) w) b = ld8 (phys s) b) as Eb.
  { intros b Hb. apply ld8_st32_out. apply byte_page in Hb. unfold PGSIZE in Hb. destruct v; cbn; unfold PGSIZE; lia. }
  split; psimpl; try (destruct v; assumption).
  - intros j Hj. rewrite Ew, decide_False by (try lia; intros [F _]; exact (Hne t (eq_sym F))). destruct v; exact (Hr j Hj).
  - intros t' j Ht' Hj. assert (t' = t) as -> by (destruct v; cbn in Ht'; congruence). rewrite Ew by exact Hj.
    pose proof (He t j Ht Hj) as R. revert R. unfold cent.
    destruct v; cbn [ent_index set_a_ent set_a_fill tm_e0 tm_e1]; destruct (Z.eqb_spec j 0), (Z.eqb_spec j 1); intros R; try lia;
      (rewrite decide_True by (split; [reflexivity|lia]); exact Hpe) || (rewrite decide_False by lia; exact R).
  - intros i. replace (tm_fill (set_a_ent v e (set_a_fill t Unknown a))) with (tset t Unknown (tm_fill a)) by (destruct v; reflexivity).
    rewrite tget_tset. destruct (decide (i = t)) as [->|Hi]; [exact I|]. eapply filled_ext; [|exact (Hfi i)].
    intros o Ho'. apply Eb. rewrite Z.div_add_l, Z.div_small by (unfold PGSIZE in *; lia). rewrite Z.add_0_r.
    intros F. apply Hi, Hinj, F.
  - intros b Hb1 Hb2. rewrite Eb by apply Hb2. apply Hm; assumption.
Qed.

Lemma decref_tables a i a' : a_decref i a = Some a' → tm_pt0 a' = tm_pt0 a.
Proof.
  unfold a_decref. destruct (_ && _ && _); [|discriminate]. destruct (_ =? 1); [|intros [= <-]; reflexivity].
  unfold a_free. destruct (_ && _); [|discriminate]. intros [= <-]. reflexivity.
Qed.

(** What a walk finds for virtual pages 0 and 1. *)
Lemma walk_ent a s v : holds a s →
  pgdir_walk (kva_of kp) (va_of v) false s = Ret ((λ t, kva_of (pg t) + 4 * ent_index v) <$> tm_pt0 a) s ∧
  ∀ t, tm_pt0 a = Some t → page_entry pg (a_ent a v) (wd (phys s) (pg t) (ent_index v)).
Proof using Hn Hpg Hinj Hkp Hne.
  intros H. destruct (va_of_idx v) as [E1 E2]. destruct (h_same _ _ H) as (N1 & _).
  pose proof (h_pt a s false H) as Ep. cbn in Ep. rewrite <- E2. split.
  - destruct (tm_pt0 a) as [t|]; cbn in *; [|apply walk_missing; rewrite E1; exact Ep].
    pose proof (Hpg t). apply walk_found; [rewrite E1; exact Ep|lia|lia].
  - intros t Ht. rewrite E2, <- cent_index. apply (h_ent _ _ H); [exact Ht|destruct v; cbn; lia].
Qed.

Lemma sim_remove a s v a' : holds a s → a_remove v a = Some a' →
  ∃ s', page_remove None (kva_of kp) (va_of v) s = Ret tt s' ∧ holds a' s'.
Proof using Hn Hpg Hinj Hkp Hne.
  intros H E. destruct (walk_ent a s v H) as [Ew He]. unfold a_remove in E. unfold page_remove, page_lookup.
  mrun. rewrite (bind_Ret _ _ _ _ _ Ew). destruct (tm_pt0 a) as [t|] eqn:Et; cbn [fmap option_fmap option_map].
  2: { injection E as <-. exists s. split; [reflexivity|exact H]. }
  specialize (He t eq_refl). mrun. mstep kld32_wd. destruct (a_ent a v) as [[q perm]|] eqn:Ee; cbn in He.
  2: { injection E as <-. exists s. rewrite He. split; [reflexivity|exact H]. }
  destruct He as [Hperm Hw]. destruct (entry_facts q perm Hperm) as (Hu & Hpr & Ha & _). rewrite Hw, Hpr, Ha.
  destruct (h_same _ _ H) as (N1 & _). pose proof (Hpg q).
  mrun. rewrite (bind_Ret _ _ _ _ _ (pa2page_page s (pg q) ltac:(lia) ltac:(lia))). mrun. mstep kld32_wd. rewrite Hw, Hpr.
  destruct (a_decref q a) as [a1|] eqn:Ed; [|discriminate]. injection E as <-.
  destruct (sim_decref a s q a1 H Ed) as (s1 & E1 & H1). rewrite (bind_Ret _ _ _ _ _ E1). mstep kst32_wd.
  eexists. split; [reflexivity|].
  destruct (holds_store_pte a1 s1 t v None 0 H1) as [Hs Hf Hp Ho Hr He Hfi Hm];
    [rewrite (decref_tables _ _ _ Ed); exact Et|reflexivity|split; reflexivity || discriminate|].
  split; assumption.
Qed.

Lemma remove_tables a v a' : a_remove v a = Some a' → tm_pt0 a' = tm_pt0 a.
Proof.
  unfold a_remove. destruct (tm_pt0 a) as [t|] eqn:Et; [|intros [= <-]; exact Et]. destruct (a_ent a v) as [[q p]|]; [|intros [= <-]; exact Et].
  destruct (a_decref q a) as [a1|] eqn:Ed; [|discriminate]. intros [= <-]. apply decref_tables in Ed. destruct v; exact (eq_trans Ed Et).
Qed.

Lemma sim_insert a s i v perm r a' : holds a s → a_insert i v perm a = Some (r, a') → (r <> 0 → h = None) →
  ∃ s', page_insert None (kva_of kp) (pg i) (va_of v) perm s = Ret r s' ∧ holds a' s'.
Proof using Hn Hpg Hinj Hkp Hne.
  intros H E Hh. unfold a_insert in E. destruct (a_walk false true a) as [[r1 a1]|] eqn:Ea; [|discriminate]. cbn in E.
  destruct (va_of_idx v) as [E1 E2].
  destruct (sim_walk a s false (va_of v) true r1 a1 H E1 Ea) as (s1 & Ew & HA).
  { intros _ ->. apply Hh. injection E as <- _. discriminate. }
  unfold page_insert. rewrite (bind_Ret _ _ _ _ _ Ew), E2. destruct r1 as [t|]; cbn [fmap option_fmap option_map].
  2: { injection E as <- <-. exists s1. split; [reflexivity|exact HA]. }
  set (r0 := tget (tm_ref a1) i) in *. destruct ((0 <=? r0) && (r0 <? 10) && (0 <=? perm) && (perm <? PGSIZE)) eqn:G; [|discriminate]. bsplit.
  assert (perm_ok perm) as Hperm by (split; assumption).
  assert (tm_pt0 a1 = Some t) as Et.
  { unfold a_walk, a_pt in Ea. destruct (tm_pt0 a) as [t0|] eqn:Et0; [injection Ea as <- <-; exact Et0|].
    destruct (a_alloc true a) as [[[t0|] a2]|]; cbn in Ea; try discriminate. injection Ea as <- <-. reflexivity. }
  destruct (sim_incr a1 s1 i r0 HA eq_refl ltac:(lia)) as (s2 & Ei & HB). rewrite (bind_Ret _ _ _ _ _ Ei). mstep kld32_wd.
  destruct (a_remove v (set_a_ref i (r0 + 1) a1)) as [a3|] eqn:Er; [|discriminate]. cbn in E. injection E as <- <-.
  destruct (entry_facts i perm Hperm) as (Hu & Hpr & _ & Eent). rewrite Eent.
  assert (∃ s3, when (is_present (wd (phys s2) (pg t) (ent_index v))) (page_remove None (kva_of kp) (va_of v)) s2 = Ret tt s3 ∧ holds a3 s3) as (s3 & E3 & HC).
  { destruct (walk_ent _ s2 v HB) as [_ He]. specialize (He t Et). unfold when.
    destruct (a_ent (set_a_ref i (r0 + 1) a1) v) as [[q p]|] eqn:Ee; cbn in He.
    - destruct He as [Hp ->]. destruct (entry_facts q p Hp) as (_ & -> & _). apply (sim_remove _ s2 v a3 HB Er).
    - rewrite He. exists s2. split; [reflexivity|]. unfold a_remove in Er. change (tm_pt0 (set_a_ref i (r0 + 1) a1)) with (tm_pt0 a1) in Er.
      rewrite Et, Ee in Er. injection Er as <-. exact HB. }
  rewrite (bind_Ret _ _ _ _ _ E3). mstep kst32_wd. eexists. split; [reflexivity|].
  apply holds_store_pte; [exact HC|rewrite (remove_tables _ _ _ Er); exact Et|split; [exact Hperm|reflexivity]|exact Hu].
Qed.

(** ** Programs *)

(** From every state seen as [a] the program returns [r] and leaves a state
    seen as [a']. *)
Definition runs {A} (m : M pm A) (a : tmach) (r : A) (a' : tmach) : Prop :=
  ∀ s, holds a s → ∃ s', m s = Ret r s' ∧ holds a' s'.

Lemma runs_bind {A B} (m : M pm A) (k : A → M pm B) a r a1 r' a' :
  runs m a r a1 → runs (k r) a1 r' a' → runs (m ≫= k) a r' a'.
Proof.
  intros Hm Hk s H. destruct (Hm s H) as (s1 & E1 & H1). destruct (Hk s1 H1) as (s2 & E2 & H2).
  exists s2. split; [rewrite (bind_Ret _ _ _ _ _ E1); exact E2|exact H2].
Qed.

(** A program that only looks. *)
Lemma runs_read {A} (m : M pm A) a r : (∀ s, holds a s → m s = Ret r s) → runs m a r a.
Proof. intros E s H. exists s. split; [apply E, H|exact H]. Qed.

Lemma runs_kassert b what a : b = true → runs (kassert b what) a tt a.
Proof. intros ->. apply runs_read. reflexivity. Qed.

Lemma runs_mret {A} (r : A) a : runs (mret r) a r a.
Proof. apply runs_read. reflexivity. Qed.

Lemma runs_root a : runs (gets kern_pgdir) a (kva_of kp) a.
Proof using Hroot. apply runs_read. intros s H. destruct (h_same _ _ H) as (_ & _ & _ & E & _). unfold gets. rewrite E, Hroot. reflexivity. Qed.

Lemma pg_eqb i j : (pg i =? pg j) = bool_decide (i = j).
Proof using Hinj. destruct (bool_decide_reflect (i = j)) as [->|Hij]; [apply Z.eqb_refl|]. apply Z.eqb_neq. intros F. apply Hij, Hinj, F. Qed.

Lemma runs_alloc f a i a' what : a_alloc (ctrue (Z.land f ALLOC_ZERO)) a = Some (Some i, a') → runs (assert_alloc f what) a (pg i) a'.
Proof using Hn Hpg Hinj Hkp Hne.
  intros E s H. destruct (sim_alloc a s f _ a' H E ltac:(discriminate)) as (s' & E' & H').
  exists s'. split; [unfold assert_alloc; rewrite (bind_Ret _ _ _ _ _ E'); reflexivity|exact H'].
Qed.

Lemma runs_no_page a : h = None → a_alloc false a = Some (None, a) → runs assert_no_page a tt a.
Proof using Hn Hpg Hinj Hkp Hne.
  intros Hh E s H. destruct (sim_alloc a s 0 _ a H E ltac:(auto)) as (s' & E' & H').
  exists s'. split; [unfold assert_no_page; rewrite (bind_Ret _ _ _ _ _ E'); reflexivity|exact H'].
Qed.

Lemma runs_free i a a' : a_free i a = Some a' → runs (page_free (pg i)) a tt a'.
Proof using Hinj. intros E s H. apply (sim_free a s i a' H E). Qed.

Lemma runs_kinsert i v perm a r a' : a_insert i v perm a = Some (r, a') → (r <> 0 → h = None) → runs (kinsert (pg i) (va_of v) perm) a r a'.
Proof using Hn Hpg Hinj Hkp Hne Hroot.
  intros E Hh. eapply runs_bind; [apply runs_root|]. intros s H. apply (sim_insert a s i v perm r a' H E Hh).
Qed.

Lemma runs_insert i v perm a a' : a_insert i v perm a = Some (0, a') → runs (assert_insert (pg i) (va_of v) perm) a tt a'.
Proof using Hn Hpg Hinj Hkp Hne Hroot.
  intros E. eapply runs_bind; [apply (runs_kinsert _ _ _ _ _ _ E); intros F; destruct F; reflexivity|]. apply runs_kassert. reflexivity.
Qed.

Lemma runs_insert_fails i v perm a a' : h = None → a_insert i v perm a = Some (- E_NO_MEM, a') →
  runs (assert_insert_fails (pg i) (va_of v) perm) a tt a'.
Proof using Hn Hpg Hinj Hkp Hne Hroot.
  intros Hh E. eapply runs_bind; [apply (runs_kinsert _ _ _ _ _ _ E); auto|]. apply runs_kassert. reflexivity.
Qed.

(** No page for the page table of slot 1. *)
Lemma runs_insert_fails_1 i perm a : h = None → a_walk true true a = Some (None, a) →
  runs (assert_insert_fails (pg i) PTSIZE perm) a tt a.
Proof using Hn Hpg Hinj Hkp Hne Hroot.
  intros Hh E. eapply runs_bind; [|apply runs_kassert; instantiate (1 := - E_NO_MEM); reflexivity].
  eapply runs_bind; [apply runs_root|]. intros s H. destruct (sim_walk a s true PTSIZE true None a H eq_refl E ltac:(auto)) as (s' & E' & H').
  exists s'. split; [unfold page_insert; rewrite (bind_Ret _ _ _ _ _ E'); reflexivity|exact H'].
Qed.

Lemma runs_remove v a a' : a_remove v a = Some a' → runs (kremove (va_of v)) a tt a'.
Proof using Hn Hpg Hinj Hkp Hne Hroot.
  intros E. eapply runs_bind; [apply runs_root|]. intros s H. apply (sim_remove a s v a' H E).
Qed.

Lemma runs_page_ref i a : runs (page_ref (pg i)) a (tget (tm_ref a) i) a.
Proof. apply runs_read. intros s H. unfold page_ref. rewrite (bind_Ret _ _ _ _ _ (page_get_eq _ _ _ (h_page _ _ H i))). reflexivity. Qed.

Lemma runs_assert_ref i n a : tget (tm_ref a) i =? n = true → runs (assert_ref (pg i) n) a tt a.
Proof. intros E. eapply runs_bind; [apply runs_page_ref|]. apply runs_kassert, E. Qed.

Lemma runs_page_get i a : runs (page_get (pg i)) a (MkPageInfo (clink (tget (tm_link a) i)) (tget (tm_ref a) i)) a.
Proof. apply runs_read. intros s H. apply page_get_eq, (h_page _ _ H). Qed.

Lemma runs_set_ref i r a : runs (set_pp_ref (pg i) r) a tt (set_a_ref i r a).
Proof using Hinj. intros s H. eexists. split; [apply set_pp_ref_eq, (h_page _ _ H)|]. apply sim_set_ref, H. Qed.

Lemma runs_page2kva i a : runs (page2kva (pg i)) a (kva_of (pg i)) a.
Proof using Hn Hpg.
  apply runs_read. intros s H. destruct (h_same _ _ H) as (N1 & _). pose proof (Hpg i). apply page2kva_page; lia.
Qed.

Lemma runs_memset i b a a' : a_memset i b a = Some a' → runs (kmemset (kva_of (pg i)) b PGSIZE) a tt a'.
Proof using Hn Hpg Hinj Hkp Hne.
  unfold a_memset. intros E s H. destruct (negb (a_is_pt a i) && (0 <=? b) && (b <? 256)) eqn:G; [|discriminate]. bsplit. injection E as <-.
  unfold kmemset, kva_of. rewrite Z.add_simpl_r. eexists. split; [reflexivity|]. apply holds_memset; auto.
Qed.

(** What a walk and check_va2pa answer. *)
Definition va2pa (a : tmach) (v : bool) : Z :=
  match tm_pt0 a, a_ent a v with Some _, Some (q, _) => page2pa (pg q) | _, _ => w32 (-1) end.

Lemma kld32_pde a s slot t : holds a s → a_pt a slot = Some t →
  kld32 (kva_of kp + 4 * slot_index slot) s = Ret (pde_for (pg t)) s.
Proof.
  intros H Et. rewrite kld32_wd, (h_row _ _ H) by (destruct slot; cbn; lia).
  destruct slot; cbn in Et; cbn; rewrite Et; reflexivity.
Qed.

Lemma sim_va2pa a s v : holds a s → check_va2pa (kva_of kp) (va_of v) s = Ret (va2pa a v) s.
Proof using Hn Hpg Hinj Hkp Hne.
  intros H. destruct (va_of_idx v) as [E1 E2]. unfold check_va2pa, va2pa. rewrite E1, E2.
  destruct (tm_pt0 a) as [t|] eqn:Et.
  - rewrite (bind_Ret _ _ _ _ _ (kld32_pde a s false t H Et)). pose proof (Hpg t).
    destruct (pde_for_ok (pg t) ltac:(lia)) as (_ & -> & _). cbn [negb]. destruct (h_same _ _ H) as (N1 & _).
    rewrite (bind_Ret _ _ _ _ _ (KADDR_pde s t N1)). mstep kld32_wd.
    destruct (walk_ent a s v H) as [_ He]. specialize (He t Et). destruct (a_ent a v) as [[q perm]|]; cbn in He.
    + destruct He as [Hp ->]. destruct (entry_facts q perm Hp) as (_ & -> & -> & _). cbn [negb]. pose proof (Hpg q).
      rewrite page2pa_eq by lia. reflexivity.
    + rewrite He. reflexivity.
  - erewrite bind_Ret by (apply kld32_wd). rewrite (h_row _ _ H) by (cbn; lia). cbn. rewrite Et. reflexivity.
Qed.

Lemma runs_va2pa v pa a : pa = va2pa a v → runs (assert_va2pa (va_of v) pa) a tt a.
Proof using Hn Hpg Hinj Hkp Hne Hroot.
  intros ->. eapply runs_bind; [apply runs_root|]. eapply runs_bind; [apply runs_read; intros s H; apply sim_va2pa, H|].
  apply runs_kassert, Z.eqb_refl.
Qed.

(** page_lookup without a page table. *)
Lemma runs_lookup_none v a : tm_pt0 a = None → runs (page_lookup (kva_of kp) (va_of v)) a (None, None) a.
Proof using Hn Hpg Hinj Hkp Hne.
  intros Et. apply runs_read. intros s H. destruct (walk_ent a s v H) as [Ew _]. unfold page_lookup.
  rewrite (bind_Ret _ _ _ _ _ Ew), Et. reflexivity.
Qed.

(** The bits of an entry of the directory and of the table. *)
Lemma pde_bits t b : perm_ok b → Z.land (pde_for (pg t)) b = Z.land 7 b.
Proof using Hn Hpg.
  intros Hb. pose proof (Hpg t). unfold pde_for. rewrite page2pa_eq, <- !Z.lor_assoc by lia. apply land_page; [split; reflexivity || discriminate|exact Hb].
Qed.
Lemma entry_bits q perm b : perm_ok perm → perm_ok b → Z.land (entry (pg q) perm) b = Z.land (Z.lor perm PTE_P) b.
Proof. intros Hp Hb. apply land_page; [|exact Hb]. apply lor_perm_range; [exact Hp|split; reflexivity || discriminate]. Qed.

Lemma runs_pde a slot t : a_pt a slot = Some t → runs (kld32 (kva_of kp + 4 * slot_index slot)) a (pde_for (pg t)) a.
Proof. intros Et. apply runs_read. intros s H. apply (kld32_pde a); assumption. Qed.

Lemma runs_pde_is slot t a : a_pt a slot = Some t → runs (pde_page_is (slot_index slot) (pg t)) a tt a.
Proof using Hn Hpg Hroot.
  intros Et. eapply runs_bind; [apply runs_root|]. eapply runs_bind; [exact (runs_pde a slot t Et)|]. apply runs_kassert, Z.eqb_eq.
  pose proof (Hpg t). rewrite frame_of_addr. destruct (pde_for_ok (pg t) ltac:(lia)) as (_ & _ & ->). rewrite page2pa_eq by lia. reflexivity.
Qed.

Lemma runs_KADDR_pde t a : runs (KADDR (PTE_ADDR (pde_for (pg t)))) a (kva_of (pg t)) a.
Proof using Hn Hpg. apply runs_read. intros s H. apply KADDR_pde. apply (h_same _ _ H). Qed.

Lemma runs_walk slot va create r a a' : PDX va = slot_index slot → a_walk slot create a = Some (r, a') →
  (create = true → r = None → h = None) → runs (pgdir_walk (kva_of kp) va create) a ((λ t, kva_of (pg t) + 4 * PTX va) <$> r) a'.
Proof using Hn Hpg Hinj Hkp Hne. intros Hva E Hh s H. apply (sim_walk a s slot va create r a' H Hva E Hh). Qed.

Lemma runs_walk_pte v q perm t a : tm_pt0 a = Some t → a_ent a v = Some (q, perm) →
  runs (walk_pte (va_of v)) a (entry (pg q) perm) a.
Proof using Hn Hpg Hinj Hkp Hne Hroot.
  intros Et Ee. eapply runs_bind; [apply runs_root|]. apply runs_read. intros s H. destruct (walk_ent a s v H) as [Ew He].
  rewrite (bind_Ret _ _ _ _ _ Ew), Et. cbn [fmap option_fmap option_map]. rewrite kld32_wd. specialize (He t Et). rewrite Ee in He.
  destruct He as [_ ->]. reflexivity.
Qed.

Lemma runs_clear_pde slot a : runs (clear_pde (slot_index slot)) a tt (set_a_pt slot None a).
Proof using Hn Hpg Hinj Hkp Hne Hroot. intros s H. apply sim_clear_pde, H. Qed.

(** A table in which nothing is present. *)
Lemma runs_empty_table t a what : tm_pt0 a = Some t → tm_e0 a = None → tm_e1 a = None →
  runs (for_range (Z.to_nat NPTENTRIES) 0 1 (λ i, pte ← kld32 (kva_of (pg t) + 4 * i); kassert (negb (is_present pte)) what)) a tt a.
Proof.
  intros Et E0 E1. apply runs_read. intros s H. apply for_range_idle. intros i Hi. cbn beta. change (Z.of_nat (Z.to_nat NPTENTRIES)) with 1024 in Hi.
  rewrite Z.mul_1_r, Z.add_0_l, (bind_Ret _ _ _ _ _ (kld32_wd _ _ _)). apply kassert_true, negb_true_iff.
  pose proof (h_ent _ _ H t i Et ltac:(lia)) as He. unfold cent in He. rewrite E0, E1 in He. destruct (i =? 0), (i =? 1); exact He.
Qed.

(** The value of a bit test. *)
Lemma pde_bit t b : perm_ok b → Z.land 7 b ≠ 0 → ctrue (Z.land (pde_for (pg t)) b) = true.
Proof using Hn Hpg. intros Hb H. rewrite pde_bits by exact Hb. apply ctrue_spec, H. Qed.

Lemma entry_bit q perm b c : perm_ok perm → perm_ok b → ctrue (Z.land (Z.lor perm PTE_P) b) = c →
  ctrue (Z.land (entry (pg q) perm) b) = c.
Proof. intros Hp Hb <-. rewrite entry_bits by assumption. reflexivity. Qed.

Lemma runs_pde_0 a t : tm_pt0 a = Some t → runs (kld32 (kva_of kp)) a (pde_for (pg t)) a.
Proof. intros Et. rewrite <- (Z.add_0_r (kva_of kp)). apply (runs_pde a false). exact Et. Qed.

Lemma entry_bit_no q perm b : perm_ok perm → perm_ok b → Z.land (Z.lor perm PTE_P) b = 0 →
  negb (ctrue (Z.land (entry (pg q) perm) b)) = true.
Proof using. intros Hp Hb E. rewrite entry_bits, E by assumption. reflexivity. Qed.

Ltac perm := split; reflexivity || discriminate.
Ltac va_bit va := lazymatch va with 0 => constr:(false) | PGSIZE => constr:(true) end.
Ltac slot_bit i := lazymatch i with 0 => constr:(false) | PDX 0 => constr:(false) | PDX PGSIZE => constr:(false) | _ => constr:(true) end.
Ltac check_bool :=
  lazymatch goal with
  | |- bool_decide _ = true => apply bool_decide_eq_true_2; reflexivity
  | |- negb (ctrue (Z.land (entry _ _) _)) = true => apply entry_bit_no; [perm|perm|reflexivity]
  | |- ctrue (Z.land (entry _ _) _) = true => apply entry_bit; [perm|perm|reflexivity]
  | |- ctrue (Z.land (pde_for _) _) = true => apply pde_bit; [perm|discriminate]
  | |- _ => rewrite ?pg_eqb; reflexivity
  end.
Ltac prim :=
  lazymatch goal with
  | |- runs ?m _ _ _ =>
    lazymatch m with
    | gets kern_pgdir => apply runs_root
    | mret _ => apply runs_mret
    | assert_no_page => apply runs_no_page; [assumption|reflexivity]
    | assert_alloc _ _ => apply runs_alloc; cbv; reflexivity
    | page_free _ => apply runs_free; cbv; reflexivity
    | assert_insert _ ?va _ => let v := va_bit va in apply (runs_insert _ v); cbv; reflexivity
    | assert_insert_fails _ 0 _ => apply (runs_insert_fails _ false); [assumption|cbv; reflexivity]
    | assert_insert_fails _ PTSIZE _ => apply runs_insert_fails_1; [assumption|reflexivity]
    | kinsert _ ?va _ => let v := va_bit va in apply (runs_kinsert _ v); [cbv; reflexivity|let F := fresh in intros F; destruct F; reflexivity]
    | kremove ?va => let v := va_bit va in apply (runs_remove v); cbv; reflexivity
    | assert_ref _ _ => apply runs_assert_ref; reflexivity
    | assert_va2pa ?va _ => let v := va_bit va in apply (runs_va2pa v); reflexivity
    | page_lookup _ ?va => let v := va_bit va in apply (runs_lookup_none v); reflexivity
    | walk_pte ?va => let v := va_bit va in eapply (runs_walk_pte v); reflexivity
    | pde_page_is _ _ => apply (runs_pde_is false); reflexivity
    | clear_pde ?i => let b := slot_bit i in apply (runs_clear_pde b)
    | set_pp_ref _ _ => apply runs_set_ref
    | page2kva _ => apply runs_page2kva
    | page_ref _ => apply runs_page_ref
    | page_get _ => apply runs_page_get
    | KADDR _ => apply runs_KADDR_pde
    | kld32 (kva_of _ + 4 * PDX ?va) => let b := slot_bit (PDX va) in apply (runs_pde _ b); reflexivity
    | kld32 (kva_of _) => apply runs_pde_0; reflexivity
    | pgdir_walk _ ?va _ => let b := slot_bit (PDX va) in apply (runs_walk b); [reflexivity|cbv; reflexivity|auto]
    | kmemset _ _ _ => apply runs_memset; reflexivity
    | for_range _ _ _ _ => apply runs_empty_table; reflexivity
    | kassert _ _ => apply runs_kassert; check_bool
    end
  end.
Ltac step := lazymatch goal with |- runs (_ ≫= _) _ _ _ => eapply runs_bind; [solve [prim]|cbv beta zeta] end.

Definition all_out : tmach :=
  TM LRest (Tri LNull LNull LNull) (Tri 0 0 0) (Tri Unknown Unknown Unknown) None None None None.

(** After the first part: pp1 at both virtual pages, pp0 the page table, pp2
    free. *)
Definition inserted_pages : tmach :=
  TM (LPage P2) (Tri LNull LNull LRest) (Tri 1 2 0) (Tri Unknown Unknown Unknown) (Some P0) None (Some (P1, 2)) (Some (P1, 2)).

Lemma check_page_insert_runs : h = None → runs (check_page_insert (pg P0) (pg P1) (pg P2)) all_out tt inserted_pages.
Proof using Hn Hpg Hinj Hkp Hne Hroot. intros Hh. unfold check_page_insert. repeat step. prim. Qed.

Lemma check_page_remove_runs : h = None → runs (check_page_remove (pg P0) (pg P1) (pg P2)) inserted_pages tt all_out.
Proof using Hn Hpg Hinj Hkp Hne Hroot. intros Hh. unfold check_page_remove. repeat step. prim. Qed.

Lemma check_page_walk_runs : h = None → runs (check_page_walk (pg P0)) all_out tt (set_a_fill P0 (Filled 0) all_out).
Proof using Hn Hpg Hinj Hkp Hne Hroot. intros Hh. unfold check_page_walk. cbv zeta. repeat step. prim. Qed.

(** The middle of check_page_alloc: the pages are freed and taken again, in
    another order, and a page that was filled comes back clear; [K] is the
    rest. *)
Definition alloc_again (K : Z → Z → Z → M pm unit) : M pm unit :=
  assert_no_page ;;
  page_free (pg P0) ;; page_free (pg P1) ;; page_free (pg P2) ;;
  pp0 ← assert_alloc 0 "(pp0 = page_alloc(0))";
  pp1 ← assert_alloc 0 "(pp1 = page_alloc(0))";
  pp2 ← assert_alloc 0 "(pp2 = page_alloc(0))";
  distinct_pages pp0 pp1 pp2 ;;
  assert_no_page ;;
  kva ← page2kva pp0;
  kmemset kva 1 PGSIZE ;;
  page_free pp0 ;;
  pp ← assert_alloc ALLOC_ZERO "(pp = page_alloc(ALLOC_ZERO))";
  kassert (pp0 =? pp) "pp && pp0 == pp" ;;
  c ← page2kva pp;
  assert_zero (Z.to_nat PGSIZE) c ;;
  K pp0 pp1 pp2.

Lemma assert_zero_run n c s : (∀ o, 0 ≤ o < Z.of_nat n → ld8 (phys s) (c + o - KERNBASE) = 0) → assert_zero n c s = Ret tt s.
Proof.
  revert c. induction n as [|n IH]; intros c H; [reflexivity|]. cbn [assert_zero]. rewrite bind_gets.
  pose proof (H 0 ltac:(lia)) as H0. rewrite Z.add_0_r in H0. rewrite H0. apply IH. intros o Ho.
  replace (c + 1 + o) with (c + (1 + o)) by lia. apply H. lia.
Qed.

Lemma runs_zero i a : tget (tm_fill a) i = Filled 0 → runs (assert_zero (Z.to_nat PGSIZE) (kva_of (pg i))) a tt a.
Proof.
  intros E. apply runs_read. intros s H. apply assert_zero_run. intros o Ho. pose proof (h_fill _ _ H i) as F. rewrite E in F.
  unfold kva_of. replace (pg i * PGSIZE + KERNBASE + o - KERNBASE) with (pg i * PGSIZE + o) by lia. apply F. exact Ho.
Qed.

Lemma runs_distinct i j k a : i ≠ j → i ≠ k → j ≠ k → runs (distinct_pages (pg i) (pg j) (pg k)) a tt a.
Proof using Hinj.
  intros Hij Hik Hjk. unfold distinct_pages. rewrite !pg_eqb, !bool_decide_eq_false_2 by congruence.
  eapply runs_bind; apply runs_kassert; reflexivity.
Qed.

(** From every state seen as [a] the program returns in a state with [Q]. *)
Definition ends (m : M pm unit) (a : tmach) (Q : pm → Prop) : Prop := ∀ s, holds a s → ∃ s', m s = Ret tt s' ∧ Q s'.

Lemma ends_bind {A} (m : M pm A) (k : A → M pm unit) a r a1 Q : runs m a r a1 → ends (k r) a1 Q → ends (m ≫= k) a Q.
Proof.
  intros Hm Hk s H. destruct (Hm s H) as (s1 & E1 & H1). destruct (Hk s1 H1) as (s2 & E2 & H2).
  exists s2. split; [rewrite (bind_Ret _ _ _ _ _ E1); exact E2|exact H2].
Qed.

Ltac estep := lazymatch goal with |- ends (_ ≫= _) _ _ => eapply ends_bind; [solve [prim]|cbv beta zeta] end.

Lemma alloc_again_ends K Q : h = None → ends (K (pg P2) (pg P1) (pg P0)) (set_a_fill P2 (Filled 0) all_out) Q →
  ends (alloc_again K) all_out Q.
Proof using Hn Hpg Hinj Hkp Hne Hroot.
  intros Hh HK. unfold alloc_again. do 7 estep. eapply ends_bind; [apply runs_distinct; discriminate|]. do 7 estep.
  eapply ends_bind; [apply runs_zero; reflexivity|]. exact HK.
Qed.

(** ** Access through the mapping *)

Context (Hcr3 : cr3 s0 = kp * PGSIZE).

Lemma mapped_byte a s t q perm write j : holds a s → tm_pt0 a = Some t → tm_e1 a = Some (q, perm) →
  Z.land perm PTE_W = PTE_W → 0 ≤ j < 4 → kaddr s write (PGSIZE + j) = Some (pg q * PGSIZE + j).
Proof using Hn Hpg Hinj Hkp Hne Hcr3.
  intros H Et Ee Hw Hj. destruct (h_same _ _ H) as (_ & _ & _ & _ & _ & _ & _ & C & _).
  pose proof (h_ent _ _ H t 1 Et ltac:(lia)) as He. unfold cent in He. cbn in He. rewrite Ee in He. destruct He as [Hp Ew].
  pose proof (Hpg t). pose proof (Hpg q). rewrite <- (Z.mul_1_l PGSIZE) at 1.
  eapply (kaddr_entry s kp 1 (pg t) (pg q) perm); [congruence|split; reflexivity || discriminate|lia| |exact Ew|exact Hp|exact Hw|lia|unfold PGSIZE; lia].
  change (1 / 1024) with 0. rewrite (h_row _ _ H) by lia. cbn. rewrite Et. reflexivity.
Qed.

(** The value of the first word of a page. *)
Definition word_of (f : fill) : option Z :=
  match f with Unknown => None | Filled b => Some (b * 0x01010101) | Word w => Some w end.

Lemma filled_word m q f w : filled m q f → word_of f = Some w → wd m q 0 = w.
Proof.
  destruct f as [|b|v]; cbn; [discriminate| |congruence]. intros H [= <-]. unfold wd, ld32, ld16. rewrite Z.mul_0_r, Z.add_0_r.
  pose proof (H 0 ltac:(unfold PGSIZE; lia)) as H0. rewrite Z.add_0_r in H0. pose proof (H 1 ltac:(unfold PGSIZE; lia)) as H1.
  pose proof (H 2 ltac:(unfold PGSIZE; lia)) as H2. pose proof (H 3 ltac:(unfold PGSIZE; lia)) as H3.
  replace (q * PGSIZE + 2 + 1) with (q * PGSIZE + 3) by lia. rewrite H0, H1, H2, H3. lia.
Qed.

Lemma runs_word t q perm a w what : tm_pt0 a = Some t → tm_e1 a = Some (q, perm) → Z.land perm PTE_W = PTE_W →
  word_of (tget (tm_fill a) q) = Some w → runs (assert_word PGSIZE w what) a tt a.
Proof using Hn Hpg Hinj Hkp Hne Hcr3.
  intros Et Ee Hw Ef. apply runs_read. intros s H. unfold assert_word.
  erewrite bind_Ret by (apply vld32_kaddr; intros j Hj; apply (mapped_byte a s t q perm false j H Et Ee Hw Hj)).
  apply kassert_true, Z.eqb_eq. rewrite <- (Z.add_0_r (pg q * PGSIZE)). apply (filled_word _ _ _ _ (h_fill _ _ H q) Ef).
Qed.

Lemma runs_word_kva q a w what : word_of (tget (tm_fill a) q) = Some w → runs (assert_word (kva_of (pg q)) w what) a tt a.
Proof.
  intros Ef. apply runs_read. intros s H. unfold assert_word.
  erewrite bind_Ret by (apply (vld32_kaddr _ _ (pg q * PGSIZE)); intros j Hj; unfold kaddr, kva_of; pose proof (Hpg q);
    rewrite Z.geb_leb, (proj2 (Z.leb_le _ _)) by (unfold PGSIZE; lia); f_equal; lia).
  apply kassert_true, Z.eqb_eq. rewrite <- (Z.add_0_r (pg q * PGSIZE)). apply (filled_word _ _ _ _ (h_fill _ _ H q) Ef).
Qed.

(** A byte is stored in a page that is not a page table. *)
Lemma holds_st8 a s q o v : holds a s → a_is_pt a q = false → 0 ≤ o < PGSIZE →
  holds (set_a_fill q Unknown a) (with_phys (st8 (phys s) (pg q * PGSIZE + o) v) s).
Proof using Hn Hpg Hinj Hkp Hne.
  intros [Hs Hf Hp Ho Hr He Hfi Hm] Hpt Ho'. apply bool_decide_eq_false in Hpt.
  assert (∀ r, r ≠ pg q → ∀ k, 0 ≤ k < PGSIZE → ld8 (st8 (phys s) (pg q * PGSIZE + o) v) (r * PGSIZE + k) = ld8 (phys s) (r * PGSIZE + k)) as Eb.
  { intros r Hrq k Hk. apply ld8_st8_ne. intros F. eapply (page_byte_out r (pg q) k); [exact Hrq|exact Hk|unfold PGSIZE in *; lia]. }
  assert (∀ r j, r ≠ pg q → 0 ≤ j < 1024 → wd (st8 (phys s) (pg q * PGSIZE + o) v) r j = wd (phys s) r j) as Ew.
  { intros r j Hrq Hj. apply ld32_ext. intros k Hk. rewrite <- Z.add_assoc. apply Eb; [exact Hrq|unfold PGSIZE; lia]. }
  split; try assumption; psimpl.
  - intros j Hj. rewrite Ew by (assumption || apply not_eq_sym, Hne). exact (Hr j Hj).
  - intros t j Ht Hj. rewrite Ew; [exact (He t j Ht Hj)| |exact Hj].
    intros F. apply Hpt. left. rewrite <- (Hinj _ _ F). exact Ht.
  - intros j. cbn [set_a_fill tm_fill]. rewrite tget_tset. destruct (decide (j = q)) as [->|Hji]; [exact I|].
    eapply filled_ext; [|exact (Hfi j)]. apply Eb. intros F. apply Hji, Hinj, F.
  - intros c Hc1 Hc2. rewrite ld8_st8_ne; [exact (Hm c Hc1 Hc2)|]. intros <-. apply (Hc2 q).
    rewrite Z.div_add_l, Z.div_small by (unfold PGSIZE in *; lia). lia.
Qed.

Lemma holds_known a s q f : holds (set_a_fill q Unknown a) s → filled (phys s) (pg q) f → holds (set_a_fill q f a) s.
Proof.
  intros [Hs Hf Hp Ho Hr He Hfi Hm] Hw. split; try assumption. intros j. specialize (Hfi j). revert Hfi. cbn [set_a_fill tm_fill].
  rewrite !tget_tset. destruct (decide (j = q)) as [->|]; [intros _; exact Hw|trivial].
Qed.

Lemma holds_forget a s q : holds a s → holds (set_a_fill q Unknown a) s.
Proof.
  intros [Hs Hf Hp Ho Hr He Hfi Hm]. split; try assumption. intros j. specialize (Hfi j). revert Hfi. cbn [set_a_fill tm_fill].
  rewrite tget_tset. destruct (decide (j = q)) as [->|]; [intros _; exact I|trivial].
Qed.

Lemma set_a_fill_twice q f g a : set_a_fill q f (set_a_fill q g a) = set_a_fill q f a.
Proof. destruct a, tm_fill0, q; reflexivity. Qed.

Lemma runs_vst32 t q perm a w : tm_pt0 a = Some t → tm_e1 a = Some (q, perm) → Z.land perm PTE_W = PTE_W →
  a_is_pt a q = false → u32_range w → runs (vst32 PGSIZE w) a tt (set_a_fill q (Word w) a).
Proof using Hn Hpg Hinj Hkp Hne Hcr3.
  intros Et Ee Hw Hpt Hu. set (b := set_a_fill q Unknown a).
  assert (∀ j v c s, 0 ≤ j < 4 → c = PGSIZE + j → holds b s →
    vst8 c v s = Ret tt (with_phys (st8 (phys s) (pg q * PGSIZE + j) v) s) ∧ holds b (with_phys (st8 (phys s) (pg q * PGSIZE + j) v) s)) as St.
  { intros j v c s Hj -> H. split.
    - unfold vst8. rewrite (mapped_byte b s t q perm true j H Et Ee Hw Hj). reflexivity.
    - pose proof (holds_st8 b s q j v H Hpt ltac:(unfold PGSIZE; lia)) as G. unfold b in G at 1. rewrite set_a_fill_twice in G. exact G. }
  intros s H. pose proof (holds_forget a s q H) as H0. fold b in H0.
  destruct (St 0 w PGSIZE s ltac:(lia) eq_refl H0) as [E1 H1]. destruct (St 1 (w / 2 ^ 8) (PGSIZE + 1) _ ltac:(lia) eq_refl H1) as [E2 H2].
  destruct (St 2 (w / 2 ^ 16) (PGSIZE + 2) _ ltac:(lia) eq_refl H2) as [E3 H3]. destruct (St 3 (w / 2 ^ 24) (PGSIZE + 3) _ ltac:(lia) eq_refl H3) as [E4 H4].
  unfold vst32. rewrite (bind_Ret _ _ _ _ _ E1), (bind_Ret _ _ _ _ _ E2), (bind_Ret _ _ _ _ _ E3). eexists. split; [exact E4|].
  apply holds_known; [exact H4|]. cbn. unfold wd. rewrite Z.mul_0_r, !Z.add_0_r.
  transitivity (ld32 (st32 (phys s) (pg q * PGSIZE) w) (pg q * PGSIZE)); [|apply ld32_st32_eq, Hu]. apply ld32_ext. intros i _.
  unfold st32, st16. rewrite Z.div_div by lia. do 2 f_equal. lia.
Qed.

(** check_page_installed_pgdir after the three allocations. *)
Definition installed (pp0 pp1 pp2 : Z) : M pm unit :=
  page_free pp0 ;;
  k1 ← page2kva pp1;
  kmemset k1 1 PGSIZE ;;
  k2 ← page2kva pp2;
  kmemset k2 2 PGSIZE ;;
  kinsert pp1 PGSIZE PTE_W ;;
  assert_ref pp1 1 ;;
  assert_word PGSIZE 0x01010101 "*(uint32_t *)PGSIZE == 0x01010101U" ;;
  kinsert pp2 PGSIZE PTE_W ;;
  assert_word PGSIZE 0x02020202 "*(uint32_t *)PGSIZE == 0x02020202U" ;;
  assert_ref pp2 1 ;;
  assert_ref pp1 0 ;;
  vst32 PGSIZE 0x03030303 ;;
  k2 ← page2kva pp2;
  assert_word k2 0x03030303 "*(uint32_t *)page2kva(pp2) == 0x03030303U" ;;
  kremove PGSIZE ;;
  assert_ref pp2 0 ;;
  pde_page_is 0 pp0 ;;
  clear_pde 0 ;;
  assert_ref pp0 1 ;;
  set_pp_ref pp0 0 ;;
  page_free pp0.

Ltac mapped := lazymatch goal with
  | |- runs (assert_word PGSIZE _ _) _ _ _ => eapply runs_word; reflexivity
  | |- runs (assert_word (kva_of _) _ _) _ _ _ => apply runs_word_kva; reflexivity
  | |- runs (vst32 PGSIZE _) _ _ _ => eapply runs_vst32; [reflexivity..|split; reflexivity || discriminate]
  | |- _ => prim
  end.

Lemma installed_runs : runs (installed (pg P0) (pg P1) (pg P2)) all_out tt
  (TM (LPage P0) (Tri (LPage P2) LRest (LPage P1)) (Tri 0 0 0) (Tri Unknown (Filled 1) (Word 0x03030303)) None None None None).
Proof using Hn Hpg Hinj Hkp Hne Hroot Hcr3.
  unfold installed. repeat lazymatch goal with |- runs (_ ≫= _) _ _ _ => eapply runs_bind; [solve [mapped]|cbv beta zeta] end. prim.
Qed.
End sim.

(** * Between the tests *)

(** The free list gets its tail back. *)
Lemma holds_tail s0 kp pg h a s : holds s0 kp pg None a s → tm_free a = LRest → (∀ i, tget (tm_link a) i = LNull) →
  holds s0 kp pg h a (with_free_list h s).
Proof.
  intros [Hs Hf Hp Ho Hr He Hfi Hm] Ef El. split; psimpl; try assumption.
  - rewrite Ef. reflexivity.
  - intros i. rewrite Hp, El. reflexivity.
Qed.

(** The three pages are free again, in front of the rest. *)
Lemma holds_free s0 kp pg a s i j k l : (∀ i j, pg i = pg j → i = j) → page_inv s0 l → holds s0 kp pg (page_free_list s0) a s →
  (∀ i, pg i ∉ l) → (∀ i, 0 ≤ pg i < npages s0) → NoDup [i; j; k] → tm_ref a = Tri 0 0 0 →
  tm_free a = LPage i → tget (tm_link a) i = LPage j → tget (tm_link a) j = LPage k → tget (tm_link a) k = LRest →
  page_inv s (pg i :: pg j :: pg k :: l).
Proof.
  intros Hinj Hi [(N1 & _) Hf Hp Ho _ _ _ _] Hl Hb Hnd Er E0 E1 E2 E3. pose proof Hi as [Hn Hd Hc Hfr Hu Href].
  assert (∀ x, x = i ∨ x = j ∨ x = k) as Hall.
  { apply NoDup_cons in Hnd as [N2 [N3 _]%NoDup_cons]. rewrite !not_elem_of_cons in N2. rewrite not_elem_of_cons in N3.
    destruct N2 as (? & ? & _), N3 as [? _]. intros x. destruct x, i, j, k; congruence || tauto. }
  assert (∀ x, tget (tm_ref a) x = 0) as Er' by (intros x; rewrite Er; destruct x; reflexivity).
  assert (∀ q, (∃ x, q = pg x) ∨ ∀ x, q ≠ pg x) as Hcase.
  { intros q. destruct (decide (q = pg P0)); [eauto|]. destruct (decide (q = pg P1)); [eauto|]. destruct (decide (q = pg P2)); [eauto|].
    right. intros []; assumption. }
  split.
  - rewrite N1. exact Hn.
  - intros q. rewrite N1. destruct (Hcase q) as [[x ->]|Hq]; [|rewrite Ho by exact Hq; apply Hd].
    rewrite Hp. split; [intros _; apply Hb|eauto].
  - rewrite Hf, E0. cbn. eapply chain_cons; [apply Hp|]. cbn [pp_link]. rewrite E1. cbn.
    eapply chain_cons; [apply Hp|]. cbn [pp_link]. rewrite E2. cbn. eapply chain_cons; [apply Hp|]. cbn [pp_link]. rewrite E3. cbn.
    eapply chain_ext; [|exact Hc]. intros q p Hq Hqp. exists p. split; [|reflexivity]. rewrite Ho; [exact Hqp|].
    intros x ->. exact (Hl x Hq).
  - intros q p Hq. destruct (Hcase q) as [[x ->]|Hqx].
    + rewrite Hp, Er'. intros [= <-]. reflexivity.
    + rewrite Ho by exact Hqx. rewrite !elem_of_cons in Hq. destruct Hq as [->|[->|[->|Hq]]]; try (exfalso; eapply Hqx; reflexivity).
      apply Hfr, Hq.
  - intros q p Hq. rewrite !not_elem_of_cons in Hq. destruct Hq as (Q0 & Q1 & Q2 & Q3).
    rewrite Ho; [apply Hu, Q3|]. intros x ->. destruct (Hall x) as [->|[->| ->]]; congruence.
  - intros q p. destruct (Hcase q) as [[x ->]|Hq].
    + rewrite Hp, Er'. intros [= <-]. cbn. lia.
    + rewrite Ho by exact Hq. apply Href.
Qed.

(** [quiet s l s' l']: nothing has changed but the order of the free list and
    what the free pages contain. *)
Record quiet (s : pm) (l : list Z) (s' : pm) (l' : list Z) : Prop := {
  qt_fields : same_fields s s';
  qt_inv : page_inv s' l';
  qt_perm : l' ≡ₚ l;
  qt_used : ∀ q, q ∉ l → pages s' !! q = pages s !! q;
  qt_mem : ∀ b, b / PGSIZE ∉ l → ld8 (phys s') b = ld8 (phys s) b
}.

Lemma same_fields_refl s : same_fields s s.
Proof. repeat split. Qed.
Lemma same_fields_trans s1 s2 s3 : same_fields s1 s2 → same_fields s2 s3 → same_fields s1 s3.
Proof. unfold same_fields. intuition congruence. Qed.

Lemma quiet_trans s1 l1 s2 l2 s3 l3 : quiet s1 l1 s2 l2 → quiet s2 l2 s3 l3 → quiet s1 l1 s3 l3.
Proof.
  intros [F1 I1 P1' U1 M1] [F2 I2 P2' U2 M2]. assert (∀ q, q ∈ l2 ↔ q ∈ l1) as E by (intros q; rewrite P1'; reflexivity).
  split.
  - eapply same_fields_trans; eassumption.
  - exact I2.
  - etransitivity; eassumption.
  - intros q Hq. rewrite U2 by (rewrite E; exact Hq). apply U1, Hq.
  - intros b Hb. rewrite M2 by (rewrite E; exact Hb). apply M1, Hb.
Qed.

(** The bytes of a page from its words. *)
(** ** Taking three pages *)

Definition three (q0 q1 q2 : Z) (i : tp) : Z := match i with P0 => q0 | P1 => q1 | P2 => q2 end.

Lemma alloc3 s q0 q1 q2 l : page_inv s (q0 :: q1 :: q2 :: l) → ∃ s0,
  (∀ (K : Z → Z → Z → M pm unit) w0 w1 w2,
    (pp0 ← assert_alloc 0 w0; pp1 ← assert_alloc 0 w1; pp2 ← assert_alloc 0 w2; K pp0 pp1 pp2) s = K q0 q1 q2 s0) ∧
  page_inv s0 l ∧ same_fields s s0 ∧ phys s0 = phys s ∧
  (∀ i, pages s0 !! three q0 q1 q2 i = Some (MkPageInfo None 0)) ∧
  ∀ q, (∀ i, q ≠ three q0 q1 q2 i) → pages s0 !! q = pages s !! q.
Proof.
  intros H. pose proof (page_inv_NoDup _ _ H) as Hnd.
  apply NoDup_cons in Hnd as [N0 Hnd]. apply NoDup_cons in Hnd as [N1 Hnd]. rewrite !not_elem_of_cons in N0. rewrite not_elem_of_cons in N1.
  destruct N0 as (N01 & N02 & _), N1 as [N12 _].
  destruct (page_alloc_some 0 s _ _ H) as (p0 & Hp0 & E0).
  pose proof (page_inv_alloc_state false s q0 _ (pp_link p0) H (ex_intro _ p0 (conj Hp0 eq_refl))) as H1.
  set (s1 := alloc_state false q0 (pp_link p0) s) in *.
  destruct (page_alloc_some 0 s1 _ _ H1) as (p1 & Hp1 & E1).
  pose proof (page_inv_alloc_state false s1 q1 _ (pp_link p1) H1 (ex_intro _ p1 (conj Hp1 eq_refl))) as H2.
  set (s2 := alloc_state false q1 (pp_link p1) s1) in *.
  destruct (page_alloc_some 0 s2 _ _ H2) as (p2 & Hp2 & E2).
  pose proof (page_inv_alloc_state false s2 q2 _ (pp_link p2) H2 (ex_intro _ p2 (conj Hp2 eq_refl))) as H3.
  set (s3 := alloc_state false q2 (pp_link p2) s2) in *. exists s3. split; [|split; [exact H3|split; [repeat split|split; [reflexivity|split]]]].
  - intros K w0 w1 w2. unfold assert_alloc. rewrite !bind_assoc, (bind_Ret _ _ _ _ _ E0). cbv iota. rewrite bind_mret.
    rewrite bind_assoc. erewrite bind_Ret by exact E1. cbv iota. rewrite bind_mret.
    rewrite bind_assoc. erewrite bind_Ret by exact E2. reflexivity.
  - unfold s3, s2, s1, alloc_state. intros []; psimpl; cbn [three]; rewrite ?lookup_insert_ne by congruence; apply lookup_insert_eq.
  - intros q Hq. unfold s3, s2, s1, alloc_state. psimpl.
    rewrite !lookup_insert_ne; [reflexivity|..]; apply not_eq_sym; apply (Hq P0) || apply (Hq P1) || apply (Hq P2).
Qed.

Section three_pages.
(** [s], whose free list begins with three pages, and what is left when they
    have been taken. *)
Context (s s0 : pm) (kp q0 q1 q2 : Z) (l : list Z) (H : page_inv s (q0 :: q1 :: q2 :: l)) (H0 : page_inv s0 l)
  (Hf : same_fields s s0) (Hm : phys s0 = phys s) (Ht : ∀ i, pages s0 !! three q0 q1 q2 i = Some (MkPageInfo None 0))
  (Ho : ∀ q, (∀ i, q ≠ three q0 q1 q2 i) → pages s0 !! q = pages s !! q)
  (Hkp : 0 ≤ kp < npages s) (Hkl : kp ∉ q0 :: q1 :: q2 :: l) (Hroot : kern_pgdir s = kva_of kp)
  (Hrow : wd (phys s) kp 0 = 0 ∧ wd (phys s) kp 1 = 0).
Let pg := three q0 q1 q2.

Lemma three_in i : pg i ∈ q0 :: q1 :: q2 :: l.
Proof using. clear. destruct i; cbn; rewrite !elem_of_cons; auto. Qed.

Lemma three_bound i : 0 ≤ pg i < npages s0.
Proof using H Hf. destruct Hf as (-> & _). apply (page_inv_free_bound _ _ _ H), three_in. Qed.

Lemma three_inj i j : pg i = pg j → i = j.
Proof using H.
  pose proof (page_inv_NoDup _ _ H) as Hnd. rewrite !NoDup_cons, !not_elem_of_cons in Hnd.
  clear -Hnd. destruct i, j; cbn; intuition congruence.
Qed.

Lemma three_kp i : pg i ≠ kp.
Proof using Hkl. intros F. apply Hkl. rewrite <- F. apply three_in. Qed.

Lemma three_rest i : pg i ∉ l.
Proof using H. pose proof (page_inv_NoDup _ _ H) as Hnd. rewrite !NoDup_cons, !not_elem_of_cons in Hnd. clear -Hnd. destruct i; cbn; intuition. Qed.

Lemma three_kp0 : npages s0 ≤ 65536 ∧ 0 ≤ kp < npages s0 ∧ kern_pgdir s0 = kva_of kp.
Proof using H0 Hf Hkp Hroot. pose proof (pi_npages _ _ H0). destruct Hf as (N & _ & _ & R & _). rewrite R, N in *. split; [lia|]. split; [exact Hkp|exact Hroot]. Qed.

Lemma three_start h : holds s0 kp pg h all_out (with_free_list h s0).
Proof using Hrow Hm Ht.
  split; psimpl; try reflexivity; try discriminate.
  - repeat split.
  - intros i. rewrite Ht. destruct i; reflexivity.
  - intros j Hj. destruct (Z.eqb_spec j 0) as [->|]; [|destruct (Z.eqb_spec j 1) as [->|]; [|reflexivity]]; cbn; rewrite Hm; apply Hrow.
  - intros i. destruct i; exact I.
Qed.

Lemma three_end a i j k s' : holds s0 kp pg (page_free_list s0) a s' → tm_pt0 a = None → tm_pt1 a = None →
  NoDup [i; j; k] → tm_ref a = Tri 0 0 0 →
  tm_free a = LPage i → tget (tm_link a) i = LPage j → tget (tm_link a) j = LPage k → tget (tm_link a) k = LRest →
  quiet s (q0 :: q1 :: q2 :: l) s' (pg i :: pg j :: pg k :: l).
Proof using H H0 Hf Hm Ho Hrow.
  intros A T0 T1 Hnd Er E0 E1 E2 E3. split.
  - eapply same_fields_trans; [exact Hf|exact (h_same _ _ _ _ _ _ A)].
  - eapply holds_free; [exact three_inj|exact H0|exact A|exact three_rest|exact three_bound|eassumption..].
  - change (q0 :: q1 :: q2 :: l) with (pg P0 :: pg P1 :: pg P2 :: l). rewrite !NoDup_cons, !not_elem_of_cons in Hnd.
    apply (Permutation_app_tail l (l := [pg i; pg j; pg k]) (l' := [pg P0; pg P1; pg P2])).
    change (pg <$> [i; j; k] ≡ₚ pg <$> [P0; P1; P2]). apply fmap_Permutation.
    clear -Hnd. destruct i, j, k; try (exfalso; intuition congruence); solve_Permutation.
  - intros q Hq. rewrite (h_others _ _ _ _ _ _ A); [apply Ho|]; intros x ->; apply Hq, three_in.
  - intros b Hb. destruct (decide (b / PGSIZE = kp)) as [Eb|Eb].
    + apply page_ld8. rewrite Eb. intros x Hx. rewrite (h_row _ _ _ _ _ _ A) by exact Hx. rewrite T0, T1, Hm.
      destruct (Z.eqb_spec x 0) as [->|]; [symmetry; apply Hrow|]. destruct (Z.eqb_spec x 1) as [->|]; [symmetry; apply Hrow|reflexivity].
    + rewrite (h_mem _ _ _ _ _ _ A); [rewrite Hm; reflexivity|exact Eb|]. intros i' F. apply Hb. rewrite F. apply three_in.
Qed.
End three_pages.

(** * check_page_alloc *)

Lemma count_links_run s step l : ∀ fuel h n, (length l ≤ fuel)%nat → chain (pages s) h l →
  count_links fuel h n step s = Ret (n + step * Z.of_nat (length l)) s.
Proof.
  induction l as [|i l IH]; intros fuel h n Hfu Hc.
  - apply chain_inv_nil in Hc as ->. destruct fuel; cbn [count_links length]; rewrite Z.mul_0_r, Z.add_0_r; reflexivity.
  - apply chain_inv_cons in Hc as (-> & p & Hp & Hc). destruct fuel as [|fuel]; [inversion Hfu|]. cbn [length] in *. cbn [count_links].
    rewrite (bind_Ret _ _ _ _ _ (page_get_eq _ _ _ Hp)), (IH fuel _ _ ltac:(lia) Hc). f_equal. lia.
Qed.

Lemma distinct_run q0 q1 q2 s : q0 ≠ q1 → q0 ≠ q2 → q1 ≠ q2 → distinct_pages q0 q1 q2 s = Ret tt s.
Proof.
  intros H1 H2 H3. unfold distinct_pages. rewrite (proj2 (Z.eqb_neq q1 q0)), (proj2 (Z.eqb_neq q2 q1)), (proj2 (Z.eqb_neq q2 q0)) by congruence.
  reflexivity.
Qed.

(** A directory whose first two slots are empty, outside the free list. *)
Record empty_low (kp : Z) (s : pm) (l : list Z) : Prop := {
  el_inv : page_inv s l;
  el_kp : 0 ≤ kp < npages s;
  el_used : kp ∉ l;
  el_root : kern_pgdir s = kva_of kp;
  el_row : wd (phys s) kp 0 = 0 ∧ wd (phys s) kp 1 = 0
}.

(** What the first lines of the tests establish. *)
Record taken (kp : Z) (s : pm) (q0 q1 q2 : Z) (l : list Z) (s0 : pm) : Prop := {
  tk_inv : page_inv s0 l;
  tk_fields : same_fields s s0;
  tk_phys : phys s0 = phys s;
  tk_three : ∀ i, pages s0 !! three q0 q1 q2 i = Some (MkPageInfo None 0);
  tk_others : ∀ q, (∀ i, q ≠ three q0 q1 q2 i) → pages s0 !! q = pages s !! q;
  tk_bound : ∀ i, 0 ≤ three q0 q1 q2 i < npages s0;
  tk_inj : ∀ i j, three q0 q1 q2 i = three q0 q1 q2 j → i = j;
  tk_ne : ∀ i, three q0 q1 q2 i ≠ kp;
  tk_kp : npages s0 ≤ 65536 ∧ 0 ≤ kp < npages s0 ∧ kern_pgdir s0 = kva_of kp;
  tk_start : ∀ h, holds s0 kp (three q0 q1 q2) h all_out (with_free_list h s0)
}.

Lemma take_three_of kp s q0 q1 q2 l s0 : empty_low kp s (q0 :: q1 :: q2 :: l) →
  page_inv s0 l ∧ same_fields s s0 ∧ phys s0 = phys s ∧
  (∀ i, pages s0 !! three q0 q1 q2 i = Some (MkPageInfo None 0)) ∧
  (∀ q, (∀ i, q ≠ three q0 q1 q2 i) → pages s0 !! q = pages s !! q) → taken kp s q0 q1 q2 l s0.
Proof.
  intros [H Hkp Hkl Hroot Hrow] (H0 & Hf & Hm & Ht & Ho). split; try assumption.
  - intros i; apply (three_bound s s0 q0 q1 q2 l); assumption.
  - intros i j; apply (three_inj s q0 q1 q2 l); assumption.
  - intros i; apply (three_kp kp q0 q1 q2 l); assumption.
  - apply (three_kp0 s s0 kp l H0 Hf Hkp Hroot).
  - intros h. apply (three_start s s0 kp q0 q1 q2); assumption.
Qed.

Lemma take_three kp s q0 q1 q2 l : empty_low kp s (q0 :: q1 :: q2 :: l) → ∃ s0, taken kp s q0 q1 q2 l s0 ∧
  ∀ (K : Z → Z → Z → M pm unit) w0 w1 w2,
    (pp0 ← assert_alloc 0 w0; pp1 ← assert_alloc 0 w1; pp2 ← assert_alloc 0 w2; distinct_pages pp0 pp1 pp2 ;; K pp0 pp1 pp2) s = K q0 q1 q2 s0.
Proof.
  intros He. destruct (alloc3 s q0 q1 q2 l (el_inv _ _ _ He)) as (s0 & E & T). apply (take_three_of kp) in T; [|exact He].
  exists s0. split; [exact T|]. pose proof (tk_inj _ _ _ _ _ _ _ T) as Hinj.
  intros K w0 w1 w2. rewrite E. rewrite (bind_Ret _ _ s0 tt s0); [reflexivity|].
  apply distinct_run; intros F; [discriminate (Hinj P0 P1 F)|discriminate (Hinj P0 P2 F)|discriminate (Hinj P1 P2 F)].
Qed.

Lemma taken_end kp s q0 q1 q2 l s0 a i j k s' : empty_low kp s (q0 :: q1 :: q2 :: l) → taken kp s q0 q1 q2 l s0 →
  holds s0 kp (three q0 q1 q2) (page_free_list s0) a s' → tm_pt0 a = None → tm_pt1 a = None →
  bool_decide (NoDup [i; j; k]) = true → tm_ref a = Tri 0 0 0 →
  tm_free a = LPage i → tget (tm_link a) i = LPage j → tget (tm_link a) j = LPage k → tget (tm_link a) k = LRest →
  quiet s (q0 :: q1 :: q2 :: l) s' (three q0 q1 q2 i :: three q0 q1 q2 j :: three q0 q1 q2 k :: l).
Proof.
  intros [H Hkp Hkl Hroot Hrow] [H0 Hf Hm Ht Ho Hb Hinj Hne _ _] A T0 T1 Hnd. apply bool_decide_eq_true in Hnd.
  apply (three_end s s0 kp q0 q1 q2 l H H0 Hf Hm Ho Hrow a); assumption.
Qed.

Lemma check_page_alloc_passes kp s l : empty_low kp s l → (3 ≤ length l)%nat → pages_kva s ≠ 0 →
  ∃ s', check_page_alloc_pm s = Ret tt s' ∧ quiet s l s' l.
Proof.
  intros He Hlen Hpk. destruct l as [|q0 [|q1 [|q2 l]]]; try (cbn in Hlen; lia). destruct (take_three kp s q0 q1 q2 l He) as (s0 & T & E).
  destruct (tk_kp _ _ _ _ _ _ _ T) as (Hn & Hkp0 & Hroot0). pose proof (tk_inj _ _ _ _ _ _ _ T) as Hinj.
  pose proof (el_inv _ _ _ He) as H. pose proof (page_inv_length _ _ H) as Hll. pose proof (pi_npages _ _ H) as Hnp.
  set (pg := three q0 q1 q2) in *.
  unfold check_page_alloc_pm. rewrite !bind_gets. rewrite (proj2 (Z.eqb_neq _ _)) by exact Hpk. rewrite bind_gets.
  rewrite (bind_Ret _ _ _ _ _ (count_links_run _ _ _ _ _ _ Hll (pi_chain _ _ H))), E.
  assert (∀ i w, kassert (page2pa (pg i) <? w32 (npages s * PGSIZE)) w s0 = Ret tt s0) as Hk.
  { intros i w. apply kassert_true, Z.ltb_lt. pose proof (tk_bound _ _ _ _ _ _ _ T i) as Hi. fold pg in Hi.
    rewrite (proj1 (tk_fields _ _ _ _ _ _ _ T)) in Hi. rewrite page2pa_eq, w32_id by (unfold u32_range, PGSIZE; lia). unfold PGSIZE. lia. }
  rewrite (bind_Ret _ _ _ _ _ (Hk P0 _)), (bind_Ret _ _ _ _ _ (Hk P1 _)), (bind_Ret _ _ _ _ _ (Hk P2 _)), bind_gets, bind_modify.
  pose proof (alloc_again_ends s0 kp pg None Hn (tk_bound _ _ _ _ _ _ _ T) Hinj Hkp0 (tk_ne _ _ _ _ _ _ _ T) Hroot0
    (λ pp0 pp1 pp2, modify (with_free_list (page_free_list s0)) ;; page_free pp0 ;; page_free pp1 ;; page_free pp2 ;;
       h ← gets page_free_list; nfree ← count_links (Z.to_nat (npages s)) h (0 + 1 * Z.of_nat (length (q0 :: q1 :: q2 :: l))) (-1);
       kassert (nfree =? 0) "nfree == 0")
    (λ s', quiet s (q0 :: q1 :: q2 :: l) s' (q0 :: q1 :: q2 :: l)) eq_refl) as G.
  apply G; [|apply (tk_start _ _ _ _ _ _ _ T)]. clear G. intros s1 H1. rewrite bind_modify.
  pose proof (holds_tail _ _ _ (page_free_list s0) _ _ H1 eq_refl ltac:(intros []; reflexivity)) as H2.
  destruct (sim_free s0 kp pg (page_free_list s0) Hinj _ _ P2 _ H2 eq_refl) as (s3 & E3 & H3). rewrite (bind_Ret _ _ _ _ _ E3).
  destruct (sim_free s0 kp pg (page_free_list s0) Hinj _ _ P1 _ H3 eq_refl) as (s4 & E4 & H4). rewrite (bind_Ret _ _ _ _ _ E4).
  destruct (sim_free s0 kp pg (page_free_list s0) Hinj _ _ P0 _ H4 eq_refl) as (s5 & E5 & H5). rewrite (bind_Ret _ _ _ _ _ E5).
  pose proof (taken_end _ _ _ _ _ _ _ _ P0 P1 P2 s5 He T H5 eq_refl eq_refl eq_refl eq_refl eq_refl eq_refl eq_refl eq_refl) as Hq.
  exists s5. split; [|exact Hq]. rewrite bind_gets.
  erewrite bind_Ret by (apply count_links_run; [exact Hll|apply (pi_chain _ _ (qt_inv _ _ _ _ Hq))]).
  apply kassert_true, Z.eqb_eq. lia.
Qed.

(** * check_page *)

(** The part before the test of mmio_map_region. *)
Lemma check_page_passes kp s q0 q1 q2 l : empty_low kp s (q0 :: q1 :: q2 :: l) →
  ∃ s', check_page_pm s = check_page_mmio s' ∧ quiet s (q0 :: q1 :: q2 :: l) s' (q2 :: q1 :: q0 :: l).
Proof.
  intros He. destruct (take_three kp s q0 q1 q2 l He) as (s0 & T & E).
  destruct (tk_kp _ _ _ _ _ _ _ T) as (Hn & Hkp0 & Hroot0). pose proof (tk_inj _ _ _ _ _ _ _ T) as Hinj.
  pose proof (tk_bound _ _ _ _ _ _ _ T) as Hb. pose proof (tk_ne _ _ _ _ _ _ _ T) as Hne. set (pg := three q0 q1 q2) in *.
  unfold check_page_pm. rewrite E, bind_gets, bind_modify.
  destruct (check_page_insert_runs s0 kp pg None Hn Hb Hinj Hkp0 Hne Hroot0 eq_refl _ (tk_start _ _ _ _ _ _ _ T None)) as (s1 & E1 & H1).
  destruct (check_page_remove_runs s0 kp pg None Hn Hb Hinj Hkp0 Hne Hroot0 eq_refl _ H1) as (s2 & E2 & H2).
  destruct (check_page_walk_runs s0 kp pg None Hn Hb Hinj Hkp0 Hne Hroot0 eq_refl _ H2) as (s3 & E3 & H3).
  rewrite (bind_Ret _ _ _ _ _ E1), (bind_Ret _ _ _ _ _ E2), (bind_Ret _ _ _ _ _ E3), bind_modify.
  pose proof (holds_tail _ _ _ (page_free_list s0) _ _ H3 eq_refl ltac:(intros []; reflexivity)) as H3'.
  destruct (sim_free s0 kp pg (page_free_list s0) Hinj _ _ P0 _ H3' eq_refl) as (s4 & E4 & H4). rewrite (bind_Ret _ _ _ _ _ E4).
  destruct (sim_free s0 kp pg (page_free_list s0) Hinj _ _ P1 _ H4 eq_refl) as (s5 & E5 & H5). rewrite (bind_Ret _ _ _ _ _ E5).
  destruct (sim_free s0 kp pg (page_free_list s0) Hinj _ _ P2 _ H5 eq_refl) as (s6 & E6 & H6). rewrite (bind_Ret _ _ _ _ _ E6).
  exists s6. split; [reflexivity|].
  exact (taken_end _ _ _ _ _ _ _ _ P2 P1 P0 s6 He T H6 eq_refl eq_refl eq_refl eq_refl eq_refl eq_refl eq_refl eq_refl).
Qed.

(** * check_page_installed_pgdir *)

(** The same on the installed directory: what is stored through the virtual
    page is found in the physical one. *)
Lemma check_page_installed_passes kp s q0 q1 q2 l : empty_low kp s (q0 :: q1 :: q2 :: l) → cr3 s = kp * PGSIZE →
  ∃ s', check_page_installed_pgdir_pm s = Ret tt s' ∧ quiet s (q0 :: q1 :: q2 :: l) s' (q0 :: q2 :: q1 :: l).
Proof.
  intros He Hc. destruct (alloc3 s q0 q1 q2 l (el_inv _ _ _ He)) as (s0 & E & T'). pose proof (take_three_of kp s q0 q1 q2 l s0 He T') as T. clear T'.
  destruct (tk_kp _ _ _ _ _ _ _ T) as (Hn & Hkp0 & Hroot0). pose proof (tk_inj _ _ _ _ _ _ _ T) as Hinj.
  pose proof (tk_bound _ _ _ _ _ _ _ T) as Hb. pose proof (tk_ne _ _ _ _ _ _ _ T) as Hne.
  destruct (tk_fields _ _ _ _ _ _ _ T) as (_ & _ & _ & _ & _ & _ & _ & C & _).
  pose proof (tk_start _ _ _ _ _ _ _ T (page_free_list s0)) as A.
  assert (with_free_list (page_free_list s0) s0 = s0) as Es by (destruct s0; reflexivity). rewrite Es in A.
  set (pg := three q0 q1 q2) in *. unfold check_page_installed_pgdir_pm. rewrite E.
  destruct (installed_runs s0 kp pg (page_free_list s0) Hn Hb Hinj Hkp0 Hne Hroot0 (eq_trans C Hc) s0 A) as (s1 & E1 & A1).
  exists s1. split; [exact E1|].
  exact (taken_end _ _ _ _ _ _ _ _ P0 P2 P1 s1 He T A1 eq_refl eq_refl eq_refl eq_refl eq_refl eq_refl eq_refl eq_refl).
Qed.

(** * The test of mmio_map_region *)

Lemma with_mmio_twice b c s : with_mmio_base b (with_mmio_base c s) = with_mmio_base b s.
Proof. reflexivity. Qed.
Lemma with_mmio_id s : with_mmio_base (mmio_base s) s = s.
Proof. destruct s; reflexivity. Qed.

Lemma kdir_mmio b s l kp : kdir s l kp → kdir (with_mmio_base b s) l kp.
Proof. intros [Hp Hk Ht Hi]. split; [eapply page_inv_ext; [exact Hp|reflexivity..]|exact Hk|exact Ht|exact Hi]. Qed.

Lemma kmapped_mmio b s l kp s' l' : kmapped s l kp s' l' → kmapped (with_mmio_base b s) l kp (with_mmio_base b s') l'.
Proof.
  intros [Hd Hs Hf Hp Ht Hse Hw Hm]. split; try assumption; [apply kdir_mmio, Hd|]. unfold with_mmio_base. psimpl. intuition.
Qed.

(** A walk in the kernel's directory to a page that is mapped. *)
Lemma kwalk s l kp u e : kdir s l kp → kvpn u → pte_of (phys s) kp u = Some e →
  ∃ t, pt_of (phys s) kp (u / 1024) = Some t ∧ wd (phys s) t (u mod 1024) = e ∧
    pgdir_walk (kva_of kp) (u * PGSIZE) false s = Ret (Some (kva_of t + 4 * (u mod 1024))) s.
Proof.
  intros H Hu E. destruct (kvpn_idx u Hu) as (HI & HJ & EI & EJ). destruct Hu as [_ Hu]. unfold pte_of in E.
  destruct (pt_of (phys s) kp (u / 1024)) as [t|] eqn:Et; [|discriminate]. cbv zeta in E. exists t. split; [reflexivity|].
  split; [destruct (is_present _); congruence|]. destruct (kd_pt _ _ _ H _ _ HI Hu Et) as (Hb & _).
  rewrite <- EJ. apply walk_found; [rewrite EI; exact Et|apply (pi_npages _ _ (kd_pages _ _ _ H))|exact Hb].
Qed.

Lemma walk_pte_run s l kp u e va : kdir s l kp → kern_pgdir s = kva_of kp → kvpn u → va = u * PGSIZE →
  pte_of (phys s) kp u = Some e → walk_pte va s = Ret e s.
Proof.
  intros H Hr Hu -> E. destruct (kwalk s l kp u e H Hu E) as (t & _ & Ew & Et). unfold walk_pte. rewrite bind_gets, Hr, (bind_Ret _ _ _ _ _ Et).
  rewrite kld32_wd, Ew. reflexivity.
Qed.

Lemma set_walk_pte_run s l kp u e va : kdir s l kp → kern_pgdir s = kva_of kp → kvpn u → va = u * PGSIZE →
  pte_of (phys s) kp u = Some e → ∃ s', set_walk_pte va 0 s = Ret tt s' ∧ kmapped s l kp s' l ∧
    (∀ i, 0 ≤ i < 1024 → wd (phys s') kp i = wd (phys s) kp i) ∧
    ∀ w, kvpn w → pte_of (phys s') kp w = if decide (w = u) then None else pte_of (phys s) kp w.
Proof.
  intros H Hr Hu -> E. destruct (kwalk s l kp u e H Hu E) as (t & Ht & Ew & Et). unfold set_walk_pte. rewrite bind_gets, Hr, (bind_Ret _ _ _ _ _ Et).
  rewrite kst32_wd. eexists. split; [reflexivity|].
  apply (store_any s l kp H u 0 Hu ltac:(split; reflexivity || discriminate) t Ht).
Qed.

Lemma assert_va2pa_run s l kp u va pa : kdir s l kp → kern_pgdir s = kva_of kp → kvpn u → va = u * PGSIZE →
  pa = match pte_of (phys s) kp u with Some e => PTE_ADDR e | None => w32 (-1) end → assert_va2pa va pa s = Ret tt s.
Proof.
  intros H Hr Hu -> ->. unfold assert_va2pa. rewrite bind_gets, Hr, (bind_Ret _ _ _ _ _ (check_va2pa_pte s l kp u H Hu)). apply kassert_true, Z.eqb_refl.
Qed.

Definition V0 : Z := MMIOBASE / PGSIZE.

Lemma V0_kvpn k : 0 ≤ k < 4 → kvpn (V0 + k) ∧ (V0 + k) / 1024 = PDX MMIOBASE.
Proof.
  change V0 with 980992. change (PDX MMIOBASE) with 958. intros Hk. unfold kvpn. change (PDX UVPT) with 957.
  Z.div_mod_to_equations. lia.
Qed.

(** Three mappings from MMIOBASE on: the device's page 0, its page 1, and its
    page 0 again. *)
Record mmio_three (s : pm) (l : list Z) (kp : Z) (s' : pm) (l' : list Z) : Prop := {
  mt_mapped : kmapped s l kp (with_mmio_base (mmio_base s) s') l';
  mt_length : Z.of_nat (length l) = Z.of_nat (length l') + 1;
  mt_slots : ∀ i, 0 ≤ i < 1024 → i ≠ PDX MMIOBASE → wd (phys s') kp i = wd (phys s) kp i;
  mt_pte : ∀ u, kvpn u → pte_of (phys s') kp u =
    if decide (V0 ≤ u < V0 + 3) then Some (entry (if decide (u = V0 + 1) then 1 else 0) mmio_perm) else pte_of (phys s) kp u
}.

(** Taking the three away again. *)
Lemma clear_three s l kp (a b c va vb vc : Z) : kdir s l kp → kern_pgdir s = kva_of kp → NoDup [a; b; c] →
  (∀ u, u ∈ [a; b; c] → kvpn u ∧ pte_of (phys s) kp u ≠ None) → va = a * PGSIZE → vb = b * PGSIZE → vc = c * PGSIZE →
  ∃ s', (set_walk_pte va 0 ;; set_walk_pte vb 0 ;; set_walk_pte vc 0) s = Ret tt s' ∧ kmapped s l kp s' l ∧
    (∀ i, 0 ≤ i < 1024 → wd (phys s') kp i = wd (phys s) kp i) ∧
    ∀ w, kvpn w → pte_of (phys s') kp w = if decide (w ∈ [a; b; c]) then None else pte_of (phys s) kp w.
Proof.
  intros H Hr Hnd Hin Ea Eb Ec. rewrite !NoDup_cons, !not_elem_of_cons in Hnd. destruct Hnd as ((Hab & Hac & _) & (Hbc & _) & _).
  destruct (Hin a ltac:(set_solver)) as [Va Pa], (Hin b ltac:(set_solver)) as [Vb Pb], (Hin c ltac:(set_solver)) as [Vc Pc].
  apply not_eq_None_Some in Pa as [ea Pa], Pb as [eb Pb], Pc as [ec Pc].
  destruct (set_walk_pte_run s l kp a ea va H Hr Va Ea Pa) as (s1 & E1 & K1 & W1 & T1). destruct (km_same _ _ _ _ _ K1) as (_ & R1 & _).
  destruct (set_walk_pte_run s1 l kp b eb vb (km_dir _ _ _ _ _ K1) (eq_trans R1 Hr) Vb Eb) as (s2 & E2 & K2 & W2 & T2).
  { rewrite T1, decide_False by congruence. exact Pb. }
  destruct (km_same _ _ _ _ _ K2) as (_ & R2 & _).
  destruct (set_walk_pte_run s2 l kp c ec vc (km_dir _ _ _ _ _ K2) (eq_trans R2 (eq_trans R1 Hr)) Vc Ec) as (s3 & E3 & K3 & W3 & T3).
  { rewrite T2, decide_False, T1, decide_False by congruence. exact Pc. }
  exists s3. rewrite (bind_Ret _ _ _ _ _ E1), (bind_Ret _ _ _ _ _ E2), E3. split; [reflexivity|].
  split; [exact (kmapped_trans _ _ _ _ _ _ _ K1 (kmapped_trans _ _ _ _ _ _ _ K2 K3))|].
  split; [intros i Hi; rewrite W3, W2, W1 by exact Hi; reflexivity|].
  intros w Hw. rewrite T3, T2, T1 by exact Hw. repeat case_decide; set_solver.
Qed.

Section mmio_test.
Variables (s : pm) (l : list Z) (kp : Z).
Hypothesis (H : kdir s l kp) (Hr : kern_pgdir s = kva_of kp) (Hb : mmio_base s = MMIOBASE)
  (Hnone : pt_of (phys s) kp (PDX MMIOBASE) = None) (Hl : l ≠ []).

Lemma mmio_test_maps : ∃ s2 l2, mmio_three s l kp s2 l2 ∧ ∀ B (K : Z → Z → M pm B),
  (mm1 ← mmio_map_region 0 4097; mm2 ← mmio_map_region 0 4096; K mm1 mm2) s =
    K (V0 * PGSIZE) ((V0 + 2) * PGSIZE) (with_mmio_base ((V0 + 3) * PGSIZE) s2).
Proof using H Hr Hb Hnone Hl.
  assert (mmio_vpn V0 2 ∧ mmio_vpn (V0 + 2) 1) as [V1 V2] by (repeat split; vm_compute; congruence).
  destruct (mmio_run s l kp V0 2 0 4097 H Hr Hb V1 eq_refl ltac:(unfold PGSIZE; lia) ltac:(lia) ltac:(lia)) as (s1 & l1 & E1 & M1).
  { etransitivity; [apply missing_bound; vm_compute; congruence|]. destruct l; [congruence|]. cbn [length].
    change ((V0 + 2 - 1) / 1024 - V0 / 1024 + 1) with 1. lia. }
  pose proof (mp_kmapped _ _ _ _ _ _ _ _ _ M1) as K1. destruct (km_same _ _ _ _ _ K1) as (_ & R1 & _ & B1 & _).
  assert (missing (phys s1) kp (V0 + 2) 1 = 0) as Hm2.
  { apply (slot_present (phys s1) kp (pte_of (phys s1) kp) _ _ V0); [reflexivity|rewrite <- (Z.add_0_r V0); apply V0_kvpn; lia| |reflexivity..].
    rewrite (mp_pte _ _ _ _ _ _ _ _ _ M1) by (rewrite <- (Z.add_0_r V0); apply V0_kvpn; lia). rewrite decide_True by lia. eauto. }
  destruct (mmio_run (with_mmio_base ((V0 + 2) * PGSIZE) s1) l1 kp (V0 + 2) 1 0 4096 (kdir_mmio _ _ _ _ (km_dir _ _ _ _ _ K1))
    (eq_trans R1 Hr) eq_refl V2 eq_refl ltac:(unfold PGSIZE; lia) ltac:(lia) ltac:(lia)) as (s2 & l2 & E2 & M2).
  { psimpl. rewrite Hm2. lia. }
  pose proof (mp_kmapped _ _ _ _ _ _ _ _ _ M2) as K2.
  exists s2, l2. split; [|intros B K; change (0 * PGSIZE) with 0 in E1, E2; rewrite (bind_Ret _ _ _ _ _ E1), (bind_Ret _ _ _ _ _ E2); reflexivity].
  split.
  - eapply kmapped_trans; [exact K1|]. pose proof (kmapped_mmio (mmio_base s) _ _ _ _ _ K2) as K2'.
    rewrite with_mmio_twice, <- B1, with_mmio_id, B1 in K2'. exact K2'.
  - pose proof (mp_length _ _ _ _ _ _ _ _ _ M1) as L1. pose proof (mp_length _ _ _ _ _ _ _ _ _ M2) as L2. psimpl. rewrite Hm2 in L2.
    change (missing (phys s) kp V0 2) with (Z.b2z (bool_decide (pt_of (phys s) kp (PDX MMIOBASE) = None)) + 0) in L1.
    rewrite Hnone, bool_decide_eq_true_2 in L1 by reflexivity. cbn [Z.b2z] in L1. lia.
  - change (PDX MMIOBASE) with 958. intros i Hi Hne.
    rewrite (mp_slots _ _ _ _ _ _ _ _ _ M2) by (try exact Hi; change ((V0 + 2) / 1024) with 958; change ((V0 + 2 + 1 - 1) / 1024) with 958; lia).
    apply (mp_slots _ _ _ _ _ _ _ _ _ M1 i Hi). change (V0 / 1024) with 958. change ((V0 + 2 - 1) / 1024) with 958. lia.
  - intros u Hu. rewrite (mp_pte _ _ _ _ _ _ _ _ _ M2) by exact Hu. psimpl.
    rewrite (mp_pte _ _ _ _ _ _ _ _ _ M1) by exact Hu. repeat case_decide; try lia; do 2 f_equal; lia.
Qed.

(** It passes, and leaves nothing but a page table and a higher [mmio_base]. *)
Lemma check_page_mmio_passes :
  ∃ s' l', check_page_mmio s = Ret tt (with_mmio_base (MMIOBASE + 3 * PGSIZE) s') ∧ kmapped s l kp s' l' ∧
    Z.of_nat (length l) = Z.of_nat (length l') + 1 ∧
    is_present (wd (phys s') kp (PDX MMIOBASE)) = true ∧
    (∀ i, 0 ≤ i < 1024 → i ≠ PDX MMIOBASE → wd (phys s') kp i = wd (phys s) kp i) ∧
    ∀ u, kvpn u → pte_of (phys s') kp u = pte_of (phys s) kp u.
Proof using H Hr Hb Hnone Hl.
  destruct mmio_test_maps as (s2 & l2 & [K L W T] & E). unfold check_page_mmio. rewrite E. clear E.
  set (t := with_mmio_base ((V0 + 3) * PGSIZE) s2).
  assert (kdir t l2 kp) as D by (pose proof (kdir_mmio ((V0 + 3) * PGSIZE) _ _ _ (km_dir _ _ _ _ _ K)) as G; rewrite with_mmio_twice in G; exact G).
  assert (kern_pgdir t = kva_of kp) as Q by (destruct (km_same _ _ _ _ _ K) as (_ & R & _); exact (eq_trans R Hr)).
  assert (∀ k, 0 ≤ k < 3 → pte_of (phys t) kp (V0 + k) = Some (entry (if decide (k = 1) then 1 else 0) mmio_perm)) as He.
  { intros k Hk. unfold t. psimpl. rewrite T by (apply V0_kvpn; lia). rewrite decide_True by lia. repeat case_decide; try lia; reflexivity. }
  assert (∀ k, 0 ≤ k < 4 → pte_of (phys s) kp (V0 + k) = None) as Hold.
  { intros k Hk. unfold pte_of. rewrite (proj2 (V0_kvpn k Hk)), Hnone. reflexivity. }
  assert (∀ k va pa, 0 ≤ k < 4 → va = (V0 + k) * PGSIZE → pa = (if decide (k = 3) then w32 (-1) else if decide (k = 1) then PGSIZE else 0) →
    assert_va2pa va pa t = Ret tt t) as Ha.
  { intros k va pa Hk Hva ->. apply (assert_va2pa_run t l2 kp (V0 + k)); [exact D|exact Q|apply V0_kvpn, Hk|exact Hva|].
    destruct (decide (k = 3)) as [->|]; [|rewrite He by lia; case_decide; reflexivity].
    unfold t. psimpl. rewrite T, decide_False, Hold by (apply V0_kvpn || lia; lia). reflexivity. }
  rewrite !(bind_Ret _ _ t tt t) by (apply kassert_true; vm_compute; reflexivity).
  rewrite (bind_Ret _ _ _ _ _ (Ha 0 _ _ ltac:(lia) eq_refl eq_refl)), (bind_Ret _ _ _ _ _ (Ha 1 _ _ ltac:(lia) eq_refl eq_refl)),
    (bind_Ret _ _ _ _ _ (Ha 2 _ _ ltac:(lia) eq_refl eq_refl)), (bind_Ret _ _ _ _ _ (Ha 3 _ _ ltac:(lia) eq_refl eq_refl)).
  rewrite (bind_Ret _ _ t (entry 0 mmio_perm) t)
    by (apply (walk_pte_run t l2 kp (V0 + 0)); [exact D|exact Q|apply V0_kvpn; lia|reflexivity|apply (He 0); lia]).
  rewrite !(bind_Ret _ _ t tt t) by (apply kassert_true; vm_compute; reflexivity).
  destruct (clear_three t l2 kp (V0 + 0) (V0 + 1) (V0 + 2) (V0 * PGSIZE) (w32 (V0 * PGSIZE + PGSIZE)) ((V0 + 2) * PGSIZE) D Q)
    as (s' & E & K' & W' & T'); [apply (bool_decide_unpack _); vm_compute; reflexivity| |reflexivity..|].
  { intros u Hu. rewrite !elem_of_cons, elem_of_nil in Hu.
    destruct Hu as [->|[->|[->|[]]]]; (split; [apply V0_kvpn; lia|rewrite He by lia; discriminate]). }
  destruct (km_same _ _ _ _ _ K') as (_ & _ & _ & B & _).
  exists (with_mmio_base (mmio_base s) s'), l2.
  split; [rewrite E, with_mmio_twice, <- (with_mmio_id s') at 1; rewrite B; reflexivity|].
  split; [|split; [exact L|split; [|split]]].
  - eapply kmapped_trans; [exact K|]. pose proof (kmapped_mmio (mmio_base s) _ _ _ _ _ K') as G.
    unfold t in G. rewrite with_mmio_twice in G. exact G.
  - psimpl. rewrite W' by (vm_compute; split; congruence).
    destruct (kwalk t l2 kp (V0 + 0) _ D (proj1 (V0_kvpn 0 ltac:(lia))) (He 0 ltac:(lia))) as (pt & Et & _).
    rewrite (proj2 (V0_kvpn 0 ltac:(lia))) in Et. unfold pt_of in Et. destruct (is_present _); [reflexivity|discriminate].
  - intros i Hi Hne. psimpl. rewrite W' by exact Hi. exact (W i Hi Hne).
  - intros u Hu. psimpl. rewrite T' by exact Hu. unfold t. psimpl. rewrite T by exact Hu.
    destruct (decide (u ∈ _)) as [Hin|Hout]; [|rewrite decide_False; [reflexivity|]].
    + rewrite !elem_of_cons, elem_of_nil in Hin. destruct Hin as [->|[->|[->|[]]]]; symmetry; apply Hold; lia.
    + rewrite !elem_of_cons, elem_of_nil in Hout. lia.
Qed.
End mmio_test.
