(* ===== verification/MemInit.v ===== *)
(** mem_init as a whole: its self tests pass, what it builds is found in place
    after each of them, and with env_init it establishes the kernel's
    invariant. *)
From S2P Require Import Prelude Mmu Mem Pages PageTable AddrSpace UserMem Console KState Env EnvVm EnvSpec Syscall SyscallSpec KSpace Boot BootCheck BootSpec BootInv SelfTest.

(** * Between the steps of mem_init *)

(** [kboot kp m0 n g s l]: the kernel's directory is page [kp] and maps [g],
    [n] pages at most have been taken from those page_init found free, and no
    other memory of [m0] has been written. *)
Record kboot (kp : Z) (m0 : mem) (n : nat) (g : Z → option Z) (s : pm) (l : list Z) : Prop := {
  kb_dir : kdir s l kp;
  kb_roots : kern_pgdir s = kva_of kp ∧ pages_kva s = kva_of (kp + 1) ∧ envs_kva s = kva_of (kp + 1 + upages_len (npages s));
  kb_next : nextfree s = kva_of (boot_ff kp (npages s));
  kb_size : 256 ≤ kp ∧ boot_ff kp (npages s) < npages s ≤ 16639;
  kb_low : ∀ i, 0 ≤ i < UPDX → wd (phys s) kp i = 0;
  kb_uvpt : wd (phys s) kp (PDX UVPT) = uvpt_entry kp;
  kb_used : ∀ q p, q ∉ l → pages s !! q = Some p → 1 ≤ pp_ref p;
  kb_free : ∀ i, i ∈ l → free_at_boot kp (npages s) i;
  kb_taken : ∃ l0, (length l0 ≤ n)%nat ∧ ∀ i, free_at_boot kp (npages s) i → i ∈ l ∨ i ∈ l0;
  kb_map : ∀ u, kvpn u → pte_of (phys s) kp u = g u;
  kb_pde : ∀ i, 0 ≤ i < 1024 → i ≠ PDX UVPT → wd (phys s) kp i = 0 ∨
    ∃ t, free_at_boot kp (npages s) t ∧ 0 ≤ t < 65536 ∧ wd (phys s) kp i = pde_for t;
  kb_mem : ∀ b, b / PGSIZE ≠ kp → ¬ free_at_boot kp (npages s) (b / PGSIZE) → ld8 (phys s) b = ld8 m0 b
}.

Lemma kb_tables kp m0 n g s l i t : kboot kp m0 n g s l → 0 ≤ i < 1024 → i ≠ PDX UVPT → pt_of (phys s) kp i = Some t →
  free_at_boot kp (npages s) t ∧ 0 ≤ t < 65536 ∧ wd (phys s) kp i = pde_for t.
Proof.
  intros B Hi Hu Et. unfold pt_of in Et. destruct (kb_pde _ _ _ _ _ _ B i Hi Hu) as [E|(t' & Hf & Hb & E)]; rewrite E in Et; [discriminate|].
  destruct (pde_for_ok t' Hb) as (_ & Ep & Ef). rewrite Ep, Ef in Et. injection Et as <-. auto.
Qed.

(** A step that leaves the used pages alone. *)
Lemma quiet_wd s l s' l' q j : quiet s l s' l' → q ∉ l → 0 ≤ j < 1024 → wd (phys s') q j = wd (phys s) q j.
Proof.
  intros H Hq Hj. apply ld32_ext. intros i Hi. apply (qt_mem _ _ _ _ H).
  replace (q * PGSIZE + 4 * j + i) with (q * PGSIZE + (4 * j + i)) by lia.
  rewrite Z.div_add_l, Z.div_small, Z.add_0_r by (unfold PGSIZE; lia). exact Hq.
Qed.

Section quiet.
Context (kp : Z) (m0 : mem) (n : nat) (g : Z → option Z) (s : pm) (l : list Z) (s' : pm) (l' : list Z)
  (B : kboot kp m0 n g s l) (Q : quiet s l s' l').

Lemma quiet_pt i : 0 ≤ i < 1024 → pt_of (phys s') kp i = pt_of (phys s) kp i.
Proof using B Q.
  intros Hi. unfold pt_of. rewrite (quiet_wd s l s' l' kp i Q); [reflexivity|apply (kd_kp _ _ _ (kb_dir _ _ _ _ _ _ B))|exact Hi].
Qed.

Lemma quiet_kdir : kdir s' l' kp.
Proof using B Q.
  destruct B as [Hd _ _ _ _ _ _ _ _ _ _ _]. pose proof (qt_fields _ _ _ _ Q) as (N & _).
  assert (∀ q, q ∈ l' ↔ q ∈ l) as El by (intros q; rewrite (qt_perm _ _ _ _ Q); reflexivity).
  split.
  - apply Q.
  - rewrite N, El. apply Hd.
  - intros i t Hi Hu. rewrite quiet_pt by exact Hi. intros Et. destruct (kd_pt _ _ _ Hd i t Hi Hu Et) as (Hb & Ht & Hne & p & Hp & Hr).
    rewrite N, El, (qt_used _ _ _ _ Q) by exact Ht. eauto 8.
  - intros i j t Hi Hj Hui Huj. rewrite !quiet_pt by assumption. apply (kd_inj _ _ _ Hd); assumption.
Qed.

Lemma kboot_quiet : kboot kp m0 n g s' l'.
Proof using B Q.
  pose proof quiet_kdir as Hd'. destruct B as [Hd HR HN HS HL HU Hus Hfr Hta Hma Htb Hme].
  destruct (qt_fields _ _ _ _ Q) as (N & _ & NF & R1 & R2 & R3 & _). destruct (kd_kp _ _ _ Hd) as [_ Hkl].
  assert (∀ q, q ∈ l' ↔ q ∈ l) as El by (intros q; rewrite (qt_perm _ _ _ _ Q); reflexivity).
  split; rewrite ?N, ?NF, ?R1, ?R2, ?R3; try assumption.
  - intros i Hi. rewrite (quiet_wd s l s' l' kp i Q Hkl) by (unfold UPDX in Hi; lia). apply HL, Hi.
  - rewrite (quiet_wd s l s' l' kp _ Q Hkl) by (split; reflexivity || discriminate). exact HU.
  - intros q p. rewrite El. intros Hq. rewrite (qt_used _ _ _ _ Q) by exact Hq. apply Hus, Hq.
  - intros i. rewrite El. apply Hfr.
  - destruct Hta as (l0 & Hl & H0). exists l0. split; [exact Hl|]. intros i. rewrite El. apply H0.
  - intros u Hu. rewrite <- Hma by exact Hu. destruct (kvpn_idx u Hu) as (HI & HJ & _). destruct Hu as [_ Hu]. unfold pte_of.
    rewrite quiet_pt by exact HI. destruct (pt_of (phys s) kp (u / 1024)) as [t|] eqn:Et; [|reflexivity]. cbv zeta.
    destruct (kd_pt _ _ _ Hd _ _ HI Hu Et) as (_ & Ht & _). rewrite (quiet_wd s l s' l' t _ Q Ht HJ). reflexivity.
  - intros i Hi. rewrite (quiet_wd s l s' l' kp i Q Hkl Hi). apply Htb, Hi.
  - intros b Hb Hf. rewrite (qt_mem _ _ _ _ Q); [apply Hme; assumption|]. intros F. apply Hf, Hfr, F.
Qed.
End quiet.

(** A step that maps pages with [c] new page tables. *)
Lemma kboot_kmapped kp m0 n c g g' s l s' l' : kboot kp m0 n g s l → kmapped s l kp s' l' →
  Z.of_nat (length l) ≤ Z.of_nat (length l') + Z.of_nat c →
  (∀ i, 0 ≤ i < UPDX → wd (phys s') kp i = wd (phys s) kp i) → (∀ u, kvpn u → pte_of (phys s') kp u = g' u) →
  kboot kp m0 (n + c) g' s' l'.
Proof.
  intros B K Hc Hlow Hg. pose proof (kb_tables kp m0 n g s l) as Hpt.
  pose proof B as [Hd HR HN HS HL HU Hus Hfr Hta Hma Htb Hme].
  destruct K as [Hd' (N & R1 & _ & _ & R2 & R3 & NF) [l0 El] Hp Htk Hse Hw Hm].
  split; rewrite ?N, ?NF, ?R1, ?R2, ?R3; try assumption.
  - intros i Hi. rewrite Hlow by exact Hi. apply HL, Hi.
  - rewrite Hse. exact HU.
  - intros q p Hq Hqp. destruct (decide (q ∈ l)) as [Hql|Hql].
    + destruct (Htk q Hql Hq) as (p' & Hp' & Hr). congruence.
    + rewrite Hp in Hqp by exact Hql. exact (Hus q p Hql Hqp).
  - intros i Hi. apply Hfr. rewrite El. apply elem_of_app. auto.
  - destruct Hta as (lt & Hlt & H0). exists (l0 ++ lt). split.
    + rewrite El, length_app in Hc. rewrite length_app. lia.
    + intros i Hi. rewrite elem_of_app. destruct (H0 i Hi) as [Hil|]; [|auto]. rewrite El, elem_of_app in Hil. tauto.
  - intros i Hi Hu. destruct (Hw i Hi) as [->|(_ & t & Ht & Hb & ->)]; [apply Htb; assumption|]. right. exists t. auto.
  - intros b Hb Hf. rewrite Hm; [apply Hme; assumption|exact Hb| |].
    + intros F. apply Hf, Hfr, F.
    + intros i Hi Hu F. apply Hf. apply (Hpt i _ B Hi Hu F).
Qed.

Lemma kboot_empty kp m0 n g s l : kboot kp m0 n g s l → empty_low kp s l.
Proof.
  intros B. destruct (kb_dir _ _ _ _ _ _ B) as [Hp [Hk Hl] _ _]. split; [exact Hp|exact Hk|exact Hl|apply (kb_roots _ _ _ _ _ _ B)|].
  split; apply (kb_low _ _ _ _ _ _ B); split; reflexivity || discriminate.
Qed.

(** Of more pages than have been taken, one is still free. *)
Lemma kboot_some kp m0 n g s l k : kboot kp m0 n g s l → NoDup k → (n < length k)%nat →
  (∀ i, i ∈ k → free_at_boot kp (npages s) i) → ∃ i, i ∈ k ∧ i ∈ l.
Proof.
  intros B Hk Hn Hf. destruct (kb_taken _ _ _ _ _ _ B) as (l0 & Hl0 & H0).
  destruct (filter (λ i : Z, i ∈ l) k) as [|i k'] eqn:E.
  - assert (length k ≤ length l0)%nat; [|lia]. apply submseteq_length, NoDup_submseteq; [exact Hk|].
    intros i Hi. destruct (H0 i (Hf i Hi)) as [F|F]; [|exact F]. exfalso. eapply (filter_nil_not_elem_of _ _ _ E F), Hi.
  - assert (i ∈ filter (λ i : Z, i ∈ l) k) as Hi by (rewrite E; left). apply list_elem_of_filter in Hi as [H1 H2]. eauto.
Qed.

(** check_page_free_list. *)
Lemma free_list_quiet kend (low : bool) kp m0 n g s l : kboot kp m0 n g s l → (n < 70)%nat → boot_ff kp (npages s) + 70 ≤ npages s →
  let l' := if low then filter (λ i, i < 1024) l ++ filter (λ i, 1024 ≤ i) l else l in
  ∃ s', check_page_free_list kend low s = Ret tt s' ∧ quiet s l s' l'.
Proof.
  intros B Hn Hsz l'. pose proof (kb_size _ _ _ _ _ _ B) as [Hkp Hb].
  assert (256 < boot_ff kp (npages s) < 65536) as Hff.
  { destruct (ROUNDUP_pages _ (pi_npages _ _ (kd_pages _ _ _ (kb_dir _ _ _ _ _ _ B)))) as [_ Hu]. unfold boot_ff in *. lia. }
  destruct (kboot_some _ _ _ _ _ _ (seqZ 8 70) B (NoDup_seqZ _ _)) as (i1 & H1 & L1);
    [rewrite length_seqZ; lia|intros i Hi%elem_of_seqZ; unfold free_at_boot; lia|].
  destruct (kboot_some _ _ _ _ _ _ (seqZ (boot_ff kp (npages s)) 70) B (NoDup_seqZ _ _)) as (i2 & H2 & L2);
    [rewrite length_seqZ; lia|intros i Hi%elem_of_seqZ; unfold free_at_boot; lia|].
  apply elem_of_seqZ in H1, H2.
  destruct (check_page_free_list_run kend low s l _ (kd_pages _ _ _ (kb_dir _ _ _ _ _ _ B)) Hff (kb_next _ _ _ _ _ _ B)) as (h & P & m & E & Hi & R & Hp & Hm).
  - intros i Hi. pose proof (kb_free _ _ _ _ _ _ B i Hi) as Hf. unfold free_at_boot, may_be_free in *. lia.
  - exists i1. split; [exact L1|lia].
  - exists i2. split; [exact L2|lia].
  - eexists. split; [exact E|]. split; try assumption.
    + repeat split.
    + intros q Hq. apply R, Hq.
    + intros b Hb'. psimpl. apply Hm. intros i Hil F. apply Hb'. assert (b / PGSIZE = i) as -> by (symmetry; apply Z.div_unique with (b - i * PGSIZE); unfold PGSIZE in *; lia).
      exact Hil.
Qed.

(** ** The order of the free list

    Until kern_pgdir is installed the kernel runs on entry_pgdir, which maps
    the first 4MB only: the page tables must come from there. *)
Record boot_low (kp : Z) (n : nat) (s : pm) (l : list Z) : Prop := {
  bl_first : ∃ lo hi, l = lo ++ hi ∧ (∀ i, i ∈ lo → i < 1024) ∧ (158 ≤ length lo + n)%nat;
  bl_tables : ∀ i t, 0 ≤ i < 1024 → i ≠ PDX UVPT → pt_of (phys s) kp i = Some t → t < 1024
}.

Lemma low_perm a a' r lo hi n : a ≡ₚ a' → a ++ r = lo ++ hi → (∀ i : Z, i ∈ lo → i < 1024) →
  (158 ≤ length lo + n)%nat → (length a + n ≤ 158)%nat →
  ∃ lo' hi', a' ++ r = lo' ++ hi' ∧ (∀ i, i ∈ lo' → i < 1024) ∧ (158 ≤ length lo' + n)%nat.
Proof.
  intros Hp E Hlo Hn Ha. assert (∃ b, lo = a ++ b ∧ r = b ++ hi) as (b & -> & ->).
  { apply app_eq_inv in E as [(k & -> & ->)|(k & -> & ->)]; [|eauto]. assert (k = []) as ->; [|exists []; rewrite !app_nil_r; auto].
    apply nil_length_inv. rewrite length_app in Ha. lia. }
  exists (a' ++ b), hi. split; [apply app_assoc|]. split.
  - intros i. rewrite elem_of_app, <- Hp, <- elem_of_app. apply Hlo.
  - rewrite length_app in *. rewrite <- Hp. exact Hn.
Qed.

Lemma boot_low_quiet kp m0 n g s a r s' a' : kboot kp m0 n g s (a ++ r) → boot_low kp n s (a ++ r) →
  quiet s (a ++ r) s' (a' ++ r) → a ≡ₚ a' → (length a + n ≤ 158)%nat → boot_low kp n s' (a' ++ r).
Proof.
  intros B [(lo & hi & E & Hlo & Hn) Ht] Q Hp Ha. split.
  - eapply low_perm; eassumption.
  - intros i t Hi Hu. rewrite (quiet_pt kp m0 n g s (a ++ r) s' (a' ++ r) B Q) by exact Hi. apply Ht; assumption.
Qed.

Lemma boot_low_kmapped kp n c s l s' l' : boot_low kp n s l → kmapped s l kp s' l' →
  (length l ≤ length l' + c)%nat → (n + c ≤ 158)%nat → boot_low kp (n + c) s' l'.
Proof.
  intros [(lo & hi & E & Hlo & Hn) Ht] K Hc Hnc. destruct (km_free _ _ _ _ _ K) as [l0 El].
  assert (∃ b, lo = l0 ++ b ∧ l' = b ++ hi) as (b & -> & E').
  { rewrite El, length_app in Hc. rewrite El in E. apply app_eq_inv in E as [(k & Ek & E')|(k & Ek & E')]; [|eauto].
    assert (k = []) as ->; [|exists []; rewrite app_nil_r in *; auto]. apply nil_length_inv. rewrite Ek, length_app in Hc. lia. }
  split.
  - exists b, hi. split; [exact E'|]. split; [intros i Hi; apply Hlo, elem_of_app; auto|]. rewrite El, E', !length_app in Hc.
    rewrite length_app in Hn. lia.
  - intros i t Hi Hu Et. destruct (km_wd _ _ _ _ _ K i Hi) as [Ew|(_ & t' & Ht' & Hb & Ew)].
    + unfold pt_of in Et. rewrite Ew in Et. exact (Ht i t Hi Hu Et).
    + destruct (kd_pt _ _ _ (km_dir _ _ _ _ _ K) i t Hi Hu Et) as (_ & Hl' & _).
      unfold pt_of in Et. rewrite Ew in Et. destruct (pde_for_ok t' Hb) as (_ & Ep & Ef). rewrite Ep, Ef in Et. injection Et as <-.
      apply Hlo. rewrite El, elem_of_app in Ht'. rewrite elem_of_app. tauto.
Qed.

(** The fields mmio_base and cr3 are no part of it. *)
Lemma kboot_ext kp m0 n g s l s' : page_inv s' l → kboot kp m0 n g s l → npages s' = npages s → kern_pgdir s' = kern_pgdir s →
  pages_kva s' = pages_kva s → envs_kva s' = envs_kva s → nextfree s' = nextfree s → phys s' = phys s → pages s' = pages s →
  kboot kp m0 n g s' l.
Proof.
  intros Hi [[D1 D2 D3 D4] HR HN HS HL HU Hus Hfr Hta Hma Htb Hme] N R1 R2 R3 NF M P.
  split; rewrite ?N, ?R1, ?R2, ?R3, ?NF, ?M, ?P; try assumption.
  split; rewrite ?N, ?M, ?P; assumption.
Qed.

(** * mem_init *)

Section mem_init.
Context (cmos : Z → Z) (kend bootstack percpu_kstacks : Z) (s : pm) (kp bst kst : Z).
Context (Hnf : nextfree s = 0) (Hfl : page_free_list s = None) (Hmm : mmio_base s = MMIOBASE)
  (Hkp : 256 ≤ kp) (Hkend : ROUNDUP kend PGSIZE = kva_of kp)
  (Hbs : bootstack = kva_of bst) (Hks : percpu_kstacks = kva_of kst) (Rbs : 0 ≤ bst < kp) (Rks : 0 ≤ kst ≤ kp - 64)
  (Hsize : ∀ s', detect_memory cmos s = Ret tt s' → boot_ff kp (npages s') + 70 ≤ npages s').

Definition roomy (s : pm) : Prop := boot_ff kp (npages s) + 70 ≤ npages s.

(** The machine has the memory that the CMOS reports. *)
Definition detected (s' : pm) : Prop := ∃ sd, detect_memory cmos s = Ret tt sd ∧ npages s' = npages sd.

Lemma alloc_boot : ∃ s1 l1, (detect_memory cmos ;; mem_init_alloc kend) s = Ret tt s1 ∧ kboot kp (phys s) 0 (λ _, None) s1 l1 ∧
  (∀ i, 0 ≤ i < 1024 → wd (phys s1) kp i = if decide (i = PDX UVPT) then uvpt_entry kp else 0) ∧
  (∀ i, i ∈ l1 ↔ free_at_boot kp (npages s1) i) ∧ mmio_base s1 = MMIOBASE ∧ roomy s1 ∧ detected s1.
Proof using Hnf Hfl Hkp Hkend Hsize Hmm.
  destruct (mem_init_alloc_run cmos kend s kp Hnf Hfl Hkp Hkend) as (s1 & l1 & E & [Hd HR Hrow Hus Hfr Hnx Hb] & Hmb & (sd & Ed & En) & Hme).
  { intros s' E. specialize (Hsize s' E). lia. }
  assert (∀ i, 0 ≤ i < 1024 → i ≠ PDX UVPT → pt_of (phys s1) kp i = None) as Hnone.
  { intros i Hi Hu. unfold pt_of. rewrite Hrow, decide_False by assumption. reflexivity. }
  exists s1, l1. split; [exact E|]. split; [split; try assumption|split; [exact Hrow|split; [exact Hfr|split; [congruence|split]]]].
  - split; assumption.
  - intros i Hi. rewrite Hrow, decide_False; [reflexivity|change (PDX UVPT) with 957; unfold UPDX in Hi; lia|unfold UPDX in Hi; lia].
  - rewrite Hrow by (split; reflexivity || discriminate). apply decide_True. reflexivity.
  - intros i. apply Hfr.
  - exists []. split; [constructor|]. intros i Hi. left. apply Hfr, Hi.
  - intros u Hu. destruct (kvpn_idx u Hu) as (HI & _). unfold pte_of. rewrite Hnone; [reflexivity|exact HI|apply Hu].
  - intros i Hi Hu. left. rewrite Hrow, decide_False by assumption. reflexivity.
  - intros b Hb1 _. apply Hme, Hb1.
  - unfold roomy. rewrite En. exact (Hsize _ Ed).
  - exists sd. auto.
Qed.

Lemma alloc_low s1 l1 : page_inv s1 l1 → (∀ i, i ∈ l1 ↔ free_at_boot kp (npages s1) i) →
  ∃ q0 q1 q2 lo, filter (λ i : Z, i < 1024) l1 = q0 :: q1 :: q2 :: lo ∧ (155 ≤ length lo)%nat ∧
    ∀ i, i ∈ q0 :: q1 :: q2 :: lo → i < 1024.
Proof using.
  intros Hi Hf. assert (158 ≤ length (filter (λ i : Z, (i < 1024)%Z) l1))%nat as Hlen.
  { change 158%nat with (length (seqZ 1 6 ++ seqZ 8 152)). apply submseteq_length, NoDup_submseteq.
    - apply NoDup_app. split; [apply NoDup_seqZ|]. split; [|apply NoDup_seqZ]. intros i H1%elem_of_seqZ H2%elem_of_seqZ. lia.
    - intros i Hx. apply list_elem_of_filter. rewrite Hf. unfold free_at_boot. rewrite elem_of_app, !elem_of_seqZ in Hx. lia. }
  destruct (filter (λ i : Z, i < 1024) l1) as [|q0 [|q1 [|q2 lo]]] eqn:E; try (cbn in Hlen; lia).
  exists q0, q1, q2, lo. split; [reflexivity|]. split; [cbn in Hlen; lia|]. rewrite <- E. intros i [F _]%list_elem_of_filter. exact F.
Qed.

(** Before the kernel's part of the space is mapped. *)
Lemma first_tests : ∃ s1 s2 s3 s4 l4, (detect_memory cmos ;; mem_init_alloc kend) s = Ret tt s1 ∧
  check_page_free_list kend true s1 = Ret tt s2 ∧ check_page_alloc_pm s2 = Ret tt s3 ∧ check_page_pm s3 = Ret tt s4 ∧
  kboot kp (phys s) 1 (λ _, None) s4 l4 ∧ boot_low kp 1 s4 l4 ∧ fresh_dir (phys s4) kp ∧ roomy s4 ∧
  mmio_base s4 = MMIOBASE + 3 * PGSIZE ∧ detected s4.
Proof using Hnf Hfl Hkp Hkend Hsize Hmm.
  clear Hbs Hks Rbs Rks. destruct alloc_boot as (s1 & l1 & E1 & B1 & Hrow & Hf1 & Hb1 & Hz & (sd & Ed & Nd)).
  destruct (free_list_quiet kend true kp _ 0 _ s1 l1 B1 ltac:(lia) Hz) as (s2 & E2 & Q2).
  pose proof (kboot_quiet _ _ _ _ _ _ _ _ B1 Q2) as B2. 
  destruct (alloc_low s1 l1 (kd_pages _ _ _ (kb_dir _ _ _ _ _ _ B1)) Hf1) as (q0 & q1 & q2 & lo & El & Hlen & Hlo).
  rewrite El in Q2, B2. cbn [app] in Q2, B2. set (r := lo ++ filter (λ i, 1024 ≤ i) l1) in *.
  assert (kp ∉ l1) as Hkl by apply (kb_dir _ _ _ _ _ _ B1).
  destruct (check_page_alloc_passes kp s2 _ (kboot_empty _ _ _ _ _ _ B2) ltac:(cbn; lia)) as (s3 & E3 & Q3).
  { destruct (kb_roots _ _ _ _ _ _ B2) as (_ & -> & _). unfold kva_of, KERNBASE, PGSIZE. lia. }
  pose proof (kboot_quiet _ _ _ _ _ _ _ _ B2 Q3) as B3.
  destruct (check_page_passes kp s3 q0 q1 q2 r (kboot_empty _ _ _ _ _ _ B3)) as (s4 & E4 & Q4).
  pose proof (kboot_quiet _ _ _ _ _ _ _ _ B3 Q4) as B4.
  pose proof (quiet_trans _ _ _ _ _ _ Q2 (quiet_trans _ _ _ _ _ _ Q3 Q4)) as Q.
  assert (∀ i, 0 ≤ i < 1024 → wd (phys s4) kp i = if decide (i = PDX UVPT) then uvpt_entry kp else 0) as Hrow4
    by (intros i Hi; rewrite (quiet_wd _ _ _ _ _ _ Q Hkl Hi); apply Hrow, Hi).
  destruct (qt_fields _ _ _ _ Q) as (N & _ & _ & _ & _ & _ & M & _).
  destruct (check_page_mmio_passes s4 (q2 :: q1 :: q0 :: r) kp (kb_dir _ _ _ _ _ _ B4) (proj1 (kb_roots _ _ _ _ _ _ B4)) (eq_trans M Hb1))
    as (s5 & l5 & E5 & K5 & L5 & P5 & W5 & T5); [unfold pt_of; rewrite Hrow4 by (split; reflexivity || discriminate); reflexivity|discriminate|].
  assert (boot_low kp 0 s4 (q2 :: q1 :: q0 :: r)) as BL.
  { split.
    - exists (q2 :: q1 :: q0 :: lo), (filter (λ i, 1024 ≤ i) l1). split; [reflexivity|]. split; [|cbn; lia]. intros i Hi. apply Hlo.
      rewrite !elem_of_cons in *. tauto.
    - intros i t Hi Hu. unfold pt_of. rewrite Hrow4, decide_False by assumption. discriminate. }
  pose proof (kboot_kmapped _ _ _ 1 _ (λ _, None) _ _ _ _ B4 K5 ltac:(lia)) as B5.
  exists s1, s2, s3, (with_mmio_base (MMIOBASE + 3 * PGSIZE) s5), l5.
  split; [exact E1|]. split; [exact E2|]. split; [exact E3|]. split; [rewrite E4; exact E5|].
  assert (npages s5 = npages s1) as N5 by (rewrite <- N; apply K5).
  split; [|split; [|split; [|split; [|split]]]].
  - eapply (kboot_ext _ _ _ _ s5); try reflexivity; [eapply page_inv_ext; [apply K5|reflexivity..]|]. apply B5.
    + intros i Hi. apply W5; [unfold UPDX in Hi; lia|]. change (PDX MMIOBASE) with 958. unfold UPDX in Hi. lia.
    + intros u Hu. rewrite T5 by exact Hu. apply (kb_map _ _ _ _ _ _ B4 u Hu).
  - destruct (boot_low_kmapped kp 0 1 s4 _ s5 l5 BL K5 ltac:(lia) ltac:(lia)) as [F1 F2]. split; assumption.
  - intros i Hi. psimpl. destruct (decide (i = PDX MMIOBASE)) as [->|Hm]; [rewrite decide_True by auto; exact P5|].
    rewrite W5, Hrow4 by assumption. destruct (decide (i = PDX UVPT)) as [->|Hu]; [rewrite decide_True by auto; apply uvpt_present|].
    rewrite decide_False by tauto. reflexivity.
  - unfold roomy in *. psimpl. rewrite N5. exact Hz.
  - reflexivity.
  - exists sd. split; [exact Ed|]. psimpl. congruence.
Qed.

(** The kernel's map of its part of the space. *)
Definition boot_map (np : Z) : Z → option Z := kernel_map np (kp + 1) (kp + 1 + upages_len np) kst (λ _, None).

(** It is mapped, checked, and installed. *)
Lemma last_tests m0 s4 l4 : kboot kp m0 1 (λ _, None) s4 l4 → boot_low kp 1 s4 l4 → fresh_dir (phys s4) kp → roomy s4 →
  ∃ s5 s6 s7 l7, mem_init_map bootstack percpu_kstacks s4 = Ret tt s5 ∧ check_kern_pgdir_pm percpu_kstacks s5 = Ret tt s5 ∧
    check_page_free_list kend false (with_cr3 (kp * PGSIZE) s5) = Ret tt s6 ∧ check_page_installed_pgdir_pm s6 = Ret tt s7 ∧
    kboot kp m0 68 (boot_map (npages s7)) s7 l7 ∧ boot_low kp 68 s7 l7 ∧ cr3 s7 = kp * PGSIZE ∧ mmio_base s7 = mmio_base s4 ∧
    kern_pgdir s5 = kva_of kp ∧ is_present (wd (phys s7) kp (PDX MMIOBASE)) = true ∧ npages s7 = npages s4.
Proof using Hbs Hks Rbs Rks.
  clear Hkp Hnf Hfl Hmm Hkend Hsize. intros B4 L4 Hfr Hz. pose proof (kb_dir _ _ _ _ _ _ B4) as D4. destruct (kb_roots _ _ _ _ _ _ B4) as (R1 & R2 & R3).
  destruct (kb_size _ _ _ _ _ _ B4) as [Hk Hb]. destruct (ROUNDUP_pages _ (pi_npages _ _ (kd_pages _ _ _ D4))) as [_ Hlen].
  unfold roomy, boot_ff in Hz. destruct (bl_first _ _ _ _ L4) as (lo & hi & El & Hlo & Hll).
  assert (67 ≤ Z.of_nat (length l4)) as Hl4 by (rewrite El, length_app; lia).
  destruct (mem_init_map_built bootstack percpu_kstacks s4 l4 kp (kp + 1) _ bst kst D4 R1 R2 R3 Hbs Hks
    ltac:(lia) ltac:(lia) ltac:(lia) ltac:(lia) Hl4) as (s5 & l5 & E5 & B).
  pose proof (bt_kmapped _ _ _ _ _ _ _ B) as K5. pose proof (bt_length _ _ _ _ _ _ _ B) as L5.
  destruct (km_same _ _ _ _ _ K5) as (N5 & R5 & _ & M5 & _).
  assert (kboot kp m0 68 (boot_map (npages s5)) s5 l5) as B5.
  { apply (kboot_kmapped kp m0 1 67 (λ _, None) _ s4 l4 s5 l5 B4 K5 ltac:(lia) (bt_low _ _ _ _ _ _ _ B)).
    intros u Hu. rewrite (bt_pte _ _ _ _ _ _ _ B) by exact Hu. unfold boot_map, kernel_map. rewrite N5, (kb_map _ _ _ _ _ _ B4 u Hu). reflexivity. }
  pose proof (boot_low_kmapped kp 1 67 s4 l4 s5 l5 L4 K5 ltac:(lia) ltac:(lia)) as W5. cbn in W5.
  assert (kboot kp m0 68 (boot_map (npages s5)) (with_cr3 (kp * PGSIZE) s5) l5) as B5'
    by (eapply (kboot_ext _ _ _ _ s5); try reflexivity; [eapply page_inv_ext; [apply K5|reflexivity..]|exact B5]).
  destruct (free_list_quiet kend false kp _ 68 _ _ _ B5' ltac:(lia)) as (s6 & E6 & Q6); [psimpl; rewrite N5; unfold boot_ff; lia|]. cbv zeta in Q6.
  pose proof (kboot_quiet _ _ _ _ _ _ _ _ B5' Q6) as B6. destruct W5 as [(lo5 & hi5 & El5 & Hlo5 & Hn5) Ht5].
  assert (boot_low kp 68 (with_cr3 (kp * PGSIZE) s5) l5) as W5' by (split; [exists lo5, hi5; auto|exact Ht5]).
  destruct lo5 as [|q0 [|q1 [|q2 lo5]]]; try (cbn in Hn5; lia). cbn [app] in El5. rewrite El5 in *.
  destruct (qt_fields _ _ _ _ Q6) as (N6 & _ & _ & _ & _ & _ & M6 & C6 & _).
  destruct (check_page_installed_passes kp s6 q0 q1 q2 _ (kboot_empty _ _ _ _ _ _ B6) C6) as (s7 & E7 & Q7).
  pose proof (kboot_quiet _ _ _ _ _ _ _ _ B6 Q7) as B7. destruct (qt_fields _ _ _ _ Q7) as (N7 & _ & _ & _ & _ & _ & M7 & C7 & _).
  exists s5, s6, s7, (q0 :: q2 :: q1 :: lo5 ++ hi5).
  split; [exact E5|]. split; [|split; [exact E6|split; [exact E7|split; [|split; [|split; [|split; [|split; [|split]]]]]]]].
  - eapply check_passes; [exact Hfr|exact B|lia|exact R1|exact R2|exact R3|exact Hks|lia..].
  - rewrite N7, N6. exact B7.
  - apply (boot_low_quiet kp m0 68 _ _ [q0; q1; q2] (lo5 ++ hi5) s7 [q0; q2; q1] B5' W5' (quiet_trans _ _ _ _ _ _ Q6 Q7));
      [apply perm_skip, perm_swap|cbn; lia].
  - rewrite C7. exact C6.
  - rewrite M7, M6. exact M5.
  - congruence.
  - rewrite (quiet_wd _ _ _ _ kp _ (quiet_trans _ _ _ _ _ _ Q6 Q7)) by (apply (kb_dir _ _ _ _ _ _ B5) || (split; reflexivity || discriminate)).
    change (is_present (wd (phys s5) kp (PDX MMIOBASE)) = true). eapply dir_kept; [exact Hfr|exact B|auto].
  - rewrite N7, N6. exact N5.
Qed.
End mem_init.

(** * The kernel after mem_init *)

(** What mem_init prints, latest first: the memory that the CMOS reports, in
    KB, and the tests that have passed. *)
Definition boot_log (cmos : Z → Z) : list (string * list Z) :=
  let base := w32 (nvram_read cmos NVRAM_BASELO * 1024) / PGSIZE in
  let ext := npages_extmem cmos in
  let n := if ctrue ext then EXTPHYSMEM / PGSIZE + ext else base in
  [("check_page_installed_pgdir() succeeded!\n", []); ("check_kern_pgdir() succeeded!\n", []);
   ("check_page() succeeded!\n", []); ("check_page_alloc() succeeded!\n", []);
   ("Physical memory: %uK available, base = %uK, extended = %uK\n",
    [w32 (n * PGSIZE) / 1024; w32 (base * PGSIZE) / 1024; w32 (ext * PGSIZE) / 1024])].

(** What mem_init needs of the machine and of the kernel's image: zeros in the
    kernel's variables, the stacks within the image, which ends at page [kp],
    and memory for the boot allocations, the page tables and the tests. *)
Record bootable (cmos : Z → Z) (kend bootstack percpu_kstacks : Z) (s : pm) (kp bst kst : Z) : Prop := {
  ba_nextfree : nextfree s = 0;
  ba_list : page_free_list s = None;
  ba_mmio : mmio_base s = MMIOBASE;
  ba_kp : 256 ≤ kp;
  ba_kend : ROUNDUP kend PGSIZE = kva_of kp;
  ba_stacks : bootstack = kva_of bst ∧ percpu_kstacks = kva_of kst ∧ 0 ≤ bst < kp ∧ 0 ≤ kst ≤ kp - 64;
  ba_size : ∀ s', detect_memory cmos s = Ret tt s' → boot_ff kp (npages s') + 70 ≤ npages s'
}.

Lemma mem_init_run cmos kend bootstack percpu_kstacks k kp bst kst : bootable cmos kend bootstack percpu_kstacks (kpm k) kp bst kst →
  ∃ s l, mem_init cmos kend bootstack percpu_kstacks k = Ret tt (set_klog (boot_log cmos ++ klog k) (set_kpm s k)) ∧
    kboot kp (phys (kpm k)) 68 (boot_map kp kst (npages s)) s l ∧ boot_low kp 68 s l ∧
    cr3 s = kp * PGSIZE ∧ mmio_base s = MMIOBASE + 3 * PGSIZE ∧ is_present (wd (phys s) kp (PDX MMIOBASE)) = true ∧
    detected cmos (kpm k) s.
Proof.
  intros [Hnf Hfl Hmm Hkp Hkend (Hbs & Hks & Rbs & Rks) Hsize].
  destruct (first_tests cmos kend (kpm k) kp Hnf Hfl Hmm Hkp Hkend Hsize) as (s1 & s2 & s3 & s4 & l4 & E1 & E2 & E3 & E4 & B4 & L4 & Hfr & Hz & M4 & (sd & Ed & Nd)).
  destruct (last_tests kend bootstack percpu_kstacks kp bst kst Hbs Hks Rbs Rks _ s4 l4 B4 L4 Hfr Hz)
    as (s5 & s6 & s7 & l7 & E5 & Ek & E6 & E7 & B7 & L7 & C7 & M7 & R5 & P7 & N7).
  exists s7, l7. split; [|split; [exact B7|split; [exact L7|split; [exact C7|split; [rewrite M7; exact M4|split; [exact P7|exists sd; split; [exact Ed|congruence]]]]]]].
  unfold mem_init, i386_detect_memory, check_page_alloc, check_page, check_kern_pgdir, check_page_installed_pgdir, cprintf.
  rewrite (bind_Ret _ _ _ _ _ Ed) in E1. rewrite bind_assoc. erewrite bind_Ret by (apply inpm_Ret; exact Ed).
  rewrite bind_assoc, bind_gets, bind_assoc, bind_gets, bind_modify. ksimpl. erewrite bind_Ret by (apply inpm_Ret; exact E1).
  erewrite bind_Ret by (apply inpm_Ret; exact E2). rewrite bind_assoc. erewrite bind_Ret by (apply inpm_Ret; exact E3). rewrite bind_modify.
  rewrite bind_assoc. erewrite bind_Ret by (apply inpm_Ret; exact E4). rewrite bind_modify.
  erewrite bind_Ret by (apply inpm_Ret; exact E5). rewrite bind_assoc. erewrite bind_Ret by (apply inpm_Ret; exact Ek). rewrite bind_modify, bind_gets. ksimpl.
  rewrite R5. erewrite bind_Ret by (apply inpm_Ret, PADDR_kva; destruct (kb_size _ _ _ _ _ _ B4), (kd_kp _ _ _ (kb_dir _ _ _ _ _ _ B4)); lia).
  unfold lcr3. erewrite bind_Ret by (apply inpm_Ret; reflexivity). ksimpl.
  erewrite bind_Ret by (apply inpm_Ret; exact E6). erewrite bind_Ret by (apply inpm_Ret; exact E7).
  injection Ed as <-. reflexivity.
Qed.

(** env_init completes the kernel's invariant. *)
Lemma env_init_kspace kp m0 n g k l : kboot kp m0 n g (kpm k) l → table_clear (envs k) → ∃ k' x, env_init k = Ret tt k' ∧
  kspace (kernel_page k' l) k' l [] x kp (seqZ 0 NENV) ∧ kpm k' = kpm k ∧ k' = set_env_free_list (Some 0) (set_envs (envs k') k).
Proof.
  intros B Htab. destruct (env_init_run k (proj1 Htab)) as (E & E3 & HE).
  exists (set_env_free_list (Some 0) (set_envs E k)), (all_refs (kpm k)). split; [exact E3|]. split; [split|split; reflexivity].
  - ksimpl. apply start_vspace; [apply B|apply (kb_roots _ _ _ _ _ _ B)|reflexivity|apply (kb_used _ _ _ _ _ _ B)|apply B|apply B].
  - ksimpl. eapply start_espace; [exact Htab|exact HE].
Qed.

(** * Properties *)

(** C7. Booting establishes the invariant that the system calls preserve.  With
    the BSS clear and memory for the boot allocations, 68 page tables and the
    tests, mem_init followed by env_init returns: the log has the sizes of the memory
    that the CMOS reports and shows that all self tests pass; %cr3 holds kern_pgdir, which maps exactly what
    [kernel_map] says, by page tables in the first 4MB, so that they can be
    reached while entry_pgdir is still in use; no memory is written but the
    directory and pages page_init found free; and the kernel's invariant
    holds with no environment and no address space: every page that is not
    on the free list is the kernel's and is referred to, and all slots of the
    environment table are free and linked in order. *)
Theorem boot_establishes_kernel (cmos : Z → Z) (kend bootstack percpu_kstacks : Z) (k : ks) (kp bst kst : Z) :
  bootable cmos kend bootstack percpu_kstacks (kpm k) kp bst kst → table_clear (envs k) →
  ∃ k' l' x,
    (mem_init cmos kend bootstack percpu_kstacks ;; env_init) k = Ret tt k' ∧
    kspace (kernel_page k' l') k' l' [] x kp (seqZ 0 NENV) ∧
    cr3 (kpm k') = kp * PGSIZE ∧
    (∀ u, kvpn u → pte_of (phys (kpm k')) kp u
      = kernel_map (npages (kpm k')) (kp + 1) (kp + 1 + upages_len (npages (kpm k'))) kst (λ _, None) u) ∧
    (∀ i t, 0 ≤ i < 1024 → i ≠ PDX UVPT → pt_of (phys (kpm k')) kp i = Some t → t < 1024) ∧
    (∀ b, b / PGSIZE ≠ kp → ¬ free_at_boot kp (npages (kpm k')) (b / PGSIZE) →
      ld8 (phys (kpm k')) b = ld8 (phys (kpm k)) b) ∧
    klog k' = boot_log cmos ++ klog k.
Proof.
  intros Hb Htab. destruct (mem_init_run _ _ _ _ k kp bst kst Hb) as (s & l & E & B & L & C & _).
  destruct (env_init_kspace kp (phys (kpm k)) 68 (boot_map kp kst (npages s)) (set_klog (boot_log cmos ++ klog k) (set_kpm s k)) l B Htab)
    as (k' & x & E' & H & Ek & Es).
  exists k', l, x. rewrite Ek. ksimpl. rewrite (bind_Ret _ _ _ _ _ E).
  split; [exact E'|]. split; [exact H|]. split; [exact C|]. split; [apply B|]. split; [apply L|]. split; [apply B|].
  rewrite Es. reflexivity.
Qed.

Lemma bss_bootable : bootable cmos_768 0xf0180000 (kva_of 272) (kva_of 280) bss_pm 384 272 280.
Proof.
  split; try reflexivity; [lia|split; [reflexivity|split; [reflexivity|lia]]|].
  intros s' [= <-]. vm_compute. discriminate.
Qed.

Lemma boot_establishes_kernel_witness : ∃ k' l' x,
  (mem_init cmos_768 0xf0180000 (kva_of 272) (kva_of 280) ;; env_init) bss_ks = Ret tt k' ∧
  kspace (kernel_page k' l') k' l' [] x 384 (seqZ 0 NENV).
Proof.
  destruct (boot_establishes_kernel cmos_768 0xf0180000 (kva_of 272) (kva_of 280) bss_ks 384 272 280 bss_bootable bss_table)
    as (k' & l' & x & E & H & _).
  exists k', l', x. split; [exact E|exact H].
Defined.
