(* ===== verification/SyscallInv.v ===== *)
(** Every system call keeps the kernel's invariant: for each operation, what
    it returns with and how it may leave the kernel otherwise. *)
From S2P Require Import Prelude Mmu Mem Pages PageTable AddrSpace UserMem Console KState Env EnvVm EnvSpec Syscall SyscallSpec KSpace.

Section syscalls.
Context (K : Z → Prop).
Implicit Types (k : ks).

(** * Environments *)

(** [env_free] of a live environment. *)
Lemma env_free_kspace k l R x kp fl cur e E : kspace K k l R x kp fl → running k cur → live k e E →
  ∃ k' l' R', env_free e k = Ret tt k' ∧ kspace K k' l' R' x kp (e :: fl) ∧
    kept K (phys (kpm k)) (phys (kpm k')) ∧ cpus k' = cpus k ∧ cpunum k' = cpunum k ∧ klock k' = klock k ∧
    (∀ i, i ≠ e → envs k' !! i = envs k !! i) ∧
    cr3 (kpm k') = (if decide (cur = Some e) then kern_pgdir (kpm k') - KERNBASE else cr3 (kpm k)).
Proof.
  intros H (c & Hc & Ec & Hcur) Hl. pose proof H as [Hv He].
  destruct (live_pgdir K _ _ _ _ _ _ _ _ H Hl) as (pd & Hpd & Ep & _).
  destruct (list_elem_of_split _ _ Hpd) as (R1 & R2 & ->).
  destruct (kspace_kern K _ _ _ _ _ _ H) as [Ek Hkp]. destruct (PADDR_kva_of (kpm k) _ kp Hkp Ek) as [Hkb _].
  pose proof (vs_vm _ _ _ _ _ _ Hv) as Hvm.
  assert (∀ i, cpu_env c = Some i → is_Some (envs k !! i)) as Hce.
  { intros i Hi. rewrite Ec in Hi. rewrite Hi in Hcur. destruct Hcur as (ce & [Hce _] & _). eauto. }
  assert (KERNBASE ≤ kern_pgdir (kpm k) < 2 ^ 32) as Hkk by (rewrite Ek; unfold kva_of, KERNBASE, PGSIZE; lia).
  destruct (env_free_run k l R1 R2 x e E pd c Hc Hce (proj1 Hl) Ep Hkk Hvm)
    as (msg & s1 & l1 & j & F & Hempty & Hj & Ed & Hvm' & Erun).
  set (k1 := free_start e c msg k) in *. cbv zeta in *.
  assert (phys (kpm k1) = phys (kpm k) ∧ kern_pgdir (kpm k1) = kern_pgdir (kpm k) ∧ npages (kpm k1) = npages (kpm k)
    ∧ envs k1 = envs k ∧ cpus k1 = cpus k ∧ cpunum k1 = cpunum k ∧ klock k1 = klock k ∧
    cr3 (kpm k1) = if decide (cur = Some e) then kern_pgdir (kpm k) - KERNBASE else cr3 (kpm k))
    as (E1 & E2 & E3 & E4 & E5 & E6 & E7 & E8).
  { unfold k1, free_start. rewrite Ec. rewrite decide_bool_decide. case_bool_decide; repeat split; reflexivity. }
  pose proof (fr_rel _ _ _ _ _ _ _ _ F) as Rl. destruct (rl_kern _ _ _ _ _ _ Rl) as [Rk Rc].
  destruct (decref_same_env pd j s1) as [Dk Dc].
  eexists _, _, (R1 ++ R2). split; [exact Erun|]. ksimpl.
  destruct (vspace_step K (kpm k) l (R1 ++ pd :: R2) x kp (decref_state pd j s1) _ (R1 ++ R2) x Hv Hvm')
    as [Hv' Hkept].
  - rewrite decref_npages, (rl_npages _ _ _ _ _ _ Rl). exact E3.
  - rewrite Dk, Rk. exact E2.
  - rewrite decref_phys, <- E1. apply data_same_free, (fr_data _ _ _ _ _ _ _ _ F).
  - intros q. apply elem_of_mid.
  - reflexivity.
  - rewrite decref_phys, <- E1. intros q _ [Hq|[(pd' & i & Hp & Hi & G)|(pd' & v & Hp & Hv2 & G)]].
    + left. apply elem_of_mid, Hq.
    + right. left. exists pd', i. split; [apply elem_of_mid, Hp|]. split; [assumption|].
      apply (fr_pt _ _ _ _ _ _ _ _ F); [apply elem_of_mid|..]; assumption.
    + right. right. exists pd', v. split; [apply elem_of_mid, Hp|]. split; [assumption|]. revert G. unfold page_of.
      rewrite (fr_pte _ _ _ _ _ _ _ _ F) by (auto using elem_of_mid). destruct (_ && _); [discriminate|auto].
  - split.
    + split; [exact Hv'|]. apply espace_free with pd; [exact He|exact Hl|apply Hvm|exact Ep].
    + split; [exact Hkept|]. split; [exact E5|]. split; [exact E6|]. split; [exact E7|]. split.
      * intros i Hi. apply lookup_insert_ne. congruence.
      * rewrite Dc, Rc, E8, Dk, Rk, E2. reflexivity.
Qed.

(** The environment is freed; if it was the current one, the CPU looks for
    another. *)
Lemma free_switch_wp k0 k cur e y : inside K k0 k (Some cur) → live k e y →
  wp (env_free e ;; c ← curenv; when (bool_decide (c = Some e)) (set_curenv None ;; sched_yield))
    (λ _ k', inside K k0 k' (Some cur)) (left_kernel K k0) k.
Proof.
  intros [[(l & R & x & kp & fl & Hs) Hr] Hlock Hk] Hl.
  destruct (env_free_kspace k l R x kp fl (Some cur) e y Hs Hr Hl)
    as (k1 & l1 & R1 & E & Hs1 & Hk1 & Ec & En & El & Ee & Ecr).
  destruct Hr as (c & Hc & Ecur & ce & Hlc & Hcr). apply wp_bind. eapply wp_Ret; [exact E|].
  assert (cpus k1 !! cpunum k1 = Some c) as Hc1 by (rewrite Ec, En; exact Hc).
  assert (kept K (phys (kpm k0)) (phys (kpm k1))) as Hk01 by (etransitivity; eassumption).
  apply wp_bind. eapply wp_Ret; [apply curenv_eq; exact Hc1|]. rewrite Ecur.
  case_bool_decide as D; cbn [when].
  - injection D as ->. rewrite decide_True in Ecr by reflexivity.
    apply wp_bind. eapply wp_Ret; [apply (set_curenv_eq k1 c None Hc1)|].
    eapply wp_conseq; [eapply (sched_yield_wp K k0 _ None)|intros ? ? []]. split; [split| |exact Hk01].
    + exists l1, R1, x, kp, (e :: fl). eapply kspace_ext; [exact Hs1|reflexivity..].
    + eexists. ksimpl. split; [apply lookup_insert_eq|]. split; [reflexivity|exact Ecr].
    + ksimpl. rewrite El, En. exact Hlock.
  - rewrite decide_False in Ecr by congruence. split; [split| |exact Hk01].
    + exists l1, R1, x, kp, (e :: fl). exact Hs1.
    + exists c. split; [exact Hc1|]. split; [exact Ecur|]. exists ce. rewrite Ecr. split; [|exact Hcr].
      split; [rewrite Ee by congruence; apply Hlc|apply Hlc].
    + rewrite El, En. exact Hlock.
Qed.

(** Freeing itself, an environment does not come back. *)
Lemma free_self_wp k0 k cur y : inside K k0 k (Some cur) → live k cur y →
  wp (env_free cur ;; c ← curenv; when (bool_decide (c = Some cur)) (set_curenv None ;; sched_yield))
    (λ _ _, False) (left_kernel K k0) k.
Proof.
  intros [[(l & R & x & kp & fl & Hs) Hr] Hlock Hk] Hl.
  destruct (env_free_kspace k l R x kp fl (Some cur) cur y Hs Hr Hl)
    as (k1 & l1 & R1 & E & Hs1 & Hk1 & Ec & En & El & Ee & Ecr).
  destruct Hr as (c & Hc & Ecur & ce & Hlc & Hcr). apply wp_bind. eapply wp_Ret; [exact E|].
  assert (cpus k1 !! cpunum k1 = Some c) as Hc1 by (rewrite Ec, En; exact Hc).
  assert (kept K (phys (kpm k0)) (phys (kpm k1))) as Hk01 by (etransitivity; eassumption).
  apply wp_bind. eapply wp_Ret; [apply curenv_eq; exact Hc1|]. rewrite Ecur, bool_decide_eq_true_2 by reflexivity. cbn [when].
  rewrite decide_True in Ecr by reflexivity. apply wp_bind. eapply wp_Ret; [apply (set_curenv_eq k1 c None Hc1)|].
  eapply (sched_yield_wp K k0 _ None). split; [split| |exact Hk01].
  - exists l1, R1, x, kp, (cur :: fl). eapply kspace_ext; [exact Hs1|reflexivity..].
  - eexists. ksimpl. split; [apply lookup_insert_eq|]. split; [reflexivity|exact Ecr].
  - ksimpl. rewrite El, En. exact Hlock.
Qed.

Lemma env_destroy_self_wp k0 k cur y : inside K k0 k (Some cur) → live k cur y →
  wp (env_destroy cur) (λ _ _, False) (left_kernel K k0) k.
Proof.
  intros H Hl. unfold env_destroy. apply wp_bind. eapply env_get_wp; [exact (proj1 Hl)|]. apply wp_bind. eapply curenv_wp; [apply H|].
  rewrite bool_decide_eq_false_2, andb_false_r by congruence. exact (free_self_wp k0 k cur y H Hl).
Qed.

(** [env_destroy] returns unless the current environment destroys itself. *)
Lemma env_destroy_wp k0 k cur e y : inside K k0 k (Some cur) → live k e y →
  wp (env_destroy e) (λ _ k', inside K k0 k' (Some cur)) (left_kernel K k0) k.
Proof.
  intros H Hl. pose proof (free_switch_wp k0 k cur e y H Hl) as Hfree. unfold env_destroy.
  apply wp_bind. eapply env_get_wp; [exact (proj1 Hl)|]. apply wp_bind. eapply curenv_wp; [apply H|].
  destruct (Z.eqb_spec (env_status y) ENV_RUNNING) as [Es|Es]; cbn [andb]; [|exact Hfree].
  case_bool_decide as Hc; [|exact Hfree].
  eapply env_upd_inside; [exact H|exact (proj1 Hl)|apply keeps_status; [exact (proj2 Hl)|discriminate]|]. auto.
Qed.

(** A kernel address space walk stays within memory. *)
Lemma kspace_walkable k l R x kp fl pd : kspace K k l R x kp fl → pd ∈ R → walkable (kpm k) pd.
Proof.
  intros [Hv _] Hpd. pose proof (vs_vm _ _ _ _ _ _ Hv) as Hvm. split; [apply (vm_npages _ _ _ _ Hvm)|].
  intros i t Hi Ht. destruct (Z_lt_le_dec i UPDX) as [Hlt|Hge].
  { apply (vm_pt_bound _ _ _ _ pd i t Hvm Hpd); [lia|assumption]. }
  pose proof (vs_upper _ _ _ _ _ _ Hv pd i Hpd (conj Hge (proj2 Hi))) as E.
  unfold pt_of in Ht. rewrite E in Ht. case_decide.
  - destruct (is_present (uvpt_entry pd)); [|discriminate]. injection Ht as <-.
    pose proof (vm_root_used _ _ _ _ _ Hvm Hpd) as [Hb _]. pose proof (vm_npages _ _ _ _ Hvm).
    replace (frame_of (uvpt_entry pd)) with pd; [exact Hb|]. unfold uvpt_entry.
    rewrite <- Z.lor_assoc, frame_of_page; [reflexivity|lia|split; reflexivity || discriminate].
  - destruct (vs_kern _ _ _ _ _ _ Hv t) as (Hb & _); [|exact Hb].
    apply (vs_high _ _ _ _ _ _ Hv i t); [lia|exact Ht].
Qed.

(** * An unmapped address *)

Lemma translate_ext s s' w u va d d' : cr3 s = d * PGSIZE → cr3 s' = d' * PGSIZE →
  wd (phys s') d' (PDX va) = wd (phys s) d (PDX va) →
  (∀ t, pt_of (phys s) d (PDX va) = Some t → wd (phys s') t (PTX va) = wd (phys s) t (PTX va)) →
  translate s' w u va = translate s w u va.
Proof.
  intros Hc Hc' Hd Ht. unfold translate. rewrite Hc, Hc'. fold (wd (phys s') d' (PDX va)) (wd (phys s) d (PDX va)). rewrite Hd.
  destruct (is_present (wd (phys s) d (PDX va))) eqn:Ep; [|reflexivity]. cbn [negb]. rewrite frame_of_addr.
  fold (wd (phys s') (frame_of (wd (phys s) d (PDX va))) (PTX va)) (wd (phys s) (frame_of (wd (phys s) d (PDX va))) (PTX va)).
  rewrite Ht by (unfold pt_of; rewrite Ep; reflexivity). reflexivity.
Qed.

(** The address space of the current environment is the one in force. *)
Lemma running_root k l R x kp fl i : kspace K k l R x kp fl → running k (Some i) →
  ∃ pd, pd ∈ R ∧ cr3 (kpm k) = pd * PGSIZE.
Proof.
  intros H (c & _ & _ & e & Hl & Hc). destruct (live_pgdir _ _ _ _ _ _ _ _ _ H Hl) as (pd & Hpd & Ep & _).
  exists pd. split; [exact Hpd|]. rewrite Hc, Ep. unfold kva_of. lia.
Qed.

(** The kernel's page directory leaves an address between UTOP and KERNBASE
    unmapped, as it does the guard below the stack of each CPU. *)
Definition gap_at k (va : Z) : Prop :=
  u32_range va ∧ va < KERNBASE ∧ UPDX ≤ PDX va ∧ PDX va ≠ PDX UVPT ∧
  translate (with_cr3 (kern_pgdir (kpm k) - KERNBASE) (kpm k)) false false va = None.
Definition has_gap k : Prop := ∃ va, gap_at k va.

Lemma gap_kept k k' cur : kernel_ok K k cur → kern_pgdir (kpm k') = kern_pgdir (kpm k) → kept K (phys (kpm k)) (phys (kpm k')) →
  has_gap k → has_gap k'.
Proof.
  intros [(l & R & x & kp & fl & H) _] Ek Hk (va & Hva & Hb & Hi & Hne & Ht). destruct (vs_kp _ _ _ _ _ _ (ksp_vm _ _ _ _ _ _ _ H)) as [Ekp Kkp].
  exists va. repeat (split; [assumption|]). rewrite <- Ht, Ek, Ekp.
  assert (kva_of kp - KERNBASE = kp * PGSIZE) as -> by (unfold kva_of; lia).
  apply translate_ext with (d := kp) (d' := kp); [reflexivity..|apply Hk; [exact Kkp|apply PDX_range]|].
  intros t Et. apply Hk; [|apply PTX_range]. apply (vs_high _ _ _ _ _ _ (ksp_vm _ _ _ _ _ _ _ H) (PDX va) t); [|exact Et].
  pose proof (PDX_range va). lia.
Qed.

(** The page directory in force agrees with the kernel's there. *)
Lemma loaded_upper k cur va : kernel_ok K k cur → UPDX ≤ PDX va → PDX va ≠ PDX UVPT → ∃ kp d,
  kern_pgdir (kpm k) - KERNBASE = kp * PGSIZE ∧ cr3 (kpm k) = d * PGSIZE ∧ wd (phys (kpm k)) d (PDX va) = wd (phys (kpm k)) kp (PDX va).
Proof.
  intros [(l & R & x & kp & fl & H) Hr] Hi Hne. destruct (vs_kp _ _ _ _ _ _ (ksp_vm _ _ _ _ _ _ _ H)) as [Ekp _].
  assert (kern_pgdir (kpm k) - KERNBASE = kp * PGSIZE) as E by (rewrite Ekp; unfold kva_of; lia). exists kp.
  destruct cur as [i|].
  - destruct (running_root _ _ _ _ _ _ _ H Hr) as (pd & Hpd & Hc). exists pd. split; [exact E|]. split; [exact Hc|].
    rewrite (vs_upper _ _ _ _ _ _ (ksp_vm _ _ _ _ _ _ _ H) pd (PDX va) Hpd) by (pose proof (PDX_range va); lia).
    rewrite decide_False by assumption. reflexivity.
  - destruct Hr as (c & _ & _ & Hc). exists kp. split; [exact E|]. split; [rewrite Hc; exact E|reflexivity].
Qed.

Lemma gap_kaddr k cur : kernel_ok K k cur → has_gap k → ∃ va, u32_range va ∧ kaddr (kpm k) false va = None.
Proof.
  intros Hok (va & Hva & Hb & Hi & Hne & Ht). exists va. split; [exact Hva|]. unfold kaddr.
  destruct (Z.geb_spec va KERNBASE); [lia|]. destruct (loaded_upper k cur va Hok Hi Hne) as (kp & d & E & Hd & Ed).
  rewrite E in Ht. rewrite (translate_ext (with_cr3 (kp * PGSIZE) (kpm k)) (kpm k) _ _ _ kp d); [exact Ht|reflexivity|exact Hd|exact Ed|reflexivity].
Qed.

(** * The calls that concern one environment *)

Lemma sys_env_set_status_wp k0 k cur envid status : inside K k0 k (Some cur) →
  wp (sys_env_set_status envid status) (λ _ k', inside K k0 k' (Some cur)) (left_kernel K k0) k.
Proof.
  intros H. unfold sys_env_set_status. destruct (negb _) eqn:Hs; [exact H|].
  eapply with_env_wp; [apply H|exact H|]. intros i e Hl. apply wp_bind.
  eapply env_upd_inside; [exact H|exact (proj1 Hl)|apply keeps_status; [exact (proj2 Hl)|]|auto].
  apply negb_false_iff, orb_true_iff in Hs. destruct Hs as [E|E]; apply Z.eqb_eq in E; rewrite E; discriminate.
Qed.

Lemma sys_env_set_upcall_wp k0 k cur f envid func : inside K k0 k (Some cur) →
  wp (sys_env_set_upcall f envid func) (λ _ k', inside K k0 k' (Some cur)) (left_kernel K k0) k.
Proof.
  intros H. eapply with_env_wp; [apply H|exact H|]. intros i e Hl. apply wp_bind.
  eapply env_upd_inside; [exact H|exact (proj1 Hl)|apply keeps_upcall|auto].
Qed.

Lemma sys_env_destroy_wp k0 k cur envid : inside K k0 k (Some cur) →
  wp (sys_env_destroy envid) (λ _ k', inside K k0 k' (Some cur)) (left_kernel K k0) k.
Proof.
  intros H. apply (with_env_wp K k cur envid true (λ e, c ← curenv_deref; ce ← env_get c; x ← env_get e;
    (if e =? c then cprintf "[%08x] exiting gracefully\n" [env_id ce]
     else cprintf "[%08x] destroying %08x\n" [env_id ce; env_id x]) ;; env_destroy e ;; mret 0));
    [apply H|exact H|]. intros i e Hl. pose proof (in_ok _ _ _ _ H) as [_ Hr].
  apply wp_bind. eapply curenv_deref_wp; [exact Hr|]. destruct Hr as (c & _ & _ & ce & Hlc & _).
  apply wp_bind. eapply env_get_wp; [exact (proj1 Hlc)|]. apply wp_bind. eapply env_get_wp; [exact (proj1 Hl)|].
  apply wp_bind. destruct (i =? cur); apply cprintf_wp, wp_bind;
    (eapply wp_conseq; [eapply env_destroy_wp; [apply inside_log, H|exact Hl]|auto]).
Qed.

(** The address that a check records. *)
Lemma inside_check k0 k cur a : inside K k0 k cur → inside K k0 (set_kpm (with_check_addr a (kpm k)) k) cur.
Proof.
  intros [[(l & R & x & kp & fl & [Hv He]) Hr] ? ?]. split; [split|assumption..]; [|exact Hr].
  exists l, R, x, kp, fl. split; [|exact He]. destruct Hv as [H1 H2 H3 H4 H5 H6]. split; [|assumption..]. eapply vm_inv_ext; [exact H1|reflexivity..].
Qed.

(** The check of a user's pointer for the current environment: it comes back
    only to go on. *)
Lemma user_mem_assert_wp k0 k i va len perm : inside K k0 k (Some i) → u32_range va →
  wp (user_mem_assert i va len perm) (λ _ k', k' = k) (left_kernel K k0) k.
Proof.
  intros H Hs. pose proof (in_ok _ _ _ _ H) as [(l & R & x & kp & fl & Hsp) (c & _ & _ & ce & Hlc & _)].
  unfold user_mem_assert. apply wp_bind. eapply env_get_wp; [exact (proj1 Hlc)|].
  destruct (live_pgdir _ _ _ _ _ _ _ _ _ Hsp Hlc) as (pd & Hpd & -> & _). apply wp_bind.
  destruct (user_mem_check_total (kpm k) pd va len (Z.lor perm PTE_U) (kspace_walkable _ _ _ _ _ _ _ Hsp Hpd) Hs) as [E|[a E]];
    (eapply wp_Ret; [apply inpm_Ret; exact E|]).
  - rewrite set_kpm_same. reflexivity.
  - change (- E_FAULT <? 0) with true. cbn [when]. apply wp_bind. eapply wp_Ret; [reflexivity|]. cbv beta. apply wp_bind, cprintf_wp.
    eapply wp_conseq; [eapply (env_destroy_self_wp k0 _ i); [apply inside_log, inside_check, H|exact Hlc]|intros ? ? []].
Qed.

(** ** Printing a string *)

(** The kernel's fault on an address that is not mapped. *)
Definition page_fault : stop := SPanic "page fault in kernel mode!".

(** An address that the kernel reads to print the string: one of the characters
    it prints or the one after them. *)
Definition unreadable k (s len : Z) : Prop :=
  ∃ j, 0 ≤ j ∧ (0 ≤ s32 len → j ≤ s32 len) ∧ kaddr (kpm k) false (w32 (s + j)) = None.

Lemma read_chars_wp (t : pm) (s prec : Z) : ∀ fuel j, 0 ≤ j →
  (0 ≤ prec → j ≤ prec ∧ Z.of_nat fuel = prec - j + 1) →
  (prec < 0 → ∃ n, j ≤ n < j + Z.of_nat fuel ∧ kaddr t false (w32 (s + n)) = None) →
  wp (read_chars fuel (w32 (s + j)) (if prec <? 0 then prec else prec - j)) (λ _ t', t' = t)
    (λ w t', w = page_fault ∧ t' = t ∧ ∃ n, 0 ≤ n ∧ (0 ≤ prec → n ≤ prec) ∧ kaddr t false (w32 (s + n)) = None) t.
Proof.
  intros fuel. induction fuel as [|fuel IH]; intros j Hj Hp Hg.
  - destruct (Z_lt_le_dec prec 0) as [Hn|Hn]; [destruct (Hg Hn)|destruct (Hp Hn)]; lia.
  - cbn [read_chars]. apply wp_bind. unfold wp at 1, vld8. destruct (kaddr t false (w32 (s + j))) as [a|] eqn:Ea.
    2: { split; [reflexivity|]. split; [reflexivity|]. exists j. split; [lia|]. split; [lia|exact Ea]. }
    cbv zeta. destruct (_ || _) eqn:Estop; [reflexivity|]. apply orb_false_iff in Estop as [_ Estop].
    assert (w32 (w32 (s + j) + 1) = w32 (s + (j + 1))) as -> by (unfold w32; rewrite Zplus_mod_idemp_l; f_equal; lia).
    apply wp_bind. apply wp_conseq with (Q := λ _ t', t' = t); [|intros l ? ->; reflexivity].
    destruct (Z.ltb_spec prec 0) as [Hn|Hn].
    + rewrite (proj2 (Z.ltb_lt _ _) Hn). apply (IH (j + 1)); [lia|lia|].
      intros _. destruct (Hg Hn) as (n & Hr & E). exists n. split; [|exact E]. destruct (Z.eq_dec n j) as [->|]; [congruence|lia].
    + destruct (Hp Hn) as [Hle Hf]. assert (j < prec) as Hlt by lia.
      rewrite (proj2 (Z.ltb_ge (prec - j) 0)) by lia. replace (prec - j - 1) with (prec - (j + 1)) by lia. apply (IH (j + 1)); lia.
Qed.

Lemma cprintf_chars_wp k0 k cur s len : inside K k0 k (Some cur) → has_gap k → u32_range s →
  wp (cprintf_chars len s) (λ _ k', inside K k0 k' (Some cur)) (λ w _, w = page_fault ∧ unreadable k s len) k.
Proof.
  intros H Hgap Hs. unfold cprintf_chars. apply wp_bind. apply wp_mono with (Q := λ _ k', k' = k) (E := λ w _, w = page_fault ∧ unreadable k s len);
    [|intros l k' ->; apply cprintf_wp, inside_log, H|auto].
  destruct (s =? 0); [reflexivity|]. apply inpm_wp.
  pose proof (read_chars_wp (kpm k) s (s32 len) (chars_fuel (s32 len)) 0) as Hr. unfold chars_fuel in *.
  rewrite Z.add_0_r, (w32_id s), Z.sub_0_r in Hr by exact Hs.
  assert ((if s32 len <? 0 then s32 len else s32 len) = s32 len) as E by (destruct (_ <? _); reflexivity). rewrite E in Hr.
  eapply wp_mono; [apply Hr|intros l t' ->; apply set_kpm_same|intros w t' (-> & _ & n & ?); split; [reflexivity|exists n; assumption]].
  - lia.
  - intros Hp. rewrite (proj2 (Z.ltb_ge _ _) Hp). lia.
  - intros Hn. rewrite (proj2 (Z.ltb_lt _ _) Hn), Z2Nat.id by discriminate.
    destruct (gap_kaddr k (Some cur) (in_ok _ _ _ _ H) Hgap) as (va & Hva & Ea). exists ((va - s) mod 2 ^ 32).
    split; [pose proof (Z.mod_pos_bound (va - s) (2 ^ 32)); lia|]. rewrite <- Ea. f_equal.
    unfold w32. rewrite Zplus_mod_idemp_r. replace (s + (va - s)) with va by lia. apply w32_id. exact Hva.
Qed.

(** The string is printed, or the environment is destroyed, or the kernel faults
    while it reads. *)
Lemma sys_cputs_wp k cur s len : inside K k k (Some cur) → has_gap k → u32_range s →
  wp (sys_cputs s len) (λ _ k', inside K k k' (Some cur)) (λ w k', left_kernel K k w k' ∨ w = page_fault ∧ unreadable k s len) k.
Proof.
  intros H Hgap Hs. unfold sys_cputs. apply wp_bind. eapply curenv_deref_wp; [apply H|].
  apply wp_bind. eapply wp_mono; [apply user_mem_assert_wp; [exact H|exact Hs]| |auto]. intros ? k' ->.
  eapply wp_mono; [apply cprintf_chars_wp; eassumption|auto|auto].
Qed.

(** * The calls that concern pages *)

Lemma set_kpm_running k s cur : running k cur → cr3 s = cr3 (kpm k) → kern_pgdir s = kern_pgdir (kpm k) →
  running (set_kpm s k) cur.
Proof.
  intros (c & Hc & Ec & H) E1 E2. exists c. split; [exact Hc|]. split; [exact Ec|]. ksimpl. rewrite E1, E2. exact H.
Qed.

(** A page that is mapped somewhere below UTOP. *)
Lemma mapped_page k l R x kp fl pd v p : kspace K k l R x kp fl → pd ∈ R → 0 ≤ v < UVPN →
  page_of (phys (kpm k)) pd v = Some p →
  p ∉ l ∧ p ∉ R ∧ ¬ is_pt (phys (kpm k)) R p ∧ ¬ K p ∧ ∃ i, pages (kpm k) !! p = Some i.
Proof.
  intros [Hv _] Hpd Hvr E. pose proof (vs_vm _ _ _ _ _ _ Hv) as Hvm.
  destruct (vm_data _ _ _ _ Hvm _ _ _ Hpd Hvr E) as (Hb & HR & Hpt).
  split; [|split; [exact HR|split; [exact Hpt|split]]].
  - intros F. destruct (vm_free_unused _ _ _ _ _ Hvm F) as (_ & _ & G). exact (G _ _ Hpd Hvr E).
  - intros F. destruct (vs_kern _ _ _ _ _ _ Hv p F) as (_ & _ & G). apply G. right. right. eauto.
  - apply (page_inv_lookup _ _ p (vm_pages _ _ _ _ Hvm) Hb).
Qed.

Lemma insert_inside k0 k cur l R x kp fl pd pp va perm i : inside K k0 k cur → kspace K k l R x kp fl →
  pd ∈ R → user_va va → pages (kpm k) !! pp = Some i → pp ∉ l → pp ∉ R → ¬ is_pt (phys (kpm k)) R pp → ¬ K pp →
  pp_ref i < 65535 → perm_ok perm →
  inpm_cur (λ cur, page_insert cur (kva_of pd) pp va perm) k = Ret (- E_NO_MEM) k ∨
  ∃ s, inpm_cur (λ cur, page_insert cur (kva_of pd) pp va perm) k = Ret 0 (set_kpm s k) ∧ inside K k0 (set_kpm s k) cur.
Proof.
  intros [[_ Hr] Hl Hk] [Hv He] Hpd Hva Hi Hpl HpR Hpt HpK Href Hperm. pose proof (vs_vm _ _ _ _ _ _ Hv) as Hvm.
  destruct (insert_run (cur_pgdir k) (kpm k) l R x pd pp va perm i) as [(_ & _ & E)|(s & l' & E & I)]; try assumption.
  { left. rewrite (inpm_cur_Ret _ _ _ _ E), set_kpm_same. reflexivity. }
  right. exists s. split; [apply (inpm_cur_Ret _ _ _ _ E)|].
  assert (0 ≤ pp < npages (kpm k)) as Hb by (apply (pi_dom _ _ (vm_pages _ _ _ _ Hvm)); eauto).
  pose proof (vm_npages _ _ _ _ Hvm).
  destruct (vspace_inserted K _ _ _ _ _ _ _ _ _ _ _ Hv I) as [Hv' Hk']; [|exact HpK|].
  { apply frame_of_page; [lia|]. apply lor_perm_range; [assumption|split; reflexivity || discriminate]. }
  destruct (in_kern _ _ _ _ _ _ _ _ _ _ I) as [Ek Ec]. split; [split| |].
  - exists l', R, x, kp, fl. split; [exact Hv'|exact He].
  - apply set_kpm_running; assumption.
  - exact Hl.
  - etransitivity; [exact Hk|exact Hk'].
Qed.

Definition refs_small k : Prop := ∀ p i, pages (kpm k) !! p = Some i → pp_ref i < 65535.

Lemma sys_page_map_wp k0 k cur srcenvid srcva dstenvid dstva perm : inside K k0 k (Some cur) → refs_small k →
  u32_range srcva → u32_range dstva → perm_ok perm →
  wp (sys_page_map srcenvid srcva dstenvid dstva perm) (λ _ k', inside K k0 k' (Some cur)) (left_kernel K k0) k.
Proof.
  intros H Hsm Hsu Hdu Hperm. eapply with_env_wp; [apply H|exact H|]. intros i es Hes.
  eapply with_env_wp; [apply H|exact H|]. intros j ed Hed.
  destruct (bad_va srcva) eqn:Hbs; [exact H|]. destruct (bad_va dstva) eqn:Hbd; [exact H|]. cbn [orb].
  destruct (good_va srcva Hbs Hsu) as [Hus _], (good_va dstva Hbd Hdu) as [Hud _].
  pose proof (in_ok _ _ _ _ H) as [(l & R & x & kp & fl & Hsp) _].
  destruct (live_pgdir _ _ _ _ _ _ _ _ _ Hsp Hes) as (ps & Hps & Eps & _).
  destruct (live_pgdir _ _ _ _ _ _ _ _ _ Hsp Hed) as (pd & Hpd & Epd & _).
  apply wp_bind. eapply env_get_wp; [exact (proj1 Hes)|]. rewrite Eps.
  destruct (user_va_idx srcva Hus) as (_ & _ & _ & _ & Hv).
  destruct (vm_lookup (kpm k) l R x ps srcva (vs_vm _ _ _ _ _ _ (ksp_vm _ _ _ _ _ _ _ Hsp)) Hps Hus) as (ppte & El & _).
  apply wp_bind. eapply wp_Ret; [apply inpm_Ret; exact El|]. rewrite set_kpm_same.
  destruct (page_of (phys (kpm k)) ps (srcva / PGSIZE)) as [pp|] eqn:Ep; [|exact H].
  destruct ppte as [ppte|]; [|exact H]. destruct (bad_perm perm); [exact H|].
  apply wp_bind. eapply wp_Ret; [apply inpm_Ret; reflexivity|]. rewrite set_kpm_same. destruct (_ && _); [exact H|].
  apply wp_bind. eapply env_get_wp; [exact (proj1 Hed)|]. rewrite Epd.
  destruct (mapped_page _ _ _ _ _ _ _ _ _ Hsp Hps Hv Ep) as (H1 & H2 & H3 & H4 & f & Hf).
  destruct (insert_inside k0 k (Some cur) l R x kp fl pd pp dstva perm f H Hsp Hpd Hud Hf H1 H2 H3 H4 (Hsm _ _ Hf) Hperm)
    as [E|(s & E & H')]; (eapply wp_Ret; [exact E|assumption]).
Qed.

Lemma sys_page_unmap_wp k0 k cur envid va : inside K k0 k (Some cur) → u32_range va →
  wp (sys_page_unmap envid va) (λ _ k', inside K k0 k' (Some cur)) (left_kernel K k0) k.
Proof.
  intros H Hu. eapply with_env_wp; [apply H|exact H|]. intros i e Hl.
  destruct (bad_va va) eqn:Hb; [exact H|]. destruct (good_va va Hb Hu) as [Hva _].
  pose proof H as [[(l & R & x & kp & fl & Hsp) Hr] Hlk Hk]. pose proof Hsp as [Hv He].
  destruct (live_pgdir _ _ _ _ _ _ _ _ _ Hsp Hl) as (pd & Hpd & Epd & _).
  apply wp_bind. eapply env_get_wp; [exact (proj1 Hl)|]. rewrite Epd. apply wp_bind.
  destruct (remove_cleared (cur_pgdir k) (kpm k) l R x pd va (vs_vm _ _ _ _ _ _ Hv) Hpd Hva) as (s & l' & E & C).
  eapply wp_Ret; [apply (inpm_cur_Ret _ _ _ _ E)|].
  destruct (vspace_cleared K _ _ _ _ _ _ _ _ _ Hv C) as [Hv' Hk']. destruct (cl_kern _ _ _ _ _ _ _ _ C) as [Ek Ec].
  split; [split| |].
  - exists l', R, x, kp, fl. split; [exact Hv'|exact He].
  - apply set_kpm_running; assumption.
  - exact Hlk.
  - etransitivity; [exact Hk|exact Hk'].
Qed.

(** The one panic that a system call can cause. *)
Definition alloc_panic : stop := SPanic "page_free: pp->pp_ref is nonzero!".

Lemma sys_page_alloc_wp k0 k cur envid va perm : inside K k0 k (Some cur) → u32_range va → perm_ok perm →
  wp (sys_page_alloc envid va perm) (λ _ k', inside K k0 k' (Some cur)) (λ w _, w = alloc_panic) k.
Proof.
  intros H Hu Hperm. eapply with_env_wp; [apply H|exact H|]. intros i e Hl.
  destruct (bad_va va) eqn:Hb; [exact H|]. destruct (good_va va Hb Hu) as [Hva _].
  destruct (bad_perm perm); [exact H|].
  pose proof H as [[(l & R & x & kp & fl & Hsp) Hr] Hlk Hk]. pose proof Hsp as [Hv He].
  pose proof (vs_vm _ _ _ _ _ _ Hv) as Hvm. destruct l as [|p l].
  { apply wp_bind. eapply wp_Ret; [apply inpm_Ret, (page_alloc_none 1 _ (vm_pages _ _ _ _ Hvm))|].
    rewrite set_kpm_same. exact H. }
  destruct (live_pgdir _ _ _ _ _ _ _ _ _ Hsp Hl) as (pd & Hpd & Epd & _).
  destruct (page_alloc_take k l R x p Hvm) as (h & Hh & Ea & Ei).
  destruct (vspace_take K (kpm k) l R x kp p h (memset (phys (kpm k)) (p * PGSIZE) 0 PGSIZE) Hv Hh) as [Hv1 Hk1].
  { intros q j Hj Hq. rewrite wd_memset, decide_False by assumption. reflexivity. }
  apply wp_bind. eapply wp_Ret; [exact Ea|]. apply wp_bind. eapply wp_Ret; [apply inpm_Ret; exact Ei|]. ksimpl.
  change (set_kpm ?s (set_kpm _ k)) with (set_kpm s k). set (s1 := with_phys _ _) in *.
  assert (inside K k0 (set_kpm s1 k) (Some cur)) as H1.
  { split; [split| |].
    - exists l, R, (held p x), kp, fl. split; [exact Hv1|exact He].
    - apply set_kpm_running; [exact Hr|reflexivity..].
    - exact Hlk.
    - etransitivity; [exact Hk|exact Hk1]. }
  pose proof (vs_vm _ _ _ _ _ _ Hv1) as Hvm1.
  destruct (vm_free_unused _ _ _ _ p Hvm (list_elem_of_here _ _)) as (HpR & Hpt & _).
  apply wp_bind. eapply env_get_wp; [exact (proj1 Hl)|]. rewrite Epd. apply wp_bind.
  destruct (insert_inside k0 (set_kpm s1 k) (Some cur) l R (held p x) kp fl pd p va perm (MkPageInfo None 1) H1
    (Build_kspace K (set_kpm s1 k) l R (held p x) kp fl Hv1 He) Hpd Hva)
    as [E|(s & E & H')]; try assumption; try reflexivity.
  - apply lookup_insert_eq.
  - apply (held_in_use _ _ _ _ _ (vm_x _ _ _ _ Hvm) Hvm1).
  - intros F. apply Hpt, (is_pt_ext (phys (kpm k)) (phys s1)); [|exact F].
    intros. eapply same_pt_of; [|eassumption..]. intros q j Hj Hq. unfold s1. psimpl.
    rewrite wd_memset, decide_False by assumption. reflexivity.
  - intros F. apply (kern_not_free K _ _ _ _ _ _ Hv F), list_elem_of_here.
  - eapply wp_Ret; [exact E|]. change (- E_NO_MEM <? 0) with true. cbv iota. apply wp_bind. unfold wp.
    erewrite inpm_Stop; [reflexivity|]. unfold page_free. erewrite bind_Ret by (apply page_get_eq, lookup_insert_eq). reflexivity.
  - eapply wp_Ret; [exact E|]. exact H'.
Qed.

(** * Creating an environment *)

(** With the table exhausted, the free list may still point past its end, as
    env_init left it. *)
Definition past_end k (w : stop) : Prop := w = SUndef "not an environment" ∧ env_free_list k = Some NENV.

Lemma env_setup_vm_end k l R x kp fl : kspace K k l R x kp fl →
  env_setup_vm NENV k = Ret (- E_NO_MEM) k ∨ ∃ k', env_setup_vm NENV k = Stop (SUndef "not an environment") k'.
Proof.
  intros [Hv He]. pose proof (vm_pages _ _ _ _ (vs_vm _ _ _ _ _ _ Hv)) as Hp. unfold env_setup_vm.
  assert (envs k !! NENV = None) as Hn.
  { apply eq_None_not_Some. intros F%(es_dom _ _ _ _ He). lia. }
  destruct l as [|p l].
  - left. rewrite (bind_Ret _ _ _ _ _ (inpm_Ret _ _ _ _ (page_alloc_none _ _ Hp))), set_kpm_same. reflexivity.
  - right. destruct (page_alloc_some ALLOC_ZERO _ p l Hp) as (h & Hh & E).
    rewrite (bind_Ret _ _ _ _ _ (inpm_Ret _ _ _ _ E)). cbv beta iota.
    pose proof (page_inv_free_bound _ _ p Hp (list_elem_of_here _ _)). pose proof (pi_npages _ _ Hp).
    erewrite bind_Ret by (apply inpm_Ret, page2kva_page; ksimpl; assumption). ksimpl.
    eexists. apply bind_Stop. unfold env_upd. ksimpl. rewrite Hn. reflexivity.
Qed.

Lemma env_alloc_wp k0 k cur parent : inside K k0 k (Some cur) →
  wp (env_alloc parent) (λ r k', inside K k0 k' (Some cur) ∧
    (r.1 < 0 ∨ ∃ i e, r = (0, Some i) ∧ live k' i e ∧ i ≠ cur)) (λ w _, past_end k w) k.
Proof.
  intros H. pose proof H as [[(l & R & x & kp & fl & Hsp) Hr] Hlk Hk]. pose proof Hsp as [Hv He].
  pose proof (es_chain _ _ _ _ He) as Hch. destruct Hr as (c & Hc & Ec & ce & Hlc & Hcr).
  inversion Hch as [h [Hh|Hh] E1 E2|i e fl' Hi Hch' E1 E2]; subst.
  - unfold env_alloc, wp. rewrite bind_gets, Hh. split; [exact H|left; reflexivity].
  - unfold env_alloc, wp. rewrite bind_gets, Hh.
    destruct (env_setup_vm_end _ _ _ _ _ _ Hsp) as [E|[k' E]].
    + rewrite (bind_Ret _ _ _ _ _ E). change (- E_NO_MEM <? 0) with true. split; [exact H|left; reflexivity].
    + rewrite (bind_Stop _ _ _ _ _ E). split; [reflexivity|exact Hh].
  - pose proof (vs_vm _ _ _ _ _ _ Hv) as Hvm. destruct l as [|p l].
    { eapply wp_Ret; [eapply env_alloc_nomem; [exact Hvm|symmetry; eassumption]|]. split; [exact H|left; reflexivity]. }
    destruct (vs_kp _ _ _ _ _ _ Hv) as [Ekp HKp]. destruct (vs_kern _ _ _ _ _ _ Hv kp HKp) as (Hb & _).
    assert (0 ≤ i < NENV) as Hir by (apply (es_dom _ _ _ _ He); eauto).
    assert (env_status e = ENV_FREE) as Hf by (apply (es_free _ _ _ _ He _ _ Hi), list_elem_of_here).
    assert (i ≠ cur) as Hne by (intros ->; destruct Hlc as [Hce Hs]; congruence).
    destruct (env_alloc_run k l R x i kp parent p e c Hvm) as (h & log & Hh & E);
      [symmetry; assumption|exact Hi|exact Hc| |exact Ekp|exact Hb|].
    { intros j Hj. rewrite Ec in Hj. injection Hj as <-. exists ce. apply Hlc. }
    destruct (vspace_setup K _ _ _ _ _ p h Hv Hh) as [Hv' Hk'].
    destruct (vm_free_unused _ _ _ _ p Hvm (list_elem_of_here _ _)) as (HpR & _).
    destruct (new_env_id parent i p e Hir (es_id _ _ _ _ He _ _ Hi)) as (Hid & HX & _).
    eapply wp_Ret; [exact E|]. split; [split; [split| |]|].
    + exists l, (p :: R), x, kp, fl'. split; [exact Hv'|]. rewrite <- E1 in He.
      apply espace_alloc; try assumption; try reflexivity; [discriminate|].
      exact (es_ipc _ _ _ _ He _ _ Hi).
    + exists c. split; [exact Hc|]. split; [exact Ec|]. exists ce. split; [|exact Hcr].
      destruct Hlc as [Hce Hs]. split; [ksimpl; rewrite lookup_insert_ne by assumption|]; assumption.
    + exact Hlk.
    + etransitivity; [exact Hk|exact Hk'].
    + right. exists i, (new_env parent i p e). split; [reflexivity|].
      split; [split; [apply lookup_insert_eq|discriminate]|exact Hne].
Qed.

Lemma sys_exofork_wp k0 k cur : inside K k0 k (Some cur) →
  wp sys_exofork (λ _ k', inside K k0 k' (Some cur)) (λ w _, past_end k w) k.
Proof.
  intros H. unfold sys_exofork. pose proof (in_ok _ _ _ _ H) as [_ Hr]. apply wp_bind.
  eapply curenv_deref_wp; [exact Hr|]. destruct Hr as (c & _ & _ & ce & Hlc & _).
  apply wp_bind. eapply env_get_wp; [exact (proj1 Hlc)|]. apply wp_bind.
  eapply wp_conseq; [apply env_alloc_wp; exact H|]. intros r k1 [H1 Hres].
  destruct (Z.ltb_spec r.1 0); [exact H1|]. destruct Hres as [Hres|(i & e & -> & Hl & Hne)]; [lia|]. cbn [fst snd].
  apply wp_bind. eapply env_upd_live; [exact H1|exact Hl|apply keeps_status; [apply Hl|discriminate]|]. intros k2 H2 Hl2 Hk2.
  pose proof (in_ok _ _ _ _ H2) as [_ (c2 & _ & _ & ce2 & Hlc2 & _)].
  apply wp_bind. eapply env_get_wp; [exact (proj1 Hlc2)|].
  apply wp_bind. eapply env_upd_live; [exact H2|exact Hl2|apply keeps_tf|]. intros k3 H3 Hl3 _.
  apply wp_bind. eapply env_upd_live; [exact H3|exact Hl3|apply keeps_tf|]. intros k4 H4 Hl4 _.
  apply wp_bind. eapply env_get_wp; [exact (proj1 Hl4)|]. exact H4.
Qed.

(** * Message passing *)

(** Permission bits that the mapping has already leave the frame alone. *)
Lemma lor_subset pte perm : Z.land perm pte = perm → u32_range pte →
  Z.lor (frame_of pte * PGSIZE) perm = Z.lor (frame_of pte * PGSIZE) (Z.land perm 0xFFF).
Proof.
  intros Hs Hu. rewrite <- frame_of_addr. unfold PTE_ADDR. rewrite w32_id by assumption.
  apply Z.bits_inj'. intros i Hi. rewrite <- Hs, !Z.lor_spec, !Z.land_spec, Z.lnot_spec by assumption.
  change 0xFFF with (Z.ones 12). destruct (Z_lt_le_dec i 12).
  - rewrite Z.ones_spec_low by lia. rewrite andb_true_r. reflexivity.
  - rewrite Z.ones_spec_high by lia. cbn [negb]. rewrite !andb_true_r, !andb_false_r, orb_false_r.
    destruct (Z.testbit pte i); [rewrite andb_true_r|rewrite andb_false_r]; [|reflexivity]. reflexivity.
Qed.

Lemma page_insert_subset c pgdir pte va perm : Z.land perm pte = perm → u32_range pte → 0 ≤ frame_of pte < 65536 →
  page_insert c pgdir (frame_of pte) va perm = page_insert c pgdir (frame_of pte) va (Z.land perm 0xFFF).
Proof.
  intros Hs Hu Hf. unfold page_insert. rewrite page2pa_eq by assumption.
  assert (PTE_ADDR (frame_of pte * PGSIZE) = frame_of pte * PGSIZE) as ->.
  { pose proof (page2pa_ok (frame_of pte) Hf) as Hp. rewrite page2pa_eq in Hp by assumption.
    pose proof (PTE_ADDR_lor _ 0 Hp) as E. rewrite Z.lor_0_r in E. apply E. split; [discriminate|reflexivity]. }
  rewrite lor_subset by assumption. reflexivity.
Qed.

Lemma low_perm_ok perm : perm_ok (Z.land perm 0xFFF).
Proof.
  change 0xFFF with (Z.ones 12). unfold perm_ok. rewrite Z.land_ones by discriminate. apply Z.mod_pos_bound. reflexivity.
Qed.

Lemma ipc_transfer_wp k0 k cur e y srcva perm : inside K k0 k (Some cur) → refs_small k → live k e y →
  u32_range srcva →
  wp (ipc_transfer e srcva perm) (λ _ k', inside K k0 k' (Some cur) ∧ ∃ y', live k' e y') (left_kernel K k0) k.
Proof.
  intros H Hsm Hl Hsu. unfold ipc_transfer. pose proof (in_ok _ _ _ _ H) as [(l & R & x & kp & fl & Hsp) Hr].
  assert (∀ k r, inside K k0 k (Some cur) → live k e y →
    wp (env_upd e (set_env_ipc_perm r) ;; mret 0) (λ _ k', inside K k0 k' (Some cur) ∧ ∃ y', live k' e y') (left_kernel K k0) k) as Hset.
  { intros k' r H' Hl'. apply wp_bind. eapply env_upd_live; [exact H'|exact Hl'|apply keeps_ipc_perm|].
    intros k2 H2 Hl2 _. split; eauto. }
  destruct (Z.ltb_spec srcva UTOP) as [Hlt|_]; [|apply Hset; assumption].
  destruct (Z.eqb_spec (ROUNDUP srcva PGSIZE) srcva) as [_|_]; cbn [negb]; [|split; eauto].
  assert (user_va srcva) as Hus by (split; [apply Hsu|exact Hlt]).
  apply wp_bind. eapply curenv_deref_wp; [exact Hr|]. destruct Hr as (c & _ & _ & ce & Hlc & _).
  destruct (live_pgdir _ _ _ _ _ _ _ _ _ Hsp Hlc) as (ps & Hps & Eps & _).
  apply wp_bind. eapply env_get_wp; [exact (proj1 Hlc)|]. rewrite Eps. apply wp_bind.
  destruct (user_va_idx srcva Hus) as (_ & _ & _ & _ & Hv). pose proof (vs_vm _ _ _ _ _ _ (ksp_vm _ _ _ _ _ _ _ Hsp)) as Hvm.
  destruct (vm_lookup (kpm k) l R x ps srcva Hvm Hps Hus) as (ppte & El & Eppte).
  eapply wp_Ret; [apply inpm_Ret; exact El|]. rewrite set_kpm_same. pose proof (pte_of_va (kpm k) ps srcva Hus) as Ep.
  destruct (page_of (phys (kpm k)) ps (srcva / PGSIZE)) as [pp|] eqn:Epo; [|split; eauto].
  pose proof (mapped_page _ _ _ _ _ _ _ _ _ Hsp Hps Hv Epo) as (H1 & H2 & H3 & H4 & f & Hf).
  destruct (vm_data _ _ _ _ Hvm _ _ _ Hps Hv Epo) as [Hb _]. pose proof (vm_npages _ _ _ _ Hvm).
  unfold page_of in Epo. destruct (pte_of (phys (kpm k)) ps (srcva / PGSIZE)) as [pte|]; [|discriminate]. injection Epo as Epp.
  destruct (pt_of (phys (kpm k)) ps (PDX srcva)) as [t|]; [|discriminate]. subst ppte. cbn [fmap option_fmap option_map].
  apply wp_bind. eapply wp_Ret; [apply inpm_Ret, kld32_wd|]. rewrite set_kpm_same.
  assert (wd (phys (kpm k)) t (PTX srcva) = pte) as Ew by (cbv zeta in Ep; destruct (is_present _); congruence).
  pose proof (wd_range (phys (kpm k)) t (PTX srcva)) as Hpu. rewrite Ew in *.
  destruct (Z.eqb_spec (Z.land perm pte) perm) as [Hsub|_]; cbn [negb]; [|split; eauto]. destruct (_ && _); [split; eauto|].
  apply wp_bind. eapply env_get_wp; [exact (proj1 Hl)|].
  destruct (Z.ltb_spec (env_ipc_dstva y) UTOP) as [Hd|_]; [|split; eauto].
  destruct (live_pgdir _ _ _ _ _ _ _ _ _ Hsp Hl) as (pd & Hpd & Epd & _). rewrite Epd.
  assert (user_va (env_ipc_dstva y)) as Hud.
  { split; [|exact Hd]. apply (es_ipc _ _ _ _ (ksp_env _ _ _ _ _ _ _ Hsp) e y (proj1 Hl)). }
  assert (inpm_cur (λ c, page_insert c (kva_of pd) pp (env_ipc_dstva y) perm) k
    = inpm_cur (λ c, page_insert c (kva_of pd) pp (env_ipc_dstva y) (Z.land perm 0xFFF)) k) as Einp.
  { unfold inpm_cur. rewrite <- Epp. rewrite page_insert_subset; [reflexivity|exact Hsub|exact Hpu|rewrite Epp; lia]. }
  apply wp_bind. unfold wp. rewrite Einp.
  destruct (insert_inside k0 k (Some cur) l R x kp fl pd pp (env_ipc_dstva y) (Z.land perm 0xFFF) f H Hsp Hpd Hud Hf
    H1 H2 H3 H4 (Hsm _ _ Hf) (low_perm_ok perm)) as [E|(s & E & H')]; rewrite E.
  - change (- E_NO_MEM <? 0) with true. cbv iota. split; [exact H|eauto].
  - change (0 <? 0) with false. cbv iota. apply Hset; [exact H'|exact Hl].
Qed.

Lemma ipc_enqueue_wp k0 k cur e y : inside K k0 k (Some cur) → live k e y →
  wp (ipc_enqueue e) (λ _ k', inside K k0 k' (Some cur)) (left_kernel K k0) k.
Proof.
  intros H Hl. unfold ipc_enqueue. apply wp_bind. eapply env_get_wp; [exact (proj1 Hl)|]. apply wp_bind.
  eapply (wp_conseq _ (λ _ k', inside K k0 k' (Some cur) ∧ ∃ y', live k' e y')).
  - destruct (negb _); cbn [when]; [|split; eauto]. pose proof (in_ok _ _ _ _ H) as [_ Hr]. apply wp_bind.
    eapply curenv_deref_wp; [exact Hr|]. destruct Hr as (c & _ & _ & ce & Hlc & _).
    apply wp_bind. eapply env_upd_live; [exact H|exact Hlc|apply keeps_status; [apply Hlc|discriminate]|].
    intros k1 H1 Hlc1 Hk1. apply wp_bind. eapply env_get_wp; [exact (proj1 Hlc1)|].
    destruct (Hk1 _ _ Hl) as (y1 & Hl1). apply wp_bind. eapply env_upd_live; [exact H1|exact Hl1|apply keeps_waiting|].
    intros k2 H2 Hl2 _. eapply env_upd_live; [exact H2|exact Hl2|apply keeps_waiting_tail, Z.mod_pos_bound; reflexivity|]. eauto.
  - intros ? k1 [H1 (y1 & Hl1)]. apply wp_bind. eapply env_get_wp; [exact (proj1 Hl1)|]. apply wp_bind.
    eapply wp_conseq; [apply (for_range_wp (λ k', inside K k0 k' (Some cur))); [exact H1|]|].
    + intros i k2 H2. apply cprintf_wp, inside_log, H2.
    + intros ? k2 H2. apply wp_bind, cprintf_wp, inside_log, H2.
Qed.

Lemma sys_ipc_try_send_wp k0 k cur envid value srcva perm : inside K k0 k (Some cur) → refs_small k → u32_range srcva →
  wp (sys_ipc_try_send envid value srcva perm) (λ _ k', inside K k0 k' (Some cur)) (left_kernel K k0) k.
Proof.
  intros H Hsm Hu. eapply with_env_wp; [apply H|exact H|]. intros e y Hl. apply wp_bind.
  eapply env_get_wp; [exact (proj1 Hl)|]. destruct (negb _); [eapply ipc_enqueue_wp; eassumption|].
  apply wp_bind. eapply wp_conseq; [eapply ipc_transfer_wp; eassumption|]. intros r k1 [H1 (y1 & Hl1)].
  destruct (r <? 0); [exact H1|]. pose proof (in_ok _ _ _ _ H1) as [_ Hr]. apply wp_bind.
  eapply curenv_deref_wp; [exact Hr|]. destruct Hr as (c & _ & _ & ce & Hlc & _).
  apply wp_bind. eapply env_get_wp; [exact (proj1 Hlc)|].
  apply wp_bind. eapply env_upd_live; [exact H1|exact Hl1|apply keeps_ipc_recving|]. intros k2 H2 Hl2 _.
  apply wp_bind. eapply env_upd_live; [exact H2|exact Hl2|apply keeps_ipc_from|]. intros k3 H3 Hl3 _.
  apply wp_bind. eapply env_upd_live; [exact H3|exact Hl3|apply keeps_ipc_value|]. intros k4 H4 Hl4 _.
  apply wp_bind. eapply env_upd_live; [exact H4|exact Hl4|apply keeps_status; [apply Hl4|discriminate]|]. intros k5 H5 Hl5 _.
  apply wp_bind. eapply env_upd_live; [exact H5|exact Hl5|apply keeps_tf|]. intros k6 H6 _ _. exact H6.
Qed.

Lemma sys_ipc_recv_wp k0 k cur dstva : inside K k0 k (Some cur) → u32_range dstva →
  wp (sys_ipc_recv dstva) (λ _ k', inside K k0 k' (Some cur)) (left_kernel K k0) k.
Proof.
  intros H Hu. unfold sys_ipc_recv. destruct (_ && _); [exact H|].
  pose proof (in_ok _ _ _ _ H) as [_ Hr]. apply wp_bind.
  eapply curenv_deref_wp; [exact Hr|]. destruct Hr as (c & _ & _ & ce & Hlc & _).
  apply wp_bind. eapply env_upd_live; [exact H|exact Hlc|apply keeps_ipc_recving|]. intros k1 H1 Hl1 _.
  apply wp_bind. eapply env_upd_live; [exact H1|exact Hl1|apply keeps_ipc_dstva, Hu|]. intros k2 H2 Hl2 _.
  apply wp_bind. eapply env_upd_live; [exact H2|exact Hl2|apply keeps_status; [apply Hl2|discriminate]|]. intros k3 H3 Hl3 _.
  apply wp_bind. eapply env_get_wp; [exact (proj1 Hl3)|]. apply wp_bind.
  eapply (wp_conseq _ (λ _ k', inside K k0 k' (Some cur))).
  - destruct (negb _); [|exact H3]. cbv zeta. apply wp_bind.
    eapply env_upd_live; [exact H3|exact Hl3|apply keeps_waiting_head, Z.mod_pos_bound; reflexivity|]. intros k4 H4 _ _.
    eapply with_env_wp; [apply H4|exact H4|]. intros i e Hl. apply wp_bind.
    eapply env_upd_live; [exact H4|exact Hl|apply keeps_status; [apply Hl|discriminate]|]. intros k5 H5 _ _. exact H5.
  - intros r k4 H4. destruct (r <? 0); [exact H4|]. apply wp_bind.
    eapply wp_conseq; [eapply sched_yield_wp; exact H4|intros ? ? []].
Qed.

(** * Dispatch *)

Lemma sys_cgetc_wp k0 k cur : inside K k0 k (Some cur) →
  wp sys_cgetc (λ _ k', inside K k0 k' (Some cur)) (left_kernel K k0) k.
Proof.
  intros H. destruct (cons_getc_returns (kcons k)) as (c & s & E). unfold wp, sys_cgetc, incon, lift. cbn [view update kcons_lens].
  rewrite E. apply inside_cons, H.
Qed.

Lemma sys_getenvid_wp k0 k cur : inside K k0 k (Some cur) →
  wp sys_getenvid (λ _ k', inside K k0 k' (Some cur)) (left_kernel K k0) k.
Proof.
  intros H. pose proof (in_ok _ _ _ _ H) as [_ Hr]. apply wp_bind.
  eapply curenv_deref_wp; [exact Hr|]. destruct Hr as (c & _ & _ & ce & Hlc & _).
  apply wp_bind. eapply env_get_wp; [exact (proj1 Hlc)|]. exact H.
Qed.

(** The ways a system call can end other than by returning. *)
Definition leaves k0 (no a1 a2 : Z) (w : stop) k : Prop :=
  left_kernel K k0 w k ∨ no = SYS_page_alloc ∧ w = alloc_panic ∨ no = SYS_exofork ∧ past_end k0 w ∨
  no = SYS_cputs ∧ w = page_fault ∧ unreadable k0 a1 a2.

Lemma leaves_wp {A} k0 no a1 a2 (m : M ks A) Q k : wp m Q (left_kernel K k0) k → wp m Q (leaves k0 no a1 a2) k.
Proof. intros H. eapply wp_mono; [exact H|auto|]. intros w k' Hw. left. exact Hw. Qed.

Lemma drop_result_wp {A} k0 no a1 a2 cur (m : M ks A) k : wp m (λ _ k', inside K k0 k' (Some cur)) (left_kernel K k0) k →
  wp (m ;; mret 0) (λ _ k', inside K k0 k' (Some cur)) (leaves k0 no a1 a2) k.
Proof. intros H. apply wp_bind. eapply leaves_wp, wp_conseq; [exact H|auto]. Qed.

Lemma syscall_wp k cur no a1 a2 a3 a4 a5 : inside K k k (Some cur) → refs_small k → has_gap k →
  Forall u32_range [a1; a2; a3; a4; a5] →
  (no = SYS_page_alloc → perm_ok (s32 a3)) → (no = SYS_page_map → perm_ok (s32 a5)) →
  wp (syscall no a1 a2 a3 a4 a5) (λ _ k', inside K k k' (Some cur)) (leaves k no a1 a2) k.
Proof.
  intros H Hsm Hgap Hu Hp1 Hp2.
  repeat match goal with Hu : Forall _ (_ :: _) |- _ => apply Forall_cons in Hu as [? Hu] end.
  pose proof (leaves_wp (A := Z) k no a1 a2) as Hlv.
  unfold syscall.
  destruct (Z.eqb_spec no SYS_cputs); [|].
  { apply wp_bind. eapply wp_mono; [apply (sys_cputs_wp k cur a1 a2 H Hgap); assumption|auto|]. intros w k' [Hw|[Hw Hn]]; [left; exact Hw|do 3 right; auto]. }
  destruct (Z.eqb_spec no SYS_cgetc); [apply Hlv, sys_cgetc_wp; assumption|].
  destruct (Z.eqb_spec no SYS_getenvid); [apply Hlv, sys_getenvid_wp; assumption|].
  destruct (Z.eqb_spec no SYS_env_destroy); [apply drop_result_wp, sys_env_destroy_wp; assumption|].
  destruct (Z.eqb_spec no SYS_yield).
  { apply drop_result_wp. eapply wp_conseq; [apply (sched_yield_wp K _ _ _ H)|intros ? ? []]. }
  destruct (Z.eqb_spec no SYS_exofork).
  { eapply wp_mono; [apply (sys_exofork_wp k k cur H)|auto|]. intros w k' Hw. right. right. left. auto. }
  destruct (Z.eqb_spec no SYS_env_set_status); [apply Hlv, sys_env_set_status_wp; assumption|].
  destruct (Z.eqb_spec no SYS_page_alloc).
  { eapply wp_mono; [apply (sys_page_alloc_wp k k cur); auto|auto|]. intros w k' Hw. right. left. auto. }
  destruct (Z.eqb_spec no SYS_page_map); [apply Hlv, sys_page_map_wp; auto|].
  destruct (Z.eqb_spec no SYS_page_unmap); [apply Hlv, sys_page_unmap_wp; assumption|].
  destruct (Z.eqb_spec no SYS_env_set_pgfault_upcall); [apply Hlv, sys_env_set_upcall_wp; assumption|].
  destruct (Z.eqb_spec no SYS_ipc_recv); [apply Hlv, sys_ipc_recv_wp; assumption|].
  destruct (Z.eqb_spec no SYS_ipc_try_send); [apply Hlv, sys_ipc_try_send_wp; assumption|].
  repeat match goal with |- wp (if ?b then _ else _) _ _ _ => destruct b;
    [apply Hlv, sys_env_set_upcall_wp; assumption|] end.
  exact H.
Qed.
End syscalls.

(** * An example kernel *)

(** Page 0 is the directory of environment 0, page 3 the kernel's, page 1 is
    kernel data, page 2 is free. *)
Definition kern_mem : mem := st32 ∅ (4 * PDX UVPT) (uvpt_entry 0).
Definition kern_pm : pm :=
  MkPm 5 5 (list_to_map [(0, MkPageInfo None 1); (1, MkPageInfo None 0);
    (2, MkPageInfo (Some 1) 0); (3, MkPageInfo None 1); (4, MkPageInfo None 1)])
    (Some 2) (KERNBASE + 5 * PGSIZE) (kva_of 3) 0 0 MMIOBASE kern_mem 0 [] 0.
Definition kern_ks : ks :=
  MkKs kern_pm demo_envs (Some 1) {[0 := demo_cpu]} 0 (Some 0) [] demo_con demo_trapst.
Definition kern_held : Z → Z := held 3 none_held.

Lemma kern_wd p j : 0 ≤ j < 1024 → wd kern_mem p j = if decide (p = 0 ∧ j = PDX UVPT) then uvpt_entry 0 else 0.
Proof.
  intros Hj. unfold kern_mem. change (4 * PDX UVPT) with (0 * PGSIZE + 4 * PDX UVPT).
  rewrite wd_st32; [reflexivity|split; reflexivity || discriminate|assumption|split; reflexivity || discriminate].
Qed.

Lemma kern_pt_low p i : 0 ≤ i < UPDX → pt_of kern_mem p i = None.
Proof.
  intros Hi. unfold pt_of. rewrite kern_wd by (unfold UPDX in *; lia). rewrite decide_False; [reflexivity|].
  intros [_ ->]. revert Hi. vm_compute. intros [_ F]. discriminate.
Qed.

Lemma kern_pages_inv : page_inv kern_pm [2; 1].
Proof. apply page_invb_sound. vm_compute. reflexivity. Qed.

#[local] Opaque kern_mem.
Lemma kern_vm_inv : vm_inv kern_pm [2; 1] [0] kern_held.
Proof.
  pose proof kern_pages_inv as Hp. apply vm_add_root.
  - apply vm_inv_start; [exact Hp| |].
    + intros p. unfold held, kern_held, none_held, held. do 2 case_bool_decide; simpl; lia.
    + intros p i Hi. unfold held, kern_held, none_held, held. pose proof (pi_ref _ _ Hp _ _ Hi).
      destruct (decide (p = 3)) as [->|]; [injection Hi as <-; vm_compute; discriminate|].
      destruct (decide (p = 0)) as [->|]; [injection Hi as <-; vm_compute; discriminate|].
      rewrite !bool_decide_eq_false_2 by assumption. simpl. lia.
  - intros p. unfold kern_held, none_held, held. case_bool_decide; simpl; lia.
  - split; reflexivity || discriminate.
  - apply not_elem_of_nil.
  - intros (pd & i & F & _). inversion F.
  - intros pd v F. inversion F.
  - intros i Hi. apply (kern_pt_low 0 i Hi).
Qed.

Lemma kern_vspace : vspace (λ q, q = 3) kern_pm [2; 1] [0] kern_held 3.
Proof.
  pose proof kern_vm_inv as Hvm. assert (∀ pd v, 0 ≤ v < UVPN → pte_of kern_mem pd v = None) as Hpte
    by (intros pd v Hv; unfold pte_of; rewrite kern_pt_low by apply (vpn_idx v Hv); reflexivity).
  split; [exact Hvm|split; reflexivity|..].
  - intros q ->. split; [split; reflexivity || discriminate|]. split; [reflexivity|].
    intros [F|[(pd & i & _ & Hi & E)|(pd & v & _ & Hv & E)]].
    + apply list_elem_of_singleton in F. discriminate.
    + change (phys kern_pm) with kern_mem in E. rewrite kern_pt_low in E by assumption. discriminate.
    + unfold page_of in E. change (phys kern_pm) with kern_mem in E. rewrite Hpte in E by assumption. discriminate.
  - intros i Hi. apply (kern_pt_low 3 i Hi).
  - intros i t Hi. unfold pt_of. change (phys kern_pm) with kern_mem. rewrite kern_wd by (unfold UPDX in *; lia).
    rewrite decide_False by (intros [F _]; discriminate). discriminate.
  - intros pd i ->%list_elem_of_singleton Hi. change (phys kern_pm) with kern_mem.
    rewrite !kern_wd by (unfold UPDX in *; lia). rewrite (decide_False (P := 3 = 0 ∧ _)) by (intros [F _]; discriminate).
    destruct (decide (i = PDX UVPT)) as [->|Hne]; [rewrite decide_True by auto; reflexivity|].
    rewrite decide_False by tauto. reflexivity.
Qed.

Lemma demo_echain n : ∀ i, 0 ≤ i → i + Z.of_nat n = NENV → echain demo_envs (Some i) (seqZ i (Z.of_nat n)).
Proof.
  induction n as [|n IH]; intros i Hi Hn.
  - apply echain_nil. right. f_equal. lia.
  - rewrite seqZ_cons by lia. replace (Z.pred (Z.of_nat (S n))) with (Z.of_nat n) by lia.
    apply (echain_cons _ i (demo_env i)); [apply demo_envs_lookup; lia|]. apply IH; lia.
Qed.

Lemma demo_used i e : used_slot demo_envs i e → i = 0 ∧ e = demo_env 0.
Proof.
  intros [He Hs]. apply demo_envs_inv in He as [Hi ->]. destruct (Z.eq_dec i 0) as [->|Hne]; [auto|].
  destruct Hs. cbn. apply Z.eqb_neq in Hne. rewrite Hne. reflexivity.
Qed.

Lemma demo_espace : espace demo_envs (Some 1) [0] (seqZ 1 (NENV - 1)).
Proof.
  split.
  - intros i. split; [intros [e He]; apply (demo_envs_inv i e He)|intros Hi; rewrite demo_envs_lookup by assumption; eauto].
  - intros i e [-> ->]%demo_used. exists 0. split; [apply list_elem_of_here|reflexivity].
  - intros i j e f [-> ->]%demo_used [-> ->]%demo_used. reflexivity.
  - intros pd ->%list_elem_of_singleton. exists 0, (demo_env 0). split; [|reflexivity].
    split; [apply (demo_envs_lookup 0); split; reflexivity || discriminate|discriminate].
  - intros i e [_ ->]%demo_envs_inv. cbn. destruct (i =? 0); split; reflexivity || discriminate.
  - intros i e [-> ->]%demo_used. split; [reflexivity|discriminate].
  - intros i e [_ ->]%demo_envs_inv. repeat split; vm_compute; reflexivity || discriminate.
  - exact (demo_echain (Z.to_nat (NENV - 1)) 1 ltac:(lia) eq_refl).
  - apply NoDup_seqZ.
  - intros i e [Hi ->]%demo_envs_inv. rewrite elem_of_seqZ. cbn. destruct (Z.eqb_spec i 0); [|lia].
    split; [lia|discriminate].
Qed.

Lemma kern_ok : kernel_ok (λ q, q = 3) kern_ks (Some 0).
Proof.
  split.
  - exists [2; 1], [0], kern_held, 3, (seqZ 1 (NENV - 1)). split; [exact kern_vspace|exact demo_espace].
  - exists demo_cpu. split; [reflexivity|]. split; [reflexivity|]. exists (demo_env 0).
    split; [split; [apply (demo_envs_lookup 0); split; reflexivity || discriminate|discriminate]|reflexivity].
Qed.

Lemma kern_refs : refs_small kern_ks.
Proof.
  intros p i Hi. change (pages (kpm kern_ks)) with (pages kern_pm) in Hi.
  assert (map_Forall (λ _ i, pp_ref i < 65535) (pages kern_pm)) as H by decided. exact (H p i Hi).
Qed.

(** The entry that page_insert makes of page [p] and bits with frame number
    [f]. *)
Lemma page_flags q a : 0 ≤ a < 2 ^ 12 → q * PGSIZE + a = Z.lor (Z.shiftl q 12) a.
Proof. intros Ha. rewrite shiftl_lor_low by (assumption || lia). rewrite Z.shiftl_mul_pow2 by lia. reflexivity. Qed.

Lemma lor_frames p f : 0 ≤ p < 65536 → 0 ≤ f < 65536 → 0 ≤ Z.lor p f < 65536.
Proof.
  intros Hp Hf. replace (Z.lor p f) with (Z.lor p f mod 2 ^ 16); [apply Z.mod_pos_bound; lia|].
  rewrite <- Z.land_ones, Z.land_lor_distr_l, !Z.land_ones, !Z.mod_small by lia. reflexivity.
Qed.

Lemma forged_bits p f : 0 ≤ p < 65536 → 0 ≤ f < 65536 →
  let e := Z.lor p f * PGSIZE + 7 in
  is_present e = true ∧ bad_perm (f * PGSIZE + 7) = false ∧
  w32 (Z.lor (Z.lor (PTE_ADDR (p * PGSIZE)) (f * PGSIZE + 7)) PTE_P) = e ∧ frame_of e = Z.lor p f.
Proof.
  intros Hp Hf e. pose proof (lor_frames p f Hp Hf) as Hq.
  assert (e = Z.lor (Z.lor p f * PGSIZE) 7) as Ee.
  { unfold e. rewrite page_flags by (split; reflexivity || discriminate). rewrite Z.shiftl_mul_pow2 by lia. reflexivity. }
  assert (PTE_ADDR (p * PGSIZE) = p * PGSIZE) as ->.
  { pose proof (page2pa_ok p Hp) as Ho. rewrite page2pa_eq in Ho by assumption.
    pose proof (PTE_ADDR_lor _ 0 Ho) as E. rewrite Z.lor_0_r in E. apply E. split; [discriminate|reflexivity]. }
  split; [|split; [|split]].
  - rewrite Ee. change 7 with (Z.lor 6 PTE_P). rewrite Z.lor_assoc. apply is_present_lor.
  - unfold bad_perm. rewrite page_flags by (split; reflexivity || discriminate).
    rewrite Z.land_lor_distr_l. apply negb_false_iff, Z.eqb_eq, Z.bits_inj'. intros n _.
    rewrite Z.lor_spec, !Z.land_spec. change (Z.lor PTE_U PTE_P) with 5. change 7 with (Z.lor 2 5). rewrite Z.lor_spec.
    destruct (Z.testbit _ n), (Z.testbit 2 n), (Z.testbit 5 n); reflexivity.
  - rewrite (page_flags f) by (split; reflexivity || discriminate).
    replace (p * PGSIZE) with (Z.shiftl p 12) by (rewrite Z.shiftl_mul_pow2 by lia; reflexivity).
    rewrite Z.lor_assoc, <- Z.shiftl_lor, <- Z.lor_assoc. change (Z.lor 7 PTE_P) with 7.
    rewrite <- page_flags by (split; reflexivity || discriminate).
    apply w32_id. unfold u32_range, e, PGSIZE. lia.
  - rewrite Ee. apply frame_of_page; [assumption|split; reflexivity || discriminate].
Qed.

(** * Properties *)

Lemma kern_gap : has_gap kern_ks.
Proof.
  exists 0xEFB00000. split; [split; reflexivity || discriminate|]. split; [reflexivity|]. split; [vm_compute; discriminate|].
  split; [discriminate|]. unfold translate. change (cr3 _) with (3 * PGSIZE).
  fold (wd (phys (with_cr3 (kern_pgdir (kpm kern_ks) - KERNBASE) (kpm kern_ks))) 3 (PDX 0xEFB00000)).
  change (phys _) with kern_mem. rewrite kern_wd by apply PDX_range. rewrite decide_False by (intros [F _]; discriminate). reflexivity.
Qed.

(** C3. What a system call does to the kernel's invariant.  The call is made by
    a live environment with the lock held, in a state that satisfies the
    invariant and in which (a) no reference count is at its maximum, (b) for
    sys_page_alloc and sys_page_map the permission bits fit below the frame
    number, which these calls do not check (C40 shows what happens otherwise),
    and (c) some address between UTOP and KERNBASE is not mapped.  Then there
    are four cases.  The call returns, the same environment still current and
    the lock still held; or it switches to an environment, which is live and
    whose page directory is loaded, or halts the CPU under the kernel's page
    directory, with the lock released; or the monitor starts; or it ends in one
    of three failures: the panic of [sys_page_alloc], the overrun of the
    environment table by [sys_exofork], and a page fault of the kernel in
    [sys_cputs], on an address that it reads to print the string (the
    characters and one byte after them) and that is not mapped.  In the first
    three cases the invariant holds afterwards (address spaces are disjoint as
    trees, none maps a kernel page or a page table, all share the kernel's
    half, every reference is counted, and the free lists are exact) and the
    pages the kernel keeps for itself have their old contents. *)
Theorem syscall_preserves_kernel (K : Z → Prop) (k : ks) (cur no a1 a2 a3 a4 a5 : Z) :
  kernel_ok K k (Some cur) → klock k = Some (cpunum k) → refs_small k → has_gap k →
  Forall u32_range [a1; a2; a3; a4; a5] →
  (no = SYS_page_alloc → perm_ok (s32 a3)) → (no = SYS_page_map → perm_ok (s32 a5)) →
  match syscall no a1 a2 a3 a4 a5 k with
  | Ret _ k' => kernel_ok K k' (Some cur) ∧ klock k' = Some (cpunum k') ∧ kept K (phys (kpm k)) (phys (kpm k'))
  | Stop (SRun e) k' => kernel_ok K k' (Some e) ∧ klock k' = None ∧ kept K (phys (kpm k)) (phys (kpm k'))
  | Stop SHalt k' => kernel_ok K k' None ∧ klock k' = None ∧ kept K (phys (kpm k)) (phys (kpm k'))
  | Stop SMonitor k' => (∃ cur', kernel_ok K k' cur') ∧ kept K (phys (kpm k)) (phys (kpm k'))
  | Stop (SPanic msg) _ =>
      no = SYS_page_alloc ∧ msg = "page_free: pp->pp_ref is nonzero!"%string ∨
      no = SYS_cputs ∧ msg = "page fault in kernel mode!"%string ∧ unreadable k a1 a2
  | Stop (SUndef _) _ => no = SYS_exofork ∧ env_free_list k = Some NENV
  | Stop _ _ => False
  end.
Proof.
  intros H Hl Hsm Hgap Hu Hp1 Hp2. assert (inside K k k (Some cur)) as Hin by (split; [exact H|exact Hl|reflexivity]).
  pose proof (syscall_wp K k cur no a1 a2 a3 a4 a5 Hin Hsm Hgap Hu Hp1 Hp2) as Hw. unfold wp in Hw.
  destruct (syscall no a1 a2 a3 a4 a5 k) as [r k'|w k'].
  - destruct Hw as [? ? ?]. auto.
  - destruct Hw as [[Hk Hw]|[[-> ->]|[[-> [-> Hw]]|(-> & -> & Hw)]]];
      [|left; split; reflexivity|split; [reflexivity|exact Hw]|right; auto].
    destruct w; try contradiction; [destruct Hw; auto..|auto].
Qed.

Lemma syscall_preserves_kernel_witness : ∃ r k',
  syscall SYS_page_alloc 0 0x802000 7 0 0 kern_ks = Ret r k' ∧ kernel_ok (λ q, q = 3) k' (Some 0).
Proof.
  pose proof (syscall_preserves_kernel (λ q, q = 3) kern_ks 0 SYS_page_alloc 0 0x802000 7 0 0 kern_ok eq_refl kern_refs kern_gap) as H.
  assert (∃ r k', syscall SYS_page_alloc 0 0x802000 7 0 0 kern_ks = Ret r k') as (r & k' & E).
  { destruct (syscall SYS_page_alloc 0 0x802000 7 0 0 kern_ks) as [r k'|w k'] eqn:E; [eauto|].
    exfalso. apply (f_equal (λ o, match o with Ret _ _ => true | Stop _ _ => false end)) in E. vm_compute in E. discriminate. }
  exists r, k'. split; [exact E|]. rewrite E in H. apply H.
  - repeat constructor; vm_compute; reflexivity || discriminate.
  - intros _. split; vm_compute; reflexivity || discriminate.
  - intros F. discriminate F.
Defined.

(** C40. Why the bits have to fit: [sys_page_alloc] only tests that PTE_U and
    PTE_P are among the permission bits, and page_insert combines all 32 of
    them with the address of the new page.  A program that passes frame number
    [f] in the high bits gets page [p | f] mapped, readable and writable,
    where [p] is the page that was allocated: the choice of the frame is its
    own, be it the kernel's or another environment's. *)
Theorem sys_page_alloc_forges (K : Z → Prop) (k : ks) (p : Z) (l R : list Z) (x : Z → Z) (kp : Z) (fl : list Z)
    (envid i va f pd : Z) (e : Env) :
  kspace K k (p :: l) R x kp fl → envid2env envid true k = Ret (0, Some i) k → live k i e →
  env_pgdir e = kva_of pd → pd ∈ R → u32_range va → bad_va va = false → 0 ≤ f < 65536 →
  pt_of (phys (kpm k)) pd (PDX va) ≠ None ∨ l ≠ [] →
  ∃ k', sys_page_alloc envid va (f * PGSIZE + 7) k = Ret 0 k' ∧
    pte_of (phys (kpm k')) pd (va / PGSIZE) = Some (Z.lor p f * PGSIZE + 7) ∧
    page_of (phys (kpm k')) pd (va / PGSIZE) = Some (Z.lor p f).
Proof.
  intros [Hv _] Henv Hl Epd Hpd Hu Hb Hf Hroom. destruct (good_va va Hb Hu) as [Hva _].
  pose proof (vs_vm _ _ _ _ _ _ Hv) as Hvm.
  pose proof (page_inv_free_bound _ _ p (vm_pages _ _ _ _ Hvm) (list_elem_of_here _ _)) as Hpb.
  pose proof (vm_npages _ _ _ _ Hvm) as Hn. destruct (forged_bits p f ltac:(lia) Hf) as (Hbits & Hperm & Hent & Hfr).
  destruct (page_alloc_take k l R x p Hvm) as (h & Hh & Ea & Ei).
  destruct (vspace_take K (kpm k) l R x kp p h (memset (phys (kpm k)) (p * PGSIZE) 0 PGSIZE) Hv Hh) as [Hv1 _].
  { intros q j Hj Hq. rewrite wd_memset, decide_False by assumption. reflexivity. }
  set (s1 := with_phys _ _) in *. pose proof (vs_vm _ _ _ _ _ _ Hv1) as Hvm1.
  destruct (insert_entry (cur_pgdir (set_kpm s1 k)) s1 l R _ pd p va (f * PGSIZE + 7) (MkPageInfo None 1) Hvm1 Hpd Hva)
    as (s2 & E & Ept).
  - apply lookup_insert_eq.
  - apply (held_in_use _ _ _ _ _ (vm_x _ _ _ _ Hvm) Hvm1).
  - reflexivity.
  - destruct Hroom as [Hr|Hr]; [left|right; exact Hr]. intros F. apply Hr. rewrite <- F. symmetry.
    eapply (same_pt_of _ _ R p); [|apply (vm_free_unused _ _ _ _ p Hvm (list_elem_of_here _ _))|exact Hpd|apply (user_va_idx va Hva)].
    intros q j Hj Hq. unfold s1. psimpl. rewrite wd_memset, decide_False by assumption. reflexivity.
  - rewrite page2pa_eq by lia. rewrite Hent. exact Hbits.
  - rewrite page2pa_eq, Hent in Ept by lia. exists (set_kpm s2 (set_kpm s1 k)). split; [|ksimpl; unfold page_of; rewrite Ept].
    + unfold sys_page_alloc. rewrite (with_env_ok _ _ _ _ _ Henv). cbv beta. rewrite Hb, Hperm.
      rewrite (bind_Ret _ _ _ _ _ Ea). erewrite bind_Ret by (apply inpm_Ret; exact Ei). ksimpl.
      change (set_kpm s1 (set_kpm _ k)) with (set_kpm s1 k).
      rewrite (bind_Ret _ _ _ _ _ (env_get_eq (set_kpm s1 k) i e (proj1 Hl))), Epd.
      rewrite (bind_Ret _ _ _ _ _ (inpm_cur_Ret _ _ _ _ E)). reflexivity.
    + split; [reflexivity|]. cbn. rewrite Hfr. reflexivity.
Qed.

(** The kernel's page directory, page 3, is mapped at 0x802000. *)
Lemma sys_page_alloc_forges_witness : ∃ k',
  sys_page_alloc 0 0x802000 (1 * PGSIZE + 7) kern_ks = Ret 0 k' ∧
  page_of (phys (kpm k')) 0 (0x802000 / PGSIZE) = Some 3 ∧ kern_pgdir (kpm kern_ks) = kva_of 3.
Proof.
  destruct (sys_page_alloc_forges (λ q, q = 3) kern_ks 2 [1] [0] kern_held 3 (seqZ 1 (NENV - 1)) 0 0 0x802000 1 0 (demo_env 0))
    as (k' & E & _ & Ep).
  - split; [exact kern_vspace|exact demo_espace].
  - reflexivity.
  - split; [apply (demo_envs_lookup 0); split; reflexivity || discriminate|discriminate].
  - reflexivity.
  - apply list_elem_of_here.
  - split; reflexivity || discriminate.
  - reflexivity.
  - split; reflexivity || discriminate.
  - right. discriminate.
  - exists k'. split; [exact E|]. split; [exact Ep|reflexivity].
Defined.
