(* ===== verification/Trap.v ===== *)
(** Traps (kern/trap.c): the interrupt descriptor table, the task state of each
    CPU, the exception handlers that pass an exception on to the user's own
    handler, and the way into and out of the kernel. *)
From S2P Require Import Prelude Mmu Mem Pages PageTable AddrSpace UserMem Console KState Lapic Env Syscall.

(** * inc/mmu.h: gates and segments *)

Definition STA_X : Z := 0x8.
Definition STA_W : Z := 0x2.
Definition STA_R : Z := 0x2.
Definition STS_T32A : Z := 0x9.
Definition STS_IG32 : Z := 0xE.
Definition STS_TG32 : Z := 0xF.

(** The value SETGATE stores in a gate. *)
Definition SETGATE (istrap sel off dpl : Z) : Gatedesc :=
  MkGate (Z.land (w32 off) 0xffff) sel 0 0 (if ctrue istrap then STS_TG32 else STS_IG32) 0 dpl 1
    (Z.shiftr (w32 off) 16).

Definition SEG_NULL : Segdesc := MkSeg 0 0 0 0 0 0 0 0 0 0 0 0 0.
Definition SEG (type base lim dpl : Z) : Segdesc :=
  MkSeg (Z.land (Z.shiftr lim 12) 0xffff) (Z.land base 0xffff) (Z.land (Z.shiftr base 16) 0xff)
    type 1 dpl 1 (Z.shiftr lim 28) 0 0 1 1 (Z.shiftr base 24).
Definition SEG16 (type base lim dpl : Z) : Segdesc :=
  MkSeg (Z.land lim 0xffff) (Z.land base 0xffff) (Z.land (Z.shiftr base 16) 0xff)
    type 1 dpl 1 (Z.shiftr lim 16) 0 0 1 0 (Z.shiftr base 24).
Definition set_sd_s (v : Z) (d : Segdesc) : Segdesc :=
  MkSeg (sd_lim_15_0 d) (sd_base_15_0 d) (sd_base_23_16 d) (sd_type d) v (sd_dpl d) (sd_p d)
    (sd_lim_19_16 d) (sd_avl d) (sd_rsv1 d) (sd_db d) (sd_g d) (sd_base_31_24 d).

(** The initial contents of [gdt]. *)
Definition gdt_init : gmap Z Segdesc :=
  <[Z.shiftr GD_KT 3 := SEG (Z.lor STA_X STA_R) 0x0 0xffffffff 0]>
  (<[Z.shiftr GD_KD 3 := SEG STA_W 0x0 0xffffffff 0]>
  (<[Z.shiftr GD_UT 3 := SEG (Z.lor STA_X STA_R) 0x0 0xffffffff 3]>
  (<[Z.shiftr GD_UD 3 := SEG STA_W 0x0 0xffffffff 3]>
  (list_to_map ((λ i, (i, SEG_NULL)) <$> seqZ 0 (NCPU + 5)))))).

(** * Descriptor tables *)

Definition excnames : list string :=
  ["Divide error"; "Debug"; "Non-Maskable Interrupt"; "Breakpoint"; "Overflow";
   "BOUND Range Exceeded"; "Invalid Opcode"; "Device Not Available"; "Double Fault";
   "Coprocessor Segment Overrun"; "Invalid TSS"; "Segment Not Present"; "Stack Fault";
   "General Protection"; "Page Fault"; "(unknown trap)"; "x87 FPU Floating-Point Error";
   "Alignment Check"; "Machine-Check"; "SIMD Floating-Point Exception"]%string.

(** [trapno] is an int; the comparison with the size of the table is
    unsigned. *)
Definition trapname (trapno : Z) : string :=
  if w32 trapno <? 20 then nth (Z.to_nat (w32 trapno)) excnames ""%string
  else if trapno =? T_SYSCALL then "System call"%string
  else if (trapno >=? IRQ_OFFSET) && (trapno <? IRQ_OFFSET + 16) then "Hardware Interrupt"%string
  else "(unknown trap)"%string.

Section trap.
(** What lies outside the C code: the addresses of the entry points of
    kern/trapentry.S and of the task state of each CPU, the faulting address
    in %cr2, and %eflags as the kernel is entered. *)
Context (t_handler cpu_ts : Z → Z) (rcr2 eflags : Z).

Definition setgate (i : Z) (g : Gatedesc) : M ks unit :=
  intrap (λ t, set_idt (<[i := g]> (idt t)) t).

Definition sizeof_Taskstate : Z := 104.

Definition trap_init_percpu : M ks unit :=
  c ← thiscpu;
  let cid := cpu_id c in
  thiscpu_upd (set_ts_esp0 (w32 (KSTACKTOP - cid * (KSTKSIZE + KSTKGAP)))) ;;
  thiscpu_upd (set_ts_ss0 GD_KD) ;;
  n ← gets cpunum;
  let slot := Z.shiftr GD_TSS0 3 + cid in
  intrap (λ t, set_gdt (<[slot := SEG16 STS_T32A (cpu_ts n) (sizeof_Taskstate - 1) 0]> (gdt t)) t) ;;
  intrap (λ t, set_gdt (alter (set_sd_s 0) slot (gdt t)) t) ;;
  intrap (λ t, set_task_reg (<[n := GD_TSS0 + 8 * cid]> (task_reg t)) t).

Definition trap_init : M ks unit :=
  for_range 20 0 1 (λ i,
    if i =? T_BRKPT then setgate i (SETGATE 0 GD_KT (t_handler i) 3)
    else when (negb (i =? 9) && negb (i =? 15)) (setgate i (SETGATE 0 GD_KT (t_handler i) 0))) ;;
  setgate T_SYSCALL (SETGATE 0 GD_KT (t_handler 20) 3) ;;
  for_range 16 0 1 (λ i, setgate (IRQ_OFFSET + i) (SETGATE 0 GD_KT (t_handler (21 + i)) 0)) ;;
  setgate T_NMI (SETGATE 0 GD_KT (t_handler 2) 3) ;;
  setgate T_OFLOW (SETGATE 0 GD_KT (t_handler T_OFLOW) 3) ;;
  setgate T_BOUND (SETGATE 0 GD_KT (t_handler T_BOUND) 3) ;;
  setgate T_DBLFLT (SETGATE 0 GD_KT (t_handler T_DBLFLT) 3) ;;
  trap_init_percpu.

(** * Trap frames *)

Definition tf_get (r : tfref) : M ks Trapframe :=
  match r with
  | TfStack _ t => mret t
  | TfEnv e => x ← env_get e; mret (env_tf x)
  end.

(** Nothing reads a frame of the kernel stack after a system call has stored
    its result there: trap returns through [env_tf]. *)
Definition tf_set_eax (r : tfref) (v : Z) : M ks unit :=
  match r with
  | TfStack _ _ => mret tt
  | TfEnv e => env_upd e (λ x, set_env_tf (set_tf_regs (set_reg_eax v (tf_regs (env_tf x))) (env_tf x)) x)
  end.

Definition tf_addr (r : tfref) : M ks Z :=
  match r with
  | TfStack a _ => mret a
  | TfEnv e => b ← gets (λ s, envs_kva (kpm s)); mret (b + e * sizeof_Env)
  end.

(** Comparison of trap frame pointers. *)
Definition same_tf (r1 r2 : tfref) : bool :=
  match r1, r2 with
  | TfStack a _, TfStack b _ => a =? b
  | TfEnv a, TfEnv b => a =? b
  | _, _ => false
  end.

Definition print_regs (regs : PushRegs) : M ks unit :=
  cprintf "  edi  0x%08x\n" [reg_edi regs] ;;
  cprintf "  esi  0x%08x\n" [reg_esi regs] ;;
  cprintf "  ebp  0x%08x\n" [reg_ebp regs] ;;
  cprintf "  oesp 0x%08x\n" [reg_oesp regs] ;;
  cprintf "  ebx  0x%08x\n" [reg_ebx regs] ;;
  cprintf "  edx  0x%08x\n" [reg_edx regs] ;;
  cprintf "  ecx  0x%08x\n" [reg_ecx regs] ;;
  cprintf "  eax  0x%08x\n" [reg_eax regs].

(** The log has the strings of %s arguments in place. *)
Definition print_trapframe (r : tfref) : M ks unit :=
  tf ← tf_get r;
  a ← tf_addr r;
  n ← gets cpunum;
  cprintf "TRAP frame at %p from CPU %d\n" [a; n] ;;
  print_regs (tf_regs tf) ;;
  cprintf "  es   0x----%04x\n" [tf_es tf] ;;
  cprintf "  ds   0x----%04x\n" [tf_ds tf] ;;
  cprintf ("  trap 0x%08x " ++ trapname (s32 (tf_trapno tf)) ++ "\n")%string [tf_trapno tf] ;;
  l ← gets (λ s, last_tf (ktrap s));
  when (match l with Some l => same_tf r l | None => false end && (tf_trapno tf =? T_PGFLT))
    (cprintf "  cr2  0x%08x\n" [rcr2]) ;;
  cprintf "  err  0x%08x" [tf_err tf] ;;
  (if tf_trapno tf =? T_PGFLT
   then cprintf (" [" ++ (if ctrue (Z.land (tf_err tf) 4) then "user" else "kernel") ++ ", "
                 ++ (if ctrue (Z.land (tf_err tf) 2) then "write" else "read") ++ ", "
                 ++ (if ctrue (Z.land (tf_err tf) 1) then "protection" else "not-present") ++ "]\n")%string []
   else cprintf "\n" []) ;;
  cprintf "  eip  0x%08x\n" [tf_eip tf] ;;
  cprintf "  cs   0x----%04x\n" [tf_cs tf] ;;
  cprintf "  flag 0x%08x\n" [tf_eflags tf] ;;
  when (negb (Z.land (tf_cs tf) 3 =? 0))
    (cprintf "  esp  0x%08x\n" [tf_esp tf] ;;
     cprintf "  ss   0x----%04x\n" [tf_ss tf]).

(** * The exception handlers

    The eighteen handlers have the same body, up to the panic message and the
    field of [struct Env] that holds the user's handler; the double fault
    handler prints two lines more before it returns to user mode. *)

(** [struct UTrapframe], inc/trap.h, in memory. *)
Definition sizeof_UTrapframe : Z := 52.
Definition utf_regs_words (r : PushRegs) : list Z :=
  [reg_edi r; reg_esi r; reg_ebp r; reg_oesp r; reg_ebx r; reg_edx r; reg_ecx r; reg_eax r].
Definition utf_words (fault_va : Z) (tf : Trapframe) : list Z :=
  [fault_va; tf_err tf] ++ utf_regs_words (tf_regs tf) ++ [tf_eip tf; tf_eflags tf; tf_esp tf].

Fixpoint vst_words (va : Z) (l : list Z) : M pm unit :=
  match l with
  | [] => mret tt
  | w :: l => vst32 va w ;; vst_words (va + 4) l
  end.

(** Where the frame goes: below the frame of the exception that is being
    handled, with a word left free, or at the top of the exception stack. *)
Definition utf_addr (tf : Trapframe) : Z :=
  if (tf_esp tf >=? UXSTACKTOP - PGSIZE) && (tf_esp tf <? UXSTACKTOP)
  then tf_esp tf - sizeof_UTrapframe - 4
  else UXSTACKTOP - sizeof_UTrapframe.

Definition exception_handler (msg : string) (field : upcall) (before_run : M ks unit) (r : tfref)
    : M ks unit :=
  let fault_va := rcr2 in
  tf ← tf_get r;
  if Z.land (tf_cs tf) 3 =? 0 then panic msg
  else
    c ← curenv_deref;
    e ← env_get c;
    when (ctrue (env_upcalls e field))
      (let utf := utf_addr tf in
       user_mem_assert c utf 1 PTE_W ;;
       inpm (vst_words utf (utf_words fault_va tf)) ;;
       env_upd c (λ e, set_env_tf (set_tf_eip (env_upcalls e field) (env_tf e)) e) ;;
       env_upd c (λ e, set_env_tf (set_tf_esp utf (env_tf e)) e) ;;
       before_run ;;
       env_run c) ;;
    e ← env_get c;
    tf ← tf_get r;
    cprintf "[%08x] user fault va %08x ip %08x\n" [env_id e; fault_va; tf_eip tf] ;;
    print_trapframe r ;;
    env_destroy c.

Definition page_fault_handler := exception_handler "page fault in kernel mode!" env_pgfault_upcall (mret tt).
Definition divide_zero_handler := exception_handler "divide zero exception in kernel mode!" env_divzero_upcall (mret tt).
Definition debug_exception_handler := exception_handler "debug exception exception in kernel mode!" env_debug_upcall (mret tt).
Definition non_maskable_interrupt_handler := exception_handler "non_maskable interrupt exception in kernel mode!" env_nmskint_upcall (mret tt).
Definition breakpoint_handler := exception_handler "breakpoint exception in kernel mode!" env_bpoint_upcall (mret tt).
Definition overflow_handler := exception_handler "overflow exception in kernel mode!" env_oflow_upcall (mret tt).
Definition bounds_check_handler := exception_handler "bounds check exception in kernel mode!" env_bdschk_upcall (mret tt).
Definition illegal_opcode_handler := exception_handler "illegal opcode exception in kernel mode!" env_illopcd_upcall (mret tt).
Definition device_not_available_handler := exception_handler "device not available exception in kernel mode!" env_dvcntavl_upcall (mret tt).
Definition double_fault_handler := exception_handler "double fault exception in kernel mode!" env_dbfault_upcall
  (c ← curenv_deref; e ← env_get c;
   cprintf "curenv status: %d\n" [env_status e] ;;
   cprintf "curenv dbfault handler: 0x%x" [tf_eip (env_tf e)]).
Definition invalid_task_switch_segment_handler := exception_handler "invalid task switch segment exception in kernel mode!" env_ivldtss_upcall (mret tt).
Definition segment_not_present_handler := exception_handler "segment not present exception in kernel mode!" env_segntprst_upcall (mret tt).
Definition stack_exception_handler := exception_handler "stack exception exception in kernel mode!" env_stkexception_upcall (mret tt).
Definition general_protection_fault_handler := exception_handler "general protection fault exception in kernel mode!" env_gpfault_upcall (mret tt).
Definition floating_point_error_handler := exception_handler "floating point error exception in kernel mode!" env_fperror_upcall (mret tt).
Definition aligment_check_handler := exception_handler "aligment check exception in kernel mode!" env_algchk_upcall (mret tt).
Definition machine_check_handler := exception_handler "machine check exception in kernel mode!" env_mchchk_upcall (mret tt).
Definition SIMD_floating_point_error_handler := exception_handler "SIMD floating point error exception in kernel mode!" env_SIMDfperror_upcall (mret tt).

(** * Dispatch *)

Definition trap_dispatch (r : tfref) : M ks unit :=
  tf ← tf_get r;
  let n := tf_trapno tf in
  if n =? T_DIVIDE then divide_zero_handler r
  else if n =? T_PGFLT then page_fault_handler r
  else if n =? T_DEBUG then debug_exception_handler r
  else if n =? T_NMI then non_maskable_interrupt_handler r
  else if n =? T_BRKPT then breakpoint_handler r
  else if n =? T_OFLOW then overflow_handler r
  else if n =? T_BOUND then bounds_check_handler r
  else if n =? T_ILLOP then illegal_opcode_handler r
  else if n =? T_DEVICE then device_not_available_handler r
  else if n =? T_DBLFLT then double_fault_handler r
  else if n =? T_TSS then invalid_task_switch_segment_handler r
  else if n =? T_SEGNP then segment_not_present_handler r
  else if n =? T_STACK then stack_exception_handler r
  else if n =? T_GPFLT then general_protection_fault_handler r
  else if n =? T_FPERR then floating_point_error_handler r
  else if n =? T_ALIGN then aligment_check_handler r
  else if n =? T_MCHK then machine_check_handler r
  else if n =? T_SIMDERR then SIMD_floating_point_error_handler r
  else if n =? T_SYSCALL then
    let g := tf_regs tf in
    v ← syscall (reg_eax g) (reg_edx g) (reg_ecx g) (reg_ebx g) (reg_edi g) (reg_esi g);
    tf_set_eax r (w32 v)
  else if n =? IRQ_OFFSET + IRQ_SPURIOUS then
    cprintf "Spurious interrupt on irq 7\n" [] ;;
    print_trapframe r
  else if n =? IRQ_OFFSET + IRQ_TIMER then
    lapic_eoi ;;
    sched_yield
  else
    print_trapframe r ;;
    if tf_cs tf =? GD_KT then panic "unhandled trap in kernel"
    else c ← curenv_deref; env_destroy c.

(** The frame [tf] lies on the kernel stack at [at_]. *)
Definition trap (at_ : Z) (tf : Trapframe) : M ks unit :=
  p ← gets (λ s, panicstr (ktrap s));
  when p (stop_with SHalt) ;;
  c ← thiscpu;
  thiscpu_upd (set_cpu_status CPU_STARTED) ;;
  when (cpu_status c =? CPU_HALTED) lock_kernel ;;
  when (ctrue (Z.land eflags FL_IF)) (panic "assertion failed: !(read_eflags() & FL_IF)") ;;
  r ← (if Z.land (tf_cs tf) 3 =? 3 then
         c ← curenv;
         when (bool_decide (c = None)) (panic "assertion failed: curenv") ;;
         lock_kernel ;;
         i ← curenv_deref;
         e ← env_get i;
         when (env_status e =? ENV_DYING) (env_free i ;; set_curenv None ;; sched_yield) ;;
         i ← curenv_deref;
         env_upd i (set_env_tf tf) ;;
         mret (TfEnv i)
       else mret (TfStack at_ tf));
  intrap (set_last_tf (Some r)) ;;
  trap_dispatch r ;;
  c ← curenv;
  match c with
  | Some i => e ← env_get i; if env_status e =? ENV_RUNNING then env_run i else sched_yield
  | None => sched_yield
  end.
End trap.
