(* ===== verification/Typing.v ===== *)
(** The types of inc/env.h, inc/trap.h and kern/cpu.h as an invariant: every
    field of an environment, of a trap frame and of a CPU keeps the range of
    its C type, and the indices of the waiting queues stay within the queues,
    whatever a program passes to the kernel. *)
From S2P Require Import Prelude Mmu Mem Pages PageTable AddrSpace UserMem Console KState Lapic Env EnvVm EnvSpec Syscall Trap.

(** * C types *)

Definition uint16 (z : Z) : Prop := 0 ≤ z < 2 ^ 16.
Definition int32 (z : Z) : Prop := - 2 ^ 31 ≤ z < 2 ^ 31.

Record regs_typed (r : PushRegs) : Prop := {
  rt_edi : u32_range (reg_edi r); rt_esi : u32_range (reg_esi r); rt_ebp : u32_range (reg_ebp r); rt_oesp : u32_range (reg_oesp r);
  rt_ebx : u32_range (reg_ebx r); rt_edx : u32_range (reg_edx r); rt_ecx : u32_range (reg_ecx r); rt_eax : u32_range (reg_eax r)
}.

Record tf_typed (t : Trapframe) : Prop := {
  tt_regs : regs_typed (tf_regs t);
  tt_segs : uint16 (tf_es t) ∧ uint16 (tf_ds t) ∧ uint16 (tf_cs t) ∧ uint16 (tf_ss t);
  tt_trapno : u32_range (tf_trapno t);
  tt_err : u32_range (tf_err t);
  tt_eip : u32_range (tf_eip t);
  tt_eflags : u32_range (tf_eflags t);
  tt_esp : u32_range (tf_esp t)
}.

(** Pointers of the kernel to environments are indices; those of
    [env_upcalls] and the rest are words. *)
Record env_typed (e : Env) : Prop := {
  et_tf : tf_typed (env_tf e);
  et_id : int32 (env_id e);
  et_parent : int32 (env_parent_id e);
  et_type : env_type e = ENV_TYPE_USER;
  et_status : ENV_FREE ≤ env_status e ≤ ENV_NOT_RUNNABLE;
  et_runs : u32_range (env_runs e);
  et_cpunum : int32 (env_cpunum e);
  et_pgdir : u32_range (env_pgdir e);
  et_upcalls : ∀ f, u32_range (env_upcalls e f);
  et_ipc : u32_range (env_ipc_dstva e) ∧ u32_range (env_ipc_value e) ∧ int32 (env_ipc_from e) ∧ int32 (env_ipc_perm e);
  et_queue : 0 ≤ env_ipc_waiting_head e < MAXIPCWAITING ∧ 0 ≤ env_ipc_waiting_tail e < MAXIPCWAITING;
  et_waiting : length (env_ipc_waiting e) = Z.to_nat MAXIPCWAITING ∧ Forall int32 (env_ipc_waiting e)
}.

Record cpu_typed (c : CpuInfo) : Prop := {
  ct_id : 0 ≤ cpu_id c < 2 ^ 8;
  ct_status : CPU_UNUSED ≤ cpu_status c ≤ CPU_HALTED;
  ct_tss : u32_range (ts_esp0 c) ∧ uint16 (ts_ss0 c)
}.

Record typed (k : ks) : Prop := {
  ty_envs : ∀ i e, envs k !! i = Some e → 0 ≤ i < NENV ∧ env_typed e;
  ty_cpus : ∀ i c, cpus k !! i = Some c → cpu_typed c;
  ty_cpunum : int32 (cpunum k)
}.

Lemma typed_ext k k' : typed k → envs k' = envs k → cpus k' = cpus k → cpunum k' = cpunum k → typed k'.
Proof. intros [H1 H2 H3] E1 E2 E3. split; rewrite ?E1, ?E2, ?E3; assumption. Qed.

Create HintDb typed.
#[local] Hint Constructors regs_typed tf_typed env_typed cpu_typed : typed.
#[local] Hint Resolve et_tf et_id et_parent et_pgdir et_runs et_upcalls tt_regs tt_eip tt_esp : typed.

Lemma int32_s32 z : int32 (s32 z).
Proof. apply s32_range. Qed.
Lemma int32_const z : (- 2 ^ 31 <=? z) && (z <? 2 ^ 31) = true → int32 z.
Proof. unfold int32. lia. Qed.
Lemma u32_0 : u32_range 0.
Proof. split; reflexivity || discriminate. Qed.
#[local] Hint Resolve int32_s32 u32_0 : typed.

(** ** The fields that are stored *)

(** An update of the fields of an environment keeps its type. *)
Definition env_fun (f : Env → Env) : Prop := ∀ e, env_typed e → env_typed (f e).

Lemma set_tf_typed t : tf_typed t → env_fun (set_env_tf t).
Proof. intros Ht e []. split; assumption. Qed.
Lemma set_id_typed v : int32 v → env_fun (set_env_id v).
Proof. intros Hv e []. split; assumption. Qed.
Lemma set_parent_typed v : int32 v → env_fun (set_env_parent_id v).
Proof. intros Hv e []. split; assumption. Qed.
Lemma set_type_typed : env_fun (set_env_type ENV_TYPE_USER).
Proof. intros e []. split; assumption || reflexivity. Qed.
Lemma set_status_typed v : ENV_FREE ≤ v ≤ ENV_NOT_RUNNABLE → env_fun (set_env_status v).
Proof. intros Hv e []. split; assumption. Qed.
Lemma set_link_typed v : env_fun (set_env_link v).
Proof. intros e []. split; assumption. Qed.
Lemma set_runs_typed v : u32_range v → env_fun (set_env_runs v).
Proof. intros Hv e []. split; assumption. Qed.
Lemma add_runs_typed : env_fun (λ x, set_env_runs (w32 (env_runs x + 1)) x).
Proof. intros e He. apply set_runs_typed; [apply w32_range|exact He]. Qed.
Lemma set_cpunum_typed v : int32 v → env_fun (set_env_cpunum v).
Proof. intros Hv e []. split; assumption. Qed.
Lemma set_pgdir_typed v : u32_range v → env_fun (set_env_pgdir v).
Proof. intros Hv e []. split; assumption. Qed.
Lemma set_upcalls_typed v : (∀ f, u32_range (v f)) → env_fun (set_env_upcalls v).
Proof. intros Hv e []. split; assumption. Qed.
Lemma set_upcall_typed f v : u32_range v → env_fun (set_upcall f v).
Proof. intros Hv e He. apply set_upcalls_typed; [|exact He]. intros g. destruct (decide _); [exact Hv|apply He]. Qed.
Lemma set_recving_typed v : env_fun (set_env_ipc_recving v).
Proof. intros e []. split; assumption. Qed.
Lemma set_dstva_typed v : u32_range v → env_fun (set_env_ipc_dstva v).
Proof. intros Hv e []. split; tauto. Qed.
Lemma set_value_typed v : u32_range v → env_fun (set_env_ipc_value v).
Proof. intros Hv e []. split; tauto. Qed.
Lemma set_from_typed v : int32 v → env_fun (set_env_ipc_from v).
Proof. intros Hv e []. split; tauto. Qed.
Lemma set_perm_typed v : int32 v → env_fun (set_env_ipc_perm v).
Proof. intros Hv e []. split; tauto. Qed.
Lemma set_head_typed v : env_fun (set_env_ipc_waiting_head (v mod MAXIPCWAITING)).
Proof. intros e []. split; try tauto. split; [apply Z.mod_pos_bound; reflexivity|apply et_queue0]. Qed.
Lemma set_tail_typed : env_fun (λ x, set_env_ipc_waiting_tail ((env_ipc_waiting_tail x + 1) mod MAXIPCWAITING) x).
Proof. intros e []. split; try tauto. split; [apply et_queue0|apply Z.mod_pos_bound; reflexivity]. Qed.
Lemma set_waiting_typed v : int32 v →
  env_fun (λ x, set_env_ipc_waiting (<[Z.to_nat (env_ipc_waiting_tail x) := v]> (env_ipc_waiting x)) x).
Proof.
  intros Hv e []. split; try tauto. destruct et_waiting0 as [H1 H2]. cbn [env_ipc_waiting set_env_ipc_waiting]. split; [rewrite length_insert; exact H1|].
  apply Forall_insert; assumption.
Qed.

Lemma set_eax_typed v : u32_range v → env_fun (λ x, set_env_tf (set_tf_regs (set_reg_eax v (tf_regs (env_tf x))) (env_tf x)) x).
Proof.
  intros Hv e He. apply set_tf_typed; [|exact He]. destruct (et_tf _ He) as [[] ? ? ? ? ? ?]. split; try assumption. split; assumption.
Qed.
Lemma set_esp_typed v : u32_range v → env_fun (λ x, set_env_tf (set_tf_esp v (env_tf x)) x).
Proof. intros Hv e He. apply set_tf_typed; [|exact He]. destruct (et_tf _ He). split; assumption. Qed.
Lemma set_eip_upcall_typed f : env_fun (λ x, set_env_tf (set_tf_eip (env_upcalls x f) (env_tf x)) x).
Proof. intros e He. apply set_tf_typed; [|exact He]. pose proof (et_upcalls _ He f). destruct (et_tf _ He). split; assumption. Qed.

Lemma user_tf_typed : tf_typed user_tf.
Proof. repeat split; reflexivity || discriminate. Qed.

#[local] Hint Resolve set_tf_typed set_id_typed set_parent_typed set_type_typed set_status_typed set_link_typed add_runs_typed set_runs_typed
  set_cpunum_typed set_pgdir_typed set_upcalls_typed set_upcall_typed set_recving_typed set_dstva_typed set_value_typed set_from_typed
  set_perm_typed set_head_typed set_tail_typed set_waiting_typed set_eax_typed set_esp_typed set_eip_upcall_typed user_tf_typed w32_range : typed.

(** * Computations that keep the types *)

(** [safe m Q]: [m] keeps the state typed, whether it returns or stops, and
    what it returns has [Q]. *)
Definition safe {A} (m : M ks A) (Q : A → Prop) : Prop :=
  ∀ k, typed k → wp m (λ a k', typed k' ∧ Q a) (λ _ k', typed k') k.

Lemma safe_bind {A B} (m : M ks A) (f : A → M ks B) P Q : safe m P → (∀ a, P a → safe (f a) Q) → safe (m ≫= f) Q.
Proof. intros Hm Hf k Hk. apply wp_bind. eapply wp_conseq; [apply Hm, Hk|]. intros a k' [Hk' Ha]. apply Hf; assumption. Qed.
Lemma safe_mret {A} (a : A) (Q : A → Prop) : Q a → safe (mret a) Q.
Proof. intros Ha k Hk. split; assumption. Qed.
Lemma safe_stop {A} w Q : safe (stop_with (A := A) w) Q.
Proof. intros k Hk. exact Hk. Qed.
Lemma safe_gets {A} (f : ks → A) (Q : A → Prop) : (∀ k, typed k → Q (f k)) → safe (gets f) Q.
Proof. intros H k Hk. split; auto. Qed.
Lemma safe_cons {A} (m : M ks A) (P Q : A → Prop) : safe m P → (∀ a, P a → Q a) → safe m Q.
Proof. intros H HPQ k Hk. eapply wp_conseq; [apply H, Hk|]. intros a k' []. auto. Qed.
Lemma safe_when b (m : M ks unit) : safe m (λ _, True) → safe (when b m) (λ _, True).
Proof. destruct b; [trivial|intros _; apply safe_mret; trivial]. Qed.
Lemma safe_range n a d (body : Z → M ks unit) : (∀ i, safe (body i) (λ _, True)) → safe (for_range n a d body) (λ _, True).
Proof. intros H. revert a. induction n as [|n IH]; intros a; [apply safe_mret; trivial|]. eapply safe_bind; [apply H|auto]. Qed.

(** The memory, the console, the lock and the log hold no such data. *)
Lemma safe_inpm {A} (m : M pm A) (Q : A → Prop) : (∀ s, wp m (λ a _, Q a) (λ _ _, True) s) → safe (inpm m) Q.
Proof.
  intros H k Hk. specialize (H (kpm k)). unfold wp in H |- *. unfold inpm, lift. cbn. destruct (m (kpm k)); [split; [|exact H]|];
    (eapply typed_ext; [exact Hk|reflexivity..]).
Qed.
Lemma safe_inpm_any {A} (m : M pm A) : safe (inpm m) (λ _, True).
Proof. apply safe_inpm. intros s. unfold wp. destruct (m s); trivial. Qed.
Lemma safe_inpm_cur {A} (m : option Z → M pm A) : safe (inpm_cur m) (λ _, True).
Proof. intros k Hk. apply (safe_inpm_any (m (cur_pgdir k)) k Hk). Qed.
Lemma safe_incon {A} (m : M con A) : safe (incon m) (λ _, True).
Proof. intros k Hk. unfold wp, incon, lift. cbn. destruct (m (kcons k)); [split; [|trivial]|]; (eapply typed_ext; [exact Hk|reflexivity..]). Qed.
Lemma safe_intrap f : safe (intrap f) (λ _, True).
Proof. intros k Hk. split; [|trivial]. eapply typed_ext; [exact Hk|reflexivity..]. Qed.
Lemma safe_cprintf fmt args : safe (cprintf fmt args) (λ _, True).
Proof. intros k Hk. split; [|trivial]. eapply typed_ext; [exact Hk|reflexivity..]. Qed.
Lemma safe_free_list v : safe (modify (set_env_free_list v)) (λ _, True).
Proof. intros k Hk. split; [|trivial]. eapply typed_ext; [exact Hk|reflexivity..]. Qed.
Lemma safe_lock : safe lock_kernel (λ _, True).
Proof.
  intros k Hk. unfold wp, lock_kernel. destruct (klock k); [destruct (_ =? _); exact Hk|]. split; [|trivial]. eapply typed_ext; [exact Hk|reflexivity..].
Qed.
Lemma safe_unlock : safe unlock_kernel (λ _, True).
Proof.
  intros k Hk. unfold wp, unlock_kernel. destruct (klock k); [|exact Hk]. destruct (_ =? _); [|exact Hk]. split; [|trivial].
  eapply typed_ext; [exact Hk|reflexivity..].
Qed.
Lemma safe_lcr3 pa : safe (lcr3 pa) (λ _, True).
Proof. apply safe_inpm_any. Qed.

(** The tables. *)
Definition slot (i : Z) : Prop := 0 ≤ i < NENV.
Lemma safe_env_get i : safe (env_get i) (λ e, env_typed e ∧ slot i).
Proof.
  intros k Hk. unfold wp, env_get. destruct (envs k !! i) as [e|] eqn:E; [|exact Hk].
  destruct (ty_envs _ Hk i e E). split; [exact Hk|split; assumption].
Qed.
Lemma safe_env_upd i f : env_fun f → safe (env_upd i f) (λ _, True).
Proof.
  intros Hf k Hk. unfold wp, env_upd. destruct (envs k !! i) as [e|] eqn:E; [|exact Hk]. split; [|trivial]. destruct (ty_envs _ Hk i e E) as [Hi He].
  split; cbn; [|apply Hk|apply Hk]. intros j x. destruct (decide (j = i)) as [->|D].
  - rewrite lookup_insert_eq. intros [= <-]. auto.
  - rewrite lookup_insert_ne by congruence. apply Hk.
Qed.
Lemma safe_thiscpu : safe thiscpu (λ _, True).
Proof. intros k Hk. unfold wp, thiscpu. destruct (cpus k !! cpunum k); [split; trivial|exact Hk]. Qed.
Lemma safe_thiscpu_upd f : (∀ c, cpu_typed c → cpu_typed (f c)) → safe (thiscpu_upd f) (λ _, True).
Proof.
  intros Hf k Hk. unfold wp, thiscpu_upd. destruct (cpus k !! cpunum k) as [c|] eqn:E; [|exact Hk]. split; [|trivial].
  split; cbn; [apply Hk| |apply Hk]. intros j x. destruct (decide (j = cpunum k)) as [->|D].
  - rewrite lookup_insert_eq. intros [= <-]. apply Hf, (ty_cpus _ Hk _ _ E).
  - rewrite lookup_insert_ne by congruence. apply Hk.
Qed.
Lemma safe_set_curenv e : safe (set_curenv e) (λ _, True).
Proof. apply safe_thiscpu_upd. intros c []. split; assumption. Qed.
Lemma safe_set_status v : CPU_UNUSED ≤ v ≤ CPU_HALTED → safe (thiscpu_upd (set_cpu_status v)) (λ _, True).
Proof. intros Hv. apply safe_thiscpu_upd. intros c []. split; assumption. Qed.
Lemma safe_curenv : safe curenv (λ _, True).
Proof. eapply safe_bind; [apply safe_thiscpu|]. intros c _. apply safe_mret. trivial. Qed.
Lemma safe_curenv_deref : safe curenv_deref (λ _, True).
Proof. eapply safe_bind; [apply safe_curenv|]. intros [i|] _; [apply safe_mret; trivial|apply safe_stop]. Qed.

#[local] Hint Resolve safe_stop safe_inpm_any safe_inpm_cur safe_incon safe_intrap safe_cprintf safe_free_list safe_lock safe_unlock
  safe_lcr3 safe_env_get safe_env_upd safe_thiscpu safe_set_curenv safe_curenv safe_curenv_deref : safe.

(** [safe_step] follows the program; what it leaves are the values stored
    that the hint databases do not know. *)
Ltac safe_step :=
  match goal with
  | |- safe (_ ≫= _) _ => first [eapply safe_bind; [solve [auto with safe]|intros ? ?] | apply (safe_bind _ _ (λ _, True)); [|intros ? ?]]
  | |- safe (mret _) _ => apply safe_mret
  | |- safe (panic _) _ => apply safe_stop
  | |- safe (undef _) _ => apply safe_stop
  | |- safe (when _ _) _ => apply safe_when
  | |- safe (for_range _ _ _ _) _ => apply safe_range; intros ?
  | |- safe (match ?x with _ => _ end) _ => destruct x
  | |- safe (env_upd _ _) _ => apply safe_env_upd
  | |- safe (gets _) _ => apply (safe_gets _ (λ _, True)); trivial
  | |- _ => progress cbv beta in * |-
  | H : _ ∧ _ |- _ => destruct H
  | |- safe _ _ => solve [auto with safe typed | eapply safe_cons; [auto with safe typed|trivial]]
  | |- env_fun _ => solve [auto with typed | apply set_status_typed; split; discriminate | apply set_from_typed; auto with typed]
  | |- True => trivial
  end.
Ltac safety := repeat safe_step.

(** * The functions *)

Lemma curenv_id_safe : safe curenv_id int32.
Proof. unfold curenv_id. safety; auto with typed. apply int32_const. reflexivity. Qed.

Lemma curenv_id_any : safe curenv_id (λ _, True).
Proof. eapply safe_cons; [apply curenv_id_safe|trivial]. Qed.
#[local] Hint Resolve curenv_id_any : safe.

Lemma envid2env_safe envid b : safe (envid2env envid b) (λ _, True).
Proof. unfold envid2env. safety. Qed.
#[local] Hint Resolve envid2env_safe : safe.

Lemma with_env_safe envid b f : (∀ e, safe (f e) (λ _, True)) → safe (with_env envid b f) (λ _, True).
Proof. intros Hf. unfold with_env. safety. Qed.

Lemma page2kva_u32 p s : wp (page2kva p) (λ a _, u32_range a) (λ _ _, True) s.
Proof. unfold wp, page2kva, KADDR. destruct (_ >=? _); [trivial|apply w32_range]. Qed.

Lemma env_setup_vm_safe e : safe (env_setup_vm e) (λ _, True).
Proof.
  unfold env_setup_vm. eapply safe_bind; [auto with safe|]. intros [p|] _; [|safety].
  eapply safe_bind; [apply safe_inpm, page2kva_u32|]. intros kva Hk. safety.
Qed.
#[local] Hint Resolve env_setup_vm_safe : safe.

(** The id of an environment is a generation, a multiple of the table's size,
    with the index of its slot. *)
Lemma new_generation_range id : 0 < new_generation id < 2 ^ 31 ∧ new_generation id mod 1024 = 0.
Proof.
  unfold new_generation. change (Z.shiftl 1 ENVGENSHIFT) with 4096. change (NENV - 1) with 1023. rewrite land_not_1023.
  pose proof (s32_range (id + 4096)) as Hs. cbv zeta. destruct (Z.leb_spec (s32 (id + 4096) - s32 (id + 4096) mod 1024) 0); [split; reflexivity || lia|].
  Z.div_mod_to_equations. lia.
Qed.

Lemma new_id_int32 id i : slot i → int32 (Z.lor (new_generation id) i).
Proof.
  intros Hi. change (0 ≤ i < 1024) in Hi. destruct (new_generation_range id) as [Hg Hm]. rewrite lor_low by assumption.
  unfold int32. Z.div_mod_to_equations. lia.
Qed.

Lemma env_alloc_safe parent : int32 parent → safe (env_alloc parent) (λ _, True).
Proof.
  intros Hp. unfold env_alloc. eapply safe_bind; [apply (safe_gets _ (λ _, True)); trivial|]. intros [i|] _; [|safety].
  eapply safe_bind; [auto with safe|]. intros r _. destruct (r <? 0); [safety|].
  eapply safe_bind; [apply safe_env_get|]. intros e [He Hi]. eapply safe_bind; [apply safe_env_upd, set_id_typed, new_id_int32, Hi|intros _ _].
  safety.
Qed.

Lemma env_free_safe e : safe (env_free e) (λ _, True).
Proof. unfold env_free, env_free_pt. safety. Qed.

Lemma env_pop_tf_safe e : safe (env_pop_tf e) (λ _, True).
Proof.
  eapply safe_bind; [auto with safe|intros c _]. eapply safe_bind; [apply (safe_gets _ int32), ty_cpunum|intros n Hn]. safety.
Qed.
#[local] Hint Resolve env_pop_tf_safe : safe.
Lemma env_run_safe e : safe (env_run e) (λ _, True).
Proof. unfold env_run. safety. Qed.
#[local] Hint Resolve env_free_safe env_run_safe : safe.

Lemma sched_scan_safe n i : safe (sched_scan n i) (λ _, True).
Proof. revert i. induction n as [|n IH]; intros i; cbn [sched_scan]; safety. Qed.
#[local] Hint Resolve sched_scan_safe : safe.

Lemma sched_yield_safe : safe sched_yield (λ _, True).
Proof. unfold sched_yield, sched_try, sched_halt. safety. apply safe_set_status. split; discriminate. Qed.
#[local] Hint Resolve sched_yield_safe : safe.

Lemma env_destroy_safe e : safe (env_destroy e) (λ _, True).
Proof. unfold env_destroy. safety. Qed.
#[local] Hint Resolve env_destroy_safe : safe.

Lemma user_mem_assert_safe e va len perm : safe (user_mem_assert e va len perm) (λ _, True).
Proof. unfold user_mem_assert. safety. Qed.
#[local] Hint Resolve user_mem_assert_safe : safe.

Lemma cprintf_chars_safe len s : safe (cprintf_chars len s) (λ _, True).
Proof. unfold cprintf_chars. safety. Qed.
#[local] Hint Resolve cprintf_chars_safe : safe.

Lemma sys_exofork_safe : safe sys_exofork (λ _, True).
Proof.
  unfold sys_exofork. eapply safe_bind; [auto with safe|intros c _]. eapply safe_bind; [auto with safe|intros ce [Hce _]].
  eapply safe_bind; [apply env_alloc_safe, et_id, Hce|intros r _]. safety.
Qed.

Lemma sys_env_set_upcall_safe f envid func : u32_range func → safe (sys_env_set_upcall f envid func) (λ _, True).
Proof. intros Hf. apply with_env_safe. intros e. safety. Qed.

Lemma ipc_enqueue_safe e : safe (ipc_enqueue e) (λ _, True).
Proof. unfold ipc_enqueue. safety. Qed.
Lemma ipc_transfer_safe e srcva perm : safe (ipc_transfer e srcva perm) (λ _, True).
Proof. unfold ipc_transfer. safety. apply set_perm_typed, int32_const. reflexivity. Qed.
#[local] Hint Resolve ipc_enqueue_safe ipc_transfer_safe : safe.

(** ** System calls *)

Lemma sys_ipc_try_send_safe envid value srcva perm : u32_range value → safe (sys_ipc_try_send envid value srcva perm) (λ _, True).
Proof. intros Hv. apply with_env_safe. intros e. safety. Qed.

Lemma sys_ipc_recv_safe dstva : u32_range dstva → safe (sys_ipc_recv dstva) (λ _, True).
Proof. intros Hv. unfold sys_ipc_recv, sys_yield. safety; try (apply with_env_safe; intros e; safety). Qed.

Lemma sys_env_set_status_safe envid status : safe (sys_env_set_status envid status) (λ _, True).
Proof.
  unfold sys_env_set_status. destruct (negb _) eqn:E; [safety|]. apply with_env_safe. intros e.
  assert (ENV_FREE ≤ status ≤ ENV_NOT_RUNNABLE) as H by (unfold ENV_RUNNABLE, ENV_NOT_RUNNABLE, ENV_FREE in *; lia). safety.
Qed.

Lemma sys_page_safe : (∀ envid va perm, safe (sys_page_alloc envid va perm) (λ _, True)) ∧
  (∀ s sva d dva perm, safe (sys_page_map s sva d dva perm) (λ _, True)) ∧ (∀ envid va, safe (sys_page_unmap envid va) (λ _, True)).
Proof.
  split; [|split]; intros; repeat (apply with_env_safe; intros ?); safety.
Qed.

Lemma syscall_safe n a1 a2 a3 a4 a5 : u32_range a1 → u32_range a2 → safe (syscall n a1 a2 a3 a4 a5) (λ _, True).
Proof.
  intros H1 H2. destruct sys_page_safe as (P1 & P2 & P3). unfold syscall, sys_yield, sys_cputs, sys_cgetc, sys_getenvid, sys_env_destroy.
  repeat (match goal with |- safe (if ?b then _ else _) _ => destruct b end;
    [solve [auto using sys_exofork_safe, sys_ipc_try_send_safe, sys_ipc_recv_safe, sys_env_set_status_safe with safe |
            apply sys_env_set_upcall_safe; assumption | safety]|]).
  safety.
Qed.

(** ** Traps *)

Definition ref_typed (r : tfref) : Prop := match r with TfStack _ t => tf_typed t | TfEnv _ => True end.

Lemma tf_get_safe r : ref_typed r → safe (tf_get r) tf_typed.
Proof. intros Hr. destruct r as [a t|e]; [apply safe_mret, Hr|]. cbn. safety. auto with typed. Qed.

Lemma utf_addr_u32 tf : tf_typed tf → u32_range (utf_addr tf).
Proof.
  intros H. pose proof (tt_esp _ H) as He. unfold utf_addr, u32_range in *. change (UXSTACKTOP - PGSIZE) with 0xeebff000.
  change UXSTACKTOP with 0xeec00000. unfold sizeof_UTrapframe. destruct (_ && _) eqn:E; lia.
Qed.

Section trap.
Context (rcr2 : Z).

Lemma print_trapframe_safe r : safe (print_trapframe rcr2 r) (λ _, True).
Proof. unfold print_trapframe, tf_get, tf_addr, print_regs. safety. Qed.

Lemma exception_handler_safe msg f before r : safe before (λ _, True) → ref_typed r → safe (exception_handler rcr2 msg f before r) (λ _, True).
Proof.
  intros Hb Hr. unfold exception_handler. cbv zeta. eapply safe_bind; [apply tf_get_safe, Hr|intros tf Ht].
  pose proof (utf_addr_u32 tf Ht) as Hu. pose proof (print_trapframe_safe r) as Hp. assert (safe (tf_get r) (λ _, True)) as Hg by (eapply safe_cons; [apply tf_get_safe, Hr|trivial]). safety.
Qed.

Lemma lapic_reg_safe w i : safe (lapic_reg w i) (λ _, True).
Proof. intros k Hk. unfold wp, lapic_reg. destruct (kaddr _ _ _); [split; trivial|exact Hk]. Qed.
#[local] Hint Resolve lapic_reg_safe : safe.

(** A goal about one of the handlers, or about another case of the dispatch. *)
Ltac handler_safe Hr :=
  lazymatch goal with
  | |- safe (if _ =? T_SYSCALL then _ else _) _ => idtac
  | |- safe (if ?b then ?h ?r ?t else _) _ => destruct b; [unfold h; apply exception_handler_safe; [safety|exact Hr]|handler_safe Hr]
  end.

Lemma trap_dispatch_safe r : ref_typed r → safe (trap_dispatch rcr2 r) (λ _, True).
Proof.
  intros Hr. unfold trap_dispatch. eapply safe_bind; [apply tf_get_safe, Hr|intros tf Ht]. cbv zeta.
  pose proof (print_trapframe_safe r) as Hp. handler_safe Hr. destruct (_ =? _).
  - eapply safe_bind; [apply syscall_safe; apply Ht|intros v _]. unfold tf_set_eax. safety.
  - unfold lapic_eoi, lapicw. safety. 

Qed.

(** ** The theorem *)

Lemma trap_safe eflags at_ tf : tf_typed tf → safe (trap rcr2 eflags at_ tf) (λ _, True).
Proof.
  intros Ht. unfold trap. pose proof trap_dispatch_safe as Hd.
  assert (safe (thiscpu_upd (set_cpu_status CPU_STARTED)) (λ _, True)) as Hs by (apply safe_set_status; split; discriminate).
  eapply safe_bind; [apply (safe_gets _ (λ _, True)); trivial|intros p _]. do 5 (apply (safe_bind _ _ (λ _, True)); [safety|intros ? _]).
  eapply (safe_bind _ _ ref_typed); [|intros r Hr].
  - destruct (_ =? _); [|apply safe_mret; exact Ht]. safety. exact I.
  - pose proof (Hd r Hr). safety.
Qed.
End trap.

(** The state a computation leaves. *)
Definition final {A} (r : outcome ks A) : ks := match r with Ret _ k => k | Stop _ k => k end.

(** Steps of the machine, as far as the kernel's tables are concerned: a trap
    on some CPU, with any frame the processor can push; and programs, which
    change memory and nothing else. *)
Inductive machine_step : ks → ks → Prop :=
| step_trap n rcr2 eflags at_ tf k : 0 ≤ n < NCPU → tf_typed tf → machine_step k (final (trap rcr2 eflags at_ tf (set_cpunum n k)))
| step_user s k : machine_step k (set_kpm s k).

Lemma final_typed {A} (m : M ks A) Q k : safe m Q → typed k → typed (final (m k)).
Proof. intros H Hk. specialize (H k Hk). unfold wp in H. destruct (m k); apply H. Qed.

(** C13. The kernel's tables are well typed.  Whatever traps the processors
    take, with whatever registers, and whatever programs do to memory in
    between, every field of every environment, of its saved trap frame and of
    every CPU stays in the range of its C type: ids and IPC values do not
    exceed a word, a status is one of the five, and the head and tail of every
    queue of waiting senders are indices of its ten slots, of which none is
    added or lost. *)
Theorem traps_keep_types (k k' : ks) : typed k → rtc machine_step k k' → typed k'.
Proof.
  intros Hk H. revert Hk. induction H as [|k1 k2 k3 H _ IH]; [trivial|]. intros Hk. apply IH. clear IH. destruct H as [n rcr2 eflags at_ tf k1 Hn Ht|s k1].
  - eapply final_typed; [apply trap_safe, Ht|]. destruct Hk. split; [assumption..|]. unfold int32, NCPU in *. cbn. lia.
  - eapply typed_ext; [exact Hk|reflexivity..].
Qed.

Lemma zero_tf_typed : tf_typed zero_tf.
Proof. repeat split; reflexivity || discriminate. Qed.

Lemma demo_env_typed i : env_typed (demo_env i).
Proof.
  assert (∀ z, (0 <=? z) && (z <? 2 ^ 32) = true → u32_range z) as Hu by (unfold u32_range; lia).
  assert (int32 0) as H0 by (apply int32_const; reflexivity).
  unfold demo_env. destruct (i =? 0); split; cbn [env_tf env_id env_parent_id env_type env_status env_runs env_cpunum env_pgdir env_upcalls
    env_ipc_dstva env_ipc_value env_ipc_from env_ipc_perm env_ipc_waiting_head env_ipc_waiting_tail env_ipc_waiting];
    try (apply int32_const; reflexivity); try (apply Hu; reflexivity); try (intros; apply u32_0); try exact zero_tf_typed;
    try (split; discriminate); try reflexivity; auto using u32_0.
  all: first [repeat split; reflexivity || discriminate | split; [reflexivity|apply Forall_replicate, H0]].
Qed.

Lemma demo_typed s : typed (demo_ks s).
Proof.
  split.
  - intros i e H. destruct (demo_envs_inv i e H) as [Hi ->]. split; [exact Hi|apply demo_env_typed].
  - intros i c. change (cpus (demo_ks s)) with ({[0 := demo_cpu]} : gmap Z CpuInfo). intros [_ <-]%lookup_singleton_Some.
    split; repeat split; discriminate.
  - apply int32_const. reflexivity.
Qed.

(** Two traps, of which the second one is on a CPU that has no [CpuInfo]. *)
Lemma traps_keep_types_witness : typed
  (final (trap 0 0 0xefffffbc user_tf (set_cpunum 7 (final (trap 0 0 0xefffffbc user_tf (set_cpunum 0 (demo_ks demo_vm))))))).
Proof.
  apply (traps_keep_types (demo_ks demo_vm)); [apply demo_typed|].
  assert (∀ n, 0 ≤ n < 8 → ∀ k, machine_step k (final (trap 0 0 0xefffffbc user_tf (set_cpunum n k)))) as Hs
    by (intros n Hn k; apply step_trap; [exact Hn|exact user_tf_typed]).
  exact (rtc_l _ _ _ _ (Hs 0 ltac:(lia) _) (rtc_once _ _ (Hs 7 ltac:(lia) _))).
Defined.
