(* ===== verification/Steady.v ===== *)
(** What no trap changes: the address of the kernel's page directory, the
    number of the CPU, its status until it halts, the flag of panic, and where
    the local interrupt controller is.  A computation is followed line by line;
    only its updates matter. *)
From S2P Require Import Prelude Mmu Mem Pages PageTable Console KState Lapic Env Syscall Trap.

(** * Virtual memory *)

(** The computation goes wrong, rather than leaving the kernel. *)
Definition wrong (w : stop) : Prop :=
  match w with SPanic _ | SUndef _ | SLoop | SFault _ => True | _ => False end.

(** [pm_steady m]: [m] leaves [kern_pgdir] alone. *)
Definition pm_steady {A} (m : M pm A) : Prop := ∀ s, wp m (λ _ s', kern_pgdir s' = kern_pgdir s) (λ w _, wrong w) s.

Create HintDb steady.

Lemma pm_bind {A B} (m : M pm A) (f : A → M pm B) : pm_steady m → (∀ a, pm_steady (f a)) → pm_steady (m ≫= f).
Proof.
  intros Hm Hf s. apply wp_bind. eapply wp_mono; [apply Hm| |auto].
  intros a s' E. eapply wp_mono; [apply Hf|..]; cbv beta; congruence.
Qed.
Lemma pm_get {A} (f : pm → A) : pm_steady (gets f).
Proof. intros s. reflexivity. Qed.
Lemma pm_modify (f : pm → pm) : (∀ s, kern_pgdir (f s) = kern_pgdir s) → pm_steady (modify f).
Proof. intros H s. apply H. Qed.
Lemma pm_mret {A} (a : A) : pm_steady (mret a).
Proof. intros s. reflexivity. Qed.
Lemma pm_stop {A} w : wrong w → pm_steady (stop_with (A := A) w).
Proof. intros H s. exact H. Qed.
Lemma pm_when b (m : M pm unit) : pm_steady m → pm_steady (when b m).
Proof. intros H. destruct b; [exact H|apply pm_mret]. Qed.
Lemma pm_range n a d (body : Z → M pm unit) : (∀ i, pm_steady (body i)) → pm_steady (for_range n a d body).
Proof.
  intros H. revert a. induction n as [|n IH]; intros a; [apply pm_mret|]. cbn [for_range]. apply pm_bind; [apply H|]. intros _. apply IH.
Qed.
(** A computation given by cases on the state. *)
Ltac pm_cases m := intros s; unfold wp, m; repeat case_match; simplify_eq; reflexivity || exact I.
Lemma pm_KADDR pa : pm_steady (KADDR pa).
Proof. pm_cases KADDR. Qed.
Lemma pm_pa2page pa : pm_steady (pa2page pa).
Proof. pm_cases pa2page. Qed.
Lemma pm_page_get i : pm_steady (page_get i).
Proof. pm_cases page_get. Qed.
Lemma pm_page_set i p : pm_steady (page_set i p).
Proof. pm_cases page_set. Qed.
Lemma pm_vst8 va b : pm_steady (vst8 va b).
Proof. pm_cases vst8. Qed.
Lemma pm_vld8 va : pm_steady (vld8 va).
Proof. pm_cases vld8. Qed.
#[export] Hint Resolve pm_mret pm_get pm_KADDR pm_pa2page pm_page_get pm_page_set pm_vst8 pm_vld8 : steady.

Ltac pm_step :=
  match goal with
  | |- pm_steady (_ ≫= _) => apply pm_bind; [|intros ?]
  | |- pm_steady (panic _) => apply pm_stop, I
  | |- pm_steady (undef _) => apply pm_stop, I
  | |- pm_steady (stop_with _) => apply pm_stop, I
  | |- pm_steady (when _ _) => apply pm_when
  | |- pm_steady (for_range _ _ _ _) => apply pm_range; intros ?
  | |- pm_steady (modify _) => apply pm_modify; reflexivity
  | |- pm_steady (match ?x with _ => _ end) => destruct x
  | |- pm_steady _ => solve [auto with steady]
  end.
(** [steadily f] unfolds the function and follows it. *)
Tactic Notation "pm_steadily" := repeat pm_step.

Lemma pm_PADDR a : pm_steady (PADDR a).
Proof. unfold PADDR. pm_steadily. Qed.
Lemma pm_page_alloc f : pm_steady (page_alloc f).
Proof. unfold page_alloc, set_pp_link, page2kva, kmemset. pm_steadily. Qed.
Lemma pm_page_free p : pm_steady (page_free p).
Proof. unfold page_free, set_pp_link. pm_steadily. Qed.
#[export] Hint Resolve pm_page_free : steady.
Lemma pm_page_decref p : pm_steady (page_decref p).
Proof. unfold page_decref, set_pp_ref. pm_steadily. Qed.
#[export] Hint Resolve pm_PADDR pm_page_alloc pm_page_decref : steady.

Lemma pm_pgdir_walk a va b : pm_steady (pgdir_walk a va b).
Proof. unfold pgdir_walk, kld32, kst32, incr_ref, set_pp_ref. pm_steadily. Qed.
#[export] Hint Resolve pm_pgdir_walk : steady.
Lemma pm_page_lookup a va : pm_steady (page_lookup a va).
Proof. unfold page_lookup, kld32. pm_steadily. Qed.
#[export] Hint Resolve pm_page_lookup : steady.
Lemma pm_page_remove cur a va : pm_steady (page_remove cur a va).
Proof. unfold page_remove, kld32, kst32, tlb_invalidate. pm_steadily. Qed.
#[export] Hint Resolve pm_page_remove : steady.
Lemma pm_page_insert cur a p va perm : pm_steady (page_insert cur a p va perm).
Proof. unfold page_insert, kld32, kst32, incr_ref, set_pp_ref. pm_steadily. Qed.
#[export] Hint Resolve pm_page_insert : steady.
Lemma pm_user_mem_check a va len perm : pm_steady (user_mem_check a va len perm).
Proof.
  unfold user_mem_check. generalize (ROUNDDOWN va PGSIZE). induction (Z.to_nat 0x100000) as [|n IH]; intros u;
    cbn [user_mem_check_loop]; unfold kld32; pm_steadily; auto.
Qed.
Lemma pm_vst32 va v : pm_steady (vst32 va v).
Proof. unfold vst32. pm_steadily. Qed.
#[export] Hint Resolve pm_user_mem_check pm_vst32 : steady.
Lemma pm_vst_words l va : pm_steady (vst_words va l).
Proof. revert va. induction l as [|w l IH]; intros va; cbn [vst_words]; pm_steadily; auto. Qed.
Lemma pm_read_chars fuel p prec : pm_steady (read_chars fuel p prec).
Proof. revert p prec. induction fuel as [|fuel IH]; intros p prec; cbn [read_chars]; cbv zeta; pm_steadily; auto. Qed.
#[export] Hint Resolve pm_vst_words pm_read_chars : steady.

(** * The kernel *)

(** The parts of the state in question. *)
Record globals := MkGlobals { g_kern : Z; g_cpunum : Z; g_status : option Z; g_panic : bool; g_lapic : Z }.
Definition globals_of (k : ks) : globals :=
  MkGlobals (kern_pgdir (kpm k)) (cpunum k) (cpu_status <$> cpus k !! cpunum k) (panicstr (ktrap k)) (lapic (ktrap k)).
Definition halted (g : globals) : globals := MkGlobals (g_kern g) (g_cpunum g) (Some CPU_HALTED) (g_panic g) (g_lapic g).

(** What holds of them when the kernel is left. *)
Definition steady_stop (g : globals) (w : stop) (k : ks) : Prop :=
  match w with
  | SRun _ | SMonitor => globals_of k = g
  | SHalt => globals_of k = halted g
  | _ => True
  end.

Definition steady {A} (m : M ks A) : Prop := ∀ k, wp m (λ _ k', globals_of k' = globals_of k) (steady_stop (globals_of k)) k.

Lemma steady_bind {A B} (m : M ks A) (f : A → M ks B) : steady m → (∀ a, steady (f a)) → steady (m ≫= f).
Proof.
  intros Hm Hf k. apply wp_bind. eapply wp_mono; [apply Hm| |auto]. cbv beta.
  intros a k' <-. apply Hf.
Qed.
Lemma steady_gets {A} (f : ks → A) : steady (gets f).
Proof. intros k. reflexivity. Qed.
Lemma steady_mret {A} (a : A) : steady (mret a).
Proof. intros k. reflexivity. Qed.
Lemma steady_stop_with {A} w : w ≠ SHalt → steady (stop_with (A := A) w).
Proof. intros Hw k. destruct w; reflexivity || contradiction || exact I. Qed.
Lemma steady_when b (m : M ks unit) : steady m → steady (when b m).
Proof. intros H. destruct b; [exact H|apply steady_mret]. Qed.
Lemma steady_range n a d (body : Z → M ks unit) : (∀ i, steady (body i)) → steady (for_range n a d body).
Proof.
  intros H. revert a. induction n as [|n IH]; intros a; [apply steady_mret|]. cbn [for_range]. apply steady_bind; [apply H|].
  intros _. apply IH.
Qed.

Lemma steady_wrong {A} w : wrong w → steady (stop_with (A := A) w).
Proof. intros H k. destruct w; contradiction || exact I. Qed.

(** The elementary operations. *)
Lemma steady_inpm {A} (m : M pm A) : pm_steady m → steady (inpm m).
Proof.
  intros H k. specialize (H (kpm k)). unfold wp, inpm, lift in *. cbn [view update kpm_lens]. destruct (m (kpm k)) as [a s|w s].
  - unfold globals_of. ksimpl. rewrite H. reflexivity.
  - destruct w; contradiction || exact I.
Qed.
Lemma steady_inpm_cur {A} (m : option Z → M pm A) : (∀ c, pm_steady (m c)) → steady (inpm_cur m).
Proof. intros H k. apply (steady_inpm (m (cur_pgdir k)) (H _) k). Qed.
Lemma steady_cons_getc : steady (incon cons_getc).
Proof.
  intros k. destruct (cons_getc_returns (kcons k)) as (c & s & E). unfold wp, incon, lift. cbn [view update kcons_lens].
  rewrite E. reflexivity.
Qed.
Lemma steady_cprintf fmt args : steady (cprintf fmt args).
Proof. intros k. reflexivity. Qed.
Lemma steady_last_tf r : steady (intrap (set_last_tf r)).
Proof. intros k. reflexivity. Qed.
Lemma steady_lapic_write w : steady (intrap (λ t, set_lapic_writes (w :: lapic_writes t) t)).
Proof. intros k. reflexivity. Qed.
Lemma steady_free_list v : steady (modify (set_env_free_list v)).
Proof. intros k. reflexivity. Qed.
Lemma steady_lcr3 pa : steady (lcr3 pa).
Proof. apply steady_inpm, pm_modify. reflexivity. Qed.
Ltac ks_cases m := intros k; unfold wp, m; repeat case_match; simplify_eq; reflexivity || exact I.
Lemma steady_env_get i : steady (env_get i).
Proof. ks_cases env_get. Qed.
Lemma steady_env_upd i f : steady (env_upd i f).
Proof. ks_cases env_upd. Qed.
Lemma steady_thiscpu : steady thiscpu.
Proof. ks_cases thiscpu. Qed.
Lemma steady_lock : steady lock_kernel.
Proof. ks_cases lock_kernel. Qed.
Lemma steady_unlock : steady unlock_kernel.
Proof. ks_cases unlock_kernel. Qed.
Lemma steady_lapic_reg w i : steady (lapic_reg w i).
Proof. ks_cases lapic_reg. Qed.
Lemma steady_set_curenv e : steady (set_curenv e).
Proof.
  intros k. unfold wp, set_curenv, thiscpu_upd. destruct (cpus k !! cpunum k) as [c|] eqn:E; [|exact I].
  unfold globals_of. ksimpl. rewrite lookup_insert_eq, E. reflexivity.
Qed.
Lemma steady_curenv : steady curenv.
Proof. apply steady_bind; [apply steady_thiscpu|]. intros c. apply steady_mret. Qed.
Lemma steady_curenv_deref : steady curenv_deref.
Proof. apply steady_bind; [apply steady_curenv|]. intros [i|]; [apply steady_mret|apply steady_wrong, I]. Qed.
#[export] Hint Resolve steady_mret steady_gets steady_inpm steady_inpm_cur steady_cons_getc steady_cprintf steady_last_tf steady_lapic_write
  steady_free_list steady_lcr3 steady_env_get steady_env_upd steady_thiscpu steady_lock steady_unlock steady_lapic_reg steady_set_curenv
  steady_curenv steady_curenv_deref : steady.

(** The CPU is marked as halted before it halts. *)
Lemma steady_halt : steady (thiscpu_upd (set_cpu_status CPU_HALTED) ;; unlock_kernel ;; stop_with (A := unit) SHalt).
Proof.
  intros k. apply wp_bind. unfold wp at 1, thiscpu_upd. destruct (cpus k !! cpunum k) as [c|] eqn:E; [|exact I].
  apply wp_bind. unfold wp at 1, unlock_kernel. ksimpl. destruct (klock k) as [n|]; [|exact I]. destruct (n =? cpunum k); [|exact I].
  unfold wp, stop_with, steady_stop, globals_of, halted. ksimpl. rewrite lookup_insert_eq. reflexivity.
Qed.

Ltac steady_step :=
  match goal with
  | |- steady (thiscpu_upd (set_cpu_status CPU_HALTED) ≫= _) => exact steady_halt
  | |- steady (with_env _ _ _) => unfold with_env
  | |- steady (_ ≫= _) => apply steady_bind; [|intros ?]
  | |- steady (panic _) => apply steady_wrong, I
  | |- steady (undef _) => apply steady_wrong, I
  | |- steady (stop_with _) => apply steady_stop_with; discriminate
  | |- steady (when _ _) => apply steady_when
  | |- steady (for_range _ _ _ _) => apply steady_range; intros ?
  | |- steady (match ?x with _ => _ end) => destruct x
  | |- steady (inpm (gets _)) => apply steady_inpm, pm_get
  | |- steady (inpm _) => apply steady_inpm; first [solve [auto with steady]|pm_steadily]
  | |- steady (inpm_cur _) => apply steady_inpm_cur; intros ?; first [solve [auto with steady]|pm_steadily]
  | |- steady _ => solve [auto with steady]
  end.
Tactic Notation "steadily" := repeat steady_step.

(** ** kern/env.c, kern/sched.c *)

Lemma steady_curenv_id : steady curenv_id.
Proof. unfold curenv_id. steadily. Qed.
Lemma steady_envid2env envid b : steady (envid2env envid b).
Proof. unfold envid2env. steadily. Qed.
#[export] Hint Resolve steady_curenv_id steady_envid2env : steady.
Lemma steady_env_setup_vm e : steady (env_setup_vm e).
Proof. unfold env_setup_vm, incr_ref, set_pp_ref, page2kva, kmemcpy, kst32. steadily. Qed.
#[export] Hint Resolve steady_env_setup_vm : steady.
Lemma steady_env_alloc parent : steady (env_alloc parent).
Proof. unfold env_alloc. steadily. Qed.
Lemma steady_env_free e : steady (env_free e).
Proof. unfold env_free, env_free_pt, kld32, kst32. steadily. Qed.
Lemma steady_env_run e : steady (env_run e).
Proof. unfold env_run, env_pop_tf. steadily. Qed.
#[export] Hint Resolve steady_env_alloc steady_env_free steady_env_run : steady.

Lemma steady_sched_scan n i : steady (sched_scan n i).
Proof. revert i. induction n as [|n IH]; intros i; cbn [sched_scan]; steadily. Qed.
#[export] Hint Resolve steady_sched_scan : steady.

Lemma steady_sched_halt : steady sched_halt.
Proof. unfold sched_halt. steadily. Qed.
#[export] Hint Resolve steady_sched_halt : steady.
Lemma steady_sched_yield : steady sched_yield.
Proof. unfold sched_yield, sched_try. steadily. Qed.
#[export] Hint Resolve steady_sched_yield : steady.
Lemma steady_env_destroy e : steady (env_destroy e).
Proof. unfold env_destroy. steadily. Qed.
#[export] Hint Resolve steady_env_destroy : steady.
Lemma steady_user_mem_assert e va len perm : steady (user_mem_assert e va len perm).
Proof. unfold user_mem_assert. steadily. Qed.
#[export] Hint Resolve steady_user_mem_assert : steady.

(** ** kern/syscall.c *)

Lemma steady_sys_exofork : steady sys_exofork.
Proof. unfold sys_exofork. steadily. Qed.
Lemma steady_sys_env_set_upcall f envid func : steady (sys_env_set_upcall f envid func).
Proof. unfold sys_env_set_upcall. steadily. Qed.
Lemma steady_ipc_enqueue e : steady (ipc_enqueue e).
Proof. unfold ipc_enqueue. steadily. Qed.
Lemma steady_ipc_transfer e srcva perm : steady (ipc_transfer e srcva perm).
Proof. unfold ipc_transfer, kld32. steadily. Qed.
#[export] Hint Resolve steady_ipc_enqueue steady_ipc_transfer : steady.

Lemma steady_sys_page_alloc envid va perm : steady (sys_page_alloc envid va perm).
Proof. unfold sys_page_alloc, incr_ref, set_pp_ref. steadily. Qed.
Lemma steady_sys_page_map s sva d dva perm : steady (sys_page_map s sva d dva perm).
Proof. unfold sys_page_map, kld32. steadily. Qed.
Lemma steady_sys_page_unmap envid va : steady (sys_page_unmap envid va).
Proof. unfold sys_page_unmap. steadily. Qed.
Lemma steady_sys_ipc_try_send envid value srcva perm : steady (sys_ipc_try_send envid value srcva perm).
Proof. unfold sys_ipc_try_send. steadily. Qed.
Lemma steady_sys_ipc_recv dstva : steady (sys_ipc_recv dstva).
Proof. unfold sys_ipc_recv, sys_yield. steadily. Qed.
#[export] Hint Resolve steady_sys_exofork steady_sys_env_set_upcall steady_sys_page_alloc steady_sys_page_map steady_sys_page_unmap
  steady_sys_ipc_try_send steady_sys_ipc_recv : steady.

Lemma steady_syscall n a1 a2 a3 a4 a5 : steady (syscall n a1 a2 a3 a4 a5).
Proof.
  unfold syscall, sys_yield, sys_cputs, cprintf_chars, sys_cgetc, sys_getenvid, sys_env_destroy, sys_env_set_status.
  repeat (match goal with |- steady (if ?b then _ else _) => destruct b end; [solve [apply steady_sys_env_set_upcall|steadily]|]).
  steadily.
Qed.
#[export] Hint Resolve steady_syscall : steady.

(** ** kern/trap.c *)

Section trap.
Context (rcr2 : Z).

Lemma steady_print_trapframe r : steady (print_trapframe rcr2 r).
Proof. unfold print_trapframe, tf_get, tf_addr, print_regs. steadily. Qed.
Hint Resolve steady_print_trapframe : steady.

Lemma steady_exception_handler msg f before r : steady before → steady (exception_handler rcr2 msg f before r).
Proof. intros Hb. unfold exception_handler, tf_get. cbv zeta. steadily. Qed.

(** The cases of the dispatch up to the system call. *)
Ltac steady_handlers :=
  lazymatch goal with
  | |- steady (if _ =? T_SYSCALL then _ else _) => idtac
  | |- steady (if ?b then ?h ?r ?t else _) => destruct b; [unfold h; apply steady_exception_handler; steadily|steady_handlers]
  end.

Lemma steady_trap_dispatch r : steady (trap_dispatch rcr2 r).
Proof.
  unfold trap_dispatch. apply steady_bind; [unfold tf_get; steadily|]. intros tf. cbv zeta. steady_handlers.
  unfold tf_set_eax, lapic_eoi, lapicw. steadily.
Qed.
End trap.
