(* ===== verification/Init.v ===== *)
(** The start of the kernel (kern/init.c): i386_init on the boot processor,
    boot_aps and mp_main for the others, and panic. *)
From S2P Require Import Prelude Mmu Mem Pages PageTable Console KState Lapic Mpconfig Boot Env Trap.

(** The kernel with the variables of kern/mpconfig.c, [mpentry_kstack], and the
    stack pointer each application processor entered C code with. *)
Record sys := MkSys { s_ks : ks; s_mp : mpst; mpentry_kstack : Z; entry_esp : gmap Z Z }.

Definition set_s_ks (v : ks) (s : sys) : sys := MkSys v (s_mp s) (mpentry_kstack s) (entry_esp s).
Definition set_s_mp (v : mpst) (s : sys) : sys := MkSys (s_ks s) v (mpentry_kstack s) (entry_esp s).
Definition set_mpentry_kstack (v : Z) (s : sys) : sys := MkSys (s_ks s) (s_mp s) v (entry_esp s).
Definition set_entry_esp (v : gmap Z Z) (s : sys) : sys := MkSys (s_ks s) (s_mp s) (mpentry_kstack s) v.

Definition ks_lens : lens sys ks := Lens s_ks set_s_ks.
Definition inks {A} (m : M ks A) : M sys A := lift ks_lens m.

(** The code of kern/mpconfig.c works on the memory, the CPUs, the console and
    the ports of the kernel. *)
Definition mp_sys_lens : lens sys mpst := Lens
  (λ s, let k := s_ks s in let m := s_mp s in
        MkMpst (kpm k) (cpus k) (bootcpu m) (ismp m) (ncpu m) (lapicaddr m) (imcr m) (klog k) (ports (kcons k)))
  (λ m s, let k := s_ks s in
          set_s_mp m (set_s_ks (set_kpm (mp_pm m) (set_cpus (mp_cpus m) (set_klog (mp_log m) (set_kcons (set_ports (mp_ports m) (kcons k)) k)))) s)).

Definition cpu_get (c : Z) : M ks CpuInfo := λ s,
  match cpus s !! c with Some x => Ret x s | None => Stop (SUndef "not a CPU") s end.

(** The bytes [memmove(dst, src, n)] moves, for kernel addresses *)
Definition kmemmove (dst src n : Z) : M pm unit :=
  modify (λ s, with_phys (memmove (phys s) (dst - KERNBASE) (src - KERNBASE) n) s).

Section init.
(** Outside the C code: the CMOS; the local interrupt controllers and how often
    their state is looked at; the IMCR port is part of [s_mp]. *)
Context (cmos : Z → Z) (lapic_rd : Z → list (Z * Z * Z) → nat → Z → Z) (polls : nat).
(** Addresses the linker chooses, and entry points of kern/trapentry.S. *)
Context (edata kend bootstack percpu_kstacks mpentry_start mpentry_end entry_pgdir : Z) (t_handler cpu_ts : Z → Z).

(** * Application processors *)

(** Up to the kernel lock.  The segment registers env_init_percpu loads are not
    state of this model. *)
Definition mp_main_setup : M sys unit :=
  inks (kp ← gets (λ s, kern_pgdir (kpm s)); pa ← inpm (PADDR kp); lcr3 pa) ;;
  inks (n ← cpunum_read lapic_rd; cprintf "SMP: CPU %d starting\n" [n]) ;;
  m ← gets s_mp;
  inks (lapic_init lapic_rd polls (lapicaddr m) (bootcpu m)) ;;
  inks (trap_init_percpu cpu_ts) ;;
  inks (thiscpu_upd (set_cpu_status CPU_STARTED)).

Definition mp_main : M sys unit :=
  mp_main_setup ;;
  inks lock_kernel ;;
  inks sched_yield.

(** What kern/mpentry.S does that the kernel can tell: it takes its stack
    pointer from [mpentry_kstack], still on entry_pgdir. *)
Definition mpentry : M sys unit :=
  pa ← inks (inpm (PADDR entry_pgdir));
  inks (lcr3 pa) ;;
  n ← gets (λ s, cpunum (s_ks s));
  modify (λ s, set_entry_esp (<[n := mpentry_kstack s]> (entry_esp s)) s).

(** [m] as CPU [c] executes it; each CPU has a page directory register of its
    own. *)
Definition on_cpu (c : Z) (m : M sys unit) : M sys unit :=
  s ← get;
  let n := cpunum (s_ks s) in
  let pa := cr3 (kpm (s_ks s)) in
  inks (modify (set_cpunum c)) ;;
  m ;;
  inks (modify (set_cpunum n)) ;;
  inks (lcr3 pa).

(** The loop on [cpu_status].  While this CPU looks, the only other CPU that is
    not waiting for the kernel lock, which this one holds, is the one it has
    started: that CPU gets as far as the lock. *)
Definition wait_started (c : Z) : M sys unit :=
  on_cpu c (mpentry ;; mp_main_setup) ;;
  x ← inks (cpu_get c);
  if negb (cpu_status x =? CPU_STARTED) then stop_with SLoop else mret tt.

Definition boot_aps : M sys unit :=
  code ← inks (inpm (KADDR MPENTRY_PADDR));
  inks (inpm (kmemmove code mpentry_start (mpentry_end - mpentry_start))) ;;
  n ← gets (λ s, ncpu (s_mp s));
  for_range (Z.to_nat n) 0 1 (λ c,
    me ← inks (cpunum_read lapic_rd);
    when (negb (c =? me))
      (modify (set_mpentry_kstack (w32 (percpu_kstacks + c * KSTKSIZE + KSTKSIZE))) ;;
       x ← inks (cpu_get c);
       pa ← inks (inpm (PADDR code));
       inks (lapic_startap (cpu_id x) pa) ;;
       wait_started c)).

(** * i386_init *)

(** The first programs: the one under test, or five copies of
    user/fairness.c. *)
Definition create_envs (test : option Z) (user_fairness : Z) : M ks unit :=
  match test with
  | Some binary => env_create binary ENV_TYPE_USER
  | None => for_range 5 0 1 (λ _, env_create user_fairness ENV_TYPE_USER)
  end.

(** Of the BSS the bytes are cleared here; the variables of the C code are
    fields of the state, zero from the start. *)
Definition i386_init (test : option Z) (user_fairness : Z) : M sys unit :=
  inks (inpm (kmemset edata 0 (kend - edata))) ;;
  inks (incon cons_init) ;;
  inks (cprintf "6828 decimal is %o octal!\n" [6828]) ;;
  inks (mem_init cmos kend bootstack percpu_kstacks) ;;
  inks env_init ;;
  inks (trap_init t_handler cpu_ts) ;;
  lift mp_sys_lens mp_init ;;
  (m ← gets s_mp; inks (lapic_init lapic_rd polls (lapicaddr m) (bootcpu m))) ;;
  inks (incon pic_init) ;;
  inks lock_kernel ;;
  boot_aps ;;
  inks (create_envs test user_fairness) ;;
  inks sched_yield.
End init.

(** * panic *)

(** The log has the strings of %s arguments in place.  The monitor is entered
    again and again. *)
Definition _panic (file : string) (line : Z) (fmt : string) (args : list Z) : M ks unit :=
  p ← gets (λ s, panicstr (ktrap s));
  when (negb p)
    (intrap (set_panicstr true) ;;
     n ← gets cpunum;
     cprintf ("kernel panic on CPU %d at " ++ file ++ ":%d: ")%string [n; line] ;;
     cprintf fmt args ;;
     cprintf "\n" []) ;;
  stop_with SMonitor.

Definition _warn (file : string) (line : Z) (fmt : string) (args : list Z) : M ks unit :=
  cprintf ("kernel warning at " ++ file ++ ":%d: ")%string [line] ;;
  cprintf fmt args ;;
  cprintf "\n" [].
