(* ===== verification/TrapSpec.v ===== *)
(** What traps guarantee: the descriptor tables, the delivery of exceptions to
    the user's handlers with a complete frame on the user's exception stack,
    the ways delivery fails, and system call results. *)
From S2P Require Import Prelude Mmu Mem Pages PageTable AddrSpace UserMem Console KState Env EnvVm EnvSpec Syscall Trap.

(** * Stores to user pages *)

(** Page number [v] of directory [pd] is mapped to page [p], and the processor
    lets the kernel write there. *)
Definition writable (s : pm) (pd v p : Z) : Prop :=
  ∃ pte, pte_of (phys s) pd v = Some pte ∧ frame_of pte = p ∧
    ctrue (Z.land (Z.land (wd (phys s) pd (v / 1024)) pte) PTE_W) = true.

Lemma wd_st8 m a b q j : a / PGSIZE ≠ q → 0 ≤ j < 1024 → wd (st8 m a b) q j = wd m q j.
Proof.
  intros Hq Hj. apply ld32_ext. intros i Hi. apply ld8_st8_ne. intros ->. apply Hq.
  unfold PGSIZE. Z.div_mod_to_equations. lia.
Qed.

(** A kernel store below KERNBASE whose page the processor does not find
    mapped for writing. *)
Lemma vst8_fault s va b : kaddr s true va = None → vst8 va b s = Stop (SPanic "page fault in kernel mode!") s.
Proof. unfold vst8. intros ->. reflexivity. Qed.

Section user_store.
Context (s0 : pm) (l R : list Z) (x : Z → Z) (H : vm_inv s0 l R x).
Context (pd v p : Z) (Hpd : pd ∈ R) (Hv : 0 ≤ v < UVPN) (Hcr3 : cr3 s0 = pd * PGSIZE)
  (Hw : writable s0 pd v p).

Lemma writable_kaddr b va : va / PGSIZE = v → kaddr s0 b va = Some (p * PGSIZE + va mod PGSIZE).
Proof.
  intros Hva. destruct Hw as (pte & Hpte & Hf & HW).
  assert (user_va va) as Hu.
  { pose proof UVPN_eq as E. rewrite E in Hv. subst v. unfold user_va.
    change UTOP with (UTOP / PGSIZE * PGSIZE). unfold PGSIZE in *. Z.div_mod_to_equations. lia. }
  destruct (user_va_idx va Hu) as (EI & EJ & _). rewrite Hva in EI, EJ.
  assert (UTOP < KERNBASE) by reflexivity. unfold user_va in Hu.
  unfold kaddr. rewrite Z.geb_leb. replace (KERNBASE <=? va) with false by (symmetry; apply Z.leb_gt; lia).
  unfold translate. rewrite Hcr3, EI, EJ. fold (wd (phys s0) pd (v / 1024)).
  unfold pte_of, pt_of in Hpte. destruct (is_present (wd (phys s0) pd (v / 1024))); [|discriminate].
  cbv zeta in Hpte. rewrite frame_of_addr. fold (wd (phys s0) (frame_of (wd (phys s0) pd (v / 1024))) (v mod 1024)).
  destruct (is_present _); [|discriminate]. injection Hpte as Hpte. rewrite Hpte, HW.
  rewrite andb_false_r, frame_of_addr, Hf. cbn [negb andb]. do 2 f_equal.
  assert (∀ z, Z.land z 0xFFF = z mod 4096) as E by (intros; apply (Z.land_ones z 12); lia).
  unfold PGOFF. rewrite (w32_id va), E by (apply user_va_u32; assumption). reflexivity.
Qed.

(** Memories that differ from the first one in page [p] only. *)
Definition agree (m : mem) : Prop := ∀ q j, 0 ≤ j < 1024 → q ≠ p → wd m q j = wd (phys s0) q j.

Lemma user_data : p ∉ R ∧ ¬ is_pt (phys s0) R p ∧ 0 ≤ p < npages s0.
Proof.
  destruct Hw as (pte & Hpte & Hf & _). destruct (vm_data _ _ _ _ H pd v p Hpd Hv) as (? & ? & ?); [|auto].
  unfold page_of. rewrite Hpte. cbn. congruence.
Qed.

Lemma agree_pt_of m pd' i : agree m → pd' ∈ R → 0 ≤ i < 1024 → pt_of m pd' i = pt_of (phys s0) pd' i.
Proof.
  intros Hm Hpd' Hi. destruct user_data as (HR & _). unfold pt_of. rewrite Hm; [reflexivity|assumption|].
  intros ->. contradiction.
Qed.

Lemma agree_pte_of m v' : agree m → 0 ≤ v' < UVPN → pte_of m pd v' = pte_of (phys s0) pd v'.
Proof. intros Hm Hv'. destruct user_data as (HR & Hp & _). eapply same_pte_of; eauto. Qed.

Lemma agree_writable m v' p' : agree m → 0 ≤ v' < UVPN →
  writable (with_phys m s0) pd v' p' ↔ writable s0 pd v' p'.
Proof.
  intros Hm Hv'. destruct user_data as (HR & _). unfold writable. psimpl.
  rewrite agree_pte_of by assumption. rewrite Hm; [reflexivity| |intros ->; contradiction].
  pose proof (vpn_idx v' Hv'). unfold UPDX in *. lia.
Qed.

Lemma agree_st8 m va b : agree m → agree (st8 m (p * PGSIZE + va mod PGSIZE) b).
Proof.
  intros Hm q j Hj Hq. rewrite wd_st8; [apply Hm; assumption| |assumption].
  pose proof (Z.mod_pos_bound va PGSIZE ltac:(reflexivity)).
  rewrite Z.add_comm, Z.div_add, Z.div_small by (assumption || discriminate). lia.
Qed.

Lemma agree_inv m : agree m → vm_inv (with_phys m s0) l R x.
Proof. intros Hm. destruct user_data as (? & ? & _). eapply vm_write_data; eauto. Qed.
End user_store.

Section user_frame.
Context (s0 : pm) (l R : list Z) (x : Z → Z) (H : vm_inv s0 l R x).
Context (pd v p : Z) (Hpd : pd ∈ R) (Hv : 0 ≤ v < UVPN) (Hcr3 : cr3 s0 = pd * PGSIZE)
  (Hw : writable s0 pd v p).

Lemma user_kaddr m b va : agree s0 p m → va / PGSIZE = v →
  kaddr (with_phys m s0) b va = Some (p * PGSIZE + va mod PGSIZE).
Proof.
  intros Hm Hva. apply (writable_kaddr (with_phys m s0) pd v p); auto.
  rewrite agree_writable; eauto.
Qed.

Lemma vst8_user m va b : agree s0 p m → va / PGSIZE = v →
  vst8 va b (with_phys m s0) = Ret tt (with_phys (st8 m (p * PGSIZE + va mod PGSIZE) b) s0).
Proof. intros Hm Hva. unfold vst8. rewrite user_kaddr by assumption. reflexivity. Qed.

Lemma vst32_user m va w : agree s0 p m → va / PGSIZE = v → (va + 3) / PGSIZE = v →
  vst32 va w (with_phys m s0) = Ret tt (with_phys (st32 m (p * PGSIZE + va mod PGSIZE) w) s0) ∧
  agree s0 p (st32 m (p * PGSIZE + va mod PGSIZE) w).
Proof.
  intros Hm H0 H3.
  assert (∀ i, 0 ≤ i ≤ 3 → (va + i) / PGSIZE = v ∧
    p * PGSIZE + (va + i) mod PGSIZE = p * PGSIZE + va mod PGSIZE + i) as Hi.
  { intros i Hi. assert ((va + i) / PGSIZE = v) as E by (unfold PGSIZE in *; Z.div_mod_to_equations; lia).
    split; [exact E|]. unfold PGSIZE in *. Z.div_mod_to_equations. lia. }
  set (a := p * PGSIZE + va mod PGSIZE) in *.
  assert (∀ m i b, 0 ≤ i ≤ 3 → agree s0 p m →
    vst8 (va + i) b (with_phys m s0) = Ret tt (with_phys (st8 m (a + i) b) s0) ∧
    agree s0 p (st8 m (a + i) b)) as St.
  { intros m' i b Hr Hm'. destruct (Hi i Hr) as [E1 E2]. rewrite <- E2. split.
    - apply vst8_user; assumption.
    - apply agree_st8; assumption. }
  destruct (St m 0 w ltac:(lia) Hm) as [E0 A0]. replace (va + 0) with va in * by lia. replace (a + 0) with a in * by lia.
  destruct (St _ 1 (w / 2 ^ 8) ltac:(lia) A0) as [E1 A1].
  destruct (St _ 2 (w / 2 ^ 16) ltac:(lia) A1) as [E2 A2].
  destruct (St _ 3 (w / 2 ^ 24) ltac:(lia) A2) as [E3 A3].
  assert (st32 m a w = st8 (st8 (st8 (st8 m a w) (a + 1) (w / 2 ^ 8)) (a + 2) (w / 2 ^ 16)) (a + 3) (w / 2 ^ 24)) as ->.
  { unfold st32, st16. rewrite Z.div_div by lia. replace (a + 2 + 1) with (a + 3) by lia. reflexivity. }
  split; [|exact A3]. unfold vst32.
  rewrite (bind_Ret _ _ _ _ _ E0). cbv beta. rewrite (bind_Ret _ _ _ _ _ E1). cbv beta.
  rewrite (bind_Ret _ _ _ _ _ E2). exact E3.
Qed.

(** Words within the page. *)
Lemma vst_words_user ws : ∀ m va, agree s0 p m → va / PGSIZE = v →
  (va + 4 * Z.of_nat (length ws) - 1) / PGSIZE = v →
  vst_words va ws (with_phys m s0) = Ret tt (with_phys (st_words m (p * PGSIZE + va mod PGSIZE) ws) s0) ∧
  agree s0 p (st_words m (p * PGSIZE + va mod PGSIZE) ws).
Proof.
  induction ws as [|w ws IH]; intros m va Hm H0 H1; cbn [vst_words st_words length] in *; [auto|].
  destruct (vst32_user m va w Hm H0) as [E A];
    [unfold PGSIZE in *; Z.div_mod_to_equations; lia|].
  rewrite (bind_Ret _ _ _ _ _ E). destruct ws as [|w' ws]; [auto|].
  assert ((va + 4) / PGSIZE = v) as H4 by (cbn [length] in *; unfold PGSIZE in *; Z.div_mod_to_equations; lia).
  replace (p * PGSIZE + va mod PGSIZE + 4) with (p * PGSIZE + (va + 4) mod PGSIZE)
    by (unfold PGSIZE in *; Z.div_mod_to_equations; lia).
  apply IH; [exact A|exact H4|]. rewrite <- H1. f_equal. lia.
Qed.

(** A frame that goes on into the next page, which is not mapped. *)
Context (Hv1 : v + 1 < UVPN) (Hn : pte_of (phys s0) pd (v + 1) = None).

Lemma user_kaddr_none m b va : agree s0 p m → va / PGSIZE = v + 1 → kaddr (with_phys m s0) b va = None.
Proof.
  intros Hm Hva. rewrite <- (agree_pte_of s0 l R x H pd v p Hpd Hv Hw m) in Hn by (assumption || lia).
  assert (user_va va) as Hu.
  { pose proof UVPN_eq as E. rewrite E in Hv1. unfold user_va. change UTOP with (UTOP / PGSIZE * PGSIZE).
    unfold PGSIZE in *. Z.div_mod_to_equations. lia. }
  destruct (user_va_idx va Hu) as (EI & EJ & _). rewrite Hva in EI, EJ.
  assert (UTOP < KERNBASE) by reflexivity. unfold user_va in Hu.
  unfold kaddr. rewrite Z.geb_leb. replace (KERNBASE <=? va) with false by (symmetry; apply Z.leb_gt; lia).
  unfold translate. psimpl. rewrite Hcr3, EI, EJ. fold (wd m pd ((v + 1) / 1024)).
  unfold pte_of, pt_of in Hn. destruct (is_present (wd m pd ((v + 1) / 1024))); [|reflexivity].
  cbv zeta in Hn. rewrite frame_of_addr. fold (wd m (frame_of (wd m pd ((v + 1) / 1024))) ((v + 1) mod 1024)).
  destruct (is_present _); [discriminate|reflexivity].
Qed.

Lemma vst8_next m va b : agree s0 p m → va / PGSIZE = v + 1 →
  vst8 va b (with_phys m s0) = Stop (SPanic "page fault in kernel mode!") (with_phys m s0).
Proof. intros Hm Hva. apply vst8_fault, user_kaddr_none; assumption. Qed.

Definition faults {A} (o : outcome pm A) : Prop := ∃ s, o = Stop (SPanic "page fault in kernel mode!") s.

Lemma faults_bind {A B} (m : M pm A) (K : A → M pm B) s : faults (m s) → faults ((m ≫= K) s).
Proof. intros [s' E]. exists s'. rewrite bind_unfold, E. reflexivity. Qed.

(** A step of a word store: stay on the page, or fault. *)
Lemma vst8_or_fault m va b (K : M pm unit) : agree s0 p m → va / PGSIZE = v ∨ va / PGSIZE = v + 1 →
  (va / PGSIZE = v → ∀ m', agree s0 p m' → faults (K (with_phys m' s0))) →
  faults ((vst8 va b ;; K) (with_phys m s0)).
Proof.
  intros Hm [Hva|Hva] HK.
  - rewrite (bind_Ret _ _ _ _ _ (vst8_user m va b Hm Hva)). apply HK; [assumption|]. apply agree_st8, Hm.
  - apply faults_bind. eexists. apply vst8_next; assumption.
Qed.

Lemma vst32_straddle m va w : agree s0 p m → va / PGSIZE = v → (va + 3) / PGSIZE = v + 1 →
  faults (vst32 va w (with_phys m s0)).
Proof.
  intros Hm H0 H3. assert (∀ j, 0 ≤ j ≤ 3 → (va + j) / PGSIZE = v ∨ (va + j) / PGSIZE = v + 1) as Hj
    by (intros; unfold PGSIZE in *; Z.div_mod_to_equations; lia).
  unfold vst32. apply vst8_or_fault; [assumption|auto|]. intros _ m1 H1.
  apply vst8_or_fault; [assumption|apply Hj; lia|]. intros _ m2 H2.
  apply vst8_or_fault; [assumption|apply Hj; lia|]. intros _ m3 H3'. eexists. apply vst8_next; assumption.
Qed.

Lemma vst_words_straddle ws : ∀ m va, agree s0 p m → va / PGSIZE = v →
  (va + 4 * Z.of_nat (length ws) - 1) / PGSIZE = v + 1 → faults (vst_words va ws (with_phys m s0)).
Proof.
  induction ws as [|w ws IH]; intros m va Hm H0 H1; cbn [vst_words length] in *.
  - exfalso. unfold PGSIZE in *. Z.div_mod_to_equations. lia.
  - assert ((va + 3) / PGSIZE = v ∨ (va + 3) / PGSIZE = v + 1) as [H3|H3]
      by (unfold PGSIZE in *; Z.div_mod_to_equations; lia).
    2: { apply faults_bind, vst32_straddle; assumption. }
    destruct (vst32_user m va w Hm H0 H3) as [E A]. rewrite (bind_Ret _ _ _ _ _ E).
    destruct (decide ((va + 4) / PGSIZE = v)) as [H4|H4].
    + apply IH; [exact A|exact H4|]. rewrite <- H1. f_equal. lia.
    + destruct ws as [|w' ws]; [exfalso; cbn [length] in *; unfold PGSIZE in *; Z.div_mod_to_equations; lia|].
      cbn [vst_words]. apply faults_bind. unfold vst32. apply faults_bind. eexists.
      apply vst8_next; [exact A|]. unfold PGSIZE in *. Z.div_mod_to_equations. lia.
Qed.
End user_frame.

(** * Entering the kernel from user mode *)

Section enter.
Context (rcr2 eflags : Z).
Implicit Types (k : ks).

(** A processor in user mode: it has an environment [i], no CPU has panicked,
    the kernel lock is free, and interrupts are masked at the entry. *)
Record user_mode k (c : CpuInfo) (i : Z) (e : Env) : Prop := {
  um_cpu : cpus k !! cpunum k = Some c;
  um_env : cpu_env c = Some i;
  um_started : cpu_status c = CPU_STARTED;
  um_cur : envs k !! i = Some e;
  um_lock : klock k = None;
  um_ok : panicstr (ktrap k) = false;
  um_if : Z.land eflags FL_IF = 0
}.

(** The state in which the trap is dispatched: the lock is held and the frame
    is saved in the environment. *)
Definition entered k (c : CpuInfo) (i : Z) (e : Env) (tf : Trapframe) : ks :=
  set_envs (<[i := set_env_tf tf e]> (envs k))
    (set_cpus (<[cpunum k := c]> (cpus k))
      (set_klock (Some (cpunum k)) (set_ktrap (set_last_tf (Some (TfEnv i)) (ktrap k)) k))).

(** The end of trap. *)
Definition trap_exit : M ks unit :=
  c ← curenv;
  match c with
  | Some i => e ← env_get i; if env_status e =? ENV_RUNNING then env_run i else sched_yield
  | None => sched_yield
  end.

Lemma set_status_same c : cpu_status c = CPU_STARTED → set_cpu_status CPU_STARTED c = c.
Proof. destruct c. cbn. intros ->. reflexivity. Qed.

Lemma trap_enter at_ tf k c i e : user_mode k c i e → env_status e ≠ ENV_DYING →
  Z.land (tf_cs tf) 3 = 3 →
  trap rcr2 eflags at_ tf k = (trap_dispatch rcr2 (TfEnv i) ;; trap_exit) (entered k c i e tf).
Proof.
  intros U Hd Hcs. destruct U as [Hc He Hs Hi Hl Hp Hif]. unfold trap. mrun. rewrite Hp. mrun.
  rewrite (bind_Ret _ _ _ _ _ (thiscpu_eq k c Hc)), (bind_Ret _ _ _ _ _ (thiscpu_upd_eq k c _ Hc)).
  rewrite set_status_same, Hs, Hif, Hcs by assumption. change (CPU_STARTED =? CPU_HALTED) with false.
  change (3 =? 3) with true. cbv iota. mrun.
  set (k1 := set_cpus _ k). assert (cpus k1 !! cpunum k1 = Some c) as Hc1 by apply lookup_insert_eq.
  rewrite (bind_Ret _ _ _ _ _ (curenv_eq k1 c Hc1)), He, bool_decide_eq_false_2 by discriminate. mrun.
  rewrite (bind_Ret _ _ _ tt (set_klock (Some (cpunum k)) k1)) by (unfold lock_kernel, k1; ksimpl; rewrite Hl; reflexivity).
  set (k2 := set_klock _ k1). assert (curenv_deref k2 = Ret i k2) as E.
  { unfold curenv_deref. rewrite (bind_Ret _ _ _ _ _ (curenv_eq k2 c Hc1)), He. reflexivity. }
  rewrite ?bind_assoc, (bind_Ret _ _ _ _ _ E), ?bind_assoc, (bind_Ret _ _ _ _ _ (env_get_eq k2 i e Hi)).
  replace (env_status e =? ENV_DYING) with false by (symmetry; apply Z.eqb_neq; assumption).
  mrun. rewrite ?bind_assoc. mrun.
  rewrite ?bind_assoc, (bind_Ret _ _ _ _ _ E), ?bind_assoc, (bind_Ret _ _ _ _ _ (env_upd_eq k2 i e _ Hi)).
  mrun. unfold intrap. mrun. unfold k2, k1, entered. ksimpl. autorewrite with ks. reflexivity.
Qed.

(** * Delivery *)

(** The trap whose handler is the field [f]. *)
Definition vector (f : upcall) : Z :=
  match f with
  | env_pgfault_upcall => T_PGFLT | env_divzero_upcall => T_DIVIDE | env_debug_upcall => T_DEBUG
  | env_nmskint_upcall => T_NMI | env_bpoint_upcall => T_BRKPT | env_oflow_upcall => T_OFLOW
  | env_bdschk_upcall => T_BOUND | env_illopcd_upcall => T_ILLOP | env_dvcntavl_upcall => T_DEVICE
  | env_dbfault_upcall => T_DBLFLT | env_ivldtss_upcall => T_TSS | env_segntprst_upcall => T_SEGNP
  | env_stkexception_upcall => T_STACK | env_gpfault_upcall => T_GPFLT | env_fperror_upcall => T_FPERR
  | env_algchk_upcall => T_ALIGN | env_mchchk_upcall => T_MCHK | env_SIMDfperror_upcall => T_SIMDERR
  end.

(** Nothing but lines of output, while environment [i] is current. *)
Definition only_prints (m : M ks unit) (i : Z) : Prop := ∀ k c e,
  cpus k !! cpunum k = Some c → cpu_env c = Some i → envs k !! i = Some e →
  ∃ lg, m k = Ret tt (set_klog lg k).

Lemma dispatch_handler k i e f : envs k !! i = Some e → tf_trapno (env_tf e) = vector f →
  ∃ msg before, only_prints before i ∧
    trap_dispatch rcr2 (TfEnv i) k = exception_handler rcr2 msg f before (TfEnv i) k.
Proof.
  intros Hi Hn. unfold trap_dispatch. rewrite (bind_Ret _ _ _ (env_tf e) k).
  2: { unfold tf_get. rewrite (bind_Ret _ _ _ _ _ (env_get_eq k i e Hi)). reflexivity. }
  rewrite Hn. assert (only_prints (mret tt) i) by (intros k' *; exists (klog k'); destruct k'; reflexivity).
  destruct f; cbv zeta; cbn [vector];
    try (eexists _, _; split; [|reflexivity]; assumption).
  eexists _, _. split; [|reflexivity]. intros k' c' e' Hc He Hi'. unfold curenv_deref.
  rewrite bind_assoc, (bind_Ret _ _ _ _ _ (curenv_eq k' c' Hc)), He. mrun.
  rewrite (bind_Ret _ _ _ _ _ (env_get_eq k' i e' Hi')). unfold cprintf. mrun.
  eexists. unfold modify. ksimpl. rewrite set_klog_set_klog. reflexivity.
Qed.

(** The registers the handler finds. *)
Definition delivered (e : Env) (f : upcall) (utf : Z) : Env :=
  set_env_tf (set_tf_esp utf (set_tf_eip (env_upcalls e f) (env_tf e))) e.

Lemma utf_addr_range tf : u32_range (tf_esp tf) →
  UXSTACKTOP - PGSIZE - 56 ≤ utf_addr tf ≤ UXSTACKTOP - 52 ∧ 0 ≤ utf_addr tf / PGSIZE < UVPN.
Proof.
  intros H. unfold utf_addr, sizeof_UTrapframe, u32_range in *. rewrite UVPN_eq.
  change UTOP with 0xEEC00000. change UXSTACKTOP with 0xEEC00000. unfold PGSIZE.
  rewrite Z.geb_leb. zcases; cbn [andb]; Z.div_mod_to_equations; lia.
Qed.

(** The handler up to the stores of the frame. *)
Lemma handler_stores msg f before k i e pd : curenv_deref k = Ret i k → envs k !! i = Some e →
  env_pgdir e = kva_of pd → walkable (kpm k) pd →
  let tf := env_tf e in let utf := utf_addr tf in
  Z.land (tf_cs tf) 3 ≠ 0 → u32_range (tf_esp tf) → env_upcalls e f ≠ 0 →
  user_ok (phys (kpm k)) pd (Z.lor PTE_W PTE_U) (utf / PGSIZE) = true →
  ∃ K, exception_handler rcr2 msg f before (TfEnv i) k
    = (inpm (vst_words utf (utf_words rcr2 tf)) ;;
       env_upd i (λ x, set_env_tf (set_tf_eip (env_upcalls x f) (env_tf x)) x) ;;
       env_upd i (λ x, set_env_tf (set_tf_esp utf (env_tf x)) x) ;;
       before ;; env_run i ;; K) k.
Proof.
  intros Ecur Hi Hpg W tf utf Hcs Hesp Hup Hok.
  destruct (utf_addr_range tf Hesp) as [Hr _]. fold utf in Hr.
  unfold exception_handler. rewrite (bind_Ret _ _ _ tf k).
  2: { unfold tf_get. rewrite (bind_Ret _ _ _ _ _ (env_get_eq k i e Hi)). reflexivity. }
  rewrite (proj2 (Z.eqb_neq _ _)) by assumption.
  rewrite (bind_Ret _ _ _ _ _ Ecur), (bind_Ret _ _ _ _ _ (env_get_eq k i e Hi)).
  rewrite (proj2 (ctrue_spec _)) by assumption. fold utf. cbv zeta. cbn [when]. rewrite !bind_assoc.
  assert (user_mem_assert i utf 1 PTE_W k = Ret tt k) as Eas.
  { unfold user_mem_assert. rewrite (bind_Ret _ _ _ _ _ (env_get_eq k i e Hi)), Hpg.
    erewrite bind_Ret by (apply inpm_Ret; rewrite user_mem_check_one by
      (assumption || (unfold PGSIZE in *; change UXSTACKTOP with 0xEEC00000 in *; lia)); rewrite Hok; reflexivity).
    cbn [when Z.ltb Z.compare]. rewrite set_kpm_same. reflexivity. }
  rewrite (bind_Ret _ _ _ _ _ Eas). eexists. rewrite !bind_unfold.
  destruct (inpm _ k) as [? k1|]; [|reflexivity]. rewrite !bind_unfold.
  destruct (env_upd i _ k1) as [? k2|]; [|reflexivity]. rewrite !bind_unfold.
  destruct (env_upd i _ k2) as [? k3|]; [|reflexivity]. rewrite !bind_unfold.
  destruct (before k3); reflexivity.
Qed.

Lemma handler_user_faults msg f before k i e pd s' : curenv_deref k = Ret i k → envs k !! i = Some e →
  env_pgdir e = kva_of pd → walkable (kpm k) pd →
  let tf := env_tf e in let utf := utf_addr tf in
  Z.land (tf_cs tf) 3 ≠ 0 → u32_range (tf_esp tf) → env_upcalls e f ≠ 0 →
  user_ok (phys (kpm k)) pd (Z.lor PTE_W PTE_U) (utf / PGSIZE) = true →
  vst_words utf (utf_words rcr2 tf) (kpm k) = Stop (SPanic "page fault in kernel mode!") s' →
  ∃ k', (exception_handler rcr2 msg f before (TfEnv i) ;; trap_exit) k
    = Stop (SPanic "page fault in kernel mode!") k'.
Proof.
  intros Ecur Hi Hpg W tf utf Hcs Hesp Hup Hok Est.
  destruct (handler_stores msg f before k i e pd Ecur Hi Hpg W Hcs Hesp Hup Hok) as [K E].
  eexists. rewrite bind_unfold, E. rewrite (bind_Stop _ _ _ _ _ (inpm_Stop _ _ _ _ Est)). reflexivity.
Qed.

Lemma handler_delivers msg f before k c i e l R x pd p :
  cpus k !! cpunum k = Some c → cpu_env c = Some i → klock k = Some (cpunum k) → envs k !! i = Some e →
  env_pgdir e = kva_of pd → pd ∈ R → vm_inv (kpm k) l R x → cr3 (kpm k) = pd * PGSIZE →
  walkable (kpm k) pd → only_prints before i →
  let tf := env_tf e in let utf := utf_addr tf in let v := utf / PGSIZE in
  Z.land (tf_cs tf) 3 ≠ 0 → u32_range (tf_esp tf) → env_upcalls e f ≠ 0 →
  writable (kpm k) pd v p → user_ok (phys (kpm k)) pd (Z.lor PTE_W PTE_U) v = true →
  (utf + sizeof_UTrapframe - 1) / PGSIZE = v →
  ∃ lg, exception_handler rcr2 msg f before (TfEnv i) k
    = Stop (SRun i) (set_kpm (with_phys (st_words (phys (kpm k)) (p * PGSIZE + utf mod PGSIZE) (utf_words rcr2 tf)) (kpm k))
        (set_envs (<[i := set_env_cpunum (cpunum k) (delivered e f utf)]> (envs k))
          (set_klock None (set_klog lg k)))) ∧
    agree (kpm k) p (st_words (phys (kpm k)) (p * PGSIZE + utf mod PGSIZE) (utf_words rcr2 tf)).
Proof.
  intros Hc He Hl Hi Hpg Hpd H Hcr3 W Hb tf utf v Hcs Hesp Hup Hw Hok Hpage.
  destruct (utf_addr_range tf Hesp) as [Hr Hv]. fold utf in Hr, Hv. fold v in Hv.
  destruct (vst_words_user (kpm k) l R x H pd v p Hpd Hv Hcr3 Hw (utf_words rcr2 tf) (phys (kpm k)) utf)
    as [Est A]; [intros ? ? ? ?; reflexivity|reflexivity|exact Hpage|].
  replace (with_phys (phys (kpm k)) (kpm k)) with (kpm k) in Est by (destruct (kpm k); reflexivity).
  set (m' := st_words _ _ _) in *.
  assert (curenv_deref k = Ret i k) as Ecur.
  { unfold curenv_deref. rewrite (bind_Ret _ _ _ _ _ (curenv_eq k c Hc)), He. reflexivity. }
  destruct (handler_stores msg f before k i e pd Ecur Hi Hpg W Hcs Hesp Hup Hok) as [K ->].
  fold tf. fold utf. rewrite (bind_Ret _ _ _ _ _ (inpm_Ret _ _ _ _ Est)).
  erewrite bind_Ret by (apply env_upd_eq; ksimpl; exact Hi).
  erewrite bind_Ret by (apply env_upd_eq; ksimpl; apply lookup_insert_eq). ksimpl.
  set (k2 := set_envs _ _).
  assert (envs k2 !! i = Some (delivered e f utf)) as Hi2 by (unfold k2; ksimpl; apply lookup_insert_eq).
  destruct (Hb k2 c (delivered e f utf) Hc He Hi2) as [lg Eb]. exists lg. split; [|exact A].
  rewrite (bind_Ret _ _ _ _ _ Eb). unfold env_run at 1. rewrite bind_assoc.
  rewrite (bind_Ret _ _ _ _ _ (curenv_eq (set_klog lg k2) c Hc)), He.
  rewrite bool_decide_eq_false_2 by tauto. cbn [when]. rewrite bind_assoc, bind_mret.
  erewrite bind_Stop by (eapply (run_tail (set_klog lg k2)); [exact Hl|exact Hc|exact He|exact Hi2]).
  f_equal. unfold k2. ksimpl. autorewrite with ks. rewrite !insert_insert_eq. reflexivity.
Qed.
End enter.

(** The address space of environment [e], which the processor is using. *)
Record user_space k (e : Env) (l R : list Z) (x : Z → Z) (pd : Z) : Prop := {
  us_inv : vm_inv (kpm k) l R x;
  us_in : pd ∈ R;
  us_pgdir : env_pgdir e = kva_of pd;
  us_cr3 : cr3 (kpm k) = pd * PGSIZE;
  us_walk : walkable (kpm k) pd
}.

(** An exception in user mode whose handler the environment has set. *)
Record handled (k : ks) (e : Env) (tf : Trapframe) (f : upcall) : Prop := {
  hd_user : Z.land (tf_cs tf) 3 = 3;
  hd_vector : tf_trapno tf = vector f;
  hd_set : env_upcalls e f ≠ 0;
  hd_esp : u32_range (tf_esp tf);
  hd_alive : env_status e ≠ ENV_DYING
}.

Lemma trap_handler rcr2 eflags at_ tf k c i e f : user_mode eflags k c i e → handled k e tf f →
  ∃ msg before, only_prints before i ∧
    trap rcr2 eflags at_ tf k
    = (exception_handler rcr2 msg f before (TfEnv i) ;; trap_exit) (entered k c i e tf).
Proof.
  intros U [Hu Hv Hs He Ha]. rewrite (trap_enter rcr2 eflags at_ tf k c i e U Ha Hu).
  destruct (dispatch_handler rcr2 (entered k c i e tf) i (set_env_tf tf e) f) as (msg & before & Hb & E).
  - apply lookup_insert_eq.
  - exact Hv.
  - exists msg, before. split; [exact Hb|]. rewrite !bind_unfold, E. reflexivity.
Qed.

(** * Properties *)

(** C6. An exception in user mode reaches the handler that its environment
    has set for it, for each of the eighteen exceptions.  If the page for the
    frame is mapped user-writable and the 52 bytes of the frame lie on one
    page, [trap] returns to user mode in the same environment, with the
    instruction pointer at the handler, the stack pointer at the frame, and
    the other registers as they were.  The words of the frame that the
    environment reads there are the fault address, the error code, the eight
    saved registers, and the instruction pointer, flags and stack pointer of
    the exception.  No other byte of memory changes, the address spaces keep
    their invariant, and the kernel lock is free. *)
Theorem trap_delivers (rcr2 eflags at_ : Z) (tf : Trapframe) (k : ks) (c : CpuInfo) (i : Z) (e : Env)
    (f : upcall) (l R : list Z) (x : Z → Z) (pd p : Z) :
  user_mode eflags k c i e → handled k e tf f → user_space k e l R x pd →
  let utf := utf_addr tf in let v := utf / PGSIZE in let ws := utf_words rcr2 tf in
  writable (kpm k) pd v p → user_ok (phys (kpm k)) pd (Z.lor PTE_W PTE_U) v = true →
  (utf + sizeof_UTrapframe - 1) / PGSIZE = v → (∀ w, w ∈ ws → u32_range w) →
  ∃ k' e', trap rcr2 eflags at_ tf k = Stop (SRun i) k' ∧
    envs k' !! i = Some e' ∧ env_tf e' = set_tf_esp utf (set_tf_eip (env_upcalls e f) tf) ∧
    env_status e' = env_status e ∧ cpus k' !! cpunum k = Some c ∧ klock k' = None ∧
    (∀ n w, ws !! n = Some w → vld32 (utf + 4 * Z.of_nat n) (kpm k') = Ret w (kpm k')) ∧
    (∀ a, a < p * PGSIZE + utf mod PGSIZE ∨ p * PGSIZE + utf mod PGSIZE + sizeof_UTrapframe ≤ a →
       ld8 (phys (kpm k')) a = ld8 (phys (kpm k)) a) ∧
    vm_inv (kpm k') l R x.
Proof.
  intros U Hd S utf v ws Hw Hok Hpage Hr. destruct S as [H Hpd Hpg Hcr3 W].
  destruct (trap_handler rcr2 eflags at_ tf k c i e f U Hd) as (msg & before & Hb & ->).
  set (k1 := entered k c i e tf).
  destruct (utf_addr_range tf (hd_esp _ _ _ _ Hd)) as [_ Hv]. fold utf in Hv. fold v in Hv.
  destruct (handler_delivers rcr2 msg f before k1 c i (set_env_tf tf e) l R x pd p) as (lg & E & A); auto.
  - apply lookup_insert_eq.
  - apply (um_env _ _ _ _ _ U).
  - apply lookup_insert_eq.
  - cbn. rewrite (hd_user _ _ _ _ Hd). discriminate.
  - apply (hd_esp _ _ _ _ Hd).
  - apply (hd_set _ _ _ _ Hd).
  - rewrite (bind_Stop _ _ _ _ _ E). change (kpm k1) with (kpm k) in *. cbn [env_tf set_env_tf] in E, A.
    fold utf in A. fold ws in A. change (env_tf (set_env_tf tf e)) with tf. fold utf. fold ws.
    set (m' := st_words _ _ ws) in *.
    eexists _, _. split; [reflexivity|]. ksimpl. split; [apply lookup_insert_eq|]. ksimpl.
    split; [reflexivity|]. split; [reflexivity|]. split; [apply lookup_insert_eq|]. split; [reflexivity|].
    split; [|split].
    + intros n w Hn. assert (0 ≤ Z.of_nat n < 13) as Hn'.
      { apply lookup_lt_Some in Hn. change (length ws) with 13%nat in Hn. lia. }
      rewrite <- (ld32_st_words ws (phys (kpm k)) (p * PGSIZE + utf mod PGSIZE) n w Hr Hn). fold m'.
      apply (vld32_kaddr (with_phys m' (kpm k))). intros j Hj. unfold sizeof_UTrapframe in Hpage.
      rewrite (user_kaddr (kpm k) l R x H pd v p Hpd Hv Hcr3 Hw m' false) by
        (assumption || (clear - Hpage Hn' Hj; unfold v, PGSIZE in *; Z.div_mod_to_equations; lia)).
      f_equal. clear - Hpage Hn' Hj. unfold v, PGSIZE in *. Z.div_mod_to_equations. lia.
    + intros a Ha. psimpl. apply ld8_st_words. exact Ha.
    + eapply agree_inv; eauto.
Qed.

(** Environment 0 has a page at the top of its exception stack and a handler
    for divisions by zero. *)
Definition demo_at (va : Z) : pm :=
  match page_insert None (kva_of 0) 1 va 6 demo_vm with Ret _ s => s | Stop _ s => s end.

Lemma demo_at_inv va : user_va va → ∃ l', vm_inv (demo_at va) l' [0] none_held.
Proof.
  intros V. destruct demo_not_free as [H1 H2], demo_va as (_ & _ & Hp & Hr).
  destruct (insert_run None _ _ _ _ _ _ _ 6 _ demo_vm_inv demo_in V demo_page H1 H2
    (demo_not_pt 1) Hr Hp) as [(_ & F & _)|(s' & l' & E & I)]; [discriminate F|].
  unfold demo_at. rewrite E. exists l'. apply I.
Qed.

(** Only user entries of the demonstration directories are used. *)
Lemma walkable_user s l R x pd : vm_inv s l R x → pd ∈ R →
  forallb (λ j, bool_decide (pt_of (phys s) pd j = None)) (seqZ UPDX (1024 - UPDX)) = true → walkable s pd.
Proof.
  intros H Hpd Hf. split; [apply (vm_npages _ _ _ _ H)|]. intros i t Hi Ht. destruct (Z_lt_le_dec i UPDX).
  - eapply (vm_pt_bound _ _ _ _ _ _ _ H Hpd); [|exact Ht]. lia.
  - exfalso. rewrite forallb_forall in Hf. specialize (Hf i). rewrite <- list_elem_of_In, elem_of_seqZ in Hf.
    specialize (Hf ltac:(lia)). apply bool_decide_eq_true in Hf. congruence.
Qed.

Definition demo_user_tf (esp : Z) : Trapframe :=
  MkTrapframe zero_regs 0 0 T_DIVIDE 0 0x800020 (Z.lor GD_UT 3) FL_IF esp (Z.lor GD_UD 3).
Definition demo_handling : Env := set_upcall env_divzero_upcall 0x801000 (demo_env 0).
Definition demo_user (va : Z) : ks :=
  set_klock None (set_envs (<[0 := demo_handling]> demo_envs)
    (set_kpm (with_cr3 0 (with_roots (kva_of 1) 0 0 (demo_at va))) (demo_ks demo_vm))).

Lemma demo_user_mode va : user_mode 0 (demo_user va) demo_cpu 0 demo_handling.
Proof. split; [reflexivity..|apply lookup_insert_eq|reflexivity|reflexivity|reflexivity]. Qed.

Lemma demo_handled va esp : u32_range esp → handled (demo_user va) demo_handling (demo_user_tf esp) env_divzero_upcall.
Proof. intros H. split; try reflexivity; [discriminate|exact H|discriminate]. Qed.

Lemma demo_space va : user_va va →
  forallb (λ j, bool_decide (pt_of (phys (demo_at va)) 0 j = None)) (seqZ UPDX (1024 - UPDX)) = true →
  ∃ l, user_space (demo_user va) demo_handling l [0] none_held 0.
Proof.
  intros Hu Hf. destruct (demo_at_inv va Hu) as [l H]. exists l.
  assert (kpm (demo_user va) = with_cr3 0 (with_roots (kva_of 1) 0 0 (demo_at va))) as E by reflexivity.
  revert H E Hf. generalize (demo_at va). intros s H E Hf.
  assert (vm_inv (kpm (demo_user va)) l [0] none_held) as H' by (rewrite E; apply (vm_inv_ext s); auto).
  split; [exact H'|apply demo_in|reflexivity|rewrite E; reflexivity|].
  eapply walkable_user; [exact H'|apply demo_in|rewrite E; exact Hf].
Qed.

Lemma trap_delivers_witness : ∃ k' e',
  trap 0 0 0 (demo_user_tf 0x7000) (demo_user 0xEEBFF000) = Stop (SRun 0) k' ∧
  envs k' !! 0 = Some e' ∧ tf_eip (env_tf e') = 0x801000 ∧
  vld32 (UXSTACKTOP - 12) (kpm k') = Ret 0x800020 (kpm k').
Proof.
  destruct (demo_space 0xEEBFF000) as [l S]; [split; reflexivity || discriminate|vm_compute; reflexivity|].
  destruct (trap_delivers 0 0 0 (demo_user_tf 0x7000) (demo_user 0xEEBFF000) demo_cpu 0 demo_handling
    env_divzero_upcall l [0] none_held 0 1 (demo_user_mode _)) as (k' & e' & E & He & Htf & _ & _ & _ & Hr & _).
  - apply demo_handled. split; reflexivity || discriminate.
  - exact S.
  - eexists. split; [vm_compute; reflexivity|]. split; vm_compute; reflexivity.
  - vm_compute. reflexivity.
  - reflexivity.
  - intros w Hw. assert (Forall u32_range (utf_words 0 (demo_user_tf 0x7000))) as F
      by (repeat constructor; unfold u32_range; vm_compute; discriminate || reflexivity).
    rewrite Forall_forall in F. apply F, Hw.
  - exists k', e'. split; [exact E|]. split; [exact He|]. rewrite Htf. split; [reflexivity|].
    apply (Hr 10%nat). reflexivity.
Defined.

(** The handlers check one byte of the frame, and the frame may be longer
    than the page: with the user's stack pointer in the first bytes of the
    exception stack's page, the frame starts on the page below it.  If an
    environment maps that page and not the one the exception stack is on, its
    next handled exception makes the kernel itself fault, and [trap] panics. *)
Theorem trap_straddle_panics (rcr2 eflags at_ : Z) (tf : Trapframe) (k : ks) (c : CpuInfo) (i : Z) (e : Env)
    (f : upcall) (l R : list Z) (x : Z → Z) (pd p : Z) :
  user_mode eflags k c i e → handled k e tf f → user_space k e l R x pd →
  let utf := utf_addr tf in let v := utf / PGSIZE in
  writable (kpm k) pd v p → user_ok (phys (kpm k)) pd (Z.lor PTE_W PTE_U) v = true →
  UXSTACKTOP - PGSIZE + 4 < tf_esp tf < UXSTACKTOP - PGSIZE + 56 → pte_of (phys (kpm k)) pd (v + 1) = None →
  ∃ k', trap rcr2 eflags at_ tf k = Stop (SPanic "page fault in kernel mode!") k'.
Proof.
  intros U Hd S utf v Hw Hok Hesp Hn. destruct S as [H Hpd Hpg Hcr3 W].
  destruct (trap_handler rcr2 eflags at_ tf k c i e f U Hd) as (msg & before & Hb & ->).
  destruct (utf_addr_range tf (hd_esp _ _ _ _ Hd)) as [_ Hv]. fold utf in Hv. fold v in Hv.
  assert (utf = tf_esp tf - 56) as Eu.
  { unfold utf, utf_addr, sizeof_UTrapframe. rewrite Z.geb_leb. zcases; cbn [andb]; unfold PGSIZE in *; lia. }
  assert (v + 1 < UVPN ∧ (utf + 4 * Z.of_nat (length (utf_words rcr2 tf)) - 1) / PGSIZE = v + 1) as [Hv1 Hlast].
  { unfold v. rewrite Eu, UVPN_eq. change UTOP with 0xEEC00000 in *. change UXSTACKTOP with 0xEEC00000 in *.
    change (Z.of_nat (length (utf_words rcr2 tf))) with 13. unfold PGSIZE in *. Z.div_mod_to_equations. lia. }
  destruct (vst_words_straddle (kpm k) l R x H pd v p Hpd Hv Hcr3 Hw Hv1 Hn (utf_words rcr2 tf) (phys (kpm k)) utf)
    as [s' Est]; [intros ? ? ? ?; reflexivity|reflexivity|exact Hlast|].
  replace (with_phys (phys (kpm k)) (kpm k)) with (kpm k) in Est by (destruct (kpm k); reflexivity).
  set (k1 := entered k c i e tf).
  assert (envs k1 !! i = Some (set_env_tf tf e)) as Hi by apply lookup_insert_eq.
  assert (curenv_deref k1 = Ret i k1) as Ecur.
  { unfold curenv_deref. erewrite bind_Ret by (apply curenv_eq, lookup_insert_eq).
    rewrite (um_env _ _ _ _ _ U). reflexivity. }
  apply (handler_user_faults rcr2 msg f before k1 i (set_env_tf tf e) pd s'); try assumption.
  - cbn. rewrite (hd_user _ _ _ _ Hd). discriminate.
  - apply (hd_esp _ _ _ _ Hd).
  - apply (hd_set _ _ _ _ Hd).
Qed.

Lemma trap_straddle_panics_witness : ∃ k',
  trap 0 0 0 (demo_user_tf 0xEEBFF010) (demo_user 0xEEBFE000) = Stop (SPanic "page fault in kernel mode!") k'.
Proof.
  destruct (demo_space 0xEEBFE000) as [l S]; [split; reflexivity || discriminate|vm_compute; reflexivity|].
  apply (trap_straddle_panics 0 0 0 (demo_user_tf 0xEEBFF010) (demo_user 0xEEBFE000) demo_cpu 0 demo_handling
    env_divzero_upcall l [0] none_held 0 1 (demo_user_mode _)).
  - apply demo_handled. split; reflexivity || discriminate.
  - exact S.
  - eexists. split; [vm_compute; reflexivity|]. split; vm_compute; reflexivity.
  - vm_compute. reflexivity.
  - split; reflexivity.
  - vm_compute. reflexivity.
Defined.

(** * The descriptor tables *)

Section tables.
Context (t_handler cpu_ts : Z → Z).
Implicit Types (k : ks) (T : gmap Z Gatedesc).

Definition with_idt T k : ks := set_ktrap (set_idt T (ktrap k)) k.

Lemma setgate_run i g T k : setgate i g (with_idt T k) = Ret tt (with_idt (<[i := g]> T) k).
Proof. reflexivity. Qed.

Lemma with_idt_same k : with_idt (idt (ktrap k)) k = k.
Proof. destruct k as [? ? ? ? ? ? ? ? []]. reflexivity. Qed.

(** A loop that sets the gates [off], ..., [off + n - 1] for which [h] has a value. *)
Lemma setgate_loop (h : Z → option Gatedesc) (body : Z → M ks unit) off n T k :
  (∀ i T, 0 ≤ i < Z.of_nat n →
    body i (with_idt T k) = Ret tt (with_idt (match h i with Some g => <[off + i := g]> T | None => T end) k)) →
  ∃ T', for_range n 0 1 body (with_idt T k) = Ret tt (with_idt T' k) ∧
    ∀ j, T' !! j = if decide (off ≤ j < off + Z.of_nat n)
                   then match h (j - off) with Some g => Some g | None => T !! j end else T !! j.
Proof.
  intros Hb.
  destruct (for_range_inv (λ m st, ∃ T', st = with_idt T' k ∧
    ∀ j, T' !! j = if decide (off ≤ j < off + m)
                   then match h (j - off) with Some g => Some g | None => T !! j end else T !! j)
    body 1 n 0 (with_idt T k)) as (st & E & T' & -> & HT).
  - exists T. split; [reflexivity|]. intros j. rewrite decide_False by lia. reflexivity.
  - intros m st Hm (T1 & -> & HT). replace (0 + (m + 1) * 1) with (m + 1) by lia.
    replace (0 + m * 1) with m in * by lia. rewrite Hb by lia.
    eexists. split; [reflexivity|]. eexists. split; [reflexivity|]. intros j.
    destruct (decide (j = off + m)) as [->|Hj].
    + rewrite decide_True by lia. replace (off + m - off) with m by lia.
      destruct (h m); [apply lookup_insert_eq|]. rewrite HT, decide_False by lia. reflexivity.
    + assert (match h m with Some g => <[off + m := g]> T1 | None => T1 end !! j = T1 !! j) as ->
        by (destruct (h m); [apply lookup_insert_ne; congruence|reflexivity]).
      rewrite HT. destruct (decide (off ≤ j < off + m)); [rewrite decide_True by lia|rewrite decide_False by lia]; reflexivity.
  - exists T'. split; [exact E|]. intros j. rewrite HT. replace (0 + Z.of_nat n * 1) with (Z.of_nat n) by lia.
    reflexivity.
Qed.

(** The segments and gates as the processor reads them. *)
Definition gate_offset (g : Gatedesc) : Z := gd_off_31_16 g * 2 ^ 16 + gd_off_15_0 g.
Definition seg_base (d : Segdesc) : Z :=
  sd_base_31_24 d * 2 ^ 24 + sd_base_23_16 d * 2 ^ 16 + sd_base_15_0 d.
Definition seg_limit (d : Segdesc) : Z := sd_lim_19_16 d * 2 ^ 16 + sd_lim_15_0 d.

(** The entry of t_handler for vector [i]. *)
Definition entry_of (i : Z) : option Z :=
  if decide (0 ≤ i < 20 ∧ i ≠ 9 ∧ i ≠ 15) then Some i
  else if decide (i = T_SYSCALL) then Some 20
  else if decide (32 ≤ i < 48) then Some (21 + (i - 32)) else None.

Lemma land_FFFF z : Z.land z 0xffff = z mod 2 ^ 16.
Proof. apply (Z.land_ones z 16). lia. Qed.
Lemma land_FF z : Z.land z 0xff = z mod 2 ^ 8.
Proof. apply (Z.land_ones z 8). lia. Qed.

Lemma SETGATE_offset sel off dpl : gate_offset (SETGATE 0 sel off dpl) = w32 off.
Proof.
  unfold gate_offset, SETGATE. cbn [gd_off_31_16 gd_off_15_0]. rewrite land_FFFF, Z.shiftr_div_pow2 by lia.
  pose proof (Z.div_mod (w32 off) (2 ^ 16)). lia.
Qed.

Lemma SEG16_base type base lim dpl : u32_range base → seg_base (SEG16 type base lim dpl) = base.
Proof.
  intros H. unfold seg_base, SEG16. cbn [sd_base_31_24 sd_base_23_16 sd_base_15_0].
  rewrite land_FFFF, land_FF, !Z.shiftr_div_pow2 by lia. unfold u32_range in H. Z.div_mod_to_equations. lia.
Qed.

Definition tss_state (c : CpuInfo) (k : ks) : ks :=
  set_cpus (<[cpunum k := set_ts_ss0 GD_KD (set_ts_esp0 (w32 (KSTACKTOP - cpu_id c * (KSTKSIZE + KSTKGAP))) c)]> (cpus k))
    (set_ktrap (set_task_reg (<[cpunum k := GD_TSS0 + 8 * cpu_id c]> (task_reg (ktrap k)))
      (set_gdt (<[Z.shiftr GD_TSS0 3 + cpu_id c :=
          set_sd_s 0 (SEG16 STS_T32A (cpu_ts (cpunum k)) (sizeof_Taskstate - 1) 0)]> (gdt (ktrap k))) (ktrap k))) k).

Lemma trap_init_percpu_run k c : cpus k !! cpunum k = Some c → trap_init_percpu cpu_ts k = Ret tt (tss_state c k).
Proof.
  intros Hc. unfold trap_init_percpu. rewrite (bind_Ret _ _ _ _ _ (thiscpu_eq k c Hc)). cbv zeta.
  rewrite (bind_Ret _ _ _ _ _ (thiscpu_upd_eq k c _ Hc)).
  erewrite bind_Ret by (apply thiscpu_upd_eq; ksimpl; apply lookup_insert_eq). unfold intrap. mrun. unfold modify. ksimpl.
  rewrite alter_insert_eq, insert_insert_eq. autorewrite with ks. do 3 f_equal.
Qed.
(** The gate that trap_init installs. *)
Definition gate_at (i : Z) : option Gatedesc :=
  n ← entry_of i; Some (SETGATE 0 GD_KT (t_handler n) (if decide (i ∈ [2; 3; 4; 5; 8; 48]) then 3 else 0)).

Lemma trap_init_run k c : cpus k !! cpunum k = Some c → ∃ T,
  trap_init t_handler cpu_ts k = Ret tt (tss_state c (with_idt T k)) ∧
  ∀ i, T !! i = match gate_at i with Some g => Some g | None => idt (ktrap k) !! i end.
Proof.
  intros Hc. unfold trap_init.
  destruct (setgate_loop
    (λ i, if i =? T_BRKPT then Some (SETGATE 0 GD_KT (t_handler i) 3)
          else if negb (i =? 9) && negb (i =? 15) then Some (SETGATE 0 GD_KT (t_handler i) 0) else None)
    (λ i, if i =? T_BRKPT then setgate i (SETGATE 0 GD_KT (t_handler i) 3)
          else when (negb (i =? 9) && negb (i =? 15)) (setgate i (SETGATE 0 GD_KT (t_handler i) 0)))
    0 20 (idt (ktrap k)) k) as (T1 & E1 & H1).
  { intros i T _. destruct (i =? T_BRKPT); [apply setgate_run|].
    destruct (negb (i =? 9) && negb (i =? 15)); [apply setgate_run|reflexivity]. }
  rewrite with_idt_same in E1. rewrite (bind_Ret _ _ _ _ _ E1), (bind_Ret _ _ _ _ _ (setgate_run _ _ _ _)).
  set (T2 := <[T_SYSCALL := _]> T1).
  destruct (setgate_loop (λ i, Some (SETGATE 0 GD_KT (t_handler (21 + i)) 0))
    (λ i, setgate (IRQ_OFFSET + i) (SETGATE 0 GD_KT (t_handler (21 + i)) 0)) IRQ_OFFSET 16 T2 k) as (T3 & E3 & H3).
  { intros i T _. apply setgate_run. }
  rewrite (bind_Ret _ _ _ _ _ E3). rewrite !(bind_Ret _ _ _ _ _ (setgate_run _ _ _ _)).
  erewrite trap_init_percpu_run by exact Hc.
  eexists. split; [reflexivity|]. intros i. unfold gate_at, entry_of.
  rewrite !lookup_insert, H3. unfold T2. rewrite lookup_insert, H1.
  change T_SYSCALL with 48. change T_DBLFLT with 8. change T_BOUND with 5. change T_OFLOW with 4.
  change T_NMI with 2. change T_BRKPT with 3. change IRQ_OFFSET with 32. rewrite Z.sub_0_r.
  destruct (decide (i ∈ [2; 3; 4; 5; 8; 48])) as [Hin|Hin].
  - rewrite !elem_of_cons, elem_of_nil in Hin. destruct Hin as [->|[->|[->|[->|[->|[->|[]]]]]]]; reflexivity.
  - rewrite !not_elem_of_cons in Hin. destruct Hin as (? & ? & ? & ? & ? & ? & _).
    rewrite !(decide_False (P := _ = i)) by congruence. rewrite (decide_False (P := i = 48)) by assumption.
    replace (i =? 3) with false by (symmetry; apply Z.eqb_neq; assumption).
    destruct (decide (0 ≤ i < 20 ∧ i ≠ 9 ∧ i ≠ 15)) as [(Hi & H9 & H15)|Hi].
    + rewrite (decide_False (P := 32 ≤ i < _)), (decide_True (P := 0 ≤ i < _)) by lia.
      rewrite !(proj2 (Z.eqb_neq _ _)) by assumption. reflexivity.
    + change (32 + Z.of_nat 16) with 48. destruct (decide (32 ≤ i < 48)); [reflexivity|].
      case_decide; [|reflexivity]. destruct (Z.eqb_spec i 9), (Z.eqb_spec i 15); try reflexivity.
      exfalso. apply Hi. split; [lia|auto].
Qed.
End tables.

(** [trap_init] fills the interrupt descriptor table: each of the
    exceptions the kernel handles (0 to 19 except 9 and 15), the system call
    and the sixteen hardware interrupts get a present interrupt gate to their
    own entry point in the kernel's code segment; user programs can raise
    exactly vectors 2, 3, 4, 5, 8 and 48 with an int instruction; every other
    gate is left as it was. *)
Theorem trap_init_gates (t_handler cpu_ts : Z → Z) (k : ks) (c : CpuInfo) :
  cpus k !! cpunum k = Some c →
  ∃ k', trap_init t_handler cpu_ts k = Ret tt k' ∧
    ∀ i, match entry_of i with
         | Some n => ∃ g, idt (ktrap k') !! i = Some g ∧ gate_offset g = w32 (t_handler n) ∧
             gd_sel g = GD_KT ∧ gd_type g = STS_IG32 ∧ gd_p g = 1 ∧
             gd_dpl g = if decide (i ∈ [2; 3; 4; 5; 8; 48]) then 3 else 0
         | None => idt (ktrap k') !! i = idt (ktrap k) !! i
         end.
Proof.
  intros Hc. destruct (trap_init_run t_handler cpu_ts k c Hc) as (T & E & HT). eexists. split; [exact E|]. intros i.
  change (idt (ktrap (tss_state cpu_ts c (with_idt T k)))) with T. rewrite HT. unfold gate_at.
  destruct (entry_of i) as [n|]; [|reflexivity]. eexists. split; [reflexivity|]. split; [apply SETGATE_offset|auto].
Qed.

(** A demonstration: entry points and task states 16 bytes apart. *)
Lemma trap_init_gates_witness : ∃ k' g,
  trap_init (λ i, 0xF0104000 + 16 * i) (λ i, 0xF0200000 + 116 * i) (demo_ks demo_vm) = Ret tt k' ∧
  idt (ktrap k') !! T_BRKPT = Some g ∧ gate_offset g = 0xF0104030 ∧ gd_dpl g = 3.
Proof.
  destruct (trap_init_gates (λ i, 0xF0104000 + 16 * i) (λ i, 0xF0200000 + 116 * i) (demo_ks demo_vm) demo_cpu eq_refl)
    as (k' & E & H). specialize (H T_BRKPT). destruct H as (g & Hg & Ho & _ & _ & _ & Hd).
  exists k', g. split; [exact E|]. split; [exact Hg|]. split; [exact Ho|exact Hd].
Defined.

(** [trap_init_percpu] gives each CPU its own kernel stack and task state:
    the stack starts at KSTACKTOP less [cpu_id] times the size of a stack and
    its guard gap, lies above the device memory, and overlaps the stack of no
    other CPU; the descriptor of slot [cpu_id] is a system segment of the
    task-state type over the CPU's own task state, and the task register
    selects it.  The other CPUs and the interrupt table are not affected. *)
Theorem trap_init_percpu_stack (cpu_ts : Z → Z) (k : ks) (c : CpuInfo) :
  cpus k !! cpunum k = Some c → 0 ≤ cpu_id c < NCPU → u32_range (cpu_ts (cpunum k)) →
  ∃ k' c' d, trap_init_percpu cpu_ts k = Ret tt k' ∧
    cpus k' = <[cpunum k := c']> (cpus k) ∧ cpu_env c' = cpu_env c ∧ ts_ss0 c' = GD_KD ∧
    ts_esp0 c' = KSTACKTOP - cpu_id c * (KSTKSIZE + KSTKGAP) ∧
    MMIOLIM ≤ ts_esp0 c' - KSTKSIZE ∧
    (∀ id, 0 ≤ id < NCPU → id ≠ cpu_id c →
       let top := KSTACKTOP - id * (KSTKSIZE + KSTKGAP) in
       ts_esp0 c' < top - KSTKSIZE ∨ top < ts_esp0 c' - KSTKSIZE) ∧
    gdt (ktrap k') = <[GD_TSS0 / 8 + cpu_id c := d]> (gdt (ktrap k)) ∧
    seg_base d = cpu_ts (cpunum k) ∧ seg_limit d = sizeof_Taskstate - 1 ∧
    sd_s d = 0 ∧ sd_type d = STS_T32A ∧ sd_p d = 1 ∧ sd_dpl d = 0 ∧
    task_reg (ktrap k') !! cpunum k = Some (8 * (GD_TSS0 / 8 + cpu_id c)) ∧
    idt (ktrap k') = idt (ktrap k).
Proof.
  intros Hc Hid Hts. rewrite (trap_init_percpu_run cpu_ts k c Hc). unfold tss_state. eexists _, _, _. split; [reflexivity|].
  ksimpl. split; [reflexivity|]. ksimpl. split; [reflexivity|]. split; [reflexivity|].
  change NCPU with 8 in *. change KSTACKTOP with 0xF0000000. change KSTKSIZE with 0x8000. change KSTKGAP with 0x8000.
  change MMIOLIM with 0xEFC00000. rewrite w32_id by (unfold u32_range; lia).
  split; [reflexivity|]. split; [lia|]. split; [intros; lia|]. split; [reflexivity|].
  split; [apply SEG16_base; assumption|]. repeat (split; [reflexivity|]).
  split; [|reflexivity]. rewrite lookup_insert_eq. f_equal. change GD_TSS0 with 0x28. change (0x28 / 8) with 5. lia.
Qed.

Lemma trap_init_percpu_stack_witness : ∃ k' c', trap_init_percpu (λ i, 0xF0200000 + 116 * i) (demo_ks demo_vm) = Ret tt k' ∧
  cpus k' !! 0 = Some c' ∧ ts_esp0 c' = KSTACKTOP.
Proof.
  destruct (trap_init_percpu_stack (λ i, 0xF0200000 + 116 * i) (demo_ks demo_vm) demo_cpu eq_refl)
    as (k' & c' & d & E & Hc & _ & _ & Hs & _); [split; reflexivity || discriminate..|].
  exists k', c'. split; [exact E|]. split; [rewrite Hc; apply lookup_insert_eq|rewrite Hs; reflexivity].
Defined.

(** * System calls *)

Section syscalls.
Context (rcr2 eflags at_ : Z).
Implicit Types (k : ks).

(** The call that a system-call trap makes, in the state it makes it. *)
Definition syscall_of (tf : Trapframe) : M ks Z :=
  let g := tf_regs tf in
  syscall (reg_eax g) (reg_edx g) (reg_ecx g) (reg_ebx g) (reg_edi g) (reg_esi g).

Lemma trap_syscall_run tf k c i e v k2 e2 : user_mode eflags k c i e → env_status e ≠ ENV_DYING →
  Z.land (tf_cs tf) 3 = 3 → tf_trapno tf = T_SYSCALL →
  syscall_of tf (entered k c i e tf) = Ret v k2 → envs k2 !! i = Some e2 →
  trap rcr2 eflags at_ tf k = trap_exit
    (set_envs (<[i := set_env_tf (set_tf_regs (set_reg_eax (w32 v) (tf_regs (env_tf e2))) (env_tf e2)) e2]> (envs k2)) k2).
Proof.
  intros U Ha Hu Hn Hsys Hi2. rewrite (trap_enter rcr2 eflags at_ tf k c i e U Ha Hu).
  set (k1 := entered k c i e tf) in *. unfold trap_dispatch. rewrite !bind_assoc.
  rewrite (bind_Ret _ _ _ tf k1).
  2: { unfold tf_get. erewrite bind_Ret by (apply env_get_eq, lookup_insert_eq). reflexivity. }
  rewrite Hn. cbv zeta.
  repeat match goal with |- context [T_SYSCALL =? ?n] =>
    let b := eval vm_compute in (T_SYSCALL =? n) in change (T_SYSCALL =? n) with b end.
  cbv iota. rewrite bind_assoc.
  unfold syscall_of in Hsys. cbv zeta in Hsys. rewrite (bind_Ret _ _ _ _ _ Hsys). unfold tf_set_eax.
  rewrite (bind_Ret _ _ _ _ _ (env_upd_eq k2 i e2 _ Hi2)). reflexivity.
Qed.

(** The address space to go back to is the loaded one: env_run of the current
    environment neither switches nor counts. *)
Lemma env_run_self k c i x : cpus k !! cpunum k = Some c → cpu_env c = Some i →
  klock k = Some (cpunum k) → envs k !! i = Some x →
  env_run i k = Stop (SRun i) (set_envs (<[i := set_env_cpunum (cpunum k) x]> (envs k)) (set_klock None k)).
Proof.
  intros Hc He Hl Hx. unfold env_run. rewrite (bind_Ret _ _ _ _ _ (curenv_eq k c Hc)), He.
  rewrite bool_decide_eq_false_2 by tauto. mrun. apply (run_tail k x c i Hl Hc He Hx).
Qed.
Lemma trap_returns_run tf k c i e v k2 c2 e2 : user_mode eflags k c i e → env_status e ≠ ENV_DYING →
  Z.land (tf_cs tf) 3 = 3 → tf_trapno tf = T_SYSCALL →
  syscall_of tf (entered k c i e tf) = Ret v k2 → 
  envs k2 !! i = Some e2 → env_status e2 = ENV_RUNNING → cpus k2 !! cpunum k2 = Some c2 →
  cpu_env c2 = Some i → klock k2 = Some (cpunum k2) →
  trap rcr2 eflags at_ tf k = Stop (SRun i)
    (set_envs (<[i := set_env_cpunum (cpunum k2)
        (set_env_tf (set_tf_regs (set_reg_eax (w32 v) (tf_regs (env_tf e2))) (env_tf e2)) e2)]> (envs k2))
      (set_klock None k2)).
Proof.
  intros U Ha Hu Hn Hsys Hi2 Hs2 Hc2 He2 Hl2.
  rewrite (trap_syscall_run tf k c i e v k2 e2 U Ha Hu Hn Hsys Hi2).
  unfold trap_exit. erewrite bind_Ret by (apply curenv_eq; ksimpl; exact Hc2). rewrite He2.
  erewrite bind_Ret by (apply env_get_eq; ksimpl; apply lookup_insert_eq). ksimpl. rewrite Hs2. cbv iota.
  change (ENV_RUNNING =? ENV_RUNNING) with true. cbv iota.
  erewrite env_run_self; ksimpl; [|exact Hc2|exact He2|exact Hl2|apply lookup_insert_eq].
  autorewrite with ks. rewrite insert_insert_eq. reflexivity.
Qed.
End syscalls.

(** C25. A system call that returns: [trap] stores its result, as a 32-bit
    word, in the saved %eax of the calling environment and nowhere else in the
    frame, leaves memory, devices and the other environments as the call left
    them, and goes back to the environment with the lock released, provided the
    environment is still running. *)
Theorem trap_syscall_returns (rcr2 eflags at_ : Z) (tf : Trapframe) (k k2 : ks) (c c2 : CpuInfo) (i v : Z)
    (e e2 : Env) :
  user_mode eflags k c i e → env_status e ≠ ENV_DYING →
  Z.land (tf_cs tf) 3 = 3 → tf_trapno tf = T_SYSCALL →
  syscall_of tf (entered k c i e tf) = Ret v k2 → 
  envs k2 !! i = Some e2 → env_status e2 = ENV_RUNNING → cpus k2 !! cpunum k2 = Some c2 →
  cpu_env c2 = Some i → klock k2 = Some (cpunum k2) →
  ∃ k' e', trap rcr2 eflags at_ tf k = Stop (SRun i) k' ∧ klock k' = None ∧
    envs k' = <[i := e']> (envs k2) ∧ env_status e' = ENV_RUNNING ∧
    env_tf e' = set_tf_regs (set_reg_eax (w32 v) (tf_regs (env_tf e2))) (env_tf e2) ∧
    kpm k' = kpm k2 ∧ cpus k' = cpus k2 ∧ kcons k' = kcons k2.
Proof.
  intros U Ha Hu Hn Hsys Hi2 Hs2 Hc2 He2 Hl2.
  rewrite (trap_returns_run rcr2 eflags at_ tf k c i e v k2 c2 e2 U Ha Hu Hn Hsys Hi2 Hs2 Hc2 He2 Hl2).
  eexists _, _. split; [reflexivity|]. ksimpl. split; [reflexivity|]. split; [reflexivity|]. ksimpl. auto.
Qed.

Definition demo_call (a b d : Z) : Trapframe :=
  MkTrapframe (MkPushRegs 0 0 0 0 0 b d a) 0 0 T_SYSCALL 0 0x800020 (Z.lor GD_UT 3) FL_IF 0x7000 (Z.lor GD_UD 3).

Lemma trap_syscall_returns_witness : ∃ k' e',
  trap 0 0 0 (demo_call SYS_getenvid 0 0) (demo_user 0xEEBFF000) = Stop (SRun 0) k' ∧
  envs k' !! 0 = Some e' ∧ reg_eax (tf_regs (env_tf e')) = 4096.
Proof.
  set (k := demo_user 0xEEBFF000). set (tf := demo_call SYS_getenvid 0 0).
  destruct (trap_syscall_returns 0 0 0 tf k (entered k demo_cpu 0 demo_handling tf) demo_cpu demo_cpu 0 4096
    demo_handling (set_env_tf tf demo_handling) (demo_user_mode _)) as (k' & e' & E & _ & He & _ & Htf & _).
  - discriminate.
  - reflexivity.
  - reflexivity.
  - unfold syscall_of, tf. cbn [demo_call tf_regs reg_eax].
    change (syscall SYS_getenvid _ _ _ _ _) with sys_getenvid. unfold sys_getenvid, curenv_deref.
    rewrite bind_assoc. erewrite bind_Ret by (apply curenv_eq, lookup_insert_eq).
    change (cpu_env demo_cpu) with (Some 0). mrun.
    erewrite bind_Ret by (apply env_get_eq, lookup_insert_eq). reflexivity.
  - apply lookup_insert_eq.
  - reflexivity.
  - apply lookup_insert_eq.
  - reflexivity.
  - reflexivity.
  - exists k', e'. split; [exact E|]. rewrite He. split; [apply lookup_insert_eq|]. rewrite Htf. reflexivity.
Defined.

(** An environment that is the only one to run. *)
Record only_runnable (m : gmap Z Env) (i : Z) : Prop := {
  or_all : ∀ j, 0 ≤ j < NENV → is_Some (m !! j);
  or_it : ∃ e, m !! i = Some e ∧ env_status e = ENV_RUNNABLE ∧ KERNBASE ≤ env_pgdir e < 2 ^ 32;
  or_others : ∀ j e, j ≠ i → m !! j = Some e → env_status e ≠ ENV_RUNNABLE
}.

Lemma only_runnable_picked k c i : only_runnable (envs k) i → 0 ≤ i < NENV → cpus k !! cpunum k = Some c →
  klock k = Some (cpunum k) → cpu_env c = Some i ∨ cpu_env c = None → KERNBASE ≤ kern_pgdir (kpm k) < 2 ^ 32 →
  ∃ k', sched_yield k = Stop (SRun i) k' ∧ switched k c i k'.
Proof.
  intros [Ha (e & He & Hs & Hp) Ho] Hi Hc Hl Hcur Hk. apply sched_pick; [|assumption|exists e; auto|].
  - split; [assumption..| | |assumption].
    + intros j Hj. replace j with i by (destruct Hcur; congruence). assumption.
    + intros j x _ Hx Hr. destruct (decide (j = i)) as [->|D]; [congruence|destruct (Ho j x D Hx Hr)].
  - right. intros j Hj (x & Hx & Hr). exact (Ho j x Hj Hx Hr).
Qed.

Lemma only_runnable_switched k c i k' : only_runnable (envs k) i → cpu_env c = Some i → switched k c i k' →
  only_runnable (envs k') i.
Proof.
  intros [Ha (e & He & Hs & Hp) Ho] Hc Sw. pose proof (switched_self k c i k' Sw Hc) as Hsame. split.
  - intros j Hj. destruct (Ha j Hj) as [x Hx]. specialize (Hsame j). rewrite Hx in Hsame. inversion Hsame. eauto.
  - specialize (Hsame i). rewrite He in Hsame. inversion Hsame as [x y Q Ex Ey|].
    destruct Q as [Q1 Q2]. exists y. rewrite <- Q1, <- Q2. auto.
  - intros j y Hj Hy. specialize (Hsame j). rewrite Hy in Hsame. inversion Hsame as [x y0 Q Ex Ey|].
    destruct Q as [Q _]. pose proof (Ho j x Hj (eq_sym Ex)). congruence.
Qed.

(** sys_env_set_status on the caller itself. *)
Lemma set_own_status tf k c i e : cpus k !! cpunum k = Some c → cpu_env c = Some i → envs k !! i = Some e →
  reg_eax (tf_regs tf) = SYS_env_set_status → reg_edx (tf_regs tf) = 0 → reg_ecx (tf_regs tf) = ENV_RUNNABLE →
  syscall_of tf k = Ret 0 (set_envs (<[i := set_env_status ENV_RUNNABLE e]> (envs k)) k).
Proof.
  intros Hc Hce Hi Ha Hd Hcx. unfold syscall_of. rewrite Ha, Hd, Hcx.
  change (syscall SYS_env_set_status _ _ _ _ _) with (sys_env_set_status 0 ENV_RUNNABLE).
  change (sys_env_set_status 0 ENV_RUNNABLE) with (with_env 0 true (λ e, env_upd e (set_env_status ENV_RUNNABLE) ;; mret 0)).
  unfold with_env. change (envid2env 0 true) with (c ← curenv; mret (M := M ks) (0, c)).
  rewrite bind_assoc, (bind_Ret _ _ _ _ _ (curenv_eq k c Hc)), Hce, bind_mret.
  cbn [fst snd]. change (0 <? 0) with false. cbv iota. rewrite (bind_Ret _ _ _ _ _ (env_upd_eq k i e _ Hi)). reflexivity.
Qed.

(** C39. An environment may be run by two CPUs at the same time.  If the
    current environment sets its own status to ENV_RUNNABLE with a system
    call and no other is runnable, [trap] goes back to it
    without making it ENV_RUNNING, and it stays the current environment of
    its CPU; when another CPU then calls [sched_yield] it picks the same
    environment, and both CPUs have it as their current one. *)
Theorem self_runnable_runs_twice (rcr2 eflags at_ : Z) (tf : Trapframe) (k : ks) (c : CpuInfo) (i : Z) (e : Env) :
  user_mode eflags k c i e → env_status e = ENV_RUNNING → Z.land (tf_cs tf) 3 = 3 →
  tf_trapno tf = T_SYSCALL → reg_eax (tf_regs tf) = SYS_env_set_status →
  reg_edx (tf_regs tf) = 0 → reg_ecx (tf_regs tf) = ENV_RUNNABLE →
  (∀ j, 0 ≤ j < NENV → is_Some (envs k !! j)) → 0 ≤ i < NENV →
  (∀ j e', j ≠ i → envs k !! j = Some e' → env_status e' ≠ ENV_RUNNABLE) →
  KERNBASE ≤ env_pgdir e < 2 ^ 32 → KERNBASE ≤ kern_pgdir (kpm k) < 2 ^ 32 →
  ∃ k', trap rcr2 eflags at_ tf k = Stop (SRun i) k' ∧ klock k' = None ∧
    (∃ e', envs k' !! i = Some e' ∧ env_status e' = ENV_RUNNABLE) ∧
    ∀ n c2, n ≠ cpunum k → cpus k !! n = Some c2 → cpu_env c2 = None →
      ∃ k2 c3, sched_yield (set_cpunum n (set_klock (Some n) k')) = Stop (SRun i) k2 ∧
        cpus k2 !! n = Some c3 ∧ cpu_env c3 = Some i ∧
        ∃ c4, cpus k2 !! cpunum k = Some c4 ∧ cpu_env c4 = Some i.
Proof.
  intros U Hs Hu Hn Ha Hd Hcx Hall Hi Hno Hpg Hkp. pose proof (um_env _ _ _ _ _ U) as Hce.
  set (k1 := entered k c i e tf). assert (cpus k1 !! cpunum k1 = Some c) as Hc1 by apply lookup_insert_eq.
  assert (envs k1 !! i = Some (set_env_tf tf e)) as Hi1 by apply lookup_insert_eq.
  pose proof (set_own_status tf k1 c i _ Hc1 Hce Hi1 Ha Hd Hcx) as Hsys. set (k2 := set_envs _ k1) in Hsys.
  rewrite (trap_syscall_run rcr2 eflags at_ tf k c i e 0 k2 _ U ltac:(rewrite Hs; discriminate) Hu Hn Hsys (lookup_insert_eq _ _ _)).
  set (k3 := set_envs (<[i := set_env_tf _ _]> (envs k2)) k2).
  assert (only_runnable (envs k3) i) as H3.
  { unfold k3, k2, k1, entered. ksimpl. rewrite !insert_insert_eq. split.
    - intros j Hj. apply lookup_insert_is_Some'. auto.
    - eexists. split; [apply lookup_insert_eq|]. auto.
    - intros j x Hj Hx. rewrite lookup_insert_ne in Hx by congruence. apply (Hno j x Hj Hx). }
  destruct (or_it _ _ H3) as (e3 & Hi3 & Hs3 & _).
  destruct (only_runnable_picked k3 c i H3 Hi Hc1 eq_refl (or_introl Hce) Hkp) as (k' & E & Sw). exists k'. split.
  { unfold trap_exit. rewrite (bind_Ret _ _ _ _ _ (curenv_eq k3 c Hc1)), Hce.
    rewrite (bind_Ret _ _ _ _ _ (env_get_eq k3 i e3 Hi3)), Hs3. exact E. }
  split; [apply (sw_lock _ _ _ _ Sw)|]. pose proof (only_runnable_switched k3 c i k' H3 Hce Sw) as H'.
  split; [destruct (or_it _ _ H') as (e' & ? & ? & _); eauto|]. intros n c2 Hn2 Hcn Hcn0.
  destruct (only_runnable_picked (set_cpunum n (set_klock (Some n) k')) c2 i) as (k4 & E4 & Sw4); [exact H'|exact Hi| |reflexivity|auto| |].
  - ksimpl. rewrite (sw_others _ _ _ _ Sw n Hn2). unfold k3, k2, k1, entered. ksimpl. rewrite lookup_insert_ne by congruence. exact Hcn.
  - ksimpl. rewrite (proj1 (sw_kern _ _ _ _ Sw)). exact Hkp.
  - exists k4, (set_cpu_env (Some i) c2). split; [exact E4|]. split; [apply (sw_cpu _ _ _ _ Sw4)|].
    split; [reflexivity|]. exists (set_cpu_env (Some i) c). split; [|reflexivity].
    rewrite (sw_others _ _ _ _ Sw4) by (ksimpl; congruence). apply (sw_cpu _ _ _ _ Sw).
Qed.

Definition demo_two : ks :=
  set_cpus (<[1 := MkCpuInfo 1 CPU_STARTED None 0 0]> {[0 := demo_cpu]}) (demo_user 0xEEBFF000).

Lemma self_runnable_runs_twice_witness : ∃ k' k2 c3 c4,
  trap 0 0 0 (demo_call SYS_env_set_status 0 ENV_RUNNABLE) demo_two = Stop (SRun 0) k' ∧
  sched_yield (set_cpunum 1 (set_klock (Some 1) k')) = Stop (SRun 0) k2 ∧
  cpus k2 !! 1 = Some c3 ∧ cpu_env c3 = Some 0 ∧ cpus k2 !! 0 = Some c4 ∧ cpu_env c4 = Some 0.
Proof.
  destruct (self_runnable_runs_twice 0 0 0 (demo_call SYS_env_set_status 0 ENV_RUNNABLE) demo_two demo_cpu 0 demo_handling)
    as (k' & E & _ & _ & H).
  - split; [reflexivity..|apply lookup_insert_eq|reflexivity|reflexivity|reflexivity].
  - reflexivity.
  - reflexivity.
  - reflexivity.
  - reflexivity.
  - reflexivity.
  - reflexivity.
  - intros j Hj. apply lookup_insert_is_Some'. right. exists (demo_env j). apply (demo_envs_lookup j Hj).
  - split; reflexivity || discriminate.
  - intros j e' Hj He. unfold demo_two, demo_user in He. ksimpl. rewrite lookup_insert_ne in He by congruence.
    apply demo_envs_inv in He as [_ ->]. cbn. destruct (Z.eqb_spec j 0); discriminate || congruence.
  - split; reflexivity || discriminate.
  - split; reflexivity || discriminate.
  - destruct (H 1 (MkCpuInfo 1 CPU_STARTED None 0 0)) as (k2 & c3 & E2 & H3 & Hc3 & c4 & H4 & Hc4);
      [discriminate|reflexivity|reflexivity|].
    exists k', k2, c3, c4. auto 10.
Defined.
