(* ===== verification/Isolation.v ===== *)
(** The kernel against any program: whatever a program stores, and whatever
    traps it takes, the invariant of the kernel holds and the kernel's pages
    keep their contents, step by step and so in every state that is reached. *)
From S2P Require Import Prelude Mmu Mem Pages PageTable AddrSpace UserMem Console KState Lapic Env EnvVm EnvSpec Syscall SyscallSpec KSpace SyscallInv Trap Typing TrapSpec Steady.

(** * Stores through an address space *)

(** What a translation went through. *)
Lemma translate_inv s pd w u va pa : u32_range va → cr3 s = pd * PGSIZE → translate s w u va = Some pa →
  ∃ t, pt_of (phys s) pd (PDX va) = Some t ∧ let pte := wd (phys s) t (PTX va) in
    is_present pte = true ∧ pa = frame_of pte * PGSIZE + va mod PGSIZE ∧
    (w = true → ctrue (Z.land (Z.land (wd (phys s) pd (PDX va)) pte) PTE_W) = true) ∧
    (u = true → ctrue (Z.land (Z.land (wd (phys s) pd (PDX va)) pte) PTE_U) = true).
Proof.
  intros Hva Hc. unfold translate. rewrite Hc. fold (wd (phys s) pd (PDX va)). unfold pt_of.
  destruct (is_present (wd (phys s) pd (PDX va))); [|discriminate]. cbn [negb]. rewrite frame_of_addr.
  fold (wd (phys s) (frame_of (wd (phys s) pd (PDX va))) (PTX va)). intros E. eexists. split; [reflexivity|]. cbv zeta.
  set (pte := wd (phys s) (frame_of _) _) in *. set (pde := wd (phys s) pd _) in *. clearbody pde pte.
  destruct (is_present pte); [|discriminate]. split; [reflexivity|]. cbn [negb] in E.
  destruct w, u, (ctrue (Z.land (Z.land pde pte) PTE_W)), (ctrue (Z.land (Z.land pde pte) PTE_U)); try discriminate;
    cbn [negb andb] in E; injection E as <-; rewrite frame_of_addr; (split; [|split; congruence]); f_equal;
    unfold PGOFF; rewrite (w32_id va) by assumption; apply (Z.land_ones va 12); lia.
Qed.

(** Below UTOP it led to a page of the address space. *)
Lemma translate_page s pd w u va pa : user_va va → cr3 s = pd * PGSIZE → translate s w u va = Some pa →
  0 ≤ va / PGSIZE < UVPN ∧ ∃ p, page_of (phys s) pd (va / PGSIZE) = Some p ∧ pa = p * PGSIZE + va mod PGSIZE.
Proof.
  intros Hu Hc E. destruct (user_va_idx va Hu) as (EI & EJ & _ & _ & Hv). split; [exact Hv|].
  destruct (translate_inv s pd w u va pa (user_va_u32 va Hu) Hc E) as (t & Et & Hp & -> & _).
  rewrite EI in Et. rewrite EJ in *. eexists. split; [|reflexivity]. unfold page_of, pte_of. rewrite Et. cbv zeta in *. rewrite Hp. reflexivity.
Qed.

Section kernel.
Context (K : Z → Prop).
Implicit Types (k : ks).

(** Writing to a page of an address space. *)
Lemma vspace_stored s l R x kp pd v p m' : vspace K s l R x kp → pd ∈ R → 0 ≤ v < UVPN → page_of (phys s) pd v = Some p →
  agree s p m' → vspace K (with_phys m' s) l R x kp ∧ kept K (phys s) m'.
Proof.
  intros H Hpd Hv Hp He. pose proof (vs_vm _ _ _ _ _ _ H) as Hvm.
  destruct (vm_data _ _ _ _ Hvm pd v p Hpd Hv Hp) as (Hb & HR & Hpt).
  assert (¬ K p) as HK. { intros F. destruct (vs_kern _ _ _ _ _ _ H p F) as (_ & _ & G). apply G. right. right. exists pd, v. auto. }
  assert (∀ q, K q → q ≠ p) as HKne by (intros q Hq ->; contradiction). destruct (vs_kp _ _ _ _ _ _ H) as [Ek Kk].
  split; [|intros q j Hq Hj; apply He; [exact Hj|apply HKne, Hq]]. split.
  - eapply vm_write_data; eauto.
  - split; assumption.
  - intros q Hq. destruct (vs_kern _ _ _ _ _ _ H q Hq) as (Hqb & Hx & Hu). split; [exact Hqb|]. split; [exact Hx|].
    intros [F|[F|(pd' & v' & Hpd' & Hv' & E)]]; apply Hu; [left; exact F|right; left|right; right].
    + apply (is_pt_ext (phys s) m'); [|exact F]. intros. eapply same_pt_of; eassumption.
    + exists pd', v'. split; [exact Hpd'|]. split; [exact Hv'|]. rewrite <- E. unfold page_of. f_equal. symmetry.
      eapply same_pte_of; eassumption.
  - intros i Hi. rewrite (pt_of_ext (phys s)); [apply (vs_low _ _ _ _ _ _ H i Hi)|].
    apply He; [unfold UPDX in Hi; lia|apply HKne, Kk].
  - intros i t Hi. rewrite (pt_of_ext (phys s)); [apply (vs_high _ _ _ _ _ _ H i t Hi)|].
    apply He; [unfold UPDX in Hi; lia|apply HKne, Kk].
  - intros pd' i Hpd' Hi. cbn [phys with_phys]. rewrite !He by (try apply HKne, Kk; unfold UPDX in Hi; lia || (intros ->; contradiction)).
    apply (vs_upper _ _ _ _ _ _ H); assumption.
Qed.

Lemma kspace_stored k l R x kp fl pd v p m' : kspace K k l R x kp fl → pd ∈ R → 0 ≤ v < UVPN →
  page_of (phys (kpm k)) pd v = Some p → agree (kpm k) p m' →
  kspace K (set_kpm (with_phys m' (kpm k)) k) l R x kp fl ∧ kept K (phys (kpm k)) m'.
Proof.
  intros [H He] Hpd Hv Hp Ha. destruct (vspace_stored _ _ _ _ _ _ _ _ _ H Hpd Hv Hp Ha) as [H' Hk].
  split; [split; [exact H'|exact He]|exact Hk].
Qed.

(** A byte stored through it, by the program or by the kernel. *)
Lemma store_ok k i w u va pa b : kernel_ok K k (Some i) → user_va va → translate (kpm k) w u va = Some pa →
  let k' := set_kpm (with_phys (st8 (phys (kpm k)) pa b) (kpm k)) k in
  kernel_ok K k' (Some i) ∧ kept K (phys (kpm k)) (phys (kpm k')).
Proof.
  intros [(l & R & x & kp & fl & H) Hr] Hva E. destruct (running_root K _ _ _ _ _ _ _ H Hr) as (pd & Hpd & Hc).
  destruct (translate_page _ _ _ _ _ _ Hva Hc E) as (Hv & p & Hp & ->).
  destruct (kspace_stored _ _ _ _ _ _ _ _ _ (st8 (phys (kpm k)) (p * PGSIZE + va mod PGSIZE) b) H Hpd Hv Hp) as [H' Hk].
  { intros q j Hj Hq. apply wd_st8; [|exact Hj].
    rewrite Z.add_comm, Z.div_add, Z.div_small by (discriminate || apply Z.mod_pos_bound; reflexivity). lia. }
  split; [|exact Hk]. split; [exists l, R, x, kp, fl; exact H'|exact Hr].
Qed.

(** ** The frame of an exception *)

Lemma vst8_wp k0 k i s va b : inside K k0 (set_kpm s k) (Some i) → user_va va →
  wp (vst8 va b) (λ _ t, inside K k0 (set_kpm t k) (Some i)) (λ w _, w = page_fault) s.
Proof.
  intros [Hok Hl Hk] Hva. unfold wp, vst8, kaddr. rewrite Z.geb_leb.
  replace (KERNBASE <=? va) with false by (symmetry; apply Z.leb_gt; assert (UTOP < KERNBASE) by reflexivity; unfold user_va in Hva; lia).
  destruct (translate s true false va) as [pa|] eqn:E; [|reflexivity].
  destruct (store_ok _ i _ _ va pa b Hok Hva E) as [Hok' Hk']. split; [exact Hok'|exact Hl|etransitivity; eassumption].
Qed.

Lemma vst32_wp k0 k i s va w : inside K k0 (set_kpm s k) (Some i) → 0 ≤ va → va + 4 ≤ UTOP →
  wp (vst32 va w) (λ _ t, inside K k0 (set_kpm t k) (Some i)) (λ w _, w = page_fault) s.
Proof.
  intros H H0 H1. assert (user_va va ∧ user_va (va + 1) ∧ user_va (va + 2) ∧ user_va (va + 3)) as (U0 & U1 & U2 & U3) by (unfold user_va; lia).
  unfold vst32. do 3 (apply wp_bind; eapply wp_conseq; [apply vst8_wp; eassumption|intros ? ? ?; cbv beta in *]).
  apply vst8_wp; assumption.
Qed.

Lemma vst_words_wp k0 k i ws : ∀ s va, inside K k0 (set_kpm s k) (Some i) → 0 ≤ va → va + 4 * Z.of_nat (length ws) ≤ UTOP →
  wp (vst_words va ws) (λ _ t, inside K k0 (set_kpm t k) (Some i)) (λ w _, w = page_fault) s.
Proof.
  induction ws as [|w ws IH]; intros s va H H0 H1; [exact H|]. cbn [vst_words length] in *.
  apply wp_bind. eapply wp_conseq; [apply vst32_wp; [exact H|lia..]|]. intros ? t H'. apply IH; [exact H'|lia..].
Qed.

(** * The exception handlers *)

Context (rcr2 : Z).

(** An operation that only prints, run from [k] or from what printing leaves
    of it. *)
Definition printed k k' : Prop := ∃ lg, k' = set_klog lg k.
Definition prints {A} k (m : M ks A) : Prop := ∀ k', printed k k' → wp m (λ _ k'', printed k k'') (λ _ _, False) k'.

Lemma prints_bind {A B} k (m : M ks A) (f : A → M ks B) : prints k m → (∀ a, prints k (f a)) → prints k (m ≫= f).
Proof. intros Hm Hf k' Hk. apply wp_bind. eapply wp_conseq; [apply Hm, Hk|]. intros a k'' Hk'. apply Hf, Hk'. Qed.
Lemma prints_cprintf k fmt args : prints k (cprintf fmt args).
Proof. intros k' [lg ->]. eexists. reflexivity. Qed.
Lemma prints_mret {A} k (a : A) : prints k (mret a).
Proof. intros k' Hk. exact Hk. Qed.
Lemma prints_gets {A} k (f : ks → A) : prints k (gets f).
Proof. intros k' Hk. exact Hk. Qed.
Lemma prints_env_get k i e : envs k !! i = Some e → prints k (env_get i).
Proof. intros He k' [lg ->]. unfold wp. rewrite (env_get_eq (set_klog lg k) i e He). exists lg. reflexivity. Qed.

Ltac printing := repeat first
  [apply prints_bind; [|intros ?] | apply prints_cprintf | apply prints_mret | apply prints_gets
  | eapply prints_env_get; eassumption
  | match goal with |- prints _ (when ?b _) => destruct b; cbn [when] | |- prints _ (if ?b then _ else _) => destruct b end].

Lemma print_trapframe_prints k i e : envs k !! i = Some e → prints k (print_trapframe rcr2 (TfEnv i)).
Proof. intros He. unfold print_trapframe, tf_get, tf_addr, print_regs. printing. Qed.

Lemma prints_wp {A} (m : M ks A) k0 k cur (Q : A → ks → Prop) E : prints k m → inside K k0 k cur →
  (∀ a k', inside K k0 k' cur → envs k' = envs k → Q a k') → wp m Q E k.
Proof.
  intros Hm H HQ. eapply wp_mono; [apply Hm; exists (klog k); destruct k; reflexivity| |intros ? ? []].
  intros a k' [lg ->]. apply HQ; [apply inside_log, H|reflexivity].
Qed.

(** [exception_handler] of the current environment: it runs some environment,
    or it faults itself when the user has a handler for it. *)
Definition handler_stop k0 (set : Prop) (w : stop) k : Prop := left_kernel K k0 w k ∨ w = page_fault ∧ set.

Lemma exception_handler_wp k0 k i e msg f before : inside K k0 k (Some i) → live k i e →
  Z.land (tf_cs (env_tf e)) 3 = 3 → u32_range (tf_esp (env_tf e)) →
  (∀ k', inside K k0 k' (Some i) → wp before (λ _ k'', inside K k0 k'' (Some i)) (left_kernel K k0) k') →
  wp (exception_handler rcr2 msg f before (TfEnv i)) (λ _ k', inside K k0 k' (Some i))
    (handler_stop k0 (env_upcalls e f ≠ 0)) k.
Proof.
  intros H Hl Hcs Hesp Hb. assert (∀ A (m : M ks A) Q k, wp m Q (left_kernel K k0) k → wp m Q (handler_stop k0 (env_upcalls e f ≠ 0)) k) as Hst
    by (intros A m Q k' Hm; eapply wp_mono; [exact Hm|auto|left; assumption]).
  unfold exception_handler, tf_get. cbv zeta. do 2 apply wp_bind. eapply env_get_wp; [apply Hl|]. apply wp_ret.
  rewrite Hcs. change (3 =? 0) with false. cbv iota. apply wp_bind. eapply curenv_deref_wp; [apply H|].
  apply wp_bind. eapply env_get_wp; [apply Hl|]. apply wp_bind.
  apply wp_conseq with (Q := λ _ k', inside K k0 k' (Some i)).
  - unfold ctrue. destruct (Z.eqb_spec (env_upcalls e f) 0) as [|Hset]; cbn [negb when]; [exact H|].
    pose proof (utf_addr_range _ Hesp) as [Hu _]. change (UXSTACKTOP - PGSIZE - 56) with 0xeebfefc8 in Hu. change (UXSTACKTOP - 52) with 0xeebfffcc in Hu.
    assert (UTOP = 0xeec00000) as EU by reflexivity.
    apply wp_bind, Hst. eapply wp_conseq; [apply user_mem_assert_wp; [exact H|unfold u32_range; lia]|]. intros ? k1 ->. rename k into k1, H into H1.
    apply wp_bind. apply inpm_wp. eapply wp_mono; [apply vst_words_wp with (k := k1); [rewrite set_kpm_same; exact H1|lia|cbn; lia]| |].
    2: { intros w t ->. right. auto. }
    intros ? t H2. pose proof (in_ok _ _ _ _ H2) as [_ (c & _ & _ & e2 & Hl2 & _)].
    apply wp_bind. eapply env_upd_live; [exact H2|exact Hl2|apply keeps_tf|]. intros k3 H3 Hl3 _.
    apply wp_bind. eapply env_upd_live; [exact H3|exact Hl3|apply keeps_tf|]. intros k4 H4 Hl4 _.
    apply wp_bind, Hst. eapply wp_conseq; [apply Hb, H4|]. intros ? k5 H5. pose proof (in_ok _ _ _ _ H5) as [_ (c5 & _ & _ & e5 & Hl5 & _)].
    apply Hst. eapply wp_conseq; [eapply env_run_wp; [exact H5|exact Hl5]|intros ? ? []].
  - intros ? k1 H1. pose proof (in_ok _ _ _ _ H1) as [_ (c & _ & _ & e1 & Hl1 & _)].
    apply wp_bind. eapply env_get_wp; [apply Hl1|]. do 2 apply wp_bind. eapply env_get_wp; [apply Hl1|]. apply wp_ret.
    apply wp_bind, cprintf_wp, wp_bind. eapply prints_wp; [eapply print_trapframe_prints; exact (proj1 Hl1)|apply inside_log, H1|].
    intros ? k2 H2 E2. apply Hst. eapply env_destroy_wp; [exact H2|]. split; [rewrite E2; apply Hl1|apply Hl1].
Qed.

(** * The interrupt controller *)

(** The kernel's page directory maps address [va], above UTOP, for writing. *)
Definition dev_mapped k (va : Z) : Prop :=
  u32_range va ∧ UPDX ≤ PDX va ∧ PDX va ≠ PDX UVPT ∧
  translate (with_cr3 (kern_pgdir (kpm k) - KERNBASE) (kpm k)) true false va ≠ None.

(** There is no controller, or the two registers of lapic_eoi can be reached. *)
Definition timer_ok k : Prop :=
  let p := lapic (ktrap k) in
  p = 0 ∨ dev_mapped k (w32 (p + 4 * EOI)) ∧ dev_mapped k (w32 (p + 4 * ID)).

Lemma dev_kept k k' cur va : kernel_ok K k cur → kern_pgdir (kpm k') = kern_pgdir (kpm k) → kept K (phys (kpm k)) (phys (kpm k')) →
  dev_mapped k va → dev_mapped k' va.
Proof.
  intros [(l & R & x & kp & fl & H) _] Ek Hk (Hva & Hi & Hne & Ht). destruct (vs_kp _ _ _ _ _ _ (ksp_vm _ _ _ _ _ _ _ H)) as [Ekp Kkp].
  split; [exact Hva|]. split; [exact Hi|]. split; [exact Hne|]. intros F. apply Ht. rewrite <- F. symmetry. rewrite Ek, Ekp.
  assert (kva_of kp - KERNBASE = kp * PGSIZE) as -> by (unfold kva_of; lia).
  apply translate_ext with (d := kp) (d' := kp); [reflexivity..|apply Hk; [exact Kkp|apply PDX_range]|].
  intros t Et. apply Hk; [|apply PTX_range]. apply (vs_high _ _ _ _ _ _ (ksp_vm _ _ _ _ _ _ _ H) (PDX va) t); [|exact Et].
  pose proof (PDX_range va). lia.
Qed.

(** Every address space maps it. *)
Lemma dev_kaddr k cur w va : kernel_ok K k cur → dev_mapped k va → kaddr (kpm k) w va ≠ None.
Proof.
  intros Hok (Hva & Hi & Hne & Ht). unfold kaddr. destruct (va >=? KERNBASE); [discriminate|].
  destruct (loaded_upper K k cur va Hok Hi Hne) as (kp & d & E & Hd & Ed). rewrite E in Ht.
  intros F. apply Ht. destruct w.
  - rewrite <- F. symmetry. apply translate_ext with (d := kp) (d' := d); [reflexivity|exact Hd|exact Ed|reflexivity].
  - rewrite (translate_ext (with_cr3 (kp * PGSIZE) (kpm k)) (kpm k) _ _ _ kp d) in F; [|reflexivity|exact Hd|exact Ed|reflexivity].
    clear Ht. revert F. unfold translate. repeat case_match; try discriminate; auto.
Qed.

Lemma inside_trap k0 k cur g : inside K k0 k cur → inside K k0 (set_ktrap g k) cur.
Proof. intros [[(l & R & x & kp & fl & [? ?]) Hr] ? ?]. split; [split; [exists l, R, x, kp, fl; split; assumption|exact Hr]|assumption..]. Qed.

Lemma lapic_reg_wp k cur w idx (Q : Z → ks → Prop) E : kernel_ok K k cur → dev_mapped k (w32 (lapic (ktrap k) + 4 * idx)) →
  (∀ a, Q a k) → wp (lapic_reg w idx) Q E k.
Proof.
  intros H Hd HQ. pose proof (dev_kaddr k cur w _ H Hd) as Hk. unfold wp, lapic_reg.
  destruct (kaddr _ _ _); [apply HQ|contradiction].
Qed.

Lemma lapic_eoi_wp k0 k cur E : inside K k0 k cur → timer_ok k → wp lapic_eoi (λ _ k', inside K k0 k' cur) E k.
Proof.
  intros H Ht. unfold lapic_eoi. apply wp_bind. cbv beta. unfold wp at 1, gets. destruct (Z.eqb_spec (lapic (ktrap k)) 0) as [|Hne]; [exact H|].
  destruct Ht as [?|[HE HI]]; [contradiction|]. cbn [negb when]. unfold lapicw. apply wp_bind.
  eapply lapic_reg_wp; [apply H|exact HE|]. intros a. apply wp_bind. unfold wp at 1, gets. apply wp_bind.
  eapply wp_Ret; [reflexivity|]. set (k1 := set_ktrap _ k). apply wp_bind.
  pose proof (inside_trap k0 k cur (set_lapic_writes ((cpunum k, a, w32 0) :: lapic_writes (ktrap k)) (ktrap k)) H) as H1.
  eapply (lapic_reg_wp k1); [apply H1|exact HI|]. intros b. exact H1.
Qed.

(** * Dispatch *)

(** What a trap asks of the kernel: the frame is one that the processor can
    push in user mode, and a system call keeps to what the kernel does not
    check (its reference counts and the end of its table of environments can
    run over, and the permission bits are not checked beyond the two lowest). *)
Record civil k (tf : Trapframe) : Prop := {
  cv_user : Z.land (tf_cs tf) 3 = 3;
  cv_typed : tf_typed tf;
  cv_refs : refs_small k;
  cv_alloc : tf_trapno tf = T_SYSCALL → reg_eax (tf_regs tf) = SYS_page_alloc → perm_ok (s32 (reg_ebx (tf_regs tf)));
  cv_map : tf_trapno tf = T_SYSCALL → reg_eax (tf_regs tf) = SYS_page_map → perm_ok (s32 (reg_esi (tf_regs tf)));
  cv_slots : env_free_list k ≠ Some NENV
}.

(** The ways out of the kernel: to an environment, to the halt, to the monitor,
    or with one of its two panics. *)
Definition way_out k0 (w : stop) k : Prop := left_kernel K k0 w k ∨ w = page_fault ∨ w = alloc_panic.

Lemma way_out_wp {A} k0 (m : M ks A) Q k : wp m Q (left_kernel K k0) k → wp m Q (way_out k0) k.
Proof. intros H. eapply wp_mono; [exact H|auto|]. intros w k' Hw. left. exact Hw. Qed.

Lemma inside_trans k0 k1 k cur : kept K (phys (kpm k0)) (phys (kpm k1)) → inside K k1 k cur → inside K k0 k cur.
Proof. intros Hk [H1 H2 H3]. split; [exact H1|exact H2|etransitivity; eassumption]. Qed.
Lemma left_trans k0 k1 w k : kept K (phys (kpm k0)) (phys (kpm k1)) → left_kernel K k1 w k → left_kernel K k0 w k.
Proof. intros Hk [H1 H2]. split; [etransitivity; eassumption|exact H2]. Qed.

Lemma call_wp k0 k i tf : inside K k0 k (Some i) → civil k tf → has_gap k → tf_trapno tf = T_SYSCALL → let g := tf_regs tf in
  wp (syscall (reg_eax g) (reg_edx g) (reg_ecx g) (reg_ebx g) (reg_edi g) (reg_esi g)) (λ _ k', inside K k0 k' (Some i)) (way_out k0) k.
Proof.
  intros H [_ [Hregs _ _ _ _ _ _] Hrefs Ha Hm Hfl] Hgap Hn g. pose proof (in_kept _ _ _ _ H) as Hk.
  assert (inside K k k (Some i)) as Hin by (destruct H; split; [assumption..|reflexivity]).
  eapply wp_mono; [eapply (syscall_wp K); [exact Hin|exact Hrefs|exact Hgap| |auto..]| |].
  - destruct Hregs. repeat (apply Forall_cons; split; [assumption|]). apply Forall_nil_2.
  - intros ? k'. apply inside_trans, Hk.
  - intros w k' [Hw|[[_ ->]|[[_ [_ F]]|(_ & -> & _)]]]; [left; eapply left_trans; eassumption|right; right; reflexivity|contradiction|right; left; reflexivity].
Qed.

(** What is stored in the frame is the environment's own. *)
Lemma tf_eax_wp k0 k i v E : inside K k0 k (Some i) → wp (tf_set_eax (TfEnv i) v) (λ _ k', inside K k0 k' (Some i)) E k.
Proof.
  intros H. pose proof (in_ok _ _ _ _ H) as [_ (c & _ & _ & e & Hl & _)].
  eapply env_upd_inside; [exact H|exact (proj1 Hl)|apply keeps_tf|auto].
Qed.

Lemma handler_wp k0 k i e msg f before : inside K k0 k (Some i) → live k i e → Z.land (tf_cs (env_tf e)) 3 = 3 → tf_typed (env_tf e) →
  (∀ k', inside K k0 k' (Some i) → wp before (λ _ k'', inside K k0 k'' (Some i)) (left_kernel K k0) k') →
  wp (exception_handler rcr2 msg f before (TfEnv i)) (λ _ k', inside K k0 k' (Some i)) (way_out k0) k.
Proof.
  intros H Hl Hcs Ht Hb. eapply wp_mono; [apply (exception_handler_wp k0 k i e); [assumption..|apply Ht|exact Hb]|auto|].
  intros w k' [Hw|[-> _]]; [left; exact Hw|right; left; reflexivity].
Qed.

(** What the double fault handler prints. *)
Lemma dbfault_prints_wp k0 k i : inside K k0 k (Some i) →
  wp (c ← curenv_deref; e ← env_get c; cprintf "curenv status: %d\n" [env_status e] ;;
      cprintf "curenv dbfault handler: 0x%x" [tf_eip (env_tf e)]) (λ _ k', inside K k0 k' (Some i)) (left_kernel K k0) k.
Proof.
  intros H. pose proof (in_ok _ _ _ _ H) as [_ (c & _ & _ & e & Hl & _)]. apply wp_bind. eapply curenv_deref_wp; [apply H|].
  apply wp_bind. eapply env_get_wp; [apply Hl|]. apply wp_bind, cprintf_wp, cprintf_wp. do 2 apply inside_log. exact H.
Qed.

(** The cases of the dispatch up to the system call. *)
Ltac handlers :=
  lazymatch goal with
  | |- wp (if _ =? T_SYSCALL then _ else _) _ _ _ => idtac
  | |- wp (if ?b then ?h ?r ?t else _) _ _ _ =>
      destruct b; [unfold h; eapply handler_wp; [eassumption..|intros; first [eassumption|apply dbfault_prints_wp; eassumption]]|handlers]
  end.

Lemma trap_dispatch_wp k0 k i e : inside K k0 k (Some i) → live k i e → civil k (env_tf e) → has_gap k → timer_ok k →
  wp (trap_dispatch rcr2 (TfEnv i)) (λ _ k', inside K k0 k' (Some i)) (way_out k0) k.
Proof.
  intros H Hl Hc Hgap Htm. pose proof (cv_user _ _ Hc) as Hcs. pose proof (cv_typed _ _ Hc) as Ht.
  unfold trap_dispatch. apply wp_bind. unfold tf_get at 1. apply wp_bind. eapply env_get_wp; [apply Hl|]. apply wp_ret. cbv zeta.
  handlers. destruct (Z.eqb_spec (tf_trapno (env_tf e)) T_SYSCALL) as [En|_].
  { apply wp_bind. eapply wp_conseq; [apply (call_wp k0 k i _ H Hc Hgap En)|]. intros v k' H'. apply tf_eax_wp, H'. }
  destruct (_ =? _).
  { apply wp_bind, cprintf_wp. eapply prints_wp; [eapply print_trapframe_prints; exact (proj1 Hl)|apply inside_log, H|auto]. }
  destruct (_ =? _).
  { apply wp_bind. eapply wp_conseq; [apply lapic_eoi_wp; eassumption|]. intros ? k' H'. apply way_out_wp.
    eapply wp_conseq; [apply (sched_yield_wp K _ _ _ H')|intros ? ? []]. }
  apply wp_bind. eapply prints_wp; [eapply print_trapframe_prints; exact (proj1 Hl)|exact H|]. intros ? k1 H1 E1.
  destruct (Z.eqb_spec (tf_cs (env_tf e)) GD_KT) as [E|_]; [rewrite E in Hcs; discriminate|].
  apply wp_bind. eapply curenv_deref_wp; [apply H1|]. apply way_out_wp. eapply env_destroy_wp; [exact H1|].
  split; [rewrite E1|]; apply Hl.
Qed.

(** ** The way out *)

Lemma trap_exit_wp k0 k i : inside K k0 k (Some i) → wp trap_exit (λ _ _, False) (left_kernel K k0) k.
Proof.
  intros H. pose proof (in_ok _ _ _ _ H) as [_ (c & _ & _ & e & Hl & _)]. unfold trap_exit. apply wp_bind.
  eapply curenv_wp; [apply H|]. apply wp_bind. eapply env_get_wp; [apply Hl|].
  destruct (_ =? _); [eapply env_run_wp; [exact H|exact Hl]|apply (sched_yield_wp K _ _ _ H)].
Qed.

(** ** The way in *)

(** A CPU in user mode, running environment [i]. *)
Record user_ready k (i : Z) : Prop := {
  ur_ok : kernel_ok K k (Some i);
  ur_lock : klock k = None;
  ur_panic : panicstr (ktrap k) = false;
  ur_status : cpu_status <$> cpus k !! cpunum k = Some CPU_STARTED
}.

(** An environment that another one has destroyed is freed at its next trap. *)
Lemma free_yield_wp k0 k i e : inside K k0 k (Some i) → live k i e →
  wp (env_free i ;; set_curenv None ;; sched_yield) (λ _ _, False) (left_kernel K k0) k.
Proof.
  intros [[(l & R & x & kp & fl & Hs) Hr] Hlock Hk] Hl.
  destruct (env_free_kspace K k l R x kp fl (Some i) i e Hs Hr Hl) as (k1 & l1 & R1 & E & Hs1 & Hk1 & Ec & En & El & _ & Ecr).
  destruct Hr as (c & Hc & _). apply wp_bind. eapply wp_Ret; [exact E|]. rewrite decide_True in Ecr by reflexivity.
  assert (cpus k1 !! cpunum k1 = Some c) as Hc1 by (rewrite Ec, En; exact Hc).
  apply wp_bind. eapply wp_Ret; [apply (set_curenv_eq k1 c None Hc1)|]. eapply (sched_yield_wp K k0 _ None). split; [split| |etransitivity; eassumption].
  - exists l1, R1, x, kp, (i :: fl). eapply kspace_ext; [exact Hs1|reflexivity..].
  - eexists. ksimpl. split; [apply lookup_insert_eq|]. split; [reflexivity|exact Ecr].
  - ksimpl. rewrite El, En. exact Hlock.
Qed.

(** The rest of trap once the lock is taken. *)
Definition trap_body (i : Z) (tf : Trapframe) : M ks unit :=
  e ← env_get i;
  when (env_status e =? ENV_DYING) (env_free i ;; set_curenv None ;; sched_yield) ;;
  i ← curenv_deref;
  env_upd i (set_env_tf tf) ;;
  intrap (set_last_tf (Some (TfEnv i))) ;;
  trap_dispatch rcr2 (TfEnv i) ;;
  trap_exit.

Definition locked k (c : CpuInfo) : ks := set_klock (Some (cpunum k)) (set_cpus (<[cpunum k := set_cpu_status CPU_STARTED c]> (cpus k)) k).

Lemma trap_user eflags at_ tf k i c : klock k = None → panicstr (ktrap k) = false → cpus k !! cpunum k = Some c →
  cpu_status c = CPU_STARTED → cpu_env c = Some i → Z.land eflags FL_IF = 0 → Z.land (tf_cs tf) 3 = 3 →
  trap rcr2 eflags at_ tf k = trap_body i tf (locked k c).
Proof.
  intros Hl Hp Hc Hs He Hif Hcs. unfold trap. mrun. rewrite Hp. mrun.
  rewrite (bind_Ret _ _ _ _ _ (thiscpu_eq k c Hc)), (bind_Ret _ _ _ _ _ (thiscpu_upd_eq k c _ Hc)).
  rewrite Hs, Hif, Hcs. change (CPU_STARTED =? CPU_HALTED) with false. change (3 =? 3) with true. cbv iota. mrun.
  set (k1 := set_cpus _ k). assert (cpus k1 !! cpunum k1 = Some (set_cpu_status CPU_STARTED c)) as Hc1 by apply lookup_insert_eq.
  rewrite (bind_Ret _ _ _ _ _ (curenv_eq k1 _ Hc1)). cbn [cpu_env set_cpu_status]. rewrite He, bool_decide_eq_false_2 by discriminate. mrun.
  rewrite (bind_Ret _ _ _ tt (set_klock (Some (cpunum k)) k1)) by (unfold lock_kernel, k1; ksimpl; rewrite Hl; reflexivity).
  unfold locked. fold k1. set (k2 := set_klock _ k1). assert (curenv_deref k2 = Ret i k2) as E.
  { unfold curenv_deref. rewrite (bind_Ret _ _ _ _ _ (curenv_eq k2 _ Hc1)). cbn [cpu_env set_cpu_status]. rewrite He. reflexivity. }
  rewrite ?bind_assoc, (bind_Ret _ _ _ _ _ E). unfold trap_body. rewrite !bind_unfold.
  destruct (env_get i k2) as [e k3|w k3]; [|reflexivity]. rewrite !bind_unfold.
  destruct (when (env_status e =? ENV_DYING) _ k3) as [? k4|w k4]; [|reflexivity]. rewrite !bind_unfold.
  destruct (curenv_deref k4) as [j k5|w k5]; [|reflexivity]. rewrite !bind_unfold.
  destruct (env_upd j (set_env_tf tf) k5) as [? k6|w k6]; reflexivity.
Qed.

(** A halted CPU takes a timer interrupt on the kernel's stack. *)
Lemma trap_halted eflags at_ tf k c : klock k = None → panicstr (ktrap k) = false → cpus k !! cpunum k = Some c →
  cpu_status c = CPU_HALTED → Z.land eflags FL_IF = 0 → Z.land (tf_cs tf) 3 ≠ 3 → tf_trapno tf = IRQ_OFFSET + IRQ_TIMER →
  trap rcr2 eflags at_ tf k
  = (intrap (set_last_tf (Some (TfStack at_ tf))) ;; lapic_eoi ;; sched_yield ;; trap_exit) (locked k c).
Proof.
  intros Hl Hp Hc Hs Hif Hcs Hn. unfold trap. mrun. rewrite Hp. mrun.
  rewrite (bind_Ret _ _ _ _ _ (thiscpu_eq k c Hc)), (bind_Ret _ _ _ _ _ (thiscpu_upd_eq k c _ Hc)).
  rewrite Hs, Hif, (proj2 (Z.eqb_neq _ _) Hcs). change (CPU_HALTED =? CPU_HALTED) with true. cbv iota. mrun.
  rewrite (bind_Ret _ _ _ tt (locked k c)) by (unfold lock_kernel; ksimpl; rewrite Hl; reflexivity).
  mrun. assert (intrap (set_last_tf (Some (TfStack at_ tf))) (locked k c)
    = Ret tt (set_ktrap (set_last_tf (Some (TfStack at_ tf)) (ktrap (locked k c))) (locked k c))) as Ei by reflexivity.
  rewrite !(bind_Ret _ _ _ _ _ Ei). clear Ei. set (k1 := set_ktrap _ _). clearbody k1. rewrite bind_unfold.
  unfold trap_dispatch, tf_get. mrun. rewrite Hn.
  repeat match goal with |- context [IRQ_OFFSET + IRQ_TIMER =? ?n] =>
    let b := eval vm_compute in (IRQ_OFFSET + IRQ_TIMER =? n) in change (IRQ_OFFSET + IRQ_TIMER =? n) with b end.
  cbv iota. rewrite !bind_unfold. destruct (lapic_eoi k1) as [? k2|w k2]; [|reflexivity]. rewrite bind_unfold. destruct (sched_yield k2); reflexivity.
Qed.

(** A CPU in sched_halt. *)
Record idle_ready k : Prop := {
  ir_ok : kernel_ok K k None;
  ir_lock : klock k = None;
  ir_panic : panicstr (ktrap k) = false;
  ir_status : cpu_status <$> cpus k !! cpunum k = Some CPU_HALTED
}.

Lemma inside_locked k c cur : kernel_ok K k cur → cpus k !! cpunum k = Some c → inside K k (locked k c) cur.
Proof.
  intros [(l & R & x & kp & fl & [? ?]) (c' & Hc' & He & Hr)] Hc. assert (c' = c) as -> by congruence.
  split; [split|reflexivity|reflexivity].
  - exists l, R, x, kp, fl. split; assumption.
  - exists (set_cpu_status CPU_STARTED c). split; [apply lookup_insert_eq|]. split; [exact He|exact Hr].
Qed.

Lemma trap_body_wp k0 k i tf : inside K k0 k (Some i) → civil k tf → has_gap k → timer_ok k → wp (trap_body i tf) (λ _ _, False) (way_out k0) k.
Proof.
  intros H Hcv Hgap Htm. pose proof (in_ok _ _ _ _ H) as [_ (c & _ & _ & e & Hl & _)]. unfold trap_body. apply wp_bind.
  eapply env_get_wp; [apply Hl|]. apply wp_bind. apply wp_conseq with (Q := λ _ k', k' = k).
  { destruct (_ =? _); cbn [when]; [|reflexivity]. apply way_out_wp. eapply wp_conseq; [apply (free_yield_wp k0 k i e H Hl)|intros ? ? []]. }
  intros ? k' ->. apply wp_bind. eapply curenv_deref_wp; [apply H|]. apply wp_bind. eapply env_upd_wp; [apply Hl|].
  pose proof (inside_upd K k0 k (Some i) i e (set_env_tf tf e) H (proj1 Hl) (keeps_tf e tf)) as H1.
  set (k1 := set_envs _ k) in *. apply wp_bind. eapply wp_Ret; [reflexivity|].
  pose proof (inside_trap k0 k1 (Some i) (set_last_tf (Some (TfEnv i)) (ktrap k1)) H1) as H2. set (k2 := set_ktrap _ k1) in *.
  assert (live k2 i (set_env_tf tf e)) as Hl2 by (split; [apply lookup_insert_eq|apply Hl]).
  apply wp_bind. eapply wp_conseq; [eapply (trap_dispatch_wp k0 k2 i _ H2 Hl2)|].
  - destruct Hcv. split; assumption.
  - exact Hgap.
  - exact Htm.
  - intros ? k3 H3. apply way_out_wp, (trap_exit_wp k0 k3 i H3).
Qed.

Lemma trap_user_wp eflags at_ tf k i : user_ready k i → civil k tf → has_gap k → timer_ok k → Z.land eflags FL_IF = 0 →
  wp (trap rcr2 eflags at_ tf) (λ _ _, False) (way_out k) k.
Proof.
  intros [Hok Hl Hp Hs] Hcv Hgap Htm Hif. pose proof Hok as [_ (c & Hc & He & _)]. rewrite Hc in Hs. injection Hs as Hs.
  unfold wp. rewrite (trap_user eflags at_ tf k i c) by (assumption || apply Hcv). apply (trap_body_wp k (locked k c) i tf).
  - apply inside_locked; assumption.
  - destruct Hcv. split; assumption.
  - exact Hgap.
  - exact Htm.
Qed.

Lemma trap_idle_wp eflags at_ tf k : idle_ready k → timer_ok k → Z.land eflags FL_IF = 0 → Z.land (tf_cs tf) 3 ≠ 3 →
  tf_trapno tf = IRQ_OFFSET + IRQ_TIMER → wp (trap rcr2 eflags at_ tf) (λ _ _, False) (way_out k) k.
Proof.
  intros [Hok Hl Hp Hs] Htm Hif Hcs Hn. pose proof Hok as [_ (c & Hc & He & _)]. rewrite Hc in Hs. injection Hs as Hs.
  unfold wp. rewrite (trap_halted eflags at_ tf k c) by assumption. pose proof (inside_locked k c None Hok Hc) as H. set (k1 := locked k c) in *.
  change (wp (intrap (set_last_tf (Some (TfStack at_ tf))) ;; lapic_eoi ;; sched_yield ;; trap_exit) (λ _ _, False) (way_out k) k1).
  apply wp_bind. eapply wp_Ret; [reflexivity|].
  pose proof (inside_trap k k1 None (set_last_tf (Some (TfStack at_ tf)) (ktrap k1)) H) as H2. set (k2 := set_ktrap _ k1) in *.
  apply wp_bind. eapply wp_conseq; [apply lapic_eoi_wp; [exact H2|exact Htm]|]. intros ? k3 H3. apply wp_bind, way_out_wp.
  eapply wp_conseq; [apply (sched_yield_wp K _ _ _ H3)|intros ? ? []].
Qed.

Lemma steady_trap_body i tf : steady (trap_body i tf).
Proof. pose proof (steady_trap_dispatch rcr2) as Hd. unfold trap_body, trap_exit. steadily. Qed.
End kernel.

(** * A CPU and its programs *)

Inductive machine : Type :=
| User (i : Z) (k : ks)              (* the program of environment i runs *)
| Idle (k : ks)                      (* hlt *)
| Monitor (k : ks)
| Panicked (msg : string)
| Wrong (w : stop).                  (* the kernel does what C does not define, or waits for ever *)

(** What a trap makes of it; trap does not return. *)
Definition after (o : outcome ks unit) : machine :=
  match o with
  | Stop (SRun i) k => User i k
  | Stop SHalt k => Idle k
  | Stop SMonitor k => Monitor k
  | Stop (SPanic msg) _ => Panicked msg
  | Stop w _ => Wrong w
  | Ret _ _ => Wrong SLoop
  end.

(** A program stores a byte where its page tables let it, or takes a trap with
    any registers; a halted CPU takes timer interrupts. *)
Inductive step : machine → machine → Prop :=
| step_store i k va pa b : u32_range va → translate (kpm k) true true va = Some pa →
    step (User i k) (User i (set_kpm (with_phys (st8 (phys (kpm k)) pa b) (kpm k)) k))
| step_trap i k rcr2 eflags at_ tf : civil k tf → Z.land eflags FL_IF = 0 → step (User i k) (after (trap rcr2 eflags at_ tf k))
| step_timer k rcr2 eflags at_ tf : Z.land eflags FL_IF = 0 → Z.land (tf_cs tf) 3 ≠ 3 → tf_trapno tf = IRQ_OFFSET + IRQ_TIMER →
    step (Idle k) (after (trap rcr2 eflags at_ tf k)).

Section isolation.
Context (K : Z → Prop).
Implicit Types (k : ks).

(** Programs may write nowhere above UTOP. *)
Definition sealed k : Prop := ∀ va, u32_range va → UTOP ≤ va → PDX va ≠ PDX UVPT →
  translate (with_cr3 (kern_pgdir (kpm k) - KERNBASE) (kpm k)) true true va = None.

(** The part of the state that stays as it was in [k0]. *)
Record since k0 k : Prop := {
  si_kept : kept K (phys (kpm k0)) (phys (kpm k));
  si_kern : kern_pgdir (kpm k) = kern_pgdir (kpm k0);
  si_lapic : lapic (ktrap k) = lapic (ktrap k0)
}.

Lemma since_trans k0 k1 k : since k0 k1 → since k1 k → since k0 k.
Proof. intros [] []. split; [etransitivity; eassumption|congruence..]. Qed.

Lemma since_globals k k' g : g_kern g = kern_pgdir (kpm k) → g_lapic g = lapic (ktrap k) → globals_of k' = g →
  kept K (phys (kpm k)) (phys (kpm k')) → since k k'.
Proof. intros E1 E2 <- Hk. split; assumption. Qed.

Lemma since_gap k0 k cur : kernel_ok K k0 cur → since k0 k → has_gap k0 → has_gap k.
Proof. intros H [Hk Ek _]. exact (gap_kept K k0 k cur H Ek Hk). Qed.

Lemma since_timer k0 k cur : kernel_ok K k0 cur → since k0 k → timer_ok k0 → timer_ok k.
Proof.
  intros H [Hk Ek El] Ht. unfold timer_ok in *. rewrite El. destruct Ht as [?|[HE HI]]; [left; assumption|right].
  split; eapply dev_kept; eassumption.
Qed.

(** The window on the page tables is for reading. *)
Lemma uvpt_readonly p w : Z.land (Z.land (uvpt_entry p) w) PTE_W = 0.
Proof.
  apply Z.bits_inj'. intros n Hn. rewrite Z.bits_0, !Z.land_spec. destruct (Z.eq_dec n 1) as [->|Hne].
  - unfold uvpt_entry. change PGSIZE with (2 ^ 12). rewrite !Z.lor_spec, Z.mul_pow2_bits_low by lia. reflexivity.
  - change PTE_W with (2 ^ 1). rewrite (Z.pow2_bits_false 1 n) by lia. apply andb_false_r.
Qed.

(** What a program can write to is below UTOP. *)
Lemma sealed_user k0 k cur i va pa : kernel_ok K k0 cur → since k0 k → sealed k0 → kernel_ok K k (Some i) → u32_range va →
  translate (kpm k) true true va = Some pa → user_va va.
Proof.
  intros [(l & R & x & kp & fl & H) _] [Hk Ek _] Hs Hok Hva Et. destruct (Z_lt_le_dec va UTOP) as [|Hge]; [split; [apply Hva|assumption]|exfalso].
  destruct Hok as [(l' & R' & x' & kp' & fl' & H') Hr]. destruct (running_root K _ _ _ _ _ _ _ H' Hr) as (pd & Hpd & Hc).
  destruct (vs_kp _ _ _ _ _ _ (ksp_vm _ _ _ _ _ _ _ H)) as [E0 Kk0]. destruct (vs_kp _ _ _ _ _ _ (ksp_vm _ _ _ _ _ _ _ H')) as [E1 _].
  assert (kp' = kp) as -> by (unfold kva_of, PGSIZE in *; lia).
  assert (UPDX ≤ PDX va < 1024) as Hi.
  { split; [|apply PDX_range]. rewrite PDX_div by assumption. change UPDX with (UTOP / PTSIZE). apply Z.div_le_mono; [reflexivity|assumption]. }
  pose proof (vs_upper _ _ _ _ _ _ (ksp_vm _ _ _ _ _ _ _ H') pd (PDX va) Hpd Hi) as Eu. case_decide as D.
  - destruct (translate_inv _ _ _ _ _ _ Hva Hc Et) as (t & _ & _ & _ & HW & _). specialize (HW eq_refl). rewrite Eu in HW.
    rewrite uvpt_readonly in HW. discriminate.
  - specialize (Hs va Hva Hge D). rewrite <- (translate_ext _ (kpm k) _ _ _ kp pd) in Hs; [congruence| |exact Hc| |].
    + change (kern_pgdir (kpm k0) - KERNBASE = kp * PGSIZE). rewrite E0. unfold kva_of. lia.
    + rewrite Eu. apply Hk; [exact Kk0|apply PDX_range].
    + intros t Ht. apply Hk; [|apply PTX_range]. apply (vs_high _ _ _ _ _ _ (ksp_vm _ _ _ _ _ _ _ H) (PDX va) t Hi Ht).
Qed.

(** ** Every state that is reached *)

Definition good k0 (m : machine) : Prop :=
  match m with
  | User i k => user_ready K k i ∧ since k0 k
  | Idle k => idle_ready K k ∧ since k0 k
  | Monitor k => since k0 k
  | Panicked msg => SPanic msg = page_fault ∨ SPanic msg = alloc_panic
  | Wrong _ => False
  end.

(** The globals once the lock is taken. *)
Definition at_entry k : globals := MkGlobals (kern_pgdir (kpm k)) (cpunum k) (Some CPU_STARTED) false (lapic (ktrap k)).

Lemma globals_locked k c : panicstr (ktrap k) = false → globals_of (locked k c) = at_entry k.
Proof. intros Hp. unfold globals_of, locked, at_entry. ksimpl. rewrite lookup_insert_eq, Hp. reflexivity. Qed.

Lemma leave_good k0 k k1 (m : M ks unit) : since k0 k → globals_of k1 = at_entry k → steady m →
  wp m (λ _ _, False) (way_out K k) k1 → good k0 (after (m k1)).
Proof.
  intros Hs Hg Hm Hw. specialize (Hm k1). unfold wp in *. destruct (m k1) as [|w k2]; [contradiction|].
  rewrite Hg in Hm. destruct Hw as [[Hk Hw]|[->| ->]]; [|left; reflexivity|right; reflexivity].
  assert (∀ g, g_kern g = g_kern (at_entry k) → g_lapic g = g_lapic (at_entry k) → globals_of k2 = g → since k0 k2) as Hsi
    by (intros; eapply since_trans; [exact Hs|eapply since_globals; eassumption]).
  destruct w; try contradiction; cbn [steady_stop] in Hm; cbn [after good].
  - split; [|refine (Hsi _ _ _ Hm); reflexivity]. injection Hm as Ek Ec Et Ep El. destruct Hw. split; assumption.
  - split; [|refine (Hsi _ _ _ Hm); reflexivity]. injection Hm as Ek Ec Et Ep El. destruct Hw. split; assumption.
  - refine (Hsi _ _ _ Hm); reflexivity.
Qed.

Lemma trap_user_good k0 k rcr2 eflags at_ tf i : user_ready K k i → since k0 k → has_gap k → timer_ok k → civil k tf → Z.land eflags FL_IF = 0 →
  good k0 (after (trap rcr2 eflags at_ tf k)).
Proof.
  intros Hr Hs Hgap Htm Hcv Hif. pose proof (trap_user_wp K rcr2 eflags at_ tf k i Hr Hcv Hgap Htm Hif) as Hw.
  destruct Hr as [Hok Hl Hp Hst]. pose proof Hok as [_ (c & Hc & He & _)]. rewrite Hc in Hst. injection Hst as Hst. unfold wp in Hw.
  rewrite (trap_user rcr2 eflags at_ tf k i c) in * by (assumption || apply Hcv).
  apply (leave_good k0 k (locked k c)); [assumption|apply globals_locked, Hp|apply steady_trap_body|exact Hw].
Qed.

Lemma steady_trap_timer r : steady (intrap (set_last_tf r) ;; lapic_eoi ;; sched_yield ;; trap_exit).
Proof. unfold lapic_eoi, lapicw, trap_exit. steadily. Qed.

Lemma trap_idle_good k0 k rcr2 eflags at_ tf : idle_ready K k → since k0 k → timer_ok k → Z.land eflags FL_IF = 0 →
  Z.land (tf_cs tf) 3 ≠ 3 → tf_trapno tf = IRQ_OFFSET + IRQ_TIMER → good k0 (after (trap rcr2 eflags at_ tf k)).
Proof.
  intros Hr Hs Htm Hif Hcs Hn. pose proof (trap_idle_wp K rcr2 eflags at_ tf k Hr Htm Hif Hcs Hn) as Hw.
  destruct Hr as [Hok Hl Hp Hst]. pose proof Hok as [_ (c & Hc & He & _)]. rewrite Hc in Hst. injection Hst as Hst. unfold wp in Hw.
  rewrite (trap_halted rcr2 eflags at_ tf k c) in * by assumption.
  apply (leave_good k0 k (locked k c)); [assumption|apply globals_locked, Hp|apply steady_trap_timer|exact Hw].
Qed.

Lemma store_good k0 k i va pa b cur : kernel_ok K k0 cur → sealed k0 → user_ready K k i → since k0 k → u32_range va →
  translate (kpm k) true true va = Some pa → good k0 (User i (set_kpm (with_phys (st8 (phys (kpm k)) pa b) (kpm k)) k)).
Proof.
  intros H0 Hse [Hok Hl Hp Hst] Hs Hva Et.
  pose proof (sealed_user k0 k cur i va pa H0 Hs Hse Hok Hva Et) as Hu.
  destruct (store_ok K k i true true va pa b Hok Hu Et) as [Hok' Hk].
  split; [split; assumption|]. eapply since_trans; [exact Hs|]. split; [exact Hk|reflexivity..].
Qed.

Lemma step_good k0 m m' cur : kernel_ok K k0 cur → sealed k0 → has_gap k0 → timer_ok k0 → good k0 m → step m m' → good k0 m'.
Proof.
  intros H0 Hse Hgap Ht Hg Hst. destruct Hst; destruct Hg as [Hr Hs].
  - eapply store_good; eassumption.
  - eapply trap_user_good; try eassumption; [eapply since_gap|eapply since_timer]; eassumption.
  - eapply trap_idle_good; try eassumption. eapply since_timer; eassumption.
Qed.

(** C1. The kernel against programs that keep to the restrictions of [civil].
    Take a CPU that runs environment [i] in a state that satisfies the
    invariant of the kernel, and whose page directory lets programs write
    nowhere above UTOP, leaves some address between UTOP and KERNBASE unmapped,
    and maps the interrupt controller, if there is one.  Let the program store
    any bytes wherever its page tables let it, and trap with any registers, any
    number of times; whatever environments the scheduler switches to do the
    same, and the CPU takes the timer's interrupts when it halts.  The
    restrictions are those that the kernel does not enforce, in the state and
    the frame of each trap from user mode: the permission bits of
    sys_page_alloc and sys_page_map fit below the frame number (C40 shows what
    happens otherwise), no reference count is at its maximum, and sys_exofork
    has not run through the table of environments.  In every state that is
    reached, short of a panic, the pages that the kernel keeps for itself (its
    page directory among them) have the contents they had at the start, and the
    CPU is in one of these conditions: an environment runs in user mode, the
    invariant holds, with it the environment is live and its page directory is
    loaded, and the lock is free; it is halted, the invariant holds and the
    lock is free; or the monitor runs.  A panic is possible: on a page fault
    of the kernel (in writing the frame of an exception, or in reading the
    string of sys_cputs) and in sys_page_alloc; the machine stops there.  The
    kernel never comes to an access outside an array, to any other panic, or to
    a wait for a lock that nobody releases. *)
Theorem kernel_isolated (k0 : ks) (i0 : Z) (m : machine) :
  user_ready K k0 i0 → sealed k0 → has_gap k0 → timer_ok k0 → rtc step (User i0 k0) m →
  match m with
  | User i k => kernel_ok K k (Some i) ∧ klock k = None ∧ kept K (phys (kpm k0)) (phys (kpm k))
  | Idle k => kernel_ok K k None ∧ klock k = None ∧ kept K (phys (kpm k0)) (phys (kpm k))
  | Monitor k => kept K (phys (kpm k0)) (phys (kpm k))
  | Panicked msg => msg = "page fault in kernel mode!"%string ∨ msg = "page_free: pp->pp_ref is nonzero!"%string
  | Wrong _ => False
  end.
Proof.
  intros Hr Hse Hgap Ht Hsteps. assert (good k0 m) as Hg.
  { assert (good k0 (User i0 k0)) as Hg by (split; [exact Hr|split; reflexivity]). revert Hg.
    induction Hsteps as [|m1 m2 m3 Hst _ IH]; intros Hg; [exact Hg|].
    apply IH, (step_good k0 m1 m2 (Some i0) (ur_ok _ _ _ Hr) Hse Hgap Ht Hg Hst). }
  destruct m as [i k|k|k|msg|w]; cbn [good] in Hg.
  - destruct Hg as [[? ? _ _] [? _ _]]. auto.
  - destruct Hg as [[? ? _ _] [? _ _]]. auto.
  - apply Hg.
  - destruct Hg as [[= ->]|[= ->]]; auto.
  - exact Hg.
Qed.
End isolation.

(** A run: the program allocates a page at 0x802000 and writes to it. *)
Definition run_ks : ks :=
  set_klock None (set_ktrap (MkTrapst ∅ ∅ None false ∅ 0 []) kern_ks).
Definition run_call : Trapframe :=
  MkTrapframe (MkPushRegs 0 0 0 0 7 0 0x802000 SYS_page_alloc) 0 0 T_SYSCALL 0 0x800020 (Z.lor GD_UT 3) FL_IF 0x7000 (Z.lor GD_UD 3).
Definition run_after : ks := match trap 0 0 0 run_call run_ks with Ret _ k | Stop _ k => k end.

Lemma run_ready : user_ready (λ q, q = 3) run_ks 0.
Proof.
  destruct kern_ok as [(l & R & x & kp & fl & [? ?]) Hr]. split; [split; [|exact Hr]|reflexivity..].
  exists l, R, x, kp, fl. split; assumption.
Qed.

Lemma run_sealed : sealed run_ks.
Proof.
  intros va _ _ _. unfold translate. change (cr3 _) with (3 * PGSIZE). fold (wd (phys (with_cr3 (kern_pgdir (kpm run_ks) - KERNBASE) (kpm run_ks))) 3 (PDX va)).
  change (phys _) with kern_mem. rewrite kern_wd by apply PDX_range. rewrite decide_False by (intros [F _]; discriminate). reflexivity.
Qed.

Lemma run_trap : after (trap 0 0 0 run_call run_ks) = User 0 run_after.
Proof.
  assert (match trap 0 0 0 run_call run_ks with Stop (SRun i) _ => i =? 0 | _ => false end = true) as E by (vm_compute; reflexivity).
  unfold run_after. destruct (trap 0 0 0 run_call run_ks) as [|w k]; [discriminate|]. destruct w; try discriminate.
  apply Z.eqb_eq in E as ->. reflexivity.
Qed.

Lemma run_civil : civil run_ks run_call.
Proof.
  split; [reflexivity|repeat split; vm_compute; reflexivity || discriminate|exact kern_refs|..].
  - intros _ _. split; vm_compute; reflexivity || discriminate.
  - intros _ F. discriminate F.
  - discriminate.
Qed.

Lemma kernel_isolated_witness : ∃ k pa,
  rtc step (User 0 run_ks) (User 0 k) ∧ translate (kpm run_after) true true 0x802123 = Some pa ∧
  k = set_kpm (with_phys (st8 (phys (kpm run_after)) pa 42) (kpm run_after)) run_after ∧
  kernel_ok (λ q, q = 3) k (Some 0) ∧ kept (λ q, q = 3) (phys (kpm run_ks)) (phys (kpm k)).
Proof.
  assert (∃ pa, translate (kpm run_after) true true 0x802123 = Some pa) as [pa Ht] by (eexists; vm_compute; reflexivity).
  set (k := set_kpm (with_phys (st8 (phys (kpm run_after)) pa 42) (kpm run_after)) run_after).
  assert (rtc step (User 0 run_ks) (User 0 k)) as Hs.
  { eapply rtc_l; [apply (step_trap 0 run_ks 0 0 0 run_call run_civil eq_refl)|]. rewrite run_trap.
    apply rtc_once, (step_store 0 run_after 0x802123 pa 42); [split; reflexivity || discriminate|exact Ht]. }
  destruct (kernel_isolated (λ q, q = 3) run_ks 0 (User 0 k) run_ready run_sealed kern_gap (or_introl eq_refl) Hs) as (H & _ & Hk).
  exists k, pa. split; [exact Hs|]. split; [exact Ht|]. split; [reflexivity|]. split; [exact H|exact Hk].
Defined.
