(* ===== verification/Fatal.v ===== *)
(** The end of a program: the traps that the kernel answers by destroying the
    environment that took them, and what is left of the others. *)
From S2P Require Import Prelude Mmu Mem Pages PageTable AddrSpace UserMem Console KState Lapic Env EnvVm EnvSpec Syscall SyscallSpec KSpace SyscallInv Trap Typing TrapSpec Steady Isolation.

Lemma wp_and {S A} (m : M S A) Q Q' E E' s : wp m Q E s → wp m Q' E' s →
  wp m (λ a s, Q a s ∧ Q' a s) (λ w s, E w s ∧ E' w s) s.
Proof. unfold wp. destruct (m s); auto. Qed.

(** * What is left of an environment, and of the others *)

Section over.
Context (i : Z).
Implicit Types (k : ks).

(** The slot of environment [i] is free. *)
Definition freed k : Prop := ∃ e, envs k !! i = Some e ∧ env_status e = ENV_FREE ∧ env_pgdir e = 0.

(** The other environments have kept their name, registers and address space,
    and every page they map its bytes. *)
Record unharmed k0 k : Prop := {
  un_env : ∀ j, j ≠ i → option_Forall2 same_env (envs k0 !! j) (envs k !! j);
  un_page : ∀ j e pd v, j ≠ i → live k0 j e → env_pgdir e = kva_of pd → 0 ≤ v < UVPN →
    pte_of (phys (kpm k)) pd v = pte_of (phys (kpm k0)) pd v ∧
    ∀ q b, page_of (phys (kpm k0)) pd v = Some q → b / PGSIZE = q → ld8 (phys (kpm k)) b = ld8 (phys (kpm k0)) b
}.
Definition over k0 k : Prop := freed k ∧ unharmed k0 k.

Lemma over_ext k0 k k' : over k0 k → envs k' = envs k → phys (kpm k') = phys (kpm k) → over k0 k'.
Proof. intros [Hf [He Hp]] E1 E2. unfold over, freed. rewrite E1. split; [exact Hf|]. split; rewrite ?E1, ?E2; assumption. Qed.

Lemma over_upd k0 k j x y : over k0 k → envs k !! j = Some x → same_env x y → (j = i → env_status y = ENV_FREE) →
  over k0 (set_envs (<[j := y]> (envs k)) k).
Proof.
  intros [(e & He & Hs & Hp) [Hu Hm]] Hx Hxy Hj. split; [|split; [|exact Hm]].
  - unfold freed. ksimpl. destruct (decide (j = i)) as [->|D]; [|exists e; rewrite lookup_insert_ne by exact D; auto].
    exists y. rewrite lookup_insert_eq. split; [reflexivity|]. split; [auto|]. destruct Hxy as (_ & E & _). congruence.
  - intros j' Hj'. ksimpl. destruct (decide (j = j')) as [->|D]; [|rewrite lookup_insert_ne by exact D; auto].
    rewrite lookup_insert_eq. specialize (Hu j' Hj'). rewrite Hx in Hu. inversion Hu as [x0 ? Q E|]. constructor. etransitivity; eassumption.
Qed.

(** ** Computations after which it is still so *)

Context (k0 : ks).

Definition after_over (w : stop) k : Prop := wrong w ∨ over k0 k ∧ w ≠ SRun i.
Definition ov {A} (m : M ks A) : Prop := ∀ k, over k0 k → wp m (λ _ k', over k0 k') after_over k.

Create HintDb over.

Lemma ov_bind {A B} (m : M ks A) (f : A → M ks B) : ov m → (∀ a, ov (f a)) → ov (m ≫= f).
Proof. intros Hm Hf k H. apply wp_bind. eapply wp_mono; [apply Hm, H| |auto]. intros a k' H'. apply Hf, H'. Qed.
Lemma ov_mret {A} (a : A) : ov (mret a).
Proof. intros k H. exact H. Qed.
Lemma ov_gets {A} (f : ks → A) : ov (gets f).
Proof. intros k H. exact H. Qed.
Lemma ov_when b (m : M ks unit) : ov m → ov (when b m).
Proof. intros H. destruct b; [exact H|apply ov_mret]. Qed.
Lemma ov_range n a d (body : Z → M ks unit) : (∀ j, ov (body j)) → ov (for_range n a d body).
Proof. intros H. revert a. induction n as [|n IH]; intros a; [apply ov_mret|]. cbn [for_range]. apply ov_bind; [apply H|auto]. Qed.
Lemma ov_stop {A} w : w ≠ SRun i → ov (stop_with (A := A) w).
Proof. intros Hw k H. right. auto. Qed.
Lemma ov_wrong {A} w : wrong w → ov (stop_with (A := A) w).
Proof. intros Hw k H. left. exact Hw. Qed.

(** Operations that leave the environments and the memory alone. *)
Definition apart {A} (m : M ks A) : Prop := ∀ k,
  wp m (λ _ k', envs k' = envs k ∧ phys (kpm k') = phys (kpm k)) (λ w _, wrong w) k.
Lemma ov_apart {A} (m : M ks A) : apart m → ov m.
Proof. intros Hm k H. eapply wp_mono; [apply Hm| |left; assumption]. intros ? k' [E1 E2]. eapply over_ext; eassumption. Qed.
Ltac apart_cases m := apply ov_apart; intros k; unfold wp, m; repeat case_match; simplify_eq; auto; exact I.
Lemma ov_thiscpu : ov thiscpu.
Proof. apart_cases thiscpu. Qed.
Lemma ov_thiscpu_upd f : ov (thiscpu_upd f).
Proof. apart_cases thiscpu_upd. Qed.
Lemma ov_unlock : ov unlock_kernel.
Proof. apart_cases unlock_kernel. Qed.
Lemma ov_cprintf fmt args : ov (cprintf fmt args).
Proof. apply ov_apart. intros k. split; reflexivity. Qed.
Lemma ov_PADDR a : ov (inpm (PADDR a)).
Proof. apply ov_apart. intros k. unfold wp, inpm, lift, PADDR. cbn [view update kpm_lens].
  destruct (w32 a <? KERNBASE); [exact I|split; reflexivity].
Qed.
Lemma ov_lcr3 a : ov (lcr3 a).
Proof. apply ov_apart. intros k. split; reflexivity. Qed.
Lemma ov_env_get j : ov (env_get j).
Proof. apart_cases env_get. Qed.
Lemma ov_curenv : ov curenv.
Proof. apply ov_bind; [apply ov_thiscpu|]. intros c. apply ov_mret. Qed.
Lemma ov_curenv_deref : ov curenv_deref.
Proof. apply ov_bind; [apply ov_curenv|]. intros [j|]; [apply ov_mret|apply ov_wrong, I]. Qed.

(** What is read of the freed environment, and the updates. *)
Lemma ov_get_status {A} j (f : Env → M ks A) : (∀ x, (j = i → env_status x = ENV_FREE) → ov (f x)) → ov (env_get j ≫= f).
Proof.
  intros Hf k H. apply wp_bind. unfold wp at 1, env_get. destruct (envs k !! j) as [x|] eqn:Ex; [|left; exact I].
  apply Hf; [|exact H]. intros ->. destruct H as [(e & He & Hs & _) _]. congruence.
Qed.
Lemma ov_env_upd j f : (∀ x, same_env x (f x)) → (j = i → ∀ x, env_status (f x) = env_status x) → ov (env_upd j f).
Proof.
  intros Hs Hf k H. unfold wp, env_upd. destruct (envs k !! j) as [x|] eqn:Ex; [|left; exact I].
  eapply over_upd; [exact H|exact Ex|apply Hs|]. intros Hj. rewrite (Hf Hj). subst j. destruct H as [(e & He & Hse & _) _]. congruence.
Qed.
Lemma ov_set_status j st : j ≠ i → ov (env_upd j (set_env_status st)).
Proof. intros Hj. apply ov_env_upd; [repeat split|contradiction]. Qed.
Lemma ov_runs j : ov (env_upd j (λ x, set_env_runs (w32 (env_runs x + 1)) x)).
Proof. apply ov_env_upd; [repeat split|reflexivity]. Qed.
Lemma ov_cpunum j n : ov (env_upd j (set_env_cpunum n)).
Proof. apply ov_env_upd; [repeat split|reflexivity]. Qed.
#[local] Hint Resolve ov_mret ov_gets ov_thiscpu ov_thiscpu_upd ov_unlock ov_cprintf ov_PADDR ov_lcr3 ov_env_get ov_curenv ov_curenv_deref
  ov_set_status ov_runs ov_cpunum : over.

Ltac overly := repeat match goal with
  | |- ov (_ ≫= _) => apply ov_bind; [|intros ?]
  | |- ov (when _ _) => apply ov_when
  | |- ov (for_range _ _ _ _) => apply ov_range; intros ?
  | |- ov (panic _) => apply ov_wrong, I
  | |- ov (undef _) => apply ov_wrong, I
  | |- ov (match ?x with _ => _ end) => destruct x
  | |- ov _ => solve [auto with over]
  end.

(** ** The scheduler never comes back to it *)

Lemma ov_env_run j : j ≠ i → ov (env_run j).
Proof.
  intros Hj. unfold env_run, env_pop_tf, set_curenv. apply ov_bind; [apply ov_curenv|]. intros c. apply ov_bind.
  - apply ov_when, ov_bind; [|intros _; overly]. destruct c as [l|]; [|apply ov_mret]. apply ov_get_status. intros x Hx.
    destruct (Z.eqb_spec (env_status x) ENV_RUNNING) as [E|]; cbn [when]; [|apply ov_mret]. apply ov_set_status.
    intros ->. rewrite Hx in E by reflexivity. discriminate.
  - intros _. overly. apply ov_stop. congruence.
Qed.

(** The environment is run only if it is in the given state. *)
Lemma ov_run_status j st : st ≠ ENV_FREE → ov (x ← env_get j; when (env_status x =? st) (env_run j)).
Proof.
  intros Hst. apply ov_get_status. intros x Hx. destruct (Z.eqb_spec (env_status x) st) as [E|]; cbn [when]; [|apply ov_mret].
  apply ov_env_run. intros ->. rewrite Hx in E by reflexivity. congruence.
Qed.

Lemma ov_sched_scan n j : ov (sched_scan n j).
Proof. revert j. induction n as [|n IH]; intros j; cbn [sched_scan]; overly; auto. Qed.
#[local] Hint Resolve ov_sched_scan : over.

Lemma ov_sched_halt : ov sched_halt.
Proof. unfold sched_halt, set_curenv. overly; apply ov_stop; discriminate. Qed.

Lemma ov_sched_yield : ov sched_yield.
Proof.
  unfold sched_yield, sched_try. apply ov_bind; [apply ov_curenv|]. intros c. apply ov_bind; [overly|]. intros off.
  apply ov_bind; [apply ov_range; intros j; apply ov_run_status; discriminate|]. intros _.
  apply ov_bind; [|intros _; apply ov_sched_halt]. destruct c; [apply ov_run_status; discriminate|apply ov_mret].
Qed.
End over.

(** * Destruction *)

Section fatal.
Context (K : Z → Prop) (i : Z) (k0 : ks).
Implicit Types (k : ks).

(** The state but for environment [i] and what is not memory. *)
Definition untouched k : Prop := (∀ j, j ≠ i → envs k !! j = envs k0 !! j) ∧ phys (kpm k) = phys (kpm k0).

Lemma env_free_over k l R x kp fl e : kspace K k l R x kp fl → running k (Some i) → live k i e → untouched k →
  ∃ k', env_free i k = Ret tt k' ∧ over i k0 k'.
Proof.
  intros H (c & Hc & Ec & Hcur) Hl [Hu Hm]. pose proof H as [Hv He]. pose proof (vs_vm _ _ _ _ _ _ Hv) as Hvm.
  destruct (live_pgdir K _ _ _ _ _ _ _ _ H Hl) as (pd & Hpd & Ep & _).
  destruct (list_elem_of_split _ _ Hpd) as (R1 & R2 & ->). destruct (kspace_kern K _ _ _ _ _ _ H) as [Ek Hkp].
  assert (∀ j, cpu_env c = Some j → is_Some (envs k !! j)) as Hce by (intros j Hj; replace j with i by congruence; exists e; apply Hl).
  assert (KERNBASE ≤ kern_pgdir (kpm k) < 2 ^ 32) as Hkk by (rewrite Ek; unfold kva_of, KERNBASE, PGSIZE; lia).
  destruct (env_free_run k l R1 R2 x i e pd c Hc Hce (proj1 Hl) Ep Hkk Hvm) as (msg & s1 & l1 & j & F & _ & _ & _ & _ & Erun).
  set (k1 := free_start i c msg k) in *. cbv zeta in F, Erun.
  assert (phys (kpm k1) = phys (kpm k)) as E1 by (unfold k1, free_start; case_bool_decide; reflexivity).
  eexists. split; [exact Erun|]. split; [|split].
  - eexists. ksimpl. rewrite lookup_insert_eq. auto.
  - intros j' Hj'. ksimpl. rewrite lookup_insert_ne, Hu by congruence. destruct (envs k0 !! j'); constructor. reflexivity.
  - intros j' e' pd' v Hj' Hl' Ep' Hv'. ksimpl. rewrite decref_phys, <- Hm.
    assert (live k j' e') as [L1 L2] by (unfold live; rewrite Hu by exact Hj'; exact Hl').
    destruct (live_pgdir K _ _ _ _ _ _ _ _ H (conj L1 L2)) as (pd2 & Hpd2 & Ep2 & _).
    assert (pd2 = pd') as -> by (rewrite Ep' in Ep2; unfold kva_of, PGSIZE in Ep2; lia).
    assert (pd' ≠ pd) as Hne by (intros ->; apply Hj', (es_inj _ _ _ _ He j' i e' e); [split; assumption|exact Hl|congruence]).
    split; [rewrite (fr_pte _ _ _ _ _ _ _ _ F), bool_decide_eq_false_2 by assumption; cbn [andb]; rewrite E1; reflexivity|].
    intros q b Hq Hb. destruct (mapped_data _ _ _ _ pd' v q Hvm Hpd2 Hv' Hq) as (_ & HR & Hpt). rewrite <- E1 in Hpt |- *.
    apply (data_kept _ _ _ [] q (fr_data _ _ _ _ _ _ _ _ F)); auto using not_elem_of_nil.
Qed.

(** The environment is gone and the kernel has left for something else. *)
Definition gone k1 (w : stop) k : Prop := left_kernel K k1 w k ∧ over i k0 k ∧ w ≠ SRun i.
Definition kills {A} k1 (m : M ks A) k : Prop := wp m (λ _ _, False) (gone k1) k.

Lemma kills_bind {A B} k1 (m : M ks A) (f : A → M ks B) k : kills k1 m k → kills k1 (m ≫= f) k.
Proof. intros H. apply wp_bind. eapply wp_conseq; [exact H|intros ? ? []]. Qed.

(** What the invariant says of how it leaves, and what becomes of it. *)
Lemma kills_intro {A} k1 (m : M ks A) Q k : wp m (λ _ _, False) (left_kernel K k1) k → wp m Q (after_over i k0) k → kills k1 m k.
Proof.
  intros H1 H2. eapply wp_mono; [apply (wp_and _ _ _ _ _ _ H1 H2)|intros ? ? [[] _]|].
  intros w k' [H [F|[Ho Hw]]]; [exfalso; destruct H as [_ H]; destruct w; contradiction|split; auto].
Qed.

Lemma ready_kspace k1 k : inside K k1 k (Some i) → (∃ l R x kp fl, kspace K k l R x kp fl) ∧ running k (Some i) ∧ ∃ e, live k i e.
Proof. intros [[H Hr] _ _]. split; [exact H|]. split; [exact Hr|]. destruct Hr as (c & _ & _ & e & He & _). eauto. Qed.

(** Freeing the current environment and going on with another. *)
Lemma free_kills k1 k : inside K k1 k (Some i) → untouched k → kills k1 (env_free i ;; set_curenv None ;; sched_yield) k.
Proof.
  intros H Hu. destruct (ready_kspace k1 k H) as ((l & R & x & kp & fl & Hs) & Hr & e & Hl).
  eapply kills_intro; [exact (free_yield_wp K k1 k i e H Hl)|]. destruct (env_free_over k l R x kp fl e Hs Hr Hl Hu) as (k' & E & Ho).
  apply wp_bind. eapply wp_Ret; [exact E|]. apply (ov_bind i k0); [|intros _; apply ov_sched_yield|exact Ho]. apply ov_thiscpu_upd.
Qed.

Lemma destroy_kills k1 k : inside K k1 k (Some i) → untouched k → kills k1 (env_destroy i) k.
Proof.
  intros H Hu. pose proof (free_kills k1 k H Hu) as Hf. destruct (ready_kspace k1 k H) as ((l & R & x & kp & fl & Hs) & Hr & e & Hl).
  destruct (env_free_kspace K k l R x kp fl (Some i) i e Hs Hr Hl) as (k' & _ & _ & E & _ & _ & Ec & En & _).
  destruct Hr as (c & Hc & Hce & _). unfold kills, wp in *. unfold env_destroy.
  rewrite (bind_Ret _ _ _ _ _ (env_get_eq k i e (proj1 Hl))), (bind_Ret _ _ _ _ _ (curenv_eq k c Hc)), Hce.
  rewrite (bool_decide_eq_false_2 (Some i ≠ Some i)), andb_false_r by (intros F; apply F; reflexivity).
  rewrite (bind_Ret _ _ _ _ _ E) in Hf. rewrite (bind_Ret _ _ _ _ _ E). assert (cpus k' !! cpunum k' = Some c) as Hc' by (rewrite Ec, En; exact Hc).
  rewrite (bind_Ret _ _ _ _ _ (curenv_eq k' c Hc')), Hce, bool_decide_eq_true_2 by reflexivity. exact Hf.
Qed.

Lemma untouched_ext k k' : untouched k → envs k' = envs k → phys (kpm k') = phys (kpm k) → untouched k'.
Proof. intros [Hu Hm] E1 E2. split; rewrite ?E1, ?E2; assumption. Qed.

(** A pointer of the program that fails the check. *)
Lemma assert_kills k1 k e pd va len perm a : inside K k1 k (Some i) → untouched k → live k i e → env_pgdir e = kva_of pd →
  user_mem_check (kva_of pd) va len (Z.lor perm PTE_U) (kpm k) = Ret (- E_FAULT) (with_check_addr a (kpm k)) →
  kills k1 (user_mem_assert i va len perm) k.
Proof.
  intros H Hu Hl Ep E. unfold user_mem_assert. apply wp_bind. eapply env_get_wp; [apply Hl|]. rewrite Ep.
  apply wp_bind. eapply wp_Ret; [apply inpm_Ret; exact E|]. change (- E_FAULT <? 0) with true. cbn [when].
  apply wp_bind. eapply wp_Ret; [reflexivity|]. cbv beta. apply wp_bind, cprintf_wp.
  apply destroy_kills; [apply inside_log, inside_check, H|]. eapply untouched_ext; [exact Hu|reflexivity..].
Qed.

(** ** The traps *)

Context (rcr2 : Z).

Lemma prints_kills k1 k (m : M ks unit) : inside K k1 k (Some i) → untouched k → prints k m → kills k1 (m ;; env_destroy i) k.
Proof.
  intros H Hu Hm. apply wp_bind. eapply wp_mono; [apply Hm; exists (klog k); destruct k; reflexivity| |intros ? ? []].
  intros ? k' [lg ->]. apply destroy_kills; [apply inside_log, H|]. eapply untouched_ext; [exact Hu|reflexivity..].
Qed.

(** An exception without a handler. *)
Lemma unhandled_kills k1 k e msg f before : inside K k1 k (Some i) → untouched k → live k i e → Z.land (tf_cs (env_tf e)) 3 = 3 →
  env_upcalls e f = 0 → kills k1 (exception_handler rcr2 msg f before (TfEnv i)) k.
Proof.
  intros H Hu Hl Hcs Hf. unfold exception_handler, tf_get. cbv zeta. do 2 apply wp_bind. eapply env_get_wp; [apply Hl|]. apply wp_ret.
  rewrite Hcs. change (3 =? 0) with false. cbv iota. apply wp_bind. eapply curenv_deref_wp; [apply H|].
  apply wp_bind. eapply env_get_wp; [apply Hl|]. rewrite Hf. cbn [ctrue Z.eqb negb when]. apply wp_bind, wp_ret.
  apply wp_bind. eapply env_get_wp; [apply Hl|]. do 2 apply wp_bind. eapply env_get_wp; [apply Hl|]. apply wp_ret, wp_bind, cprintf_wp.
  apply prints_kills; [apply inside_log, H|eapply untouched_ext; [exact Hu|reflexivity..]|].
  eapply print_trapframe_prints. exact (proj1 Hl).
Qed.

(** An exception whose frame would go to a page that the program may not
    write. *)
Lemma bad_stack_kills k1 k e pd msg f before : inside K k1 k (Some i) → untouched k → live k i e → env_pgdir e = kva_of pd →
  Z.land (tf_cs (env_tf e)) 3 = 3 → u32_range (tf_esp (env_tf e)) → env_upcalls e f ≠ 0 →
  user_ok (phys (kpm k)) pd (Z.lor PTE_W PTE_U) (utf_addr (env_tf e) / PGSIZE) = false →
  kills k1 (exception_handler rcr2 msg f before (TfEnv i)) k.
Proof.
  intros H Hu Hl Ep Hcs Hesp Hf Hbad. unfold exception_handler, tf_get. cbv zeta. do 2 apply wp_bind. eapply env_get_wp; [apply Hl|]. apply wp_ret.
  rewrite Hcs. change (3 =? 0) with false. cbv iota. apply wp_bind. eapply curenv_deref_wp; [apply H|].
  apply wp_bind. eapply env_get_wp; [apply Hl|]. apply kills_bind. unfold ctrue. rewrite (proj2 (Z.eqb_neq _ _) Hf). cbn [negb when].
  apply kills_bind. destruct (ready_kspace k1 k H) as ((l & R & x & kp & fl & Hs) & _).
  destruct (live_pgdir K _ _ _ _ _ _ _ _ Hs Hl) as (pd' & Hpd & Ep' & _).
  assert (pd' = pd) as -> by (rewrite Ep in Ep'; unfold kva_of, PGSIZE in Ep'; lia).
  pose proof (utf_addr_range _ Hesp) as [Hr _]. change (UXSTACKTOP - PGSIZE - 56) with 0xeebfefc8 in Hr. change (UXSTACKTOP - 52) with 0xeebfffcc in Hr.
  eapply assert_kills; [exact H|exact Hu|exact Hl|exact Ep|].
  rewrite (user_mem_check_one _ _ _ _ (kspace_walkable K _ _ _ _ _ _ _ Hs Hpd)) by (unfold PGSIZE; lia). rewrite Hbad. reflexivity.
Qed.

(** sys_cputs of a string with a page that the kernel looks at and the program
    may not read. *)
Lemma cputs_kills k1 k e pd va len v : inside K k1 k (Some i) → untouched k → live k i e → env_pgdir e = kva_of pd →
  u32_range va → checked va len v → user_ok (phys (kpm k)) pd PTE_U v = false →
  kills k1 (sys_cputs va len) k.
Proof.
  intros H Hu Hl Ep Hva Hv Hbad. unfold sys_cputs. apply wp_bind. eapply curenv_deref_wp; [apply H|]. apply kills_bind.
  destruct (ready_kspace k1 k H) as ((l & R & x & kp & fl & Hs) & _). destruct (live_pgdir K _ _ _ _ _ _ _ _ Hs Hl) as (pd' & Hpd & Ep' & _).
  assert (pd' = pd) as -> by (rewrite Ep in Ep'; unfold kva_of, PGSIZE in Ep'; lia).
  destruct (user_mem_check_fails (kpm k) pd va len PTE_U v (kspace_walkable K _ _ _ _ _ _ _ Hs Hpd) Hva Hv Hbad) as [b E].
  eapply assert_kills; [exact H|exact Hu|exact Hl|exact Ep|exact E].
Qed.

(** A trap that kills the program [e] with page directory [pd] in memory [m]. *)
Inductive fatal (m : mem) (e : Env) (pd : Z) (tf : Trapframe) : Prop :=
| fatal_dying : env_status e = ENV_DYING → fatal m e pd tf                (* destroyed from another CPU *)
| fatal_unhandled f : tf_trapno tf = vector f → env_upcalls e f = 0 → fatal m e pd tf
| fatal_stack f : tf_trapno tf = vector f → env_upcalls e f ≠ 0 →
    user_ok m pd (Z.lor PTE_W PTE_U) (utf_addr tf / PGSIZE) = false → fatal m e pd tf
| fatal_cputs v : let g := tf_regs tf in tf_trapno tf = T_SYSCALL → reg_eax g = SYS_cputs →
    checked (reg_edx g) (reg_ecx g) v → user_ok m pd PTE_U v = false → fatal m e pd tf
| fatal_unknown : (∀ f, tf_trapno tf ≠ vector f) →
    tf_trapno tf ∉ [T_SYSCALL; IRQ_OFFSET + IRQ_SPURIOUS; IRQ_OFFSET + IRQ_TIMER] → fatal m e pd tf.

(** The last cases of the dispatch. *)
Lemma dispatch_other k e : envs k !! i = Some e → (∀ f, tf_trapno (env_tf e) ≠ vector f) →
  trap_dispatch rcr2 (TfEnv i) k
  = (let n := tf_trapno (env_tf e) in
     if n =? T_SYSCALL then
       let g := tf_regs (env_tf e) in
       v ← syscall (reg_eax g) (reg_edx g) (reg_ecx g) (reg_ebx g) (reg_edi g) (reg_esi g);
       tf_set_eax (TfEnv i) (w32 v)
     else if n =? IRQ_OFFSET + IRQ_SPURIOUS then
       cprintf "Spurious interrupt on irq 7\n" [] ;; print_trapframe rcr2 (TfEnv i)
     else if n =? IRQ_OFFSET + IRQ_TIMER then lapic_eoi ;; sched_yield
     else
       print_trapframe rcr2 (TfEnv i) ;;
       if tf_cs (env_tf e) =? GD_KT then panic "unhandled trap in kernel"
       else c ← curenv_deref; env_destroy c) k.
Proof.
  intros He Hv. unfold trap_dispatch. rewrite (bind_Ret _ _ _ (env_tf e) k).
  2: { unfold tf_get. rewrite (bind_Ret _ _ _ _ _ (env_get_eq k i e He)). reflexivity. }
  cbv zeta. 
  rewrite (proj2 (Z.eqb_neq _ _) (Hv env_divzero_upcall : _ ≠ T_DIVIDE)), (proj2 (Z.eqb_neq _ _) (Hv env_pgfault_upcall : _ ≠ T_PGFLT)),
    (proj2 (Z.eqb_neq _ _) (Hv env_debug_upcall : _ ≠ T_DEBUG)), (proj2 (Z.eqb_neq _ _) (Hv env_nmskint_upcall : _ ≠ T_NMI)),
    (proj2 (Z.eqb_neq _ _) (Hv env_bpoint_upcall : _ ≠ T_BRKPT)), (proj2 (Z.eqb_neq _ _) (Hv env_oflow_upcall : _ ≠ T_OFLOW)),
    (proj2 (Z.eqb_neq _ _) (Hv env_bdschk_upcall : _ ≠ T_BOUND)), (proj2 (Z.eqb_neq _ _) (Hv env_illopcd_upcall : _ ≠ T_ILLOP)),
    (proj2 (Z.eqb_neq _ _) (Hv env_dvcntavl_upcall : _ ≠ T_DEVICE)), (proj2 (Z.eqb_neq _ _) (Hv env_dbfault_upcall : _ ≠ T_DBLFLT)),
    (proj2 (Z.eqb_neq _ _) (Hv env_ivldtss_upcall : _ ≠ T_TSS)), (proj2 (Z.eqb_neq _ _) (Hv env_segntprst_upcall : _ ≠ T_SEGNP)),
    (proj2 (Z.eqb_neq _ _) (Hv env_stkexception_upcall : _ ≠ T_STACK)), (proj2 (Z.eqb_neq _ _) (Hv env_gpfault_upcall : _ ≠ T_GPFLT)),
    (proj2 (Z.eqb_neq _ _) (Hv env_fperror_upcall : _ ≠ T_FPERR)), (proj2 (Z.eqb_neq _ _) (Hv env_algchk_upcall : _ ≠ T_ALIGN)),
    (proj2 (Z.eqb_neq _ _) (Hv env_mchchk_upcall : _ ≠ T_MCHK)), (proj2 (Z.eqb_neq _ _) (Hv env_SIMDfperror_upcall : _ ≠ T_SIMDERR)).
  reflexivity.
Qed.

Lemma dispatch_kills k1 k e pd : inside K k1 k (Some i) → untouched k → live k i e → env_pgdir e = kva_of pd →
  Z.land (tf_cs (env_tf e)) 3 = 3 → tf_typed (env_tf e) → env_status e ≠ ENV_DYING → fatal (phys (kpm k)) e pd (env_tf e) →
  kills k1 (trap_dispatch rcr2 (TfEnv i)) k.
Proof.
  intros H Hu Hl Ep Hcs Ht Hd Hf. destruct Hf as [F|f Hv Hf|f Hv Hf Hbad|v g Hn Hno Hv Hbad|Hv Hn]; [contradiction|..].
  - destruct (dispatch_handler rcr2 k i e f (proj1 Hl) Hv) as (msg & before & _ & E). unfold kills, wp. rewrite E.
    eapply unhandled_kills; eassumption.
  - destruct (dispatch_handler rcr2 k i e f (proj1 Hl) Hv) as (msg & before & _ & E). unfold kills, wp. rewrite E.
    eapply bad_stack_kills; try eassumption. apply Ht.
  - unfold kills, wp. rewrite (dispatch_other k e (proj1 Hl)) by (rewrite Hn; intros []; discriminate).
    rewrite Hn. cbv zeta. change (T_SYSCALL =? T_SYSCALL) with true. cbv iota. fold g. rewrite Hno.
    pose proof (tt_regs _ Ht) as [_ _ _ _ _ Hdx Hcx _]. apply kills_bind, (kills_bind k1 (sys_cputs (reg_edx g) (reg_ecx g))).
    eapply cputs_kills; eassumption.
  - rewrite !not_elem_of_cons in Hn. destruct Hn as (N1 & N2 & N3 & _). unfold kills, wp. rewrite (dispatch_other k e (proj1 Hl) Hv). cbv zeta.
    rewrite (proj2 (Z.eqb_neq _ _) N1), (proj2 (Z.eqb_neq _ _) N2), (proj2 (Z.eqb_neq _ _) N3).
    destruct (Z.eqb_spec (tf_cs (env_tf e)) GD_KT) as [E|_]; [rewrite E in Hcs; discriminate|].
    apply wp_bind. eapply wp_mono; [apply (print_trapframe_prints rcr2 k i e (proj1 Hl) k); exists (klog k); destruct k; reflexivity| |intros ? ? []].
    intros ? k' [lg ->]. apply wp_bind. eapply curenv_deref_wp; [apply (inside_log K k1 k _ lg H)|].
    apply destroy_kills; [apply inside_log, H|]. eapply untouched_ext; [exact Hu|reflexivity..].
Qed.

Lemma trap_body_kills k1 k e pd tf : inside K k1 k (Some i) → untouched k → live k i e → env_pgdir e = kva_of pd →
  Z.land (tf_cs tf) 3 = 3 → tf_typed tf → fatal (phys (kpm k)) e pd tf → kills k1 (trap_body rcr2 i tf) k.
Proof.
  intros H Hu Hl Ep Hcs Ht Hf. unfold trap_body. apply wp_bind. eapply env_get_wp; [apply Hl|].
  destruct (Z.eqb_spec (env_status e) ENV_DYING) as [E|Hd]; cbn [when]; [apply kills_bind, free_kills; assumption|].
  apply wp_bind, wp_ret, wp_bind. eapply curenv_deref_wp; [apply H|]. apply wp_bind. eapply env_upd_wp; [apply Hl|].
  pose proof (inside_upd K k1 k (Some i) i e (set_env_tf tf e) H (proj1 Hl) (keeps_tf e tf)) as H1. set (k2 := set_envs _ k) in *.
  apply wp_bind. eapply wp_Ret; [reflexivity|]. apply kills_bind.
  pose proof (inside_trap K k1 k2 (Some i) (set_last_tf (Some (TfEnv i)) (ktrap k2)) H1) as H2. set (k3 := set_ktrap _ k2) in *.
  apply (dispatch_kills k1 k3 (set_env_tf tf e) pd); [exact H2| |split; [apply lookup_insert_eq|apply Hl]|exact Ep|exact Hcs|exact Ht|exact Hd|].
  - destruct Hu as [Hu Hm]. split; [|exact Hm]. intros j Hj. unfold k3, k2. ksimpl. rewrite lookup_insert_ne by congruence. apply Hu, Hj.
  - destruct Hf; [eapply fatal_dying|eapply fatal_unhandled|eapply fatal_stack|eapply fatal_cputs|apply fatal_unknown]; eassumption.
Qed.
End fatal.

(** * The property *)

(** C2. What a program dies of.  A trap from user mode never returns to the
    program if it is an exception for which the environment has set no
    handler; an exception with a handler when the page below the stack pointer
    on which its frame would start is not the program's to write; sys_cputs
    when one of the pages that user_mem_check looks at (C23: the pages of the
    string, unless its end wraps past the top of the address space, when there
    may be none) is not the program's to read; a vector the kernel does not
    know; or any trap after another CPU has asked for the end of the
    environment.  The environment is freed; the CPU runs another environment,
    halts, or is in the monitor, with the invariant of the kernel intact and
    the pages the kernel keeps unchanged; and every other environment has its
    name, its saved registers, its mappings, and in each page it maps the
    same bytes. *)
Theorem fatal_trap_destroys (K : Z → Prop) (rcr2 eflags at_ : Z) (tf : Trapframe) (k : ks) (i : Z) (e : Env) (pd : Z) :
  user_ready K k i → live k i e → env_pgdir e = kva_of pd → Z.land (tf_cs tf) 3 = 3 → tf_typed tf → Z.land eflags FL_IF = 0 →
  fatal (phys (kpm k)) e pd tf →
  ∃ w k', trap rcr2 eflags at_ tf k = Stop w k' ∧ freed i k' ∧ unharmed i k k' ∧ kept K (phys (kpm k)) (phys (kpm k')) ∧
    match w with
    | SRun j => j ≠ i ∧ kernel_ok K k' (Some j) ∧ klock k' = None
    | SHalt => kernel_ok K k' None ∧ klock k' = None
    | SMonitor => ∃ cur, kernel_ok K k' cur
    | _ => False
    end.
Proof.
  intros [Hok Hl Hp Hst] Hlv Ep Hcs Ht Hif Hf. pose proof Hok as [_ (c & Hc & He & _)]. rewrite Hc in Hst. injection Hst as Hst.
  rewrite (trap_user rcr2 eflags at_ tf k i c) by assumption. pose proof (inside_locked K k c (Some i) Hok Hc) as H.
  pose proof (trap_body_kills K i k rcr2 k (locked k c) e pd tf H (conj (λ j _, eq_refl) eq_refl) Hlv Ep Hcs Ht Hf) as Hk.
  unfold kills, wp in Hk. destruct (trap_body rcr2 i tf (locked k c)) as [|w k']; [contradiction|].
  destruct Hk as [[Hkept Hw] [[Hfr Hun] Hne]]. exists w, k'. split; [reflexivity|]. split; [exact Hfr|]. split; [exact Hun|]. split; [exact Hkept|].
  destruct w; try contradiction; [split; [congruence|exact Hw]|exact Hw..].
Qed.

(** user/evilhello.c asks for the bytes of the kernel's entry point. *)
Definition evil_call : Trapframe :=
  MkTrapframe (MkPushRegs 0 0 0 0 0 0xf010000c 100 SYS_cputs) 0 0 T_SYSCALL 0 0x800020 (Z.lor GD_UT 3) FL_IF 0x7000 (Z.lor GD_UD 3).

Lemma fatal_trap_destroys_witness : ∃ w k', trap 0 0 0 evil_call run_ks = Stop w k' ∧ freed 0 k' ∧ w ≠ SRun 0.
Proof.
  destruct (fatal_trap_destroys (λ q, q = 3) 0 0 0 evil_call run_ks 0 (demo_env 0) 0) as (w & k' & E & Hf & _ & _ & Hw).
  - exact run_ready.
  - split; [apply (demo_envs_lookup 0); split; reflexivity || discriminate|discriminate].
  - reflexivity.
  - reflexivity.
  - repeat split; vm_compute; reflexivity || discriminate.
  - reflexivity.
  - apply (fatal_cputs _ _ _ _ 0xf0100); [reflexivity|reflexivity|split; vm_compute; reflexivity || discriminate|vm_compute; reflexivity].
  - exists w, k'. split; [exact E|]. split; [exact Hf|]. intros ->. destruct Hw as [Hw _]. contradiction.
Defined.
