(* ===== verification/LoadSpec.v ===== *)
(** Creating environments: the memory of a user program as a map from
    addresses to bytes, and the proof that region_alloc, load_icode and
    env_create put the program's image into it. *)
From S2P Require Import Prelude Mmu Mem Pages PageTable AddrSpace UserMem Console KState Env EnvVm EnvSpec Syscall SyscallSpec KSpace Boot BootSpec BootInv Trap TrapSpec.

Lemma with_phys_same (s : pm) : with_phys (phys s) s = s.
Proof. destruct s. reflexivity. Qed.

(** * The memory of a user program *)

(** The byte at [va] in the address space of [pd]. *)
Definition ubyte (s : pm) (pd va : Z) : option Z :=
  (λ p, ld8 (phys s) (p * PGSIZE + va mod PGSIZE)) <$> page_of (phys s) pd (va / PGSIZE).

Definition user_pte (p : Z) : Z := Z.lor (p * PGSIZE) (Z.lor (Z.lor PTE_W PTE_U) PTE_P).

Lemma user_pte_W p t : 0 ≤ p < 65536 → 0 ≤ t < 65536 → ctrue (Z.land (Z.land (pde_for t) (user_pte p)) PTE_W) = true.
Proof.
  intros Hp Ht. unfold pde_for, user_pte. apply ctrue_spec. intros E. apply (f_equal (λ z, Z.testbit z 1)) in E. revert E.
  rewrite !Z.land_spec, !Z.lor_spec. change (Z.testbit PTE_W 1) with true. rewrite !orb_true_r. discriminate.
Qed.

Section space.
Context (K : Z → Prop) (m0 : mem).
Implicit Types (s : pm) (l R : list Z) (x : Z → Z) (g : Z → option Z).

(** [space s l R x kp pd g]: the address space of [pd] holds the bytes [g];
    its pages are its own, mapped for the user to write, and the kernel's
    pages are as they were in [m0]. *)
Record space s l R x kp pd g : Prop := {
  sp_vs : vspace K s l R x kp;
  sp_pd : pd ∈ R;
  sp_own : ∀ pd' v v' p, pd' ∈ R → 0 ≤ v < UVPN → 0 ≤ v' < UVPN →
    page_of (phys s) pd v = Some p → page_of (phys s) pd' v' = Some p → pd' = pd ∧ v' = v;
  sp_pte : ∀ v e, 0 ≤ v < UVPN → pte_of (phys s) pd v = Some e → e = user_pte (frame_of e);
  sp_pde : ∀ i t, 0 ≤ i < UPDX → pt_of (phys s) pd i = Some t → wd (phys s) pd i = pde_for t;
  sp_view : ∀ va, user_va va → ubyte s pd va = g va;
  sp_kept : kept K m0 (phys s)
}.

Lemma user_va_page va : user_va va → 0 ≤ va / PGSIZE < UVPN ∧ 0 ≤ va mod PGSIZE < PGSIZE.
Proof using. intros H. split; [apply (user_va_idx va H)|apply Z.mod_pos_bound; reflexivity]. Qed.

Lemma space_frame s l R x kp pd g v p : space s l R x kp pd g → 0 ≤ v < UVPN → page_of (phys s) pd v = Some p →
  0 ≤ p < npages s ∧ npages s ≤ 65536 ∧ p ∉ R ∧ ¬ is_pt (phys s) R p ∧ p ∉ l ∧ ¬ K p.
Proof.
  intros H Hv Hp. pose proof (vs_vm _ _ _ _ _ _ (sp_vs _ _ _ _ _ _ _ H)) as Hvm.
  destruct (vm_data _ _ _ _ Hvm pd v p (sp_pd _ _ _ _ _ _ _ H) Hv Hp) as (Hb & HR & Hpt).
  pose proof (vm_npages _ _ _ _ Hvm). split; [exact Hb|]. split; [lia|]. split; [exact HR|]. split; [exact Hpt|]. split.
  - intros F. apply (vm_free_unused _ _ _ _ p Hvm F) in Hp; [exact Hp|apply H|exact Hv].
  - intros F. destruct (vs_kern _ _ _ _ _ _ (sp_vs _ _ _ _ _ _ _ H) p F) as (_ & _ & Hn). apply Hn.
    right. right. exists pd, v. split; [apply H|]. auto.
Qed.

Lemma space_writable s l R x kp pd g v p : space s l R x kp pd g → 0 ≤ v < UVPN → page_of (phys s) pd v = Some p →
  writable s pd v p.
Proof.
  intros H Hv Hp. destruct (space_frame _ _ _ _ _ _ _ _ _ H Hv Hp) as (Hb & Hn & _).
  unfold page_of in Hp. destruct (pte_of (phys s) pd v) as [e|] eqn:Ee; [|discriminate]. injection Hp as Ef.
  exists e. split; [exact Ee|]. split; [exact Ef|].
  destruct (vpn_idx v Hv) as [Hi Hj]. pose proof Ee as Et. unfold pte_of in Et.
  destruct (pt_of (phys s) pd (v / 1024)) as [t|] eqn:Ept; [|discriminate].
  destruct (vm_pt_bound _ _ _ _ _ _ _ (vs_vm _ _ _ _ _ _ (sp_vs _ _ _ _ _ _ _ H)) (sp_pd _ _ _ _ _ _ _ H) Hi Ept) as (Ht & _).
  rewrite (sp_pde _ _ _ _ _ _ _ H _ _ Hi Ept), (sp_pte _ _ _ _ _ _ _ H _ _ Hv Ee), Ef. apply user_pte_W; lia.
Qed.

(** A page of the program is written. *)
Lemma vspace_write s l R x kp p m' : vspace K s l R x kp → p ∉ R → ¬ is_pt (phys s) R p → ¬ K p →
  (∀ q j, 0 ≤ j < 1024 → q ≠ p → wd m' q j = wd (phys s) q j) →
  vspace K (with_phys m' s) l R x kp ∧ kept K (phys s) m'.
Proof.
  intros H HR Hpt HK He.
  assert (kept K (phys s) m') as Hk by (intros q j Hq Hj; apply He; [exact Hj|intros ->; contradiction]).
  split; [|exact Hk]. pose proof (proj2 (vs_kp _ _ _ _ _ _ H)) as Kkp. split; psimpl.
  - apply (vm_write_data _ _ _ _ p); [apply H|assumption..].
  - apply H.
  - intros q Hq. destruct (vs_kern _ _ _ _ _ _ H q Hq) as (Hb & Hx & Hn). split; [exact Hb|]. split; [exact Hx|].
    intros F. apply Hn. destruct F as [F|[F|(pd & v & Hpd & Hv & E)]]; [left; exact F| |].
    + right. left. apply (is_pt_ext (phys s) m'); [|exact F]. intros. eapply same_pt_of; eassumption.
    + right. right. exists pd, v. split; [exact Hpd|]. split; [exact Hv|]. rewrite <- E.
      unfold page_of. f_equal. symmetry. eapply same_pte_of; eassumption.
  - intros i Hi. rewrite (pt_of_ext (phys s)) by (apply Hk; unfold UPDX in *; assumption || lia). apply H. assumption.
  - intros i t Hi. rewrite (pt_of_ext (phys s)) by (apply Hk; unfold UPDX in *; assumption || lia). apply H. assumption.
  - intros pd i Hpd Hi. rewrite (Hk kp i) by (unfold UPDX in *; assumption || lia). rewrite He; [apply H; assumption| |].
    + unfold UPDX in *; lia.
    + intros ->. contradiction.
Qed.

(** One byte is stored through the page tables. *)
Lemma space_store s l R x kp pd g va c b : space s l R x kp pd g → cr3 s = pd * PGSIZE → user_va va → g va = Some b →
  ∃ s', vst8 va c s = Ret tt s' ∧ space s' l R x kp pd (λ a, if decide (a = va) then Some (w8 c) else g a) ∧
    cr3 s' = cr3 s ∧ npages s' = npages s.
Proof.
  intros H Hcr Hva Hg. destruct (user_va_page va Hva) as [Hv Hm].
  rewrite <- (sp_view _ _ _ _ _ _ _ H va Hva) in Hg. unfold ubyte in Hg.
  destruct (page_of (phys s) pd (va / PGSIZE)) as [p|] eqn:Ep; [|discriminate]. clear Hg.
  destruct (space_frame _ _ _ _ _ _ _ _ _ H Hv Ep) as (Hb & Hn & HR & Hpt & Hl & HK).
  pose proof (vs_vm _ _ _ _ _ _ (sp_vs _ _ _ _ _ _ _ H)) as Hvm.
  assert (agree s p (phys s)) as Ha by (intros ? ? ? ?; reflexivity).
  pose proof (vst8_user s l R x Hvm pd _ p (sp_pd _ _ _ _ _ _ _ H) Hv Hcr (space_writable _ _ _ _ _ _ _ _ _ H Hv Ep)
    (phys s) va c Ha eq_refl) as E.
  rewrite with_phys_same in E. set (m' := st8 (phys s) (p * PGSIZE + va mod PGSIZE) c) in *.
  assert (∀ q j, 0 ≤ j < 1024 → q ≠ p → wd m' q j = wd (phys s) q j) as Hw.
  { intros q j Hj Hq. apply wd_st8; [|exact Hj]. rewrite Z.add_comm, Z.div_add by discriminate. rewrite Z.div_small by exact Hm. lia. }
  destruct (vspace_write _ _ _ _ _ p m' (sp_vs _ _ _ _ _ _ _ H) HR Hpt HK Hw) as [Hvs Hk].
  exists (with_phys m' s). split; [exact E|]. split; [|auto].
  assert (∀ pd' v, pd' ∈ R → 0 ≤ v < UVPN → pte_of m' pd' v = pte_of (phys s) pd' v) as Hpte
    by (intros; apply (same_pte_of (phys s) m' R p); assumption).
  assert (∀ pd' v, pd' ∈ R → 0 ≤ v < UVPN → page_of m' pd' v = page_of (phys s) pd' v) as Hpg
    by (intros; unfold page_of; rewrite Hpte by assumption; reflexivity).
  destruct H as [Hvs0 Hpd Hown Hptes Hpdes Hview Hkept].
  split; psimpl.
  - exact Hvs.
  - exact Hpd.
  - intros pd' v v' q Hpd' Hv1 Hv2. rewrite !Hpg by assumption. apply Hown; assumption.
  - intros v e Hv1. rewrite Hpte by assumption. apply Hptes; assumption.
  - intros i t Hi. rewrite (same_pt_of (phys s) m' R p) by assumption. rewrite Hw; [apply Hpdes; exact Hi|unfold UPDX in *; lia|].
    intros ->. contradiction.
  - intros a Hau. rewrite <- Hview by exact Hau. unfold ubyte. psimpl. destruct (user_va_page a Hau) as [Hva' Hma].
    rewrite Hpg by assumption. case_decide as D.
    + subst a. rewrite Ep. cbn. f_equal. unfold m'. apply ld8_st8_eq.
    + destruct (page_of (phys s) pd (a / PGSIZE)) as [q|] eqn:Eq; [|reflexivity]. cbn. f_equal.
      apply ld8_st8_ne. intros F. apply D.
      destruct (Z.eq_dec q p) as [->|Hq]; [|unfold PGSIZE in *; lia].
      destruct (Hown pd _ _ p Hpd Hv Hva' Ep Eq) as [_ Ev].
      rewrite (Z.div_mod va PGSIZE), (Z.div_mod a PGSIZE) by discriminate. unfold PGSIZE in *. lia.
  - etransitivity; [exact Hkept|exact Hk].
Qed.

(** [in_space k k' ...]: the state [k] with the virtual memory of a space. *)
Lemma space_ext s l R x kp pd g g' : (∀ a, user_va a → g' a = g a) → space s l R x kp pd g → space s l R x kp pd g'.
Proof. intros E []. split; try assumption. intros va Hva. rewrite E; auto. Qed.

Lemma vmemset_run n : ∀ s l R x kp pd g va c, space s l R x kp pd g → cr3 s = pd * PGSIZE →
  0 ≤ va → va + Z.of_nat n ≤ UTOP → (∀ a, va ≤ a < va + Z.of_nat n → is_Some (g a)) →
  ∃ s', vmemset n va c s = Ret tt s' ∧
    space s' l R x kp pd (λ a, if decide (va ≤ a < va + Z.of_nat n) then Some (w8 c) else g a) ∧
    cr3 s' = cr3 s ∧ npages s' = npages s.
Proof.
  induction n as [|n IH]; intros s l R x kp pd g va c H Hcr Hva Hn Hg; cbn [vmemset].
  - exists s. split; [reflexivity|]. split; [|auto]. apply (space_ext _ _ _ _ _ _ g); [|exact H].
    intros a _. apply decide_False. lia.
  - destruct (Hg va ltac:(lia)) as [b Hb].
    destruct (space_store _ _ _ _ _ _ _ va c b H Hcr ltac:(unfold user_va; lia) Hb) as (s1 & E1 & H1 & Hcr1 & Hn1).
    rewrite (bind_Ret _ _ _ _ _ E1), w32_id by (unfold u32_range; assert (UTOP < 2 ^ 32) by reflexivity; lia).
    destruct (IH s1 l R x kp pd _ (va + 1) c H1) as (s' & E & H' & Hcr' & Hn'); [congruence|lia|lia| |].
    { intros a Ha. case_decide; [eauto|]. apply Hg. lia. }
    exists s'. split; [exact E|]. split; [|split; congruence]. eapply space_ext; [|exact H'].
    intros a _. cbn beta. repeat case_decide; try reflexivity; lia.
Qed.

(** The kernel's byte at virtual address [a], as it was at the start. *)
Definition kbyte (a : Z) : Z := ld8 m0 (a - KERNBASE).
Definition kernel_at (a n : Z) : Prop := KERNBASE ≤ a ∧ a + n ≤ 2 ^ 32 ∧ ∀ b, a ≤ b < a + n → K ((b - KERNBASE) / PGSIZE).

Lemma kernel_at_sub a n b k : kernel_at a n → a ≤ b → 0 ≤ k → b + k ≤ a + n → kernel_at b k.
Proof. intros (H1 & H2 & H3) Hb Hk Hn. split; [lia|]. split; [lia|]. intros c Hc. apply H3. lia. Qed.

Lemma space_kbyte s l R x kp pd g a n b : space s l R x kp pd g → kernel_at a n → a ≤ b < a + n →
  ld8 (phys s) (b - KERNBASE) = kbyte b.
Proof.
  intros H (Ha & _ & HK) Hb. apply page_ld8. intros j Hj. apply (sp_kept _ _ _ _ _ _ _ H); [apply HK, Hb|exact Hj].
Qed.

Lemma vld8_kernel s a : KERNBASE ≤ a → vld8 a s = Ret (ld8 (phys s) (a - KERNBASE)) s.
Proof.
  intros Ha. unfold vld8, kaddr. rewrite Z.geb_leb. rewrite (proj2 (Z.leb_le _ _) Ha). reflexivity.
Qed.

Lemma vmemcpy_run n : ∀ s l R x kp pd g va src, space s l R x kp pd g → cr3 s = pd * PGSIZE →
  0 ≤ va → va + Z.of_nat n ≤ UTOP → (∀ a, va ≤ a < va + Z.of_nat n → is_Some (g a)) → kernel_at src (Z.of_nat n) →
  ∃ s', vmemcpy n va src s = Ret tt s' ∧
    space s' l R x kp pd (λ a, if decide (va ≤ a < va + Z.of_nat n) then Some (kbyte (src + (a - va))) else g a) ∧
    cr3 s' = cr3 s ∧ npages s' = npages s.
Proof.
  induction n as [|n IH]; intros s l R x kp pd g va src H Hcr Hva Hn Hg Hk; cbn [vmemcpy].
  - exists s. split; [reflexivity|]. split; [|auto]. apply (space_ext _ _ _ _ _ _ g); [|exact H].
    intros a _. apply decide_False. lia.
  - destruct (Hg va ltac:(lia)) as [b Hb]. pose proof Hk as (Hk1 & Hk2 & _).
    rewrite (bind_Ret _ _ _ _ _ (vld8_kernel s src Hk1)).
    rewrite (space_kbyte _ _ _ _ _ _ _ src _ src H Hk) by lia.
    destruct (space_store _ _ _ _ _ _ _ va (kbyte src) b H Hcr ltac:(unfold user_va; lia) Hb) as (s1 & E1 & H1 & Hcr1 & Hn1).
    rewrite (bind_Ret _ _ _ _ _ E1). rewrite (w32_id (va + 1)) by (unfold u32_range; assert (UTOP < 2 ^ 32) by reflexivity; lia).
    assert (w8 (kbyte src) = kbyte src) as Ew by (apply w8_id, ld8_range).
    destruct n as [|n].
    + cbn [vmemcpy]. exists s1. split; [reflexivity|]. split; [|split; congruence]. eapply space_ext; [|exact H1].
      intros a _. cbn beta. repeat case_decide; try lia; [|reflexivity]. rewrite Ew. do 2 f_equal. lia.
    + assert (0 ≤ KERNBASE) by discriminate. rewrite (w32_id (src + 1)) by (unfold u32_range; lia).
      destruct (IH s1 l R x kp pd _ (va + 1) (src + 1) H1) as (s' & E & H' & Hcr' & Hn'); [congruence|lia|lia| | |].
      { intros a Ha. case_decide; [eauto|]. apply Hg. lia. }
      { apply (kernel_at_sub src (Z.of_nat (S (S n)))); [exact Hk|lia..]. }
      exists s'. split; [exact E|]. split; [|split; congruence]. eapply space_ext; [|exact H'].
      intros a _. cbn beta. repeat case_decide; try reflexivity; try lia; [do 2 f_equal; lia|]. rewrite Ew. do 2 f_equal. lia.
Qed.

(** ** A fresh page is mapped *)

Lemma vm_alloc s l R x p i : vm_inv s (p :: l) R x → pages s !! p = Some i →
  vm_inv (alloc_state false p (pp_link i) s) l R x.
Proof.
  intros H Hi. destruct (vm_free _ _ _ _ _ H (list_elem_of_here _ _)) as [Hr Hx]. split.
  - apply page_inv_alloc_state; [apply H|eauto].
  - apply H.
  - apply H.
  - apply H.
  - apply H.
  - intros q j. unfold alloc_state. psimpl. rewrite lookup_insert. case_decide as D; [|apply H].
    subst q. intros [= <-]. psimpl. lia.
Qed.

Lemma space_alloc s l R x kp pd g p i : space s (p :: l) R x kp pd g → pages s !! p = Some i →
  space (alloc_state false p (pp_link i) s) l R x kp pd g.
Proof.
  intros H Hi. pose proof H as [Hvs Hpd Hown Hpte Hpde Hview Hkept].
  split; try assumption.
  eapply vspace_step; [exact Hvs|apply vm_alloc; [apply Hvs|exact Hi]|reflexivity|reflexivity| |reflexivity|reflexivity|auto].
  intros ? ? ? ? ? ?. reflexivity.
Qed.

Lemma data_page m m' R l q : data_same m m' R l → q ∉ l → q ∉ R → ¬ is_pt m R q →
  ∀ b, 0 ≤ b < PGSIZE → ld8 m' (q * PGSIZE + b) = ld8 m (q * PGSIZE + b).
Proof. intros D Hl HR Hpt. apply page_bytes. intros j Hj. apply D; auto. contradiction. Qed.

Lemma space_inserted s l R x kp pd g va p i s' l' : space s l R x kp pd g → user_va va → 0 ≤ p < npages s →
  pages s !! p = Some i → p ∉ l → p ∉ R → ¬ is_pt (phys s) R p → ¬ K p →
  (∀ pd' v, pd' ∈ R → 0 ≤ v < UVPN → page_of (phys s) pd' v ≠ Some p) →
  inserted s l R x pd (va / PGSIZE) p (user_pte p) s' l' →
  space s' l' R x kp pd (λ a, if decide (a / PGSIZE = va / PGSIZE) then Some (ld8 (phys s) (p * PGSIZE + a mod PGSIZE)) else g a).
Proof.
  intros H Hva Hb Hi Hl HR Hpt HK Hfresh I. destruct (user_va_page va Hva) as [Hv _].
  pose proof (vm_npages _ _ _ _ (vs_vm _ _ _ _ _ _ (sp_vs _ _ _ _ _ _ _ H))) as Hn.
  assert (frame_of (user_pte p) = p) as Ef by (apply frame_of_page; [lia|split; [discriminate|reflexivity]]).
  destruct (vspace_inserted K _ _ _ _ _ _ _ _ _ _ _ (sp_vs _ _ _ _ _ _ _ H) I Ef HK) as [Hvs Hkept].
  assert (∀ pd' v, pd' ∈ R → 0 ≤ v < UVPN → page_of (phys s') pd' v
    = if decide (pd' = pd ∧ v = va / PGSIZE) then Some p else page_of (phys s) pd' v) as Hpg.
  { intros pd' v Hpd' Hv'. unfold page_of. rewrite (in_pte _ _ _ _ _ _ _ _ _ _ I) by assumption.
    case_decide; [|reflexivity]. cbn. rewrite Ef. reflexivity. }
  pose proof H as [Hvs0 Hpd Hown Hpte Hpde Hview Hk0]. split.
  - exact Hvs.
  - exact Hpd.
  - intros pd' v v' q Hpd' Hv1 Hv2. rewrite !Hpg by assumption.
    case_decide as D1; case_decide as D2; intros E1 E2.
    + destruct D1 as [_ ->], D2 as [-> ->]. auto.
    + injection E1 as <-. destruct (Hfresh _ _ Hpd' Hv2 E2).
    + injection E2 as <-. destruct (Hfresh _ _ Hpd Hv1 E1).
    + eapply Hown; eassumption.
  - intros v e Hv1. rewrite (in_pte _ _ _ _ _ _ _ _ _ _ I) by assumption. case_decide; [|apply Hpte; assumption].
    intros [= <-]. rewrite Ef. reflexivity.
  - intros i' t Hi' Et. destruct (in_pde _ _ _ _ _ _ _ _ _ _ I pd i' Hpd Hi') as [E|(_ & _ & _ & t' & Ht' & E)].
    + rewrite E. apply Hpde; [exact Hi'|]. revert Et. unfold pt_of. rewrite E. auto.
    + revert Et. unfold pt_of. rewrite E. destruct (pde_for_ok t') as (_ & Hp & Hf); [lia|]. cbv zeta. rewrite Hp, Hf.
      intros [= <-]. reflexivity.
  - intros a Ha. destruct (user_va_page a Ha) as [Hva' Hma]. unfold ubyte. rewrite Hpg by assumption. case_decide as D.
    + destruct D as [_ D]. rewrite decide_True by exact D. cbn. f_equal.
      apply (data_page _ _ R l); [apply I|assumption..].
    + rewrite decide_False by tauto. rewrite <- Hview by exact Ha. unfold ubyte.
      destruct (page_of (phys s) pd (a / PGSIZE)) as [q|] eqn:Eq; [|reflexivity]. cbn. f_equal.
      destruct (space_frame _ _ _ _ _ _ _ _ _ H Hva' Eq) as (_ & _ & HR' & Hpt' & Hl' & _).
      apply (data_page _ _ R l); [apply I|assumption..].
  - etransitivity; [exact Hk0|exact Hkept].
Qed.

Lemma map_fresh cur s p l R x kp pd g va : space s (p :: l) R x kp pd g → user_va va → l ≠ [] →
  ∃ s1 s' l', page_alloc 0 s = Ret (Some p) s1 ∧
    page_insert cur (kva_of pd) p va (Z.lor PTE_W PTE_U) s1 = Ret 0 s' ∧
    space s' l' R x kp pd (λ a, if decide (a / PGSIZE = va / PGSIZE) then Some (ld8 (phys s) (p * PGSIZE + a mod PGSIZE)) else g a) ∧
    cr3 s' = cr3 s ∧ npages s' = npages s ∧ (length l ≤ S (length l'))%nat.
Proof.
  intros H Hva Hl. pose proof (vs_vm _ _ _ _ _ _ (sp_vs _ _ _ _ _ _ _ H)) as Hvm.
  destruct (page_alloc_some 0 s p l (vm_pages _ _ _ _ Hvm)) as (h & Hh & E).
  destruct (vm_free_unused _ _ _ _ p Hvm (list_elem_of_here _ _)) as (HR & Hpt & Hmap).
  assert (p ∉ l) as Hpl by (pose proof (page_inv_NoDup _ _ (vm_pages _ _ _ _ Hvm)) as Hnd; apply NoDup_cons in Hnd; apply Hnd).
  assert (¬ K p) as HK by (intros F; destruct (kern_not_free K _ _ _ _ _ _ (sp_vs _ _ _ _ _ _ _ H) F (list_elem_of_here _ _))).
  pose proof (space_alloc _ _ _ _ _ _ _ _ _ H Hh) as H1. change (ctrue (Z.land 0 ALLOC_ZERO)) with false in E.
  set (s1 := alloc_state false p (pp_link h) s) in *.
  pose proof (page_inv_free_bound _ _ p (vm_pages _ _ _ _ Hvm) (list_elem_of_here _ _)) as Hb.
  assert (pages s1 !! p = Some (MkPageInfo None 0)) as Hp1 by apply lookup_insert_eq.
  destruct (insert_run cur s1 l R x pd p va (Z.lor PTE_W PTE_U) _ (vs_vm _ _ _ _ _ _ (sp_vs _ _ _ _ _ _ _ H1))
    (sp_pd _ _ _ _ _ _ _ H) Hva Hp1 Hpl HR Hpt) as [(_ & F & _)|(s' & l' & E' & I)];
    [reflexivity|split; [discriminate|reflexivity]|contradiction|].
  exists s1, s', l'. split; [exact E|]. split; [exact E'|]. split; [|split; [|split]].
  - exact (space_inserted s1 l R x kp pd g va p _ s' l' H1 Hva Hb Hp1 Hpl HR Hpt HK Hmap I).
  - apply (in_kern _ _ _ _ _ _ _ _ _ _ I).
  - apply (in_npages _ _ _ _ _ _ _ _ _ _ I).
  - apply (in_len _ _ _ _ _ _ _ _ _ _ I).
Qed.

(** ** region_alloc *)

(** The pages [v1] to [v2] are mapped to something, the others are as before. *)
Definition grown g g' (v1 v2 : Z) : Prop := ∀ a, user_va a →
  if decide (v1 ≤ a / PGSIZE < v2) then is_Some (g' a) else g' a = g a.

Lemma region_loop_run fuel : ∀ s l R x kp pd g v1 v2 k, space s l R x kp pd g → 0 ≤ v1 ≤ v2 → v2 ≤ UVPN →
  v2 - v1 ≤ Z.of_nat fuel → 2 * (v2 - v1) ≤ Z.of_nat (length l) →
  ∃ s' l' g', region_alloc_loop fuel (kva_of pd) (v1 * PGSIZE) (v2 * PGSIZE) (set_kpm s k) = Ret tt (set_kpm s' k) ∧
    space s' l' R x kp pd g' ∧ grown g g' v1 v2 ∧ cr3 s' = cr3 s ∧ npages s' = npages s ∧
    Z.of_nat (length l) ≤ 2 * (v2 - v1) + Z.of_nat (length l').
Proof.
  induction fuel as [|fuel IH]; intros s l R x kp pd g v1 v2 k H Hv Hu Hf Hl; cbn [region_alloc_loop].
  1: replace v2 with v1 by lia.
  2: destruct (Z.eq_dec v1 v2) as [->|Hne].
  1,2: rewrite Z.ltb_irrefl; exists s, l, g; split; [reflexivity|]; split; [exact H|]; split; [|split; [|split]]; try reflexivity; try lia;
    intros a _; rewrite decide_False by lia; reflexivity.
  assert (UVPN * PGSIZE = UTOP) as Eu by reflexivity.
  destruct (Z.ltb_spec (v1 * PGSIZE) (v2 * PGSIZE)) as [_|F]; [|unfold PGSIZE in F; lia].
  destruct l as [|p l]; [cbn [length] in Hl; lia|]. cbn [length] in Hl.
  assert (user_va (v1 * PGSIZE)) as Hva by (unfold user_va, PGSIZE in *; lia).
  destruct (map_fresh (cur_pgdir (set_kpm s k)) s p l R x kp pd g (v1 * PGSIZE) H Hva) as (s1 & s2 & l2 & E1 & E2 & H2 & Hc2 & Hn2 & Hl2);
    [intros ->; cbn [length] in Hl; lia|].
  rewrite (bind_Ret _ _ _ _ _ (inpm_Ret _ (set_kpm s k) _ _ E1)), set_kpm_set_kpm.
  erewrite bind_Ret by (apply inpm_cur_Ret; exact E2). rewrite set_kpm_set_kpm.
  rewrite w32_id by (pose proof (user_va_u32 _ Hva); assert (UTOP < 2 ^ 32) by reflexivity; unfold u32_range, PGSIZE in *; lia).
  replace (v1 * PGSIZE + PGSIZE) with ((v1 + 1) * PGSIZE) by lia.
  destruct (IH s2 l2 R x kp pd _ (v1 + 1) v2 k H2) as (s' & l' & g' & E & H' & Hg & Hc & Hn & Hl'); try lia.
  exists s', l', g'. split; [exact E|]. split; [exact H'|]. split; [|split; [congruence|split; [congruence|cbn [length]; lia]]].
  intros a Ha. specialize (Hg a Ha). cbn beta in Hg. rewrite Z.div_mul in Hg by discriminate.
  destruct (decide (a / PGSIZE = v1)) as [Da|Da].
  - rewrite decide_False in Hg by lia. rewrite decide_True by lia. eauto.
  - destruct (decide (v1 + 1 ≤ a / PGSIZE < v2)); [rewrite decide_True by lia|rewrite decide_False by lia]; exact Hg.
Qed.

(** The pages of [len] bytes at [va]. *)
Definition page_lo (va : Z) : Z := va / PGSIZE.
Definition page_hi (va len : Z) : Z := (va + len + PGSIZE - 1) / PGSIZE.
Definition page_num (va len : Z) : Z := page_hi va len - page_lo va.

Lemma page_bounds va len : 0 ≤ va → 0 ≤ len → va + len ≤ UTOP →
  0 ≤ page_lo va ≤ page_hi va len ∧ page_hi va len ≤ UVPN ∧ va + len < 2 ^ 32 - PGSIZE ∧
  (∀ a, va ≤ a < va + len → page_lo va ≤ a / PGSIZE < page_hi va len).
Proof using. clear K.
  intros Hva Hlen Hu. unfold page_lo, page_hi, PGSIZE. change UTOP with (UVPN * 4096) in Hu. unfold UVPN, UPDX in *.
  repeat split; intros; Z.div_mod_to_equations; lia.
Qed.

Lemma region_alloc_run s l R x kp pd g k i e va len : space s l R x kp pd g → envs k !! i = Some e → env_pgdir e = kva_of pd →
  0 ≤ va → 0 ≤ len → va + len ≤ UTOP → 2 * page_num va len ≤ Z.of_nat (length l) →
  ∃ s' l' g', region_alloc i va len (set_kpm s k) = Ret tt (set_kpm s' k) ∧
    space s' l' R x kp pd g' ∧ grown g g' (page_lo va) (page_hi va len) ∧ cr3 s' = cr3 s ∧ npages s' = npages s ∧
    Z.of_nat (length l) ≤ 2 * page_num va len + Z.of_nat (length l').
Proof.
  intros H He Hp Hva Hlen Hu Hl. destruct (page_bounds va len Hva Hlen Hu) as (Hb & Hh & Hm & _).
  unfold region_alloc. rewrite (bind_Ret _ _ _ _ _ (env_get_eq (set_kpm s k) i e He)), Hp.
  remember (Z.to_nat 0x100000) as fuel eqn:Ef.
  assert (UVPN ≤ Z.of_nat fuel) by (rewrite Ef, Z2Nat.id by discriminate; discriminate). clear Ef.
  rewrite w32_id, ROUNDDOWN_page, ROUNDUP_page by (unfold u32_range, PGSIZE in *; lia).
  apply region_loop_run; try assumption. lia.
Qed.

(** ** load_icode *)

Definition kword (a : Z) : Z := ld32 m0 (a - KERNBASE).
Definition khalf (a : Z) : Z := ld16 m0 (a - KERNBASE).

Lemma vld16_kernel s l R x kp pd g a : space s l R x kp pd g → kernel_at a 2 → vld16 a s = Ret (khalf a) s.
Proof.
  intros H Ha. pose proof Ha as (Hk & _). unfold vld16, khalf, ld16.
  rewrite (bind_Ret _ _ _ _ _ (vld8_kernel s a Hk)), (bind_Ret _ _ _ _ _ (vld8_kernel s (a + 1) ltac:(lia))).
  rewrite !(space_kbyte _ _ _ _ _ _ _ a 2 _ H Ha) by lia. unfold kbyte.
  replace (a + 1 - KERNBASE) with (a - KERNBASE + 1) by lia. reflexivity.
Qed.

Lemma vld32_kernel s l R x kp pd g a : space s l R x kp pd g → kernel_at a 4 → vld32 a s = Ret (kword a) s.
Proof.
  intros H Ha. unfold vld32, kword, ld32.
  rewrite (bind_Ret _ _ _ _ _ (vld16_kernel _ _ _ _ _ _ _ a H (kernel_at_sub a 4 a 2 Ha ltac:(lia) ltac:(lia) ltac:(lia)))).
  rewrite (bind_Ret _ _ _ _ _ (vld16_kernel _ _ _ _ _ _ _ (a + 2) H (kernel_at_sub a 4 (a + 2) 2 Ha ltac:(lia) ltac:(lia) ltac:(lia)))).
  unfold khalf. replace (a + 2 - KERNBASE) with (a - KERNBASE + 2) by lia. reflexivity.
Qed.

(** A program header. *)
Record pseg := MkPseg { ps_type : Z; ps_off : Z; ps_va : Z; ps_filesz : Z; ps_memsz : Z }.
Definition pseg_at (ph : Z) : pseg := MkPseg (kword ph) (kword (ph + 4)) (kword (ph + 8)) (kword (ph + 16)) (kword (ph + 20)).
Fixpoint psegs (n : nat) (ph : Z) : list pseg :=
  match n with O => [] | S n => pseg_at ph :: psegs n (ph + sizeof_Proghdr) end.

(** A segment that can be loaded from the image at [binary]. *)
Definition seg_fits (binary : Z) (sg : pseg) : Prop :=
  ps_filesz sg ≤ ps_memsz sg ∧
  (ps_type sg = ELF_PROG_LOAD →
   ps_va sg + ps_memsz sg ≤ UTOP ∧ kernel_at (binary + ps_off sg) (ps_filesz sg) ∧ binary + ps_off sg < 2 ^ 32).
Definition seg_pages (sg : pseg) : Z := if decide (ps_type sg = ELF_PROG_LOAD) then page_num (ps_va sg) (ps_memsz sg) else 0.

(** What loading it does to the program's memory: the bytes of the file, then
    zeros; the rest of its pages is whatever was there. *)
Definition seg_loaded (binary : Z) (sg : pseg) g g' : Prop := ∀ a, user_va a →
  if decide (ps_type sg = ELF_PROG_LOAD ∧ page_lo (ps_va sg) ≤ a / PGSIZE < page_hi (ps_va sg) (ps_memsz sg))
  then is_Some (g' a) ∧
    (ps_va sg ≤ a < ps_va sg + ps_memsz sg →
     g' a = Some (if decide (a < ps_va sg + ps_filesz sg) then kbyte (binary + ps_off sg + (a - ps_va sg)) else 0))
  else g' a = g a.

Lemma pseg_ranges ph : 0 ≤ ps_va (pseg_at ph) ∧ 0 ≤ ps_off (pseg_at ph) ∧ 0 ≤ ps_filesz (pseg_at ph) ∧ 0 ≤ ps_memsz (pseg_at ph).
Proof using. cbn. repeat split; apply ld32_range. Qed.

(** The pages of a segment are cleared and filled. *)
Definition filled (va filesz memsz src : Z) g : Z → option Z := λ a,
  if decide (va ≤ a < va + memsz) then Some (if decide (a < va + filesz) then kbyte (src + (a - va)) else 0) else g a.

Lemma fill_run s l R x kp pd g va filesz memsz src : space s l R x kp pd g → cr3 s = pd * PGSIZE →
  0 ≤ va → 0 ≤ filesz ≤ memsz → va + memsz ≤ UTOP → (∀ a, va ≤ a < va + memsz → is_Some (g a)) → kernel_at src filesz →
  ∃ s1 g1 s2, vmemset (Z.to_nat memsz) va 0 s = Ret tt s1 ∧ space s1 l R x kp pd g1 ∧
    vmemcpy (Z.to_nat filesz) va src s1 = Ret tt s2 ∧ space s2 l R x kp pd (filled va filesz memsz src g) ∧
    cr3 s2 = cr3 s ∧ npages s2 = npages s.
Proof.
  intros H Hcr Hva Hsz Hu Hg Hk.
  destruct (vmemset_run (Z.to_nat memsz) s l R x kp pd g va 0 H) as (s1 & E1 & H1 & Hc1 & Hn1);
    [exact Hcr|exact Hva|lia|intros a Ha; apply Hg; lia|].
  rewrite Z2Nat.id in H1 by lia.
  destruct (vmemcpy_run (Z.to_nat filesz) s1 l R x kp pd _ va src H1) as (s2 & E2 & H2 & Hc2 & Hn2);
    [congruence|exact Hva|lia| |rewrite Z2Nat.id by lia; exact Hk|].
  { intros a Ha. cbn beta. case_decide; [eauto|]. apply Hg. lia. }
  rewrite Z2Nat.id in H2 by lia. eexists s1, _, s2. split; [exact E1|]. split; [exact H1|]. split; [exact E2|].
  split; [|split; congruence]. eapply space_ext; [|exact H2]. intros a _. unfold filled. cbn beta.
  repeat case_decide; try reflexivity; lia.
Qed.

Lemma seg_loaded_filled binary sg g g1 : ps_type sg = ELF_PROG_LOAD → 0 ≤ ps_va sg → 0 ≤ ps_memsz sg → ps_va sg + ps_memsz sg ≤ UTOP →
  grown g g1 (page_lo (ps_va sg)) (page_hi (ps_va sg) (ps_memsz sg)) →
  seg_loaded binary sg g (filled (ps_va sg) (ps_filesz sg) (ps_memsz sg) (binary + ps_off sg) g1).
Proof.
  intros Ht Hva Hms Hu Hg a Ha. specialize (Hg a Ha). destruct (page_bounds _ _ Hva Hms Hu) as (_ & _ & _ & Hin).
  unfold filled. destruct (decide (ps_va sg ≤ a < ps_va sg + ps_memsz sg)) as [D|D].
  - rewrite decide_True by auto. split; [eauto|reflexivity].
  - destruct (decide (page_lo (ps_va sg) ≤ a / PGSIZE < page_hi (ps_va sg) (ps_memsz sg))) as [D'|D'].
    + rewrite decide_True by auto. split; [exact Hg|tauto].
    + rewrite decide_False by tauto. exact Hg.
Qed.

Lemma load_segment_run s l R x kp pd g k i e binary ph : space s l R x kp pd g → cr3 s = pd * PGSIZE →
  envs k !! i = Some e → env_pgdir e = kva_of pd → kernel_at ph sizeof_Proghdr → KERNBASE ≤ binary →
  let sg := pseg_at ph in seg_fits binary sg → 2 * seg_pages sg ≤ Z.of_nat (length l) →
  ∃ s' l' g', load_segment i binary ph (set_kpm s k) = Ret tt (set_kpm s' k) ∧
    space s' l' R x kp pd g' ∧ seg_loaded binary sg g g' ∧ cr3 s' = cr3 s ∧ npages s' = npages s ∧
    Z.of_nat (length l) ≤ 2 * seg_pages sg + Z.of_nat (length l').
Proof.
  intros H Hcr He Hp Hph Hbin sg [Hsz Hfit] Hl. destruct (pseg_ranges ph) as (Hva & Hoff & Hfs & Hms). fold sg in Hva, Hoff, Hfs, Hms.
  assert (∀ o s l g, space s l R x kp pd g → 0 ≤ o ≤ 28 → inpm (vld32 (ph + o)) (set_kpm s k) = Ret (kword (ph + o)) (set_kpm s k)) as Rd.
  { intros o s1 l1 g1 H1 Ho. erewrite inpm_Ret; [|apply (vld32_kernel s1 l1 R x kp pd g1); [exact H1|]].
    - rewrite set_kpm_set_kpm. reflexivity.
    - apply (kernel_at_sub ph sizeof_Proghdr); [exact Hph|unfold sizeof_Proghdr; lia..]. }
  unfold load_segment, p_filesz, p_memsz. rewrite (bind_Ret _ _ _ _ _ (Rd 16 _ _ _ H ltac:(lia))), (bind_Ret _ _ _ _ _ (Rd 20 _ _ _ H ltac:(lia))).
  change (kword (ph + 16)) with (ps_filesz sg). change (kword (ph + 20)) with (ps_memsz sg). rewrite Z.gtb_ltb.
  rewrite (proj2 (Z.ltb_ge _ _) Hsz). unfold p_type.
  pose proof (Rd 0 _ _ _ H ltac:(lia)) as R0. rewrite Z.add_0_r in R0. rewrite (bind_Ret _ _ _ _ _ R0). change (kword ph) with (ps_type sg).
  unfold seg_pages in *.
  destruct (Z.eqb_spec (ps_type sg) ELF_PROG_LOAD) as [Ht|Ht]; cbn [when].
  2: { exists s, l, g. split; [reflexivity|]. split; [exact H|]. split; [|rewrite decide_False by exact Ht; split; [|split]; reflexivity || lia].
       intros a _. rewrite decide_False by tauto. reflexivity. }
  destruct (Hfit Ht) as (Hu & Hk & Hw). rewrite decide_True in * by exact Ht.
  destruct (page_bounds (ps_va sg) (ps_memsz sg) Hva Hms Hu) as (_ & _ & _ & Hin).
  unfold p_va. rewrite (bind_Ret _ _ _ _ _ (Rd 8 _ _ _ H ltac:(lia))). change (kword (ph + 8)) with (ps_va sg).
  destruct (region_alloc_run s l R x kp pd g k i e _ _ H He Hp Hva Hms Hu Hl) as (s1 & l1 & g1 & E1 & H1 & Hg1 & Hc1 & Hn1 & Hl1).
  rewrite (bind_Ret _ _ _ _ _ E1).
  destruct (fill_run s1 l1 R x kp pd g1 (ps_va sg) (ps_filesz sg) (ps_memsz sg) (binary + ps_off sg) H1)
    as (s2 & g2 & s3 & E2 & H2 & E3 & H3 & Hc3 & Hn3); try assumption; try congruence; try lia.
  { intros a Ha. specialize (Hg1 a ltac:(unfold user_va; lia)). rewrite decide_True in Hg1 by auto. exact Hg1. }
  rewrite (bind_Ret _ _ _ _ _ (inpm_Ret _ (set_kpm s1 k) _ _ E2)), set_kpm_set_kpm.
  unfold p_offset. rewrite (bind_Ret _ _ _ _ _ (Rd 4 _ _ _ H2 ltac:(lia))). change (kword (ph + 4)) with (ps_off sg).
  rewrite w32_id by (unfold u32_range; assert (0 ≤ KERNBASE) by discriminate; lia).
  eexists s3, l1, _. split; [erewrite inpm_Ret by exact E3; rewrite set_kpm_set_kpm; reflexivity|]. split; [exact H3|].
  split; [apply seg_loaded_filled; assumption|split; [congruence|split; [congruence|exact Hl1]]].
Qed.

(** All segments in order. *)
Fixpoint segs_loaded (binary : Z) (segs : list pseg) g g' : Prop :=
  match segs with
  | [] => ∀ a, user_va a → g' a = g a
  | sg :: segs => ∃ g1, seg_loaded binary sg g g1 ∧ segs_loaded binary segs g1 g'
  end.
Definition segs_pages (segs : list pseg) : Z := foldr (λ sg n, seg_pages sg + n) 0 segs.

Lemma seg_pages_nonneg ph : 0 ≤ seg_pages (pseg_at ph).
Proof using. clear K.
  destruct (pseg_ranges ph) as (Hva & _ & _ & Hms). unfold seg_pages. case_decide; [|lia]. unfold page_num, page_hi, page_lo, PGSIZE.
  Z.div_mod_to_equations. lia.
Qed.
Lemma segs_pages_nonneg n ph : 0 ≤ segs_pages (psegs n ph).
Proof using. clear K. revert ph. induction n as [|n IH]; intros ph; cbn [psegs segs_pages foldr]; [lia|]. pose proof (seg_pages_nonneg ph). specialize (IH (ph + sizeof_Proghdr)). unfold segs_pages in IH. lia. Qed.

Lemma load_segments_run n : ∀ s l R x kp pd g k i e binary ph, space s l R x kp pd g → cr3 s = pd * PGSIZE →
  envs k !! i = Some e → env_pgdir e = kva_of pd → kernel_at ph (sizeof_Proghdr * Z.of_nat n) → KERNBASE ≤ binary →
  Forall (seg_fits binary) (psegs n ph) → 2 * segs_pages (psegs n ph) ≤ Z.of_nat (length l) →
  ∃ s' l' g', for_range n ph sizeof_Proghdr (load_segment i binary) (set_kpm s k) = Ret tt (set_kpm s' k) ∧
    space s' l' R x kp pd g' ∧ segs_loaded binary (psegs n ph) g g' ∧ cr3 s' = cr3 s ∧ npages s' = npages s ∧
    Z.of_nat (length l) ≤ 2 * segs_pages (psegs n ph) + Z.of_nat (length l').
Proof.
  induction n as [|n IH]; intros s l R x kp pd g k i e binary ph H Hcr He Hp Hph Hbin Hfit Hl; cbn [for_range psegs segs_pages foldr segs_loaded] in *.
  { exists s, l, g. split; [reflexivity|]. split; [exact H|]. split; [auto|]. split; [|split]; reflexivity || lia. }
  apply Forall_cons in Hfit as [Hfit1 Hfit]. pose proof (segs_pages_nonneg n (ph + sizeof_Proghdr)) as Hnn. unfold segs_pages in Hnn.
  unfold sizeof_Proghdr in Hph.
  destruct (load_segment_run s l R x kp pd g k i e binary ph H Hcr He Hp) as (s1 & l1 & g1 & E1 & H1 & Hg1 & Hc1 & Hn1 & Hl1);
    [apply (kernel_at_sub ph (32 * Z.of_nat (S n))); [exact Hph|unfold sizeof_Proghdr; lia..]|exact Hbin|exact Hfit1|lia|].
  destruct (IH s1 l1 R x kp pd g1 k i e binary (ph + sizeof_Proghdr) H1) as (s' & l' & g' & E & H' & Hg & Hc & Hn & Hl');
    try assumption; try congruence; [|unfold segs_pages; lia|].
  { apply (kernel_at_sub ph (32 * Z.of_nat (S n))); [exact Hph|unfold sizeof_Proghdr; lia..]. }
  exists s', l', g'. rewrite (bind_Ret _ _ _ _ _ E1). split; [exact E|]. split; [exact H'|]. split; [eauto|].
  unfold segs_pages in Hl'. split; [congruence|]. split; [congruence|lia].
Qed.

Lemma vspace_cr3 s l R x kp a : vspace K s l R x kp → vspace K (with_cr3 a s) l R x kp.
Proof. intros []. split; try assumption. eapply vm_inv_ext; [eassumption|reflexivity..]. Qed.

Lemma space_cr3 s l R x kp pd g a : space s l R x kp pd g → space (with_cr3 a s) l R x kp pd g.
Proof. intros []. split; try assumption. apply vspace_cr3. assumption. Qed.

(** A program image in kernel memory, with [n] program headers. *)
Record elf_image (binary : Z) (n : nat) : Prop := {
  ei_header : kernel_at binary 52;
  ei_magic : kword binary = ELF_MAGIC;
  ei_phnum : khalf (binary + 44) = Z.of_nat n;
  ei_phdrs : kernel_at (binary + kword (binary + 28)) (sizeof_Proghdr * Z.of_nat n);
  ei_phoff : binary + kword (binary + 28) < 2 ^ 32;
  ei_segs : Forall (seg_fits binary) (psegs n (binary + kword (binary + 28)))
}.
Definition image_segs (binary : Z) (n : nat) : list pseg := psegs n (binary + kword (binary + 28)).

(** The memory of a program that has been loaded: its segments, and a page of
    stack. *)
Definition image_loaded (binary : Z) (n : nat) g g' : Prop :=
  ∃ g1, segs_loaded binary (image_segs binary n) g g1 ∧ grown g1 g' (USTACKTOP / PGSIZE - 1) (USTACKTOP / PGSIZE).

Lemma load_icode_run s l R x kp pd g k i e binary n : space s l R x kp pd g → envs k !! i = Some e → env_pgdir e = kva_of pd →
  elf_image binary n → 2 * segs_pages (image_segs binary n) + 2 ≤ Z.of_nat (length l) →
  ∃ s' l' g', load_icode i binary (set_kpm s k)
      = Ret tt (set_envs (<[i := set_env_tf (set_tf_eip (kword (binary + 24)) (env_tf e)) e]> (envs k)) (set_kpm s' k)) ∧
    space s' l' R x kp pd g' ∧ image_loaded binary n g g' ∧ cr3 s' = kern_pgdir s' - KERNBASE ∧
    Z.of_nat (length l) ≤ 2 * segs_pages (image_segs binary n) + 2 + Z.of_nat (length l').
Proof.
  intros H He Hp [Hh Hmag Hnum Hph Hw Hsegs] Hl.
  assert (∀ o s l g, space s l R x kp pd g → 0 ≤ o ≤ 48 → inpm (vld32 (binary + o)) (set_kpm s k) = Ret (kword (binary + o)) (set_kpm s k)) as Rd.
  { intros o s1 l1 g1 H1 Ho. erewrite inpm_Ret; [|apply (vld32_kernel s1 l1 R x kp pd g1); [exact H1|apply (kernel_at_sub binary 52); [exact Hh|lia..]]].
    rewrite set_kpm_set_kpm. reflexivity. }
  pose proof (vm_root_used _ _ _ _ _ (vs_vm _ _ _ _ _ _ (sp_vs _ _ _ _ _ _ _ H)) (sp_pd _ _ _ _ _ _ _ H)) as [Hpd _].
  pose proof (vm_npages _ _ _ _ (vs_vm _ _ _ _ _ _ (sp_vs _ _ _ _ _ _ _ H))) as Hnp.
  destruct (vs_kp _ _ _ _ _ _ (sp_vs _ _ _ _ _ _ _ H)) as [Ekp Kkp].
  destruct (vs_kern _ _ _ _ _ _ (sp_vs _ _ _ _ _ _ _ H) kp Kkp) as (Hkb & _).
  pose proof (Rd 0 _ _ _ H ltac:(lia)) as R0. rewrite Z.add_0_r in R0.
  unfold load_icode, e_magic. rewrite (bind_Ret _ _ _ _ _ R0), Hmag, Z.eqb_refl. cbn [negb].
  unfold e_phoff. rewrite (bind_Ret _ _ _ _ _ (Rd 28 _ _ _ H ltac:(lia))).
  unfold e_phnum. erewrite bind_Ret
    by (apply inpm_Ret; apply (vld16_kernel s l R x kp pd g); [exact H|apply (kernel_at_sub binary 52); [exact Hh|lia..]]).
  rewrite set_kpm_set_kpm, Hnum, Nat2Z.id.
  rewrite (bind_Ret _ _ _ _ _ (env_get_eq (set_kpm s k) i e He)), Hp.
  erewrite bind_Ret by (apply inpm_Ret, PADDR_kva; lia). rewrite set_kpm_set_kpm.
  unfold lcr3 at 1. erewrite bind_Ret by (apply inpm_Ret; reflexivity). rewrite set_kpm_set_kpm.
  pose proof (proj1 (kernel_at_sub _ _ _ 0 Hh (Z.le_refl _) (Z.le_refl _) ltac:(lia))) as Hbin.
  rewrite w32_id by (pose proof (ld32_range m0 (binary + 28 - KERNBASE)); unfold u32_range, kword in *; assert (0 ≤ KERNBASE) by discriminate; lia).
  destruct (load_segments_run n (with_cr3 (pd * PGSIZE) s) l R x kp pd g k i e binary (binary + kword (binary + 28)))
    as (s1 & l1 & g1 & E1 & H1 & Hg1 & Hc1 & Hn1 & Hl1); try assumption; [apply space_cr3; exact H|reflexivity|unfold image_segs in *; lia|].
  rewrite (bind_Ret _ _ _ _ _ E1), bind_gets.
  destruct (vs_kp _ _ _ _ _ _ (sp_vs _ _ _ _ _ _ _ H1)) as [Ekp1 _]. ksimpl. rewrite Ekp1.
  erewrite bind_Ret by (apply inpm_Ret, PADDR_kva; lia). rewrite set_kpm_set_kpm.
  unfold lcr3. erewrite bind_Ret by (apply inpm_Ret; reflexivity). rewrite set_kpm_set_kpm.
  pose proof (space_cr3 _ _ _ _ _ _ _ (kp * PGSIZE) H1) as H2. ksimpl. set (s2 := with_cr3 _ s1) in *.
  unfold e_entry. rewrite (bind_Ret _ _ _ _ _ (Rd 24 _ _ _ H2 ltac:(lia))).
  rewrite (bind_Ret _ _ _ _ _ (env_upd_eq (set_kpm s2 k) i e _ He)). ksimpl. rewrite set_envs_set_kpm.
  set (e' := set_env_tf _ e). set (k' := set_envs _ k).
  destruct (region_alloc_run s2 l1 R x kp pd g1 k' i e' (USTACKTOP - PGSIZE) PGSIZE H2) as (s3 & l3 & g3 & E3 & H3 & Hg3 & Hc3 & Hn3 & Hl3);
    try discriminate; [apply lookup_insert_eq|exact Hp| |].
  { change (page_num (USTACKTOP - PGSIZE) PGSIZE) with 1. unfold image_segs in *. lia. }
  change (page_num (USTACKTOP - PGSIZE) PGSIZE) with 1 in Hl3.
  exists s3, l3, g3. split; [exact E3|]. split; [exact H3|]. split; [exists g1; split; [exact Hg1|exact Hg3]|]. split.
  - rewrite Hc3. destruct (vs_kp _ _ _ _ _ _ (sp_vs _ _ _ _ _ _ _ H3)) as [-> _]. cbn. unfold kva_of. lia.
  - unfold image_segs in *. lia.
Qed.

(** ** What is in the program's memory *)

Definition seg_covers (sg : pseg) (a : Z) : Prop :=
  ps_type sg = ELF_PROG_LOAD ∧ page_lo (ps_va sg) ≤ a / PGSIZE < page_hi (ps_va sg) (ps_memsz sg).

Lemma seg_loaded_out binary sg g g' a : seg_loaded binary sg g g' → user_va a → ¬ seg_covers sg a → g' a = g a.
Proof. intros H Ha Hc. specialize (H a Ha). rewrite decide_False in H by exact Hc. exact H. Qed.

Lemma segs_loaded_out binary segs : ∀ g g' a, segs_loaded binary segs g g' → user_va a → (∀ sg, sg ∈ segs → ¬ seg_covers sg a) → g' a = g a.
Proof.
  induction segs as [|sg segs IH]; intros g g' a H Ha Hc; [exact (H a Ha)|]. destruct H as (g1 & H1 & H).
  rewrite (IH g1 g' a H Ha) by (intros; apply Hc; right; assumption).
  apply (seg_loaded_out _ _ _ _ _ H1 Ha), Hc. left.
Qed.

(** The last segment on a page decides its bytes. *)
Lemma segs_loaded_at binary segs : ∀ g g' a j sg, segs_loaded binary segs g g' → user_va a → segs !! j = Some sg →
  ps_type sg = ELF_PROG_LOAD → ps_va sg ≤ a < ps_va sg + ps_memsz sg → page_lo (ps_va sg) ≤ a / PGSIZE < page_hi (ps_va sg) (ps_memsz sg) →
  (∀ j' sg', (j < j')%nat → segs !! j' = Some sg' → ¬ seg_covers sg' a) →
  g' a = Some (if decide (a < ps_va sg + ps_filesz sg) then kbyte (binary + ps_off sg + (a - ps_va sg)) else 0).
Proof.
  induction segs as [|sg0 segs IH]; intros g g' a j sg H Ha Hj Ht Hr Hp Hl; [discriminate|]. destruct H as (g1 & H1 & H).
  destruct j as [|j].
  - injection Hj as ->. rewrite (segs_loaded_out _ _ _ _ _ H Ha).
    + specialize (H1 a Ha). rewrite decide_True in H1 by auto. apply H1, Hr.
    + intros sg' Hs. apply list_elem_of_lookup in Hs as [j' Hj']. apply (Hl (S j')); [lia|exact Hj'].
  - apply (IH g1 g' a j sg H Ha Hj Ht Hr Hp). intros j' sg' Hlt Hj'. apply (Hl (S j')); [lia|exact Hj'].
Qed.

Lemma psegs_at n ph : ∀ j sg, psegs n ph !! j = Some sg → ∃ ph', sg = pseg_at ph'.
Proof using. revert ph. induction n as [|n IH]; intros ph [|j] sg H; try discriminate; [injection H as <-; eauto|apply (IH _ _ _ H)]. Qed.

Lemma psegs_fit binary n j sg : elf_image binary n → image_segs binary n !! j = Some sg →
  0 ≤ ps_va sg ∧ 0 ≤ ps_memsz sg ∧ (ps_type sg = ELF_PROG_LOAD →
    ps_va sg + ps_memsz sg ≤ UTOP ∧ kernel_at (binary + ps_off sg) (ps_filesz sg) ∧ binary + ps_off sg < 2 ^ 32).
Proof.
  intros H Hj. destruct (psegs_at _ _ _ _ Hj) as [ph ->]. destruct (pseg_ranges ph) as (H1 & _ & _ & H2).
  split; [exact H1|]. split; [exact H2|]. pose proof (ei_segs _ _ H) as Hf. rewrite Forall_lookup in Hf. apply (Hf j _ Hj).
Qed.

(** A new, empty address space. *)
Lemma space_new s l R x kp p h : phys s = m0 → vspace K s (p :: l) R x kp → pages s !! p = Some h →
  space (setup_pm p kp (pp_link h) s) l (p :: R) x kp p (λ _, None).
Proof.
  intros Hm H Hh. pose proof (vs_vm _ _ _ _ _ _ H) as Hvm. destruct (vs_kp _ _ _ _ _ _ H) as [Hk Kkp].
  destruct (vs_kern _ _ _ _ _ _ H kp Kkp) as (Hb & _). pose proof (kern_not_free K _ _ _ _ _ _ H Kkp) as Hkl.
  destruct (vspace_setup K _ _ _ _ _ p h H Hh) as [Hv' Hk'].
  destruct (setup_vm s l R x p kp h Hvm Hb Hkl (vs_low _ _ _ _ _ _ H) Hh) as (_ & Hempty & _).
  set (s' := setup_pm p kp (pp_link h) s) in *.
  assert (∀ i t, 0 ≤ i < UPDX → pt_of (phys s') p i ≠ Some t) as Hnt.
  { intros i t Hi. unfold pt_of, s'. 
    pose proof (page_inv_free_bound _ _ p (vm_pages _ _ _ _ Hvm) (list_elem_of_here _ _)) as Hp. pose proof (vm_npages _ _ _ _ Hvm).
    rewrite setup_wd by (try (intros ->; apply Hkl, list_elem_of_here); unfold UPDX in *; lia).
    rewrite decide_True, decide_False by (reflexivity || (change (PDX UVPT) with 957; unfold UPDX in *; lia)).
    pose proof (vs_low _ _ _ _ _ _ H i Hi) as E. unfold pt_of in E. cbv zeta in *. destruct (is_present _); discriminate. }
  split.
  - exact Hv'.
  - apply list_elem_of_here.
  - intros pd' v v' q _ Hv _ E. unfold page_of in E. rewrite Hempty in E by exact Hv. discriminate.
  - intros v e Hv E. rewrite Hempty in E by exact Hv. discriminate.
  - intros i t Hi E. destruct (Hnt i t Hi E).
  - intros a Ha. unfold ubyte, page_of. rewrite Hempty by apply (user_va_page a Ha). reflexivity.
  - rewrite <- Hm. exact Hk'.
Qed.
End space.

(** env_create with a free slot, a valid image in the kernel's memory and pages
    enough for it. *)
Lemma env_create_run (K : Z → Prop) (k : ks) (l R : list Z) (x : Z → Z) (kp i : Z) (fl : list Z)
    (binary type : Z) (n : nat) (c : CpuInfo) :
  let m0 := phys (kpm k) in let segs := image_segs m0 binary n in
  kspace K k l R x kp (i :: fl) → elf_image K m0 binary n → 2 * segs_pages segs + 3 ≤ Z.of_nat (length l) →
  cpus k !! cpunum k = Some c → (∀ j, cpu_env c = Some j → is_Some (envs k !! j)) →
  ∃ k' l' pd e g, env_create binary type k = Ret tt k' ∧
    (envs k' = <[i := e]> (envs k) ∧ env_status e = ENV_RUNNABLE ∧ env_parent_id e = 0 ∧ env_pgdir e = kva_of pd ∧
      env_tf e = set_tf_eip (kword m0 (binary + 24)) user_tf) ∧
    (kspace K k' l' (pd :: R) x kp fl ∧ pd ∉ R ∧ Z.of_nat (length l) ≤ 2 * segs_pages segs + 3 + Z.of_nat (length l')) ∧
    (cr3 (kpm k') = kern_pgdir (kpm k') - KERNBASE ∧ cpus k' = cpus k ∧ cpunum k' = cpunum k ∧ klock k' = klock k) ∧
    space K m0 (kpm k') l' (pd :: R) x kp pd g ∧ image_loaded m0 binary n (λ _, None) g.
Proof.
  intros m0 segs [Hv He] Him Hl Hc Hcur. pose proof (es_chain _ _ _ _ He) as Hch. inversion Hch as [|j e fl' Hi Hch' Eh Efl]; subst j fl'.
  destruct l as [|p l]; [cbn [length] in Hl; pose proof (segs_pages_nonneg m0 n (binary + kword m0 (binary + 28))); subst segs; unfold image_segs in Hl; lia|].
  cbn [length] in Hl. pose proof (vs_vm _ _ _ _ _ _ Hv) as Hvm.
  destruct (vs_kp _ _ _ _ _ _ Hv) as [Ekp HKp]. destruct (vs_kern _ _ _ _ _ _ Hv kp HKp) as (Hb & _).
  destruct (env_alloc_run k l R x i kp 0 p e c Hvm (eq_sym Eh) Hi Hc Hcur Ekp Hb) as (h & log & Hh & E).
  assert (0 ≤ i < NENV) as Hir by (apply (es_dom _ _ _ _ He); eauto).
  destruct (new_env_id 0 i p e Hir (es_id _ _ _ _ He _ _ Hi)) as (Hid & HX & _).
  destruct (vm_free_unused _ _ _ _ p Hvm (list_elem_of_here _ _)) as (HpR & _).
  set (k1 := set_klog log (set_env_free_list (env_link e) (set_envs (<[i := new_env 0 i p e]> (envs k)) k))).
  pose proof (space_new K m0 _ _ _ _ _ _ _ eq_refl Hv Hh) as Hs.
  destruct (load_icode_run K m0 _ _ _ _ _ _ _ k1 i (new_env 0 i p e) binary n Hs (lookup_insert_eq _ _ _) eq_refl Him)
    as (s' & l' & g' & E' & Hs' & (g1 & Hg1 & Hg') & Hcr & Hl'); [fold segs; lia|].
  eexists _, l', p, _, g'. split; [unfold env_create; rewrite (bind_Ret _ _ _ _ _ E); exact E'|].
  split; [|split; [|split; [auto|split; [exact Hs'|exists g1; auto]]]].
  - ksimpl. change (envs k1) with (<[i := new_env 0 i p e]> (envs k)). rewrite insert_insert_eq. split; [reflexivity|]. repeat split.
  - split; [|split; [exact HpR|cbn [length]; fold segs in Hl'; lia]]. split; [apply Hs'|].
    eapply espace_keeps; [| |apply keeps_tf].
    + change (env_free_list (set_envs _ _)) with (env_link e). rewrite <- Eh in He. eapply espace_alloc; try eassumption; try reflexivity; [discriminate|].
      apply (es_ipc _ _ _ _ He _ _ Hi).
    + apply lookup_insert_eq.
Qed.

(** * Properties *)

(** C9. [env_create], with a free slot, a valid image in the kernel's memory
    and pages enough for it, returns: the first free slot holds a new runnable
    environment that starts at the image's entry point in user mode; in its
    address space every byte of a segment is the byte of the file, or zero
    beyond the file's part, unless a later segment or the stack has a page in
    common with it; the stack page is mapped; no other user address is; and
    none of its pages is mapped anywhere else.  The invariant of the kernel
    holds again, with that environment and nothing else added. *)
Theorem env_create_loads (K : Z → Prop) (k : ks) (l R : list Z) (x : Z → Z) (kp i : Z) (fl : list Z)
    (binary type : Z) (n : nat) (c : CpuInfo) :
  let m0 := phys (kpm k) in let segs := image_segs m0 binary n in
  kspace K k l R x kp (i :: fl) → elf_image K m0 binary n → 2 * segs_pages segs + 3 ≤ Z.of_nat (length l) →
  cpus k !! cpunum k = Some c → (∀ j, cpu_env c = Some j → is_Some (envs k !! j)) →
  ∃ k' l' pd e, env_create binary type k = Ret tt k' ∧
    (envs k' = <[i := e]> (envs k) ∧ env_status e = ENV_RUNNABLE ∧ env_parent_id e = 0 ∧ env_pgdir e = kva_of pd ∧
      env_tf e = set_tf_eip (kword m0 (binary + 24)) user_tf) ∧
    (kspace K k' l' (pd :: R) x kp fl ∧ pd ∉ R ∧ kept K m0 (phys (kpm k')) ∧
      Z.of_nat (length l) ≤ 2 * segs_pages segs + 3 + Z.of_nat (length l')) ∧
    (cr3 (kpm k') = kern_pgdir (kpm k') - KERNBASE ∧ cpus k' = cpus k ∧ cpunum k' = cpunum k ∧ klock k' = klock k) ∧
    (∀ pd' v v' p, pd' ∈ pd :: R → 0 ≤ v < UVPN → 0 ≤ v' < UVPN → page_of (phys (kpm k')) pd v = Some p →
      page_of (phys (kpm k')) pd' v' = Some p → pd' = pd ∧ v' = v) ∧
    (∀ a, user_va a →
      (∀ j sg, segs !! j = Some sg → ps_type sg = ELF_PROG_LOAD → ps_va sg ≤ a < ps_va sg + ps_memsz sg →
        (∀ j' sg', (j < j')%nat → segs !! j' = Some sg' → ¬ seg_covers sg' a) → a / PGSIZE ≠ USTACKTOP / PGSIZE - 1 →
        ubyte (kpm k') pd a = Some (if decide (a < ps_va sg + ps_filesz sg)
          then kbyte m0 (binary + ps_off sg + (a - ps_va sg)) else 0)) ∧
      (a / PGSIZE = USTACKTOP / PGSIZE - 1 → is_Some (ubyte (kpm k') pd a)) ∧
      (a / PGSIZE ≠ USTACKTOP / PGSIZE - 1 → (∀ sg, sg ∈ segs → ¬ seg_covers sg a) → ubyte (kpm k') pd a = None)).
Proof.
  intros m0 segs H Him Hl Hc Hcur.
  destruct (env_create_run K k l R x kp i fl binary type n c H Him Hl Hc Hcur)
    as (k' & l' & pd & e & g & E & He & (Hk & HR & Hl') & Hs & Sp & (g1 & Hg1 & Hg)).
  exists k', l', pd, e. split; [exact E|]. split; [exact He|]. split; [split; [exact Hk|split; [exact HR|split; [apply Sp|exact Hl']]]|].
  split; [exact Hs|]. split; [apply Sp|]. intros a Ha. rewrite (sp_view _ _ _ _ _ _ _ _ _ Sp a Ha). specialize (Hg a Ha). split; [|split].
  - intros j sg Hj Ht Hr Hlast Hst. rewrite decide_False in Hg by lia. rewrite Hg. eapply segs_loaded_at; try eassumption.
    pose proof (psegs_fit K m0 binary n j sg Him Hj) as (Hf1 & Hf2 & Hf3).
    destruct (page_bounds _ _ Hf1 Hf2 (proj1 (Hf3 Ht))) as (_ & _ & _ & Hin). apply Hin, Hr.
  - intros Hst. rewrite decide_True in Hg by lia. exact Hg.
  - intros Hst Hno. rewrite decide_False in Hg by lia. rewrite Hg. exact (segs_loaded_out m0 binary segs (λ _, None) g1 a Hg1 Ha Hno).
Qed.

(** ** A program of one segment *)

(** A machine of twelve pages: page 1 is the kernel's directory, page 2 holds
    an ELF image, pages 3 to 11 are free. *)
Definition load_free : list Z := [11; 10; 9; 8; 7; 6; 5; 4; 3].
Definition load_mem : mem := foldr (λ '(a, v) m, st32 m a v) ∅
  [(1 * PGSIZE + 4 * PDX UVPT, uvpt_entry 1);
   (8192, ELF_MAGIC); (8192 + 24, 0x800020); (8192 + 28, 52); (8192 + 44, 1);
   (8244, 1); (8244 + 4, 96); (8244 + 8, 0x800020); (8244 + 16, 4); (8244 + 20, 8); (8192 + 96, 0xAABBCCDD)].
Definition load_pm : pm :=
  MkPm 12 12 (list_to_map ((λ i, (i, MkPageInfo (if 3 <? i then Some (i - 1) else None) (if i <? 3 then 1 else 0))) <$> seqZ 0 12))
    (Some 11) (KERNBASE + 12 * PGSIZE) (kva_of 1) 0 0 MMIOBASE load_mem 4096 [] 0.
Definition load_ks : ks :=
  MkKs load_pm (list_to_map ((λ i, (i, env_inited i bss_env)) <$> seqZ 0 NENV)) (Some 0)
    {[0 := set_cpu_env None demo_cpu]} 0 (Some 0) [] demo_con demo_trapst.
Definition load_kern (q : Z) : Prop := 0 ≤ q < 12 ∧ q ∉ load_free.

Lemma load_kern_2 q : load_kern q ↔ 0 ≤ q < 3.
Proof. unfold load_kern, load_free. rewrite !not_elem_of_cons. pose proof (not_elem_of_nil q). intuition lia. Qed.

Lemma load_dir : ∀ i, 0 ≤ i < 1024 → wd load_mem 1 i = if decide (i = PDX UVPT) then uvpt_entry 1 else 0.
Proof.
  intros i Hi. assert (Forall (λ i, wd load_mem 1 i = if decide (i = PDX UVPT) then uvpt_entry 1 else 0) (seqZ 0 1024)) as H by decided.
  rewrite Forall_forall in H. apply H, elem_of_seqZ. lia.
Qed.

#[local] Opaque load_mem.
Lemma load_kspace : kspace load_kern load_ks load_free [] (all_refs load_pm) 1 (0 :: seqZ 1 (NENV - 1)).
Proof.
  split.
  - apply start_vspace.
    + split.
      * apply page_invb_sound. vm_compute. reflexivity.
      * split; [split; reflexivity || discriminate|]. apply (proj2 (load_kern_2 1)). lia.
      * intros i t Hi Hne E. unfold pt_of in E. change (phys load_pm) with load_mem in E.
        rewrite load_dir, decide_False in E by assumption. discriminate.
      * intros i j t Hi _ Hne _ E _. unfold pt_of in E. change (phys load_pm) with load_mem in E.
        rewrite load_dir, decide_False in E by assumption. discriminate.
    + reflexivity.
    + intros q. reflexivity.
    + intros q p Hq Hp. assert (map_Forall (λ q p, q ∈ load_free ∨ 1 ≤ pp_ref p) (pages load_pm)) as H by decided.
      destruct (H q p Hp); [contradiction|assumption].
    + intros i Hi. change (phys load_pm) with load_mem. rewrite load_dir by (unfold UPDX in *; lia).
      rewrite decide_False; [reflexivity|]. intros ->. revert Hi. vm_compute. intros [_ F]. discriminate.
    + apply (load_dir (PDX UVPT)). split; [discriminate|reflexivity].
  - replace (0 :: seqZ 1 (NENV - 1)) with (seqZ 0 NENV) by exact (seqZ_cons 0 NENV eq_refl). apply (start_espace (envs bss_ks)); [exact bss_table|].
    intros i. change (envs bss_ks) with (list_to_map ((λ i, (i, bss_env)) <$> seqZ 0 NENV) : gmap Z Env).
    change (envs load_ks) with (list_to_map ((λ i, (i, env_inited i bss_env)) <$> seqZ 0 NENV) : gmap Z Env).
    rewrite !lookup_seqZ_map. case_decide; reflexivity.
Qed.

Lemma load_kernel_at o n : 0 ≤ o → 0 ≤ n → o + n ≤ PGSIZE → kernel_at load_kern (kva_of 2 + o) n.
Proof.
  unfold kva_of, PGSIZE. intros Ho Hn Hl. split; [lia|]. split; [assert (KERNBASE + 12288 ≤ 2 ^ 32) by discriminate; lia|].
  intros b Hb. apply load_kern_2. unfold PGSIZE.
  split; [apply Z.div_pos; lia|apply Z.div_lt_upper_bound; lia].
Qed.

#[local] Transparent load_mem.
Lemma load_segs : image_segs load_mem (kva_of 2) 1 = [MkPseg 1 96 0x800020 4 8].
Proof. vm_compute. reflexivity. Qed.

Lemma load_image : elf_image load_kern load_mem (kva_of 2) 1.
Proof.
  split.
  - replace (kva_of 2) with (kva_of 2 + 0) by lia. apply load_kernel_at; discriminate.
  - vm_compute. reflexivity.
  - vm_compute. reflexivity.
  - replace (kword load_mem (kva_of 2 + 28)) with 52 by (vm_compute; reflexivity). apply load_kernel_at; discriminate.
  - vm_compute. reflexivity.
  - change (psegs _ _ _) with (image_segs load_mem (kva_of 2) 1). rewrite load_segs. constructor; [|constructor].
    split; [discriminate|]. intros _. split; [discriminate|]. split; [|reflexivity]. apply load_kernel_at; discriminate.
Qed.

Lemma env_create_loads_witness : ∃ k' pd e,
  env_create (kva_of 2) ENV_TYPE_USER load_ks = Ret tt k' ∧ envs k' !! 0 = Some e ∧ tf_eip (env_tf e) = 0x800020 ∧
  ubyte (kpm k') pd 0x800021 = Some 0xCC ∧ ubyte (kpm k') pd 0x800026 = Some 0.
Proof.
  destruct (env_create_loads load_kern load_ks load_free [] (all_refs load_pm) 1 0 (seqZ 1 (NENV - 1)) (kva_of 2) ENV_TYPE_USER 1
    (set_cpu_env None demo_cpu)) as (k' & l' & pd & e & E & (Ee & _ & _ & _ & Et) & _ & _ & _ & Hb).
  - exact load_kspace.
  - exact load_image.
  - change (phys (kpm load_ks)) with load_mem. rewrite load_segs. vm_compute. discriminate.
  - reflexivity.
  - discriminate.
  - exists k', pd, e. split; [exact E|]. split; [rewrite Ee; apply lookup_insert_eq|]. split; [rewrite Et; vm_compute; reflexivity|].
    change (phys (kpm load_ks)) with load_mem in Hb. rewrite load_segs in Hb.
    assert (∀ a, 0x800020 ≤ a < 0x800028 → ubyte (kpm k') pd a
      = Some (if decide (a < 0x800024) then kbyte load_mem (kva_of 2 + 96 + (a - 0x800020)) else 0)) as H.
    { intros a Ha. destruct (Hb a ltac:(split; [lia|assert (0x800028 < UTOP) by reflexivity; lia])) as [H _].
      apply (H 0%nat _ eq_refl eq_refl Ha).
      - intros [|[|j]] sg Hj F; [lia|discriminate F|discriminate F].
      - change (USTACKTOP / PGSIZE - 1) with 977917. pose proof (Z.div_lt_upper_bound a PGSIZE 4096 eq_refl ltac:(unfold PGSIZE; lia)). lia. }
    rewrite !H by lia. rewrite decide_True, decide_False by lia. split; [|reflexivity]. vm_compute. reflexivity.
Defined.
