(* ===== verification/LapicSpec.v ===== *)
(** What a CPU writes to its local interrupt controller (kern/lapic.c). *)
From S2P Require Import Prelude Mmu Mem Pages PageTable Console KState Lapic.

(** What the controllers promise: the register ID has the number of the CPU, and
    an interrupt is delivered before the patience of those who wait for it
    ends. *)
Record lapic_ok (lapic_rd : Z → list (Z * Z * Z) → nat → Z → Z) (polls : nat) (la : Z) : Prop := {
  lo_id : ∀ n ws t, 0 ≤ n < 256 → lapic_rd n ws t (la + 4 * ID) = Z.shiftl n 24;
  lo_delivs : ∀ n ws, ∃ t, (t < polls)%nat ∧ Z.land (lapic_rd n ws t (la + 4 * ICRLO)) DELIVS = 0
}.

(** The registers are accessible from physical address [la] on. *)
Record lapic_at (la : Z) (k : ks) : Prop := {
  la_ptr : lapic (ktrap k) ≠ 0;
  la_reg : ∀ write i, 0 ≤ i < 1024 → kaddr (kpm k) write (w32 (lapic (ktrap k) + 4 * i)) = Some (la + 4 * i)
}.

(** The CPU has written [ws], registers and values, in this order. *)
Definition sent (n la : Z) (ws : list (Z * Z)) : list (Z * Z * Z) := reverse ((λ w, (n, la + 4 * w.1, w32 w.2)) <$> ws).
Definition send (la : Z) (ws : list (Z * Z)) (k : ks) : ks :=
  set_ktrap (set_lapic_writes (sent (cpunum k) la ws ++ lapic_writes (ktrap k)) (ktrap k)) k.

Lemma send_app la a b k : send la b (send la a k) = send la (a ++ b) k.
Proof. unfold send, sent. ksimpl. cbn [lapic_writes set_lapic_writes]. rewrite fmap_app, reverse_app, (assoc_L (++)). reflexivity. Qed.

Lemma send_nil la k : send la [] k = k.
Proof. destruct k as [? ? ? ? ? ? ? ? []]. reflexivity. Qed.

Lemma lapic_at_send la la' ws k : lapic_at la k → lapic_at la (send la' ws k).
Proof. intros [H1 H2]. split; assumption. Qed.
#[export] Hint Resolve lapic_at_send : jos.

Section lapic.
Context (lapic_rd : Z → list (Z * Z * Z) → nat → Z → Z) (polls : nat) (la : Z) (Hok : lapic_ok lapic_rd polls la).

Lemma lapic_reg_run write i k : lapic_at la k → 0 ≤ i < 1024 → lapic_reg write i k = Ret (la + 4 * i) k.
Proof. intros H Hi. unfold lapic_reg. rewrite (la_reg _ _ H) by exact Hi. reflexivity. Qed.

Lemma lapicw_run i v k : lapic_at la k → 0 ≤ i < 1024 → lapicw i v k = Ret tt (send la [(i, v)] k).
Proof.
  intros H Hi. unfold lapicw. rewrite (bind_Ret _ _ _ _ _ (lapic_reg_run true i k H Hi)), bind_gets.
  erewrite bind_Ret by reflexivity. erewrite bind_Ret; [reflexivity|]. apply lapic_reg_run; [|split; reflexivity || discriminate].
  destruct H as [H1 H2]. split; assumption.
Qed.

Lemma lapicw_bind {A} i v (m : M ks A) k : lapic_at la k → 0 ≤ i < 1024 → (lapicw i v ;; m) k = m (send la [(i, v)] k).
Proof. intros H Hi. rewrite (bind_Ret _ _ _ _ _ (lapicw_run i v k H Hi)). reflexivity. Qed.

Lemma lapicr_run t i k : lapic_at la k → 0 ≤ i < 1024 →
  lapicr lapic_rd t i k = Ret (lapic_rd (cpunum k) (lapic_writes (ktrap k)) t (la + 4 * i)) k.
Proof. intros H Hi. unfold lapicr. rewrite (bind_Ret _ _ _ _ _ (lapic_reg_run false i k H Hi)), bind_get. reflexivity. Qed.

Lemma cpunum_read_run k : lapic_at la k → 0 ≤ cpunum k < 256 → cpunum_read lapic_rd k = Ret (cpunum k) k.
Proof using Hok.
  intros H Hn. unfold cpunum_read. rewrite bind_gets, (proj2 (Z.eqb_neq _ _)) by apply H. cbn [negb].
  rewrite (bind_Ret _ _ _ _ _ (lapicr_run 0 ID k H ltac:(split; reflexivity || discriminate))), (lo_id _ _ _ Hok) by exact Hn.
  rewrite Z.shiftr_shiftl_l by lia. change (24 - 24) with 0. rewrite Z.shiftl_0_r. reflexivity.
Qed.

Lemma wait_delivs_run k t n : lapic_at la k →
  (∃ t', (t ≤ t' < t + n)%nat ∧ Z.land (lapic_rd (cpunum k) (lapic_writes (ktrap k)) t' (la + 4 * ICRLO)) DELIVS = 0) →
  wait_delivs lapic_rd n t k = Ret tt k.
Proof.
  intros H. revert t. induction n as [|n IH]; intros t (t' & Ht & E); [lia|]. cbn [wait_delivs].
  rewrite (bind_Ret _ _ _ _ _ (lapicr_run t ICRLO k H ltac:(split; reflexivity || discriminate))).
  destruct (ctrue _) eqn:C; [|reflexivity]. apply IH. exists t'. split; [|exact E]. apply ctrue_spec in C.
  assert (t ≠ t') by (intros <-; contradiction). lia.
Qed.

Lemma wait_delivered k : lapic_at la k → wait_delivs lapic_rd polls 0 k = Ret tt k.
Proof using Hok.
  intros H. apply wait_delivs_run; [exact H|]. destruct (lo_delivs _ _ _ Hok (cpunum k) (lapic_writes (ktrap k))) as (t & Ht & E).
  exists t. split; [lia|exact E].
Qed.

(** ** lapic_init *)

(** What is written before the version is known, and all of it up to the
    write that enables interrupts; [boot]: by the boot processor, whose line
    from the 8259A stays open. *)
Definition init_first (boot : bool) : list (Z * Z) :=
  [(SVR, Z.lor ENABLE (IRQ_OFFSET + IRQ_SPURIOUS)); (TDCR, X1); (TIMER, Z.lor PERIODIC (IRQ_OFFSET + IRQ_TIMER));
   (TICR, 10000000)] ++ (if boot then [] else [(LINT0, MASKED)]) ++ [(LINT1, MASKED)].
Definition init_regs (boot : bool) (version : Z) : list (Z * Z) :=
  init_first boot ++ (if Z.land (Z.shiftr version 16) 0xFF >=? 4 then [(PCINT, MASKED)] else []) ++
  [(ERROR, IRQ_OFFSET + IRQ_ERROR); (ESR, 0); (ESR, 0); (EOI, 0); (ICRHI, 0);
   (ICRLO, Z.lor (Z.lor BCAST INIT) LEVEL); (TPR, 0)].

(** What CPU [n] reads in the register of the version. *)
Definition version_read (boot : bool) (k : ks) : Z :=
  lapic_rd (cpunum k) (lapic_writes (ktrap (send la (init_first boot) k))) 0 (la + 4 * VER).

Ltac sending := rewrite lapicw_bind by (auto 20 with jos; split; reflexivity || discriminate); rewrite ?send_app; cbn [app].

Lemma when_lapicw {A} (b : bool) i v (m : M ks A) k : lapic_at la k → 0 ≤ i < 1024 →
  (when b (lapicw i v) ;; m) k = m (send la (if b then [(i, v)] else []) k).
Proof using.
  intros H Hi. destruct b; cbn [when]; [apply lapicw_bind; assumption|]. rewrite bind_mret, send_nil. reflexivity.
Qed.

Lemma lapic_init_sends boot k p s' : la ≠ 0 → mmio_map_region la 4096 (kpm k) = Ret p s' →
  let k1 := set_ktrap (set_lapic p (ktrap k)) (set_kpm s' k) in
  lapic_at la k1 → 0 ≤ cpunum k < 256 →
  lapic_init lapic_rd polls la boot k
    = Ret tt (send la (init_regs (cpunum k =? boot) (version_read (cpunum k =? boot) k1)) k1).
Proof using Hok.
  intros Hla Em k1 Hat Hn. unfold lapic_init. rewrite (proj2 (Z.eqb_neq _ _)) by exact Hla.
  rewrite (bind_Ret _ _ _ _ _ (inpm_Ret _ _ _ _ Em)). erewrite bind_Ret by reflexivity. ksimpl. fold k1.
  do 4 sending. erewrite bind_Ret by (apply cpunum_read_run; [auto with jos|exact Hn]).
  change (cpunum (send _ _ k1)) with (cpunum k). rewrite when_lapicw by (auto with jos; split; reflexivity || discriminate).
  rewrite send_app. sending. lazymatch goal with |- context [send la ?ws k1] => replace ws with (init_first (cpunum k =? boot)) end.
  2: { unfold init_first. destruct (cpunum k =? boot); reflexivity. }
  erewrite bind_Ret by (apply lapicr_run; [auto with jos|split; reflexivity || discriminate]).
  rewrite when_lapicw by (auto with jos; split; reflexivity || discriminate). rewrite send_app.
  change (lapic_rd _ _ 0 (la + 4 * VER)) with (version_read (cpunum k =? boot) k1). set (ver := version_read _ _).
  set (f2 := init_first _ ++ _). do 6 sending.
  erewrite bind_Ret by (apply wait_delivered; auto 20 with jos). rewrite lapicw_run by (auto 20 with jos; split; reflexivity || discriminate).
  rewrite !send_app. do 2 f_equal. unfold init_regs, f2. rewrite <- !(assoc_L (++)). reflexivity.
Qed.

(** ** lapic_startap and lapic_ipi *)

Definition startap_regs (apicid addr : Z) : list (Z * Z) :=
  let startup := [(ICRHI, Z.shiftl apicid 24); (ICRLO, Z.lor STARTUP (Z.shiftr addr 12))] in
  [(ICRHI, Z.shiftl apicid 24); (ICRLO, Z.lor (Z.lor INIT LEVEL) ASSERT); (ICRLO, Z.lor INIT LEVEL)] ++ startup ++ startup.

(** The warm reset vector: segment and offset of [addr]. *)
Definition reset_vector (addr : Z) (m : mem) : mem := st16 (st16 m 0x467 0) 0x469 (Z.shiftr addr 4).
Definition shutdown_code (c : con) : con := set_ports ((0x71, 0x0A) :: (0x70, 0xF) :: ports c) c.
Definition startap_setup (addr : Z) (k : ks) : ks :=
  set_kpm (with_phys (reset_vector addr (phys (kpm k))) (kpm k)) (set_kcons (shutdown_code (kcons k)) k).

Lemma lapic_startap_run apicid addr k : 0 < npages (kpm k) → lapic_at la (startap_setup addr k) →
  lapic_startap apicid addr k = Ret tt (send la (startap_regs apicid addr) (startap_setup addr k)).
Proof using.
  intros Hnp Hat. unfold lapic_startap.
  erewrite bind_Ret by reflexivity. erewrite bind_Ret by reflexivity. change (Z.lor (Z.shiftl 0x40 4) 0x67) with 0x467.
  assert (∀ s, npages s = npages (kpm k) → KADDR 0x467 s = Ret (KERNBASE + 0x467) s) as Ek.
  { intros s E. unfold KADDR. rewrite E. change (PGNUM 0x467) with 0. rewrite Z.geb_leb, (proj2 (Z.leb_gt _ _)) by exact Hnp. reflexivity. }
  erewrite bind_Ret by (apply inpm_Ret, Ek; reflexivity). unfold kst16. do 2 (erewrite bind_Ret by (apply inpm_Ret; reflexivity)).
  match goal with |- _ ?st = _ => change st with (startap_setup addr k) end.
  do 3 sending. cbn [for_range]. rewrite ?bind_assoc. do 2 sending. rewrite ?bind_assoc. do 2 sending. reflexivity.
Qed.

Lemma lapic_ipi_run vector k : lapic_at la k →
  lapic_ipi lapic_rd polls vector k = Ret tt (send la [(ICRLO, Z.lor (Z.lor OTHERS FIXED) vector)] k).
Proof using Hok.
  intros Hat. unfold lapic_ipi. sending. apply wait_delivered. auto with jos.
Qed.
End lapic.
