(* ===== verification/InitSpec.v ===== *)
(** The start of the machine (kern/init.c): the controllers are mapped and
    programmed, every application processor is started on a stack of its own,
    and the kernel runs its first environment. *)
From S2P Require Import Prelude Mmu Mem Pages PageTable AddrSpace UserMem Console KState Lapic Mpconfig Env EnvVm EnvSpec Syscall SyscallSpec KSpace Boot BootCheck BootSpec BootInv SelfTest MemInit Trap Init LapicSpec TrapSpec.

(** * The kernel's memory while devices are mapped *)

(** The window of mmio_map_region is within one page table. *)
Definition MMIOSLOT : Z := PDX MMIOBASE.

Lemma mmio_slot v : mmio_vpn v 1 → v / 1024 = MMIOSLOT ∧ 0 ≤ v < KERNBASE / PGSIZE ∧ kvpn v.
Proof.
  intros H. pose proof (mmio_kvpn v 1 v H ltac:(lia)) as Hk. destruct H as (H1 & _ & H3).
  change (MMIOBASE / PGSIZE) with 980992 in H1. change (MMIOLIM / PGSIZE) with 982016 in H3. change (KERNBASE / PGSIZE) with 983040.
  change MMIOSLOT with 958. split; [Z.div_mod_to_equations; lia|]. split; [lia|exact Hk].
Qed.

(** [devs kp n G s l v]: kern_pgdir is in use and maps [G] outside the window
    for devices, of which the pages below [v] have been handed out. *)
Record devs (kp : Z) (n : nat) (G : Z → option Z) (s : pm) (l : list Z) (v : Z) : Prop := {
  dv_boot : ∃ g, kboot kp (phys s) n g s l ∧ ∀ u, u / 1024 ≠ MMIOSLOT → g u = G u;
  dv_cr3 : cr3 s = kp * PGSIZE;
  dv_mmio : mmio_base s = v * PGSIZE;
  dv_slot : is_Some (pt_of (phys s) kp MMIOSLOT)
}.

(** Memory that neither the directory nor the free pages contain. *)
Definition fixed_mem (kp np : Z) (m m' : mem) : Prop :=
  ∀ b, b / PGSIZE ≠ kp → ¬ free_at_boot kp np (b / PGSIZE) → ld8 m' b = ld8 m b.

#[export] Instance fixed_mem_preorder kp np : PreOrder (fixed_mem kp np).
Proof. split; [intros m b; auto|]. intros m1 m2 m3 H1 H2 b Hb Hf. rewrite H2, H1 by assumption. reflexivity. Qed.

Lemma kboot_rebase kp m0 n g s l : kboot kp m0 n g s l → kboot kp (phys s) n g s l.
Proof. intros []. split; auto. Qed.

(** Stores in pages that are neither. *)
Lemma kboot_poke kp m0 n g s l m : kboot kp m0 n g s l →
  (∀ b, b / PGSIZE = kp ∨ free_at_boot kp (npages s) (b / PGSIZE) → ld8 m b = ld8 (phys s) b) →
  kboot kp m n g (with_phys m s) l.
Proof.
  intros B Hm. assert (∀ q j, q = kp ∨ free_at_boot kp (npages s) q → 0 ≤ j < 1024 → wd m q j = wd (phys s) q j) as Hwd.
  { intros q j Hq Hj. apply ld32_ext. intros i Hi. apply Hm. replace (q * PGSIZE + 4 * j + i) with (q * PGSIZE + (4 * j + i)) by lia.
    rewrite Z.div_add_l, Z.div_small, Z.add_0_r by (unfold PGSIZE; lia). exact Hq. }
  assert (∀ i, 0 ≤ i < 1024 → pt_of m kp i = pt_of (phys s) kp i) as Hpt by (intros i Hi; unfold pt_of; rewrite Hwd by auto; reflexivity).
  pose proof (kb_tables kp m0 n g s l) as Ht.
  pose proof B as [[D1 D2 D3 D4] HR HN HS HL HU Hus Hfr Hta Hma Htb Hme]. split; psimpl; try assumption.
  - split; psimpl; try assumption; [eapply page_inv_ext; [exact D1|reflexivity..]| |].
    + intros i t Hi Hu. rewrite Hpt by exact Hi. apply D3; assumption.
    + intros i j t Hi Hj Hui Huj. rewrite !Hpt by assumption. apply D4; assumption.
  - intros i Hi. rewrite Hwd by (auto; unfold UPDX in Hi; lia). apply HL, Hi.
  - rewrite Hwd by (auto; split; reflexivity || discriminate). exact HU.
  - intros u Hu. rewrite <- Hma by exact Hu. destruct (kvpn_idx u Hu) as (HI & HJ & _). destruct Hu as [_ Hu]. unfold pte_of.
    rewrite Hpt by exact HI. destruct (pt_of (phys s) kp (u / 1024)) as [t|] eqn:Et; [|reflexivity]. cbv zeta.
    destruct (Ht _ t B HI Hu Et) as [Hf _]. rewrite Hwd by auto. reflexivity.
  - intros i Hi Hu. rewrite Hwd by auto. apply Htb; assumption.
  - reflexivity.
Qed.

Lemma devs_poke kp n G s l v m : devs kp n G s l v →
  (∀ b, b / PGSIZE = kp ∨ free_at_boot kp (npages s) (b / PGSIZE) → ld8 m b = ld8 (phys s) b) → devs kp n G (with_phys m s) l v.
Proof.
  intros [(g & B & Hg) Hc Hm Hs] Hb. split; psimpl; try assumption; [eauto using kboot_poke|].
  destruct Hs as [t Ht]. exists t. rewrite <- Ht. unfold pt_of.
  replace (wd m kp MMIOSLOT) with (wd (phys s) kp MMIOSLOT); [reflexivity|]. symmetry. apply ld32_ext. intros i Hi. apply Hb. left.
  change MMIOSLOT with 958. rewrite <- Z.add_assoc, Z.div_add_l, Z.div_small, Z.add_0_r by (unfold PGSIZE; lia). reflexivity.
Qed.

(** The page directory register may be changed for a while. *)
Lemma devs_cr3 kp n G s l v a : devs kp n G s l v → devs kp n G (with_cr3 (kp * PGSIZE) (with_cr3 a s)) l v.
Proof.
  intros [(g & B & Hg) Hc Hm Hs]. split; psimpl; try assumption; [|reflexivity]. exists g. split; [|exact Hg].
  eapply (kboot_ext _ _ _ _ s); try reflexivity; [eapply page_inv_ext; [apply B|reflexivity..]|exact B].
Qed.

(** A device is mapped. *)
Lemma devs_map kp n G s l v f : devs kp n G s l v → mmio_vpn v 1 → 0 ≤ f < 1048575 → ∃ s',
  mmio_map_region (f * PGSIZE) 4096 s = Ret (v * PGSIZE) s' ∧ devs kp n G s' l (v + 1) ∧ npages s' = npages s ∧
  fixed_mem kp (npages s) (phys s) (phys s') ∧
  pte_of (phys s') kp v = Some (entry f mmio_perm).
Proof.
  intros [(g & B & Hg) Hc Hm Hs] Hv Hf. destruct (mmio_slot v Hv) as (Es & Hvk & Hk). pose proof (kb_dir _ _ _ _ _ _ B) as D.
  assert (missing (phys s) kp v 1 = 0) as Emis.
  { unfold missing. cbn [Z.leb]. replace ((v + 1 - 1) / 1024 - v / 1024 + 1) with 1 by (rewrite Z.add_simpl_r; lia).
    rewrite seqZ_cons by lia. rewrite Es. destruct Hs as [t Ht]. cbn [countb]. rewrite Ht, bool_decide_eq_false_2 by discriminate. reflexivity. }
  destruct (mmio_run s l kp v 1 f 4096 D (proj1 (kb_roots _ _ _ _ _ _ B)) Hm Hv eq_refl ltac:(unfold PGSIZE; lia) ltac:(lia) ltac:(lia))
    as (s' & l' & E & M); [rewrite Emis; lia|].
  pose proof (mp_kmapped _ _ _ _ _ _ _ _ _ M) as K. pose proof (mp_length _ _ _ _ _ _ _ _ _ M) as Hl. rewrite Emis in Hl.
  destruct (km_free _ _ _ _ _ K) as [l0 El]. assert (l0 = []) as -> by (apply nil_length_inv; rewrite El, length_app in Hl; lia).
  cbn [app] in El. subst l'. destruct (km_same _ _ _ _ _ K) as (N & _ & C & _).
  assert (kboot kp (phys s) n (over v 1 f mmio_perm g) s' l) as B'.
  { rewrite <- (Nat.add_0_r n). apply (kboot_kmapped kp (phys s) n 0 g _ s l s' l B K ltac:(lia)).
    - intros i Hi. apply (mp_slots _ _ _ _ _ _ _ _ _ M); [unfold UPDX in Hi; lia|]. rewrite Es, Z.add_simpl_r, Es.
      change MMIOSLOT with 958. unfold UPDX in Hi. lia.
    - intros u Hu. rewrite (mp_pte _ _ _ _ _ _ _ _ _ M) by exact Hu. unfold over. rewrite (kb_map _ _ _ _ _ _ B u Hu). reflexivity. }
  assert (pte_of (phys s') kp v = Some (entry f mmio_perm)) as Ev.
  { rewrite (kb_map _ _ _ _ _ _ B' v Hk). unfold over. rewrite decide_True by lia. do 2 f_equal. lia. }
  exists (with_mmio_base ((v + 1) * PGSIZE) s'). split; [exact E|]. split; [split; psimpl|split; [exact N|split]].
  - exists (over v 1 f mmio_perm g). split.
    + eapply (kboot_ext _ _ _ _ s'); try reflexivity; [eapply page_inv_ext; [apply B'|reflexivity..]|]. eapply kboot_rebase, B'.
    + intros u Hu. unfold over. rewrite decide_False; [apply Hg, Hu|]. intros F. assert (u = v) as -> by lia. contradiction.
  - congruence.
  - reflexivity.
  - unfold pte_of in Ev. rewrite Es in Ev. destruct (pt_of (phys s') kp MMIOSLOT); [eauto|discriminate].
  - intros b Hb Hfr. psimpl. apply (kb_mem _ _ _ _ _ _ B' b Hb). rewrite N. exact Hfr.
  - exact Ev.
Qed.

Lemma devs_kaddr kp n G s l v u f write o : devs kp n G s l v → mmio_vpn u 1 → pte_of (phys s) kp u = Some (entry f mmio_perm) →
  0 ≤ f < 1048576 → 0 ≤ o < PGSIZE → kaddr s write (u * PGSIZE + o) = Some (f * PGSIZE + o).
Proof.
  intros [(g & B & _) Hc _ _] Hu Hp Hf Ho. destruct (mmio_slot u Hu) as (Es & Hur & Hk).
  destruct (kwalk s l kp u _ (kb_dir _ _ _ _ _ _ B) Hk Hp) as (t & Et & Ew & _). rewrite Es in Et.
  destruct (kb_tables _ _ _ _ _ _ MMIOSLOT t B ltac:(split; reflexivity || discriminate) ltac:(discriminate) Et) as (_ & Htb & Erow).
  apply (kaddr_entry _ kp u t _ mmio_perm); [exact Hc|exact Hur|exact Htb|rewrite Es; exact Erow|exact Ew|split; reflexivity || discriminate|reflexivity|exact Hf|exact Ho].
Qed.

(** * The kernel between mp_init and the scheduler *)

(** The kernel on a CPU that uses kern_pgdir; the controllers are mapped. *)
Record machine (kp : Z) (n : nat) (G : Z → option Z) (f : Z) (l : list Z) (v : Z) (k : ks) : Prop := {
  mc_devs : devs kp n G (kpm k) l v;
  mc_lapic : ∃ u, mmio_vpn u 1 ∧ lapic (ktrap k) = u * PGSIZE ∧ pte_of (phys (kpm k)) kp u = Some (entry f mmio_perm)
}.

Lemma machine_lapic_at kp n G f l v k : machine kp n G f l v k → 0 ≤ f < 1048576 → lapic_at (f * PGSIZE) k.
Proof.
  intros [Hd (u & Hu & El & Hp)] Hf. destruct (mmio_slot u Hu) as (_ & Hur & _). destruct Hu as (H1 & _ & H3).
  change (MMIOBASE / PGSIZE) with 980992 in H1. change (KERNBASE / PGSIZE) with 983040 in Hur.
  split; rewrite El; [unfold PGSIZE; lia|]. intros write i Hi. rewrite w32_id by (unfold u32_range, PGSIZE; lia).
  eapply devs_kaddr; [exact Hd|split; [exact H1|split; [lia|exact H3]]|exact Hp|exact Hf|unfold PGSIZE; lia].
Qed.

(** Steps of the processor that concern other parts of the state. *)
Lemma machine_ext kp n G f l v k k' : machine kp n G f l v k → kpm k' = kpm k → lapic (ktrap k') = lapic (ktrap k) → machine kp n G f l v k'.
Proof. intros [Hd Hl] E1 E2. split; rewrite ?E1, ?E2; assumption. Qed.

Lemma machine_poke kp n G f l v k m : machine kp n G f l v k →
  (∀ b, b / PGSIZE = kp ∨ free_at_boot kp (npages (kpm k)) (b / PGSIZE) → ld8 m b = ld8 (phys (kpm k)) b) →
  machine kp n G f l v (set_kpm (with_phys m (kpm k)) k).
Proof.
  intros [Hd (u & Hu & El & Hp)] Hm. split; [apply devs_poke; assumption|]. exists u. split; [exact Hu|]. split; [exact El|].
  destruct (dv_boot _ _ _ _ _ _ Hd) as (g & B & _). destruct (mmio_slot u Hu) as (_ & _ & Hk).
  rewrite (kb_map _ _ _ _ _ _ B u Hk) in Hp. rewrite <- Hp. apply (kb_map _ _ _ _ _ _ (kboot_poke _ _ _ _ _ _ m B Hm) u Hk).
Qed.

(** Page 0 and page 7 are never the allocator's. *)
Lemma low_pages kp m0 n g s l : kboot kp m0 n g s l → 256 ≤ kp < npages s ∧ ∀ q, q = 0 ∨ q = 7 → ¬ (q = kp ∨ free_at_boot kp (npages s) q).
Proof.
  intros B. destruct (kb_size _ _ _ _ _ _ B) as [Hk Hs]. pose proof (kd_kp _ _ _ (kb_dir _ _ _ _ _ _ B)) as [Hkp _].
  destruct (ROUNDUP_pages _ (pi_npages _ _ (kd_pages _ _ _ (kb_dir _ _ _ _ _ _ B)))) as [_ Hu].
  split; [lia|]. intros q Hq. unfold free_at_boot, boot_ff in *. lia.
Qed.

Lemma machine_send kp n G f l v k la ws : machine kp n G f l v k → machine kp n G f l v (send la ws k).
Proof. intros H. eapply machine_ext; [exact H|reflexivity..]. Qed.

Section lapic.
Context (lapic_rd : Z → list (Z * Z * Z) → nat → Z → Z) (polls : nat) (f : Z) (Hok : lapic_ok lapic_rd polls (f * PGSIZE)) (Hf : 0 < f < 1048575).

Lemma machine_lapic_init kp n G l v boot k : devs kp n G (kpm k) l v → mmio_vpn v 1 → 0 ≤ cpunum k < 256 → ∃ s' ver,
  let k' := send (f * PGSIZE) (init_regs (cpunum k =? boot) ver) (set_ktrap (set_lapic (v * PGSIZE) (ktrap k)) (set_kpm s' k)) in
  lapic_init lapic_rd polls (f * PGSIZE) boot k = Ret tt k' ∧ machine kp n G f l (v + 1) k' ∧
  npages s' = npages (kpm k) ∧ fixed_mem kp (npages (kpm k)) (phys (kpm k)) (phys s').
Proof using Hok Hf.
  intros Hd Hv Hn. destruct (devs_map kp n G (kpm k) l v f Hd Hv ltac:(lia)) as (s' & E & Hd' & N & Hm & Hp).
  assert (machine kp n G f l (v + 1) (set_ktrap (set_lapic (v * PGSIZE) (ktrap k)) (set_kpm s' k))) as M by (split; [exact Hd'|exists v; auto]).
  exists s'. eexists. split; [|split; [apply machine_send, M|split; [exact N|exact Hm]]].
  apply lapic_init_sends; [exact Hok|unfold PGSIZE; lia|exact E|eapply machine_lapic_at; [exact M|lia]|exact Hn].
Qed.
End lapic.

(** * The application processors *)

Lemma inks_Ret {A} (m : M ks A) s a t : m (s_ks s) = Ret a t → inks m s = Ret a (set_s_ks t s).
Proof. unfold inks, lift. cbn [view update ks_lens]. intros ->. reflexivity. Qed.
Lemma inks_Stop {A} (m : M ks A) s w t : m (s_ks s) = Stop w t → inks m s = Stop w (set_s_ks t s).
Proof. unfold inks, lift. cbn [view update ks_lens]. intros ->. reflexivity. Qed.

(** The CPU knows its kernel stack. *)
Definition cpu_stack (c : Z) : Z := KSTACKTOP - c * (KSTKSIZE + KSTKGAP).
Definition with_tss (x : CpuInfo) : CpuInfo := set_ts_ss0 GD_KD (set_ts_esp0 (w32 (cpu_stack (cpu_id x))) x).

Section aps.
Context (lapic_rd : Z → list (Z * Z * Z) → nat → Z → Z) (polls : nat) (f : Z) (Hok : lapic_ok lapic_rd polls (f * PGSIZE)) (Hf : 0 < f < 1048575).
Context (percpu_kstacks mpentry_start mpentry_end entry_pgdir : Z) (cpu_ts : Z → Z) (Hpg : KERNBASE ≤ entry_pgdir < 2 ^ 32).
Context (kp : Z) (n : nat) (G : Z → option Z) (l : list Z).

(** What a processor leaves alone when it starts. *)
Record started_by (c v : Z) (x : CpuInfo) (s s' : sys) : Prop := {
  sb_mp : s_mp s' = s_mp s ∧ mpentry_kstack s' = mpentry_kstack s ∧ entry_esp s' = <[c := mpentry_kstack s]> (entry_esp s);
  sb_machine : machine kp n G f l (v + 1) (s_ks s');
  sb_same : cpunum (s_ks s') = cpunum (s_ks s) ∧ envs (s_ks s') = envs (s_ks s) ∧ env_free_list (s_ks s') = env_free_list (s_ks s) ∧
    klock (s_ks s') = klock (s_ks s) ∧ kcons (s_ks s') = kcons (s_ks s) ∧ idt (ktrap (s_ks s')) = idt (ktrap (s_ks s));
  sb_cpus : cpus (s_ks s') = <[c := set_cpu_status CPU_STARTED (with_tss x)]> (cpus (s_ks s));
  sb_task : task_reg (ktrap (s_ks s')) = <[c := GD_TSS0 + 8 * cpu_id x]> (task_reg (ktrap (s_ks s)));
  sb_writes : ∃ ws, lapic_writes (ktrap (s_ks s')) = ws ++ lapic_writes (ktrap (s_ks s));
  sb_log : klog (s_ks s') = ("SMP: CPU %d starting\n"%string, [c]) :: klog (s_ks s);
  sb_mem : npages (kpm (s_ks s')) = npages (kpm (s_ks s)) ∧
    fixed_mem kp (npages (kpm (s_ks s))) (phys (kpm (s_ks s))) (phys (kpm (s_ks s')))
}.

Lemma kern_pgdir_PADDR s g m0 : kboot kp m0 n g s l → PADDR (kern_pgdir s) s = Ret (kp * PGSIZE) s.
Proof using.
  intros B. rewrite (proj1 (kb_roots _ _ _ _ _ _ B)). apply PADDR_kva.
  destruct (kb_size _ _ _ _ _ _ B), (kd_kp _ _ _ (kb_dir _ _ _ _ _ _ B)). lia.
Qed.

Lemma mp_main_setup_run c v x s g m0 : kboot kp m0 n g (kpm (s_ks s)) l → cpunum (s_ks s) = c → 0 ≤ c < 256 →
  machine kp n G f l v (set_kpm (with_cr3 (kp * PGSIZE) (kpm (s_ks s))) (s_ks s)) → mmio_vpn v 1 → lapicaddr (s_mp s) = f * PGSIZE →
  cpus (s_ks s) !! c = Some x → ∃ s', mp_main_setup lapic_rd polls cpu_ts s = Ret tt s' ∧
    s_mp s' = s_mp s ∧ mpentry_kstack s' = mpentry_kstack s ∧ entry_esp s' = entry_esp s ∧
    machine kp n G f l (v + 1) (s_ks s') ∧
    (cpunum (s_ks s') = c ∧ envs (s_ks s') = envs (s_ks s) ∧ env_free_list (s_ks s') = env_free_list (s_ks s) ∧
      klock (s_ks s') = klock (s_ks s) ∧ kcons (s_ks s') = kcons (s_ks s) ∧ idt (ktrap (s_ks s')) = idt (ktrap (s_ks s))) ∧
    cpus (s_ks s') = <[c := set_cpu_status CPU_STARTED (with_tss x)]> (cpus (s_ks s)) ∧
    task_reg (ktrap (s_ks s')) = <[c := GD_TSS0 + 8 * cpu_id x]> (task_reg (ktrap (s_ks s))) ∧
    (∃ ws, lapic_writes (ktrap (s_ks s')) = ws ++ lapic_writes (ktrap (s_ks s))) ∧
    klog (s_ks s') = ("SMP: CPU %d starting\n"%string, [c]) :: klog (s_ks s) ∧
    npages (kpm (s_ks s')) = npages (kpm (s_ks s)) ∧
    fixed_mem kp (npages (kpm (s_ks s))) (phys (kpm (s_ks s))) (phys (kpm (s_ks s'))).
Proof using Hok Hf.
  intros B Hc Hcr M Hv Hla Hx. unfold mp_main_setup. set (k := s_ks s) in *.
  set (k1 := set_kpm (with_cr3 (kp * PGSIZE) (kpm k)) k) in *.
  erewrite bind_Ret. 2: { apply inks_Ret. fold k. rewrite bind_gets. erewrite bind_Ret by (apply inpm_Ret, (kern_pgdir_PADDR _ _ _ B)). apply inpm_Ret. reflexivity. }
  change (set_kpm _ (set_kpm (kpm k) k)) with k1.
  set (k2 := set_klog (("SMP: CPU %d starting\n"%string, [c]) :: klog k1) k1).
  erewrite bind_Ret. 2: { apply inks_Ret. cbn [s_ks set_s_ks].
    erewrite bind_Ret by (apply (cpunum_read_run lapic_rd polls (f * PGSIZE) Hok); [eapply machine_lapic_at; [exact M|lia]|unfold k1; ksimpl; lia]).
    reflexivity. }
  rewrite bind_gets. cbn [s_mp set_s_ks]. rewrite Hla. change (cpunum k1) with (cpunum k). rewrite Hc. fold k2.
  destruct (machine_lapic_init lapic_rd polls f Hok Hf kp n G l v (bootcpu (s_mp s)) k2) as (s' & ver & E & M' & N & Hm);
    [apply (mc_devs _ _ _ _ _ _ _ M)|exact Hv|unfold k2, k1; ksimpl; lia|].
  erewrite bind_Ret by (apply inks_Ret; exact E). set (k3 := send _ _ _) in *.
  assert (cpus k3 !! cpunum k3 = Some x) as Hx3 by (change (cpus k !! cpunum k = Some x); rewrite Hc; exact Hx).
  erewrite bind_Ret by (apply inks_Ret; exact (trap_init_percpu_run cpu_ts k3 x Hx3)). set (k4 := tss_state cpu_ts x k3).
  assert (cpus k4 !! cpunum k4 = Some (with_tss x)) as Hx4 by (unfold k4, tss_state; ksimpl; apply lookup_insert_eq).
  unfold thiscpu_upd. eexists. split; [apply inks_Ret; cbn [s_ks set_s_ks]; rewrite Hx4; reflexivity|].
  cbn [s_ks s_mp mpentry_kstack entry_esp set_s_ks]. split; [reflexivity|]. split; [reflexivity|]. split; [reflexivity|].
  split; [eapply machine_ext; [exact M'|reflexivity..]|]. ksimpl.
  split; [split; [exact Hc|do 4 (split; [reflexivity|]); reflexivity]|]. change (cpunum k4) with (cpunum k). rewrite Hc.
  split; [unfold k4, tss_state; ksimpl; change (cpunum k3) with (cpunum k); rewrite Hc, insert_insert_eq; reflexivity|].
  split; [rewrite <- Hc; reflexivity|]. split; [eexists; reflexivity|]. split; [reflexivity|]. split; [exact N|exact Hm].
Qed.

Lemma with_cr3_same s : with_cr3 (cr3 s) s = s.
Proof using. destruct s; reflexivity. Qed.

Lemma wait_started_run c v x s : machine kp n G f l v (s_ks s) → 0 ≤ c < 256 → mmio_vpn v 1 → lapicaddr (s_mp s) = f * PGSIZE →
  cpus (s_ks s) !! c = Some x → ∃ s', wait_started lapic_rd polls entry_pgdir cpu_ts c s = Ret tt s' ∧ started_by c v x s s'.
Proof using Hok Hf Hpg.
  intros M Hc Hv Hla Hx. destruct (dv_boot _ _ _ _ _ _ (mc_devs _ _ _ _ _ _ _ M)) as (g & B & _).
  unfold wait_started, on_cpu. rewrite bind_assoc, bind_get. cbv zeta.
  rewrite !bind_assoc. erewrite bind_Ret by (apply inks_Ret; reflexivity). cbv beta.
  set (s1 := set_s_ks (set_cpunum c (s_ks s)) s).
  unfold mpentry. rewrite !bind_assoc. erewrite bind_Ret by (apply inks_Ret, inpm_Ret, (PADDR_kern (kpm (s_ks s1)) entry_pgdir Hpg)).
  rewrite bind_assoc. erewrite bind_Ret by (apply inks_Ret, inpm_Ret; reflexivity). rewrite bind_assoc, bind_gets, bind_modify.
  cbn [s_ks set_s_ks]. ksimpl. set (pa := entry_pgdir - KERNBASE).
  match goal with |- context [(mp_main_setup _ _ _ ≫= _) ?st] => set (s2 := st) end.
  assert (kpm (s_ks s2) = with_cr3 pa (kpm (s_ks s))) as E2 by reflexivity.
  destruct (mp_main_setup_run c v x s2 g (phys (kpm (s_ks s)))) as (s3 & E & R1 & R2 & R3 & M3 & (C1 & C2 & C3 & C4 & C5 & C6) & R5 & R6 & Rw & R7 & R8 & R9).
  - rewrite E2. eapply (kboot_ext _ _ _ _ (kpm (s_ks s))); try reflexivity; [eapply page_inv_ext; [apply B|reflexivity..]|exact B].
  - reflexivity.
  - exact Hc.
  - rewrite E2. destruct M as [Hd Hl]. split; [apply devs_cr3, Hd|exact Hl].
  - exact Hv.
  - exact Hla.
  - exact Hx.
  - rewrite (bind_Ret _ _ _ _ _ E). erewrite bind_Ret by reflexivity.
    assert (cpus (s_ks s3) !! c = Some (set_cpu_status CPU_STARTED (with_tss x))) as Ex by (rewrite R5; apply lookup_insert_eq).
    erewrite bind_Ret by (apply inks_Ret; unfold cpu_get; cbn; rewrite Ex; reflexivity). cbn [cpu_status set_cpu_status].
    rewrite Z.eqb_refl. cbn [negb]. eexists. split; [reflexivity|]. cbn.
    pose proof (dv_cr3 _ _ _ _ _ _ (mc_devs _ _ _ _ _ _ _ M)) as Cs. pose proof (dv_cr3 _ _ _ _ _ _ (mc_devs _ _ _ _ _ _ _ M3)) as C3'.
    assert (with_cr3 (cr3 (kpm (s_ks s))) (kpm (s_ks s3)) = kpm (s_ks s3)) as Er by (rewrite Cs, <- C3'; apply with_cr3_same).
    split; cbn; rewrite ?Er; try assumption.
    + auto.
    + eapply machine_ext; [exact M3|reflexivity..].
    + auto 10.
    + split; [exact R8|exact R9].
Qed.

(** ** boot_aps *)

Definition ap_stack (c : Z) : Z := w32 (percpu_kstacks + c * KSTKSIZE + KSTKSIZE).

(** Nothing else of the fixed memory is written than the warm reset vector in
    page 0. *)
Definition low_fixed (np : Z) (m m' : mem) : Prop :=
  ∀ b, b / PGSIZE ≠ kp → ¬ free_at_boot kp np (b / PGSIZE) → b / PGSIZE ≠ 0 → ld8 m' b = ld8 m b.

Lemma low_fixed_trans np m1 m2 m3 : low_fixed np m1 m2 → low_fixed np m2 m3 → low_fixed np m1 m3.
Proof using. intros H1 H2 b H3 H4 H5. rewrite H2, H1 by assumption. reflexivity. Qed.
Lemma fixed_low np m m' : fixed_mem kp np m m' → low_fixed np m m'.
Proof using. intros H b H1 H2 _. apply H; assumption. Qed.

(** The processors other than [me] below [c] have been started. *)
Definition ap_of (me c i : Z) : Prop := 0 ≤ i < c ∧ i ≠ me.
#[local] Instance ap_of_dec me c i : Decision (ap_of me c i).
Proof. unfold ap_of. apply _. Defined.
Definition aps_count (me c : Z) : Z := if decide (me < c) then c - 1 else c.

Record aps_up (s0 : sys) (me v c : Z) (s : sys) : Prop := {
  au_mp : s_mp s = s_mp s0;
  au_machine : machine kp n G f l (v + aps_count me c) (s_ks s);
  au_same : cpunum (s_ks s) = me ∧ envs (s_ks s) = envs (s_ks s0) ∧ env_free_list (s_ks s) = env_free_list (s_ks s0) ∧
    klock (s_ks s) = klock (s_ks s0) ∧ idt (ktrap (s_ks s)) = idt (ktrap (s_ks s0));
  au_cpus : ∀ i, cpus (s_ks s) !! i
    = if decide (ap_of me c i) then (λ x, set_cpu_status CPU_STARTED (with_tss x)) <$> cpus (s_ks s0) !! i else cpus (s_ks s0) !! i;
  au_esp : ∀ i, ap_of me c i → entry_esp s !! i = Some (ap_stack i);
  au_task : ∀ i, ap_of me c i → task_reg (ktrap (s_ks s)) !! i = Some (GD_TSS0 + 8 * i);
  au_ipis : ∀ i, ap_of me c i → ∃ ws ws', lapic_writes (ktrap (s_ks s)) = ws ++ sent me (f * PGSIZE) (startap_regs i MPENTRY_PADDR) ++ ws';
  au_mem : npages (kpm (s_ks s)) = npages (kpm (s_ks s0)) ∧
    low_fixed (npages (kpm (s_ks s0))) (phys (kpm (s_ks s0))) (phys (kpm (s_ks s)))
}.

(** The startup message to a processor. *)
Lemma machine_startap v k c : machine kp n G f l v k →
  let k' := send (f * PGSIZE) (startap_regs c MPENTRY_PADDR) (startap_setup MPENTRY_PADDR k) in
  lapic_startap c MPENTRY_PADDR k = Ret tt k' ∧ machine kp n G f l v k' ∧
  low_fixed (npages (kpm k)) (phys (kpm k)) (phys (kpm k')).
Proof using Hf.
  intros M k'. destruct (dv_boot _ _ _ _ _ _ (mc_devs _ _ _ _ _ _ _ M)) as (g & B & _). destruct (low_pages _ _ _ _ _ _ B) as [Hkp Hlow].
  assert (∀ b, b / PGSIZE ≠ 0 → ld8 (reset_vector MPENTRY_PADDR (phys (kpm k))) b = ld8 (phys (kpm k)) b) as Hb.
  { intros b Hb. unfold reset_vector, st16. rewrite !ld8_st8_ne; [reflexivity|..]; intros <-; apply Hb; reflexivity. }
  assert (machine kp n G f l v (startap_setup MPENTRY_PADDR k)) as M'.
  { eapply machine_ext; [apply (machine_poke _ _ _ _ _ _ _ (reset_vector MPENTRY_PADDR (phys (kpm k))) M)|reflexivity..].
    intros b Hq. apply Hb. intros F. apply (Hlow _ (or_introl F) Hq). }
  split; [|split; [apply machine_send, M'|]].
  - apply lapic_startap_run; [lia|eapply machine_lapic_at; [exact M'|lia]].
  - intros b _ _ H0. apply Hb, H0.
Qed.

Lemma ap_of_next me c i : 0 ≤ c → ap_of me (c + 1) i ↔ ap_of me c i ∨ i = c ∧ c ≠ me.
Proof using. unfold ap_of. lia. Qed.

Definition boot_ap (code c : Z) : M sys unit :=
  me ← inks (cpunum_read lapic_rd);
  when (negb (c =? me))
    (modify (set_mpentry_kstack (ap_stack c)) ;;
     x ← inks (cpu_get c);
     pa ← inks (inpm (PADDR code));
     inks (lapic_startap (cpu_id x) pa) ;;
     wait_started lapic_rd polls entry_pgdir cpu_ts c).

Lemma boot_ap_run s0 me v c s x : aps_up s0 me v c s → 0 ≤ me < 256 → 0 ≤ c < 256 → mmio_vpn (v + aps_count me c) 1 →
  lapicaddr (s_mp s0) = f * PGSIZE → cpus (s_ks s0) !! c = Some x → cpu_id x = c →
  ∃ s', boot_ap (KERNBASE + MPENTRY_PADDR) c s = Ret tt s' ∧ aps_up s0 me v (c + 1) s'.
Proof using Hok Hf Hpg.
  intros [Amp AM (A1 & A2 & A3 & A4 & A5) Acpus Aesp Atask Aipi [AN Amem]] Hme Hc Hv Hla Hx Hid. unfold boot_ap.
  erewrite bind_Ret by (apply inks_Ret, (cpunum_read_run lapic_rd polls (f * PGSIZE) Hok); [eapply machine_lapic_at; [exact AM|lia]|lia]).
  rewrite A1. destruct (Z.eqb_spec c me) as [->|Hcm]; cbn [negb when].
  { eexists. split; [reflexivity|]. assert (∀ i, ap_of me (me + 1) i ↔ ap_of me me i) as Hap by (intros i; unfold ap_of; lia).
    assert (aps_count me (me + 1) = aps_count me me) as Ec by (unfold aps_count; rewrite decide_True, decide_False by lia; lia).
    split; cbn [s_ks s_mp set_s_ks entry_esp].
    - exact Amp.
    - rewrite Ec. exact AM.
    - auto 10.
    - intros i. rewrite Acpus. apply decide_ext. symmetry. apply Hap.
    - intros i Hi. apply Aesp, Hap, Hi.
    - intros i Hi. apply Atask, Hap, Hi.
    - intros i Hi. apply Aipi, Hap, Hi.
    - auto. }
  assert (¬ ap_of me c c) as Hnc by (unfold ap_of; lia).
  assert (cpus (s_ks s) !! c = Some x) as Hxc by (rewrite Acpus, decide_False by exact Hnc; exact Hx).
  rewrite bind_modify. erewrite bind_Ret by (apply inks_Ret; unfold cpu_get; cbn; rewrite Hxc; reflexivity).
  erewrite bind_Ret by (apply inks_Ret, inpm_Ret, PADDR_kern; split; reflexivity || discriminate).
  rewrite Hid. change (KERNBASE + MPENTRY_PADDR - KERNBASE) with MPENTRY_PADDR.
  match goal with |- context [(inks (lapic_startap _ _) ≫= _) ?st] => set (s1 := st) end.
  assert (machine kp n G f l (v + aps_count me c) (s_ks s1)) as M1 by (eapply machine_ext; [exact AM|reflexivity..]).
  destruct (machine_startap _ _ c M1) as (E2 & M2 & F2). erewrite bind_Ret by (apply inks_Ret; exact E2).
  set (s2 := set_s_ks _ s1).
  destruct (wait_started_run c _ x s2 M2 Hc Hv (eq_trans (f_equal lapicaddr Amp) Hla) Hxc)
    as (s' & E3 & [(B1 & _ & B3) BM (B4 & B5 & B6 & B7 & _ & B8) Bcpus Btask [ws Bw] _ [BN Bmem]]).
  exists s'. split; [exact E3|]. assert (aps_count me (c + 1) = aps_count me c + 1) as Ec by (unfold aps_count; repeat case_decide; lia).
  assert (∀ i, ap_of me (c + 1) i → i ≠ c → ap_of me c i) as Hap by (unfold ap_of; lia).
  split.
  - rewrite B1. exact Amp.
  - rewrite Ec, Z.add_assoc. exact BM.
  - rewrite B4, B5, B6, B7, B8. auto 10.
  - intros i. rewrite Bcpus. change (cpus (s_ks s2)) with (cpus (s_ks s)). destruct (decide (i = c)) as [->|Hic].
    + rewrite lookup_insert_eq, decide_True by (unfold ap_of; lia). rewrite Hx. reflexivity.
    + rewrite lookup_insert_ne, Acpus by congruence. apply decide_ext. unfold ap_of. lia.
  - intros i Hi. rewrite B3. destruct (decide (i = c)) as [->|Hic]; [apply lookup_insert_eq|].
    rewrite lookup_insert_ne by congruence. apply Aesp. auto.
  - intros i Hi. rewrite Btask. destruct (decide (i = c)) as [->|Hic]; [rewrite lookup_insert_eq, Hid; reflexivity|].
    rewrite lookup_insert_ne by congruence. apply Atask. auto.
  - intros i Hi. rewrite Bw. change (lapic_writes (ktrap (s_ks s2))) with (sent (cpunum (s_ks s)) (f * PGSIZE) (startap_regs c MPENTRY_PADDR) ++ lapic_writes (ktrap (s_ks s))).
    destruct (decide (i = c)) as [->|Hic]; [rewrite A1; eauto|]. destruct (Aipi i ltac:(auto)) as (w1 & w2 & ->).
    exists (ws ++ sent (cpunum (s_ks s)) (f * PGSIZE) (startap_regs c MPENTRY_PADDR) ++ w1), w2. rewrite <- !(assoc_L (++)). reflexivity.
  - split; [rewrite BN; exact AN|]. eapply low_fixed_trans; [exact Amem|]. rewrite <- AN. eapply low_fixed_trans; [exact F2|]. apply fixed_low, Bmem.
Qed.

(** The kernel's memory with the entry code in place. *)
Definition entry_code (m : mem) : mem := memmove m MPENTRY_PADDR (mpentry_start - KERNBASE) (mpentry_end - mpentry_start).
Definition with_entry_code (s : sys) : sys := set_s_ks (set_kpm (with_phys (entry_code (phys (kpm (s_ks s)))) (kpm (s_ks s))) (s_ks s)) s.

Lemma boot_aps_run s me v N : machine kp n G f l v (s_ks s) → cpunum (s_ks s) = me → 0 ≤ me < 256 → ncpu (s_mp s) = N → 0 ≤ N ≤ 8 →
  (∀ c, 0 ≤ c < N → ∃ x, cpus (s_ks s) !! c = Some x ∧ cpu_id x = c) → MMIOBASE / PGSIZE ≤ v → v + N ≤ MMIOLIM / PGSIZE →
  lapicaddr (s_mp s) = f * PGSIZE → 0 ≤ mpentry_end - mpentry_start ≤ PGSIZE →
  ∃ s', boot_aps lapic_rd polls percpu_kstacks mpentry_start mpentry_end entry_pgdir cpu_ts s = Ret tt s' ∧
    machine kp n G f l v (s_ks (with_entry_code s)) ∧ aps_up (with_entry_code s) me v N s'.
Proof using Hok Hf Hpg.
  intros M Hme Hmr HN HNr Hcpus Hv1 Hv2 Hla Hlen.
  destruct (dv_boot _ _ _ _ _ _ (mc_devs _ _ _ _ _ _ _ M)) as (g & B & _). destruct (low_pages _ _ _ _ _ _ B) as [Hkp Hlow].
  assert (KADDR MPENTRY_PADDR (kpm (s_ks s)) = Ret (KERNBASE + MPENTRY_PADDR) (kpm (s_ks s))) as Ek.
  { unfold KADDR. change (PGNUM MPENTRY_PADDR) with 7. rewrite Z.geb_leb, (proj2 (Z.leb_gt _ _)) by lia. reflexivity. }
  unfold boot_aps. erewrite bind_Ret by (apply inks_Ret, inpm_Ret; exact Ek). erewrite bind_Ret by (apply inks_Ret, inpm_Ret; reflexivity).
  assert (machine kp n G f l v (s_ks (with_entry_code s))) as M1.
  { apply machine_poke; [exact M|]. intros b Hb. unfold entry_code. rewrite memmove_spec by lia. apply decide_False. intros F.
    apply (Hlow (b / PGSIZE)); [right; symmetry; apply Z.div_unique with (b - 7 * PGSIZE); change MPENTRY_PADDR with (7 * PGSIZE) in F; unfold PGSIZE in *; lia|exact Hb]. }
  rewrite bind_gets. match goal with |- ∃ s', for_range _ _ _ _ ?st = _ ∧ _ => change st with (with_entry_code s) end.
  set (s1 := with_entry_code s) in *. change (ncpu (s_mp _)) with (ncpu (s_mp s)). rewrite HN.
  destruct (for_range_inv (λ c, aps_up s1 me v c) (boot_ap (KERNBASE + MPENTRY_PADDR)) 1 (Z.to_nat N) 0 s1) as (s' & E & H').
  - assert (aps_count me 0 = 0) as Ec by (unfold aps_count; case_decide; lia).
    assert (∀ i, ¬ ap_of me 0 i) as Hno by (unfold ap_of; lia). split.
    + reflexivity.
    + rewrite Ec, Z.add_0_r. exact M1.
    + auto 10.
    + intros i. rewrite decide_False by apply Hno. reflexivity.
    + intros i Hi. destruct (Hno i Hi).
    + intros i Hi. destruct (Hno i Hi).
    + intros i Hi. destruct (Hno i Hi).
    + split; [reflexivity|]. intros b _ _ _. reflexivity.
  - intros k s2 Hk H2. rewrite Z2Nat.id in Hk by lia. rewrite !Z.mul_1_r, !Z.add_0_l in *. destruct (Hcpus k Hk) as (x & Hx & Hid).
    eapply boot_ap_run; [exact H2|exact Hmr|lia| |exact Hla|exact Hx|exact Hid].
    unfold mmio_vpn, aps_count. case_decide; lia.
  - rewrite Z.mul_1_r, Z.add_0_l, Z2Nat.id in H' by lia. exists s'. split; [exact E|]. split; [exact M1|exact H'].
Qed.
End aps.
