(* ===== verification/StartSpec.v ===== *)
(** i386_init as a whole: from a machine with a kernel and a program in memory
    to the first instruction of the program. *)
From S2P Require Import Prelude Mmu Mem Pages PageTable AddrSpace UserMem Console KState Lapic Mpconfig Env EnvVm EnvSpec Syscall SyscallSpec KSpace Boot BootCheck BootSpec BootInv SelfTest MemInit Trap Init LapicSpec TrapSpec LoadSpec InitSpec.

(** * Devices that always answer *)

Definition returns {S A} (m : M S A) : Prop := ∀ s, ∃ a s', m s = Ret a s'.

Lemma returns_bind {S A B} (m : M S A) (k : A → M S B) : returns m → (∀ a, returns (k a)) → returns (m ≫= k).
Proof.
  intros Hm Hk s. destruct (Hm s) as (a & s1 & E). destruct (Hk a s1) as (b & s2 & E2). exists b, s2.
  rewrite (bind_Ret _ _ _ _ _ E). exact E2.
Qed.
Lemma returns_modify {S} (f : S → S) : returns (modify f).
Proof. intros s. eexists _, _. reflexivity. Qed.
Lemma returns_gets {S A} (f : S → A) : returns (gets f).
Proof. intros s. eexists _, _. reflexivity. Qed.
Lemma returns_get {S} : returns (S:=S) get.
Proof. intros s. eexists _, _. reflexivity. Qed.
Lemma returns_mret {S A} (a : A) : returns (S:=S) (mret a).
Proof. intros s. eexists _, _. reflexivity. Qed.
Lemma returns_when {S} b (m : M S unit) : returns m → returns (when b m).
Proof. destruct b; [trivial|intros _; apply returns_mret]. Qed.
Lemma returns_range {S} n a d (body : Z → M S unit) : (∀ i, returns (body i)) → returns (for_range n a d body).
Proof. intros H. revert a. induction n as [|n IH]; intros a; [apply returns_mret|]. apply returns_bind; [apply H|intros _; apply IH]. Qed.
Lemma returns_if {S A} (b : bool) (m n : M S A) : returns m → returns n → returns (if b then m else n).
Proof. destruct b; trivial. Qed.

Create HintDb returns.
#[local] Hint Resolve returns_bind returns_modify returns_gets returns_get returns_mret returns_when returns_range returns_if : returns.

Lemma kbd_intr_returns : returns kbd_intr.
Proof.
  intros s. destruct (cons_intr_returns kbd_proc_data (S (pending s)) s kbd_proc_data_takes ltac:(lia)) as [s' E].
  exists tt, s'. exact E.
Qed.
Lemma outb_returns p v : returns (Console.outb p v).
Proof. apply returns_modify. Qed.
Lemma cprints_returns f a : returns (cprints f a).
Proof. apply returns_modify. Qed.
#[local] Hint Resolve kbd_intr_returns outb_returns cprints_returns : returns.

Lemma irq_setmask_returns mask : returns (irq_setmask_8259A mask).
Proof. unfold irq_setmask_8259A. auto 20 with returns. Qed.
#[local] Hint Resolve irq_setmask_returns : returns.

Lemma cons_init_returns : returns cons_init.
Proof.
  unfold cons_init, cga_init, kbd_init, serial_init.
  repeat (apply returns_bind; [auto 20 with returns|intros ?]); auto with returns.
Qed.
Lemma pic_init_returns : returns pic_init.
Proof. unfold pic_init. repeat (apply returns_bind; [auto with returns|intros ?]). auto with returns. Qed.

(** Such a device changes nothing but the console. *)
Lemma incon_run (m : M con unit) k : returns m → ∃ c, incon m k = Ret tt (set_kcons c k).
Proof. intros H. destruct (H (kcons k)) as ([] & c & E). exists c. unfold incon, lift. cbn [view update kcons_lens]. rewrite E. reflexivity. Qed.

(** * Program images *)

(** An image stays valid where its pages are not written. *)
Section image.
Context (K0 K : Z → Prop) (m m' : mem) (HK : ∀ q, K0 q → K q) (Hm : ∀ b, K0 (b / PGSIZE) → ld8 m' b = ld8 m b).

Lemma kernel_at_mono a n : kernel_at K0 a n → kernel_at K a n.
Proof. intros (H1 & H2 & H3). split; [exact H1|]. split; [exact H2|]. auto. Qed.

Lemma kword_ext a n o : kernel_at K0 a n → 0 ≤ o → o + 4 ≤ n → kword m' (a + o) = kword m (a + o).
Proof.
  intros (H1 & _ & H3) Ho Hn. apply ld32_ext. intros i Hi. apply Hm. replace (a + o - KERNBASE + i) with (a + o + i - KERNBASE) by lia. apply H3. lia.
Qed.
Lemma khalf_ext a n o : kernel_at K0 a n → 0 ≤ o → o + 2 ≤ n → khalf m' (a + o) = khalf m (a + o).
Proof.
  intros (H1 & _ & H3) Ho Hn. unfold khalf, ld16. rewrite !Hm; [reflexivity|..];
    [replace (a + o - KERNBASE + 1) with (a + o + 1 - KERNBASE) by lia|]; apply H3; lia.
Qed.

Lemma psegs_ext n ph : kernel_at K0 ph (sizeof_Proghdr * Z.of_nat n) → psegs m' n ph = psegs m n ph.
Proof.
  revert ph. induction n as [|n IH]; intros ph H; [reflexivity|]. cbn [psegs].
  rewrite IH by (eapply kernel_at_sub; [exact H|unfold sizeof_Proghdr; lia..]). f_equal. unfold pseg_at.
  rewrite <- (Z.add_0_r ph) at 1 6. rewrite !(kword_ext _ _ _ H) by (unfold sizeof_Proghdr; lia). reflexivity.
Qed.

Lemma elf_image_ext binary n : elf_image K0 m binary n →
  elf_image K m' binary n ∧ image_segs m' binary n = image_segs m binary n ∧ kword m' (binary + 24) = kword m (binary + 24).
Proof.
  intros [H1 H2 H3 H4 H5 H6]. assert (kword m' binary = kword m binary) as E0.
  { rewrite <- (Z.add_0_r binary). apply (kword_ext _ _ _ H1); lia. }
  assert (kword m' (binary + 28) = kword m (binary + 28)) as E28 by (apply (kword_ext _ _ _ H1); lia).
  assert (image_segs m' binary n = image_segs m binary n) as Es by (unfold image_segs; rewrite E28; apply psegs_ext, H4).
  split; [|split; [exact Es|apply (kword_ext _ _ _ H1); lia]]. split.
  - apply kernel_at_mono, H1.
  - congruence.
  - rewrite (khalf_ext _ _ _ H1) by lia. exact H3.
  - rewrite E28. apply kernel_at_mono, H4.
  - rewrite E28. exact H5.
  - unfold image_segs in Es. rewrite Es. eapply Forall_impl; [exact H6|]. intros sg [F1 F2]. split; [exact F1|]. intros Ht.
    destruct (F2 Ht) as (G1 & G2 & G3). split; [exact G1|]. split; [apply kernel_at_mono, G2|exact G3].
Qed.
End image.

Lemma kept_bytes (K : Z → Prop) m m' : kept K m m' → ∀ b, K (b / PGSIZE) → ld8 m' b = ld8 m b.
Proof.
  intros H b Hb. apply page_ld8. intros j Hj. apply H; assumption.
Qed.

(** * The first environments *)

Definition created (entry : Z) (o : option Env) : Prop :=
  ∃ e, o = Some e ∧ env_status e = ENV_RUNNABLE ∧ env_parent_id e = 0 ∧ env_tf e = set_tf_eip entry user_tf.

Lemma create_run (K : Z → Prop) kp x fl binary n c cnt : ∀ k l R i, kspace K k l R x kp (seqZ i (Z.of_nat cnt) ++ fl) → elf_image K (phys (kpm k)) binary n →
  Z.of_nat cnt * (2 * segs_pages (image_segs (phys (kpm k)) binary n) + 3) ≤ Z.of_nat (length l) →
  cpus k !! cpunum k = Some c → cpu_env c = None → cr3 (kpm k) = kern_pgdir (kpm k) - KERNBASE → ∃ k' l' R',
  for_range cnt i 1 (λ _, env_create binary ENV_TYPE_USER) k = Ret tt k' ∧
  kspace K k' l' R' x kp fl ∧ kept K (phys (kpm k)) (phys (kpm k')) ∧
  (∀ j, 0 ≤ j → i ≤ j < i + Z.of_nat cnt → created (kword (phys (kpm k)) (binary + 24)) (envs k' !! j)) ∧
  (∀ j, ¬ (i ≤ j < i + Z.of_nat cnt) → envs k' !! j = envs k !! j) ∧
  cr3 (kpm k') = kern_pgdir (kpm k') - KERNBASE ∧ cpus k' = cpus k ∧ cpunum k' = cpunum k ∧ klock k' = klock k.
Proof.
  induction cnt as [|cnt IH]; intros k l R i H Him Hl Hc Hce Hcr; cbn [for_range].
  - exists k, l, R. split; [reflexivity|]. split; [exact H|]. split; [reflexivity|]. split; [intros; lia|]. auto 10.
  - rewrite Nat2Z.inj_succ, seqZ_cons in H by lia. cbn [app] in H. replace (Z.pred (Z.succ (Z.of_nat cnt))) with (Z.of_nat cnt) in H by lia.
    set (m0 := phys (kpm k)) in *. pose proof (segs_pages_nonneg m0 n (binary + kword m0 (binary + 28))) as Hsp.
    change (psegs m0 n (binary + kword m0 (binary + 28))) with (image_segs m0 binary n) in Hsp.
    destruct (env_create_run K k l R x kp i _ binary ENV_TYPE_USER n c H Him ltac:(fold m0; nia) Hc ltac:(rewrite Hce; discriminate))
      as (k1 & l1 & pd & e & g & E & (He & Hs & Hpar & Hpd & Htf) & (Hk1 & _ & Hl1) & (C1 & C2 & C3 & C4) & Sp & _).
    pose proof (sp_kept _ _ _ _ _ _ _ _ _ Sp) as Hkept. fold m0 in Hkept, Hl1, Htf.
    destruct (elf_image_ext K K m0 (phys (kpm k1)) (λ q H, H) (kept_bytes _ _ _ Hkept) binary n Him) as (Him1 & Es & Ee).
    destruct (IH k1 l1 (pd :: R) (i + 1)) as (k' & l' & R' & E' & Hk' & Hkept' & Hnew & Hold & D1 & D2 & D3 & D4).
    + replace (Z.succ i) with (i + 1) in Hk1 by lia. exact Hk1.
    + exact Him1.
    + rewrite Es. nia.
    + rewrite C2, C3. exact Hc.
    + exact Hce.
    + exact C1.
    + exists k', l', R'. split; [rewrite (bind_Ret _ _ _ _ _ E); exact E'|]. split; [exact Hk'|]. split; [etransitivity; eassumption|].
      split; [|split; [|split; [exact D1|split; [congruence|split; congruence]]]].
      * intros j Hj Hji. destruct (decide (j = i)) as [->|D].
        -- rewrite Hold by lia. rewrite He, lookup_insert_eq. exists e. auto.
        -- rewrite <- Ee. apply Hnew; lia.
      * intros j Hj. rewrite Hold by lia. rewrite He. apply lookup_insert_ne. lia.
Qed.

(** * i386_init *)

Lemma kboot_length kp m0 n g s l : kboot kp m0 n g s l → npages s - boot_ff kp (npages s) + 158 - Z.of_nat n ≤ Z.of_nat (length l).
Proof.
  intros B. destruct (kb_taken _ _ _ _ _ _ B) as (l0 & Hl0 & H0). destruct (kb_size _ _ _ _ _ _ B) as [Hk Hb].
  set (ff := boot_ff kp (npages s)) in *. assert (160 ≤ ff) as Hff by (destruct (low_pages _ _ _ _ _ _ B) as [_ H7]; specialize (H7 7 (or_intror eq_refl)); unfold ff, boot_ff in *;
    destruct (ROUNDUP_pages _ (pi_npages _ _ (kd_pages _ _ _ (kb_dir _ _ _ _ _ _ B)))) as [_ ?]; lia).
  set (k := seqZ 1 6 ++ seqZ 8 152 ++ seqZ ff (npages s - ff)).
  assert (NoDup k) as Hk'.
  { unfold k. rewrite !NoDup_app. pose proof NoDup_seqZ as Hnd. split; [apply Hnd|]. split; [|split; [apply Hnd|split; [|apply Hnd]]];
      intros i; rewrite ?elem_of_app, !elem_of_seqZ; lia. }
  assert (length k ≤ length (l ++ l0))%nat as Hle.
  { apply submseteq_length, NoDup_submseteq; [exact Hk'|]. intros i Hi. apply elem_of_app, H0. unfold free_at_boot. fold ff.
    unfold k in Hi. rewrite !elem_of_app, !elem_of_seqZ in Hi. lia. }
  unfold k in Hle. rewrite !length_app, !length_seqZ in Hle. lia.
Qed.

Lemma detect_phys cmos s m : detect_memory cmos (with_phys m s)
  = match detect_memory cmos s with Ret a t => Ret a (with_phys m t) | Stop w t => Stop w (with_phys m t) end.
Proof. unfold detect_memory. mrun. reflexivity. Qed.

Section start.
Context (cmos : Z → Z) (lapic_rd : Z → list (Z * Z * Z) → nat → Z → Z) (polls : nat)
  (edata kend bootstack percpu_kstacks mpentry_start mpentry_end entry_pgdir : Z) (t_handler cpu_ts : Z → Z)
  (test : option Z) (user_fairness : Z) (kp bst kst np f conf mp : Z) (es : list mp_entry) (n : nat).

(** The first programs. *)
Definition first_image : Z := default user_fairness test.
Definition copies : nat := if test then 1 else 5.

(** The pages of the kernel's image with its code and constants, in which
    programs are embedded; the pages of the firmware. *)
Definition image_page (q : Z) : Prop := 256 ≤ q ∧ (q + 1) * PGSIZE ≤ edata - KERNBASE.
Definition firmware_page (q : Z) : Prop := q = 0 ∨ 160 ≤ q < 256.

(** The tables of the firmware, in any memory that agrees with [m] on the
    firmware's pages: the kernel has overwritten others by then. *)
Definition mp_tables (m : mem) : Prop := ∀ m', (∀ b, firmware_page (b / PGSIZE) → ld8 m' b = ld8 m b) →
  good_tables m' np conf mp ∧
  entries_at m' (conf_entries conf - KERNBASE) es ∧
  ld16 m' (conf_entry conf - KERNBASE) = Z.of_nat (length es) ∧
  ld32 m' (conf_lapicaddr conf - KERNBASE) = f * PGSIZE.

Record start_ok (s : sys) : Prop := {
  st_boot : bootable cmos kend bootstack percpu_kstacks (kpm (s_ks s)) kp bst kst;
  st_np : detected cmos (kpm (s_ks s)) (with_npages np np (kpm (s_ks s)));
  st_bss : KERNBASE + 256 * PGSIZE ≤ edata ≤ kend ∧ kend ≤ kva_of kp;
  st_envs : table_clear (envs (s_ks s));
  st_lock : klock (s_ks s) = None;
  st_cpu0 : cpunum (s_ks s) = 0;
  st_cpus : ∀ i, is_Some (cpus (s_ks s) !! i) ↔ 0 ≤ i < NCPU;
  st_idle : ∀ i c, cpus (s_ks s) !! i = Some c → cpu_id c = 0 ∧ cpu_env c = None;
  st_mp : ncpu (s_mp s) = 0;
  st_tables : mp_tables (phys (kpm (s_ks s)));
  st_cpu_boot : boot_index 0 0 es = 0 ∧ 0 < processors es;
  st_lapic : lapic_ok lapic_rd polls (f * PGSIZE) ∧ 0 < f < 1048575;
  st_code : KERNBASE ≤ entry_pgdir < 2 ^ 32 ∧ 0 ≤ mpentry_end - mpentry_start ≤ PGSIZE;
  st_image : elf_image image_page (phys (kpm (s_ks s))) first_image n;
  st_room : Z.of_nat copies * (2 * segs_pages (image_segs (phys (kpm (s_ks s))) first_image n) + 3) ≤ np - boot_ff kp np + 90
}.

(** ** Up to mp_init *)

Definition same_image (m m' : mem) : Prop := ∀ b, image_page (b / PGSIZE) → ld8 m' b = ld8 m b.
Definition boot_vpn : Z := MMIOBASE / PGSIZE + 3.

Record kernel_up (s s1 : sys) (l : list Z) : Prop := {
  ku_mp : s_mp s1 = s_mp s ∧ entry_esp s1 = entry_esp s;
  ku_devs : devs kp 68 (boot_map kp kst np) (kpm (s_ks s1)) l boot_vpn;
  ku_np : npages (kpm (s_ks s1)) = np;
  ku_env : espace (envs (s_ks s1)) (env_free_list (s_ks s1)) [] (seqZ 0 NENV);
  ku_lock : klock (s_ks s1) = None;
  ku_cpu0 : cpunum (s_ks s1) = 0;
  ku_cpus : ∀ i, is_Some (cpus (s_ks s1) !! i) ↔ 0 ≤ i < NCPU;
  ku_idle : ∀ i c, cpus (s_ks s1) !! i = Some c → cpu_env c = None;
  ku_firmware : ∀ b, firmware_page (b / PGSIZE) → ld8 (phys (kpm (s_ks s1))) b = ld8 (phys (kpm (s_ks s))) b;
  ku_image : same_image (phys (kpm (s_ks s))) (phys (kpm (s_ks s1)))
}.

Lemma phase1 s : start_ok s → ∃ s1 l, kernel_up s s1 l ∧ ∀ m : M sys unit,
  (inks (inpm (kmemset edata 0 (kend - edata))) ;; inks (incon cons_init) ;; inks (cprintf "6828 decimal is %o octal!\n" [6828]) ;;
   inks (mem_init cmos kend bootstack percpu_kstacks) ;; inks env_init ;; inks (trap_init t_handler cpu_ts) ;; m) s = m s1.
Proof.
  intros [Hboot (sd & Ed & Nd) (Hbss & Hke) Henv Hlock Hc0 Hcp Hid _ _ _ _ _ _ _]. set (k := s_ks s) in *.
  set (m1 := memset (phys (kpm k)) (edata - KERNBASE) 0 (kend - edata)).
  set (k1 := set_kpm (with_phys m1 (kpm k)) k).
  assert (bootable cmos kend bootstack percpu_kstacks (kpm k1) kp bst kst) as Hb1.
  { destruct Hboot as [B1 B2 B3 B4 B5 B6 B7]. split; try assumption. intros s' E. change (kpm k1) with (with_phys m1 (kpm k)) in E.
    rewrite detect_phys, Ed in E. injection E as <-. psimpl. apply (B7 _ Ed). }
  destruct (incon_run cons_init k1 cons_init_returns) as [c E2].
  set (k3 := set_klog (("6828 decimal is %o octal!\n"%string, [6828]) :: klog k1) (set_kcons c k1)).
  destruct (mem_init_run cmos kend bootstack percpu_kstacks k3 kp bst kst Hb1) as (sm & l & E4 & B & _ & C & M & P & (sd' & Ed' & Nd')).
  change (kpm k3) with (with_phys m1 (kpm k)) in Ed'. rewrite detect_phys, Ed in Ed'. injection Ed' as <-. psimpl.
  assert (npages sm = np) as Enp by (rewrite Nd'; symmetry; exact Nd).
  set (k4 := set_klog (boot_log cmos ++ klog k3) (set_kpm sm k3)) in *.
  destruct (env_init_kspace kp _ 68 _ k4 l B Henv) as (k5 & x & E5 & [_ Hes] & Ek5 & Es5).
  destruct (proj2 (Hcp 0)) as [c0 Hx0]; [split; reflexivity|].
  assert (cpus k5 !! cpunum k5 = Some c0) as Hx5 by (rewrite Es5; ksimpl; change (cpus k !! cpunum k = Some c0); rewrite Hc0; exact Hx0).
  destruct (trap_init_run t_handler cpu_ts k5 c0 Hx5) as (T & E6 & _). set (k6 := tss_state cpu_ts c0 (with_idt T k5)) in *.
  assert (kpm k6 = sm) as Ekpm by (change (kpm k6) with (kpm k5); exact Ek5).
  destruct Hboot as [_ _ _ Hkp _ _ _].
  assert (∀ b, 160 ≤ b / PGSIZE < kp ∨ b / PGSIZE = 0 → (edata - KERNBASE ≤ b → kend - KERNBASE ≤ b) → ld8 (phys sm) b = ld8 (phys (kpm k)) b) as Hm.
  { intros b Hb Hd. destruct (low_pages _ _ _ _ _ _ B) as [Hkp' Hlow]. rewrite (kb_mem _ _ _ _ _ _ B b).
    - change (phys (kpm k3)) with m1. unfold m1. rewrite memset_spec by lia. apply decide_False. lia.
    - intros F. lia.
    - intros F. destruct Hb as [Hb|Hb]; [|exact (Hlow _ (or_introl Hb) (or_intror F))].
      destruct (ROUNDUP_pages _ (pi_npages _ _ (kd_pages _ _ _ (kb_dir _ _ _ _ _ _ B)))) as [_ Hu].
      clear -F Hb Hu. unfold free_at_boot, boot_ff in F. lia. }
  assert (cpus k6 = <[0 := with_tss c0]> (cpus k)) as Ecp.
  { unfold k6, tss_state. ksimpl. change (cpunum (with_idt T k5)) with (cpunum k5). change (cpus (with_idt T k5)) with (cpus k5).
    rewrite Es5. ksimpl. change (cpunum k4) with (cpunum k). rewrite Hc0. reflexivity. }
  assert (klock k6 = klock k ∧ cpunum k6 = cpunum k) as [El6 Ec6].
  { change (klock k5 = klock k ∧ cpunum k5 = cpunum k). rewrite Es5. split; reflexivity. }
  exists (set_s_ks k6 s), l. split.
  - split; cbn [s_ks s_mp entry_esp set_s_ks]; rewrite ?Ekpm.
    + split; reflexivity.
    + split.
      * exists (boot_map kp kst (npages sm)). split; [eapply kboot_rebase, B|]. rewrite Enp. reflexivity.
      * exact C.
      * exact M.
      * unfold pt_of. change MMIOSLOT with (PDX MMIOBASE). rewrite P. eauto.
    + exact Enp.
    + exact Hes.
    + rewrite El6. exact Hlock.
    + rewrite Ec6. exact Hc0.
    + intros i. rewrite Ecp, lookup_insert_is_Some', <- Hcp. split; [intros [<-|]; eauto|auto].
    + intros i c'. rewrite Ecp. destruct (decide (i = 0)) as [->|D]; [rewrite lookup_insert_eq; intros [= <-]; apply (Hid 0 c0 Hx0)|].
      rewrite lookup_insert_ne by congruence. intros Hi. apply (Hid i c' Hi).
    + intros b [Hb|Hb]; apply Hm; unfold KERNBASE, PGSIZE in *; Z.div_mod_to_equations; lia.
    + intros b [F1 F2]. apply Hm.
      * left. split; [lia|]. unfold kva_of, KERNBASE, PGSIZE in *. lia.
      * unfold KERNBASE, PGSIZE in *. Z.div_mod_to_equations. lia.
  - intros m. erewrite bind_Ret by (apply inks_Ret, inpm_Ret; reflexivity). erewrite bind_Ret by (apply inks_Ret; exact E2).
    erewrite bind_Ret by reflexivity. erewrite bind_Ret by (apply inks_Ret; exact E4). erewrite bind_Ret by (apply inks_Ret; exact E5).
    erewrite bind_Ret by (apply inks_Ret; exact E6). reflexivity.
Qed.

(** ** Up to the first environment *)

Lemma image_fixed q : KERNBASE + 256 * PGSIZE ≤ edata ≤ kend ∧ kend ≤ kva_of kp → 256 ≤ kp → 0 < np ≤ 65536 → image_page q →
  q ≠ kp ∧ ¬ free_at_boot kp np q ∧ q ≠ 0 ∧ q ≠ 7.
Proof.
  intros Hb Hk Hn [H1 H2]. destruct (ROUNDUP_pages np Hn) as [_ Hu]. unfold kva_of, KERNBASE, PGSIZE in *.
  unfold free_at_boot, boot_ff. lia.
Qed.

Definition started_cpus : Z := Z.min 8 (processors es).

(** All processors have been started; this one holds the lock. *)
Record kernel_ready (s s2 : sys) (l : list Z) : Prop := {
  kr_devs : devs kp 68 (boot_map kp kst np) (kpm (s_ks s2)) l (boot_vpn + started_cpus);
  kr_np : npages (kpm (s_ks s2)) = np;
  kr_env : espace (envs (s_ks s2)) (env_free_list (s_ks s2)) [] (seqZ 0 NENV);
  kr_lock : klock (s_ks s2) = Some 0;
  kr_cpu0 : cpunum (s_ks s2) = 0;
  kr_ncpu : ncpu (s_mp s2) = started_cpus;
  kr_idle : ∀ i, 0 ≤ i < NCPU → ∃ c, cpus (s_ks s2) !! i = Some c ∧ cpu_env c = None ∧
    (i < started_cpus → cpu_id c = i ∧ cpu_status c = CPU_STARTED);
  kr_stacks : ∀ i, 0 < i < started_cpus → entry_esp s2 !! i = Some (ap_stack percpu_kstacks i) ∧
    ∃ ws ws', lapic_writes (ktrap (s_ks s2)) = ws ++ sent 0 (f * PGSIZE) (startap_regs i MPENTRY_PADDR) ++ ws';
  kr_image : same_image (phys (kpm (s_ks s))) (phys (kpm (s_ks s2)))
}.

(** Of an idle table of CPUs, after mp_init. *)
Lemma mp_init_cpus s s1 l : start_ok s → kernel_up s s1 l → ∃ m, mp_init (view mp_sys_lens s1) = Ret tt m ∧ mp_pm m = kpm (s_ks s1) ∧
  ncpu m = started_cpus ∧ bootcpu m = 0 ∧ lapicaddr m = f * PGSIZE ∧ cpus_ok (mp_cpus m) started_cpus ∧
  same_cpu_envs (cpus (s_ks s1)) (mp_cpus m) ∧ ∃ c, mp_cpus m !! 0 = Some c ∧ cpu_status c = CPU_STARTED.
Proof.
  intros Hs Hk. destruct (st_tables _ Hs _ (ku_firmware _ _ _ Hk)) as (T0 & T1 & T2 & T3). rewrite <- (ku_np _ _ _ Hk) in T0.
  destruct (st_cpu_boot _ Hs) as [Hb0 Hp].
  destruct (mp_init_run es conf mp (view mp_sys_lens s1)) as (m & c & E & F1 & F2 & F3 & F4 & F5 & F6 & F7 & F8).
  - cbn. rewrite (proj1 (ku_mp _ _ _ Hk)). apply (st_mp _ Hs).
  - split; [apply (ku_cpus _ _ _ Hk)|lia].
  - exact T0.
  - exact T1.
  - exact T2.
  - rewrite Hb0. reflexivity.
  - rewrite F2 in F5. rewrite F3, Hb0 in F7. exists m. split; [exact E|]. split; [exact F1|]. split; [exact F2|]. split; [congruence|].
    split; [rewrite F4; exact T3|]. split; [exact F5|]. split; [exact F6|]. eauto.
Qed.

Lemma phase2 s s1 l : start_ok s → kernel_up s s1 l → ∃ s2, kernel_ready s s2 l ∧ ∀ m : M sys unit,
  (lift mp_sys_lens mp_init ;; (m ← gets s_mp; inks (lapic_init lapic_rd polls (lapicaddr m) (bootcpu m))) ;; inks (incon pic_init) ;;
   inks lock_kernel ;; boot_aps lapic_rd polls percpu_kstacks mpentry_start mpentry_end entry_pgdir cpu_ts ;; m) s1 = m s2.
Proof.
  intros Hs Hk. destruct (mp_init_cpus s s1 l Hs Hk) as (mm & E1 & P1 & N1 & B1 & A1 & [Cd Ci] & Ce & (c0 & C0 & S0)).
  destruct (st_lapic _ Hs) as [Hok Hf]. destruct (st_cpu_boot _ Hs) as [_ Hp]. destruct (st_code _ Hs) as [Hpg Hlen].
  set (s2 := update mp_sys_lens mm s1). set (k2 := s_ks s2).
  assert (kpm k2 = kpm (s_ks s1)) as Ep2 by exact P1.
  assert (cpunum k2 = 0) as Ec2 by apply (ku_cpu0 _ _ _ Hk).
  destruct (machine_lapic_init lapic_rd polls f Hok Hf kp 68 (boot_map kp kst np) l boot_vpn 0 k2) as (sp & ver & E3 & M3 & N3 & F3);
    [rewrite Ep2; apply (ku_devs _ _ _ Hk)|unfold mmio_vpn, boot_vpn; change (MMIOLIM / PGSIZE) with (MMIOBASE / PGSIZE + 1024); lia|lia|].
  set (k3 := send _ _ _) in *. destruct (incon_run pic_init k3 pic_init_returns) as [c E4].
  set (k5 := set_klock (Some (cpunum (set_kcons c k3))) (set_kcons c k3)).
  assert (machine kp 68 (boot_map kp kst np) f l (boot_vpn + 1) k5) as M5 by (eapply machine_ext; [exact M3|reflexivity..]).
  set (s5 := set_s_ks k5 s2).
  assert (0 < started_cpus ≤ 8) as HN by (unfold started_cpus; lia).
  destruct (boot_aps_run lapic_rd polls f Hok Hf percpu_kstacks mpentry_start mpentry_end entry_pgdir cpu_ts Hpg kp 68 (boot_map kp kst np) l
    s5 0 (boot_vpn + 1) started_cpus M5 Ec2 ltac:(lia) N1 ltac:(lia)) as (s6 & E6 & _ & [Amp AM (D1 & D2 & D3 & D4 & _) Acp Aesp _ Aipi [AN Amem]]).
  - intros i Hi. destruct (proj2 (Cd i)) as [x Hx]; [unfold NCPU; lia|]. exists x. split; [exact Hx|]. apply (Ci i x Hi Hx).
  - discriminate.
  - change (MMIOLIM / PGSIZE) with (boot_vpn + 1021). lia.
  - exact A1.
  - exact Hlen.
  - assert (∀ i, ap_of 0 started_cpus i ↔ 0 < i < started_cpus) as Hap by (intros i; unfold ap_of; lia).
    exists s6. split; [split|].
    + replace (boot_vpn + started_cpus) with (boot_vpn + 1 + aps_count 0 started_cpus) by (unfold aps_count; rewrite decide_True by lia; lia). apply AM.
    + rewrite AN. cbn. rewrite N3, Ep2. apply (ku_np _ _ _ Hk).
    + rewrite D2, D3. apply (ku_env _ _ _ Hk).
    + rewrite D4. cbn. f_equal. exact Ec2.
    + rewrite D1. reflexivity.
    + rewrite Amp. exact N1.
    + intros i Hi. destruct (proj2 (Cd i) Hi) as [x Hx]. specialize (Ce i). rewrite Hx in Ce.
      destruct (proj2 (ku_cpus _ _ _ Hk i) Hi) as [y Hy]. rewrite Hy in Ce. cbn in Ce. injection Ce as Ce.
      rewrite (ku_idle _ _ _ Hk i y Hy) in Ce. rewrite Acp. change (cpus (s_ks (with_entry_code _ _ s5)) !! i) with (mp_cpus mm !! i).
      rewrite Hx. case_decide as D; eexists (_ : CpuInfo); (split; [reflexivity|]); (split; [exact Ce|]); intros Hi2.
      * split; [apply (Ci i x); [lia|exact Hx]|reflexivity].
      * assert (i = 0) as -> by (rewrite Hap in D; lia). rewrite C0 in Hx. injection Hx as ->. split; [apply (Ci 0 x); [lia|exact C0]|exact S0].
    + intros i Hi%Hap. split; [apply Aesp, Hi|apply Aipi, Hi].
    + intros b Hb. destruct (dv_boot _ _ _ _ _ _ (ku_devs _ _ _ Hk)) as (g & B & _). destruct (kb_size _ _ _ _ _ _ B) as [Hk1 Hk2].
      rewrite (ku_np _ _ _ Hk) in Hk2.
      destruct (image_fixed _ (st_bss _ Hs) Hk1 ltac:(rewrite <- (ku_np _ _ _ Hk); apply (pi_npages _ _ (kd_pages _ _ _ (kb_dir _ _ _ _ _ _ B)))) Hb) as (I1 & I2 & I3 & I4).
      assert (npages sp = np) as Nsp by (rewrite N3, Ep2; apply (ku_np _ _ _ Hk)).
      rewrite Amem; [|exact I1|cbn; rewrite Nsp; exact I2|exact I3]. cbn. unfold entry_code. rewrite memmove_spec by lia.
      rewrite decide_False.
      * rewrite F3; [|exact I1|rewrite Ep2, (ku_np _ _ _ Hk); exact I2]. rewrite Ep2. apply (ku_image _ _ _ Hk b Hb).
      * intros F. apply I4. symmetry. apply Z.div_unique with (b - 7 * PGSIZE); change MPENTRY_PADDR with (7 * PGSIZE) in F; unfold PGSIZE in *; lia.
    + intros m. erewrite bind_Ret by (unfold lift; rewrite E1; reflexivity). fold s2. rewrite bind_assoc, bind_gets.
    change (s_mp s2) with (set_s_mp mm s1).(s_mp). cbn [s_mp set_s_mp]. rewrite A1, B1.
    erewrite bind_Ret by (apply inks_Ret; exact E3). erewrite bind_Ret by (apply inks_Ret; exact E4).
    erewrite bind_Ret. 2:{ apply inks_Ret. cbn [s_ks set_s_ks]. unfold lock_kernel. change (klock (set_kcons c k3)) with (klock (s_ks s1)).
      rewrite (ku_lock _ _ _ Hk). reflexivity. }
    erewrite bind_Ret by exact E6. reflexivity.
Qed.

(** ** The first environments *)

Lemma create_envs_eq : create_envs test user_fairness = match test with
  | Some _ => env_create first_image ENV_TYPE_USER
  | None => for_range copies 0 1 (λ _, env_create first_image ENV_TYPE_USER) end.
Proof. unfold create_envs, first_image, copies. destruct test; reflexivity. Qed.

Lemma create_envs_range k : create_envs test user_fairness k = for_range copies 0 1 (λ _, env_create first_image ENV_TYPE_USER) k.
Proof.
  rewrite create_envs_eq. unfold copies. destruct test as [b|]; [|reflexivity]. cbn [for_range].
  rewrite bind_unfold. destruct (env_create _ _ k) as [[] ?|]; reflexivity.
Qed.

Lemma phase3 s s2 l0 : start_ok s → kernel_ready s s2 l0 → ∃ k l R x,
  create_envs test user_fairness (s_ks s2) = Ret tt k ∧ kspace (kernel_page (s_ks s2) l0) k l R x kp (seqZ (Z.of_nat copies) (NENV - Z.of_nat copies)) ∧
  (∀ j, 0 ≤ j < Z.of_nat copies → created (kword (phys (kpm (s_ks s))) (first_image + 24)) (envs k !! j)) ∧
  cr3 (kpm k) = kern_pgdir (kpm k) - KERNBASE ∧ cpus k = cpus (s_ks s2) ∧ cpunum k = 0 ∧ klock k = Some 0.
Proof.
  intros Hs Hr. destruct (dv_boot _ _ _ _ _ _ (kr_devs _ _ _ Hr)) as (g & B & _).
  pose proof (kr_np _ _ _ Hr) as Hnp. destruct (kb_size _ _ _ _ _ _ B) as [Hk1 Hk2]. pose proof (kb_dir _ _ _ _ _ _ B) as Hd.
  assert (∀ q, image_page q → kernel_page (s_ks s2) l0 q) as Hip.
  { intros q Hq. destruct (image_fixed q (st_bss _ Hs) Hk1 ltac:(rewrite <- Hnp; apply (kd_pages _ _ _ Hd)) Hq) as (I1 & I2 & _). split.
    - destruct Hq as [Q1 Q2]. destruct (st_bss _ Hs) as [? ?]. destruct (kd_kp _ _ _ Hd). unfold kva_of, KERNBASE, PGSIZE in *. lia.
    - intros F. apply I2. rewrite <- Hnp. apply (kb_free _ _ _ _ _ _ B), F. }
  destruct (elf_image_ext image_page (kernel_page (s_ks s2) l0) _ _ Hip (kr_image _ _ _ Hr) first_image n (st_image _ Hs)) as (Him & Es & Ee).
  assert (kspace (kernel_page (s_ks s2) l0) (s_ks s2) l0 [] (all_refs (kpm (s_ks s2))) kp (seqZ 0 NENV)) as H.
  { split; [|apply (kr_env _ _ _ Hr)].
    apply start_vspace; [exact Hd|apply (kb_roots _ _ _ _ _ _ B)|reflexivity|apply (kb_used _ _ _ _ _ _ B)|apply B|apply B]. }
  assert (0 ≤ Z.of_nat copies ≤ NENV) as Hc by (unfold copies, NENV; destruct test; split; discriminate).
  replace NENV with (Z.of_nat copies + (NENV - Z.of_nat copies)) in H by lia. rewrite seqZ_app in H by lia. rewrite Z.add_0_l in H.
  destruct (kr_idle _ _ _ Hr 0 ltac:(split; reflexivity || discriminate)) as (c & Hc0 & Hce & _).
  destruct (create_run (kernel_page (s_ks s2) l0) kp _ _ first_image n c copies (s_ks s2) l0 [] 0 H Him) as (k & l & R & E & Hk & _ & Hnew & _ & C1 & C2 & C3 & C4).
  - rewrite Es. pose proof (kboot_length _ _ _ _ _ _ B) as Hl. rewrite Hnp in Hl. etransitivity; [apply (st_room _ Hs)|]. lia.
  - rewrite (kr_cpu0 _ _ _ Hr). exact Hc0.
  - exact Hce.
  - rewrite (dv_cr3 _ _ _ _ _ _ (kr_devs _ _ _ Hr)), (proj1 (kb_roots _ _ _ _ _ _ B)). unfold kva_of. lia.
  - exists k, l, R, (all_refs (kpm (s_ks s2))). rewrite create_envs_range. split; [exact E|]. split; [exact Hk|]. split.
    + intros j Hj. rewrite <- Ee. apply Hnew; lia.
    + split; [exact C1|]. split; [exact C2|]. split; [rewrite C3; apply (kr_cpu0 _ _ _ Hr)|rewrite C4; apply (kr_lock _ _ _ Hr)].
Qed.
End start.

(** ** The scheduler's first choice *)

(** What an idle CPU with the lock knows. *)
Lemma kspace_sched K k l R x kp fl c : kspace K k l R x kp fl → cpus k !! cpunum k = Some c → cpu_env c = None →
  klock k = Some (cpunum k) → sched_ok k c.
Proof.
  intros H Hc He Hl. destruct (kspace_kern _ _ _ _ _ _ _ H) as [E Hkp]. split; try assumption.
  - intros i Hi. apply (es_dom _ _ _ _ (ksp_env _ _ _ _ _ _ _ H)), Hi.
  - intros i Hi. rewrite He in Hi. discriminate.
  - intros i e Hi Hie Hs. destruct (live_pgdir K k l R x kp fl i e H) as (pd & _ & Ep & Hpd); [split; [exact Hie|rewrite Hs; discriminate]|].
    apply (PADDR_kva_of (kpm k) _ pd Hpd Ep).
  - apply (PADDR_kva_of (kpm k) _ kp Hkp E).
Qed.

Lemma first_run K k l R x kp fl c e : kspace K k l R x kp fl → cpus k !! cpunum k = Some c → cpu_env c = None →
  klock k = Some (cpunum k) → cr3 (kpm k) = kern_pgdir (kpm k) - KERNBASE → envs k !! 0 = Some e → env_status e = ENV_RUNNABLE →
  ∃ k', sched_yield k = Stop (SRun 0) k' ∧ switched k c 0 k' ∧ kernel_ok K k' (Some 0).
Proof.
  intros H Hc He Hl Hcr He0 Hs0. pose proof (kspace_sched K k l R x kp fl c H Hc He Hl) as So.
  assert (sched_offset k c = 0) as Eo by (unfold sched_offset; rewrite He; reflexivity).
  destruct (sched_first k c 0 So) as (k' & E & Sw); [split; reflexivity || discriminate|rewrite Eo; exists e; auto|lia|].
  rewrite Eo in E, Sw. change ((0 + 0) mod NENV) with 0 in *. exists k'. split; [exact E|]. split; [exact Sw|].
  assert (inside K k k None) as Hi.
  { split; [split; [exists l, R, x, kp, fl; exact H|exists c; auto]|exact Hl|reflexivity]. }
  pose proof (sched_yield_wp K k k None Hi) as W. unfold wp in W. rewrite E in W. apply W.
Qed.

(** ** i386_init *)

Lemma option_same_env_inv x o : option_Forall2 same_env (Some x) o → ∃ y, o = Some y ∧ same_env x y.
Proof. inversion 1; subst. eauto. Qed.

(** C8. The kernel starts the machine and gets to its first program.  From a
    state as the boot loader leaves it, with enough memory, tables of the
    firmware, controllers that answer, and a program in the kernel's image,
    i386_init neither panics nor loops: it ends in user mode, in environment 0.
    The kernel's invariant holds, the kernel lock is free, and this CPU
    knows what it runs; the environments created are set up to start at the
    program's entry point, the first one running and the others runnable, and
    every other slot is free; and each other processor of the tables, up to
    eight in all, has entered C code on a kernel stack of its own, and is marked
    as started and idle. *)
Theorem i386_init_runs (cmos : Z → Z) (lapic_rd : Z → list (Z * Z * Z) → nat → Z → Z) (polls : nat)
    (edata kend bootstack percpu_kstacks mpentry_start mpentry_end entry_pgdir : Z) (t_handler cpu_ts : Z → Z)
    (test : option Z) (user_fairness kp bst kst np f conf mp : Z) (es : list mp_entry) (n : nat) (s : sys) :
  start_ok cmos lapic_rd polls edata kend bootstack percpu_kstacks mpentry_start mpentry_end entry_pgdir
    test user_fairness kp bst kst np f conf mp es n s →
  ∃ s' K,
    i386_init cmos lapic_rd polls edata kend bootstack percpu_kstacks mpentry_start mpentry_end entry_pgdir t_handler cpu_ts
      test user_fairness s = Stop (SRun 0) s' ∧
    kernel_ok K (s_ks s') (Some 0) ∧ klock (s_ks s') = None ∧ cpunum (s_ks s') = 0 ∧
    (∀ j, 0 ≤ j < NENV → ∃ e, envs (s_ks s') !! j = Some e ∧
      if decide (j < Z.of_nat (copies test))
      then env_status e = (if decide (j = 0) then ENV_RUNNING else ENV_RUNNABLE) ∧
        env_tf e = set_tf_eip (kword (phys (kpm (s_ks s))) (first_image test user_fairness + 24)) user_tf
      else env_status e = ENV_FREE) ∧
    ncpu (s_mp s') = Z.min 8 (processors es) ∧
    (∀ i, 0 < i < Z.min 8 (processors es) →
      (∃ c, cpus (s_ks s') !! i = Some c ∧ cpu_id c = i ∧ cpu_status c = CPU_STARTED ∧ cpu_env c = None) ∧
      entry_esp s' !! i = Some (w32 (percpu_kstacks + i * KSTKSIZE + KSTKSIZE))).
Proof.
  intros Hs.
  edestruct phase1 with (t_handler := t_handler) (cpu_ts := cpu_ts) as (s1 & l1 & Hk & E1); [exact Hs|].
  edestruct phase2 with (cpu_ts := cpu_ts) as (s2 & Hr & E2); [exact Hs|exact Hk|].
  edestruct phase3 as (k & l & R & x & E3 & H & Hnew & Hcr & Hcs & Hc0 & Hl); [exact Hs|exact Hr|].
  assert (0 < Z.of_nat (copies test) ≤ 5) as Hcp by (unfold copies; destruct test; split; reflexivity || discriminate).
  destruct (kr_idle _ _ _ _ _ _ _ _ _ _ Hr 0 ltac:(split; reflexivity || discriminate)) as (c & Hc & Hce & _).
  destruct (Hnew 0 ltac:(lia)) as (e & He & Hse & _).
  destruct (first_run _ k l R x kp _ c e H) as (k' & E & [_ Sc Sl Ss _ Sm [_ Sn]] & Hok); [rewrite Hcs, Hc0; exact Hc|exact Hce|congruence|exact Hcr|exact He|exact Hse|].
  assert (∀ j f, 0 ≤ j < NENV → envs k !! j = Some f → ∃ e', envs k' !! j = Some e' ∧ env_tf f = env_tf e' ∧
    env_status e' = if decide (j = 0) then ENV_RUNNING else env_status f) as Hj.
  { intros j f' _ Hf. pose proof (Sm j) as Hm. rewrite Hf in Hm. destruct (option_same_env_inv _ _ Hm) as (e' & He' & _ & _ & Htf).
    exists e'. split; [exact He'|]. split; [exact Htf|]. rewrite (Ss j f' e' Hf He'), Hce. rewrite decide_False by discriminate.
    destruct (decide (j = 0)); [reflexivity|]. rewrite decide_False; [reflexivity|]. intros [F _]. discriminate. }
  exists (set_s_ks k' s2), (kernel_page (s_ks s2) l1). split; [|split; [exact Hok|split; [exact Sl|split; [cbn; congruence|split; [|split]]]]].
  - unfold i386_init. rewrite E1, E2. erewrite bind_Ret by (apply inks_Ret; exact E3). exact (inks_Stop _ (set_s_ks k s2) _ _ E).
  - intros j Hjr. cbn [s_ks set_s_ks]. destruct (decide (j < Z.of_nat (copies test))) as [D|D].
    + destruct (Hnew j ltac:(lia)) as (f' & Hf & Hs' & _ & Ht). destruct (Hj j f' Hjr Hf) as (e' & He' & Et & Es).
      exists e'. split; [exact He'|]. rewrite Es, Hs', <- Et. auto.
    + destruct (proj2 (es_dom _ _ _ _ (ksp_env _ _ _ _ _ _ _ H) j) Hjr) as [f' Hf]. destruct (Hj j f' Hjr Hf) as (e' & He' & _ & Es).
      exists e'. split; [exact He'|]. rewrite Es, decide_False by lia.
      apply (es_free _ _ _ _ (ksp_env _ _ _ _ _ _ _ H) j f' Hf). apply elem_of_seqZ. lia.
  - apply (kr_ncpu _ _ _ _ _ _ _ _ _ _ Hr).
  - intros i Hi. destruct (kr_stacks _ _ _ _ _ _ _ _ _ _ Hr i Hi) as [Hst _].
    destruct (kr_idle _ _ _ _ _ _ _ _ _ _ Hr i) as (ci & Hci & Hcei & Hup); [unfold NCPU; lia|]. destruct (Hup (proj2 Hi)) as [Hid Hup'].
    split; [|exact Hst]. exists ci. cbn [s_ks set_s_ks]. rewrite Sc by lia. rewrite Hcs. auto.
Qed.

(** ** A machine *)

(** Two processors, whose tables are in the EBDA at 0x500; the program of
    [load_mem] at the start of the kernel's image. *)
Definition start_mem : mem := foldr (λ '(a, v) m, st32 m a v) ∅
  [(0x40E, 0x50); (0x500, 0x5f504d5f); (0x504, 0x600); (0x508, 0x9a0401);
   (0x600, 0x504d4350); (0x604, 0x4c04005c); (0x620, 0x30000); (0x624, 0xfee00000);
   (0x62c, 0x3140000); (0x640, 0x1140100); (0x654, 0x1110202);
   (0x100000, ELF_MAGIC); (0x100000 + 24, 0x800020); (0x100000 + 28, 52); (0x100000 + 44, 1);
   (0x100034, 1); (0x100034 + 4, 96); (0x100034 + 8, 0x800020); (0x100034 + 16, 4); (0x100034 + 20, 8); (0x100000 + 96, 0xAABBCCDD)].
Definition start_entries : list mp_entry := [Processor true; Processor false; OtherEntry].
Definition start_ks : ks :=
  set_kpm (with_phys start_mem bss_pm) (set_cpus (list_to_map ((λ i, (i, MkCpuInfo 0 0 None 0 0)) <$> seqZ 0 8)) bss_ks).
Definition start_sys : sys := MkSys start_ks (MkMpst bss_pm ∅ 0 false 0 0 0 [] []) 0 ∅.

(** A controller that has always delivered its message. *)
Definition start_lapic (c : Z) (ws : list (Z * Z * Z)) (t : nat) (a : Z) : Z := if a =? 0xfee00000 + 4 * ID then Z.shiftl c 24 else 0.

Section low.
Context (m' : mem) (H : ∀ b, 0 ≤ b < PGSIZE → ld8 m' b = ld8 start_mem b).

Lemma low_sig a sig : 0 ≤ a → a + Z.of_nat (length sig) ≤ PGSIZE → sig_at m' a sig = sig_at start_mem a sig.
Proof using H. revert a. induction sig as [|c sig IH]; intros a Ha Hl; [reflexivity|]. cbn in *. rewrite H, IH by lia. reflexivity. Qed.
Lemma low_sum a k : 0 ≤ a → a + Z.of_nat k ≤ PGSIZE → msum m' a k = msum start_mem a k.
Proof using H. revert a. induction k as [|k IH]; intros a Ha Hl; [reflexivity|]. cbn [msum]. rewrite H, IH by lia. reflexivity. Qed.
Lemma low16 a : 0 ≤ a → a + 2 ≤ PGSIZE → ld16 m' a = ld16 start_mem a.
Proof using H. intros. unfold ld16. rewrite !H by lia. reflexivity. Qed.
Lemma low32 a : 0 ≤ a → a + 4 ≤ PGSIZE → ld32 m' a = ld32 start_mem a.
Proof using H. intros. apply ld32_ext. intros i Hi. apply H. lia. Qed.

Lemma start_pointer : mp_pointer m' = KERNBASE + 0x500.
Proof using H.
  assert (ebda m' = 0x50) as E by (unfold ebda; rewrite low16 by discriminate; vm_compute; reflexivity).
  assert (candidate m' 0x500 = true) as C.
  { unfold candidate. rewrite low_sig, low_sum by (vm_compute; discriminate). vm_compute. reflexivity. }
  unfold mp_pointer. rewrite E. change (ctrue 80) with true. cbv iota.
  assert (area m' (Z.shiftl 80 4) 1024 = KERNBASE + 0x500) as ->; [|reflexivity].
  unfold area. change (Z.to_nat (1024 / sizeof_mp + 1)) with 65%nat. cbn [scan].
  change (w32 (Z.shiftl 80 4 + KERNBASE)) with (KERNBASE + 0x500). change (KERNBASE + 0x500 - KERNBASE) with 0x500. rewrite C. reflexivity.
Qed.

Lemma start_good : good_tables m' 768 (KERNBASE + 0x600) (KERNBASE + 0x500).
Proof using H.
  assert (ebda m' = 0x50) as E by (unfold ebda; rewrite low16 by discriminate; vm_compute; reflexivity).
  split; change (KERNBASE + 0x500 - KERNBASE) with 0x500; change (KERNBASE + 0x600 - KERNBASE) with 0x600.
  - reflexivity.
  - rewrite E. discriminate.
  - split; [apply start_pointer|discriminate].
  - rewrite H by (split; reflexivity || discriminate). vm_compute. reflexivity.
  - rewrite low32 by discriminate. vm_compute. split; [discriminate|split; reflexivity].
  - rewrite low_sig by (vm_compute; discriminate). vm_compute. reflexivity.
  - rewrite low16 by discriminate. rewrite low_sum by (vm_compute; discriminate). vm_compute. reflexivity.
  - rewrite H by (split; reflexivity || discriminate). right. vm_compute. reflexivity.
  - cbv zeta. rewrite !low16 by discriminate. rewrite H by (split; reflexivity || discriminate).
    rewrite low_sum by (vm_compute; discriminate). vm_compute. reflexivity.
Qed.

Lemma start_listed : entries_at m' 0x62c start_entries.
Proof using H.
  cbn [entries_at start_entries]. rewrite !H by (split; reflexivity || discriminate).
  repeat split; vm_compute; reflexivity || discriminate.
Qed.
End low.

Lemma start_tables : mp_tables 768 0xfee00 (KERNBASE + 0x600) (KERNBASE + 0x500) start_entries start_mem.
Proof.
  intros m' Hm. assert (∀ b, 0 ≤ b < PGSIZE → ld8 m' b = ld8 start_mem b) as H.
  { intros b Hb. apply Hm. left. apply Z.div_small. exact Hb. }
  split; [apply start_good, H|]. split; [apply (start_listed m' H)|].
  change (conf_entry (KERNBASE + 0x600) - KERNBASE) with 0x622. change (conf_lapicaddr (KERNBASE + 0x600) - KERNBASE) with 0x624.
  rewrite (low16 m' H), (low32 m' H) by discriminate. split; vm_compute; reflexivity.
Qed.

Lemma start_kernel_at o len : 0 ≤ o → 0 ≤ len → o + len ≤ 4096 → kernel_at (image_page 0xf0110000) (kva_of 256 + o) len.
Proof.
  intros H1 H2 H3. unfold kernel_at, kva_of, KERNBASE, PGSIZE. split; [lia|]. split; [lia|]. intros b Hb. unfold image_page, PGSIZE.
  assert ((b - 0xf0000000) / 4096 = 256) as -> by (Z.div_mod_to_equations; lia). split; [lia|discriminate].
Qed.

Lemma start_segs : image_segs start_mem (kva_of 256) 1 = [MkPseg 1 96 0x800020 4 8].
Proof. vm_compute. reflexivity. Qed.

Lemma start_image : elf_image (image_page 0xf0110000) start_mem (kva_of 256) 1.
Proof.
  split.
  - rewrite <- (Z.add_0_r (kva_of 256)). apply start_kernel_at; discriminate.
  - vm_compute. reflexivity.
  - vm_compute. reflexivity.
  - replace (kword start_mem (kva_of 256 + 28)) with 52 by (vm_compute; reflexivity). apply start_kernel_at; discriminate.
  - vm_compute. reflexivity.
  - change (psegs _ _ _) with (image_segs start_mem (kva_of 256) 1). rewrite start_segs. constructor; [|constructor].
    split; [discriminate|]. intros _. split; [discriminate|]. split; [|reflexivity]. apply start_kernel_at; discriminate.
Qed.

Lemma start_sys_ok : start_ok cmos_768 start_lapic 1 0xf0110000 0xf0180000 (kva_of 272) (kva_of 280) 0xf0104000 0xf0104080 0xf0118000
  None (kva_of 256) 384 272 280 768 0xfee00 (KERNBASE + 0x600) (KERNBASE + 0x500) start_entries 1 start_sys.
Proof.
  split.
  - destruct bss_bootable as [B1 B2 B3 B4 B5 B6 _]. split; try assumption. intros s' [= <-]. vm_compute. discriminate.
  - eexists. split; [reflexivity|]. reflexivity.
  - repeat split; discriminate.
  - exact bss_table.
  - reflexivity.
  - reflexivity.
  - intros i. change (cpus (s_ks start_sys)) with (list_to_map ((λ i, (i, MkCpuInfo 0 0 None 0 0)) <$> seqZ 0 8) : gmap Z CpuInfo).
    rewrite lookup_seqZ_map. unfold NCPU. case_decide; split; intros; try lia; eauto. destruct H0 as [? [=]].
  - intros i c. change (cpus (s_ks start_sys)) with (list_to_map ((λ i, (i, MkCpuInfo 0 0 None 0 0)) <$> seqZ 0 8) : gmap Z CpuInfo).
    rewrite lookup_seqZ_map. case_decide; [|discriminate]. intros [= <-]. split; reflexivity.
  - reflexivity.
  - exact start_tables.
  - split; reflexivity.
  - split; [|split; reflexivity]. split.
    + intros c ws t _. reflexivity.
    + intros c ws. exists 0%nat. split; [lia|reflexivity].
  - split; split; reflexivity || discriminate.
  - exact start_image.
  - change (image_segs _ _ _) with (image_segs start_mem (kva_of 256) 1). rewrite start_segs. vm_compute. discriminate.
Qed.

Lemma i386_init_runs_witness : ∃ s',
  i386_init cmos_768 start_lapic 1 0xf0110000 0xf0180000 (kva_of 272) (kva_of 280) 0xf0104000 0xf0104080 0xf0118000 (λ i, i) (λ i, i)
    None (kva_of 256) start_sys = Stop (SRun 0) s' ∧ klock (s_ks s') = None ∧ ncpu (s_mp s') = 2 ∧
  entry_esp s' !! 1 = Some (kva_of 296).
Proof.
  destruct (i386_init_runs cmos_768 start_lapic 1 0xf0110000 0xf0180000 (kva_of 272) (kva_of 280) 0xf0104000 0xf0104080 0xf0118000
    (λ i, i) (λ i, i) None (kva_of 256) 384 272 280 768 0xfee00 (KERNBASE + 0x600) (KERNBASE + 0x500) start_entries 1 start_sys start_sys_ok)
    as (s' & K & E & _ & Hl & _ & _ & Hn & Ha).
  exists s'. split; [exact E|]. split; [exact Hl|]. split; [exact Hn|]. apply (Ha 1). split; reflexivity.
Defined.
