(* ===== verification/Monitor.v ===== *)
(** The kernel monitor: readline of lib/readline.c, against the interface of the
    console it needs, and the commands and the command interpreter of
    kern/monitor.c.  The line buffer of readline is written like any other
    kernel memory; argv points into it. *)
From Stdlib Require Import Ascii.
From S2P Require Import Prelude Mmu Mem CString Printfmt Pages PageTable AddrSpace UserMem Console KState Kdebug Trap.

(** * lib/readline.c *)

Definition BUFLEN : Z := 1024.

(** What readline calls: getchar, cputchar, iscons and cprintf of whichever
    console it is linked with, and the store into its static buffer. *)
Class LineIO (S : Type) := {
  io_getchar : M S Z;
  io_cputchar : Z → M S unit;
  io_iscons : Z → Z;
  io_cprintf : string → list Z → M S unit;
  io_store : Z → Z → M S unit
}.

Section readline.
Context {S : Type} `{LineIO S}.
(** The addresses of the buffer and of string literals. *)
Context (buf : Z) (lit : string → Z).

Definition echo (c : Z) : M S unit := when (ctrue (io_iscons 0)) (io_cputchar c).

(** One character is read per unit of fuel. *)
Fixpoint readline_loop (fuel : nat) (i : Z) : M S (option Z) :=
  match fuel with
  | O => stop_with SLoop
  | Datatypes.S fuel =>
      c ← io_getchar;
      if c <? 0 then io_cprintf "read error: %e\n" [c] ;; mret None
      else if ((c =? 8) || (c =? 0x7f)) && (i >? 0) then
        echo 8 ;; readline_loop fuel (i - 1)
      else if (c >=? 32) && (i <? BUFLEN - 1) then
        echo c ;; io_store (buf + i) (w8 c) ;; readline_loop fuel (i + 1)
      else if (c =? 10) || (c =? 13) then
        echo 10 ;; io_store (buf + i) 0 ;; mret (Some buf)
      else readline_loop fuel i
  end.

(** [prompt] is the address of a string, or 0. *)
Definition readline (fuel : nat) (prompt : Z) : M S (option Z) :=
  when (negb (prompt =? 0)) (io_cprintf "%s" [prompt]) ;;
  readline_loop fuel 0.
End readline.

(** * kern/monitor.c *)

Definition MAXARGS : Z := 16.

(** [c && strchr(WHITESPACE, c)]: the string is a constant. *)
Definition is_space (c : Z) : bool := existsb (Z.eqb c) [9; 13; 10; 32].

Section monitor.
(** The addresses of string literals and of the linker's symbols, and the
    register %ebp. *)
Context (lit sym : string → Z) (read_ebp : Z).
Context (STAB_BEGIN STAB_END STABSTR_BEGIN STABSTR_END : Z).

Definition rdb (a : Z) : M ks Z := inpm (vld8 a).
Definition wrb (a v : Z) : M ks unit := inpm (vst8 a v).

(** ** The command interpreter *)

(** [while ( *buf && strchr(WHITESPACE, *buf)) *buf++ = 0;] *)
Fixpoint gobble_space (fuel : nat) (buf : Z) : M ks Z :=
  match fuel with
  | O => stop_with SLoop
  | S fuel => c ← rdb buf; if is_space c then wrb buf 0 ;; gobble_space fuel (buf + 1) else mret buf
  end.

(** [while ( *buf && !strchr(WHITESPACE, *buf)) buf++;] *)
Fixpoint scan_arg (fuel : nat) (buf : Z) : M ks Z :=
  match fuel with
  | O => stop_with SLoop
  | S fuel => c ← rdb buf; if (c =? 0) || is_space c then mret buf else scan_arg fuel (buf + 1)
  end.

(** The arguments, [None] when there are too many; every round takes one. *)
Fixpoint parse_args (rounds fuel : nat) (buf : Z) (argv : list Z) : M ks (option (list Z)) :=
  buf ← gobble_space fuel buf;
  c ← rdb buf;
  if c =? 0 then mret (Some argv)
  else if Z.of_nat (length argv) =? MAXARGS - 1 then
    cprintf "Too many arguments (max %d)\n" [MAXARGS] ;; mret None
  else
    match rounds with
    | O => stop_with SLoop
    | S rounds => buf' ← scan_arg fuel buf; parse_args rounds fuel buf' (argv ++ [buf])
    end.

(** ** The commands *)

(** [argv[i]]: NULL after the last one; what comes then has no value. *)
Definition arg (argv : list Z) (i : nat) : M ks Z :=
  match argv !! i with
  | Some a => mret a
  | None => if decide (i = length argv) then mret 0 else undef "uninitialised argv[i]"
  end.

(** [s[i]] for [s = argv[n]] *)
Definition arg_char (argv : list Z) (n : nat) (i : Z) : M ks Z := a ← arg argv n; rdb (a + i).

Definition hex_digit (c : Z) : option Z :=
  if (48 <=? c) && (c <=? 57) then Some (c - 48)
  else if (97 <=? c) && (c <=? 102) then Some (c - 97 + 10)
  else if (65 <=? c) && (c <=? 70) then Some (c - 65 + 10)
  else None.

Fixpoint xtoi_loop (fuel : nat) (s result : Z) : M ks Z :=
  match fuel with
  | O => stop_with SLoop
  | S fuel =>
      c ← rdb s;
      if c =? 0 then mret result
      else match hex_digit c with
           | Some d => xtoi_loop fuel (s + 1) (w32 (result * 16 + d))
           | None => panic "xtoi: invalid string %s!"
           end
  end.
Definition xtoi (fuel : nat) (s : Z) : M ks Z := xtoi_loop fuel (s + 2) 0.

Definition commands : list (string * string) :=
  [("help", "Display this list of commands");
   ("kerninfo", "Display information about the kernel");
   ("backtrace", "Display the backtrace of a function");
   ("showmappings", "Display the page mapping info");
   ("setperm", "Explicitly set, clear, or change the permissions.")].

Fixpoint print_commands (l : list (string * string)) : M ks unit :=
  match l with
  | [] => mret tt
  | (name, desc) :: l => cprintf "%s - %s\n" [lit name; lit desc] ;; print_commands l
  end.
Definition mon_help : M ks Z := print_commands commands ;; mret 0.

Definition mon_kerninfo : M ks Z :=
  cprintf "Special kernel symbols:\n" [] ;;
  cprintf "  _start                  %08x (phys)\n" [sym "_start"] ;;
  cprintf "  entry  %08x (virt)  %08x (phys)\n" [sym "entry"; w32 (sym "entry" - KERNBASE)] ;;
  cprintf "  etext  %08x (virt)  %08x (phys)\n" [sym "etext"; w32 (sym "etext" - KERNBASE)] ;;
  cprintf "  edata  %08x (virt)  %08x (phys)\n" [sym "edata"; w32 (sym "edata" - KERNBASE)] ;;
  cprintf "  end    %08x (virt)  %08x (phys)\n" [sym "end"; w32 (sym "end" - KERNBASE)] ;;
  cprintf "Kernel executable memory footprint: %dKB\n" [ROUNDUP (w32 (sym "end" - sym "entry")) 1024 / 1024] ;;
  mret 0.

Fixpoint print_words (n : nat) (a : Z) : M ks unit :=
  match n with
  | O => mret tt
  | S n => w ← inpm (vld32 a); cprintf " %08x" [w] ;; print_words n (w32 (a + 4))
  end.

(** One frame of the stack per unit of fuel. *)
Fixpoint backtrace_loop (fuel : nat) (ebp : Z) : M ks Z :=
  if ebp =? 0 then mret 0
  else
    match fuel with
    | O => stop_with SLoop
    | S fuel' =>
        eip ← inpm (vld32 (w32 (ebp + 4)));
        cprintf "  %rebp %08x  %reip %08x  %rargs" [0x0c; ebp; 0x0a; eip; 0x09] ;;
        print_words 5 (w32 (ebp + 8)) ;;
        cprintf "%r\n" [0x07] ;;
        '(_, info) ← debuginfo_eip STAB_BEGIN STAB_END STABSTR_BEGIN STABSTR_END lit fuel eip;
        cprintf "         %s:%d: %.*s+%d\n" [eip_file info; eip_line info; eip_fn_namelen info;
          eip_fn_name info; w32 (eip - eip_fn_addr info)] ;;
        ebp ← inpm (vld32 ebp);
        backtrace_loop fuel' ebp
    end.
Definition mon_backtrace (fuel : nat) : M ks Z :=
  cprintf "Stack backtrace:\n" [] ;; backtrace_loop fuel read_ebp.

(** [ *ppte] through a pointer that may be NULL *)
Definition ld_pte (ppte : option Z) : M ks Z :=
  match ppte with Some p => inpm (kld32 p) | None => undef "NULL page table entry" end.
Definition st_pte (ppte : option Z) (v : Z) : M ks unit :=
  match ppte with Some p => inpm (kst32 p v) | None => undef "NULL page table entry" end.

Definition print_pte_info (ppte : option Z) : M ks unit :=
  pte ← ld_pte ppte;
  cprintf "Phys memory: 0x%08x, PTE_P: %x, PTE_W: %x, PTE_U: %x\n"
    [PTE_ADDR pte; Z.land pte PTE_P; Z.land pte PTE_W; Z.land pte PTE_U].

Fixpoint showmappings_loop (fuel : nat) (va vend : Z) : M ks Z :=
  if va <=? vend then
    match fuel with
    | O => stop_with SLoop
    | S fuel =>
        kp ← gets (λ s, kern_pgdir (kpm s));
        ppte ← inpm (pgdir_walk kp va true);
        match ppte with
        | None => panic "showmappings: creating page error!"
        | Some p =>
            pte ← inpm (kld32 p);
            (if is_present pte then cprintf "page of 0x%x: " [va] ;; print_pte_info (Some p)
             else cprintf "page not exist: %x\n" [va]) ;;
            showmappings_loop fuel (w32 (va + PGSIZE)) vend
        end
    end
  else mret 0.

Definition showmappings (fuel : nat) (argv : list Z) : M ks Z :=
  if negb (Z.of_nat (length argv) =? 3) then
    cprintf "Usage: showmappings 0xbegin 0xend\nshow page mappings from begin to end.\n" [] ;; mret 0
  else
    a1 ← arg argv 1; va ← xtoi fuel a1;
    a2 ← arg argv 2; vend ← xtoi fuel a2;
    cprintf "begin: %x, end: %x\n" [va; vend] ;;
    showmappings_loop fuel va vend.

(** The entry that the three forms of setperm store. *)
Definition perm_of (c : Z) (perm : Z) : Z :=
  let perm := if c =? chr "P" then PTE_P else perm in
  let perm := if c =? chr "W" then PTE_W else perm in
  if c =? chr "U" then PTE_U else perm.

Definition setperm (fuel : nat) (argv : list Z) : M ks Z :=
  if Z.of_nat (length argv) =? 1 then
    cprintf "Usage: setperm 0xaddr [(clear | set) [P | W | U] | change 0x<perm> ]\n" [] ;; mret 0
  else
    a1 ← arg argv 1; addr ← xtoi fuel a1;
    kp ← gets (λ s, kern_pgdir (kpm s));
    ppte ← inpm (pgdir_walk kp addr true);
    c ← arg_char argv 2 1;
    done ← (if c =? chr "h" then
              a3 ← arg argv 3; perm ← xtoi fuel a3;
              pte ← ld_pte ppte; st_pte ppte (Z.lor (Z.land pte 0xfff8) perm) ;; mret true
            else
              c3 ← arg_char argv 3 0;
              let perm := perm_of c3 0 in
              if c =? chr "l" then pte ← ld_pte ppte; st_pte ppte (w32 (Z.land pte (Z.lnot perm))) ;; mret true
              else if c =? chr "e" then pte ← ld_pte ppte; st_pte ppte (Z.lor pte perm) ;; mret true
              else
                cprintf "Parameters error!\nUsage: setperm 0xaddr [(clear | set) [P | W | U] | change <perm> ]\n" [] ;;
                mret false);
    if (done : bool) then
      cprintf "setperm success.\npage of 0x%x: " [addr] ;; print_pte_info ppte ;; mret 0
    else mret 0.

(** ** runcmd and monitor *)

Definition run_command (fuel : nat) (name : string) (argv : list Z) : M ks Z :=
  if bool_decide (name = "help") then mon_help
  else if bool_decide (name = "kerninfo") then mon_kerninfo
  else if bool_decide (name = "backtrace") then mon_backtrace fuel
  else if bool_decide (name = "showmappings") then showmappings fuel argv
  else setperm fuel argv.

Fixpoint lookup_command (fuel : nat) (l : list (string * string)) (argv0 : Z) (argv : list Z) : M ks Z :=
  match l with
  | [] => cprintf "Unknown command '%s'\n" [argv0] ;; mret 0
  | (name, _) :: l =>
      r ← strcmp rdb fuel argv0 (lit name);
      if r =? 0 then run_command fuel name argv else lookup_command fuel l argv0 argv
  end.

Definition runcmd (fuel : nat) (buf : Z) : M ks Z :=
  argv ← parse_args (Z.to_nat MAXARGS) fuel buf [];
  match argv with
  | None | Some [] => mret 0
  | Some ((a :: _) as argv) => lookup_command fuel commands a argv
  end.
End monitor.

(** * readline in the kernel, and monitor *)

(** The console of the kernel; the line buffer is kernel memory. *)
#[export] Instance kern_line_io (txrdy lptrdy : Z → bool) (polls : nat) : LineIO ks := {
  io_getchar := incon (getchar_loop polls);
  io_cputchar := λ c, incon (Console.cputchar txrdy lptrdy c);
  io_iscons := Console.iscons;
  io_cprintf := cprintf;
  io_store := wrb
}.

Section monitor_loop.
Context (txrdy lptrdy : Z → bool) (polls : nat).
Context (lit sym : string → Z) (read_ebp rcr2 : Z).
Context (STAB_BEGIN STAB_END STABSTR_BEGIN STABSTR_END : Z) (rlbuf : Z).

(** One command per round. *)
Fixpoint monitor_loop (rounds fuel : nat) : M ks unit :=
  match rounds with
  | O => stop_with SLoop
  | S rounds =>
      buf ← @readline ks (kern_line_io txrdy lptrdy polls) rlbuf fuel (lit "K> ");
      match buf with
      | None => monitor_loop rounds fuel
      | Some buf =>
          r ← runcmd lit sym read_ebp STAB_BEGIN STAB_END STABSTR_BEGIN STABSTR_END fuel buf;
          if r <? 0 then mret tt else monitor_loop rounds fuel
      end
  end.

Definition monitor (tf : option tfref) (rounds fuel : nat) : M ks unit :=
  cprintf "Welcome to the JOS kernel monitor!\n" [] ;;
  cprintf "Type 'help' for a list of commands.\n" [] ;;
  match tf with Some r => print_trapframe rcr2 r | None => mret tt end ;;
  monitor_loop rounds fuel.
End monitor_loop.
