(* ===== verification/MonitorSpec.v ===== *)
(** The kernel monitor: readline is a line editor on the characters typed, the
    command line is split into words, the first word selects the command, and
    what the commands do to page tables. *)
From Stdlib Require Import Ascii.
From S2P Require Import Prelude Mmu Mem CString Printfmt Pages PageTable AddrSpace UserMem Console KState Kdebug EnvSpec Trap Monitor.

(** * readline *)

(** What a console promises to readline: [input s q] says that the characters
    to come are [q], [mview s] is the memory the buffer is in. *)
Class LineLaws (S : Type) `{LineIO S} (input : S → list Z → Prop) (mview : S → Z → Z) (rlbuf : Z) : Prop := {
  ll_getchar s c q : input s (c :: q) → ∃ s', io_getchar s = Ret c s' ∧ input s' q ∧ ∀ a, mview s' a = mview s a;
  ll_cputchar c s q : input s q → ∃ s', io_cputchar c s = Ret tt s' ∧ input s' q ∧ ∀ a, mview s' a = mview s a;
  ll_cprintf f l s q : input s q → ∃ s', io_cprintf f l s = Ret tt s' ∧ input s' q ∧ ∀ a, mview s' a = mview s a;
  ll_store a v s q : input s q → rlbuf ≤ a < rlbuf + BUFLEN → ∃ s', io_store a v s = Ret tt s' ∧ input s' q ∧
    ∀ b, mview s' b = if decide (b = a) then w8 v else mview s b
}.

(** The editor: backspace and delete rub out, printing characters are added
    while there is room.  Delete on an empty line is a printing character. *)
Definition rubout (c : Z) : bool := (c =? 8) || (c =? 0x7f).
Definition edit_step (line : list Z) (c : Z) : list Z :=
  if rubout c && negb (bool_decide (line = [])) then removelast line
  else if (c >=? 32) && (Z.of_nat (length line) <? BUFLEN - 1) then line ++ [w8 c]
  else line.
Definition edit (cs : list Z) : list Z := foldl edit_step [] cs.

Definition ends_line (c : Z) : Prop := c = 10 ∨ c = 13.

Lemma bytes_at_snoc f s cs c : bytes_at f s cs → f (s + Z.of_nat (length cs)) = c → bytes_at f s (cs ++ [c]).
Proof.
  intros Hs Hc i x Hx. apply lookup_app_Some in Hx as [Hx|[Hi Hx]]; [apply Hs, Hx|].
  assert (i - length cs = 0)%nat as Ei by (apply lookup_lt_Some in Hx; cbn in Hx; lia). rewrite Ei in Hx. injection Hx as <-.
  rewrite <- Hc. f_equal. lia.
Qed.

Lemma bytes_at_ext f g s cs : (∀ a, s ≤ a < s + Z.of_nat (length cs) → g a = f a) → bytes_at f s cs → bytes_at g s cs.
Proof. intros E Hs i c Hi. pose proof (lookup_lt_Some _ _ _ Hi). rewrite E by lia. apply Hs, Hi. Qed.

Lemma removelast_prefix (l : list Z) : l ≠ [] → ∃ c, l = removelast l ++ [c].
Proof. intros Hl. exists (List.last l 0). apply app_removelast_last, Hl. Qed.

Section readline.
Context {S : Type} (input : S → list Z → Prop) (mview : S → Z → Z) (rlbuf : Z) `{LL : LineLaws S input mview rlbuf}.

Lemma echo_run c s q : input s q → ∃ s', echo c s = Ret tt s' ∧ input s' q ∧ ∀ a, mview s' a = mview s a.
Proof. intros Hi. unfold echo, when. destruct (ctrue _); [apply ll_cputchar, Hi|exists s; auto]. Qed.

(** The buffer holds [line], and nothing else has changed since [f]. *)
Record typed (f : Z → Z) (s : S) (line : list Z) : Prop := {
  ty_line : bytes_at (mview s) rlbuf line;
  ty_len : Z.of_nat (length line) < BUFLEN;
  ty_same : ∀ a, ¬ (rlbuf ≤ a < rlbuf + BUFLEN) → mview s a = f a
}.

Lemma typed_view f s s' line : (∀ a, mview s' a = mview s a) → typed f s line → typed f s' line.
Proof.
  intros E [Hl Hn Hs]. split; [|exact Hn|].
  - intros i c Hi. rewrite E. apply Hl, Hi.
  - intros a Ha. rewrite E. apply Hs, Ha.
Qed.

(** One character of the line. *)
Lemma readline_step f s c q line fuel : input s (c :: q) → 0 ≤ c → ¬ ends_line c → typed f s line →
  ∃ s', readline_loop rlbuf (Datatypes.S fuel) (Z.of_nat (length line)) s
      = readline_loop rlbuf fuel (Z.of_nat (length (edit_step line c))) s' ∧
    input s' q ∧ typed f s' (edit_step line c).
Proof.
  intros Hi Hc He Ht. cbn [readline_loop]. destruct (ll_getchar s c q Hi) as (s1 & E1 & I1 & V1).
  rewrite (bind_Ret _ _ _ _ _ E1). pose proof (typed_view f s s1 line V1 Ht) as T1.
  destruct (Z.ltb_spec c 0); [lia|]. unfold edit_step.
  assert ((Z.of_nat (length line) >? 0) = negb (bool_decide (line = []))) as ->.
  { destruct line; [reflexivity|]. rewrite bool_decide_eq_false_2 by discriminate. reflexivity. }
  fold (rubout c). destruct (rubout c && negb (bool_decide (line = []))) eqn:Er.
  - destruct (echo_run 8 s1 q I1) as (s2 & E2 & I2 & V2). rewrite (bind_Ret _ _ _ _ _ E2).
    apply andb_true_iff in Er as [_ Hl]. apply negb_true_iff, bool_decide_eq_false in Hl.
    destruct (removelast_prefix line Hl) as [x Ex]. exists s2.
    assert (length line = length (removelast line) + 1)%nat as Elen by (rewrite Ex at 1; rewrite length_app; reflexivity).
    split; [f_equal; lia|]. split; [exact I2|]. apply (typed_view f s1 s2 _ V2). destruct T1 as [Hb Hn Hs].
    split; [|lia|exact Hs]. intros i y Hy. apply Hb. rewrite Ex. apply lookup_app_l_Some, Hy.
  - destruct ((c >=? 32) && (Z.of_nat (length line) <? BUFLEN - 1)) eqn:Ep.
    + destruct (echo_run c s1 q I1) as (s2 & E2 & I2 & V2). rewrite (bind_Ret _ _ _ _ _ E2).
      apply andb_true_iff in Ep as [_ Hlt]. apply Z.ltb_lt in Hlt.
      destruct (ll_store (rlbuf + Z.of_nat (length line)) (w8 c) s2 q I2) as (s3 & E3 & I3 & V3); [lia|].
      rewrite (bind_Ret _ _ _ _ _ E3). exists s3. rewrite length_app. split; [f_equal; cbn [length]; lia|]. split; [exact I3|].
      destruct (typed_view f s1 s2 _ V2 T1) as [Hb Hn Hs]. split.
      * apply bytes_at_snoc; [|rewrite V3, decide_True by lia; apply w8_id, w8_range].
        eapply bytes_at_ext; [|exact Hb]. intros a Ha. rewrite V3, decide_False by lia. reflexivity.
      * rewrite length_app. cbn [length]. lia.
      * intros a Ha. rewrite V3, decide_False by lia. apply Hs, Ha.
    + destruct ((c =? 10) || (c =? 13)) eqn:Ee.
      { exfalso. apply He. apply orb_true_iff in Ee. rewrite !Z.eqb_eq in Ee. exact Ee. }
      exists s1. auto.
Qed.

Lemma readline_line f cs : ∀ s q line fuel, input s (cs ++ q) → Forall (λ c, 0 ≤ c ∧ ¬ ends_line c) cs → typed f s line →
  ∃ s', readline_loop rlbuf (length cs + fuel) (Z.of_nat (length line)) s
      = readline_loop rlbuf fuel (Z.of_nat (length (foldl edit_step line cs))) s' ∧
    input s' q ∧ typed f s' (foldl edit_step line cs).
Proof.
  induction cs as [|c cs IH]; intros s q line fuel Hi Hc Ht; [exists s; auto|].
  apply Forall_cons in Hc as [[Hc0 Hc1] Hc]. cbn [length Nat.add foldl app] in *.
  destruct (readline_step f s c _ line (length cs + fuel) Hi Hc0 Hc1 Ht) as (s1 & E1 & I1 & T1).
  rewrite E1. apply IH; assumption.
Qed.
End readline.

(** * The kernel's console keeps the promise *)

(** [untouched f m]: running [m] does not change [f]. *)
Definition untouched {T A} (f : con → T) (m : M con A) : Prop :=
  ∀ s, match m s with Ret _ s' | Stop _ s' => f s' = f s end.

Section untouched.
Context {T : Type} (f : con → T).

Lemma untouched_ret {A} (a : A) : untouched f (mret a).
Proof. intros s. reflexivity. Qed.
Lemma untouched_gets {A} (g : con → A) : untouched f (gets g).
Proof. intros s. reflexivity. Qed.
Lemma untouched_get : untouched f get.
Proof. intros s. reflexivity. Qed.
Lemma untouched_stop {A} w : untouched f (stop_with (A := A) w).
Proof. intros s. reflexivity. Qed.
Lemma untouched_modify g : (∀ s, f (g s) = f s) → untouched f (modify g).
Proof. intros H s. apply H. Qed.
Lemma untouched_bind {A B} (m : M con A) (k : A → M con B) : untouched f m → (∀ a, untouched f (k a)) → untouched f (m ≫= k).
Proof.
  intros Hm Hk s. specialize (Hm s). unfold mbind, M_bind. destruct (m s) as [a s1|w s1]; [|exact Hm].
  specialize (Hk a s1). destruct (k a s1); congruence.
Qed.
Lemma untouched_when b m : untouched f m → untouched f (when b m).
Proof. intros H. destruct b; [exact H|apply untouched_ret]. Qed.
Lemma untouched_range n a d body : (∀ i, untouched f (body i)) → untouched f (for_range n a d body).
Proof.
  intros H. revert a. induction n as [|n IH]; intros a; [apply untouched_ret|]. apply untouched_bind; [apply H|intros _; apply IH].
Qed.
Lemma untouched_if {A} (b : bool) (m m' : M con A) : untouched f m → untouched f m' → untouched f (if b then m else m').
Proof. destruct b; auto. Qed.
End untouched.

Ltac untouch := repeat match goal with
  | |- ∀ _, _ => intros ?
  | |- untouched _ (_ ≫= _) => apply untouched_bind
  | |- untouched _ (if _ then _ else _) => apply untouched_if
  | |- untouched _ (when _ _) => apply untouched_when
  | |- untouched _ (for_range _ _ _ _) => apply untouched_range
  | |- untouched _ (gets _) => apply untouched_gets
  | |- untouched _ get => apply untouched_get
  | |- untouched _ (mret _) => apply untouched_ret
  | |- untouched _ (modify _) => apply untouched_modify; intros; reflexivity
  | H : untouched _ _ |- untouched _ _ => exact H
  | H : ∀ _, untouched _ _ |- untouched _ _ => apply H
  end.

(** The side of the input, and the side of the display. *)
Definition input_side (s : con) := (buf s, rpos s, wpos s, shift s, serial_exists s, kbd_data s, com_data s).
Definition display_side (s : con) := (crt_pos s, crt_buf s).

Lemma untouched_putc txrdy lptrdy n c : untouched input_side (cons_putc_n txrdy lptrdy n c).
Proof.
  revert c. induction n as [|n IH]; intros c; [apply untouched_stop|]. cbn [cons_putc_n].
  unfold serial_putc, lpt_putc, cga_putc_with, crt_scroll, crt_store, outb. cbv zeta.
  untouch.
Qed.

Lemma untouched_intr n proc : untouched display_side proc → untouched display_side (cons_intr_loop n proc).
Proof.
  intros Hp. induction n as [|n IH]; [apply untouched_stop|]. cbn [cons_intr_loop].
  untouch.
Qed.

Lemma untouched_getc : untouched display_side cons_getc.
Proof.
  unfold cons_getc, serial_intr, kbd_intr, cons_intr, cprints, outb.
  untouch; apply untouched_intr.
  - intros s. unfold serial_proc_data. rewrite bind_gets. destruct (com_data s); reflexivity.
  - intros s. unfold kbd_proc_data. rewrite bind_gets. destruct (kbd_data s); [reflexivity|].
    rewrite bind_modify, bind_gets. destruct (kbd_decode _ _). destruct (_ && _); reflexivity.
Qed.

(** The console in order, with [q] the characters that wait or arrive. *)
Definition typing (k : ks) (q : list Z) : Prop :=
  on_screen CRT_SIZE (kcons k) ∧ (serial_exists (kcons k) = true ∨ com_data (kcons k) = []) ∧
  ∃ q0, ring (kcons k) q0 ∧ q = q0 ++ arriving (kcons k) ∧ Z.of_nat (length q) < 512 ∧ Forall (λ c, c ≠ 0) q.

Definition kernel_bytes (k : ks) (a : Z) : Z := ld8 (phys (kpm k)) (a - KERNBASE).

Lemma vld8_kern k a : KERNBASE ≤ a → rdb a k = Ret (kernel_bytes k a) k.
Proof.
  intros Ha. unfold rdb. erewrite inpm_Ret; [rewrite set_kpm_same; reflexivity|]. unfold vld8, kaddr.
  rewrite Z.geb_leb, (proj2 (Z.leb_le _ _)) by exact Ha. reflexivity.
Qed.

Lemma vst8_kern k a v : KERNBASE ≤ a → wrb a v k
  = Ret tt (set_kpm (with_phys (st8 (phys (kpm k)) (a - KERNBASE) v) (kpm k)) k).
Proof.
  intros Ha. unfold wrb. apply inpm_Ret. unfold vst8, kaddr.
  rewrite Z.geb_leb, (proj2 (Z.leb_le _ _)) by exact Ha. reflexivity.
Qed.

Lemma kernel_bytes_st k a v b :
  kernel_bytes (set_kpm (with_phys (st8 (phys (kpm k)) (a - KERNBASE) v) (kpm k)) k) b
  = if decide (b = a) then w8 v else kernel_bytes k b.
Proof. unfold kernel_bytes. ksimpl. psimpl. rewrite ld8_st8. repeat case_decide; lia || reflexivity. Qed.

#[export] Instance kern_line_laws txrdy lptrdy polls rlbuf : KERNBASE ≤ rlbuf →
  @LineLaws ks (kern_line_io txrdy lptrdy (S polls)) typing kernel_bytes rlbuf.
Proof.
  intros Hb. split.
  - intros k c q (Hs & Hc & q0 & Hr & Eq & Hl & Hz). cbn [io_getchar kern_line_io].
    rewrite Eq in Hl. destruct (cons_getc_run _ _ Hr Hl) as (s' & E & Hr' & Hk & Hd). rewrite <- Eq in *. cbn [head tail default] in *.
    apply Forall_cons in Hz as [Hz0 Hz]. exists (set_kcons s' k). split; [|split; [|reflexivity]].
    + unfold incon, lift. cbn [Prelude.view update kcons_lens getchar_loop]. rewrite (bind_Ret _ _ _ _ _ E).
      assert (c =? 0 = false) as Ec by (apply Z.eqb_neq; exact Hz0). cbn. rewrite Ec. reflexivity.
    + pose proof (untouched_getc (kcons k)) as Hu. rewrite E in Hu. unfold display_side in Hu. injection Hu as U1 U2.
      assert (com_data s' = []) as Hd' by (rewrite Hd; destruct Hc as [-> | ->]; [reflexivity|destruct (serial_exists _); reflexivity]).
      split; [|split].
      * ksimpl. unfold on_screen. rewrite U1, U2. exact Hs.
      * right. exact Hd'.
      * exists q. split; [exact Hr'|]. split; [|split; [cbn [length] in Hl; lia|exact Hz]].
        ksimpl. unfold arriving. rewrite Hk, Hd'. destruct (serial_exists s'); rewrite app_nil_r; reflexivity.
  - intros c k q (Hs & Hc & q0 & Hr & Eq & Hl & Hz). cbn [io_cputchar kern_line_io].
    destruct (runs_cputchar txrdy lptrdy c (kcons k) Hs) as (s' & E & Hs'). exists (set_kcons s' k).
    split; [unfold incon, lift; cbn [Prelude.view update kcons_lens]; rewrite E; reflexivity|]. split; [|reflexivity].
    pose proof (untouched_putc txrdy lptrdy 2 c (kcons k)) as Hu. change (cons_putc_n txrdy lptrdy 2 c) with (Console.cputchar txrdy lptrdy c) in Hu.
    rewrite E in Hu. unfold input_side in Hu. injection Hu as U1 U2 U3 U4 U5 U6 U7.
    split; [exact Hs'|]. split; [ksimpl; rewrite U5, U7; exact Hc|]. exists q0. ksimpl. split; [|split; [|auto]].
    + destruct Hr as [R1 R2 R3 R4 R5]. split; rewrite ?U1, ?U2, ?U3; assumption.
    + unfold arriving. rewrite U4, U5, U6, U7. exact Eq.
  - intros f l k q Hi. eexists. split; [reflexivity|]. split; [exact Hi|reflexivity].
  - intros a v k q Hi Ha. cbn [io_store kern_line_io]. eexists. split; [apply vst8_kern; lia|]. split; [exact Hi|].
    intros b. apply kernel_bytes_st.
Qed.

(** * The command line *)

(** The words of a line. *)
Fixpoint words (cs : list Z) : list (list Z) :=
  match cs with
  | [] => []
  | c :: cs =>
      if is_space c then words cs
      else let ws := words cs in
        match cs with
        | [] => [[c]]
        | d :: _ => if is_space d then [c] :: ws else match ws with w :: ws => (c :: w) :: ws | [] => [[c]] end
        end
  end.

Lemma words_spaces sp cs : Forall (λ c, is_space c = true) sp → words (sp ++ cs) = words cs.
Proof. induction 1 as [|c sp Hc Hsp IH]; [reflexivity|]. cbn [app words]. rewrite Hc. exact IH. Qed.

(** A word ends at a space or at the end of the line. *)
Definition breaks (cs : list Z) : Prop := match cs with [] => True | c :: _ => is_space c = true end.

Lemma words_word w cs : Forall (λ c, is_space c = false) w → w ≠ [] → breaks cs → words (w ++ cs) = w :: words cs.
Proof.
  intros Hw. induction Hw as [|c w Hc Hw IH]; intros Hn Hb; [contradiction|]. cbn [app words]. rewrite Hc.
  destruct w as [|d w].
  - cbn [app]. destruct cs as [|d cs]; [reflexivity|]. unfold breaks in Hb. rewrite Hb. reflexivity.
  - rewrite IH by (assumption || discriminate). cbn [app]. apply Forall_cons in Hw as [Hd _]. cbv beta in Hd. cbv zeta. rewrite Hd. reflexivity.
Qed.

Lemma split_prefix (p : Z → bool) (cs : list Z) : ∃ a b, cs = a ++ b ∧ Forall (λ c, p c = true) a ∧
  match b with [] => True | c :: _ => p c = false end.
Proof.
  induction cs as [|c cs (a & b & E & Ha & Hb)]; [exists [], []; auto|].
  destruct (p c) eqn:Ec; [exists (c :: a), b|exists [], (c :: cs)]; subst; auto.
Qed.

(** [zeroed f p k]: in [k] the memory is [f], but for the spaces between [buf]
    and [p], which are null. *)
Section parse.
Context (buf : Z) (Hbuf : KERNBASE ≤ buf) (f : Z → Z).

Definition zeroed (p : Z) (k : ks) : Prop :=
  ∀ a, kernel_bytes k a = if decide (buf ≤ a < p ∧ is_space (f a) = true) then 0 else f a.

(** What the parser leaves alone. *)
Definition same_but_memory (k k' : ks) : Prop := ∃ m, k' = set_kpm (with_phys m (kpm k)) k.
#[local] Instance same_but_memory_preorder : PreOrder same_but_memory.
Proof.
  split.
  - intros k. exists (phys (kpm k)). destruct k as [[] ? ? ? ? ? ? ? ?]. reflexivity.
  - intros k1 k2 k3 [m2 ->] [m3 ->]. exists m3. reflexivity.
Qed.

Lemma gobble_space_run sp : ∀ fuel p rest k, zeroed p k → buf ≤ p → bytes_at f p sp → Forall (λ c, is_space c = true) sp →
  is_space (f (p + Z.of_nat (length sp))) = false → rest = p + Z.of_nat (length sp) → (length sp < fuel)%nat →
  ∃ k', gobble_space fuel p k = Ret rest k' ∧ zeroed rest k' ∧ same_but_memory k k'.
Proof.
  induction sp as [|c sp IH]; intros fuel p rest k Hz Hp Hb Hs He -> Hf; (destruct fuel as [|fuel]; [cbn in Hf; lia|]);
    cbn [gobble_space]; rewrite (bind_Ret _ _ _ _ _ (vld8_kern k p ltac:(lia))), (Hz p).
  - rewrite decide_False by lia. cbn [length] in *. rewrite Z.add_0_r in *. rewrite He. exists k.
    split; [reflexivity|]. split; [exact Hz|reflexivity].
  - rewrite decide_False by lia. apply bytes_at_cons in Hb as [Hc Hb]. apply Forall_cons in Hs as [Hcs Hs].
    rewrite Hc, Hcs. rewrite (bind_Ret _ _ _ _ _ (vst8_kern k p 0 ltac:(lia))).
    set (k1 := set_kpm _ k). cbn [length] in *.
    destruct (IH fuel (p + 1) (p + Z.of_nat (S (length sp))) k1) as (k' & E & Hz' & Hk); try lia; try assumption.
    + intros a. unfold k1. rewrite kernel_bytes_st, Hz. destruct (decide (a = p)) as [->|].
      * rewrite decide_True by (rewrite Hc; split; [lia|assumption]). reflexivity.
      * apply decide_ext. split; intros [? ?]; (split; [lia|assumption]).
    + rewrite <- He. do 2 f_equal. lia.
    + exists k'. split; [exact E|]. split; [exact Hz'|]. etransitivity; [|exact Hk]. eexists. reflexivity.
Qed.

Lemma scan_arg_run w : ∀ fuel p k, zeroed p k → buf ≤ p → bytes_at f p w → Forall (λ c, is_space c = false ∧ c ≠ 0) w →
  (f (p + Z.of_nat (length w)) = 0 ∨ is_space (f (p + Z.of_nat (length w))) = true) → (length w < fuel)%nat →
  scan_arg fuel p k = Ret (p + Z.of_nat (length w)) k.
Proof.
  induction w as [|c w IH]; intros fuel p k Hz Hp Hb Hw He Hf; (destruct fuel as [|fuel]; [cbn in Hf; lia|]);
    cbn [scan_arg]; rewrite (bind_Ret _ _ _ _ _ (vld8_kern k p ltac:(lia))), (Hz p), decide_False by lia.
  - cbn [length] in *. rewrite Z.add_0_r in *. 
    assert ((f p =? 0) || is_space (f p) = true) as ->; [|reflexivity].
    destruct He as [-> | ->]; [reflexivity|apply orb_true_r].
  - apply bytes_at_cons in Hb as [Hc Hb]. apply Forall_cons in Hw as [[Hcs Hc0] Hw]. rewrite Hc, Hcs, (proj2 (Z.eqb_neq _ _) Hc0).
    cbn [orb]. cbn [length] in *. rewrite (IH fuel (p + 1)); [f_equal; lia| |lia|exact Hb|exact Hw| |lia].
    + intros a. rewrite Hz. apply decide_ext. split; intros [? Hsp]; (split; [|exact Hsp]); [lia|].
      destruct (decide (a = p)) as [->|]; [congruence|lia].
    + replace (p + 1 + Z.of_nat (length w)) with (p + Z.of_nat (S (length w))) by lia. exact He.
Qed.

Lemma zeroed_skip p p' k : zeroed p k → p ≤ p' → (∀ a, p ≤ a < p' → is_space (f a) = false) → zeroed p' k.
Proof.
  intros Hz Hp Hs a. rewrite Hz. apply decide_ext. split; intros [? Hsp]; (split; [|exact Hsp]); [lia|].
  destruct (decide (p ≤ a)); [|lia]. rewrite Hs in Hsp by lia. discriminate.
Qed.

(** The word [w] of the original line is at [a], between [p] and [e]. *)
Definition word_at (p e a : Z) (w : list Z) : Prop :=
  p ≤ a ∧ a + Z.of_nat (length w) ≤ e ∧ bytes_at f a w ∧ Forall (λ c, is_space c = false ∧ 0 < c < 256) w ∧
  (f (a + Z.of_nat (length w)) = 0 ∨ is_space (f (a + Z.of_nat (length w))) = true).

Lemma bytes_at_app s x y : bytes_at f s (x ++ y) ↔ bytes_at f s x ∧ bytes_at f (s + Z.of_nat (length x)) y.
Proof.
  revert s. induction x as [|c x IH]; intros s; cbn [app length].
  - rewrite Z.add_0_r. split; [intros H; split; [intros i c' F; destruct i; discriminate F|exact H]|intros [_ H]; exact H].
  - rewrite !bytes_at_cons, IH. replace (s + 1 + Z.of_nat (length x)) with (s + Z.of_nat (S (length x))) by lia. tauto.
Qed.

Lemma cstr_app s x y : cstr f s (x ++ y) → bytes_at f s x ∧ Forall (λ c, 0 < c < 256) x ∧ cstr f (s + Z.of_nat (length x)) y.
Proof.
  intros [Hb Hn Hz]. apply bytes_at_app in Hb as [Hb1 Hb2]. apply Forall_app in Hz as [Hz1 Hz2].
  split; [exact Hb1|]. split; [exact Hz1|]. split; [exact Hb2| |exact Hz2]. rewrite <- Hn, length_app. f_equal. lia.
Qed.

(** What is left of the line after leading spaces and one word. *)
Record one_word (p : Z) (cs : list Z) (k1 : ks) (fuel : nat) (p1 : Z) (w rest : list Z) : Prop := {
  ow_words : words cs = w :: words rest;
  ow_char : f p1 ≠ 0;
  ow_word : word_at p (p + Z.of_nat (length cs)) p1 w;
  ow_scan : scan_arg fuel p1 k1 = Ret (p1 + Z.of_nat (length w)) k1;
  ow_zeroed : zeroed (p1 + Z.of_nat (length w)) k1;
  ow_rest : cstr f (p1 + Z.of_nat (length w)) rest;
  ow_end : p1 + Z.of_nat (length w) + Z.of_nat (length rest) = p + Z.of_nat (length cs);
  ow_len : (length rest ≤ length cs)%nat
}.

Lemma zeroed_word p w k : zeroed p k → bytes_at f p w → Forall (λ c, is_space c = false) w → zeroed (p + Z.of_nat (length w)) k.
Proof.
  intros Hz Hb Hw. apply (zeroed_skip p); [exact Hz|lia|]. intros a Ha.
  destruct (lookup_lt_is_Some_2 w (Z.to_nat (a - p)) ltac:(lia)) as [x Hx].
  pose proof (Forall_lookup_1 _ _ _ _ Hw Hx) as Hxs. cbv beta in Hxs. rewrite <- (Hb _ _ Hx) in Hxs.
  replace (p + Z.of_nat (Z.to_nat (a - p))) with a in Hxs by lia. exact Hxs.
Qed.

Lemma first_word p cs k fuel : zeroed p k → buf ≤ p → cstr f p cs → (length cs < fuel)%nat →
  match cs with [] => False | c :: _ => is_space c = false end → ∃ w rest, one_word p cs k fuel p w rest.
Proof.
  intros Hz Hp Hs Hf Hc. destruct (split_prefix (λ c, negb (is_space c)) cs) as (w & rest & -> & Hw & Hrest).
  destruct (cstr_app _ _ _ Hs) as (Bw & Rw & Cr). exists w, rest.
  assert (Forall (λ c, is_space c = false) w) as Hw' by (eapply Forall_impl; [exact Hw|]; intros x Hx; apply negb_true_iff, Hx).
  assert (breaks rest) as Hbr by (destruct rest; [exact I|apply negb_false_iff, Hrest]).
  assert (w ≠ []) as Hwn by (intros ->; destruct rest as [|d r]; [exact Hc|cbn in *; congruence]).
  assert (f (p + Z.of_nat (length w)) = 0 ∨ is_space (f (p + Z.of_nat (length w))) = true) as Hend.
  { destruct rest as [|d rest]; [left; apply (cstr_nil _ _ Cr)|right; apply cstr_cons in Cr as (-> & _); exact Hbr]. }
  rewrite length_app in Hf. split.
  - apply words_word; assumption.
  - destruct w as [|d w]; [contradiction|]. apply bytes_at_cons in Bw as [-> _]. apply Forall_cons in Rw as [? _]. lia.
  - split; [lia|]. split; [rewrite length_app; lia|]. split; [exact Bw|]. split; [apply Forall_and; auto|exact Hend].
  - apply scan_arg_run; try assumption; [|lia]. apply Forall_and. split; [exact Hw'|].
    eapply Forall_impl; [exact Rw|]. intros x Hx. cbv beta in Hx. lia.
  - apply zeroed_word; assumption.
  - exact Cr.
  - rewrite length_app. lia.
  - rewrite length_app. lia.
Qed.

Lemma parse_round p cs k fuel : zeroed p k → buf ≤ p → cstr f p cs → (length cs < fuel)%nat →
  ∃ p1 k1, gobble_space fuel p k = Ret p1 k1 ∧ buf ≤ p1 ∧ zeroed p1 k1 ∧ same_but_memory k k1 ∧
    (words cs = [] ∧ f p1 = 0 ∧ p1 = p + Z.of_nat (length cs) ∨ ∃ w rest, one_word p cs k1 fuel p1 w rest).
Proof.
  intros Hz Hp Hs Hf. destruct (split_prefix is_space cs) as (sp & b & -> & Hsp & Hb).
  destruct (cstr_app _ _ _ Hs) as (Bsp & _ & Cb). rewrite length_app in Hf.
  destruct (gobble_space_run sp fuel p (p + Z.of_nat (length sp)) k Hz Hp Bsp Hsp) as (k1 & E1 & Z1 & S1); [|reflexivity|lia|].
  { destruct b as [|c b]; [rewrite (cstr_nil _ _ Cb); reflexivity|]. apply cstr_cons in Cb as (-> & _). exact Hb. }
  eexists _, k1. split; [exact E1|]. split; [lia|]. split; [exact Z1|]. split; [exact S1|].
  destruct b as [|c b].
  - left. rewrite !app_nil_r. rewrite <- (app_nil_r sp), words_spaces by exact Hsp. rewrite app_nil_r.
    split; [reflexivity|]. split; [apply (cstr_nil _ _ Cb)|reflexivity].
  - right. destruct (first_word _ (c :: b) k1 fuel Z1 ltac:(lia) Cb ltac:(lia) Hb) as (w & rest & [O1 O2 O3 O4 O5 O6 O7 O8]).
    exists w, rest. destruct O3 as (? & ? & O3). split; try assumption.
    + rewrite words_spaces by exact Hsp. exact O1.
    + split; [lia|]. split; [rewrite length_app; lia|exact O3].
    + rewrite length_app. lia.
    + rewrite length_app. lia.
Qed.

Lemma parse_run rounds : ∀ cs p argv k fuel, zeroed p k → buf ≤ p → cstr f p cs →
  (15 ≤ rounds + length argv)%nat → (length argv ≤ 15)%nat → (length cs < fuel)%nat →
  if decide (length argv + length (words cs) ≤ 15)%nat
  then ∃ new k', parse_args rounds fuel p argv k = Ret (Some (argv ++ new)) k' ∧
    zeroed (p + Z.of_nat (length cs)) k' ∧ same_but_memory k k' ∧
    Forall2 (word_at p (p + Z.of_nat (length cs))) new (words cs)
  else ∃ k', parse_args rounds fuel p argv k = Ret None k'.
Proof.
  induction rounds as [|rounds IH]; intros cs p argv k fuel Hz Hp Hs Hr Hl Hf;
    destruct (parse_round p cs k fuel Hz Hp Hs Hf) as (p1 & k1 & E1 & Hp1 & Z1 & S1 & [(Ew & Ef & Ee)|(w & rest & O)]);
    cbn [parse_args]; rewrite (bind_Ret _ _ _ _ _ E1), (bind_Ret _ _ _ _ _ (vld8_kern k1 p1 ltac:(lia))), (Z1 p1), (decide_False (P := buf ≤ p1 < p1 ∧ _)) by (intros [? _]; lia);
    try (rewrite Ef, Ew; cbn [length]; rewrite decide_True by lia; exists [], k1; rewrite app_nil_r; subst p1;
      split; [reflexivity|]; split; [exact Z1|]; split; [exact S1|constructor]);
    rewrite (proj2 (Z.eqb_neq _ _) (ow_char _ _ _ _ _ _ _ O)), (ow_words _ _ _ _ _ _ _ O); cbn [length].
  - assert (length argv = 15)%nat as -> by lia. rewrite decide_False by lia. eexists. reflexivity.
  - destruct (decide (length argv = 15)%nat) as [->|Hne]; [rewrite decide_False by lia; eexists; reflexivity|].
    rewrite (proj2 (Z.eqb_neq _ _)) by (unfold MAXARGS; lia). rewrite (bind_Ret _ _ _ _ _ (ow_scan _ _ _ _ _ _ _ O)).
    pose proof (ow_len _ _ _ _ _ _ _ O). destruct (ow_word _ _ _ _ _ _ _ O) as (Hw1 & Hw2 & Hw3).
    specialize (IH rest _ (argv ++ [p1]) k1 fuel (ow_zeroed _ _ _ _ _ _ _ O) ltac:(lia) (ow_rest _ _ _ _ _ _ _ O)).
    rewrite length_app, (ow_end _ _ _ _ _ _ _ O) in IH. cbn [length] in IH. specialize (IH ltac:(lia) ltac:(lia) ltac:(lia)).
    destruct (decide (length argv + 1 + length (words rest) ≤ 15)%nat); [rewrite decide_True by lia|rewrite decide_False by lia; exact IH].
    destruct IH as (new & k' & E & Z' & S' & F'). exists (p1 :: new), k'. rewrite <- app_assoc in E. split; [exact E|].
    split; [exact Z'|]. split; [etransitivity; eassumption|]. constructor; [exact (conj Hw1 (conj Hw2 Hw3))|].
    eapply Forall2_impl; [exact F'|]. intros a w' (? & ?). split; [lia|assumption].
Qed.

(** In the end every word is a string of its own. *)
Lemma word_cstr k e a w : zeroed e k → f e = 0 → word_at buf e a w → cstr (kernel_bytes k) a w.
Proof.
  intros Hz He (Ha & Hae & Hb & Hw & Hend). split.
  - intros i c Hi. pose proof (Forall_lookup_1 _ _ _ _ Hw Hi) as [Hs _]. rewrite Hz, (Hb i c Hi).
    rewrite decide_False; [reflexivity|]. rewrite Hs. intros [_ F]. discriminate.
  - rewrite Hz. case_decide as D; [reflexivity|]. destruct Hend as [|Hend]; [assumption|].
    destruct D. split; [|exact Hend]. destruct (decide (a + Z.of_nat (length w) = e)) as [E|]; [|lia].
    rewrite E, He in Hend. discriminate.
  - eapply Forall_impl; [exact Hw|]. tauto.
Qed.
End parse.

(** * Dispatch *)

Lemma cstr_ext f g s cs : (∀ a, s ≤ a ≤ s + Z.of_nat (length cs) → g a = f a) → cstr f s cs → cstr g s cs.
Proof.
  intros E [Hb Hn Hz]. split; [|rewrite E by lia; exact Hn|exact Hz].
  apply (bytes_at_ext f); [|exact Hb]. intros a Ha. apply E. lia.
Qed.

Lemma strcmp_kern k fuel : ∀ x p q y, KERNBASE ≤ p → KERNBASE ≤ q → cstr (kernel_bytes k) p x → cstr (kernel_bytes k) q y →
  (length x < fuel)%nat → strcmp rdb fuel p q k = Ret (str_diff x y) k.
Proof.
  induction fuel as [|fuel IH]; intros x p q y Hp Hq Hx Hy Hf; [lia|]. cbn [strcmp].
  rewrite (bind_Ret _ _ _ _ _ (vld8_kern k p Hp)), (bind_Ret _ _ _ _ _ (vld8_kern k q Hq)). destruct x as [|c x].
  - rewrite (cstr_nil _ _ Hx). destruct y as [|d y]; [rewrite (cstr_nil _ _ Hy); reflexivity|].
    apply cstr_cons in Hy as (-> & _ & _). reflexivity.
  - apply cstr_cons in Hx as (-> & Hc & Hx). destruct (Z.eqb_spec c 0); [lia|]. cbn [negb andb]. destruct y as [|d y].
    + rewrite (cstr_nil _ _ Hy). destruct (Z.eqb_spec c 0); [lia|]. rewrite Z.sub_0_r. reflexivity.
    + apply cstr_cons in Hy as (-> & Hd & Hy). cbn [str_diff]. destruct (Z.eqb_spec c d); [|reflexivity].
      apply IH; try lia; try assumption. cbn in Hf. lia.
Qed.

(** The literals that hold the commands' names: in kernel memory, apart from
    the [n] bytes of the line. *)
Definition literals (lit : string → Z) (k : ks) (buf n : Z) : Prop :=
  Forall (λ c : string * string, KERNBASE ≤ lit c.1 ∧ cstr (kernel_bytes k) (lit c.1) (bytes c.1) ∧
    (lit c.1 + Z.of_nat (length (bytes c.1)) < buf ∨ buf + n ≤ lit c.1)) commands.

Section dispatch.
Context (lit sym : string → Z) (read_ebp STAB_BEGIN STAB_END STABSTR_BEGIN STABSTR_END : Z).
Notation lookup_command := (lookup_command lit sym read_ebp STAB_BEGIN STAB_END STABSTR_BEGIN STABSTR_END).
Notation run_command := (run_command lit sym read_ebp STAB_BEGIN STAB_END STABSTR_BEGIN STABSTR_END).

Lemma bytes_inj s t : bytes s = bytes t → s = t.
Proof.
  revert t. induction s as [|c s IH]; intros [|d t] E; try discriminate E; [reflexivity|]. injection E as Ec Es.
  f_equal; [|apply IH, Es]. unfold chr in Ec. apply N2Z.inj in Ec.
  rewrite <- (Ascii.ascii_N_embedding c), <- (Ascii.ascii_N_embedding d), Ec. reflexivity.
Qed.

Lemma lookup_run fuel a w argv k l : KERNBASE ≤ a → cstr (kernel_bytes k) a w → (length w < fuel)%nat →
  Forall (λ c : string * string, KERNBASE ≤ lit c.1 ∧ cstr (kernel_bytes k) (lit c.1) (bytes c.1)) l →
  (∀ name desc, (name, desc) ∈ l → w = bytes name → lookup_command fuel l a argv k = run_command fuel name argv k) ∧
  ((∀ name desc, (name, desc) ∈ l → w ≠ bytes name) →
     lookup_command fuel l a argv k = (cprintf "Unknown command '%s'\n" [a] ;; mret 0) k).
Proof.
  intros Ha Hw Hf. induction l as [|[name desc] l IH]; intros Hl; [split; [intros ? ? F; inversion F|reflexivity]|].
  apply Forall_cons in Hl as [[Hn Hc] Hl]. destruct (IH Hl) as [IH1 IH2]. cbn [Monitor.lookup_command].
  rewrite (bind_Ret _ _ _ _ _ (strcmp_kern k fuel w a (lit name) (bytes name) Ha Hn Hw Hc Hf)).
  assert (Forall (λ c, 0 < c < 256) (bytes name)) as Hbn by apply Hc.
  assert (str_diff w (bytes name) = 0 ↔ w = bytes name) as Hd by (apply str_diff_eq; [apply Hw|exact Hbn]).
  destruct (Z.eqb_spec (str_diff w (bytes name)) 0) as [E|E].
  - apply Hd in E. split.
    + intros n d _ Hn'. rewrite (bytes_inj n name) by congruence. reflexivity.
    + intros F. destruct (F name desc (list_elem_of_here _ _) E).
  - split.
    + intros n d [F|F]%elem_of_cons Hw'; [injection F as -> ->; tauto|]. exact (IH1 n d F Hw').
    + intros F. apply IH2. intros n d Hin. apply (F n d), list_elem_of_further, Hin.
Qed.
End dispatch.

(** * setperm and showmappings *)

Definition hex_value (ds : list Z) : Z := foldl (λ v d, w32 (v * 16 + d)) 0 ds.

Lemma xtoi_run k fuel s c0 c1 cs ds : KERNBASE ≤ s → cstr (kernel_bytes k) s (c0 :: c1 :: cs) →
  Forall2 (λ c d, hex_digit c = Some d) cs ds → (length cs < fuel)%nat → xtoi fuel s k = Ret (hex_value ds) k.
Proof.
  intros Hs Hc Hd Hf. apply cstr_cons in Hc as (_ & _ & Hc). apply cstr_cons in Hc as (_ & _ & Hc).
  unfold xtoi, hex_value. replace (s + 1 + 1) with (s + 2) in Hc by lia. assert (KERNBASE ≤ s + 2) as Hs2 by lia.
  clear Hs. revert Hs2 Hc Hf. generalize (s + 2) as p, 0 as v. revert fuel.
  induction Hd as [|c d cs ds Hd Hds IH]; intros fuel p v Hp Hc Hf; (destruct fuel as [|fuel]; [cbn in Hf; lia|]);
    cbn [xtoi_loop]; rewrite (bind_Ret _ _ _ _ _ (vld8_kern k p Hp)).
  - rewrite (cstr_nil _ _ Hc). reflexivity.
  - apply cstr_cons in Hc as (-> & Hr & Hc). rewrite (proj2 (Z.eqb_neq c 0)), Hd by lia.
    apply IH; [lia|exact Hc|cbn in Hf; lia].
Qed.

Lemma hex_value_range ds : u32_range (hex_value ds).
Proof.
  unfold hex_value. destruct ds as [|d ds] using rev_ind; [split; reflexivity || discriminate|].
  rewrite foldl_app. apply w32_range.
Qed.

Lemma frame_of_div e : u32_range e → frame_of e = e / PGSIZE.
Proof.
  intros He. pose proof (frame_of_addr e) as H. rewrite PTE_ADDR_mod, w32_id in H by exact He.
  unfold PGSIZE in *. Z.div_mod_to_equations. lia.
Qed.

Lemma arg_run argv n a k : argv !! n = Some a → arg argv n k = Ret a k.
Proof. unfold arg. intros ->. reflexivity. Qed.
Lemma arg_char_run argv n i a k : argv !! n = Some a → KERNBASE ≤ a + i → arg_char argv n i k = Ret (kernel_bytes k (a + i)) k.
Proof. intros Ha Hk. unfold arg_char. rewrite (bind_Ret _ _ _ _ _ (arg_run _ _ _ _ Ha)). apply vld8_kern, Hk. Qed.

(** The entry that the second letter of clear, set or change makes of [e]. *)
Definition permed (c e perm : Z) : Z :=
  if c =? chr "h" then Z.lor (Z.land e 0xfff8) perm
  else if c =? chr "l" then Z.land e (Z.lnot perm) else Z.lor e perm.

Lemma perm_of_range c : perm_ok (perm_of c 0).
Proof. unfold perm_of. repeat case_match; split; vm_compute; congruence. Qed.

Lemma permed_range c e perm : u32_range e → u32_range perm → u32_range (permed c e perm).
Proof.
  intros [He1 He2] [Hp1 Hp2]. unfold permed, u32_range.
  assert (∀ a b, 0 ≤ a < 2 ^ 32 → 0 ≤ b < 2 ^ 32 → 0 ≤ Z.lor a b < 2 ^ 32) as Hlor.
  { intros a b Ha Hb. replace (Z.lor a b) with (Z.lor a b mod 2 ^ 32); [apply Z.mod_pos_bound; lia|].
    rewrite <- Z.land_ones, Z.land_lor_distr_l, !Z.land_ones, !Z.mod_small by lia. reflexivity. }
  assert (∀ m, 0 ≤ Z.land e m < 2 ^ 32) as Hland.
  { intros m. assert (Z.land e m = Z.land (Z.land e m) (Z.ones 32)) as ->.
    { rewrite <- Z.land_assoc, (Z.land_comm m), Z.land_assoc, Z.land_ones, (Z.mod_small e) by lia. reflexivity. }
    rewrite Z.land_ones by lia. apply Z.mod_pos_bound. lia. }
  repeat case_match; auto.
Qed.

Lemma permed_frame e perm : u32_range e → perm_ok perm →
  frame_of (permed (chr "h") e perm) = frame_of e mod 16.
Proof.
  intros He Hp. assert (u32_range perm) as Hp' by (unfold perm_ok, u32_range, PGSIZE in *; lia).
  rewrite !frame_of_div by (exact He || apply permed_range; assumption). unfold permed. cbn [Z.eqb chr].
  change (chr "h" =? chr "h") with true. cbv iota. unfold PGSIZE, perm_ok in *.
  change 4096 with (2 ^ 12). change 16 with (2 ^ 4). rewrite <- !Z.shiftr_div_pow2 by lia.
  rewrite Z.shiftr_lor, Z.shiftr_land. rewrite (Z.shiftr_div_pow2 perm) by lia.
  rewrite (Z.div_small perm) by (change (2 ^ 12) with 4096; exact Hp). rewrite Z.lor_0_r.
  change (Z.shiftr 65528 12) with (Z.ones 4). apply Z.land_ones. lia.
Qed.

Lemma showmappings_forever fuel : ∀ va vend k r k', u32_range va → vend < 2 ^ 32 → 0xfffff000 ≤ vend → va mod PGSIZE ≤ vend mod PGSIZE →
  showmappings_loop fuel va vend k ≠ Ret r k'.
Proof.
  induction fuel as [|fuel IH]; intros va vend k r k' Hva Hve Hv Hm E; unfold u32_range in Hva.
  all: assert (va ≤ vend) as Hle by (unfold PGSIZE in *; Z.div_mod_to_equations; lia).
  all: cbn [showmappings_loop] in E; rewrite (proj2 (Z.leb_le _ _) Hle) in E; try discriminate E.
  assert (∀ k1 r1 k2, showmappings_loop fuel (w32 (va + PGSIZE)) vend k1 ≠ Ret r1 k2) as Hno.
  { intros k1 r1 k2. apply IH; [apply w32_range|exact Hve|exact Hv|]. unfold w32, PGSIZE in *. Z.div_mod_to_equations. lia. }
  revert E. unfold mbind, M_bind. repeat case_match; try discriminate; intros E; try (eapply Hno; exact E); congruence.
Qed.

(** * Properties *)

(** C38. [readline], on any console that keeps the promise of [LineLaws], is a
    line editor: it reads up to the first newline or carriage return, stores
    the edited line with a null byte, never more than the 1024 bytes of its
    buffer and nothing else, and leaves the rest of the input; a negative
    character ends it with NULL. *)
Theorem readline_edits {S : Type} `{LineIO S} (input : S → list Z → Prop) (mview : S → Z → Z) (rlbuf : Z)
    (prompt : Z) (s : S) (cs rest : list Z) (c : Z) (fuel : nat) :
  LineLaws S input mview rlbuf →
  input s (cs ++ c :: rest) → Forall (λ c, 0 ≤ c ∧ ¬ ends_line c) cs → (length cs < fuel)%nat →
  (ends_line c →
    ∃ s', readline rlbuf fuel prompt s = Ret (Some rlbuf) s' ∧ input s' rest ∧
      bytes_at (mview s') rlbuf (edit cs ++ [0]) ∧ Z.of_nat (length (edit cs)) < BUFLEN ∧
      ∀ a, ¬ (rlbuf ≤ a < rlbuf + BUFLEN) → mview s' a = mview s a) ∧
  (c < 0 → ∃ s', readline rlbuf fuel prompt s = Ret None s' ∧ input s' rest).
Proof.
  intros LL Hi Hcs Hf. unfold readline.
  assert (∃ s0, when (negb (prompt =? 0)) (io_cprintf "%s" [prompt]) s = Ret tt s0 ∧ input s0 (cs ++ c :: rest) ∧
    ∀ a, mview s0 a = mview s a) as (s0 & E0 & I0 & V0).
  { destruct (negb _); cbn [when]; [apply ll_cprintf, Hi|exists s; auto]. }
  assert (typed mview rlbuf (mview s) s0 []) as T0.
  { split; [intros i x F; destruct i; discriminate F|reflexivity|]. intros a _. apply V0. }
  destruct fuel as [|fuel]; [lia|]. replace (Datatypes.S fuel) with (length cs + Datatypes.S (fuel - length cs))%nat by lia.
  destruct (readline_line input mview rlbuf (mview s) cs s0 (c :: rest) [] (Datatypes.S (fuel - length cs)) I0 Hcs T0) as (s1 & E1 & I1 & T1).
  fold (edit cs) in *. rewrite (bind_Ret _ _ _ _ _ E0). change (readline_loop rlbuf (length cs + Datatypes.S (fuel - length cs)) 0 s0)
    with (readline_loop rlbuf (length cs + Datatypes.S (fuel - length cs)) (Z.of_nat (length (@nil Z))) s0).
  rewrite E1. cbn [readline_loop]. destruct (ll_getchar s1 c rest I1) as (s2 & E2 & I2 & V2). rewrite (bind_Ret _ _ _ _ _ E2).
  destruct (typed_view mview rlbuf (mview s) s1 s2 _ V2 T1) as [Hb Hn Hs]. split.
  - intros Hc. rewrite (proj2 (Z.ltb_ge c 0)) by (destruct Hc; lia).
    assert ((c =? 8) || (c =? 127) = false ∧ c >=? 32 = false ∧ (c =? 10) || (c =? 13) = true) as (-> & -> & ->)
      by (destruct Hc as [-> | ->]; repeat split). cbn [andb].
    destruct (echo_run input mview rlbuf 10 s2 rest I2) as (s3 & E3 & I3 & V3). rewrite (bind_Ret _ _ _ _ _ E3).
    destruct (ll_store (rlbuf + Z.of_nat (length (edit cs))) 0 s3 rest I3) as (s4 & E4 & I4 & V4); [lia|].
    rewrite (bind_Ret _ _ _ _ _ E4). exists s4. split; [reflexivity|]. split; [exact I4|]. split; [|split; [exact Hn|]].
    + apply bytes_at_snoc; [|rewrite V4, decide_True by reflexivity; reflexivity].
      apply (bytes_at_ext (mview s2)); [|exact Hb]. intros a Ha. rewrite V4, decide_False by lia. apply V3.
    + intros a Ha. rewrite V4, decide_False, V3 by lia. apply Hs, Ha.
  - intros Hc. rewrite (proj2 (Z.ltb_lt c 0)) by exact Hc.
    destruct (ll_cprintf "read error: %e\n" [c] s2 rest I2) as (s3 & E3 & I3 & _). rewrite (bind_Ret _ _ _ _ _ E3).
    exists s3. split; [reflexivity|exact I3].
Qed.

(** C22. [runcmd] splits the line into its words: with at most fifteen of them,
    every argument is a pointer to a null-terminated string that is the word,
    nothing but spaces of the line is overwritten, and the first word selects
    the command of that name, or is reported; more than fifteen are
    refused. *)
Theorem runcmd_dispatches (lit sym : string → Z) (read_ebp STAB_BEGIN STAB_END STABSTR_BEGIN STABSTR_END : Z)
    (k : ks) (buf : Z) (cs : list Z) (fuel : nat) :
  KERNBASE ≤ buf → cstr (kernel_bytes k) buf cs → (length cs < fuel)%nat →
  literals lit k buf (Z.of_nat (length cs)) →
  let run := runcmd lit sym read_ebp STAB_BEGIN STAB_END STABSTR_BEGIN STABSTR_END fuel buf k in
  ((15 < length (words cs))%nat → ∃ k', run = Ret 0 k') ∧
  (words cs = [] → ∃ k', run = Ret 0 k' ∧ same_but_memory k k') ∧
  (∀ w ws, words cs = w :: ws → (length (words cs) ≤ 15)%nat →
    ∃ a argv k', same_but_memory k k' ∧ Forall2 (cstr (kernel_bytes k')) (a :: argv) (w :: ws) ∧
      (∀ b, kernel_bytes k' b
         = if decide (buf ≤ b < buf + Z.of_nat (length cs) ∧ is_space (kernel_bytes k b) = true) then 0 else kernel_bytes k b) ∧
      (∀ name desc, (name, desc) ∈ commands → w = bytes name →
         run = run_command lit sym read_ebp STAB_BEGIN STAB_END STABSTR_BEGIN STABSTR_END fuel name (a :: argv) k') ∧
      ((∀ name desc, (name, desc) ∈ commands → w ≠ bytes name) →
         run = (cprintf "Unknown command '%s'\n" [a] ;; mret 0) k')).
Proof.
  intros Hb Hs Hf Hlit run. unfold run, runcmd.
  assert (zeroed buf (kernel_bytes k) buf k) as Hz by (intros a; rewrite decide_False by lia; reflexivity).
  pose proof (parse_run buf Hb (kernel_bytes k) (Z.to_nat MAXARGS) cs buf [] k fuel Hz ltac:(lia) Hs ltac:(unfold MAXARGS; lia) ltac:(cbn; lia) Hf) as P.
  cbn [length Nat.add] in P. split; [|split].
  - intros Hw. rewrite decide_False in P by lia. destruct P as (k' & E). rewrite (bind_Ret _ _ _ _ _ E). exists k'. reflexivity.
  - intros Hw. rewrite Hw, decide_True in P by (cbn; lia). destruct P as (new & k' & E & _ & S' & F).
    rewrite (bind_Ret _ _ _ _ _ E). inversion F. exists k'. split; [reflexivity|exact S'].
  - intros w ws Hw Hl. rewrite decide_True in P by exact Hl. destruct P as (new & k' & E & Z' & S' & F).
    rewrite (bind_Ret _ _ _ _ _ E). rewrite Hw in F. destruct new as [|a argv]; [inversion F|]. cbn [app].
    assert (Forall2 (cstr (kernel_bytes k')) (a :: argv) (w :: ws)) as HF.
    { eapply Forall2_impl; [exact F|]. intros b x. apply (word_cstr buf (kernel_bytes k) k' _ b x Z').
      apply (cs_nul _ _ _ Hs). }
    exists a, argv, k'. split; [exact S'|]. split; [exact HF|]. split; [exact Z'|].
    apply Forall2_cons_1 in F as [(Ha & Hae & _) _]. apply Forall2_cons_1 in HF as [Hca _].
    assert (Forall (λ c : string * string, KERNBASE ≤ lit c.1 ∧ cstr (kernel_bytes k') (lit c.1) (bytes c.1)) commands) as Hlit'.
    { eapply Forall_impl; [exact Hlit|]. intros c (H1 & H2 & H3). split; [exact H1|]. eapply cstr_ext; [|exact H2].
      intros b Hb'. rewrite (Z' b). apply decide_False. intros [? _]. lia. }
    destruct (lookup_run lit sym read_ebp STAB_BEGIN STAB_END STABSTR_BEGIN STABSTR_END fuel a w (a :: argv) k' commands
      ltac:(lia) Hca ltac:(lia) Hlit') as [L1 L2].
    split; [exact L1|exact L2].
Qed.

(** [setperm] with a page table present changes the entry of the page as
    asked: clear and set change the one flag and no other bit; but change
    keeps only bits 3 to 15 of the entry, so the page is mapped to another
    frame, the old one modulo 16. *)
Theorem setperm_entry (k : ks) (kp t a0 a1 a2 a3 : Z) (x0 x1 y0 y1 z0 z1 : Z) (xs ys zs ds ps : list Z) (fuel : nat) :
  KERNBASE ≤ a1 → KERNBASE ≤ a2 → KERNBASE ≤ a3 →
  cstr (kernel_bytes k) a1 (x0 :: x1 :: xs) → Forall2 (λ c d, hex_digit c = Some d) xs ds →
  cstr (kernel_bytes k) a2 (y0 :: y1 :: ys) → y1 = chr "h" ∨ y1 = chr "l" ∨ y1 = chr "e" →
  cstr (kernel_bytes k) a3 (z0 :: z1 :: zs) → (y1 = chr "h" → Forall2 (λ c d, hex_digit c = Some d) zs ps) →
  (length xs < fuel)%nat → (length zs < fuel)%nat →
  kern_pgdir (kpm k) = kva_of kp → 0 < npages (kpm k) ≤ 65536 → 0 ≤ t < npages (kpm k) →
  let addr := hex_value ds in
  pt_of (phys (kpm k)) kp (PDX addr) = Some t →
  let e := wd (phys (kpm k)) t (PTX addr) in
  let perm := if decide (y1 = chr "h") then hex_value ps else perm_of z0 0 in
  ∃ k', setperm fuel [a0; a1; a2; a3] k = Ret 0 k' ∧
    wd (phys (kpm k')) t (PTX addr) = permed y1 e perm ∧
    (y1 = chr "h" → perm_ok perm → frame_of (permed y1 e perm) = frame_of e mod 16).
Proof.
  intros H1 H2 H3 S1 D1 S2 Hy S3 D3 F1 F3 Hkp Hn Ht addr Hpt e perm.
  assert (0 ≤ PTX addr < 1024) as Hj.
  { unfold PTX. change 0x3FF with (Z.ones 10). rewrite Z.land_ones by lia. apply Z.mod_pos_bound. lia. }
  assert (u32_range e) as He by apply wd_range.
  assert (u32_range perm) as Hp.
  { unfold perm. case_decide; [apply hex_value_range|]. pose proof (perm_of_range z0). unfold perm_ok, PGSIZE, u32_range in *. lia. }
  pose proof (permed_range y1 e perm He Hp) as Hnew.
  unfold setperm. change (Z.of_nat (length [a0; a1; a2; a3]) =? 1) with false. cbv iota.
  rewrite (bind_Ret _ _ _ _ _ (arg_run [a0; a1; a2; a3] 1 a1 k eq_refl)).
  rewrite (bind_Ret _ _ _ _ _ (xtoi_run k fuel a1 x0 x1 xs ds H1 S1 D1 F1)), bind_gets, Hkp. fold addr.
  erewrite bind_Ret by (apply inpm_Ret, walk_found; [exact Hpt|exact Hn|exact Ht]). rewrite set_kpm_same.
  apply cstr_cons in S2 as (_ & _ & S2). apply cstr_cons in S2 as (E2 & _ & _).
  rewrite (bind_Ret _ _ _ _ _ (arg_char_run [a0; a1; a2; a3] 2 1 a2 k eq_refl ltac:(lia))), E2.
  pose proof S3 as S3'. apply cstr_cons in S3' as (E3 & _ & _).
  assert (arg_char [a0; a1; a2; a3] 3 0 k = Ret z0 k) as Ec3
    by (rewrite (arg_char_run [a0; a1; a2; a3] 3 0 a3 k eq_refl), Z.add_0_r, E3 by lia; reflexivity).
  set (k1 := set_kpm (with_phys (st32 (phys (kpm k)) (t * PGSIZE + 4 * PTX addr) (permed y1 e perm)) (kpm k)) k).
  assert (∀ v, st_pte (Some (kva_of t + 4 * PTX addr)) v k
    = Ret tt (set_kpm (with_phys (st32 (phys (kpm k)) (t * PGSIZE + 4 * PTX addr) v) (kpm k)) k)) as Est
    by (intros v; apply inpm_Ret, kst32_wd).
  assert (∀ k, ld_pte (Some (kva_of t + 4 * PTX addr)) k = Ret (wd (phys (kpm k)) t (PTX addr)) k) as Eld
    by (intros k'; unfold ld_pte; erewrite inpm_Ret by apply kld32_wd; rewrite set_kpm_same; reflexivity).
  match goal with |- context [(?m ≫= _) k] => assert (m k = Ret true k1) as Em end.
  { unfold k1, permed, perm in *. clear k1 perm. destruct Hy as [-> |[-> | ->]].
    - rewrite decide_True by reflexivity. change (chr "h" =? chr "h") with true. cbv iota.
      rewrite (bind_Ret _ _ _ _ _ (arg_run [a0; a1; a2; a3] 3 a3 k eq_refl)).
      rewrite (bind_Ret _ _ _ _ _ (xtoi_run k fuel a3 z0 z1 zs ps H3 S3 (D3 eq_refl) F3)), (bind_Ret _ _ _ _ _ (Eld k)).
      rewrite (bind_Ret _ _ _ _ _ (Est _)). reflexivity.
    - rewrite decide_False in * by discriminate. change (chr "l" =? chr "h") with false in *. change (chr "l" =? chr "l") with true. cbv iota.
      rewrite (bind_Ret _ _ _ _ _ Ec3). cbv zeta. rewrite (bind_Ret _ _ _ _ _ (Eld k)), (bind_Ret _ _ _ _ _ (Est _)).
      fold e. rewrite w32_id by exact Hnew. reflexivity.
    - rewrite decide_False in * by discriminate. change (chr "e" =? chr "h") with false in *. change (chr "e" =? chr "l") with false.
      change (chr "e" =? chr "e") with true. cbv iota.
      rewrite (bind_Ret _ _ _ _ _ Ec3). cbv zeta. rewrite (bind_Ret _ _ _ _ _ (Eld k)), (bind_Ret _ _ _ _ _ (Est _)). reflexivity. }
  rewrite (bind_Ret _ _ _ _ _ Em). cbv iota. unfold cprintf at 1. rewrite bind_modify. unfold print_pte_info.
  rewrite bind_assoc, (bind_Ret _ _ _ _ _ (Eld _)). unfold cprintf. rewrite bind_modify.
  eexists. split; [reflexivity|]. split.
  - unfold k1. ksimpl. psimpl. rewrite wd_st32 by assumption. apply decide_True. auto.
  - intros -> Hpo. apply permed_frame; assumption.
Qed.

(** * Concrete inputs *)

(** Strings in kernel memory, at offsets from KERNBASE. *)
Fixpoint poke (m : mem) (a : Z) (cs : list Z) : mem :=
  match cs with [] => m | c :: cs => st8 (poke m (a + 1) cs) a c end.
Definition demo_mon (m : mem) : ks :=
  let k := demo_ks demo_pm in set_kpm (with_phys m (kpm k)) k.

Lemma cstr_check (f : Z → Z) s cs :
  forallb (λ '(i, c), (f (s + Z.of_nat i) =? c) && (0 <? c) && (c <? 256)) (imap pair cs) && (f (s + Z.of_nat (length cs)) =? 0) = true →
  cstr f s cs.
Proof.
  rewrite andb_true_iff, forallb_forall, Z.eqb_eq. intros [F N].
  assert (∀ i c, cs !! i = Some c → f (s + Z.of_nat i) = c ∧ 0 < c < 256) as A.
  { intros i c Hc. assert (In (i, c) (imap pair cs)) as Hin
      by (apply list_elem_of_In, list_elem_of_lookup; exists i; rewrite list_lookup_imap, Hc; reflexivity).
    apply F in Hin. lia. }
  split; [intros i c Hc; apply A, Hc|exact N|apply Forall_lookup; intros i c Hc; apply (A i c Hc)].
Qed.

(** Typing ab, backspace, c, newline and x on the serial line. *)
Definition demo_typing : ks :=
  let k := demo_ks demo_pm in set_kcons (set_com_data [97; 98; 8; 99; 10; 120] (set_kbd_data [] (set_crt_pos 100 (kcons k)))) k.

Lemma demo_typing_ok : typing demo_typing [97; 98; 8; 99; 10; 120].
Proof.
  split; [|split].
  - split; [split; [discriminate|reflexivity]|]. intros i [v F]. discriminate F.
  - left. reflexivity.
  - exists []. split; [|split; [reflexivity|]].
    + split; try (vm_compute; split; congruence); try reflexivity. intros i Hi. inversion Hi.
    + split; [reflexivity|]. repeat constructor; discriminate.
Qed.

Lemma readline_edits_witness : ∃ s',
  @readline ks (kern_line_io (λ _, true) (λ _, true) 1) (KERNBASE + 4096) 100 0 demo_typing = Ret (Some (KERNBASE + 4096)) s' ∧
  typing s' [120] ∧ bytes_at (kernel_bytes s') (KERNBASE + 4096) [97; 99; 0].
Proof.
  destruct (readline_edits (H := kern_line_io (λ _, true) (λ _, true) 1) typing kernel_bytes (KERNBASE + 4096) 0 demo_typing
    [97; 98; 8; 99] [120] 10 100) as [E _].
  - apply kern_line_laws. discriminate.
  - exact demo_typing_ok.
  - repeat constructor; try discriminate; intros [G|G]; discriminate G.
  - cbn. lia.
  - destruct (E (or_introl eq_refl)) as (s' & Er & Hi & Hb & _). exists s'. split; [exact Er|]. split; [exact Hi|exact Hb].
Defined.

(** The line help me, with the names of the commands below it. *)
Definition demo_lit (s : string) : Z := KERNBASE + 64 * Z.of_nat (String.length s).
Definition demo_line : Z := KERNBASE + 4096.
Definition demo_shell : ks :=
  demo_mon (foldr (λ c m, poke m (demo_lit c.1 - KERNBASE) (bytes c.1)) (poke ∅ (demo_line - KERNBASE) (bytes " help  me")) commands).

Lemma demo_literals : literals demo_lit demo_shell demo_line 9.
Proof.
  unfold literals, commands. repeat (constructor; [split; [apply Z.leb_le; vm_compute; reflexivity|
    split; [apply cstr_check; vm_compute; reflexivity|left; vm_compute; reflexivity]]|]). constructor.
Qed.

Lemma runcmd_dispatches_witness : ∃ a b k',
  runcmd demo_lit (λ _, 0) 0 0 0 0 0 100 demo_line demo_shell
    = run_command demo_lit (λ _, 0) 0 0 0 0 0 100 "help" [a; b] k' ∧
  cstr (kernel_bytes k') b (bytes "me").
Proof.
  destruct (runcmd_dispatches demo_lit (λ _, 0) 0 0 0 0 0 demo_shell demo_line (bytes " help  me") 100) as (_ & _ & H).
  - discriminate.
  - apply cstr_check. vm_compute. reflexivity.
  - cbn. lia.
  - exact demo_literals.
  - destruct (H (bytes "help") [bytes "me"]) as (a & argv & k' & _ & Hf & _ & Hr & _); [reflexivity|vm_compute; lia|].
    inversion Hf as [|? ? ? ? _ Hf']; subst. inversion Hf' as [|b ? ? ? Hb Hn]; subst. inversion Hn; subst.
    exists a, b, k'. split; [|exact Hb].
    apply (Hr "help" "Display this list of commands"); [left|reflexivity].
Defined.

(** setperm 0x2000 change 0x7, with frame 0x15 mapped at 0x2000. *)
Definition demo_perm : ks :=
  demo_mon (poke (poke (poke (st32 (st32 ∅ (1 * PGSIZE) (2 * PGSIZE + 7)) (2 * PGSIZE + 4 * 2) 0x15007)
    256 (bytes "0x2000")) 320 (bytes "change")) 384 (bytes "0x7")).

Lemma setperm_entry_witness : ∃ k',
  setperm 100 [KERNBASE; KERNBASE + 256; KERNBASE + 320; KERNBASE + 384] demo_perm = Ret 0 k' ∧
  wd (phys (kpm k')) 2 2 = 0x5007 ∧ frame_of 0x5007 = frame_of 0x15007 mod 16.
Proof.
  destruct (setperm_entry demo_perm 1 2 KERNBASE (KERNBASE + 256) (KERNBASE + 320) (KERNBASE + 384)
    48 120 99 104 48 120 [50; 48; 48; 48] (bytes "ange") [55] [2; 0; 0; 0] [7] 100) as (k' & E & Hw & Hf).
  all: try discriminate.
  all: try (apply cstr_check; vm_compute; reflexivity).
  all: try (cbn; lia).
  all: try reflexivity.
  - repeat constructor.
  - left. reflexivity.
  - intros _. repeat constructor.
  - exists k'. split; [exact E|]. split; [exact Hw|]. reflexivity.
Defined.
