(* ===== verification/UserLib.v ===== *)
(** The user-level library (lib/): the system call stubs, the registration of
    exception handlers, copy-on-write fork, message passing and start-up, as
    they run in user mode on top of the kernel's trap. *)
From S2P Require Import Prelude Mmu Mem Pages PageTable AddrSpace Console KState Env Syscall Trap.

(** The variables of the library in the running environment: the pointers
    [_X_handler], one for each exception, and the index in [envs] that
    [thisenv] points to. *)
Record us := MkUs {
  uk : ks;
  _handler : upcall → Z;
  thisenv : option Z
}.
Definition set_uk (v : ks) (s : us) : us := MkUs v (_handler s) (thisenv s).
Definition set_handlers (v : upcall → Z) (s : us) : us := MkUs (uk s) v (thisenv s).
Definition set_thisenv (v : option Z) (s : us) : us := MkUs (uk s) (_handler s) v.

Definition uk_lens : lens us ks := Lens uk set_uk.
Definition inuk {A} (m : M ks A) : M us A := lift uk_lens m.

(** * Memory in user mode *)

(** An access that the page tables do not grant does not complete; the
    processor traps. *)
Definition uld8 (va : Z) : M us Z := λ s,
  match translate (kpm (uk s)) false true va with
  | Some pa => Ret (ld8 (phys (kpm (uk s))) pa) s
  | None => Stop (SFault va) s
  end.
Definition ust8 (va v : Z) : M us unit := λ s,
  match translate (kpm (uk s)) true true va with
  | Some pa => Ret tt (set_uk (set_kpm (with_phys (st8 (phys (kpm (uk s))) pa v) (kpm (uk s))) (uk s)) s)
  | None => Stop (SFault va) s
  end.
Definition uld32 (va : Z) : M us Z := λ s,
  match translate (kpm (uk s)) false true va with
  | Some pa => Ret (ld32 (phys (kpm (uk s))) pa) s
  | None => Stop (SFault va) s
  end.
Definition ust32 (va v : Z) : M us unit :=
  ust8 va v ;; ust8 (va + 1) (v / 2 ^ 8) ;; ust8 (va + 2) (v / 2 ^ 16) ;; ust8 (va + 3) (v / 2 ^ 24).
(** memmove and memcpy (lib/string.c) on the program's own addresses. *)
Fixpoint umove_up (n : nat) (d s : Z) : M us unit :=
  match n with
  | O => mret tt
  | S n => b ← uld8 s; ust8 d b ;; umove_up n (w32 (d + 1)) (w32 (s + 1))
  end.
Fixpoint umove_down (n : nat) (d s : Z) : M us unit :=
  match n with
  | O => mret tt
  | S n => b ← uld8 (w32 (s - 1)); ust8 (w32 (d - 1)) b ;; umove_down n (w32 (d - 1)) (w32 (s - 1))
  end.
Definition umemmove (dst src n : Z) : M us unit :=
  if (src <? dst) && (w32 (src + n) >? dst) then umove_down (Z.to_nat n) (w32 (dst + n)) (w32 (src + n))
  else umove_up (Z.to_nat n) dst src.
Definition umemcpy (dst src n : Z) : M us unit := umemmove dst src n.

(** [uvpt[n]] and [uvpd[i]]: the page tables and the directory, which the
    directory's entry for UVPT maps to themselves. *)
Definition uvpt (n : Z) : M us Z := uld32 (UVPT + 4 * n).
Definition uvpd (i : Z) : M us Z := uld32 (UVPT + 4 * PGNUM UVPT + 4 * i).

(** [envs[i]] as user code reads it at UENVS, where the kernel's array is
    mapped. *)
Definition uenv (i : Z) : M us Env := inuk (env_get i).

(** * lib/syscall.c *)

Section user.
(** The registers of the program that a system call does not set, and the
    entry points of the assembly wrappers of the handlers. *)
Context (uframe : Trapframe) (entry : upcall → Z).

Definition call_frame (num a1 a2 a3 a4 a5 : Z) : Trapframe :=
  set_tf_trapno T_SYSCALL (set_tf_regs
    (MkPushRegs (w32 a4) (w32 a5) (reg_ebp (tf_regs uframe)) (reg_oesp (tf_regs uframe))
       (w32 a3) (w32 a1) (w32 a2) (w32 num)) uframe).

(** An interrupt or an exception of the program with the registers in [tf], and
    [cr2] in %cr2: the kernel's trap runs, and if it goes back to the same
    environment the program continues with the registers of the saved frame.
    If the kernel goes elsewhere the program has not continued. *)
Definition resume (cr2 : Z) (tf : Trapframe) : M ks Trapframe := λ k,
  match trap cr2 0 0 tf k with
  | Stop (SRun i) k' =>
      if bool_decide ((cpus k !! cpunum k ≫= cpu_env) = Some i) then
        match envs k' !! i with
        | Some e => Ret (env_tf e) k'
        | None => Stop (SUndef "not an environment") k'
        end
      else Stop (SRun i) k'
  | Stop w k' => Stop w k'
  | Ret _ k' => Stop (SUndef "trap does not return") k'
  end.

(** [int $T_SYSCALL]: the result is in %eax. *)
Definition int_trap (tf : Trapframe) : M ks Z := tf' ← resume 0 tf; mret (s32 (reg_eax (tf_regs tf'))).
Definition int_syscall (num a1 a2 a3 a4 a5 : Z) : M ks Z := int_trap (call_frame num a1 a2 a3 a4 a5).

Definition syscall (num : Z) (check : bool) (a1 a2 a3 a4 a5 : Z) : M us Z :=
  ret ← inuk (int_syscall num a1 a2 a3 a4 a5);
  if check && (ret >? 0) then panic "syscall %d returned %d (> 0)" else mret ret.

Definition sys_cputs (s len : Z) : M us unit := syscall SYS_cputs false s len 0 0 0 ;; mret tt.
Definition sys_cgetc : M us Z := syscall SYS_cgetc false 0 0 0 0 0.
Definition sys_env_destroy (envid : Z) : M us Z := syscall SYS_env_destroy true envid 0 0 0 0.
Definition sys_getenvid : M us Z := syscall SYS_getenvid false 0 0 0 0 0.
Definition sys_yield : M us unit := syscall SYS_yield false 0 0 0 0 0 ;; mret tt.
Definition sys_page_alloc (envid va perm : Z) : M us Z := syscall SYS_page_alloc true envid va perm 0 0.
Definition sys_page_map (srcenv srcva dstenv dstva perm : Z) : M us Z :=
  syscall SYS_page_map true srcenv srcva dstenv dstva perm.
Definition sys_page_unmap (envid va : Z) : M us Z := syscall SYS_page_unmap true envid va 0 0 0.
Definition sys_env_set_status (envid status : Z) : M us Z := syscall SYS_env_set_status true envid status 0 0 0.
Definition sys_ipc_try_send (envid value srcva perm : Z) : M us Z :=
  syscall SYS_ipc_try_send false envid value srcva perm 0.
Definition sys_ipc_recv (dstva : Z) : M us Z := syscall SYS_ipc_recv true dstva 0 0 0 0.

(** inc/lib.h: the interrupt alone, with nothing but %eax set. *)
Definition exofork_frame : Trapframe :=
  set_tf_trapno T_SYSCALL (set_tf_regs (set_reg_eax SYS_exofork (tf_regs uframe)) uframe).
Definition sys_exofork : M us Z := inuk (int_trap exofork_frame).

(** The number of the call that registers a handler for [f]. *)
Definition SYS_env_set_upcall (f : upcall) : Z :=
  match f with
  | env_pgfault_upcall => SYS_env_set_pgfault_upcall
  | env_divzero_upcall => SYS_env_set_divzero_upcall
  | env_debug_upcall => SYS_env_set_debug_upcall
  | env_nmskint_upcall => SYS_env_set_nmskint_upcall
  | env_bpoint_upcall => SYS_env_set_bpoint_upcall
  | env_oflow_upcall => SYS_env_set_oflow_upcall
  | env_bdschk_upcall => SYS_env_set_bdschk_upcall
  | env_illopcd_upcall => SYS_env_set_illopcd_upcall
  | env_dvcntavl_upcall => SYS_env_set_dvcntavl_upcall
  | env_dbfault_upcall => SYS_env_set_dbfault_upcall
  | env_ivldtss_upcall => SYS_env_set_ivldtss_upcall
  | env_segntprst_upcall => SYS_env_set_segntprst_upcall
  | env_stkexception_upcall => SYS_env_set_stkexception_upcall
  | env_gpfault_upcall => SYS_env_set_gpfault_upcall
  | env_fperror_upcall => SYS_env_set_fperror_upcall
  | env_algchk_upcall => SYS_env_set_algchk_upcall
  | env_mchchk_upcall => SYS_env_set_mchchk_upcall
  | env_SIMDfperror_upcall => SYS_env_set_SIMDfperror_upcall
  end.
Definition sys_env_set_upcall (f : upcall) (envid up : Z) : M us Z :=
  syscall (SYS_env_set_upcall f) true envid up 0 0 0.
Definition sys_env_set_pgfault_upcall := sys_env_set_upcall env_pgfault_upcall.
Definition sys_env_set_divzero_upcall := sys_env_set_upcall env_divzero_upcall.
Definition sys_env_set_debug_upcall := sys_env_set_upcall env_debug_upcall.
Definition sys_env_set_nmskint_upcall := sys_env_set_upcall env_nmskint_upcall.
Definition sys_env_set_bpoint_upcall := sys_env_set_upcall env_bpoint_upcall.
Definition sys_env_set_oflow_upcall := sys_env_set_upcall env_oflow_upcall.
Definition sys_env_set_bdschk_upcall := sys_env_set_upcall env_bdschk_upcall.
Definition sys_env_set_illopcd_upcall := sys_env_set_upcall env_illopcd_upcall.
Definition sys_env_set_dvcntavl_upcall := sys_env_set_upcall env_dvcntavl_upcall.
Definition sys_env_set_dbfault_upcall := sys_env_set_upcall env_dbfault_upcall.
Definition sys_env_set_ivldtss_upcall := sys_env_set_upcall env_ivldtss_upcall.
Definition sys_env_set_segntprst_upcall := sys_env_set_upcall env_segntprst_upcall.
Definition sys_env_set_stkexception_upcall := sys_env_set_upcall env_stkexception_upcall.
Definition sys_env_set_gpfault_upcall := sys_env_set_upcall env_gpfault_upcall.
Definition sys_env_set_fperror_upcall := sys_env_set_upcall env_fperror_upcall.
Definition sys_env_set_algchk_upcall := sys_env_set_upcall env_algchk_upcall.
Definition sys_env_set_mchchk_upcall := sys_env_set_upcall env_mchchk_upcall.
Definition sys_env_set_SIMDfperror_upcall := sys_env_set_upcall env_SIMDfperror_upcall.

(** * Registering handlers

    lib/pgfault.c, lib/divzero.c and the sixteen other files have the same
    function, each with its own variable, system call and entry point. *)
Definition set_handler (f : upcall) (handler : Z) : M us unit :=
  h ← gets (λ s, _handler s f);
  when (h =? 0)
    (r ← sys_page_alloc 0 (UXSTACKTOP - PGSIZE) (Z.lor (Z.lor PTE_W PTE_U) PTE_P);
     when (r <? 0) (panic "sys_page_alloc: %e")) ;;
  modify (λ s, set_handlers (λ g, if decide (g = f) then handler else _handler s g) s) ;;
  r ← sys_env_set_upcall f 0 (entry f);
  when (r <? 0) (panic "sys_env_set_upcall: %e").

Definition set_pgfault_handler := set_handler env_pgfault_upcall.
Definition set_divzero_handler := set_handler env_divzero_upcall.
Definition set_debug_handler := set_handler env_debug_upcall.
Definition set_nmskint_handler := set_handler env_nmskint_upcall.
Definition set_bpoint_handler := set_handler env_bpoint_upcall.
Definition set_oflow_handler := set_handler env_oflow_upcall.
Definition set_bdschk_handler := set_handler env_bdschk_upcall.
Definition set_illopcd_handler := set_handler env_illopcd_upcall.
Definition set_dvcntavl_handler := set_handler env_dvcntavl_upcall.
Definition set_dbfault_handler := set_handler env_dbfault_upcall.
Definition set_ivldtss_handler := set_handler env_ivldtss_upcall.
Definition set_segntprst_handler := set_handler env_segntprst_upcall.
Definition set_stkexception_handler := set_handler env_stkexception_upcall.
Definition set_gpfault_handler := set_handler env_gpfault_upcall.
Definition set_fperror_handler := set_handler env_fperror_upcall.
Definition set_algchk_handler := set_handler env_algchk_upcall.
Definition set_mchchk_handler := set_handler env_mchchk_upcall.
Definition set_SIMDfperror_handler := set_handler env_SIMDfperror_upcall.

(** * lib/fork.c *)

Definition PTE_COW : Z := 0x800.

Definition pgfault (fault_va err : Z) : M us unit :=
  ok ← (if Z.land err FEC_WR =? 0 then mret false
        else
          d ← uvpd (PDX fault_va);
          if Z.land d PTE_P =? 0 then mret false
          else
            t ← uvpt (PGNUM fault_va);
            if Z.land t PTE_P =? 0 then mret false
            else t ← uvpt (PGNUM fault_va); mret (negb (Z.land t PTE_COW =? 0)));
  when (negb ok) (panic "pgfault: not a write or a copy on write page fault!") ;;
  let addr := ROUNDDOWN fault_va PGSIZE in
  r ← sys_page_alloc 0 PFTEMP (Z.lor (Z.lor PTE_W PTE_U) PTE_P);
  when (r <? 0) (panic "pgfault: sys_page_alloc: %e") ;;
  umemcpy PFTEMP addr PGSIZE ;;
  r ← sys_page_map 0 PFTEMP 0 addr (Z.lor (Z.lor PTE_W PTE_U) PTE_P);
  when (r <? 0) (panic "pgfault: sys_page_map: %e") ;;
  r ← sys_page_unmap 0 PFTEMP;
  when (r <? 0) (panic "pgfault: sys_page_unmap: %e").

(** ** The program's own stack

    While it runs, compiled code stores return addresses, arguments and
    variables on its stack, and once fork has made the page of the stack
    copy-on-write such a store faults.  [spill] gives the bytes, with their
    addresses, that the code stores before the next call; nothing is known of
    it here.  [pgfault_fn] is the address of the function pgfault.  The handler
    itself runs on the exception stack, and what it stores there besides the
    frame of the exception is left out. *)
Section stack.
Context (spill : us → list (Z * Z)) (pgfault_fn : Z).

(** lib/pfentry.S, from the entry point to the instruction that faulted, with
    the frame of the exception at [utf]. *)
Definition pgfault_upcall (utf : Z) : M us unit :=
  h ← gets (λ s, _handler s env_pgfault_upcall);
  when (negb (h =? pgfault_fn)) (undef "another handler") ;;
  fault_va ← uld32 utf;
  err ← uld32 (utf + 4);
  pgfault fault_va err ;;
  esp ← uld32 (utf + 0x30);
  ust32 (utf + 0x30) (w32 (esp - 4)) ;;
  eip ← uld32 (utf + 0x28);
  ust32 (w32 (esp - 4)) eip ;;
  when (negb ((eip =? tf_eip uframe) && (esp =? tf_esp uframe))) (undef "resumed elsewhere").

(** The registers and the error code of the page fault of a store. *)
Definition fault_frame (err : Z) : Trapframe := set_tf_trapno T_PGFLT (set_tf_err err uframe).
Definition write_fault (va : Z) : M us unit :=
  present ← gets (λ s, bool_decide (is_Some (translate (kpm (uk s)) false false va)));
  tf ← inuk (resume va (fault_frame (Z.lor (if (present : bool) then FEC_PR else 0) (Z.lor FEC_WR FEC_U))));
  if tf_eip tf =? entry env_pgfault_upcall then pgfault_upcall (tf_esp tf) else undef "another entry point".

(** A store, again after the fault that it may cause. *)
Definition ustore (va v : Z) : M us unit := λ s,
  match translate (kpm (uk s)) true true va with
  | Some _ => ust8 va v s
  | None => (write_fault va ;; ust8 va v) s
  end.
Fixpoint ustores (l : list (Z * Z)) : M us unit :=
  match l with
  | [] => mret tt
  | (va, v) :: l => ustore va v ;; ustores l
  end.
Definition push : M us unit := λ s, ustores (spill s) s.

Definition duppage (envid pn : Z) : M us Z :=
  let va := w32 (pn * PGSIZE) in
  t ← uvpt pn;
  cow ← (if ctrue (Z.land t PTE_W) then mret true
         else t ← uvpt pn; mret (ctrue (Z.land t PTE_COW)));
  push ;;
  if (cow : bool) then
    r ← sys_page_map 0 va envid va (Z.lor (Z.lor PTE_COW PTE_U) PTE_P);
    if r <? 0 then mret r
    else
      push ;;
      r ← sys_page_map 0 va 0 va (Z.lor (Z.lor PTE_COW PTE_U) PTE_P);
      if r <? 0 then mret r else mret 0
  else
    r ← sys_page_map 0 va envid va (Z.lor PTE_U PTE_P);
    if r <? 0 then mret r else mret 0.

(** The body of the loop over the pages below USTACKTOP. *)
Definition fork_page (envid addr : Z) : M us unit :=
  d ← uvpd (PDX addr);
  when (ctrue (Z.land d PTE_P))
    (t ← uvpt (PGNUM addr);
     when (ctrue (Z.land t PTE_P))
       (t ← uvpt (PGNUM addr);
        when (ctrue (Z.land t PTE_U)) (push ;; duppage envid (PGNUM addr) ;; mret tt))).

Definition fork : M us Z :=
  push ;;
  set_pgfault_handler pgfault_fn ;;
  push ;;
  envid ← sys_exofork;
  if envid <? 0 then panic "sys_exofork: %e"
  else if envid =? 0 then
    push ;;
    id ← sys_getenvid;
    modify (set_thisenv (Some (ENVX id))) ;;
    mret 0
  else
    push ;;
    for_range (Z.to_nat (USTACKTOP / PGSIZE)) 0 PGSIZE (fork_page envid) ;;
    push ;;
    r ← sys_page_alloc envid (UXSTACKTOP - PGSIZE) (Z.lor (Z.lor PTE_U PTE_W) PTE_P);
    if r <? 0 then mret r
    else
      push ;;
      sys_env_set_pgfault_upcall envid (entry env_pgfault_upcall) ;;
      push ;;
      r ← sys_env_set_status envid ENV_RUNNABLE;
      if r <? 0 then mret r else mret envid.

End stack.

Definition sfork : M us Z := panic "sfork not implemented".

(** * lib/ipc.c *)

(** The result is the returned value with what is stored through
    [from_env_store] and [perm_store]. *)
Definition ipc_recv (pg : Z) : M us (Z * Z * Z) :=
  let pg := if pg =? 0 then 0xFFFFFFFF else pg in
  r ← sys_ipc_recv pg;
  if r <? 0 then mret (r, 0, 0)
  else
    t ← gets thisenv;
    match t with
    | Some i => e ← uenv i; mret (env_ipc_value e, env_ipc_from e, env_ipc_perm e)
    | None => undef "thisenv"
    end.

(** At most three tries: the third failure panics. *)
Fixpoint ipc_send_loop (fuel : nat) (retry_times to_env val pg perm : Z) : M us unit :=
  match fuel with
  | O => stop_with SLoop
  | S fuel =>
      r ← sys_ipc_try_send to_env val pg perm;
      if r <? 0 then
        when (negb (r =? - E_IPC_NOT_RECV)) (panic "ipc_send: %e") ;;
        let retry_times := retry_times + 1 in
        when (retry_times >? 2) (panic "Retry times out!") ;;
        sys_yield ;;
        ipc_send_loop fuel retry_times to_env val pg perm
      else mret tt
  end.

Definition ipc_send (to_env val pg perm : Z) : M us unit :=
  let pg := if pg =? 0 then 0xFFFFFFFF else pg in
  ipc_send_loop 3 0 to_env val pg perm.

Fixpoint ipc_find_env_loop (n : nat) (i type : Z) : M us Z :=
  match n with
  | O => mret 0
  | S n =>
      e ← uenv i;
      if env_type e =? type then e ← uenv i; mret (env_id e)
      else ipc_find_env_loop n (i + 1) type
  end.
Definition ipc_find_env (type : Z) : M us Z := ipc_find_env_loop (Z.to_nat NENV) 0 type.

(** * Start and end of a program *)

Definition exit : M us unit := sys_env_destroy 0 ;; mret tt.

(** [umain] is the program. *)
Definition libmain (umain : M us unit) : M us unit :=
  id ← sys_getenvid;
  modify (set_thisenv (Some (ENVX id))) ;;
  umain ;;
  exit.

(** lib/console.c.  [buf] is the address of the local variable [c]. *)
Definition cputchar (buf ch : Z) : M us unit := ust8 buf ch ;; sys_cputs buf 1.

Fixpoint getchar_loop (fuel : nat) : M us Z :=
  match fuel with
  | O => stop_with SLoop
  | S fuel => r ← sys_cgetc; if r =? 0 then sys_yield ;; getchar_loop fuel else mret r
  end.
End user.
