(* ===== verification/UserCalls.v ===== *)
(** The system calls as a program of the user library sees them: what each
    stub returns and what has become of the kernel's state, the caller and the
    other environments; and what the program reads at UVPT. *)
From S2P Require Import Prelude Mmu Mem Pages PageTable AddrSpace UserMem Console KState Env EnvVm EnvSpec Syscall SyscallSpec Trap TrapSpec UserLib.

(** * System calls from user mode *)

(** The kernel invariant reads these parts of the environments. *)
Definition same_space (x y : Env) : Prop := (env_status x = ENV_FREE ↔ env_status y = ENV_FREE) ∧ env_pgdir x = env_pgdir y.

Lemma kinv_ext k k' l R x cur : kinv k l R x cur → kpm k' = kpm k →
  (∀ j, option_Forall2 same_space (envs k !! j) (envs k' !! j)) →
  (∃ c, cpus k' !! cpunum k' = Some c ∧ cpu_env c = Some cur) → kinv k' l R x cur.
Proof.
  intros H Ep Es (c' & Hc' & Hcur').
  assert (∀ i e', live k' i e' → ∃ e, live k i e ∧ same_space e e') as Hl.
  { intros i e' [He' Hs]. specialize (Es i). rewrite He' in Es. inversion Es as [e y Q Hx Hy|]. destruct Q as [Q1 Q2].
    exists e. split; [split; [auto|tauto]|split; assumption]. }
  split.
  - rewrite Ep. apply (ki_vm _ _ _ _ _ H).
  - intros i. rewrite <- (ki_envs _ _ _ _ _ H i). specialize (Es i). inversion Es; split; intros [? ?]; eauto; discriminate.
  - intros i e' He'. destruct (Hl i e' He') as (e & He & _ & Epg). rewrite <- Epg. apply (ki_live _ _ _ _ _ H i e He).
  - intros i j e f Hi Hj E. destruct (Hl i e Hi) as (e0 & He0 & _ & Ee), (Hl j f Hj) as (f0 & Hf0 & _ & Ef).
    apply (ki_inj _ _ _ _ _ H i j e0 f0 He0 Hf0). congruence.
  - destruct (ki_cur _ _ _ _ _ H) as (c & e & Hc & Hcur & He & Hs). exists c'.
    specialize (Es cur). rewrite He in Es. inversion Es as [? y Q Hx Hy|]. subst. destruct Q as [Q _]. exists y.
    split; [assumption|]. split; [assumption|]. split; [auto|tauto].
Qed.

Lemma same_space_insert (m : gmap Z Env) i x y : m !! i = Some x → same_space x y →
  ∀ j, option_Forall2 same_space (m !! j) (<[i := y]> m !! j).
Proof.
  intros Hx Hs j. rewrite lookup_insert. case_decide as D; [subst j; rewrite Hx; constructor; exact Hs|].
  destruct (m !! j); constructor. split; reflexivity.
Qed.

Lemma same_space_refl k k' : envs k' = envs k → ∀ j, option_Forall2 same_space (envs k !! j) (envs k' !! j).
Proof. intros -> j. destruct (envs k !! j); constructor. split; reflexivity. Qed.

Section calls.
Context (uframe : Trapframe) (Hcs : Z.land (tf_cs uframe) 3 = 3).
Implicit Types (k : ks) (l R : list Z) (x : Z → Z).

(** Environment [i] runs in user mode on this CPU, in address space [pd], and
    the kernel's invariant holds. *)
Record ustate k l R x (c : CpuInfo) (i : Z) (e : Env) (pd : Z) : Prop := {
  ut_mode : user_mode 0 k c i e;
  ut_kinv : kinv k l R x i;
  ut_run : env_status e = ENV_RUNNING;
  ut_pd : env_pgdir e = kva_of pd;
  ut_in : pd ∈ R
}.

(** A system call that leaves the processor alone. *)
Definition same_cpu k k' : Prop :=
  cpus k' = cpus k ∧ cpunum k' = cpunum k ∧ klock k' = klock k ∧ ktrap k' = ktrap k.

(** The caller after its call: only its registers are different. *)
Definition same_env_data (e e' : Env) : Prop :=
  env_status e' = env_status e ∧ env_pgdir e' = env_pgdir e ∧ env_upcalls e' = env_upcalls e ∧
  env_id e' = env_id e ∧ env_parent_id e' = env_parent_id e.

Lemma same_env_data_trans e1 e2 e3 : same_env_data e1 e2 → same_env_data e2 e3 → same_env_data e1 e3.
Proof. intros (? & ? & ? & ? & ?) (? & ? & ? & ? & ?). repeat split; congruence. Qed.

(** What the return to the caller leaves of the state in which the system call
    has ended. *)
Definition after_call k2 (i : Z) k' : Prop :=
  kpm k' = kpm k2 ∧ (∀ j, j ≠ i → envs k' !! j = envs k2 !! j) ∧ env_free_list k' = env_free_list k2.

Lemma ustate_entered k l R x c i e pd tf : ustate k l R x c i e pd →
  kinv (entered k c i e tf) l R x i ∧ envs (entered k c i e tf) !! i = Some (set_env_tf tf e) ∧
  cpus (entered k c i e tf) !! cpunum (entered k c i e tf) = Some c.
Proof.
  intros [U K Hr Hpg Hpd]. split; [|split; apply lookup_insert_eq].
  apply (kinv_ext k); [exact K|reflexivity| |exists c; split; [apply lookup_insert_eq|apply (um_env _ _ _ _ _ U)]].
  apply (same_space_insert _ i e); [apply (um_cur _ _ _ _ _ U)|split; reflexivity].
Qed.

Lemma int_ok tf k l R x c i e pd v k2 l2 R2 x2 e2 : Z.land (tf_cs tf) 3 = 3 → tf_trapno tf = T_SYSCALL → ustate k l R x c i e pd →
  let k1 := entered k c i e tf in let g := tf_regs tf in
  Syscall.syscall (reg_eax g) (reg_edx g) (reg_ecx g) (reg_ebx g) (reg_edi g) (reg_esi g) k1 = Ret v k2 →
  same_cpu k1 k2 → kinv k2 l2 R2 x2 i → pd ∈ R2 → envs k2 !! i = Some e2 →
  env_status e2 = ENV_RUNNING → env_pgdir e2 = env_pgdir e →
  ∃ k' e', int_trap tf k = Ret (s32 (w32 v)) k' ∧
    ustate k' l2 R2 x2 c i e' pd ∧ same_env_data e2 e' ∧ after_call k2 i k'.
Proof.
  intros Htcs Hno [U K Hr Hpg _] k1 g E (Ec & En & El & Et) K2 Hpd Hi2 Hs2 Hpg2.
  assert (cpus k2 !! cpunum k2 = Some c) as Hc2 by (rewrite Ec, En; apply lookup_insert_eq).
  pose proof (um_env _ _ _ _ _ U) as He.
  pose proof (trap_returns_run 0 0 0 tf k c i e v k2 c e2 U
    ltac:(rewrite Hr; discriminate) Htcs Hno E Hi2 Hs2 Hc2 He ltac:(rewrite El, En; reflexivity)) as Et'.
  unfold int_trap, resume. rewrite bind_unfold, Et', (um_cpu _ _ _ _ _ U). cbn [mbind option_bind]. rewrite He.
  rewrite bool_decide_eq_true_2 by reflexivity. ksimpl. rewrite lookup_insert_eq.
  set (e' := set_env_cpunum _ _). eexists _, e'. split; [reflexivity|].
  split; [|split; [repeat split|split; [reflexivity|split; [|reflexivity]; intros j Hj; apply lookup_insert_ne; congruence]]]. split; try assumption.
  - split; ksimpl; try apply U; try reflexivity.
    + exact Hc2.
    + apply lookup_insert_eq.
    + rewrite Et. apply (um_ok _ _ _ _ _ U).
  - apply (kinv_ext k2); [exact K2|reflexivity| |exists c; auto].
    apply (same_space_insert _ i e2); [exact Hi2|split; reflexivity].
  - unfold e'. ksimpl. congruence.
Qed.

(** A call during which the kernel stops. *)
Lemma int_stop num a1 a2 a3 a4 a5 k l R x c i e pd msg k2 : ustate k l R x c i e pd →
  Syscall.syscall (w32 num) (w32 a1) (w32 a2) (w32 a3) (w32 a4) (w32 a5)
    (entered k c i e (call_frame uframe num a1 a2 a3 a4 a5)) = Stop (SPanic msg) k2 →
  int_syscall uframe num a1 a2 a3 a4 a5 k = Stop (SPanic msg) k2.
Proof.
  intros [U K Hr Hpg Hpd] E. unfold int_syscall, int_trap. apply bind_Stop. unfold resume.
  assert (trap 0 0 0 (call_frame uframe num a1 a2 a3 a4 a5) k = Stop (SPanic msg) k2) as ->; [|reflexivity].
  rewrite (trap_enter 0 0 0 (call_frame uframe num a1 a2 a3 a4 a5) k c i e U ltac:(rewrite Hr; discriminate) Hcs).
  set (k1 := entered _ _ _ _ _) in *. unfold trap_dispatch. rewrite !bind_assoc.
  erewrite bind_Ret.
  2: { unfold tf_get. erewrite bind_Ret by (apply env_get_eq, lookup_insert_eq). reflexivity. }
  cbv zeta. change (tf_trapno (env_tf (set_env_tf (call_frame uframe num a1 a2 a3 a4 a5) e))) with T_SYSCALL.
  repeat match goal with |- context [T_SYSCALL =? ?n] =>
    let b := eval vm_compute in (T_SYSCALL =? n) in change (T_SYSCALL =? n) with b end.
  cbv iota. rewrite bind_assoc. erewrite bind_Stop by exact E. reflexivity.
Qed.

(** ** The stubs *)

Lemma curenv_entered k l R x c i e pd tf chk : ustate k l R x c i e pd →
  envid2env 0 chk (entered k c i e tf) = Ret (0, Some i) (entered k c i e tf).
Proof.
  intros Us. destruct (ustate_entered k l R x c i e pd tf Us) as (_ & _ & Hc1).
  unfold envid2env. cbn [Z.eqb]. rewrite (bind_Ret _ _ _ _ _ (curenv_eq _ c Hc1)).
  rewrite (um_env _ _ _ _ _ (ut_mode _ _ _ _ _ _ _ _ Us)). reflexivity.
Qed.

Lemma inuk_Ret {A} (m : M ks A) s a k : m (uk s) = Ret a k → inuk m s = Ret a (set_uk k s).
Proof. unfold inuk, lift. cbn [view update uk_lens]. intros ->. reflexivity. Qed.
Lemma inuk_Stop {A} (m : M ks A) s w k : m (uk s) = Stop w k → inuk m s = Stop w (set_uk k s).
Proof. unfold inuk, lift. cbn [view update uk_lens]. intros ->. reflexivity. Qed.

(** A system call that returns [v], which is not positive, to its caller. *)
Lemma u_call num chk a1 a2 a3 a4 a5 s l R x c i e pd v k2 l2 R2 x2 e2 : ustate (uk s) l R x c i e pd →
  let k1 := entered (uk s) c i e (call_frame uframe num a1 a2 a3 a4 a5) in
  Syscall.syscall (w32 num) (w32 a1) (w32 a2) (w32 a3) (w32 a4) (w32 a5) k1 = Ret v k2 → - 2 ^ 31 ≤ v ≤ 0 →
  same_cpu k1 k2 → kinv k2 l2 R2 x2 i → pd ∈ R2 → envs k2 !! i = Some e2 →
  env_status e2 = ENV_RUNNING → env_pgdir e2 = env_pgdir e →
  ∃ k' e', UserLib.syscall uframe num chk a1 a2 a3 a4 a5 s = Ret v (set_uk k' s) ∧
    ustate k' l2 R2 x2 c i e' pd ∧ same_env_data e2 e' ∧ after_call k2 i k'.
Proof.
  intros Us k1 E Hv Hc K2 Hpd Hi2 Hs2 Hpg2.
  destruct (int_ok (call_frame uframe num a1 a2 a3 a4 a5) (uk s) l R x c i e pd v k2 l2 R2 x2 e2 Hcs eq_refl Us E Hc K2 Hpd Hi2 Hs2 Hpg2) as (k' & e' & Er & H).
  exists k', e'. split; [|exact H]. unfold UserLib.syscall. change (int_trap (call_frame uframe num a1 a2 a3 a4 a5)) with (int_syscall uframe num a1 a2 a3 a4 a5) in Er.
  rewrite (bind_Ret _ _ _ _ _ (inuk_Ret _ _ _ _ Er)).
  rewrite s32_w32 by lia. assert (v >? 0 = false) as -> by (rewrite Z.gtb_ltb; apply Z.ltb_ge; lia). rewrite andb_false_r. reflexivity.
Qed.

(** The state in which a system call that names environment [dst] finds it as
    environment [j], which the caller may change. *)
Definition names k (c : CpuInfo) (i : Z) (e : Env) (tf : Trapframe) (dst j : Z) (ed : Env) : Prop :=
  0 ≤ dst < 2 ^ 31 ∧ envid2env dst true (entered k c i e tf) = Ret (0, Some j) (entered k c i e tf) ∧
  envs (entered k c i e tf) !! j = Some ed.

Lemma names_self k l R x c i e pd tf : ustate k l R x c i e pd → names k c i e tf 0 i (set_env_tf tf e).
Proof.
  intros Us. destruct (ustate_entered k l R x c i e pd tf Us) as (_ & Hi & _).
  split; [split; reflexivity || discriminate|]. split; [apply (curenv_entered _ _ _ _ _ _ _ _ _ _ Us)|exact Hi].
Qed.

Lemma entered_other k c i e tf j : j ≠ i → envs (entered k c i e tf) !! j = envs k !! j.
Proof. intros Hj. apply lookup_insert_ne. congruence. Qed.

(** sys_page_alloc of an address of [dst], by the caller of page_alloc's first
    page [p]. *)
Lemma u_page_alloc s p l R x c i e pd dst j ed pdst va perm : ustate (uk s) (p :: l) R x c i e pd →
  names (uk s) c i e (call_frame uframe SYS_page_alloc dst va perm 0 0) dst j ed → env_pgdir ed = kva_of pdst → pdst ∈ R →
  u32_range va → bad_va va = false → 0 ≤ perm < 4096 → bad_perm perm = false →
  (l = [] ∧ pt_of (phys (kpm (uk s))) pdst (PDX va) = None ∧
    ∃ s', UserLib.sys_page_alloc uframe dst va perm s = Stop (SPanic "page_free: pp->pp_ref is nonzero!") s') ∨
  ∃ k' l2 e', UserLib.sys_page_alloc uframe dst va perm s = Ret 0 (set_uk k' s) ∧
    ustate k' l2 R (held p x) c i e' pd ∧ same_env_data e e' ∧
    (∀ j, j ≠ i → envs k' !! j = envs (uk s) !! j) ∧ env_free_list k' = env_free_list (uk s) ∧
    page_new (kpm (uk s)) l R x pdst (va / PGSIZE) p perm (kpm k') l2.
Proof.
  intros Us (Hdst & Hn & Hj) Hpg Hpdst Hva Hbva Hperm Hbp. set (k := uk s) in *.
  set (tf := call_frame uframe SYS_page_alloc dst va perm 0 0) in *.
  destruct (ustate_entered k _ R x c i e pd tf Us) as (K1 & Hi1 & Hc1). set (k1 := entered k c i e tf) in *.
  assert (Syscall.syscall (w32 SYS_page_alloc) (w32 dst) (w32 va) (w32 perm) (w32 0) (w32 0) k1
    = Syscall.sys_page_alloc dst va perm k1) as Esys.
  { change (Syscall.syscall (w32 SYS_page_alloc) (w32 dst) (w32 va) (w32 perm) (w32 0) (w32 0))
      with (Syscall.sys_page_alloc (s32 (w32 dst)) (w32 va) (s32 (w32 perm))).
    rewrite !w32_id by (try assumption; unfold u32_range; lia). rewrite !s32_id by lia. reflexivity. }
  destruct (sys_page_alloc_run k1 l R x i dst va perm j ed pdst p K1 Hn Hj Hpg Hpdst Hva Hbva)
    as [(El & Hnt & k' & E)|(k2 & l2 & E & [K2 (s2 & -> & Nw)])]; auto; rewrite <- Esys in E.
  - left. split; [exact El|]. split; [exact Hnt|]. eexists. unfold UserLib.sys_page_alloc, UserLib.syscall.
    erewrite bind_Stop; [reflexivity|]. apply inuk_Stop. fold k. apply (int_stop _ _ _ _ _ _ k _ R x c i e pd _ _ Us E).
  - right. destruct (u_call SYS_page_alloc true dst va perm 0 0 s _ R x c i e pd 0 _ l2 R (held p x) (set_env_tf tf e) Us E)
      as (k' & e' & Er & Us' & Hd & Ep & Eo & Ef); auto; [lia|repeat split|apply (ut_in _ _ _ _ _ _ _ _ Us)|apply (ut_run _ _ _ _ _ _ _ _ Us)|].
    exists k', l2, e'. split; [exact Er|]. split; [exact Us'|]. split; [exact Hd|]. rewrite Ep, Ef. split; [|split; [reflexivity|exact Nw]].
    intros j' Hj'. rewrite Eo by assumption. apply entered_other, Hj'.
Qed.

Lemma u_page_alloc_empty s R x c i e pd va perm : ustate (uk s) [] R x c i e pd →
  u32_range va → bad_va va = false → 0 ≤ perm < 4096 → bad_perm perm = false →
  ∃ s', UserLib.sys_page_alloc uframe 0 va perm s = Stop (SPanic "syscall %d returned %d (> 0)") s'.
Proof.
  intros Us Hva Hbva Hperm Hbp. set (k := uk s) in *. set (tf := call_frame uframe SYS_page_alloc 0 va perm 0 0).
  destruct (ustate_entered k _ R x c i e pd tf Us) as (K1 & Hi1 & Hc1). set (k1 := entered k c i e tf) in *.
  assert (Syscall.syscall (w32 SYS_page_alloc) (w32 0) (w32 va) (w32 perm) (w32 0) (w32 0) k1 = Ret E_NO_MEM k1) as E.
  { change (Syscall.syscall (w32 SYS_page_alloc) (w32 0) (w32 va) (w32 perm) (w32 0) (w32 0))
      with (Syscall.sys_page_alloc (s32 (w32 0)) (w32 va) (s32 (w32 perm))).
    rewrite !w32_id by (try assumption; unfold u32_range; lia). rewrite !s32_id by lia.
    apply (sys_page_alloc_empty k1 R x i 0 va perm i K1); auto. eapply curenv_entered, Us. }
  destruct (int_ok tf k _ R x c i e pd E_NO_MEM k1 [] R x (set_env_tf tf e) Hcs eq_refl Us E)
    as (k' & e' & Er & _); auto.
  - repeat split.
  - apply (ut_in _ _ _ _ _ _ _ _ Us).
  - apply (ut_run _ _ _ _ _ _ _ _ Us).
  - eexists. unfold UserLib.sys_page_alloc, UserLib.syscall. rewrite (bind_Ret _ _ _ _ _ (inuk_Ret _ _ _ _ Er)). reflexivity.
Qed.

(** Registering the entry point of a handler, for the caller itself. *)
Lemma u_set_upcall s l R x c i e pd f up : ustate (uk s) l R x c i e pd → u32_range up →
  ∃ k' e', UserLib.sys_env_set_upcall uframe f 0 up s = Ret 0 (set_uk k' s) ∧
    ustate k' l R x c i e' pd ∧ kpm k' = kpm (uk s) ∧ same_env_data (set_upcall f up e) e' ∧
    (∀ j, j ≠ i → envs k' !! j = envs (uk s) !! j) ∧ env_free_list k' = env_free_list (uk s).
Proof.
  intros Us Hup. set (k := uk s) in *. set (tf := call_frame uframe (SYS_env_set_upcall f) 0 up 0 0 0).
  destruct (ustate_entered k _ R x c i e pd tf Us) as (K1 & Hi1 & Hc1). set (k1 := entered k c i e tf) in *.
  set (k2 := set_envs (<[i := set_upcall f up (set_env_tf tf e)]> (envs k1)) k1).
  assert (Syscall.syscall (w32 (SYS_env_set_upcall f)) (w32 0) (w32 up) (w32 0) (w32 0) (w32 0) k1 = Ret 0 k2) as E.
  { assert (Syscall.syscall (w32 (SYS_env_set_upcall f)) (w32 0) (w32 up) (w32 0) (w32 0) (w32 0)
      = Syscall.sys_env_set_upcall f (s32 (w32 0)) (w32 up)) as -> by (destruct f; reflexivity).
    rewrite (w32_id up) by assumption. change (s32 (w32 0)) with 0. unfold Syscall.sys_env_set_upcall.
    rewrite (with_env_ok _ _ _ _ _ (curenv_entered k _ R x c i e pd tf true Us)). cbv beta.
    rewrite (bind_Ret _ _ _ _ _ (env_upd_eq k1 i _ _ Hi1)). reflexivity. }
  destruct (u_call (SYS_env_set_upcall f) true 0 up 0 0 0 s _ R x c i e pd 0 k2 l R x (set_upcall f up (set_env_tf tf e)) Us E)
    as (k' & e' & Er & Us' & Hd & Ep & Eo & Ef); auto; [lia|repeat split| |apply (ut_in _ _ _ _ _ _ _ _ Us)|apply lookup_insert_eq|apply (ut_run _ _ _ _ _ _ _ _ Us)|].
  { apply (kinv_ext k1); [exact K1|reflexivity| |exists c; split; [exact Hc1|apply (um_env _ _ _ _ _ (ut_mode _ _ _ _ _ _ _ _ Us))]].
    apply (same_space_insert _ i _ _ Hi1). split; reflexivity. }
  exists k', e'. split; [exact Er|]. split; [exact Us'|]. split; [exact Ep|]. split; [exact Hd|]. split; [|exact Ef].
  intros j Hj. rewrite Eo by assumption. unfold k2. ksimpl. rewrite lookup_insert_ne by congruence. apply entered_other, Hj.
Qed.

(** A call that changes another environment [j] and nothing else. *)
Lemma u_change num a1 a2 g s l R x c i e pd j ej : ustate (uk s) l R x c i e pd → j ≠ i →
  envs (uk s) !! j = Some ej → same_space ej (g ej) →
  let k1 := entered (uk s) c i e (call_frame uframe num a1 a2 0 0 0) in
  Syscall.syscall (w32 num) (w32 a1) (w32 a2) (w32 0) (w32 0) (w32 0) k1 = Ret 0 (set_envs (<[j := g ej]> (envs k1)) k1) →
  ∃ k' e', UserLib.syscall uframe num true a1 a2 0 0 0 s = Ret 0 (set_uk k' s) ∧
    ustate k' l R x c i e' pd ∧ kpm k' = kpm (uk s) ∧ same_env_data e e' ∧ envs k' !! j = Some (g ej) ∧
    (∀ j', j' ≠ i → j' ≠ j → envs k' !! j' = envs (uk s) !! j') ∧ env_free_list k' = env_free_list (uk s).
Proof.
  intros Us Hji Hj Hg k1 E. set (k := uk s) in *. set (tf := call_frame uframe num a1 a2 0 0 0) in *.
  destruct (ustate_entered k _ R x c i e pd tf Us) as (K1 & Hi1 & Hc1). fold k1 in K1, Hi1, Hc1.
  assert (envs k1 !! j = Some ej) as Hj1 by (unfold k1; rewrite entered_other by assumption; exact Hj).
  destruct (u_call num true a1 a2 0 0 0 s _ R x c i e pd 0 _ l R x (set_env_tf tf e) Us E)
    as (k' & e' & Er & Us' & Hd & Ep & Eo & Ef); auto; [lia|repeat split| |apply (ut_in _ _ _ _ _ _ _ _ Us)| |apply (ut_run _ _ _ _ _ _ _ _ Us)|].
  { apply (kinv_ext k1); [exact K1|reflexivity| |exists c; split; [exact Hc1|apply (um_env _ _ _ _ _ (ut_mode _ _ _ _ _ _ _ _ Us))]].
    apply (same_space_insert _ j _ _ Hj1 Hg). }
  { ksimpl. rewrite lookup_insert_ne by assumption. exact Hi1. }
  exists k', e'. split; [exact Er|]. split; [exact Us'|]. split; [exact Ep|]. split; [exact Hd|]. split; [|split; [|exact Ef]].
  - rewrite Eo by assumption. apply lookup_insert_eq.
  - intros j' Hj' Hjj. rewrite Eo by assumption. ksimpl. rewrite lookup_insert_ne by congruence. apply entered_other, Hj'.
Qed.

(** The caller maps the page that environment [src] has at [sva] at [va] of
    environment [dst]; either may be itself. *)
Lemma u_page_map_from s l R x c i e pd src js es ps dst j ed pdst sva va perm pte : ustate (uk s) l R x c i e pd →
  names (uk s) c i e (call_frame uframe SYS_page_map src sva dst va perm) src js es → env_pgdir es = kva_of ps → ps ∈ R →
  names (uk s) c i e (call_frame uframe SYS_page_map src sva dst va perm) dst j ed → env_pgdir ed = kva_of pdst → pdst ∈ R →
  u32_range sva → bad_va sva = false → u32_range va → bad_va va = false →
  0 ≤ perm < 4096 → bad_perm perm = false → (ctrue (Z.land perm PTE_W) = true → ctrue (Z.land pte PTE_W) = true) →
  pte_of (phys (kpm (uk s))) ps (sva / PGSIZE) = Some pte →
  (∀ f, pages (kpm (uk s)) !! frame_of pte = Some f → pp_ref f < 65535) →
  ∃ v k' e' l', UserLib.sys_page_map uframe src sva dst va perm s = Ret v (set_uk k' s) ∧
    ustate k' l' R x c i e' pd ∧ same_env_data e e' ∧
    (∀ j, j ≠ i → envs k' !! j = envs (uk s) !! j) ∧ env_free_list k' = env_free_list (uk s) ∧
    (v = - E_NO_MEM ∧ l = [] ∧ pt_of (phys (kpm (uk s))) pdst (PDX va) = None ∧ kpm k' = kpm (uk s) ∨
     v = 0 ∧ inserted (kpm (uk s)) l R x pdst (va / PGSIZE) (frame_of pte)
       (Z.lor (frame_of pte * PGSIZE) (Z.lor perm PTE_P)) (kpm k') l').
Proof.
  intros Us (Hsrc & Hes & Hjs) Hpgs Hpsr (Hdst & Hed & Hj) Hpgd Hpdr Hsva Hbsva Hva Hbva Hperm Hbp HW' Hpte Href. set (k := uk s) in *.
  set (tf := call_frame uframe SYS_page_map src sva dst va perm) in *.
  destruct (ustate_entered k _ R x c i e pd tf Us) as (K1 & Hi1 & Hc1). set (k1 := entered k c i e tf) in *.
  assert (Syscall.syscall (w32 SYS_page_map) (w32 src) (w32 sva) (w32 dst) (w32 va) (w32 perm) k1
    = Syscall.sys_page_map src sva dst va perm k1) as Esys.
  { change (Syscall.syscall (w32 SYS_page_map) (w32 src) (w32 sva) (w32 dst) (w32 va) (w32 perm))
      with (Syscall.sys_page_map (s32 (w32 src)) (w32 sva) (s32 (w32 dst)) (w32 va) (s32 (w32 perm))).
    rewrite !w32_id by (try assumption; unfold u32_range; lia). rewrite !s32_id by lia. reflexivity. }
  assert (∀ p f, page_of (phys (kpm k1)) ps (sva / PGSIZE) = Some p → pages (kpm k1) !! p = Some f → pp_ref f < 65535) as Href'.
  { intros p f Hp. unfold page_of in Hp. change (kpm k1) with (kpm k) in Hp. rewrite Hpte in Hp. injection Hp as <-. apply Href. }
  destruct (sys_page_map_run k1 l R x i src sva dst va perm js j es ed ps pdst K1 Hes Hed Hjs Hj Hpgs Hpsr Hpgd Hpdr Hsva Hva Hbsva Hbva pte Hpte Hperm Hbp HW' Href')
    as [(-> & Hn & E)|(s2 & l2 & E & I)]; rewrite <- Esys in E.
  - destruct (u_call SYS_page_map true src sva dst va perm s _ R x c i e pd (- E_NO_MEM) k1 [] R x (set_env_tf tf e) Us E)
      as (k' & e' & Er & Us' & Hd & Ep & Eo & Ef); auto; [split; discriminate|repeat split|apply (ut_in _ _ _ _ _ _ _ _ Us)|apply (ut_run _ _ _ _ _ _ _ _ Us)|].
    exists (- E_NO_MEM), k', e', []. split; [exact Er|]. split; [exact Us'|]. split; [exact Hd|]. split; [|split; [exact Ef|left; auto]].
    intros j' Hj'. rewrite Eo by assumption. apply entered_other, Hj'.
  - destruct (u_call SYS_page_map true src sva dst va perm s _ R x c i e pd 0 (set_kpm s2 k1) l2 R x (set_env_tf tf e) Us E)
      as (k' & e' & Er & Us' & Hd & Ep & Eo & Ef); auto; [lia|repeat split| |apply (ut_in _ _ _ _ _ _ _ _ Us)|apply (ut_run _ _ _ _ _ _ _ _ Us)|].
    { apply (kinv_pm k1 l R x); [exact K1|apply I]. }
    exists 0, k', e', l2. split; [exact Er|]. split; [exact Us'|]. split; [exact Hd|]. split; [|split; [exact Ef|right; rewrite Ep; auto]].
    intros j' Hj'. rewrite Eo by assumption. apply entered_other, Hj'.
Qed.

(** The same of a page of its own. *)
Lemma u_page_map s l R x c i e pd dst j ed pdst sva va perm pte : ustate (uk s) l R x c i e pd →
  names (uk s) c i e (call_frame uframe SYS_page_map 0 sva dst va perm) dst j ed → env_pgdir ed = kva_of pdst → pdst ∈ R →
  u32_range sva → bad_va sva = false → u32_range va → bad_va va = false →
  0 ≤ perm < 4096 → bad_perm perm = false → (ctrue (Z.land perm PTE_W) = true → ctrue (Z.land pte PTE_W) = true) →
  pte_of (phys (kpm (uk s))) pd (sva / PGSIZE) = Some pte →
  (∀ f, pages (kpm (uk s)) !! frame_of pte = Some f → pp_ref f < 65535) →
  ∃ v k' e' l', UserLib.sys_page_map uframe 0 sva dst va perm s = Ret v (set_uk k' s) ∧
    ustate k' l' R x c i e' pd ∧ same_env_data e e' ∧
    (∀ j, j ≠ i → envs k' !! j = envs (uk s) !! j) ∧ env_free_list k' = env_free_list (uk s) ∧
    (v = - E_NO_MEM ∧ l = [] ∧ pt_of (phys (kpm (uk s))) pdst (PDX va) = None ∧ kpm k' = kpm (uk s) ∨
     v = 0 ∧ inserted (kpm (uk s)) l R x pdst (va / PGSIZE) (frame_of pte)
       (Z.lor (frame_of pte * PGSIZE) (Z.lor perm PTE_P)) (kpm k') l').
Proof.
  intros Us. apply (u_page_map_from s l R x c i e pd 0 i _ pd dst j ed pdst sva va perm pte Us (names_self _ _ _ _ _ _ _ _ _ Us));
    [apply (ut_pd _ _ _ _ _ _ _ _ Us)|apply (ut_in _ _ _ _ _ _ _ _ Us)].
Qed.

(** The caller unmaps its own page at [va]. *)
Lemma u_page_unmap s l R x c i e pd va : ustate (uk s) l R x c i e pd → u32_range va → bad_va va = false →
  ∃ k' e' l', UserLib.sys_page_unmap uframe 0 va s = Ret 0 (set_uk k' s) ∧
    ustate k' l' R x c i e' pd ∧ same_env_data e e' ∧ (∀ j, j ≠ i → envs k' !! j = envs (uk s) !! j) ∧
    env_free_list k' = env_free_list (uk s) ∧ cleared (kpm (uk s)) l R x pd (va / PGSIZE) (kpm k') l'.
Proof.
  intros Us Hva Hbva. set (k := uk s) in *. set (tf := call_frame uframe SYS_page_unmap 0 va 0 0 0).
  destruct (ustate_entered k _ R x c i e pd tf Us) as (K1 & Hi1 & Hc1). set (k1 := entered k c i e tf) in *.
  assert (Syscall.syscall (w32 SYS_page_unmap) (w32 0) (w32 va) (w32 0) (w32 0) (w32 0) k1 = Syscall.sys_page_unmap 0 va k1) as Esys.
  { change (Syscall.syscall (w32 SYS_page_unmap) (w32 0) (w32 va) (w32 0) (w32 0) (w32 0)) with (Syscall.sys_page_unmap (s32 (w32 0)) (w32 va)).
    rewrite !w32_id by (try assumption; unfold u32_range; lia). rewrite s32_id by lia. reflexivity. }
  destruct (sys_page_unmap_run k1 l R x i 0 va i (set_env_tf tf e) pd K1 (curenv_entered k _ R x c i e pd tf false Us) Hi1
    (ut_pd _ _ _ _ _ _ _ _ Us) (ut_in _ _ _ _ _ _ _ _ Us) Hva Hbva) as (s2 & l2 & E & C). rewrite <- Esys in E.
  destruct (u_call SYS_page_unmap true 0 va 0 0 0 s _ R x c i e pd 0 (set_kpm s2 k1) l2 R x (set_env_tf tf e) Us E)
    as (k' & e' & Er & Us' & Hd & Ep & Eo & Ef); auto; [lia|repeat split| |apply (ut_in _ _ _ _ _ _ _ _ Us)|apply (ut_run _ _ _ _ _ _ _ _ Us)|].
  { apply (kinv_pm k1 l R x); [exact K1|apply C]. }
  exists k', e', l2. split; [exact Er|]. split; [exact Us'|]. split; [exact Hd|]. split; [|split; [exact Ef|rewrite Ep; exact C]].
  intros j' Hj'. rewrite Eo by assumption. apply entered_other, Hj'.
Qed.

(** A permitted child of the caller, in the state in which a call starts. *)
Record child_of (k : ks) (i : Z) (e : Env) (envid j : Z) (ej : Env) : Prop := {
  ch_env : envs k !! j = Some ej;
  ch_other : j ≠ i;
  ch_live : env_status ej ≠ ENV_FREE;
  ch_id : env_id ej = envid;
  ch_slot : ENVX envid = j;
  ch_range : 0 < envid < 2 ^ 31;
  ch_parent : env_parent_id ej = env_id e
}.

Lemma child_found k l R x c i e pd envid j ej tf : ustate k l R x c i e pd → child_of k i e envid j ej →
  names k c i e tf envid j ej.
Proof.
  intros Us C. set (k1 := entered k c i e tf). destruct (ustate_entered k l R x c i e pd tf Us) as (K1 & Hi1 & Hc1). fold k1 in K1, Hi1, Hc1.
  assert (envs k1 !! j = Some ej) as Hj.
  { unfold k1, entered. ksimpl. rewrite lookup_insert_ne by (pose proof (ch_other _ _ _ _ _ _ C); congruence). apply C. }
  split; [pose proof (ch_range _ _ _ _ _ _ C); lia|]. fold k1. split; [|exact Hj].
  destruct (envid2env_run k1 c i (set_env_tf tf e) envid true Hc1 (um_env _ _ _ _ _ (ut_mode _ _ _ _ _ _ _ _ Us)) Hi1)
    as [_ Hn]; [intros j' Hj'; apply (ki_envs _ _ _ _ _ K1), Hj'|].
  destruct Hn as (e' & He' & ->); [destruct (ch_range _ _ _ _ _ _ C); lia|].
  rewrite (ch_slot _ _ _ _ _ _ C) in *. assert (e' = ej) as -> by congruence.
  rewrite decide_True; [reflexivity|]. split; [apply C|]. split; [apply C|]. intros _. right. apply (ch_parent _ _ _ _ _ _ C).
Qed.


(** The parent sets the entry point of a handler of its child, and its
    status. *)
Lemma u_child_upcall s l R x c i e pd envid j ej f up : ustate (uk s) l R x c i e pd → child_of (uk s) i e envid j ej → u32_range up →
  ∃ k' e', UserLib.sys_env_set_upcall uframe f envid up s = Ret 0 (set_uk k' s) ∧
    ustate k' l R x c i e' pd ∧ kpm k' = kpm (uk s) ∧ same_env_data e e' ∧ envs k' !! j = Some (set_upcall f up ej) ∧
    (∀ j', j' ≠ i → j' ≠ j → envs k' !! j' = envs (uk s) !! j') ∧ env_free_list k' = env_free_list (uk s).
Proof.
  intros Us C Hup. destruct (child_found _ _ _ _ _ _ _ _ _ _ _ (call_frame uframe (SYS_env_set_upcall f) envid up 0 0 0) Us C) as (Hr & Hn & Hj).
  apply (u_change (SYS_env_set_upcall f) envid up (set_upcall f up) s l R x c i e pd j ej Us (ch_other _ _ _ _ _ _ C) (ch_env _ _ _ _ _ _ C));
    [split; reflexivity|].
  match goal with |- _ ?k1 = _ => set (k := k1) in * end.
  assert (Syscall.syscall (w32 (SYS_env_set_upcall f)) (w32 envid) (w32 up) (w32 0) (w32 0) (w32 0)
    = Syscall.sys_env_set_upcall f (s32 (w32 envid)) (w32 up)) as -> by (destruct f; reflexivity).
  rewrite (w32_id up), s32_w32 by (assumption || lia). unfold Syscall.sys_env_set_upcall.
  rewrite (with_env_ok _ _ _ _ _ Hn). cbv beta. rewrite (bind_Ret _ _ _ _ _ (env_upd_eq k j _ _ Hj)). reflexivity.
Qed.

Lemma u_child_runnable s l R x c i e pd envid j ej : ustate (uk s) l R x c i e pd → child_of (uk s) i e envid j ej →
  ∃ k' e', UserLib.sys_env_set_status uframe envid ENV_RUNNABLE s = Ret 0 (set_uk k' s) ∧
    ustate k' l R x c i e' pd ∧ kpm k' = kpm (uk s) ∧ same_env_data e e' ∧ envs k' !! j = Some (set_env_status ENV_RUNNABLE ej) ∧
    (∀ j', j' ≠ i → j' ≠ j → envs k' !! j' = envs (uk s) !! j') ∧ env_free_list k' = env_free_list (uk s).
Proof.
  intros Us C. destruct (child_found _ _ _ _ _ _ _ _ _ _ _ (call_frame uframe SYS_env_set_status envid ENV_RUNNABLE 0 0 0) Us C) as (Hr & Hn & Hj).
  apply (u_change SYS_env_set_status envid ENV_RUNNABLE (set_env_status ENV_RUNNABLE) s l R x c i e pd j ej Us (ch_other _ _ _ _ _ _ C) (ch_env _ _ _ _ _ _ C)).
  { pose proof (ch_live _ _ _ _ _ _ C). split; [|reflexivity]. split; [contradiction|discriminate]. }
  match goal with |- _ ?k1 = _ => set (k := k1) in * end.
  change (Syscall.sys_env_set_status (s32 (w32 envid)) (s32 (w32 ENV_RUNNABLE)) k = Ret 0 (set_envs (<[j := set_env_status ENV_RUNNABLE ej]> (envs k)) k)).
  rewrite s32_w32 by lia. change (s32 (w32 ENV_RUNNABLE)) with ENV_RUNNABLE. unfold Syscall.sys_env_set_status.
  change (negb ((ENV_RUNNABLE =? ENV_RUNNABLE) || (ENV_RUNNABLE =? ENV_NOT_RUNNABLE))) with false. cbv iota.
  rewrite (with_env_ok _ _ _ _ _ Hn). cbv beta. rewrite (bind_Ret _ _ _ _ _ (env_upd_eq k j _ _ Hj)). reflexivity.
Qed.
End calls.

(** * Reading the page tables *)

(** Directory [pd] maps itself at UVPT, so that its tables can be read there. *)
Definition self_mapped (k : ks) (pd : Z) : Prop :=
  cr3 (kpm k) = pd * PGSIZE ∧ wd (phys (kpm k)) pd (PDX UVPT) = uvpt_entry pd.

Lemma uvpt_idx n : 0 ≤ n < 1048576 →
  PDX (UVPT + 4 * n) = PDX UVPT ∧ PTX (UVPT + 4 * n) = n / 1024 ∧ PGOFF (UVPT + 4 * n) = 4 * (n mod 1024).
Proof.
  intros Hn. change UVPT with 0xEF400000. assert (u32_range (0xEF400000 + 4 * n)) as Hu by (unfold u32_range; lia).
  rewrite PDX_div, PTX_div by assumption. split; [|split].
  - change (PDX 0xEF400000) with 957. change PTSIZE with 4194304. Z.div_mod_to_equations. lia.
  - unfold PGSIZE, NPTENTRIES. Z.div_mod_to_equations. lia.
  - unfold PGOFF. rewrite w32_id by assumption. change 0xFFF with (Z.ones 12). rewrite Z.land_ones by lia.
    change (2 ^ 12) with 4096. Z.div_mod_to_equations. lia.
Qed.

Lemma uvpt_read s pd n t : self_mapped (uk s) pd → 0 ≤ pd < 65536 → 0 ≤ n < 1048576 →
  pt_of (phys (kpm (uk s))) pd (n / 1024) = Some t →
  ctrue (Z.land (wd (phys (kpm (uk s))) pd (n / 1024)) PTE_U) = true →
  uvpt n s = Ret (wd (phys (kpm (uk s))) t (n mod 1024)) s.
Proof.
  intros [Hc Hself] Hpd Hn Ht HU. destruct (uvpt_idx n Hn) as (EI & EJ & EO).
  unfold uvpt, uld32, translate. rewrite Hc, EI, EJ, EO. fold (wd (phys (kpm (uk s))) pd (PDX UVPT)). rewrite Hself.
  assert (is_present (uvpt_entry pd) = true ∧ PTE_ADDR (uvpt_entry pd) = pd * PGSIZE) as [Ep Ea].
  { unfold uvpt_entry. rewrite <- Z.lor_assoc. change (Z.lor PTE_P PTE_U) with (Z.lor PTE_U PTE_P).
    rewrite Z.lor_assoc. split; [apply is_present_lor|]. rewrite <- Z.lor_assoc.
    rewrite frame_of_addr, frame_of_page by (assumption || (split; reflexivity || discriminate)). reflexivity. }
  rewrite Ep, Ea. cbn [negb andb]. fold (wd (phys (kpm (uk s))) pd (n / 1024)).
  unfold pt_of in Ht. destruct (is_present (wd (phys (kpm (uk s))) pd (n / 1024))); [|discriminate].
  injection Ht as Ht. cbn [negb]. rewrite frame_of_addr, Ht.
  assert (Z.land (Z.land (uvpt_entry pd) (wd (phys (kpm (uk s))) pd (n / 1024))) PTE_U
    = Z.land (wd (phys (kpm (uk s))) pd (n / 1024)) PTE_U) as ->.
  { apply Z.bits_inj'. intros m Hm. unfold uvpt_entry. rewrite !Z.land_spec, Z.lor_spec.
    destruct (Z.testbit PTE_U m); rewrite ?orb_true_r, ?andb_false_r; reflexivity. }
  rewrite HU. cbn [negb]. reflexivity.
Qed.

Lemma uvpt_pte s pd n pte : self_mapped (uk s) pd → 0 ≤ pd < 65536 → 0 ≤ n < UVPN →
  pte_of (phys (kpm (uk s))) pd n = Some pte →
  ctrue (Z.land (wd (phys (kpm (uk s))) pd (n / 1024)) PTE_U) = true → uvpt n s = Ret pte s.
Proof.
  intros Hself Hpd Hn Hpte HU. unfold pte_of in Hpte.
  destruct (pt_of (phys (kpm (uk s))) pd (n / 1024)) as [t|] eqn:Ht; [|discriminate].
  rewrite (uvpt_read s pd n t) by (assumption || (pose proof UVPN_eq as E; change (UTOP / PGSIZE) with 977920 in E; lia)).
  cbv zeta in Hpte. destruct (is_present _); [congruence|discriminate].
Qed.

Lemma page_va pn : 0 ≤ pn < UVPN →
  u32_range (pn * PGSIZE) ∧ bad_va (pn * PGSIZE) = false ∧ pn * PGSIZE / PGSIZE = pn ∧ PDX (pn * PGSIZE) = pn / 1024.
Proof.
  intros H. pose proof UVPN_eq as E. change (UTOP / PGSIZE) with 977920 in E. rewrite E in H.
  destruct (page_idx pn ltac:(lia)) as (Hu & EI & _). split; [exact Hu|]. split; [|split; [apply Z.div_mul; discriminate|exact EI]].
  unfold bad_va. rewrite ROUNDUP_page by (unfold u32_range, PGSIZE in *; lia). change UTOP with 4005560320.
  apply orb_false_iff. unfold PGSIZE. rewrite Z.geb_leb. split; [apply Z.leb_gt; lia|].
  apply negb_false_iff, Z.eqb_eq. Z.div_mod_to_equations. lia.
Qed.

