(* ===== verification/UserSpec.v ===== *)
(** What the user library achieves through the kernel: registering an
    exception handler. *)
From S2P Require Import Prelude Mmu Mem Pages PageTable AddrSpace UserMem Console KState Env EnvVm EnvSpec Syscall SyscallSpec Trap TrapSpec UserLib UserCalls.

(** * Registering a handler *)

(** The virtual page of the exception stack. *)
Definition xstack : Z := (UXSTACKTOP - PGSIZE) / PGSIZE.

(** The result of registering [handler] for [f]: the library's variable, the
    kernel's entry for the environment, and nothing of the other exceptions
    or environments. *)
Record registered (entry : upcall → Z) (s s' : us) (l' R : list Z) (x' : Z → Z) (c : CpuInfo) (i : Z) (e : Env)
    (pd : Z) (f : upcall) (handler : Z) : Prop := {
  rg_state : ∃ e', ustate (uk s') l' R x' c i e' pd ∧
    same_env_data (set_upcall f (entry f) e) e';
  rg_handler : ∀ g, _handler s' g = if decide (g = f) then handler else _handler s g;
  rg_this : thisenv s' = thisenv s;
  rg_others : ∀ j, j ≠ i → envs (uk s') !! j = envs (uk s) !! j;
  rg_free : env_free_list (uk s') = env_free_list (uk s)
}.

Section set_handler.
Context (uframe : Trapframe) (entry : upcall → Z) (Hcs : Z.land (tf_cs uframe) 3 = 3).
Context (R : list Z) (c : CpuInfo) (i : Z) (e : Env) (pd : Z) (f : upcall) (handler : Z) (Hent : u32_range (entry f)).

(** The part after the allocation of the exception stack. *)
Lemma set_handler_rest s s1 l1 x1 e1 : ustate (uk s1) l1 R x1 c i e1 pd → same_env_data e e1 →
  _handler s1 = _handler s → thisenv s1 = thisenv s → (∀ j, j ≠ i → envs (uk s1) !! j = envs (uk s) !! j) →
  env_free_list (uk s1) = env_free_list (uk s) →
  ∃ s', (modify (λ s, set_handlers (λ g, if decide (g = f) then handler else _handler s g) s) ;;
      r ← UserLib.sys_env_set_upcall uframe f 0 (entry f);
      when (r <? 0) (panic "sys_env_set_upcall: %e")) s1 = Ret tt s' ∧
    registered entry s s' l1 R x1 c i e pd f handler ∧ kpm (uk s') = kpm (uk s1).
Proof using Hcs Hent.
  intros Us1 Hd Hh Ht Ho Hf. rewrite bind_modify. set (s2 := set_handlers _ s1).
  destruct (u_set_upcall uframe Hcs s2 l1 R x1 c i e1 pd f (entry f) Us1 Hent) as (k' & e' & E & Us' & Ek & Hd' & Ho' & Hf').
  rewrite (bind_Ret _ _ _ _ _ E). eexists. split; [reflexivity|]. split; [|exact Ek]. split.
  - exists e'. split; [exact Us'|]. destruct Hd as (D1 & D2 & D3 & D4 & D5), Hd' as (F1 & F2 & F3 & F4 & F5).
    split; [rewrite F1; exact D1|]. split; [rewrite F2; exact D2|]. split; [|split; [rewrite F4; exact D4|rewrite F5; exact D5]].
    rewrite F3. cbn. rewrite D3. reflexivity.
  - intros g. cbn. rewrite Hh. reflexivity.
  - exact Ht.
  - intros j Hj. cbn. rewrite Ho' by assumption. apply Ho, Hj.
  - cbn. rewrite Hf'. exact Hf.
Qed.

Lemma set_handler_again s l x : ustate (uk s) l R x c i e pd → _handler s f ≠ 0 →
  ∃ s', set_handler uframe entry f handler s = Ret tt s' ∧
    registered entry s s' l R x c i e pd f handler ∧ kpm (uk s') = kpm (uk s).
Proof using Hcs Hent.
  intros Us Hh. unfold set_handler. rewrite bind_gets, (proj2 (Z.eqb_neq _ _) Hh). cbn [when]. rewrite bind_mret.
  apply (set_handler_rest s s l x e Us); repeat split.
Qed.

Lemma set_handler_first s p l x : ustate (uk s) (p :: l) R x c i e pd → _handler s f = 0 →
  (l = [] ∧ pt_of (phys (kpm (uk s))) pd (PDX (UXSTACKTOP - PGSIZE)) = None ∧
    ∃ s', set_handler uframe entry f handler s = Stop (SPanic "page_free: pp->pp_ref is nonzero!") s') ∨
  ∃ s' l2, set_handler uframe entry f handler s = Ret tt s' ∧
    registered entry s s' l2 R (held p x) c i e pd f handler ∧
    page_new (kpm (uk s)) l R x pd xstack p 7 (kpm (uk s')) l2.
Proof using Hcs Hent.
  intros Us Hh. unfold set_handler. rewrite bind_gets, Hh. cbn [Z.eqb when]. rewrite bind_assoc.
  assert (u32_range (UXSTACKTOP - PGSIZE) ∧ bad_va (UXSTACKTOP - PGSIZE) = false ∧ bad_perm 7 = false ∧ 0 ≤ 7 < 4096)
    as (Hva & Hbva & Hbp & Hp) by (repeat split; reflexivity || discriminate).
  change (Z.lor (Z.lor PTE_W PTE_U) PTE_P) with 7.
  destruct (u_page_alloc uframe Hcs s p l R x c i e pd 0 i _ pd _ 7 Us (names_self _ _ _ _ _ _ _ _ _ Us)
    (ut_pd _ _ _ _ _ _ _ _ Us) (ut_in _ _ _ _ _ _ _ _ Us) Hva Hbva Hp Hbp) as [(El & Hn & s' & E)|(k' & l2 & e' & E & Us' & Hd & Ho & Hf & Nw)].
  - left. split; [exact El|]. split; [exact Hn|]. exists s'. apply (bind_Stop _ _ _ _ _ E).
  - right. rewrite (bind_Ret _ _ _ _ _ E). change (0 <? 0) with false. cbn [when]. rewrite bind_mret.
    destruct (set_handler_rest s (set_uk k' s) l2 (held p x) e' Us' Hd eq_refl eq_refl Ho Hf) as (s' & Er & Hreg & Ek).
    exists s', l2. split; [exact Er|]. split; [exact Hreg|]. rewrite Ek. exact Nw.
Qed.
End set_handler.

(** C31. Registering a handler from user mode, for each of the eighteen
    exceptions.  If the library's variable for that exception is set, the
    call changes the variable, the environment's entry point for it, and
    nothing else: no mapping of any address space.  If it is not yet set, a
    zeroed page is first mapped writable at the exception stack, replacing
    the page that is there when another exception's handler was registered
    before, and with it whatever frames it holds; without a page the program
    panics, and without another one for the page table, if that is missing,
    the kernel does, because sys_page_alloc frees a counted page. *)
Theorem set_handler_registers (uframe : Trapframe) (entry : upcall → Z) (s : us) (l R : list Z) (x : Z → Z)
    (c : CpuInfo) (i : Z) (e : Env) (pd : Z) (f : upcall) (handler : Z) :
  Z.land (tf_cs uframe) 3 = 3 → ustate (uk s) l R x c i e pd → u32_range (entry f) →
  if _handler s f =? 0 then
    match l with
    | [] => ∃ s', set_handler uframe entry f handler s = Stop (SPanic "syscall %d returned %d (> 0)") s'
    | p :: l' =>
        (l' = [] ∧ pt_of (phys (kpm (uk s))) pd (PDX (UXSTACKTOP - PGSIZE)) = None ∧
          ∃ s', set_handler uframe entry f handler s = Stop (SPanic "page_free: pp->pp_ref is nonzero!") s') ∨
        ∃ s' l2, set_handler uframe entry f handler s = Ret tt s' ∧
          registered entry s s' l2 R (held p x) c i e pd f handler ∧
          (∀ pd' v', pd' ∈ R → 0 ≤ v' < UVPN → pte_of (phys (kpm (uk s'))) pd' v'
            = if decide (pd' = pd ∧ v' = xstack) then Some (Z.lor (p * PGSIZE) 7)
              else pte_of (phys (kpm (uk s))) pd' v') ∧
          (∀ j, 0 ≤ j < 1024 → wd (phys (kpm (uk s'))) p j = 0)
    end
  else ∃ s', set_handler uframe entry f handler s = Ret tt s' ∧
    registered entry s s' l R x c i e pd f handler ∧ kpm (uk s') = kpm (uk s).
Proof.
  intros Hcs Us Hent. destruct (Z.eqb_spec (_handler s f) 0) as [Hh|Hh]; [|apply set_handler_again; assumption].
  destruct l as [|p l'].
  - unfold set_handler. rewrite bind_gets, Hh. cbn [Z.eqb when]. rewrite bind_assoc.
    destruct (u_page_alloc_empty uframe Hcs s R x c i e pd (UXSTACKTOP - PGSIZE) 7 Us) as [s' E]; [split; reflexivity || discriminate|reflexivity|lia|reflexivity|].
    exists s'. apply (bind_Stop _ _ _ _ _ E).
  - destruct (set_handler_first uframe entry Hcs R c i e pd f handler Hent s p l' x Us Hh) as [F|(s' & l2 & E & Hreg & Nw)]; [left; exact F|].
    right. exists s', l2. split; [exact E|]. split; [exact Hreg|]. split; [exact (nw_pte _ _ _ _ _ _ _ _ _ _ Nw)|apply Nw].
Qed.

(** A program in environment 0 of the example kernel. *)
Definition demo_us (s : pm) : us := MkUs (set_klock None (demo_ks s)) (λ _, 0) None.
Definition demo_uframe : Trapframe := user_tf.

Lemma demo_ustate s l x : vm_inv s l [0] x → ustate (uk (demo_us s)) l [0] x demo_cpu 0 (demo_env 0) 0.
Proof.
  intros H. split.
  - split; [reflexivity..|apply (demo_env0 s)|reflexivity|reflexivity|reflexivity].
  - apply (kinv_ext (demo_ks s)); [apply demo_kinv, H|reflexivity| |exists demo_cpu; split; reflexivity].
    intros j. change (envs (uk (demo_us s))) with (envs (demo_ks s)). destruct (envs (demo_ks s) !! j); constructor.
    split; reflexivity.
  - reflexivity.
  - reflexivity.
  - apply demo_in.
Qed.

Lemma set_handler_registers_witness : ∃ s',
  set_divzero_handler demo_uframe (λ _, 0x801000) 0x800200 (demo_us demo_vm) = Ret tt s' ∧
  _handler s' env_divzero_upcall = 0x800200.
Proof.
  destruct (set_handler_registers demo_uframe (λ _, 0x801000) (demo_us demo_vm) [3; 2] [0] none_held demo_cpu 0 (demo_env 0) 0
    env_divzero_upcall 0x800200 eq_refl (demo_ustate _ _ _ demo_vm_inv)) as [(F & _)|(s' & l2 & E & Hr & _)].
  - split; reflexivity || discriminate.
  - discriminate F.
  - exists s'. split; [exact E|]. rewrite (rg_handler _ _ _ _ _ _ _ _ _ _ _ _ Hr). reflexivity.
Defined.

(** * Example states *)

(** Two environments, 0 and its child 5, with a page of environment 0 at
    0x802000 and two free pages. *)
Definition demo_vm5 : pm :=
  MkPm 6 6 (list_to_map [(0, MkPageInfo None 1); (1, MkPageInfo None 0); (2, MkPageInfo None 1);
    (3, MkPageInfo (Some 4) 0); (4, MkPageInfo (Some 5) 0); (5, MkPageInfo None 0)])
    (Some 3) (KERNBASE + 6 * PGSIZE) 0 0 0 MMIOBASE (st32 ∅ (0 * PGSIZE + 4 * PDX UVPT) (uvpt_entry 0)) 0 [] 0.

Lemma demo_vm5_wd q j : 0 ≤ j < UPDX → wd (phys demo_vm5) q j = 0.
Proof.
  intros Hj. cbn [demo_vm5 phys]. rewrite wd_st32 by (auto using uvpt_entry_range;
    first [apply uvpt_entry_range; split; reflexivity || discriminate|unfold UPDX in *; lia|apply PDX_range]).
  rewrite decide_False; [reflexivity|]. intros [_ ->]. change (PDX UVPT) with 957 in Hj. unfold UPDX in Hj. lia.
Qed.

Lemma demo_vm5_inv : vm_inv demo_vm5 [3; 4; 5] [2; 0] none_held.
Proof.
  assert (page_inv demo_vm5 [3; 4; 5]) as Hp by (apply page_invb_sound; vm_compute; reflexivity).
  assert (∀ q j, 0 ≤ j < UPDX → pt_of (phys demo_vm5) q j = None) as Hpt0
    by (intros q j Hj; unfold pt_of; rewrite demo_vm5_wd by assumption; reflexivity).
  assert (∀ R q, ¬ is_pt (phys demo_vm5) R q) as Hpt
    by (intros R q (pd & i & _ & Hi & E); rewrite Hpt0 in E by assumption; discriminate E).
  assert (∀ (R : list Z) pd v q, pd ∈ R → 0 ≤ v < UVPN → page_of (phys demo_vm5) pd v ≠ Some q) as Hpg.
  { intros R pd v q _ Hv. unfold page_of, pte_of. rewrite Hpt0 by (apply vpn_idx; assumption). discriminate. }
  assert (∀ y p : Z, 0 ≤ held y none_held p) as Hh0
    by (intros y p; unfold held, none_held; case_bool_decide; cbn; lia).
  assert (∀ p, 0 ≤ held 0 (held 2 none_held) p) as Hh
    by (intros p; unfold held at 1; pose proof (Hh0 2 p); case_bool_decide; cbn [Z.b2z]; lia).
  apply vm_add_root.
  2: { intros; unfold none_held; lia. }
  2: { split; reflexivity || discriminate. }
  2: { decided. }
  2: { apply Hpt. }
  2: { intros. eapply Hpg; eassumption. }
  2: { intros. apply Hpt0. assumption. }
  apply vm_add_root.
  2: { apply Hh0. }
  2: { split; reflexivity || discriminate. }
  2: { apply not_elem_of_nil. }
  2: { apply Hpt. }
  2: { intros. eapply Hpg; eassumption. }
  2: { intros. apply Hpt0. assumption. }
  apply vm_inv_start; auto. intros p i Hi.
  destruct (decide (p = 0 ∨ p = 2)) as [[->| ->]|D]; [vm_compute in Hi; injection Hi as <-; vm_compute; discriminate..|].
  unfold held, none_held. rewrite !bool_decide_eq_false_2 by tauto. cbn.
  apply (pi_ref _ _ Hp _ _ Hi).
Qed.

(** Page 1 is mapped at 0x802000 of environment 0. *)
Definition demo_map (perm : Z) : pm :=
  match page_insert None (kva_of 0) 1 0x802000 perm demo_vm5 with Ret _ s => s | Stop _ s => s end.

Lemma demo_map_run perm : perm_ok perm →
  ∃ l, inserted demo_vm5 [3; 4; 5] [2; 0] none_held 0 0x802 1 (Z.lor (1 * PGSIZE) (Z.lor perm PTE_P)) (demo_map perm) l.
Proof.
  intros Hperm. destruct (insert_run None demo_vm5 [3; 4; 5] [2; 0] none_held 0 1 0x802000 perm (MkPageInfo None 0) demo_vm5_inv)
    as [(_ & F & _)|(s' & l' & E & I)].
  - set_solver.
  - split; reflexivity || discriminate.
  - vm_compute. reflexivity.
  - set_solver.
  - set_solver.
  - intros (pd & i & _ & Hi & E). unfold pt_of in E. rewrite demo_vm5_wd in E by assumption. discriminate E.
  - reflexivity.
  - exact Hperm.
  - discriminate F.
  - unfold demo_map. rewrite E. exists l'. exact I.
Qed.

Definition demo_us_of (s : pm) : us :=
  MkUs (set_klock None (demo_ks2_of (with_cr3 0 s) (demo_env 0) demo_env5)) (λ _, 0) None.

Lemma kinv_unlocked k l R x i : kinv k l R x i → kinv (set_klock None k) l R x i.
Proof.
  intros H. destruct (ki_cur _ _ _ _ _ H) as (c & e & Hc & Hi & _).
  eapply kinv_ext; [exact H|reflexivity|apply same_space_refl; reflexivity|]. exists c. split; assumption.
Qed.

Lemma demo_us_ustate s l x : vm_inv s l [2; 0] x → ustate (uk (demo_us_of s)) l [2; 0] x demo_cpu 0 (demo_env 0) 0.
Proof.
  intros H. split; [split; [reflexivity..| |reflexivity|reflexivity|reflexivity]| |reflexivity|reflexivity|set_solver].
  - apply lookup_insert_eq.
  - apply kinv_unlocked, demo_kinv2_of; [|reflexivity..]. apply (vm_inv_ext s); [exact H|reflexivity..].
Qed.

Lemma demo_us_child s : child_of (uk (demo_us_of s)) 0 (demo_env 0) 4101 5 demo_env5.
Proof. split; try reflexivity; try discriminate. split; reflexivity. Qed.

Lemma demo_in20 : (0 : Z) ∈ [2; 0].
Proof. right. left. Qed.
