(* ===== verification/PgfaultSpec.v ===== *)
(** The copy-on-write page fault handler of the user library (lib/fork.c): the
    faulting program gets a page of its own with the bytes of the shared one. *)
From S2P Require Import Prelude Mmu Mem Pages PageTable AddrSpace UserMem Console KState Env EnvVm EnvSpec Syscall SyscallSpec Trap TrapSpec UserLib UserCalls UserSpec.

(** * Memory in user mode *)

(** The page tables below UTOP are writable and for user mode: the permissions
    of a page are those of its entry. *)
Definition user_tables (m : mem) (pd : Z) : Prop :=
  ∀ i, 0 ≤ i < UPDX → is_present (wd m pd i) = true → Z.land (wd m pd i) 6 = 6.

Lemma land_tables pde pte b : Z.land pde 6 = 6 → Z.land 6 b = b → Z.land (Z.land pde pte) b = Z.land pte b.
Proof.
  intros H Hb. rewrite <- Hb at 1. rewrite (Z.land_comm pde), <- Z.land_assoc, (Z.land_assoc pde), H, Hb. reflexivity.
Qed.

Lemma user_tables_U m pd i : user_tables m pd → 0 ≤ i < UPDX → is_present (wd m pd i) = true → ctrue (Z.land (wd m pd i) PTE_U) = true.
Proof.
  intros H Hi Hp. apply ctrue_spec. intros F. pose proof (H i Hi Hp) as H6. apply (f_equal (λ z, Z.land z PTE_U)) in H6.
  rewrite <- Z.land_assoc in H6. change (Z.land 6 PTE_U) with PTE_U in H6. rewrite F in H6. discriminate.
Qed.

Lemma page_vpn v o : 0 ≤ v < UVPN → 0 ≤ o < PGSIZE → user_va (v * PGSIZE + o) ∧ (v * PGSIZE + o) / PGSIZE = v ∧
  PGOFF (v * PGSIZE + o) = o ∧ v * PGSIZE + o + 1 < 2 ^ 32.
Proof.
  intros Hv Ho. assert (v * PGSIZE + o < UTOP) as Hu by (change UTOP with (UVPN * PGSIZE); unfold PGSIZE in *; nia).
  assert (UTOP + 1 < 2 ^ 32) by reflexivity. assert (u32_range (v * PGSIZE + o)) as H32 by (unfold u32_range, PGSIZE in *; lia).
  split; [split; [unfold PGSIZE in *; lia|exact Hu]|]. split; [rewrite Z.add_comm, Z.div_add by discriminate; rewrite Z.div_small by exact Ho; reflexivity|].
  split; [|lia]. unfold PGOFF. rewrite w32_id by exact H32. change 0xFFF with (Z.ones 12). rewrite Z.land_ones by lia.
  change (2 ^ 12) with PGSIZE. rewrite Z.add_comm, Z_mod_plus_full. apply Z.mod_small, Ho.
Qed.

Lemma user_translate s pd v pte write o : cr3 s = pd * PGSIZE → 0 ≤ v < UVPN → 0 ≤ o < PGSIZE → user_tables (phys s) pd →
  pte_of (phys s) pd v = Some pte → ctrue (Z.land pte PTE_U) = true → (write = true → ctrue (Z.land pte PTE_W) = true) →
  translate s write true (v * PGSIZE + o) = Some (frame_of pte * PGSIZE + o).
Proof.
  intros Hc Hv Ho Ht Hpte HU HW. destruct (page_vpn v o Hv Ho) as (Hua & Ev & Eo & _).
  destruct (user_va_idx _ Hua) as (EI & EJ & HI & _). rewrite Ev in EI, EJ. rewrite EI in HI.
  unfold translate. rewrite Hc, EI, EJ. fold (wd (phys s) pd (v / 1024)). unfold pte_of, pt_of in Hpte.
  destruct (is_present (wd (phys s) pd (v / 1024))) eqn:Ep; [|discriminate]. cbv zeta in Hpte. rewrite frame_of_addr.
  fold (wd (phys s) (frame_of (wd (phys s) pd (v / 1024))) (v mod 1024)).
  destruct (is_present (wd (phys s) (frame_of _) _)); [|discriminate]. injection Hpte as Hpte. rewrite Hpte.
  rewrite !land_tables by (reflexivity || apply Ht; assumption). rewrite HU, frame_of_addr, Eo. cbn [negb andb].
  destruct write; [rewrite HW by reflexivity|]; reflexivity.
Qed.

(** ** Copying a page

    Page [p], mapped writable at page number [vd], is written from page [f],
    which is mapped at [vs]. *)
Section copy.
Context (s0 : us) (l R : list Z) (x : Z → Z) (pd vs vd f p ps pp : Z).
Context (Hvm : vm_inv (kpm (uk s0)) l R x) (Hpd : pd ∈ R) (Hc : cr3 (kpm (uk s0)) = pd * PGSIZE) (Htab : user_tables (phys (kpm (uk s0))) pd).
Context (Hvs : 0 ≤ vs < UVPN) (Hvd : 0 ≤ vd < UVPN) (Hs : pte_of (phys (kpm (uk s0))) pd vs = Some ps) (Hd : pte_of (phys (kpm (uk s0))) pd vd = Some pp).
Context (Hf : frame_of ps = f) (Hp : frame_of pp = p) (Hfp : f ≠ p).
Context (HsU : ctrue (Z.land ps PTE_U) = true) (HdU : ctrue (Z.land pp PTE_U) = true) (HdW : ctrue (Z.land pp PTE_W) = true).

Definition with_mem (m : mem) : us := set_uk (set_kpm (with_phys m (kpm (uk s0))) (uk s0)) s0.

(** Only page [p] has been written. *)
Definition only_p (m : mem) : Prop := ∀ b, b / PGSIZE ≠ p → ld8 m b = ld8 (phys (kpm (uk s0))) b.

Lemma only_p_wd m q j : only_p m → 0 ≤ j < 1024 → q ≠ p → wd m q j = wd (phys (kpm (uk s0))) q j.
Proof using.
  intros Hm Hj Hq. apply ld32_ext. intros i Hi. apply Hm. replace (q * PGSIZE + 4 * j + i) with (4 * j + i + q * PGSIZE) by lia.
  rewrite Z.div_add, Z.div_small by (discriminate || (unfold PGSIZE; lia)). exact Hq.
Qed.

Lemma dest_data : p ∉ R ∧ ¬ is_pt (phys (kpm (uk s0))) R p.
Proof using Hvm Hpd Hvd Hd Hp. destruct (vm_data _ _ _ _ Hvm pd vd p Hpd Hvd) as (_ & H1 & H2); [unfold page_of; rewrite Hd; cbn; congruence|auto]. Qed.

Lemma only_p_translate m v pte write o : only_p m → 0 ≤ v < UVPN → 0 ≤ o < PGSIZE → pte_of (phys (kpm (uk s0))) pd v = Some pte →
  ctrue (Z.land pte PTE_U) = true → (write = true → ctrue (Z.land pte PTE_W) = true) →
  translate (kpm (uk (with_mem m))) write true (v * PGSIZE + o) = Some (frame_of pte * PGSIZE + o).
Proof using Hvm Hpd Hc Htab Hvd Hd Hp.
  intros Hm Hv Ho Hpte HU HW. destruct dest_data as [HR Hpt]. apply (user_translate (kpm (uk (with_mem m))) pd v pte write o); [exact Hc|exact Hv|exact Ho| | |exact HU|exact HW].
  - intros i Hi. cbn. rewrite only_p_wd by (assumption || (unfold UPDX in Hi; lia) || congruence). apply Htab, Hi.
  - cbn. rewrite <- Hpte. eapply same_pte_of; [|exact HR|exact Hpt|exact Hpd|exact Hv]. intros. apply only_p_wd; assumption.
Qed.

Lemma copy_bytes n o m : only_p m → 0 ≤ o → o + Z.of_nat n ≤ PGSIZE → ∃ m',
  umove_up n (vd * PGSIZE + o) (vs * PGSIZE + o) (with_mem m) = Ret tt (with_mem m') ∧ only_p m' ∧
  (∀ b, 0 ≤ b < PGSIZE → ld8 m' (p * PGSIZE + b) = if decide (o ≤ b < o + Z.of_nat n) then ld8 (phys (kpm (uk s0))) (f * PGSIZE + b) else ld8 m (p * PGSIZE + b)).
Proof using Hvm Hpd Hc Htab Hvs Hvd Hs Hd Hf Hp Hfp HsU HdU HdW.
  revert o m. induction n as [|n IH]; intros o m Hm Ho Hn.
  { exists m. split; [reflexivity|]. split; [exact Hm|]. intros b Hb. rewrite decide_False by lia. reflexivity. }
  destruct (page_vpn vs o Hvs ltac:(lia)) as (_ & _ & _ & Ws). destruct (page_vpn vd o Hvd ltac:(lia)) as (_ & Ed & _ & Wd). cbn [umove_up].
  erewrite bind_Ret. 2:{ unfold uld8. rewrite (only_p_translate m vs ps false o Hm Hvs ltac:(lia) Hs HsU ltac:(discriminate)), Hf. reflexivity. }
  set (v := ld8 (phys (kpm (uk (with_mem m)))) (f * PGSIZE + o)).
  assert (v = ld8 (phys (kpm (uk s0))) (f * PGSIZE + o)) as Ev.
  { apply Hm. rewrite Z.add_comm, Z.div_add, Z.div_small by (discriminate || lia). exact Hfp. }
  erewrite bind_Ret. 2:{ unfold ust8. rewrite (only_p_translate m vd pp true o Hm Hvd ltac:(lia) Hd HdU ltac:(auto)), Hp. reflexivity. }
  change (set_uk _ (with_mem m)) with (with_mem (st8 m (p * PGSIZE + o) v)). set (m1 := st8 _ _ _).
  assert (only_p m1) as Hm1.
  { intros b Hb. unfold m1. rewrite ld8_st8_ne; [apply Hm, Hb|]. intros <-. apply Hb. rewrite Z.add_comm, Z.div_add, Z.div_small by (discriminate || lia). lia. }
  rewrite !w32_id by (unfold u32_range, PGSIZE in *; lia). rewrite <- !Z.add_assoc.
  destruct (IH (o + 1) m1 Hm1 ltac:(lia) ltac:(lia)) as (m' & E & Hm' & Hb). exists m'. split; [exact E|]. split; [exact Hm'|].
  intros b Hbr. rewrite Hb by exact Hbr. destruct (decide (b = o)) as [->|D].
  - rewrite decide_False, decide_True by lia. unfold m1. rewrite ld8_st8_eq, Ev. apply w8_id, ld8_range.
  - unfold m1. rewrite ld8_st8_ne by lia. apply decide_ext. lia.
Qed.

Lemma copy_page : ∃ m', umemcpy (vd * PGSIZE) (vs * PGSIZE) PGSIZE s0 = Ret tt (with_mem m') ∧ only_p m' ∧
  ∀ b, 0 ≤ b < PGSIZE → ld8 m' (p * PGSIZE + b) = ld8 (phys (kpm (uk s0))) (f * PGSIZE + b).
Proof using Hvm Hpd Hc Htab Hvs Hvd Hs Hd Hf Hp Hfp HsU HdU HdW.
  destruct (copy_bytes (Z.to_nat PGSIZE) 0 (phys (kpm (uk s0)))) as (m' & E & Hm & Hb); [intros b _; reflexivity|lia|reflexivity..|].
  rewrite !Z.add_0_r in E. assert (with_mem (phys (kpm (uk s0))) = s0) as Es.
  { unfold with_mem. destruct s0 as [[[]] ]. reflexivity. }
  rewrite Es in E. assert (vs ≠ vd) as Hv by (intros ->; apply Hfp; congruence).
  assert ((vs * PGSIZE <? vd * PGSIZE) && (w32 (vs * PGSIZE + PGSIZE) >? vd * PGSIZE) = false) as Edir.
  { apply andb_false_iff. destruct (Z_lt_le_dec vs vd); [right|left; apply Z.ltb_ge; unfold PGSIZE; lia].
    destruct (page_vpn vs (PGSIZE - 1) Hvs ltac:(unfold PGSIZE; lia)) as (_ & _ & _ & W). rewrite Z.gtb_ltb. apply Z.ltb_ge.
    rewrite w32_id by (unfold u32_range, PGSIZE in *; lia). unfold PGSIZE. lia. }
  exists m'. unfold umemcpy, umemmove. rewrite Edir. split; [exact E|]. split; [exact Hm|]. intros b Hbr. rewrite Hb, decide_True by (exact Hbr || (change (Z.of_nat (Z.to_nat PGSIZE)) with PGSIZE; lia)). reflexivity.
Qed.
End copy.

(** * The handler *)

Lemma ustate_mem k l R x c i e pd p m : ustate k l R x c i e pd → p ∉ R → ¬ is_pt (phys (kpm k)) R p →
  (∀ q j, 0 ≤ j < 1024 → q ≠ p → wd m q j = wd (phys (kpm k)) q j) → ustate (set_kpm (with_phys m (kpm k)) k) l R x c i e pd.
Proof.
  intros [[U1 U2 U3 U4 U5 U6 U7] K Hr Hg Hpd] HR Hpt Hm. split; try assumption; [split; assumption|].
  apply (kinv_pm k l R x); [exact K|]. apply (vm_write_data _ _ _ _ p); [apply (ki_vm _ _ _ _ _ K)|assumption..].
Qed.

(** uvpd[i] is read through the directory's entry for itself. *)
Lemma uvpd_read s pd i : self_mapped (uk s) pd → 0 ≤ pd < 65536 → 0 ≤ i < 1024 → uvpd i s = Ret (wd (phys (kpm (uk s))) pd i) s.
Proof.
  intros Hself Hpd Hi. pose proof Hself as [Hc Hw]. change (PDX UVPT) with 957 in Hw.
  assert (uvpd i = uvpt (PGNUM UVPT + i)) as ->. { unfold uvpd, uvpt. f_equal. lia. }
  change (PGNUM UVPT) with (957 * 1024). assert ((957 * 1024 + i) / 1024 = 957 ∧ (957 * 1024 + i) mod 1024 = i) as [E1 E2]
    by (rewrite (Z.add_comm (957 * 1024)), Z.div_add, Z_mod_plus_full, Z.div_small, Z.mod_small by (discriminate || lia); auto).
  rewrite (uvpt_read s pd (957 * 1024 + i) pd Hself Hpd); [rewrite E2; reflexivity|lia| |]; rewrite E1.
  - unfold pt_of. rewrite Hw. unfold uvpt_entry. rewrite <- Z.lor_assoc, (Z.lor_comm PTE_P), Z.lor_assoc, is_present_lor. f_equal.
    rewrite <- Z.lor_assoc. apply frame_of_page; [exact Hpd|split; reflexivity || discriminate].
  - rewrite Hw. unfold uvpt_entry. apply ctrue_spec. intros F. apply (f_equal (λ z, Z.testbit z 2)) in F. revert F.
    rewrite Z.land_spec, !Z.lor_spec. change (Z.testbit PTE_U 2) with true. rewrite orb_true_r. discriminate.
Qed.

(** The test of a write to a copy-on-write page. *)
Lemma cow_fault s pd va err pte : self_mapped (uk s) pd → 0 ≤ pd < 65536 → user_va va → user_tables (phys (kpm (uk s))) pd →
  pte_of (phys (kpm (uk s))) pd (va / PGSIZE) = Some pte → Z.land err FEC_WR ≠ 0 → Z.land pte PTE_COW ≠ 0 →
  (if Z.land err FEC_WR =? 0 then mret false
   else
     d ← uvpd (PDX va);
     if Z.land d PTE_P =? 0 then mret false
     else
       t ← uvpt (PGNUM va);
       if Z.land t PTE_P =? 0 then mret false
       else t ← uvpt (PGNUM va); mret (negb (Z.land t PTE_COW =? 0))) s = Ret true s.
Proof.
  intros Hself Hpd Hva Ht Hpte Herr Hcow. destruct (user_va_idx va Hva) as (EI & _ & HI & _ & Hv).
  rewrite (proj2 (Z.eqb_neq _ _) Herr). rewrite (bind_Ret _ _ _ _ _ (uvpd_read s pd (PDX va) Hself Hpd ltac:(unfold UPDX in HI; lia))).
  assert (Hpte' := Hpte). unfold pte_of, pt_of in Hpte'. rewrite <- EI in Hpte'.
  destruct (is_present (wd (phys (kpm (uk s))) pd (PDX va))) eqn:Ep; [|discriminate]. cbv zeta in Hpte'.
  destruct (is_present (wd _ (frame_of _) _)) eqn:Eq; [|discriminate]. injection Hpte' as Hpte'. rewrite Hpte' in Eq.
  unfold is_present in Ep, Eq. rewrite (proj2 (Z.eqb_neq _ _)) by (apply ctrue_spec, Ep).
  assert (uvpt (PGNUM va) s = Ret pte s) as Eu.
  { rewrite PGNUM_div by (apply user_va_u32, Hva). apply (uvpt_pte s pd _ _ Hself Hpd Hv Hpte). rewrite <- EI.
    apply user_tables_U; assumption. }
  rewrite !(bind_Ret _ _ _ _ _ Eu). rewrite (proj2 (Z.eqb_neq _ _)) by (apply ctrue_spec, Eq).
  rewrite (bind_Ret _ _ _ _ _ Eu), (proj2 (Z.eqb_neq _ _) Hcow). reflexivity.
Qed.

(** The virtual page of PFTEMP. *)
Definition pftemp : Z := PFTEMP / PGSIZE.

Lemma pde_for_tables t : Z.land (pde_for t) 6 = 6.
Proof.
  unfold pde_for. apply Z.bits_inj'. intros n Hn. rewrite Z.land_spec, !Z.lor_spec.
  change 6 with (Z.lor PTE_W PTE_U). rewrite Z.lor_spec. destruct (Z.testbit PTE_W n), (Z.testbit PTE_U n); rewrite ?orb_true_r, ?orb_false_r, ?andb_false_r; reflexivity.
Qed.

Lemma new_user_tables s l R x pd v p perm s' l2 pd' : page_new s l R x pd v p perm s' l2 → pd' ∈ R → user_tables (phys s) pd' → user_tables (phys s') pd'.
Proof.
  intros N Hpd H i Hi Hp. destruct (nw_pde _ _ _ _ _ _ _ _ _ _ N pd' i Hpd Hi) as [E|(_ & _ & _ & t & _ & E)]; rewrite E in *; [apply H; assumption|apply pde_for_tables].
Qed.

(** The entry of a private page. *)
Definition own (p : Z) : Z := Z.lor (p * PGSIZE) (PTE_W + PTE_U + PTE_P).

Lemma own_facts p : 0 ≤ p < 65536 → frame_of (own p) = p ∧ ctrue (Z.land (own p) PTE_U) = true ∧ ctrue (Z.land (own p) PTE_W) = true.
Proof.
  intros Hp. split; [apply frame_of_page; [exact Hp|split; reflexivity || discriminate]|].
  split; apply ctrue_spec; intros F; [apply (f_equal (λ z, Z.testbit z 2)) in F|apply (f_equal (λ z, Z.testbit z 1)) in F]; revert F;
    unfold own; rewrite Z.land_spec, Z.lor_spec, (orb_comm (Z.testbit (p * PGSIZE) _)); discriminate.
Qed.

(** ** What calls of the library leave alone *)

(** A directory gains page tables only. *)
Definition dirs_grow (m m' : mem) (R : list Z) : Prop := ∀ pd i, pd ∈ R → 0 ≤ i < 1024 →
  wd m' pd i = wd m pd i ∨ i < UPDX ∧ pt_of m pd i = None ∧ ∃ t, wd m' pd i = pde_for t.

Lemma dirs_grow_tables m m' R pd i : dirs_grow m m' R → pd ∈ R → 0 ≤ i < 1024 → pt_of m pd i ≠ None → pt_of m' pd i ≠ None.
Proof. intros H Hpd Hi Hn. destruct (H pd i Hpd Hi) as [E|(_ & F & _)]; [rewrite (pt_of_ext _ _ _ _ E); exact Hn|contradiction]. Qed.

Lemma dirs_grow_user m m' R pd : dirs_grow m m' R → pd ∈ R → user_tables m pd → user_tables m' pd.
Proof.
  intros H Hpd Ht i Hi Hp. assert (0 ≤ i < 1024) as Hi' by (unfold UPDX in Hi; lia).
  destruct (H pd i Hpd Hi') as [E|(_ & _ & t & E)]; rewrite E in *; [apply Ht; assumption|apply pde_for_tables].
Qed.

Lemma pde_for_present t : is_present (pde_for t) = true.
Proof.
  unfold pde_for. rewrite <- !Z.lor_assoc, (Z.lor_comm PTE_P), !Z.lor_assoc. apply is_present_lor.
Qed.

Lemma dirs_grow_refl m m' R : (∀ pd i, pd ∈ R → 0 ≤ i < 1024 → wd m' pd i = wd m pd i) → dirs_grow m m' R.
Proof. intros H pd i Hpd Hi. left. apply H; assumption. Qed.

Lemma dirs_grow_trans m1 m2 m3 R : dirs_grow m1 m2 R → dirs_grow m2 m3 R → dirs_grow m1 m3 R.
Proof.
  intros H1 H2 pd i Hpd Hi. destruct (H2 pd i Hpd Hi) as [E2|(L & N2 & t & E2)]; destruct (H1 pd i Hpd Hi) as [E1|(L1 & N1 & t1 & E1)].
  - left. congruence.
  - right. split; [exact L1|]. split; [exact N1|]. exists t1. congruence.
  - right. split; [exact L|]. rewrite (pt_of_ext _ _ _ _ E1) in N2. eauto.
  - exfalso. unfold pt_of in N2. rewrite E1, pde_for_present in N2. discriminate N2.
Qed.

Lemma new_dirs s p l R x pd v perm s' l2 : vm_inv s (p :: l) R x → page_new s l R x pd v p perm s' l2 → dirs_grow (phys s) (phys s') R.
Proof.
  intros H N pd' i Hpd' Hi. destruct (Z_lt_le_dec i UPDX) as [L|L].
  - destruct (nw_pde _ _ _ _ _ _ _ _ _ _ N pd' i Hpd' ltac:(lia)) as [E|(-> & _ & Hn & t & _ & E)]; eauto 6.
  - left. apply (nw_data _ _ _ _ _ _ _ _ _ _ N); [lia|apply (vm_root_used _ _ _ _ _ H Hpd')|lia|].
    intros (pd2 & j & Hpd2 & Hj & E). destruct (vm_pt_bound _ _ _ _ _ _ _ H Hpd2 Hj E) as (_ & F & _). contradiction.
Qed.

Lemma inserted_dirs s l R x pd v pp e s' l' : vm_inv s l R x → inserted s l R x pd v pp e s' l' → dirs_grow (phys s) (phys s') R.
Proof.
  intros H I pd' i Hpd' Hi. destruct (Z_lt_le_dec i UPDX) as [L|L].
  - destruct (in_pde _ _ _ _ _ _ _ _ _ _ I pd' i Hpd' ltac:(lia)) as [E|(-> & _ & Hn & t & _ & E)]; eauto 6.
  - left. apply (in_data _ _ _ _ _ _ _ _ _ _ I); [lia|apply (vm_root_used _ _ _ _ _ H Hpd')|lia|].
    intros (pd2 & j & Hpd2 & Hj & E). destruct (vm_pt_bound _ _ _ _ _ _ _ H Hpd2 Hj E) as (_ & F & _). contradiction.
Qed.

Lemma cleared_dirs s l R x pd v s' l' : vm_inv s l R x → cleared s l R x pd v s' l' → dirs_grow (phys s) (phys s') R.
Proof.
  intros H C pd' i Hpd' Hi. left. destruct (Z_lt_le_dec i UPDX) as [L|L]; [apply (cl_pde _ _ _ _ _ _ _ _ C); [exact Hpd'|lia]|].
  apply (cl_data _ _ _ _ _ _ _ _ C); [lia|apply not_elem_of_nil|lia|].
  intros (pd2 & j & Hpd2 & Hj & E). destruct (vm_pt_bound _ _ _ _ _ _ _ H Hpd2 Hj E) as (_ & F & _). contradiction.
Qed.

(** From state [k] to [k'] the program [i] has run: of the environments only
    its own registers have changed, and of the directories only missing page
    tables. *)
Record quiet (R : list Z) (i : Z) (k : ks) (e : Env) (k' : ks) (e' : Env) : Prop := {
  qt_env : same_env_data e e';
  qt_others : ∀ j, j ≠ i → envs k' !! j = envs k !! j;
  qt_list : env_free_list k' = env_free_list k;
  qt_dirs : dirs_grow (phys (kpm k)) (phys (kpm k')) R;
  qt_kern : kern_pgdir (kpm k') = kern_pgdir (kpm k) ∧ cr3 (kpm k') = cr3 (kpm k);
  qt_npages : npages (kpm k') = npages (kpm k)
}.

Lemma quiet_compose R i k1 e1 k2 e2 k3 e3 : quiet R i k1 e1 k2 e2 → quiet R i k2 e2 k3 e3 → quiet R i k1 e1 k3 e3.
Proof.
  intros [A1 A2 A3 A4 [A5 A6] A7] [B1 B2 B3 B4 [B5 B6] B7]. split; [eapply same_env_data_trans; eassumption| |congruence| |split; congruence|congruence].
  - intros j Hj. rewrite B2 by exact Hj. apply A2, Hj.
  - eapply dirs_grow_trans; eassumption.
Qed.

Lemma quiet_self R i k e k' e' pd : quiet R i k e k' e' → pd ∈ R → self_mapped k pd → self_mapped k' pd.
Proof.
  intros Q Hpd [Hc Hw]. split; [rewrite (proj2 (qt_kern _ _ _ _ _ _ Q)); exact Hc|].
  destruct (qt_dirs _ _ _ _ _ _ Q pd (PDX UVPT) Hpd ltac:(split; reflexivity || discriminate)) as [E|(F & _)]; [congruence|discriminate F].
Qed.

Section steps.
Context (uframe : Trapframe) (Hcs : Z.land (tf_cs uframe) 3 = 3).
Implicit Types (l R : list Z) (x : Z → Z).

(** The page is allocated at PFTEMP and written. *)
Record copied (k : ks) (R : list Z) (pd f p : Z) (k' : ks) : Prop := {
  cp_pte : ∀ pd' v, pd' ∈ R → 0 ≤ v < UVPN → pte_of (phys (kpm k')) pd' v
    = if decide (pd' = pd ∧ v = pftemp) then Some (own p) else pte_of (phys (kpm k)) pd' v;
  cp_page : ∀ o, 0 ≤ o < PGSIZE → ld8 (phys (kpm k')) (p * PGSIZE + o) = ld8 (phys (kpm k)) (f * PGSIZE + o);
  cp_data : ∀ pd' v q b, pd' ∈ R → 0 ≤ v < UVPN → (pd', v) ≠ (pd, pftemp) → page_of (phys (kpm k)) pd' v = Some q →
    b / PGSIZE = q → ld8 (phys (kpm k')) b = ld8 (phys (kpm k)) b;
  cp_ref : ∃ j, pages (kpm k') !! p = Some j ∧ pp_ref j = 2
}.

Lemma alloc_copy s p l R x c i e pd pn pte : ustate (uk s) (p :: l) R x c i e pd → user_tables (phys (kpm (uk s))) pd →
  0 ≤ pn < UVPN → pn ≠ pftemp → pte_of (phys (kpm (uk s))) pd pn = Some pte → ctrue (Z.land pte PTE_U) = true →
  cr3 (kpm (uk s)) = pd * PGSIZE → l ≠ [] ∨ pt_of (phys (kpm (uk s))) pd (PDX PFTEMP) ≠ None →
  ∃ k1 k2 l2 e1, UserLib.sys_page_alloc uframe 0 PFTEMP 7 s = Ret 0 (set_uk k1 s) ∧
    umemcpy PFTEMP (pn * PGSIZE) PGSIZE (set_uk k1 s) = Ret tt (set_uk k2 s) ∧
    ustate k2 l2 R (held p x) c i e1 pd ∧ copied (uk s) R pd (frame_of pte) p k2 ∧
    quiet R i (uk s) e k2 e1 ∧ (length l ≤ S (length l2))%nat.
Proof using Hcs.
  intros Us Htab Hpn Hne Hpte HU Hc Hroom. pose proof (ki_vm _ _ _ _ _ (ut_kinv _ _ _ _ _ _ _ _ Us)) as Hvm.
  pose proof (ut_in _ _ _ _ _ _ _ _ Us) as HpdR. assert (0 ≤ pftemp < UVPN) as Hpf by (split; reflexivity || discriminate).
  assert (∀ pd' v q, pd' ∈ R → 0 ≤ v < UVPN → page_of (phys (kpm (uk s))) pd' v = Some q → q ∉ p :: l ∧ q ∉ R ∧ ¬ is_pt (phys (kpm (uk s))) R q)
    as Hmd by (intros; eapply mapped_data; eauto).
  assert (page_of (phys (kpm (uk s))) pd pn = Some (frame_of pte)) as Hpg by (unfold page_of; rewrite Hpte; reflexivity).
  destruct (u_page_alloc uframe Hcs s p l R x c i e pd 0 i _ pd PFTEMP 7 Us (names_self _ _ _ _ _ _ _ _ _ Us) (ut_pd _ _ _ _ _ _ _ _ Us) HpdR ltac:(split; reflexivity || discriminate) eq_refl ltac:(lia) eq_refl)
    as [(-> & F & _)|(k1 & l2 & e1 & E1 & U1 & Hd1e & Ho1 & Hf1 & N)]; [destruct Hroom; contradiction|].
  change (PFTEMP / PGSIZE) with pftemp in N. change (Z.lor 7 PTE_P) with (PTE_W + PTE_U + PTE_P) in *.
  assert (∀ pd' v, pd' ∈ R → 0 ≤ v < UVPN → pte_of (phys (kpm k1)) pd' v
    = if decide (pd' = pd ∧ v = pftemp) then Some (own p) else pte_of (phys (kpm (uk s))) pd' v) as Hpte1 by exact (nw_pte _ _ _ _ _ _ _ _ _ _ N).
  pose proof (vm_free_unused _ _ _ _ p Hvm (list_elem_of_here _ _)) as (_ & _ & Hpun).
  assert (0 ≤ p < 65536) as Hpb by (pose proof (page_inv_free_bound _ _ p (vm_pages _ _ _ _ Hvm) (list_elem_of_here _ _)); pose proof (vm_npages _ _ _ _ Hvm); lia).
  destruct (own_facts p Hpb) as (Of & OU & OW).
  assert (pte_of (phys (kpm k1)) pd pn = Some pte) as Hs1 by (rewrite Hpte1, decide_False by (assumption || tauto); exact Hpte).
  assert (pte_of (phys (kpm k1)) pd pftemp = Some (own p)) as Hd1 by (rewrite Hpte1, decide_True by auto; reflexivity).
  assert (frame_of pte ≠ p) as Hfp by (intros F; apply (Hpun pd pn HpdR Hpn); rewrite Hpg, F; reflexivity).
  pose proof (nw_inv _ _ _ _ _ _ _ _ _ _ N) as Hvm1. destruct (nw_kern _ _ _ _ _ _ _ _ _ _ N) as [_ Hc1]. rewrite Hc in Hc1.
  destruct (copy_page (set_uk k1 s) l2 R (held p x) pd pn pftemp (frame_of pte) p pte (own p) Hvm1 HpdR Hc1
    (new_user_tables _ _ _ _ _ _ _ _ _ _ _ N HpdR Htab) Hpn Hpf Hs1 Hd1 eq_refl Of Hfp HU OU OW) as (m2 & E2 & Hm2 & Hp2).
  destruct (mapped_data _ _ _ _ pd pftemp p Hvm1 HpdR Hpf) as (_ & HpR & Hppt); [unfold page_of; rewrite Hd1; cbn; congruence|].
  exists k1, (set_kpm (with_phys m2 (kpm k1)) k1), l2, e1. split; [exact E1|]. split; [exact E2|].
  assert (∀ q j, 0 ≤ j < 1024 → q ≠ p → wd m2 q j = wd (phys (kpm k1)) q j) as Hwd by (intros q j Hj Hq; exact (only_p_wd (set_uk k1 s) p m2 q j Hm2 Hj Hq)).
  split; [apply (ustate_mem k1 l2 R (held p x) c i e1 pd p m2 U1 HpR Hppt Hwd)|].
  split; [|split].
  2: { split; [exact Hd1e|exact Ho1|exact Hf1| |apply N|apply N]. eapply dirs_grow_trans; [apply (new_dirs _ _ _ _ _ _ _ _ _ _ Hvm N)|].
       apply dirs_grow_refl. intros pd' i' Hpd' Hi'. apply Hwd; [exact Hi'|intros ->; contradiction]. }
  2: { pose proof (nw_room _ _ _ _ _ _ _ _ _ _ N). pose proof (new_table_le (phys (kpm (uk s))) pd (pftemp / 1024)). lia. }
  split.
  - intros pd' v Hpd' Hv. change (phys (kpm (set_kpm _ _))) with m2. rewrite (same_pte_of (phys (kpm k1)) m2 R p pd' v Hwd HpR Hppt Hpd' Hv). apply Hpte1; assumption.
  - intros o Ho. change (phys (kpm (set_kpm _ _))) with m2. rewrite (Hp2 o Ho). destruct (Hmd pd pn _ HpdR Hpn Hpg) as (? & ? & ?).
    apply (data_kept _ _ _ _ (frame_of pte) (nw_data _ _ _ _ _ _ _ _ _ _ N)); [assumption..|]. rewrite Z.add_comm, Z.div_add, Z.div_small by (discriminate || lia). reflexivity.
  - intros pd' v q b Hpd' Hv Hne' Hq Hb. destruct (Hmd pd' v q Hpd' Hv Hq) as (? & ? & ?). change (phys (kpm (set_kpm _ _))) with m2.
    rewrite Hm2 by (rewrite Hb; intros ->; exact (Hpun pd' v Hpd' Hv Hq)). apply (data_kept _ _ _ _ q (nw_data _ _ _ _ _ _ _ _ _ _ N)); assumption.
  - exact (nw_ref _ _ _ _ _ _ _ _ _ _ N).
Qed.
(** The page moves from PFTEMP to [pn]. *)
Lemma move_page s k l R x c i e pd pn p pte : ustate k l R x c i e pd → 0 ≤ pn < UVPN → pn ≠ pftemp → 0 ≤ p < 65536 →
  pte_of (phys (kpm k)) pd pftemp = Some (own p) → pte_of (phys (kpm k)) pd pn = Some pte → frame_of pte ≠ p →
  (∃ j, pages (kpm k) !! p = Some j ∧ pp_ref j = 2) →
  ∃ k3 k4 l' e', UserLib.sys_page_map uframe 0 PFTEMP 0 (pn * PGSIZE) 7 (set_uk k s) = Ret 0 (set_uk k3 s) ∧
    UserLib.sys_page_unmap uframe 0 PFTEMP (set_uk k3 s) = Ret 0 (set_uk k4 s) ∧ ustate k4 l' R x c i e' pd ∧
    (∀ pd' v, pd' ∈ R → 0 ≤ v < UVPN → pte_of (phys (kpm k4)) pd' v
      = if decide (pd' = pd ∧ v = pftemp) then None else if decide (pd' = pd ∧ v = pn) then Some (own p) else pte_of (phys (kpm k)) pd' v) ∧
    (∀ pd' v q b, pd' ∈ R → 0 ≤ v < UVPN → page_of (phys (kpm k)) pd' v = Some q →
      b / PGSIZE = q → ld8 (phys (kpm k4)) b = ld8 (phys (kpm k)) b) ∧
    (∃ j, pages (kpm k4) !! p = Some j ∧ pp_ref j = 2) ∧ quiet R i k e k4 e' ∧ (length l ≤ length l')%nat.
Proof using Hcs.
  intros U Hpn Hne Hpb Hd Hs Hfp (j2 & Ej2 & Hr2). pose proof (ki_vm _ _ _ _ _ (ut_kinv _ _ _ _ _ _ _ _ U)) as Hvm.
  pose proof (ut_in _ _ _ _ _ _ _ _ U) as HpdR. assert (0 ≤ pftemp < UVPN) as Hpf by (split; reflexivity || discriminate).
  destruct (own_facts p Hpb) as (Of & _ & OW). destruct (page_va pn Hpn) as (Hva & Hbad & Evpn & Epdx).
  assert (page_of (phys (kpm k)) pd pftemp = Some p) as Hpgd by (unfold page_of; rewrite Hd; cbn; congruence).
  assert (page_of (phys (kpm k)) pd pn = Some (frame_of pte)) as Hpgs by (unfold page_of; rewrite Hs; reflexivity).
  destruct (u_page_map uframe Hcs (set_uk k s) l R x c i e pd 0 i _ pd PFTEMP (pn * PGSIZE) 7 (own p) U
    (names_self _ _ _ _ _ _ _ _ _ U) (ut_pd _ _ _ _ _ _ _ _ U) HpdR ltac:(split; reflexivity || discriminate) eq_refl Hva Hbad
    ltac:(lia) eq_refl (λ _, OW) Hd) as (v & k3 & e3 & l3 & E3 & U3 & Hd3 & Ho3 & Hf3 & [(_ & _ & F & _)|(-> & N)]).
  { intros f. rewrite Of. cbn. rewrite Ej2. intros [= <-]. lia. }
  { exfalso. unfold pte_of in Hs. cbn in F. rewrite Epdx in F. rewrite F in Hs. discriminate. }
  rewrite Evpn, Of in N. change (Z.lor (p * PGSIZE) (Z.lor 7 PTE_P)) with (own p) in N. change (kpm (uk (set_uk k s))) with (kpm k) in N.
  destruct (u_page_unmap uframe Hcs (set_uk k3 s) l3 R x c i e3 pd PFTEMP U3 ltac:(split; reflexivity || discriminate) eq_refl) as (k4 & e4 & l4 & E4 & U4 & Hd4 & Ho4 & Hf4 & C).
  change (PFTEMP / PGSIZE) with pftemp in C. change (kpm (uk (set_uk k3 s))) with (kpm k3) in C.
  assert (∀ q, q ∉ l → ¬ is_pt (phys (kpm k)) R q → ¬ is_pt (phys (kpm k3)) R q) as Hpt by (intros q ? ? F; destruct (in_is_pt _ _ _ _ _ _ _ _ _ _ N q F); contradiction).
  exists k3, k4, l4, e4. split; [exact E3|]. split; [exact E4|]. split; [exact U4|]. split; [|split; [|split; [|split]]].
  4: { apply quiet_compose with k3 e3; (split; [assumption..| | |]).
       - apply (inserted_dirs _ _ _ _ _ _ _ _ _ _ Hvm N).
       - apply N.
       - apply N.
       - apply (cleared_dirs _ _ _ _ _ _ _ _ (in_inv _ _ _ _ _ _ _ _ _ _ N) C).
       - apply C.
       - apply C. }
  4: { pose proof (in_room _ _ _ _ _ _ _ _ _ _ N) as G. unfold new_table in G. rewrite decide_False in G
         by (intros F; unfold pte_of in Hs; rewrite F in Hs; discriminate).
       enough (length l3 ≤ length l4)%nat by lia.
       apply NoDup_incl_length; [apply NoDup_ListNoDup, (page_inv_NoDup _ _ (vm_pages _ _ _ _ (in_inv _ _ _ _ _ _ _ _ _ _ N)))|].
       intros y Hy. apply list_elem_of_In. apply list_elem_of_In in Hy. apply (cl_free _ _ _ _ _ _ _ _ C), Hy. }
  - intros pd' v Hpd' Hv. rewrite (cl_pte _ _ _ _ _ _ _ _ C), (in_pte _ _ _ _ _ _ _ _ _ _ N) by assumption. reflexivity.
  - intros pd' v q b Hpd' Hv Hq Hb. destruct (mapped_data _ _ _ _ pd' v q Hvm Hpd' Hv Hq) as (Hl & HR & Hq').
    rewrite (data_kept _ _ _ [] q (cl_data _ _ _ _ _ _ _ _ C)) by (auto; apply not_elem_of_nil).
    apply (data_kept _ _ _ _ q (in_data _ _ _ _ _ _ _ _ _ _ N)); assumption.
  - destruct (mapped_data _ _ _ _ pd pftemp p Hvm HpdR Hpf Hpgd) as (Hl & _).
    pose proof (ki_vm _ _ _ _ _ (ut_kinv _ _ _ _ _ _ _ _ U4)) as Hvm4. destruct (vm_data _ _ _ _ Hvm pd pftemp p HpdR Hpf Hpgd) as (Hb & _).
    destruct (page_inv_lookup _ _ p (vm_pages _ _ _ _ Hvm4)) as [j4 Ej4].
    { rewrite (cl_npages _ _ _ _ _ _ _ _ C), (in_npages _ _ _ _ _ _ _ _ _ _ N). exact Hb. }
    exists j4. split; [exact Ej4|]. destruct (cl_ref _ _ _ _ _ _ _ _ C p j4 Ej4) as (j3 & Ej3 & R3).
    destruct (in_ref _ _ _ _ _ _ _ _ _ _ N p j3 Hl Ej3) as (j & Ej & R2). rewrite Ej2 in Ej. injection Ej as <-. rewrite Hpgs in R2.
    assert (page_of (phys (kpm k3)) pd pftemp = Some p) as Hpg3.
    { unfold page_of. rewrite (in_pte _ _ _ _ _ _ _ _ _ _ N) by assumption. rewrite decide_False by (intros [_ ?]; congruence). exact Hpgd. }
    rewrite bool_decide_eq_true_2 in R3 by exact Hpg3. rewrite bool_decide_eq_true_2 in R2 by reflexivity.
    rewrite bool_decide_eq_false_2 in R2 by congruence. cbn [Z.b2z] in *. lia.
Qed.
End steps.

(** The handler on a write to a page that is mapped copy-on-write. *)
Lemma pgfault_run (uframe : Trapframe) (s : us) (p : Z) (l R : list Z) (x : Z → Z) (c : CpuInfo)
    (i : Z) (e : Env) (pd pte fault_va err : Z) :
  Z.land (tf_cs uframe) 3 = 3 → ustate (uk s) (p :: l) R x c i e pd → self_mapped (uk s) pd →
  user_tables (phys (kpm (uk s))) pd → user_va fault_va → fault_va / PGSIZE ≠ pftemp →
  pte_of (phys (kpm (uk s))) pd (fault_va / PGSIZE) = Some pte →
  Z.land pte PTE_COW ≠ 0 → Z.land pte PTE_U ≠ 0 → Z.land err FEC_WR ≠ 0 →
  l ≠ [] ∨ pt_of (phys (kpm (uk s))) pd (PDX PFTEMP) ≠ None →
  ∃ k' l' e', pgfault uframe fault_va err s = Ret tt (set_uk k' s) ∧ ustate k' l' R (held p x) c i e' pd ∧
    (∀ pd' v, pd' ∈ R → 0 ≤ v < UVPN → pte_of (phys (kpm k')) pd' v
      = if decide (pd' = pd ∧ v = pftemp) then None
        else if decide (pd' = pd ∧ v = fault_va / PGSIZE) then Some (Z.lor (p * PGSIZE) (PTE_W + PTE_U + PTE_P))
        else pte_of (phys (kpm (uk s))) pd' v) ∧
    (∀ o, 0 ≤ o < PGSIZE → ld8 (phys (kpm k')) (p * PGSIZE + o) = ld8 (phys (kpm (uk s))) (frame_of pte * PGSIZE + o)) ∧
    (∀ pd' v q b, pd' ∈ R → 0 ≤ v < UVPN → (pd', v) ≠ (pd, pftemp) → page_of (phys (kpm (uk s))) pd' v = Some q →
      b / PGSIZE = q → ld8 (phys (kpm k')) b = ld8 (phys (kpm (uk s))) b) ∧
    (∃ j, pages (kpm k') !! p = Some j ∧ pp_ref j = 2) ∧ quiet R i (uk s) e k' e' ∧ (length l ≤ S (length l'))%nat.
Proof.
  intros Hcs Us Hself Htab Hva Hne Hpte Hcow HU Herr Hroom. set (pn := fault_va / PGSIZE) in *.
  pose proof (ki_vm _ _ _ _ _ (ut_kinv _ _ _ _ _ _ _ _ Us)) as Hvm. pose proof (ut_in _ _ _ _ _ _ _ _ Us) as HpdR.
  destruct (vm_root_used _ _ _ _ _ Hvm HpdR) as [Hpdb _]. pose proof (vm_npages _ _ _ _ Hvm) as Hnp.
  pose proof (page_inv_free_bound _ _ p (vm_pages _ _ _ _ Hvm) (list_elem_of_here _ _)) as Hpb.
  destruct (user_va_idx fault_va Hva) as (_ & _ & _ & _ & Hpn). fold pn in Hpn. apply ctrue_spec in HU.
  assert (frame_of pte ≠ p) as Hfp.
  { intros F. destruct (vm_free_unused _ _ _ _ p Hvm (list_elem_of_here _ _)) as (_ & _ & N). apply (N pd pn HpdR Hpn). unfold page_of. rewrite Hpte. cbn. congruence. }
  destruct (alloc_copy uframe Hcs s p l R x c i e pd pn pte Us Htab Hpn Hne Hpte HU (proj1 Hself) Hroom) as (k1 & k2 & l2 & e1 & E1 & E2 & U2 & [C1 C2 C3 C4] & Q2 & L2).
  destruct (move_page uframe Hcs s k2 l2 R (held p x) c i e1 pd pn p pte U2 Hpn Hne ltac:(lia)) as (k3 & k4 & l4 & e4 & E3 & E4 & U4 & M1 & M2 & M3 & Q4 & L4).
  { rewrite C1, decide_True by (auto || (split; reflexivity || discriminate)). reflexivity. }
  { rewrite C1, decide_False by (assumption || tauto). exact Hpte. }
  { exact Hfp. }
  { exact C4. }
  exists k4, l4, e4. split; [|split; [exact U4|split; [|split; [|split; [|split; [exact M3|split; [eapply quiet_compose; eassumption|lia]]]]]]].
  - unfold pgfault. rewrite (bind_Ret _ _ _ _ _ (cow_fault s pd fault_va err pte Hself ltac:(lia) Hva Htab Hpte Herr Hcow)).
    rewrite ROUNDDOWN_page by apply user_va_u32, Hva. fold pn. change (Z.lor (Z.lor PTE_W PTE_U) PTE_P) with 7.
    rewrite (bind_Ret _ _ _ _ _ (eq_refl : when (negb true) _ s = Ret tt s)), (bind_Ret _ _ _ _ _ E1).
    rewrite (bind_Ret _ _ _ _ _ (eq_refl : when (0 <? 0) _ _ = Ret tt _)), (bind_Ret _ _ _ _ _ E2), (bind_Ret _ _ _ _ _ E3).
    rewrite (bind_Ret _ _ _ _ _ (eq_refl : when (0 <? 0) _ _ = Ret tt _)), (bind_Ret _ _ _ _ _ E4). reflexivity.
  - intros pd' v Hpd' Hv. rewrite M1, C1 by assumption. unfold own. repeat case_decide; tauto.
  - intros o Ho. rewrite <- (C2 o Ho). apply (M2 pd pftemp p); [exact HpdR|split; reflexivity || discriminate| |].
    + unfold page_of. rewrite C1, decide_True by (auto || (split; reflexivity || discriminate)). cbn. f_equal. apply own_facts. lia.
    + rewrite Z.add_comm, Z.div_add, Z.div_small by (discriminate || lia). reflexivity.
  - intros pd' v q b Hpd' Hv Hne' Hq Hb. rewrite <- (C3 pd' v q b Hpd' Hv Hne' Hq Hb). apply (M2 pd' v q); [exact Hpd'|exact Hv| |exact Hb].
    unfold page_of. rewrite C1, decide_False by (assumption || (intros [-> ->]; apply Hne'; reflexivity)). exact Hq.
Qed.


(** Page 1 is mapped copy-on-write at 0x802000 of environment 0. *)
Definition demo_cow : pm := demo_map 0x804.

Lemma demo_cow_run : ∃ p q l, vm_inv demo_cow (p :: q :: l) [2; 0] none_held ∧ user_tables (phys demo_cow) 0.
Proof.
  destruct (demo_map_run 0x804 ltac:(split; reflexivity || discriminate)) as [l I].
  pose proof (in_len _ _ _ _ _ _ _ _ _ _ I) as Hl. cbn in Hl. destruct l as [|p [|q l]]; cbn in Hl; [lia..|].
  exists p, q, l. split; [apply I|]. intros i Hi Hp.
  destruct (in_pde _ _ _ _ _ _ _ _ _ _ I 0 i demo_in20 Hi) as [E|(_ & _ & _ & t & _ & E)]; unfold demo_cow in *; rewrite E in *; [|apply pde_for_tables].
  rewrite demo_vm5_wd in Hp by exact Hi. discriminate Hp.
Qed.

#[local] Opaque demo_cow.

