(* ===== verification/UserStack.v ===== *)
(** The stores of a program of the user library on its own stack: those that
    complete, and the one that faults on a copy-on-write page, which the
    registered handler makes private before the store is repeated. *)
From S2P Require Import Prelude Mmu Mem Pages PageTable AddrSpace UserMem Console KState Env EnvVm EnvSpec Syscall SyscallSpec Trap TrapSpec UserLib UserCalls UserSpec PgfaultSpec.

(** * Memories that differ in some bytes *)

(** The bytes [lo] to [hi] of page [q]. *)
Definition window (q lo hi b : Z) : Prop := q * PGSIZE + lo ≤ b < q * PGSIZE + hi.

(** Only bytes of [B] have been written. *)
Definition stored (B : Z → Prop) (s s' : pm) : Prop :=
  ∃ m, s' = with_phys m s ∧ ∀ b, ¬ B b → ld8 m b = ld8 (phys s) b.

Lemma stored_refl B s : stored B s s.
Proof. exists (phys s). split; [destruct s; reflexivity|auto]. Qed.

Lemma stored_trans B s1 s2 s3 : stored B s1 s2 → stored B s2 s3 → stored B s1 s3.
Proof.
  intros (m2 & -> & H2) (m3 & -> & H3). exists m3. split; [reflexivity|]. intros b Hb. rewrite H3 by exact Hb. apply H2, Hb.
Qed.

Lemma page_byte q o : 0 ≤ o < PGSIZE → (q * PGSIZE + o) / PGSIZE = q.
Proof. intros Ho. rewrite Z.add_comm, Z.div_add, Z.div_small by (discriminate || exact Ho). lia. Qed.

(** Stores to a page that is neither a directory nor a page table. *)
Section stored.
Context (q : Z) (B : Z → Prop) (HB : ∀ b, B b → b / PGSIZE = q).
Context (s s' : pm) (l R : list Z) (x : Z → Z) (H : stored B s s') (HR : q ∉ R) (Hpt : ¬ is_pt (phys s) R q).

Lemma stored_wd q' j : 0 ≤ j < 1024 → q' ≠ q → wd (phys s') q' j = wd (phys s) q' j.
Proof using HB H.
  destruct H as (m & -> & Hm). intros Hj Hq. apply ld32_ext. intros i Hi. apply Hm. intros F. apply HB in F.
  rewrite <- F in Hq. apply Hq. replace (q' * PGSIZE + 4 * j + i) with (q' * PGSIZE + (4 * j + i)) by lia.
  symmetry. apply page_byte. unfold PGSIZE. lia.
Qed.

Lemma stored_pte pd v : pd ∈ R → 0 ≤ v < UVPN → pte_of (phys s') pd v = pte_of (phys s) pd v.
Proof using HB H HR Hpt. intros Hpd Hv. apply (same_pte_of (phys s) (phys s') R q); try assumption. exact stored_wd. Qed.

Lemma stored_page pd v : pd ∈ R → 0 ≤ v < UVPN → page_of (phys s') pd v = page_of (phys s) pd v.
Proof using HB H HR Hpt. intros Hpd Hv. unfold page_of. rewrite stored_pte by assumption. reflexivity. Qed.

Lemma stored_dir pd i : pd ∈ R → 0 ≤ i < 1024 → wd (phys s') pd i = wd (phys s) pd i.
Proof using HB H HR. intros Hpd Hi. apply stored_wd; [exact Hi|intros ->; contradiction]. Qed.

Lemma stored_inv : vm_inv s l R x → vm_inv s' l R x.
Proof using HB H HR Hpt.
  intros Hvm. pose proof stored_wd as Hwd. destruct H as (m & -> & Hm). apply (vm_write_data _ _ _ _ q); assumption.
Qed.

Lemma stored_tables pd : pd ∈ R → user_tables (phys s) pd → user_tables (phys s') pd.
Proof using HB H HR. intros Hpd Ht i Hi. rewrite stored_dir by (assumption || (unfold UPDX in Hi; lia)). apply Ht, Hi. Qed.
End stored.

(** A stored page in the program's state. *)
Lemma stored_quiet q B k s' l R x c i e pd : (∀ b, B b → b / PGSIZE = q) → stored B (kpm k) s' → q ∉ R → ¬ is_pt (phys (kpm k)) R q →
  ustate k l R x c i e pd → ustate (set_kpm s' k) l R x c i e pd ∧ quiet R i k e (set_kpm s' k) e.
Proof.
  intros HB H HR Hpt Us. pose proof (stored_wd q B HB _ _ H) as Hwd. pose proof (stored_dir q B HB _ _ R H HR) as Hdir.
  destruct H as (m & -> & Hm). split; [apply (ustate_mem k l R x c i e pd q m Us HR Hpt Hwd)|].
  split; try reflexivity; [repeat split| |split; reflexivity]. apply dirs_grow_refl, Hdir.
Qed.

(** * Stores that complete *)

(** The program [i] maps page [q] writable at [v]. *)
Section store.
Context (s0 : us) (k : ks) (l R : list Z) (x : Z → Z) (c : CpuInfo) (i : Z) (e : Env) (pd v q pte lo hi : Z).
Context (Us : ustate k l R x c i e pd) (Hc : cr3 (kpm k) = pd * PGSIZE) (Ht : user_tables (phys (kpm k)) pd).
Context (Hv : 0 ≤ v < UVPN) (Hpte : pte_of (phys (kpm k)) pd v = Some pte) (Hq : frame_of pte = q).
Context (HU : ctrue (Z.land pte PTE_U) = true) (HW : ctrue (Z.land pte PTE_W) = true) (Hw : 0 ≤ lo ∧ hi ≤ PGSIZE).
Notation B := (window q lo hi).

Lemma window_page b : B b → b / PGSIZE = q.
Proof using Hw. intros Hb. replace b with (q * PGSIZE + (b - q * PGSIZE)) by lia. apply page_byte. unfold window in Hb. lia. Qed.

Lemma page_kept : q ∉ R ∧ ¬ is_pt (phys (kpm k)) R q.
Proof using Us Hv Hpte Hq.
  destruct (vm_data _ _ _ _ (ki_vm _ _ _ _ _ (ut_kinv _ _ _ _ _ _ _ _ Us)) pd v q (ut_in _ _ _ _ _ _ _ _ Us) Hv) as (_ & H1 & H2); [|auto].
  unfold page_of. rewrite Hpte. cbn. congruence.
Qed.

Lemma ust8_run va w s' : stored B (kpm k) s' → v * PGSIZE + lo ≤ va < v * PGSIZE + hi →
  translate s' true true va ≠ None ∧
  ∃ s'', ust8 va w (set_uk (set_kpm s' k) s0) = Ret tt (set_uk (set_kpm s'' k) s0) ∧ stored B (kpm k) s''.
Proof using Us Hc Ht Hv Hpte Hq HU HW Hw.
  intros H Hva. destruct page_kept as [HR Hpt]. pose proof (ut_in _ _ _ _ _ _ _ _ Us) as HpdR.
  assert (translate s' true true va = Some (q * PGSIZE + (va - v * PGSIZE))) as Et.
  { replace va with (v * PGSIZE + (va - v * PGSIZE)) at 1 by lia. rewrite <- Hq. apply (user_translate s' pd v pte true); auto; [|lia| |].
    - destruct H as (m & -> & _). exact Hc.
    - eapply (stored_tables q); eauto using window_page.
    - rewrite (stored_pte q B window_page (kpm k) s' R) by assumption. exact Hpte. }
  split; [congruence|]. unfold ust8. cbn [uk set_uk]. ksimpl. rewrite Et. eexists. split; [reflexivity|].
  destruct H as (m & -> & Hm). eexists. split; [reflexivity|]. intros b Hb. psimpl. rewrite ld8_st8_ne; [apply Hm, Hb|].
  intros F. apply Hb. unfold window. lia.
Qed.

Lemma ust32_run va w s' : stored B (kpm k) s' → v * PGSIZE + lo ≤ va → va + 4 ≤ v * PGSIZE + hi →
  ∃ s'', ust32 va w (set_uk (set_kpm s' k) s0) = Ret tt (set_uk (set_kpm s'' k) s0) ∧ stored B (kpm k) s''.
Proof using Us Hc Ht Hv Hpte Hq HU HW Hw.
  intros H0 Hlo Hhi. unfold ust32.
  destruct (ust8_run va w s' H0 ltac:(lia)) as (_ & s1 & E1 & H1). rewrite (bind_Ret _ _ _ _ _ E1).
  destruct (ust8_run (va + 1) (w / 2 ^ 8) s1 H1 ltac:(lia)) as (_ & s2 & E2 & H2). rewrite (bind_Ret _ _ _ _ _ E2).
  destruct (ust8_run (va + 2) (w / 2 ^ 16) s2 H2 ltac:(lia)) as (_ & s3 & E3 & H3). rewrite (bind_Ret _ _ _ _ _ E3).
  destruct (ust8_run (va + 3) (w / 2 ^ 24) s3 H3 ltac:(lia)) as (_ & s4 & E4 & H4). eauto.
Qed.

Lemma ustores_run uframe entry fn w : ∀ s', stored B (kpm k) s' → (∀ va b, (va, b) ∈ w → v * PGSIZE + lo ≤ va < v * PGSIZE + hi) →
  ∃ s'', ustores uframe entry fn w (set_uk (set_kpm s' k) s0) = Ret tt (set_uk (set_kpm s'' k) s0) ∧ stored B (kpm k) s''.
Proof using Us Hc Ht Hv Hpte Hq HU HW Hw.
  induction w as [|[va b] w IH]; intros s' H Hl; cbn [ustores]; [eauto|].
  destruct (ust8_run va b s' H (Hl _ _ (list_elem_of_here _ _))) as (Htr & s1 & E1 & H1).
  erewrite bind_Ret. 2:{ unfold ustore. cbn [uk set_uk]. ksimpl. destruct (translate s' true true va); [exact E1|contradiction]. }
  apply IH; [exact H1|]. intros va' b' Hin. apply (Hl va' b'), list_elem_of_further, Hin.
Qed.

(** The value of a word of the page. *)
Lemma uld32_run o : 0 ≤ o < PGSIZE → uld32 (v * PGSIZE + o) (set_uk k s0) = Ret (ld32 (phys (kpm k)) (q * PGSIZE + o)) (set_uk k s0).
Proof using Hc Ht Hv Hpte Hq HU.
  intros Ho. unfold uld32. cbn [uk set_uk]. rewrite (user_translate (kpm k) pd v pte false o) by (assumption || discriminate).
  rewrite Hq. reflexivity.
Qed.
End store.

(** * The fault of a store *)

Lemma land6 pte : Z.land pte 6 = 6 → ctrue (Z.land pte PTE_U) = true ∧ ctrue (Z.land pte PTE_W) = true.
Proof.
  intros H. split; apply ctrue_spec; intros F; apply (f_equal (λ z, Z.land z PTE_U)) in H as HU; apply (f_equal (λ z, Z.land z PTE_W)) in H as HW;
    rewrite <- Z.land_assoc in HU, HW; change (Z.land 6 PTE_U) with PTE_U in HU; change (Z.land 6 PTE_W) with PTE_W in HW; rewrite F in *; discriminate.
Qed.

Lemma own6 p : Z.land (own p) 6 = 6.
Proof. unfold own. rewrite land_page by (split; reflexivity || discriminate). reflexivity. Qed.

Lemma user_writable s pd v pte : user_tables (phys s) pd → 0 ≤ v < UVPN → pte_of (phys s) pd v = Some pte → Z.land pte 6 = 6 →
  writable s pd v (frame_of pte) ∧ user_ok (phys s) pd (Z.lor PTE_W PTE_U) v = true.
Proof.
  intros Ht Hv Hpte H6. destruct (vpn_idx v Hv) as [Hi _]. split.
  - exists pte. split; [exact Hpte|]. split; [reflexivity|]. rewrite land_tables; [apply land6, H6| |reflexivity].
    apply Ht; [exact Hi|]. unfold pte_of, pt_of in Hpte. destruct (is_present (wd (phys s) pd (v / 1024))); [reflexivity|discriminate].
  - unfold user_ok. rewrite Hpte. change (Z.lor PTE_W PTE_U) with 6. rewrite H6, Z.eqb_refl, andb_true_r. apply Z.ltb_lt.
    pose proof UVPN_eq as E. change (UTOP / PGSIZE) with 977920 in E. change ULIM with 4018143232. unfold PGSIZE. lia.
Qed.

(** The page of the exception stack. *)
Record exception_stack (m : mem) (R : list Z) (pd xq : Z) : Prop := {
  xs_pte : ∃ pte, pte_of m pd xstack = Some pte ∧ frame_of pte = xq ∧ Z.land pte 6 = 6;
  xs_private : ∀ pd' v, pd' ∈ R → 0 ≤ v < UVPN → page_of m pd' v = Some xq → pd' = pd ∧ v = xstack
}.

(** The offset of the frame of an exception in the page. *)
Definition utf_off : Z := PGSIZE - sizeof_UTrapframe.

Lemma resume_fault va tf k l R x c i e pd xq : ustate k l R x c i e pd → cr3 (kpm k) = pd * PGSIZE → user_tables (phys (kpm k)) pd →
  walkable (kpm k) pd → exception_stack (phys (kpm k)) R pd xq → Z.land (tf_cs tf) 3 = 3 → tf_trapno tf = T_PGFLT →
  env_upcalls e env_pgfault_upcall ≠ 0 → u32_range (tf_esp tf) → tf_esp tf < UXSTACKTOP - PGSIZE →
  (∀ w, w ∈ utf_words va tf → u32_range w) →
  ∃ k' e', resume va tf k = Ret (set_tf_esp (xstack * PGSIZE + utf_off) (set_tf_eip (env_upcalls e env_pgfault_upcall) tf)) k' ∧
    ustate k' l R x c i e' pd ∧ quiet R i k e k' e' ∧ pages (kpm k') = pages (kpm k) ∧
    stored (window xq utf_off PGSIZE) (kpm k) (kpm k') ∧
    (∀ n w, utf_words va tf !! n = Some w → ld32 (phys (kpm k')) (xq * PGSIZE + utf_off + 4 * Z.of_nat n) = w).
Proof.
  intros Us Hc Ht W [(xpte & Hx & Hxq & H6) _] Hcs Hno Hup Hesp Hlow Hr. pose proof Us as [U K Hrun Hpg HpdR].
  assert (0 ≤ xstack < UVPN) as Hxs by (split; reflexivity || discriminate).
  destruct (user_writable _ _ _ _ Ht Hxs Hx H6) as [Hw Hok]. rewrite Hxq in Hw.
  assert (utf_addr tf = xstack * PGSIZE + utf_off) as Eu.
  { unfold utf_addr. rewrite Z.geb_leb. destruct (Z.leb_spec (UXSTACKTOP - PGSIZE) (tf_esp tf)); [lia|]. reflexivity. }
  destruct (trap_handler va 0 0 tf k c i e env_pgfault_upcall U) as (msg & before & Hb & E); [split; auto; rewrite Hrun; discriminate|].
  set (k1 := entered k c i e tf) in *.
  destruct (handler_delivers va msg env_pgfault_upcall before k1 c i (set_env_tf tf e) l R x pd xq) as (lg & E1 & A);
    cbv zeta; cbn [env_tf set_env_tf]; rewrite ?Eu; try (assumption || reflexivity || apply lookup_insert_eq).
  { apply (um_env _ _ _ _ _ U). }
  { apply (ki_vm _ _ _ _ _ K). }
  all: try match goal with |- Z.land _ _ ≠ _ => rewrite Hcs; discriminate end.
  cbn [env_tf set_env_tf] in E1, A. rewrite Eu in E1, A. change ((xstack * PGSIZE + utf_off) mod PGSIZE) with utf_off in E1, A.
  change (kpm k1) with (kpm k) in E1, A. set (m := st_words _ _ _) in *.
  set (e' := set_env_cpunum _ _) in E1. eexists _, e'. split.
  { unfold resume. rewrite E, (bind_Stop _ _ _ _ _ E1), (um_cpu _ _ _ _ _ U). cbn [mbind option_bind].
    rewrite (um_env _ _ _ _ _ U), bool_decide_eq_true_2 by reflexivity. ksimpl. rewrite lookup_insert_eq. reflexivity. }
  split; [|split; [|split; [reflexivity|split]]].
  - split; try assumption; [|].
    + split; ksimpl; try apply U; try reflexivity; [apply lookup_insert_eq|apply lookup_insert_eq].
    + apply (kinv_pm (set_envs (<[i := e']> (envs k1)) (set_klock None (set_klog lg k1))) l R x).
      * destruct (ustate_entered k l R x c i e pd tf Us) as (K1 & Hi1 & _). fold k1 in K1, Hi1.
        apply (kinv_ext k1); [exact K1|reflexivity| |exists c; split; [apply lookup_insert_eq|apply (um_env _ _ _ _ _ U)]].
        apply (same_space_insert _ i (set_env_tf tf e)); [exact Hi1|split; reflexivity].
      * eapply agree_inv; eauto. apply (ki_vm _ _ _ _ _ K).
  - split; [repeat split| |reflexivity| |split; reflexivity|reflexivity].
    + intros j Hj. cbn. rewrite lookup_insert_ne by congruence. apply (entered_other k c i e tf j Hj).
    + apply dirs_grow_refl. intros pd' i' Hpd' Hi'. apply A; [exact Hi'|]. intros ->.
      destruct (vm_data _ _ _ _ (ki_vm _ _ _ _ _ K) pd xstack xq HpdR Hxs) as (_ & F & _); [unfold page_of; rewrite Hx; cbn; congruence|contradiction].
  - exists m. split; [reflexivity|]. intros b Hb'. apply ld8_st_words. unfold window in Hb'.
    change (4 * Z.of_nat (length (utf_words va tf))) with 52. unfold utf_off, sizeof_UTrapframe in *. lia.
  - intros n w Hn. apply ld32_st_words; assumption.
Qed.

(** What is known of the stores of the program on its stack, which is page [v]:
    they go to the bytes [lo] to [hi] of it, where its stack pointer is too; and
    its registers are 32-bit words. *)
Record stack_use (uframe : Trapframe) (spill : us → list (Z * Z)) (v lo hi : Z) : Prop := {
  su_window : 0 ≤ lo ∧ hi ≤ PGSIZE;
  su_spill : ∀ s va b, (va, b) ∈ spill s → v * PGSIZE + lo ≤ va < v * PGSIZE + hi;
  su_push : ∀ s, spill s ≠ [];
  su_esp : v * PGSIZE + lo + 4 ≤ tf_esp uframe ≤ v * PGSIZE + hi;
  su_words : ∀ w, w ∈ utf_regs_words (tf_regs uframe) ++ [tf_eip uframe; tf_eflags uframe; tf_esp uframe] → u32_range w
}.

Section fault.
Context (uframe : Trapframe) (entry : upcall → Z) (spill : us → list (Z * Z)) (fn : Z) (v lo hi : Z).
Context (Hcs : Z.land (tf_cs uframe) 3 = 3) (SU : stack_use uframe spill v lo hi) (Hv : 0 ≤ v < xstack - 1) (Hvp : v ≠ pftemp).
Context (s0 : us) (Hh : _handler s0 env_pgfault_upcall = fn) (Hen : entry env_pgfault_upcall ≠ 0).

(** The program in state [k], with its page [v] copy-on-write and its handler
    registered. *)
Record cow_stack (k : ks) (l R : list Z) (x : Z → Z) (c : CpuInfo) (i : Z) (e : Env) (pd pte xq : Z) : Prop := {
  cs_state : ustate k l R x c i e pd;
  cs_self : self_mapped k pd;
  cs_tables : user_tables (phys (kpm k)) pd;
  cs_walk : walkable (kpm k) pd;
  cs_xstack : exception_stack (phys (kpm k)) R pd xq;
  cs_upcall : env_upcalls e env_pgfault_upcall = entry env_pgfault_upcall;
  cs_pte : pte_of (phys (kpm k)) pd v = Some pte;
  cs_cow : Z.land pte PTE_COW ≠ 0 ∧ Z.land pte PTE_U ≠ 0
}.

(** Afterwards the program maps page [p] there, with the bytes of the page
    that was shared. *)
Record private_stack (k : ks) (R : list Z) (pd f p : Z) (k' : ks) : Prop := {
  ps_pte : ∀ pd' v', pd' ∈ R → 0 ≤ v' < UVPN → pte_of (phys (kpm k')) pd' v'
    = if decide (pd' = pd ∧ v' = pftemp) then None else if decide (pd' = pd ∧ v' = v) then Some (own p)
      else pte_of (phys (kpm k)) pd' v';
  ps_page : ∀ o, 0 ≤ o < PGSIZE → ¬ (lo ≤ o < hi) → ld8 (phys (kpm k')) (p * PGSIZE + o) = ld8 (phys (kpm k)) (f * PGSIZE + o);
  ps_data : ∀ pd' v' q b, pd' ∈ R → 0 ≤ v' < UVPN → (pd', v') ≠ (pd, pftemp) → (pd', v') ≠ (pd, xstack) →
    page_of (phys (kpm k)) pd' v' = Some q → b / PGSIZE = q → ld8 (phys (kpm k')) b = ld8 (phys (kpm k)) b;
  ps_fresh : ∀ pd' v', pd' ∈ R → 0 ≤ v' < UVPN → page_of (phys (kpm k)) pd' v' ≠ Some p
}.

Lemma esp_facts : u32_range (tf_esp uframe) ∧ w32 (tf_esp uframe - 4) = tf_esp uframe - 4 ∧ tf_esp uframe < UXSTACKTOP - PGSIZE.
Proof using SU Hv.
  destruct (su_window _ _ _ _ _ SU), (su_esp _ _ _ _ _ SU). change UXSTACKTOP with (xstack * PGSIZE + PGSIZE).
  assert (xstack = 977919) as Ex by reflexivity. rewrite Ex in *. unfold u32_range, PGSIZE in *.
  split; [lia|]. split; [apply w32_id; unfold u32_range; lia|lia].
Qed.

Lemma frame_words va err : u32_range va → u32_range err → ∀ w, w ∈ utf_words va (fault_frame uframe err) → u32_range w.
Proof using SU.
  intros Hva Herr w Hw. unfold utf_words in Hw. apply elem_of_app in Hw as [Hw|Hw]; [|apply (su_words _ _ _ _ _ SU), Hw].
  apply elem_of_cons in Hw as [->|Hw]; [exact Hva|]. apply list_elem_of_singleton in Hw as ->. exact Herr.
Qed.

(** The way into the handler, which finds the frame on its stack. *)
Lemma fault_enter k l R x c i e pd pte xq va : cow_stack k l R x c i e pd pte xq → v * PGSIZE + lo ≤ va < v * PGSIZE + hi →
  ∃ k1 e1 err, write_fault uframe entry fn va (set_uk k s0) = pgfault_upcall uframe fn (xstack * PGSIZE + utf_off) (set_uk k1 s0) ∧
    cow_stack k1 l R x c i e1 pd pte xq ∧ quiet R i k e k1 e1 ∧ pages (kpm k1) = pages (kpm k) ∧
    stored (window xq utf_off PGSIZE) (kpm k) (kpm k1) ∧ Z.land err FEC_WR ≠ 0 ∧
    (∀ n w, utf_words va (fault_frame uframe err) !! n = Some w → ld32 (phys (kpm k1)) (xq * PGSIZE + utf_off + 4 * Z.of_nat n) = w).
Proof using Hcs SU Hv Hen.
  intros [Us Hself Ht W X Hup Hpte Hcow] Hva. destruct esp_facts as (He1 & He2 & He3). destruct (su_window _ _ _ _ _ SU).
  assert (u32_range va) as Hva32 by (assert (xstack = 977919) as Ex by reflexivity; rewrite Ex in *; unfold u32_range, PGSIZE in *; lia).
  unfold write_fault. rewrite bind_gets.
  set (err := Z.lor (if bool_decide _ then FEC_PR else 0) _).
  assert (u32_range err ∧ Z.land err FEC_WR ≠ 0) as [Herr32 Herr] by (unfold err; case_bool_decide; repeat split; discriminate).
  destruct (resume_fault va (fault_frame uframe err) k l R x c i e pd xq Us (proj1 Hself) Ht W X Hcs eq_refl ltac:(congruence) He1 He3
    (frame_words va err Hva32 Herr32)) as (k1 & e1 & E & U1 & Q & Hp & S & Hwords).
  rewrite (bind_Ret _ _ _ _ _ (inuk_Ret _ (set_uk k s0) _ _ E)). exists k1, e1, err.
  assert (0 ≤ xstack < UVPN) as Hxs by (split; reflexivity || discriminate). pose proof (ut_in _ _ _ _ _ _ _ _ Us) as HpdR.
  pose proof X as [(xpte & Hx & Hxq & H6) Hpriv]. destruct (page_kept k l R x c i e pd xstack xq xpte Us Hxs Hx Hxq) as [HR Hpt].
  assert (∀ b, window xq utf_off PGSIZE b → b / PGSIZE = xq) as HB by (apply window_page; split; discriminate).
  assert (∀ pd' v', pd' ∈ R → 0 ≤ v' < UVPN → pte_of (phys (kpm k1)) pd' v' = pte_of (phys (kpm k)) pd' v') as Hpte1 by exact (stored_pte xq _ HB _ _ R S HR Hpt).
  split; [|split; [|split; [exact Q|split; [exact Hp|split; [exact S|split; [exact Herr|exact Hwords]]]]]].
  - ksimpl. rewrite Hup, Z.eqb_refl. reflexivity.
  - assert (0 ≤ v < UVPN) as Hv' by (assert (xstack < UVPN) by reflexivity; lia).
    split; [exact U1|eapply quiet_self; eassumption|apply (stored_tables xq _ HB _ _ R S HR pd HpdR Ht)| | | |rewrite Hpte1 by assumption; exact Hpte|exact Hcow].
    + destruct W as [W1 W2]. split; [rewrite (qt_npages _ _ _ _ _ _ Q); exact W1|]. intros i' t Hi'. rewrite (qt_npages _ _ _ _ _ _ Q).
      rewrite (pt_of_ext _ _ _ _ (stored_dir xq _ HB _ _ R S HR pd i' HpdR Hi')). apply W2, Hi'.
    + split; [exists xpte; rewrite Hpte1 by assumption; auto|]. intros pd' v' Hpd' Hv2. rewrite (stored_page xq _ HB _ _ R S HR Hpt) by assumption.
      apply Hpriv; assumption.
    + destruct (qt_env _ _ _ _ _ _ Q) as (_ & _ & -> & _). exact Hup.
Qed.
(** The way back to the instruction that faulted, once the program maps page
    [p] of its own at [v]. *)
Lemma upcall_return k l R x c i e pd xpte xq p : ustate k l R x c i e pd → cr3 (kpm k) = pd * PGSIZE → user_tables (phys (kpm k)) pd →
  pte_of (phys (kpm k)) pd xstack = Some xpte → frame_of xpte = xq → Z.land xpte 6 = 6 →
  pte_of (phys (kpm k)) pd v = Some (own p) → 0 ≤ p < 65536 → xq ≠ p →
  ld32 (phys (kpm k)) (xq * PGSIZE + (utf_off + 48)) = tf_esp uframe → ld32 (phys (kpm k)) (xq * PGSIZE + (utf_off + 40)) = tf_eip uframe →
  let utf := xstack * PGSIZE + utf_off in
  ∃ s', (esp ← uld32 (utf + 0x30);
      ust32 (utf + 0x30) (w32 (esp - 4)) ;;
      eip ← uld32 (utf + 0x28);
      ust32 (w32 (esp - 4)) eip ;;
      when (negb ((eip =? tf_eip uframe) && (esp =? tf_esp uframe))) (undef "resumed elsewhere")) (set_uk k s0) = Ret tt (set_uk (set_kpm s' k) s0) ∧
    ustate (set_kpm s' k) l R x c i e pd ∧ quiet R i k e (set_kpm s' k) e ∧
    (∀ pd' v', pd' ∈ R → 0 ≤ v' < UVPN → pte_of (phys s') pd' v' = pte_of (phys (kpm k)) pd' v') ∧
    (∀ b, b / PGSIZE ≠ xq → ¬ window p lo hi b → ld8 (phys s') b = ld8 (phys (kpm k)) b).
Proof using SU Hv.
  intros Us Hc Ht Hx Hxq H6 Hpte Hpb Hxqp Hesp Heip utf. destruct esp_facts as (He1 & He2 & He3). destruct (su_window _ _ _ _ _ SU) as [Hlo Hhi].
  assert (0 ≤ v < UVPN ∧ 0 ≤ xstack < UVPN) as (Hv' & Hxs) by (assert (xstack < UVPN) by reflexivity; split; [lia|split; reflexivity || discriminate]).
  destruct (land6 xpte H6) as [HxU HxW]. destruct (own_facts p Hpb) as (Of & OU & OW). unfold utf.
  rewrite <- !Z.add_assoc, (bind_Ret _ _ _ _ _ (uld32_run s0 k pd xstack xq xpte Hc Ht Hxs Hx Hxq HxU (utf_off + 0x30) ltac:(split; reflexivity || discriminate))), Hesp.
  destruct (ust32_run s0 k l R x c i e pd xstack xq xpte (utf_off + 0x30) PGSIZE Us Hc Ht Hxs Hx Hxq HxU HxW ltac:(split; discriminate)
    (xstack * PGSIZE + (utf_off + 0x30)) (w32 (tf_esp uframe - 4)) (kpm k) (stored_refl _ _) ltac:(lia) ltac:(unfold utf_off, sizeof_UTrapframe; lia))
    as (s3 & E3 & S3). rewrite set_kpm_same in E3. rewrite (bind_Ret _ _ _ _ _ E3). clear E3.
  destruct (page_kept k l R x c i e pd xstack xq xpte Us Hxs Hx Hxq) as [HR Hpt].
  assert (∀ b, window xq (utf_off + 0x30) PGSIZE b → b / PGSIZE = xq) as HB by (apply window_page; split; discriminate).
  destruct (stored_quiet xq _ k s3 l R x c i e pd HB S3 HR Hpt Us) as [U3 Q3]. set (k3 := set_kpm s3 k) in *.
  assert (∀ pd' v', pd' ∈ R → 0 ≤ v' < UVPN → pte_of (phys s3) pd' v' = pte_of (phys (kpm k)) pd' v') as Hpte3 by exact (stored_pte xq _ HB _ _ R S3 HR Hpt).
  pose proof (ut_in _ _ _ _ _ _ _ _ Us) as HpdR. destruct (qt_kern _ _ _ _ _ _ Q3) as [_ Hc3]. rewrite Hc in Hc3.
  pose proof (stored_tables xq _ HB _ _ R S3 HR pd HpdR Ht) as Ht3.
  assert (∀ b, ¬ window xq (utf_off + 0x30) PGSIZE b → ld8 (phys s3) b = ld8 (phys (kpm k)) b) as Hd3 by (destruct S3 as (m & -> & Hm); exact Hm).
  assert (pte_of (phys (kpm k3)) pd xstack = Some xpte) as Hx3 by (cbn; rewrite Hpte3 by assumption; exact Hx).
  rewrite (bind_Ret _ _ _ _ _ (uld32_run s0 k3 pd xstack xq xpte Hc3 Ht3 Hxs Hx3 Hxq HxU (utf_off + 0x28) ltac:(split; reflexivity || discriminate))).
  assert (ld32 (phys (kpm k3)) (xq * PGSIZE + (utf_off + 40)) = tf_eip uframe) as ->.
  { rewrite <- Heip. apply ld32_ext. intros b Hb. apply Hd3. unfold window. lia. }
  assert (pte_of (phys (kpm k3)) pd v = Some (own p)) as Hp3 by (cbn; rewrite Hpte3 by assumption; exact Hpte). rewrite He2.
  destruct (ust32_run s0 k3 l R x c i e pd v p (own p) lo hi U3 Hc3 Ht3 Hv' Hp3 Of OU OW ltac:(auto) (tf_esp uframe - 4) (tf_eip uframe)
    (kpm k3) (stored_refl _ _)) as (s4 & E4 & S4); [destruct (su_esp _ _ _ _ _ SU); lia..|]. rewrite set_kpm_same in E4. rewrite (bind_Ret _ _ _ _ _ E4).
  destruct (page_kept k3 l R x c i e pd v p (own p) U3 Hv' Hp3 Of) as [HR4 Hpt4].
  assert (∀ b, window p lo hi b → b / PGSIZE = p) as HB4 by (apply window_page; auto).
  destruct (stored_quiet p _ k3 s4 l R x c i e pd HB4 S4 HR4 Hpt4 U3) as [U4 Q4]. rewrite !Z.eqb_refl. exists s4.
  split; [reflexivity|]. split; [exact U4|]. split; [eapply quiet_compose; eassumption|]. split.
  - intros pd' v' Hpd' Hv2. rewrite (stored_pte p _ HB4 _ _ R S4 HR4 Hpt4) by assumption. apply Hpte3; assumption.
  - intros b Hb Hw. destruct S4 as (m & -> & Hm). psimpl. rewrite Hm by exact Hw. apply Hd3. intros F. apply Hb, HB, F.
Qed.

(** The handler, and the way back to the instruction that faulted. *)
Lemma upcall_run k p l R x c i e pd pte xq va err : cow_stack k (p :: l) R x c i e pd pte xq → v * PGSIZE + lo ≤ va < v * PGSIZE + hi →
  Z.land err FEC_WR ≠ 0 →
  (∀ n w, utf_words va (fault_frame uframe err) !! n = Some w → ld32 (phys (kpm k)) (xq * PGSIZE + utf_off + 4 * Z.of_nat n) = w) →
  l ≠ [] ∨ pt_of (phys (kpm k)) pd (PDX PFTEMP) ≠ None →
  ∃ k' l' e', pgfault_upcall uframe fn (xstack * PGSIZE + utf_off) (set_uk k s0) = Ret tt (set_uk k' s0) ∧
    ustate k' l' R (held p x) c i e' pd ∧ quiet R i k e k' e' ∧ private_stack k R pd (frame_of pte) p k' ∧ (length l ≤ S (length l'))%nat.
Proof using Hcs SU Hv Hvp Hh.
  intros [Us Hself Ht W X Hup Hpte [Hcow HUp]] Hva Herr Hwords Hroom. destruct (su_window _ _ _ _ _ SU) as [Hlo Hhi].
  assert (0 ≤ v < UVPN ∧ 0 ≤ xstack < UVPN ∧ 0 ≤ pftemp < UVPN ∧ xstack ≠ pftemp) as (Hv' & Hxs & Hpf & Hxp)
    by (assert (xstack < UVPN) by reflexivity; split; [lia|split; [split; reflexivity || discriminate|split; [split; reflexivity || discriminate|discriminate]]]).
  destruct (page_vpn v (va - v * PGSIZE) Hv' ltac:(lia)) as (Hua & Ediv & _). replace (v * PGSIZE + (va - v * PGSIZE)) with va in Hua, Ediv by lia.
  pose proof (ut_in _ _ _ _ _ _ _ _ Us) as HpdR. pose proof (ki_vm _ _ _ _ _ (ut_kinv _ _ _ _ _ _ _ _ Us)) as Hvm.
  pose proof X as [(xpte & Hx & Hxq & H6) Hpriv]. destruct (land6 xpte H6) as [HxU HxW].
  destruct (vm_free_unused _ _ _ _ p Hvm (list_elem_of_here _ _)) as (_ & _ & Hpun).
  assert (0 ≤ p < 65536) as Hpb by (pose proof (page_inv_free_bound _ _ p (vm_pages _ _ _ _ Hvm) (list_elem_of_here _ _)); pose proof (vm_npages _ _ _ _ Hvm); lia).
  assert (page_of (phys (kpm k)) pd xstack = Some xq) as Hxpg by (unfold page_of; rewrite Hx; cbn; congruence).
  assert (xq ≠ p) as Hxqp by (intros ->; exact (Hpun pd xstack HpdR Hxs Hxpg)).
  assert (∀ o, 0 ≤ o < PGSIZE → uld32 (xstack * PGSIZE + o) (set_uk k s0) = Ret (ld32 (phys (kpm k)) (xq * PGSIZE + o)) (set_uk k s0)) as Hld
    by exact (λ o Ho, uld32_run s0 k pd xstack xq xpte (proj1 Hself) Ht Hxs Hx Hxq HxU o Ho).
  unfold pgfault_upcall. rewrite bind_gets. cbn [_handler set_uk]. rewrite Hh, Z.eqb_refl. cbn [negb when]. rewrite bind_mret.
  rewrite (bind_Ret _ _ _ _ _ (Hld utf_off ltac:(split; reflexivity || discriminate))).
  replace (xstack * PGSIZE + utf_off + 4) with (xstack * PGSIZE + (utf_off + 4)) by lia.
  rewrite (bind_Ret _ _ _ _ _ (Hld (utf_off + 4) ltac:(split; reflexivity || discriminate))).
  replace (ld32 (phys (kpm k)) (xq * PGSIZE + utf_off)) with va by (symmetry; rewrite <- (Z.add_0_r (_ + utf_off)); exact (Hwords 0%nat va eq_refl)).
  replace (ld32 (phys (kpm k)) (xq * PGSIZE + (utf_off + 4))) with err by (symmetry; rewrite Z.add_assoc; exact (Hwords 1%nat err eq_refl)).
  destruct (pgfault_run uframe (set_uk k s0) p l R x c i e pd pte va err Hcs Us Hself Ht Hua ltac:(congruence) ltac:(rewrite Ediv; exact Hpte) Hcow HUp Herr Hroom)
    as (k2 & l2 & e2 & E2 & U2 & Hpte2 & Hbytes2 & Hdata2 & _ & Q2 & Hl2). rewrite (bind_Ret _ _ _ _ _ E2), Ediv in *. cbn [uk set_uk] in *. clear E2.
  (* the frame is still there *)
  assert (pte_of (phys (kpm k2)) pd xstack = Some xpte) as Hx2 by (rewrite Hpte2, !decide_False by (assumption || lia || tauto); exact Hx).
  assert (∀ o, 0 ≤ o < PGSIZE → ld8 (phys (kpm k2)) (xq * PGSIZE + o) = ld8 (phys (kpm k)) (xq * PGSIZE + o)) as Hxb.
  { intros o Ho. apply (Hdata2 pd xstack xq); try assumption; [congruence|]. apply page_byte, Ho. }
  assert (cr3 (kpm k2) = pd * PGSIZE ∧ user_tables (phys (kpm k2)) pd) as [Hc2 Ht2].
  { split; [rewrite (proj2 (qt_kern _ _ _ _ _ _ Q2)); apply Hself|apply (dirs_grow_user _ _ R pd (qt_dirs _ _ _ _ _ _ Q2)); assumption]. }
  destruct (upcall_return k2 l2 R (held p x) c i e2 pd xpte xq p U2 Hc2 Ht2 Hx2 Hxq H6) as (s4 & E4 & U4 & Q4 & Hpte4 & Hd4).
  - rewrite Hpte2, decide_False, decide_True by (assumption || tauto). reflexivity.
  - exact Hpb.
  - exact Hxqp.
  - rewrite <- (Hwords 12%nat (tf_esp uframe) eq_refl). change (4 * Z.of_nat 12) with 48. rewrite <- Z.add_assoc. apply ld32_ext. intros b Hb.
    rewrite <- Z.add_assoc. apply Hxb. unfold utf_off, sizeof_UTrapframe, PGSIZE. lia.
  - rewrite <- (Hwords 10%nat (tf_eip uframe) eq_refl). change (4 * Z.of_nat 10) with 40. rewrite <- Z.add_assoc. apply ld32_ext. intros b Hb.
    rewrite <- Z.add_assoc. apply Hxb. unfold utf_off, sizeof_UTrapframe, PGSIZE. lia.
  - exists (set_kpm s4 k2), l2, e2. split; [exact E4|]. split; [exact U4|]. split; [eapply quiet_compose; eassumption|]. split; [|exact Hl2].
    split; [| | |exact Hpun].
    + intros pd' v' Hpd' Hv2. cbn. rewrite Hpte4, Hpte2 by assumption. reflexivity.
    + intros o Ho Hw. cbn. rewrite Hd4; [apply Hbytes2, Ho|rewrite page_byte by exact Ho; auto|unfold window; lia].
    + intros pd' v' q b Hpd' Hv2 N1 N2 Hq Hb. cbn. rewrite Hd4; [apply (Hdata2 pd' v' q b); assumption| |].
      * rewrite Hb. intros ->. apply N2. destruct (Hpriv pd' v' Hpd' Hv2 Hq) as [-> ->]. reflexivity.
      * intros F. apply (window_page p lo hi ltac:(auto)) in F. apply (Hpun pd' v' Hpd' Hv2). congruence.
Qed.

(** The fault of a store to the copy-on-write page [v]. *)
Lemma write_fault_run k p l R x c i e pd pte xq va : cow_stack k (p :: l) R x c i e pd pte xq → v * PGSIZE + lo ≤ va < v * PGSIZE + hi →
  l ≠ [] ∨ pt_of (phys (kpm k)) pd (PDX PFTEMP) ≠ None →
  ∃ k' l' e', write_fault uframe entry fn va (set_uk k s0) = Ret tt (set_uk k' s0) ∧
    ustate k' l' R (held p x) c i e' pd ∧ quiet R i k e k' e' ∧ private_stack k R pd (frame_of pte) p k' ∧ (length l ≤ S (length l'))%nat.
Proof using Hcs SU Hv Hvp Hh Hen.
  intros CS Hva Hroom. destruct (fault_enter k (p :: l) R x c i e pd pte xq va CS Hva) as (k1 & e1 & err & E1 & CS1 & Q1 & _ & S1 & Herr & Hwords).
  pose proof (ut_in _ _ _ _ _ _ _ _ (cs_state _ _ _ _ _ _ _ _ _ _ CS)) as HpdR. assert (0 ≤ xstack < UVPN) as Hxs by (split; reflexivity || discriminate).
  pose proof (cs_xstack _ _ _ _ _ _ _ _ _ _ CS) as [(xpte & Hx & Hxq & H6) Hpriv].
  destruct (page_kept k (p :: l) R x c i e pd xstack xq xpte (cs_state _ _ _ _ _ _ _ _ _ _ CS) Hxs Hx Hxq) as [HR Hpt].
  assert (∀ b, window xq utf_off PGSIZE b → b / PGSIZE = xq) as HB by (apply window_page; split; discriminate).
  destruct (upcall_run k1 p l R x c i e1 pd pte xq va err CS1 Hva Herr Hwords) as (k' & l' & e' & E & U & Q & PS & Hl).
  { destruct Hroom as [?|N]; [auto|right]. apply (dirs_grow_tables _ _ R pd _ (qt_dirs _ _ _ _ _ _ Q1) HpdR); [split; reflexivity || discriminate|exact N]. }
  exists k', l', e'. rewrite E1. split; [exact E|]. split; [exact U|]. split; [eapply quiet_compose; eassumption|]. split; [|exact Hl].
  assert (∀ pd' v', pd' ∈ R → 0 ≤ v' < UVPN → pte_of (phys (kpm k1)) pd' v' = pte_of (phys (kpm k)) pd' v') as Hpte1 by exact (stored_pte xq _ HB _ _ R S1 HR Hpt).
  assert (∀ b, b / PGSIZE ≠ xq → ld8 (phys (kpm k1)) b = ld8 (phys (kpm k)) b) as Hd1.
  { destruct S1 as (m & -> & Hm). intros b Hb. apply Hm. intros F. apply Hb, HB, F. }
  assert (∀ pd' v' q, pd' ∈ R → 0 ≤ v' < UVPN → page_of (phys (kpm k)) pd' v' = Some q → page_of (phys (kpm k1)) pd' v' = Some q) as Hpg1
    by (intros pd' v' q Hpd' Hv2 Hq; unfold page_of; rewrite Hpte1 by assumption; exact Hq).
  destruct PS as [P1 P2 P3 P4]. assert (0 ≤ v < UVPN) as Hv' by (assert (xstack < UVPN) by reflexivity; lia). split.
  - intros pd' v' Hpd' Hv2. rewrite P1, Hpte1 by assumption. reflexivity.
  - intros o Ho Hw. rewrite P2 by assumption. apply Hd1. rewrite page_byte by exact Ho. intros F.
    destruct (Hpriv pd v HpdR Hv') as [_ G]; [unfold page_of; rewrite (cs_pte _ _ _ _ _ _ _ _ _ _ CS); cbn; congruence|lia].
  - intros pd' v' q b Hpd' Hv2 N1 N2 Hq Hb. rewrite (P3 pd' v' q b) by auto. apply Hd1. rewrite Hb. intros ->.
    destruct (Hpriv pd' v' Hpd' Hv2 Hq) as [-> ->]. apply N2. reflexivity.
  - intros pd' v' Hpd' Hv2 Hq. apply (P4 pd' v' Hpd' Hv2), Hpg1; assumption.
Qed.
End fault.

(** * A push *)

(** The processor refuses a store to a page that is read-only. *)
Lemma translate_readonly s pd v pte o : cr3 s = pd * PGSIZE → 0 ≤ v < UVPN → 0 ≤ o < PGSIZE → user_tables (phys s) pd →
  pte_of (phys s) pd v = Some pte → Z.land pte PTE_W = 0 → translate s true true (v * PGSIZE + o) = None.
Proof.
  intros Hc Hv Ho Ht Hpte HW. destruct (page_vpn v o Hv Ho) as (Hua & Ev & _ & _).
  destruct (user_va_idx _ Hua) as (EI & EJ & HI & _). rewrite Ev in EI, EJ. rewrite EI in HI.
  unfold translate. rewrite Hc, EI, EJ. fold (wd (phys s) pd (v / 1024)). unfold pte_of, pt_of in Hpte.
  destruct (is_present (wd (phys s) pd (v / 1024))) eqn:Ep; [|discriminate]. cbv zeta in Hpte. rewrite frame_of_addr.
  fold (wd (phys s) (frame_of (wd (phys s) pd (v / 1024))) (v mod 1024)).
  destruct (is_present (wd (phys s) (frame_of _) _)); [|discriminate]. injection Hpte as Hpte. rewrite Hpte.
  rewrite !land_tables by (reflexivity || apply Ht; assumption). rewrite HW. cbn [negb andb].
  destruct (ctrue (Z.land pte PTE_U)); reflexivity.
Qed.

Section push.
Context (uframe : Trapframe) (entry : upcall → Z) (spill : us → list (Z * Z)) (fn : Z) (v lo hi : Z).
Context (SU : stack_use uframe spill v lo hi).

(** While the page of the stack is writable. *)
Lemma push_writes s0 k l R x c i e pd q pte : ustate k l R x c i e pd → cr3 (kpm k) = pd * PGSIZE → user_tables (phys (kpm k)) pd →
  0 ≤ v < UVPN → pte_of (phys (kpm k)) pd v = Some pte → frame_of pte = q → Z.land pte 6 = 6 →
  ∃ s', push uframe entry spill fn (set_uk k s0) = Ret tt (set_uk (set_kpm s' k) s0) ∧ stored (window q lo hi) (kpm k) s'.
Proof using SU.
  intros Us Hc Ht Hv Hpte Hq H6. destruct (land6 pte H6) as [HU HW].
  destruct (ustores_run s0 k l R x c i e pd v q pte lo hi Us Hc Ht Hv Hpte Hq HU HW (su_window _ _ _ _ _ SU) uframe entry fn (spill (set_uk k s0))
    (kpm k) (stored_refl _ _)) as (s' & E & S); [apply (su_spill _ _ _ _ _ SU)|]. rewrite set_kpm_same in E. eauto.
Qed.

(** After fork has made it copy-on-write. *)
Lemma push_faults s0 k p l R x c i e pd pte xq : Z.land (tf_cs uframe) 3 = 3 → 0 ≤ v < xstack - 1 → v ≠ pftemp →
  _handler s0 env_pgfault_upcall = fn → entry env_pgfault_upcall ≠ 0 →
  cow_stack entry v k (p :: l) R x c i e pd pte xq → Z.land pte PTE_W = 0 → l ≠ [] ∨ pt_of (phys (kpm k)) pd (PDX PFTEMP) ≠ None →
  ∃ k' l' e', push uframe entry spill fn (set_uk k s0) = Ret tt (set_uk k' s0) ∧
    ustate k' l' R (held p x) c i e' pd ∧ quiet R i k e k' e' ∧ private_stack v lo hi k R pd (frame_of pte) p k' ∧ (length l ≤ S (length l'))%nat.
Proof using SU.
  intros Hcs Hv Hvp Hh Hen CS HW Hroom. assert (0 ≤ v < UVPN) as Hv' by (assert (xstack < UVPN) by reflexivity; lia).
  pose proof (cs_state _ _ _ _ _ _ _ _ _ _ _ _ CS) as Us. pose proof (ut_in _ _ _ _ _ _ _ _ Us) as HpdR.
  pose proof (ki_vm _ _ _ _ _ (ut_kinv _ _ _ _ _ _ _ _ Us)) as Hvm. destruct (su_window _ _ _ _ _ SU) as [Hlo Hhi].
  assert (0 ≤ p < 65536) as Hpb by (pose proof (page_inv_free_bound _ _ p (vm_pages _ _ _ _ Hvm) (list_elem_of_here _ _)); pose proof (vm_npages _ _ _ _ Hvm); lia).
  unfold push. pose proof (su_spill _ _ _ _ _ SU (set_uk k s0)) as Hin. pose proof (su_push _ _ _ _ _ SU (set_uk k s0)) as Hne.
  destruct (spill (set_uk k s0)) as [|[va b] w]; [contradiction|]. cbn [ustores]. pose proof (Hin va b (list_elem_of_here _ _)) as Hva.
  destruct (write_fault_run uframe entry spill fn v lo hi Hcs SU Hv Hvp s0 Hh Hen k p l R x c i e pd pte xq va CS Hva Hroom)
    as (k1 & l1 & e1 & E1 & U1 & Q1 & [P1 P2 P3 P4] & Hl1).
  assert (cr3 (kpm k1) = pd * PGSIZE ∧ user_tables (phys (kpm k1)) pd) as [Hc1 Ht1].
  { split; [rewrite (proj2 (qt_kern _ _ _ _ _ _ Q1)); apply (cs_self _ _ _ _ _ _ _ _ _ _ _ _ CS)|].
    apply (dirs_grow_user _ _ R pd (qt_dirs _ _ _ _ _ _ Q1)); [assumption|apply CS]. }
  assert (pte_of (phys (kpm k1)) pd v = Some (own p)) as Hp1 by (rewrite P1, decide_False, decide_True by (assumption || tauto); reflexivity).
  destruct (own_facts p Hpb) as (Of & OU & OW).
  destruct (ust8_run s0 k1 l1 R _ c i e1 pd v p (own p) lo hi U1 Hc1 Ht1 Hv' Hp1 Of OU OW ltac:(auto) va b (kpm k1) (stored_refl _ _) Hva)
    as (_ & s2 & E2 & S2). rewrite set_kpm_same in E2.
  erewrite bind_Ret.
  2:{ unfold ustore. cbn [uk set_uk]. replace va with (v * PGSIZE + (va - v * PGSIZE)) at 1 by lia.
      rewrite (translate_readonly (kpm k) pd v pte) by (assumption || apply CS || lia). rewrite (bind_Ret _ _ _ _ _ E1). exact E2. }
  destruct (ustores_run s0 k1 l1 R _ c i e1 pd v p (own p) lo hi U1 Hc1 Ht1 Hv' Hp1 Of OU OW ltac:(auto) uframe entry fn w s2 S2)
    as (s3 & E3 & S3); [intros va' b' Hw; apply (Hin va' b'), list_elem_of_further, Hw|].
  destruct (page_kept k1 l1 R _ c i e1 pd v p (own p) U1 Hv' Hp1 Of) as [HR Hpt].
  assert (∀ b, window p lo hi b → b / PGSIZE = p) as HB by (apply window_page; auto).
  destruct (stored_quiet p _ k1 s3 l1 R _ c i e1 pd HB S3 HR Hpt U1) as [U3 Q3].
  exists (set_kpm s3 k1), l1, e1. split; [exact E3|]. split; [exact U3|]. split; [eapply quiet_compose; eassumption|]. split; [|exact Hl1].
  assert (∀ b, ¬ window p lo hi b → ld8 (phys s3) b = ld8 (phys (kpm k1)) b) as Hd3 by (destruct S3 as (m & -> & Hm); exact Hm). split.
  - intros pd' v' Hpd' Hv2. cbn. rewrite (stored_pte p _ HB _ _ R S3 HR Hpt) by assumption. apply P1; assumption.
  - intros o Ho Hw. cbn. rewrite Hd3 by (unfold window; lia). apply P2; assumption.
  - intros pd' v' q b' Hpd' Hv2 N1 N2 Hq Hb. cbn. rewrite Hd3; [apply (P3 pd' v' q b'); assumption|]. intros F%HB. apply (P4 pd' v' Hpd' Hv2). congruence.
  - exact P4.
Qed.
End push.
