(* ===== verification/Duppage.v ===== *)
(** The copy-on-write step of fork (lib/fork.c, duppage), with the stores of the
    program on its stack in between. *)
From S2P Require Import Prelude Mmu Mem Pages PageTable AddrSpace UserMem Console KState Env EnvVm EnvSpec Syscall SyscallSpec Trap TrapSpec UserLib UserCalls UserSpec PgfaultSpec UserStack.

(** Whether fork has to share a page copy-on-write, and the entry with which it
    is shared. *)
Definition is_cow (pte : Z) : bool := ctrue (Z.land pte PTE_W) || ctrue (Z.land pte PTE_COW).
Definition shared_pte (pte : Z) : Z :=
  Z.lor (frame_of pte * PGSIZE) (if is_cow pte then PTE_COW + PTE_U + PTE_P else PTE_U + PTE_P).

(** [duplicated B s l R pd pc pn pte s' l']: the page [pte] that [pd] maps at
    [pn] is shared with [pc].  Every other mapping is as it was, every page that
    is mapped keeps its bytes, except for those in [B], only the shared page has
    more references, and no page was taken but for a page table of [pc] that was
    missing. *)
Record duplicated (B : Z → Prop) (s : pm) (l R : list Z) (pd pc pn pte : Z) (s' : pm) (l' : list Z) : Prop := {
  dp_pte : ∀ pd' v, pd' ∈ R → 0 ≤ v < UVPN → pte_of (phys s') pd' v
    = if decide (pd' = pc ∧ v = pn) then Some (shared_pte pte)
      else if decide (pd' = pd ∧ v = pn) then Some (if is_cow pte then shared_pte pte else pte)
      else pte_of (phys s) pd' v;
  dp_page : ∀ pd' v q, pd' ∈ R → 0 ≤ v < UVPN → (pd', v) ≠ (pc, pn) → page_of (phys s) pd' v = Some q →
    (∀ b, b / PGSIZE = q → ¬ B b → ld8 (phys s') b = ld8 (phys s) b) ∧
    (∀ j', pages s' !! q = Some j' → ∃ j, pages s !! q = Some j ∧ pp_ref j' ≤ pp_ref j + ind (q = frame_of pte));
  dp_room : (length l ≤ length l' + new_table (phys s) pc (pn / 1024))%nat;
  dp_dir : ∀ i, 0 ≤ i < 1024 → wd (phys s') pd i = wd (phys s) pd i;
  dp_tables : ∀ i, 0 ≤ i < UPDX → pt_of (phys s) pc i ≠ None → pt_of (phys s') pc i ≠ None;
  dp_kern : kern_pgdir s' = kern_pgdir s ∧ cr3 s' = cr3 s ∧ npages s' = npages s
}.

(** The directory of an address space that needs no page table. *)
Lemma inserted_dir s l R x pd v pp e s' l' pd' : vm_inv s l R x → inserted s l R x pd v pp e s' l' → pd' ∈ R →
  pd' ≠ pd ∨ pt_of (phys s) pd (v / 1024) ≠ None → ∀ i, 0 ≤ i < 1024 → wd (phys s') pd' i = wd (phys s) pd' i.
Proof.
  intros H I Hpd' Hor i Hi. destruct (Z_lt_le_dec i UPDX) as [Hlt|Hge].
  - destruct (in_pde _ _ _ _ _ _ _ _ _ _ I pd' i Hpd' ltac:(lia)) as [E|(-> & -> & F & _)]; [exact E|]. destruct Hor; contradiction.
  - apply (in_data _ _ _ _ _ _ _ _ _ _ I); [exact Hi|apply (vm_root_used _ _ _ _ _ H Hpd')|auto|].
    intros (pd2 & j & Hpd2 & Hj & E). destruct (vm_pt_bound _ _ _ _ _ _ _ H Hpd2 Hj E) as (_ & F & _). contradiction.
Qed.

Lemma inserted_tables s l R x pd v pp e s' l' pd' i : vm_inv s l R x → 0 ≤ i < UPDX → inserted s l R x pd v pp e s' l' → pd' ∈ R →
  pt_of (phys s) pd' i ≠ None → pt_of (phys s') pd' i ≠ None.
Proof.
  intros H Hi I Hpd' Hn. destruct (in_pde _ _ _ _ _ _ _ _ _ _ I pd' i Hpd' Hi) as [E|(-> & _ & F & _)]; [|contradiction].
  rewrite (pt_of_ext _ _ _ _ E). exact Hn.
Qed.

(** ** A mapping after stores of the program

    [remapped B s l R pd v pp e s' l']: bytes of [B] have been written and then
    the entry of [pd] for [v] has become [e], for page [pp]. *)
Record remapped (B : Z → Prop) (s : pm) (l R : list Z) (pd v pp e : Z) (s' : pm) (l' : list Z) : Prop := {
  rm_pte : ∀ pd' v', pd' ∈ R → 0 ≤ v' < UVPN → pte_of (phys s') pd' v'
    = if decide (pd' = pd ∧ v' = v) then Some e else pte_of (phys s) pd' v';
  rm_page : ∀ pd' v' q, pd' ∈ R → 0 ≤ v' < UVPN → page_of (phys s) pd' v' = Some q → (pd', v') ≠ (pd, v) ∨ frame_of e = q →
    page_of (phys s') pd' v' = Some q ∧ (∀ b, b / PGSIZE = q → ¬ B b → ld8 (phys s') b = ld8 (phys s) b) ∧
    (∀ j', pages s' !! q = Some j' → ∃ j, pages s !! q = Some j ∧
      pp_ref j' = pp_ref j + ind (q = pp) - ind (page_of (phys s) pd v = Some q));
  rm_room : (length l ≤ length l' + new_table (phys s) pd (v / 1024))%nat;
  rm_dir : ∀ pd', pd' ∈ R → pd' ≠ pd ∨ pt_of (phys s) pd (v / 1024) ≠ None → ∀ i, 0 ≤ i < 1024 → wd (phys s') pd' i = wd (phys s) pd' i;
  rm_tables : ∀ pd' i, pd' ∈ R → 0 ≤ i < UPDX → pt_of (phys s) pd' i ≠ None → pt_of (phys s') pd' i ≠ None;
  rm_kern : kern_pgdir s' = kern_pgdir s ∧ cr3 s' = cr3 s ∧ npages s' = npages s
}.

Lemma stored_inserted q B s s0 l R x pd v pp e s' l' : (∀ b, B b → b / PGSIZE = q) → q ∉ R → ¬ is_pt (phys s) R q →
  vm_inv s l R x → pd ∈ R → 0 ≤ v < UVPN → stored B s s0 → inserted s0 l R x pd v pp e s' l' → remapped B s l R pd v pp e s' l'.
Proof.
  intros HB HR Hpt Hvm HpdR Hv S I. pose proof (stored_inv q B HB s s0 l R x S HR Hpt Hvm) as Hvm0.
  pose proof (stored_dir q B HB s s0 R S HR) as Hdir. pose proof (stored_pte q B HB s s0 R S HR Hpt) as Hpte.
  pose proof (stored_page q B HB s s0 R S HR Hpt) as Hpg.
  assert (∀ pd' i, pd' ∈ R → 0 ≤ i < 1024 → pt_of (phys s0) pd' i = pt_of (phys s) pd' i) as Hpt' by (intros; apply pt_of_ext, Hdir; assumption).
  pose proof (vpn_idx v Hv) as [Hi _]. assert (0 ≤ v / 1024 < 1024) as Hi' by (unfold UPDX in Hi; lia).
  assert (kern_pgdir s0 = kern_pgdir s ∧ cr3 s0 = cr3 s ∧ npages s0 = npages s ∧ pages s0 = pages s ∧ ∀ b, ¬ B b → ld8 (phys s0) b = ld8 (phys s) b)
    as (Ek & Ec & En & Ep & Hd) by (destruct S as (m & -> & Hm); auto). split.
  - intros pd' v' Hpd' Hv'. rewrite (in_pte _ _ _ _ _ _ _ _ _ _ I), Hpte by assumption. reflexivity.
  - intros pd' v' q' Hpd' Hv' Hq Hor. rewrite <- Hpg in Hq by assumption.
    destruct (inserted_page _ _ _ _ _ _ _ _ _ _ pd' v' q' Hvm0 I Hpd' Hv' Hq Hor) as (P1 & P2 & P3).
    split; [exact P1|]. rewrite Hpg, Ep in P3 by assumption. split; [|exact P3]. intros b Hb HnB. rewrite P2 by exact Hb. apply Hd, HnB.
  - pose proof (in_room _ _ _ _ _ _ _ _ _ _ I) as G. unfold new_table in *. rewrite Hpt' in G by assumption. exact G.
  - intros pd' Hpd' Hor i Hi2. rewrite <- Hdir by assumption. rewrite <- Hpt' in Hor by assumption. apply (inserted_dir _ _ _ _ _ _ _ _ _ _ pd' Hvm0 I Hpd' Hor i Hi2).
  - intros pd' i Hpd' Hi2 Hn. rewrite <- Hpt' in Hn by (assumption || (unfold UPDX in Hi2; lia)).
    apply (inserted_tables _ _ _ _ _ _ _ _ _ _ pd' i Hvm0 Hi2 I Hpd' Hn).
  - destruct (in_kern _ _ _ _ _ _ _ _ _ _ I), (in_npages _ _ _ _ _ _ _ _ _ _ I). split; [congruence|split; congruence].
Qed.

Section dup.
Context (uframe : Trapframe) (Hcs : Z.land (tf_cs uframe) 3 = 3).
Context (s : us) (l R : list Z) (x : Z → Z) (c : CpuInfo) (i : Z) (e : Env) (pd envid j : Z) (ej : Env) (pc pn pte : Z).
Context (Us : ustate (uk s) l R x c i e pd) (C : child_of (uk s) i e envid j ej) (Hpc : env_pgdir ej = kva_of pc)
  (HpcR : pc ∈ R) (Hpn : 0 ≤ pn < UVPN) (Hpte : pte_of (phys (kpm (uk s))) pd pn = Some pte).

Lemma child_pgdir : pc ≠ pd.
Proof using Us C Hpc.
  pose proof (ut_kinv _ _ _ _ _ _ _ _ Us) as K. intros F.
  apply (ch_other _ _ _ _ _ _ C). apply (ki_inj _ _ _ _ _ K j i ej e).
  - split; apply C.
  - split; [apply (um_cur _ _ _ _ _ (ut_mode _ _ _ _ _ _ _ _ Us))|rewrite (ut_run _ _ _ _ _ _ _ _ Us); discriminate].
  - rewrite Hpc, F, (ut_pd _ _ _ _ _ _ _ _ Us). reflexivity.
Qed.

(** The mapping into the child. *)
Lemma map_child perm : 0 ≤ perm < 4096 → bad_perm perm = false → Z.land perm PTE_W = 0 →
  (∀ f, pages (kpm (uk s)) !! frame_of pte = Some f → pp_ref f < 65535) →
  ∃ v k' e' l', UserLib.sys_page_map uframe 0 (pn * PGSIZE) envid (pn * PGSIZE) perm s = Ret v (set_uk k' s) ∧
    ustate k' l' R x c i e' pd ∧ same_env_data e e' ∧
    (∀ j, j ≠ i → envs k' !! j = envs (uk s) !! j) ∧ env_free_list k' = env_free_list (uk s) ∧
    (v = - E_NO_MEM ∧ l = [] ∧ pt_of (phys (kpm (uk s))) pc (pn / 1024) = None ∧ kpm k' = kpm (uk s) ∨
     v = 0 ∧ inserted (kpm (uk s)) l R x pc pn (frame_of pte)
       (Z.lor (frame_of pte * PGSIZE) (Z.lor perm PTE_P)) (kpm k') l').
Proof using All.
  intros Hperm Hbp HW Href. destruct (page_va pn Hpn) as (Hu & Hbv & Ediv & EPDX).
  assert (ctrue (Z.land perm PTE_W) = true → ctrue (Z.land pte PTE_W) = true) as HW' by (rewrite HW; discriminate).
  pose proof (child_found (uk s) l R x c i e pd envid j ej
    (call_frame uframe SYS_page_map 0 (pn * PGSIZE) envid (pn * PGSIZE) perm) Us C) as Hed.
  destruct (u_page_map uframe Hcs s l R x c i e pd envid j ej pc (pn * PGSIZE) (pn * PGSIZE) perm pte Us Hed Hpc)
    as (v & k' & e' & l' & E & Us' & Hr); auto; rewrite ?Ediv; auto.
  rewrite Ediv, EPDX in Hr. exists v, k', e', l'. auto.
Qed.

(** The mapping of the parent's own page anew, which needs no page table. *)
Lemma map_self perm : 0 ≤ perm < 4096 → bad_perm perm = false → Z.land perm PTE_W = 0 →
  (∀ f, pages (kpm (uk s)) !! frame_of pte = Some f → pp_ref f < 65535) →
  ∃ k' e' l', UserLib.sys_page_map uframe 0 (pn * PGSIZE) 0 (pn * PGSIZE) perm s = Ret 0 (set_uk k' s) ∧
    ustate k' l' R x c i e' pd ∧ same_env_data e e' ∧
    (∀ j, j ≠ i → envs k' !! j = envs (uk s) !! j) ∧ env_free_list k' = env_free_list (uk s) ∧
    inserted (kpm (uk s)) l R x pd pn (frame_of pte) (Z.lor (frame_of pte * PGSIZE) (Z.lor perm PTE_P)) (kpm k') l'.
Proof using Hcs Us Hpn Hpte.
  intros Hperm Hbp HW Href. destruct (page_va pn Hpn) as (Hu & Hbv & Ediv & EPDX).
  assert (ctrue (Z.land perm PTE_W) = true → ctrue (Z.land pte PTE_W) = true) as HW' by (rewrite HW; discriminate).
  destruct (u_page_map uframe Hcs s l R x c i e pd 0 i _ pd (pn * PGSIZE) (pn * PGSIZE) perm pte Us (names_self _ _ _ _ _ _ _ _ _ Us)
    (ut_pd _ _ _ _ _ _ _ _ Us) (ut_in _ _ _ _ _ _ _ _ Us)) as (v & k' & e' & l' & E & Us' & Hd & Ho & Hf & Hr); auto; rewrite ?Ediv; auto.
  rewrite Ediv, EPDX in Hr. destruct Hr as [(_ & _ & Hn & _)|[-> I]]; [|exists k', e', l'; auto 7].
  exfalso. revert Hpte. unfold pte_of. rewrite Hn. discriminate.
Qed.
End dup.

(** The two mappings of duppage: the child's, and for a page that is shared
    copy-on-write the parent's own anew. *)
Section dup_maps.
Context (s : pm) (l R : list Z) (x : Z → Z) (pd pc pn pte : Z) (s1 : pm) (l1 : list Z).
Context (Hvm : vm_inv s l R x) (HpdR : pd ∈ R) (HpcR : pc ∈ R) (Hne : pc ≠ pd) (Hpn : 0 ≤ pn < UVPN)
  (Hpte : pte_of (phys s) pd pn = Some pte).
Context (B : Z → Prop) (I1 : remapped B s l R pc pn (frame_of pte) (shared_pte pte) s1 l1).

Lemma dup_page1 pd' v q : pd' ∈ R → 0 ≤ v < UVPN → (pd', v) ≠ (pc, pn) → page_of (phys s) pd' v = Some q →
  page_of (phys s1) pd' v = Some q ∧ (∀ b, b / PGSIZE = q → ¬ B b → ld8 (phys s1) b = ld8 (phys s) b) ∧
  (∀ j', pages s1 !! q = Some j' → ∃ j, pages s !! q = Some j ∧ pp_ref j' ≤ pp_ref j + ind (q = frame_of pte)).
Proof using I1.
  intros Hpd' Hv Hne' Hq. destruct (rm_page _ _ _ _ _ _ _ _ _ _ I1 pd' v q Hpd' Hv Hq (or_introl Hne')) as (P1 & P2 & P3).
  split; [exact P1|]. split; [exact P2|]. intros j' Hj'. destruct (P3 j' Hj') as (j0 & Hj0 & ->). exists j0. split; [exact Hj0|].
  repeat case_bool_decide; cbn; lia.
Qed.

Lemma dup_pte1 : pte_of (phys s1) pd pn = Some pte.
Proof using HpdR Hne Hpn Hpte I1. rewrite (rm_pte _ _ _ _ _ _ _ _ _ _ I1), decide_False by (auto; intros [F _]; apply Hne; auto). exact Hpte. Qed.

Lemma dup_readonly : is_cow pte = false → duplicated B s l R pd pc pn pte s1 l1.
Proof using HpdR HpcR Hne Hpn Hpte I1.
  intros Ecow. split.
  - intros pd' v Hpd' Hv. rewrite (rm_pte _ _ _ _ _ _ _ _ _ _ I1), Ecow by assumption. case_decide; [reflexivity|].
    case_decide as D; [|reflexivity]. destruct D as [-> ->]. exact Hpte.
  - intros pd' v q Hpd' Hv Hne' Hq. apply (dup_page1 pd' v q Hpd' Hv Hne' Hq).
  - apply (rm_room _ _ _ _ _ _ _ _ _ _ I1).
  - apply (rm_dir _ _ _ _ _ _ _ _ _ _ I1 pd HpdR). auto.
  - intros i Hi. apply (rm_tables _ _ _ _ _ _ _ _ _ _ I1 pc i HpcR Hi).
  - apply (rm_kern _ _ _ _ _ _ _ _ _ _ I1).
Qed.

Context (s2 : pm) (l2 : list Z) (I2 : remapped B s1 l1 R pd pn (frame_of pte) (shared_pte pte) s2 l2).

Lemma dup_page2 pd' v q : pd' ∈ R → 0 ≤ v < UVPN → (pd', v) ≠ (pc, pn) → page_of (phys s) pd' v = Some q →
  (∀ b, b / PGSIZE = q → ¬ B b → ld8 (phys s2) b = ld8 (phys s) b) ∧
  (∀ j', pages s2 !! q = Some j' → ∃ j, pages s !! q = Some j ∧ pp_ref j' ≤ pp_ref j + ind (q = frame_of pte)).
Proof using Hvm HpdR Hne Hpn Hpte I1 I2.
  intros Hpd' Hv Hne' Hq. destruct (dup_page1 pd' v q Hpd' Hv Hne' Hq) as (P1 & P2 & P3).
  assert (page_of (phys s) pd pn = Some (frame_of pte) ∧ page_of (phys s1) pd pn = Some (frame_of pte)) as [Hpg Hpg1]
    by (unfold page_of; rewrite dup_pte1, Hpte; auto).
  assert ((pd', v) ≠ (pd, pn) ∨ frame_of (shared_pte pte) = q) as Hor.
  { destruct (decide ((pd', v) = (pd, pn))) as [D|D]; [right|left; exact D]. injection D as -> ->. rewrite Hpg in Hq. injection Hq as <-.
    destruct (vm_data _ _ _ _ Hvm pd pn _ HpdR Hpn Hpg) as (? & _). pose proof (vm_npages _ _ _ _ Hvm).
    unfold shared_pte. apply frame_of_page; [lia|destruct (is_cow pte); split; reflexivity || discriminate]. }
  destruct (rm_page _ _ _ _ _ _ _ _ _ _ I2 pd' v q Hpd' Hv P1 Hor) as (_ & Q2 & Q3). split.
  - intros b Hb HnB. rewrite Q2 by assumption. apply P2; assumption.
  - intros j' Hj'. destruct (Q3 j' Hj') as (j1 & Hj1 & ->). destruct (P3 j1 Hj1) as (j0 & Hj0 & Hle). exists j0. split; [exact Hj0|].
    rewrite Hpg1, (bool_decide_ext (Some (frame_of pte) = Some q) (q = frame_of pte)) by (split; congruence). lia.
Qed.

Lemma dup_cow : is_cow pte = true → duplicated B s l R pd pc pn pte s2 l2.
Proof using Hvm HpdR HpcR Hne Hpn Hpte I1 I2.
  intros Ecow.
  assert (pt_of (phys s1) pd (pn / 1024) ≠ None) as Hpt1 by (intros F; pose proof dup_pte1 as Q; unfold pte_of in Q; rewrite F in Q; discriminate Q).
  split.
  - intros pd' v Hpd' Hv. rewrite (rm_pte _ _ _ _ _ _ _ _ _ _ I2), (rm_pte _ _ _ _ _ _ _ _ _ _ I1), Ecow by assumption.
    destruct (decide (pd' = pd ∧ v = pn)) as [[-> ->]|D]; [|reflexivity]. rewrite decide_False by (intros [F _]; apply Hne; auto). reflexivity.
  - apply dup_page2.
  - pose proof (rm_room _ _ _ _ _ _ _ _ _ _ I1). pose proof (rm_room _ _ _ _ _ _ _ _ _ _ I2) as H2.
    unfold new_table in H2 at 1. rewrite decide_False in H2 by exact Hpt1. lia.
  - intros i Hi. rewrite (rm_dir _ _ _ _ _ _ _ _ _ _ I2 pd HpdR) by auto. apply (rm_dir _ _ _ _ _ _ _ _ _ _ I1 pd HpdR); auto.
  - intros i Hi Hn. apply (rm_tables _ _ _ _ _ _ _ _ _ _ I2 pc i HpcR Hi), (rm_tables _ _ _ _ _ _ _ _ _ _ I1 pc i HpcR Hi Hn).
  - destruct (rm_kern _ _ _ _ _ _ _ _ _ _ I1) as (? & ? & ?), (rm_kern _ _ _ _ _ _ _ _ _ _ I2) as (? & ? & ?). split; [congruence|split; congruence].
Qed.
End dup_maps.

(** ** duppage of a mapped page of the parent *)

Section run.
Context (uframe : Trapframe) (entry : upcall → Z) (spill : us → list (Z * Z)) (fn sp lo hi : Z).
Context (Hcs : Z.land (tf_cs uframe) 3 = 3) (SU : stack_use uframe spill sp lo hi) (Hsp : 0 ≤ sp < UVPN).

(** The stores before a system call, while the stack is writable. *)
Lemma push_ready s k l R x c i e pd spte : ustate k l R x c i e pd → cr3 (kpm k) = pd * PGSIZE → user_tables (phys (kpm k)) pd →
  pte_of (phys (kpm k)) pd sp = Some spte → Z.land spte 6 = 6 → let q := frame_of spte in let B := window q lo hi in
  ∃ k', push uframe entry spill fn (set_uk k s) = Ret tt (set_uk k' s) ∧ k' = set_kpm (kpm k') k ∧ stored B (kpm k) (kpm k') ∧
    ustate k' l R x c i e pd ∧ quiet R i k e k' e ∧ q ∉ R ∧ ¬ is_pt (phys (kpm k)) R q ∧ (∀ b, B b → b / PGSIZE = q) ∧
    (∀ pd' v, pd' ∈ R → 0 ≤ v < UVPN → pte_of (phys (kpm k')) pd' v = pte_of (phys (kpm k)) pd' v).
Proof using SU Hsp.
  intros Us Hc Ht Hspte H6 q B.
  destruct (push_writes uframe entry spill fn sp lo hi SU s k l R x c i e pd q spte Us Hc Ht Hsp Hspte eq_refl H6) as (s' & E & S).
  destruct (page_kept k l R x c i e pd sp q spte Us Hsp Hspte eq_refl) as [HR Hpt].
  assert (∀ b, B b → b / PGSIZE = q) as HB by (apply window_page, SU).
  destruct (stored_quiet q B k s' l R x c i e pd HB S HR Hpt Us) as [U Q]. exists (set_kpm s' k).
  split; [exact E|]. split; [reflexivity|]. split; [exact S|]. split; [exact U|]. split; [exact Q|]. split; [exact HR|]. split; [exact Hpt|].
  split; [exact HB|]. exact (stored_pte q B HB _ _ R S HR Hpt).
Qed.

(** The program between two system calls. *)
Record ready (k : ks) (l R : list Z) (x : Z → Z) (c : CpuInfo) (i : Z) (e : Env) (pd spte : Z) : Prop := {
  rd_state : ustate k l R x c i e pd;
  rd_cr3 : cr3 (kpm k) = pd * PGSIZE;
  rd_tables : user_tables (phys (kpm k)) pd;
  rd_stack : pte_of (phys (kpm k)) pd sp = Some spte ∧ Z.land spte 6 = 6
}.

Lemma ready_push s k l R x c i e pd spte : ready k l R x c i e pd spte →
  ∃ k', push uframe entry spill fn (set_uk k s) = Ret tt (set_uk k' s) ∧ k' = set_kpm (kpm k') k ∧
    ready k' l R x c i e pd spte ∧ stored (window (frame_of spte) lo hi) (kpm k) (kpm k').
Proof using SU Hsp.
  intros [U Hc Ht [Hst H6]]. destruct (push_ready s k l R x c i e pd spte U Hc Ht Hst H6) as (k' & E & Ek & S & U' & Q & HR & Hpt & HB & Hpte).
  exists k'. split; [exact E|]. split; [exact Ek|]. split; [|exact S]. pose proof (ut_in _ _ _ _ _ _ _ _ U) as HpdR. split.
  - exact U'.
  - rewrite (proj2 (qt_kern _ _ _ _ _ _ Q)). exact Hc.
  - apply (stored_tables _ _ HB _ _ R S HR pd HpdR Ht).
  - rewrite Hpte by assumption. auto.
Qed.

(** The parent's own mapping, copy-on-write from now on. *)
Lemma dup_self s k l R x c i e pd spte pn pte : ready k l R x c i e pd spte → 0 ≤ pn < UVPN →
  pte_of (phys (kpm k)) pd pn = Some pte → is_cow pte = true → (∀ f, pages (kpm k) !! frame_of pte = Some f → pp_ref f < 65535) →
  ∃ k' e' l', (push uframe entry spill fn ;; r ← UserLib.sys_page_map uframe 0 (pn * PGSIZE) 0 (pn * PGSIZE) 0x805;
      if r <? 0 then mret r else mret 0) (set_uk k s) = Ret 0 (set_uk k' s) ∧
    ustate k' l' R x c i e' pd ∧ same_env_data e e' ∧ (∀ j, j ≠ i → envs k' !! j = envs k !! j) ∧ env_free_list k' = env_free_list k ∧
    remapped (window (frame_of spte) lo hi) (kpm k) l R pd pn (frame_of pte) (shared_pte pte) (kpm k') l'.
Proof using Hcs SU Hsp.
  intros [U Hc Ht [Hst H6]] Hpn Hpte Ecow Href. pose proof (ut_in _ _ _ _ _ _ _ _ U) as HpdR.
  destruct (push_ready s k l R x c i e pd spte U Hc Ht Hst H6) as (k2 & E2 & Ek2 & S2 & U2 & _ & HqR & Hqpt & HB & Hpte2).
  assert (pages (kpm k2) = pages (kpm k)) as Epg by (destruct S2 as (m & -> & _); reflexivity).
  destruct (map_self uframe Hcs (set_uk k2 s) l R x c i e pd pn pte U2 Hpn ltac:(cbn; rewrite Hpte2 by assumption; exact Hpte) 0x805)
    as (k3 & e3 & l3 & E3 & U3 & Hd3 & Ho3 & Hf3 & I3); [split; reflexivity || discriminate|reflexivity|reflexivity|cbn; rewrite Epg; exact Href|].
  replace (Z.lor (frame_of pte * PGSIZE) (Z.lor 0x805 PTE_P)) with (shared_pte pte) in I3 by (unfold shared_pte; rewrite Ecow; reflexivity).
  cbn [uk set_uk] in *. apply (stored_inserted (frame_of spte) _ _ _ _ _ _ _ _ _ _ _ _ HB HqR Hqpt (ki_vm _ _ _ _ _ (ut_kinv _ _ _ _ _ _ _ _ U)) HpdR Hpn S2) in I3.
  rewrite (bind_Ret _ _ _ _ _ E2), (bind_Ret _ _ _ _ _ E3). exists k3, e3, l3. split; [reflexivity|]. split; [exact U3|]. split; [exact Hd3|].
  split; [intros j' Hj'; rewrite Ho3, Ek2 by exact Hj'; reflexivity|]. split; [rewrite Hf3, Ek2; reflexivity|exact I3].
Qed.

Lemma duppage_run s l R x c i e pd envid j ej pc pn pte spte :
  ustate (uk s) l R x c i e pd → self_mapped (uk s) pd → user_tables (phys (kpm (uk s))) pd →
  child_of (uk s) i e envid j ej → env_pgdir ej = kva_of pc → pc ∈ R → 0 ≤ pn < UVPN →
  pte_of (phys (kpm (uk s))) pd pn = Some pte → pte_of (phys (kpm (uk s))) pd sp = Some spte → Z.land spte 6 = 6 →
  (∀ f, pages (kpm (uk s)) !! frame_of pte = Some f → pp_ref f < 65534) →
  l ≠ [] ∨ pt_of (phys (kpm (uk s))) pc (pn / 1024) ≠ None →
  ∃ k' e' l', UserLib.duppage uframe entry spill fn envid pn s = Ret 0 (set_uk k' s) ∧
    ustate k' l' R x c i e' pd ∧ same_env_data e e' ∧
    (∀ j, j ≠ i → envs k' !! j = envs (uk s) !! j) ∧ env_free_list k' = env_free_list (uk s) ∧
    duplicated (window (frame_of spte) lo hi) (kpm (uk s)) l R pd pc pn pte (kpm k') l'.
Proof using Hcs SU Hsp.
  intros Us Hself Ht C Hpc HpcR Hpn Hpte Hspte H6 Href Hroom.
  pose proof (ki_vm _ _ _ _ _ (ut_kinv _ _ _ _ _ _ _ _ Us)) as Hvm.
  pose proof (ut_in _ _ _ _ _ _ _ _ Us) as HpdR. pose proof (vm_npages _ _ _ _ Hvm) as Hnp.
  destruct (vm_root_used _ _ _ _ _ Hvm HpdR) as [Hpdb _].
  pose proof (child_pgdir s l R x c i e pd envid j ej pc Us C Hpc) as Hne.
  assert (ctrue (Z.land (wd (phys (kpm (uk s))) pd (pn / 1024)) PTE_U) = true) as HU.
  { destruct (vpn_idx pn Hpn) as [Hi _]. apply user_tables_U; [exact Ht|exact Hi|]. unfold pte_of, pt_of in Hpte.
    destruct (is_present (wd _ pd (pn / 1024))); [reflexivity|discriminate]. }
  assert (uvpt pn s = Ret pte s) as Euv by (apply (uvpt_pte s pd); auto; lia).
  assert (0 ≤ pn * PGSIZE < 2 ^ 32) as Hw by (apply (page_va pn Hpn)).
  unfold UserLib.duppage. rewrite (w32_id (pn * PGSIZE)), (bind_Ret _ _ _ _ _ Euv) by assumption.
  rewrite (bind_Ret _ _ _ (is_cow pte) s).
  2: { unfold is_cow. destruct (ctrue (Z.land pte PTE_W)); [reflexivity|]. rewrite (bind_Ret _ _ _ _ _ Euv). reflexivity. }
  (* the child *)
  destruct (push_ready s (uk s) l R x c i e pd spte Us (proj1 Hself) Ht Hspte H6) as (k0 & E0 & Ek0 & S0 & Us0 & Q0 & HqR & Hqpt & HB & Hpte0).
  replace (set_uk (uk s) s) with s in E0 by (destruct s; reflexivity). rewrite (bind_Ret _ _ _ _ _ E0). set (B := window (frame_of spte) lo hi) in *.
  assert (child_of k0 i e envid j ej) as C0 by (destruct C as [? ? ? ? ? ? ?]; split; try assumption; rewrite Ek0; assumption).
  assert (pages (kpm k0) = pages (kpm (uk s))) as Epg by (destruct S0 as (m & -> & _); reflexivity).
  assert (Z.lor (frame_of pte * PGSIZE) (Z.lor (if is_cow pte then 0x805 else 5) PTE_P) = shared_pte pte) as Esh
    by (unfold shared_pte; destruct (is_cow pte); reflexivity).
  destruct (map_child uframe Hcs (set_uk k0 s) l R x c i e pd envid j ej pc pn pte Us0 C0 Hpc HpcR Hpn ltac:(cbn; rewrite Hpte0 by assumption; exact Hpte)
    (if is_cow pte then 0x805 else 5) ltac:(destruct (is_cow pte); lia) ltac:(destruct (is_cow pte); reflexivity)
    ltac:(destruct (is_cow pte); reflexivity)) as (v & k1 & e1 & l1 & E1 & Us1 & Hd1 & Ho1 & Hf1 & [(_ & El & Hn & _)|[-> I1]]).
  { cbn [uk set_uk]. rewrite Epg. intros f Hf. specialize (Href f Hf). lia. }
  { exfalso. destruct (vpn_idx pn Hpn) as [Hi _]. assert (0 ≤ pn / 1024 < 1024) as Hi' by (unfold UPDX in Hi; lia). cbn [uk set_uk] in Hn.
    destruct Hroom as [?|N]; [contradiction|]. exact (dirs_grow_tables _ _ R pc _ (qt_dirs _ _ _ _ _ _ Q0) HpcR Hi' N Hn). }
  rewrite Esh in I1. cbn [uk set_uk] in *. apply (stored_inserted (frame_of spte) B _ _ _ _ _ _ _ _ _ _ _ HB HqR Hqpt Hvm HpcR Hpn S0) in I1.
  change (set_uk k1 (set_uk k0 s)) with (set_uk k1 s) in E1.
  assert (∀ j', j' ≠ i → envs k1 !! j' = envs (uk s) !! j') as Ho1' by (intros j' Hj'; rewrite Ho1, Ek0 by exact Hj'; reflexivity).
  assert (env_free_list k1 = env_free_list (uk s)) as Hf1' by (rewrite Hf1, Ek0; reflexivity).
  destruct (is_cow pte) eqn:Ecow.
  2: { change (Z.lor PTE_U PTE_P) with 5. rewrite (bind_Ret _ _ _ _ _ E1). exists k1, e1, l1. split; [reflexivity|].
       split; [exact Us1|]. split; [exact Hd1|]. split; [exact Ho1'|]. split; [exact Hf1'|]. eapply dup_readonly; eassumption. }
  change (Z.lor (Z.lor PTE_COW PTE_U) PTE_P) with 0x805. rewrite (bind_Ret _ _ _ _ _ E1). change (0 <? 0) with false. cbv iota.
  (* the parent *)
  assert (∀ i', 0 ≤ i' < 1024 → wd (phys (kpm k1)) pd i' = wd (phys (kpm (uk s))) pd i') as Hdir1 by (apply (rm_dir _ _ _ _ _ _ _ _ _ _ I1 pd HpdR); auto).
  assert (∀ v', 0 ≤ v' < UVPN → pte_of (phys (kpm k1)) pd v' = pte_of (phys (kpm (uk s))) pd v') as Hpte1
    by (intros v' Hv'; rewrite (rm_pte _ _ _ _ _ _ _ _ _ _ I1), decide_False by (assumption || (intros [F _]; congruence)); reflexivity).
  assert (ready k1 l1 R x c i e1 pd spte) as Rd1.
  { split; [exact Us1|rewrite (proj1 (proj2 (rm_kern _ _ _ _ _ _ _ _ _ _ I1))); apply Hself| |rewrite Hpte1 by exact Hsp; auto].
    intros i' Hi'. rewrite Hdir1 by (unfold UPDX in Hi'; lia). apply Ht, Hi'. }
  destruct (dup_self s k1 l1 R x c i e1 pd spte pn pte Rd1 Hpn ltac:(rewrite Hpte1 by exact Hpn; exact Hpte) Ecow)
    as (k3 & e3 & l3 & E3 & Us3 & Hd3 & Ho3 & Hf3 & I3).
  { intros f Hf. destruct (dup_page1 _ _ _ _ _ _ _ _ _ I1 pd pn (frame_of pte) HpdR Hpn ltac:(congruence)) as (_ & _ & P); [unfold page_of; rewrite Hpte; reflexivity|].
    destruct (P f Hf) as (f0 & Hf0 & Hle). specialize (Href f0 Hf0). revert Hle. case_bool_decide; cbn; lia. }
  rewrite E3. exists k3, e3, l3. split; [reflexivity|]. split; [exact Us3|].
  split; [eapply same_env_data_trans; eassumption|]. split; [intros j' Hj'; rewrite Ho3 by exact Hj'; apply Ho1', Hj'|].
  split; [rewrite Hf3; exact Hf1'|]. eapply dup_cow; eassumption.
Qed.
End run.
