(* ===== verification/ForkLoop.v ===== *)
(** The parts of fork (lib/fork.c): the creation of the child by sys_exofork,
    and the loop that shares the pages of the parent with it. *)
From S2P Require Import Prelude Mmu Mem Pages PageTable AddrSpace UserMem Console KState Env EnvVm EnvSpec Syscall SyscallSpec KSpace Trap TrapSpec UserLib UserCalls UserSpec PgfaultSpec UserStack Duppage.

(** * The kernel's page directory *)

(** Page [kp] is the kernel's page directory, empty below UTOP; the kernel
    holds it and no program maps it. *)
Record kern_dir (s : pm) (R : list Z) (x : Z → Z) (kp : Z) : Prop := {
  kd_pgdir : kern_pgdir s = kva_of kp;
  kd_bound : 0 ≤ kp < npages s;
  kd_held : 0 < x kp;
  kd_root : kp ∉ R;
  kd_pt : ¬ is_pt (phys s) R kp;
  kd_low : ∀ i, 0 ≤ i < UPDX → pt_of (phys s) kp i = None;
  kd_unmapped : ∀ pd v, pd ∈ R → 0 ≤ v < UVPN → page_of (phys s) pd v ≠ Some kp
}.

(** The invariant that system calls keep has it. *)
Lemma vspace_kern_dir K s l R x kp : vspace K s l R x kp → kern_dir s R x kp.
Proof.
  intros H. destruct (vs_kp _ _ _ _ _ _ H) as [Ek HK]. destruct (vs_kern _ _ _ _ _ _ H kp HK) as (Hb & Hx & Hu).
  split; [exact Ek|exact Hb|exact Hx| | |apply (vs_low _ _ _ _ _ _ H)|].
  - intros G. apply Hu. left. exact G.
  - intros G. apply Hu. right. left. exact G.
  - intros pd v Hpd Hv G. apply Hu. right. right. exists pd, v. auto.
Qed.

Lemma kern_dir_used s l R x kp : vm_inv s l R x → kern_dir s R x kp → kp ∉ l.
Proof. intros H [_ _ Hx _ _ _ _] F. destruct (vm_free _ _ _ _ _ H F). lia. Qed.

Lemma kern_dir_new s l R x kp pd v p perm s' l2 : perm_ok perm → vm_inv s (p :: l) R x → kern_dir s R x kp →
  page_new s l R x pd v p perm s' l2 → kern_dir s' R (held p x) kp.
Proof.
  intros Hperm H D N. pose proof (kern_dir_used _ _ _ _ _ H D) as Hf. destruct D as [D1 D2 D3 D4 D5 D6 D7]. split.
  - rewrite (proj1 (nw_kern _ _ _ _ _ _ _ _ _ _ N)). exact D1.
  - rewrite (nw_npages _ _ _ _ _ _ _ _ _ _ N). exact D2.
  - unfold held. case_bool_decide; cbn; lia.
  - exact D4.
  - intros F. destruct (nw_is_pt _ _ _ _ _ _ _ _ _ _ N kp F); contradiction.
  - intros i Hi. rewrite (pt_of_ext (phys s)); [apply D6, Hi|]. apply (nw_data _ _ _ _ _ _ _ _ _ _ N); try assumption; [unfold UPDX in Hi; lia|].
    intros F. contradiction.
  - intros pd' v' Hpd' Hv' F. unfold page_of in F. rewrite (nw_pte _ _ _ _ _ _ _ _ _ _ N) in F by assumption. case_decide.
    + cbn in F. injection F as F. apply Hf. pose proof (page_inv_free_bound _ _ p (vm_pages _ _ _ _ H) (list_elem_of_here _ _)).
      pose proof (vm_npages _ _ _ _ H). rewrite frame_of_page in F by (assumption || lia || apply lor_perm_range; (assumption || (split; reflexivity || discriminate))).
      subst kp. apply list_elem_of_here.
    + exact (D7 pd' v' Hpd' Hv' F).
Qed.

Lemma kern_dir_stored B q s s' R x kp : (∀ b, B b → b / PGSIZE = q) → stored B s s' → q ∉ R → ¬ is_pt (phys s) R q → q ≠ kp →
  kern_dir s R x kp → kern_dir s' R x kp.
Proof.
  intros HB S HR Hpt Hq [D1 D2 D3 D4 D5 D6 D7]. pose proof (stored_wd q B HB s s' S) as Hwd. pose proof (stored_page q B HB s s' R S HR Hpt) as Hpg.
  pose proof (stored_dir q B HB s s' R S HR) as Hdir.
  assert (kern_pgdir s' = kern_pgdir s ∧ npages s' = npages s) as [E1 E2] by (destruct S as (m & -> & _); auto). split; try congruence; try assumption.
  - intros F. apply D5. apply (is_pt_ext (phys s) (phys s')); [|exact F]. intros pd i Hpd Hi. apply pt_of_ext, Hdir; [exact Hpd|unfold UPDX in Hi; lia].
  - intros i Hi. rewrite (pt_of_ext (phys s)); [apply D6, Hi|]. apply Hwd; [unfold UPDX in Hi; lia|auto].
  - intros pd v Hpd Hv. rewrite Hpg by assumption. apply D7; assumption.
Qed.

(** * sys_exofork *)

(** The child before fork has copied anything: the registers of the parent
    with 0 as the result of the call. *)
Definition blank_child (parent : Env) (tf : Trapframe) (j p : Z) (old : Env) : Env :=
  set_env_tf (set_tf_regs (set_reg_eax 0 (tf_regs tf)) tf)
    (set_env_status ENV_NOT_RUNNABLE (new_env (env_id parent) j p old)).

Lemma blank_child_fields parent tf j p old : let child := blank_child parent tf j p old in
  env_status child = ENV_NOT_RUNNABLE ∧ env_pgdir child = kva_of p ∧ env_parent_id child = env_id parent ∧
  env_id child = env_id (new_env (env_id parent) j p old) ∧
  env_tf child = set_tf_regs (set_reg_eax 0 (tf_regs tf)) tf ∧ env_upcalls child = λ _, 0.
Proof.
  assert (env_pgdir (new_env (env_id parent) j p old) = kva_of p ∧ env_parent_id (new_env (env_id parent) j p old) = env_id parent ∧
    env_upcalls (new_env (env_id parent) j p old) = λ _, 0) as (H1 & H2 & H3) by (unfold new_env; repeat split; reflexivity).
  unfold blank_child. cbv zeta. revert H1 H2 H3. generalize (new_env (env_id parent) j p old). intros n H1 H2 H3. cbn. auto 7.
Qed.

Lemma blank_child_tf parent tf tf' j p old : blank_child (set_env_tf tf' parent) tf j p old = blank_child parent tf j p old.
Proof. reflexivity. Qed.

Lemma set_env_tf_twice a b (e : Env) : set_env_tf a (set_env_tf b e) = set_env_tf a e.
Proof. reflexivity. Qed.

Lemma set_envs_last m1 m2 m3 m4 log fl (k : ks) :
  set_envs m4 (set_envs m3 (set_envs m2 (set_klog log (set_env_free_list fl (set_envs m1 k)))))
  = set_klog log (set_env_free_list fl (set_envs m4 k)).
Proof. reflexivity. Qed.

Section exofork.
Context (uframe : Trapframe) (Hcs : Z.land (tf_cs uframe) 3 = 3).
Implicit Types (k : ks) (l R : list Z) (x : Z → Z).

Lemma sys_exofork_run k p l R x i c e j ej kp : kinv k (p :: l) R x i → cpus k !! cpunum k = Some c → cpu_env c = Some i →
  envs k !! i = Some e → env_free_list k = Some j → envs k !! j = Some ej → j ≠ i → kern_dir (kpm k) R x kp →
  ∃ h log, pages (kpm k) !! p = Some h ∧ Syscall.sys_exofork k
    = Ret (env_id (blank_child e (env_tf e) j p ej)) (set_klog log (set_env_free_list (env_link ej)
        (set_envs (<[j := blank_child e (env_tf e) j p ej]> (envs k)) (set_kpm (setup_pm p kp (pp_link h) (kpm k)) k)))).
Proof.
  intros K Hc Hcur Hi Hfl Hj Hji D.
  destruct (env_alloc_run k l R x j kp (env_id e) p ej c (ki_vm _ _ _ _ _ K) Hfl Hj Hc) as (h & log & Hh & E).
  { intros j' Hj'. rewrite Hcur in Hj'. injection Hj' as <-. eauto. }
  { apply (kd_pgdir _ _ _ _ D). }
  { apply (kd_bound _ _ _ _ D). }
  exists h, log. split; [exact Hh|]. unfold Syscall.sys_exofork.
  assert (∀ k', cpus k' = cpus k → cpunum k' = cpunum k → curenv_deref k' = Ret i k') as Hcd.
  { intros k' Ec En. unfold curenv_deref. erewrite bind_Ret by (apply curenv_eq; rewrite Ec, En; exact Hc). rewrite Hcur. reflexivity. }
  rewrite (bind_Ret _ _ _ _ _ (Hcd k eq_refl eq_refl)), (bind_Ret _ _ _ _ _ (env_get_eq k i e Hi)), (bind_Ret _ _ _ _ _ E).
  cbn [fst snd Z.ltb Z.compare].
  erewrite bind_Ret by (apply env_upd_eq; ksimpl; apply lookup_insert_eq). ksimpl.
  erewrite bind_Ret by (apply env_get_eq; ksimpl; rewrite !lookup_insert_ne by congruence; exact Hi).
  erewrite bind_Ret by (apply env_upd_eq; ksimpl; apply lookup_insert_eq). ksimpl.
  erewrite bind_Ret by (apply env_upd_eq; ksimpl; apply lookup_insert_eq). ksimpl.
  erewrite bind_Ret by (apply env_get_eq; ksimpl; apply lookup_insert_eq).
  rewrite !insert_insert_eq, set_envs_last, set_env_tf_twice. reflexivity.
Qed.

(** The kernel's invariant with the new address space. *)
Lemma kinv_alloc k p l R x i j ej e' kp h : kinv k (p :: l) R x i → envs k !! j = Some ej → env_status ej = ENV_FREE →
  env_status e' ≠ ENV_FREE → env_pgdir e' = kva_of p → kern_dir (kpm k) R x kp → pages (kpm k) !! p = Some h →
  kinv (set_envs (<[j := e']> (envs k)) (set_kpm (setup_pm p kp (pp_link h) (kpm k)) k)) l (p :: R) x i.
Proof.
  intros K Hj Hfree He' Hp D Hh. pose proof (ki_vm _ _ _ _ _ K) as Hvm.
  destruct (vm_free_unused _ _ _ _ p Hvm (list_elem_of_here _ _)) as (HpR & _).
  destruct (setup_vm (kpm k) l R x p kp h Hvm (kd_bound _ _ _ _ D) (kern_dir_used _ _ _ _ _ Hvm D) (kd_low _ _ _ _ D) Hh) as (Hvm' & _).
  assert (∀ i' e1, live (set_envs (<[j := e']> (envs k)) (set_kpm (setup_pm p kp (pp_link h) (kpm k)) k)) i' e1 →
    i' = j ∧ e1 = e' ∨ i' ≠ j ∧ live k i' e1) as Hlive.
  { intros i' e1 [H1 H2]. ksimpl. cbn in H1. rewrite lookup_insert in H1. case_decide; [left; split; congruence|right; split; [congruence|split; assumption]]. }
  split.
  - exact Hvm'.
  - intros i'. cbn. rewrite lookup_insert_is_Some. rewrite <- (ki_envs _ _ _ _ _ K i').
    split; [intros [->|[_ ?]]; eauto|]. intros ?. destruct (decide (j = i')); auto.
  - intros i' e1 H1. destruct (Hlive _ _ H1) as [(-> & ->)|(_ & H2)]; [exists p; split; [apply list_elem_of_here|exact Hp]|].
    destruct (ki_live _ _ _ _ _ K _ _ H2) as (pd & ? & ?). exists pd. split; [apply list_elem_of_further|]; assumption.
  - intros i1 i2 e1 e2 H1 H2 E. destruct (Hlive _ _ H1) as [(-> & ->)|(_ & L1)], (Hlive _ _ H2) as [(-> & ->)|(_ & L2)]; [reflexivity| | |].
    + destruct (ki_live _ _ _ _ _ K _ _ L2) as (pd & Hpd & Epd). exfalso. apply HpR. unfold kva_of in *. rewrite Hp, Epd in E.
      replace p with pd by (unfold PGSIZE in E; lia). exact Hpd.
    + destruct (ki_live _ _ _ _ _ K _ _ L1) as (pd & Hpd & Epd). exfalso. apply HpR. unfold kva_of in *. rewrite Hp, Epd in E.
      replace p with pd by (unfold PGSIZE in E; lia). exact Hpd.
    + apply (ki_inj _ _ _ _ _ K i1 i2 e1 e2 L1 L2 E).
  - destruct (ki_cur _ _ _ _ _ K) as (c & e & Hc & Hcur & [Hi Hs]). exists c, e. split; [exact Hc|]. split; [exact Hcur|].
    split; [|exact Hs]. cbn. rewrite lookup_insert_ne; [exact Hi|]. intros <-. congruence.
Qed.

(** The call, as the program sees it. *)
Lemma u_exofork s p l R x c i e pd j ej kp : ustate (uk s) (p :: l) R x c i e pd → kern_dir (kpm (uk s)) R x kp →
  env_free_list (uk s) = Some j → envs (uk s) !! j = Some ej → env_status ej = ENV_FREE → 0 ≤ j < NENV → 0 ≤ env_id ej < 2 ^ 31 →
  let child := blank_child e (exofork_frame uframe) j p ej in
  ∃ k' e' h, UserLib.sys_exofork uframe s = Ret (env_id child) (set_uk k' s) ∧
    ustate k' l (p :: R) x c i e' pd ∧ same_env_data e e' ∧ child_of k' i e' (env_id child) j child ∧
    (∀ j', j' ≠ i → j' ≠ j → envs k' !! j' = envs (uk s) !! j') ∧
    pages (kpm (uk s)) !! p = Some h ∧ kpm k' = setup_pm p kp (pp_link h) (kpm (uk s)).
Proof using Hcs.
  intros Us D Hfl Hj Hfree Hjr Hid child. set (k := uk s) in *. set (tf := exofork_frame uframe) in *.
  destruct (ustate_entered k _ R x c i e pd tf Us) as (K1 & Hi1 & Hc1). set (k1 := entered k c i e tf) in *.
  pose proof (ut_mode _ _ _ _ _ _ _ _ Us) as U. pose proof (ut_run _ _ _ _ _ _ _ _ Us) as Hrun.
  assert (j ≠ i) as Hji.
  { intros ->. pose proof (um_cur _ _ _ _ _ U) as Hi. rewrite Hj in Hi. injection Hi as ->. rewrite Hrun in Hfree. discriminate. }
  assert (envs k1 !! j = Some ej) as Hj1 by (unfold k1; rewrite entered_other by exact Hji; exact Hj).
  destruct (sys_exofork_run k1 p l R x i c (set_env_tf tf e) j ej kp K1 Hc1 (um_env _ _ _ _ _ U) Hi1 Hfl Hj1 Hji D) as (h & log & Hh & E).
  change (env_tf (set_env_tf tf e)) with tf in E. rewrite blank_child_tf in E. fold child in E.
  destruct (blank_child_fields e tf j p ej) as (Bs & Bpg & Bpar & Bid & _). fold child in Bs, Bpg, Bpar, Bid.
  destruct (new_env_id (env_id e) j p ej Hjr Hid) as (Hcid & HX & _). rewrite <- Bid in Hcid, HX.
  assert (env_status child ≠ ENV_FREE) as Hlive by (rewrite Bs; discriminate).
  pose proof (kinv_alloc k1 p l R x i j ej child kp h K1 Hj1 Hfree Hlive Bpg D Hh) as K2. change (kpm k1) with (kpm k) in *.
  remember (setup_pm p kp (pp_link h) (kpm k)) as s2 eqn:Es2. clearbody child. set (k2 := set_klog log _) in E.
  assert (kinv k2 l (p :: R) x i) as K2'.
  { eapply kinv_ext; [exact K2|reflexivity|apply same_space_refl; reflexivity|].
    exists c. split; [exact Hc1|apply (um_env _ _ _ _ _ U)]. }
  destruct (int_ok tf k _ R x c i e pd (env_id child) k2 l (p :: R) x (set_env_tf tf e) Hcs eq_refl Us E)
    as (k' & e' & Er & Us' & Hd & Ep & Eo & _); [repeat split|exact K2'|apply list_elem_of_further, Us| |exact Hrun|reflexivity|].
  { unfold k2. cbn. rewrite lookup_insert_ne by exact Hji. exact Hi1. }
  exists k', e', h. rewrite s32_w32 in Er by lia. split; [apply inuk_Ret, Er|]. split; [exact Us'|]. split; [exact Hd|].
  assert (envs k' !! j = Some child) as Hch by (rewrite Eo by exact Hji; apply lookup_insert_eq).
  split; [|split; [|split; [exact Hh|rewrite <- Es2; exact Ep]]].
  - split; [exact Hch|exact Hji|exact Hlive|reflexivity|exact HX|exact Hcid|]. destruct Hd as (_ & _ & _ & Hd & _). rewrite Hd. exact Bpar.
  - intros j' Hi' Hj'. rewrite Eo by exact Hi'. unfold k2. cbn. rewrite lookup_insert_ne by congruence. exact (entered_other k c i e tf j' Hi').
Qed.
End exofork.

(** * Page tables that are still to come *)

(** The number of directory slots below UTOP that have no page table. *)
Definition missing (m : mem) (pd : Z) : Z := countb (λ i, bool_decide (pt_of m pd i = None)) (seqZ 0 UPDX).

Lemma missing_le m pd : 0 ≤ missing m pd ≤ UPDX.
Proof.
  pose proof (countb_length (λ i, bool_decide (pt_of m pd i = None)) (seqZ 0 UPDX)) as H.
  rewrite length_seqZ in H. split; [apply countb_nonneg|exact H].
Qed.

Lemma missing_grow m m' pd i : 0 ≤ i < UPDX → pt_of m' pd i ≠ None →
  (∀ i, 0 ≤ i < UPDX → pt_of m pd i ≠ None → pt_of m' pd i ≠ None) →
  missing m' pd + Z.of_nat (new_table m pd i) ≤ missing m pd.
Proof.
  intros Hi Hn Hmono. unfold missing. pose proof (countb_drop (λ i, bool_decide (pt_of m pd i = None)) (λ i, bool_decide (pt_of m' pd i = None))
    (seqZ 0 UPDX) i (NoDup_seqZ _ _)) as H.
  assert (Z.b2z (bool_decide (pt_of m pd i = None)) = Z.of_nat (new_table m pd i)) as E.
  { unfold new_table. rewrite decide_bool_decide. case_bool_decide; reflexivity. }
  cbv beta in H. rewrite E in H. enough (countb (λ i, bool_decide (pt_of m' pd i = None)) (seqZ 0 UPDX) ≤
    countb (λ i, bool_decide (pt_of m pd i = None)) (seqZ 0 UPDX) - Z.of_nat (new_table m pd i)) by lia. apply H.
  - apply elem_of_seqZ. lia.
  - apply bool_decide_eq_false_2, Hn.
  - intros i' Hi' Ht. apply bool_decide_eq_true in Ht. apply bool_decide_eq_true. apply elem_of_seqZ in Hi'.
    destruct (pt_of m pd i') eqn:Ei; [|reflexivity]. exfalso. apply (Hmono i' ltac:(lia)); [congruence|exact Ht].
Qed.

Lemma missing_pos m pd i : 0 ≤ i < UPDX → pt_of m pd i = None → 1 ≤ missing m pd.
Proof. intros Hi Hn. apply countb_pos with i; [apply elem_of_seqZ; lia|apply bool_decide_eq_true, Hn]. Qed.

Lemma missing_mono m m' pd : (∀ i, 0 ≤ i < UPDX → pt_of m pd i ≠ None → pt_of m' pd i ≠ None) → missing m' pd ≤ missing m pd.
Proof.
  intros H. apply countb_le. intros i Hi Hn. apply elem_of_seqZ in Hi. apply bool_decide_eq_true in Hn. apply bool_decide_eq_true.
  destruct (pt_of m pd i) eqn:Ei; [|reflexivity]. exfalso. apply (H i ltac:(lia)); [congruence|exact Hn].
Qed.

(** * One page *)

(** What fork makes of an entry of the parent, in the child and in the parent:
    pages for user mode are shared, copy-on-write if they can be written. *)
Definition user_pte (pte : Z) : bool := ctrue (Z.land pte PTE_U).
Definition child_pte (pte : Z) : option Z := if user_pte pte then Some (shared_pte pte) else None.
Definition parent_pte (pte : Z) : Z := if user_pte pte && is_cow pte then shared_pte pte else pte.

Lemma fork_page_run uframe entry spill fn envid s pd n : self_mapped (uk s) pd → 0 ≤ pd < 65536 → user_tables (phys (kpm (uk s))) pd →
  0 ≤ n < UVPN → fork_page uframe entry spill fn envid (n * PGSIZE) s
  = match pte_of (phys (kpm (uk s))) pd n with
    | Some pte => if user_pte pte then (push uframe entry spill fn ;; UserLib.duppage uframe entry spill fn envid n ;; mret tt) s else Ret tt s
    | None => Ret tt s
    end.
Proof.
  intros Hself Hpd Ht Hn. destruct (page_va n Hn) as (Hva & _ & Ediv & EPDX). destruct (vpn_idx n Hn) as [Hi _].
  unfold fork_page. rewrite PGNUM_div, Ediv, EPDX by exact Hva.
  rewrite (bind_Ret _ _ _ _ _ (uvpd_read s pd (n / 1024) Hself Hpd ltac:(unfold UPDX in Hi; lia))).
  fold (is_present (wd (phys (kpm (uk s))) pd (n / 1024))).
  destruct (is_present (wd (phys (kpm (uk s))) pd (n / 1024))) eqn:Ep; cbn [when].
  2: { unfold pte_of, pt_of. rewrite Ep. reflexivity. }
  assert (ctrue (Z.land (wd (phys (kpm (uk s))) pd (n / 1024)) PTE_U) = true) as HU by (apply user_tables_U; assumption).
  assert (pt_of (phys (kpm (uk s))) pd (n / 1024) = Some (frame_of (wd (phys (kpm (uk s))) pd (n / 1024)))) as Et by (unfold pt_of; rewrite Ep; reflexivity).
  assert (n < 1048576) as Hn' by (pose proof UVPN_eq as E; change (UTOP / PGSIZE) with 977920 in E; lia).
  pose proof (uvpt_read s pd n _ Hself Hpd ltac:(lia) Et HU) as Eu. set (t := wd _ (frame_of _) _) in Eu.
  rewrite (bind_Ret _ _ _ _ _ Eu). unfold pte_of. rewrite Et. fold t. cbv zeta. unfold is_present.
  destruct (ctrue (Z.land t PTE_P)); cbn [when]; [|reflexivity]. rewrite (bind_Ret _ _ _ _ _ Eu). unfold user_pte.
  destruct (ctrue (Z.land t PTE_U)); reflexivity.
Qed.

(** * The loop *)

(** The pages below the top of the stack, which fork shares; the last of them
    is the stack. *)
Definition ustack_top : Z := USTACKTOP / PGSIZE.
Definition stackv : Z := ustack_top - 1.

Lemma ustack_range : 0 ≤ stackv < ustack_top ∧ ustack_top < UVPN ∧ ustack_top < xstack < UVPN ∧ 0 ≤ pftemp < stackv.
Proof. vm_compute. repeat split; reflexivity || discriminate. Qed.

(** The mapping of page [v] after fork's visit, in terms of the mappings [m] at
    the start. *)
Definition fork_pte (m : mem) (pd pc pd' v : Z) : option Z :=
  if decide (pd' = pc) then pte_of m pd v ≫= child_pte
  else if decide (pd' = pd) then parent_pte <$> pte_of m pd v
  else pte_of m pd' v.

Lemma shared_frame s l R x pd v pte : vm_inv s l R x → pd ∈ R → 0 ≤ v < UVPN → pte_of (phys s) pd v = Some pte →
  frame_of (shared_pte pte) = frame_of pte.
Proof.
  intros Hvm HpdR Hv Hpte. pose proof (vm_npages _ _ _ _ Hvm). unfold shared_pte.
  destruct (vm_data _ _ _ _ Hvm pd v (frame_of pte) HpdR Hv) as (? & _); [unfold page_of; rewrite Hpte; reflexivity|].
  apply frame_of_page; [lia|destruct (is_cow pte); split; reflexivity || discriminate].
Qed.

(** The pages that are mapped after fork's visit were mapped before. *)
Lemma fork_pte_page s l R x pd pc pd' v pte' : vm_inv s l R x → pd ∈ R → 0 ≤ v < UVPN → fork_pte (phys s) pd pc pd' v = Some pte' →
  ∃ pd0, (pd0 = pd ∧ (pd' = pd ∨ pd' = pc) ∨ pd0 = pd' ∧ pd' ≠ pc) ∧ page_of (phys s) pd0 v = Some (frame_of pte').
Proof.
  intros Hvm HpdR Hv H. pose proof (λ pte, shared_frame s l R x pd v pte Hvm HpdR Hv) as Hfr. unfold fork_pte, page_of in *.
  destruct (pte_of (phys s) pd v) as [pte|] eqn:E; repeat case_decide; subst; try discriminate H; cbn in H.
  - exists pd. split; [auto|]. revert H. unfold child_pte. destruct (user_pte pte); [|discriminate]. intros [= <-]. rewrite E. cbn. rewrite (Hfr pte eq_refl). reflexivity.
  - exists pd. split; [auto|]. injection H as <-. unfold parent_pte. rewrite E. destruct (user_pte pte && is_cow pte); [cbn; rewrite (Hfr pte eq_refl); reflexivity|reflexivity].
  - exists pd'. split; [auto|]. rewrite H. reflexivity.
  - exists pd'. split; [auto|]. rewrite H. reflexivity.
Qed.

Lemma set_uk_same s : set_uk (uk s) s = s.
Proof. destruct s. reflexivity. Qed.

Section loop.
Context (uframe : Trapframe) (entry : upcall → Z) (spill : us → list (Z * Z)) (fn lo hi : Z).
Context (Hcs : Z.land (tf_cs uframe) 3 = 3) (SU : stack_use uframe spill stackv lo hi).
Context (s0 : us) (l0 R : list Z) (x : Z → Z) (c : CpuInfo) (i : Z) (e0 : Env) (pd envid j : Z) (ej : Env) (pc : Z).
Let m0 := kpm (uk s0).
Context (U0 : ustate (uk s0) l0 R x c i e0 pd) (S0 : self_mapped (uk s0) pd) (T0 : user_tables (phys m0) pd).
Context (C0 : child_of (uk s0) i e0 envid j ej) (Hpc : env_pgdir ej = kva_of pc) (HpcR : pc ∈ R).
Context (Hempty : ∀ v, 0 ≤ v < UVPN → pte_of (phys m0) pc v = None).
Context (spte : Z) (Hspte : pte_of (phys m0) pd stackv = Some spte) (H6 : Z.land spte 6 = 6).
Notation B := (window (frame_of spte) lo hi).
Context (Hrefs : ∀ v q f, 0 ≤ v < ustack_top → page_of (phys m0) pd v = Some q → pages m0 !! q = Some f → pp_ref f ≤ 32767).
Context (Hroom : UPDX + 1 ≤ Z.of_nat (length l0)).

(** How often the parent maps [q] below [n]. *)
Definition shares (q n : Z) : Z := countb (λ v, bool_decide (page_of (phys m0) pd v = Some q)) (seqZ 0 n).

(** The state after the pages below [n]. *)
Record forked_upto (n : Z) (k : ks) (l : list Z) (e : Env) : Prop := {
  fu_state : ustate k l R x c i e pd;
  fu_env : same_env_data e0 e;
  fu_others : ∀ j', j' ≠ i → envs k !! j' = envs (uk s0) !! j';
  fu_pte : ∀ pd' v, pd' ∈ R → 0 ≤ v < UVPN →
    pte_of (phys (kpm k)) pd' v = if decide (v < n) then fork_pte (phys m0) pd pc pd' v else pte_of (phys m0) pd' v;
  fu_page : ∀ pd' v q, pd' ∈ R → 0 ≤ v < UVPN → page_of (phys m0) pd' v = Some q →
    (∀ b, b / PGSIZE = q → ¬ B b → ld8 (phys (kpm k)) b = ld8 (phys m0) b) ∧
    (∀ f', pages (kpm k) !! q = Some f' → ∃ f, pages m0 !! q = Some f ∧ pp_ref f' ≤ pp_ref f + shares q n);
  fu_room : Z.of_nat (length l0) - missing (phys m0) pc ≤ Z.of_nat (length l) - missing (phys (kpm k)) pc;
  fu_dir : ∀ i, 0 ≤ i < 1024 → wd (phys (kpm k)) pd i = wd (phys m0) pd i;
  fu_kern : kern_pgdir (kpm k) = kern_pgdir m0 ∧ cr3 (kpm k) = cr3 m0 ∧ npages (kpm k) = npages m0
}.

Lemma shares_0 q : shares q 0 = 0.
Proof. reflexivity. Qed.

Lemma shares_S q n : 0 ≤ n → shares q (n + 1) = shares q n + ind (page_of (phys m0) pd n = Some q).
Proof. intros Hn. unfold shares. rewrite (seqZ_app 0 n 1), countb_app by lia. change (seqZ (0 + n) 1) with [0 + (0 + n)]. rewrite !Z.add_0_l. cbn [countb]. lia. Qed.

(** A page has no more mappings than references. *)
Lemma shares_bound q n f : 0 ≤ n < UVPN → pages m0 !! q = Some f → page_of (phys m0) pd n = Some q → shares q n + 1 ≤ pp_ref f.
Proof using U0.
  intros Hn Hf Hq. pose proof (ki_vm _ _ _ _ _ (ut_kinv _ _ _ _ _ _ _ _ U0)) as Hvm. fold m0 in Hvm.
  pose proof (mapcount_one (phys m0) R pd q (ut_in _ _ _ _ _ _ _ _ U0)) as H1. fold (shares q UVPN) in H1.
  replace UVPN with (n + 1 + (UVPN - (n + 1))) in H1 by lia. unfold shares at 1 in H1. rewrite (seqZ_app 0 (n + 1)), countb_app in H1 by lia.
  fold (shares q (n + 1)) in H1. rewrite shares_S, bool_decide_eq_true_2 in H1 by (exact Hq || lia).
  match type of H1 with _ + countb ?f ?l ≤ _ => pose proof (countb_nonneg f l) as H2 end.
  pose proof (vm_ref _ _ _ _ Hvm q f Hf) as H3. pose proof (vm_x _ _ _ _ Hvm q). destruct (refs_parts (phys m0) R q) as (_ & ? & ?).
  unfold refs in H3. cbn [Z.b2z] in H1. lia.
Qed.

Lemma fork_start : forked_upto 0 (uk s0) l0 e0.
Proof using U0.
  split; try (reflexivity || exact U0); [repeat split| | |].
  - intros pd' v _ Hv. rewrite decide_False by lia. reflexivity.
  - intros pd' v q Hpd' Hv Hq. split; [reflexivity|]. intros f' Hf'. exists f'. rewrite shares_0. split; [exact Hf'|lia].
  - repeat split.
Qed.

Lemma pc_pd : pc ≠ pd.
Proof using U0 C0 Hpc. exact (child_pgdir s0 l0 R x c i e0 pd envid j ej pc U0 C0 Hpc). Qed.

(** A page that is not shared. *)
Lemma fork_skip n k l e : 0 ≤ n < UVPN → forked_upto n k l e → pte_of (phys m0) pd n ≫= child_pte = None → forked_upto (n + 1) k l e.
Proof using U0 C0 Hpc Hempty.
  intros Hn H Hnone. destruct H as [F1 F2 F3 F4 F5 F6 F7 F8]. split; try assumption.
  - intros pd' v Hpd' Hv. rewrite F4 by assumption. destruct (decide (v < n)) as [|Hge]; [rewrite decide_True by lia; reflexivity|].
    case_decide; [|reflexivity]. assert (v = n) as -> by lia. unfold fork_pte.
    case_decide as D; [subst pd'; rewrite Hempty, Hnone by exact Hn; reflexivity|]. case_decide as D'; [|reflexivity]. subst pd'.
    revert Hnone. destruct (pte_of (phys m0) pd n) as [pte|]; [|reflexivity]. cbn. unfold child_pte, parent_pte. destruct (user_pte pte); [discriminate|reflexivity].
  - intros pd' v q Hpd' Hv Hq. destruct (F5 pd' v q Hpd' Hv Hq) as [G1 G2]. split; [exact G1|]. intros f' Hf'.
    destruct (G2 f' Hf') as (f & Hf & Hle). exists f. split; [exact Hf|]. rewrite shares_S by lia. case_bool_decide; cbn; lia.
Qed.

Lemma parent_frame n pte : 0 ≤ n < UVPN → pte_of (phys m0) pd n = Some pte → frame_of (parent_pte pte) = frame_of pte.
Proof using U0.
  intros Hn Hpte. unfold parent_pte. destruct (user_pte pte && is_cow pte); [|reflexivity].
  exact (shared_frame m0 l0 R x pd n pte (ki_vm _ _ _ _ _ (ut_kinv _ _ _ _ _ _ _ _ U0)) (ut_in _ _ _ _ _ _ _ _ U0) Hn Hpte).
Qed.

(** The pages that were mapped at the start still are. *)
Lemma fork_page_of n k l e pd' v q : forked_upto n k l e → pd' ∈ R → 0 ≤ v < UVPN → page_of (phys m0) pd' v = Some q →
  page_of (phys (kpm k)) pd' v = Some q ∧ pd' ≠ pc.
Proof using U0 C0 Hpc Hempty.
  intros H Hpd' Hv Hq. assert (pd' ≠ pc) as Hne by (intros ->; unfold page_of in Hq; rewrite Hempty in Hq by exact Hv; discriminate).
  split; [|exact Hne]. unfold page_of in *. rewrite (fu_pte _ _ _ _ H) by assumption. case_decide; [|exact Hq]. unfold fork_pte.
  rewrite decide_False by exact Hne. case_decide as D; [|exact Hq]. subst pd'.
  destruct (pte_of (phys m0) pd v) as [pte|] eqn:Ep; [|discriminate]. cbn in *. rewrite (parent_frame v pte Hv Ep). exact Hq.
Qed.

(** A page that is shared. *)
Lemma fork_share n k l e k' l' e' pte : 0 ≤ n < UVPN → forked_upto n k l e → pte_of (phys m0) pd n = Some pte → user_pte pte = true →
  ustate k' l' R x c i e' pd → same_env_data e e' → (∀ j, j ≠ i → envs k' !! j = envs k !! j) →
  duplicated B (kpm k) l R pd pc n pte (kpm k') l' → forked_upto (n + 1) k' l' e'.
Proof using U0 C0 Hpc Hempty HpcR.
  intros Hn H Hpte HU Us' Hd Ho D. pose proof (vpn_idx n Hn) as [Hni _]. pose proof pc_pd as Hne. split.
  - exact Us'.
  - eapply same_env_data_trans; [apply H|exact Hd].
  - intros j' Hj'. rewrite Ho by exact Hj'. apply H, Hj'.
  - intros pd' v Hpd' Hv. rewrite (dp_pte _ _ _ _ _ _ _ _ _ _ D), (fu_pte _ _ _ _ H) by assumption. unfold fork_pte.
    destruct (decide (v = n)) as [->|Hvn].
    + rewrite (decide_True (P := n < n + 1)) by lia. rewrite (decide_False (P := n < n)) by lia. rewrite Hpte. cbn [mbind option_bind fmap option_fmap option_map].
      unfold child_pte, parent_pte. rewrite HU. cbn [andb]. repeat case_decide; try tauto; try reflexivity; congruence.
    + rewrite !(decide_False (P := _ ∧ v = n)) by tauto. repeat case_decide; try lia; reflexivity.
  - intros pd' v q Hpd' Hv Hq. destruct (fork_page_of n k l e pd' v q H Hpd' Hv Hq) as [Hq' Hpc'].
    destruct (dp_page _ _ _ _ _ _ _ _ _ _ D pd' v q Hpd' Hv ltac:(congruence) Hq') as [D1 D2].
    destruct (fu_page _ _ _ _ H pd' v q Hpd' Hv Hq) as [F1 F2]. split.
    + intros b Hb HnB. rewrite D1 by assumption. apply F1; assumption.
    + intros f' Hf'. destruct (D2 f' Hf') as (f1 & Hf1 & Hle1). destruct (F2 f1 Hf1) as (f & Hf & Hle). exists f. split; [exact Hf|].
      rewrite shares_S by lia. assert (page_of (phys m0) pd n = Some (frame_of pte)) as Hpg by (unfold page_of; rewrite Hpte; reflexivity).
      rewrite (bool_decide_ext (page_of (phys m0) pd n = Some q) (q = frame_of pte)) by (rewrite Hpg; split; congruence). lia.
  - pose proof (fu_room _ _ _ _ H). pose proof (dp_room _ _ _ _ _ _ _ _ _ _ D).
    pose proof (missing_grow (phys (kpm k)) (phys (kpm k')) pc (n / 1024) Hni) as G.
    assert (pte_of (phys (kpm k')) pc n = Some (shared_pte pte)) as E by (rewrite (dp_pte _ _ _ _ _ _ _ _ _ _ D), decide_True by auto; reflexivity).
    specialize (G ltac:(intros F; unfold pte_of in E; rewrite F in E; discriminate) (dp_tables _ _ _ _ _ _ _ _ _ _ D)). lia.
  - intros i' Hi'. rewrite (dp_dir _ _ _ _ _ _ _ _ _ _ D) by exact Hi'. apply H, Hi'.
  - destruct (dp_kern _ _ _ _ _ _ _ _ _ _ D) as (? & ? & ?), (fu_kern _ _ _ _ H) as (? & ? & ?). split; [congruence|split; congruence].
Qed.

(** The state of the program between two calls. *)
Lemma fork_self n k l e : forked_upto n k l e → self_mapped k pd ∧ user_tables (phys (kpm k)) pd.
Proof using S0 T0.
  intros H. destruct (fu_kern _ _ _ _ H) as (_ & Hcr & _). pose proof (fu_dir _ _ _ _ H) as Hdir. pose proof S0 as [Sc Sw]. split.
  - split; [rewrite Hcr; exact Sc|rewrite Hdir by apply PDX_range; exact Sw].
  - intros i' Hi'. rewrite Hdir by (unfold UPDX in Hi'; lia). apply T0, Hi'.
Qed.

Lemma fork_child n k l e : forked_upto n k l e → child_of k i e envid j ej.
Proof using C0.
  intros H. destruct C0 as [C1 C2 C3 C4 C5 C6 C7]. split; try assumption; [rewrite (fu_others _ _ _ _ H) by exact C2; exact C1|].
  destruct (fu_env _ _ _ _ H) as (_ & _ & _ & Eid & _). rewrite Eid. exact C7.
Qed.

Lemma fork_stack n k l e : n ≤ stackv → forked_upto n k l e → pte_of (phys (kpm k)) pd stackv = Some spte.
Proof using U0 Hspte.
  intros Hn H. destruct ustack_range as (? & ? & _). rewrite (fu_pte _ _ _ _ H) by (apply U0 || lia). rewrite decide_False by lia. exact Hspte.
Qed.

(** The program's stores, until it has visited the stack itself. *)
Lemma fork_push n k l e : n ≤ stackv → forked_upto n k l e →
  ∃ k', push uframe entry spill fn (set_uk k s0) = Ret tt (set_uk k' s0) ∧ forked_upto n k' l e.
Proof using SU S0 T0 U0 Hspte H6 HpcR.
  intros Hn H. destruct ustack_range as (? & ? & _). destruct (fork_self n k l e H) as [Hself Ht].
  destruct (push_ready uframe entry spill fn stackv lo hi SU ltac:(lia) s0 k l R x c i e pd spte (fu_state _ _ _ _ H) (proj1 Hself) Ht
    (fork_stack n k l e Hn H) H6) as (k' & E & Ek & S & U & Q & HqR & Hqpt & HB & Hpte).
  exists k'. split; [exact E|]. pose proof (stored_dir _ _ HB _ _ R S HqR) as Hdir.
  assert (kern_pgdir (kpm k') = kern_pgdir (kpm k) ∧ cr3 (kpm k') = cr3 (kpm k) ∧ npages (kpm k') = npages (kpm k) ∧ pages (kpm k') = pages (kpm k) ∧
    ∀ b, ¬ B b → ld8 (phys (kpm k')) b = ld8 (phys (kpm k)) b) as (Ekp & Ec & En & Ep & Hd) by (destruct S as (m & -> & Hm); auto).
  destruct H as [F1 F2 F3 F4 F5 F6 F7 F8]. split; try assumption.
  - intros j' Hj'. rewrite Ek. apply F3, Hj'.
  - intros pd' v Hpd' Hv. rewrite Hpte by assumption. apply F4; assumption.
  - intros pd' v q Hpd' Hv Hq. rewrite Ep. destruct (F5 pd' v q Hpd' Hv Hq) as [G1 G2]. split; [|exact G2].
    intros b Hb HnB. rewrite Hd by exact HnB. apply G1; assumption.
  - enough (missing (phys (kpm k')) pc ≤ missing (phys (kpm k)) pc) by lia. apply missing_mono. intros i' Hi'.
    rewrite (pt_of_ext (phys (kpm k)) (phys (kpm k'))); [auto|]. apply Hdir; [exact HpcR|unfold UPDX in Hi'; lia].
  - intros i' Hi'. rewrite Hdir by (exact Hi' || apply (ut_in _ _ _ _ _ _ _ _ U0)). apply F7, Hi'.
  - destruct F8 as (? & ? & ?). split; [congruence|split; congruence].
Qed.

(** One round of the loop. *)
Lemma fork_step n k l e : 0 ≤ n < ustack_top → forked_upto n k l e →
  ∃ k' l' e', fork_page uframe entry spill fn envid (n * PGSIZE) (set_uk k s0) = Ret tt (set_uk k' s0) ∧ forked_upto (n + 1) k' l' e'.
Proof using All.
  intros Hn H. destruct ustack_range as (Hst & Hlt & _). assert (0 ≤ n < UVPN) as Hnv by lia.
  pose proof (ki_vm _ _ _ _ _ (ut_kinv _ _ _ _ _ _ _ _ U0)) as Hvm. fold m0 in Hvm. pose proof (vm_npages _ _ _ _ Hvm) as Hnp.
  destruct (vm_root_used _ _ _ _ _ Hvm (ut_in _ _ _ _ _ _ _ _ U0)) as [Hpdb _]. destruct (fork_self n k l e H) as [Hself Ht].
  assert (∀ k l e, forked_upto n k l e → pte_of (phys (kpm k)) pd n = pte_of (phys m0) pd n) as Epte.
  { intros k1 l1 e1 H1. rewrite (fu_pte _ _ _ _ H1) by (apply U0 || exact Hnv). rewrite decide_False by lia. reflexivity. }
  rewrite (fork_page_run uframe entry spill fn envid (set_uk k s0) pd n Hself ltac:(lia) Ht Hnv). cbn [uk set_uk]. rewrite (Epte _ _ _ H).
  destruct (pte_of (phys m0) pd n) as [pte|] eqn:Hpte.
  2: { exists k, l, e. split; [reflexivity|]. apply fork_skip; [exact Hnv|exact H|rewrite Hpte; reflexivity]. }
  destruct (user_pte pte) eqn:HU.
  2: { exists k, l, e. split; [reflexivity|]. apply fork_skip; [exact Hnv|exact H|]. rewrite Hpte. cbn. unfold child_pte. rewrite HU. reflexivity. }
  destruct (fork_push n k l e ltac:(unfold stackv; lia) H) as (k1 & E1 & H1). rewrite (bind_Ret _ _ _ _ _ E1). clear E1 Hself Ht.
  destruct (fork_self n k1 l e H1) as [Hself Ht].
  assert (page_of (phys m0) pd n = Some (frame_of pte)) as Hpg by (unfold page_of; rewrite Hpte; reflexivity).
  destruct (duppage_run uframe entry spill fn stackv lo hi Hcs SU ltac:(lia) (set_uk k1 s0) l R x c i e pd envid j ej pc n pte spte
    (fu_state _ _ _ _ H1) Hself Ht (fork_child n k1 l e H1) Hpc HpcR Hnv (Epte _ _ _ H1) (fork_stack n k1 l e ltac:(unfold stackv; lia) H1) H6)
    as (k' & e' & l' & E & Us' & Hd & Ho & _ & D).
  { intros f' Hf'. destruct (fu_page _ _ _ _ H1 pd n _ (ut_in _ _ _ _ _ _ _ _ U0) Hnv Hpg) as [_ P]. destruct (P f' Hf') as (f & Hf & Hle).
    pose proof (shares_bound _ _ _ Hnv Hf Hpg). pose proof (Hrefs n _ f Hn Hpg Hf). lia. }
  { destruct l; [right|left; discriminate]. intros F. destruct (vpn_idx n Hnv) as [Hni _]. pose proof (missing_pos _ _ _ Hni F).
    pose proof (fu_room _ _ _ _ H1) as G. pose proof (missing_le (phys m0) pc). cbn [length] in G. cbn [uk set_uk] in *. lia. }
  rewrite (bind_Ret _ _ _ _ _ E). exists k', l', e'. split; [reflexivity|].
  exact (fork_share n k1 l e k' l' e' pte Hnv H1 Hpte HU Us' Hd Ho D).
Qed.

Lemma fork_loop : ∃ k1 k l e, push uframe entry spill fn s0 = Ret tt (set_uk k1 s0) ∧
  for_range (Z.to_nat ustack_top) 0 PGSIZE (fork_page uframe entry spill fn envid) (set_uk k1 s0) = Ret tt (set_uk k s0) ∧
  forked_upto ustack_top k l e.
Proof using All.
  destruct ustack_range as [Hst _]. destruct (fork_push 0 (uk s0) l0 e0 ltac:(lia) fork_start) as (k1 & E1 & H1). rewrite set_uk_same in E1.
  destruct (for_range_inv (λ a s, ∃ n k l e, a = n * PGSIZE ∧ 0 ≤ n ∧ s = set_uk k s0 ∧ forked_upto n k l e)
    (fork_page uframe entry spill fn envid) PGSIZE (Z.to_nat ustack_top) 0 (set_uk k1 s0)) as (s' & E & n & k & l & e & En & _ & -> & H).
  - exists 0, k1, l0, e0. split; [reflexivity|]. split; [lia|]. split; [reflexivity|exact H1].
  - intros a s Ha (n & k & l & e & En & Hn & -> & H). assert (n = a) as -> by (unfold PGSIZE in En; lia).
    destruct (fork_step a k l e ltac:(lia) H) as (k' & l' & e' & E & H'). exists (set_uk k' s0). rewrite En. split; [exact E|].
    exists (a + 1), k', l', e'. split; [lia|]. split; [lia|]. split; [reflexivity|exact H'].
  - exists k1, k, l, e. split; [exact E1|]. split; [exact E|]. rewrite Z2Nat.id in En by discriminate.
    assert (n = ustack_top) as -> by (unfold PGSIZE in En; lia). exact H.
Qed.
End loop.
