(* ===== verification/ForkSpec.v ===== *)
(** fork of the user library (lib/fork.c): a child with a copy of the
    environment's registers and a copy-on-write copy of its address space, and
    the fault by which the parent gets its stack back. *)
From S2P Require Import Prelude Mmu Mem Pages PageTable AddrSpace UserMem Console KState Env EnvVm EnvSpec Syscall SyscallSpec KSpace Trap TrapSpec UserLib UserCalls UserSpec PgfaultSpec UserStack Duppage ForkLoop.

(** * The handler, and the whole of fork *)

(** What the page of the exception stack alone may lose: the other mappings,
    and the bytes of their pages but for those in [B], are as they were, and no
    page has more references. *)
Definition kept (B : Z → Prop) (R : list Z) (pd : Z) (s s1 : pm) : Prop :=
  ∀ pd' v, pd' ∈ R → 0 ≤ v < UVPN → (pd', v) ≠ (pd, xstack) → pte_of (phys s1) pd' v = pte_of (phys s) pd' v ∧
    ∀ q, page_of (phys s) pd' v = Some q →
      (∀ b, b / PGSIZE = q → ¬ B b → ld8 (phys s1) b = ld8 (phys s) b) ∧
      (∀ f', pages s1 !! q = Some f' → ∃ f, pages s !! q = Some f ∧ pp_ref f' ≤ pp_ref f).

Lemma kept_refl B R pd s : kept B R pd s s.
Proof. intros pd' v _ _ _. split; [reflexivity|]. intros q _. split; [reflexivity|]. eauto with lia. Qed.

Lemma kept_trans B R pd s1 s2 s3 : kept B R pd s1 s2 → kept B R pd s2 s3 → kept B R pd s1 s3.
Proof.
  intros H1 H2 pd' v Hpd' Hv Hne. destruct (H1 pd' v Hpd' Hv Hne) as [E1 P1], (H2 pd' v Hpd' Hv Hne) as [E2 P2].
  split; [congruence|]. intros q Hq. destruct (P1 q Hq) as [A1 C1]. assert (page_of (phys s2) pd' v = Some q) as Hq2 by (unfold page_of in *; congruence).
  destruct (P2 q Hq2) as [A2 C2]. split.
  - intros b Hb HnB. rewrite A2 by assumption. apply A1; assumption.
  - intros f3 H3. destruct (C2 f3 H3) as (f2 & Hf2 & ?). destruct (C1 f2 Hf2) as (f1 & Hf1 & ?). exists f1. split; [exact Hf1|lia].
Qed.

Lemma stored_kept q B s s' R pd : (∀ b, B b → b / PGSIZE = q) → stored B s s' → q ∉ R → ¬ is_pt (phys s) R q → kept B R pd s s'.
Proof.
  intros HB S HR Hpt pd' v Hpd' Hv _. split; [apply (stored_pte q B HB s s' R S HR Hpt); assumption|]. intros q' _.
  destruct S as (m & -> & Hm). split; [intros b _ HnB; apply Hm, HnB|]. eauto with lia.
Qed.

(** What sys_page_alloc leaves alone. *)
Lemma new_page_kept s p l R x pd v q perm s' l2 pd' v' : vm_inv s (p :: l) R x → page_new s l R x pd v p perm s' l2 →
  pd' ∈ R → 0 ≤ v' < UVPN → page_of (phys s) pd' v' = Some q →
  (∀ b, b / PGSIZE = q → ld8 (phys s') b = ld8 (phys s) b) ∧
  (∀ f', pages s' !! q = Some f' → ∃ f, pages s !! q = Some f ∧ pp_ref f' ≤ pp_ref f).
Proof.
  intros H N Hpd' Hv' Hq. destruct (mapped_data _ _ _ _ pd' v' q H Hpd' Hv' Hq) as (Hl & HR & Hpt). split.
  - apply (data_kept _ _ _ _ q (nw_data _ _ _ _ _ _ _ _ _ _ N)); assumption.
  - intros f'. apply (nw_refs _ _ _ _ _ _ _ _ _ _ N), Hl.
Qed.

(** The upper half of a directory. *)
Lemma new_page_upper s p l R x pd v perm s' l2 pd' i : vm_inv s (p :: l) R x → page_new s l R x pd v p perm s' l2 →
  pd' ∈ R → UPDX ≤ i < 1024 → wd (phys s') pd' i = wd (phys s) pd' i.
Proof.
  intros H N Hpd' Hi. apply (nw_data _ _ _ _ _ _ _ _ _ _ N); [unfold UPDX in Hi; lia|apply (vm_root_used _ _ _ _ _ H Hpd')|lia|].
  intros (pd2 & j & Hpd2 & Hj & E). destruct (vm_pt_bound _ _ _ _ _ _ _ H Hpd2 Hj E) as (_ & F & _). contradiction.
Qed.

Lemma new_kept B s p l R x pd q perm s' l2 : vm_inv s (p :: l) R x → page_new s l R x pd xstack q perm s' l2 →
  q = p → kept B R pd s s'.
Proof.
  intros H N -> pd' v Hpd' Hv Hne. split.
  - rewrite (nw_pte _ _ _ _ _ _ _ _ _ _ N), decide_False by (assumption || (intros [-> ->]; contradiction)). reflexivity.
  - intros q Hq. destruct (new_page_kept s p l R x pd xstack q perm s' l2 pd' v H N Hpd' Hv Hq) as [A C]. split; [intros b Hb _; apply A, Hb|exact C].
Qed.

(** The program in environment [i], as it runs: the kernel's invariant, its own
    page tables, and its stack, the page below USTACKTOP, which it can write. *)
Record program (k : ks) (l R : list Z) (x : Z → Z) (c : CpuInfo) (i : Z) (e : Env) (pd kp spte : Z) : Prop := {
  pg_state : ustate k l R x c i e pd;
  pg_kern : kern_dir (kpm k) R x kp;
  pg_self : self_mapped k pd;
  pg_tables : user_tables (phys (kpm k)) pd;
  pg_walk : walkable (kpm k) pd;
  pg_stack : pte_of (phys (kpm k)) pd stackv = Some spte ∧ Z.land spte 6 = 6
}.

Lemma walkable_dir s s' pd : npages s' = npages s → (∀ i, 0 ≤ i < 1024 → wd (phys s') pd i = wd (phys s) pd i) →
  walkable s pd → walkable s' pd.
Proof.
  intros En Hd [W1 W2]. split; [rewrite En; exact W1|]. intros i t Hi. rewrite En, (pt_of_ext _ _ _ _ (Hd i Hi)). apply W2, Hi.
Qed.

Section fork.
Context (uframe : Trapframe) (entry : upcall → Z) (spill : us → list (Z * Z)) (fn lo hi : Z).
Context (Hcs : Z.land (tf_cs uframe) 3 = 3) (Hent : u32_range (entry env_pgfault_upcall)) (SU : stack_use uframe spill stackv lo hi).

(** Its stores on the stack. *)
Lemma program_push s k l R x c i e pd kp spte : program k l R x c i e pd kp spte → let B := window (frame_of spte) lo hi in
  ∃ k', push uframe entry spill fn (set_uk k s) = Ret tt (set_uk k' s) ∧ k' = set_kpm (kpm k') k ∧
    program k' l R x c i e pd kp spte ∧ kept B R pd (kpm k) (kpm k') ∧
    (∀ xq, exception_stack (phys (kpm k)) R pd xq → exception_stack (phys (kpm k')) R pd xq).
Proof using SU.
  intros [U D Hself Ht W [Hst H6]] B. destruct ustack_range as (Hr & Hlt & Hxs & _). pose proof (ut_in _ _ _ _ _ _ _ _ U) as HpdR.
  destruct (push_ready uframe entry spill fn stackv lo hi SU ltac:(lia) s k l R x c i e pd spte U (proj1 Hself) Ht Hst H6)
    as (k' & E & Ek & S & U' & Q & HqR & Hqpt & HB & Hpte).
  exists k'. split; [exact E|]. split; [exact Ek|]. split; [|split; [apply (stored_kept _ _ _ _ _ _ HB S HqR Hqpt)|]].
  - split; [exact U'| |apply (quiet_self _ _ _ _ _ _ _ Q HpdR Hself)| | |rewrite Hpte by (assumption || lia); auto].
    + apply (kern_dir_stored _ _ _ _ R x kp HB S HqR Hqpt); [|exact D]. intros F. apply (kd_unmapped _ _ _ _ D pd stackv HpdR ltac:(lia)).
      unfold page_of. rewrite Hst. cbn. congruence.
    + apply (stored_tables _ _ HB _ _ R S HqR pd HpdR Ht).
    + apply (walkable_dir (kpm k)); [apply Q| |exact W]. intros i' Hi'. apply (stored_dir _ _ HB _ _ R S HqR); assumption.
  - intros xq [(xpte & Hx & Hq & H) Hp]. split.
    + exists xpte. rewrite Hpte by (assumption || lia). auto.
    + intros pd' v Hpd' Hv. rewrite (stored_page _ _ HB _ _ R S HqR Hqpt) by assumption. apply Hp; assumption.
Qed.

(** [prepared s l R x c i e pd kp spte s1 l1 x1 e1 xq]: the page fault handler is
    registered; only the exception stack may have been mapped anew. *)
Record prepared (s : us) (l R : list Z) (x : Z → Z) (c : CpuInfo) (i : Z) (e : Env) (pd kp spte : Z)
    (s1 : us) (l1 : list Z) (x1 : Z → Z) (e1 : Env) (xq : Z) : Prop := {
  pr_program : program (uk s1) l1 R x1 c i e1 pd kp spte;
  pr_xstack : exception_stack (phys (kpm (uk s1))) R pd xq;
  pr_env : same_env_data (set_upcall env_pgfault_upcall (entry env_pgfault_upcall) e) e1;
  pr_others : ∀ j, j ≠ i → envs (uk s1) !! j = envs (uk s) !! j;
  pr_list : env_free_list (uk s1) = env_free_list (uk s);
  pr_room : (length l ≤ length l1 + 2)%nat;
  pr_kept : kept (window (frame_of spte) lo hi) R pd (kpm (uk s)) (kpm (uk s1));
  pr_handler : ∀ g, _handler s1 g = if decide (g = env_pgfault_upcall) then fn else _handler s g
}.

(** A new page for the exception stack. *)
Lemma fresh_xstack s p l R x pd s' l2 : vm_inv s (p :: l) R x → pd ∈ R → page_new s l R x pd xstack p 7 s' l2 →
  exception_stack (phys s') R pd p.
Proof using.
  intros H HpdR N. destruct ustack_range as (_ & _ & Hxs & _). assert (0 ≤ xstack < UVPN) as Hx by (unfold ustack_top in Hxs; split; [discriminate|lia]).
  destruct (vm_free_unused _ _ _ _ p H (list_elem_of_here _ _)) as (_ & _ & Hun).
  assert (0 ≤ p < 65536) as Hp by (pose proof (page_inv_free_bound _ _ p (vm_pages _ _ _ _ H) (list_elem_of_here _ _)); pose proof (vm_npages _ _ _ _ H); lia).
  split.
  - exists (own p). rewrite (nw_pte _ _ _ _ _ _ _ _ _ _ N), decide_True by auto. split; [reflexivity|]. split; [apply own_facts, Hp|apply own6].
  - intros pd' v Hpd' Hv Hq. destruct (decide (pd' = pd ∧ v = xstack)) as [|F]; [assumption|]. exfalso. apply (Hun pd' v Hpd' Hv).
    unfold page_of in *. rewrite (nw_pte _ _ _ _ _ _ _ _ _ _ N), decide_False in Hq by assumption. exact Hq.
Qed.

Lemma prepare_handler s l R x c i e pd kp spte : program (uk s) l R x c i e pd kp spte → (2 ≤ length l)%nat →
  (_handler s env_pgfault_upcall ≠ 0 → ∃ xq, exception_stack (phys (kpm (uk s))) R pd xq) →
  ∃ s1 l1 x1 e1 xq, set_handler uframe entry env_pgfault_upcall fn s = Ret tt s1 ∧ prepared s l R x c i e pd kp spte s1 l1 x1 e1 xq.
Proof using Hcs Hent.
  intros [Us D Hself Ht W Hst] Hl Hxst. pose proof (ki_vm _ _ _ _ _ (ut_kinv _ _ _ _ _ _ _ _ Us)) as Hvm. pose proof (ut_in _ _ _ _ _ _ _ _ Us) as HpdR.
  destruct ustack_range as (Hr & Hlt & Hxs & _). destruct (decide (_handler s env_pgfault_upcall = 0)) as [Hh|Hh].
  - destruct l as [|p l]; [cbn in Hl; lia|].
    destruct (set_handler_first uframe entry Hcs R c i e pd env_pgfault_upcall fn Hent s p l x Us Hh) as [(-> & _)|(s1 & l1 & E & Reg & N)]; [cbn in Hl; lia|].
    destruct (rg_state _ _ _ _ _ _ _ _ _ _ _ _ Reg) as (e1 & Us1 & Hd). exists s1, l1, (held p x), e1, p. split; [exact E|].
    pose proof (new_kept (window (frame_of spte) lo hi) _ _ _ _ _ _ _ _ _ _ Hvm N eq_refl) as Hkept. destruct Hself as [Hc Hw].
    pose proof (new_page_upper _ _ _ _ _ _ _ _ _ _ pd (PDX UVPT) Hvm N HpdR) as Hup.
    split; try (exact Hd || apply Reg || exact Hkept); [split; [exact Us1| | | | |]| |].
    + exact (kern_dir_new _ _ _ _ _ _ _ _ 7 _ _ ltac:(split; reflexivity || discriminate) Hvm D N).
    + split; [rewrite (proj2 (nw_kern _ _ _ _ _ _ _ _ _ _ N)); exact Hc|]. rewrite Hup by (split; reflexivity || discriminate). exact Hw.
    + apply (new_user_tables _ _ _ _ _ _ _ _ _ _ _ N HpdR Ht).
    + pose proof (ki_vm _ _ _ _ _ (ut_kinv _ _ _ _ _ _ _ _ Us1)) as Hvm1. destruct W as [W1 W2]. split; [rewrite (nw_npages _ _ _ _ _ _ _ _ _ _ N); exact W1|].
      intros i' t Hi' Et. destruct (Z_lt_le_dec i' UPDX) as [L|L]; [apply (vm_pt_bound _ _ _ _ pd i' t Hvm1 HpdR (conj (proj1 Hi') L) Et)|].
      rewrite (nw_npages _ _ _ _ _ _ _ _ _ _ N). apply (W2 i' t Hi'). rewrite <- Et. symmetry. apply pt_of_ext.
      apply (new_page_upper _ _ _ _ _ _ _ _ _ _ pd i' Hvm N HpdR). lia.
    + destruct (Hkept pd stackv HpdR ltac:(lia) ltac:(intros [= F]; lia)) as [-> _]. exact Hst.
    + apply (fresh_xstack _ _ _ _ _ _ _ _ Hvm HpdR N).
    + pose proof (nw_room _ _ _ _ _ _ _ _ _ _ N). pose proof (new_table_le (phys (kpm (uk s))) pd (xstack / 1024)). cbn [length]. lia.
  - destruct (set_handler_again uframe entry Hcs R c i e pd env_pgfault_upcall fn Hent s l x Us Hh) as (s1 & E & Reg & Ek).
    destruct (rg_state _ _ _ _ _ _ _ _ _ _ _ _ Reg) as (e1 & Us1 & Hd). destruct (Hxst Hh) as [xq Hxq]. exists s1, l, x, e1, xq. split; [exact E|].
    split; try (exact Hd || apply Reg); rewrite ?Ek; [split|exact Hxq|lia|apply kept_refl]; unfold self_mapped; rewrite ?Ek; assumption.
Qed.

Lemma fork_prepare s l R x c i e pd kp spte : program (uk s) l R x c i e pd kp spte → (2 ≤ length l)%nat →
  (_handler s env_pgfault_upcall ≠ 0 → ∃ xq, exception_stack (phys (kpm (uk s))) R pd xq) →
  ∃ sa sb s1 l1 x1 e1 xq, push uframe entry spill fn s = Ret tt sa ∧ set_handler uframe entry env_pgfault_upcall fn sa = Ret tt sb ∧
    push uframe entry spill fn sb = Ret tt s1 ∧ prepared s l R x c i e pd kp spte s1 l1 x1 e1 xq.
Proof using Hcs Hent SU.
  intros G Hl Hxst. destruct (program_push s (uk s) l R x c i e pd kp spte G) as (ka & Ea & Eka & Ga & Ka & Xa). rewrite set_uk_same in Ea.
  destruct (prepare_handler (set_uk ka s) l R x c i e pd kp spte Ga Hl) as (sb & l1 & x1 & e1 & xq & Eb & P).
  { intros Hh. destruct (Hxst Hh) as [xq Hxq]. exists xq. apply Xa, Hxq. }
  destruct P as [P1 P2 P3 P4 P5 P6 P7 P8]. cbn [uk set_uk] in *.
  destruct (program_push sb (uk sb) l1 R x1 c i e1 pd kp spte P1) as (k1 & E1 & Ek1 & G1 & K1 & X1). rewrite set_uk_same in E1.
  exists (set_uk ka s), sb, (set_uk k1 sb), l1, x1, e1, xq. split; [exact Ea|]. split; [exact Eb|]. split; [exact E1|].
  split; cbn [uk set_uk]; try assumption; [apply X1, P2| | |].
  - intros j Hj. rewrite Ek1. cbn. rewrite P4 by exact Hj. rewrite Eka. reflexivity.
  - rewrite Ek1. cbn. rewrite P5, Eka. reflexivity.
  - eapply kept_trans; [exact Ka|]. eapply kept_trans; eassumption.
Qed.
(** The child [child] in slot [j] has been created with address space [p], and
    the pages of the program are shared with it. *)
Record copied_to (k1 : ks) (R : list Z) (x : Z → Z) (c : CpuInfo) (i : Z) (e : Env) (pd p j : Z) (child : Env) (spte xq : Z)
    (k3 : ks) (l3 : list Z) (e3 : Env) : Prop := {
  ct_state : ustate k3 l3 (p :: R) x c i e3 pd;
  ct_self : self_mapped k3 pd;
  ct_tables : user_tables (phys (kpm k3)) pd;
  ct_walk : walkable (kpm k3) pd;
  ct_xstack : exception_stack (phys (kpm k3)) (p :: R) pd xq;
  ct_env : same_env_data e e3;
  ct_child : child_of k3 i e3 (env_id child) j child;
  ct_others : ∀ j', j' ≠ i → j' ≠ j → envs k3 !! j' = envs k1 !! j';
  ct_pte : ∀ pd' v, pd' ∈ p :: R → 0 ≤ v < UVPN → pte_of (phys (kpm k3)) pd' v
    = if decide (v < ustack_top) then fork_pte (phys (kpm k1)) pd p pd' v
      else if decide (pd' = p) then None else pte_of (phys (kpm k1)) pd' v;
  ct_page : ∀ pd' v q b, pd' ∈ R → 0 ≤ v < UVPN → page_of (phys (kpm k1)) pd' v = Some q → b / PGSIZE = q →
    ¬ window (frame_of spte) lo hi b → ld8 (phys (kpm k3)) b = ld8 (phys (kpm k1)) b;
  ct_room : 3 + missing (phys (kpm k3)) p ≤ Z.of_nat (length l3);
  ct_new : p ∉ R
}.

(** The exception stack of the program stays its own. *)
Lemma xstack_copied s l R x pd p xq m3 : vm_inv s l R x → pd ∈ R → p ∉ R → exception_stack (phys s) R pd xq →
  (∀ pd' v, pd' ∈ p :: R → 0 ≤ v < UVPN → pte_of m3 pd' v
    = if decide (v < ustack_top) then fork_pte (phys s) pd p pd' v else if decide (pd' = p) then None else pte_of (phys s) pd' v) →
  exception_stack m3 (p :: R) pd xq.
Proof using.
  intros Hvm HpdR HpR [(xpte & Hx & Hq & H6) Hp] Hpte. destruct ustack_range as (Hr & Hlt & Hxs & _). split.
  - exists xpte. rewrite Hpte, decide_False, decide_False by (first [apply list_elem_of_further; exact HpdR|lia|intros ->; contradiction]). auto.
  - intros pd' v Hpd' Hv F. unfold page_of in F. rewrite Hpte in F by assumption. case_decide as Dv.
    + exfalso. destruct (fork_pte (phys s) pd p pd' v) as [pte'|] eqn:E; [|discriminate]. cbn in F. injection F as F.
      destruct (fork_pte_page s l R x pd p pd' v pte' Hvm HpdR Hv E) as (pd0 & D & G). rewrite F in G.
      assert (pd0 ∈ R) as Hpd0 by (destruct D as [[-> _]|[-> Hn]]; [exact HpdR|apply elem_of_cons in Hpd' as [?|?]; [contradiction|assumption]]).
      destruct (Hp pd0 v Hpd0 Hv G) as [_ ->]. lia.
    + case_decide as Dp; [discriminate|]. apply elem_of_cons in Hpd' as [?|Hpd']; [contradiction|]. apply Hp; assumption.
Qed.

(** From the state [k2] in which the child's directory [p] is empty. *)
Lemma copied_intro s1 l1 R x c i e pd p j child spte xq k2 l e2 k3 l3 e3 :
  vm_inv (kpm (uk s1)) l1 R x → pd ∈ R → p ∉ R → (∀ pd v, pd ∈ R → 0 ≤ v < UVPN → page_of (phys (kpm (uk s1))) pd v ≠ Some p) →
  walkable (kpm (uk s1)) pd → exception_stack (phys (kpm (uk s1))) R pd xq → npages (kpm k2) = npages (kpm (uk s1)) →
  (∀ v, 0 ≤ v < UVPN → pte_of (phys (kpm k2)) p v = None) →
  (∀ pd v, pd ∈ R → 0 ≤ v < UVPN → pte_of (phys (kpm k2)) pd v = pte_of (phys (kpm (uk s1))) pd v) →
  (∀ q j, 0 ≤ j < 1024 → q ≠ p → wd (phys (kpm k2)) q j = wd (phys (kpm (uk s1))) q j) →
  ustate k2 l (p :: R) x c i e2 pd → same_env_data e e2 → child_of k2 i e2 (env_id child) j child → env_pgdir child = kva_of p →
  (∀ j', j' ≠ i → j' ≠ j → envs k2 !! j' = envs (uk s1) !! j') → self_mapped k2 pd → user_tables (phys (kpm k2)) pd →
  UPDX + 3 ≤ Z.of_nat (length l) →
  forked_upto lo hi (set_uk k2 s1) l (p :: R) x c i e2 pd p spte ustack_top k3 l3 e3 →
  copied_to (uk s1) R x c i e pd p j child spte xq k3 l3 e3.
Proof using.
  intros Hvm HpdR HpR Hpun W X Hnp Hempty Hold Hwd Us2 Hd2 C2 Bpg Ho2 Hself2 Ht2 Hroom F.
  assert (pd ≠ p) as Hne by (intros ->; contradiction).
  destruct (fork_self lo hi (set_uk k2 s1) l (p :: R) x c i e2 pd p Hself2 Ht2 spte ustack_top k3 l3 e3 F) as [Hself3 Ht3].
  assert (∀ pd' v, pd' ∈ p :: R → 0 ≤ v < UVPN → pte_of (phys (kpm k3)) pd' v = if decide (v < ustack_top) then fork_pte (phys (kpm (uk s1))) pd p pd' v
    else if decide (pd' = p) then None else pte_of (phys (kpm (uk s1))) pd' v) as Hpte3.
  { intros pd' v Hpd' Hv. rewrite (fu_pte _ _ _ _ _ _ _ _ _ _ _ _ _ _ _ _ F) by assumption. cbn [uk set_uk]. unfold fork_pte. rewrite (Hold pd v) by assumption.
    repeat case_decide; subst; try reflexivity; try (apply Hempty; assumption); (apply elem_of_cons in Hpd' as [?|?]; [contradiction|apply Hold; assumption]). }
  pose proof (fu_others _ _ _ _ _ _ _ _ _ _ _ _ _ _ _ _ F) as Ho3. cbn [uk set_uk] in Ho3. split; try assumption; try apply F.
  - apply (walkable_dir (kpm (uk s1))); [|intros i' Hi'|exact W].
    + rewrite (proj2 (proj2 (fu_kern _ _ _ _ _ _ _ _ _ _ _ _ _ _ _ _ F))). exact Hnp.
    + rewrite (fu_dir _ _ _ _ _ _ _ _ _ _ _ _ _ _ _ _ F) by exact Hi'. apply Hwd; assumption.
  - apply (xstack_copied (kpm (uk s1)) l1 R x pd p xq); assumption.
  - eapply same_env_data_trans; [exact Hd2|apply F].
  - apply (fork_child lo hi (set_uk k2 s1) l (p :: R) x c i e2 pd (env_id child) j child p C2 spte ustack_top k3 l3 e3 F).
  - intros j' Hi' Hj'. rewrite Ho3 by exact Hi'. apply Ho2; assumption.
  - intros pd' v q b Hpd' Hv Hq Hb HnB. assert (page_of (phys (kpm k2)) pd' v = Some q) as Hq2 by (unfold page_of in *; rewrite Hold by assumption; exact Hq).
    destruct (fu_page _ _ _ _ _ _ _ _ _ _ _ _ _ _ _ _ F pd' v q (list_elem_of_further _ _ _ Hpd') Hv Hq2) as [G _]. rewrite G by assumption.
    apply page_ld8. intros j' Hj'. apply Hwd; [exact Hj'|]. rewrite Hb. intros ->. exact (Hpun pd' v Hpd' Hv Hq).
  - pose proof (fu_room _ _ _ _ _ _ _ _ _ _ _ _ _ _ _ _ F) as G. pose proof (missing_le (phys (kpm k2)) p). cbn [uk set_uk] in G. lia.
Qed.

Lemma fork_copy s1 p l R x c i e pd kp spte xq j ej : program (uk s1) (p :: l) R x c i e pd kp spte →
  exception_stack (phys (kpm (uk s1))) R pd xq →
  env_free_list (uk s1) = Some j → envs (uk s1) !! j = Some ej → env_status ej = ENV_FREE → 0 ≤ j < NENV → 0 ≤ env_id ej < 2 ^ 31 →
  (∀ v q f, 0 ≤ v < ustack_top → page_of (phys (kpm (uk s1))) pd v = Some q → pages (kpm (uk s1)) !! q = Some f → pp_ref f ≤ 32767) →
  UPDX + 3 ≤ Z.of_nat (length l) →
  let child := blank_child e (exofork_frame uframe) j p ej in
  ∃ k2 k2' k3 l3 e3, UserLib.sys_exofork uframe s1 = Ret (env_id child) (set_uk k2 s1) ∧
    push uframe entry spill fn (set_uk k2 s1) = Ret tt (set_uk k2' s1) ∧
    for_range (Z.to_nat ustack_top) 0 PGSIZE (fork_page uframe entry spill fn (env_id child)) (set_uk k2' s1) = Ret tt (set_uk k3 s1) ∧
    copied_to (uk s1) R x c i e pd p j child spte xq k3 l3 e3.
Proof using Hcs SU.
  intros [Us D Hself Ht W [Hst H6]] X Hfl Hj Hfree Hjr Hid Hrefs Hroom child. pose proof (ki_vm _ _ _ _ _ (ut_kinv _ _ _ _ _ _ _ _ Us)) as Hvm.
  pose proof (ut_in _ _ _ _ _ _ _ _ Us) as HpdR. destruct ustack_range as (Hr & Hlt & Hxs & _).
  destruct (vm_free_unused _ _ _ _ p Hvm (list_elem_of_here _ _)) as (HpR & _ & Hpun).
  destruct (u_exofork uframe Hcs s1 p l R x c i e pd j ej kp Us D Hfl Hj Hfree Hjr Hid) as (k2 & e2 & h & E & Us2 & Hd2 & C2 & Ho2 & Hh & Ek2).
  destruct (setup_vm (kpm (uk s1)) l R x p kp h Hvm (kd_bound _ _ _ _ D) (kern_dir_used _ _ _ _ _ Hvm D) (kd_low _ _ _ _ D) Hh) as (_ & Hempty & Hold & Hwd).
  destruct (blank_child_fields e (exofork_frame uframe) j p ej) as (_ & Bpg & _). fold child in E, C2, Bpg. clearbody child.
  rewrite <- Ek2 in Hempty, Hold, Hwd.
  assert (cr3 (kpm k2) = cr3 (kpm (uk s1)) ∧ npages (kpm k2) = npages (kpm (uk s1)) ∧ ∀ q, q ≠ p → pages (kpm k2) !! q = pages (kpm (uk s1)) !! q)
    as (Hcr & Hnp & Hpages) by (rewrite Ek2; split; [reflexivity|split; [reflexivity|intros q Hq; apply lookup_insert_ne; congruence]]).
  assert (pd ≠ p) as Hne by (intros ->; contradiction). assert (∀ i', 0 ≤ i' < 1024 → wd (phys (kpm k2)) pd i' = wd (phys (kpm (uk s1))) pd i') as Hdir2 by (intros; apply Hwd; assumption).
  assert (∀ pd' v, pd' ∈ R → 0 ≤ v < UVPN → page_of (phys (kpm k2)) pd' v = page_of (phys (kpm (uk s1))) pd' v) as Hpg by (intros; unfold page_of; rewrite Hold by assumption; reflexivity).
  assert (self_mapped k2 pd) as Hself2 by (destruct Hself as [Sc Sw]; split; [rewrite Hcr; exact Sc|rewrite Hdir2 by apply PDX_range; exact Sw]).
  assert (user_tables (phys (kpm k2)) pd) as Ht2 by (intros i' Hi'; rewrite Hdir2 by (unfold UPDX in Hi'; lia); apply Ht, Hi').
  assert (pte_of (phys (kpm k2)) pd stackv = Some spte) as Hst2 by (rewrite Hold by (assumption || lia); exact Hst).
  destruct (fork_loop uframe entry spill fn lo hi Hcs SU (set_uk k2 s1) l (p :: R) x c i e2 pd (env_id child) j child p Us2 Hself2 Ht2 C2 Bpg
    (list_elem_of_here _ _) Hempty spte Hst2 H6) as (k2' & k3 & l3 & e3 & E2 & E3 & F).
  - cbn [uk set_uk]. intros v q f Hv Hq Hf. rewrite Hpg in Hq by (exact HpdR || lia).
    rewrite Hpages in Hf; [exact (Hrefs v q f Hv Hq Hf)|]. intros ->. apply (Hpun pd v); [exact HpdR|lia|exact Hq].
  - lia.
  - cbn [uk set_uk] in F. exists k2, k2', k3, l3, e3. split; [exact E|]. split; [exact E2|]. split; [exact E3|].
    apply (copied_intro s1 (p :: l) R x c i e pd p j child spte xq k2 l e2 k3 l3 e3); assumption.
Qed.
(** The end of fork: an exception stack for the child, its entry point, and its
    status.  The stack of the program is its own again. *)
Lemma fork_finish s l R x c i e pd envid j child pc spte : ready stackv (uk s) l R x c i e pd spte → child_of (uk s) i e envid j child →
  env_pgdir child = kva_of pc → pc ∈ R → pc ≠ pd → 1 + missing (phys (kpm (uk s))) pc ≤ Z.of_nat (length l) →
  ∃ xp l4 k6 l6 e6 s5, l = xp :: l4 ∧
    (r ← UserLib.sys_page_alloc uframe envid (UXSTACKTOP - PGSIZE) (Z.lor (Z.lor PTE_U PTE_W) PTE_P);
     if r <? 0 then mret r
     else
       push uframe entry spill fn ;;
       UserLib.sys_env_set_pgfault_upcall uframe envid (entry env_pgfault_upcall) ;;
       push uframe entry spill fn ;;
       r ← UserLib.sys_env_set_status uframe envid ENV_RUNNABLE;
       if r <? 0 then mret r else mret envid) s = Ret envid (set_uk k6 s) ∧
    ustate k6 l6 R (held xp x) c i e6 pd ∧
    envs k6 !! j = Some (set_env_status ENV_RUNNABLE (set_upcall env_pgfault_upcall (entry env_pgfault_upcall) child)) ∧
    (∀ j', j' ≠ i → j' ≠ j → envs k6 !! j' = envs (uk s) !! j') ∧
    page_new (kpm (uk s)) l4 R x pc xstack xp 7 s5 l6 ∧ stored (window (frame_of spte) lo hi) s5 (kpm k6).
Proof using Hcs Hent SU.
  intros Rd C Hpc HpcR Hne Hroom. pose proof (missing_le (phys (kpm (uk s))) pc) as Hm. destruct ustack_range as (Hr & Hlt & Hxs & _).
  pose proof (rd_state _ _ _ _ _ _ _ _ _ _ Rd) as Us. pose proof (ut_in _ _ _ _ _ _ _ _ Us) as HpdR.
  destruct l as [|xp l4]; [cbn [length] in Hroom; lia|].
  change (Z.lor (Z.lor PTE_U PTE_W) PTE_P) with 7.
  destruct (u_page_alloc uframe Hcs s xp l4 R x c i e pd envid j child pc (UXSTACKTOP - PGSIZE) 7 Us
    (child_found _ _ _ _ _ _ _ _ _ _ _ _ Us C) Hpc HpcR ltac:(split; reflexivity || discriminate) eq_refl ltac:(lia) eq_refl)
    as [(-> & Hn & _)|(k4 & l5 & e4 & E4 & U4 & Hd4 & Ho4 & _ & N)].
  { exfalso. pose proof (missing_pos (phys (kpm (uk s))) pc (PDX (UXSTACKTOP - PGSIZE)) ltac:(split; reflexivity || discriminate) Hn).
    cbn [length] in Hroom. lia. }
  change ((UXSTACKTOP - PGSIZE) / PGSIZE) with xstack in N.
  assert (∀ k e', same_env_data e e' → envs k !! j = Some child → child_of k i e' envid j child) as HC.
  { intros k e' (_ & _ & _ & Eid & _) Hk. destruct C as [C1 C2 C3 C4 C5 C6 C7]. split; try assumption. rewrite Eid. exact C7. }
  pose proof (ch_other _ _ _ _ _ _ C) as Hji.
  assert (ready stackv k4 l5 R (held xp x) c i e4 pd spte) as Rd4.
  { split; [exact U4|rewrite (proj2 (nw_kern _ _ _ _ _ _ _ _ _ _ N)); apply Rd|apply (new_user_tables _ _ _ _ _ _ _ _ _ _ _ N HpdR), Rd|].
    rewrite (nw_pte _ _ _ _ _ _ _ _ _ _ N), decide_False by (assumption || lia || (intros [? _]; congruence)). apply Rd. }
  destruct (ready_push uframe entry spill fn stackv lo hi SU ltac:(lia) s k4 l5 R _ c i e4 pd spte Rd4) as (ka & Ea & Eka & Rda & Sa).
  assert (envs ka !! j = Some child) as Hja by (rewrite Eka; cbn; rewrite Ho4 by exact Hji; apply C).
  destruct (u_child_upcall uframe Hcs (set_uk ka s) l5 R _ c i e4 pd envid j child env_pgfault_upcall (entry env_pgfault_upcall)
    (rd_state _ _ _ _ _ _ _ _ _ _ Rda) (HC ka e4 Hd4 Hja) Hent) as (k5 & e5 & E5 & U5 & Ek5 & Hd5 & Hj5 & Ho5 & _). cbn [uk set_uk] in *.
  assert (child_of k5 i e5 envid j (set_upcall env_pgfault_upcall (entry env_pgfault_upcall) child)) as C5.
  { destruct (HC ka e4 Hd4 Hja) as [? C52 C53 C54 C55 C56 C57]. split; try assumption. destruct Hd5 as (_ & _ & _ & Eid & _). rewrite Eid. exact C57. }
  assert (ready stackv k5 l5 R (held xp x) c i e5 pd spte) as Rd5 by (destruct Rda; split; rewrite ?Ek5; assumption).
  destruct (ready_push uframe entry spill fn stackv lo hi SU ltac:(lia) s k5 l5 R _ c i e5 pd spte Rd5) as (kb & Eb & Ekb & Rdb & Sb).
  assert (child_of kb i e5 envid j (set_upcall env_pgfault_upcall (entry env_pgfault_upcall) child)) as Cb
    by (destruct C5 as [? ? ? ? ? ? ?]; split; try assumption; rewrite Ekb; assumption).
  destruct (u_child_runnable uframe Hcs (set_uk kb s) l5 R _ c i e5 pd envid j _ (rd_state _ _ _ _ _ _ _ _ _ _ Rdb) Cb)
    as (k6 & e6 & E6 & U6 & Ek6 & _ & Hj6 & Ho6 & _). cbn [uk set_uk] in *.
  exists xp, l4, k6, l5, e6, (kpm k4). split; [reflexivity|]. split.
  { rewrite (bind_Ret _ _ _ _ _ E4). change (0 <? 0) with false. cbv iota. rewrite (bind_Ret _ _ _ _ _ Ea).
    change (UserLib.sys_env_set_pgfault_upcall uframe envid (entry env_pgfault_upcall)) with (UserLib.sys_env_set_upcall uframe env_pgfault_upcall envid (entry env_pgfault_upcall)).
    rewrite (bind_Ret _ _ _ _ _ E5), (bind_Ret _ _ _ _ _ Eb), (bind_Ret _ _ _ _ _ E6). reflexivity. }
  split; [exact U6|]. split; [exact Hj6|]. split; [|split; [exact N|]].
  - intros j' Hi' Hj'. rewrite Ho6 by assumption. rewrite Ekb. cbn. rewrite Ho5 by assumption. rewrite Eka. apply Ho4, Hi'.
  - rewrite Ek6. eapply stored_trans; [exact Sa|]. rewrite <- Ek5. exact Sb.
Qed.
End fork.

(** * The property *)

(** The child, environment [ec] in slot [j], of parent [e] with address space
    [pc]: the registers of the parent at its call of sys_exofork, with 0 as the
    result, and of the handlers only that of page faults. *)
Record forked_child (uframe : Trapframe) (entry : upcall → Z) (e : Env) (envid j pc : Z) (ec : Env) : Prop := {
  fc_id : env_id ec = envid ∧ ENVX envid = j ∧ 0 < envid < 2 ^ 31;
  fc_parent : env_parent_id ec = env_id e;
  fc_status : env_status ec = ENV_RUNNABLE;
  fc_pgdir : env_pgdir ec = kva_of pc;
  fc_tf : let tf := exofork_frame uframe in
    env_tf ec = set_tf_regs (set_reg_eax 0 (tf_regs tf)) tf;
  fc_upcalls : ∀ g, env_upcalls ec g = if decide (g = env_pgfault_upcall) then entry env_pgfault_upcall else 0
}.

Lemma forked_child_intro uframe entry e j pc child : let tf := exofork_frame uframe in
  env_pgdir child = kva_of pc → env_parent_id child = env_id e → ENVX (env_id child) = j → 0 < env_id child < 2 ^ 31 →
  env_tf child = set_tf_regs (set_reg_eax 0 (tf_regs tf)) tf → (env_upcalls child = λ _, 0) →
  forked_child uframe entry e (env_id child) j pc
    (set_env_status ENV_RUNNABLE (set_upcall env_pgfault_upcall (entry env_pgfault_upcall) child)).
Proof.
  intros tf Hpg Hpar HX Hr Htf Hup. split; try assumption; [split; [reflexivity|split; assumption]|reflexivity|].
  intros g. cbn. rewrite Hup. reflexivity.
Qed.

(** Memory [m'] after fork from memory [m]: the address space [pc] of the child
    beside those of [R], of which [pd] is the parent's.  [f] is the page of the
    parent's stack before, [sp] the one after; the parent has stored bytes at
    the offsets [lo] to [hi] of them.  [xp] is the page of the child's exception
    stack. *)
Record forked_space (m m' : mem) (R : list Z) (pd pc xp sp f lo hi : Z) : Prop := {
  fs_child : ∀ v, 0 ≤ v < ustack_top → pte_of m' pc v = pte_of m pd v ≫= child_pte;
  fs_parent : ∀ v, 0 ≤ v < ustack_top → v ≠ stackv → v ≠ pftemp → pte_of m' pd v = parent_pte <$> pte_of m pd v;
  fs_stack : pte_of m' pd stackv = Some (own sp);
  fs_stack_private : ∀ pd' v, pd' ∈ pc :: R → 0 ≤ v < UVPN → page_of m' pd' v = Some sp → pd' = pd ∧ v = stackv;
  fs_stack_data : ∀ o, 0 ≤ o < PGSIZE → ¬ (lo ≤ o < hi) → ld8 m' (sp * PGSIZE + o) = ld8 m (f * PGSIZE + o);
  fs_pftemp : pte_of m' pd pftemp = None;
  fs_xstack : ∀ v, ustack_top ≤ v < UVPN → pte_of m' pc v = if decide (v = xstack) then Some (own xp) else None;
  fs_zero : ∀ i, 0 ≤ i < 1024 → wd m' xp i = 0;
  fs_private : ∀ pd' v, pd' ∈ pc :: R → 0 ≤ v < UVPN → page_of m' pd' v = Some xp → pd' = pc ∧ v = xstack;
  fs_handler : ∃ xq, exception_stack m' (pc :: R) pd xq;
  fs_others : ∀ pd' v, pd' ∈ R → pd' ≠ pd → 0 ≤ v < UVPN → pte_of m' pd' v = pte_of m pd' v;
  fs_data : ∀ pd' v q b, pd' ∈ R → 0 ≤ v < UVPN → (pd', v) ≠ (pd, xstack) → (pd', v) ≠ (pd, pftemp) → page_of m pd' v = Some q →
    b / PGSIZE = q → ¬ window f lo hi b → ld8 m' b = ld8 m b;
  fs_child_data : ∀ v q b, 0 ≤ v < ustack_top → page_of m' pc v = Some q → b / PGSIZE = q → ¬ window f lo hi b → ld8 m' b = ld8 m b
}.

(** The memory after each part of fork. *)
Section memory.
Context (k0 k1 k3 k4 : ks) (s5 s6 : pm) (l1 l4 l6 R : list Z) (x1 x4 : Z → Z) (pd pc xp sp xq lo hi spte : Z).
Notation f := (frame_of spte).
Context (Hvm1 : vm_inv (kpm k1) l1 R x1) (HpdR : pd ∈ R) (HpcR : pc ∉ R)
  (Hst : pte_of (phys (kpm k1)) pd stackv = Some spte) (H6 : Z.land spte 6 = 6).
Context (Hkept : kept (window f lo hi) R pd (kpm k0) (kpm k1)).
Context (Hpte3 : ∀ pd' v, pd' ∈ pc :: R → 0 ≤ v < UVPN → pte_of (phys (kpm k3)) pd' v
  = if decide (v < ustack_top) then fork_pte (phys (kpm k1)) pd pc pd' v else if decide (pd' = pc) then None else pte_of (phys (kpm k1)) pd' v).
Context (Hdata3 : ∀ pd' v q b, pd' ∈ R → 0 ≤ v < UVPN → page_of (phys (kpm k1)) pd' v = Some q → b / PGSIZE = q →
  ¬ window f lo hi b → ld8 (phys (kpm k3)) b = ld8 (phys (kpm k1)) b).
Context (X3 : exception_stack (phys (kpm k3)) (pc :: R) pd xq).
Context (P4 : private_stack stackv lo hi k3 (pc :: R) pd f sp k4).
Context (Hw : 0 ≤ lo ∧ hi ≤ PGSIZE) (Hspb : 0 ≤ sp < 65536).
Context (Hvm4 : vm_inv (kpm k4) (xp :: l4) (pc :: R) x4) (N : page_new (kpm k4) l4 (pc :: R) x4 pc xstack xp 7 s5 l6)
  (S : stored (window sp lo hi) s5 s6).

Lemma mem_ne : pc ≠ pd.
Proof using HpdR HpcR. intros F. apply HpcR. rewrite F. exact HpdR. Qed.

Lemma mem_page0 pd' v : pd' ∈ R → 0 ≤ v < UVPN → (pd', v) ≠ (pd, xstack) → page_of (phys (kpm k1)) pd' v = page_of (phys (kpm k0)) pd' v.
Proof using Hkept. intros Hpd' Hv Hne. unfold page_of. destruct (Hkept pd' v Hpd' Hv Hne) as [-> _]. reflexivity. Qed.

(** The page [q] that is mapped at first is mapped after the loop. *)
Lemma mem_page3 pd' v q : pd' ∈ R → 0 ≤ v < UVPN → page_of (phys (kpm k1)) pd' v = Some q → page_of (phys (kpm k3)) pd' v = Some q.
Proof using Hvm1 HpdR HpcR Hpte3.
  intros Hpd' Hv Hq. assert (pd' ≠ pc) as Hne by (intros ->; contradiction). unfold page_of in *. rewrite Hpte3 by (first [apply list_elem_of_further; exact Hpd'|exact Hv]).
  rewrite (decide_False (P := pd' = pc)) by exact Hne. case_decide; [|exact Hq]. unfold fork_pte. rewrite decide_False by exact Hne. case_decide as D; [|exact Hq]. subst pd'.
  destruct (pte_of (phys (kpm k1)) pd v) as [pte|] eqn:E; [|discriminate]. cbn in *. unfold parent_pte.
  destruct (user_pte pte && is_cow pte); [|exact Hq]. rewrite (shared_frame _ _ _ _ _ _ _ Hvm1 HpdR Hv E). exact Hq.
Qed.

(** The mappings at the end. *)
Lemma mem_pte4 pd' v : pd' ∈ pc :: R → 0 ≤ v < UVPN → (pd', v) ≠ (pd, stackv) → (pd', v) ≠ (pd, pftemp) →
  pte_of (phys (kpm k4)) pd' v = pte_of (phys (kpm k3)) pd' v.
Proof using P4.
  intros Hpd' Hv N1 N2. rewrite (ps_pte _ _ _ _ _ _ _ _ _ P4) by assumption.
  rewrite !decide_False by (intros [-> ->]; contradiction). reflexivity.
Qed.

Lemma mem_stack4 : pte_of (phys (kpm k4)) pd stackv = Some (own sp).
Proof using P4 HpdR.
  destruct ustack_range as (Hr & Hlt & _ & Hpf). rewrite (ps_pte _ _ _ _ _ _ _ _ _ P4) by (first [apply list_elem_of_further; exact HpdR|lia]).
  rewrite decide_False by lia. rewrite decide_True by auto. reflexivity.
Qed.

Lemma mem_own : sp ∉ pc :: R ∧ ¬ is_pt (phys s5) (pc :: R) sp ∧ sp ≠ xp ∧ page_of (phys (kpm k4)) pd stackv = Some sp.
Proof using P4 HpdR Hspb N Hvm4 S.
  destruct ustack_range as (Hr & Hlt & _ & Hpf). assert (page_of (phys (kpm k4)) pd stackv = Some sp) as Hpg
    by (unfold page_of; rewrite mem_stack4; cbn; rewrite (proj1 (own_facts sp Hspb)); reflexivity).
  destruct (mapped_data _ _ _ _ pd stackv sp Hvm4 (list_elem_of_further _ _ _ HpdR) ltac:(lia) Hpg) as (Hl & HR & Hpt).
  split; [exact HR|]. split; [|split; [intros ->; apply Hl, list_elem_of_here|exact Hpg]].
  intros F. destruct (nw_is_pt _ _ _ _ _ _ _ _ _ _ N sp F) as [G|G]; contradiction.
Qed.

Lemma mem_pte6 pd' v : pd' ∈ pc :: R → 0 ≤ v < UVPN → (pd', v) ≠ (pc, xstack) → pte_of (phys s6) pd' v = pte_of (phys (kpm k4)) pd' v.
Proof using P4 HpdR Hspb Hvm4 N S Hw.
  intros Hpd' Hv Hne. destruct mem_own as (HR & Hpt & _).
  rewrite (stored_pte sp _ (window_page sp lo hi Hw) _ _ _ S HR Hpt) by assumption.
  rewrite (nw_pte _ _ _ _ _ _ _ _ _ _ N), decide_False by (assumption || (intros [-> ->]; contradiction)). reflexivity.
Qed.

Lemma mem_data6 pd' v q b : pd' ∈ pc :: R → 0 ≤ v < UVPN → page_of (phys (kpm k4)) pd' v = Some q → b / PGSIZE = q →
  ¬ window sp lo hi b → ld8 (phys s6) b = ld8 (phys (kpm k4)) b.
Proof using Hvm4 N S.
  intros Hpd' Hv Hq Hb HnB. destruct S as (m & -> & Hm). psimpl. rewrite Hm by exact HnB.
  apply (proj1 (new_page_kept _ _ _ _ _ _ _ q _ _ _ pd' v Hvm4 N Hpd' Hv Hq) b Hb).
Qed.

(** A page that was mapped, with the mapping [pd'], [v] that is still there. *)
Lemma mem_data pd' v q b : pd' ∈ pc :: R → 0 ≤ v < UVPN → (pd', v) ≠ (pd, xstack) → (pd', v) ≠ (pd, pftemp) → (pd', v) ≠ (pd, stackv) →
  page_of (phys (kpm k3)) pd' v = Some q → b / PGSIZE = q → ld8 (phys s6) b = ld8 (phys (kpm k3)) b.
Proof using P4 Hvm4 N S Hw.
  intros Hpd' Hv N1 N2 N3 Hq Hb. rewrite (mem_data6 pd' v q b); [|exact Hpd'|exact Hv|unfold page_of; rewrite mem_pte4 by assumption; exact Hq|exact Hb|].
  - apply (ps_data _ _ _ _ _ _ _ _ _ P4 pd' v q b); assumption.
  - intros F%(window_page sp lo hi Hw). apply (ps_fresh _ _ _ _ _ _ _ _ _ P4 pd' v Hpd' Hv). congruence.
Qed.
(** A page of the parent below the stack's top, through the child's mapping. *)
Lemma mem_child3 v q : 0 ≤ v < ustack_top → page_of (phys (kpm k3)) pc v = Some q → page_of (phys (kpm k1)) pd v = Some q.
Proof using Hvm1 HpdR Hpte3.
  intros Hv Hq. destruct ustack_range as (_ & Hlt & _). unfold page_of in Hq.
  rewrite Hpte3, decide_True in Hq by (first [apply list_elem_of_here|lia]).
  destruct (fork_pte (phys (kpm k1)) pd pc pc v) as [pte'|] eqn:E; [|discriminate]. injection Hq as Hq.
  destruct (fork_pte_page _ _ _ _ pd pc pc v pte' Hvm1 HpdR ltac:(lia) E) as (pd0 & [[-> _]|[_ F]] & G); [cbn in Hq; congruence|contradiction].
Qed.

Lemma mem_child6 v : 0 ≤ v < UVPN → v ≠ xstack → pte_of (phys s6) pc v = pte_of (phys (kpm k3)) pc v.
Proof using HpdR HpcR P4 Hspb Hvm4 N S Hw.
  intros Hv Hne. pose proof mem_ne as Hpc. rewrite mem_pte6 by (first [apply list_elem_of_here|exact Hv|congruence]).
  apply mem_pte4; [apply list_elem_of_here|exact Hv|congruence..].
Qed.

(** The bytes of a page of the parent, as they were at first. *)
Lemma mem_start pd' v q b : pd' ∈ R → 0 ≤ v < UVPN → (pd', v) ≠ (pd, xstack) → page_of (phys (kpm k1)) pd' v = Some q →
  b / PGSIZE = q → ¬ window f lo hi b → ld8 (phys (kpm k3)) b = ld8 (phys (kpm k0)) b.
Proof using Hdata3 Hkept.
  intros Hpd' Hv Hne Hq Hb HnB. rewrite (Hdata3 pd' v q b) by assumption. destruct (Hkept pd' v Hpd' Hv Hne) as [_ G].
  rewrite mem_page0 in Hq by assumption. apply (proj1 (G q Hq)); assumption.
Qed.

Lemma mem_child_data v q b : 0 ≤ v < ustack_top → page_of (phys s6) pc v = Some q → b / PGSIZE = q → ¬ window f lo hi b →
  ld8 (phys s6) b = ld8 (phys (kpm k0)) b.
Proof using All.
  intros Hv Hq Hb HnB. destruct ustack_range as (_ & Hlt & Hxs & _). pose proof mem_ne as Hpc. unfold page_of in Hq. rewrite mem_child6 in Hq by lia.
  rewrite (mem_data pc v q b); [|apply list_elem_of_here|lia|congruence..|exact Hq|exact Hb].
  apply (mem_start pd v q b); [exact HpdR|lia|intros [= F]; lia|apply mem_child3; assumption|exact Hb|exact HnB].
Qed.

Lemma mem_parent_data pd' v q b : pd' ∈ R → 0 ≤ v < UVPN → (pd', v) ≠ (pd, xstack) → (pd', v) ≠ (pd, pftemp) →
  page_of (phys (kpm k0)) pd' v = Some q → b / PGSIZE = q → ¬ window f lo hi b → ld8 (phys s6) b = ld8 (phys (kpm k0)) b.
Proof using All.
  intros Hpd' Hv N1 N2 Hq Hb HnB. destruct ustack_range as (Hr & Hlt & Hxs & _). pose proof (list_elem_of_further pd' pc R Hpd') as Hpd2.
  rewrite <- mem_page0 in Hq by assumption. destruct (decide ((pd', v) = (pd, stackv))) as [[= -> ->]|N3].
  - apply (mem_child_data stackv q b Hr); try assumption. unfold page_of in *. rewrite mem_child6 by lia.
    rewrite Hpte3, decide_True by (first [apply list_elem_of_here|lia]). unfold fork_pte. rewrite decide_True by reflexivity. rewrite Hst in *. cbn in *.
    unfold child_pte, user_pte. rewrite (proj1 (land6 spte H6)). cbn. rewrite (shared_frame _ _ _ _ _ _ _ Hvm1 HpdR Hv Hst). exact Hq.
  - rewrite (mem_data pd' v q b); [|assumption..|apply mem_page3; assumption|exact Hb]. apply (mem_start pd' v q b); assumption.
Qed.

Lemma mem_stack_data o : 0 ≤ o < PGSIZE → ¬ (lo ≤ o < hi) → ld8 (phys s6) (sp * PGSIZE + o) = ld8 (phys (kpm k0)) (f * PGSIZE + o).
Proof using All.
  intros Ho Hout. destruct ustack_range as (Hr & Hlt & Hxs & _). destruct mem_own as (_ & _ & _ & Hpg).
  rewrite (mem_data6 pd stackv sp) by (first [apply list_elem_of_further; exact HpdR|lia|exact Hpg|apply page_byte, Ho|unfold window; lia]).
  rewrite (ps_page _ _ _ _ _ _ _ _ _ P4) by assumption.
  apply (mem_start pd stackv f); [exact HpdR|lia|intros [= F]; lia|unfold page_of; rewrite Hst; reflexivity|apply page_byte, Ho|unfold window; lia].
Qed.

(** Who maps the two new pages, and the page of the exception stack. *)
Lemma mem_new pd' v : pd' ∈ pc :: R → 0 ≤ v < UVPN → page_of (phys s6) pd' v = Some xp → pd' = pc ∧ v = xstack.
Proof using P4 HpdR Hspb Hvm4 N S Hw.
  intros Hpd' Hv Hq. destruct (decide ((pd', v) = (pc, xstack))) as [[= -> ->]|D]; [auto|]. exfalso. unfold page_of in Hq. rewrite mem_pte6 in Hq by assumption.
  destruct (vm_free_unused _ _ _ _ xp Hvm4 (list_elem_of_here _ _)) as (_ & _ & G). apply (G pd' v Hpd' Hv). exact Hq.
Qed.

Lemma mem_xstack6 : pte_of (phys s6) pc xstack = Some (own xp) ∧ page_of (phys s6) pc xstack = Some xp.
Proof using P4 HpdR Hspb Hvm4 N S Hw.
  destruct ustack_range as (Hr & Hlt & Hxs & _). destruct mem_own as (HR & Hpt & _).
  assert (0 ≤ xp < 65536) as Hb by (pose proof (page_inv_free_bound _ _ xp (vm_pages _ _ _ _ Hvm4) (list_elem_of_here _ _)); pose proof (vm_npages _ _ _ _ Hvm4); lia).
  assert (pte_of (phys s6) pc xstack = Some (own xp)) as E.
  { rewrite (stored_pte sp _ (window_page sp lo hi Hw) _ _ _ S HR Hpt) by (first [apply list_elem_of_here|lia]).
    rewrite (nw_pte _ _ _ _ _ _ _ _ _ _ N), decide_True by (first [apply list_elem_of_here|lia|auto]). reflexivity. }
  split; [exact E|]. unfold page_of. rewrite E. cbn. rewrite (proj1 (own_facts xp Hb)). reflexivity.
Qed.

Lemma mem_mapped pd' v q : pd' ∈ pc :: R → 0 ≤ v < UVPN → page_of (phys s6) pd' v = Some q → q ≠ xp → q ≠ sp →
  page_of (phys (kpm k3)) pd' v = Some q.
Proof using P4 HpdR Hspb Hvm4 N S Hw.
  intros Hpd' Hv Hq N1 N2. destruct (decide ((pd', v) = (pc, xstack))) as [[= -> ->]|D1]; [rewrite (proj2 mem_xstack6) in Hq; congruence|].
  unfold page_of in Hq. rewrite mem_pte6, (ps_pte _ _ _ _ _ _ _ _ _ P4) in Hq by assumption. case_decide; [discriminate|]. case_decide; [|exact Hq].
  cbn in Hq. rewrite (proj1 (own_facts sp Hspb)) in Hq. congruence.
Qed.

Lemma mem_own_private pd' v : pd' ∈ pc :: R → 0 ≤ v < UVPN → page_of (phys s6) pd' v = Some sp → pd' = pd ∧ v = stackv.
Proof using P4 HpdR Hspb Hvm4 N S Hw.
  intros Hpd' Hv Hq. destruct mem_own as (_ & _ & Hne & _).
  destruct (decide ((pd', v) = (pc, xstack))) as [[= -> ->]|D1]; [rewrite (proj2 mem_xstack6) in Hq; congruence|].
  unfold page_of in Hq. rewrite mem_pte6, (ps_pte _ _ _ _ _ _ _ _ _ P4) in Hq by assumption. case_decide; [discriminate|]. case_decide; [assumption|].
  exfalso. apply (ps_fresh _ _ _ _ _ _ _ _ _ P4 pd' v Hpd' Hv). exact Hq.
Qed.

Lemma mem_handler : exception_stack (phys s6) (pc :: R) pd xq.
Proof using HpcR X3 P4 HpdR Hspb Hvm4 N S Hw.
  destruct ustack_range as (Hr & Hlt & Hxs & Hpf). pose proof X3 as [(xpte & Hx & Hq & Hx6) Hp]. pose proof mem_ne as Hpc.
  assert (pd ∈ pc :: R) as Hpd by (apply list_elem_of_further; exact HpdR).
  assert (page_of (phys (kpm k3)) pd xstack = Some xq) as Hxq by (unfold page_of; rewrite Hx; cbn; congruence).
  assert (pte_of (phys (kpm k4)) pd xstack = pte_of (phys (kpm k3)) pd xstack) as E4 by (apply mem_pte4; [exact Hpd|lia|intros [= F]; lia..]). split.
  - exists xpte. rewrite mem_pte6, E4 by (first [exact Hpd|lia|congruence]). auto.
  - intros pd' v Hpd' Hv F. apply (Hp pd' v Hpd' Hv). apply mem_mapped; [exact Hpd'|exact Hv|exact F| |].
    + intros ->. destruct (vm_free_unused _ _ _ _ xp Hvm4 (list_elem_of_here _ _)) as (_ & _ & G). apply (G pd xstack Hpd ltac:(lia)).
      unfold page_of. rewrite E4. exact Hxq.
    + intros ->. apply (ps_fresh _ _ _ _ _ _ _ _ _ P4 pd xstack Hpd ltac:(lia)). exact Hxq.
Qed.

Lemma fork_memory : forked_space (phys (kpm k0)) (phys s6) R pd pc xp sp f lo hi.
Proof using All.
  destruct ustack_range as (Hr & Hlt & Hxs & Hpf). pose proof mem_ne as Hne. pose proof (list_elem_of_here pc R) as Hpc.
  pose proof (list_elem_of_further pd pc R HpdR) as Hpd. split.
  - intros v Hv. rewrite mem_child6, Hpte3, decide_True by (assumption || lia). unfold fork_pte. rewrite decide_True by reflexivity.
    rewrite (proj1 (Hkept pd v HpdR ltac:(lia) ltac:(intros [= F]; lia))). reflexivity.
  - intros v Hv N1 N2. rewrite mem_pte6, mem_pte4, Hpte3, decide_True by (assumption || lia || congruence). unfold fork_pte. rewrite decide_False, decide_True by auto.
    rewrite (proj1 (Hkept pd v HpdR ltac:(lia) ltac:(intros [= F]; lia))). reflexivity.
  - rewrite mem_pte6 by (assumption || lia || congruence). apply mem_stack4.
  - apply mem_own_private.
  - apply mem_stack_data.
  - rewrite mem_pte6, (ps_pte _ _ _ _ _ _ _ _ _ P4), decide_True by (auto || lia || congruence). reflexivity.
  - intros v Hv. destruct (decide (v = xstack)) as [->|Hvx]; [apply mem_xstack6|].
    rewrite mem_child6, Hpte3, decide_False, decide_True by (assumption || lia). reflexivity.
  - intros i Hi. destruct mem_own as (_ & _ & Hsx & _). rewrite (stored_wd sp _ (window_page sp lo hi Hw) _ _ S) by (exact Hi || congruence).
    apply (nw_zero _ _ _ _ _ _ _ _ _ _ N), Hi.
  - apply mem_new.
  - exists xq. apply mem_handler.
  - intros pd' v Hpd' N1 Hv. pose proof (list_elem_of_further pd' pc R Hpd') as Hpd2. assert (pd' ≠ pc) as Hnc by (intros ->; contradiction).
    rewrite mem_pte6, mem_pte4, Hpte3 by (assumption || congruence). rewrite (decide_False (P := pd' = pc)) by exact Hnc.
    rewrite <- (proj1 (Hkept pd' v Hpd' Hv ltac:(congruence))). unfold fork_pte. rewrite !(decide_False (P := pd' = _)) by assumption. case_decide; reflexivity.
  - apply mem_parent_data.
  - apply mem_child_data.
Qed.
End memory.

Lemma shared_stack pte : Z.land pte 6 = 6 → is_cow pte = true ∧ user_pte pte = true ∧
  Z.land (shared_pte pte) PTE_COW ≠ 0 ∧ Z.land (shared_pte pte) PTE_U ≠ 0 ∧ Z.land (shared_pte pte) PTE_W = 0.
Proof.
  intros H. destruct (land6 pte H) as [HU HW]. assert (is_cow pte = true) as E by (unfold is_cow; rewrite HW; reflexivity).
  split; [exact E|]. split; [exact HU|]. unfold shared_pte. rewrite E.
  rewrite !land_page by (split; reflexivity || discriminate). repeat split; discriminate.
Qed.

(** The first store of the parent after the loop, which faults, and the state
    in which it leaves the parent. *)
Lemma fork_fault uframe entry spill fn lo hi s1 k1 l1 R x c i e pd p j child spte xq k3 l3 e3 :
  Z.land (tf_cs uframe) 3 = 3 → entry env_pgfault_upcall ≠ 0 → stack_use uframe spill stackv lo hi →
  _handler s1 env_pgfault_upcall = fn → env_upcalls e env_pgfault_upcall = entry env_pgfault_upcall →
  vm_inv (kpm k1) l1 R x → pd ∈ R → pte_of (phys (kpm k1)) pd stackv = Some spte → Z.land spte 6 = 6 →
  copied_to lo hi k1 R x c i e pd p j child spte xq k3 l3 e3 →
  ∃ k4 l4 e4 sp, push uframe entry spill fn (set_uk k3 s1) = Ret tt (set_uk k4 s1) ∧
    ready stackv k4 l4 (p :: R) (held sp x) c i e4 pd (own sp) ∧ child_of k4 i e4 (env_id child) j child ∧
    (∀ j', j' ≠ i → j' ≠ j → envs k4 !! j' = envs k1 !! j') ∧ private_stack stackv lo hi k3 (p :: R) pd (frame_of spte) sp k4 ∧
    1 + missing (phys (kpm k4)) p ≤ Z.of_nat (length l4) ∧ 0 ≤ sp < 65536.
Proof.
  intros Hcs Hen SU Hh Hup Hvm HpdR Hst H6 T. destruct ustack_range as (Hr & Hlt & Hxs & Hpf). destruct (shared_stack spte H6) as (Ecow & EU & Scow & SUp & SW).
  pose proof (missing_le (phys (kpm k3)) p) as Hm. pose proof (ct_room _ _ _ _ _ _ _ _ _ _ _ _ _ _ _ _ _ T) as Hroom.
  destruct l3 as [|sp l3]; [cbn [length] in Hroom; lia|].
  assert (pte_of (phys (kpm k3)) pd stackv = Some (shared_pte spte)) as Hst3.
  { rewrite (ct_pte _ _ _ _ _ _ _ _ _ _ _ _ _ _ _ _ _ T), decide_True by (first [apply list_elem_of_further; exact HpdR|lia]). unfold fork_pte.
    rewrite decide_False by (intros ->; exact (ct_new _ _ _ _ _ _ _ _ _ _ _ _ _ _ _ _ _ T HpdR)). rewrite decide_True, Hst by reflexivity.
    cbn. unfold parent_pte. rewrite EU, Ecow. reflexivity. }
  pose proof (ct_state _ _ _ _ _ _ _ _ _ _ _ _ _ _ _ _ _ T) as U3. pose proof (ct_env _ _ _ _ _ _ _ _ _ _ _ _ _ _ _ _ _ T) as (_ & _ & Eup & _ & _).
  pose proof (ki_vm _ _ _ _ _ (ut_kinv _ _ _ _ _ _ _ _ U3)) as Hvm3.
  assert (cow_stack entry stackv k3 (sp :: l3) (p :: R) x c i e3 pd (shared_pte spte) xq) as CS
    by (split; try apply T; [rewrite Eup; exact Hup|exact Hst3|auto]).
  destruct (push_faults uframe entry spill fn stackv lo hi SU s1 k3 sp l3 (p :: R) x c i e3 pd (shared_pte spte) xq Hcs ltac:(lia) ltac:(lia) Hh Hen CS SW)
    as (k4 & l4 & e4 & E & U4 & Q & P & Hl); [left; intros ->; cbn [length] in Hroom; lia|].
  rewrite (shared_frame _ _ _ _ _ stackv _ Hvm HpdR ltac:(lia) Hst) in P. exists k4, l4, e4, sp.
  assert (0 ≤ sp < 65536) as Hspb by (pose proof (page_inv_free_bound _ _ sp (vm_pages _ _ _ _ Hvm3) (list_elem_of_here _ _)); pose proof (vm_npages _ _ _ _ Hvm3); lia).
  assert (pd ∈ p :: R) as Hpd by (apply list_elem_of_further; exact HpdR).
  split; [exact E|]. split; [|split; [|split; [|split; [exact P|split; [|exact Hspb]]]]].
  - split; [exact U4|rewrite (proj2 (qt_kern _ _ _ _ _ _ Q)); apply T|apply (dirs_grow_user _ _ _ pd (qt_dirs _ _ _ _ _ _ Q) Hpd), T|].
    rewrite (ps_pte _ _ _ _ _ _ _ _ _ P), decide_False, decide_True by (first [exact Hpd|lia|auto]). split; [reflexivity|apply own6].
  - destruct (ct_child _ _ _ _ _ _ _ _ _ _ _ _ _ _ _ _ _ T) as [C1 C2 C3 C4 C5 C6 C7]. destruct (qt_env _ _ _ _ _ _ Q) as (_ & _ & _ & Eid & _).
    split; try assumption; [rewrite (qt_others _ _ _ _ _ _ Q) by exact C2; exact C1|rewrite Eid; exact C7].
  - intros j' Hi' Hj'. rewrite (qt_others _ _ _ _ _ _ Q) by exact Hi'. apply T; assumption.
  - enough (missing (phys (kpm k4)) p ≤ missing (phys (kpm k3)) p) by (cbn [length] in Hroom; lia). apply missing_mono. intros i' Hi'.
    apply (dirs_grow_tables _ _ _ p i' (qt_dirs _ _ _ _ _ _ Q) (list_elem_of_here _ _)). unfold UPDX in Hi'. lia.
Qed.

(** C10. fork.  The parent runs with a stack that it can write, on which it
    stores between the calls, and an exception stack of its own if it has
    registered a page fault handler before.  Given a free environment and 961
    free pages (two for the exception stack of the parent, the child's page
    directory, a page table for each of its 955 slots, two for the fault on the
    parent's stack, and the child's exception stack), fork returns the id of a
    new runnable child of the caller, which will return 0 from its sys_exofork
    with the caller's other registers.  Below the top of the stack every page of
    the parent for user mode is mapped at the same address of the child:
    writable and copy-on-write pages copy-on-write and read-only, the others
    read-only.  The parent's own mappings become read-only and copy-on-write in
    the same way, but for two: its stack, whose next store faults, so that it
    goes through the handler and maps a page of its own there, writable, with
    the bytes of the page that the child now has alone; and PFTEMP, which the
    handler has unmapped.  The child has a zeroed exception stack of its own, no
    other address space has changed, and every page that was mapped keeps its
    contents, so that parent and child see the same memory, but for the bytes of
    the stack between [lo] and [hi] where the parent's stores go.  (The library's
    own variables, of which fork sets the handler's, are not bytes of the memory
    here but components of the state.) *)
Theorem fork_copies_on_write (uframe : Trapframe) (entry : upcall → Z) (spill : us → list (Z * Z)) (fn lo hi : Z)
    (s : us) (l R : list Z) (x : Z → Z) (c : CpuInfo) (i : Z) (e : Env) (pd kp spte j : Z) (ej : Env) :
  Z.land (tf_cs uframe) 3 = 3 → 0 < entry env_pgfault_upcall < 2 ^ 32 → stack_use uframe spill stackv lo hi →
  program (uk s) l R x c i e pd kp spte →
  (_handler s env_pgfault_upcall ≠ 0 → ∃ xq, exception_stack (phys (kpm (uk s))) R pd xq) →
  env_free_list (uk s) = Some j → envs (uk s) !! j = Some ej → env_status ej = ENV_FREE → 0 ≤ j < NENV → 0 ≤ env_id ej < 2 ^ 31 →
  (∀ q f, pages (kpm (uk s)) !! q = Some f → pp_ref f ≤ 32767) → UPDX + 6 ≤ Z.of_nat (length l) →
  ∃ envid s' l' x' e' pc xp sp ec, UserLib.fork uframe entry spill fn s = Ret envid s' ∧
    ustate (uk s') l' (pc :: R) x' c i e' pd ∧ envs (uk s') !! j = Some ec ∧
    forked_child uframe entry e envid j pc ec ∧ envid ≠ env_id ej ∧
    (∀ j', j' ≠ i → j' ≠ j → envs (uk s') !! j' = envs (uk s) !! j') ∧
    forked_space (phys (kpm (uk s))) (phys (kpm (uk s'))) R pd pc xp sp (frame_of spte) lo hi ∧
    (∀ g, _handler s' g = if decide (g = env_pgfault_upcall) then fn else _handler s g).
Proof.
  intros Hcs Hent SU G Hxst Hfl Hj Hfree Hjr Hid Hrefs Hroom. assert (u32_range (entry env_pgfault_upcall)) as Hent' by (unfold u32_range; lia).
  destruct ustack_range as (Hr & Hlt & Hxs & _). pose proof (ut_in _ _ _ _ _ _ _ _ (pg_state _ _ _ _ _ _ _ _ _ _ G)) as HpdR.
  destruct (fork_prepare uframe entry spill fn lo hi Hcs Hent' SU s l R x c i e pd kp spte G) as (sa & sb & s1 & l1 & x1 & e1 & xq & Ea & Eb & E1 & P);
    [unfold UPDX in Hroom; lia|exact Hxst|].
  destruct P as [G1 X1 Hd1 Ho1 Hf1 Hl1 K1 Hh1]. pose proof (pg_state _ _ _ _ _ _ _ _ _ _ G1) as U1. pose proof (pg_stack _ _ _ _ _ _ _ _ _ _ G1) as [Hst1 H6].
  destruct l1 as [|pc l2]; [cbn [length] in Hl1; unfold UPDX in Hroom; lia|].
  assert (j ≠ i) as Hji.
  { intros ->. pose proof (um_cur _ _ _ _ _ (ut_mode _ _ _ _ _ _ _ _ (pg_state _ _ _ _ _ _ _ _ _ _ G))) as Hi. rewrite Hj in Hi. injection Hi as ->.
    rewrite (ut_run _ _ _ _ _ _ _ _ (pg_state _ _ _ _ _ _ _ _ _ _ G)) in Hfree. discriminate. }
  destruct (fork_copy uframe entry spill fn lo hi Hcs SU s1 pc l2 R x1 c i e1 pd kp spte xq j ej G1 X1) as (k2 & k2' & k3 & l3 & e3 & E2 & E2' & E3 & T);
    [rewrite Hf1; exact Hfl|rewrite Ho1 by exact Hji; exact Hj|exact Hfree|exact Hjr|exact Hid| |cbn [length] in Hl1; lia|].
  { intros v q f Hv Hq Hf. destruct (K1 pd v HpdR ltac:(lia) ltac:(intros [= F]; lia)) as [Ev K].
    destruct (K q) as [_ C]; [unfold page_of in *; rewrite <- Ev; exact Hq|]. destruct (C f Hf) as (f0 & Hf0 & Hle). specialize (Hrefs q f0 Hf0). lia. }
  destruct Hd1 as (_ & _ & Eup & Eid & _). cbn in Eid, Eup.
  destruct (blank_child_fields e1 (exofork_frame uframe) j pc ej) as (_ & Bpg & Bpar & Bid & Btf & Bup).
  pose proof (new_env_id (env_id e1) j pc ej Hjr Hid) as (Hrc & HX & Hne). rewrite <- Bid in Hrc, HX, Hne.
  set (child := blank_child _ _ _ _ _) in *. clearbody child. rewrite Eid in Bpar. pose proof (ki_vm _ _ _ _ _ (ut_kinv _ _ _ _ _ _ _ _ U1)) as Hvm1.
  pose proof (ct_new _ _ _ _ _ _ _ _ _ _ _ _ _ _ _ _ _ T) as HpcR.
  destruct (fork_fault uframe entry spill fn lo hi s1 (uk s1) (pc :: l2) R x1 c i e1 pd pc j child spte xq k3 l3 e3 Hcs ltac:(lia) SU)
    as (k4 & l4 & e4 & sp & E4 & Rd4 & C4 & Ho4 & P4 & Hroom4 & Hspb); try assumption.
  { rewrite Hh1, decide_True by reflexivity. reflexivity. }
  { rewrite Eup. reflexivity. }
  destruct (fork_finish uframe entry spill fn lo hi Hcs Hent' SU (set_uk k4 s1) l4 (pc :: R) _ c i e4 pd (env_id child) j child pc (own sp)
    Rd4 C4 Bpg (list_elem_of_here _ _) ltac:(intros ->; contradiction) Hroom4) as (xp & l5 & k6 & l6 & e6 & s5 & -> & E5 & U6 & Hj6 & Ho6 & N & S).
  cbn [uk set_uk] in *. rewrite (proj1 (own_facts sp Hspb)) in S.
  eexists (env_id child), (set_uk k6 s1), l6, _, e6, pc, xp, sp, _.
  split; [|split; [exact U6|split; [exact Hj6|split; [apply forked_child_intro; assumption|split; [exact Hne|split; [|split; [|exact Hh1]]]]]]].
  - unfold UserLib.fork, set_pgfault_handler. rewrite (bind_Ret _ _ _ _ _ Ea), (bind_Ret _ _ _ _ _ Eb), (bind_Ret _ _ _ _ _ E1), (bind_Ret _ _ _ _ _ E2).
    rewrite (proj2 (Z.ltb_ge (env_id child) 0)), (proj2 (Z.eqb_neq (env_id child) 0)) by lia.
    fold ustack_top. rewrite (bind_Ret _ _ _ _ _ E2'), (bind_Ret _ _ _ _ _ E3), (bind_Ret _ _ _ _ _ E4). exact E5.
  - intros j' Hi' Hj'. cbn. rewrite Ho6, Ho4 by assumption. apply Ho1, Hi'.
  - cbn. apply (fork_memory (uk s) (uk s1) k3 k4 s5 (kpm k6) (pc :: l2) l5 l6 R x1 _ pd pc xp sp xq lo hi spte Hvm1 HpdR HpcR Hst1 H6 K1
      (ct_pte _ _ _ _ _ _ _ _ _ _ _ _ _ _ _ _ _ T) (ct_page _ _ _ _ _ _ _ _ _ _ _ _ _ _ _ _ _ T) (ct_xstack _ _ _ _ _ _ _ _ _ _ _ _ _ _ _ _ _ T)
      P4 (su_window _ _ _ _ _ SU) Hspb (ki_vm _ _ _ _ _ (ut_kinv _ _ _ _ _ _ _ _ (rd_state _ _ _ _ _ _ _ _ _ _ Rd4))) N S).
Qed.

(** A machine of 970 pages: page 0 is the directory of environment 0, page 1
    the kernel's, page 2 will be mapped, the others are free. *)
Definition demo_fork_vm : pm :=
  MkPm 970 970 (list_to_map ((λ p, (p, MkPageInfo (if (2 <? p) && (p <? 969) then Some (p + 1) else None) (if p <? 2 then 1 else 0))) <$> seqZ 0 970))
    (Some 3) (KERNBASE + 970 * PGSIZE) 0 0 0 MMIOBASE (phys demo_vm5) 0 [] 0.

Lemma demo_fork_page_inv : page_inv demo_fork_vm (seqZ 3 967).
Proof. apply page_invb_sound. vm_compute. reflexivity. Qed.

Lemma demo_fork_vm_inv : vm_inv demo_fork_vm (seqZ 3 967) [0] (held 1 none_held).
Proof.
  pose proof demo_fork_page_inv as Hp. assert (∀ q j, 0 ≤ j < UPDX → pt_of (phys demo_fork_vm) q j = None) as Hpt
    by (intros q j Hj; unfold pt_of; change (phys demo_fork_vm) with (phys demo_vm5); rewrite demo_vm5_wd by assumption; reflexivity).
  assert (∀ y q p, 0 ≤ y p → 0 ≤ held q y p) as Hh by (intros y q p Hy; unfold held; case_bool_decide; cbn; lia).
  assert (∀ p, 0 ≤ none_held p) as H0 by (intros p; unfold none_held; lia).
  apply vm_add_root; [|intros p; apply Hh, H0|split; reflexivity|apply not_elem_of_nil| | |intros i Hi; apply Hpt, Hi].
  - apply vm_inv_start; [exact Hp|intros p; apply Hh, Hh, H0|]. intros p i Hi.
    destruct (decide (p = 0 ∨ p = 1)) as [[->| ->]|D]; [vm_compute in Hi; injection Hi as <-; vm_compute; discriminate..|].
    unfold held, none_held. rewrite !bool_decide_eq_false_2 by tauto. apply (pi_ref _ _ Hp _ _ Hi).
  - intros (pd & i & F & _). inversion F.
  - intros pd v F. inversion F.
Qed.

(** Page 2 is the stack of environment 0. *)
Definition demo_parent : pm :=
  match page_insert None (kva_of 0) 2 0xeebfd000 6 demo_fork_vm with Ret _ s => s | Stop _ s => s end.

Lemma demo_fork_empty q j : 0 ≤ j < UPDX → pt_of (phys demo_fork_vm) q j = None.
Proof. intros Hj. unfold pt_of. change (phys demo_fork_vm) with (phys demo_vm5). rewrite demo_vm5_wd by assumption. reflexivity. Qed.

Lemma demo_parent_run : ∃ l, inserted demo_fork_vm (seqZ 3 967) [0] (held 1 none_held) 0 stackv 2 0x2007 demo_parent l.
Proof.
  destruct (insert_run None demo_fork_vm (seqZ 3 967) [0] (held 1 none_held) 0 2 0xeebfd000 6 (MkPageInfo None 0) demo_fork_vm_inv)
    as [(_ & F & _)|(s' & l' & E & I)].
  - apply list_elem_of_here.
  - split; reflexivity || discriminate.
  - vm_compute. reflexivity.
  - rewrite elem_of_seqZ. lia.
  - decided.
  - intros (pd & i & _ & Hi & E). rewrite demo_fork_empty in E by assumption. discriminate E.
  - reflexivity.
  - split; reflexivity || discriminate.
  - discriminate F.
  - unfold demo_parent. rewrite E. exists l'. exact I.
Qed.

Lemma demo_parent_facts : cr3 demo_parent = 0 ∧ npages demo_parent = 970 ∧
  wd (phys demo_parent) 0 (PDX UVPT) = uvpt_entry 0 ∧
  bool_decide (map_Forall (λ _ f, pp_ref f ≤ 32767) (pages demo_parent)) = true ∧
  forallb (λ j, match pt_of (phys demo_parent) 0 j with Some t => (0 <=? t) && (t <? 970) | None => true end) (seqZ UPDX (1024 - UPDX)) = true.
Proof. vm_compute. repeat split; reflexivity. Qed.

#[local] Opaque demo_parent.

Lemma demo_us_pm s : phys (kpm (uk (demo_us s))) = phys s ∧ npages (kpm (uk (demo_us s))) = npages s ∧
  cr3 (kpm (uk (demo_us s))) = cr3 s ∧ pages (kpm (uk (demo_us s))) = pages s ∧ kern_pgdir (kpm (uk (demo_us s))) = kva_of 1.
Proof. repeat split. Qed.

Lemma demo_parent_walk l x : vm_inv demo_parent l [0] x → walkable demo_parent 0.
Proof.
  intros H. destruct demo_parent_facts as (_ & Hn & _ & _ & Hf). split; [rewrite Hn; lia|]. intros i t Hi Et.
  destruct (Z_lt_le_dec i UPDX) as [L|L]; [apply (vm_pt_bound _ _ _ _ 0 i t H (list_elem_of_here _ _) (conj (proj1 Hi) L) Et)|].
  rewrite forallb_forall in Hf. specialize (Hf i). cbv beta in Hf. rewrite Et, Hn in *.
  enough ((0 <=? t) && (t <? 970) = true) by lia. apply Hf. apply list_elem_of_In, elem_of_seqZ. lia.
Qed.

Lemma demo_parent_kern l : inserted demo_fork_vm (seqZ 3 967) [0] (held 1 none_held) 0 stackv 2 0x2007 demo_parent l →
  kern_dir (kpm (uk (demo_us demo_parent))) [0] (held 1 none_held) 1.
Proof.
  intros I. destruct demo_parent_facts as (_ & Hn & _). destruct (demo_us_pm demo_parent) as (Em & En & _ & _ & Ek). split.
  - exact Ek.
  - rewrite En, Hn. lia.
  - vm_compute. reflexivity.
  - decided.
  - rewrite Em. intros F.
    destruct (in_is_pt _ _ _ _ _ _ _ _ _ _ I 1 F) as [G|(pd & i & _ & Hi & G)].
    + apply elem_of_seqZ in G. lia.
    + rewrite demo_fork_empty in G by assumption. discriminate G.
  - intros i Hi. rewrite Em, (pt_of_ext (phys demo_fork_vm)); [apply demo_fork_empty, Hi|].
    pose proof (in_data _ _ _ _ _ _ _ _ _ _ I 1 i) as G. apply G; clear G; [unfold UPDX in Hi; lia|rewrite elem_of_seqZ; lia| |].
    { intros F%list_elem_of_singleton. discriminate F. }
    intros (pd & j & _ & Hj & G). rewrite demo_fork_empty in G by assumption. discriminate G.
  - rewrite Em. intros pd v Hpd%list_elem_of_singleton Hv. subst pd. unfold page_of. rewrite (in_pte _ _ _ _ _ _ _ _ _ _ I) by (apply list_elem_of_here || exact Hv).
    case_decide; [discriminate|]. unfold pte_of. rewrite demo_fork_empty by (apply vpn_idx, Hv). discriminate.
Qed.

Lemma demo_parent_tables l : inserted demo_fork_vm (seqZ 3 967) [0] (held 1 none_held) 0 stackv 2 0x2007 demo_parent l →
  user_tables (phys demo_parent) 0.
Proof.
  intros I i Hi Hp. destruct (in_pde _ _ _ _ _ _ _ _ _ _ I 0 i (list_elem_of_here _ _) Hi) as [E|(_ & _ & _ & t & _ & E)]; rewrite E in *;
    [|apply pde_for_tables].
  change (phys demo_fork_vm) with (phys demo_vm5) in Hp. rewrite demo_vm5_wd in Hp by exact Hi. discriminate Hp.
Qed.

Lemma demo_parent_stack l : inserted demo_fork_vm (seqZ 3 967) [0] (held 1 none_held) 0 stackv 2 0x2007 demo_parent l →
  pte_of (phys demo_parent) 0 stackv = Some 0x2007.
Proof.
  intros I. rewrite (in_pte _ _ _ _ _ _ _ _ _ _ I) by (apply list_elem_of_here || (split; reflexivity || discriminate)).
  apply decide_True. auto.
Qed.

Lemma demo_program : ∃ l, program (uk (demo_us demo_parent)) l [0] (held 1 none_held) demo_cpu 0 (demo_env 0) 0 1 0x2007 ∧
  UPDX + 6 ≤ Z.of_nat (length l).
Proof.
  destruct demo_parent_run as [l I]. destruct demo_parent_facts as (Hcr & _ & Hw & _). destruct (demo_us_pm demo_parent) as (Em & _ & Ec & _). exists l. split.
  - split; [apply demo_ustate, I|apply (demo_parent_kern l I)|split; [rewrite Ec; exact Hcr|rewrite Em; exact Hw]|rewrite Em; apply (demo_parent_tables l I)| |].
    + apply (walkable_dir demo_parent); [reflexivity|intros; rewrite Em; reflexivity|apply (demo_parent_walk _ _ (in_inv _ _ _ _ _ _ _ _ _ _ I))].
    + rewrite Em. split; [apply (demo_parent_stack l I)|reflexivity].
  - pose proof (in_len _ _ _ _ _ _ _ _ _ _ I) as G. rewrite length_seqZ in G. unfold UPDX. lia.
Qed.

(** Between two calls the program stores a byte of a return address. *)
Definition demo_stack_frame : Trapframe := set_tf_esp (USTACKTOP - 64) demo_uframe.
Definition demo_spill (s : us) : list (Z * Z) := [(USTACKTOP - 128, 0x20)].

Lemma demo_stack_use : stack_use demo_stack_frame demo_spill stackv 0xf00 PGSIZE.
Proof.
  split.
  - split; reflexivity || discriminate.
  - intros s va b Hin. apply list_elem_of_singleton in Hin. injection Hin as -> ->. split; reflexivity || discriminate.
  - discriminate.
  - split; discriminate.
  - intros w Hw. repeat (apply elem_of_cons in Hw as [->|Hw]; [split; reflexivity || discriminate|]). inversion Hw.
Qed.

Lemma fork_copies_on_write_witness : pte_of (phys (kpm (uk (demo_us demo_parent)))) 0 stackv = Some 0x2007 ∧
  ∃ envid s' ec pc sp, UserLib.fork demo_stack_frame (λ _, 0x801000) demo_spill 0x800200 (demo_us demo_parent) = Ret envid s' ∧
    envs (uk s') !! 1 = Some ec ∧ env_status ec = ENV_RUNNABLE ∧ env_id ec = envid ∧ env_pgdir ec = kva_of pc ∧
    pte_of (phys (kpm (uk s'))) pc stackv = Some 0x2805 ∧ pte_of (phys (kpm (uk s'))) 0 stackv = Some (own sp) ∧
    ld8 (phys (kpm (uk s'))) (sp * PGSIZE) = ld8 (phys demo_parent) 0x2000.
Proof.
  destruct demo_program as (l & G & Hl). destruct demo_parent_facts as (_ & _ & _ & Hr & _). destruct (demo_us_pm demo_parent) as (Em & _ & _ & Epg & _). apply bool_decide_eq_true in Hr.
  destruct (pg_stack _ _ _ _ _ _ _ _ _ _ G) as [Hpte _]. split; [exact Hpte|]. destruct demo_slot1 as [H1 He1].
  destruct (fork_copies_on_write demo_stack_frame (λ _, 0x801000) demo_spill 0x800200 0xf00 PGSIZE (demo_us demo_parent) l [0] (held 1 none_held) demo_cpu 0
    (demo_env 0) 0 1 0x2007 1 (demo_env 1) eq_refl) as (envid & s' & l' & x' & e' & pc & xp & sp & ec & E & _ & Hec & F & _ & _ & S & _).
  - split; reflexivity.
  - exact demo_stack_use.
  - exact G.
  - intros F. contradiction.
  - reflexivity.
  - exact He1.
  - reflexivity.
  - exact H1.
  - split; reflexivity || discriminate.
  - rewrite Epg. intros q f Hf. apply (Hr q f Hf).
  - exact Hl.
  - exists envid, s', ec, pc, sp. destruct F as [[F1 _] _ F3 F4 _ _].
    assert (0 ≤ stackv < ustack_top) as Hv by (split; reflexivity || discriminate).
    split; [exact E|]. split; [exact Hec|]. split; [exact F3|]. split; [exact F1|]. split; [exact F4|]. split; [|split].
    + rewrite (fs_child _ _ _ _ _ _ _ _ _ _ S stackv Hv), Hpte. reflexivity.
    + apply (fs_stack _ _ _ _ _ _ _ _ _ _ S).
    + pose proof (fs_stack_data _ _ _ _ _ _ _ _ _ _ S 0 ltac:(split; reflexivity || discriminate) ltac:(intros [F _]; apply F; reflexivity)) as B.
      rewrite Z.add_0_r, Em in B. exact B.
Defined.
