(* ===== verification/Dumbfork.v ===== *)
(** The program user/dumbfork.c, whose fork copies pages instead of sharing
    them, and what it achieves. *)
From S2P Require Import Prelude Mmu Mem Pages PageTable AddrSpace UserMem Console KState Env EnvVm EnvSpec Syscall SyscallSpec Trap TrapSpec UserLib UserCalls UserSpec PgfaultSpec UserStack Duppage ForkLoop ForkSpec.

(** * The program

    As in the library's fork, [push] stands for the stores of the compiled code
    on the program's stack before each call. *)

Section program.
Context (uframe : Trapframe) (entry : upcall → Z) (spill : us → list (Z * Z)) (pgfault_fn : Z).
Local Notation push := (push uframe entry spill pgfault_fn).

Definition duppage (dstenv addr : Z) : M us unit :=
  let perm := Z.lor (Z.lor PTE_P PTE_U) PTE_W in
  push ;;
  r ← UserLib.sys_page_alloc uframe dstenv addr perm;
  when (r <? 0) (panic "sys_page_alloc: %e") ;;
  push ;;
  r ← UserLib.sys_page_map uframe dstenv addr 0 UTEMP perm;
  when (r <? 0) (panic "sys_page_map: %e") ;;
  push ;;
  umemmove UTEMP addr PGSIZE ;;
  push ;;
  r ← UserLib.sys_page_unmap uframe 0 UTEMP;
  when (r <? 0) (panic "sys_page_unmap: %e").

(** The number of pages from UTEXT to the end of the program. *)
Definition text_pages (end_ : Z) : Z := (end_ - UTEXT + (PGSIZE - 1)) / PGSIZE.

(** [end_] is the address that the linker gives to the symbol end, [local] that
    of the variable addr on the stack. *)
Definition dumbfork (end_ local : Z) : M us Z :=
  push ;;
  envid ← UserLib.sys_exofork uframe;
  if envid <? 0 then panic "sys_exofork: %e"
  else if envid =? 0 then
    push ;;
    id ← UserLib.sys_getenvid uframe;
    modify (set_thisenv (Some (ENVX id))) ;;
    mret 0
  else
    for_range (Z.to_nat (text_pages end_)) UTEXT PGSIZE (λ addr, push ;; duppage envid addr) ;;
    push ;;
    duppage envid (ROUNDDOWN local PGSIZE) ;;
    push ;;
    r ← UserLib.sys_env_set_status uframe envid ENV_RUNNABLE;
    when (r <? 0) (panic "sys_env_set_status: %e") ;;
    mret envid.
End program.

(** * One page *)

(** The virtual page of UTEMP. *)
Definition utemp : Z := UTEMP / PGSIZE.

Lemma utemp_range : 0 ≤ utemp < UVPN.
Proof. split; reflexivity || discriminate. Qed.

Lemma slot_range j : 0 ≤ j < UPDX → 0 ≤ j < 1024.
Proof. unfold UPDX. lia. Qed.

Lemma inserted_user_tables s l R x pd v pp e s' l' pd' : inserted s l R x pd v pp e s' l' → pd' ∈ R →
  user_tables (phys s) pd' → user_tables (phys s') pd'.
Proof.
  intros N Hpd H i Hi Hp. destruct (in_pde _ _ _ _ _ _ _ _ _ _ N pd' i Hpd Hi) as [E|(_ & _ & _ & t & _ & E)]; rewrite E in *; [apply H; assumption|apply pde_for_tables].
Qed.

Lemma new_tables_kept s l R x pd v p perm s' l2 pd' i : page_new s l R x pd v p perm s' l2 → pd' ∈ R → 0 ≤ i < UPDX →
  pt_of (phys s) pd' i ≠ None → pt_of (phys s') pd' i ≠ None.
Proof.
  intros N Hpd Hi Hn. destruct (nw_pde _ _ _ _ _ _ _ _ _ _ N pd' i Hpd Hi) as [E|(-> & _ & F & _)]; [|contradiction].
  rewrite (pt_of_ext _ _ _ _ E). exact Hn.
Qed.

Lemma pte_table m pd v : pte_of m pd v ≠ None → pt_of m pd (v / 1024) ≠ None.
Proof. unfold pte_of. intros H E. rewrite E in H. contradiction. Qed.

Lemma new_table_ext m m' pd i : (pt_of m pd i ≠ None → pt_of m' pd i ≠ None) → (new_table m' pd i ≤ new_table m pd i)%nat.
Proof. unfold new_table. intros H. do 2 case_decide; try lia. destruct H; assumption. Qed.

Lemma child_of_ext k k' i e e' envid j ej : child_of k i e envid j ej → envs k' !! j = envs k !! j → env_id e' = env_id e →
  child_of k' i e' envid j ej.
Proof. intros [C1 C2 C3 C4 C5 C6 C7] E1 E2. split; try assumption; congruence. Qed.

(** ** What a step leaves alone

    Apart from the mappings [X] and the page [q0], every page that is mapped
    stays mapped and keeps its bytes, but for those in [B]. *)
Definition others_kept (B : Z → Prop) (X : Z → Z → Prop) (q0 : Z) (R : list Z) (s s' : pm) : Prop :=
  ∀ pd v q, pd ∈ R → 0 ≤ v < UVPN → ¬ X pd v → q ≠ q0 → page_of (phys s) pd v = Some q →
    page_of (phys s') pd v = Some q ∧ ∀ b, b / PGSIZE = q → ¬ B b → ld8 (phys s') b = ld8 (phys s) b.

Lemma others_trans B X q0 R s1 s2 s3 : others_kept B X q0 R s1 s2 → others_kept B X q0 R s2 s3 → others_kept B X q0 R s1 s3.
Proof.
  intros H1 H2 pd v q Hpd Hv HX Hq0 Hq. destruct (H1 pd v q Hpd Hv HX Hq0 Hq) as [Hq2 E1]. destruct (H2 pd v q Hpd Hv HX Hq0 Hq2) as [Hq3 E2].
  split; [exact Hq3|]. intros b Hb HnB. rewrite E2, E1 by assumption. reflexivity.
Qed.

Section others.
Context (B : Z → Prop) (X : Z → Z → Prop) (q0 : Z) (l R : list Z) (x : Z → Z) (s s' : pm).

Lemma stored_others f : (∀ b, B b → b / PGSIZE = f) → stored B s s' → f ∉ R → ¬ is_pt (phys s) R f → others_kept B X q0 R s s'.
Proof using.
  intros HB S HR Hpt pd v q Hpd Hv _ _ Hq. split; [rewrite (stored_page f B HB s s' R S HR Hpt) by assumption; exact Hq|].
  destruct S as (m & -> & Hm). intros b _ HnB. apply Hm, HnB.
Qed.

(** All bytes of the page [q0] may be written. *)
Lemma filled_others : stored (window q0 0 PGSIZE) s s' → q0 ∉ R → ¬ is_pt (phys s) R q0 → others_kept B X q0 R s s'.
Proof using.
  intros S HR Hpt pd v q Hpd Hv _ Hq0 Hq. assert (∀ b, window q0 0 PGSIZE b → b / PGSIZE = q0) as HB by (apply window_page; split; discriminate).
  split; [rewrite (stored_page q0 _ HB s s' R S HR Hpt) by assumption; exact Hq|].
  destruct S as (m & -> & Hm). intros b Hb _. apply Hm. intros F%HB. congruence.
Qed.

Lemma new_others p pd v perm l2 : vm_inv s (p :: l) R x → page_new s l R x pd v p perm s' l2 → X pd v → others_kept B X q0 R s s'.
Proof using.
  intros H N HX pd' v' q Hpd' Hv' HnX _ Hq. split.
  - unfold page_of. rewrite (nw_pte _ _ _ _ _ _ _ _ _ _ N), decide_False by (assumption || (intros [-> ->]; contradiction)). exact Hq.
  - intros b Hb _. apply (proj1 (new_page_kept _ _ _ _ _ _ _ q _ _ _ pd' v' H N Hpd' Hv' Hq) b Hb).
Qed.

Lemma inserted_others pd v pp e l' : vm_inv s l R x → inserted s l R x pd v pp e s' l' → X pd v → others_kept B X q0 R s s'.
Proof using.
  intros H I HX pd' v' q Hpd' Hv' HnX _ Hq.
  destruct (inserted_page _ _ _ _ _ _ _ _ _ _ pd' v' q H I Hpd' Hv' Hq) as (P1 & P2 & _); [left; intros [= -> ->]; contradiction|].
  split; [exact P1|]. intros b Hb _. apply P2, Hb.
Qed.

Lemma cleared_others pd v l' : vm_inv s l R x → cleared s l R x pd v s' l' → X pd v → others_kept B X q0 R s s'.
Proof using.
  intros H C HX pd' v' q Hpd' Hv' HnX _ Hq. destruct (mapped_data _ _ _ _ pd' v' q H Hpd' Hv' Hq) as (_ & HR & Hpt). split.
  - unfold page_of. rewrite (cl_pte _ _ _ _ _ _ _ _ C), decide_False by (assumption || (intros [-> ->]; contradiction)). exact Hq.
  - intros b Hb _. apply (data_kept _ _ _ [] q (cl_data _ _ _ _ _ _ _ _ C)); auto using not_elem_of_nil.
Qed.
End others.

(** ** The calls *)
Section dup.
Context (uframe : Trapframe) (entry : upcall → Z) (spill : us → list (Z * Z)) (fn sp lo hi : Z).
Context (Hcs : Z.land (tf_cs uframe) 3 = 3) (SU : stack_use uframe spill sp lo hi) (Hsp : 0 ≤ sp < UVPN).
Local Notation ready := (ready sp).
Local Notation push := (push uframe entry spill fn).

(** The page of the stack is not one of the kernel's. *)
Lemma ready_frame k l R x c i e pd spte : ready k l R x c i e pd spte →
  frame_of spte ∉ R ∧ ¬ is_pt (phys (kpm k)) R (frame_of spte) ∧ ∀ b, window (frame_of spte) lo hi b → b / PGSIZE = frame_of spte.
Proof using SU Hsp.
  intros [U _ _ [Hst _]]. destruct (page_kept k l R x c i e pd sp (frame_of spte) spte U Hsp Hst eq_refl) as [HR Hpt].
  split; [exact HR|]. split; [exact Hpt|]. apply window_page, SU.
Qed.

(** A page for the child. *)
Lemma dup_alloc s k q l R x c i e pd spte envid j ej pc pn : ready k (q :: l) R x c i e pd spte → child_of k i e envid j ej →
  env_pgdir ej = kva_of pc → pc ∈ R → pc ≠ pd → 0 ≤ pn < UVPN → (new_table (phys (kpm k)) pc (pn / 1024) ≤ length l)%nat →
  ∃ k1 l1 e1, UserLib.sys_page_alloc uframe envid (pn * PGSIZE) 7 (set_uk k s) = Ret 0 (set_uk k1 s) ∧
    ready k1 l1 R (held q x) c i e1 pd spte ∧ same_env_data e e1 ∧ (∀ j', j' ≠ i → envs k1 !! j' = envs k !! j') ∧
    page_new (kpm k) l R x pc pn q 7 (kpm k1) l1.
Proof using Hcs Hsp.
  intros Rd C Hpc HpcR Hne Hpn Hroom. destruct (page_va pn Hpn) as (Hva & Hbad & Ediv & Epdx). pose proof Rd as [U Hc Ht [Hst H6]].
  pose proof (ut_in _ _ _ _ _ _ _ _ U) as HpdR.
  destruct (u_page_alloc uframe Hcs (set_uk k s) q l R x c i e pd envid j ej pc (pn * PGSIZE) 7 U (child_found _ _ _ _ _ _ _ _ _ _ _ _ U C) Hpc HpcR
    Hva Hbad ltac:(lia) eq_refl) as [(-> & F & _)|(k1 & l1 & e1 & E1 & U1 & Hd1 & Ho1 & _ & N)].
  { exfalso. rewrite Epdx in F. unfold new_table in Hroom. rewrite decide_True in Hroom by exact F. cbn [length] in Hroom. lia. }
  rewrite Ediv in N. exists k1, l1, e1. split; [exact E1|]. split; [|auto]. split; [exact U1| | |].
  - rewrite (proj2 (nw_kern _ _ _ _ _ _ _ _ _ _ N)). exact Hc.
  - apply (new_user_tables _ _ _ _ _ _ _ _ _ _ _ N HpdR Ht).
  - rewrite (nw_pte _ _ _ _ _ _ _ _ _ _ N), decide_False by (assumption || (intros [? _]; congruence)). auto.
Qed.

(** The same page at UTEMP of the parent. *)
Lemma dup_map s k l R x c i e pd spte envid j ej pc pn q : ready k l R x c i e pd spte → child_of k i e envid j ej →
  env_pgdir ej = kva_of pc → pc ∈ R → 0 ≤ pn < UVPN → sp ≠ utemp → 0 ≤ q < 65536 → pte_of (phys (kpm k)) pc pn = Some (own q) →
  (∃ f, pages (kpm k) !! q = Some f ∧ pp_ref f = 2) → (new_table (phys (kpm k)) pd (utemp / 1024) ≤ length l)%nat →
  ∃ k1 l1 e1, UserLib.sys_page_map uframe envid (pn * PGSIZE) 0 UTEMP 7 (set_uk k s) = Ret 0 (set_uk k1 s) ∧
    ready k1 l1 R x c i e1 pd spte ∧ same_env_data e e1 ∧ (∀ j', j' ≠ i → envs k1 !! j' = envs k !! j') ∧
    inserted (kpm k) l R x pd utemp q (own q) (kpm k1) l1.
Proof using Hcs Hsp.
  intros Rd C Hpc HpcR Hpn Hst' Hqb Hpte (f' & Hf' & Hr') Hroom. destruct (page_va pn Hpn) as (Hva & Hbad & Ediv & Epdx). pose proof Rd as [U Hc Ht [Hst H6]].
  pose proof (ut_in _ _ _ _ _ _ _ _ U) as HpdR. destruct (own_facts q Hqb) as (Of & _ & OW).
  destruct (u_page_map_from uframe Hcs (set_uk k s) l R _ c i e pd envid j ej pc 0 i _ pd (pn * PGSIZE) UTEMP 7 (own q) U
    (child_found _ _ _ _ _ _ _ _ _ _ _ _ U C) Hpc HpcR (names_self _ _ _ _ _ _ _ _ _ U) (ut_pd _ _ _ _ _ _ _ _ U) HpdR Hva Hbad
    ltac:(split; reflexivity || discriminate) eq_refl ltac:(lia) eq_refl (λ _, OW)) as (v & k2 & e2 & l2 & E2 & U2 & Hd2 & Ho2 & _ & Hr).
  - cbn [uk set_uk]. rewrite Ediv. exact Hpte.
  - rewrite Of. cbn [uk set_uk]. intros f Hf. rewrite Hf in Hf'. injection Hf' as <-. lia.
  - cbn [uk set_uk] in Hr. destruct Hr as [(_ & -> & F & _)|[-> I]].
    { exfalso. unfold new_table in Hroom. change (PDX UTEMP) with (utemp / 1024) in F. rewrite decide_True in Hroom by exact F. cbn [length] in Hroom. lia. }
    rewrite Of in I. exists k2, l2, e2. split; [exact E2|]. split; [|auto]. split; [exact U2| | |].
    + rewrite (proj2 (in_kern _ _ _ _ _ _ _ _ _ _ I)). exact Hc.
    + apply (inserted_user_tables _ _ _ _ _ _ _ _ _ _ _ I HpdR Ht).
    + rewrite (in_pte _ _ _ _ _ _ _ _ _ _ I), decide_False by (assumption || (intros [_ ?]; contradiction)). auto.
Qed.

(** The bytes are copied. *)
Lemma dup_copy s k l R x c i e pd spte pn q pte : ready k l R x c i e pd spte → 0 ≤ pn < UVPN → 0 ≤ q < 65536 →
  pte_of (phys (kpm k)) pd pn = Some pte → ctrue (Z.land pte PTE_U) = true → frame_of pte ≠ q → pte_of (phys (kpm k)) pd utemp = Some (own q) →
  ∃ k1, umemmove UTEMP (pn * PGSIZE) PGSIZE (set_uk k s) = Ret tt (set_uk k1 s) ∧ k1 = set_kpm (kpm k1) k ∧
    ready k1 l R x c i e pd spte ∧ stored (window q 0 PGSIZE) (kpm k) (kpm k1) ∧ q ∉ R ∧ ¬ is_pt (phys (kpm k)) R q ∧
    (∀ o, 0 ≤ o < PGSIZE → ld8 (phys (kpm k1)) (q * PGSIZE + o) = ld8 (phys (kpm k)) (frame_of pte * PGSIZE + o)).
Proof using Hsp.
  intros [U Hc Ht [Hst H6]] Hpn Hqb Hs HU Hfq Hd. pose proof (ki_vm _ _ _ _ _ (ut_kinv _ _ _ _ _ _ _ _ U)) as Hvm.
  pose proof (ut_in _ _ _ _ _ _ _ _ U) as HpdR. pose proof utemp_range as Hut. destruct (own_facts q Hqb) as (Of & OU & OW).
  destruct (copy_page (set_uk k s) l R x pd pn utemp (frame_of pte) q pte (own q) Hvm HpdR Hc Ht Hpn Hut Hs Hd eq_refl Of Hfq HU OU OW)
    as (m & E & Hm & Hbytes).
  destruct (page_kept k l R x c i e pd utemp q (own q) U Hut Hd Of) as [HqR Hqpt].
  assert (∀ b, window q 0 PGSIZE b → b / PGSIZE = q) as HB by (apply window_page; split; discriminate).
  assert (stored (window q 0 PGSIZE) (kpm k) (with_phys m (kpm k))) as S.
  { exists m. split; [reflexivity|]. intros b Hb. apply Hm. intros F. apply Hb. unfold window. pose proof (Z.div_mod b PGSIZE ltac:(discriminate)).
    pose proof (Z.mod_pos_bound b PGSIZE eq_refl). rewrite F in *. lia. }
  destruct (stored_quiet q _ k _ l R x c i e pd HB S HqR Hqpt U) as [U1 _]. exists (set_kpm (with_phys m (kpm k)) k).
  split; [exact E|]. split; [reflexivity|]. split; [|split; [exact S|split; [exact HqR|split; [exact Hqpt|exact Hbytes]]]].
  split; [exact U1|exact Hc|apply (stored_tables q _ HB _ _ R S HqR pd HpdR Ht)|]. rewrite (stored_pte q _ HB _ _ R S HqR Hqpt) by assumption. auto.
Qed.

(** The page leaves UTEMP. *)
Lemma dup_unmap s k l R x c i e pd spte : ready k l R x c i e pd spte → sp ≠ utemp →
  ∃ k1 l1 e1, UserLib.sys_page_unmap uframe 0 UTEMP (set_uk k s) = Ret 0 (set_uk k1 s) ∧
    ready k1 l1 R x c i e1 pd spte ∧ same_env_data e e1 ∧ (∀ j', j' ≠ i → envs k1 !! j' = envs k !! j') ∧
    cleared (kpm k) l R x pd utemp (kpm k1) l1 ∧ (length l ≤ length l1)%nat.
Proof using Hcs Hsp.
  intros [U Hc Ht [Hst H6]] Hne. pose proof (ki_vm _ _ _ _ _ (ut_kinv _ _ _ _ _ _ _ _ U)) as Hvm. pose proof (ut_in _ _ _ _ _ _ _ _ U) as HpdR.
  destruct (u_page_unmap uframe Hcs (set_uk k s) l R x c i e pd UTEMP U ltac:(split; reflexivity || discriminate) eq_refl)
    as (k1 & e1 & l1 & E & U1 & Hd & Ho & _ & C). change (UTEMP / PGSIZE) with utemp in C. cbn [uk set_uk] in *.
  exists k1, l1, e1. split; [exact E|]. split; [|split; [exact Hd|split; [exact Ho|split; [exact C|]]]].
  - split; [exact U1|rewrite (proj2 (cl_kern _ _ _ _ _ _ _ _ C)); exact Hc| |].
    + intros i' Hi'. rewrite (cl_pde _ _ _ _ _ _ _ _ C) by assumption. apply Ht, Hi'.
    + rewrite (cl_pte _ _ _ _ _ _ _ _ C), decide_False by (assumption || (intros [_ ?]; contradiction)). auto.
  - apply NoDup_incl_length; [apply NoDup_ListNoDup, (page_inv_NoDup _ _ (vm_pages _ _ _ _ Hvm))|].
    intros y Hy. apply list_elem_of_In. apply list_elem_of_In in Hy. apply (cl_free _ _ _ _ _ _ _ _ C), Hy.
Qed.

(** ** duppage

    Page [q] is mapped at [pn] of the child, with the bytes of frame [f]. *)
Definition copy_target (pd pc pn pd' v : Z) : Prop := pd' = pc ∧ v = pn ∨ pd' = pd ∧ v = utemp.

Record eager_copy (B : Z → Prop) (s : pm) (l R : list Z) (pd pc pn f q : Z) (s' : pm) (l' : list Z) : Prop := {
  ec_pte : ∀ pd' v, pd' ∈ R → 0 ≤ v < UVPN → pte_of (phys s') pd' v
    = if decide (pd' = pd ∧ v = utemp) then None
      else if decide (pd' = pc ∧ v = pn) then Some (own q) else pte_of (phys s) pd' v;
  ec_page : ∀ o, 0 ≤ o < PGSIZE → ¬ B (f * PGSIZE + o) → ld8 (phys s') (q * PGSIZE + o) = ld8 (phys s) (f * PGSIZE + o);
  ec_others : others_kept B (copy_target pd pc pn) q R s s';
  ec_fresh : ∀ pd' v, pd' ∈ R → 0 ≤ v < UVPN → page_of (phys s) pd' v ≠ Some q;
  ec_pt : ∀ i, 0 ≤ i < UPDX → pt_of (phys s) pc i ≠ None → pt_of (phys s') pc i ≠ None;
  ec_temp : pt_of (phys s') pd (utemp / 1024) ≠ None;
  ec_room : (length l ≤ length l' + new_table (phys s) pc (pn / 1024) + new_table (phys s) pd (utemp / 1024))%nat
}.

Section chain.
Context (k0 a0 k1 a1 k2 a2 k3 a3 k4 : ks) (l l1 l2 l4 R : list Z) (x : Z → Z) (c : CpuInfo) (i : Z) (e0 e1 e2 : Env) (pd pc pn spte pte q : Z).
Notation f := (frame_of spte).
Notation B := (window f lo hi).
Context (Rd0 : ready k0 (q :: l) R x c i e0 pd spte) (S0 : stored B (kpm k0) (kpm a0)) (N : page_new (kpm a0) l R x pc pn q 7 (kpm k1) l1)
  (Rd1 : ready k1 l1 R (held q x) c i e1 pd spte) (S1 : stored B (kpm k1) (kpm a1)) (I : inserted (kpm a1) l1 R (held q x) pd utemp q (own q) (kpm k2) l2)
  (Rd2 : ready k2 l2 R (held q x) c i e2 pd spte) (S2 : stored B (kpm k2) (kpm a2)) (Sq : stored (window q 0 PGSIZE) (kpm a2) (kpm k3))
  (Rd3 : ready k3 l2 R (held q x) c i e2 pd spte) (S3 : stored B (kpm k3) (kpm a3)) (C : cleared (kpm a3) l2 R (held q x) pd utemp (kpm k4) l4).
Context (HpcR : pc ∈ R) (Hne : pc ≠ pd) (Hpn : 0 ≤ pn < UVPN) (Hnt : pn ≠ utemp) (Hqb : 0 ≤ q < 65536)
  (Hpte : pte_of (phys (kpm k0)) pd pn = Some pte) (HqR : q ∉ R) (Hqpt : ¬ is_pt (phys (kpm a2)) R q) (Hl : (length l2 ≤ length l4)%nat)
  (Hcopy : ∀ o, 0 ≤ o < PGSIZE → ld8 (phys (kpm k3)) (q * PGSIZE + o) = ld8 (phys (kpm a2)) (frame_of pte * PGSIZE + o)).

Lemma chain_pd : pd ∈ R.
Proof using Rd0. apply (ut_in _ _ _ _ _ _ _ _ (rd_state _ _ _ _ _ _ _ _ _ _ Rd0)). Qed.

(** The program's stores, and the copy, change no table. *)
Lemma push_same k k' l' x' e : ready k l' R x' c i e pd spte → stored B (kpm k) (kpm k') → vm_inv (kpm k') l' R x' ∧
  (∀ pd' v, pd' ∈ R → 0 ≤ v < UVPN → pte_of (phys (kpm k')) pd' v = pte_of (phys (kpm k)) pd' v) ∧
  (∀ pd' j, pd' ∈ R → 0 ≤ j < 1024 → pt_of (phys (kpm k')) pd' j = pt_of (phys (kpm k)) pd' j) ∧
  ∀ X q0, others_kept B X q0 R (kpm k) (kpm k').
Proof using SU Hsp.
  intros Rd S. destruct (ready_frame _ _ _ _ _ _ _ _ _ Rd) as (HR & Hpt & HB).
  split; [apply (stored_inv f B HB _ _ l' R x' S HR Hpt), (ki_vm _ _ _ _ _ (ut_kinv _ _ _ _ _ _ _ _ (rd_state _ _ _ _ _ _ _ _ _ _ Rd)))|].
  split; [exact (stored_pte f B HB _ _ R S HR Hpt)|]. split; [|intros X q0; apply (stored_others B X q0 R _ _ f HB S HR Hpt)].
  intros pd' j Hpd' Hj. apply pt_of_ext, (stored_dir f B HB _ _ R S HR); assumption.
Qed.

Lemma copy_same : (∀ pd' v, pd' ∈ R → 0 ≤ v < UVPN → pte_of (phys (kpm k3)) pd' v = pte_of (phys (kpm a2)) pd' v) ∧
  (∀ pd' j, pd' ∈ R → 0 ≤ j < 1024 → pt_of (phys (kpm k3)) pd' j = pt_of (phys (kpm a2)) pd' j).
Proof using Sq HqR Hqpt.
  assert (∀ b, window q 0 PGSIZE b → b / PGSIZE = q) as HB by (apply window_page; split; discriminate).
  split; [exact (stored_pte q _ HB _ _ R Sq HqR Hqpt)|]. intros pd' j Hpd' Hj. apply pt_of_ext, (stored_dir q _ HB _ _ R Sq HqR); assumption.
Qed.

(** The mappings before the last call. *)
Lemma chain_pte3 pd' v : pd' ∈ R → 0 ≤ v < UVPN → pte_of (phys (kpm a3)) pd' v
  = if decide (pd' = pd ∧ v = utemp) then Some (own q) else if decide (pd' = pc ∧ v = pn) then Some (own q) else pte_of (phys (kpm k0)) pd' v.
Proof using All.
  intros Hpd' Hv. destruct (push_same _ _ _ _ _ Rd0 S0) as (_ & P0 & _), (push_same _ _ _ _ _ Rd1 S1) as (_ & P1 & _),
    (push_same _ _ _ _ _ Rd2 S2) as (_ & P2 & _), (push_same _ _ _ _ _ Rd3 S3) as (_ & P3 & _). destruct copy_same as [Pq _].
  rewrite P3, Pq, P2 by assumption. rewrite (in_pte _ _ _ _ _ _ _ _ _ _ I), P1 by assumption.
  rewrite (nw_pte _ _ _ _ _ _ _ _ _ _ N), P0 by assumption. reflexivity.
Qed.

(** The tables that appear on the way. *)
Lemma chain_pt1 pd' j : pd' ∈ R → 0 ≤ j < UPDX → pt_of (phys (kpm k0)) pd' j ≠ None → pt_of (phys (kpm a1)) pd' j ≠ None.
Proof using SU Hsp Rd0 S0 N Rd1 S1.
  intros Hpd' Hj Hn. pose proof (slot_range j Hj) as Hj'.
  destruct (push_same _ _ _ _ _ Rd0 S0) as (_ & _ & P0 & _), (push_same _ _ _ _ _ Rd1 S1) as (_ & _ & P1 & _).
  rewrite P1 by assumption. apply (new_tables_kept _ _ _ _ _ _ _ _ _ _ pd' j N Hpd' Hj). rewrite P0 by assumption. exact Hn.
Qed.

Lemma chain_pt pd' j : pd' ∈ R → 0 ≤ j < UPDX → pt_of (phys (kpm k0)) pd' j ≠ None → pt_of (phys (kpm k4)) pd' j ≠ None.
Proof using All.
  intros Hpd' Hj Hn. pose proof (slot_range j Hj) as Hj'. destruct copy_same as [_ Pq].
  destruct (push_same _ _ _ _ _ Rd1 S1) as (Hvm1 & _), (push_same _ _ _ _ _ Rd2 S2) as (_ & _ & P2 & _), (push_same _ _ _ _ _ Rd3 S3) as (_ & _ & P3 & _).
  rewrite (cl_pt _ _ _ _ _ _ _ _ C), P3, Pq, P2 by assumption. apply (inserted_tables _ _ _ _ _ _ _ _ _ _ pd' j Hvm1 Hj I Hpd'), chain_pt1; assumption.
Qed.

(** The other pages, before the bytes are copied and at the end. *)
Lemma chain_others2 : others_kept B (copy_target pd pc pn) q R (kpm k0) (kpm a2).
Proof using SU Hsp Rd0 S0 N Rd1 S1 I Rd2 S2.
  destruct (push_same _ _ _ _ _ Rd0 S0) as (Hvm0 & _ & _ & O0), (push_same _ _ _ _ _ Rd1 S1) as (Hvm1 & _ & _ & O1), (push_same _ _ _ _ _ Rd2 S2) as (_ & _ & _ & O2).
  eapply others_trans; [apply O0|]. eapply others_trans; [eapply (new_others B _ q); [exact Hvm0|exact N|left; auto]|].
  eapply others_trans; [apply O1|]. eapply others_trans; [eapply (inserted_others B _ q); [exact Hvm1|exact I|right; auto]|apply O2].
Qed.

Lemma chain_others : others_kept B (copy_target pd pc pn) q R (kpm k0) (kpm k4).
Proof using All.
  destruct (push_same _ _ _ _ _ Rd3 S3) as (Hvm3 & _ & _ & O3). eapply others_trans; [apply chain_others2|].
  eapply others_trans; [apply (filled_others B _ q R _ _ Sq HqR Hqpt)|]. eapply others_trans; [apply O3|].
  eapply (cleared_others B _ q); [exact Hvm3|exact C|right; auto].
Qed.

Lemma chain_fresh pd' v : pd' ∈ R → 0 ≤ v < UVPN → page_of (phys (kpm k0)) pd' v ≠ Some q.
Proof using Rd0.
  pose proof (ki_vm _ _ _ _ _ (ut_kinv _ _ _ _ _ _ _ _ (rd_state _ _ _ _ _ _ _ _ _ _ Rd0))) as Hvm.
  destruct (vm_free_unused _ _ _ _ q Hvm (list_elem_of_here _ _)) as (_ & _ & H). apply H.
Qed.

Lemma chain_bytes o : 0 ≤ o < PGSIZE → ¬ B (frame_of pte * PGSIZE + o) →
  ld8 (phys (kpm k4)) (q * PGSIZE + o) = ld8 (phys (kpm k0)) (frame_of pte * PGSIZE + o).
Proof using All.
  intros Ho HnB. pose proof chain_pd as HpdR. pose proof utemp_range as Hut. destruct (push_same _ _ _ _ _ Rd3 S3) as (Hvm3 & _).
  assert (page_of (phys (kpm a3)) pd utemp = Some q) as Hq3.
  { unfold page_of. rewrite chain_pte3, decide_True by auto. cbn. f_equal. apply own_facts, Hqb. }
  assert (page_of (phys (kpm k0)) pd pn = Some (frame_of pte)) as Hf by (unfold page_of; rewrite Hpte; reflexivity).
  destruct (mapped_data _ _ _ _ pd utemp q Hvm3 HpdR Hut Hq3) as (_ & HR & Hpt).
  rewrite (data_kept _ _ _ [] q (cl_data _ _ _ _ _ _ _ _ C) (not_elem_of_nil _) HR Hpt) by apply page_byte, Ho.
  assert (f ≠ q) as Hfq.
  { intros F. apply (chain_fresh pd sp HpdR Hsp). unfold page_of. destruct Rd0 as [_ _ _ [-> _]]. cbn. congruence. }
  destruct (ready_frame _ _ _ _ _ _ _ _ _ Rd3) as (_ & _ & HB).
  destruct S3 as (m3 & -> & Hm3). psimpl. rewrite Hm3 by (intros F%HB; rewrite page_byte in F by exact Ho; congruence). rewrite Hcopy by exact Ho.
  destruct (chain_others2 pd pn (frame_of pte) HpdR Hpn) as [_ G]; [intros [[F _]|[_ F]]; congruence| |exact Hf|].
  - intros F. apply (chain_fresh pd pn HpdR Hpn). congruence.
  - apply G; [apply page_byte, Ho|exact HnB].
Qed.

Lemma chain_copy : eager_copy B (kpm k0) l R pd pc pn (frame_of pte) q (kpm k4) l4.
Proof using All.
  pose proof chain_pd as HpdR. pose proof utemp_range as Hut. destruct (vpn_idx pn Hpn) as [Hpi _]. split.
  - intros pd' v Hpd' Hv. rewrite (cl_pte _ _ _ _ _ _ _ _ C), chain_pte3 by assumption. case_decide; reflexivity.
  - exact chain_bytes.
  - exact chain_others.
  - exact chain_fresh.
  - intros j Hj. apply chain_pt; assumption.
  - rewrite (cl_pt _ _ _ _ _ _ _ _ C) by (exact HpdR || (split; reflexivity || discriminate)). apply pte_table. rewrite chain_pte3, decide_True by auto. discriminate.
  - pose proof (nw_room _ _ _ _ _ _ _ _ _ _ N) as G1. pose proof (in_room _ _ _ _ _ _ _ _ _ _ I) as G2.
    destruct (push_same _ _ _ _ _ Rd0 S0) as (_ & _ & P0 & _). assert (0 ≤ pn / 1024 < 1024) as Hpi' by (unfold UPDX in Hpi; lia).
    unfold new_table in G1 at 1. rewrite P0 in G1 by assumption. fold (new_table (phys (kpm k0)) pc (pn / 1024)) in G1.
    assert (new_table (phys (kpm a1)) pd (utemp / 1024) ≤ new_table (phys (kpm k0)) pd (utemp / 1024))%nat; [|lia].
    apply new_table_ext, chain_pt1; [exact HpdR|split; reflexivity || discriminate].
Qed.
End chain.

Lemma eager_duppage s k q l R x c i e pd spte envid j ej pc pn pte : ready k (q :: l) R x c i e pd spte → child_of k i e envid j ej →
  env_pgdir ej = kva_of pc → pc ∈ R → pc ≠ pd → 0 ≤ pn < UVPN → pn ≠ utemp → sp ≠ utemp →
  pte_of (phys (kpm k)) pd pn = Some pte → ctrue (Z.land pte PTE_U) = true →
  (new_table (phys (kpm k)) pc (pn / 1024) + new_table (phys (kpm k)) pd (utemp / 1024) ≤ length l)%nat →
  ∃ k' l' e', duppage uframe entry spill fn envid (pn * PGSIZE) (set_uk k s) = Ret tt (set_uk k' s) ∧
    ready k' l' R (held q x) c i e' pd spte ∧ same_env_data e e' ∧ (∀ j', j' ≠ i → envs k' !! j' = envs k !! j') ∧
    eager_copy (window (frame_of spte) lo hi) (kpm k) l R pd pc pn (frame_of pte) q (kpm k') l'.
Proof using Hcs SU Hsp.
  intros Rd0 C Hpc HpcR Hne Hpn Hnt Hst Hpte HU Hroom.
  pose proof (ki_vm _ _ _ _ _ (ut_kinv _ _ _ _ _ _ _ _ (rd_state _ _ _ _ _ _ _ _ _ _ Rd0))) as Hvm. pose proof utemp_range as Hut.
  pose proof (chain_pd k l R x c i e pd spte q Rd0) as HpdR. pose proof (chain_fresh k l R x c i e pd spte q Rd0 pd pn HpdR Hpn) as Hfr.
  assert (0 ≤ q < 65536) as Hqb by (pose proof (page_inv_free_bound _ _ q (vm_pages _ _ _ _ Hvm) (list_elem_of_here _ _)); pose proof (vm_npages _ _ _ _ Hvm); lia).
  destruct (vpn_idx pn Hpn) as [Hpi _]. assert (0 ≤ pn / 1024 < 1024 ∧ 0 ≤ utemp / 1024 < UPDX) as [Hpi' Hui] by (unfold UPDX in Hpi; split; [lia|split; reflexivity || discriminate]).
  destruct (ready_push uframe entry spill fn sp lo hi SU Hsp s k _ R x c i e pd spte Rd0) as (a0 & F0 & Ea0 & Ra0 & S0).
  destruct (push_same R c i pd spte _ _ _ _ _ Rd0 S0) as (_ & P0 & T0 & _).
  assert (child_of a0 i e envid j ej) as C0 by (apply (child_of_ext _ _ _ _ _ _ _ _ C); [rewrite Ea0|]; reflexivity).
  destruct (dup_alloc s a0 q l R x c i e pd spte envid j ej pc pn Ra0 C0 Hpc HpcR Hne Hpn)
    as (k1 & l1 & e1 & E1 & Rd1 & Hd1 & Ho1 & N); [unfold new_table in *; rewrite T0 by assumption; lia|].
  destruct (ready_push uframe entry spill fn sp lo hi SU Hsp s k1 _ R _ c i e1 pd spte Rd1) as (a1 & F1 & Ea1 & Ra1 & S1).
  destruct (push_same R c i pd spte _ _ _ _ _ Rd1 S1) as (_ & P1 & T1 & _).
  assert (∀ j', j' ≠ i → envs a1 !! j' = envs k !! j') as Hoa1 by (intros j' Hj'; rewrite Ea1; cbn; rewrite Ho1, Ea0 by exact Hj'; reflexivity).
  pose proof (chain_pt1 k a0 k1 a1 l l1 R x c i e e1 pd pc pn spte q Rd0 S0 N Rd1 S1 pd (utemp / 1024) HpdR Hui) as Hta1.
  assert (child_of a1 i e1 envid j ej) as C1 by (apply (child_of_ext _ _ _ _ _ _ _ _ C); [apply Hoa1, C|apply Hd1]).
  destruct (dup_map s a1 l1 R _ c i e1 pd spte envid j ej pc pn q Ra1 C1 Hpc HpcR Hpn Hst Hqb)
    as (k2 & l2 & e2 & E2 & Rd2 & Hd2 & Ho2 & I).
  { rewrite P1, (nw_pte _ _ _ _ _ _ _ _ _ _ N), decide_True by auto. reflexivity. }
  { destruct S1 as (m & -> & _). apply (nw_ref _ _ _ _ _ _ _ _ _ _ N). }
  { apply new_table_ext in Hta1. pose proof (nw_room _ _ _ _ _ _ _ _ _ _ N) as G. unfold new_table in G at 1. rewrite T0 in G by assumption.
    fold (new_table (phys (kpm k)) pc (pn / 1024)) in G. lia. }
  destruct (ready_push uframe entry spill fn sp lo hi SU Hsp s k2 _ R _ c i e2 pd spte Rd2) as (a2 & F2 & Ea2 & Ra2 & S2).
  destruct (push_same R c i pd spte _ _ _ _ _ Rd2 S2) as (_ & P2 & _).
  destruct (dup_copy s a2 l2 R _ c i e2 pd spte pn q pte Ra2 Hpn Hqb) as (k3 & E3 & Ek3 & Rd3 & Sq & HqR & Hqpt & Hcopy).
  { rewrite P2, (in_pte _ _ _ _ _ _ _ _ _ _ I), P1, (nw_pte _ _ _ _ _ _ _ _ _ _ N), P0, !decide_False by (assumption || (intros [F _]; congruence) || tauto). exact Hpte. }
  { exact HU. }
  { intros F. apply Hfr. unfold page_of. rewrite Hpte. cbn. congruence. }
  { rewrite P2, (in_pte _ _ _ _ _ _ _ _ _ _ I), decide_True by auto. reflexivity. }
  destruct (ready_push uframe entry spill fn sp lo hi SU Hsp s k3 _ R _ c i e2 pd spte Rd3) as (a3 & F3 & Ea3 & Ra3 & S3).
  destruct (dup_unmap s a3 l2 R _ c i e2 pd spte Ra3 Hst) as (k4 & l4 & e4 & E4 & Rd4 & Hd4 & Ho4 & Cl & Hl). exists k4, l4, e4. split.
  { unfold duppage. change (Z.lor (Z.lor PTE_P PTE_U) PTE_W) with 7. rewrite (bind_Ret _ _ _ _ _ F0), (bind_Ret _ _ _ _ _ E1). change (0 <? 0) with false. cbn [when].
    rewrite bind_mret, (bind_Ret _ _ _ _ _ F1), (bind_Ret _ _ _ _ _ E2). change (0 <? 0) with false. cbn [when]. rewrite bind_mret, (bind_Ret _ _ _ _ _ F2), (bind_Ret _ _ _ _ _ E3).
    rewrite (bind_Ret _ _ _ _ _ F3), (bind_Ret _ _ _ _ _ E4). reflexivity. }
  split; [exact Rd4|]. split; [eapply same_env_data_trans; [exact Hd1|eapply same_env_data_trans; eassumption]|]. split.
  - intros j' Hj'. rewrite Ho4, Ea3 by exact Hj'. cbn. rewrite Ek3. cbn. rewrite Ea2. cbn. rewrite Ho2 by exact Hj'. apply Hoa1, Hj'.
  - apply (chain_copy k a0 k1 a1 k2 a2 k3 a3 k4 l l1 l2 l4 R x c i e e1 e2 pd pc pn spte pte q); assumption.
Qed.
End dup.

(** * The loop *)

(** Page [v] of the child's address space [pc] in memory [m] is a page of its
    own, with the bytes that the parent had there in [m0], except for those of
    [B]. *)
Definition private_copy (B : Z → Prop) (m0 : mem) (R : list Z) (pd pc : Z) (m : mem) (v : Z) : Prop := ∃ pte q,
  0 ≤ q < 65536 ∧ pte_of m0 pd v = Some pte ∧ pte_of m pc v = Some (own q) ∧
  (∀ o, 0 ≤ o < PGSIZE → ¬ B (frame_of pte * PGSIZE + o) → ld8 m (q * PGSIZE + o) = ld8 m0 (frame_of pte * PGSIZE + o)) ∧
  ∀ pd' v', pd' ∈ R → 0 ≤ v' < UVPN → page_of m pd' v' = Some q → pd' = pc ∧ v' = v.

Definition user_page (m : mem) (pd v : Z) : Prop := ∃ pte, pte_of m pd v = Some pte ∧ ctrue (Z.land pte PTE_U) = true.

(** The first [n] pages of the program. *)
Definition utext : Z := UTEXT / PGSIZE.
Definition in_text (n v : Z) : Prop := utext ≤ v < utext + n.

Section loop.
Context (uframe : Trapframe) (entry : upcall → Z) (spill : us → list (Z * Z)) (fn sp lo hi : Z).
Context (Hcs : Z.land (tf_cs uframe) 3 = 3) (SU : stack_use uframe spill sp lo hi) (Hsp : 0 ≤ sp < UVPN) (Hsu : sp ≠ utemp).
Context (s0 : us) (l0 R : list Z) (x0 : Z → Z) (c : CpuInfo) (i : Z) (e0 : Env) (pd envid j : Z) (ej : Env) (pc spte : Z).
Context (Rd0 : ready sp (uk s0) l0 R x0 c i e0 pd spte).
Context (C0 : child_of (uk s0) i e0 envid j ej) (Hpc : env_pgdir ej = kva_of pc) (HpcR : pc ∈ R).
Context (Hempty : ∀ v, 0 ≤ v < UVPN → pte_of (phys (kpm (uk s0))) pc v = None).
Context (Htemp : pte_of (phys (kpm (uk s0))) pd utemp = None).
Notation B := (window (frame_of spte) lo hi).
Local Notation ready := (ready sp).
Local Notation push := (push uframe entry spill fn).
Local Notation duppage := (duppage uframe entry spill fn).

Let m0 : mem := phys (kpm (uk s0)).

(** The pages [C] are copied, and there is room for [need] more. *)
Record copied_upto (C : Z → Prop) (need : Z) (k : ks) (l : list Z) (e : Env) : Prop := {
  cu_ready : ∃ x, ready k l R x c i e pd spte;
  cu_env : same_env_data e0 e;
  cu_others : ∀ j', j' ≠ i → envs k !! j' = envs (uk s0) !! j';
  cu_copy : ∀ v, 0 ≤ v < UVPN → C v → private_copy B m0 R pd pc (phys (kpm k)) v;
  cu_empty : ∀ v, 0 ≤ v < UVPN → ¬ C v → pte_of (phys (kpm k)) pc v = None;
  cu_rest : ∀ pd' v, pd' ∈ R → pd' ≠ pc → 0 ≤ v < UVPN → pte_of (phys (kpm k)) pd' v = pte_of m0 pd' v;
  cu_data : ∀ pd' v q b, pd' ∈ R → pd' ≠ pc → 0 ≤ v < UVPN → page_of m0 pd' v = Some q → b / PGSIZE = q →
    ¬ B b → ld8 (phys (kpm k)) b = ld8 m0 b;
  cu_room : need + missing (phys (kpm k)) pc + Z.of_nat (new_table (phys (kpm k)) pd (utemp / 1024)) ≤ Z.of_nat (length l)
}.

Lemma copied_ext C C' need k l e : (∀ v, C v ↔ C' v) → copied_upto C need k l e → copied_upto C' need k l e.
Proof using.
  intros HC [F1 F2 F3 F4 F5 F6 F7 F8]. split; try assumption; intros v Hv Hc; [apply F4|apply F5]; rewrite ?HC; assumption.
Qed.

Lemma copied_start need : need + UPDX + 1 ≤ Z.of_nat (length l0) → copied_upto (λ _, False) need (uk s0) l0 e0.
Proof using Rd0 Hempty.
  intros Hn. split; try (auto; fail).
  - eauto.
  - repeat split.
  - intros v _ [].
  - pose proof (missing_le (phys (kpm (uk s0))) pc). pose proof (new_table_le (phys (kpm (uk s0))) pd (utemp / 1024)). lia.
Qed.

Lemma copied_child C need k l e : copied_upto C need k l e → child_of k i e envid j ej.
Proof using C0.
  intros H. apply (child_of_ext _ _ _ _ _ _ _ _ C0); [apply (cu_others _ _ _ _ _ H), C0|]. destruct (cu_env _ _ _ _ _ H) as (_ & _ & _ & E & _). exact E.
Qed.

Lemma loop_pd : pd ∈ R ∧ pc ≠ pd.
Proof using Rd0 C0 Hpc.
  pose proof (rd_state _ _ _ _ _ _ _ _ _ _ Rd0) as U0. split; [apply (ut_in _ _ _ _ _ _ _ _ U0)|].
  exact (child_pgdir s0 l0 R x0 c i e0 pd envid j ej pc U0 C0 Hpc).
Qed.

(** The program's stores between the calls. *)
Lemma copied_push C need k l e : copied_upto C need k l e →
  ∃ k', push (set_uk k s0) = Ret tt (set_uk k' s0) ∧ copied_upto C need k' l e ∧ envs k' = envs k.
Proof using SU Hsp Rd0 C0 Hpc HpcR.
  intros H. destruct (cu_ready _ _ _ _ _ H) as [x Rd]. destruct loop_pd as [HpdR Hne].
  destruct (ready_push uframe entry spill fn sp lo hi SU Hsp s0 k l R x c i e pd spte Rd) as (k' & E & Ek & Rd' & S).
  destruct (push_same uframe spill sp lo hi SU Hsp R c i pd spte k k' l x e Rd S) as (_ & Hpte & Hpt & Ho).
  destruct (ready_frame uframe spill sp lo hi SU Hsp k l R x c i e pd spte Rd) as (_ & _ & HB).
  exists k'. split; [exact E|]. split; [|rewrite Ek; reflexivity].
  assert (∀ b, ¬ B b → ld8 (phys (kpm k')) b = ld8 (phys (kpm k)) b) as Hd by (destruct S as (m & -> & Hm); exact Hm).
  destruct H as [F1 F2 F3 F4 F5 F6 F7 F8]. split.
  - eauto.
  - exact F2.
  - intros j' Hj'. rewrite Ek. apply F3, Hj'.
  - intros v Hv Hc. destruct (F4 v Hv Hc) as (pte & q & Hqb & E1 & E2 & E3 & E4). exists pte, q. split; [exact Hqb|]. split; [exact E1|].
    split; [rewrite Hpte by assumption; exact E2|]. split.
    + intros o Ho' HnB. rewrite Hd; [apply E3; assumption|]. intros F%HB. rewrite page_byte in F by exact Ho'.
      destruct (E4 pd sp HpdR Hsp) as [G _]; [|congruence]. unfold page_of. destruct Rd as [_ _ _ [-> _]]. cbn. congruence.
    + intros pd' v' Hpd' Hv' Hq. apply E4; [exact Hpd'|exact Hv'|]. unfold page_of in *. rewrite <- Hpte by assumption. exact Hq.
  - intros v Hv Hc. rewrite Hpte by assumption. apply F5; assumption.
  - intros pd' v Hpd' Hnp Hv. rewrite Hpte by assumption. apply F6; assumption.
  - intros pd' v q b Hpd' Hnp Hv Hq Hb HnB. rewrite Hd by exact HnB. apply (F7 pd' v q b); assumption.
  - assert (missing (phys (kpm k')) pc ≤ missing (phys (kpm k)) pc) as G.
    { apply missing_mono. intros i' Hi'. rewrite Hpt by (exact HpcR || apply slot_range, Hi'). auto. }
    assert (new_table (phys (kpm k')) pd (utemp / 1024) ≤ new_table (phys (kpm k)) pd (utemp / 1024))%nat; [|lia].
    apply new_table_ext. rewrite Hpt by (exact HpdR || (split; reflexivity || discriminate)). auto.
Qed.

(** What one more page is for the others. *)
Lemma copy_kept C need k l e q lq pn f k' l' v : copied_upto C need k l e → eager_copy B (kpm k) lq R pd pc pn f q (kpm k') l' → 0 ≤ q < 65536 →
  pc ≠ pd → 0 ≤ v < UVPN → v ≠ pn → private_copy B m0 R pd pc (phys (kpm k)) v → private_copy B m0 R pd pc (phys (kpm k')) v.
Proof using HpcR Rd0 Hsp SU.
  intros H D Hq Hne Hv Hvn (pte & q' & Hqb & E1 & E2 & E3 & E4). destruct (cu_ready _ _ _ _ _ H) as [x Rd]. exists pte, q'. split; [exact Hqb|]. split; [exact E1|].
  pose proof (ut_in _ _ _ _ _ _ _ _ (rd_state _ _ _ _ _ _ _ _ _ _ Rd)) as HpdR.
  assert (page_of (phys (kpm k)) pc v = Some q') as Hq'.
  { unfold page_of. rewrite E2. cbn. f_equal. apply own_facts, Hqb. }
  split; [rewrite (ec_pte _ _ _ _ _ _ _ _ _ _ _ D), !decide_False by (assumption || tauto || (intros [F _]; contradiction)); exact E2|]. split.
  - intros o Ho HnB. destruct (ec_others _ _ _ _ _ _ _ _ _ _ _ D pc v q' HpcR Hv) as [_ G]; [intros [[_ F]|[F _]]; contradiction| |exact Hq'|].
    { intros ->. exact (ec_fresh _ _ _ _ _ _ _ _ _ _ _ D pc v HpcR Hv Hq'). }
    rewrite G; [apply E3; assumption|apply page_byte, Ho|].
    intros F%(window_page _ lo hi (su_window _ _ _ _ _ SU)).
    rewrite page_byte in F by exact Ho. destruct (E4 pd sp HpdR Hsp) as [G' _]; [|congruence].
    unfold page_of. destruct Rd as [_ _ _ [-> _]]. cbn. congruence.
  - intros pd' v' Hpd' Hv' Hp. unfold page_of in Hp. rewrite (ec_pte _ _ _ _ _ _ _ _ _ _ _ D) in Hp by assumption.
    case_decide; [discriminate|]. case_decide as D2; [|apply E4; assumption].
    exfalso. apply (ec_fresh _ _ _ _ _ _ _ _ _ _ _ D pc v HpcR Hv). destruct (own_facts q Hq) as [Of _]. cbn in Hp. congruence.
Qed.

Lemma copy_step C need k l e pn pte : copied_upto C need k l e → 0 ≤ pn < UVPN → pn ≠ utemp → ¬ C pn → 1 ≤ need →
  pte_of m0 pd pn = Some pte → ctrue (Z.land pte PTE_U) = true →
  ∃ k' l' e', (push ;; duppage envid (pn * PGSIZE)) (set_uk k s0) = Ret tt (set_uk k' s0) ∧
    copied_upto (λ v, C v ∨ v = pn) (need - 1) k' l' e'.
Proof using All.
  intros H' Hpn Hnt Hnc Hneed Hpte HU. destruct loop_pd as [HpdR Hne]. destruct (vpn_idx pn Hpn) as [Hpi _].
  destruct (copied_push C need k l e H') as (k1 & E1 & H & _). rewrite (bind_Ret _ _ _ _ _ E1). clear k E1 H'. destruct (cu_ready _ _ _ _ _ H) as [x Rd].
  assert (pte_of (phys (kpm k1)) pd pn = Some pte) as Hpte' by (rewrite (cu_rest _ _ _ _ _ H) by auto; exact Hpte).
  assert (page_of m0 pd pn = Some (frame_of pte)) as Hpg by (unfold page_of; rewrite Hpte; reflexivity).
  pose proof (cu_room _ _ _ _ _ H) as Hroom. pose proof (missing_le (phys (kpm k1)) pc) as Hml.
  assert (Z.of_nat (new_table (phys (kpm k1)) pc (pn / 1024)) ≤ missing (phys (kpm k1)) pc) as Hmp.
  { unfold new_table. case_decide as D; [apply (missing_pos _ _ _ Hpi D)|lia]. }
  destruct l as [|q l]; [cbn [length] in Hroom; lia|]. cbn [length] in Hroom.
  pose proof (ki_vm _ _ _ _ _ (ut_kinv _ _ _ _ _ _ _ _ (rd_state _ _ _ _ _ _ _ _ _ _ Rd))) as Hvm.
  assert (0 ≤ q < 65536) as Hqb by (pose proof (page_inv_free_bound _ _ q (vm_pages _ _ _ _ Hvm) (list_elem_of_here _ _)); pose proof (vm_npages _ _ _ _ Hvm); lia).
  destruct (eager_duppage uframe entry spill fn sp lo hi Hcs SU Hsp s0 k1 q l R x c i e pd spte envid j ej pc pn pte Rd (copied_child _ _ _ _ _ H) Hpc HpcR Hne
    Hpn Hnt Hsu Hpte' HU ltac:(lia)) as (k' & l' & e' & E & Rd' & Hd & Ho & D).
  exists k', l', e'. split; [exact E|]. split.
  - eauto.
  - eapply same_env_data_trans; [apply H|exact Hd].
  - intros j' Hj'. rewrite Ho by exact Hj'. apply H, Hj'.
  - intros v Hv Hc. destruct (decide (v = pn)) as [->|Hvn].
    + exists pte, q. split; [exact Hqb|]. split; [exact Hpte|]. split; [rewrite (ec_pte _ _ _ _ _ _ _ _ _ _ _ D), decide_False, decide_True by (assumption || auto || tauto); reflexivity|]. split.
      * intros o Ho' HnB. rewrite (ec_page _ _ _ _ _ _ _ _ _ _ _ D) by assumption.
        apply (cu_data _ _ _ _ _ H pd pn (frame_of pte)); auto. apply page_byte, Ho'.
      * intros pd' v' Hpd' Hv' Hp. unfold page_of in Hp. rewrite (ec_pte _ _ _ _ _ _ _ _ _ _ _ D) in Hp by assumption.
        case_decide; [discriminate|]. case_decide; [assumption|]. destruct (ec_fresh _ _ _ _ _ _ _ _ _ _ _ D pd' v' Hpd' Hv' Hp).
    + eapply copy_kept; try eassumption. apply H; [exact Hv|]. destruct Hc; [assumption|contradiction].
  - intros v Hv Hc. rewrite (ec_pte _ _ _ _ _ _ _ _ _ _ _ D), !decide_False by (assumption || tauto || (intros [F _]; contradiction)). apply H; tauto.
  - intros pd' v Hpd' Hnp Hv. rewrite (ec_pte _ _ _ _ _ _ _ _ _ _ _ D) by assumption. case_decide as D1; [destruct D1 as [-> ->]; symmetry; exact Htemp|].
    rewrite decide_False by tauto. apply H; assumption.
  - intros pd' v q' b Hpd' Hnp Hv Hq' Hb HnB. rewrite <- (cu_data _ _ _ _ _ H pd' v q' b) by assumption.
    assert (page_of (phys (kpm k1)) pd' v = Some q') as Hq2 by (unfold page_of; rewrite (cu_rest _ _ _ _ _ H) by assumption; exact Hq').
    destruct (ec_others _ _ _ _ _ _ _ _ _ _ _ D pd' v q' Hpd' Hv) as [_ G]; [| |exact Hq2|apply G; assumption].
    + intros [[F _]|[-> ->]]; [contradiction|]. unfold page_of, m0 in Hq'. rewrite Htemp in Hq'. discriminate.
    + intros ->. exact (ec_fresh _ _ _ _ _ _ _ _ _ _ _ D pd' v Hpd' Hv Hq2).
  - pose proof (ec_room _ _ _ _ _ _ _ _ _ _ _ D) as G. unfold new_table at 1. rewrite decide_False by apply (ec_temp _ _ _ _ _ _ _ _ _ _ _ D).
    assert (missing (phys (kpm k')) pc + Z.of_nat (new_table (phys (kpm k1)) pc (pn / 1024)) ≤ missing (phys (kpm k1)) pc); [|lia].
    apply missing_grow; [exact Hpi| |apply D]. apply pte_table. rewrite (ec_pte _ _ _ _ _ _ _ _ _ _ _ D), decide_False, decide_True by (assumption || auto || tauto). discriminate.
Qed.

Lemma text_loop n : 0 ≤ n → utext + n ≤ UVPN → (∀ v, in_text n v → user_page m0 pd v) → n + 1 + UPDX + 1 ≤ Z.of_nat (length l0) →
  ∃ k l e, for_range (Z.to_nat n) UTEXT PGSIZE (λ addr, push ;; duppage envid addr) s0 = Ret tt (set_uk k s0) ∧ copied_upto (in_text n) 1 k l e.
Proof using All.
  intros Hn Hnv Hpages Hl. assert (utext = 2048 ∧ utemp = 1024) as [Et Em] by (split; reflexivity).
  destruct (for_range_inv (λ a s, ∃ a' k l e, a = (utext + a') * PGSIZE ∧ s = set_uk k s0 ∧ copied_upto (in_text a') (n + 1 - a') k l e)
    (λ addr, push ;; duppage envid addr) PGSIZE (Z.to_nat n) UTEXT s0) as (s' & E & a' & k & l & e & En & -> & H).
  - exists 0, (uk s0), l0, e0. split; [reflexivity|]. split; [destruct s0; reflexivity|].
    eapply copied_ext; [|apply copied_start; lia]. intros v. unfold in_text. lia.
  - intros a s Ha (a' & k & l & e & En & -> & H). assert (a' = a) as -> by (change UTEXT with (utext * PGSIZE) in En; unfold PGSIZE in En; lia).
    destruct (Hpages (utext + a)) as (pte & Hpte & HU); [unfold in_text; lia|].
    destruct (copy_step _ _ k l e (utext + a) pte H ltac:(lia) ltac:(lia) ltac:(unfold in_text; lia) ltac:(lia) Hpte HU) as (k' & l' & e' & E & H').
    exists (set_uk k' s0). rewrite En. split; [exact E|]. exists (a + 1), k', l', e'. split; [change UTEXT with (utext * PGSIZE); lia|]. split; [reflexivity|].
    replace (n + 1 - (a + 1)) with (n + 1 - a - 1) by lia. eapply copied_ext; [|exact H']. intros v. cbv beta. unfold in_text. lia.
  - exists k, l, e. split; [exact E|]. rewrite Z2Nat.id in En by exact Hn.
    assert (a' = n) as -> by (change UTEXT with (utext * PGSIZE) in En; unfold PGSIZE in En; lia). replace 1 with (n + 1 - n) by lia. exact H.
Qed.
End loop.

(** * The property *)

(** Memory [m'] after dumbfork from memory [m], of which the pages [C] were
    copied to the child; the bytes [B] are those of the stack where the parent
    has stored. *)
Record dumbforked (B : Z → Prop) (m m' : mem) (R : list Z) (pd pc : Z) (C : Z → Prop) : Prop := {
  df_copy : ∀ v, 0 ≤ v < UVPN → C v → private_copy B m (pc :: R) pd pc m' v;
  df_else : ∀ v, 0 ≤ v < UVPN → ¬ C v → pte_of m' pc v = None;
  df_rest : ∀ pd' v, pd' ∈ R → 0 ≤ v < UVPN → pte_of m' pd' v = pte_of m pd' v;
  df_data : ∀ pd' v q b, pd' ∈ R → 0 ≤ v < UVPN → page_of m pd' v = Some q → b / PGSIZE = q → ¬ B b → ld8 m' b = ld8 m b
}.

(** The child: no handler of the parent is its own. *)
Record dumb_child (uframe : Trapframe) (e : Env) (envid j pc : Z) (ec : Env) : Prop := {
  dc_id : env_id ec = envid ∧ ENVX envid = j ∧ 0 < envid < 2 ^ 31;
  dc_parent : env_parent_id ec = env_id e;
  dc_status : env_status ec = ENV_RUNNABLE;
  dc_pgdir : env_pgdir ec = kva_of pc;
  dc_tf : let tf := exofork_frame uframe in env_tf ec = set_tf_regs (set_reg_eax 0 (tf_regs tf)) tf;
  dc_upcalls : env_upcalls ec = λ _, 0
}.

Lemma dumb_child_intro uframe e envid j pc child : let tf := exofork_frame uframe in
  env_pgdir child = kva_of pc → env_parent_id child = env_id e → env_id child = envid → ENVX envid = j → 0 < envid < 2 ^ 31 →
  env_tf child = set_tf_regs (set_reg_eax 0 (tf_regs tf)) tf → (env_upcalls child = λ _, 0) →
  dumb_child uframe e envid j pc (set_env_status ENV_RUNNABLE child).
Proof. intros tf E1 E2 E3 E4 E5 E6 E7. split; auto. Qed.

Section dumbfork.
Context (uframe : Trapframe) (entry : upcall → Z) (spill : us → list (Z * Z)) (fn sp lo hi : Z).
Context (Hcs : Z.land (tf_cs uframe) 3 = 3) (SU : stack_use uframe spill sp lo hi) (Hsp : 0 ≤ sp < UVPN).
Local Notation push := (push uframe entry spill fn).
Local Notation duppage := (duppage uframe entry spill fn).

(** From the state in which the child is there with an empty address space. *)
Lemma dumbfork_body s l R x c i e pd envid j ej pc n spte : ready sp (uk s) l R x c i e pd spte →
  child_of (uk s) i e envid j ej → env_pgdir ej = kva_of pc → pc ∈ R →
  (∀ v, 0 ≤ v < UVPN → pte_of (phys (kpm (uk s))) pc v = None) → pte_of (phys (kpm (uk s))) pd utemp = None →
  0 ≤ n → utext + n ≤ sp → (∀ v, in_text n v ∨ v = sp → user_page (phys (kpm (uk s))) pd v) → n + UPDX + 2 ≤ Z.of_nat (length l) →
  ∃ k' l' e', (for_range (Z.to_nat n) UTEXT PGSIZE (λ addr, push ;; duppage envid addr) ;; push ;; duppage envid (sp * PGSIZE) ;; push ;;
      r ← UserLib.sys_env_set_status uframe envid ENV_RUNNABLE; when (r <? 0) (panic "sys_env_set_status: %e") ;; mret envid) s
      = Ret envid (set_uk k' s) ∧
    (∃ x', ustate k' l' R x' c i e' pd) ∧ envs k' !! j = Some (set_env_status ENV_RUNNABLE ej) ∧
    (∀ j', j' ≠ i → j' ≠ j → envs k' !! j' = envs (uk s) !! j') ∧
    ∃ k e1, copied_upto sp lo hi s R c i e pd pc spte (λ v, in_text n v ∨ v = sp) 0 k l' e1 ∧ kpm k' = kpm k.
Proof using Hcs SU Hsp.
  intros Rd C Hpc HpcR Hempty Htemp Hn Hlow Hpages Hroom. assert (utext = 2048 ∧ utemp = 1024) as [Et Em] by (split; reflexivity).
  destruct (text_loop uframe entry spill fn sp lo hi Hcs SU Hsp ltac:(lia) s l R x c i e pd envid j ej pc spte Rd C Hpc HpcR Hempty Htemp n Hn ltac:(lia))
    as (k1 & l1 & e1 & E1 & H1); [intros v Hv; apply Hpages; auto|lia|].
  destruct (Hpages sp) as (pte & Hpte & HU); [auto|].
  destruct (copy_step uframe entry spill fn sp lo hi Hcs SU Hsp ltac:(lia) s l R x c i e pd envid j ej pc spte Rd C Hpc HpcR Hempty Htemp (in_text n) 1 k1 l1 e1 sp pte H1)
    as (k2 & l2 & e2 & E2 & H2); [lia|lia|unfold in_text; lia|lia|exact Hpte|exact HU|].
  destruct (copied_push uframe entry spill fn sp lo hi SU Hsp s l R x c i e pd envid j ej pc spte Rd C Hpc HpcR _ _ k2 l2 e2 H2) as (k2' & E2' & H2' & Eenv).
  destruct (cu_ready _ _ _ _ _ _ _ _ _ _ _ _ _ _ _ _ H2') as [x2 Rd2].
  destruct (u_child_runnable uframe Hcs (set_uk k2' s) l2 R x2 c i e2 pd envid j ej (rd_state _ _ _ _ _ _ _ _ _ _ Rd2)) as (k3 & e3 & E3 & U3 & Ek3 & _ & Hj3 & Ho3 & _).
  { eapply copied_child; eassumption. }
  exists k3, l2, e3. split.
  { rewrite (bind_Ret _ _ _ _ _ E1). rewrite <- (bind_assoc push), (bind_Ret _ _ _ _ _ E2), (bind_Ret _ _ _ _ _ E2'), (bind_Ret _ _ _ _ _ E3). reflexivity. }
  split; [eauto|]. split; [exact Hj3|]. split; [|exists k2', e2; split; [exact H2'|exact Ek3]].
  intros j' Hi' Hj'. rewrite Ho3 by assumption. apply (cu_others _ _ _ _ _ _ _ _ _ _ _ _ _ _ _ _ H2'), Hi'.
Qed.
End dumbfork.

Lemma page_va_range a n : utext + n ≤ a / PGSIZE < UVPN → 0 ≤ n → u32_range a.
Proof.
  change UVPN with 977920. change utext with 2048. unfold u32_range, PGSIZE. intros H Hn.
  pose proof (Z.div_mod a 4096 ltac:(discriminate)). pose proof (Z.mod_pos_bound a 4096 eq_refl). lia.
Qed.

(** The memory before the child was created. *)
Lemma dumbforked_before sp lo hi s R c i e pd pc spte C n k l e1 m : copied_upto sp lo hi s (pc :: R) c i e pd pc spte C n k l e1 → pd ∈ R → pc ∉ R →
  (∀ pd' v, pd' ∈ R → 0 ≤ v < UVPN → pte_of (phys (kpm (uk s))) pd' v = pte_of m pd' v) →
  (∀ pd' v q b, pd' ∈ R → 0 ≤ v < UVPN → page_of m pd' v = Some q → b / PGSIZE = q → ¬ window (frame_of spte) lo hi b →
    ld8 (phys (kpm (uk s))) b = ld8 m b) →
  dumbforked (window (frame_of spte) lo hi) m (phys (kpm k)) R pd pc C.
Proof.
  intros F HpdR HpcR Hpte Hdata. assert (∀ pd', pd' ∈ R → pd' ∈ pc :: R ∧ pd' ≠ pc) as HR.
  { intros pd' H. split; [apply list_elem_of_further, H|intros ->; contradiction]. }
  split.
  - intros v Hv Hc. destruct (cu_copy _ _ _ _ _ _ _ _ _ _ _ _ _ _ _ _ F v Hv Hc) as (pte & q & Hq & E1 & E2 & E3 & E4).
    rewrite Hpte in E1 by assumption. exists pte, q. split; [exact Hq|]. split; [exact E1|]. split; [exact E2|]. split; [|exact E4].
    intros o Ho HnB. rewrite E3 by assumption. apply (Hdata pd v (frame_of pte)); [assumption..|unfold page_of; rewrite E1; reflexivity|apply page_byte, Ho|exact HnB].
  - intros v Hv Hc. apply F; assumption.
  - intros pd' v Hpd' Hv. rewrite (cu_rest _ _ _ _ _ _ _ _ _ _ _ _ _ _ _ _ F) by (assumption || apply HR, Hpd'). apply Hpte; assumption.
  - intros pd' v q b Hpd' Hv Hq Hb HnB.
    rewrite (cu_data _ _ _ _ _ _ _ _ _ _ _ _ _ _ _ _ F pd' v q) by (assumption || apply HR, Hpd' || (unfold page_of in *; rewrite Hpte by assumption; exact Hq)).
    apply (Hdata pd' v q); assumption.
Qed.

Lemma demo_parent_utemp : pte_of (phys demo_parent) 0 utemp = None.
Proof.
  destruct demo_parent_run as [l I]. rewrite (in_pte _ _ _ _ _ _ _ _ _ _ I 0 utemp (list_elem_of_here _ _) utemp_range), decide_False by (intros [_ F]; discriminate F).
  unfold pte_of. rewrite demo_fork_empty by (split; reflexivity || discriminate). reflexivity.
Qed.

(** C11. dumbfork.  If the program is mapped from UTEXT to its end, as is,
    writable, the page of its stack, on which it stores between the calls, if
    nothing is mapped at UTEMP, and there is a free environment and a free page
    for each page of the program, for its stack, the child's page directory, 955
    page tables and a table for UTEMP, then it returns the id of a new runnable
    child, which will return 0 from its sys_exofork with the other registers of
    the caller, and has no exception handler.  The child maps exactly those
    pages, each one a page of its own that nobody else maps, writable, with the
    bytes of the parent's page, except for those bytes of the stack between [lo]
    and [hi] where the parent's stores go; the parent and every other address
    space map what they did, UTEMP included, and every page that was mapped has
    its bytes, again but for those. *)
Theorem dumbfork_copies_eagerly (uframe : Trapframe) (entry : upcall → Z) (spill : us → list (Z * Z)) (fn lo hi end_ local : Z)
    (s : us) (l R : list Z) (x : Z → Z) (c : CpuInfo) (i : Z) (e : Env) (pd kp spte j : Z) (ej : Env) :
  let C := λ v, in_text (text_pages end_) v ∨ v = local / PGSIZE in
  Z.land (tf_cs uframe) 3 = 3 → stack_use uframe spill (local / PGSIZE) lo hi →
  ready (local / PGSIZE) (uk s) l R x c i e pd spte → kern_dir (kpm (uk s)) R x kp →
  env_free_list (uk s) = Some j → envs (uk s) !! j = Some ej → env_status ej = ENV_FREE → 0 ≤ j < NENV → 0 ≤ env_id ej < 2 ^ 31 →
  UTEXT ≤ end_ → utext + text_pages end_ ≤ local / PGSIZE < UVPN →
  (∀ v, C v → user_page (phys (kpm (uk s))) pd v) → pte_of (phys (kpm (uk s))) pd utemp = None →
  text_pages end_ + UPDX + 3 ≤ Z.of_nat (length l) →
  ∃ envid s' l' x' e' pc ec, dumbfork uframe entry spill fn end_ local s = Ret envid s' ∧
    ustate (uk s') l' (pc :: R) x' c i e' pd ∧ envs (uk s') !! j = Some ec ∧ dumb_child uframe e envid j pc ec ∧ envid ≠ env_id ej ∧
    (∀ j', j' ≠ i → j' ≠ j → envs (uk s') !! j' = envs (uk s) !! j') ∧
    dumbforked (window (frame_of spte) lo hi) (phys (kpm (uk s))) (phys (kpm (uk s'))) R pd pc C.
Proof.
  intros C Hcs SU Rd0 D0 Hfl Hj Hfree Hjr Hid Hend Hsp Hpages Htemp Hroom.
  assert (0 ≤ text_pages end_) as Hn by (unfold text_pages, PGSIZE; Z.div_mod_to_equations; lia).
  assert (0 ≤ local / PGSIZE < UVPN) as Hspv by (assert (0 ≤ utext) by discriminate; lia).
  destruct (ready_push uframe entry spill fn _ lo hi SU Hspv s (uk s) l R x c i e pd spte Rd0) as (ka & Ea & Eka & Rda & S). rewrite set_uk_same in Ea.
  destruct (push_same uframe spill _ lo hi SU Hspv R c i pd spte (uk s) ka l x e Rd0 S) as (Hvm & Hptea & _ & Ho).
  destruct (ready_frame uframe spill _ lo hi SU Hspv (uk s) l R x c i e pd spte Rd0) as (HfR & Hfpt & HB).
  pose proof (rd_state _ _ _ _ _ _ _ _ _ _ Rda) as Us. pose proof (ut_in _ _ _ _ _ _ _ _ Us) as HpdR.
  assert (kern_dir (kpm ka) R x kp) as D.
  { apply (kern_dir_stored _ _ _ _ R x kp HB S HfR Hfpt); [|exact D0]. intros F. apply (kd_unmapped _ _ _ _ D0 pd (local / PGSIZE) HpdR Hspv).
    unfold page_of. destruct Rd0 as [_ _ _ [-> _]]. cbn. congruence. }
  destruct l as [|pc l]; [cbn [length] in Hroom; unfold UPDX in Hroom; lia|]. cbn [length] in Hroom.
  destruct (vm_free_unused _ _ _ _ pc Hvm (list_elem_of_here _ _)) as (HpR & _ & Hpun).
  destruct (u_exofork uframe Hcs (set_uk ka s) pc l R x c i e pd j ej kp Us D ltac:(rewrite Eka; exact Hfl) ltac:(rewrite Eka; exact Hj) Hfree Hjr Hid)
    as (k2 & e2 & h & E & U2 & Hd2 & C2 & Ho2 & Hh & Ek2). cbn [uk set_uk] in *.
  destruct (setup_vm (kpm ka) l R x pc kp h Hvm (kd_bound _ _ _ _ D) (kern_dir_used _ _ _ _ _ Hvm D) (kd_low _ _ _ _ D) Hh) as (_ & Hempty & Hold & Hwd).
  destruct (blank_child_fields e (exofork_frame uframe) j pc ej) as (_ & Bpg & Bpar & Bid & Btf & Bup).
  pose proof (new_env_id (env_id e) j pc ej Hjr Hid) as (Hr & HX & Hne). rewrite <- Bid in Hr, HX, Hne.
  set (child := blank_child _ _ _ _ _) in *. clearbody child.
  assert (cr3 (kpm k2) = cr3 (kpm ka)) as Hcr by (rewrite Ek2; reflexivity). rewrite <- Ek2 in Hempty, Hold, Hwd.
  assert (pd ≠ pc) as Hnp by (intros ->; contradiction).
  assert (∀ pd' v, pd' ∈ R → 0 ≤ v < UVPN → pte_of (phys (kpm k2)) pd' v = pte_of (phys (kpm (uk s))) pd' v) as Hpte2
    by (intros; rewrite Hold, Hptea by assumption; reflexivity).
  assert (ready (local / PGSIZE) k2 l (pc :: R) x c i e2 pd spte) as Rd2.
  { destruct Rda as [_ Hc Ht [Hst H6]]. split; [exact U2|rewrite Hcr; exact Hc| |rewrite Hold by assumption; auto].
    intros i' Hi'. rewrite Hwd by (exact Hnp || apply slot_range, Hi'). apply Ht, Hi'. }
  destruct (dumbfork_body uframe entry spill fn _ lo hi Hcs SU Hspv (set_uk k2 s) l (pc :: R) x c i e2 pd (env_id child) j child pc (text_pages end_) spte Rd2 C2 Bpg
    (list_elem_of_here _ _) Hempty) as (k3 & l3 & e3 & E3 & [x3 U3] & Hj3 & Ho3 & k & e1 & F & Ek3); cbn [uk set_uk] in *.
  - rewrite Hpte2 by (exact HpdR || exact utemp_range). exact Htemp.
  - exact Hn.
  - apply Hsp.
  - intros v Hv. destruct (Hpages v Hv) as (pte & Hpte & HU). exists pte. split; [|exact HU]. rewrite Hpte2; [exact Hpte|exact HpdR|].
    assert (0 ≤ utext) by discriminate. destruct Hv as [Hv|Hv]; unfold in_text in *; lia.
  - lia.
  - exists (env_id child), (set_uk k3 s), l3, x3, e3, pc, (set_env_status ENV_RUNNABLE child).
    split; [|split; [exact U3|split; [exact Hj3|split; [apply dumb_child_intro; auto|split; [exact Hne|split]]]]].
    + unfold dumbfork. rewrite (bind_Ret _ _ _ _ _ Ea), (bind_Ret _ _ _ _ _ E), (proj2 (Z.ltb_ge (env_id child) 0)), (proj2 (Z.eqb_neq (env_id child) 0)) by lia.
      rewrite ROUNDDOWN_page; [exact E3|apply (page_va_range _ _ Hsp Hn)].
    + intros j' Hi' Hj'. cbn. rewrite Ho3, Ho2 by assumption. rewrite Eka. reflexivity.
    + cbn. rewrite Ek3. eapply dumbforked_before; [exact F|exact HpdR|exact HpR|exact Hpte2|].
      intros pd' v q b Hpd' Hv Hq Hb HnB. destruct (Ho (λ _ _, False) (-1) pd' v q Hpd' Hv (λ H, H)) as [Hqa Hba]; [|exact Hq|].
      { destruct (vm_data _ _ _ _ (ki_vm _ _ _ _ _ (ut_kinv _ _ _ _ _ _ _ _ (rd_state _ _ _ _ _ _ _ _ _ _ Rd0))) pd' v q Hpd' Hv Hq) as (? & _). lia. }
      rewrite <- Hba by assumption. apply page_ld8. intros j' Hj'. apply Hwd; [exact Hj'|]. rewrite Hb. intros ->. exact (Hpun pd' v Hpd' Hv Hqa).
Qed.

#[local] Opaque demo_parent.

(** A program without text. *)
Lemma dumbfork_copies_eagerly_witness : pte_of (phys (kpm (uk (demo_us demo_parent)))) 0 stackv = Some 0x2007 ∧
  ∃ envid s' ec pc q, dumbfork demo_stack_frame (λ _, 0x801000) demo_spill 0x800200 UTEXT (USTACKTOP - 64) (demo_us demo_parent) = Ret envid s' ∧
    envs (uk s') !! 1 = Some ec ∧ env_status ec = ENV_RUNNABLE ∧ env_pgdir ec = kva_of pc ∧
    pte_of (phys (kpm (uk s'))) 0 stackv = Some 0x2007 ∧ pte_of (phys (kpm (uk s'))) pc stackv = Some (own q) ∧
    ld8 (phys (kpm (uk s'))) (q * PGSIZE) = ld8 (phys demo_parent) 0x2000.
Proof.
  destruct demo_program as (l & [G1 G2 [G3 _] G4 _ G6] & Hl). destruct (demo_us_pm demo_parent) as (Em & _ & _ & _).
  split; [apply G6|]. destruct demo_slot1 as [H1 He1]. assert (0 ≤ stackv < UVPN) as Hv by (split; reflexivity || discriminate).
  destruct (dumbfork_copies_eagerly demo_stack_frame (λ _, 0x801000) demo_spill 0x800200 0xf00 PGSIZE UTEXT (USTACKTOP - 64) (demo_us demo_parent) l [0] (held 1 none_held)
    demo_cpu 0 (demo_env 0) 0 1 0x2007 1 (demo_env 1) eq_refl) as (envid & s' & l' & x' & e' & pc & ec & E & _ & Hec & F & _ & _ & S).
  - exact demo_stack_use.
  - split; assumption.
  - exact G2.
  - reflexivity.
  - exact He1.
  - reflexivity.
  - exact H1.
  - split; reflexivity || discriminate.
  - discriminate.
  - split; reflexivity || discriminate.
  - intros v [Hv'|Hv']; [unfold in_text in Hv'; change (text_pages UTEXT) with 0 in Hv'; lia|]. subst v. exists 0x2007. split; [apply G6|reflexivity].
  - rewrite Em. apply demo_parent_utemp.
  - change (text_pages UTEXT) with 0. lia.
  - destruct (df_copy _ _ _ _ _ _ _ S stackv Hv) as (pte & q & _ & E1 & E2 & E3 & _); [right; reflexivity|].
    destruct G6 as [G6 _]. rewrite G6 in E1. injection E1 as <-.
    exists envid, s', ec, pc, q. split; [exact E|]. split; [exact Hec|]. split; [apply F|]. split; [apply F|]. split; [|split; [exact E2|]].
    + rewrite (df_rest _ _ _ _ _ _ _ S 0 stackv (list_elem_of_here _ _) Hv). exact G6.
    + specialize (E3 0 ltac:(split; reflexivity || discriminate) ltac:(intros [F' _]; apply F'; reflexivity)). rewrite Z.add_0_r, Em in E3. exact E3.
Defined.
